(* ===== verification/_CoqProject ===== *)
-Q . S2P
Prelude.v
Bytes.v
Bits.v
Vmsa.v
RmiTypes.v
Granule.v
S2tte.v
Objects.v
Machine.v
PageTable.v
Stage1.v
Stage2.v
Measurement.v
Rtt.v
RmiGranule.v
RmiRealm.v
RmiRtt.v
RmiRec.v
Rsi.v
RsiPsci.v
RecEnter.v
Trap.v
Event.v
Frame.v
Sample.v
Invariants.v
Stage1Facts.v
Guards.v
Delegation.v
Stage2Facts.v
RttFacts.v
SampleRealm.v
RttTheorems.v
RttTree.v
RttFold.v
Ripas.v
RttDestroy.v
Attestation.v
Lifecycle.v
HesBoot.v
HesAttest.v
HesComms.v
HesSample.v
HesBootFacts.v
HesAttestFacts.v
HesCommsFacts.v
TrapFacts.v
El3.v
El3Facts.v
Gst.v
GstFacts.v
Teardown.v
Harness.v
HarnessFacts.v
Protection.v
HarnessDestroy.v
HesTools.v
HesToolsFacts.v
Sdk.v
SdkFacts.v
Switch.v
SwitchFacts.v
Stat.v
StatFacts.v
Stage1Map.v
Boot.v
BootFacts.v
RawPtr.v
RawPtrFacts.v
Console.v
ConsoleFacts.v
Tlb.v
TlbFacts.v
