(* ===== verification/Prelude.v ===== *)
(** * A verification library for the Islet Realm Management Monitor

    Islet (src/) is the firmware of Arm's Confidential Compute Architecture
    that keeps virtual machines ("realms") apart from the host that schedules
    them. Its core, the Realm Management Monitor (rmm/, with lib/vmsa and
    lib/armv9a), runs at R-EL2: the host makes RMI commands to give it physical
    pages ("granules"), to build realms, their translation tables (RTTs) and
    virtual CPUs (RECs) and to run them, and a running realm makes RSI calls.

    ** How the parts fit together

    [Monitor::run] takes a command from EL3, checks its register counts
    ([constraint::validate]), runs its handler and completes it. A handler locks
    granules of the granule status table, checks their state, reads and writes
    the objects in them, and on success changes their state. The RTT commands
    walk and update the realm's stage-2 tables, which are granules too;
    REALM_CREATE, DATA_CREATE, REC_CREATE and RTT_INIT_RIPAS extend the realm's
    initial measurement; REC_ENTER runs the realm and serves its RSI calls until
    it exits to the host.

    ** The files

    - Prelude: machine words with their wrap-around, the outcome type (Ok, Err,
      a panic, a spin on a lock this CPU holds) and the state monad [M], loops
      with a binary bound, the frame judgement [preserves] and the totality
      judgement [returns] with their tactics.
    - Bytes, Bits, Vmsa: little-endian layouts, the accessors of [define_bits!],
      alignment and page iterators (lib/armv9a, lib/vmsa).
    - RmiTypes, Granule, S2tte, Objects: constants and errors, the granule
      status table's index map and entries, stage-2 descriptors, and the
      structures [Rd], [Rec], [Params], [Run], [HostCall], metadata.
    - Machine: the state of the monitor (granule entries, memory, held locks,
      VMIDs, translations, the RMM's own page tables, return registers) and the
      class [Platform] of everything outside the sources: the EL3 firmware, the
      allocator, the cryptographic libraries, the CPU's features and what a
      realm does between entry and exit. [PlatformLaws] has what is assumed of
      them: the sizes of digests and keys, and that a key that imports signs.
    - PageTable: lib/vmsa's generic tables over the class [EntryOps], with the
      pure [walk] that [entry] is proved to follow; Stage1 and Stage2 are its
      two instances (the RMM's own address space, a realm's translation).
    - Measurement, Rtt: measurement/ and realm/mm/rtt.rs.
    - RmiGranule, RmiRealm, RmiRtt, RmiRec, RecEnter: the RMI handlers;
      Rsi, RsiPsci: the RSI handlers; Event: dispatch and the main loop.
    - Frame: for each operation, the relations between states it keeps
      (classes [Stable], [StableStatus], [StableUndelegated], [StableAnyRet],
      [StableSmc]).
    - Sample, SampleRealm: a concrete platform and a concrete realm, used by the
      witnesses.
    - Trap: event/realmexit.rs and the exception code (what a trap, an abort or
      an interrupt of a realm becomes in [Rec] and [Run]); El3: the boot-time
      exchange with EL3 (rmm_el3) that fetches the platform token and realm
      attestation key; Gst: granule/page_table, the granule status table of the
      [gst_page_table] build.
    - HesBoot, HesAttest, HesComms: hes/, the Hardware Enforced Security element
      that measures the boot, derives the platform's keys and signs its tokens,
      and the serial protocol of its host application; HesSample has concrete
      instances of its cryptographic parameters; HesTools: its command line
      tools, which print the platform's public key and a platform token.
    - Sdk: sdk/, what a realm's program calls to attest, verify and seal, in
      Rust and through the C interface. Harness: the Kani harnesses of
      model-checking/ and the firmware they emulate. Stat: stat.rs, the
      statistics of the feature [stat].
    - Switch: the world switch on registers (rec/gic.rs, timer.rs, simd.rs and
      context.rs): what is saved and restored when a REC is entered and left,
      and the lazy switch of the floating-point registers.
    - Boot: the memory layout, the mappings of the RMM made at boot
      (mm/translation.rs), the stacks of the CPUs, the EL2 registers (lib.rs,
      plat/fvp), and freeing the tables. Tlb: the TLB maintenance that the
      operations on realm tables log, as the instructions it issues.
    - RawPtr: lib/safe-abstraction, the checks before an object at an address is
      used. Console: lib/uart, lib/io and the logger.
    - The remaining files prove the properties.
      Invariants: every reachable state; locks; status registers; who can
      undelegate. Protection: the granules in the realm address space are ones
      the RMM holds, and how they enter and leave it. Guards and Stage1Facts: running a guarded handler, the RMM's
      own mappings. Delegation: granules changing hands. Stage2Facts and
      RttFacts: walks, reads after writes, live entries. RttTheorems:
      DATA_CREATE, DATA_DESTROY, unprotected mappings. RttTree, RttFold,
      RttDestroy, Ripas: RTT_CREATE, RTT_FOLD, RTT_DESTROY with
      RTT_UNMAP_UNPROTECTED, and the RIPAS commands, each against the
      translation the realm sees. Lifecycle: creating, activating and
      destroying a realm. Attestation: what the initial measurement binds, and
      that a realm receives its token whole. (A hash binds what it is computed
      from unless two strings that were hashed have the same digest: the binding
      theorems name the strings, and assume nothing of the hash.) HesBootFacts, HesAttestFacts,
      HesCommsFacts: the measurement log, key derivation and tokens, framing.
      El3Facts: the chain from measured boot to the token a realm reads, across
      the HES, EL3 and the RMM. TrapFacts: that REC_ENTER acts on the trap
      that ended the run of a realm, and how trapped register accesses are
      emulated. GstFacts: the page-table granule status refines the flat table,
      but for running out of memory. Teardown: destroying a realm and a REC.
      HarnessFacts: which assertions of the harnesses hold of the handlers, and
      that no sequence of delegations makes the RMM panic;
      HarnessDestroy: the two that assert on objects already wiped.
      HesToolsFacts: the tools compute what the service answers. SdkFacts:
      sealed data follows the identity of the realm, from the SDK through the
      RMM's handler; what the C interface does on every error. SwitchFacts: each REC and
      the host keep their registers over every interleaving, for realms without
      SVE. StatFacts: the counters are those of the log of measured calls. Stage1Map: what the RMM's tables
      mean, as a map from page numbers to descriptors. BootFacts: the tables
      refine that map from boot on, whatever addresses the host names, and the
      guard pages of the stacks. TlbFacts: what the invalidations remove from
      the TLBs when a page is destroyed, and what they miss. RawPtrFacts: the checks on
      pointers pass, so [Machine]'s accesses are those of the sources.
      ConsoleFacts: what is logged is sent, and which flag the driver waits for.

    ** Modelling choices

    A w-bit integer is a [Z] with its wrap-around written out: the firmware is
    built with [--release], so overflow wraps and a panic aborts. An error keeps
    the writes made before it. A granule's lock is the set [locked]: taking a
    lock this CPU holds is the outcome [Hung]; the guard is dropped when its
    scope is left on any path. Memory maps a page address to its content, read
    as bytes, table words, an [Rd] or a [Rec]. The register fields of the
    [aarch64_cpu] crate are the architecture's.

    ** Bounds and fuel

    Loops over a range carry their length. [RIPAS_FUEL] (8193) exceeds the 16 *
    512 entries of the largest concatenated root table; [SET_PAGES_BOUND] (2^53)
    exceeds twice the number of pages of the address space; [REC_ENTER_BOUND]
    (2^64) bounds the calls a realm makes before it exits to the host; the HES
    key derivation is given [DERIVE_FUEL] (2) rounds, one more than it can need
    (a round that fails repeats itself for ever); the loops of the HES protocol
    are given the length of the input they consume; the wait of the UART driver
    is given a parameter, and TLB invalidations page by page [TLBI_BOUND] (2^53)
    steps, more than there are pages. Running out is the outcome
    [Hung], which no theorem takes for a result; the judgement [halts], used in
    Ripas, and the termination theorems of HesAttestFacts and HesCommsFacts show
    that the fuel is enough.

    ** Not modelled

    Concurrent CPUs (each command runs alone, so lock contention does not
    appear), the assembly of the exception vectors and of the entry points (what
    a realm does between entry and exit is the parameter [realm_run] in
    RecEnter; Switch has the part of the context switch written in Rust), barriers
    and cache maintenance, the allocator (a parameter), formatting of text, the
    SDK's build script and the example programs. *)

From stdpp Require Export base tactics option list gmap fin_maps numbers functions.
From Stdlib Require Export ZArith Lia.

#[export] Set Default Goal Selector "!".

Declare Scope islet_scope.
Delimit Scope islet_scope with islet.
Open Scope Z_scope.

(** ** Machine words

    [usize] and [u64] are 64-bit on the only target (aarch64), and the firmware
    is built with [cargo build --release] (scripts/fvp-cca), so arithmetic
    wraps: the wrap-around is written out. *)
Module Word.
Definition modulus : Z := 2 ^ 64.
Definition wrap (x : Z) : Z := x mod modulus.
Definition add (x y : Z) : Z := wrap (x + y).
Definition sub (x y : Z) : Z := wrap (x - y).
Definition mul (x y : Z) : Z := wrap (x * y).
Definition shl (x n : Z) : Z := wrap (Z.shiftl x n).
(** [!x] on u64. *)
Definition not (x : Z) : Z := Z.lxor x (Z.ones 64).
Definition in_range (x : Z) : Prop := 0 <= x < modulus.

Fixpoint pos_trailing_zeros (p : positive) : Z :=
  match p with
  | xO p' => 1 + pos_trailing_zeros p'
  | _ => 0
  end.
(** [u64::trailing_zeros]; 64 on zero. *)
Definition trailing_zeros (x : Z) : Z :=
  match x with
  | Zpos p => pos_trailing_zeros p
  | _ => 64
  end.

Lemma wrap_small x : in_range x -> wrap x = x.
Proof. apply Z.mod_small. Qed.

Lemma wrap_range x : in_range (wrap x).
Proof. apply Z.mod_pos_bound. done. Qed.

Lemma add_small x y : 0 <= x -> 0 <= y -> x + y < modulus -> add x y = x + y.
Proof. intros. apply wrap_small. unfold in_range. lia. Qed.

Lemma sub_small x y : 0 <= y <= x -> x < modulus -> sub x y = x - y.
Proof. intros. apply wrap_small. unfold in_range. lia. Qed.

Lemma mul_small x y : 0 <= x * y < modulus -> mul x y = x * y.
Proof. apply wrap_small. Qed.

Lemma testbit_high x i : in_range x -> 64 <= i -> Z.testbit x i = false.
Proof.
  intros [H0 H1] Hi. destruct (decide (x = 0)) as [->|]; [apply Z.bits_0|].
  apply Z.bits_above_log2; [done|].
  enough (Z.log2 x < 64) by lia. apply Z.log2_lt_pow2; [lia|done].
Qed.

Lemma not_spec x i : 0 <= i < 64 -> Z.testbit (not x) i = negb (Z.testbit x i).
Proof.
  intros Hi. unfold not. rewrite Z.lxor_spec, Z.ones_spec_low by lia.
  by destruct (Z.testbit x i).
Qed.

(** Masking with the complement of [2^n - 1] clears the low [n] bits. *)
Lemma land_not_ones x n :
  in_range x -> 0 <= n < 64 ->
  Z.land x (not (Z.ones n)) = x - x mod 2 ^ n.
Proof.
  intros Hx Hn.
  assert (x - x mod 2 ^ n = Z.shiftl (Z.shiftr x n) n) as ->.
  { rewrite Z.shiftl_mul_pow2, Z.shiftr_div_pow2 by lia.
    pose proof (Z.div_mod x (2 ^ n) ltac:(lia)). lia. }
  apply Z.bits_inj'. intros i Hi.
  rewrite Z.land_spec, Z.shiftl_spec by lia.
  destruct (decide (64 <= i)) as [H64|H64].
  { rewrite testbit_high by done. simpl.
    rewrite Z.shiftr_spec by lia. replace (i - n + n) with i by lia.
    by rewrite testbit_high. }
  rewrite not_spec by lia. destruct (decide (i < n)).
  - rewrite Z.ones_spec_low by lia. rewrite andb_false_r.
    by rewrite Z.testbit_neg_r by lia.
  - rewrite Z.ones_spec_high by lia. rewrite andb_true_r.
    rewrite Z.shiftr_spec by lia. f_equal. lia.
Qed.

Lemma land_range x y : in_range x -> in_range (Z.land x y).
Proof.
  intros Hx. split; [apply Z.land_nonneg; left; apply Hx|].
  destruct (decide (Z.land x y = 0)) as [->|Hnz]; [done|].
  assert (0 < Z.land x y) as Hpos.
  { enough (0 <= Z.land x y) by lia. apply Z.land_nonneg. left. apply Hx. }
  apply Z.log2_lt_pow2; [done|].
  destruct (decide (Z.log2 (Z.land x y) < 64)) as [|Hge]; [done|].
  pose proof (Z.bit_log2 _ Hpos) as Hb. rewrite Z.land_spec in Hb.
  by rewrite testbit_high in Hb by (done || lia).
Qed.

Lemma lor_range x y : in_range x -> in_range y -> in_range (Z.lor x y).
Proof.
  intros Hx Hy. split; [apply Z.lor_nonneg; split; [apply Hx|apply Hy]|].
  destruct (decide (Z.lor x y = 0)) as [->|Hnz]; [done|].
  assert (0 < Z.lor x y) as Hpos.
  { enough (0 <= Z.lor x y) by lia. apply Z.lor_nonneg. split; [apply Hx|apply Hy]. }
  apply Z.log2_lt_pow2; [done|].
  destruct (decide (Z.log2 (Z.lor x y) < 64)) as [|Hge]; [done|].
  pose proof (Z.bit_log2 _ Hpos) as Hb. rewrite Z.lor_spec in Hb.
  rewrite !testbit_high in Hb by (done || lia). done.
Qed.
End Word.
#[global] Arguments Word.wrap : simpl never.
#[global] Arguments Word.add : simpl never.
#[global] Arguments Word.sub : simpl never.
#[global] Arguments Word.mul : simpl never.
#[global] Arguments Word.shl : simpl never.
#[global] Arguments Word.not : simpl never.
#[global] Arguments Word.modulus : simpl never.

(** ** Results, panics and state

    A Rust function that returns [Result<A, E>] either returns [Ok], returns
    [Err], panics ([panic = "abort"] in Cargo.toml, so a panic ends the
    firmware), or spins forever on a lock this CPU already holds. *)
Inductive outcome (E A : Type) : Type :=
| Ok (a : A)
| Err (e : E)
| Panicked
| Hung.
Arguments Ok {E A} a.
Arguments Err {E A} e.
Arguments Panicked {E A}.
Arguments Hung {E A}.

#[global] Instance outcome_ret {E} : MRet (outcome E) := fun A a => Ok a.
#[global] Instance outcome_bind {E} : MBind (outcome E) := fun A B f m =>
  match m with
  | Ok a => f a
  | Err e => Err e
  | Panicked => Panicked
  | Hung => Hung
  end.

Definition is_ok {E A} (m : outcome E A) : bool :=
  match m with Ok _ => true | _ => false end.

(** [.ok_or(e)?] *)
Definition ok_or {E A} (o : option A) (e : E) : outcome E A :=
  match o with Some a => Ok a | None => Err e end.

(** [.unwrap()] / [.expect(..)] on an [Option]. *)
Definition unwrap {E A} (o : option A) : outcome E A :=
  match o with Some a => Ok a | None => Panicked end.

Definition map_err {E F A} (f : E -> F) (m : outcome E A) : outcome F A :=
  match m with
  | Ok a => Ok a
  | Err e => Err (f e)
  | Panicked => Panicked
  | Hung => Hung
  end.

(** Stateful code: an error does not undo the writes made before it, so the
    state is returned next to the outcome on every path. *)
Definition M (S E A : Type) : Type := S -> outcome E A * S.

#[global] Instance M_ret {S E} : MRet (M S E) := fun A a s => (Ok a, s).
#[global] Instance M_bind {S E} : MBind (M S E) := fun A B f m s =>
  match m s with
  | (Ok a, s') => f a s'
  | (Err e, s') => (Err e, s')
  | (Panicked, s') => (Panicked, s')
  | (Hung, s') => (Hung, s')
  end.

Section monad_ops.
Context {S E : Type}.

Definition throw {A} (e : E) : M S E A := fun s => (Err e, s).
Definition panic {A} : M S E A := fun s => (Panicked, s).
Definition hang {A} : M S E A := fun s => (Hung, s).
Definition get_state : M S E S := fun s => (Ok s, s).
Definition gets {A} (f : S -> A) : M S E A := fun s => (Ok (f s), s).
Definition modify (f : S -> S) : M S E unit := fun s => (Ok tt, f s).
Definition lift {A} (m : outcome E A) : M S E A := fun s => (m, s).
(** [if c { return Err(e) }] *)
Definition guard_or (c : bool) (e : E) : M S E unit :=
  if c then mret tt else throw e.

(** [match m { Ok(a) => Ok(a), Err(e) => h(e) }], the state kept. *)
Definition catch {A} (m : M S E A) (h : E -> M S E A) : M S E A := fun s =>
  match m s with
  | (Err e, s') => h e s'
  | r => r
  end.

(** [r.inspect_err(|_| f)]: run [f] on an error, then return the error. *)
Definition inspect_err {A} (m : M S E A) (f : M S E unit) : M S E A :=
  catch m (fun e => f;; throw e).

(** [for i in 0..n], [n] as a nat, [i] counting up from [i0]. *)
Fixpoint for_range (n : nat) (i0 : Z) (body : Z -> M S E unit) : M S E unit :=
  match n with
  | O => mret tt
  | Datatypes.S n' => body i0;; for_range n' (i0 + 1) body
  end.

Fixpoint for_each {A} (l : list A) (body : A -> M S E unit) : M S E unit :=
  match l with
  | [] => mret tt
  | a :: l' => body a;; for_each l' body
  end.
End monad_ops.

(** [m.ok()], and [m.map_err(f)] (the conversion [?] applies). *)
Definition ok {S E F A} (m : M S E A) : M S F (option A) := fun s =>
  match m s with
  | (Ok a, s') => (Ok (Some a), s')
  | (Err _, s') => (Ok None, s')
  | (Panicked, s') => (Panicked, s')
  | (Hung, s') => (Hung, s')
  end.

Definition mapm_err {S E F A} (f : E -> F) (m : M S E A) : M S F A := fun s =>
  let '(r, s') := m s in (map_err f r, s').

(** ** Bind inversion and stepping *)
Section monad_lemmas.
Context {S E : Type}.

Lemma bind_ok {A B} (m : M S E A) (f : A -> M S E B) s a s' :
  m s = (Ok a, s') -> (m ≫= f) s = f a s'.
Proof. intros H. unfold mbind, M_bind. by rewrite H. Qed.

Lemma bind_err {A B} (m : M S E A) (f : A -> M S E B) s e s' :
  m s = (Err e, s') -> (m ≫= f) s = (Err e, s').
Proof. intros H. unfold mbind, M_bind. by rewrite H. Qed.

Lemma bind_panic {A B} (m : M S E A) (f : A -> M S E B) s s' :
  m s = (Panicked, s') -> (m ≫= f) s = (Panicked, s').
Proof. intros H. unfold mbind, M_bind. by rewrite H. Qed.

Lemma bind_lift_ok {A B} (a : A) (f : A -> M S E B) s : (lift (Ok a) ≫= f) s = f a s.
Proof. done. Qed.
Lemma bind_lift_err {A B} e (f : A -> M S E B) s : (lift (Err e) ≫= f) s = (Err e, s).
Proof. done. Qed.
Lemma bind_lift_panicked {A B} (f : A -> M S E B) s : (lift Panicked ≫= f) s = (Panicked, s).
Proof. done. Qed.
Lemma bind_gets {A B} (g : S -> A) (f : A -> M S E B) s : (gets g ≫= f) s = f (g s) s.
Proof. done. Qed.
Lemma bind_get_state {B} (f : S -> M S E B) s : (get_state ≫= f) s = f s s.
Proof. done. Qed.
Lemma bind_mret {A B} (a : A) (f : A -> M S E B) s : (mret a ≫= f) s = f a s.
Proof. done. Qed.
Lemma bind_modify {B} (g : S -> S) (f : unit -> M S E B) s : (modify g ≫= f) s = f tt (g s).
Proof. done. Qed.
Lemma bind_throw {A B} e (f : A -> M S E B) s : (throw e ≫= f) s = (Err e, s).
Proof. done. Qed.
Lemma bind_assoc {A B C} (m : M S E A) (f : A -> M S E B) (g : B -> M S E C) s :
  ((m ≫= f) ≫= g) s = (m ≫= fun a => f a ≫= g) s.
Proof. unfold mbind, M_bind. by destruct (m s) as [[]]. Qed.

Lemma bind_ok_inv {A B} (m : M S E A) (f : A -> M S E B) s b s'' :
  (m ≫= f) s = (Ok b, s'') -> exists a s', m s = (Ok a, s') /\ f a s' = (Ok b, s'').
Proof.
  unfold mbind, M_bind. destruct (m s) as [[a|e| |] s']; intros; simplify_eq.
  by exists a, s'.
Qed.

Lemma guard_ok_inv c (e : E) (s s' : S) u :
  guard_or c e s = (Ok u, s') -> c = true /\ s' = s.
Proof. unfold guard_or. destruct c; intros H; [by inversion H|inversion H]. Qed.
End monad_lemmas.

Create Rewrite HintDb mstep.
#[export] Hint Rewrite @bind_lift_ok @bind_lift_err @bind_lift_panicked @bind_gets
  @bind_get_state @bind_mret @bind_modify @bind_throw @bind_assoc : mstep.
(** Run the leading deterministic steps of a monadic computation. *)
Ltac mstep := repeat (progress (autorewrite with mstep; cbv beta)).

(** ** Loops with a large bound

    [loopM p body a] runs [body] until it returns [inr], at most [p] times. The
    bound is binary, so a bound like 2^53 is cheap: the loop leaves early. *)
Section loops.
Context {S E A B : Type} (body : A -> M S E (A + B)).

Fixpoint loopM (p : positive) (a : A) : M S E (A + B) :=
  match p with
  | xH => body a
  | xO p' => r ← loopM p' a;
             match r with inl a' => loopM p' a' | inr b => mret (inr b) end
  | xI p' => r ← body a;
             match r with
             | inl a' => r ← loopM p' a';
                         match r with inl a' => loopM p' a' | inr b => mret (inr b) end
             | inr b => mret (inr b)
             end
  end.

(** A loop that is not done within the bound does not terminate. *)
Definition loop_or_hang (p : positive) (a : A) : M S E B :=
  r ← loopM p a; match r with inr b => mret b | inl _ => hang end.

Fixpoint loopN (n : nat) (a : A) : M S E (A + B) :=
  match n with
  | O => mret (inl a)
  | Datatypes.S n' => r ← body a;
            match r with inl a' => loopN n' a' | inr b => mret (inr b) end
  end.

Lemma loopN_add n m a s :
  loopN (n + m) a s =
  (r ← loopN n a; match r with inl a' => loopN m a' | inr b => mret (inr b) end) s.
Proof.
  revert a s. induction n as [|n IH]; intros a s; [done|]. cbn [loopN Nat.add].
  unfold mbind, M_bind. by destruct (body a s) as [[[a'|b]|e| |] s'].
Qed.

Lemma loopM_loopN p a s : loopM p a s = loopN (Pos.to_nat p) a s.
Proof.
  revert a s. induction p as [p IH|p IH|]; intros a s; cbn [loopM].
  - rewrite Pos2Nat.inj_xI. replace (2 * Pos.to_nat p)%nat
      with (Pos.to_nat p + Pos.to_nat p)%nat by lia. cbn [loopN].
    unfold mbind at 1 3, M_bind at 1 3. destruct (body a s) as [[[a'|b]|e| |] s']; try done.
    rewrite loopN_add. unfold mbind, M_bind. rewrite IH.
    destruct (loopN _ a' s') as [[[]| | |]]; auto.
  - rewrite Pos2Nat.inj_xO. replace (2 * Pos.to_nat p)%nat
      with (Pos.to_nat p + Pos.to_nat p)%nat by lia.
    rewrite loopN_add. unfold mbind, M_bind. rewrite IH.
    destruct (loopN _ a s) as [[[]| | |]]; auto.
  - change (Pos.to_nat 1) with 1%nat. cbn [loopN]. unfold mbind, M_bind.
    by destruct (body a s) as [[[]| | |]].
Qed.

(** A loop that is done within [n] rounds, [n] at most the bound. *)
Lemma loop_or_hang_done p n a s b s' :
  (n <= Pos.to_nat p)%nat -> loopN n a s = (Ok (inr b), s') ->
  loop_or_hang p a s = (Ok b, s').
Proof.
  intros Hn Hl. unfold loop_or_hang, mbind, M_bind. rewrite loopM_loopN.
  replace (Pos.to_nat p) with (n + (Pos.to_nat p - n))%nat by lia.
  rewrite loopN_add. unfold mbind, M_bind. by rewrite Hl.
Qed.

Lemma loop_or_hang_err p n a s e s' :
  (n <= Pos.to_nat p)%nat -> loopN n a s = (Err e, s') ->
  loop_or_hang p a s = (Err e, s').
Proof.
  intros Hn Hl. unfold loop_or_hang, mbind, M_bind. rewrite loopM_loopN.
  replace (Pos.to_nat p) with (n + (Pos.to_nat p - n))%nat by lia.
  rewrite loopN_add. unfold mbind, M_bind. by rewrite Hl.
Qed.
End loops.

(** ** State-preservation triples

    [preserves R m]: whatever [m] returns (a value, an error or a panic), the
    state it leaves is related by [R] to the state it started from. [R] is
    assumed reflexive and transitive, so the property composes. *)
Definition preserves {S E A} (R : relation S) (m : M S E A) : Prop :=
  forall s, R s (snd (m s)).

Section preserves.
Context {S E : Type} (R : relation S) `{!PreOrder R}.

Lemma preserves_ret {A} (a : A) : preserves (E := E) R (mret a).
Proof. intros s. reflexivity. Qed.

Lemma preserves_throw {A} (e : E) : preserves (A := A) R (throw e).
Proof. intros s. reflexivity. Qed.

Lemma preserves_panic {A} : preserves (E := E) (A := A) R panic.
Proof. intros s. reflexivity. Qed.

Lemma preserves_hang {A} : preserves (E := E) (A := A) R hang.
Proof. intros s. reflexivity. Qed.

Lemma preserves_get_state : preserves (E := E) R get_state.
Proof. intros s. reflexivity. Qed.

Lemma preserves_gets {A} (f : S -> A) : preserves (E := E) R (gets f).
Proof. intros s. reflexivity. Qed.

Lemma preserves_lift {A} (m : outcome E A) : preserves R (lift m).
Proof. intros s. reflexivity. Qed.

Lemma preserves_guard c (e : E) : preserves R (guard_or c e).
Proof. intros s. unfold guard_or. by destruct c. Qed.

Lemma preserves_modify (f : S -> S) :
  (forall s, R s (f s)) -> preserves (E := E) R (modify f).
Proof. intros H s. apply H. Qed.

Lemma preserves_bind {A B} (m : M S E A) (f : A -> M S E B) :
  preserves R m -> (forall a, preserves R (f a)) -> preserves R (m ≫= f).
Proof.
  intros Hm Hf s. specialize (Hm s). unfold mbind, M_bind.
  destruct (m s) as [[a|e| |] s']; simpl in *; [|done..].
  etrans; [exact Hm|]. apply Hf.
Qed.

Lemma preserves_catch {A} (m : M S E A) h :
  preserves R m -> (forall e, preserves R (h e)) -> preserves R (catch m h).
Proof.
  intros Hm Hh s. specialize (Hm s). unfold catch.
  destruct (m s) as [[a|e| |] s']; simpl in *; [done| |done..].
  etrans; [exact Hm|]. apply Hh.
Qed.

Lemma preserves_inspect_err {A} (m : M S E A) f :
  preserves R m -> preserves R f -> preserves R (inspect_err m f).
Proof.
  intros Hm Hf. apply preserves_catch; [done|]. intros e.
  apply preserves_bind; [done|]. intros _. apply preserves_throw.
Qed.

Lemma preserves_ok {F A} (m : M S E A) : preserves R m -> preserves (E := F) R (ok m).
Proof.
  intros Hm s. specialize (Hm s). unfold ok.
  destruct (m s) as [[a|e| |] s']; exact Hm.
Qed.

Lemma preserves_mapm_err {F A} (f : E -> F) (m : M S E A) :
  preserves R m -> preserves R (mapm_err f m).
Proof. intros Hm s. specialize (Hm s). unfold mapm_err. destruct (m s). exact Hm. Qed.

Lemma preserves_for_range n i0 (body : Z -> M S E unit) :
  (forall i, preserves R (body i)) -> preserves R (for_range n i0 body).
Proof.
  intros Hb. revert i0. induction n as [|n IH]; intros i0; simpl.
  - apply preserves_ret.
  - apply preserves_bind; [apply Hb|]. intros _. apply IH.
Qed.

Lemma preserves_for_each {A} (l : list A) (body : A -> M S E unit) :
  (forall a, preserves R (body a)) -> preserves R (for_each l body).
Proof.
  intros Hb. induction l as [|a l IH]; simpl.
  - apply preserves_ret.
  - apply preserves_bind; [apply Hb|]. intros _. apply IH.
Qed.
End preserves.

Section preserves_loop.
Context {S E A B : Type} (R : relation S) `{!PreOrder R} (body : A -> M S E (A + B)).

Lemma preserves_loopM p a :
  (forall a, preserves R (body a)) -> preserves R (loopM body p a).
Proof.
  intros Hb. revert a. induction p as [p IH|p IH|]; intros a; cbn [loopM]; [| |apply Hb].
  - apply preserves_bind; [done|apply Hb|]. intros [a'|b]; [|by apply preserves_ret].
    apply preserves_bind; [done|apply IH|]. intros [|]; [apply IH|by apply preserves_ret].
  - apply preserves_bind; [done|apply IH|]. intros [|]; [apply IH|by apply preserves_ret].
Qed.

Lemma preserves_loop_or_hang p a :
  (forall a, preserves R (body a)) -> preserves R (loop_or_hang body p a).
Proof.
  intros Hb. apply preserves_bind; [done|by apply preserves_loopM|].
  intros [|]; [by apply preserves_hang|by apply preserves_ret].
Qed.
End preserves_loop.

Create HintDb islet discriminated.
#[export] Hint Resolve preserves_ret preserves_throw preserves_panic preserves_hang
  preserves_get_state preserves_gets preserves_lift preserves_guard : islet.

(** Walk a handler's body: split binds, matches and conditionals until only
    the primitives are left, and close those from the hint database. *)
Ltac preserve_step :=
  match goal with
  | |- preserves _ (_ ≫= _) => apply preserves_bind; [apply _| |intros ?]
  | |- preserves _ (catch _ _) => apply preserves_catch; [apply _| |intros ?]
  | |- preserves _ (inspect_err _ _) => apply preserves_inspect_err; [apply _| |]
  | |- preserves _ (loop_or_hang _ _ _) => apply preserves_loop_or_hang; [apply _|intros ?]
  | |- preserves _ (ok _) => apply preserves_ok
  | |- preserves _ (mapm_err _ _) => apply preserves_mapm_err
  | |- preserves _ (for_range _ _ _) => apply preserves_for_range; [apply _|intros ?]
  | |- preserves _ (for_each _ _) => apply preserves_for_each; [apply _|intros ?]
  | |- preserves _ (if ?c then _ else _) => destruct c
  | |- preserves _ (match ?x with _ => _ end) => destruct x
  end.
Ltac preserve := intros; repeat first [solve [auto with islet typeclass_instances] | preserve_step].

(** ** Totality

    [returns m]: from every state [m] returns a value or an error; it neither
    panics nor hangs. *)
Definition answered {E A} (r : outcome E A) : Prop :=
  match r with Ok _ | Err _ => True | Panicked | Hung => False end.
Definition returns {S E A} (m : M S E A) : Prop := forall s, answered (fst (m s)).

Section returns.
Context {S E : Type}.

Lemma returns_ret {A} (a : A) : returns (S := S) (E := E) (mret a).
Proof. done. Qed.
Lemma returns_throw {A} (e : E) : returns (S := S) (A := A) (throw e).
Proof. done. Qed.
Lemma returns_gets {A} (f : S -> A) : returns (E := E) (gets f).
Proof. done. Qed.
Lemma returns_modify (f : S -> S) : returns (E := E) (modify f).
Proof. done. Qed.
Lemma returns_lift {A} (r : outcome E A) : answered r -> returns (S := S) (lift r).
Proof. by intros ? ?. Qed.

Lemma returns_bind {A B} (m : M S E A) (f : A -> M S E B) :
  returns m -> (forall a, returns (f a)) -> returns (m ≫= f).
Proof.
  intros Hm Hf s. specialize (Hm s). unfold mbind, M_bind.
  destruct (m s) as [[a|e| |] s']; simpl in *; try done. apply Hf.
Qed.

Lemma returns_catch {A} (m : M S E A) (h : E -> M S E A) :
  returns m -> (forall e, returns (h e)) -> returns (catch m h).
Proof.
  intros Hm Hh s. specialize (Hm s). unfold catch.
  destruct (m s) as [[a|e| |] s']; simpl in *; try done. apply Hh.
Qed.

Lemma returns_ok {F A} (m : M S E A) : returns m -> returns (E := F) (ok m).
Proof.
  intros Hm s. specialize (Hm s). unfold ok. by destruct (m s) as [[a|e| |] s'].
Qed.

(** [ok] of code that returns is never an error. *)
Lemma ok_returns {F A} (m : M S E A) s :
  returns m -> exists o s', ok (F := F) m s = (Ok o, s').
Proof.
  intros Hm. specialize (Hm s). unfold ok.
  destruct (m s) as [[a|e| |] s']; simpl in *; try done; eauto.
Qed.
End returns.
#[export] Hint Resolve returns_ret returns_throw returns_gets returns_modify : islet.

Ltac returns_step :=
  match goal with
  | |- returns (_ ≫= _) => apply returns_bind; [|intros ?]
  | |- returns (catch _ _) => apply returns_catch; [|intros ?]
  | |- returns (ok _) => apply returns_ok
  | |- returns (if ?c then _ else _) => destruct c eqn:?
  | |- returns (match ?x with _ => _ end) => destruct x eqn:?
  end.
Ltac returns := intros; repeat first [solve [auto with islet] | returns_step].

(** [halts m]: from every state [m] ends; it may panic, but does not hang. *)
Definition halts {S E A} (m : M S E A) : Prop := forall s, fst (m s) <> Hung.

Section halts.
Context {S E : Type}.

Lemma halts_returns {A} (m : M S E A) : returns m -> halts m.
Proof. intros Hm s Hs. specialize (Hm s). by rewrite Hs in Hm. Qed.
Lemma halts_ret {A} (a : A) : halts (S := S) (E := E) (mret a).
Proof. done. Qed.
Lemma halts_throw {A} (e : E) : halts (S := S) (A := A) (throw e).
Proof. done. Qed.
Lemma halts_panic {A} : halts (S := S) (E := E) (A := A) panic.
Proof. done. Qed.
Lemma halts_gets {A} (f : S -> A) : halts (E := E) (gets f).
Proof. done. Qed.
Lemma halts_modify (f : S -> S) : halts (E := E) (modify f).
Proof. done. Qed.
Lemma halts_lift {A} (r : outcome E A) : r <> Hung -> halts (S := S) (lift r).
Proof. by intros ? ?. Qed.

Lemma halts_bind {A B} (m : M S E A) (f : A -> M S E B) :
  halts m -> (forall a, halts (f a)) -> halts (m ≫= f).
Proof.
  intros Hm Hf s. specialize (Hm s). unfold mbind, M_bind.
  destruct (m s) as [[a|e| |] s']; simpl in *; try done. apply Hf.
Qed.

Lemma halts_ok {F A} (m : M S E A) : halts m -> halts (E := F) (ok m).
Proof.
  intros Hm s. specialize (Hm s). unfold ok. by destruct (m s) as [[a|e| |] s'].
Qed.
End halts.
#[export] Hint Resolve halts_ret halts_throw halts_panic halts_gets halts_modify halts_lift : islet.

Ltac halts_step :=
  match goal with
  | |- halts (_ ≫= _) => apply halts_bind; [|intros ?]
  | |- halts (ok _) => apply halts_ok
  | |- halts (if ?c then _ else _) => destruct c eqn:?
  | |- halts (match ?x with _ => _ end) => destruct x eqn:?
  end.
Ltac halts := intros; repeat first [solve [auto with islet] | halts_step].

(** Take apart an [= (Ok _, _)] hypothesis of a monadic computation. *)
Ltac mrun_in H :=
  repeat match type of H with
  | (_ ≫= _) _ = (Ok _, _) =>
      let a := fresh "a" in let s := fresh "s" in let H1 := fresh "Hm" in
      apply bind_ok_inv in H as (a & s & H1 & H); cbv beta in H
  | guard_or _ _ _ = (Ok _, _) => apply guard_ok_inv in H as [? ->]
  end.

(** ** Generic lemmas on lists and integers *)
Lemma land_absorb a m k : Z.land a m = a -> Z.land m k = 0 -> Z.land a k = 0.
Proof. intros <- Hk. rewrite <- Z.land_assoc, Hk. apply Z.land_0_r. Qed.

Lemma land_lor_absorb a m : Z.land a m = a -> Z.lor a m = m.
Proof.
  intros H. apply Z.bits_inj'. intros i Hi. rewrite Z.lor_spec.
  assert (Z.testbit a i = Z.testbit (Z.land a m) i) as E by by rewrite H.
  rewrite Z.land_spec in E. destruct (Z.testbit a i), (Z.testbit m i); done.
Qed.
