(* ===== verification/Bytes.v ===== *)
(** * Bytes and little-endian words

    The [#[repr(C)]] structures the RMM shares with the host or a realm are
    read from and written to pages of bytes; a byte is a [Z] in [0, 256). *)

From S2P Require Import Prelude.

(** [v.to_le_bytes()], on an [n]-byte word. *)
Fixpoint le_bytes (n : nat) (v : Z) : list Z :=
  match n with
  | O => []
  | S n' => v mod 256 :: le_bytes n' (v / 256)
  end.

Fixpoint le_value (l : list Z) : Z :=
  match l with
  | [] => 0
  | b :: l' => b + 256 * le_value l'
  end.

(** The [len] bytes at [off], and the page with [new] written at [off]. *)
Definition slice (off len : Z) (l : list Z) : list Z :=
  take (Z.to_nat len) (drop (Z.to_nat off) l).
Definition splice (off : Z) (new l : list Z) : list Z :=
  take (Z.to_nat off) l ++ new ++ drop (Z.to_nat off + length new) l.

Definition u8_at (off : Z) (l : list Z) : Z := le_value (slice off 1 l).
Definition u16_at (off : Z) (l : list Z) : Z := le_value (slice off 2 l).
Definition u32_at (off : Z) (l : list Z) : Z := le_value (slice off 4 l).
Definition u64_at (off : Z) (l : list Z) : Z := le_value (slice off 8 l).
(** [i64]: two's complement. *)
Definition i64_at (off : Z) (l : list Z) : Z :=
  let v := u64_at off l in if v <? 2 ^ 63 then v else v - 2 ^ 64.

(** [n] consecutive u64 words from [off]. *)
Fixpoint u64s_at (off : Z) (n : nat) (l : list Z) : list Z :=
  match n with
  | O => []
  | S n' => u64_at off l :: u64s_at (off + 8) n' l
  end.

Definition u64s_bytes (ws : list Z) : list Z := ws ≫= le_bytes 8.

Definition is_byte (b : Z) : Prop := 0 <= b < 256.

(** ** Lemmas *)
Lemma length_le_bytes n v : length (le_bytes n v) = n.
Proof. revert v. induction n as [|n IH]; intros v; simpl; [done|]. by rewrite IH. Qed.

Lemma le_bytes_value n v : le_value (le_bytes n v) = v mod 256 ^ Z.of_nat n.
Proof.
  revert v. induction n as [|n IH]; intros v.
  - simpl. by rewrite Z.mod_1_r.
  - cbn [le_bytes le_value]. rewrite IH, Nat2Z.inj_succ, Z.pow_succ_r by lia.
    assert (0 < 256 ^ Z.of_nat n) by (apply Z.pow_pos_nonneg; lia).
    rewrite (Z.rem_mul_r v 256 (256 ^ Z.of_nat n)) by lia. lia.
Qed.

Lemma le_bytes_forall n v : Forall is_byte (le_bytes n v).
Proof.
  revert v. induction n as [|n IH]; intros v; constructor; [|done].
  apply Z.mod_pos_bound. lia.
Qed.

Lemma le_value_bytes l : Forall is_byte l -> le_bytes (length l) (le_value l) = l.
Proof.
  induction 1 as [|b l Hb Hl IH]; [done|]. unfold is_byte in Hb.
  cbn [length le_value le_bytes].
  rewrite (Z.add_comm b), (Z.mul_comm 256), Z.add_comm, Z.mod_add by lia.
  rewrite Z.div_add by lia. rewrite Z.mod_small, Z.div_small by lia.
  by rewrite Z.add_0_l, IH.
Qed.

Lemma le_value_range l : Forall is_byte l -> 0 <= le_value l < 256 ^ Z.of_nat (length l).
Proof.
  induction 1 as [|b l Hb Hl IH]; [simpl; lia|]. unfold is_byte in Hb.
  cbn [length le_value]. rewrite Nat2Z.inj_succ, Z.pow_succ_r by lia. lia.
Qed.

Lemma length_splice off new l :
  0 <= off -> off + Z.of_nat (length new) <= Z.of_nat (length l) ->
  length (splice off new l) = length l.
Proof.
  intros H0 H1. unfold splice.
  rewrite !length_app, length_take, length_drop. lia.
Qed.

Lemma slice_splice_same off new l :
  0 <= off -> off + Z.of_nat (length new) <= Z.of_nat (length l) ->
  slice off (Z.of_nat (length new)) (splice off new l) = new.
Proof.
  intros H0 H1. unfold slice, splice.
  rewrite drop_app_ge by (rewrite length_take; lia).
  rewrite length_take, Nat.min_l by lia. rewrite Nat.sub_diag, drop_0.
  rewrite Nat2Z.id. by rewrite take_app_length.
Qed.

Lemma splice_lookup off new l i :
  0 <= off -> off + Z.of_nat (length new) <= Z.of_nat (length l) ->
  splice off new l !! i =
    if decide (Z.to_nat off <= i < Z.to_nat off + length new)%nat
    then new !! (i - Z.to_nat off)%nat else l !! i.
Proof.
  intros H0 H1. unfold splice. case_decide as Hd.
  - rewrite lookup_app_r by (rewrite length_take; lia).
    rewrite length_take, Nat.min_l by lia. by rewrite lookup_app_l by lia.
  - destruct (decide (i < Z.to_nat off)%nat).
    + rewrite lookup_app_l by (rewrite length_take; lia). by rewrite lookup_take_lt by lia.
    + rewrite lookup_app_r by (rewrite length_take; lia).
      rewrite length_take, Nat.min_l by lia. rewrite lookup_app_r by lia.
      rewrite lookup_drop. f_equal. lia.
Qed.

(** A read outside the written range is not affected. *)
Lemma slice_splice_frame off new l o len :
  0 <= off -> off + Z.of_nat (length new) <= Z.of_nat (length l) ->
  0 <= o -> o + len <= off \/ off + Z.of_nat (length new) <= o ->
  slice o len (splice off new l) = slice o len l.
Proof.
  intros H0 H1 Ho Hd. unfold slice. apply list_eq. intros i.
  destruct (decide (i < Z.to_nat len)%nat).
  - rewrite !lookup_take_lt, !lookup_drop by lia.
    rewrite splice_lookup by lia. by rewrite decide_False by lia.
  - by rewrite !lookup_take_ge by lia.
Qed.

Lemma u64_at_splice_same off v l :
  0 <= off -> off + 8 <= Z.of_nat (length l) ->
  u64_at off (splice off (le_bytes 8 v) l) = v mod 2 ^ 64.
Proof.
  intros H0 H1. unfold u64_at.
  pose proof (slice_splice_same off (le_bytes 8 v) l) as H.
  rewrite length_le_bytes in H. change (Z.of_nat 8) with 8 in H.
  rewrite H by lia. by rewrite le_bytes_value.
Qed.

Lemma length_u64s_at off n l : length (u64s_at off n l) = n.
Proof. revert off. induction n as [|n IH]; intros off; simpl; [done|]. by rewrite IH. Qed.

Lemma length_u64s_bytes ws : length (u64s_bytes ws) = (8 * length ws)%nat.
Proof.
  induction ws as [|w ws IH]; [done|]. unfold u64s_bytes in *.
  rewrite bind_cons, length_app, length_le_bytes, IH. simpl. lia.
Qed.

Lemma u64s_bytes_at pre ws post :
  Forall Word.in_range ws ->
  u64s_at (Z.of_nat (length pre)) (length ws) (pre ++ u64s_bytes ws ++ post) = ws.
Proof.
  intros Hws. revert pre. induction Hws as [|w ws Hw _ IH]; intros pre; [done|].
  cbn [length u64s_at]. unfold u64s_bytes. rewrite bind_cons. f_equal.
  - unfold u64_at, slice. rewrite Nat2Z.id, drop_app_length.
    rewrite <- app_assoc, take_app_le by (rewrite length_le_bytes; simpl; lia).
    rewrite take_ge by (rewrite length_le_bytes; simpl; lia).
    rewrite le_bytes_value. by apply Z.mod_small.
  - specialize (IH (pre ++ le_bytes 8 w)).
    rewrite length_app, length_le_bytes in IH.
    replace (Z.of_nat (length pre) + 8) with (Z.of_nat (length pre + 8)) by lia.
    rewrite <- !app_assoc in *. exact IH.
Qed.

(** The words of a list of bytes give it back. *)
Lemma u64s_at_bytes n off l :
  0 <= off -> Z.of_nat (8 * n) + off = Z.of_nat (length l) -> Forall is_byte l ->
  u64s_bytes (u64s_at off n l) = drop (Z.to_nat off) l.
Proof.
  intros Ho. revert off Ho. induction n as [|n IH]; intros off Ho Hl Hb.
  { symmetry. apply drop_ge. lia. }
  cbn [u64s_at]. unfold u64s_bytes in *. rewrite bind_cons, IH by (done || lia).
  unfold u64_at, slice.
  assert (length (take (Z.to_nat 8) (drop (Z.to_nat off) l)) = 8%nat) as H8.
  { rewrite length_take, length_drop. lia. }
  rewrite <- H8 at 1. rewrite le_value_bytes by (by apply Forall_take, Forall_drop).
  replace (Z.to_nat (off + 8)) with (Z.to_nat off + Z.to_nat 8)%nat by lia.
  rewrite <- drop_drop. apply take_drop.
Qed.
