(* ===== verification/Bits.v ===== *)
(** * Bit fields (lib/armv9a)

    The [define_mask!], [define_bitfield!] and [define_bits!] macros of
    lib/armv9a/src/macro.rs and [bits_in_reg] of lib/armv9a/src/lib.rs. A type
    declared with [define_bits!] is a newtype over u64; its accessors are the
    functions below on the raw word. *)

From S2P Require Import Prelude.

(** [define_mask!(end, beg)]: [(1 << end) - (1 << beg) + (1 << end)]. *)
Definition define_mask (hi lo : Z) : Z :=
  Z.shiftl 1 hi - Z.shiftl 1 lo + Z.shiftl 1 hi.

Definition get_masked (x mask : Z) : Z := Z.land x mask.

Definition get_masked_value (x mask : Z) : Z :=
  Z.shiftr (Z.land x mask) (Word.trailing_zeros mask).

Definition set_masked (x mask val : Z) : Z :=
  Z.lor (Z.land x (Word.not mask)) (Z.land val mask).

Definition set_masked_value (x mask val : Z) : Z :=
  Z.lor (Z.land x (Word.not mask))
        (Z.land (Word.shl val (Word.trailing_zeros mask)) mask).

Definition set_bits (x mask : Z) : Z := Z.lor x mask.

Definition clear_bits (x mask : Z) : Z := Z.land x (Word.not mask).

Definition bits_in_reg (mask val : Z) : Z :=
  Z.land (Word.shl val (Word.trailing_zeros mask)) mask.

#[global] Arguments define_mask : simpl never.
#[global] Arguments get_masked : simpl never.
#[global] Arguments get_masked_value : simpl never.
#[global] Arguments set_masked : simpl never.
#[global] Arguments set_masked_value : simpl never.
#[global] Arguments bits_in_reg : simpl never.

(** ** Masks *)
Lemma define_mask_shiftl hi lo :
  0 <= lo <= hi -> define_mask hi lo = Z.shiftl (Z.ones (hi - lo + 1)) lo.
Proof.
  intros H. unfold define_mask.
  rewrite !Z.shiftl_mul_pow2, Z.ones_equiv by lia.
  rewrite Z.mul_pred_l, <- Z.pow_add_r by lia.
  replace (hi - lo + 1 + lo) with (Z.succ hi) by lia.
  rewrite Z.pow_succ_r by lia. lia.
Qed.

Lemma define_mask_spec hi lo i :
  0 <= lo <= hi -> 0 <= i ->
  Z.testbit (define_mask hi lo) i = (lo <=? i) && (i <=? hi).
Proof.
  intros H Hi. rewrite define_mask_shiftl, Z.shiftl_spec by lia.
  destruct (Z.leb_spec lo i); simpl.
  - rewrite Z.testbit_ones_nonneg by lia.
    destruct (Z.leb_spec i hi), (Z.ltb_spec (i - lo) (hi - lo + 1)); lia.
  - by rewrite Z.testbit_neg_r by lia.
Qed.

Lemma pos_trailing_zeros_spec p :
  exists k, 0 <= k /\ Zpos p = 2 ^ Word.pos_trailing_zeros p * (2 * k + 1) /\
       0 <= Word.pos_trailing_zeros p.
Proof.
  induction p as [p IH|p IH|]; simpl Word.pos_trailing_zeros.
  - exists (Zpos p). lia.
  - destruct IH as (k & Hk & E & Hn). exists k. split_and!; [done| |lia].
    rewrite Z.pow_add_r by lia. lia.
  - exists 0. lia.
Qed.

Lemma trailing_zeros_odd n k :
  0 <= n -> 0 <= k -> Word.trailing_zeros (2 ^ n * (2 * k + 1)) = n.
Proof.
  intros Hn Hk. assert (0 < 2 ^ n) by (apply Z.pow_pos_nonneg; lia).
  destruct (2 ^ n * (2 * k + 1)) as [|p|p] eqn:E; [nia| |nia].
  simpl. destruct (pos_trailing_zeros_spec p) as (k' & Hk' & Ep & Hn').
  rewrite <- E in Ep. set (n' := Word.pos_trailing_zeros p) in *.
  destruct (Z.lt_trichotomy n n') as [Hlt|[->|Hlt]]; [exfalso| done |exfalso].
  - replace n' with (n + (n' - n)) in Ep by lia.
    rewrite Z.pow_add_r in Ep by lia.
    apply (f_equal (fun z => z / 2 ^ n)) in Ep.
    rewrite <- Z.mul_assoc in Ep.
    rewrite !(Z.mul_comm (2 ^ n)), !Z.div_mul in Ep by lia.
    replace (n' - n) with (Z.succ (n' - n - 1)) in Ep by lia.
    rewrite Z.pow_succ_r in Ep by lia. lia.
  - replace n with (n' + (n - n')) in Ep by lia.
    rewrite Z.pow_add_r in Ep by lia.
    apply (f_equal (fun z => z / 2 ^ n')) in Ep.
    rewrite <- Z.mul_assoc in Ep.
    assert (0 < 2 ^ n') by (apply Z.pow_pos_nonneg; lia).
    rewrite !(Z.mul_comm (2 ^ n')), !Z.div_mul in Ep by lia.
    replace (n - n') with (Z.succ (n - n' - 1)) in Ep by lia.
    rewrite Z.pow_succ_r in Ep by lia. lia.
Qed.

Lemma trailing_zeros_mask hi lo :
  0 <= lo <= hi -> Word.trailing_zeros (define_mask hi lo) = lo.
Proof.
  intros H. rewrite define_mask_shiftl by lia.
  rewrite Z.shiftl_mul_pow2, Z.ones_equiv, Z.mul_comm by lia.
  assert (0 < 2 ^ (hi - lo)) by (apply Z.pow_pos_nonneg; lia).
  replace (Z.pred (2 ^ (hi - lo + 1))) with (2 * (2 ^ (hi - lo) - 1) + 1).
  - apply trailing_zeros_odd; lia.
  - rewrite Z.pow_add_r by lia. lia.
Qed.

(** A field read is a division and a remainder. *)
Lemma get_masked_value_div x hi lo :
  0 <= lo <= hi ->
  get_masked_value x (define_mask hi lo) = (x / 2 ^ lo) mod 2 ^ (hi - lo + 1).
Proof.
  intros H. unfold get_masked_value. rewrite trailing_zeros_mask by done.
  rewrite define_mask_shiftl by done.
  rewrite Z.shiftr_land, Z.shiftr_shiftl_l, Z.sub_diag, Z.shiftl_0_r by lia.
  by rewrite Z.land_ones, Z.shiftr_div_pow2 by lia.
Qed.

Lemma get_masked_value_range x hi lo :
  0 <= lo <= hi -> 0 <= get_masked_value x (define_mask hi lo) < 2 ^ (hi - lo + 1).
Proof.
  intros H. rewrite get_masked_value_div by done.
  apply Z.mod_pos_bound, Z.pow_pos_nonneg; lia.
Qed.

(** ** Fields of a disjunction *)
Lemma get_masked_value_lor x y m :
  get_masked_value (Z.lor x y) m = Z.lor (get_masked_value x m) (get_masked_value y m).
Proof. unfold get_masked_value. by rewrite Z.land_lor_distr_l, Z.shiftr_lor. Qed.

Lemma get_masked_lor x y m :
  get_masked (Z.lor x y) m = Z.lor (get_masked x m) (get_masked y m).
Proof. unfold get_masked. apply Z.land_lor_distr_l. Qed.

Lemma get_masked_value_zero x m : Z.land x m = 0 -> get_masked_value x m = 0.
Proof. intros H. unfold get_masked_value. rewrite H. apply Z.shiftr_0_l. Qed.

(** Masking with the field itself loses nothing of it. *)
Lemma get_masked_value_masked x m : get_masked_value (get_masked x m) m = get_masked_value x m.
Proof. unfold get_masked_value, get_masked. by rewrite <- Z.land_assoc, Z.land_diag. Qed.

(** Nor does masking with more than the field. *)
Lemma get_masked_value_sub x m k :
  Z.land m k = k -> get_masked_value (get_masked x m) k = get_masked_value x k.
Proof. intros Hk. unfold get_masked_value, get_masked. by rewrite <- Z.land_assoc, Hk. Qed.

(** A word confined to the bits of [m] contributes nothing to a field that is
    disjoint from [m]. *)
Lemma get_masked_value_disjoint x m k :
  Z.land x m = x -> Z.land m k = 0 -> get_masked_value x k = 0.
Proof. intros Hx Hk. apply get_masked_value_zero. by eapply land_absorb. Qed.

(** ** Writing then reading a field *)
Lemma shl_mask_value val hi lo :
  0 <= lo <= hi -> hi < 64 ->
  Z.land (Word.shl val lo) (define_mask hi lo)
  = Z.shiftl (Z.land val (Z.ones (hi - lo + 1))) lo.
Proof.
  intros H Hhi. rewrite define_mask_shiftl by done.
  rewrite Z.shiftl_land. apply Z.bits_inj'. intros i Hi.
  rewrite !Z.land_spec. unfold Word.shl, Word.wrap, Word.modulus.
  destruct (decide (i < 64)).
  - by rewrite Z.mod_pow2_bits_low by lia.
  - rewrite !(Z.shiftl_spec (Z.ones _)) by lia.
    rewrite Z.ones_spec_high by lia. by rewrite !andb_false_r.
Qed.

Lemma bits_in_reg_get val hi lo :
  0 <= lo <= hi -> hi < 64 ->
  get_masked_value (bits_in_reg (define_mask hi lo) val) (define_mask hi lo)
  = val mod 2 ^ (hi - lo + 1).
Proof.
  intros H Hhi. unfold bits_in_reg, get_masked_value.
  rewrite <- Z.land_assoc, Z.land_diag, trailing_zeros_mask by done.
  rewrite shl_mask_value by done.
  rewrite Z.shiftr_shiftl_l, Z.sub_diag, Z.shiftl_0_r by lia.
  apply Z.land_ones. lia.
Qed.

Lemma bits_in_reg_confined m val : Z.land (bits_in_reg m val) m = bits_in_reg m val.
Proof. unfold bits_in_reg. by rewrite <- Z.land_assoc, Z.land_diag. Qed.

Lemma land_not_disjoint x m k :
  Word.in_range k -> Z.land m k = 0 -> Z.land (Z.land x (Word.not m)) k = Z.land x k.
Proof.
  intros Hk Hd. apply Z.bits_inj'. intros i Hi. rewrite !Z.land_spec.
  destruct (decide (i < 64)).
  - rewrite Word.not_spec by lia.
    assert (Z.testbit (Z.land m k) i = false) as E by (rewrite Hd; apply Z.bits_0).
    rewrite Z.land_spec in E.
    destruct (Z.testbit x i), (Z.testbit m i), (Z.testbit k i); done.
  - rewrite (Word.testbit_high k) by (done || lia). by rewrite !andb_false_r.
Qed.

Lemma land_not_confined x m :
  Word.in_range x -> Z.land x (Word.not m) = 0 -> Z.land x m = x.
Proof.
  intros Hx Hz. apply Z.bits_inj'. intros i Hi. rewrite Z.land_spec.
  destruct (decide (64 <= i)); [by rewrite Word.testbit_high|].
  assert (Z.testbit (Z.land x (Word.not m)) i = false) as Hb by by rewrite Hz, Z.bits_0.
  rewrite Z.land_spec, Word.not_spec in Hb by lia.
  destruct (Z.testbit x i), (Z.testbit m i); done.
Qed.

Lemma land_not_self x m : Word.in_range m -> Z.land (Z.land x (Word.not m)) m = 0.
Proof.
  intros Hm. apply Z.bits_inj'. intros i Hi. rewrite !Z.land_spec, Z.bits_0.
  destruct (decide (i < 64)).
  - rewrite Word.not_spec by lia. by destruct (Z.testbit x i), (Z.testbit m i).
  - rewrite (Word.testbit_high m) by (done || lia). by rewrite !andb_false_r.
Qed.

Lemma define_mask_range hi lo :
  0 <= lo <= hi -> hi < 64 -> Word.in_range (define_mask hi lo).
Proof.
  intros H Hhi. rewrite define_mask_shiftl by done.
  rewrite Z.shiftl_mul_pow2, Z.ones_equiv, Z.mul_pred_l, <- Z.pow_add_r by lia.
  assert (2 ^ lo <= 2 ^ (hi - lo + 1 + lo)) by (apply Z.pow_le_mono_r; lia).
  assert (2 ^ (hi - lo + 1 + lo) <= 2 ^ 64) by (apply Z.pow_le_mono_r; lia).
  assert (0 < 2 ^ lo) by (apply Z.pow_pos_nonneg; lia).
  unfold Word.in_range, Word.modulus. lia.
Qed.

Lemma get_masked_value_land_not x m k :
  Word.in_range k -> Z.land m k = 0 ->
  get_masked_value (Z.land x (Word.not m)) k = get_masked_value x k.
Proof. intros. unfold get_masked_value. by rewrite land_not_disjoint. Qed.

(** The accessor a [define_bits!] type offers round-trips: the field just
    written reads back (truncated to its width), ... *)
Lemma set_masked_value_get x val hi lo :
  0 <= lo <= hi -> hi < 64 ->
  get_masked_value (set_masked_value x (define_mask hi lo) val) (define_mask hi lo)
  = val mod 2 ^ (hi - lo + 1).
Proof.
  intros H Hhi. unfold set_masked_value. rewrite get_masked_value_lor.
  rewrite get_masked_value_zero by (by apply land_not_self, define_mask_range).
  rewrite Z.lor_0_l. by apply bits_in_reg_get.
Qed.

(** ... and every disjoint field keeps its value. *)
Lemma set_masked_value_frame x val m k :
  Word.in_range k -> Z.land m k = 0 ->
  get_masked_value (set_masked_value x m val) k = get_masked_value x k.
Proof.
  intros Hk Hd. unfold set_masked_value. rewrite get_masked_value_lor.
  rewrite (get_masked_value_disjoint (Z.land (Word.shl _ _) m) m k); [| |done].
  - rewrite Z.lor_0_r. by apply get_masked_value_land_not.
  - by rewrite <- Z.land_assoc, Z.land_diag.
Qed.

(** Field accesses are reasoned about with the lemmas above, never by
    unfolding them inside a larger goal; [vm_compute] still evaluates them. *)
#[global] Opaque define_mask get_masked_value set_masked_value bits_in_reg.
