(* ===== verification/Vmsa.v ===== *)
(** * Addresses and pages (lib/vmsa)

    lib/vmsa/src/{error,address,page,lib}.rs: error codes, alignment, page
    iteration and the index fields of a guest physical address. *)

From S2P Require Import Prelude Bits.

(** ** Errors (error.rs) *)
Inductive MmError : Set :=
| MmStateError | MmInvalidAddr | MmInvalidLevel | MmNoEntry | MmAllocFail
| MmRustError | MmUnimplemented | MmIsInUse | MmRefcountError
| MmWrongParentChild | MmSubtableError | MmErrorOthers.

#[global] Instance MmError_eq_dec : EqDecision MmError.
Proof. solve_decision. Defined.

Definition mm_error_code (e : MmError) : Z :=
  match e with
  | MmStateError => 1
  | MmInvalidAddr => 2
  | MmInvalidLevel => 11
  | MmNoEntry => 12
  | MmAllocFail => 13
  | MmRustError => 14
  | MmUnimplemented => 15
  | MmIsInUse => 16
  | MmRefcountError => 17
  | MmWrongParentChild => 18
  | MmSubtableError => 19
  | MmErrorOthers => 99
  end.

(** ** Alignment (address.rs) *)
Definition align_down (addr align : Z) : Z :=
  Z.land addr (Word.not (Word.sub align 1)).

Definition align_up (addr align : Z) : Z :=
  let align_mask := Word.sub align 1 in
  if Z.land addr align_mask =? 0 then addr
  else Word.add (Z.lor addr align_mask) 1.

(** ** Page iterators (page.rs)

    A [Page] is its address (the size is a phantom type); [PageIter] is the
    pair of the current and the last page. *)
Record PageIter : Set := mkPageIter { current : Z; last : Z }.

Definition including_address (size addr : Z) : Z := align_down addr size.

(** [Page::range]: the assertion is a panic. *)
Definition range {E} (first last : Z) : outcome E PageIter :=
  if first <=? last then Ok (mkPageIter first last) else Panicked.

Definition range_with_size {E} (size addr len : Z) : outcome E PageIter :=
  let first_page := including_address size addr in
  let last_page := including_address size (Word.sub (Word.add addr len) 1) in
  range first_page last_page.

Definition next (size : Z) (it : PageIter) : option Z * PageIter :=
  if current it <=? last it
  then (Some (current it), mkPageIter (Word.add (current it) size) (last it))
  else (None, it).

(** The pages an iterator yields within [fuel] calls of [next]; [None] when
    the iterator is not exhausted by then. *)
Fixpoint page_iter_collect (fuel : nat) (size : Z) (it : PageIter) : option (list Z) :=
  match fuel with
  | O => None
  | S fuel' =>
      match next size it with
      | (None, _) => Some []
      | (Some p, it') => (p ::.) <$> page_iter_collect fuel' size it'
      end
  end.

(** ** Guest physical address fields (lib.rs) *)
Module RawGPA.
Definition L0Index : Z := define_mask 47 39.
Definition L1Index : Z := define_mask 38 30.
Definition L2Index : Z := define_mask 29 21.
Definition L3Index : Z := define_mask 20 12.
End RawGPA.

(** ** Alignment lemmas *)
Lemma sub_one_ones n : 0 <= n < 64 -> Word.sub (2 ^ n) 1 = Z.ones n.
Proof.
  intros H. rewrite Z.ones_equiv.
  assert (0 < 2 ^ n) by (apply Z.pow_pos_nonneg; lia).
  assert (2 ^ n < 2 ^ 64) by (apply Z.pow_lt_mono_r; lia).
  rewrite Word.sub_small; unfold Word.modulus; lia.
Qed.

Lemma align_down_pow2 addr n :
  Word.in_range addr -> 0 <= n < 64 ->
  align_down addr (2 ^ n) = addr - addr mod 2 ^ n.
Proof.
  intros Ha Hn. unfold align_down. rewrite sub_one_ones by done.
  by apply Word.land_not_ones.
Qed.

Lemma align_down_id addr n :
  Word.in_range addr -> 0 <= n < 64 -> addr mod 2 ^ n = 0 ->
  align_down addr (2 ^ n) = addr.
Proof. intros Ha Hn H. rewrite align_down_pow2 by done. lia. Qed.

(** [align_down] is the greatest aligned address below. *)
Lemma align_down_greatest addr n y :
  Word.in_range addr -> 0 <= n < 64 -> (2 ^ n | y) -> y <= addr ->
  y <= align_down addr (2 ^ n) <= addr /\ (2 ^ n | align_down addr (2 ^ n)).
Proof.
  intros Ha Hn [k ->] Hy. rewrite align_down_pow2 by done.
  assert (0 < 2 ^ n) as Hp by (apply Z.pow_pos_nonneg; lia).
  pose proof (Z.mod_pos_bound addr (2 ^ n) Hp).
  pose proof (Z.div_mod addr (2 ^ n) ltac:(lia)) as E.
  split.
  - split; [|lia]. assert (k <= addr / 2 ^ n) by (apply Z.div_le_lower_bound; lia). nia.
  - exists (addr / 2 ^ n). lia.
Qed.

Lemma lor_ones_add addr n :
  0 <= n -> Z.lor addr (Z.ones n) = addr - addr mod 2 ^ n + Z.ones n.
Proof.
  intros Hn. pose proof (Z.div_mod addr (2 ^ n)) as E.
  assert (0 < 2 ^ n) as Hp by (apply Z.pow_pos_nonneg; lia).
  assert (addr - addr mod 2 ^ n = Z.shiftl (Z.shiftr addr n) n) as Hs.
  { rewrite Z.shiftl_mul_pow2, Z.shiftr_div_pow2 by lia. lia. }
  rewrite Hs. rewrite Z.add_nocarry_lxor.
  - apply Z.bits_inj'. intros i Hi.
    rewrite Z.lor_spec, Z.lxor_spec, Z.shiftl_spec by lia.
    destruct (decide (i < n)).
    + rewrite Z.ones_spec_low by lia. rewrite (Z.testbit_neg_r _ (i - n)) by lia.
      by rewrite orb_true_r.
    + rewrite Z.ones_spec_high, Z.shiftr_spec by lia.
      replace (i - n + n) with i by lia. by destruct (Z.testbit addr i).
  - apply Z.bits_inj'. intros i Hi.
    rewrite Z.land_spec, Z.shiftl_spec, Z.bits_0 by lia.
    destruct (decide (i < n)).
    + by rewrite (Z.testbit_neg_r _ (i - n)) by lia.
    + rewrite Z.ones_spec_high by lia. apply andb_false_r.
Qed.

(** ** Field lemmas *)

(** The four index fields and the page offset rebuild a 48-bit address. *)
Lemma raw_gpa_decompose addr :
  0 <= addr < 2 ^ 48 ->
  addr = get_masked_value addr RawGPA.L0Index * 2 ^ 39
       + get_masked_value addr RawGPA.L1Index * 2 ^ 30
       + get_masked_value addr RawGPA.L2Index * 2 ^ 21
       + get_masked_value addr RawGPA.L3Index * 2 ^ 12
       + addr mod 2 ^ 12.
Proof.
  intros H. unfold RawGPA.L0Index, RawGPA.L1Index, RawGPA.L2Index, RawGPA.L3Index.
  rewrite !get_masked_value_div by lia.
  change (47 - 39 + 1) with 9. change (38 - 30 + 1) with 9.
  change (29 - 21 + 1) with 9. change (20 - 12 + 1) with 9.
  Z.div_mod_to_equations. lia.
Qed.

(** A nine-bit index is inside a one-page table. *)
Lemma index_field_bound addr hi lo :
  0 <= lo -> lo <= hi < 64 -> hi - lo = 8 ->
  0 <= get_masked_value addr (define_mask hi lo) < 512.
Proof.
  intros Hlo Hhi Hw. rewrite get_masked_value_div by lia.
  replace (hi - lo + 1) with 9 by lia. change (2 ^ 9) with 512.
  apply Z.mod_pos_bound. lia.
Qed.


(** The iterator over [[first, last]] yields exactly the pages between them. *)
Lemma page_iter_collect_spec size n first :
  0 < size -> 0 <= first -> first + Z.of_nat n * size + size < Word.modulus ->
  page_iter_collect (2 + n) size (mkPageIter first (first + Z.of_nat n * size))
  = Some ((fun k => first + Z.of_nat k * size) <$> seq 0 (S n)).
Proof.
  intros Hs. set (l := first + Z.of_nat n * size).
  revert first l. induction n as [|n IH]; intros first l Hf Hm; subst l.
  - simpl. unfold next. simpl. rewrite (proj2 (Z.leb_le _ _)) by lia. simpl.
    rewrite Word.add_small by lia.
    rewrite (proj2 (Z.leb_gt _ _)) by lia. simpl. repeat f_equal. lia.
  - change (2 + S n)%nat with (S (2 + n)). cbn [page_iter_collect].
    unfold next at 1. cbn [current last].
    rewrite (proj2 (Z.leb_le _ _)) by lia. rewrite Word.add_small by lia.
    replace (first + Z.of_nat (S n) * size)
      with (first + size + Z.of_nat n * size) by lia.
    rewrite IH by lia.
    change (seq 0 (S (S n))) with (0%nat :: seq 1 (S n)). rewrite fmap_cons.
    rewrite <- (fmap_S_seq 0 (S n)), <- list_fmap_compose. simpl. f_equal.
    f_equal; [lia|]. f_equal; [lia|].
    apply list_fmap_ext. intros. unfold compose. lia.
Qed.
