(* ===== verification/RmiTypes.v ===== *)
(** * RMI and RSI constants and errors

    rmm/src/rmi/{mod,error}.rs, rmm/src/rsi/{mod,error}.rs,
    rmm/src/measurement/error.rs and rmm/src/config.rs: command numbers, return
    codes and the conversions between the error types of the layers. *)

From S2P Require Import Prelude Bits Vmsa.

Module Config.
Definition NUM_OF_CPU : Z := 8.
Definition PAGE_BITS : Z := 12.
Definition PAGE_SIZE : Z := Z.shiftl 1 PAGE_BITS.
Definition LARGE_PAGE_SIZE : Z := 1024 * 1024 * 2.
Definition HUGE_PAGE_SIZE : Z := 1024 * 1024 * 1024.
End Config.

(** ** RMI commands and return codes (rmi/mod.rs) *)
Module Rmi.
Definition VERSION : Z := 0xc4000150.
Definition GRANULE_DELEGATE : Z := 0xc4000151.
Definition GRANULE_UNDELEGATE : Z := 0xc4000152.
Definition DATA_CREATE : Z := 0xc4000153.
Definition DATA_CREATE_UNKNOWN : Z := 0xc4000154.
Definition DATA_DESTROY : Z := 0xc4000155.
Definition REALM_ACTIVATE : Z := 0xc4000157.
Definition REALM_CREATE : Z := 0xc4000158.
Definition REALM_DESTROY : Z := 0xc4000159.
Definition REC_CREATE : Z := 0xc400015a.
Definition REC_DESTROY : Z := 0xc400015b.
Definition REC_ENTER : Z := 0xc400015c.
Definition RTT_CREATE : Z := 0xc400015d.
Definition RTT_DESTROY : Z := 0xc400015e.
Definition RTT_MAP_UNPROTECTED : Z := 0xc400015f.
Definition RTT_UNMAP_UNPROTECTED : Z := 0xc4000162.
Definition RTT_READ_ENTRY : Z := 0xc4000161.
Definition PSCI_COMPLETE : Z := 0xc4000164.
Definition FEATURES : Z := 0xc4000165.
Definition RTT_FOLD : Z := 0xc4000166.
Definition REC_AUX_COUNT : Z := 0xc4000167.
Definition RTT_INIT_RIPAS : Z := 0xc4000168.
Definition RTT_SET_RIPAS : Z := 0xc4000169.
Definition ISLET_REALM_SET_METADATA : Z := 0xc7000150.

Definition REQ_COMPLETE : Z := 0xc400018f.
Definition BOOT_COMPLETE : Z := 0xc40001cf.
Definition BOOT_SUCCESS : Z := 0.
Definition NOT_SUPPORTED_YET : Z := 0xffffeeee.
Definition ABI_MAJOR_VERSION : Z := 1.
Definition ABI_MINOR_VERSION : Z := 0.
Definition HASH_ALGO_SHA256 : Z := 0.
Definition HASH_ALGO_SHA512 : Z := 1.
Definition RET_FAIL : Z := 0x100.
Definition SUCCESS : Z := 0.
Definition ERROR_INPUT : Z := 1.
Definition ERROR_REC : Z := 3.
Definition SUCCESS_REC_ENTER : Z := 4.
Definition RMI_UNASSIGNED : Z := 0.
Definition RMI_ASSIGNED : Z := 1.
Definition RMI_TABLE : Z := 2.
Definition MAX_REC_AUX_GRANULES : Z := 16.
Definition EXIT_SYNC : Z := 0.
Definition EXIT_IRQ : Z := 1.
Definition EXIT_FIQ : Z := 2.
Definition EXIT_PSCI : Z := 3.
Definition EXIT_RIPAS_CHANGE : Z := 4.
Definition EXIT_HOST_CALL : Z := 5.
Definition EXIT_SERROR : Z := 6.
End Rmi.

(** ** RSI commands and return codes (rsi/mod.rs) *)
Module Rsi.
Definition ABI_VERSION : Z := 0xc4000190.
Definition FEATURES : Z := 0xc4000191.
Definition MEASUREMENT_READ : Z := 0xc4000192.
Definition MEASUREMENT_EXTEND : Z := 0xc4000193.
Definition ATTEST_TOKEN_INIT : Z := 0xc4000194.
Definition ATTEST_TOKEN_CONTINUE : Z := 0xc4000195.
Definition REALM_CONFIG : Z := 0xc4000196.
Definition IPA_STATE_SET : Z := 0xc4000197.
Definition IPA_STATE_GET : Z := 0xc4000198.
Definition HOST_CALL : Z := 0xc4000199.
Definition SMCCC_VERSION : Z := 0x80000000.
Definition PSCI_VERSION : Z := 0x84000000.
Definition PSCI_CPU_SUSPEND : Z := 0xc4000001.
Definition PSCI_CPU_OFF : Z := 0x84000002.
Definition PSCI_CPU_ON : Z := 0xc4000003.
Definition PSCI_AFFINITY_INFO : Z := 0xc4000004.
Definition PSCI_SYSTEM_OFF : Z := 0x84000008.
Definition PSCI_SYSTEM_RESET : Z := 0x84000009.
Definition PSCI_FEATURES : Z := 0x8400000a.
Definition ISLET_REALM_SEALING_KEY : Z := 0xc7000191.

Definition SUCCESS : Z := 0.
Definition ERROR_INPUT : Z := 1.
Definition ERROR_STATE : Z := 2.
Definition INCOMPLETE : Z := 3.
Definition ABI_VERSION_MAJOR : Z := 1.
Definition ABI_VERSION_MINOR : Z := 0.
End Rsi.

(** ** Errors *)
Inductive MeasurementError : Set :=
| InvalidHashAlgorithmValue (v : Z)
| OutputBufferTooSmall.

(** rsi/error.rs *)
Inductive RsiError : Set :=
| RealmDoesNotExists
| InvalidMeasurementIndex
| RsiMeasurementError (e : MeasurementError).

Inductive InternalError : Set :=
| NotExistRealm | InternalMeasurementError | InternalInvalidMeasurementIndex.

(** rmi/error.rs *)
Inductive Error : Set :=
| RmiErrorInput
| RmiErrorRealm (index : Z)
| RmiErrorRec
| RmiErrorRtt (level : Z)
| RmiErrorInUse
| RmiErrorCount
| RmiErrorOthers (e : InternalError).

#[global] Instance InternalError_eq_dec : EqDecision InternalError.
Proof. solve_decision. Defined.
#[global] Instance Error_eq_dec : EqDecision Error.
Proof. solve_decision. Defined.

(** [impl From<Error> for usize] *)
Definition error_code (err : Error) : Z :=
  match err with
  | RmiErrorInput => 1
  | RmiErrorRealm index => Z.lor 2 (Word.shl index 8)
  | RmiErrorRec => 3
  | RmiErrorRtt level => Z.lor 4 (Word.shl level 8)
  | RmiErrorInUse => 5
  | RmiErrorCount => 6
  | RmiErrorOthers _ => 7
  end.

Definition error_of_mm (_ : MmError) : Error := RmiErrorInput.

Definition error_of_measurement (_ : MeasurementError) : Error :=
  RmiErrorOthers InternalMeasurementError.

Definition error_of_rsi (e : RsiError) : Error :=
  match e with
  | RealmDoesNotExists => RmiErrorOthers NotExistRealm
  | _ => RmiErrorOthers InternalInvalidMeasurementIndex
  end.

Definition rsi_error_of_measurement (e : MeasurementError) : RsiError :=
  RsiMeasurementError e.

(** ** Error codes *)

(** Every code is non-zero ([SUCCESS] is 0): an error cannot be read as a
    success by the host. *)
Lemma error_code_nonzero e : error_code e <> Rmi.SUCCESS.
Proof.
  assert (forall c x : Z, c <> 0 -> Z.lor c x <> 0) as H.
  { intros c x Hc Hl. by apply Z.lor_eq_0_iff in Hl as [? _]. }
  destruct e; unfold Rmi.SUCCESS; simpl; try done; by apply H.
Qed.

Lemma shl8_small v : 0 <= v < 2 ^ 56 -> Word.shl v 8 = v * 2 ^ 8.
Proof.
  intros H. unfold Word.shl. rewrite Z.shiftl_mul_pow2 by lia.
  apply Word.wrap_small. unfold Word.in_range, Word.modulus. lia.
Qed.

Lemma lor_low_byte c v : 0 <= c < 2 ^ 8 -> 0 <= v -> Z.lor c (v * 2 ^ 8) = v * 2 ^ 8 + c.
Proof.
  intros Hc Hv. assert (Z.land (v * 2 ^ 8) c = 0) as Hd.
  { apply Z.bits_inj'. intros i Hi. rewrite Z.land_spec, Z.bits_0.
    rewrite Z.mul_pow2_bits by lia. destruct (decide (i < 8)).
    - by rewrite Z.testbit_neg_r by lia.
    - rewrite (Z.bits_above_log2 c), andb_false_r; [done|lia|].
      destruct (decide (c = 0)) as [->|]; [simpl; lia|].
      assert (Z.log2 c < 8) by (apply Z.log2_lt_pow2; lia). lia. }
  rewrite Z.lor_comm, <- Z.lxor_lor by done. symmetry. by apply Z.add_nocarry_lxor.
Qed.

(** The status and the index are recovered from a code. *)
Lemma error_code_index_roundtrip e :
  match e with
  | RmiErrorRealm i => 0 <= i < 2 ^ 56 ->
      error_code e mod 2 ^ 8 = 2 /\ error_code e / 2 ^ 8 = i
  | RmiErrorRtt l => 0 <= l < 2 ^ 56 ->
      error_code e mod 2 ^ 8 = 4 /\ error_code e / 2 ^ 8 = l
  | _ => True
  end.
Proof.
  destruct e; try done; intros H; simpl error_code;
    rewrite shl8_small, lor_low_byte by lia; Z.div_mod_to_equations; lia.
Qed.
