(* ===== verification/Granule.v ===== *)
(** * The granule status table (rmm/src/granule/array)

    The array-backed table of the default build (the [gst_page_table] feature
    off): addresses of the two DRAM banks, the entry of one granule and its
    reference count. The operations that lock an entry or touch the granule's
    memory are in [Machine]. *)

From S2P Require Import Prelude Bits Vmsa RmiTypes.

Definition GRANULE_SIZE : Z := 4096.
Definition GRANULE_SHIFT : Z := 12.
Definition GRANULE_MASK : Z := Word.not (Z.shiftl 1 GRANULE_SHIFT - 1).

Record Range : Set := mkRange { start : Z; end_ : Z }.
Definition contains (r : Range) (a : Z) : bool := (start r <=? a) && (a <? end_ r).

Definition FVP_DRAM0_REGION : Range := mkRange 0x80000000 (0x80000000 + 0x7c000000).
Definition FVP_DRAM1_REGION : Range := mkRange 0x880000000 (0x880000000 + 0x80000000).
Definition FVP_DRAM1_IDX : Z :=
  (end_ FVP_DRAM0_REGION - start FVP_DRAM0_REGION) / GRANULE_SIZE.
Definition GRANULE_STATUS_TABLE_SIZE : Z := 0xfc000.

Definition validate_addr (addr : Z) : bool :=
  if negb (addr mod GRANULE_SIZE =? 0) then false
  else if negb (contains FVP_DRAM0_REGION addr || contains FVP_DRAM1_REGION addr)
  then false
  else true.

Definition granule_addr_to_index (addr : Z) : Z :=
  if contains FVP_DRAM0_REGION addr then
    (addr - start FVP_DRAM0_REGION) / GRANULE_SIZE
  else if contains FVP_DRAM1_REGION addr then
    (addr - start FVP_DRAM1_REGION) / GRANULE_SIZE + FVP_DRAM1_IDX
  else Word.modulus - 1.

(** [Granule::index_to_addr], on the index [Granule::index] recovers from the
    entry's position in the table. *)
Definition index_to_addr (idx : Z) : Z :=
  if idx <? FVP_DRAM1_IDX then start FVP_DRAM0_REGION + idx * GRANULE_SIZE
  else start FVP_DRAM1_REGION + (idx - FVP_DRAM1_IDX) * GRANULE_SIZE.

Definition is_granule_aligned (addr : Z) : bool := addr mod GRANULE_SIZE =? 0.

(** [GranuleState]: u8 constants. *)
Module GranuleState.
Definition Undelegated : Z := 0.
Definition Delegated : Z := 1.
Definition RD : Z := 2.
Definition Rec : Z := 3.
Definition RecAux : Z := 4.
Definition Data : Z := 5.
Definition RTT : Z := 6.
Definition Metadata : Z := 7.
End GranuleState.

(** [struct Granule]: the state byte and the AtomicU8 reference count. *)
Record Granule : Set := mkGranule { state : Z; ref_count : Z }.

#[global] Instance Granule_eq_dec : EqDecision Granule.
Proof. solve_decision. Defined.

Definition Granule_new : Granule := mkGranule GranuleState.Undelegated 0.

(** [fetch_add] / [fetch_sub] on an AtomicU8 wrap modulo 256. *)
Definition inc_count (g : Granule) : Granule :=
  mkGranule (state g) ((ref_count g + 1) mod 256).
Definition dec_count (g : Granule) : Granule :=
  mkGranule (state g) ((ref_count g - 1) mod 256).
Definition num_children (g : Granule) : Z := ref_count g.

(** Does [Granule::set_state] wipe the granule on [prev -> state]? *)
Definition set_state_zeroizes (prev state : Z) : bool :=
  ((prev =? GranuleState.Delegated) && (state =? GranuleState.Undelegated))
  || (state =? GranuleState.Delegated).

(** ** Addresses and indices *)
Lemma contains_spec r a : contains r a = true <-> start r <= a < end_ r.
Proof. unfold contains. rewrite andb_true_iff, Z.leb_le, Z.ltb_lt. done. Qed.

Lemma contains_false r a : contains r a = false <-> ~ (start r <= a < end_ r).
Proof. rewrite <- contains_spec. by destruct (contains r a). Qed.

Lemma validate_addr_spec addr :
  validate_addr addr = true <->
  addr mod GRANULE_SIZE = 0 /\
  (0x80000000 <= addr < 0xfc000000 \/ 0x880000000 <= addr < 0x900000000).
Proof.
  unfold validate_addr.
  destruct (Z.eqb_spec (addr mod GRANULE_SIZE) 0) as [Hm|Hm]; simpl.
  - destruct (contains FVP_DRAM0_REGION addr) eqn:H0,
             (contains FVP_DRAM1_REGION addr) eqn:H1; simpl;
      rewrite ?contains_spec, ?contains_false in *; simpl in *; split; intros; try done; lia.
  - split; [done|]. intros [? _]. done.
Qed.

Lemma index_bounds addr :
  validate_addr addr = true ->
  0 <= granule_addr_to_index addr < GRANULE_STATUS_TABLE_SIZE.
Proof.
  rewrite validate_addr_spec. intros [Hm Hr]. unfold granule_addr_to_index.
  change FVP_DRAM1_IDX with 0x7c000. unfold GRANULE_STATUS_TABLE_SIZE, GRANULE_SIZE in *.
  destruct (contains FVP_DRAM0_REGION addr) eqn:H0;
    [|destruct (contains FVP_DRAM1_REGION addr) eqn:H1];
    rewrite ?contains_spec, ?contains_false in *; simpl in *;
    Z.div_mod_to_equations; lia.
Qed.

Lemma index_to_addr_to_index addr :
  validate_addr addr = true -> index_to_addr (granule_addr_to_index addr) = addr.
Proof.
  rewrite validate_addr_spec. intros [Hm Hr].
  unfold index_to_addr, granule_addr_to_index.
  change FVP_DRAM1_IDX with 0x7c000. unfold GRANULE_SIZE in *.
  destruct (contains FVP_DRAM0_REGION addr) eqn:H0.
  - apply contains_spec in H0. simpl in *.
    rewrite (proj2 (Z.ltb_lt _ _)) by (Z.div_mod_to_equations; lia).
    Z.div_mod_to_equations; lia.
  - destruct (contains FVP_DRAM1_REGION addr) eqn:H1;
      rewrite ?contains_spec, ?contains_false in *; simpl in *; [|lia].
    rewrite (proj2 (Z.ltb_ge _ _)) by (Z.div_mod_to_equations; lia).
    Z.div_mod_to_equations; lia.
Qed.

Lemma index_to_addr_valid idx :
  0 <= idx < GRANULE_STATUS_TABLE_SIZE ->
  validate_addr (index_to_addr idx) = true /\
  granule_addr_to_index (index_to_addr idx) = idx.
Proof.
  unfold index_to_addr, granule_addr_to_index, GRANULE_STATUS_TABLE_SIZE, GRANULE_SIZE.
  change FVP_DRAM1_IDX with 0x7c000. intros H.
  destruct (Z.ltb_spec idx 0x7c000); simpl.
  - split; [apply validate_addr_spec; unfold GRANULE_SIZE; Z.div_mod_to_equations; lia|].
    rewrite (proj2 (contains_spec _ _)) by (simpl; lia).
    Z.div_mod_to_equations; lia.
  - split; [apply validate_addr_spec; unfold GRANULE_SIZE; Z.div_mod_to_equations; lia|].
    rewrite (proj2 (contains_false _ _)) by (simpl; lia).
    rewrite (proj2 (contains_spec _ _)) by (simpl; lia).
    Z.div_mod_to_equations; lia.
Qed.

Lemma granule_addr_to_index_inj a b :
  validate_addr a = true -> validate_addr b = true ->
  granule_addr_to_index a = granule_addr_to_index b -> a = b.
Proof.
  intros Ha Hb E. rewrite <- (index_to_addr_to_index a), <- (index_to_addr_to_index b) by done.
  by rewrite E.
Qed.

Lemma validate_addr_range addr :
  validate_addr addr = true -> 0 < addr < 2 ^ 48.
Proof. rewrite validate_addr_spec. lia. Qed.
