(* ===== verification/S2tte.v ===== *)
(** * Stage-2 translation table entries

    rmm/src/realm/mm/{attribute,stage2_tte,entry}.rs: the descriptor fields of a
    stage-2 entry, the predicates that read the RMM's HIPAS/RIPAS state out of
    it, and the [Entry] trait implementation used by the page-table walk. *)

From S2P Require Import Prelude Bits Vmsa RmiTypes Granule.

(** ** Attributes (attribute.rs) *)
Module shareable.
Definition NON_SHAREABLE : Z := 0.
Definition RESERVED : Z := 1.
Definition OUTER : Z := 2.
Definition INNER : Z := 3.
End shareable.
Module permission.
Definition RW : Z := 3.
Definition WO : Z := 2.
Definition RO : Z := 1.
Definition NONE : Z := 0.
End permission.
Module memattr.
Definition NORMAL_FWB : Z := 6.
Definition NORMAL : Z := 7.
Definition NORMAL_NC : Z := 5.
Definition FWB_RESERVED : Z := 4.
Definition DEVICE_NGNRE : Z := 1.
End memattr.
Module page_type.
Definition BLOCK : Z := 0.
Definition TABLE_OR_PAGE : Z := 1.
End page_type.
Module desc_type.
Definition L012_TABLE : Z := 3.
Definition L012_BLOCK : Z := 1.
Definition L3_PAGE : Z := 3.
Definition LX_INVALID : Z := 0.
End desc_type.

Definition INVALID_UNPROTECTED : Z := 0.
Module invalid_hipas.
Definition UNASSIGNED : Z := 0.
Definition ASSIGNED : Z := 1.
End invalid_hipas.
Module invalid_ripas.
Definition EMPTY : Z := 0.
Definition RAM : Z := 1.
Definition DESTROYED : Z := 2.
End invalid_ripas.

Definition RTT_MIN_BLOCK_LEVEL : Z := 2.
Definition RTT_PAGE_LEVEL : Z := 3.
Definition RTT_STRIDE : Z := GRANULE_SHIFT - 3.

(** ** Fields *)
Module S2TTE.
Definition NS : Z := define_mask 55 55.
Definition XN : Z := define_mask 54 54.
Definition CONT : Z := define_mask 52 52.
Definition ADDR_BLK_L0 : Z := define_mask 47 39.
Definition ADDR_BLK_L1 : Z := define_mask 47 30.
Definition ADDR_BLK_L2 : Z := define_mask 47 21.
Definition ADDR_BLK_L3 : Z := define_mask 47 12.
Definition ADDR_TBL_OR_PAGE : Z := define_mask 47 12.
Definition AF : Z := define_mask 10 10.
Definition SH : Z := define_mask 9 8.
Definition S2AP : Z := define_mask 7 6.
Definition INVALID_RIPAS : Z := define_mask 6 5.
Definition INVALID_HIPAS : Z := define_mask 4 2.
Definition MEMATTR : Z := define_mask 5 2.
Definition DESC_TYPE : Z := define_mask 1 0.
Definition TYPE : Z := define_mask 1 1.
Definition VALID : Z := define_mask 0 0.
End S2TTE.

(** [mapping_size]: [unreachable!()] above level 3. *)
Definition mapping_size (level : Z) : outcome Error Z :=
  if level =? 3 then Ok (Z.shiftl 1 (Word.trailing_zeros S2TTE.ADDR_BLK_L3))
  else if level =? 2 then Ok (Z.shiftl 1 (Word.trailing_zeros S2TTE.ADDR_BLK_L2))
  else if level =? 1 then Ok (Z.shiftl 1 (Word.trailing_zeros S2TTE.ADDR_BLK_L1))
  else if level =? 0 then Ok (Z.shiftl 1 (Word.trailing_zeros S2TTE.ADDR_BLK_L0))
  else Panicked.

Definition level_mask (level : Z) : option Z :=
  if level =? 3 then Some S2TTE.ADDR_BLK_L3
  else if level =? 2 then Some S2TTE.ADDR_BLK_L2
  else if level =? 1 then Some S2TTE.ADDR_BLK_L1
  else if level =? 0 then Some S2TTE.ADDR_BLK_L0
  else None.

(** ** Predicates on an entry [e] *)
Section predicates.
Variable e : Z.
Abbreviation fld m := (get_masked_value e m).

Definition is_valid (level : Z) (is_ns : bool) : bool :=
  let ns := fld S2TTE.NS in
  let ns_valid := if is_ns then ns =? 1 else ns =? 0 in
  ns_valid &&
  (((level =? RTT_PAGE_LEVEL) && (fld S2TTE.DESC_TYPE =? desc_type.L3_PAGE))
   || ((level =? RTT_MIN_BLOCK_LEVEL) && (fld S2TTE.DESC_TYPE =? desc_type.L012_BLOCK))).

Definition is_host_ns_valid (level : Z) : bool :=
  let tmp := Word.not 0 in
  let addr_mask :=
    if level =? 1 then Some (get_masked tmp S2TTE.ADDR_BLK_L1)
    else if level =? 2 then Some (get_masked tmp S2TTE.ADDR_BLK_L2)
    else if level =? 3 then Some (get_masked tmp S2TTE.ADDR_BLK_L3)
    else None in
  match addr_mask with
  | None => false
  | Some addr_mask =>
      let mask := Z.lor (Z.lor (Z.lor addr_mask (get_masked tmp S2TTE.MEMATTR))
                               (get_masked tmp S2TTE.S2AP))
                        (get_masked tmp S2TTE.SH) in
      if negb (Z.land e (Word.not mask) =? 0) then false
      else if fld S2TTE.MEMATTR =? memattr.FWB_RESERVED then false
      else if fld S2TTE.SH =? shareable.RESERVED then false
      else true
  end.

Definition is_unassigned : bool :=
  (fld S2TTE.DESC_TYPE =? desc_type.LX_INVALID)
  && (fld S2TTE.INVALID_HIPAS =? invalid_hipas.UNASSIGNED)
  && (fld S2TTE.NS =? 0).
Definition is_unassigned_empty : bool :=
  is_unassigned && (fld S2TTE.INVALID_RIPAS =? invalid_ripas.EMPTY).
Definition is_unassigned_destroyed : bool :=
  is_unassigned && (fld S2TTE.INVALID_RIPAS =? invalid_ripas.DESTROYED).
Definition is_unassigned_ram : bool :=
  is_unassigned && (fld S2TTE.INVALID_RIPAS =? invalid_ripas.RAM).
Definition is_unassigned_ns : bool :=
  (fld S2TTE.DESC_TYPE =? desc_type.LX_INVALID)
  && (fld S2TTE.INVALID_HIPAS =? invalid_hipas.UNASSIGNED)
  && negb (fld S2TTE.NS =? 0).
Definition is_destroyed : bool :=
  (fld S2TTE.DESC_TYPE =? desc_type.LX_INVALID)
  && (fld S2TTE.INVALID_RIPAS =? invalid_ripas.DESTROYED).
Definition is_assigned : bool :=
  (fld S2TTE.NS =? 0)
  && (fld S2TTE.DESC_TYPE =? desc_type.LX_INVALID)
  && (fld S2TTE.INVALID_HIPAS =? invalid_hipas.ASSIGNED).
Definition is_assigned_empty : bool :=
  is_assigned && (fld S2TTE.INVALID_RIPAS =? invalid_ripas.EMPTY).
Definition is_assigned_destroyed : bool :=
  is_assigned && (fld S2TTE.INVALID_RIPAS =? invalid_ripas.DESTROYED).

Definition is_assigned_ram (level : Z) : bool :=
  if negb (fld S2TTE.NS =? 0) then false
  else
    let d := fld S2TTE.DESC_TYPE in
    if ((level =? RTT_PAGE_LEVEL) && (d =? desc_type.L3_PAGE))
       || ((level =? RTT_MIN_BLOCK_LEVEL) && (d =? desc_type.L012_BLOCK))
    then true else false.

Definition is_assigned_ns (level : Z) : bool :=
  if fld S2TTE.NS =? 0 then false
  else
    let d := fld S2TTE.DESC_TYPE in
    if ((level =? RTT_PAGE_LEVEL) && (d =? desc_type.L3_PAGE))
       || ((level =? RTT_MIN_BLOCK_LEVEL) && (d =? desc_type.L012_BLOCK))
    then true else false.

Definition is_table (level : Z) : bool :=
  (level <? RTT_PAGE_LEVEL) && (fld S2TTE.DESC_TYPE =? desc_type.L012_TABLE).

Definition get_ripas : Z := fld S2TTE.INVALID_RIPAS.

Definition is_invalid_ripas : bool :=
  negb (fld S2TTE.DESC_TYPE =? desc_type.LX_INVALID)
  && negb (get_ripas =? invalid_ripas.RAM).

Definition addr_as_block (level : Z) : outcome Error Z :=
  if level =? 1 then Ok (get_masked e S2TTE.ADDR_BLK_L1)
  else if level =? 2 then Ok (get_masked e S2TTE.ADDR_BLK_L2)
  else if level =? 3 then Ok (get_masked e S2TTE.ADDR_BLK_L3)
  else Panicked.

Definition is_live : bool :=
  negb (fld S2TTE.DESC_TYPE =? desc_type.LX_INVALID)
  || is_assigned_empty || is_assigned_destroyed.
End predicates.

(** ** Homogeneous tables

    [is_homogeneous]: the first entry fixes the reference values, every later
    one is compared with them; [pa] advances by the mapping size. *)
Record homog : Set := mkHomog
  { h_hipas : Z; h_ripas : Z; h_desc_type : Z; h_pa : Z; h_attr : Z; h_ns : Z }.

Definition homog_first (level e : Z) : outcome Error (option homog) :=
  let d := get_masked_value e S2TTE.DESC_TYPE in
  let hipas := get_masked_value e S2TTE.INVALID_HIPAS in
  let ripas := get_masked_value e S2TTE.INVALID_RIPAS in
  let ns := get_masked_value e S2TTE.NS in
  if is_assigned_ns e level || is_assigned_ram e level || is_assigned e then
    if negb (level =? 2) && negb (level =? 3) then Ok None
    else
      pa ← addr_as_block e level;
      let attr := Z.land e (Word.not (default 0 (level_mask level))) in
      if negb (Z.land pa (Word.not (default 0 (level_mask (level - 1)))) =? 0)
      then Ok None
      else Ok (Some (mkHomog hipas ripas d pa attr ns))
  else Ok (Some (mkHomog hipas ripas d 0 0 ns)).

Definition homog_step (level map_size : Z) (h : homog) (e : Z) : outcome Error (option homog) :=
  let pa' := Word.add (h_pa h) map_size in
  let h' := mkHomog (h_hipas h) (h_ripas h) (h_desc_type h) pa' (h_attr h) (h_ns h) in
  if negb (h_desc_type h =? get_masked_value e S2TTE.DESC_TYPE) then Ok None
  else if is_assigned_ns e level then
    a ← addr_as_block e level;
    if negb (pa' =? a) then Ok None
    else if negb (h_attr h =? Z.land e (Word.not (default 0 (level_mask level))))
    then Ok None else Ok (Some h')
  else if is_assigned_ram e level || is_assigned e then
    a ← addr_as_block e level;
    if negb (pa' =? a) then Ok None
    else if negb (h_ripas h =? get_masked_value e S2TTE.INVALID_RIPAS)
    then Ok None else Ok (Some h')
  else if is_unassigned_ns e then
    if negb (h_ns h =? get_masked_value e S2TTE.NS) then Ok None
    else if negb (h_hipas h =? get_masked_value e S2TTE.INVALID_HIPAS)
    then Ok None else Ok (Some h)
  else if is_unassigned e then
    if negb (h_hipas h =? get_masked_value e S2TTE.INVALID_HIPAS) then Ok None
    else if negb (h_ripas h =? get_masked_value e S2TTE.INVALID_RIPAS)
    then Ok None else Ok (Some h)
  else Ok (Some h).

Fixpoint homog_loop (level map_size : Z) (h : homog) (es : list Z) : outcome Error bool :=
  match es with
  | [] => Ok true
  | e :: es' =>
      r ← homog_step level map_size h e;
      match r with
      | None => Ok false
      | Some h' => homog_loop level map_size h' es'
      end
  end.

Definition is_homogeneous (entries : list Z) (level : Z) : outcome Error bool :=
  map_size ← mapping_size level;
  match entries with
  | [] => Ok true
  | e :: es =>
      r ← homog_first level e;
      match r with
      | None => Ok false
      | Some h => homog_loop level map_size h es
      end
  end.

(** ** The [Entry] trait for stage 2 (entry.rs) *)
Definition entry_is_valid (e : Z) : bool :=
  negb (get_masked_value e S2TTE.VALID =? 0).

Definition entry_address (e level : Z) : option Z :=
  if entry_is_valid e then
    let ty := get_masked_value e S2TTE.TYPE in
    if ty =? page_type.TABLE_OR_PAGE then Some (get_masked e S2TTE.ADDR_TBL_OR_PAGE)
    else if ty =? page_type.BLOCK then
      if level =? 1 then Some (get_masked e S2TTE.ADDR_BLK_L1)
      else if level =? 2 then Some (get_masked e S2TTE.ADDR_BLK_L2)
      else None
    else None
  else None.

(** [Entry::set(addr, flags)]: the stored word. *)
Definition entry_set (addr flags : Z) : Z := Z.lor addr flags.

Definition entry_point_to_subtable (addr : Z) : Z :=
  let flags := set_masked_value 0 S2TTE.DESC_TYPE desc_type.L012_TABLE in
  let flags := set_masked_value flags S2TTE.MEMATTR memattr.NORMAL_FWB in
  let flags := set_masked_value flags S2TTE.SH shareable.INNER in
  entry_set addr flags.

Definition L3_NUM_ENTRIES : Z := 512.

(** [Entry::index::<L>], with [L::THIS_LEVEL] and [L::TABLE_SIZE]. *)
Definition entry_index (this_level table_size addr : Z) : outcome MmError Z :=
  if this_level =? 0 then Ok (get_masked_value addr RawGPA.L0Index)
  else if this_level =? 1 then
    if Config.PAGE_SIZE <? table_size then
      Ok (get_masked_value addr RawGPA.L0Index * L3_NUM_ENTRIES
          + get_masked_value addr RawGPA.L1Index)
    else Ok (get_masked_value addr RawGPA.L1Index)
  else if this_level =? 2 then
    if Config.PAGE_SIZE <? table_size then
      Ok (get_masked_value addr RawGPA.L1Index * L3_NUM_ENTRIES
          + get_masked_value addr RawGPA.L2Index)
    else Ok (get_masked_value addr RawGPA.L2Index)
  else if this_level =? 3 then Ok (get_masked_value addr RawGPA.L3Index)
  else Panicked.

Definition entry_points_to_table_or_page (e : Z) : bool :=
  if entry_is_valid e then
    let ty := get_masked_value e S2TTE.TYPE in
    if ty =? page_type.TABLE_OR_PAGE then true
    else if ty =? page_type.BLOCK then false else false
  else false.

(** ** Facts about fields *)

(** A page-aligned 48-bit address: nothing outside the address field. *)
Definition page_addr (pa : Z) : Prop := Z.land pa S2TTE.ADDR_TBL_OR_PAGE = pa.

Lemma page_addr_intro pa :
  0 <= pa < 2 ^ 48 -> pa mod GRANULE_SIZE = 0 -> page_addr pa.
Proof.
  intros Hr Hm. unfold page_addr, S2TTE.ADDR_TBL_OR_PAGE. apply Z.bits_inj'. intros i Hi.
  rewrite Z.land_spec, define_mask_spec by lia.
  destruct (decide (i < 12)) as [H12|H12].
  - assert (pa = (pa / 2 ^ 12) * 2 ^ 12) as ->.
    { unfold GRANULE_SIZE in Hm. change 4096 with (2 ^ 12) in Hm.
      Z.div_mod_to_equations. lia. }
    rewrite Z.mul_pow2_bits by lia. by rewrite Z.testbit_neg_r by lia.
  - destruct (decide (i <= 47)).
    + rewrite (proj2 (Z.leb_le 12 i)), (proj2 (Z.leb_le i 47)) by lia. apply andb_true_r.
    + rewrite Z.bits_above_log2; [done|lia|].
      destruct (decide (pa = 0)) as [->|]; [simpl; lia|].
      assert (Z.log2 pa < 48) by (apply Z.log2_lt_pow2; lia). lia.
Qed.

Lemma validate_addr_page_addr addr : validate_addr addr = true -> page_addr addr.
Proof.
  intros H. pose proof (validate_addr_range _ H).
  apply validate_addr_spec in H as [Hm _]. apply page_addr_intro; [lia|done].
Qed.
#[export] Hint Resolve validate_addr_page_addr : islet.

(** A field outside the address bits reads only the flags of an entry. *)
Lemma field_of_entry pa flags m :
  page_addr pa -> Z.land S2TTE.ADDR_TBL_OR_PAGE m = 0 ->
  get_masked_value (Z.lor pa flags) m = get_masked_value flags m.
Proof.
  intros Hp Hm. rewrite get_masked_value_lor.
  by rewrite (get_masked_value_disjoint pa S2TTE.ADDR_TBL_OR_PAGE m) by done.
Qed.

(** The address field reads back the address. *)
Lemma addr_of_entry pa flags :
  page_addr pa -> Z.land flags S2TTE.ADDR_TBL_OR_PAGE = 0 ->
  get_masked (Z.lor pa flags) S2TTE.ADDR_TBL_OR_PAGE = pa.
Proof. intros Hp Hf. rewrite get_masked_lor. unfold get_masked. by rewrite Hp, Hf, Z.lor_0_r. Qed.

Lemma desc_type_bits e :
  get_masked_value e S2TTE.DESC_TYPE
  = get_masked_value e S2TTE.VALID + 2 * get_masked_value e S2TTE.TYPE.
Proof.
  unfold S2TTE.DESC_TYPE, S2TTE.VALID, S2TTE.TYPE.
  rewrite !get_masked_value_div by lia. simpl Z.sub. simpl Z.add.
  change (2 ^ 0) with 1. change (2 ^ 1) with 2. change (2 ^ 2) with 4.
  Z.div_mod_to_equations. lia.
Qed.

Lemma field_bit e hi : 0 <= hi ->
  get_masked_value e (define_mask hi hi) = 0 \/ get_masked_value e (define_mask hi hi) = 1.
Proof.
  intros H. pose proof (get_masked_value_range e hi hi ltac:(lia)).
  replace (hi - hi + 1) with 1 in * by lia. lia.
Qed.

(** The walk descends exactly through the entries whose descriptor type is 3. *)
Lemma points_to_table_desc e :
  entry_points_to_table_or_page e = (get_masked_value e S2TTE.DESC_TYPE =? 3).
Proof.
  unfold entry_points_to_table_or_page, entry_is_valid. rewrite desc_type_bits.
  destruct (field_bit e 0) as [V|V], (field_bit e 1) as [T|T]; try lia;
    unfold S2TTE.VALID, S2TTE.TYPE; rewrite V, T; done.
Qed.

Lemma is_table_points e level :
  is_table e level = (level <? RTT_PAGE_LEVEL) && entry_points_to_table_or_page e.
Proof. by rewrite points_to_table_desc. Qed.

Lemma table_entry_address e level :
  entry_points_to_table_or_page e = true ->
  entry_address e level = Some (get_masked e S2TTE.ADDR_TBL_OR_PAGE).
Proof.
  unfold entry_points_to_table_or_page, entry_address.
  destruct (entry_is_valid e); [|done]. cbv zeta.
  destruct (get_masked_value e S2TTE.TYPE =? page_type.TABLE_OR_PAGE); [done|].
  by destruct (get_masked_value e S2TTE.TYPE =? page_type.BLOCK).
Qed.

(** At each level the entry states are mutually exclusive: the order of the
    tests in [read_entry], [create] and [fold] does not matter. *)
Definition entry_states (e level : Z) : list bool :=
  [is_unassigned e; is_unassigned_ns e; is_assigned e; is_table e level;
   is_assigned_ram e level; is_assigned_ns e level].

Lemma entry_states_exclusive e level :
  (length (filter (fun b => b = true) (entry_states e level)) <= 1)%nat.
Proof.
  unfold entry_states, is_unassigned, is_unassigned_ns, is_assigned, is_table,
    is_assigned_ram, is_assigned_ns, desc_type.LX_INVALID, desc_type.L012_TABLE,
    desc_type.L3_PAGE, desc_type.L012_BLOCK, invalid_hipas.UNASSIGNED,
    invalid_hipas.ASSIGNED, RTT_PAGE_LEVEL, RTT_MIN_BLOCK_LEVEL.
  generalize (get_masked_value e S2TTE.NS) (get_masked_value e S2TTE.DESC_TYPE)
    (get_masked_value e S2TTE.INVALID_HIPAS). intros ns d h.
  destruct (Z.eqb_spec ns 0), (Z.eqb_spec d 0), (Z.eqb_spec h 0), (Z.eqb_spec h 1);
    simpl; try lia;
  destruct (Z.eqb_spec d 3), (Z.eqb_spec d 1), (Z.eqb_spec level 3),
    (Z.eqb_spec level 2), (Z.ltb_spec level 3); simpl; lia.
Qed.

(** An entry that is not live maps nothing: it is invalid, and not assigned
    with RIPAS empty or destroyed. *)
Lemma not_live_spec e :
  is_live e = false <->
  get_masked_value e S2TTE.DESC_TYPE = desc_type.LX_INVALID /\
  is_assigned_empty e = false /\ is_assigned_destroyed e = false.
Proof.
  unfold is_live. rewrite !orb_false_iff, negb_false_iff, Z.eqb_eq. tauto.
Qed.

(** [mapping_size] is the power of two of each level. *)
Definition level_shift (level : Z) : Z := 39 - 9 * level.

Lemma mapping_size_pow2 level :
  0 <= level <= 3 -> mapping_size level = Ok (2 ^ level_shift level).
Proof.
  intros H. assert (level = 0 \/ level = 1 \/ level = 2 \/ level = 3) as Hl by lia.
  destruct Hl as [->|[->|[->| ->]]]; vm_compute; done.
Qed.

Lemma mapping_size_panic level : ~ (0 <= level <= 3) -> mapping_size level = Panicked.
Proof.
  intros H. unfold mapping_size.
  by rewrite !(proj2 (Z.eqb_neq level _)) by lia.
Qed.

(** ** Homogeneity

    A homogeneous table whose first entry maps RAM maps one contiguous block,
    every entry RAM with the same RIPAS bits. *)
Lemma attr_keeps_ns e level :
  level = 2 \/ level = 3 ->
  get_masked_value (Z.land e (Word.not (default 0 (level_mask level)))) S2TTE.NS
  = get_masked_value e S2TTE.NS.
Proof.
  intros Hl. apply get_masked_value_land_not.
  - apply define_mask_range; lia.
  - destruct Hl as [-> | ->]; vm_compute; done.
Qed.

Lemma assigned_ram_fields e level :
  is_assigned_ram e level = true ->
  get_masked_value e S2TTE.NS = 0 /\
  ((level = 3 /\ get_masked_value e S2TTE.DESC_TYPE = desc_type.L3_PAGE) \/
   (level = 2 /\ get_masked_value e S2TTE.DESC_TYPE = desc_type.L012_BLOCK)).
Proof.
  unfold is_assigned_ram. destruct (Z.eqb_spec (get_masked_value e S2TTE.NS) 0); [|done].
  simpl. unfold RTT_PAGE_LEVEL, RTT_MIN_BLOCK_LEVEL.
  destruct (Z.eqb_spec level 3), (Z.eqb_spec level 2),
    (Z.eqb_spec (get_masked_value e S2TTE.DESC_TYPE) desc_type.L3_PAGE),
    (Z.eqb_spec (get_masked_value e S2TTE.DESC_TYPE) desc_type.L012_BLOCK);
    simpl; intros; try done; auto.
Qed.

Lemma addr_as_block_range e level pa :
  addr_as_block e level = Ok pa -> Word.in_range pa.
Proof.
  assert (forall x lo, 0 <= lo <= 47 -> Word.in_range (get_masked x (define_mask 47 lo))) as Hr.
  { intros x lo Hlo. unfold get_masked. rewrite Z.land_comm.
    apply Word.land_range, define_mask_range; lia. }
  unfold addr_as_block. repeat case_match; intros; simplify_eq; apply Hr; lia.
Qed.

Lemma homog_step_ram level ms h e h' :
  level = 2 \/ level = 3 ->
  homog_step level ms h e = Ok (Some h') ->
  get_masked_value (h_attr h) S2TTE.NS = 0 ->
  (level = 3 -> h_desc_type h = desc_type.L3_PAGE) ->
  (level = 2 -> h_desc_type h = desc_type.L012_BLOCK) ->
  is_assigned_ram e level = true /\
  addr_as_block e level = Ok (Word.add (h_pa h) ms) /\
  h' = mkHomog (h_hipas h) (h_ripas h) (h_desc_type h) (Word.add (h_pa h) ms)
         (h_attr h) (h_ns h).
Proof.
  intros Hl Hs Hns H3 H2. unfold homog_step in Hs.
  destruct (Z.eqb_spec (h_desc_type h) (get_masked_value e S2TTE.DESC_TYPE)) as [Hd|];
    simpl in Hs; [|done].
  assert (is_assigned_ns e level = true \/ is_assigned_ram e level = true) as Hcase.
  { unfold is_assigned_ns, is_assigned_ram. rewrite <- Hd.
    destruct (get_masked_value e S2TTE.NS =? 0);
      (destruct Hl as [-> | ->]; [rewrite H2 by done|rewrite H3 by done]); auto. }
  destruct (is_assigned_ns e level) eqn:Ens.
  - exfalso. destruct (addr_as_block e level) as [a| | |] eqn:Ea; simplify_eq/=.
    destruct (Word.add (h_pa h) ms =? a); simpl in Hs; [|done].
    destruct (Z.eqb_spec (h_attr h)
      (Z.land e (Word.not (default 0 (level_mask level))))) as [Ha|]; simpl in Hs; [|done].
    unfold is_assigned_ns in Ens. rewrite Ha, attr_keeps_ns in Hns by done.
    rewrite Hns in Ens. done.
  - destruct Hcase as [|Hram]; [done|]. rewrite Hram in Hs. simpl in Hs.
    destruct (addr_as_block e level) as [a| | |] eqn:Ea; simplify_eq/=.
    destruct (Z.eqb_spec (Word.add (h_pa h) ms) a) as [<-|]; simpl in Hs; [|done].
    destruct (_ =? _); simpl in Hs; [|done]. by simplify_eq.
Qed.

Lemma homog_loop_ram level ms h es :
  level = 2 \/ level = 3 ->
  homog_loop level ms h es = Ok true ->
  get_masked_value (h_attr h) S2TTE.NS = 0 ->
  (level = 3 -> h_desc_type h = desc_type.L3_PAGE) ->
  (level = 2 -> h_desc_type h = desc_type.L012_BLOCK) ->
  forall i e, es !! i = Some e ->
  is_assigned_ram e level = true /\
  addr_as_block e level = Ok (Word.wrap (h_pa h + Z.of_nat (S i) * ms)).
Proof.
  intros Hl. revert h. induction es as [|e0 es IH]; intros h Hh Hns H3 H2 i e Hi; [done|].
  simpl in Hh. destruct (homog_step level ms h e0) as [[h'|]| | |] eqn:Es; simplify_eq/=.
  apply homog_step_ram in Es as (Hram & Ha & ->); [|done..].
  destruct i as [|i]; simplify_eq/=.
  - split; [done|]. rewrite Ha. unfold Word.add. do 2 f_equal. lia.
  - eapply IH in Hh as [Hr Hb]; simpl; eauto. split; [done|]. rewrite Hb. f_equal.
    simpl. unfold Word.add, Word.wrap. rewrite Z.add_mod_idemp_l by done. f_equal. lia.
Qed.

Lemma homogeneous_ram_contiguous level e0 es pa :
  level = 2 \/ level = 3 ->
  is_homogeneous (e0 :: es) level = Ok true ->
  is_assigned_ram e0 level = true ->
  addr_as_block e0 level = Ok pa ->
  forall i e, (e0 :: es) !! i = Some e ->
  is_assigned_ram e level = true /\
  addr_as_block e level = Ok (Word.wrap (pa + Z.of_nat i * 2 ^ level_shift level)).
Proof.
  intros Hl Hh Hram Hpa. unfold is_homogeneous in Hh.
  rewrite mapping_size_pow2 in Hh by lia. simpl in Hh.
  destruct (homog_first level e0) as [[h|]| | |] eqn:Ef; simplify_eq/=.
  unfold homog_first in Ef. rewrite Hram, orb_true_r in Ef. simpl in Ef.
  rewrite Hpa in Ef. simpl in Ef.
  destruct (negb (level =? 2) && negb (level =? 3)); [done|].
  destruct (negb _) eqn:Eal in Ef; [done|]. simplify_eq.
  intros i e Hi. destruct i as [|i]; simplify_eq/=.
  - split; [done|]. rewrite Hpa, Z.add_0_r. f_equal. symmetry.
    apply Word.wrap_small. by eapply addr_as_block_range.
  - eapply homog_loop_ram in Hh as [? Hb]; [|by eauto|..|done]; simpl.
    + done.
    + rewrite attr_keeps_ns by done. by apply assigned_ram_fields in Hram as [? _].
    + intros ->. apply assigned_ram_fields in Hram as [_ [[? ?]|[? ?]]]; [done|lia].
    + intros ->. apply assigned_ram_fields in Hram as [_ [[? ?]|[? ?]]]; [lia|done].
Qed.
