(* ===== verification/Objects.v ===== *)
(** * RMM objects

    The structures the RMM keeps in granules or copies from the host:
    realm/rd.rs ([Rd]), rec/{mod,context,simd}.rs ([Rec]),
    rmi/rec/{run,params,mpidr}.rs, rmi/realm/params.rs, rmi/metadata.rs and
    rsi/hostcall.rs. Byte arrays are lists of bytes, fixed-size arrays of words
    are lists of words; [with_f v r] is the assignment [r.f = v]. *)

From S2P Require Import Prelude Bytes Bits Vmsa RmiTypes Granule S2tte.

Definition MEASUREMENTS_SLOT_MAX_SIZE : Z := 64.
Definition MEASUREMENTS_SLOT_NR : Z := 5.
Definition MEASUREMENTS_SLOT_RIM : Z := 0.
Definition RPV_SIZE : Z := 64.
Definition zero_bytes (n : Z) : list Z := replicate (Z.to_nat n) 0.
Definition Measurement_empty : list Z := zero_bytes MEASUREMENTS_SLOT_MAX_SIZE.

(** ** SIMD configuration (rec/simd.rs) *)
Module SimdConfig.
Record t : Type := mk {
  sve_en : bool;
  sve_vq : Z;
  sme_en : bool
}.
Definition with_sve_en (v : bool) (r : t) : t := mk v (sve_vq r) (sme_en r).
Definition with_sve_vq (v : Z) (r : t) : t := mk (sve_en r) v (sme_en r).
Definition with_sme_en (v : bool) (r : t) : t := mk (sve_en r) (sve_vq r) v.
End SimdConfig.

(** [simd::validate]; [cfg] is the platform's [SIMD_CONFIG]. *)
Definition simd_validate (cfg : SimdConfig.t) (en : bool) (sve_vl : Z) : bool :=
  if en && negb (SimdConfig.sve_en cfg) then false
  else if SimdConfig.sve_vq cfg <? sve_vl then false
  else true.

(** ** Realm descriptor (realm/rd.rs) *)
Inductive RealmState : Set := Null | New | Active | SystemOff.
#[global] Instance RealmState_eq_dec : EqDecision RealmState.
Proof. solve_decision. Defined.

Module Rd.
Record t : Type := mk {
  vmid : Z;
  state : RealmState;
  rtt_base : Z;
  rtt_num_start : Z;
  ipa_bits : Z;
  rec_index : Z;
  s2_starting_level : Z;
  hash_algo : Z;
  rpv : list Z;
  measurements : list (list Z);
  vcpu_index : Z;
  metadata : option Z;
  simd_cfg : SimdConfig.t
}.
Definition with_state (v : RealmState) (r : t) : t := mk (vmid r) v (rtt_base r)
    (rtt_num_start r) (ipa_bits r) (rec_index r) (s2_starting_level r) (hash_algo r)
    (rpv r) (measurements r) (vcpu_index r) (metadata r) (simd_cfg r).
Definition with_rec_index (v : Z) (r : t) : t := mk (vmid r) (state r) (rtt_base r)
    (rtt_num_start r) (ipa_bits r) v (s2_starting_level r) (hash_algo r) (rpv r)
    (measurements r) (vcpu_index r) (metadata r) (simd_cfg r).
Definition with_hash_algo (v : Z) (r : t) : t := mk (vmid r) (state r) (rtt_base r)
    (rtt_num_start r) (ipa_bits r) (rec_index r) (s2_starting_level r) v (rpv r)
    (measurements r) (vcpu_index r) (metadata r) (simd_cfg r).
Definition with_measurements (v : list (list Z)) (r : t) : t := mk (vmid r) (state r)
    (rtt_base r) (rtt_num_start r) (ipa_bits r) (rec_index r) (s2_starting_level r)
    (hash_algo r) (rpv r) v (vcpu_index r) (metadata r) (simd_cfg r).
Definition with_vcpu_index (v : Z) (r : t) : t := mk (vmid r) (state r) (rtt_base r)
    (rtt_num_start r) (ipa_bits r) (rec_index r) (s2_starting_level r) (hash_algo r)
    (rpv r) (measurements r) v (metadata r) (simd_cfg r).
Definition with_metadata (v : option Z) (r : t) : t := mk (vmid r) (state r) (rtt_base
    r) (rtt_num_start r) (ipa_bits r) (rec_index r) (s2_starting_level r) (hash_algo
    r) (rpv r) (measurements r) (vcpu_index r) v (simd_cfg r).

(** [Rd::init]; [hash_algo], [simd_cfg.sme_en] and, without SVE,
    [simd_cfg.sve_vq] keep what the granule held. *)
Definition init (r : t) (vmid rtt_base rtt_num_start ipa_bits s2_starting_level : Z)
    (rpv : list Z) (sve_en : bool) (sve_vl : Z) : t :=
  mk vmid New rtt_base rtt_num_start ipa_bits 0 s2_starting_level (hash_algo r) rpv
    (replicate (Z.to_nat MEASUREMENTS_SLOT_NR) Measurement_empty) 0 None
    (SimdConfig.mk sve_en
       (if sve_en then sve_vl else SimdConfig.sve_vq (simd_cfg r))
       (SimdConfig.sme_en (simd_cfg r))).

Definition id (r : t) : Z := vmid r.
Definition at_state (r : t) (compared : RealmState) : bool :=
  bool_decide (state r = compared).
Definition inc_rec_index (r : t) : t := with_rec_index (Word.add (rec_index r) 1) r.
(** [1 << ipa_bits]: the shift amount is taken modulo 64. *)
Definition ipa_size (r : t) : Z := Word.shl 1 (ipa_bits r mod 64).
Definition par_size (r : t) : Z := ipa_size r / 2.
Definition addr_in_par (r : t) (ipa : Z) : bool := ipa <? par_size r.

End Rd.

(** ** Realm parameters (rmi/realm/params.rs) *)
Module RmiRealmFlags.
Definition Lpa2 : Z := define_mask 0 0.
Definition Sve : Z := define_mask 1 1.
Definition Pmu : Z := define_mask 2 2.
End RmiRealmFlags.

Module RealmParams.
Record t : Type := mk {
  flags : Z;
  s2sz : Z;
  sve_vl : Z;
  num_bps : Z;
  num_wps : Z;
  pmu_num_ctrs : Z;
  hash_algo : Z;
  rpv : list Z;
  vmid : Z;
  rtt_base : Z;
  rtt_level_start : Z;
  rtt_num_start : Z;
  raw : list Z
}.

(** The structure at the byte offsets [pad_struct_and_impl_default!] gives;
    [raw] keeps the whole page, paddings included. *)
Definition of_bytes (b : list Z) : t :=
  mk (u64_at 0x0 b) (u8_at 0x8 b) (u8_at 0x10 b) (u8_at 0x18 b) (u8_at 0x20 b)
     (u8_at 0x28 b) (u8_at 0x30 b) (slice 0x400 64 b) (u16_at 0x800 b)
     (u64_at 0x808 b) (i64_at 0x810 b) (u32_at 0x818 b) b.

(** [Hashable::hash]: the bytes fed to the hash, in order; the realm
    personalization value and the translation-table arguments are hashed as
    zeros. *)
Definition hash_input (p : t) : list Z :=
  le_bytes 8 (flags p) ++ slice 0x8 0 (raw p)
  ++ le_bytes 1 (s2sz p) ++ slice 0x9 7 (raw p)
  ++ le_bytes 1 (sve_vl p) ++ slice 0x11 7 (raw p)
  ++ le_bytes 1 (num_bps p) ++ slice 0x19 7 (raw p)
  ++ le_bytes 1 (num_wps p) ++ slice 0x21 7 (raw p)
  ++ le_bytes 1 (pmu_num_ctrs p) ++ slice 0x29 7 (raw p)
  ++ le_bytes 1 (hash_algo p) ++ slice 0x31 (0x400 - 0x31) (raw p)
  ++ zero_bytes 64 ++ slice 0x440 (0x800 - 0x440) (raw p)
  ++ le_bytes 2 0 ++ slice 0x802 6 (raw p)
  ++ le_bytes 8 0 ++ slice 0x810 0 (raw p)
  ++ le_bytes 8 0 ++ slice 0x818 0 (raw p)
  ++ le_bytes 4 0 ++ slice 0x81c (0x1000 - 0x81c) (raw p).
End RealmParams.

(** [features::validate]: 32 to 48 address bits. *)
Definition S2SZ_VALUE : Z := 48.
Definition MIN_IPA_SIZE : Z := 32.
Definition features_validate (s2sz : Z) : bool := (MIN_IPA_SIZE <=? s2sz) && (s2sz <=? S2SZ_VALUE).

Definition realm_params_sve_en (p : RealmParams.t) : bool :=
  get_masked_value (RealmParams.flags p) RmiRealmFlags.Sve =? 1.

(** The number of concatenated root tables [verify_compliance] computes
    (a u32 shift, its amount modulo 32). *)
Definition s2_num_root_rtts (ipa_bits sl_ipa_bits : Z) : Z :=
  if ipa_bits <=? sl_ipa_bits then 1
  else Z.shiftl 1 (Word.sub ipa_bits sl_ipa_bits mod 32) mod 2 ^ 32.

(** [Params::verify_compliance]: [rtt_level_start as usize] wraps a negative
    level, and the size arithmetic wraps. *)
Definition realm_params_verify_compliance
    (cfg : SimdConfig.t) (p : RealmParams.t) (rd : Z) : outcome Error unit :=
  let rtt_base := RealmParams.rtt_base p in
  if rtt_base =? rd then Err RmiErrorInput
  else if negb (rtt_base mod GRANULE_SIZE =? 0) then Err RmiErrorInput
  else if negb (features_validate (RealmParams.s2sz p)) then Err RmiErrorInput
  else
    let ipa_bits := RealmParams.s2sz p in
    let rtt_slvl := Word.wrap (RealmParams.rtt_level_start p) in
    let level := Word.sub RTT_PAGE_LEVEL rtt_slvl in
    let min_ipa_bits := Word.add (Word.add (Word.mul level RTT_STRIDE) GRANULE_SHIFT) 1 in
    let max_ipa_bits := Word.add (Word.add min_ipa_bits (RTT_STRIDE - 1)) 4 in
    let sl_ipa_bits :=
      Word.add (Word.add (Word.mul level RTT_STRIDE) GRANULE_SHIFT) RTT_STRIDE in
    if (ipa_bits <? min_ipa_bits) || (max_ipa_bits <? ipa_bits) then Err RmiErrorInput
    else if negb (s2_num_root_rtts ipa_bits sl_ipa_bits =? RealmParams.rtt_num_start p)
    then Err RmiErrorInput
    else if negb (get_masked_value (RealmParams.flags p) RmiRealmFlags.Lpa2 =? 0)
    then Err RmiErrorInput
    else if negb (simd_validate cfg (realm_params_sve_en p) (RealmParams.sve_vl p))
    then Err RmiErrorInput
    else if negb (get_masked_value (RealmParams.flags p) RmiRealmFlags.Pmu =? 0)
    then Err RmiErrorInput
    else if (RealmParams.hash_algo p =? Rmi.HASH_ALGO_SHA256)
            || (RealmParams.hash_algo p =? Rmi.HASH_ALGO_SHA512)
    then Ok tt else Err RmiErrorInput.

(** ** REC parameters (rmi/rec/params.rs) and MPIDR (rmi/rec/mpidr.rs) *)
Module RecParams.
Record t : Type := mk {
  flags : Z;
  mpidr : Z;
  pc : Z;
  gprs : list Z;
  num_aux : Z;
  aux : list Z;
  raw : list Z
}.

Definition of_bytes (b : list Z) : t :=
  mk (u64_at 0x0 b) (u64_at 0x100 b) (u64_at 0x200 b) (u64s_at 0x300 8 b)
     (u64_at 0x800 b) (u64s_at 0x808 16 b) b.

Definition hash_input (p : t) : list Z :=
  le_bytes 8 (flags p) ++ slice 0x8 (0x100 - 0x8) (raw p)
  ++ le_bytes 8 0 ++ slice 0x108 (0x200 - 0x108) (raw p)
  ++ le_bytes 8 (pc p) ++ slice 0x208 (0x300 - 0x208) (raw p)
  ++ u64s_bytes (gprs p) ++ slice 0x340 (0x800 - 0x340) (raw p)
  ++ le_bytes 8 0 ++ u64s_bytes (replicate 16 0)
  ++ slice 0x888 (0x1000 - 0x888) (raw p).
End RecParams.

Module MPIDR.
Definition AFF3 : Z := define_mask 31 24.
Definition AFF2 : Z := define_mask 23 16.
Definition AFF1 : Z := define_mask 15 8.
Definition AFF0 : Z := define_mask 3 0.
Definition index (m : Z) : Z :=
  get_masked_value m AFF0 + 16 * get_masked_value m AFF1
  + 16 * 256 * get_masked_value m AFF2 + 16 * 256 * 256 * get_masked_value m AFF3.
Definition validate (m : Z) : bool :=
  let must_be_zero := Word.not (Z.lor (Z.lor (Z.lor AFF0 AFF1) AFF2) AFF3) in
  Z.land m must_be_zero =? 0.
End MPIDR.

(** ** The REC run object (rmi/rec/run.rs) *)
Definition NR_GPRS : Z := 31.
Definition NR_GIC_LRS : Z := 16.
Definition REC_ENTRY_FLAG_EMUL_MMIO : Z := Z.shiftl 1 0.
Definition REC_ENTRY_FLAG_TRAP_WFI : Z := Z.shiftl 1 2.
Definition REC_ENTRY_FLAG_TRAP_WFE : Z := Z.shiftl 1 3.
Definition REC_ENTRY_FLAG_RIPAS_RESPONSE : Z := Z.shiftl 1 4.

Module RunEntry.
Record t : Type := mk {
  flags : Z;
  gprs : list Z;
  gicv3_hcr : Z;
  gicv3_lrs : list Z
}.
End RunEntry.

Module RunExit.
Record t : Type := mk {
  exit_reason : Z;
  esr : Z;
  far : Z;
  hpfar : Z;
  gprs : list Z;
  gicv3_hcr : Z;
  gicv3_lrs : list Z;
  gicv3_misr : Z;
  gicv3_vmcr : Z;
  cntp_ctl : Z;
  cntp_cval : Z;
  cntv_ctl : Z;
  cntv_cval : Z;
  ripas_base : Z;
  ripas_size : Z;
  ripas_value : Z;
  imm : Z;
  pmu_ovf : Z;
  pmu_intr_en : Z;
  pmu_cntr_en : Z
}.
Definition with_exit_reason (v : Z) (r : t) : t := mk v (esr r) (far r) (hpfar r)
    (gprs r) (gicv3_hcr r) (gicv3_lrs r) (gicv3_misr r) (gicv3_vmcr r) (cntp_ctl r)
    (cntp_cval r) (cntv_ctl r) (cntv_cval r) (ripas_base r) (ripas_size r)
    (ripas_value r) (imm r) (pmu_ovf r) (pmu_intr_en r) (pmu_cntr_en r).
Definition with_esr (v : Z) (r : t) : t := mk (exit_reason r) v (far r) (hpfar r)
    (gprs r) (gicv3_hcr r) (gicv3_lrs r) (gicv3_misr r) (gicv3_vmcr r) (cntp_ctl r)
    (cntp_cval r) (cntv_ctl r) (cntv_cval r) (ripas_base r) (ripas_size r)
    (ripas_value r) (imm r) (pmu_ovf r) (pmu_intr_en r) (pmu_cntr_en r).
Definition with_far (v : Z) (r : t) : t := mk (exit_reason r) (esr r) v (hpfar r)
    (gprs r) (gicv3_hcr r) (gicv3_lrs r) (gicv3_misr r) (gicv3_vmcr r) (cntp_ctl r)
    (cntp_cval r) (cntv_ctl r) (cntv_cval r) (ripas_base r) (ripas_size r)
    (ripas_value r) (imm r) (pmu_ovf r) (pmu_intr_en r) (pmu_cntr_en r).
Definition with_hpfar (v : Z) (r : t) : t := mk (exit_reason r) (esr r) (far r) v
    (gprs r) (gicv3_hcr r) (gicv3_lrs r) (gicv3_misr r) (gicv3_vmcr r) (cntp_ctl r)
    (cntp_cval r) (cntv_ctl r) (cntv_cval r) (ripas_base r) (ripas_size r)
    (ripas_value r) (imm r) (pmu_ovf r) (pmu_intr_en r) (pmu_cntr_en r).
Definition with_gprs (v : list Z) (r : t) : t := mk (exit_reason r) (esr r) (far r)
    (hpfar r) v (gicv3_hcr r) (gicv3_lrs r) (gicv3_misr r) (gicv3_vmcr r) (cntp_ctl r)
    (cntp_cval r) (cntv_ctl r) (cntv_cval r) (ripas_base r) (ripas_size r)
    (ripas_value r) (imm r) (pmu_ovf r) (pmu_intr_en r) (pmu_cntr_en r).
Definition with_gicv3_hcr (v : Z) (r : t) : t := mk (exit_reason r) (esr r) (far r)
    (hpfar r) (gprs r) v (gicv3_lrs r) (gicv3_misr r) (gicv3_vmcr r) (cntp_ctl r)
    (cntp_cval r) (cntv_ctl r) (cntv_cval r) (ripas_base r) (ripas_size r)
    (ripas_value r) (imm r) (pmu_ovf r) (pmu_intr_en r) (pmu_cntr_en r).
Definition with_gicv3_lrs (v : list Z) (r : t) : t := mk (exit_reason r) (esr r) (far
    r) (hpfar r) (gprs r) (gicv3_hcr r) v (gicv3_misr r) (gicv3_vmcr r) (cntp_ctl r)
    (cntp_cval r) (cntv_ctl r) (cntv_cval r) (ripas_base r) (ripas_size r)
    (ripas_value r) (imm r) (pmu_ovf r) (pmu_intr_en r) (pmu_cntr_en r).
Definition with_gicv3_misr (v : Z) (r : t) : t := mk (exit_reason r) (esr r) (far r)
    (hpfar r) (gprs r) (gicv3_hcr r) (gicv3_lrs r) v (gicv3_vmcr r) (cntp_ctl r)
    (cntp_cval r) (cntv_ctl r) (cntv_cval r) (ripas_base r) (ripas_size r)
    (ripas_value r) (imm r) (pmu_ovf r) (pmu_intr_en r) (pmu_cntr_en r).
Definition with_gicv3_vmcr (v : Z) (r : t) : t := mk (exit_reason r) (esr r) (far r)
    (hpfar r) (gprs r) (gicv3_hcr r) (gicv3_lrs r) (gicv3_misr r) v (cntp_ctl r)
    (cntp_cval r) (cntv_ctl r) (cntv_cval r) (ripas_base r) (ripas_size r)
    (ripas_value r) (imm r) (pmu_ovf r) (pmu_intr_en r) (pmu_cntr_en r).
Definition with_cntp_ctl (v : Z) (r : t) : t := mk (exit_reason r) (esr r) (far r)
    (hpfar r) (gprs r) (gicv3_hcr r) (gicv3_lrs r) (gicv3_misr r) (gicv3_vmcr r) v
    (cntp_cval r) (cntv_ctl r) (cntv_cval r) (ripas_base r) (ripas_size r)
    (ripas_value r) (imm r) (pmu_ovf r) (pmu_intr_en r) (pmu_cntr_en r).
Definition with_cntp_cval (v : Z) (r : t) : t := mk (exit_reason r) (esr r) (far r)
    (hpfar r) (gprs r) (gicv3_hcr r) (gicv3_lrs r) (gicv3_misr r) (gicv3_vmcr r)
    (cntp_ctl r) v (cntv_ctl r) (cntv_cval r) (ripas_base r) (ripas_size r)
    (ripas_value r) (imm r) (pmu_ovf r) (pmu_intr_en r) (pmu_cntr_en r).
Definition with_cntv_ctl (v : Z) (r : t) : t := mk (exit_reason r) (esr r) (far r)
    (hpfar r) (gprs r) (gicv3_hcr r) (gicv3_lrs r) (gicv3_misr r) (gicv3_vmcr r)
    (cntp_ctl r) (cntp_cval r) v (cntv_cval r) (ripas_base r) (ripas_size r)
    (ripas_value r) (imm r) (pmu_ovf r) (pmu_intr_en r) (pmu_cntr_en r).
Definition with_cntv_cval (v : Z) (r : t) : t := mk (exit_reason r) (esr r) (far r)
    (hpfar r) (gprs r) (gicv3_hcr r) (gicv3_lrs r) (gicv3_misr r) (gicv3_vmcr r)
    (cntp_ctl r) (cntp_cval r) (cntv_ctl r) v (ripas_base r) (ripas_size r)
    (ripas_value r) (imm r) (pmu_ovf r) (pmu_intr_en r) (pmu_cntr_en r).
Definition with_ripas_base (v : Z) (r : t) : t := mk (exit_reason r) (esr r) (far r)
    (hpfar r) (gprs r) (gicv3_hcr r) (gicv3_lrs r) (gicv3_misr r) (gicv3_vmcr r)
    (cntp_ctl r) (cntp_cval r) (cntv_ctl r) (cntv_cval r) v (ripas_size r)
    (ripas_value r) (imm r) (pmu_ovf r) (pmu_intr_en r) (pmu_cntr_en r).
Definition with_ripas_size (v : Z) (r : t) : t := mk (exit_reason r) (esr r) (far r)
    (hpfar r) (gprs r) (gicv3_hcr r) (gicv3_lrs r) (gicv3_misr r) (gicv3_vmcr r)
    (cntp_ctl r) (cntp_cval r) (cntv_ctl r) (cntv_cval r) (ripas_base r) v
    (ripas_value r) (imm r) (pmu_ovf r) (pmu_intr_en r) (pmu_cntr_en r).
Definition with_ripas_value (v : Z) (r : t) : t := mk (exit_reason r) (esr r) (far r)
    (hpfar r) (gprs r) (gicv3_hcr r) (gicv3_lrs r) (gicv3_misr r) (gicv3_vmcr r)
    (cntp_ctl r) (cntp_cval r) (cntv_ctl r) (cntv_cval r) (ripas_base r) (ripas_size
    r) v (imm r) (pmu_ovf r) (pmu_intr_en r) (pmu_cntr_en r).
Definition with_imm (v : Z) (r : t) : t := mk (exit_reason r) (esr r) (far r) (hpfar
    r) (gprs r) (gicv3_hcr r) (gicv3_lrs r) (gicv3_misr r) (gicv3_vmcr r) (cntp_ctl r)
    (cntp_cval r) (cntv_ctl r) (cntv_cval r) (ripas_base r) (ripas_size r)
    (ripas_value r) v (pmu_ovf r) (pmu_intr_en r) (pmu_cntr_en r).
End RunExit.

Module Run.
(** [raw] is the page the structure was copied from; it keeps the paddings. *)
Record t : Type := mk { entry : RunEntry.t; exit : RunExit.t; raw : list Z }.
Definition on_exit (f : RunExit.t -> RunExit.t) (r : t) : t :=
  mk (entry r) (f (exit r)) (raw r).

Definition of_bytes (b : list Z) : t :=
  mk (RunEntry.mk (u64_at 0x0 b) (u64s_at 0x200 31 b) (u64_at 0x300 b) (u64s_at 0x308 16 b))
     (RunExit.mk (u8_at 0x800 b) (u64_at 0x900 b) (u64_at 0x908 b) (u64_at 0x910 b)
        (u64s_at 0xa00 31 b) (u64_at 0xb00 b) (u64s_at 0xb08 16 b) (u64_at 0xb88 b)
        (u64_at 0xb90 b) (u64_at 0xc00 b) (u64_at 0xc08 b) (u64_at 0xc10 b)
        (u64_at 0xc18 b) (u64_at 0xd00 b) (u64_at 0xd08 b) (u8_at 0xd10 b)
        (u16_at 0xe00 b) (u64_at 0xf00 b) (u64_at 0xf08 b) (u64_at 0xf10 b))
     b.

(** The fields of [Exit] at their offsets in the page (its base is 0x800). *)
Definition exit_fields (x : RunExit.t) : list (Z * list Z) :=
  [(0x800, le_bytes 1 (RunExit.exit_reason x));
   (0x900, le_bytes 8 (RunExit.esr x)); (0x908, le_bytes 8 (RunExit.far x));
   (0x910, le_bytes 8 (RunExit.hpfar x)); (0xa00, u64s_bytes (RunExit.gprs x));
   (0xb00, le_bytes 8 (RunExit.gicv3_hcr x)); (0xb08, u64s_bytes (RunExit.gicv3_lrs x));
   (0xb88, le_bytes 8 (RunExit.gicv3_misr x)); (0xb90, le_bytes 8 (RunExit.gicv3_vmcr x));
   (0xc00, le_bytes 8 (RunExit.cntp_ctl x)); (0xc08, le_bytes 8 (RunExit.cntp_cval x));
   (0xc10, le_bytes 8 (RunExit.cntv_ctl x)); (0xc18, le_bytes 8 (RunExit.cntv_cval x));
   (0xd00, le_bytes 8 (RunExit.ripas_base x)); (0xd08, le_bytes 8 (RunExit.ripas_size x));
   (0xd10, le_bytes 1 (RunExit.ripas_value x)); (0xe00, le_bytes 2 (RunExit.imm x));
   (0xf00, le_bytes 8 (RunExit.pmu_ovf x)); (0xf08, le_bytes 8 (RunExit.pmu_intr_en x));
   (0xf10, le_bytes 8 (RunExit.pmu_cntr_en x))].

(** The page [copy_to_ptr] writes back: the entry part and the paddings as
    they were read, the exit fields as they are now. *)
Definition to_bytes (r : t) : list Z :=
  foldl (fun b f => splice (fst f) (snd f) b) (raw r) (exit_fields (exit r)).

Definition entry_flags (r : t) : Z := RunEntry.flags (entry r).
Definition entry_gpr (r : t) (idx : Z) : outcome Error Z :=
  if NR_GPRS <=? idx then Err RmiErrorInput
  else unwrap (RunEntry.gprs (entry r) !! Z.to_nat idx).
Definition entry_gic_lrs (r : t) : list Z := RunEntry.gicv3_lrs (entry r).
Definition entry_gic_hcr (r : t) : Z := RunEntry.gicv3_hcr (entry r).
Definition set_imm (v : Z) : t -> t := on_exit (RunExit.with_imm v).
Definition set_exit_reason (v : Z) : t -> t := on_exit (RunExit.with_exit_reason v).
Definition set_esr (v : Z) : t -> t := on_exit (RunExit.with_esr v).
Definition set_far (v : Z) : t -> t := on_exit (RunExit.with_far v).
Definition set_hpfar (v : Z) : t -> t := on_exit (RunExit.with_hpfar v).
Definition set_gpr (idx v : Z) (r : t) : outcome Error t :=
  if NR_GPRS <=? idx then Err RmiErrorInput
  else Ok (on_exit (fun x => RunExit.with_gprs (<[Z.to_nat idx := v]> (RunExit.gprs x)) x) r).
Definition set_ripas (base size state : Z) : t -> t :=
  on_exit (fun x => RunExit.with_ripas_value state
                      (RunExit.with_ripas_size size (RunExit.with_ripas_base base x))).
Definition set_gic_misr (v : Z) : t -> t := on_exit (RunExit.with_gicv3_misr v).
Definition set_gic_vmcr (v : Z) : t -> t := on_exit (RunExit.with_gicv3_vmcr v).
Definition set_gic_hcr (v : Z) : t -> t := on_exit (RunExit.with_gicv3_hcr v).
Definition set_cntv_ctl (v : Z) : t -> t := on_exit (RunExit.with_cntv_ctl v).
Definition set_cntv_cval (v : Z) : t -> t := on_exit (RunExit.with_cntv_cval v).
Definition set_cntp_ctl (v : Z) : t -> t := on_exit (RunExit.with_cntp_ctl v).
Definition set_cntp_cval (v : Z) : t -> t := on_exit (RunExit.with_cntp_cval v).

(** [Run::verify_compliance]: no list register has its HW bit set. *)
Definition ICH_LR_HW_OFFSET : Z := 61.
Definition verify_compliance (r : t) : outcome Error unit :=
  if existsb (fun lr => negb (Z.land lr (Z.shiftl 1 ICH_LR_HW_OFFSET) =? 0)) (entry_gic_lrs r)
  then Err RmiErrorRec else Ok tt.
End Run.

(** ** Realm execution context (rec/context.rs, rec/mod.rs) *)

(** The fields of [SystemRegister]; a register file maps them to values. *)
Inductive SysReg : Set :=
| sp | sp_el0 | esr_el1 | vbar | ttbr0 | ttbr1 | mair | amair | tcr | tpidr
| tpidr_el0 | tpidrro | actlr | vmpidr | csselr | cpacr | afsr0 | afsr1 | far
| contextidr | cntkctl | par | vttbr | esr_el2 | hpfar | sctlr.
#[global] Instance SysReg_eq_dec : EqDecision SysReg.
Proof. solve_decision. Defined.

Module GICRegister.
Record t : Type := mk {
  ich_ap0r_el2 : list Z;
  ich_ap1r_el2 : list Z;
  ich_vmcr_el2 : Z;
  ich_hcr_el2 : Z;
  ich_lr_el2 : list Z;
  ich_misr_el2 : Z
}.
Definition with_ich_ap0r_el2 (v : list Z) (r : t) : t := mk v (ich_ap1r_el2 r)
    (ich_vmcr_el2 r) (ich_hcr_el2 r) (ich_lr_el2 r) (ich_misr_el2 r).
Definition with_ich_ap1r_el2 (v : list Z) (r : t) : t := mk (ich_ap0r_el2 r) v
    (ich_vmcr_el2 r) (ich_hcr_el2 r) (ich_lr_el2 r) (ich_misr_el2 r).
Definition with_ich_vmcr_el2 (v : Z) (r : t) : t := mk (ich_ap0r_el2 r) (ich_ap1r_el2
    r) v (ich_hcr_el2 r) (ich_lr_el2 r) (ich_misr_el2 r).
Definition with_ich_hcr_el2 (v : Z) (r : t) : t := mk (ich_ap0r_el2 r) (ich_ap1r_el2
    r) (ich_vmcr_el2 r) v (ich_lr_el2 r) (ich_misr_el2 r).
Definition with_ich_lr_el2 (v : list Z) (r : t) : t := mk (ich_ap0r_el2 r)
    (ich_ap1r_el2 r) (ich_vmcr_el2 r) (ich_hcr_el2 r) v (ich_misr_el2 r).
Definition with_ich_misr_el2 (v : Z) (r : t) : t := mk (ich_ap0r_el2 r) (ich_ap1r_el2
    r) (ich_vmcr_el2 r) (ich_hcr_el2 r) (ich_lr_el2 r) v.
End GICRegister.

Module TimerRegister.
Record t : Type := mk {
  cntvoff_el2 : Z;
  cntv_cval_el0 : Z;
  cntv_ctl_el0 : Z;
  cntpoff_el2 : Z;
  cntp_cval_el0 : Z;
  cntp_ctl_el0 : Z;
  cnthctl_el2 : Z
}.
Definition with_cntvoff_el2 (v : Z) (r : t) : t :=
  mk v (cntv_cval_el0 r) (cntv_ctl_el0 r) (cntpoff_el2 r)
    (cntp_cval_el0 r) (cntp_ctl_el0 r) (cnthctl_el2 r).
Definition with_cntv_cval_el0 (v : Z) (r : t) : t :=
  mk (cntvoff_el2 r) v (cntv_ctl_el0 r) (cntpoff_el2 r)
    (cntp_cval_el0 r) (cntp_ctl_el0 r) (cnthctl_el2 r).
Definition with_cntv_ctl_el0 (v : Z) (r : t) : t :=
  mk (cntvoff_el2 r) (cntv_cval_el0 r) v (cntpoff_el2 r)
    (cntp_cval_el0 r) (cntp_ctl_el0 r) (cnthctl_el2 r).
Definition with_cntpoff_el2 (v : Z) (r : t) : t :=
  mk (cntvoff_el2 r) (cntv_cval_el0 r) (cntv_ctl_el0 r) v
    (cntp_cval_el0 r) (cntp_ctl_el0 r) (cnthctl_el2 r).
Definition with_cntp_cval_el0 (v : Z) (r : t) : t :=
  mk (cntvoff_el2 r) (cntv_cval_el0 r) (cntv_ctl_el0 r) (cntpoff_el2 r)
    v (cntp_ctl_el0 r) (cnthctl_el2 r).
Definition with_cntp_ctl_el0 (v : Z) (r : t) : t :=
  mk (cntvoff_el2 r) (cntv_cval_el0 r) (cntv_ctl_el0 r) (cntpoff_el2 r)
    (cntp_cval_el0 r) v (cnthctl_el2 r).
Definition with_cnthctl_el2 (v : Z) (r : t) : t :=
  mk (cntvoff_el2 r) (cntv_cval_el0 r) (cntv_ctl_el0 r) (cntpoff_el2 r)
    (cntp_cval_el0 r) (cntp_ctl_el0 r) v.
End TimerRegister.

(** [SimdRegister]; [fpu] is the 32 vector registers with FPSR and FPCR, the SVE
    data registers are never accessed. *)
Module SimdRegister.
Record t : Type := mk {
  is_used : bool;
  is_saved : bool;
  cfg : SimdConfig.t;
  cptr_el2 : Z;
  svcr : Z;
  fpu : list Z;
  zcr_el2 : Z;
  zcr_el12 : Z
}.
Definition with_is_used (v : bool) (r : t) : t := mk v (is_saved r) (cfg r) (cptr_el2
    r) (svcr r) (fpu r) (zcr_el2 r) (zcr_el12 r).
Definition with_is_saved (v : bool) (r : t) : t := mk (is_used r) v (cfg r) (cptr_el2
    r) (svcr r) (fpu r) (zcr_el2 r) (zcr_el12 r).
Definition with_cfg (v : SimdConfig.t) (r : t) : t := mk (is_used r) (is_saved r) v
    (cptr_el2 r) (svcr r) (fpu r) (zcr_el2 r) (zcr_el12 r).
Definition with_cptr_el2 (v : Z) (r : t) : t := mk (is_used r) (is_saved r) (cfg r) v
    (svcr r) (fpu r) (zcr_el2 r) (zcr_el12 r).
Definition with_svcr (v : Z) (r : t) : t := mk (is_used r) (is_saved r) (cfg r)
    (cptr_el2 r) v (fpu r) (zcr_el2 r) (zcr_el12 r).
Definition with_fpu (v : list Z) (r : t) : t := mk (is_used r) (is_saved r) (cfg r)
    (cptr_el2 r) (svcr r) v (zcr_el2 r) (zcr_el12 r).
Definition with_zcr_el2 (v : Z) (r : t) : t := mk (is_used r) (is_saved r) (cfg r)
    (cptr_el2 r) (svcr r) (fpu r) v (zcr_el12 r).
Definition with_zcr_el12 (v : Z) (r : t) : t := mk (is_used r) (is_saved r) (cfg r)
    (cptr_el2 r) (svcr r) (fpu r) (zcr_el2 r) v.
End SimdRegister.

Module Context.
Record t : Type := mk {
  gp_regs : list Z;
  elr : Z;
  spsr : Z;
  sys_regs : SysReg -> Z;
  gic_state : GICRegister.t;
  timer : TimerRegister.t;
  simd : SimdRegister.t
}.
Definition with_gp_regs (v : list Z) (r : t) : t := mk v (elr r) (spsr r) (sys_regs r)
    (gic_state r) (timer r) (simd r).
Definition with_elr (v : Z) (r : t) : t := mk (gp_regs r) v (spsr r) (sys_regs r)
    (gic_state r) (timer r) (simd r).
Definition with_spsr (v : Z) (r : t) : t := mk (gp_regs r) (elr r) v (sys_regs r)
    (gic_state r) (timer r) (simd r).
Definition with_sys_regs (v : SysReg -> Z) (r : t) : t := mk (gp_regs r) (elr r) (spsr
    r) v (gic_state r) (timer r) (simd r).
Definition with_gic_state (v : GICRegister.t) (r : t) : t := mk (gp_regs r) (elr r)
    (spsr r) (sys_regs r) v (timer r) (simd r).
Definition with_timer (v : TimerRegister.t) (r : t) : t := mk (gp_regs r) (elr r)
    (spsr r) (sys_regs r) (gic_state r) v (simd r).
Definition with_simd (v : SimdRegister.t) (r : t) : t := mk (gp_regs r) (elr r) (spsr
    r) (sys_regs r) (gic_state r) (timer r) v.
End Context.

Inductive RmmRecAttestState : Set := AttestInProgress | NoAttestInProgress.
Inductive RmmRecEmulatableAbort : Set := EmulatableAbort | NotEmulatableAbort.
Inductive RecState : Set := Ready | Running.
#[global] Instance RmmRecAttestState_eq_dec : EqDecision RmmRecAttestState.
Proof. solve_decision. Defined.
#[global] Instance RmmRecEmulatableAbort_eq_dec : EqDecision RmmRecEmulatableAbort.
Proof. solve_decision. Defined.
#[global] Instance RecState_eq_dec : EqDecision RecState.
Proof. solve_decision. Defined.

Module Ripas.
Record t : Type := mk {
  start : Z;
  end_ : Z;
  addr : Z;
  state : Z;
  flags : Z
}.
Definition with_addr (v : Z) (r : t) : t := mk (start r) (end_ r) v (state r) (flags
    r).
End Ripas.

(** [owner] is the physical address of the RD ([OnceCell<&Rd>]). *)
Module Rec.
Record t : Type := mk {
  context : Context.t;
  attest_state : RmmRecAttestState;
  attest_challenge : list Z;
  attest_token_offset : Z;
  aux : list Z;
  emulatable_abort : RmmRecEmulatableAbort;
  owner : option Z;
  vcpuid : Z;
  runnable : bool;
  psci_pending : bool;
  state : RecState;
  ripas : Ripas.t;
  vtcr : Z;
  host_call_pending : bool
}.
Definition with_context (v : Context.t) (r : t) : t := mk v (attest_state r)
    (attest_challenge r) (attest_token_offset r) (aux r) (emulatable_abort r) (owner
    r) (vcpuid r) (runnable r) (psci_pending r) (state r) (ripas r) (vtcr r)
    (host_call_pending r).
Definition with_attest_state (v : RmmRecAttestState) (r : t) : t := mk (context r) v
    (attest_challenge r) (attest_token_offset r) (aux r) (emulatable_abort r) (owner
    r) (vcpuid r) (runnable r) (psci_pending r) (state r) (ripas r) (vtcr r)
    (host_call_pending r).
Definition with_attest_challenge (v : list Z) (r : t) : t := mk (context r)
    (attest_state r) v (attest_token_offset r) (aux r) (emulatable_abort r) (owner r)
    (vcpuid r) (runnable r) (psci_pending r) (state r) (ripas r) (vtcr r)
    (host_call_pending r).
Definition with_attest_token_offset (v : Z) (r : t) : t := mk (context r)
    (attest_state r) (attest_challenge r) v (aux r) (emulatable_abort r) (owner r)
    (vcpuid r) (runnable r) (psci_pending r) (state r) (ripas r) (vtcr r)
    (host_call_pending r).
Definition with_aux (v : list Z) (r : t) : t := mk (context r) (attest_state r)
    (attest_challenge r) (attest_token_offset r) v (emulatable_abort r) (owner r)
    (vcpuid r) (runnable r) (psci_pending r) (state r) (ripas r) (vtcr r)
    (host_call_pending r).
Definition with_emulatable_abort (v : RmmRecEmulatableAbort) (r : t) : t := mk
    (context r) (attest_state r) (attest_challenge r) (attest_token_offset r) (aux r)
    v (owner r) (vcpuid r) (runnable r) (psci_pending r) (state r) (ripas r) (vtcr r)
    (host_call_pending r).
Definition with_owner (v : option Z) (r : t) : t := mk (context r) (attest_state r)
    (attest_challenge r) (attest_token_offset r) (aux r) (emulatable_abort r) v
    (vcpuid r) (runnable r) (psci_pending r) (state r) (ripas r) (vtcr r)
    (host_call_pending r).
Definition with_vcpuid (v : Z) (r : t) : t := mk (context r) (attest_state r)
    (attest_challenge r) (attest_token_offset r) (aux r) (emulatable_abort r) (owner
    r) v (runnable r) (psci_pending r) (state r) (ripas r) (vtcr r) (host_call_pending
    r).
Definition with_runnable (v : bool) (r : t) : t := mk (context r) (attest_state r)
    (attest_challenge r) (attest_token_offset r) (aux r) (emulatable_abort r) (owner
    r) (vcpuid r) v (psci_pending r) (state r) (ripas r) (vtcr r) (host_call_pending
    r).
Definition with_psci_pending (v : bool) (r : t) : t := mk (context r) (attest_state r)
    (attest_challenge r) (attest_token_offset r) (aux r) (emulatable_abort r) (owner
    r) (vcpuid r) (runnable r) v (state r) (ripas r) (vtcr r) (host_call_pending r).
Definition with_state (v : RecState) (r : t) : t := mk (context r) (attest_state r)
    (attest_challenge r) (attest_token_offset r) (aux r) (emulatable_abort r) (owner
    r) (vcpuid r) (runnable r) (psci_pending r) v (ripas r) (vtcr r)
    (host_call_pending r).
Definition with_ripas (v : Ripas.t) (r : t) : t := mk (context r) (attest_state r)
    (attest_challenge r) (attest_token_offset r) (aux r) (emulatable_abort r) (owner
    r) (vcpuid r) (runnable r) (psci_pending r) (state r) v (vtcr r)
    (host_call_pending r).
Definition with_vtcr (v : Z) (r : t) : t := mk (context r) (attest_state r)
    (attest_challenge r) (attest_token_offset r) (aux r) (emulatable_abort r) (owner
    r) (vcpuid r) (runnable r) (psci_pending r) (state r) (ripas r) v
    (host_call_pending r).
Definition with_host_call_pending (v : bool) (r : t) : t := mk (context r)
    (attest_state r) (attest_challenge r) (attest_token_offset r) (aux r)
    (emulatable_abort r) (owner r) (vcpuid r) (runnable r) (psci_pending r) (state r)
    (ripas r) (vtcr r) v.

(** SPSR_EL2 with D, A, I, F set and mode EL1h (0b0101). *)
Definition SPSR_RESET : Z :=
  Z.lor (Z.lor (Z.lor (Z.lor (Z.shiftl 1 9) (Z.shiftl 1 8)) (Z.shiftl 1 7)) (Z.shiftl 1 6)) 5.

Definition context_new : Context.t :=
  Context.mk (replicate 31 0) 0 SPSR_RESET (fun _ => 0)
    (GICRegister.mk (replicate 4 0) (replicate 4 0) 0 0 (replicate 16 0) 0)
    (TimerRegister.mk 0 0 0 0 0 0 0)
    (SimdRegister.mk false false (SimdConfig.mk false 0 false) 0 0 (replicate 34 0) 0 0).

Definition new : t :=
  mk context_new NoAttestInProgress (zero_bytes 64) 0 (replicate 16 0)
    NotEmulatableAbort None 0 false false Ready (Ripas.mk 0 0 0 0 0) 0 false.

Definition on_context (f : Context.t -> Context.t) (r : t) : t := with_context (f (context r)) r.
Definition set_sys_reg (k : SysReg) (v : Z) : t -> t :=
  on_context (fun c => Context.with_sys_regs
    (fun k' => if bool_decide (k = k') then v else Context.sys_regs c k') c).

Definition set_runnable (flags : Z) (r : t) : t :=
  with_runnable (negb (Z.land flags 1 =? 0)) r.
Definition set_ripas (start end_ state flags : Z) (r : t) : t :=
  with_ripas (Ripas.mk start end_ start state flags) r.
Definition set_ripas_addr (a : Z) (r : t) : t := with_ripas (Ripas.with_addr a (ripas r)) r.
Definition ripas_addr (r : t) : Z := Ripas.addr (ripas r).
Definition ripas_end (r : t) : Z := Ripas.end_ (ripas r).
Definition ripas_state (r : t) : Z := Ripas.state (ripas r).
Definition ripas_flags (r : t) : Z := Ripas.flags (ripas r).

Definition reset_ctx (r : t) : t :=
  set_sys_reg sctlr 0 (on_context (Context.with_spsr SPSR_RESET) r).

(** [get_owner] / [owner]: the RD's address. *)
Definition get_owner (r : t) : outcome Error Z := ok_or (owner r) RmiErrorRec.

End Rec.

(** [set_reg] / [get_reg] (rec/context.rs). *)
Module RegOffset.
Definition PC : Z := 31.
Definition PSTATE : Z := 32.
End RegOffset.

Definition set_reg (rec : Rec.t) (register value : Z) : outcome Error Rec.t :=
  if (0 <=? register) && (register <=? 30) then
    Ok (Rec.on_context (fun c => Context.with_gp_regs
          (<[Z.to_nat register := value]> (Context.gp_regs c)) c) rec)
  else if register =? RegOffset.PC then Ok (Rec.on_context (Context.with_elr value) rec)
  else if register =? RegOffset.PSTATE then Ok (Rec.on_context (Context.with_spsr value) rec)
  else Err RmiErrorInput.

Definition get_reg (rec : Rec.t) (register : Z) : outcome Error Z :=
  if (0 <=? register) && (register <=? 30) then
    unwrap (Context.gp_regs (Rec.context rec) !! Z.to_nat register)
  else if register =? RegOffset.PC then Ok (Context.elr (Rec.context rec))
  else Err RmiErrorInput.

(** ** Realm metadata (rmi/metadata.rs) *)
Module IsletRealmMetadata.
Record t : Type := mk {
  fmt_version : Z;
  realm_id : list Z;
  rim : list Z;
  hash_algo : Z;
  svn : Z;
  version_major : Z;
  version_minor : Z;
  version_patch : Z;
  public_key : list Z;
  signature : list Z;
  raw : list Z
}.

Definition of_bytes (b : list Z) : t :=
  mk (u64_at 0x0 b) (slice 0x8 128 b) (slice 0x88 64 b) (u64_at 0xc8 b) (u64_at 0xd0 b)
     (u64_at 0xd8 b) (u64_at 0xe0 b) (u64_at 0xe8 b) (slice 0xf0 96 b)
     (slice 0x150 96 b) b.

Definition REALM_METADATA_HEADER_SIZE : Z := 0x150.
Definition header_as_u8_slice (m : t) : list Z := slice 0 REALM_METADATA_HEADER_SIZE (raw m).
End IsletRealmMetadata.

Definition FMT_VERSION : Z := 1.
Definition METADATA_HASH_SHA_256 : Z := 1.
Definition METADATA_HASH_SHA_512 : Z := 2.

Definition is_printable_ascii (c : Z) : bool := (0x20 <=? c) && (c <=? 0x7e).
Fixpoint take_until_nul (l : list Z) : list Z :=
  match l with
  | [] => []
  | c :: l' => if c =? 0 then [] else c :: take_until_nul l'
  end.

Definition metadata_validate (m : IsletRealmMetadata.t) : outcome Error unit :=
  if negb (IsletRealmMetadata.fmt_version m =? FMT_VERSION) then Err RmiErrorInput
  else if IsletRealmMetadata.svn m =? 0 then Err RmiErrorInput
  else if negb ((IsletRealmMetadata.hash_algo m =? METADATA_HASH_SHA_256)
                || (IsletRealmMetadata.hash_algo m =? METADATA_HASH_SHA_512))
  then Err RmiErrorInput
  else if negb (forallb is_printable_ascii (take_until_nul (IsletRealmMetadata.realm_id m)))
  then Err RmiErrorInput
  else Ok tt.

Definition equal_rd_rim (m : IsletRealmMetadata.t) (rim : list Z) : bool :=
  bool_decide (rim = IsletRealmMetadata.rim m).

Definition equal_rd_hash_algo (m : IsletRealmMetadata.t) (hash_algo : Z) : outcome Error bool :=
  if hash_algo =? Rmi.HASH_ALGO_SHA256 then
    Ok (METADATA_HASH_SHA_256 =? IsletRealmMetadata.hash_algo m)
  else if hash_algo =? Rmi.HASH_ALGO_SHA512 then
    Ok (METADATA_HASH_SHA_512 =? IsletRealmMetadata.hash_algo m)
  else Panicked.

(** ** Host call structure (rsi/hostcall.rs) *)
Definition HOST_CALL_NR_GPRS : Z := 31.
Definition HOST_CALL_SIZE : Z := 0x100.
Module HostCall.
Record t : Type := mk {
  imm : Z;
  gprs : list Z
}.
Definition with_gprs (v : list Z) (r : t) : t := mk (imm r) v.

Definition of_bytes (b : list Z) : t := mk (u16_at 0x0 b) (u64s_at 0x8 31 b).

Definition set_gpr (idx v : Z) (h : t) : outcome Error t :=
  if HOST_CALL_NR_GPRS <=? idx then Err RmiErrorInput
  else Ok (with_gprs (<[Z.to_nat idx := v]> (gprs h)) h).
Definition gpr (idx : Z) (h : t) : outcome Error Z :=
  if HOST_CALL_NR_GPRS <=? idx then Err RmiErrorInput
  else unwrap (gprs h !! Z.to_nat idx).

End HostCall.
