(* ===== verification/Machine.v ===== *)
(** * The RMM's state and its access primitives

    The state the handlers share: the granule status table
    (granule/array), the memory of the granules, the VMID set
    (realm/registry.rs), the stage-2 tables of the realms (realm/rd.rs
    [RTT_TABLES]), the RMM's own stage-1 tables (kept in its heap) and the
    locals of the command being handled (its return registers, the [Run]
    structure of a REC entry and the return registers of the realm's call). Execution is one CPU
    handling one command; a granule lock that is already held is never released
    by anybody else, so taking it again spins forever ([Hung]). *)

From stdpp Require Import strings.
From S2P Require Import Prelude Bytes Bits Vmsa RmiTypes Granule S2tte Objects.

(** ** Contents of a 4 KiB page

    Pages shared with the host or a realm are bytes. The RMM's own objects [Rd]
    and [Rec] have no fixed layout ([repr(Rust)], compiler-determined), so a
    page that holds one is typed, and reading it as anything else goes through
    the layout functions of [Platform]. A translation table is 512 words. *)
Inductive content : Type :=
| CData (b : list Z)
| CTable (w : Z -> Z)
| CRd (r : Rd.t)
| CRec (r : Rec.t).

Definition zero_page : content := CData (zero_bytes GRANULE_SIZE).

(** [struct Stage2Translation]; the root table is its address. *)
Record Stage2Translation : Set := mkStage2 {
  root_pgtbl : Z;
  root_level : Z;
  root_pages : Z;
  dirty : bool
}.

(** A TLB invalidation the RMM issued: by entry or by table. *)
Inductive TlbiOp : Set :=
| TlbiLeaf (level ipa vmid : Z)
| TlbiBreakdown (level ipa vmid : Z).

(** [struct GicFeatures] (rec/gic.rs), read from ICH_VTR_EL2 at boot. *)
Record GicFeatures : Set := mkGicFeatures {
  nr_lrs : Z;
  nr_aprs : Z;
  pri_res0_mask : Z;
  max_vintid : Z;
  ext_range : bool
}.

(** The CBOR values the attestation token is built from. *)
Inductive Value : Type :=
| VInteger (n : Z)
| VBytes (b : list Z)
| VText (t : string)
| VArray (l : list Value)
| VMap (m : list (Value * Value))
| VTag (n : Z) (v : Value).

(** What EL3 handed over at boot (rmm_el3/mod.rs). *)
Record El3Keys : Set := mkEl3Keys {
  VHUK_A : list Z;
  VHUK_M : list Z;
  PLAT_TOKEN : list Z;
  REALM_ATTEST_KEY : list Z
}.

(** ** What is outside the sources

    The EL3 firmware behind [smc], the global allocator, the layout of
    [repr(Rust)] structures, the CPU's features and the cryptographic
    libraries. *)
Class Platform := {
  world : Type;
  (** the secure monitor call: eight registers in, eight out *)
  firmware_smc : list Z -> world -> list Z * world;
  (** a page-aligned block for a table, given the blocks in use, or null *)
  heap_alloc : gset Z -> option Z;
  rd_bytes : Rd.t -> list Z;
  rd_of_bytes : list Z -> Rd.t;
  rec_bytes : Rec.t -> list Z;
  rec_of_bytes : list Z -> Rec.t;
  (** [simd::SIMD_CONFIG], read from the ID registers at boot *)
  SIMD_CONFIG : SimdConfig.t;
  (** ID_AA64MMFR1_EL1.VMIDBits is 16 bits *)
  feat_vmid16 : bool;
  sha256 : list Z -> list Z;
  sha512 : list Z -> list Z;
  (** ECDSA P-384 verification of [data] under an untagged public key *)
  p384_verify : list Z -> list Z -> list Z -> bool;
  (** HKDF-SHA256 (salt, input key, info), 32 bytes *)
  hkdf_sha256 : list Z -> list Z -> list Z -> list Z;
  (** CBOR serialization; [SecretKey::from_slice] and the public key of the
      result, [None] where the bytes are not a private key; a tagged COSE_Sign1
      (ES384) of a payload under the private key with these bytes, [None] where
      [SigningKey::from_bytes] or the signature fails *)
  cbor_encode : Value -> list Z;
  p384_public : list Z -> option (list Z);
  cose_sign1 : list Z -> list Z -> option (list Z);
  GIC_FEATURES : GicFeatures;
  (** the field FIPA of HPFAR_EL2, whose width depends on the architecture's
      extensions *)
  HPFAR_FIPA : Z;
  (** From the entry of a realm to its next exit to the RMM: the registers are
      loaded from the context, the realm runs (the lower-EL exception handler
      resumes it or not), and the registers are saved to the context. The four
      words are what the handler left for the RMM. *)
  realm_run : Context.t -> world -> list Z * Context.t * world
}.

(** The documented sizes of digests and keys; a private key that can be
    imported can sign. *)
Class PlatformLaws (P : Platform) := {
  sha256_length d : length (sha256 d) = 32%nat;
  sha512_length d : length (sha512 d) = 64%nat;
  hkdf_sha256_length salt ikm info : length (hkdf_sha256 salt ikm info) = 32%nat;
  hkdf_sha256_bytes salt ikm info : Forall (fun b => 0 <= b < 256) (hkdf_sha256 salt ikm info);
  cose_sign1_key key pk payload : p384_public key = Some pk -> is_Some (cose_sign1 key payload)
}.

Section views.
Context `{Platform}.

Definition bytes_of (c : content) : list Z :=
  match c with
  | CData b => b
  | CTable w => u64s_bytes ((fun i => w (Z.of_nat i)) <$> seq 0 512)
  | CRd r => rd_bytes r
  | CRec r => rec_bytes r
  end.
Definition words_of (c : content) : Z -> Z :=
  match c with
  | CTable w => w
  | _ => fun i => u64_at (8 * i) (bytes_of c)
  end.
Definition rd_of (c : content) : Rd.t :=
  match c with CRd r => r | _ => rd_of_bytes (bytes_of c) end.
Definition rec_of (c : content) : Rec.t :=
  match c with CRec r => r | _ => rec_of_bytes (bytes_of c) end.
End views.

(** ** The state *)
Section state.
Context `{Platform}.

Record rmm : Type := mkRmm {
  gst : Z -> Granule;
  mem : Z -> content;
  locked : gset Z;
  vmid_set : gset Z;
  rtt_tables : gmap Z Stage2Translation;
  heap : gmap Z (Z -> Z);
  pt_root : Z;
  tlbi_log : list TlbiOp;
  ret : list Z;
  run : Run.t;
  rsi_ret : list Z;
  keys : El3Keys;
  env : world
}.

Definition set_gst (v : Z -> Granule) (s : rmm) : rmm := mkRmm v (mem s) (locked s)
  (vmid_set s) (rtt_tables s) (heap s) (pt_root s) (tlbi_log s) (ret s) (run s)
  (rsi_ret s) (keys s) (env s).
Definition set_mem (v : Z -> content) (s : rmm) : rmm := mkRmm (gst s) v (locked s)
  (vmid_set s) (rtt_tables s) (heap s) (pt_root s) (tlbi_log s) (ret s) (run s)
  (rsi_ret s) (keys s) (env s).
Definition set_locked (v : gset Z) (s : rmm) : rmm := mkRmm (gst s) (mem s) v
  (vmid_set s) (rtt_tables s) (heap s) (pt_root s) (tlbi_log s) (ret s) (run s)
  (rsi_ret s) (keys s) (env s).
Definition set_vmid_set (v : gset Z) (s : rmm) : rmm := mkRmm (gst s) (mem s)
  (locked s) v (rtt_tables s) (heap s) (pt_root s) (tlbi_log s) (ret s) (run s)
  (rsi_ret s) (keys s) (env s).
Definition set_rtt_tables (v : gmap Z Stage2Translation) (s : rmm) : rmm := mkRmm
  (gst s) (mem s) (locked s) (vmid_set s) v (heap s) (pt_root s) (tlbi_log s) (ret
  s) (run s) (rsi_ret s) (keys s) (env s).
Definition set_heap (v : gmap Z (Z -> Z)) (s : rmm) : rmm := mkRmm (gst s) (mem s)
  (locked s) (vmid_set s) (rtt_tables s) v (pt_root s) (tlbi_log s) (ret s) (run s)
  (rsi_ret s) (keys s) (env s).
Definition set_tlbi_log (v : list TlbiOp) (s : rmm) : rmm := mkRmm (gst s) (mem s)
  (locked s) (vmid_set s) (rtt_tables s) (heap s) (pt_root s) v (ret s) (run s)
  (rsi_ret s) (keys s) (env s).
Definition set_ret (v : list Z) (s : rmm) : rmm := mkRmm (gst s) (mem s) (locked s)
  (vmid_set s) (rtt_tables s) (heap s) (pt_root s) (tlbi_log s) v (run s) (rsi_ret
  s) (keys s) (env s).
Definition set_run (v : Run.t) (s : rmm) : rmm := mkRmm (gst s) (mem s) (locked s)
  (vmid_set s) (rtt_tables s) (heap s) (pt_root s) (tlbi_log s) (ret s) v (rsi_ret
  s) (keys s) (env s).
Definition set_rsi_ret (v : list Z) (s : rmm) : rmm := mkRmm (gst s) (mem s) (locked
  s) (vmid_set s) (rtt_tables s) (heap s) (pt_root s) (tlbi_log s) (ret s) (run s) v
  (keys s) (env s).
Definition set_env (v : world) (s : rmm) : rmm := mkRmm (gst s) (mem s) (locked s)
  (vmid_set s) (rtt_tables s) (heap s) (pt_root s) (tlbi_log s) (ret s) (run s)
  (rsi_ret s) (keys s) v.

(** Updates of one page or one granule entry *)
Definition write_page (a : Z) (c : content) (s : rmm) : rmm :=
  set_mem (<[a := c]> (mem s)) s.
Definition update_granule (idx : Z) (f : Granule -> Granule) (s : rmm) : rmm :=
  set_gst (<[idx := f (gst s idx)]> (gst s)) s.

Definition read_rd (a : Z) : M rmm Error Rd.t := gets (fun s => rd_of (mem s a)).
Definition write_rd (a : Z) (r : Rd.t) : M rmm Error unit := modify (write_page a (CRd r)).
Definition update_rd (a : Z) (f : Rd.t -> Rd.t) : M rmm Error unit :=
  r ← read_rd a; write_rd a (f r).
Definition read_rec (a : Z) : M rmm Error Rec.t := gets (fun s => rec_of (mem s a)).
Definition write_rec (a : Z) (r : Rec.t) : M rmm Error unit := modify (write_page a (CRec r)).
Definition update_rec (a : Z) (f : Rec.t -> Rec.t) : M rmm Error unit :=
  r ← read_rec a; write_rec a (f r).

(** The command's argument registers, and its return registers
    ([&mut [usize]] of the length [constraint::pick] gives): an index out of
    range panics. *)
Definition argn (arg : list Z) (i : nat) : M rmm Error Z := lift (unwrap (arg !! i)).
Definition set_ret_reg (i : nat) (v : Z) : M rmm Error unit := fun s =>
  if decide (i < length (ret s))%nat then (Ok tt, set_ret (<[i := v]> (ret s)) s)
  else (Panicked, s).

(** ** Granule locks (granule/array) *)
Definition lock_entry (idx : Z) : M rmm Error unit := fun s =>
  if decide (idx ∈ locked s) then (Hung, s)
  else (Ok tt, set_locked ({[idx]} ∪ locked s) s).

(** The guard is dropped when [m] is left, whatever it returns. *)
Definition scoped {A} (idx : Z) (m : M rmm Error A) : M rmm Error A := fun s =>
  let '(r, s') := m s in (r, set_locked (locked s' ∖ {[idx]}) s').

(** [get_granule!(addr)?], the guard living as long as [k]. *)
Definition with_granule {A} (addr : Z) (k : Z -> M rmm Error A) : M rmm Error A :=
  if negb (validate_addr addr) then throw RmiErrorInput
  else
    let idx := granule_addr_to_index addr in
    if GRANULE_STATUS_TABLE_SIZE <=? idx then throw RmiErrorInput
    else lock_entry idx;; scoped idx (k idx).

(** [get_granule_if!(addr, state)?] *)
Definition with_granule_if {A} (addr st : Z) (k : Z -> M rmm Error A) : M rmm Error A :=
  with_granule addr (fun idx =>
    g ← gets (fun s => gst s idx);
    if state g =? st then k idx else throw RmiErrorInput).

(** [get_granule_if!(addr, state).is_ok()], the guard dropped at once *)
Definition check_granule_if (addr st : Z) : M rmm Error bool :=
  g ← ok (with_granule_if addr st (fun _ => mret tt));
  mret (bool_decide (is_Some g)).
Definition is_not_in_realm (addr : Z) : M rmm Error bool :=
  check_granule_if addr GranuleState.Undelegated.

(** [Granule::zeroize] *)
Definition zeroize (idx : Z) : M rmm Error unit :=
  modify (write_page (index_to_addr idx) zero_page).

(** [set_granule] / [Granule::set_state]: it never fails. *)
Definition set_granule (idx st : Z) : M rmm Error unit :=
  g ← gets (fun s => gst s idx);
  (if set_state_zeroizes (state g) st then zeroize idx else mret tt);;
  modify (update_granule idx (fun g => mkGranule st (ref_count g))).

(** ** The secure monitor call (asm.rs) *)
Definition SMC_SUCCESS : Z := 0.
Definition smc (cmd : Z) (args : list Z) : M rmm Error (list Z) := fun s =>
  if decide (7 < 1 + length args)%nat then (Ok (replicate 8 0), s)
  else
    let padded := (cmd :: args) ++ replicate (7 - length args) 0 in
    let '(r, w) := firmware_smc padded (env s) in (Ok r, set_env w s).

(** ** Host memory (host.rs) *)
Definition copy_from {T} (of_bytes : list Z -> T) (addr : Z) : M rmm Error (option T) :=
  b ← check_granule_if addr GranuleState.Undelegated;
  if (b : bool) then gets (fun s => Some (of_bytes (bytes_of (mem s addr))))
  else mret None.

(** [copy_to_obj::<DataPage>(src, &mut *dst)], [dst] in granule memory. *)
Definition copy_to_obj (src dst : Z) : M rmm Error (option unit) :=
  b ← check_granule_if src GranuleState.Undelegated;
  if (b : bool) then
    (s ← get_state; modify (write_page dst (CData (bytes_of (mem s src)))));; mret (Some tt)
  else mret None.

Definition copy_to_ptr {T} (to_bytes : T -> list Z) (src : T) (dst : Z) : M rmm Error (option unit) :=
  b ← check_granule_if dst GranuleState.Undelegated;
  if (b : bool) then modify (write_page dst (CData (to_bytes src)));; mret (Some tt)
  else mret None.

(** ** VMIDs (realm/registry.rs, rmi/realm/mod.rs) *)
Definition create_realm (vmid : Z) : M rmm Error unit :=
  vs ← gets vmid_set;
  if decide (vmid ∈ vs) then throw RmiErrorInput
  else modify (set_vmid_set ({[vmid]} ∪ vs)).

Definition remove (id : Z) : M rmm Error unit :=
  vs ← gets vmid_set;
  if decide (id ∈ vs) then modify (set_vmid_set (vs ∖ {[id]})) else throw RmiErrorInput.
End state.
Arguments rmm {_}.
