(* ===== verification/PageTable.v ===== *)
(** * Generic page tables (lib/vmsa/src/page_table.rs)

    The [Entry] trait as a class, and the recursive walk over tables in memory.
    [depth] is the number of levels below the table ([L3Table] has none), so
    [L::THIS_LEVEL] is [3 - depth]; [table_size] is [L::TABLE_SIZE], and a
    subtable always has one page. A table is its address; [self.entries[i]] is
    the word at [base + 8 * i], an index out of range panics. *)

From S2P Require Import Prelude Bits Vmsa RmiTypes.

(** [trait Entry] on the raw descriptor *)
Class EntryOps := {
  e_is_valid : Z -> bool;
  e_address : Z -> Z -> option Z;
  e_set : Z -> Z -> Z;
  e_point_to_subtable : Z -> Z;
  e_index : Z -> Z -> Z -> outcome MmError Z;
  e_points_to_table_or_page : Z -> bool
}.

(** The memory the tables live in. *)
Class WordMem (S : Type) := {
  read_word : Z -> S -> Z;
  write_word : Z -> Z -> S -> S
}.

(** [PageTable::new_in]: a zeroed table from the allocator. *)
Class TableAlloc (S : Type) := new_in : M S MmError Z.

Definition TABLE_SIZE : Z := Config.PAGE_SIZE.
Definition ENTRY_SIZE : Z := 8.
Definition this_level (depth : nat) : Z := 3 - Z.of_nat depth.

Section page_table.
Context {S : Type} `{EntryOps, !WordMem S}.
(** [S::MAP_TABLE_LEVEL] and [S::MAP_EXTRA_FLAG] of the page size *)
Variables MAP_TABLE_LEVEL MAP_EXTRA_FLAG : Z.

(** [&self.entries[E::index::<L>(page)]] *)
Definition slot (depth : nat) (base table_size page : Z) : outcome MmError Z :=
  index ← e_index (this_level depth) table_size page;
  if index <? table_size / ENTRY_SIZE then Ok (base + ENTRY_SIZE * index) else Panicked.

(** [PageTable::subtable] *)
Definition subtable (depth : nat) (base table_size page : Z) : M S MmError Z :=
  if MAP_TABLE_LEVEL <=? this_level depth then panic
  else
    a ← lift (slot depth base table_size page);
    v ← gets (read_word a);
    if negb (e_points_to_table_or_page v) then throw MmSubtableError
    else match e_address v (this_level depth) with
         | Some t => mret t
         | None => throw MmSubtableError
         end.

(** [PageTableMethods::entry]: what [func] returned and the level reached;
    [func] gets the address of the entry reached, and is not called when a
    subtable cannot be followed. *)
Fixpoint entry {A} (depth : nat) (base table_size page level : Z) (no_valid_check : bool)
    (func : Z -> M S MmError A) : M S MmError (option A * Z) :=
  let this := this_level depth in
  match depth with
  | O =>
      if negb (this =? MAP_TABLE_LEVEL) then panic
      else if MAP_TABLE_LEVEL <? level then throw MmInvalidLevel
      else if negb (level =? this) then throw MmInvalidLevel
      else
        a ← lift (slot depth base table_size page);
        if no_valid_check then r ← func a; mret (Some r, this)
        else
          v ← gets (read_word a);
          if e_is_valid v then r ← func a; mret (Some r, this) else throw MmNoEntry
  | Datatypes.S depth' =>
      if MAP_TABLE_LEVEL <? this then panic
      else if MAP_TABLE_LEVEL <? level then throw MmInvalidLevel
      else
        a ← lift (slot depth base table_size page);
        v ← gets (read_word a);
        if negb no_valid_check && negb (e_is_valid v) then throw MmNoEntry
        else if (this <? level) && e_points_to_table_or_page v then
          st ← ok (subtable depth base table_size page);
          match st with
          | Some t => entry depth' t TABLE_SIZE page level no_valid_check func
          | None => mret (None, this)
          end
        else r ← func a; mret (Some r, this)
  end.

(** [PageTableMethods::table_entries]: the table reached, its size and level. *)
Fixpoint table_entries (depth : nat) (base table_size page level : Z)
    : M S MmError (Z * Z * Z) :=
  let this := this_level depth in
  match depth with
  | O => mret (base, table_size, this)
  | Datatypes.S depth' =>
      if MAP_TABLE_LEVEL <? this then panic
      else if MAP_TABLE_LEVEL <? level then throw MmInvalidLevel
      else if this <? level then
        st ← ok (subtable depth base table_size page);
        match st with
        | Some t => table_entries depth' t TABLE_SIZE page level
        | None => mret (base, table_size, this)
        end
      else mret (base, table_size, this)
  end.

(** [PageTableMethods::set_page] *)
Fixpoint set_page `{!TableAlloc S} (depth : nat) (base table_size guest phys flags : Z)
    : M S MmError unit :=
  let this := this_level depth in
  match depth with
  | O =>
      if negb (this =? MAP_TABLE_LEVEL) then panic
      else
        a ← lift (slot depth base table_size guest);
        modify (write_word a (e_set phys (Z.lor flags MAP_EXTRA_FLAG)))
  | Datatypes.S depth' =>
      if MAP_TABLE_LEVEL <? this then panic
      else
        a ← lift (slot depth base table_size guest);
        if this <? MAP_TABLE_LEVEL then
          st ← catch (subtable depth base table_size guest)
                 (fun _ => t ← new_in;
                           modify (write_word a (e_point_to_subtable t));; mret t);
          set_page depth' st TABLE_SIZE guest phys flags
        else if this =? MAP_TABLE_LEVEL then
          modify (write_word a (e_set phys (Z.lor flags MAP_EXTRA_FLAG)))
        else throw MmInvalidLevel
  end.

(** [set_pages]: one round takes a page from each iterator; running out of
    physical pages is an [unwrap] on [None]. The page counter wraps, so a
    range that ends at the top of the address space goes on until a table
    cannot be allocated; 2^53 rounds are more than twice around. *)
Definition SET_PAGES_BOUND : positive := 2 ^ 53.

Definition set_pages `{!TableAlloc S} (depth : nat) (base table_size : Z)
    (guest phys : PageIter) (flags : Z) : M S MmError unit :=
  loop_or_hang (fun '(guest, phys) =>
    match next Config.PAGE_SIZE guest with
    | (None, _) => mret (inr tt)
    | (Some g, guest') =>
        match next Config.PAGE_SIZE phys with
        | (None, _) => panic
        | (Some p, phys') =>
            set_page depth base table_size g p flags;; mret (inl (guest', phys'))
        end
    end) SET_PAGES_BOUND (guest, phys).

(** [unset_page]: [entry] with [clear]; its result is dropped. *)
Definition unset_page (depth : nat) (base table_size guest : Z) : M S MmError unit :=
  a ← lift (slot depth base table_size guest);
  v ← gets (read_word a);
  if e_is_valid v then
    catch (entry depth base table_size guest MAP_TABLE_LEVEL false
             (fun e => modify (write_word e 0));; mret tt)
          (fun _ => mret tt)
  else mret tt.
End page_table.

(** ** The walk as a pure function

    [walk rd .. level] is the path a walk to [level] takes through the tables
    read by [rd]: the slots of the table descriptors it passes, the slot of the
    last entry and its level. *)
Class EntryLaws `{EntryOps} := {
  e_points_address v level :
    e_points_to_table_or_page v = true -> is_Some (e_address v level);
  e_points_valid v : e_points_to_table_or_page v = true -> e_is_valid v = true;
  e_index_nonneg l tsz page i : e_index l tsz page = Ok i -> 0 <= i;
  e_index_subtable depth page :
    (depth < 3)%nat -> exists i, e_index (this_level depth) TABLE_SIZE page = Ok i /\ i < 512;
  e_index_ok depth tsz page :
    (depth <= 3)%nat -> exists i, e_index (this_level depth) tsz page = Ok i
}.

Section walk.
Context `{EntryOps}.

Fixpoint walk (rd : Z -> Z) (depth : nat) (base table_size page level : Z)
    : outcome MmError (list Z * Z * Z) :=
  a ← slot depth base table_size page;
  match depth with
  | O => Ok ([], a, this_level depth)
  | S depth' =>
      if (this_level depth <? level) && e_points_to_table_or_page (rd a) then
        '(pre, b, l) ← walk rd depth' (default 0 (e_address (rd a) (this_level depth)))
                         TABLE_SIZE page level;
        Ok (a :: pre, b, l)
      else Ok ([], a, this_level depth)
  end.
End walk.

Section walk_facts.
Context {S : Type} `{EntryLaws, !WordMem S}.

Lemma walk_unfold_table rd depth base tsz page level a pre b l :
  slot (Datatypes.S depth) base tsz page = Ok a ->
  this_level (Datatypes.S depth) < level ->
  e_points_to_table_or_page (rd a) = true ->
  walk rd depth (default 0 (e_address (rd a) (this_level (Datatypes.S depth))))
    TABLE_SIZE page level = Ok (pre, b, l) ->
  walk rd (Datatypes.S depth) base tsz page level = Ok (a :: pre, b, l).
Proof.
  intros Ha Hl Hp Hw. cbn [walk]. rewrite Ha. simpl mbind.
  rewrite (proj2 (Z.ltb_lt _ _)), Hp by done. cbn [andb]. by rewrite Hw.
Qed.

(** Inversion of a walk that starts at a table with subtables. *)
Lemma walk_inv rd depth base tsz page level pre b l :
  walk rd (Datatypes.S depth) base tsz page level = Ok (pre, b, l) ->
  exists a, slot (Datatypes.S depth) base tsz page = Ok a /\
  ((pre = [] /\ b = a /\ l = this_level (Datatypes.S depth) /\
    (this_level (Datatypes.S depth) <? level) && e_points_to_table_or_page (rd a) = false) \/
   (exists pre', pre = a :: pre' /\ this_level (Datatypes.S depth) < level /\
      e_points_to_table_or_page (rd a) = true /\
      walk rd depth (default 0 (e_address (rd a) (this_level (Datatypes.S depth))))
        TABLE_SIZE page level = Ok (pre', b, l))).
Proof.
  cbn [walk]. destruct (slot _ _ _ _) as [a| | |] eqn:Ea; simpl; intros Hw; simplify_eq.
  exists a. split; [done|].
  destruct ((this_level (Datatypes.S depth) <? level)
            && e_points_to_table_or_page (rd a)) eqn:Ec; simplify_eq.
  - right. apply andb_true_iff in Ec as [Hl Hp]. apply Z.ltb_lt in Hl.
    destruct (walk _ _ _ _ _ _) as [[[pre' b'] l']| | |] eqn:Ew; simplify_eq/=.
    by exists pre'.
  - left. done.
Qed.

(** The level reached is between the root's and the one asked for; a walk
    that stops early stopped at an entry that is not a table. *)
Lemma walk_level rd depth base tsz page level pre b l :
  walk rd depth base tsz page level = Ok (pre, b, l) ->
  this_level depth <= l <= 3 /\ l <= Z.max level (this_level depth) /\
  l = this_level depth + Z.of_nat (length pre) /\
  (l < level -> l < 3 -> e_points_to_table_or_page (rd b) = false).
Proof.
  revert base tsz pre. induction depth as [|depth IH]; intros base tsz pre Hw.
  - cbn [walk] in Hw. destruct (slot _ _ _ _); simplify_eq/=.
    unfold this_level. simpl. split_and!; lia.
  - apply walk_inv in Hw as (a & Ha & [(-> & -> & -> & Hc)|(pre' & -> & Hl & Hp & Hw)]).
    + unfold this_level in *. split_and!; simpl; try lia.
      intros Hlt _. by rewrite (proj2 (Z.ltb_lt _ _)) in Hc by lia.
    + apply IH in Hw as (Hr & Hmx & Hlen & Hs). unfold this_level in *. simpl in *.
      split_and!; try lia. exact Hs.
Qed.

(** Two memories that agree on the descriptors a walk passes and on the last
    entry's being a table give the same walk. *)
Lemma walk_ext rd rd' depth base tsz page level pre b l :
  walk rd depth base tsz page level = Ok (pre, b, l) ->
  (forall a, a ∈ pre -> rd' a = rd a) ->
  (l < level -> l < 3 -> e_points_to_table_or_page (rd' b) = false) ->
  walk rd' depth base tsz page level = Ok (pre, b, l).
Proof.
  revert base tsz pre. induction depth as [|depth IH]; intros base tsz pre Hw Hpre Hb.
  - exact Hw.
  - apply walk_inv in Hw as (a & Ha & [(-> & -> & -> & Hc)|(pre' & -> & Hl & Hp & Hw)]).
    + cbn [walk]. rewrite Ha. simpl mbind.
      destruct (this_level (Datatypes.S depth) <? level) eqn:El; [|done].
      apply Z.ltb_lt in El. rewrite Hb; [done|done|unfold this_level; lia].
    + assert (rd' a = rd a) as Ea by (apply Hpre; set_solver).
      apply walk_unfold_table; [done|done|by rewrite Ea|].
      rewrite Ea. apply IH; [done| |done]. intros x Hx. apply Hpre. set_solver.
Qed.

(** A table put in place of the entry a walk to level [l] ends at: a walk one
    level further, for a page of the same level-[l] block, ends in it. *)
Lemma walk_extend rd rd' depth base tsz page page' l pre b b' :
  walk rd depth base tsz page l = Ok (pre, b, l) -> l < 3 ->
  (forall d sz, this_level d <= l -> e_index (this_level d) sz page' = e_index (this_level d) sz page) ->
  (forall a, a ∈ pre -> rd' a = rd a) ->
  e_points_to_table_or_page (rd' b) = true ->
  slot (Z.to_nat (2 - l)) (default 0 (e_address (rd' b) l)) TABLE_SIZE page' = Ok b' ->
  walk rd' depth base tsz page' (l + 1) = Ok (pre ++ [b], b', l + 1).
Proof.
  intros Hw Hl Hidx. revert base tsz pre Hw.
  induction depth as [|depth IH]; intros base tsz pre Hw Hpre Hp Hs.
  - cbn [walk] in Hw. destruct (slot _ _ _ _); simplify_eq/=. unfold this_level in Hl. simpl in Hl. lia.
  - assert (forall a, slot (Datatypes.S depth) base tsz page = Ok a ->
      this_level (Datatypes.S depth) <= l -> slot (Datatypes.S depth) base tsz page' = Ok a) as Hsl
      by (intros a; unfold slot; intros Ha Hle; by rewrite Hidx).
    apply walk_inv in Hw as (a & Ha & [(-> & -> & Hlv & _)|(pre' & -> & Hlt & Hpt & Hw)]).
    + assert (depth = Z.to_nat (2 - l)) as Ed by (rewrite Hlv; unfold this_level; lia).
      simpl app. rewrite Hlv in Hs at 2. eapply walk_unfold_table.
      * apply Hsl; [done|lia].
      * lia.
      * exact Hp.
      * rewrite <- Ed in Hs. destruct depth as [|depth']; cbn [walk].
        -- rewrite Hs. simpl. do 2 f_equal. rewrite Hlv. unfold this_level. lia.
        -- rewrite Hs. simpl mbind. rewrite (proj2 (Z.ltb_ge _ _)) by (unfold this_level in *; lia).
           simpl. do 2 f_equal. unfold this_level in *. lia.
    + assert (rd' a = rd a) as Ea by (apply Hpre; set_solver).
      simpl app. eapply walk_unfold_table.
      * apply Hsl; [done|lia].
      * lia.
      * by rewrite Ea.
      * rewrite Ea. apply IH; [done| |done|done]. intros x Hx. apply Hpre. set_solver.
Qed.

(** A walk never fails on a table whose indices are in range: the subtables
    always are. *)
Lemma walk_total rd depth base tsz page level :
  (depth <= 3)%nat ->
  (exists a, slot depth base tsz page = Ok a) ->
  exists pre b l, walk rd depth base tsz page level = Ok (pre, b, l).
Proof.
  revert base tsz. induction depth as [|depth IH]; intros base tsz Hd [a Ha].
  - cbn [walk]. rewrite Ha. simpl. eauto.
  - cbn [walk]. rewrite Ha. simpl mbind. destruct (_ && _); [|eauto].
    edestruct (IH (default 0 (e_address (rd a) (this_level (Datatypes.S depth)))) TABLE_SIZE)
      as (pre & b & l & Hw).
    { lia. }
    { destruct (e_index_subtable depth page) as (i & Hi & Hlt); [lia|].
      unfold slot. rewrite Hi. simpl. change (TABLE_SIZE / ENTRY_SIZE) with 512.
      rewrite (proj2 (Z.ltb_lt _ _)) by done. eauto. }
    rewrite Hw. simpl. eauto.
Qed.

(** The only failure is an index beyond the (root) table. *)
Lemma walk_panic rd depth base tsz page level :
  slot depth base tsz page = Panicked -> walk rd depth base tsz page level = Panicked.
Proof. intros Hs. destruct depth; cbn [walk]; by rewrite Hs. Qed.
(** A walk that ends at level [l] because it asked for no more: asked for
    level 3, it ends at the same entry unless that is a table descriptor, and
    then it ends below. *)
Lemma walk_deeper rd depth base tsz page l pre b :
  (depth <= 3)%nat -> walk rd depth base tsz page l = Ok (pre, b, l) ->
  if (l <? 3) && e_points_to_table_or_page (rd b)
  then exists pre' b' l', walk rd depth base tsz page 3 = Ok (pre', b', l') /\ l < l'
  else walk rd depth base tsz page 3 = Ok (pre, b, l).
Proof.
  revert base tsz pre. induction depth as [|depth IH]; intros base tsz pre Hd Hw.
  - cbn [walk] in *. destruct (slot _ _ _ _); simplify_eq/=. done.
  - apply walk_inv in Hw as (a & Ha & [(-> & -> & Hl & Hc)|(pre' & -> & Hl & Hp & Hw)]).
    + cbn [walk]. rewrite Ha, <- Hl. simpl mbind.
      destruct ((l <? 3) && e_points_to_table_or_page (rd a)) eqn:E; [|done].
      destruct (walk_total rd depth (default 0 (e_address (rd a) l)) TABLE_SIZE page 3)
        as (pre' & b' & l' & Hw'); [lia| |].
      { destruct (e_index_subtable depth page) as (i & Hi & Hlt); [lia|].
        unfold slot. rewrite Hi. simpl mbind.
        change (TABLE_SIZE / ENTRY_SIZE) with 512. rewrite (proj2 (Z.ltb_lt i 512)) by lia. eauto. }
      rewrite Hw'. simpl. eexists _, _, _. split; [done|].
      apply walk_level in Hw' as ([Hx _] & _). unfold this_level in *. lia.
    + specialize (IH _ _ _ ltac:(lia) Hw). assert (this_level (Datatypes.S depth) < 3) by (unfold this_level; lia).
      destruct ((l <? 3) && e_points_to_table_or_page (rd b)).
      * destruct IH as (pre2 & b2 & l2 & Hw2 & Hlt). eexists _, _, _. split; [|exact Hlt].
        by apply walk_unfold_table.
      * by apply walk_unfold_table.
Qed.
End walk_facts.

(** ** [entry] without the validity check is [walk] *)
Section entry_walk.
Context {S : Type} `{EntryLaws, !WordMem S}.

Lemma subtable_ok depth base tsz page a (s : S) :
  this_level depth < 3 ->
  slot depth base tsz page = Ok a ->
  e_points_to_table_or_page (read_word a s) = true ->
  subtable 3 depth base tsz page s
  = (Ok (default 0 (e_address (read_word a s) (this_level depth))), s).
Proof.
  intros Hl Ha Hp. unfold subtable. rewrite (proj2 (Z.leb_gt _ _)) by done.
  rewrite Ha. unfold mbind, M_bind; simpl. rewrite Hp. simpl.
  by destruct (e_points_address _ (this_level depth) Hp) as [t ->].
Qed.

Lemma entry_walk {A} depth base tsz page level (func : Z -> M S MmError A) (s : S) pre b l :
  depth <> O \/ level = 3 -> level <= 3 ->
  walk (fun a => read_word a s) depth base tsz page level = Ok (pre, b, l) ->
  entry 3 depth base tsz page level true func s = (r ← func b; mret (Some r, l)) s.
Proof.
  revert base tsz pre. induction depth as [|depth IH]; intros base tsz pre Hd Hlv Hw.
  - destruct Hd as [| ->]; [done|]. cbn [walk entry] in *.
    destruct (slot _ _ _ _) as [a| | |] eqn:Ea; simplify_eq/=. done.
  - apply walk_inv in Hw as (a & Ha & Hw). cbv beta in Hw. cbn [entry].
    rewrite (proj2 (Z.ltb_ge 3 (this_level _))) by (unfold this_level; lia).
    rewrite (proj2 (Z.ltb_ge 3 level)) by lia.
    rewrite Ha. mstep. cbn [negb andb].
    destruct Hw as [(-> & -> & -> & Hc)|(pre' & -> & Hl & Hp & Hw)].
    + by rewrite Hc.
    + rewrite (proj2 (Z.ltb_lt _ _)), Hp by done. cbn [andb].
      unfold mbind at 1, M_bind at 1, ok.
      rewrite (subtable_ok _ _ _ _ a) by (done || unfold this_level in *; lia).
      eapply IH; [|done|exact Hw]. destruct depth; [right|by left].
      unfold this_level in Hl. simpl in Hl. lia.
Qed.

(** With the validity check, a walk that ends at a valid entry: the
    descriptors on the way are valid since they are followed. *)
Lemma entry_walk_valid {A} depth base tsz page level (func : Z -> M S MmError A) (s : S) pre b l :
  depth <> O \/ level = 3 -> level <= 3 ->
  walk (fun a => read_word a s) depth base tsz page level = Ok (pre, b, l) ->
  e_is_valid (read_word b s) = true ->
  entry 3 depth base tsz page level false func s = (r ← func b; mret (Some r, l)) s.
Proof.
  revert base tsz pre. induction depth as [|depth IH]; intros base tsz pre Hd Hlv Hw Hv.
  - destruct Hd as [| ->]; [done|]. cbn [walk entry] in *.
    destruct (slot _ _ _ _) as [a| | |] eqn:Ea; simplify_eq/=. mstep. by rewrite Hv.
  - apply walk_inv in Hw as (a & Ha & Hw). cbv beta in Hw. cbn [entry].
    rewrite (proj2 (Z.ltb_ge 3 (this_level _))) by (unfold this_level; lia).
    rewrite (proj2 (Z.ltb_ge 3 level)) by lia.
    rewrite Ha. mstep. cbn [negb andb].
    destruct Hw as [(-> & -> & -> & Hc)|(pre' & -> & Hl & Hp & Hw)].
    + rewrite Hv. cbn [negb]. by rewrite Hc.
    + rewrite (e_points_valid _ Hp). cbn [negb].
      rewrite (proj2 (Z.ltb_lt _ _)), Hp by done. cbn [andb].
      unfold mbind at 1, M_bind at 1, ok.
      rewrite (subtable_ok _ _ _ _ a) by (done || unfold this_level in *; lia).
      eapply IH; [|done|exact Hw|done]. destruct depth; [right|by left].
      unfold this_level in Hl. simpl in Hl. lia.
Qed.

Lemma entry_panic {A} depth base tsz page level (func : Z -> M S MmError A) (s : S) :
  level <= 3 -> depth <> O -> slot depth base tsz page = Panicked ->
  entry 3 depth base tsz page level true func s = (Panicked, s).
Proof.
  intros Hl Hd Hs. destruct depth as [|depth]; [done|]. cbn [entry].
  rewrite (proj2 (Z.ltb_ge 3 (this_level _))) by (unfold this_level; lia).
  rewrite (proj2 (Z.ltb_ge 3 level)) by lia. by rewrite Hs.
Qed.

Lemma entry_high_level {A} depth base tsz page level chk (func : Z -> M S MmError A) (s : S) :
  3 < level -> entry 3 depth base tsz page level chk func s = (Err MmInvalidLevel, s).
Proof.
  intros Hl. destruct depth as [|depth]; cbn [entry].
  - unfold this_level. simpl. by rewrite (proj2 (Z.ltb_lt 3 level)) by lia.
  - rewrite (proj2 (Z.ltb_ge 3 (this_level _))) by (unfold this_level; lia).
    by rewrite (proj2 (Z.ltb_lt 3 level)) by lia.
Qed.
End entry_walk.
