(* ===== verification/Stage1.v ===== *)
(** * The RMM's own stage-1 tables (rmm/src/mm)

    mm/page_table/{attr,entry}.rs, mm/page.rs and mm/translation.rs: the
    descriptors, the walk from level 1 (39-bit addresses) and the [map] /
    [unmap] operations the handlers use around accesses to granules. The tables
    live in the RMM's heap, which is disjoint from granule memory. *)

From S2P Require Import Prelude Bytes Bits Vmsa RmiTypes Granule S2tte Objects Machine PageTable.

Module PTDesc.
Definition UXN : Z := define_mask 54 54.
Definition PXN : Z := define_mask 53 53.
Definition ADDR_BLK_L1 : Z := define_mask 47 30.
Definition ADDR_BLK_L2 : Z := define_mask 47 21.
Definition ADDR_TBL_OR_PAGE : Z := define_mask 47 12.
Definition AF : Z := define_mask 10 10.
Definition SH : Z := define_mask 9 8.
Definition AP : Z := define_mask 7 6.
Definition NS : Z := define_mask 5 5.
Definition INDX : Z := define_mask 4 2.
Definition TYPE : Z := define_mask 1 1.
Definition VALID : Z := define_mask 0 0.
End PTDesc.

(** attr.rs *)
Module s1attr.
Definition INNER : Z := 3.
Definition RW : Z := 0.
Definition RO : Z := 2.
Definition BLOCK : Z := 0.
Definition TABLE_OR_PAGE : Z := 1.
Definition RMM_MEM : Z := 0.
Definition DEVICE_MEM : Z := 1.
End s1attr.

(** ** [impl Entry for Entry] *)
Definition s1_is_valid (e : Z) : bool := negb (get_masked_value e PTDesc.VALID =? 0).

Definition s1_address (e level : Z) : option Z :=
  if s1_is_valid e then
    let ty := get_masked_value e PTDesc.TYPE in
    if ty =? s1attr.TABLE_OR_PAGE then Some (get_masked e PTDesc.ADDR_TBL_OR_PAGE)
    else if ty =? s1attr.BLOCK then
      if level =? 1 then Some (get_masked e PTDesc.ADDR_BLK_L1)
      else if level =? 2 then Some (get_masked e PTDesc.ADDR_BLK_L2)
      else None
    else None
  else None.

Definition s1_set (addr flags : Z) : Z := Z.lor addr flags.

Definition s1_point_to_subtable (addr : Z) : Z :=
  let flags := set_masked_value 0 PTDesc.INDX s1attr.RMM_MEM in
  let flags := set_masked_value flags PTDesc.TYPE s1attr.TABLE_OR_PAGE in
  let flags := set_masked_value flags PTDesc.SH s1attr.INNER in
  let flags := set_bits flags (Z.lor PTDesc.AF PTDesc.VALID) in
  s1_set addr flags.

Definition s1_index (this_level : Z) (_ : Z) (addr : Z) : outcome MmError Z :=
  if this_level =? 0 then Ok (get_masked_value addr RawGPA.L0Index)
  else if this_level =? 1 then Ok (get_masked_value addr RawGPA.L1Index)
  else if this_level =? 2 then Ok (get_masked_value addr RawGPA.L2Index)
  else if this_level =? 3 then Ok (get_masked_value addr RawGPA.L3Index)
  else Panicked.

Definition s1_points_to_table_or_page (e : Z) : bool :=
  if s1_is_valid e then get_masked_value e PTDesc.TYPE =? s1attr.TABLE_OR_PAGE else false.

#[local] Instance s1_entry_ops : EntryOps := {|
  e_is_valid := s1_is_valid;
  e_address := s1_address;
  e_set := s1_set;
  e_point_to_subtable := s1_point_to_subtable;
  e_index := s1_index;
  e_points_to_table_or_page := s1_points_to_table_or_page
|}.

(** Tables in the heap. *)
Definition heap_t : Type := gmap Z (Z -> Z).
Definition heap_page (a : Z) : Z := a / 4096 * 4096.
Definition heap_word (a : Z) : Z := (a mod 4096) / 8.
#[local] Instance heap_words : WordMem heap_t := {|
  read_word a h := default (fun _ => 0) (h !! heap_page a) (heap_word a);
  write_word a v h :=
    <[heap_page a := <[heap_word a := v]> (default (fun _ => 0) (h !! heap_page a))]> h
|}.

Section stage1.
Context `{Platform}.

(** [PageTable::new_in(&DefaultMemAlloc {})] *)
#[local] Instance heap_table_alloc : TableAlloc heap_t := fun h =>
  match heap_alloc (dom h) with
  | Some t => (Ok t, <[t := fun _ => 0]> h)
  | None => (Err MmAllocFail, h)
  end.

Definition S1_MAP_TABLE_LEVEL : Z := 3.
Definition S1_MAP_EXTRA_FLAG : Z :=
  Z.lor (Z.lor (Z.lor (bits_in_reg PTDesc.TYPE s1attr.TABLE_OR_PAGE)
                      (bits_in_reg PTDesc.SH s1attr.INNER))
               (bits_in_reg PTDesc.VALID 1)) (bits_in_reg PTDesc.AF 1).
(** The root is an [L1Table]: two levels below it. *)
Definition S1_DEPTH : nat := 2.

(** [Inner::set_pages]: an error is only logged. *)
Definition inner_set_pages (root va phys size flags : Z) : M heap_t MmError unit :=
  virtaddr ← lift (range_with_size Config.PAGE_SIZE va size);
  phyaddr ← lift (range_with_size Config.PAGE_SIZE phys size);
  _ ← ok (F := MmError)
        (set_pages S1_MAP_TABLE_LEVEL S1_MAP_EXTRA_FLAG S1_DEPTH root TABLE_SIZE
           virtaddr phyaddr flags);
  mret tt.

(** The flags of [set_pages_for_rmi]. *)
Definition rmi_page_flags (secure : bool) : Z :=
  let rw_flags := bits_in_reg PTDesc.AP s1attr.RW in
  let memattr_flags := bits_in_reg PTDesc.INDX s1attr.RMM_MEM in
  let sh_flags := bits_in_reg PTDesc.SH s1attr.INNER in
  let secure_flags := bits_in_reg PTDesc.NS (if secure then 0 else 1) in
  let xn_flags := Z.lor (bits_in_reg PTDesc.UXN 1) (bits_in_reg PTDesc.PXN 1) in
  let valid_flags := bits_in_reg PTDesc.VALID 1 in
  Z.lor (Z.lor (Z.lor (Z.lor (Z.lor rw_flags memattr_flags) secure_flags) sh_flags)
               xn_flags) valid_flags.

Definition set_pages_for_rmi (root addr : Z) (secure : bool) : M heap_t MmError bool :=
  if addr =? 0 then mret false
  else inner_set_pages root addr addr Config.PAGE_SIZE (rmi_page_flags secure);; mret true.

Definition unset_pages_for_rmi (root addr : Z) : M heap_t MmError bool :=
  if addr =? 0 then mret false
  else
    unset_page S1_MAP_TABLE_LEVEL S1_DEPTH root TABLE_SIZE
      (including_address Config.PAGE_SIZE addr);;
    mret true.

(** Run on the heap of the RMM's state. *)
Definition on_heap {A} (f : Z -> M heap_t MmError A) : M rmm Error A := fun s =>
  let '(r, h) := f (pt_root s) (heap s) in
  (map_err error_of_mm r, set_heap h s).

(** [rmm.page_table.map(addr, secure)] and [unmap(addr)]; the handlers drop
    the result. *)
Definition pt_map (addr : Z) (secure : bool) : M rmm Error unit :=
  on_heap (fun root => set_pages_for_rmi root addr secure);; mret tt.
Definition pt_unmap (addr : Z) : M rmm Error unit :=
  on_heap (fun root => unset_pages_for_rmi root addr);; mret tt.
End stage1.
