(* ===== verification/Stage2.v ===== *)
(** * Stage-2 translation of a realm (realm/mm/stage2_translation.rs)

    The [Entry] instance of stage-2 descriptors, tables in granule memory, and
    the [IPATranslation] operations of the realm's [Stage2Translation], looked
    up in [RTT_TABLES] by VMID ([Rd::s2_table]). *)

From S2P Require Import Prelude Bytes Bits Vmsa RmiTypes Granule S2tte Objects Machine PageTable.

#[global] Instance s2_entry_ops : EntryOps := {|
  e_is_valid := entry_is_valid;
  e_address := entry_address;
  e_set := entry_set;
  e_point_to_subtable := entry_point_to_subtable;
  e_index := entry_index;
  e_points_to_table_or_page := entry_points_to_table_or_page
|}.

(** Tables in granule memory: the word at an 8-byte aligned address. *)
Definition page_of (a : Z) : Z := a / GRANULE_SIZE * GRANULE_SIZE.
Definition word_of (a : Z) : Z := (a mod GRANULE_SIZE) / 8.

#[global] Instance granule_words `{Platform} : WordMem rmm := {|
  read_word a s := words_of (mem s (page_of a)) (word_of a);
  write_word a v s :=
    write_page (page_of a) (CTable (<[word_of a := v]> (words_of (mem s (page_of a))))) s
|}.

(** ** Page size (realm/mm/page.rs): only [BasePageSize] is used. *)
Definition BASE_MAP_TABLE_LEVEL : Z := 3.
Definition BASE_MAP_EXTRA_FLAG : Z := bits_in_reg S2TTE.TYPE page_type.TABLE_OR_PAGE.

(** [enum Tlbi] *)
Inductive Tlbi : Set :=
| NONE
| LEAF (vmid : Z)
| BREAKDOWN (vmid : Z).

Section stage2.
Context `{Platform}.

(** [Root]: the supported (level, pages) pairs; the others are [todo!()]. *)
Definition root_supported (root_level root_pages : Z) : bool :=
  if root_level =? 0 then (root_pages =? 1) || (root_pages =? 16)
  else if root_level =? 1 then (root_pages =? 1) || (root_pages =? 2) || (root_pages =? 8)
  else if root_level =? 2 then (root_pages =? 4) || (root_pages =? 8) || (root_pages =? 16)
  else false.

(** [init_table!]: every entry of the concatenated root tables is
    [Entry::new()]; a null base makes [new_init_in] fail, and the result is
    unwrapped. *)
Definition init_table (pages base : Z) : M rmm Error unit :=
  if base =? 0 then panic
  else for_range (Z.to_nat pages) 0 (fun i =>
         modify (write_page (base + i * GRANULE_SIZE) (CTable (fun _ => 0)))).

Definition stage2_new (rtt_base level pages : Z) : M rmm Error Stage2Translation :=
  if root_supported level pages then
    init_table pages rtt_base;; mret (mkStage2 rtt_base level pages false)
  else panic.

(** [insert_rtt] and [Rd::s2_table] *)
Definition insert_rtt (id : Z) (t : Stage2Translation) : M rmm Error unit :=
  modify (fun s => set_rtt_tables (<[id := t]> (rtt_tables s)) s).
Definition s2_table (rd : Rd.t) : M rmm Error Stage2Translation :=
  ts ← gets rtt_tables; lift (unwrap (ts !! Rd.id rd)).

Definition root_depth (t : Stage2Translation) : nat := Z.to_nat (3 - root_level t).
Definition root_size (t : Stage2Translation) : Z := root_pages t * Config.PAGE_SIZE.
Definition base_page (guest : Z) : Z := including_address Config.PAGE_SIZE guest.

Definition root_entry {A} (t : Stage2Translation) (guest level : Z) (no_valid_check : bool)
    (func : Z -> M rmm MmError A) : M rmm MmError (option A * Z) :=
  entry BASE_MAP_TABLE_LEVEL (root_depth t) (root_pgtbl t) (root_size t)
    (base_page guest) level no_valid_check func.

(** [to_pa!]: the address is decoded with level 0. *)
Definition ipa_to_pa (t : Stage2Translation) (guest level : Z) : M rmm Error (option Z) :=
  res ← ok (root_entry t guest level false
              (fun e => v ← gets (read_word e); mret (e_address v 0)));
  mret (match res with Some (Some pa, _) => pa | _ => None end).

Definition ipa_to_pte (t : Stage2Translation) (guest level : Z) : M rmm Error (option (Z * Z)) :=
  res ← ok (root_entry t guest level true (fun e => gets (read_word e)));
  mret (match res with Some (pte, l) => Some (default 0 pte, l) | None => None end).

Definition set_dirty (id : Z) (t : Stage2Translation) (d : bool) : M rmm Error unit :=
  insert_rtt id (mkStage2 (root_pgtbl t) (root_level t) (root_pages t) d).

Definition tlbi (op : TlbiOp) : M rmm Error unit :=
  modify (fun s => set_tlbi_log (tlbi_log s ++ [op]) s).

(** [id] is the key of the table in [RTT_TABLES]. *)
Definition ipa_to_pte_set (id : Z) (t : Stage2Translation) (guest level val : Z)
    (invalidate : Tlbi) : M rmm Error unit :=
  res ← ok (root_entry t guest level true (fun e => modify (write_word e (e_set 0 val))));
  match res with
  | Some _ =>
      match invalidate with
      | LEAF vmid => tlbi (TlbiLeaf level guest vmid);; set_dirty id t true
      | BREAKDOWN vmid => tlbi (TlbiBreakdown level guest vmid);; set_dirty id t true
      | NONE => mret tt
      end
  | None => throw RmiErrorInput
  end.

Definition space_size (t : Stage2Translation) (level : Z) : outcome Error Z :=
  let count := if level =? root_level t then root_pages t else 1 in
  if level =? 0 then m ← mapping_size 0; Ok (m * L3_NUM_ENTRIES * count)
  else m ← mapping_size (level - 1); Ok (m * count).

(** The words of a table of [size] bytes. *)
Definition table_words (base size : Z) (s : rmm) : list Z :=
  (fun i => read_word (base + ENTRY_SIZE * Z.of_nat i) s)
    <$> seq 0 (Z.to_nat (size / ENTRY_SIZE)).

Definition entries (t : Stage2Translation) (guest level : Z) : M rmm Error (list Z * Z) :=
  res ← ok (table_entries BASE_MAP_TABLE_LEVEL (root_depth t) (root_pgtbl t) (root_size t)
              (base_page guest) level);
  match res with
  | Some (base, size, l) => ws ← gets (table_words base size); mret (ws, l)
  | None => throw RmiErrorInput
  end.

(** [S2TTE::get_s2tte] *)
Definition get_s2tte (rd : Rd.t) (ipa level : Z) (error_code : Error) : M rmm Error (Z * Z) :=
  t ← s2_table rd;
  r ← ipa_to_pte t ipa level;
  lift (ok_or r error_code).

(** [rd.s2_table().lock().ipa_to_pte_set(..)] *)
Definition s2_pte_set (rd : Rd.t) (ipa level val : Z) (invalidate : Tlbi) : M rmm Error unit :=
  t ← s2_table rd;
  ipa_to_pte_set (Rd.id rd) t ipa level val invalidate.
End stage2.
