(* ===== verification/Measurement.v ===== *)
(** * Measurements (rmm/src/measurement, rmm/src/rsi/measurement.rs)

    The hasher selected by the realm's algorithm and the extension of the
    realm's measurement slots. A [Measurement] is 64 bytes; a digest shorter
    than that overwrites its first bytes. *)

From S2P Require Import Prelude Bytes Bits Vmsa RmiTypes Granule S2tte Objects Machine.

Definition RMI_MEASURE_CONTENT : Z := 1.
Definition MEASURE_DESC_TYPE_DATA : Z := 0.
Definition MEASURE_DESC_TYPE_REC : Z := 1.
Definition MEASURE_DESC_TYPE_RIPAS : Z := 2.

(** [struct Hasher]: the digest function and its output size. *)
Record Hasher : Type := mkHasher { factory : list Z -> list Z; block_size : Z }.
Definition output_size (h : Hasher) : Z := block_size h.

(** The bytes a closure feeds to [HashWrapper], in order. *)
Definition hash_u8 (v : Z) : list Z := le_bytes 1 v.
Definition hash_u64 (v : Z) : list Z := le_bytes 8 v.
Definition hash_usize (v : Z) : list Z := le_bytes 8 v.

(** ** Descriptors extended into the RIM *)
Definition data_descriptor (oldrim : list Z) (ipa flags : Z) (content_hash : list Z) : list Z :=
  hash_u8 MEASURE_DESC_TYPE_DATA ++ zero_bytes 7 ++ hash_u64 0x100 ++ oldrim
  ++ hash_usize ipa ++ hash_usize flags ++ content_hash ++ zero_bytes (0x100 - 0xa0).

Definition rec_descriptor (oldrim params_hash : list Z) : list Z :=
  hash_u8 MEASURE_DESC_TYPE_REC ++ zero_bytes 7 ++ hash_u64 0x100 ++ oldrim
  ++ params_hash ++ zero_bytes (0x100 - 0x90).

Definition ripas_descriptor (oldrim : list Z) (base top : Z) : list Z :=
  hash_u8 MEASURE_DESC_TYPE_RIPAS ++ zero_bytes 7 ++ hash_u64 0x100 ++ oldrim
  ++ hash_u64 base ++ hash_u64 top ++ zero_bytes (0x100 - 0x60).

Section measurement.
Context `{Platform}.

Definition from_hash_algo (hash_algo : Z) : outcome MeasurementError Hasher :=
  if hash_algo =? Rmi.HASH_ALGO_SHA256 then Ok (mkHasher sha256 32)
  else if hash_algo =? Rmi.HASH_ALGO_SHA512 then Ok (mkHasher sha512 64)
  else Err (InvalidHashAlgorithmValue hash_algo).

(** [hash_fields_into]: the digest into the first bytes of [out]; slicing a
    shorter [out] panics. *)
Definition hash_fields_into (h : Hasher) (out input : list Z)
    : outcome MeasurementError (list Z) :=
  if Z.of_nat (length out) <? output_size h then Panicked
  else
    let digest := factory h input in
    if Z.of_nat (length digest) =? output_size h then Ok (splice 0 digest out)
    else Err OutputBufferTooSmall.

(** [rsi::measurement::extend] and [read] *)
Definition extend (rd : Rd.t) (index : Z) (f : list Z -> outcome MeasurementError (list Z))
    : outcome RsiError Rd.t :=
  m ← ok_or (Rd.measurements rd !! Z.to_nat index) InvalidMeasurementIndex;
  m' ← map_err rsi_error_of_measurement (f m);
  Ok (Rd.with_measurements (<[Z.to_nat index := m']> (Rd.measurements rd)) rd).

Definition measurement_read (rd : Rd.t) (index : Z) : outcome RsiError (list Z) :=
  ok_or (Rd.measurements rd !! Z.to_nat index) InvalidMeasurementIndex.

(** [HashContext::new(rd)?.op(..)?] for each operation of ctx.rs. *)
Definition hash_context_new (rd : Rd.t) : outcome Error Hasher :=
  map_err error_of_measurement (from_hash_algo (Rd.hash_algo rd)).

Definition measure_realm_create (rd : Rd.t) (params : RealmParams.t) : outcome Error Rd.t :=
  h ← hash_context_new rd;
  map_err error_of_rsi (extend rd MEASUREMENTS_SLOT_RIM (fun rim =>
    hash_fields_into h rim (RealmParams.hash_input params))).

Definition extend_measurement (rd : Rd.t) (buffer : list Z) (index : Z) : outcome Error Rd.t :=
  h ← hash_context_new rd;
  map_err error_of_rsi (extend rd index (fun current =>
    hash_fields_into h current (slice 0 (output_size h) current ++ buffer))).

Definition measure_data_granule (rd : Rd.t) (data : list Z) (ipa flags : Z) : outcome Error Rd.t :=
  h ← hash_context_new rd;
  dm ← map_err error_of_rsi (map_err rsi_error_of_measurement
         (if flags =? RMI_MEASURE_CONTENT then hash_fields_into h Measurement_empty data
          else Ok Measurement_empty));
  map_err error_of_rsi (extend rd MEASUREMENTS_SLOT_RIM (fun current =>
    hash_fields_into h current (data_descriptor current ipa flags dm))).

Definition measure_rec_params (rd : Rd.t) (params : RecParams.t) : outcome Error Rd.t :=
  h ← hash_context_new rd;
  pm ← map_err error_of_rsi (map_err rsi_error_of_measurement
         (hash_fields_into h Measurement_empty (RecParams.hash_input params)));
  map_err error_of_rsi (extend rd MEASUREMENTS_SLOT_RIM (fun current =>
    hash_fields_into h current (rec_descriptor current pm))).

Definition measure_ripas_granule (rd : Rd.t) (base top : Z) : outcome Error Rd.t :=
  h ← hash_context_new rd;
  map_err error_of_rsi (extend rd MEASUREMENTS_SLOT_RIM (fun current =>
    hash_fields_into h current (ripas_descriptor current base top))).

(** A measuring call on the [Rd] in memory at [a]. *)
Definition measure_rd (a : Z) (f : Rd.t -> outcome Error Rd.t) : M rmm Error unit :=
  rd ← read_rd a;
  rd' ← lift (f rd);
  write_rd a rd'.
End measurement.

(** ** Well-formed measurements *)
Definition measurements_wf (rd : Rd.t) : Prop :=
  length (Rd.measurements rd) = Z.to_nat MEASUREMENTS_SLOT_NR /\
  Forall (fun m => length m = Z.to_nat MEASUREMENTS_SLOT_MAX_SIZE) (Rd.measurements rd).

(** The algorithms [realm_params_verify_compliance] lets through. *)
Definition hash_algo_supported (a : Z) : Prop :=
  a = Rmi.HASH_ALGO_SHA256 \/ a = Rmi.HASH_ALGO_SHA512.

Section measurement_facts.
Context `{PlatformLaws}.

Lemma length_zero_bytes n : length (zero_bytes n) = Z.to_nat n.
Proof. apply length_replicate. Qed.

Lemma from_hash_algo_ok a :
  hash_algo_supported a ->
  exists h, from_hash_algo a = Ok h /\ 0 < output_size h <= 64 /\
    forall d, Z.of_nat (length (factory h d)) = output_size h.
Proof.
  intros [-> | ->]; eexists; (split; [reflexivity|]); simpl; unfold output_size; simpl;
    (split; [lia|]); intros d; [by rewrite sha256_length|by rewrite sha512_length].
Qed.

(** Hashing into a 64-byte measurement always succeeds and keeps its size. *)
Lemma hash_fields_into_ok h out input :
  (forall d, Z.of_nat (length (factory h d)) = output_size h) ->
  output_size h <= 64 -> length out = 64%nat ->
  hash_fields_into h out input = Ok (splice 0 (factory h input) out) /\
  length (splice 0 (factory h input) out) = 64%nat.
Proof.
  intros Hf Hs Ho. unfold hash_fields_into.
  rewrite (proj2 (Z.ltb_ge _ _)) by lia. cbv zeta. rewrite Hf, Z.eqb_refl.
  split; [done|]. rewrite length_splice; [done|lia|]. rewrite Hf. lia.
Qed.

Lemma measurements_lookup rd i :
  measurements_wf rd -> 0 <= i < MEASUREMENTS_SLOT_NR ->
  exists m, Rd.measurements rd !! Z.to_nat i = Some m /\ length m = 64%nat.
Proof.
  intros [Hl Hf] Hi. destruct (lookup_lt_is_Some_2 (Rd.measurements rd) (Z.to_nat i)) as [m Hm].
  { unfold MEASUREMENTS_SLOT_NR in *. lia. }
  exists m. split; [done|]. by apply (Forall_lookup_1 _ _ _ _ Hf Hm).
Qed.

(** Extending a slot keeps the measurements well formed and changes no other
    slot. *)
Lemma extend_ok rd i f :
  measurements_wf rd -> 0 <= i < MEASUREMENTS_SLOT_NR ->
  (forall m, length m = 64%nat -> exists m', f m = Ok m' /\ length m' = 64%nat) ->
  exists m m', Rd.measurements rd !! Z.to_nat i = Some m /\ f m = Ok m' /\
    extend rd i f = Ok (Rd.with_measurements (<[Z.to_nat i := m']> (Rd.measurements rd)) rd) /\
    measurements_wf (Rd.with_measurements (<[Z.to_nat i := m']> (Rd.measurements rd)) rd).
Proof.
  intros Hwf Hi Hf. destruct (measurements_lookup rd i) as (m & Hm & Hlen); [done..|].
  destruct (Hf m Hlen) as (m' & Hfm & Hlen'). exists m, m'.
  unfold extend. rewrite Hm. simpl. rewrite Hfm. split_and!; [done..|].
  destruct Hwf as [Hl Ha]. split; simpl; [by rewrite length_insert|].
  by apply Forall_insert.
Qed.
End measurement_facts.
