(* ===== verification/Rtt.v ===== *)
(** * Realm translation tables (realm/mm/rtt.rs)

    The operations on a realm's stage-2 tables. [rd] is the descriptor read
    from its granule; [rd_addr] its address, where an operation measures into
    it. A closure [f : FnMut(usize)] of the source is an action run with the
    address it is given. *)

From S2P Require Import Prelude Bytes Bits Vmsa RmiTypes Granule S2tte Objects Machine PageTable Stage2 Measurement.

Definition CHANGE_DESTROYED : Z := 1.

Section rtt.
Context `{Platform}.

Definition level_space_size (rd : Rd.t) (level : Z) : M rmm Error Z :=
  t ← s2_table rd; lift (space_size t level).

(** [x & !(m - 1)] *)
Definition mask_down (x m : Z) : Z := Z.land x (Word.not (Word.sub m 1)).

(** The [i]-th word [create_pgtbl_at] writes: [set(pa, pa | flags)]. *)
Definition pgtbl_word (flags pa map_size i : Z) : Z :=
  let pa' := Word.wrap (pa + i * map_size) in entry_set pa' (Z.lor pa' flags).

Definition create_pgtbl_at (rtt_addr flags pa map_size : Z) : M rmm Error unit :=
  if rtt_addr =? 0 then throw (RmiErrorRtt 0)
  else modify (write_page rtt_addr (CTable (pgtbl_word flags pa map_size))).

Definition INVALID_STATE : Z := Z.lor S2TTE.INVALID_HIPAS S2TTE.INVALID_RIPAS.

(** The descriptor type of a leaf at [level]. *)
Definition leaf_desc (level : Z) : Z :=
  if level =? RTT_PAGE_LEVEL then bits_in_reg S2TTE.DESC_TYPE desc_type.L3_PAGE
  else bits_in_reg S2TTE.DESC_TYPE desc_type.L012_BLOCK.

(** The child table for each state of the parent entry, and the invalidation
    its replacement needs. *)
Definition create_child (rd : Rd.t) (rtt_addr level parent_s2tte map_size : Z) : M rmm Error Tlbi :=
  let parent_level := Word.sub level 1 in
  if is_unassigned parent_s2tte then
    if is_invalid_ripas parent_s2tte then panic
    else
      let flags := get_masked parent_s2tte INVALID_STATE in
      create_pgtbl_at rtt_addr flags 0 0;; mret NONE
  else if is_assigned parent_s2tte then
    if get_masked_value parent_s2tte S2TTE.INVALID_RIPAS =? invalid_ripas.RAM then panic
    else
      let flags := get_masked parent_s2tte INVALID_STATE in
      pa ← lift (addr_as_block parent_s2tte parent_level);
      create_pgtbl_at rtt_addr flags pa map_size;; mret NONE
  else if is_assigned_ram parent_s2tte parent_level then
    let flags := Z.lor (get_masked parent_s2tte INVALID_STATE) (leaf_desc level) in
    pa ← lift (addr_as_block parent_s2tte parent_level);
    create_pgtbl_at rtt_addr flags pa map_size;; mret (LEAF (Rd.id rd))
  else if is_unassigned_ns parent_s2tte then
    let flags := Z.lor (bits_in_reg S2TTE.INVALID_HIPAS invalid_hipas.UNASSIGNED)
                       (bits_in_reg S2TTE.NS 1) in
    create_pgtbl_at rtt_addr flags 0 0;; mret NONE
  else if is_assigned_ns parent_s2tte parent_level then
    let flags := Z.lor (Z.lor (bits_in_reg S2TTE.NS 1)
                   (get_masked parent_s2tte
                      (Z.lor (Z.lor S2TTE.MEMATTR S2TTE.S2AP) S2TTE.SH))) (leaf_desc level) in
    pa ← lift (addr_as_block parent_s2tte parent_level);
    create_pgtbl_at rtt_addr flags pa map_size;; mret NONE
  else panic.

Definition create (rd : Rd.t) (rtt_addr ipa level : Z) : M rmm Error unit :=
  let parent_level := Word.sub level 1 in
  '(parent_s2tte, last_level) ← get_s2tte rd ipa parent_level RmiErrorInput;
  if negb (last_level =? parent_level) || is_table parent_s2tte last_level
  then throw (RmiErrorRtt last_level)
  else
    map_size ← lift (mapping_size level);
    invalidate ← create_child rd rtt_addr level parent_s2tte map_size;
    let parent_s2tte :=
      Z.lor rtt_addr (bits_in_reg S2TTE.DESC_TYPE desc_type.L012_TABLE) in
    s2_pte_set rd ipa parent_level parent_s2tte invalidate.

(** The scan of [skip_non_live_entries]: entries below [base] are passed,
    then the address advances over entries that are not live. *)
Fixpoint skip_loop (map_size base bottom addr : Z) (es : list Z) : Z :=
  match es with
  | [] => addr
  | e :: es' =>
      if bottom <? base then skip_loop map_size base (Word.add bottom map_size) addr es'
      else if is_live e then addr
      else skip_loop map_size base bottom (Word.add addr map_size) es'
  end.

Definition skip_non_live_entries (rd : Rd.t) (base level : Z) : M rmm Error Z :=
  map_size ← lift (mapping_size level);
  let addr := mask_down base map_size in
  if negb (addr =? base) then throw (RmiErrorRtt level)
  else
    space ← level_space_size rd level;
    let bottom_addr := mask_down addr space in
    t ← s2_table rd;
    '(es, _) ← entries t base level;
    mret (skip_loop map_size base bottom_addr addr es).

(** [is_live_rtt]: an error when no entry is live. *)
Definition is_live_rtt (rd : Rd.t) (base level : Z) : M rmm Error bool :=
  t ← s2_table rd;
  '(es, _) ← entries t base level;
  if existsb is_live es then mret true else throw (RmiErrorRtt level).

Definition destroy (rd : Rd.t) (ipa level : Z) (f : Z -> M rmm Error unit)
    : M rmm Error (Z * Z) :=
  let parent_level := Word.sub level 1 in
  '(parent_s2tte, last_level) ← get_s2tte rd ipa parent_level (RmiErrorRtt 0);
  if negb (last_level =? parent_level) || negb (is_table parent_s2tte last_level) then
    top_ipa ← skip_non_live_entries rd ipa last_level;
    f top_ipa;; throw (RmiErrorRtt last_level)
  else
    rtt_addr ← lift (addr_as_block parent_s2tte RTT_PAGE_LEVEL);
    with_granule_if rtt_addr GranuleState.RTT (fun g_rtt =>
      live ← ok (is_live_rtt rd ipa level);
      if default false live then f ipa;; throw (RmiErrorRtt level)
      else
        let '(parent_s2tte, invalidate) :=
          if Rd.addr_in_par rd ipa then
            (Z.lor (bits_in_reg S2TTE.INVALID_HIPAS invalid_hipas.UNASSIGNED)
                   (bits_in_reg S2TTE.INVALID_RIPAS invalid_ripas.DESTROYED),
             LEAF (Rd.id rd))
          else
            (Z.lor (Z.lor (bits_in_reg S2TTE.NS 1)
                          (bits_in_reg S2TTE.INVALID_HIPAS invalid_hipas.UNASSIGNED))
                   INVALID_UNPROTECTED,
             BREAKDOWN (Rd.id rd)) in
        s2_pte_set rd ipa parent_level parent_s2tte invalidate;;
        set_granule g_rtt GranuleState.Delegated;;
        top_ipa ← skip_non_live_entries rd ipa last_level;
        mret (rtt_addr, top_ipa)).

(** The loops of [init_ripas] and [set_ripas] advance by the mapping size
    within one table: at most 16 * 512 rounds for a concatenated root. *)
Definition RIPAS_FUEL : nat := Z.to_nat 8193.

Fixpoint init_ripas_loop (fuel : nat) (rd : Rd.t) (rd_addr map_size top top_addr addr : Z)
    : M rmm Error Z :=
  match fuel with
  | O => hang
  | S fuel' =>
      if negb (addr <? top_addr) then mret addr
      else
        let next := Word.add addr map_size in
        if top <? next then mret addr
        else
          '(s2tte, last_level) ← get_s2tte rd addr RTT_PAGE_LEVEL (RmiErrorRtt 0);
          let measure_and_continue :=
            measure_rd rd_addr (fun rd => measure_ripas_granule rd addr next);;
            init_ripas_loop fuel' rd rd_addr map_size top top_addr (Word.add addr map_size) in
          if is_unassigned_empty s2tte then
            let new_s2tte := Z.lor (bits_in_reg S2TTE.INVALID_HIPAS invalid_hipas.UNASSIGNED)
                                   (bits_in_reg S2TTE.INVALID_RIPAS invalid_ripas.RAM) in
            s2_pte_set rd addr last_level new_s2tte NONE;;
            measure_and_continue
          else if negb (is_unassigned_ram s2tte) then mret addr
          else measure_and_continue
  end.

Definition init_ripas (rd : Rd.t) (rd_addr base top : Z) : M rmm Error Z :=
  '(_, last_level) ← get_s2tte rd base RTT_PAGE_LEVEL (RmiErrorRtt 0);
  map_size ← lift (mapping_size last_level);
  let addr := mask_down base map_size in
  if negb (addr =? base) then throw (RmiErrorRtt last_level)
  else if negb (top =? mask_down top map_size) then throw (RmiErrorRtt last_level)
  else
    space ← level_space_size rd last_level;
    let top_addr := Word.add (mask_down addr space) space in
    addr ← init_ripas_loop RIPAS_FUEL rd rd_addr map_size top top_addr addr;
    if base <? addr then mret addr else throw (RmiErrorRtt last_level).

Definition get_ripas_at (rd : Rd.t) (ipa level : Z) : M rmm Error Z :=
  '(s2tte, last_level) ← get_s2tte rd ipa level (RmiErrorRtt 0);
  if negb (level =? last_level) then throw (RmiErrorRtt last_level)
  else if is_assigned_ram s2tte level then mret invalid_ripas.RAM
  else mret (get_ripas s2tte).

(** [read_entry]: (level, state, descriptor, RIPAS). *)
Definition read_entry (rd : Rd.t) (ipa level : Z) : M rmm Error (list Z) :=
  '(s2tte, last_level) ← get_s2tte rd ipa level (RmiErrorRtt 0);
  let r1 := last_level in
  let ripas := get_masked_value s2tte S2TTE.INVALID_RIPAS in
  if is_unassigned s2tte then mret [r1; Rmi.RMI_UNASSIGNED; 0; ripas]
  else if is_assigned s2tte then
    r3 ← lift (addr_as_block s2tte last_level);
    mret [r1; Rmi.RMI_ASSIGNED; r3; ripas]
  else if is_table s2tte last_level then
    mret [r1; Rmi.RMI_TABLE; get_masked s2tte S2TTE.ADDR_TBL_OR_PAGE; 0]
  else if is_assigned_ram s2tte last_level then
    r3 ← lift (addr_as_block s2tte last_level);
    mret [r1; Rmi.RMI_ASSIGNED; r3; invalid_ripas.RAM]
  else if is_unassigned_ns s2tte then mret [r1; Rmi.RMI_UNASSIGNED; 0; 0]
  else if is_assigned_ns s2tte last_level then
    addr_mask ← lift (ok_or (level_mask last_level) (RmiErrorRtt 0));
    let mask := Z.lor (Z.lor (Z.lor addr_mask S2TTE.MEMATTR) S2TTE.S2AP) S2TTE.SH in
    mret [r1; Rmi.RMI_ASSIGNED; get_masked s2tte mask; 0]
  else mret [r1; 0; 0; 0].

(** The attributes [map_unprotected] adds to the host's descriptor. *)
Definition unprotected_attr (level : Z) : Z :=
  Z.lor (Z.lor (Z.lor (bits_in_reg S2TTE.NS 1) (bits_in_reg S2TTE.XN 1))
               (bits_in_reg S2TTE.AF 1)) (leaf_desc level).

Definition map_unprotected (rd : Rd.t) (ipa level host_s2tte : Z) : M rmm Error unit :=
  if Rd.addr_in_par rd ipa then throw RmiErrorInput
  else
    '(s2tte, last_level) ← get_s2tte rd ipa level (RmiErrorRtt 0);
    if negb (level =? last_level) then throw (RmiErrorRtt last_level)
    else if negb (is_unassigned s2tte) then throw (RmiErrorRtt level)
    else
      let new_s2tte := Z.lor host_s2tte (unprotected_attr level) in
      s2_pte_set rd ipa level new_s2tte (LEAF (Rd.id rd)).

Definition UNASSIGNED_NS : Z :=
  Z.lor (Z.lor (bits_in_reg S2TTE.NS 1)
               (bits_in_reg S2TTE.INVALID_HIPAS invalid_hipas.UNASSIGNED)) INVALID_UNPROTECTED.

Definition unmap_unprotected (rd : Rd.t) (ipa level : Z) (f : Z -> M rmm Error unit)
    : M rmm Error Z :=
  if Rd.addr_in_par rd ipa then throw RmiErrorInput
  else
    '(s2tte, last_level) ← get_s2tte rd ipa level (RmiErrorRtt 0);
    if negb (level =? last_level) || negb (is_assigned_ns s2tte last_level) then
      top_ipa ← skip_non_live_entries rd ipa last_level;
      f top_ipa;; throw (RmiErrorRtt last_level)
    else
      s2_pte_set rd ipa level UNASSIGNED_NS (LEAF (Rd.id rd));;
      skip_non_live_entries rd ipa level.

(** What one round of [set_ripas] does with the entry it reads. *)
Inductive ripas_action : Set :=
| RipasBreak
| RipasSkip
| RipasWrite (new_s2tte : Z) (add_pa leaf : bool)
| RipasUnreachable.

Definition set_ripas_action (ripas flags level s2tte : Z) : ripas_action :=
  let unassigned := bits_in_reg S2TTE.INVALID_HIPAS invalid_hipas.UNASSIGNED in
  let assigned := bits_in_reg S2TTE.INVALID_HIPAS invalid_hipas.ASSIGNED in
  let change_destroyed := negb (Z.land flags CHANGE_DESTROYED =? 0) in
  if ripas =? invalid_ripas.EMPTY then
    let new := bits_in_reg S2TTE.INVALID_RIPAS invalid_ripas.EMPTY in
    if is_unassigned_empty s2tte then RipasWrite (Z.lor new unassigned) false false
    else if is_unassigned_destroyed s2tte then
      if change_destroyed then RipasWrite (Z.lor new unassigned) false false else RipasBreak
    else if is_assigned_ram s2tte level then RipasWrite (Z.lor new assigned) true true
    else if is_assigned_destroyed s2tte then
      if change_destroyed then RipasWrite (Z.lor new assigned) true true else RipasBreak
    else RipasWrite new false false
  else if ripas =? invalid_ripas.RAM then
    let new := bits_in_reg S2TTE.INVALID_RIPAS invalid_ripas.RAM in
    if is_unassigned_empty s2tte then RipasWrite (Z.lor new unassigned) false false
    else if is_unassigned_destroyed s2tte then
      if change_destroyed then RipasWrite (Z.lor new unassigned) false false else RipasBreak
    else if is_assigned_empty s2tte then
      RipasWrite (Z.lor (Z.lor new assigned) (leaf_desc level)) true false
    else if is_assigned_destroyed s2tte then
      if change_destroyed then RipasWrite (Z.lor new (leaf_desc level)) true false
      else RipasBreak
    else RipasSkip
  else RipasUnreachable.

Fixpoint set_ripas_loop (fuel : nat) (rd : Rd.t)
    (ripas flags level map_size table_top top addr : Z) : M rmm Error Z :=
  match fuel with
  | O => hang
  | S fuel' =>
      if negb ((addr <? table_top) && (addr <? top)) then mret addr
      else
        '(s2tte, last_level) ← get_s2tte rd addr RTT_PAGE_LEVEL (RmiErrorRtt level);
        if negb (level =? last_level) then mret addr
        else
          pa ← lift (addr_as_block s2tte last_level);
          let continue :=
            set_ripas_loop fuel' rd ripas flags level map_size table_top top
              (Word.add addr map_size) in
          match set_ripas_action ripas flags level s2tte with
          | RipasBreak => mret addr
          | RipasSkip => continue
          | RipasUnreachable => panic
          | RipasWrite new add_pa leaf =>
              let new := if (add_pa : bool) then Z.lor new pa else new in
              s2_pte_set rd addr last_level new (if (leaf : bool) then LEAF (Rd.id rd) else NONE);;
              continue
          end
  end.

Definition set_ripas (rd : Rd.t) (base top ripas flags : Z) : M rmm Error Z :=
  '(_, level) ← get_s2tte rd base RTT_PAGE_LEVEL (RmiErrorRtt RTT_PAGE_LEVEL);
  map_size ← lift (mapping_size level);
  let addr := mask_down base map_size in
  if negb (addr =? base) then throw (RmiErrorRtt level)
  else if negb (mask_down top map_size =? top) then throw (RmiErrorRtt level)
  else
    space ← level_space_size rd level;
    let table_top := Word.add (mask_down addr space) space in
    addr ← set_ripas_loop RIPAS_FUEL rd ripas flags level map_size table_top top addr;
    if base <? addr then mret addr else throw (RmiErrorRtt level).

(** The descriptor [data_create] installs. *)
Definition data_s2tte (target_pa ripas : Z) (unknown : bool) : Z :=
  if unknown && negb (ripas =? invalid_ripas.RAM) then
    Z.lor (Z.lor target_pa (bits_in_reg S2TTE.INVALID_HIPAS invalid_hipas.ASSIGNED))
          (bits_in_reg S2TTE.INVALID_RIPAS ripas)
  else
    Z.lor (Z.lor (Z.lor (Z.lor (Z.lor target_pa
      (bits_in_reg S2TTE.DESC_TYPE desc_type.L3_PAGE))
      (bits_in_reg S2TTE.MEMATTR memattr.NORMAL_FWB))
      (bits_in_reg S2TTE.S2AP permission.RW))
      (bits_in_reg S2TTE.SH shareable.INNER))
      (bits_in_reg S2TTE.AF 1).

Definition data_create (rd : Rd.t) (ipa target_pa : Z) (unknown : bool) : M rmm Error unit :=
  let level := RTT_PAGE_LEVEL in
  '(s2tte, last_level) ← get_s2tte rd ipa level (RmiErrorRtt 0);
  if negb (level =? last_level) then throw (RmiErrorRtt last_level)
  else if negb (is_unassigned s2tte) then throw (RmiErrorRtt RTT_PAGE_LEVEL)
  else if is_invalid_ripas s2tte then panic
  else s2_pte_set rd ipa level (data_s2tte target_pa (get_ripas s2tte) unknown) NONE.

Definition data_destroy (rd : Rd.t) (ipa : Z) (f : Z -> M rmm Error unit) : M rmm Error (Z * Z) :=
  let level := RTT_PAGE_LEVEL in
  '(s2tte, last_level) ← get_s2tte rd ipa level (RmiErrorRtt level);
  let valid := is_valid s2tte last_level false in
  if (last_level <? level) || (negb valid && negb (is_assigned s2tte)) then
    top_ipa ← skip_non_live_entries rd ipa last_level;
    f top_ipa;; throw (RmiErrorRtt last_level)
  else
    pa ← lift (addr_as_block s2tte last_level);
    let flags := bits_in_reg S2TTE.INVALID_HIPAS invalid_hipas.UNASSIGNED in
    let '(flags, invalidate) :=
      if is_assigned_ram s2tte RTT_PAGE_LEVEL then
        (Z.lor flags (bits_in_reg S2TTE.INVALID_RIPAS invalid_ripas.DESTROYED), LEAF (Rd.id rd))
      else (Z.lor flags (get_masked s2tte S2TTE.INVALID_RIPAS), NONE) in
    s2_pte_set rd ipa level flags invalidate;;
    top_ipa ← skip_non_live_entries rd ipa level;
    mret (pa, top_ipa).

(** The parent entry [fold] writes for a homogeneous table whose first entry
    is [fold_s2tte]. *)
Definition fold_entry (fold_s2tte level : Z) (is_protected_ipa : bool) : outcome Error Z :=
  let attr := get_masked fold_s2tte S2TTE.NS in
  if is_assigned_ram fold_s2tte level || is_assigned_ns fold_s2tte level then
    pa ← addr_as_block fold_s2tte level;
    let attr := Z.lor attr (get_masked fold_s2tte
                              (Z.lor (Z.lor S2TTE.MEMATTR S2TTE.S2AP) S2TTE.SH)) in
    Ok (Z.lor (Z.lor pa attr) desc_type.L012_BLOCK)
  else if is_assigned fold_s2tte then
    pa ← addr_as_block fold_s2tte level;
    let attr := Z.lor attr (get_masked fold_s2tte (Z.lor S2TTE.S2AP S2TTE.SH)) in
    Ok (Z.lor (Z.lor (Z.lor pa attr) (get_masked fold_s2tte S2TTE.INVALID_HIPAS))
              (get_masked fold_s2tte S2TTE.INVALID_RIPAS))
  else if is_protected_ipa then
    Ok (Z.lor attr (get_masked fold_s2tte S2TTE.INVALID_RIPAS))
  else Ok attr.

Definition fold (rd : Rd.t) (ipa level : Z) : M rmm Error Z :=
  let is_protected_ipa := Rd.addr_in_par rd ipa in
  let parent_level := Word.sub level 1 in
  '(fold_s2tte, _) ← get_s2tte rd ipa level (RmiErrorRtt level);
  '(parent_s2tte, last) ← get_s2tte rd ipa parent_level RmiErrorInput;
  if (last <? parent_level) || negb (is_table parent_s2tte parent_level)
  then throw (RmiErrorRtt last)
  else
    let rtt_addr := get_masked parent_s2tte S2TTE.ADDR_TBL_OR_PAGE in
    with_granule_if rtt_addr GranuleState.RTT (fun g_rtt =>
      t ← s2_table rd;
      '(es, _) ← entries t ipa level;
      h ← lift (is_homogeneous es level);
      if (h : bool) then
        parent_s2tte ← lift (fold_entry fold_s2tte level is_protected_ipa);
        s2_pte_set rd ipa parent_level parent_s2tte (BREAKDOWN (Rd.id rd));;
        set_granule g_rtt GranuleState.Delegated;;
        mret rtt_addr
      else throw (RmiErrorRtt level)).
End rtt.
