(* ===== verification/RmiGranule.v ===== *)
(** * Granule delegation (rmm/src/rmi/gpt.rs)

    [GRANULE_DELEGATE] and [GRANULE_UNDELEGATE]: the EL3 firmware changes the
    granule protection table, then the RMM changes the granule's state, which
    wipes it. The lock of the granule is held from the check to the end. *)

From S2P Require Import Prelude Bytes Bits Vmsa RmiTypes Granule S2tte Objects Machine PageTable Stage1.

Definition MARK_REALM : Z := 0xc40001b0.
Definition MARK_NONSECURE : Z := 0xc40001b1.

Section gpt.
Context `{Platform}.

(** [smc(..)[0]] *)
Definition smc0 (cmd : Z) (args : list Z) : M rmm Error Z :=
  r ← smc cmd args; lift (unwrap (r !! 0%nat)).

Definition granule_delegate (arg : list Z) : M rmm Error unit :=
  addr ← argn arg 0;
  with_granule_if addr GranuleState.Undelegated (fun granule =>
    r ← smc0 MARK_REALM [addr];
    if negb (r =? SMC_SUCCESS) then throw RmiErrorInput
    else
      pt_map addr true;;
      inspect_err (set_granule granule GranuleState.Delegated) (pt_unmap addr);;
      pt_unmap addr).

Definition granule_undelegate (arg : list Z) : M rmm Error unit :=
  addr ← argn arg 0;
  with_granule_if addr GranuleState.Delegated (fun granule =>
    r ← smc0 MARK_NONSECURE [addr];
    if negb (r =? SMC_SUCCESS) then panic
    else
      pt_map addr false;;
      inspect_err (set_granule granule GranuleState.Undelegated) (pt_unmap addr);;
      pt_unmap addr).
End gpt.
