(* ===== verification/RmiRealm.v ===== *)
(** * Realm lifecycle (rmm/src/rmi/realm/mod.rs, rmm/src/rmi/metadata.rs)

    [REALM_CREATE], [REALM_ACTIVATE], [REALM_DESTROY], [REC_AUX_COUNT] and
    [ISLET_REALM_SET_METADATA]. *)

From S2P Require Import Prelude Bytes Bits Vmsa RmiTypes Granule S2tte Objects Machine PageTable Stage1 Stage2 Measurement.

Section realm.
Context `{Platform}.

(** The address of the content of a locked granule ([content], [content_mut]). *)
Definition content_addr (granule : Z) : Z := index_to_addr granule.

Definition realm_activate (arg : list Z) : M rmm Error unit :=
  rd ← argn arg 0;
  with_granule_if rd GranuleState.RD (fun rd_granule =>
    rd ← read_rd (content_addr rd_granule);
    (match Rd.metadata rd with
     | Some meta =>
         with_granule_if meta GranuleState.Metadata (fun g_metadata =>
           metadata ← gets (fun s =>
             IsletRealmMetadata.of_bytes (bytes_of (mem s (content_addr g_metadata))));
           rim ← lift (unwrap (Rd.measurements rd !! Z.to_nat MEASUREMENTS_SLOT_RIM));
           if negb (equal_rd_rim metadata rim) then throw (RmiErrorRealm 0)
           else
             same ← lift (equal_rd_hash_algo metadata (Rd.hash_algo rd));
             if negb same then throw (RmiErrorRealm 0) else mret tt)
     | None => mret tt
     end);;
    if negb (Rd.at_state rd New) then throw (RmiErrorRealm 0)
    else update_rd (content_addr rd_granule) (Rd.with_state Active)).

(** The first loop of [REALM_CREATE]: every root table is delegated; it stays
    mapped. *)
Definition realm_create_check_rtts (rtt_base rtt_num : Z) : M rmm Error unit :=
  for_range (Z.to_nat rtt_num) 0 (fun i =>
    let rtt := Word.add rtt_base (i * GRANULE_SIZE) in
    with_granule_if rtt GranuleState.Delegated (fun _ => mret tt);;
    pt_map rtt true).

(** [epilogue] *)
Definition realm_create_epilogue (rd_granule rtt_base rtt_num : Z) : M rmm Error unit :=
  for_range (Z.to_nat rtt_num) 0 (fun i =>
    let rtt := Word.add rtt_base (i * GRANULE_SIZE) in
    with_granule_if rtt GranuleState.Delegated (fun rtt_granule =>
      set_granule rtt_granule GranuleState.RTT));;
  set_granule rd_granule GranuleState.RD.

Definition realm_create (arg : list Z) : M rmm Error unit :=
  rd ← argn arg 0;
  params_ptr ← argn arg 1;
  if rd =? params_ptr then throw RmiErrorInput
  else with_granule_if rd GranuleState.Delegated (fun rd_granule =>
    let rd_obj := content_addr rd_granule in
    pt_map rd true;;
    pt_map params_ptr false;;
    params ← copy_from RealmParams.of_bytes params_ptr;
    params ← lift (ok_or params RmiErrorInput);
    pt_unmap params_ptr;;
    lift (realm_params_verify_compliance SIMD_CONFIG params rd);;
    let rtt_base := RealmParams.rtt_base params in
    let rtt_num := RealmParams.rtt_num_start params in
    realm_create_check_rtts rtt_base rtt_num;;
    create_realm (RealmParams.vmid params);;
    s2 ← stage2_new rtt_base (Word.wrap (RealmParams.rtt_level_start params)) rtt_num;
    insert_rtt (RealmParams.vmid params) s2;;
    update_rd rd_obj (fun r => Rd.init r (RealmParams.vmid params) rtt_base rtt_num
      (RealmParams.s2sz params) (RealmParams.rtt_level_start params)
      (RealmParams.rpv params) (realm_params_sve_en params) (RealmParams.sve_vl params));;
    update_rd rd_obj (Rd.with_hash_algo (RealmParams.hash_algo params));;
    measure_rd rd_obj (fun r => measure_realm_create r params);;
    inspect_err (realm_create_epilogue rd_granule rtt_base rtt_num)
      (pt_unmap rd;;
       gone ← ok (F := Error) (remove (RealmParams.vmid params));
       match gone with Some _ => mret tt | None => panic end)).

Definition rec_aux_count (arg : list Z) : M rmm Error unit :=
  rd ← argn arg 0;
  with_granule_if rd GranuleState.RD (fun _ => mret tt);;
  set_ret_reg 1 Rmi.MAX_REC_AUX_GRANULES.

Definition realm_destroy (arg : list Z) : M rmm Error unit :=
  rd_addr ← argn arg 0;
  with_granule_if rd_addr GranuleState.RD (fun rd_granule =>
    g ← gets (fun s => gst s rd_granule);
    if 0 <? num_children g then throw (RmiErrorRealm 0)
    else
      rd ← read_rd (content_addr rd_granule);
      let vmid := Rd.id rd in
      let rtt_base := Rd.rtt_base rd in
      (match Rd.metadata rd with
       | Some meta =>
           with_granule_if meta GranuleState.Metadata (fun meta_granule =>
             set_granule meta_granule GranuleState.Delegated;;
             update_rd (content_addr rd_granule) (Rd.with_metadata None))
       | None => mret tt
       end);;
      for_range (Z.to_nat (Rd.rtt_num_start rd)) 0 (fun i =>
        with_granule (Word.add rtt_base (i * GRANULE_SIZE)) (fun rtt_granule =>
          g ← gets (fun s => gst s rtt_granule);
          if 0 <? num_children g then throw (RmiErrorRealm 0) else mret tt));;
      for_range (Z.to_nat (Rd.rtt_num_start rd)) 0 (fun i =>
        with_granule (Word.add rtt_base (i * GRANULE_SIZE)) (fun rtt_granule =>
          set_granule rtt_granule GranuleState.Delegated));;
      set_granule rd_granule GranuleState.Delegated;;
      pt_unmap rd_addr;;
      remove vmid).

(** [IsletRealmMetadata::verify_signature]: a key or a signature that does
    not decode is the same error as one that does not verify. *)
Definition verify_signature (m : IsletRealmMetadata.t) : outcome Error unit :=
  if p384_verify (IsletRealmMetadata.public_key m) (IsletRealmMetadata.signature m)
       (IsletRealmMetadata.header_as_u8_slice m)
  then Ok tt else Err RmiErrorInput.

(** [IsletRealmMetadata::from_ns] *)
Definition metadata_from_ns (addr : Z) : M rmm Error IsletRealmMetadata.t :=
  with_granule_if addr GranuleState.Undelegated (fun g =>
    gets (fun s => IsletRealmMetadata.of_bytes (bytes_of (mem s (content_addr g))))).

Definition realm_set_metadata (arg : list Z) : M rmm Error unit :=
  rd_addr ← argn arg 0;
  mdg_addr ← argn arg 1;
  meta_ptr ← argn arg 2;
  realm_metadata ← metadata_from_ns meta_ptr;
  lift (verify_signature realm_metadata);;
  lift (metadata_validate realm_metadata);;
  with_granule_if rd_addr GranuleState.RD (fun rd_granule =>
    rd ← read_rd (content_addr rd_granule);
    if negb (Rd.at_state rd New) then throw (RmiErrorRealm 0)
    else if bool_decide (is_Some (Rd.metadata rd)) then throw (RmiErrorRealm 0)
    else
      with_granule_if mdg_addr GranuleState.Delegated (fun g_metadata =>
        modify (write_page (content_addr g_metadata)
                  (CData (IsletRealmMetadata.raw realm_metadata)));;
        set_granule g_metadata GranuleState.Metadata;;
        update_rd (content_addr rd_granule) (Rd.with_metadata (Some mdg_addr)))).
End realm.
