(* ===== verification/RmiRtt.v ===== *)
(** * RTT and data commands (rmm/src/rmi/rtt.rs) *)

From S2P Require Import Prelude Bytes Bits Vmsa RmiTypes Granule S2tte Objects Machine PageTable Stage1 Stage2 Measurement Rtt RmiRealm.

(** [is_valid_rtt_cmd] *)
Definition is_valid_rtt_cmd (rd : Rd.t) (ipa level : Z) : bool :=
  if RTT_PAGE_LEVEL <? level then false
  else if Rd.ipa_size rd <=? ipa then false
  else
    let mask := default 0 (level_mask level) in
    if negb (Z.land ipa mask =? ipa) then false else true.

Definition validate_ipa (rd : Rd.t) (ipa : Z) : outcome Error unit :=
  if negb (is_granule_aligned ipa) then Err RmiErrorInput
  else if negb (Rd.addr_in_par rd ipa) then Err RmiErrorInput
  else if negb (is_valid_rtt_cmd rd ipa RTT_PAGE_LEVEL) then Err RmiErrorInput
  else Ok tt.

(** [rd.s2_starting_level() as usize + 1] and the bounds RTT_CREATE,
    RTT_DESTROY and RTT_FOLD share. *)
Definition min_level (rd : Rd.t) : Z := Word.add (Word.wrap (Rd.s2_starting_level rd)) 1.
Definition rtt_level_ok (rd : Rd.t) (ipa level : Z) : bool :=
  negb ((level <? min_level rd) || (RTT_PAGE_LEVEL <? level)
        || negb (is_valid_rtt_cmd rd ipa (Word.sub level 1))).

Section rmi_rtt.
Context `{Platform}.

Definition rtt_create (arg : list Z) : M rmm Error unit :=
  rd_addr ← argn arg 0;
  with_granule_if rd_addr GranuleState.RD (fun rd_granule =>
    rtt_addr ← argn arg 1;
    rd ← read_rd (content_addr rd_granule);
    ipa ← argn arg 2;
    level ← argn arg 3;
    if negb (rtt_level_ok rd ipa level) then throw RmiErrorInput
    else if rtt_addr =? rd_addr then throw RmiErrorInput
    else with_granule_if rtt_addr GranuleState.Delegated (fun rtt_granule =>
      pt_map rtt_addr true;;
      create rd rtt_addr ipa level;;
      set_granule rtt_granule GranuleState.RTT)).

Definition rtt_destroy (arg : list Z) : M rmm Error unit :=
  rd_addr ← argn arg 0;
  with_granule_if rd_addr GranuleState.RD (fun rd_granule =>
    rd ← read_rd (content_addr rd_granule);
    ipa ← argn arg 1;
    level ← argn arg 2;
    if negb (rtt_level_ok rd ipa level) then throw RmiErrorInput
    else
      '(ipa, walk_top) ← destroy rd ipa level (fun t => set_ret_reg 2 t);
      set_ret_reg 1 ipa;;
      set_ret_reg 2 walk_top).

Definition rtt_init_ripas (arg : list Z) : M rmm Error unit :=
  rd_addr ← argn arg 0;
  with_granule_if rd_addr GranuleState.RD (fun rd_granule =>
    rd ← read_rd (content_addr rd_granule);
    base ← argn arg 1;
    top ← argn arg 2;
    if negb (bool_decide (Rd.state rd = New)) then throw (RmiErrorRealm 0)
    else if top <=? base then throw RmiErrorInput
    else if negb (is_valid_rtt_cmd rd base RTT_PAGE_LEVEL)
            || negb (is_valid_rtt_cmd rd top RTT_PAGE_LEVEL)
            || negb (Rd.addr_in_par rd base)
            || negb (Rd.addr_in_par rd (Word.sub top GRANULE_SIZE))
    then throw RmiErrorInput
    else
      out_top ← init_ripas rd (content_addr rd_granule) base top;
      set_ret_reg 1 out_top).

(** [rec.realmid()]: the id of the RD the REC's owner pointer designates. *)
Definition realmid (rec : Rec.t) : M rmm Error Z :=
  owner ← lift (Rec.get_owner rec);
  rd ← read_rd owner;
  mret (Rd.id rd).

Definition rtt_set_ripas (arg : list Z) : M rmm Error unit :=
  base ← argn arg 2;
  top ← argn arg 3;
  rd_addr ← argn arg 0;
  rec_addr ← argn arg 1;
  if rd_addr =? rec_addr then throw RmiErrorInput
  else with_granule_if rd_addr GranuleState.RD (fun rd_granule =>
    rd ← read_rd (content_addr rd_granule);
    with_granule_if rec_addr GranuleState.Rec (fun rec_granule =>
      rec ← read_rec (content_addr rec_granule);
      id ← realmid rec;
      if negb (id =? Rd.id rd) then throw RmiErrorRec
      else if negb (Rec.ripas_addr rec =? base) || (Rec.ripas_end rec <? top)
      then throw RmiErrorInput
      else if negb (is_granule_aligned base) || negb (is_granule_aligned top)
              || negb (Rd.addr_in_par rd base)
              || (top <? GRANULE_SIZE)
              || negb (Rd.addr_in_par rd (top - GRANULE_SIZE))
      then throw RmiErrorInput
      else
        out_top ← set_ripas rd base top (Rec.ripas_state rec) (Rec.ripas_flags rec);
        set_ret_reg 1 out_top;;
        update_rec (content_addr rec_granule) (Rec.set_ripas_addr out_top))).

Definition rtt_read_entry (arg : list Z) : M rmm Error unit :=
  rd_addr ← argn arg 0;
  with_granule_if rd_addr GranuleState.RD (fun rd_granule =>
    rd ← read_rd (content_addr rd_granule);
    ipa ← argn arg 1;
    level ← argn arg 2;
    if negb (is_valid_rtt_cmd rd ipa level) then throw RmiErrorInput
    else
      res ← read_entry rd ipa level;
      for_each (zip (seq 1 4) res) (fun '(i, v) => set_ret_reg i v)).

Definition rmi_data_create (arg : list Z) : M rmm Error unit :=
  rd_addr ← argn arg 0;
  target_pa ← argn arg 1;
  ipa ← argn arg 2;
  src_pa ← argn arg 3;
  flags ← argn arg 4;
  if (target_pa =? rd_addr) || (target_pa =? src_pa) || (rd_addr =? src_pa)
  then throw RmiErrorInput
  else with_granule_if rd_addr GranuleState.RD (fun rd_granule =>
    rd ← read_rd (content_addr rd_granule);
    if negb (Rd.at_state rd New) then throw (RmiErrorRealm 0)
    else
      lift (validate_ipa rd ipa);;
      ns ← is_not_in_realm src_pa;
      if negb ns then throw RmiErrorInput
      else with_granule_if target_pa GranuleState.Delegated (fun target_page_granule =>
        pt_map target_pa true;;
        pt_map src_pa false;;
        c ← copy_to_obj src_pa (content_addr target_page_granule);
        lift (ok_or c RmiErrorInput);;
        pt_unmap src_pa;;
        data_create rd ipa target_pa false;;
        data ← gets (fun s => bytes_of (mem s (content_addr target_page_granule)));
        measure_rd (content_addr rd_granule)
          (fun rd => measure_data_granule rd data ipa flags);;
        set_granule target_page_granule GranuleState.Data)).

Definition rmi_data_create_unknown (arg : list Z) : M rmm Error unit :=
  rd_addr ← argn arg 0;
  with_granule_if rd_addr GranuleState.RD (fun rd_granule =>
    rd ← read_rd (content_addr rd_granule);
    target_pa ← argn arg 1;
    ipa ← argn arg 2;
    if target_pa =? rd_addr then throw RmiErrorInput
    else
      lift (validate_ipa rd ipa);;
      with_granule_if target_pa GranuleState.Delegated (fun target_page_granule =>
        pt_map target_pa true;;
        data_create rd ipa target_pa true;;
        set_granule target_page_granule GranuleState.Data)).

Definition rmi_data_destroy (arg : list Z) : M rmm Error unit :=
  rd_addr ← argn arg 0;
  with_granule_if rd_addr GranuleState.RD (fun rd_granule =>
    rd ← read_rd (content_addr rd_granule);
    ipa ← argn arg 1;
    if negb (Rd.addr_in_par rd ipa) || negb (is_valid_rtt_cmd rd ipa RTT_PAGE_LEVEL)
    then throw RmiErrorInput
    else
      '(pa, top) ← data_destroy rd ipa (fun t => set_ret_reg 2 t);
      with_granule pa (fun granule => set_granule granule GranuleState.Delegated);;
      set_ret_reg 1 pa;;
      set_ret_reg 2 top).

Definition rtt_map_unprotected (arg : list Z) : M rmm Error unit :=
  ipa ← argn arg 1;
  level ← argn arg 2;
  host_s2tte ← argn arg 3;
  if negb (is_host_ns_valid host_s2tte level) then throw RmiErrorInput
  else
    rd_addr ← argn arg 0;
    with_granule_if rd_addr GranuleState.RD (fun rd_granule =>
      rd ← read_rd (content_addr rd_granule);
      if negb (is_valid_rtt_cmd rd ipa level) then throw RmiErrorInput
      else map_unprotected rd ipa level host_s2tte).

Definition rtt_unmap_unprotected (arg : list Z) : M rmm Error unit :=
  rd_addr ← argn arg 0;
  with_granule_if rd_addr GranuleState.RD (fun rd_granule =>
    rd ← read_rd (content_addr rd_granule);
    ipa ← argn arg 1;
    level ← argn arg 2;
    if (level <? RTT_MIN_BLOCK_LEVEL) || (RTT_PAGE_LEVEL <? level)
       || negb (is_valid_rtt_cmd rd ipa level)
    then throw RmiErrorInput
    else
      top ← unmap_unprotected rd ipa level (fun t => set_ret_reg 1 t);
      set_ret_reg 1 top).

Definition rtt_fold (arg : list Z) : M rmm Error unit :=
  rd_addr ← argn arg 0;
  with_granule_if rd_addr GranuleState.RD (fun rd_granule =>
    rd ← read_rd (content_addr rd_granule);
    ipa ← argn arg 1;
    level ← argn arg 2;
    if negb (rtt_level_ok rd ipa level) then throw RmiErrorInput
    else
      rtt ← fold rd ipa level;
      set_ret_reg 1 rtt).
End rmi_rtt.
