(* ===== verification/RmiRec.v ===== *)
(** * REC creation and destruction, PSCI completion
    (rmm/src/rmi/rec/{handlers,params,vtcr}.rs, rmm/src/rec/{mod,timer,gic,simd}.rs,
    rmm/src/rsi/psci.rs [complete_psci]) *)

From stdpp Require Import sorting.
From S2P Require Import Prelude Bytes Bits Vmsa RmiTypes Granule S2tte Objects Machine PageTable Stage1 Stage2 Measurement RmiRealm RmiRtt.

(** ** Architectural register fields the sources name *)
Module CNTHCTL_EL2.
Definition EL1PCTEN : Z := Z.shiftl 1 0.
Definition EL1PCEN : Z := Z.shiftl 1 1.
End CNTHCTL_EL2.
Module ICH_HCR_EL2.
Definition En : Z := Z.shiftl 1 0.
Definition UIE : Z := Z.shiftl 1 1.
Definition LRENPIE : Z := Z.shiftl 1 2.
Definition NPIE : Z := Z.shiftl 1 3.
Definition VGrp0EIE : Z := Z.shiftl 1 4.
Definition VGrp0DIE : Z := Z.shiftl 1 5.
Definition VGrp1EIE : Z := Z.shiftl 1 6.
Definition VGrp1DIE : Z := Z.shiftl 1 7.
Definition vSGIEOICount : Z := Z.shiftl 1 8.
Definition TDIR : Z := Z.shiftl 1 14.
Definition DVIM : Z := Z.shiftl 1 15.
Definition EOIcount_shift : Z := 27.
End ICH_HCR_EL2.
Module CPTR_EL2.
Definition TZ : Z := Z.shiftl 1 8.
Definition TFP : Z := Z.shiftl 1 10.
Definition TSM : Z := Z.shiftl 1 12.
Definition TAM : Z := Z.shiftl 1 30.
End CPTR_EL2.
Module VTTBR_EL2.
Definition BADDR : Z := define_mask 47 1.
Definition VMID : Z := define_mask 63 48.
End VTTBR_EL2.
Module MPIDR_EL1.
Definition RES1 : Z := Z.shiftl 1 31.
End MPIDR_EL1.
Module VTCR_EL2.
Definition RES1 : Z := Z.shiftl 1 31.
Definition NSA : Z := Z.shiftl 1 30.
Definition VS_Bits16 : Z := Z.shiftl 1 19.
Definition PS_PA_40B_1TB : Z := Z.shiftl 2 16.
Definition TG0_Granule4KB : Z := 0.
Definition SH0_Inner : Z := Z.shiftl 3 12.
Definition ORGN0_NormalWBRAWA : Z := Z.shiftl 1 10.
Definition IRGN0_NormalWBRAWA : Z := Z.shiftl 1 8.
(** SL0 for a starting level, 4 KiB granule *)
Definition SL0 : list Z := [Z.shiftl 2 6; Z.shiftl 1 6; 0; Z.shiftl 3 6].
End VTCR_EL2.

(** ** Initial REC state *)
Definition init_timer : Rec.t -> Rec.t :=
  Rec.on_context (fun c => Context.with_timer
    (TimerRegister.with_cnthctl_el2 (CNTHCTL_EL2.EL1PCEN + CNTHCTL_EL2.EL1PCTEN)
       (Context.timer c)) c).

Definition init_gic : Rec.t -> Rec.t :=
  Rec.on_context (fun c => Context.with_gic_state
    (GICRegister.with_ich_hcr_el2
       (ICH_HCR_EL2.En + ICH_HCR_EL2.vSGIEOICount + ICH_HCR_EL2.DVIM)
       (Context.gic_state c)) c).

(** [init_simd], [simd_cfg] being the owner's. *)
Definition init_simd (simd_cfg : SimdConfig.t) : Rec.t -> Rec.t :=
  Rec.on_context (fun c =>
    let zcr_el2 := if SimdConfig.sve_en simd_cfg then SimdConfig.sve_vq simd_cfg mod 16 else 0 in
    let cptr := CPTR_EL2.TAM + CPTR_EL2.TSM + CPTR_EL2.TFP + CPTR_EL2.TZ in
    Context.with_simd
      (SimdRegister.with_svcr 0 (SimdRegister.with_zcr_el2 zcr_el2
        (SimdRegister.with_cptr_el2 cptr (SimdRegister.with_cfg simd_cfg
          (SimdRegister.with_is_saved false (SimdRegister.with_is_used false
            (Context.simd c))))))) c).

(** [prepare_vtcr] *)
Definition prepare_vtcr (vmid16 : bool) (rd : Rd.t) : outcome Error Z :=
  let s2_starting_level := Rd.s2_starting_level rd in
  let ipa_bits := Rd.ipa_bits rd in
  if negb ((0 <=? s2_starting_level) && (s2_starting_level <=? 3)) then Err RmiErrorInput
  else if negb ((0 <? ipa_bits) && (ipa_bits <=? 64)) then Err RmiErrorInput
  else
    sl0_val ← unwrap (VTCR_EL2.SL0 !! Z.to_nat s2_starting_level);
    let t0sz_val := (64 - ipa_bits) mod 64 in
    let vtcr_val :=
      VTCR_EL2.PS_PA_40B_1TB + VTCR_EL2.TG0_Granule4KB + VTCR_EL2.SH0_Inner
      + VTCR_EL2.ORGN0_NormalWBRAWA + VTCR_EL2.IRGN0_NormalWBRAWA + VTCR_EL2.NSA
      + VTCR_EL2.RES1 + (if vmid16 then VTCR_EL2.VS_Bits16 else 0) in
    Ok (vtcr_val + sl0_val + t0sz_val).

(** ** PSCI completion (rsi/psci.rs) *)
Module PsciReturn.
Definition SUCCESS : Z := 0.
Definition AFFINITY_INFO_ON : Z := 0.
Definition AFFINITY_INFO_OFF : Z := 1.
Definition NOT_SUPPORTED : Z := Word.not 0.
Definition INVALID_PARAMS : Z := Word.not 1.
Definition DENIED : Z := Word.not 2.
Definition ALREADY_ON : Z := Word.not 3.
Definition INVALID_ADDRESS : Z := Word.not 8.
End PsciReturn.

(** The target after a [PSCI_CPU_ON] that is granted. *)
Definition cpu_on_target (caller target : Rec.t) : outcome Error Rec.t :=
  entry_point ← get_reg caller 2;
  context_id ← get_reg caller 3;
  let target := Rec.reset_ctx target in
  target ← set_reg target 0 context_id;
  target ← set_reg target RegOffset.PC entry_point;
  Ok (Rec.set_runnable 1 target).

(** [complete_psci]: the caller and the target afterwards. *)
Definition complete_psci (caller target : Rec.t) (status : Z) : outcome Error (Rec.t * Rec.t) :=
  target_mpidr ← get_reg caller 1;
  if negb (MPIDR.index target_mpidr =? Rec.vcpuid target) then Err RmiErrorInput
  else
    command ← get_reg caller 0;
    if (command =? Rsi.PSCI_CPU_ON) && negb (status =? PsciReturn.SUCCESS)
       && negb (status =? PsciReturn.DENIED) then Err RmiErrorInput
    else if (command =? Rsi.PSCI_AFFINITY_INFO) && negb (status =? PsciReturn.SUCCESS)
    then Err RmiErrorInput
    else
      '(psci_ret, target) ←
        (if command =? Rsi.PSCI_CPU_ON then
           if Rec.runnable target then Ok (PsciReturn.ALREADY_ON, target)
           else if status =? PsciReturn.DENIED then Ok (PsciReturn.DENIED, target)
           else target ← cpu_on_target caller target; Ok (PsciReturn.SUCCESS, target)
         else if command =? Rsi.PSCI_AFFINITY_INFO then
           if Rec.runnable target then Ok (PsciReturn.AFFINITY_INFO_ON, target)
           else Ok (PsciReturn.AFFINITY_INFO_OFF, target)
         else Ok (PsciReturn.NOT_SUPPORTED, target));
      if (command =? Rsi.PSCI_CPU_ON) && (status =? PsciReturn.DENIED)
         && (psci_ret =? PsciReturn.ALREADY_ON) then Err RmiErrorInput
      else
        caller ← set_reg caller 0 psci_ret;
        caller ← set_reg caller 1 0;
        caller ← set_reg caller 2 0;
        caller ← set_reg caller 3 0;
        Ok (Rec.with_psci_pending false caller, target).

Section rmi_rec.
Context `{Platform}.

(** [Params::verify_compliance] (rmi/rec/params.rs): the auxiliary granules,
    sorted, are distinct, delegated and none of the command's other
    arguments. *)
Fixpoint verify_aux (rec rd params_ptr : Z) (prev : option Z) (aux : list Z) : M rmm Error unit :=
  match aux with
  | [] => mret tt
  | addr :: aux' =>
      if (addr =? rec) || (addr =? rd) || (addr =? params_ptr) then throw RmiErrorInput
      else if bool_decide (prev = Some addr) then throw RmiErrorInput
      else
        with_granule_if addr GranuleState.Delegated (fun _ => mret tt);;
        verify_aux rec rd params_ptr (Some addr) aux'
  end.

Definition rec_params_verify_compliance (p : RecParams.t) (rec rd params_ptr : Z) : M rmm Error unit :=
  if negb (MPIDR.validate (RecParams.mpidr p))
     || negb (RecParams.num_aux p =? Rmi.MAX_REC_AUX_GRANULES)
  then throw RmiErrorInput
  else verify_aux rec rd params_ptr None (merge_sort Z.le (RecParams.aux p)).

(** [Rec::init]; [init_simd] reads the owner's configuration from its RD. *)
Definition rec_init (rec : Rec.t) (owner vcpuid flags : Z) (aux : list Z) (vttbr vmpidr : Z)
    : M rmm Error Rec.t :=
  if owner =? 0 then throw RmiErrorInput
  else if bool_decide (is_Some (Rec.owner rec)) then throw RmiErrorRec
  else
    rd ← read_rd owner;
    mret (init_simd (Rd.simd_cfg rd) (init_gic (init_timer
      (Rec.with_aux aux (Rec.set_sys_reg Objects.vmpidr vmpidr (Rec.set_sys_reg Objects.vttbr vttbr
        (Rec.set_runnable flags (Rec.with_vcpuid vcpuid
          (Rec.with_owner (Some owner) rec))))))))).

(** [prepare_args]: (vcpuid, vttbr, vmpidr). *)
Definition prepare_args (rd_addr mpidr : Z) : M rmm Error (Z * Z * Z) :=
  rd ← read_rd rd_addr;
  t ← s2_table rd;
  let page_table := root_pgtbl t in
  let vttbr := Z.lor (bits_in_reg VTTBR_EL2.VMID (Rd.id rd))
                     (bits_in_reg VTTBR_EL2.BADDR (Z.shiftr page_table 1)) in
  let vmpidr := Z.lor mpidr MPIDR_EL1.RES1 in
  let vcpuid := Rd.vcpu_index rd in
  update_rd rd_addr (fun rd => Rd.with_vcpu_index (Word.add (Rd.vcpu_index rd) 1) rd);;
  mret (vcpuid, vttbr, vmpidr).

(** [if set_reg(&mut rec, idx, v).is_err() { return Err(RmiErrorInput) }], on
    the REC in its granule *)
Definition rec_set_reg (rec_obj idx v : Z) : M rmm Error unit :=
  rec ← read_rec rec_obj;
  rec ← lift (map_err (fun _ => RmiErrorInput) (set_reg rec idx v));
  write_rec rec_obj rec.

(** [for (idx, gpr) in params.gprs.iter().enumerate()] *)
Fixpoint set_gprs (rec_obj idx : Z) (gprs : list Z) : M rmm Error unit :=
  match gprs with
  | [] => mret tt
  | g :: gprs' => rec_set_reg rec_obj idx g;; set_gprs rec_obj (idx + 1) gprs'
  end.

Definition rec_create (arg : list Z) : M rmm Error unit :=
  rd_addr ← argn arg 0;
  rec_addr ← argn arg 1;
  params_ptr ← argn arg 2;
  let owner := rd_addr in
  if rec_addr =? rd_addr then throw RmiErrorInput
  else
    pt_map params_ptr false;;
    params ← copy_from RecParams.of_bytes params_ptr;
    params ← lift (ok_or params RmiErrorInput);
    pt_unmap params_ptr;;
    rec_params_verify_compliance params rec_addr rd_addr params_ptr;;
    let rec_index := MPIDR.index (RecParams.mpidr params) in
    with_granule_if rd_addr GranuleState.RD (fun rd_granule =>
      let rd_obj := content_addr rd_granule in
      rd ← read_rd rd_obj;
      if negb (Rd.at_state rd New) then throw (RmiErrorRealm 0)
      else if negb (rec_index =? Rd.rec_index rd) then throw RmiErrorInput
      else with_granule_if rec_addr GranuleState.Delegated (fun rec_granule =>
        let rec_obj := content_addr rec_granule in
        pt_map rec_addr true;;
        write_rec rec_obj Rec.new;;
        '(vcpuid, vttbr_val, vmpidr_val) ← prepare_args rd_obj (RecParams.mpidr params);
        set_ret_reg 1 vcpuid;;
        rec ← read_rec rec_obj;
        rec ← rec_init rec owner vcpuid (RecParams.flags params) (RecParams.aux params)
                vttbr_val vmpidr_val;
        write_rec rec_obj rec;;
        set_gprs rec_obj 0 (RecParams.gprs params);;
        rec_set_reg rec_obj RegOffset.PC (RecParams.pc params);;
        rd ← read_rd rd_obj;
        vtcr ← lift (prepare_vtcr feat_vmid16 rd);
        update_rec rec_obj (Rec.with_vtcr vtcr);;
        update_rd rd_obj Rd.inc_rec_index;;
        measure_rd rd_obj (fun rd => measure_rec_params rd params);;
        rec ← read_rec rec_obj;
        for_each (Rec.aux rec) (fun rec_aux =>
          pt_map rec_aux true;;
          with_granule_if rec_aux GranuleState.Delegated (fun rec_aux_granule =>
            set_granule rec_aux_granule GranuleState.RecAux));;
        modify (update_granule rd_granule inc_count);;
        set_granule rec_granule GranuleState.Rec)).

Definition rec_destroy (arg : list Z) : M rmm Error unit :=
  rec_addr ← argn arg 0;
  with_granule_if rec_addr GranuleState.Rec (fun rec_granule =>
    rec ← read_rec (content_addr rec_granule);
    if bool_decide (Rec.state rec = Running) then throw RmiErrorRec
    else
      for_each (Rec.aux rec) (fun rec_aux =>
        with_granule_if rec_aux GranuleState.RecAux (fun rec_aux_granule =>
          set_granule rec_aux_granule GranuleState.Delegated;;
          pt_unmap rec_aux));;
      (rd ← lift (Rec.get_owner rec);
       with_granule_if rd GranuleState.RD (fun rd_granule =>
         modify (update_granule rd_granule dec_count)));;
      inspect_err (set_granule rec_granule GranuleState.Delegated) (pt_unmap rec_addr);;
      pt_unmap rec_addr).

Definition psci_complete (arg : list Z) : M rmm Error unit :=
  caller_pa ← argn arg 0;
  target_pa ← argn arg 1;
  if caller_pa =? target_pa then throw RmiErrorInput
  else with_granule_if caller_pa GranuleState.Rec (fun caller_granule =>
    caller ← read_rec (content_addr caller_granule);
    with_granule_if target_pa GranuleState.Rec (fun target_granule =>
      target ← read_rec (content_addr target_granule);
      status ← argn arg 2;
      if negb (Rec.psci_pending caller) then throw RmiErrorInput
      else
        caller_id ← realmid caller;
        target_id ← realmid target;
        if negb (caller_id =? target_id) then throw RmiErrorInput
        else
          '(caller, target) ← lift (complete_psci caller target status);
          write_rec (content_addr caller_granule) caller;;
          write_rec (content_addr target_granule) target)).
End rmi_rec.
