(* ===== verification/Rsi.v ===== *)
(** * Realm services (rmm/src/rsi)

    The handlers of the calls a realm makes: rsi/{mod,psci,ripas,sealing,
    hostcall,version,attestation/*}.rs and realm/config.rs. The REC is the
    object at [rec_addr] in memory (its granule's lock is held by [REC_ENTER]);
    [run] and [rsi_ret] are the locals of the state. A handler that returns to
    the realm sets [ret[0]] to [SUCCESS_REC_ENTER]. *)

From stdpp Require Import strings.
From S2P Require Import Prelude Bytes Bits Vmsa RmiTypes Granule S2tte Objects Machine PageTable Stage1 Stage2 Measurement Rtt RmiRealm RmiRtt RmiRec.

(** ** Versions (rsi/version.rs, rmi/version.rs) *)
Definition decode_version (version : Z) : Z * Z :=
  (Z.shiftr (Z.land version 0x7fff0000) 16, Z.land version 0xffff).
Definition encode_version (major minor : Z) : Z := Z.lor (Z.shiftl major 16) minor.

(** ** Attestation token (rsi/attestation) *)
Definition MAX_CCA_TOKEN_SIZE : Z := 4096.
Definition MAX_PLATFORM_TOKEN_SIZE : Z := 2048.
Definition CCA_TOKEN_COLLECTION : Z := 399.
Definition CCA_PLATFORM_TOKEN : Z := 44234.
Definition CCA_REALM_DELEGATED_TOKEN : Z := 44241.
Definition CHALLENGE_LABEL : Z := 10.
Definition PERSONALIZATION_VALUE_LABEL : Z := 44235.
Definition INITIAL_MEASUREMENT_LABEL : Z := 44238.
Definition EXTENSIBLE_MEASUREMENTS_LABEL : Z := 44239.
Definition HASH_ALGO_ID_LABEL : Z := 44236.
Definition PUBLIC_KEY_LABEL : Z := 44237.
Definition PUBLIC_KEY_HASH_ALOG_ID_LABEL : Z := 44240.
Definition REM_SLOT_NR : Z := MEASUREMENTS_SLOT_NR - 1.

Definition hash_algo_id (hash_algo : Z) : outcome Error string :=
  if hash_algo =? Rmi.HASH_ALGO_SHA256 then Ok "sha-256"%string
  else if hash_algo =? Rmi.HASH_ALGO_SHA512 then Ok "sha-512"%string
  else Panicked.
Definition measurement_size (algo : string) : outcome Error Z :=
  if decide (algo = "sha-256"%string) then Ok 32
  else if decide (algo = "sha-512"%string) then Ok 64 else Panicked.

(** [ArrayVec::from_iter]: more elements than the capacity panic. *)
Definition array_vec {A} (cap : Z) (l : list A) : outcome Error (list A) :=
  if Z.of_nat (length l) <=? cap then Ok l else Panicked.

(** [MeasurementEntry]: the first [size] bytes of a measurement. *)
Definition measurement_entry (m : list Z) (size : Z) : outcome Error Value :=
  if size <=? Z.of_nat (length m) then Ok (VBytes (slice 0 size m)) else Panicked.

Fixpoint measurement_entries (ms : list (list Z)) (size : Z) : outcome Error (list Value) :=
  match ms with
  | [] => Ok []
  | m :: ms' => v ← measurement_entry m size; vs ← measurement_entries ms' size; Ok (v :: vs)
  end.

(** [RealmClaims::init] and the conversion of the claims to a map *)
Definition realm_claims (challenge rpv : list Z) (measurements : list (list Z))
    (algo : string) (key_pub : list Z) : outcome Error Value :=
  c ← array_vec 64 challenge;
  p ← array_vec 64 rpv;
  size ← measurement_size algo;
  rim ← unwrap (measurements !! Z.to_nat MEASUREMENTS_SLOT_RIM);
  rim ← measurement_entry rim size;
  (if Z.of_nat (length measurements) <=? REM_SLOT_NR then Panicked else Ok tt);;
  rems ← measurement_entries (take (Z.to_nat REM_SLOT_NR) (drop 1 measurements)) size;
  k ← array_vec 97 key_pub;
  Ok (VMap [(VInteger CHALLENGE_LABEL, VBytes c);
            (VInteger PERSONALIZATION_VALUE_LABEL, VBytes p);
            (VInteger INITIAL_MEASUREMENT_LABEL, rim);
            (VInteger EXTENSIBLE_MEASUREMENTS_LABEL, VArray rems);
            (VInteger HASH_ALGO_ID_LABEL, VText algo);
            (VInteger PUBLIC_KEY_LABEL, VBytes k);
            (VInteger PUBLIC_KEY_HASH_ALOG_ID_LABEL, VText "sha-256"%string)]).

Section rsi.
Context `{Platform}.

Definition create_realm_token (k : El3Keys) (challenge : list Z) (measurements : list (list Z))
    (rpv : list Z) (hash_algo : Z) : outcome Error (list Z) :=
  algo ← hash_algo_id hash_algo;
  rak ← array_vec 48 (REALM_ATTEST_KEY k);
  public_key ← unwrap (p384_public rak);
  claims ← realm_claims challenge rpv measurements algo public_key;
  unwrap (cose_sign1 rak (cbor_encode claims)).

(** [get_token] / [create_attestation_token] *)
Definition get_token (k : El3Keys) (challenge : list Z) (measurements : list (list Z))
    (rpv : list Z) (hash_algo : Z) : outcome Error (list Z) :=
  plat ← array_vec MAX_PLATFORM_TOKEN_SIZE (PLAT_TOKEN k);
  realm_token ← create_realm_token k challenge measurements rpv hash_algo;
  Ok (cbor_encode (VTag CCA_TOKEN_COLLECTION (VMap
        [(VInteger CCA_PLATFORM_TOKEN, VBytes plat);
         (VInteger CCA_REALM_DELEGATED_TOKEN, VBytes realm_token)]))).

(** The next part of [token] from [offset], and how much is left: the
    subtraction wraps, and slicing past the end panics. *)
Definition token_part (token : list Z) (offset size : Z) : outcome Error (list Z * Z * Z) :=
  let len := Z.of_nat (length token) in
  let part_size := Z.min size (Word.sub len offset) in
  let part_end := Word.add offset part_size in
  if (part_end <? offset) || (len <? part_end) then Panicked
  else Ok (slice offset (part_end - offset) token, len - part_end, part_end).

(** ** Accesses to the REC's registers and to the realm's memory *)
Definition reg (rec_addr i : Z) : M rmm Error Z :=
  r ← read_rec rec_addr; lift (get_reg r i).
Definition reg_set (rec_addr i v : Z) : M rmm Error unit :=
  r ← read_rec rec_addr; r ← lift (set_reg r i v); write_rec rec_addr r.
Definition owner_of (rec_addr : Z) : M rmm Error Z :=
  r ← read_rec rec_addr; lift (Rec.get_owner r).

Definition set_rsi_reg (i : nat) (v : Z) : M rmm Error unit := fun s =>
  if decide (i < length (rsi_ret s))%nat then (Ok tt, set_rsi_ret (<[i := v]> (rsi_ret s)) s)
  else (Panicked, s).
Definition update_run (f : Run.t -> Run.t) : M rmm Error unit :=
  modify (fun s => set_run (f (run s)) s).
Definition run_set_gpr (idx v : Z) : M rmm Error unit :=
  r ← gets run; r ← lift (Run.set_gpr idx v r); modify (set_run r).

(** [set_reg(rec, 0, code)?; ret[0] = SUCCESS_REC_ENTER; Ok(())] *)
Definition back_to_realm (rec_addr code : Z) : M rmm Error unit :=
  reg_set rec_addr 0 code;; set_rsi_reg 0 Rmi.SUCCESS_REC_ENTER.

(** [get_granule_if!(rec.owner()?, GranuleState::RD)?] *)
Definition with_owner {A} (rec_addr : Z) (k : Z -> M rmm Error A) : M rmm Error A :=
  o ← owner_of rec_addr; with_granule_if o GranuleState.RD k.

(** ** Host call (rsi/mod.rs, rsi/hostcall.rs) *)
Definition read_bytes (pa len : Z) (s : rmm) : list Z :=
  slice (pa mod GRANULE_SIZE) len (bytes_of (mem s (page_of pa))).
Definition write_bytes (pa : Z) (b : list Z) : M rmm Error unit := modify (fun s =>
  write_page (page_of pa)
    (CData (splice (pa mod GRANULE_SIZE) b (bytes_of (mem s (page_of pa))))) s).

(** [host_call.set_gpr(i, val)] on the structure at [pa] *)
Definition host_call_set_gpr (pa i v : Z) : M rmm Error unit :=
  if HOST_CALL_NR_GPRS <=? i then throw RmiErrorInput
  else write_bytes (pa + 8 + 8 * i) (le_bytes 8 v).

(** [set_ret0] writes [ret[0]]: the RSI's, or the RMI's when the call
    completes on the next [REC_ENTER]. *)
Definition do_host_call (set_ret0 : Z -> M rmm Error unit) (rec_addr : Z) : M rmm Error unit :=
  with_owner rec_addr (fun rd_granule =>
    rd ← read_rd (content_addr rd_granule);
    ipa ← ok (F := Error) (reg rec_addr 1);
    let ipa := default 0 ipa in
    if negb (ipa mod HOST_CALL_SIZE =? 0)
       || negb (ipa / GRANULE_SIZE =? Word.sub (Word.add ipa HOST_CALL_SIZE) 1 / GRANULE_SIZE)
       || negb (Rd.addr_in_par rd ipa)
    then reg_set rec_addr 0 Rsi.ERROR_INPUT;; set_ret0 Rmi.SUCCESS_REC_ENTER
    else
      t ← s2_table rd;
      pa ← ipa_to_pa t ipa RTT_PAGE_LEVEL;
      pa ← lift (ok_or pa RmiErrorInput);
      host_call ← gets (fun s => HostCall.of_bytes (read_bytes pa HOST_CALL_SIZE s));
      rec ← read_rec rec_addr;
      (if Rec.host_call_pending rec then
         for_range (Z.to_nat HOST_CALL_NR_GPRS) 0 (fun i =>
           r ← gets run;
           v ← lift (Run.entry_gpr r i);
           host_call_set_gpr pa i v);;
         reg_set rec_addr 0 Rsi.SUCCESS;;
         update_rec rec_addr (Rec.with_host_call_pending false)
       else
         for_range (Z.to_nat HOST_CALL_NR_GPRS) 0 (fun i =>
           v ← lift (HostCall.gpr i host_call);
           run_set_gpr i v);;
         update_run (Run.set_imm (HostCall.imm host_call));;
         update_run (Run.set_exit_reason Rmi.EXIT_HOST_CALL);;
         update_rec rec_addr (Rec.with_host_call_pending true));;
      set_ret0 Rmi.SUCCESS).

(** ** Attestation *)
Definition attest_token_init (rec_addr : Z) : M rmm Error unit :=
  rec ← read_rec rec_addr;
  parts ← lift (foldr (fun i acc => l ← acc; v ← get_reg rec (Z.of_nat i + 1); Ok (v :: l))
                  (Ok []) (seq 0 8));
  update_rec rec_addr (Rec.with_attest_challenge (u64s_bytes parts));;
  update_rec rec_addr (Rec.with_attest_state AttestInProgress);;
  update_rec rec_addr (Rec.with_attest_token_offset 0);;
  reg_set rec_addr 0 Rsi.SUCCESS;;
  reg_set rec_addr 1 MAX_CCA_TOKEN_SIZE;;
  set_rsi_reg 0 Rmi.SUCCESS_REC_ENTER.

Definition get_token_part (rd : Rd.t) (rec_addr size : Z) : M rmm Error (list Z * Z) :=
  rec ← read_rec rec_addr;
  k ← gets keys;
  token ← lift (get_token k (Rec.attest_challenge rec) (Rd.measurements rd) (Rd.rpv rd)
                  (Rd.hash_algo rd));
  '(part, token_left, part_end) ← lift (token_part token (Rec.attest_token_offset rec) size);
  update_rec rec_addr (Rec.with_attest_token_offset part_end);;
  mret (part, token_left).

Definition attest_token_continue (rec_addr : Z) : M rmm Error unit :=
  with_owner rec_addr (fun rd_granule =>
    rd ← read_rd (content_addr rd_granule);
    rec ← read_rec rec_addr;
    if negb (bool_decide (Rec.attest_state rec = AttestInProgress))
    then back_to_realm rec_addr Rsi.ERROR_STATE
    else
      attest_ipa ← reg rec_addr 1;
      if negb (is_ok (validate_ipa rd attest_ipa)) then back_to_realm rec_addr Rsi.ERROR_INPUT
      else
        t ← s2_table rd;
        pa ← ipa_to_pa t attest_ipa RTT_PAGE_LEVEL;
        attest_pa ← lift (ok_or pa RmiErrorInput);
        pa_offset ← reg rec_addr 2;
        buffer_size ← reg rec_addr 3;
        if GRANULE_SIZE <? pa_offset + buffer_size then back_to_realm rec_addr Rsi.ERROR_INPUT
        else
          '(part, token_left) ← get_token_part rd rec_addr buffer_size;
          write_bytes (attest_pa + pa_offset) part;;
          (if token_left =? 0 then
             reg_set rec_addr 0 Rsi.SUCCESS;;
             update_rec rec_addr (Rec.with_attest_state NoAttestInProgress)
           else reg_set rec_addr 0 Rsi.INCOMPLETE);;
          reg_set rec_addr 1 (Z.of_nat (length part));;
          set_rsi_reg 0 Rmi.SUCCESS_REC_ENTER).

Definition rsi_features (rec_addr : Z) : M rmm Error unit :=
  reg_set rec_addr 0 Rsi.SUCCESS;;
  reg_set rec_addr 1 0;;
  set_rsi_reg 0 Rmi.SUCCESS_REC_ENTER.

Definition rsi_abi_version (rec_addr : Z) : M rmm Error unit :=
  req ← reg rec_addr 1;
  let '(req_major, req_minor) := decode_version req in
  if negb (req_major =? Rsi.ABI_VERSION_MAJOR) || negb (req_minor =? Rsi.ABI_VERSION_MINOR)
  then back_to_realm rec_addr Rsi.ERROR_INPUT
  else
    let lower := encode_version Rsi.ABI_VERSION_MAJOR Rsi.ABI_VERSION_MINOR in
    reg_set rec_addr 0 Rsi.SUCCESS;;
    reg_set rec_addr 1 lower;;
    reg_set rec_addr 2 lower;;
    set_rsi_reg 0 Rmi.SUCCESS_REC_ENTER.

(** Registers 1, 2, .. get the words of a byte string. *)
Definition regs_of_bytes (rec_addr : Z) (b : list Z) : M rmm Error unit :=
  for_each (zip (seq 1 (length b / 8)) (u64s_at 0 (length b / 8) b))
    (fun '(i, v) => reg_set rec_addr (Z.of_nat i) v).

Definition rsi_measurement_read (rec_addr : Z) : M rmm Error unit :=
  with_owner rec_addr (fun rd_granule =>
    rd ← read_rd (content_addr rd_granule);
    index ← reg rec_addr 1;
    if MEASUREMENTS_SLOT_NR <=? index then back_to_realm rec_addr Rsi.ERROR_INPUT
    else
      m ← lift (map_err error_of_rsi (measurement_read rd index));
      reg_set rec_addr 0 Rsi.SUCCESS;;
      regs_of_bytes rec_addr m;;
      set_rsi_reg 0 Rmi.SUCCESS_REC_ENTER).

Definition rsi_measurement_extend (rec_addr : Z) : M rmm Error unit :=
  with_owner rec_addr (fun rd_granule =>
    index ← reg rec_addr 1;
    size ← reg rec_addr 2;
    rec ← read_rec rec_addr;
    ws ← lift (foldr (fun i acc => l ← acc; v ← get_reg rec (Z.of_nat i + 3); Ok (v :: l))
                (Ok []) (seq 0 8));
    let buffer := u64s_bytes ws in
    if (64 <? size) || (index =? MEASUREMENTS_SLOT_RIM) || (MEASUREMENTS_SLOT_NR <=? index)
    then back_to_realm rec_addr Rsi.ERROR_INPUT
    else
      measure_rd (content_addr rd_granule)
        (fun rd => extend_measurement rd (slice 0 size buffer) index);;
      back_to_realm rec_addr Rsi.SUCCESS).

(** [realm_config] (realm/config.rs): [ipa_width] at the start of the page. *)
Definition rsi_realm_config (rec_addr : Z) : M rmm Error unit :=
  o ← owner_of rec_addr;
  owner_rd ← read_rd o;
  let ipa_bits := Rd.ipa_bits owner_rd in
  with_owner rec_addr (fun rd_granule =>
    rd ← read_rd (content_addr rd_granule);
    config_ipa ← reg rec_addr 1;
    if negb (is_ok (validate_ipa rd config_ipa)) then back_to_realm rec_addr Rsi.ERROR_INPUT
    else
      t ← s2_table rd;
      pa ← ipa_to_pa t config_ipa RTT_PAGE_LEVEL;
      pa ← lift (ok_or pa RmiErrorInput);
      write_bytes pa (le_bytes 8 ipa_bits);;
      back_to_realm rec_addr Rsi.SUCCESS).

(** ** RIPAS (rsi/ripas.rs) *)
Definition get_ripas_state (rec_addr : Z) : M rmm Error unit :=
  with_owner rec_addr (fun rd_granule =>
    rd ← read_rd (content_addr rd_granule);
    ipa_page ← reg rec_addr 1;
    if negb (is_ok (validate_ipa rd ipa_page)) then back_to_realm rec_addr Rsi.ERROR_INPUT
    else
      ripas ← get_ripas_at rd ipa_page RTT_PAGE_LEVEL;
      reg_set rec_addr 0 Rsi.SUCCESS;;
      reg_set rec_addr 1 ripas;;
      set_rsi_reg 0 Rmi.SUCCESS_REC_ENTER).

Definition is_ripas_valid (ripas : Z) : bool :=
  (ripas =? invalid_ripas.EMPTY) || (ripas =? invalid_ripas.RAM).

Definition set_ripas_state (rec_addr : Z) : M rmm Error unit :=
  ipa_start ← reg rec_addr 1;
  ipa_end ← reg rec_addr 2;
  ipa_state ← reg rec_addr 3;
  let ipa_state := ipa_state mod 256 in
  flags ← reg rec_addr 4;
  if ipa_end <=? ipa_start then back_to_realm rec_addr Rsi.ERROR_INPUT
  else with_owner rec_addr (fun rd_granule =>
    rd ← read_rd (content_addr rd_granule);
    if negb (is_granule_aligned ipa_start) || negb (is_granule_aligned ipa_end)
       || negb (is_ripas_valid ipa_state) || (ipa_end <=? ipa_start)
       || negb (Rd.addr_in_par rd ipa_start) || negb (Rd.addr_in_par rd (ipa_end - 1))
    then back_to_realm rec_addr Rsi.ERROR_INPUT
    else
      update_run (Run.set_exit_reason Rmi.EXIT_RIPAS_CHANGE);;
      update_run (Run.set_ripas ipa_start ipa_end ipa_state);;
      update_rec rec_addr (Rec.set_ripas ipa_start ipa_end ipa_state flags);;
      set_rsi_reg 0 Rmi.SUCCESS).

Definition complete_ripas (rec_addr : Z) : M rmm Error unit :=
  rec ← read_rec rec_addr;
  let ripas_addr := Rec.ripas_addr rec in
  if 0 <? Rec.ripas_end rec then
    reg_set rec_addr 0 Rsi.SUCCESS;;
    reg_set rec_addr 1 ripas_addr;;
    flags ← gets (fun s => Run.entry_flags (run s));
    (if negb (Z.land flags REC_ENTRY_FLAG_RIPAS_RESPONSE =? 0) then reg_set rec_addr 2 1
     else reg_set rec_addr 2 0);;
    update_rec rec_addr (Rec.set_ripas 0 0 0 0)
  else mret tt.
End rsi.
