(* ===== verification/RsiPsci.v ===== *)
(** * PSCI calls and sealing keys of a realm (rmm/src/rsi/{psci,sealing}.rs) *)

From S2P Require Import Prelude Bytes Bits Vmsa RmiTypes Granule S2tte Objects Machine PageTable Stage1 Stage2 Measurement Rtt RmiRealm RmiRtt RmiRec Rsi.

Definition SMCCC_MAJOR_VERSION : Z := 1.
Definition SMCCC_MINOR_VERSION : Z := 2.
Definition PSCI_MAJOR_VERSION : Z := 1.
Definition PSCI_MINOR_VERSION : Z := 1.
Definition psci_version : Z := Z.lor (Z.shiftl PSCI_MAJOR_VERSION 16) PSCI_MINOR_VERSION.
Definition smccc_version : Z := Z.lor (Z.shiftl SMCCC_MAJOR_VERSION 16) SMCCC_MINOR_VERSION.

Definition psci_features_ret (feature_id : Z) : Z :=
  if existsb (Z.eqb feature_id)
       [Rsi.PSCI_CPU_SUSPEND; Rsi.PSCI_CPU_OFF; Rsi.PSCI_CPU_ON; Rsi.PSCI_AFFINITY_INFO;
        Rsi.PSCI_SYSTEM_OFF; Rsi.PSCI_SYSTEM_RESET; Rsi.PSCI_FEATURES; Rsi.PSCI_VERSION]
  then PsciReturn.SUCCESS else PsciReturn.NOT_SUPPORTED.

Section psci.
Context `{Platform}.

Definition rsi_psci_version (rec_addr : Z) : M rmm Error unit :=
  _ ← ok (F := Error) (reg_set rec_addr 0 psci_version);
  set_rsi_reg 0 Rmi.SUCCESS_REC_ENTER.

Definition rsi_smccc_version (rec_addr : Z) : M rmm Error unit :=
  _ ← ok (F := Error) (reg_set rec_addr 0 smccc_version);
  set_rsi_reg 0 Rmi.SUCCESS_REC_ENTER.

Definition rsi_psci_features (rec_addr : Z) : M rmm Error unit :=
  feature_id ← reg rec_addr 1;
  _ ← ok (F := Error) (reg_set rec_addr 0 (psci_features_ret feature_id));
  set_rsi_reg 0 Rmi.SUCCESS_REC_ENTER.

Definition rsi_psci_cpu_on (rec_addr : Z) : M rmm Error unit :=
  with_owner rec_addr (fun rd_granule =>
    rd ← read_rd (content_addr rd_granule);
    target_mpidr ← reg rec_addr 1;
    entry_addr ← reg rec_addr 2;
    if negb (Rd.addr_in_par rd entry_addr)
    then back_to_realm rec_addr PsciReturn.INVALID_ADDRESS
    else
      let target_index := MPIDR.index target_mpidr in
      rec ← read_rec rec_addr;
      if Rd.rec_index rd <=? target_index
      then back_to_realm rec_addr PsciReturn.INVALID_PARAMS
      else if target_index =? Rec.vcpuid rec
      then back_to_realm rec_addr PsciReturn.ALREADY_ON
      else
        update_rec rec_addr (Rec.with_psci_pending true);;
        update_run (Run.set_exit_reason Rmi.EXIT_PSCI);;
        run_set_gpr 0 Rsi.PSCI_CPU_ON;;
        run_set_gpr 1 target_mpidr;;
        set_rsi_reg 0 Rmi.SUCCESS).

Definition rsi_psci_cpu_off (rec_addr : Z) : M rmm Error unit :=
  update_rec rec_addr (Rec.set_runnable 0);;
  update_run (Run.set_exit_reason Rmi.EXIT_PSCI);;
  run_set_gpr 0 Rsi.PSCI_CPU_OFF;;
  set_rsi_reg 0 Rmi.SUCCESS.

(** [PSCI_SYSTEM_OFF] and [PSCI_SYSTEM_RESET] *)
Definition rsi_psci_system (command rec_addr : Z) : M rmm Error unit :=
  with_owner rec_addr (fun rd_granule =>
    update_rd (content_addr rd_granule) (Rd.with_state SystemOff);;
    update_run (Run.set_exit_reason Rmi.EXIT_PSCI);;
    run_set_gpr 0 command;;
    set_rsi_reg 0 Rmi.SUCCESS).

Definition rsi_psci_cpu_suspend (rec_addr : Z) : M rmm Error unit :=
  _ ← reg rec_addr 1;
  _ ← reg rec_addr 2;
  _ ← reg rec_addr 3;
  update_run (Run.set_exit_reason Rmi.EXIT_PSCI);;
  run_set_gpr 0 Rsi.PSCI_CPU_SUSPEND;;
  set_rsi_reg 0 Rmi.SUCCESS.

(** The range check on the target is compiled only with [gst_page_table]. *)
Definition rsi_psci_affinity_info (rec_addr : Z) : M rmm Error unit :=
  affinity ← reg rec_addr 1;
  lowest_level ← reg rec_addr 2;
  if negb (lowest_level =? 0) then back_to_realm rec_addr PsciReturn.INVALID_PARAMS
  else
    let target_index := MPIDR.index affinity in
    rec ← read_rec rec_addr;
    if target_index =? Rec.vcpuid rec then back_to_realm rec_addr PsciReturn.SUCCESS
    else
      update_rec rec_addr (Rec.with_psci_pending true);;
      update_run (Run.set_exit_reason Rmi.EXIT_PSCI);;
      run_set_gpr 0 Rsi.PSCI_AFFINITY_INFO;;
      run_set_gpr 1 affinity;;
      set_rsi_reg 0 Rmi.SUCCESS.
End psci.

(** ** Sealing keys (rsi/sealing.rs) *)
Definition RSI_ISLET_USE_VHUK_M : Z := Z.shiftl 1 0.
Definition RSI_ISLET_SLK_RIM : Z := Z.shiftl 1 1.
Definition RSI_ISLET_SLK_REALM_ID : Z := Z.shiftl 1 2.
Definition RSI_ISLET_SLK_SVN : Z := Z.shiftl 1 3.
Definition SEALING_KEY_SIZE : Z := 32.
Definition SALT : list Z :=
  [0xd5; 0x77; 0x5f; 0x52; 0x4a; 0xce; 0x32; 0x21; 0xce; 0x77; 0x1e; 0xd2; 0x74; 0xbb; 0x74; 0xa4;
   0x60; 0xce; 0x3f; 0xb9; 0x74; 0x9c; 0xe3; 0x7d; 0x0a; 0xe6; 0xd2; 0xe9; 0x07; 0xf8; 0xb5; 0x4b].

Definition has_flag (flags bit : Z) : bool := negb (Z.land flags bit =? 0).

(** [#[repr(C, packed)] struct KdfInfo] and its bytes *)
Module KdfInfo.
Record t : Type := mk {
  public_key : list Z;
  realm_id : list Z;
  rpv : list Z;
  flags : Z;
  rim : list Z;
  hash_algo : Z;
  svn : Z
}.
Definition as_u8_slice (i : t) : list Z :=
  public_key i ++ realm_id i ++ rpv i ++ le_bytes 8 (flags i) ++ rim i
  ++ le_bytes 1 (hash_algo i) ++ le_bytes 8 (svn i).
End KdfInfo.

(** The information a sealing key is derived from; an error when the requested
    SVN is above the realm's. *)
Definition kdf_info (rd : Rd.t) (metadata : option IsletRealmMetadata.t) (flags svn : Z)
    : outcome Error KdfInfo.t :=
  '(pk, rid, s) ←
    (match metadata with
     | Some m =>
         if has_flag flags RSI_ISLET_SLK_SVN && (IsletRealmMetadata.svn m <? svn)
         then Err RmiErrorInput
         else Ok (IsletRealmMetadata.public_key m,
                  if has_flag flags RSI_ISLET_SLK_REALM_ID then IsletRealmMetadata.realm_id m
                  else zero_bytes 128,
                  if has_flag flags RSI_ISLET_SLK_SVN then svn else 0)
     | None => Ok (zero_bytes 96, zero_bytes 128, 0)
     end);
  rim ← (if has_flag flags RSI_ISLET_SLK_RIM || negb (bool_decide (is_Some metadata))
         then map_err error_of_rsi (measurement_read rd MEASUREMENTS_SLOT_RIM)
         else Ok (zero_bytes 64));
  Ok (KdfInfo.mk pk rid (Rd.rpv rd) flags rim 0 s).

Section sealing.
Context `{Platform}.

Definition derive_sealing_key (k : El3Keys) (info : KdfInfo.t) (use_vhuk_m : bool) : list Z :=
  let ikm := if use_vhuk_m then VHUK_M k else VHUK_A k in
  hkdf_sha256 SALT ikm (KdfInfo.as_u8_slice info).

Definition realm_sealing_key (rd : Rd.t) (flags svn : Z) : M rmm Error (list Z) :=
  k ← gets keys;
  metadata ←
    (match Rd.metadata rd with
     | Some meta_addr =>
         with_granule_if meta_addr GranuleState.Metadata (fun g =>
           gets (fun s =>
             Some (IsletRealmMetadata.of_bytes (bytes_of (mem s (content_addr g))))))
     | None => mret None
     end);
  info ← lift (kdf_info rd metadata flags svn);
  mret (derive_sealing_key k info (has_flag flags RSI_ISLET_USE_VHUK_M)).

Definition rsi_realm_sealing_key (rec_addr : Z) : M rmm Error unit :=
  flags ← reg rec_addr 1;
  svn ← reg rec_addr 2;
  with_owner rec_addr (fun rd_granule =>
    rd ← read_rd (content_addr rd_granule);
    key ← ok (F := Error) (realm_sealing_key rd flags svn);
    match key with
    | None => back_to_realm rec_addr Rsi.ERROR_INPUT
    | Some key => regs_of_bytes rec_addr key;; back_to_realm rec_addr Rsi.SUCCESS
    end).
End sealing.
