(* ===== verification/RecEnter.v ===== *)
(** * Entering a REC (rmm/src/rmi/rec/{handlers,exit}.rs [REC_ENTER],
    rmm/src/rec/{gic,timer}.rs, rmm/src/mmio.rs, rmm/src/event/realmexit.rs,
    rmm/src/monitor.rs [handle_rsi]) *)

From S2P Require Import Prelude Bytes Bits Vmsa RmiTypes Granule S2tte Objects Machine PageTable Stage1 Stage2 Measurement Rtt RmiRealm RmiRtt RmiRec Rsi RsiPsci.

(** ** GIC state exchanged with the host (rec/gic.rs) *)
Definition ICH_HCR_EL2_NS_MASK : Z :=
  Z.lor (Z.lor (Z.lor (Z.lor (Z.lor (Z.lor (Z.lor ICH_HCR_EL2.UIE ICH_HCR_EL2.LRENPIE)
    ICH_HCR_EL2.NPIE) ICH_HCR_EL2.VGrp1DIE) ICH_HCR_EL2.VGrp1EIE) ICH_HCR_EL2.VGrp0DIE)
    ICH_HCR_EL2.VGrp0EIE) ICH_HCR_EL2.TDIR.
Definition ICH_HCR_EL2_EOI_COUNT_WIDTH : Z := 5.
Definition ICH_HCR_EL2_EOI_COUNT_MASK : Z :=
  Word.shl (Z.shiftr (Word.not 0) (64 - ICH_HCR_EL2_EOI_COUNT_WIDTH)) ICH_HCR_EL2.EOIcount_shift.
Definition MAX_SPI_ID : Z := 1019.
Definition MIN_EPPI_ID : Z := 1056.
Definition MAX_EPPI_ID : Z := 1119.
Definition MIN_ESPI_ID : Z := 4096.
Definition MAX_ESPI_ID : Z := 5119.
Definition MIN_LPI_ID : Z := 8192.

(** Fields of a list register *)
Definition lr_state (lr : Z) : Z := Z.land (Z.shiftr lr 62) 3.
Definition lr_hw (lr : Z) : Z := Z.land (Z.shiftr lr 61) 1.
Definition lr_priority (lr : Z) : Z := Z.land (Z.shiftr lr 48) 0xff.
Definition lr_vintid (lr : Z) : Z := Z.land lr 0xffffffff.
Definition LR_PINTID_MASK : Z := define_mask 44 32.
Definition LR_EOI_MASK : Z := Z.shiftl 1 41.

Section gic.
Variable f : GicFeatures.

Definition valid_vintid (intid : Z) : bool :=
  if (intid <=? MAX_SPI_ID) || ((MIN_LPI_ID <=? intid) && (intid <=? max_vintid f)) then true
  else if ext_range f then
    ((MIN_EPPI_ID <=? intid) && (intid <=? MAX_EPPI_ID))
    || ((MIN_ESPI_ID <=? intid) && (intid <=? MAX_ESPI_ID))
  else false.

(** One list register against the later ones ([j in i+1..=nr_lrs]). *)
Definition lr_valid (lr : Z) (later : list Z) : bool :=
  if lr_state lr =? 0 then true
  else if negb (lr_hw lr =? 0)
          || negb (Z.land (lr_priority lr) (pri_res0_mask f) =? 0)
          || negb (Z.land lr (Z.land LR_PINTID_MASK (Word.not LR_EOI_MASK)) =? 0)
          || negb (valid_vintid (lr_vintid lr))
  then false
  else forallb (fun lr2 => (lr_state lr2 =? 0) || negb (lr_vintid lr =? lr_vintid lr2)) later.

Fixpoint lrs_valid (n : nat) (lrs : list Z) : bool :=
  match n, lrs with
  | O, _ => true
  | S n', lr :: lrs' => lr_valid lr (take (S n') lrs') && lrs_valid n' lrs'
  | S _, [] => true
  end.

(** [validate_state] *)
Definition gic_validate_state (r : Run.t) : bool :=
  let hcr := Run.entry_gic_hcr r in
  if negb (Z.land hcr (Word.not ICH_HCR_EL2_NS_MASK) =? 0) then false
  else lrs_valid (Z.to_nat (nr_lrs f)) (Run.entry_gic_lrs r).

Definition gic_receive_state_from_host (g : GICRegister.t) (r : Run.t) : GICRegister.t :=
  let n := Z.to_nat (nr_lrs f) in
  let lrs := take n (Run.entry_gic_lrs r) ++ drop n (GICRegister.ich_lr_el2 g) in
  let hcr := Z.lor (Z.land (GICRegister.ich_hcr_el2 g) (Word.not ICH_HCR_EL2_NS_MASK))
                   (Z.land (Run.entry_gic_hcr r) ICH_HCR_EL2_NS_MASK) in
  GICRegister.with_ich_hcr_el2 hcr (GICRegister.with_ich_lr_el2 lrs g).

Definition gic_send_state_to_host (g : GICRegister.t) (r : Run.t) : Run.t :=
  let n := Z.to_nat (nr_lrs f) in
  let r := Run.on_exit (fun x => RunExit.with_gicv3_lrs
             (take n (GICRegister.ich_lr_el2 g) ++ drop n (RunExit.gicv3_lrs x)) x) r in
  let r := Run.set_gic_misr (GICRegister.ich_misr_el2 g) r in
  let r := Run.set_gic_vmcr (GICRegister.ich_vmcr_el2 g) r in
  Run.set_gic_hcr (Z.land (GICRegister.ich_hcr_el2 g)
                    (Z.lor ICH_HCR_EL2_EOI_COUNT_MASK ICH_HCR_EL2_NS_MASK)) r.
End gic.

(** [timer::send_state_to_host] *)
Definition timer_send_state_to_host (t : TimerRegister.t) (r : Run.t) : Run.t :=
  let r := Run.set_cntv_ctl (TimerRegister.cntv_ctl_el0 t) r in
  let r := Run.set_cntv_cval (Word.sub (TimerRegister.cntv_cval_el0 t)
                                       (TimerRegister.cntvoff_el2 t)) r in
  let r := Run.set_cntp_ctl (TimerRegister.cntp_ctl_el0 t) r in
  Run.set_cntp_cval (Word.sub (TimerRegister.cntp_cval_el0 t) (TimerRegister.cntpoff_el2 t)) r.

(** ** Syndrome fields (lib/armv9a/src/regs.rs) *)
Module EsrEl2.
Definition EC : Z := define_mask 31 26.
Definition ISV : Z := define_mask 24 24.
Definition SAS : Z := define_mask 23 22.
Definition SSE : Z := define_mask 21 21.
Definition SRT : Z := define_mask 20 16.
Definition SF : Z := define_mask 15 15.
Definition SET : Z := define_mask 12 11.
Definition FNV : Z := define_mask 10 10.
Definition EA : Z := define_mask 9 9.
Definition WNR : Z := define_mask 6 6.
Definition DFSC : Z := define_mask 5 0.
Definition get_access_size_mask (esr : Z) : outcome Error Z :=
  let sas := get_masked_value esr SAS in
  if sas =? 0 then Ok 0xff
  else if sas =? 1 then Ok 0xffff
  else if sas =? 2 then Ok 0xffffffff
  else if sas =? 3 then Ok 0xffffffffffffffff
  else Panicked.
End EsrEl2.
Definition ESR_EL2_EC_DATA_ABORT : Z := 36.
Definition NON_EMULATABLE_ABORT_MASK : Z :=
  Z.lor (Z.lor (Z.lor (Z.lor EsrEl2.EC EsrEl2.SET) EsrEl2.FNV) EsrEl2.EA) EsrEl2.DFSC.
Definition EMULATABLE_ABORT_MASK : Z :=
  Z.lor (Z.lor (Z.lor (Z.lor NON_EMULATABLE_ABORT_MASK EsrEl2.ISV) EsrEl2.SAS) EsrEl2.SF)
        EsrEl2.WNR.

(** ** MMIO emulation on entry (mmio.rs) *)
Definition emulate_mmio (rec : Rec.t) (r : Run.t) : outcome Error Rec.t :=
  if Z.land (Run.entry_flags r) REC_ENTRY_FLAG_EMUL_MMIO =? 0 then Ok rec
  else
    let esr := Context.sys_regs (Rec.context rec) esr_el2 in
    let ec := get_masked_value esr EsrEl2.EC in
    let wnr := get_masked_value esr EsrEl2.WNR in
    let rt := get_masked_value esr EsrEl2.SRT in
    if negb (ec =? ESR_EL2_EC_DATA_ABORT)
       || negb (bool_decide (Rec.emulatable_abort rec = EmulatableAbort))
    then Err RmiErrorRec
    else
      rec ←
        (if (wnr =? 0) && negb (rt =? 31) then
           mask ← EsrEl2.get_access_size_mask esr;
           v ← Run.entry_gpr r 0;
           if negb (get_masked_value esr EsrEl2.SSE =? 0) then Panicked
           else set_reg rec rt (Z.land v mask)
         else Ok rec);
      Ok (Rec.on_context (fun c => Context.with_elr (Word.add (Context.elr c) 4) c) rec).

(** ** Exit reasons (event/realmexit.rs) *)
Inductive ExitSyncType : Set := SyncRSI | SyncDataAbort | SyncInstAbort | SyncUndefined.
Inductive RecExitReason : Set :=
| ExitSync (t : ExitSyncType) | ExitIRQ | ExitFIQ | ExitPSCI | ExitSError | ExitUndefined.

Definition exit_sync_type_of (num : Z) : ExitSyncType :=
  let v := Z.shiftr (Z.land num (Z.shiftl 15 4)) 4 in
  if v =? 1 then SyncRSI else if v =? 2 then SyncDataAbort
  else if v =? 3 then SyncInstAbort else SyncUndefined.

Definition rec_exit_reason_of (num : Z) : RecExitReason :=
  let v := Z.land num 15 in
  if v =? 0 then ExitSync (exit_sync_type_of num)
  else if v =? 1 then ExitIRQ else if v =? 2 then ExitFIQ
  else if v =? 3 then ExitPSCI else if v =? 4 then ExitSError else ExitUndefined.

(** [impl Into<u64>] *)
Definition exit_sync_type_code (t : ExitSyncType) : Z :=
  match t with
  | SyncRSI => Z.shiftl 1 4
  | SyncDataAbort => Z.shiftl 2 4
  | SyncInstAbort => Z.shiftl 3 4
  | SyncUndefined => Z.shiftl 15 4
  end.
Definition rec_exit_reason_code (r : RecExitReason) : Z :=
  match r with
  | ExitSync t => exit_sync_type_code t
  | ExitIRQ => 1 | ExitFIQ => 2 | ExitPSCI => 3 | ExitSError => 4 | ExitUndefined => 7
  end.

(** ** RSI dispatch (rsi/constraint.rs, event/{mod,rsihandle}.rs, monitor.rs) *)

(** [pick]: the number of return registers *)
Definition rsi_ret_num (cmd : Z) : nat :=
  if cmd =? Rsi.ISLET_REALM_SEALING_KEY then 5%nat else 1%nat.

Section rec_enter.
Context `{Platform}.

Definition rsi_handlers : list (Z * (Z -> M rmm Error unit)) :=
  [(Rsi.ATTEST_TOKEN_INIT, attest_token_init);
   (Rsi.ATTEST_TOKEN_CONTINUE, attest_token_continue);
   (Rsi.FEATURES, rsi_features);
   (Rsi.HOST_CALL, do_host_call (set_rsi_reg 0));
   (Rsi.ABI_VERSION, rsi_abi_version);
   (Rsi.MEASUREMENT_READ, rsi_measurement_read);
   (Rsi.MEASUREMENT_EXTEND, rsi_measurement_extend);
   (Rsi.REALM_CONFIG, rsi_realm_config);
   (Rsi.IPA_STATE_GET, get_ripas_state);
   (Rsi.IPA_STATE_SET, set_ripas_state);
   (Rsi.ISLET_REALM_SEALING_KEY, rsi_realm_sealing_key);
   (Rsi.PSCI_VERSION, rsi_psci_version);
   (Rsi.PSCI_CPU_ON, rsi_psci_cpu_on);
   (Rsi.PSCI_CPU_OFF, rsi_psci_cpu_off);
   (Rsi.PSCI_SYSTEM_OFF, rsi_psci_system Rsi.PSCI_SYSTEM_OFF);
   (Rsi.PSCI_CPU_SUSPEND, rsi_psci_cpu_suspend);
   (Rsi.PSCI_SYSTEM_RESET, rsi_psci_system Rsi.PSCI_SYSTEM_RESET);
   (Rsi.PSCI_AFFINITY_INFO, rsi_psci_affinity_info);
   (Rsi.PSCI_FEATURES, rsi_psci_features);
   (Rsi.SMCCC_VERSION, rsi_smccc_version)].

Definition rsi_handler (cmd : Z) : option (Z -> M rmm Error unit) :=
  snd <$> List.find (fun h => fst h =? cmd) rsi_handlers.

(** [handle_rsi]: did a handler run ([RET_SUCCESS])? [do_rsi] turns an error
    into its code in [ret[0]]. *)
Definition handle_rsi (cmd rec_addr : Z) : M rmm Error bool :=
  modify (set_rsi_ret (replicate (rsi_ret_num cmd) 0));;
  match rsi_handler cmd with
  | Some handler =>
      set_rsi_reg 0 Rsi.SUCCESS;;
      catch (handler rec_addr) (fun code => set_rsi_reg 0 (error_code code));;
      mret true
  | None =>
      modify (set_rsi_ret [Word.not 0]);;
      _ ← ok (F := Error) (reg_set rec_addr 0 (Word.not 0));
      mret false
  end.

(** ** Realm exits (rmi/rec/exit.rs) *)
Definition is_non_emulatable_data_abort (rd : Rd.t) (fault_ipa esr : Z) : M rmm Error bool :=
  '(s2tte, _) ← get_s2tte rd fault_ipa RTT_PAGE_LEVEL (RmiErrorRtt 0);
  if Rd.addr_in_par rd fault_ipa then mret (is_unassigned s2tte || is_destroyed s2tte)
  else mret ((is_unassigned s2tte && (Z.land esr EsrEl2.ISV =? 0)) || is_assigned s2tte).

Definition get_write_val (rec : Rec.t) (esr : Z) : outcome Error Z :=
  let rt := get_masked_value esr EsrEl2.SRT in
  if rt =? 31 then Ok 0
  else v ← get_reg rec rt; mask ← EsrEl2.get_access_size_mask esr; Ok (Z.land v mask).

Definition fault_ipa_of (hpfar_el2 : Z) : Z := Word.shl (Z.land hpfar_el2 HPFAR_FIPA) 8.

Definition handle_data_abort (exit_res : list Z) (rec_addr : Z) : M rmm Error Z :=
  with_owner rec_addr (fun rd_granule =>
    rd ← read_rd (content_addr rd_granule);
    esr ← argn exit_res 1;
    hpfar_el2 ← argn exit_res 2;
    far_el2 ← argn exit_res 3;
    update_run (Run.set_exit_reason Rmi.EXIT_SYNC);;
    update_run (Run.set_hpfar hpfar_el2);;
    let fault_ipa := fault_ipa_of hpfar_el2 in
    non_emulatable ← is_non_emulatable_data_abort rd fault_ipa esr;
    '(exit_esr, exit_far) ←
      (if (non_emulatable : bool) then
         update_rec rec_addr (Rec.with_emulatable_abort NotEmulatableAbort);;
         mret (Z.land esr NON_EMULATABLE_ABORT_MASK, 0)
       else
         (if negb (Z.land esr EsrEl2.WNR =? 0) then
            rec ← read_rec rec_addr;
            write_val ← lift (get_write_val rec esr);
            run_set_gpr 0 write_val
          else mret tt);;
         update_rec rec_addr (Rec.with_emulatable_abort EmulatableAbort);;
         mret (Z.land esr EMULATABLE_ABORT_MASK, Z.land far_el2 (Word.not GRANULE_MASK)));
    update_run (Run.set_esr exit_esr);;
    update_run (Run.set_far exit_far);;
    mret Rmi.SUCCESS).

(** [handle_realm_exit]: (return to the host?, [ret[0]]). *)
Definition handle_realm_exit (exit_res : list Z) (rec_addr : Z) : M rmm Error (bool * Z) :=
  num ← argn exit_res 0;
  match rec_exit_reason_of num with
  | ExitSync SyncRSI =>
      cmd ← argn exit_res 1;
      handled ← handle_rsi cmd rec_addr;
      if (handled : bool) then
        r ← gets rsi_ret;
        r0 ← argn r 0;
        mret (negb (r0 =? Rmi.SUCCESS_REC_ENTER), r0)
      else mret (false, Rmi.SUCCESS)
  | ExitSync SyncDataAbort => r ← handle_data_abort exit_res rec_addr; mret (true, r)
  | ExitIRQ =>
      esr ← argn exit_res 1;
      hp ← argn exit_res 2;
      fa ← argn exit_res 3;
      update_run (Run.set_exit_reason Rmi.EXIT_IRQ);;
      update_run (Run.set_esr esr);;
      update_run (Run.set_hpfar hp);;
      update_run (Run.set_far fa);;
      mret (true, Rmi.SUCCESS)
  | ExitSync SyncInstAbort | ExitSync SyncUndefined =>
      esr ← argn exit_res 1;
      hp ← argn exit_res 2;
      update_run (Run.set_exit_reason Rmi.EXIT_SYNC);;
      update_run (Run.set_esr esr);;
      update_run (Run.set_hpfar hp);;
      mret (true, Rmi.SUCCESS)
  | _ => mret (true, Rmi.SUCCESS)
  end.

(** [run_prepare(.., 0)], [run()]: saving the SIMD state of a realm with SVE
    is [unimplemented!()]. *)
Definition run_rec (rec_addr : Z) : M rmm Error (list Z) := fun s =>
  let rec := rec_of (mem s rec_addr) in
  let '(exit_res, ctx, w) := realm_run (Rec.context rec) (env s) in
  let s := set_env w s in
  if SimdConfig.sve_en (SimdRegister.cfg (Context.simd ctx)) then (Panicked, s)
  else (Ok exit_res, write_page rec_addr (CRec (Rec.with_context ctx rec)) s).

(** One round of the loop of [REC_ENTER]: [inr] when the host gets control. *)
Definition rec_enter_round (rec_addr : Z) : M rmm Error (unit + unit) :=
  update_run (Run.set_imm 0);;
  update_rec rec_addr (Rec.with_state Running);;
  with_owner rec_addr (fun _ =>
    update_rec rec_addr (Rec.with_emulatable_abort NotEmulatableAbort));;
  exit_res ← ok (F := Error) (run_rec rec_addr);
  '(ret_ns, r0) ←
    (match exit_res with
     | Some realm_exit_res => handle_realm_exit realm_exit_res rec_addr
     | None => mret (true, Rmi.ERROR_REC)
     end);
  set_ret_reg 0 r0;;
  update_rec rec_addr (Rec.with_state Ready);;
  mret (if (ret_ns : bool) then inr tt else inl tt).

(** A realm may make any number of calls before it exits to the host. *)
Definition REC_ENTER_BOUND : positive := 2 ^ 64.

Definition check_realm_state (rd : Rd.t) : outcome Error unit :=
  match Rd.state rd with
  | Active => Ok tt
  | New => Err (RmiErrorRealm 0)
  | SystemOff => Err (RmiErrorRealm 1)
  | Null => Panicked
  end.

(** The checks of [REC_ENTER] before the REC is touched. *)
Definition rec_enter_checks (rec_addr : Z) : M rmm Error unit :=
  with_owner rec_addr (fun rd_granule =>
    rd ← read_rd (content_addr rd_granule);
    lift (check_realm_state rd));;
  rec ← read_rec rec_addr;
  if negb (Rec.runnable rec) then throw RmiErrorRec
  else if bool_decide (Rec.state rec = Running) then throw RmiErrorRec
  else if Rec.psci_pending rec then throw RmiErrorRec
  else
    r ← gets run;
    if negb (gic_validate_state GIC_FEATURES r) then throw RmiErrorRec else mret tt.

Definition rec_enter (arg : list Z) : M rmm Error unit :=
  run_pa ← argn arg 1;
  rec_pa ← argn arg 0;
  with_granule_if rec_pa GranuleState.Rec (fun rec_granule =>
    let rec_addr := content_addr rec_granule in
    pt_map run_pa false;;
    r ← copy_from Run.of_bytes run_pa;
    r ← lift (ok_or r RmiErrorInput);
    modify (set_run r);;
    pt_unmap run_pa;;
    lift (Run.verify_compliance r);;
    rec_enter_checks rec_addr;;
    rec ← read_rec rec_addr;
    (if Rec.host_call_pending rec then do_host_call (set_ret_reg 0) rec_addr else mret tt);;
    update_rec rec_addr (Rec.on_context (fun c =>
      Context.with_gic_state
        (gic_receive_state_from_host GIC_FEATURES (Context.gic_state c) r) c));;
    rec ← read_rec rec_addr;
    rec ← lift (emulate_mmio rec r);
    write_rec rec_addr rec;;
    complete_ripas rec_addr;;
    loop_or_hang (fun _ => rec_enter_round rec_addr) REC_ENTER_BOUND tt;;
    rec ← read_rec rec_addr;
    update_run (gic_send_state_to_host GIC_FEATURES (Context.gic_state (Rec.context rec)));;
    update_run (timer_send_state_to_host (Context.timer (Rec.context rec)));;
    pt_map run_pa false;;
    r ← gets run;
    res ← copy_to_ptr Run.to_bytes r run_pa;
    pt_unmap run_pa;;
    lift (ok_or res RmiErrorInput)).
End rec_enter.
