(* ===== verification/Trap.v ===== *)
(** * Exceptions (rmm/src/exception)

    The trap handlers behind the exception vectors: [handle_exception] for
    exceptions of the RMM itself and [handle_lower_exception] for those of a
    realm, with the decoding of syndromes (trap/syndrome.rs) and the emulation
    of the identification registers (lower/synchronous/sys_reg.rs). The vectors
    (vectors.s) save the realm's general registers, ELR and SPSR to its context
    before the handler and, when the handler returns [RET_TO_RMM], load the
    registers of the trap frame, of which [REC_ENTER] takes the first four. *)

From S2P Require Import Prelude Bits RmiTypes Objects Machine RmiRec RecEnter.

(** ** trap.rs and trap/frame.rs: the data *)
Inductive Source : Set := CurrentSPEL0 | CurrentSPELx | LowerAArch64 | LowerAArch32.
Inductive Kind : Set := Synchronous | Irq | Fiq | KSError.
Record Info : Set := mkInfo { source : Source; kind : Kind }.

Module TrapFrame.
Record t : Type := mk { elr : Z; spsr : Z; regs : list Z }.
Definition set_reg (i : nat) (v : Z) (f : t) : t := mk (elr f) (spsr f) (<[i := v]> (regs f)).
Definition with_elr (v : Z) (f : t) : t := mk v (spsr f) (regs f).
End TrapFrame.

(** ** trap/syndrome.rs *)
Inductive Fault : Set :=
| AddressSize (level : Z)
| Translation (level : Z)
| AccessFlag (level : Z)
| Permission (level : Z)
| Alignment
| TLBConflict
| FaultOther (code : Z).

Definition DFSC_MASK : Z := 0x3f.
Definition ISS_BRK_CMT_MASK : Z := 0xffff.
(** [ESR_EL2::EC] of the register crate. *)
Definition EC_SHIFT : Z := 26.
Definition EC_MASK : Z := 0x3f.

Definition fault_of (origin : Z) : Fault :=
  let level := Z.land origin 3 in
  let o8 := Z.land origin 0xff in
  let code := Z.shiftr (Z.land o8 DFSC_MASK) 2 in
  if code =? 0 then AddressSize level else
  if code =? 1 then Translation level else
  if code =? 2 then AccessFlag level else
  if code =? 3 then Permission level else
  if code =? 8 then Alignment else
  if code =? 12 then TLBConflict else
  FaultOther (Z.land o8 DFSC_MASK).

Inductive Syndrome : Set :=
| Unknown
| PCAlignmentFault
| DataAbort (f : Fault)
| InstructionAbort (f : Fault)
| SPAlignmentFault
| Brk (n : Z)
| HVC
| SMC
| SysRegInst
| WFX
| FPU
| SVE
| SME
| SynOther (ec : Z).

Definition exception_class (origin : Z) : Z := Z.land (Z.shiftr origin EC_SHIFT) EC_MASK.

Definition syndrome_of (origin : Z) : Syndrome :=
  let ec := exception_class origin in
  if ec =? 0 then Unknown else
  if ec =? 1 then WFX else
  if ec =? 7 then FPU else
  if ec =? 18 then HVC else
  if ec =? 22 then HVC else
  if ec =? 19 then SMC else
  if ec =? 23 then SMC else
  if ec =? 24 then SysRegInst else
  if ec =? 25 then SVE else
  if ec =? 29 then SME else
  if ec =? 32 then InstructionAbort (fault_of origin) else
  if ec =? 33 then InstructionAbort (fault_of origin) else
  if ec =? 34 then PCAlignmentFault else
  if ec =? 36 then DataAbort (fault_of origin) else
  if ec =? 37 then DataAbort (fault_of origin) else
  if ec =? 38 then SPAlignmentFault else
  if ec =? 60 then Brk (Z.land (Z.land origin 0xffff) ISS_BRK_CMT_MASK) else
  SynOther ec.

(** [impl Into<u64>]: only a data abort on a translation fault is implemented. *)
Definition fault_code (f : Fault) : outcome unit Z :=
  match f with
  | Translation level => Ok (Z.lor 4 level)
  | _ => Panicked
  end.
Definition syndrome_code (s : Syndrome) : outcome unit Z :=
  match s with
  | DataAbort f => iss ← fault_code f; mret (Z.lor (Z.shiftl 36 EC_SHIFT) iss)
  | _ => Panicked
  end.

(** ** lib/armv9a/src/regs.rs: the syndrome of a trapped register access *)
Module ISS.
Definition IL : Z := define_mask 25 25.
Definition Op0 : Z := define_mask 21 20.
Definition Op2 : Z := define_mask 19 17.
Definition Op1 : Z := define_mask 16 14.
Definition CRn : Z := define_mask 13 10.
Definition Rt : Z := define_mask 9 5.
Definition CRm : Z := define_mask 4 1.
Definition Direction : Z := define_mask 0 0.
End ISS.

Definition define_iss_id (op0 op1 crn crm op2 : Z) : Z :=
  Z.lor (Z.lor (Z.lor (Z.lor (bits_in_reg ISS.Op0 op0) (bits_in_reg ISS.Op1 op1))
    (bits_in_reg ISS.CRn crn)) (bits_in_reg ISS.CRm crm)) (bits_in_reg ISS.Op2 op2).

(** The identification registers the handler knows. *)
Inductive IdReg : Set :=
| ID_AA64PFR0_EL1 | ID_AA64PFR1_EL1 | ID_AA64DFR0_EL1 | ID_AA64DFR1_EL1
| ID_AA64AFR0_EL1 | ID_AA64AFR1_EL1 | ID_AA64ISAR0_EL1 | ID_AA64ISAR1_EL1
| ID_AA64MMFR0_EL1 | ID_AA64MMFR1_EL1 | ID_AA64MMFR2_EL1.
#[global] Instance IdReg_eq_dec : EqDecision IdReg.
Proof. solve_decision. Defined.

Definition iss_id (r : IdReg) : Z :=
  match r with
  | ID_AA64PFR0_EL1 => define_iss_id 3 0 0 4 0
  | ID_AA64PFR1_EL1 => define_iss_id 3 0 0 4 1
  | ID_AA64DFR0_EL1 => define_iss_id 3 0 0 5 0
  | ID_AA64DFR1_EL1 => define_iss_id 3 0 0 5 1
  | ID_AA64AFR0_EL1 => define_iss_id 3 0 0 5 4
  | ID_AA64AFR1_EL1 => define_iss_id 3 0 0 5 5
  | ID_AA64ISAR0_EL1 => define_iss_id 3 0 0 6 0
  | ID_AA64ISAR1_EL1 => define_iss_id 3 0 0 6 1
  | ID_AA64MMFR0_EL1 => define_iss_id 3 0 0 7 0
  | ID_AA64MMFR1_EL1 => define_iss_id 3 0 0 7 1
  | ID_AA64MMFR2_EL1 => define_iss_id 3 0 0 7 2
  end.

Definition id_regs : list IdReg :=
  [ID_AA64PFR0_EL1; ID_AA64PFR1_EL1; ID_AA64DFR0_EL1; ID_AA64DFR1_EL1;
   ID_AA64AFR0_EL1; ID_AA64AFR1_EL1; ID_AA64ISAR0_EL1; ID_AA64ISAR1_EL1;
   ID_AA64MMFR0_EL1; ID_AA64MMFR1_EL1; ID_AA64MMFR2_EL1].

(** The [match idreg as u32]. *)
Definition id_reg_of (idreg : Z) : option IdReg :=
  head (List.filter (fun r => idreg =? iss_id r) id_regs).

(** The 4-bit fields of the architecture, by their lowest bit. *)
Definition field4 (shift : Z) : Z := Z.shiftl 0xf shift.

(** The fields a realm does not see. *)
Definition hidden_fields (r : option IdReg) : list Z :=
  match r with
  | Some ID_AA64ISAR1_EL1 => [28; 24; 8; 4]                   (* GPI GPA API APA *)
  | Some ID_AA64PFR0_EL1 => [44; 32]                          (* AMU SVE *)
  | Some ID_AA64PFR1_EL1 => [8]                               (* MTE *)
  | Some ID_AA64DFR0_EL1 => [52; 48; 44; 40; 32; 28; 20; 12; 8; 4; 0]
      (* BRBE MTPMU TraceBuffer TraceFilt PMSVer CTX_CMPs WRPs BRPs PMUVer
         TraceVer DebugVer *)
  | _ => []
  end.
Definition hidden_mask (r : option IdReg) : Z :=
  foldr (fun shift m => field4 shift + m) 0 (hidden_fields r).

(** ** The state of a handler: the realm's context, the trap frame, the CPU *)
Record Cpu : Type := mkCpu {
  FAR_EL2 : Z;
  HPFAR_EL2 : Z;
  id_value : IdReg -> Z;
  SPSR_EL1 : Z;
  ELR_EL1 : Z;
  ESR_EL1 : Z;
  cptr : Z;
  (** q0 .. q31, FPSR and FPCR *)
  fpu_regs : list Z;
  (** the two words of 128 bits x0 points to *)
  at_x0 : list Z
}.

Record Trap : Type := mkTrap { ctx : Context.t; tf : TrapFrame.t; cpu : Cpu }.

Definition RET_TO_REC : Z := 0.
Definition RET_TO_RMM : Z := 1.
Definition SPSR_EL2_MODE_EL1H_OFFSET : Z := 0x200.
(** [ESR_EL1::EC::Unknown + ESR_EL1::IL::SET] *)
Definition ESR_UNKNOWN : Z := Z.shiftl 1 25.

Definition on_ctx (f : Context.t -> Context.t) : M Trap unit unit :=
  modify (fun s => mkTrap (f (ctx s)) (tf s) (cpu s)).
Definition set_tf (i : nat) (v : Z) : M Trap unit unit :=
  modify (fun s => mkTrap (ctx s) (TrapFrame.set_reg i v (tf s)) (cpu s)).
Definition on_cpu (f : Cpu -> Cpu) : M Trap unit unit :=
  modify (fun s => mkTrap (ctx s) (tf s) (f (cpu s))).

(** [gp_regs[rt] = v] *)
Definition set_gp (rt v : Z) : M Trap unit unit := fun s =>
  if rt <? Z.of_nat (length (Context.gp_regs (ctx s)))
  then on_ctx (fun c => Context.with_gp_regs (<[Z.to_nat rt := v]> (Context.gp_regs c)) c) s
  else (Panicked, s).

Definition advance_pc : M Trap unit unit :=
  on_ctx (fun c => Context.with_elr (Word.add (Context.elr c) 4) c).

(** ** lower/synchronous/sys_reg.rs *)
Definition check_sysreg_id_access (esr : Z) : bool :=
  Z.lor (Z.lor (get_masked esr ISS.Op0) (get_masked esr ISS.Op1)) (get_masked esr ISS.CRn)
  =? ISS.Op0.

(** [&=] on the zero [dfr0_set]. *)
Definition dfr0_set : Z :=
  let dfr0_set := 0 in
  let dfr0_set := Z.land dfr0_set (Z.shiftl 6 0) in
  let dfr0_set := Z.land dfr0_set (Z.shiftl 1 12) in
  Z.land dfr0_set (Z.shiftl 1 20).

Definition id_reg_value (c : Cpu) (r : option IdReg) : Z :=
  let mask := Word.not (hidden_mask r) in
  match r with
  | Some ID_AA64DFR0_EL1 => Z.lor (Z.land (id_value c ID_AA64DFR0_EL1) mask) dfr0_set
  | Some ID_AA64PFR0_EL1 | Some ID_AA64PFR1_EL1 | Some ID_AA64DFR1_EL1 | Some ID_AA64ISAR1_EL1 =>
      Z.land (id_value c (default ID_AA64PFR0_EL1 r)) mask
  | Some r => id_value c r
  | None => 0
  end.

Definition handle_sysreg_id (esr : Z) : M Trap unit Z :=
  let rt := get_masked_value esr ISS.Rt in
  let direction := get_masked_value esr ISS.Direction in
  if direction =? 0 then mret RET_TO_REC else
  if rt =? 31 then mret RET_TO_REC else
  let idreg := Z.lor (Z.lor (Z.lor (Z.lor (get_masked esr ISS.Op0) (get_masked esr ISS.Op1))
    (get_masked esr ISS.CRn)) (get_masked esr ISS.CRm)) (get_masked esr ISS.Op2) in
  c ← gets cpu;
  set_gp rt (id_reg_value c (id_reg_of idreg));;
  mret RET_TO_REC.

Definition sys_reg_handle (esr : Z) : M Trap unit Z :=
  (if check_sysreg_id_access esr then handle_sysreg_id esr;; mret tt else mret tt);;
  mret RET_TO_REC.

(** ** trap.rs: the handlers *)

(** The four words of an exit. *)
Definition set_exit (r : RecExitReason) (esr hpfar far : Z) : M Trap unit unit :=
  set_tf 0 (rec_exit_reason_code r);; set_tf 1 esr;; set_tf 2 hpfar;; set_tf 3 far.

(** An undefined-instruction exception for the realm; [vbar] is the value saved
    at the realm's last exit to the RMM. *)
Definition inject_undefined (esr : Z) : M Trap unit Z :=
  s ← get_state;
  on_cpu (fun c => mkCpu (FAR_EL2 c) (HPFAR_EL2 c) (id_value c) (Context.spsr (ctx s))
                     (Context.elr (ctx s)) ESR_UNKNOWN (cptr c) (fpu_regs c) (at_x0 c));;
  on_ctx (fun c => Context.with_elr (Word.add (Context.sys_regs c vbar) SPSR_EL2_MODE_EL1H_OFFSET) c);;
  set_exit (ExitSync SyncUndefined) esr 0 (FAR_EL2 (cpu s));;
  mret RET_TO_REC.

(** [simd::restore_fpu]: q0 and q1 come from [x0]. *)
Definition restore_fpu (fpu : list Z) (c : Cpu) : Cpu :=
  mkCpu (FAR_EL2 c) (HPFAR_EL2 c) (id_value c) (SPSR_EL1 c) (ELR_EL1 c) (ESR_EL1 c) (cptr c)
    (at_x0 c ++ drop 2 fpu) (at_x0 c).

Definition handle_simd (esr : Z) (s : Syndrome) : M Trap unit Z :=
  c ← gets ctx;
  let simd := Context.simd c in
  let abort := match s with
               | SVE => negb (SimdConfig.sve_en (SimdRegister.cfg simd))
               | SME => negb (SimdConfig.sme_en (SimdRegister.cfg simd))
               | _ => false
               end in
  if (abort : bool) then inject_undefined esr else
  on_cpu (fun c => mkCpu (FAR_EL2 c) (HPFAR_EL2 c) (id_value c) (SPSR_EL1 c) (ELR_EL1 c)
                     (ESR_EL1 c) CPTR_EL2.TAM (fpu_regs c) (at_x0 c));;
  on_ctx (fun c => Context.with_simd (SimdRegister.with_is_used true (Context.simd c)) c);;
  (if SimdRegister.is_saved simd then
     match s with
     | FPU => on_cpu (restore_fpu (SimdRegister.fpu simd))
     | _ => panic
     end
   else mret tt);;
  mret RET_TO_REC.

Definition handle_lower_exception (info : Info) (esr : Z) : M Trap unit Z :=
  s ← get_state;
  let far := FAR_EL2 (cpu s) in
  let hpfar := HPFAR_EL2 (cpu s) in
  match kind info with
  | Synchronous =>
      match syndrome_of esr with
      | HVC => inject_undefined esr
      | SMC =>
          set_tf 0 (rec_exit_reason_code (ExitSync SyncRSI));;
          set_tf 1 (nth 0 (Context.gp_regs (ctx s)) 0);;
          advance_pc;;
          mret RET_TO_RMM
      | InstructionAbort _ => set_exit (ExitSync SyncInstAbort) esr hpfar far;; mret RET_TO_RMM
      | DataAbort _ => set_exit (ExitSync SyncDataAbort) esr hpfar far;; mret RET_TO_RMM
      | SysRegInst => ret ← sys_reg_handle esr; advance_pc;; mret ret
      | WFX => set_exit (ExitSync SyncUndefined) esr hpfar far;; advance_pc;; mret RET_TO_RMM
      | FPU => handle_simd esr FPU
      | SVE => handle_simd esr SVE
      | SME => handle_simd esr SME
      | _ => set_exit (ExitSync SyncUndefined) esr hpfar far;; mret RET_TO_RMM
      end
  | Irq => set_exit ExitIRQ 0 0 0;; mret RET_TO_RMM
  | _ => mret RET_TO_REC
  end.

(** Exceptions of the RMM itself: logged, except for the ones that panic. *)
Definition handle_exception (info : Info) (esr : Z) (f : TrapFrame.t) : outcome unit TrapFrame.t :=
  match kind info with
  | Synchronous =>
      match syndrome_of esr with
      | Brk _ => Ok (TrapFrame.with_elr (Word.add (TrapFrame.elr f) 4) f)
      | FPU | SVE | SME => Panicked
      | Unknown | SPAlignmentFault => Panicked
      | _ => Ok f
      end
  | _ => Panicked
  end.

(** ** A realm between entry and exit

    What the vectors do around the handler: an exception finds the realm with
    some registers, which are saved to the context; after [RET_TO_REC] the realm
    goes on from its context, after [RET_TO_RMM] the system registers are saved
    too (all but [vmpidr]) and the RMM gets the first registers of the frame. *)
Record RealmStep : Type := mkStep {
  st_info : Info;
  st_esr : Z;
  st_gp : list Z;
  st_elr : Z;
  st_spsr : Z;
  st_sys : SysReg -> Z;
  st_cpu : Cpu
}.

Definition save_volatile (st : RealmStep) (c : Context.t) : Context.t :=
  Context.with_spsr (st_spsr st) (Context.with_elr (st_elr st) (Context.with_gp_regs (st_gp st) c)).

Definition save_sys_regs (st : RealmStep) (c : Context.t) : Context.t :=
  Context.with_sys_regs
    (fun r => if bool_decide (r = vmpidr) then Context.sys_regs c vmpidr else st_sys st r) c.

Fixpoint run_realm (steps : list RealmStep) (c : Context.t) (f : TrapFrame.t)
  : outcome unit (list Z * Context.t) :=
  match steps with
  | [] => Hung
  | st :: steps =>
      match handle_lower_exception (st_info st) (st_esr st)
              (mkTrap (save_volatile st c) f (st_cpu st)) with
      | (Ok ret, s) =>
          if ret =? RET_TO_REC then run_realm steps (ctx s) (tf s)
          else Ok (take 4 (TrapFrame.regs (tf s)), save_sys_regs st (ctx s))
      | (Err e, _) => Err e
      | (Panicked, _) => Panicked
      | (Hung, _) => Hung
      end
  end.
