(* ===== verification/Event.v ===== *)
(** * The monitor: command constraints, dispatch and the main loop

    rmm/src/event/{mod,mainloop,rmihandle}.rs, rmm/src/rmi/{constraint,features,version}.rs
    and rmm/src/monitor.rs. A command arrives as the eight registers of the
    secure monitor call that completed the previous one; [constraint::validate]
    sizes its argument and return registers, [handle_rmi] runs the handler and
    the return registers become the arguments of [RMM_REQ_COMPLETE]. *)

From S2P Require Import Prelude Bytes Bits Vmsa RmiTypes Granule S2tte Objects Machine PageTable Stage1 Stage2 Measurement Rtt RmiGranule RmiRealm RmiRtt RmiRec Rsi RsiPsci RecEnter.

(** ** [event::Context] *)
Module Event.
Record t : Set := mk { cmd : Z; arg : list Z; ret : list Z }.
Definition new (cmd : Z) : t := mk cmd [] [].
Definition init_arg (a : list Z) (c : t) : t := mk (cmd c) a (ret c).
Definition init_ret (r : list Z) (c : t) : t := mk (cmd c) (arg c) r.
Definition resize_ret (n : nat) (c : t) : t := init_ret (replicate n 0) c.
Definition with_cmd (v : Z) (c : t) : t := mk v (arg c) (ret c).
End Event.

(** ** [FEATURES] (rmi/features.rs) *)
Module FeatureReg0.
Definition HASH_SHA_512 : Z := define_mask 29 29.
Definition HASH_SHA_256 : Z := define_mask 28 28.
Definition PMU_NUM_CTRS : Z := define_mask 27 23.
Definition PMU_EN : Z := define_mask 22 22.
Definition LPA2 : Z := define_mask 8 8.
Definition S2SZ : Z := define_mask 7 0.
End FeatureReg0.

Definition feat_reg0 : Z :=
  let r := set_masked_value 0 FeatureReg0.S2SZ S2SZ_VALUE in
  let r := set_masked_value r FeatureReg0.LPA2 0 in
  let r := set_masked_value r FeatureReg0.PMU_EN 0 in
  let r := set_masked_value r FeatureReg0.PMU_NUM_CTRS 0 in
  let r := set_masked_value r FeatureReg0.HASH_SHA_256 1 in
  set_masked_value r FeatureReg0.HASH_SHA_512 1.

(** ** [VERSION] (rmi/version.rs) *)
Definition rmi_decode_version (version : Z) : Z * Z :=
  (Z.shiftr (Z.land version 0x7fff0000) 16, Z.land version 0xffff).
Definition rmi_encode_version : Z :=
  Z.lor (Z.shiftl Rmi.ABI_MAJOR_VERSION 16) Rmi.ABI_MINOR_VERSION.

(** ** [constraint::pick]: argument registers (the command included, so one
    more than the handler reads) and return registers of each command *)
Definition pick (cmd : Z) : option (nat * nat) :=
  snd <$> List.find (fun c => fst c =? cmd)
    [(Rmi.VERSION, (2, 3)%nat);
     (Rmi.GRANULE_DELEGATE, (2, 1)%nat);
     (Rmi.GRANULE_UNDELEGATE, (2, 1)%nat);
     (Rmi.DATA_CREATE, (6, 1)%nat);
     (Rmi.DATA_CREATE_UNKNOWN, (4, 1)%nat);
     (Rmi.DATA_DESTROY, (3, 3)%nat);
     (Rmi.REALM_ACTIVATE, (2, 1)%nat);
     (Rmi.REALM_CREATE, (3, 2)%nat);
     (Rmi.REALM_DESTROY, (2, 1)%nat);
     (Rmi.REC_CREATE, (4, 2)%nat);
     (Rmi.REC_DESTROY, (4, 1)%nat);
     (Rmi.REC_ENTER, (3, 1)%nat);
     (Rmi.RTT_MAP_UNPROTECTED, (5, 1)%nat);
     (Rmi.RTT_UNMAP_UNPROTECTED, (4, 2)%nat);
     (Rmi.RTT_READ_ENTRY, (4, 5)%nat);
     (Rmi.FEATURES, (2, 2)%nat);
     (Rmi.REC_AUX_COUNT, (2, 2)%nat);
     (Rmi.RTT_CREATE, (5, 1)%nat);
     (Rmi.RTT_DESTROY, (4, 3)%nat);
     (Rmi.RTT_INIT_RIPAS, (4, 2)%nat);
     (Rmi.RTT_SET_RIPAS, (5, 2)%nat);
     (Rmi.RTT_FOLD, (4, 2)%nat);
     (Rmi.REQ_COMPLETE, (4, 2)%nat);
     (Rmi.PSCI_COMPLETE, (4, 1)%nat);
     (Rmi.ISLET_REALM_SET_METADATA, (4, 1)%nat)].

(** [&arg[..c.arg_num]] panics when there are fewer. *)
Definition constraint_validate {E} (cmd : Z) (arg : list Z) : outcome E Event.t :=
  match pick cmd with
  | Some (arg_num, ret_num) =>
      if decide (arg_num <= length arg)%nat then
        Ok (Event.resize_ret ret_num (Event.init_arg (take arg_num arg) (Event.new cmd)))
      else Panicked
  | None => Ok (Event.new Rmi.NOT_SUPPORTED_YET)
  end.

Section monitor.
Context `{Platform}.

Definition rmi_features (arg : list Z) : M rmm Error unit :=
  index ← argn arg 0;
  if negb (index =? 0) then set_ret_reg 1 0
  else set_ret_reg 1 feat_reg0.

Definition rmi_version (arg : list Z) : M rmm Error unit :=
  req ← argn arg 0;
  set_ret_reg 1 rmi_encode_version;;
  set_ret_reg 2 rmi_encode_version;;
  let '(req_major, req_minor) := rmi_decode_version req in
  if negb (req_major =? Rmi.ABI_MAJOR_VERSION) || negb (req_minor =? Rmi.ABI_MINOR_VERSION)
  then throw RmiErrorInput
  else mret tt.

(** [RmiHandle::add_event_handlers] *)
Definition rmi_handlers : list (Z * (list Z -> M rmm Error unit)) :=
  [(Rmi.FEATURES, rmi_features);
   (Rmi.GRANULE_DELEGATE, granule_delegate);
   (Rmi.GRANULE_UNDELEGATE, granule_undelegate);
   (Rmi.REALM_ACTIVATE, realm_activate);
   (Rmi.REALM_CREATE, realm_create);
   (Rmi.REC_AUX_COUNT, rec_aux_count);
   (Rmi.REALM_DESTROY, realm_destroy);
   (Rmi.ISLET_REALM_SET_METADATA, realm_set_metadata);
   (Rmi.REC_CREATE, rec_create);
   (Rmi.REC_DESTROY, rec_destroy);
   (Rmi.REC_ENTER, rec_enter);
   (Rmi.PSCI_COMPLETE, psci_complete);
   (Rmi.RTT_CREATE, rtt_create);
   (Rmi.RTT_DESTROY, rtt_destroy);
   (Rmi.RTT_INIT_RIPAS, rtt_init_ripas);
   (Rmi.RTT_SET_RIPAS, rtt_set_ripas);
   (Rmi.RTT_READ_ENTRY, rtt_read_entry);
   (Rmi.DATA_CREATE, rmi_data_create);
   (Rmi.DATA_CREATE_UNKNOWN, rmi_data_create_unknown);
   (Rmi.DATA_DESTROY, rmi_data_destroy);
   (Rmi.RTT_MAP_UNPROTECTED, rtt_map_unprotected);
   (Rmi.RTT_UNMAP_UNPROTECTED, rtt_unmap_unprotected);
   (Rmi.RTT_FOLD, rtt_fold);
   (Rmi.VERSION, rmi_version)].

Definition rmi_handler (cmd : Z) : option (list Z -> M rmm Error unit) :=
  snd <$> List.find (fun h => fst h =? cmd) rmi_handlers.

(** [Monitor::handle_rmi] *)
Definition handle_rmi (ctx : Event.t) : M rmm Error Event.t :=
  match rmi_handler (Event.cmd ctx) with
  | Some handler =>
      modify (set_ret (Event.ret ctx));;
      catch (handler (Event.arg ctx)) (fun code => set_ret_reg 0 (error_code code));;
      r ← gets ret;
      mret (Event.mk Rmi.REQ_COMPLETE r r)
  | None => mret (Event.with_cmd Rmi.REQ_COMPLETE (Event.init_arg [Rmi.RET_FAIL] ctx))
  end.

(** [Mainloop::dispatch] *)
Definition dispatch (ctx : Event.t) : M rmm Error Event.t :=
  r ← smc (Event.cmd ctx) (Event.arg ctx);
  cmd ← lift (unwrap (r !! 0%nat));
  lift (constraint_validate cmd (drop 1 r)).

Definition boot_complete : M rmm Error Event.t :=
  dispatch (Event.init_arg [Rmi.BOOT_SUCCESS] (Event.new Rmi.BOOT_COMPLETE)).

(** One round of [Monitor::run]. *)
Definition monitor_round (ctx : Event.t) : M rmm Error Event.t :=
  ctx ← handle_rmi ctx;
  dispatch ctx.
End monitor.
