(* ===== verification/Frame.v ===== *)
(** * Frame conditions of the command handlers

    A relation between the states before and after that is [Stable] is kept by
    every primitive the handlers are built from, so by every handler, whatever
    it returns (a value, an error, a panic or a hang). The class lists the
    primitive effects once; the facts "locks are released", "no state becomes
    Undelegated", "states stay well formed" are then instances. *)

From S2P Require Import Prelude Bytes Bits Vmsa RmiTypes Granule S2tte Objects Machine PageTable Stage1 Stage2 Measurement Rtt RmiGranule RmiRealm RmiRtt RmiRec Rsi RsiPsci RecEnter Event.

(** [Undelegated] is the one state only [GRANULE_UNDELEGATE] enters. *)
Class Stable `{Platform} (R : relation rmm) : Prop := {
  stable_preorder :: PreOrder R;
  stable_mem s v : R s (set_mem v s);
  stable_vmid_set s v : R s (set_vmid_set v s);
  stable_rtt_tables s v : R s (set_rtt_tables v s);
  stable_heap s v : R s (set_heap v s);
  stable_tlbi_log s v : R s (set_tlbi_log v s);
  stable_ret s i v : (0 < i)%nat -> R s (set_ret (<[i := v]> (ret s)) s);
  stable_run s v : R s (set_run v s);
  stable_rsi_ret s v : R s (set_rsi_ret v s);
  stable_realm_run s ctx : R s (set_env (realm_run ctx (env s)).2 s);
  stable_count s idx f : f = inc_count \/ f = dec_count -> R s (update_granule idx f s);
  stable_state s idx st :
    1 <= st <= GranuleState.Metadata ->
    R s (update_granule idx (fun g => mkGranule st (ref_count g)) s);
  stable_scope s s' idx :
    idx ∉ locked s -> R (set_locked ({[idx]} ∪ locked s) s) s' ->
    R s (set_locked (locked s' ∖ {[idx]}) s')
}.

(** The effects only some commands or the dispatcher have: the status register
    ([REC_ENTER]), the state Undelegated ([GRANULE_UNDELEGATE]), calls of the
    firmware (the two delegation commands and the dispatcher) and a new set of
    return registers (the dispatcher). *)
Class StableStatus `{Platform} (R : relation rmm) : Prop :=
  stable_status s v : R s (set_ret (<[0%nat := v]> (ret s)) s).
Class StableUndelegated `{Platform} (R : relation rmm) : Prop :=
  stable_undelegated s idx :
    R s (update_granule idx (fun g => mkGranule GranuleState.Undelegated (ref_count g)) s).
Class StableSmc `{Platform} (R : relation rmm) : Prop :=
  stable_smc s args : R s (set_env (firmware_smc args (env s)).2 s).
Class StableAnyRet `{Platform} (R : relation rmm) : Prop :=
  stable_any_ret s v : R s (set_ret v s).

Section frame.
Context `{HP : Platform} (R : relation rmm) `{!Stable R}.

(** ** Primitives *)
Lemma frame_modify {E} (f : rmm -> rmm) :
  (forall s, R s (f s)) -> preserves (E := E) R (modify f).
Proof. intros Hf s. apply Hf. Qed.

Lemma frame_write_page {E} a c : preserves (E := E) R (modify (write_page a c)).
Proof. apply frame_modify. intros s. apply stable_mem. Qed.

Lemma frame_write_word {E} a v : preserves (E := E) R (modify (write_word a v)).
Proof. apply frame_modify. intros s. apply stable_mem. Qed.

Lemma frame_set_run {E} v : preserves (E := E) R (modify (set_run v)).
Proof. apply frame_modify. intros s. apply stable_run. Qed.

Lemma frame_set_rsi_ret {E} v : preserves (E := E) R (modify (set_rsi_ret v)).
Proof. apply frame_modify. intros s. apply stable_rsi_ret. Qed.

Lemma frame_set_vmid_set {E} v : preserves (E := E) R (modify (set_vmid_set v)).
Proof. apply frame_modify. intros s. apply stable_vmid_set. Qed.

Lemma frame_insert_rtt id t : preserves R (insert_rtt id t).
Proof. apply frame_modify. intros s. apply stable_rtt_tables. Qed.

Lemma frame_tlbi op : preserves R (tlbi op).
Proof. apply frame_modify. intros s. apply stable_tlbi_log. Qed.

Lemma frame_update_run f : preserves R (update_run f).
Proof. apply frame_modify. intros s. apply stable_run. Qed.

Lemma frame_write_bytes pa b : preserves R (write_bytes pa b).
Proof. apply frame_modify. intros s. apply stable_mem. Qed.

Lemma frame_inc_count {E} idx : preserves (E := E) R (modify (update_granule idx inc_count)).
Proof. apply frame_modify. intros s. apply stable_count. by left. Qed.

Lemma frame_dec_count {E} idx : preserves (E := E) R (modify (update_granule idx dec_count)).
Proof. apply frame_modify. intros s. apply stable_count. by right. Qed.

Lemma frame_set_ret_reg i v : preserves R (set_ret_reg (S i) v).
Proof.
  intros s. unfold set_ret_reg. case_decide; simpl; [|reflexivity].
  apply stable_ret. lia.
Qed.

Lemma frame_set_status `{!StableStatus R} v : preserves R (set_ret_reg 0 v).
Proof.
  intros s. unfold set_ret_reg. case_decide; simpl; [|reflexivity]. apply stable_status.
Qed.

Lemma frame_set_rsi_reg i v : preserves R (set_rsi_reg i v).
Proof.
  intros s. unfold set_rsi_reg. case_decide; simpl; [apply stable_rsi_ret|reflexivity].
Qed.

Lemma frame_smc `{!StableSmc R} cmd args : preserves R (smc cmd args).
Proof.
  intros s. unfold smc. case_decide; simpl; [reflexivity|].
  destruct (firmware_smc _ _) eqn:E. simpl. change w with (l, w).2. rewrite <- E. apply stable_smc.
Qed.

Lemma frame_on_heap {A} (f : Z -> M heap_t MmError A) : preserves R (on_heap f).
Proof. intros s. unfold on_heap. destruct (f _ _). apply stable_heap. Qed.

Lemma frame_pt_map a b : preserves R (pt_map a b).
Proof. unfold pt_map. preserve. apply frame_on_heap. Qed.

Lemma frame_pt_unmap a : preserves R (pt_unmap a).
Proof. unfold pt_unmap. preserve. apply frame_on_heap. Qed.

Lemma frame_set_granule idx st :
  1 <= st <= GranuleState.Metadata -> preserves R (set_granule idx st).
Proof.
  intros Hst. unfold set_granule, zeroize. preserve.
  - apply frame_write_page.
  - apply frame_modify. intros s. by apply stable_state.
Qed.

(** The guard of a granule is released whatever the guarded code returns. *)
Lemma frame_with_granule {A} addr (k : Z -> M rmm Error A) :
  (forall idx, preserves R (k idx)) -> preserves R (with_granule addr k).
Proof.
  intros Hk. unfold with_granule. destruct (validate_addr addr); simpl;
    [|apply preserves_throw; apply _].
  destruct (_ <=? _); [apply preserves_throw; apply _|]. intros s.
  unfold mbind, M_bind, lock_entry. case_decide as Hin; simpl; [reflexivity|].
  set (idx := granule_addr_to_index addr) in *.
  specialize (Hk idx (set_locked ({[idx]} ∪ locked s) s)).
  unfold scoped. destruct (k idx _) as [r s']. simpl in *. by apply stable_scope.
Qed.

Lemma frame_with_granule_if {A} addr st (k : Z -> M rmm Error A) :
  (forall idx, preserves R (k idx)) -> preserves R (with_granule_if addr st k).
Proof. intros Hk. apply frame_with_granule. intros idx. preserve. Qed.
End frame.

#[export] Hint Resolve frame_write_page frame_write_word frame_set_run frame_set_rsi_ret
  frame_set_vmid_set frame_insert_rtt frame_tlbi frame_update_run frame_write_bytes
  frame_inc_count frame_dec_count frame_set_ret_reg frame_set_status frame_set_rsi_reg frame_smc
  frame_on_heap frame_pt_map frame_pt_unmap : islet.
#[export] Hint Extern 1 (preserves _ (set_granule _ _)) =>
  apply frame_set_granule; [apply _|by compute] : islet.

(** [preserve], through guards as well. *)
Ltac frame_step :=
  match goal with
  | |- preserves _ (with_granule_if _ _ _) => apply frame_with_granule_if; [apply _|intros ?]
  | |- preserves _ (with_granule _ _) => apply frame_with_granule; [apply _|intros ?]
  | |- preserves _ (let _ := _ in _) => cbv zeta
  | _ => preserve_step
  end.
Ltac frame :=
  intros; repeat first [solve [auto with islet typeclass_instances] | frame_step].

(** ** Objects and host memory *)
Section frame_objects.
Context `{HP : Platform} (R : relation rmm) `{!Stable R}.

Lemma frame_argn arg i : preserves R (argn arg i).
Proof. apply preserves_lift. apply _. Qed.
Lemma frame_read_rd a : preserves R (read_rd a).
Proof. apply preserves_gets. apply _. Qed.
Lemma frame_read_rec a : preserves R (read_rec a).
Proof. apply preserves_gets. apply _. Qed.
Lemma frame_write_rd a r : preserves R (write_rd a r).
Proof. apply frame_write_page. apply _. Qed.
Lemma frame_write_rec a r : preserves R (write_rec a r).
Proof. apply frame_write_page. apply _. Qed.
End frame_objects.
#[export] Hint Resolve frame_argn frame_read_rd frame_read_rec frame_write_rd frame_write_rec : islet.

(** ** Objects updated in place, host copies, VMIDs *)
Section frame_updates.
Context `{HP : Platform} (R : relation rmm) `{!Stable R}.

Lemma frame_update_rd a f : preserves R (update_rd a f).
Proof. unfold update_rd. frame. Qed.
Lemma frame_update_rec a f : preserves R (update_rec a f).
Proof. unfold update_rec. frame. Qed.
Lemma frame_measure_rd a f : preserves R (measure_rd a f).
Proof. unfold measure_rd. frame. Qed.
Lemma frame_check_granule_if a st : preserves R (check_granule_if a st).
Proof. unfold check_granule_if. frame. Qed.
Lemma frame_zeroize idx : preserves R (zeroize idx).
Proof. unfold zeroize. frame. Qed.
Lemma frame_create_realm v : preserves R (create_realm v).
Proof. unfold create_realm. frame. Qed.
Lemma frame_remove v : preserves R (remove v).
Proof. unfold remove. frame. Qed.
Lemma frame_smc0 `{!StableSmc R} c l : preserves R (smc0 c l).
Proof. unfold smc0. frame. Qed.
End frame_updates.
#[export] Hint Resolve frame_update_rd frame_update_rec frame_measure_rd frame_check_granule_if frame_zeroize frame_create_realm frame_remove frame_smc0 : islet.

(** ** Host copies and realm registers *)
Section frame_copies.
Context `{HP : Platform} (R : relation rmm) `{!Stable R}.

Lemma frame_is_not_in_realm a : preserves R (is_not_in_realm a).
Proof. unfold is_not_in_realm. frame. Qed.
Lemma frame_copy_from {T} (f : list Z -> T) a : preserves R (copy_from f a).
Proof. unfold copy_from. frame. Qed.
Lemma frame_copy_to_obj a b : preserves R (copy_to_obj a b).
Proof. unfold copy_to_obj. frame. Qed.
Lemma frame_copy_to_ptr {T} (f : T -> list Z) v a : preserves R (copy_to_ptr f v a).
Proof. unfold copy_to_ptr. frame. Qed.
Lemma frame_reg a i : preserves R (reg a i).
Proof. unfold reg. frame. Qed.
Lemma frame_reg_set a i v : preserves R (reg_set a i v).
Proof. unfold reg_set. frame. Qed.
Lemma frame_owner_of a : preserves R (owner_of a).
Proof. unfold owner_of. frame. Qed.
Lemma frame_run_set_gpr i v : preserves R (run_set_gpr i v).
Proof. unfold run_set_gpr. frame. Qed.
Lemma frame_realmid r : preserves R (realmid r).
Proof. unfold realmid. frame. Qed.
Lemma frame_host_call_set_gpr pa i v : preserves R (host_call_set_gpr pa i v).
Proof. unfold host_call_set_gpr. frame. Qed.
End frame_copies.
#[export] Hint Resolve frame_is_not_in_realm frame_copy_from frame_copy_to_obj frame_copy_to_ptr frame_reg frame_reg_set frame_owner_of frame_run_set_gpr frame_realmid frame_host_call_set_gpr : islet.

(** ** Walks through the realm's tables *)
Section frame_walks.
Context `{HP : Platform} (R : relation rmm) `{!Stable R}.

Lemma frame_subtable l d b t p : preserves (S := rmm) R (subtable l d b t p).
Proof. unfold subtable. frame. Qed.

Lemma frame_entry {A} l d b t p lv c (f : Z -> M rmm MmError A) :
  (forall a, preserves R (f a)) -> preserves R (entry l d b t p lv c f).
Proof.
  intros Hf. revert b t. induction d as [|d IH]; intros b t; cbn [entry]; frame.
  all: apply frame_subtable.
Qed.

Lemma frame_table_entries l d b t p lv : preserves (S := rmm) R (table_entries l d b t p lv).
Proof.
  revert b t. induction d as [|d IH]; intros b t; cbn [table_entries]; frame.
  all: apply frame_subtable.
Qed.

Lemma frame_s2_table rd : preserves R (s2_table rd).
Proof. unfold s2_table. frame. Qed.

Lemma frame_ipa_to_pa t g l : preserves R (ipa_to_pa t g l).
Proof. unfold ipa_to_pa, root_entry. frame. apply frame_entry. frame. Qed.

Lemma frame_ipa_to_pte t g l : preserves R (ipa_to_pte t g l).
Proof. unfold ipa_to_pte, root_entry. frame. apply frame_entry. frame. Qed.

Lemma frame_ipa_to_pte_set id t g l v i : preserves R (ipa_to_pte_set id t g l v i).
Proof.
  unfold ipa_to_pte_set, root_entry, set_dirty. frame. apply frame_entry. frame.
Qed.

Lemma frame_entries t g l : preserves R (entries t g l).
Proof. unfold entries. frame. apply frame_table_entries. Qed.

Lemma frame_init_table n b : preserves R (init_table n b).
Proof. unfold init_table. frame. Qed.
End frame_walks.
#[export] Hint Resolve frame_s2_table frame_ipa_to_pa frame_ipa_to_pte frame_ipa_to_pte_set
  frame_entries frame_init_table : islet.

(** ** Realm translation tables *)
Section frame_rtt.
Context `{HP : Platform} (R : relation rmm) `{!Stable R}.

Lemma frame_get_s2tte rd a l e : preserves R (get_s2tte rd a l e).
Proof. unfold get_s2tte. frame. Qed.
Lemma frame_s2_pte_set rd a l v i : preserves R (s2_pte_set rd a l v i).
Proof. unfold s2_pte_set. frame. Qed.
Lemma frame_stage2_new b l n : preserves R (stage2_new b l n).
Proof. unfold stage2_new. frame. Qed.
Lemma frame_level_space_size rd l : preserves R (level_space_size rd l).
Proof. unfold level_space_size. frame. Qed.
Lemma frame_create_pgtbl_at a f p m : preserves R (create_pgtbl_at a f p m).
Proof. unfold create_pgtbl_at. frame. Qed.
End frame_rtt.
#[export] Hint Resolve frame_get_s2tte frame_s2_pte_set frame_stage2_new frame_level_space_size
  frame_create_pgtbl_at : islet.

Section frame_rtt_ops.
Context `{HP : Platform} (R : relation rmm) `{!Stable R}.

Lemma frame_create_child rd a l p m : preserves R (create_child rd a l p m).
Proof. unfold create_child. frame. Qed.
Lemma frame_skip rd b l : preserves R (skip_non_live_entries rd b l).
Proof. unfold skip_non_live_entries. frame. Qed.
Lemma frame_is_live_rtt rd b l : preserves R (is_live_rtt rd b l).
Proof. unfold is_live_rtt. frame. Qed.
Lemma frame_init_ripas_loop n rd a m t u x : preserves R (init_ripas_loop n rd a m t u x).
Proof. revert x. induction n as [|n IH]; intros x; cbn [init_ripas_loop]; frame. Qed.
Lemma frame_set_ripas_loop n rd r f l m t u x :
  preserves R (set_ripas_loop n rd r f l m t u x).
Proof. revert x. induction n as [|n IH]; intros x; cbn [set_ripas_loop]; frame. Qed.
Lemma frame_read_entry rd a l : preserves R (read_entry rd a l).
Proof. unfold read_entry. frame. Qed.
Lemma frame_get_ripas_at rd a l : preserves R (get_ripas_at rd a l).
Proof. unfold get_ripas_at. frame. Qed.
Lemma frame_map_unprotected rd a l h : preserves R (map_unprotected rd a l h).
Proof. unfold map_unprotected. frame. Qed.
Lemma frame_data_create rd a p u : preserves R (data_create rd a p u).
Proof. unfold data_create. frame. Qed.
End frame_rtt_ops.
#[export] Hint Resolve frame_create_child frame_skip frame_is_live_rtt frame_init_ripas_loop
  frame_set_ripas_loop frame_read_entry frame_get_ripas_at frame_map_unprotected
  frame_data_create : islet.

Section frame_rtt_cmds.
Context `{HP : Platform} (R : relation rmm) `{!Stable R}.

Lemma frame_create rd a b l : preserves R (create rd a b l).
Proof. unfold create. frame. Qed.
Lemma frame_destroy rd a l f : (forall x, preserves R (f x)) -> preserves R (destroy rd a l f).
Proof. intros Hf. unfold destroy. frame. Qed.
Lemma frame_unmap_unprotected rd a l f :
  (forall x, preserves R (f x)) -> preserves R (unmap_unprotected rd a l f).
Proof. intros Hf. unfold unmap_unprotected. frame. Qed.
Lemma frame_data_destroy rd a f :
  (forall x, preserves R (f x)) -> preserves R (data_destroy rd a f).
Proof. intros Hf. unfold data_destroy. frame. Qed.
Lemma frame_init_ripas rd a b t : preserves R (init_ripas rd a b t).
Proof. unfold init_ripas. frame. Qed.
Lemma frame_set_ripas rd b t r f : preserves R (set_ripas rd b t r f).
Proof. unfold set_ripas. frame. Qed.
Lemma frame_fold rd a l : preserves R (fold rd a l).
Proof. unfold fold. frame. Qed.
End frame_rtt_cmds.
#[export] Hint Resolve frame_create frame_destroy frame_unmap_unprotected frame_data_destroy
  frame_init_ripas frame_set_ripas frame_fold : islet.

(** ** Realm services *)
Section frame_rsi.
Context `{HP : Platform} (R : relation rmm) `{!Stable R}.

Lemma frame_back_to_realm a c : preserves R (back_to_realm a c).
Proof. unfold back_to_realm. frame. Qed.
Lemma frame_with_owner {A} a (k : Z -> M rmm Error A) :
  (forall i, preserves R (k i)) -> preserves R (with_owner a k).
Proof. intros Hk. unfold with_owner. frame. Qed.
Lemma frame_regs_of_bytes a b : preserves R (regs_of_bytes a b).
Proof. unfold regs_of_bytes. frame. Qed.
Lemma frame_get_token_part rd a n : preserves R (get_token_part rd a n).
Proof. unfold get_token_part. frame. Qed.
Lemma frame_realm_sealing_key rd f v : preserves R (realm_sealing_key rd f v).
Proof. unfold realm_sealing_key. frame. Qed.
End frame_rsi.
#[export] Hint Resolve frame_back_to_realm frame_regs_of_bytes frame_get_token_part
  frame_realm_sealing_key : islet.
Ltac frame_rsi :=
  repeat first
    [ solve [auto with islet typeclass_instances]
    | match goal with
      | |- preserves _ (with_owner _ _) => apply frame_with_owner; [apply _|intros ?]
      end
    | frame_step ].

Section frame_rsi_handlers.
Context `{HP : Platform} (R : relation rmm) `{!Stable R}.

Lemma frame_do_host_call f a :
  (forall v, preserves R (f v)) -> preserves R (do_host_call f a).
Proof. intros Hf. unfold do_host_call. frame_rsi. Qed.

Lemma frame_complete_ripas a : preserves R (complete_ripas a).
Proof. unfold complete_ripas. frame_rsi. Qed.

Lemma frame_rsi_handlers : Forall (fun h => forall a, preserves R (snd h a)) rsi_handlers.
Proof.
  unfold rsi_handlers. repeat apply Forall_cons_2; try apply Forall_nil_2; simpl; intros a.
  4: { apply frame_do_host_call. auto with islet typeclass_instances. }
  all: cbv delta [attest_token_init attest_token_continue rsi_features rsi_abi_version
    rsi_measurement_read rsi_measurement_extend rsi_realm_config get_ripas_state
    set_ripas_state rsi_realm_sealing_key rsi_psci_version rsi_psci_cpu_on rsi_psci_cpu_off
    rsi_psci_system rsi_psci_cpu_suspend rsi_psci_affinity_info rsi_psci_features
    rsi_smccc_version]; cbv beta.
  all: frame_rsi.
Qed.

Lemma frame_rsi_handler cmd h : rsi_handler cmd = Some h -> forall a, preserves R (h a).
Proof.
  unfold rsi_handler. destruct (List.find _ _) as [[c h']|] eqn:Ef; [|done].
  intros [= <-]. apply List.find_some in Ef as [Hin _].
  pose proof frame_rsi_handlers as Hall. rewrite List.Forall_forall in Hall.
  apply (Hall _ Hin).
Qed.

Lemma frame_handle_rsi cmd a : preserves R (handle_rsi cmd a).
Proof.
  unfold handle_rsi. destruct (rsi_handler cmd) as [h|] eqn:Eh; frame_rsi.
  by apply (frame_rsi_handler cmd).
Qed.

Lemma frame_run_rec a : preserves R (run_rec a).
Proof.
  intros s. unfold run_rec.
  pose proof (stable_realm_run s (Rec.context (rec_of (mem s a)))) as Hr.
  destruct (realm_run _ _) as [[e c] w]. simpl in *.
  destruct (SimdConfig.sve_en _); simpl; [exact Hr|].
  etransitivity; [exact Hr|apply stable_mem].
Qed.
End frame_rsi_handlers.
#[export] Hint Resolve frame_complete_ripas frame_handle_rsi frame_run_rec : islet.

(** ** Entering a REC *)
Section frame_rec_enter.
Context `{HP : Platform} (R : relation rmm) `{!Stable R, !StableStatus R}.

Lemma frame_handle_data_abort e a : preserves R (handle_data_abort e a).
Proof. unfold handle_data_abort, is_non_emulatable_data_abort. frame_rsi. Qed.

Lemma frame_handle_realm_exit e a : preserves R (handle_realm_exit e a).
Proof. unfold handle_realm_exit. frame_rsi. all: apply frame_handle_data_abort. Qed.

Lemma frame_rec_enter_round a : preserves R (rec_enter_round a).
Proof. unfold rec_enter_round. frame_rsi. all: apply frame_handle_realm_exit. Qed.

Lemma frame_rec_enter_checks a : preserves R (rec_enter_checks a).
Proof. unfold rec_enter_checks. frame_rsi. Qed.

Lemma frame_rec_enter arg : preserves R (rec_enter arg).
Proof.
  unfold rec_enter. frame_rsi.
  - apply frame_rec_enter_checks.
  - apply frame_do_host_call; [apply _|]. frame.
  - apply frame_rec_enter_round.
Qed.
End frame_rec_enter.

(** ** The host's commands *)
Section frame_rmi.
Context `{HP : Platform} (R : relation rmm) `{!Stable R}.

Lemma frame_verify_aux r d p o l : preserves R (verify_aux r d p o l).
Proof. revert o. induction l as [|x l IH]; intros o; cbn [verify_aux]; frame. Qed.

Lemma frame_rec_set_reg a i v : preserves R (rec_set_reg a i v).
Proof. unfold rec_set_reg. frame. Qed.

Lemma frame_set_gprs a i l : preserves R (set_gprs a i l).
Proof.
  revert i. induction l as [|g l IH]; intros i; cbn [set_gprs]; frame. apply frame_rec_set_reg.
Qed.

Lemma frame_rec_create arg : preserves R (rec_create arg).
Proof.
  unfold rec_create, rec_params_verify_compliance, prepare_args, rec_init. frame.
  all: apply frame_verify_aux || apply frame_set_gprs || apply frame_rec_set_reg.
Qed.

Lemma frame_realm_create arg : preserves R (realm_create arg).
Proof. unfold realm_create, realm_create_check_rtts, realm_create_epilogue. frame. Qed.

Lemma frame_rtt_destroy arg : preserves R (rtt_destroy arg).
Proof. unfold rtt_destroy. frame. Qed.

Lemma frame_read_entry_ret res :
  preserves R (for_each (zip (seq 1 4) res) (fun '(i, v) => set_ret_reg i v)).
Proof.
  cbn [seq]. destruct res as [|a [|b [|c [|d res]]]]; cbn [zip zip_with for_each]; frame.
Qed.

Lemma frame_rtt_read_entry arg : preserves R (rtt_read_entry arg).
Proof.
  unfold rtt_read_entry.
  repeat first [apply frame_read_entry_ret|solve [auto with islet typeclass_instances]|frame_step].
Qed.

Lemma frame_granule_delegate `{!StableSmc R} arg : preserves R (granule_delegate arg).
Proof. unfold granule_delegate. frame. Qed.

Lemma frame_rmi_handlers :
  Forall (fun h => fst h <> Rmi.GRANULE_DELEGATE -> fst h <> Rmi.GRANULE_UNDELEGATE ->
                   fst h <> Rmi.REC_ENTER -> forall arg, preserves R (snd h arg)) rmi_handlers.
Proof.
  unfold rmi_handlers. repeat apply Forall_cons_2; try apply Forall_nil_2; simpl;
    intros Hd Hu He arg; try done.
  all: try (apply frame_rec_create || apply frame_realm_create
            || apply frame_rtt_destroy || apply frame_rtt_read_entry; apply _).
  all: cbv delta [rmi_features realm_activate rec_aux_count realm_destroy
    realm_set_metadata metadata_from_ns rec_destroy psci_complete rtt_create rtt_init_ripas
    rtt_set_ripas rmi_data_create rmi_data_create_unknown rmi_data_destroy
    rtt_map_unprotected rtt_unmap_unprotected rtt_fold rmi_version]; cbv beta.
  all: frame.
Qed.
End frame_rmi.

(** ** Every command *)
Section frame_all.
Context `{HP : Platform} (R : relation rmm) `{!Stable R}.

Lemma frame_granule_undelegate `{!StableSmc R, !StableUndelegated R} arg :
  preserves R (granule_undelegate arg).
Proof.
  unfold granule_undelegate, set_granule. frame.
  all: apply frame_modify; intros s; apply stable_undelegated.
Qed.

(** The commands that do not call the firmware. *)
Lemma frame_rmi_handler_no_smc cmd h :
  rmi_handler cmd = Some h -> cmd <> Rmi.GRANULE_DELEGATE -> cmd <> Rmi.GRANULE_UNDELEGATE ->
  cmd <> Rmi.REC_ENTER -> forall arg, preserves R (h arg).
Proof.
  unfold rmi_handler. destruct (List.find _ _) as [[c h']|] eqn:Ef; [|done].
  intros [= <-] Hd Hc. apply List.find_some in Ef as [Hin Heq]. simpl in Heq.
  apply Z.eqb_eq in Heq as ->. pose proof (frame_rmi_handlers R) as Hall.
  rewrite List.Forall_forall in Hall. by apply (Hall _ Hin).
Qed.

Lemma frame_rmi_handler `{!StableSmc R} cmd h :
  rmi_handler cmd = Some h -> cmd <> Rmi.GRANULE_UNDELEGATE -> cmd <> Rmi.REC_ENTER ->
  forall arg, preserves R (h arg).
Proof.
  intros Hh Hu He arg. destruct (decide (cmd = Rmi.GRANULE_DELEGATE)) as [->|Hd].
  - injection Hh as <-. by apply frame_granule_delegate.
  - by apply (frame_rmi_handler_no_smc cmd).
Qed.

Lemma frame_rmi_handler_status `{!StableSmc R, !StableStatus R} cmd h :
  rmi_handler cmd = Some h -> cmd <> Rmi.GRANULE_UNDELEGATE -> forall arg, preserves R (h arg).
Proof.
  intros Hh Hu arg. destruct (decide (cmd = Rmi.REC_ENTER)) as [->|He].
  - injection Hh as <-. by apply frame_rec_enter.
  - by apply (frame_rmi_handler cmd).
Qed.

Lemma frame_rmi_handler_all `{!StableSmc R, !StableStatus R, !StableUndelegated R} cmd h :
  rmi_handler cmd = Some h -> forall arg, preserves R (h arg).
Proof.
  intros Hh arg. destruct (decide (cmd = Rmi.GRANULE_UNDELEGATE)) as [->|Hc].
  - injection Hh as <-. by apply frame_granule_undelegate.
  - by apply (frame_rmi_handler_status cmd).
Qed.

#[local] Instance any_ret_status `{!StableAnyRet R} : StableStatus R.
Proof. intros s v. apply stable_any_ret. Qed.

Lemma frame_handle_rmi `{!StableSmc R, !StableUndelegated R, !StableAnyRet R} ctx :
  preserves R (handle_rmi ctx).
Proof.
  unfold handle_rmi. destruct (rmi_handler _) as [h|] eqn:Eh; frame.
  - apply frame_modify. intros s. apply stable_any_ret.
  - by apply (frame_rmi_handler_all (Event.cmd ctx)).
Qed.

Lemma frame_dispatch `{!StableSmc R} ctx : preserves R (dispatch ctx).
Proof. unfold dispatch. frame. Qed.

Lemma frame_monitor_round `{!StableSmc R, !StableUndelegated R, !StableAnyRet R} ctx :
  preserves R (monitor_round ctx).
Proof. unfold monitor_round. frame; [by apply frame_handle_rmi|apply frame_dispatch]. Qed.
End frame_all.
