(* ===== verification/Sample.v ===== *)
(** * A concrete platform

    An instance of everything outside the sources, used to show on concrete
    inputs that the hypotheses of the theorems can hold: the granule protection
    table of the firmware is the one the sources emulate for their unit tests
    (asm.rs, [smc] under [cfg(test)]), the digests are checksums of the right
    length and the realm exits with an IRQ at once. *)

From S2P Require Import Prelude Bytes Bits Vmsa RmiTypes Granule S2tte Objects Machine RmiGranule.

(** The granules in realm PAS and the commands the host has still to make: a
    call other than the two on the granule protection table completes a command
    and returns the next one. *)
Definition sample_world : Type := gset Z * list (list Z).
Definition sample_firmware (r : list Z) (w : sample_world) : list Z * sample_world :=
  let '(gpt, cmds) := w in
  match r with
  | cmd :: addr :: rest =>
      if cmd =? MARK_REALM then
        if decide (addr ∈ gpt) then (1 :: addr :: rest, w)
        else (SMC_SUCCESS :: addr :: rest, ({[addr]} ∪ gpt, cmds))
      else if cmd =? MARK_NONSECURE then
        if decide (addr ∈ gpt) then (SMC_SUCCESS :: addr :: rest, (gpt ∖ {[addr]}, cmds))
        else (1 :: addr :: rest, w)
      else
        match cmds with
        | c :: cmds' => (c, (gpt, cmds'))
        | [] => (replicate 8 0, w)
        end
  | _ => (r, w)
  end.

Definition sample_digest (n : nat) (d : list Z) : list Z :=
  le_bytes n (foldl (fun acc b => acc * 31 + b + 7) 1 d).

(** A private key has 24 to 48 bytes, which are not zero. *)
Definition sample_key_ok (key : list Z) : bool :=
  bool_decide (24 <= length key <= 48)%nat && existsb (fun b => negb (b =? 0)) key.

(** A zeroed page read as a realm descriptor. *)
Definition sample_rd : Rd.t :=
  Rd.mk 0 Null 0 0 0 0 0 0 (zero_bytes 64) (replicate 5 Measurement_empty) 0 None
    (SimdConfig.mk false 0 false).

#[global] Instance sample_platform : Platform := {|
  world := sample_world;
  firmware_smc := sample_firmware;
  heap_alloc used := Some (0x10000000 + 4096 * Z.of_nat (size used));
  rd_bytes _ := zero_bytes GRANULE_SIZE;
  rd_of_bytes _ := sample_rd;
  rec_bytes _ := zero_bytes GRANULE_SIZE;
  rec_of_bytes _ := Rec.new;
  SIMD_CONFIG := SimdConfig.mk false 0 false;
  feat_vmid16 := true;
  sha256 := sample_digest 32;
  sha512 := sample_digest 64;
  p384_verify _ _ _ := true;
  hkdf_sha256 _ _ _ := zero_bytes 32;
  cbor_encode _ := zero_bytes 300;
  p384_public key := if sample_key_ok key then Some (zero_bytes 97) else None;
  cose_sign1 key _ := if sample_key_ok key then Some (zero_bytes 100) else None;
  GIC_FEATURES := mkGicFeatures 3 0 0x7 65535 false;
  HPFAR_FIPA := define_mask 43 4;
  realm_run c w := ([1; 0; 0; 0], c, w)
|}.

#[global] Instance sample_platform_laws : PlatformLaws sample_platform.
Proof.
  split; intros; try apply length_le_bytes.
  - apply length_replicate.
  - by apply Forall_replicate.
  - cbn in *. destruct (sample_key_ok key); [by eexists|done].
Qed.

(** The RMM after boot: every granule undelegated and zero. *)
Definition sample_boot : rmm :=
  mkRmm (fun _ => Granule_new) (fun _ => zero_page) ∅ ∅ ∅ ∅ 0x10000000 [] [] (Run.of_bytes (zero_bytes 4096))
    [] (mkEl3Keys [] [] [] []) (∅, []).
