(* ===== verification/Invariants.v ===== *)
(** * Invariants of the monitor

    The main loop of rmm/src/monitor.rs as a transition system whose states are
    the ones between two commands, and what every command keeps: the granule
    locks, the granule states, the shape of the registers exchanged with the
    host. *)

From S2P Require Import Prelude Bytes Bits Vmsa RmiTypes Granule S2tte Objects Machine PageTable Stage1 Stage2 Measurement Rtt RmiGranule RmiRealm RmiRtt RmiRec Rsi RsiPsci RecEnter Event Frame Sample.

(** The entry of one granule: a state the RMM defines and a byte. *)
Definition granule_wf (g : Granule) : Prop :=
  GranuleState.Undelegated <= state g <= GranuleState.Metadata /\ 0 <= ref_count g < 256.

(** A context as [constraint::validate] builds it. *)
Definition context_wf (c : Event.t) : Prop :=
  match pick (Event.cmd c) with
  | Some (arg_num, ret_num) =>
      length (Event.arg c) = arg_num /\ Event.ret c = replicate ret_num 0
  | None => c = Event.new Rmi.NOT_SUPPORTED_YET
  end.

Section relations.
Context `{HP : Platform}.

Definition gst_wf (s : rmm) : Prop := forall idx, granule_wf (gst s idx).

Definition same_locks : relation rmm := fun s s' => locked s' = locked s.
Definition keeps_gst_wf : relation rmm := fun s s' => gst_wf s -> gst_wf s'.
Definition no_new_undelegated : relation rmm := fun s s' => forall idx,
  state (gst s' idx) = GranuleState.Undelegated -> state (gst s idx) = GranuleState.Undelegated.
Definition same_ret_length : relation rmm := fun s s' => length (ret s') = length (ret s).
Definition same_status : relation rmm := fun s s' => head (ret s') = head (ret s).
Definition same_root : relation rmm := fun s s' =>
  pt_root s' = pt_root s /\ keys s' = keys s.

#[global] Instance same_locks_stable : Stable same_locks.
Proof.
  split; try done.
  - split; [done|]. intros s1 s2 s3 H1 H2. unfold same_locks in *. congruence.
  - unfold same_locks. intros s s' idx Hn Hl. simpl in *. rewrite Hl. clear Hl. set_solver.
Qed.
#[global] Instance same_locks_smc : StableSmc same_locks.
Proof. done. Qed.
#[global] Instance same_locks_undelegated : StableUndelegated same_locks.
Proof. done. Qed.
#[global] Instance same_locks_any_ret : StableAnyRet same_locks.
Proof. done. Qed.

Lemma update_granule_wf s idx f :
  (granule_wf (gst s idx) -> granule_wf (f (gst s idx))) ->
  gst_wf s -> gst_wf (update_granule idx f s).
Proof.
  intros Hf Hwf i. unfold update_granule. simpl.
  destruct (decide (i = idx)) as [->|Hne].
  - rewrite fn_lookup_insert. auto.
  - rewrite fn_lookup_insert_ne by done. apply Hwf.
Qed.

#[global] Instance keeps_gst_wf_stable : Stable keeps_gst_wf.
Proof.
  split; try solve [intros; intros Hs; exact Hs | intros s s' idx _ Hr; exact Hr].
  - split; [intros s Hs; exact Hs|]. intros s1 s2 s3 H1 H2 H3. auto.
  - intros s idx f Hf. unfold keeps_gst_wf. apply update_granule_wf. intros [Hs Hr].
    destruct Hf as [-> | ->]; (split; [exact Hs|]); simpl; apply Z.mod_pos_bound; lia.
  - intros s idx st Hst. unfold keeps_gst_wf. apply update_granule_wf. intros [_ Hr].
    split; [unfold GranuleState.Undelegated; simpl; lia|exact Hr].
Qed.
#[global] Instance keeps_gst_wf_smc : StableSmc keeps_gst_wf.
Proof. intros s v Hs. exact Hs. Qed.
#[global] Instance keeps_gst_wf_undelegated : StableUndelegated keeps_gst_wf.
Proof.
  intros s idx. unfold keeps_gst_wf. apply update_granule_wf. intros [_ Hr].
  by split.
Qed.
#[global] Instance keeps_gst_wf_any_ret : StableAnyRet keeps_gst_wf.
Proof. intros s v Hs. exact Hs. Qed.

#[global] Instance no_new_undelegated_stable : Stable no_new_undelegated.
Proof.
  split; try solve [intros; intros ? Hn; exact Hn | intros s s' idx _ Hr; exact Hr].
  - split; [intros s i Hi; exact Hi|]. intros s1 s2 s3 H1 H2 i Hi. auto.
  - intros s idx f Hf i. unfold update_granule. simpl.
    destruct (decide (i = idx)) as [->|Hne]; [|by rewrite fn_lookup_insert_ne].
    rewrite fn_lookup_insert. by destruct Hf as [-> | ->].
  - intros s idx st Hst i. unfold update_granule. simpl.
    destruct (decide (i = idx)) as [->|Hne]; [|by rewrite fn_lookup_insert_ne].
    rewrite fn_lookup_insert. unfold GranuleState.Undelegated. simpl. lia.
Qed.
#[global] Instance no_new_undelegated_smc : StableSmc no_new_undelegated.
Proof. intros s v i Hi. exact Hi. Qed.
#[global] Instance no_new_undelegated_status : StableStatus no_new_undelegated.
Proof. intros s v i Hi. exact Hi. Qed.

#[global] Instance same_ret_length_stable : Stable same_ret_length.
Proof.
  split; try done.
  - split; [done|]. intros s1 s2 s3 H1 H2. unfold same_ret_length in *. congruence.
  - intros s i v _. apply length_insert.
Qed.
#[global] Instance same_ret_length_status : StableStatus same_ret_length.
Proof. intros s v. apply length_insert. Qed.
#[global] Instance same_ret_length_smc : StableSmc same_ret_length.
Proof. done. Qed.
#[global] Instance same_ret_length_undelegated : StableUndelegated same_ret_length.
Proof. done. Qed.

#[global] Instance same_status_stable : Stable same_status.
Proof.
  split; try done.
  - split; [done|]. intros s1 s2 s3 H1 H2. unfold same_status in *. congruence.
  - intros s [|i] v Hi; [lia|]. unfold same_status. simpl. by destruct (ret s).
Qed.
#[global] Instance same_status_smc : StableSmc same_status.
Proof. done. Qed.
#[global] Instance same_status_undelegated : StableUndelegated same_status.
Proof. done. Qed.
End relations.

(** ** Dispatch *)
Section dispatch_facts.
Context `{HP : Platform}.

Lemma pick_ret_num cmd a r : pick cmd = Some (a, r) -> (1 <= r <= 5)%nat.
Proof.
  unfold pick. destruct (List.find _ _) as [[c p]|] eqn:Ef; [|done]. intros [= ->].
  apply List.find_some in Ef as [Hin _]. simpl in Hin.
  repeat destruct Hin as [Hin|Hin]; simplify_eq; try lia.
Qed.

Lemma pick_handler cmd : is_Some (rmi_handler cmd) -> is_Some (pick cmd).
Proof.
  unfold rmi_handler. destruct (List.find _ _) as [[c h]|] eqn:Ef; [|by intros [? ?]].
  intros _. apply List.find_some in Ef as [Hin Hc]. simpl in Hc. apply Z.eqb_eq in Hc as ->.
  simpl in Hin. repeat destruct Hin as [Hin|Hin]; simplify_eq; first [done|eexists; vm_compute; reflexivity].
Qed.

Lemma constraint_validate_wf {E} cmd arg c :
  constraint_validate (E := E) cmd arg = Ok c -> context_wf c.
Proof.
  unfold constraint_validate, context_wf. destruct (pick cmd) as [[a r]|] eqn:Ep.
  - case_decide; intros [= <-]. simpl. rewrite Ep. rewrite length_take. split; [lia|done].
  - by intros [= <-].
Qed.

Lemma dispatch_wf ctx s c s' : dispatch ctx s = (Ok c, s') -> context_wf c.
Proof.
  unfold dispatch. intros Hd. mrun_in Hd. injection Hd as Hd _.
  by apply constraint_validate_wf in Hd.
Qed.

(** What [handle_rmi] makes of the handler's result. *)
Lemma handle_rmi_run ctx h s :
  rmi_handler (Event.cmd ctx) = Some h -> Event.ret ctx <> [] ->
  handle_rmi ctx s =
    let '(r, s') := h (Event.arg ctx) (set_ret (Event.ret ctx) s) in
    match r with
    | Ok _ => (Ok (Event.mk Rmi.REQ_COMPLETE (ret s') (ret s')), s')
    | Err e => let v := <[0%nat := error_code e]> (ret s') in
               (Ok (Event.mk Rmi.REQ_COMPLETE v v), set_ret v s')
    | Panicked => (Panicked, s')
    | Hung => (Hung, s')
    end.
Proof.
  intros Hh Hne. unfold handle_rmi. rewrite Hh. mstep.
  pose proof (frame_rmi_handler_all same_ret_length _ _ Hh (Event.arg ctx)
                (set_ret (Event.ret ctx) s)) as Hl.
  unfold same_ret_length in Hl. simpl in Hl. unfold mbind, M_bind, catch.
  destruct (h (Event.arg ctx) _) as [[u|e| |] s']; simpl in *; try done.
  unfold set_ret_reg. rewrite decide_True; [done|].
  rewrite Hl. destruct (Event.ret ctx); [done|simpl; lia].
Qed.
End dispatch_facts.

(** ** The monitor as a transition system *)
Section transitions.
Context `{HP : Platform}.

(** Granules as the static table is initialised; nothing delegated, locked or
    created yet. *)
Definition boot_state (s : rmm) : Prop :=
  locked s = ∅ /\ vmid_set s = ∅ /\ rtt_tables s = ∅ /\ forall idx, gst s idx = Granule_new.

(** The states in which the monitor waits for [handle_rmi]. *)
Inductive reachable : rmm -> Event.t -> Prop :=
| reachable_boot s0 c s :
    boot_state s0 -> boot_complete s0 = (Ok c, s) -> reachable s c
| reachable_round s c s' c' :
    reachable s c -> monitor_round c s = (Ok c', s') -> reachable s' c'.

Lemma boot_gst_wf s : boot_state s -> gst_wf s.
Proof.
  intros (_ & _ & _ & Hg) idx. rewrite Hg. by repeat split.
Qed.
End transitions.

Section monitor_theorems.
Context `{HP : Platform}.

(** Between two commands of the main loop no granule lock is held, every
    granule entry has a state the RMM defines and a byte-sized reference
    count, and the context has exactly the argument and return registers the
    constraint table gives its command (a command the table lacks has none). *)
Theorem reachable_invariant s c :
  reachable s c -> locked s = ∅ /\ gst_wf s /\ context_wf c.
Proof.
  induction 1 as [s0 c s Hb Hr|s c s' c' _ (Hl & Hg & Hc) Hr].
  - pose proof (frame_dispatch same_locks
      (Event.init_arg [Rmi.BOOT_SUCCESS] (Event.new Rmi.BOOT_COMPLETE)) s0) as H1.
    pose proof (frame_dispatch keeps_gst_wf
      (Event.init_arg [Rmi.BOOT_SUCCESS] (Event.new Rmi.BOOT_COMPLETE)) s0) as H2.
    fold boot_complete in H1, H2. rewrite Hr in H1, H2. simpl in H1, H2. split_and!.
    + etransitivity; [exact H1|apply Hb].
    + by apply H2, boot_gst_wf.
    + by eapply dispatch_wf.
  - pose proof (frame_monitor_round same_locks c s) as H1.
    pose proof (frame_monitor_round keeps_gst_wf c s) as H2.
    rewrite Hr in H1, H2. simpl in H1, H2. split_and!.
    + etransitivity; [exact H1|done].
    + by apply H2.
    + unfold monitor_round in Hr. mrun_in Hr. by eapply dispatch_wf.
Qed.

(** Whatever a command returns, even when it ends in a panic or a hang,
    the granule locks held afterwards are those held before it: every guard a
    handler takes is released on every path, error paths included. *)
Theorem handle_rmi_releases_locks ctx s : locked (snd (handle_rmi ctx s)) = locked s.
Proof. apply (frame_handle_rmi same_locks). Qed.

(** C2: a granule that is delegated to the realm world becomes Undelegated
    again (accessible to the host) by no command other than
    GRANULE_UNDELEGATE, on no path, error paths included. *)
Theorem only_undelegate_undelegates ctx s idx :
  Event.cmd ctx <> Rmi.GRANULE_UNDELEGATE ->
  state (gst s idx) <> GranuleState.Undelegated ->
  state (gst (snd (handle_rmi ctx s)) idx) <> GranuleState.Undelegated.
Proof.
  intros Hc Hs Hu. apply Hs. revert Hu. unfold handle_rmi.
  destruct (rmi_handler (Event.cmd ctx)) as [h|] eqn:Eh; [|done]. mstep.
  pose proof (frame_rmi_handler_status no_new_undelegated _ _ Eh Hc (Event.arg ctx)
                (set_ret (Event.ret ctx) s)) as Hf.
  unfold mbind, M_bind, catch.
  destruct (h (Event.arg ctx) _) as [[u|e| |] s'] eqn:Er; simpl in *; try apply Hf.
  unfold set_ret_reg. case_decide; simpl; apply Hf.
Qed.

(** C12: for a context of the constraint table, the registers handed back to
    the host are as many as the table says (at most five, so the completing
    call passes them all); the status in the first one is the code of the
    handler's error, which is never SUCCESS, and when the handler of a
    command other than REC_ENTER succeeds the status is SUCCESS. The status of a
    REC_ENTER that succeeds is what [handle_realm_exit] left in the register, and
    is not stated here. *)
Theorem handle_rmi_status ctx h a n s r s1 :
  context_wf ctx -> pick (Event.cmd ctx) = Some (a, n) ->
  rmi_handler (Event.cmd ctx) = Some h ->
  h (Event.arg ctx) (set_ret (Event.ret ctx) s) = (r, s1) ->
  match r with
  | Ok _ => exists v s', handle_rmi ctx s = (Ok (Event.mk Rmi.REQ_COMPLETE v v), s') /\
      length v = n /\ (n <= 5)%nat /\
      (Event.cmd ctx <> Rmi.REC_ENTER -> head v = Some Rmi.SUCCESS)
  | Err e => exists v s', handle_rmi ctx s = (Ok (Event.mk Rmi.REQ_COMPLETE v v), s') /\
      length v = n /\ (n <= 5)%nat /\
      head v = Some (error_code e) /\ error_code e <> Rmi.SUCCESS
  | Panicked => fst (handle_rmi ctx s) = Panicked
  | Hung => fst (handle_rmi ctx s) = Hung
  end.
Proof.
  intros Hwf Hp Hh Hr. unfold context_wf in Hwf. rewrite Hp in Hwf. destruct Hwf as [_ Hret].
  pose proof (pick_ret_num _ _ _ Hp) as Hn.
  rewrite (handle_rmi_run ctx h) by (done || rewrite Hret; by destruct n; [lia|]).
  rewrite Hr.
  pose proof (frame_rmi_handler_all same_ret_length _ _ Hh (Event.arg ctx)
                (set_ret (Event.ret ctx) s)) as Hl.
  rewrite Hr in Hl. unfold same_ret_length in Hl. simpl in Hl.
  rewrite Hret, length_replicate in Hl.
  destruct r as [u|e| |]; try done; eexists _, _; (split; [reflexivity|]).
  - split_and!; [done|lia|]. intros Hne.
    destruct (decide (Event.cmd ctx = Rmi.GRANULE_UNDELEGATE)) as [Hu|Hu].
    + pose proof (frame_granule_undelegate same_status (Event.arg ctx)
                    (set_ret (Event.ret ctx) s)) as Hs.
      rewrite Hu in Hh. injection Hh as <-. rewrite Hr in Hs.
      etransitivity; [exact Hs|]. simpl. rewrite Hret. by destruct n; [lia|].
    + pose proof (frame_rmi_handler same_status _ _ Hh Hu Hne (Event.arg ctx)
                    (set_ret (Event.ret ctx) s)) as Hs.
      rewrite Hr in Hs. etransitivity; [exact Hs|]. simpl.
      rewrite Hret. by destruct n; [lia|].
  - rewrite length_insert. split_and!; [done|lia| |apply error_code_nonzero].
    destruct (ret s1); simpl in *; [lia|done].
Qed.

(** a command the monitor has no handler for changes nothing and is
    completed with RET_FAIL. *)
Theorem handle_rmi_unknown ctx s :
  rmi_handler (Event.cmd ctx) = None ->
  handle_rmi ctx s = (Ok (Event.mk Rmi.REQ_COMPLETE [Rmi.RET_FAIL] (Event.ret ctx)), s).
Proof. intros Hn. unfold handle_rmi. by rewrite Hn. Qed.
End monitor_theorems.

(** ** Witnesses

    The host delegates a granule; the monitor is in a reachable state before
    and after. *)
Definition sample_ctx : Event.t := Event.mk Rmi.GRANULE_DELEGATE [0x80000000; 0] [0].
Definition sample_scripted : rmm :=
  set_env (∅, [[Rmi.GRANULE_DELEGATE; 0x80000000; 0; 0; 0; 0; 0; 0]]) sample_boot.
Definition sample_waiting : rmm := set_env (∅, []) sample_boot.

Lemma sample_reachable : reachable sample_waiting sample_ctx.
Proof.
  apply (reachable_boot sample_scripted); [|reflexivity].
  by repeat split.
Defined.

Definition sample_delegated : rmm := snd (handle_rmi sample_ctx sample_waiting).

Lemma only_undelegate_undelegates_witness :
  state (gst (snd (handle_rmi (Event.mk Rmi.REALM_DESTROY [0x80000000; 0] [0]) sample_delegated)) 0)
  <> GranuleState.Undelegated.
Proof.
  apply (only_undelegate_undelegates _ sample_delegated 0); [done|vm_compute; done].
Defined.

Lemma handle_rmi_status_witness :
  exists v s', handle_rmi sample_ctx sample_waiting = (Ok (Event.mk Rmi.REQ_COMPLETE v v), s') /\
    length v = 1%nat /\ (1 <= 5)%nat /\
    (Event.cmd sample_ctx <> Rmi.REC_ENTER -> head v = Some Rmi.SUCCESS).
Proof.
  destruct (granule_delegate (Event.arg sample_ctx) (set_ret (Event.ret sample_ctx) sample_waiting))
    as [r s1] eqn:Er.
  assert (r = Ok tt) as -> by (apply (f_equal fst) in Er; vm_compute in Er; congruence).
  assert (context_wf sample_ctx) as H1 by (split; reflexivity).
  assert (pick (Event.cmd sample_ctx) = Some (2%nat, 1%nat)) as H2 by reflexivity.
  assert (rmi_handler (Event.cmd sample_ctx) = Some granule_delegate) as H3 by reflexivity.
  exact (handle_rmi_status sample_ctx granule_delegate 2 1 sample_waiting (Ok tt) s1 H1 H2 H3 Er).
Defined.

Lemma handle_rmi_unknown_witness :
  handle_rmi (Event.new Rmi.NOT_SUPPORTED_YET) sample_waiting
  = (Ok (Event.mk Rmi.REQ_COMPLETE [Rmi.RET_FAIL] []), sample_waiting).
Proof. apply (handle_rmi_unknown (Event.new Rmi.NOT_SUPPORTED_YET)). reflexivity. Defined.
