(* ===== verification/Stage1Facts.v ===== *)
(** * The RMM's own mapping never fails the command that needs it

    [rmm.page_table.map] and [unmap] (rmm/src/mm/translation.rs) on a granule:
    they return, whatever the tables hold and whether or not a table could be
    allocated, and change nothing but the RMM's own tables. *)

From S2P Require Import Prelude Bytes Bits Vmsa RmiTypes Granule S2tte Objects Machine PageTable Stage1.

#[local] Existing Instances s1_entry_ops heap_words heap_table_alloc.

(** Every stage-1 table is one page, so every index is inside it. *)
Lemma s1_slot_ok depth base page :
  (depth <= 3)%nat -> exists a, slot depth base TABLE_SIZE page = Ok a.
Proof.
  intros Hd. unfold slot. change (TABLE_SIZE / ENTRY_SIZE) with 512.
  assert (exists i, e_index (this_level depth) TABLE_SIZE page = Ok i /\ i < 512)
    as (i & -> & Hi).
  { destruct depth as [|[|[|[|]]]]; [..|lia];
      (eexists; split; [reflexivity|]; apply index_field_bound; lia). }
  simpl. rewrite (proj2 (Z.ltb_lt _ _)) by done. eauto.
Qed.

Section stage1_facts.
Context `{Platform}.

Lemma returns_slot depth base page :
  (depth <= 3)%nat ->
  returns (S := heap_t) (lift (slot depth base TABLE_SIZE page)).
Proof.
  intros Hd. apply returns_lift. by destruct (s1_slot_ok depth base page Hd) as [a ->].
Qed.

Lemma returns_subtable depth base page :
  (0 < depth <= 3)%nat -> returns (S := heap_t) (subtable 3 depth base TABLE_SIZE page).
Proof.
  intros Hd. unfold subtable.
  rewrite (proj2 (Z.leb_gt _ _)) by (unfold this_level; lia).
  returns. apply returns_slot. lia.
Qed.

Lemma returns_new_in : returns (new_in (S := heap_t)).
Proof.
  intros h. unfold new_in, heap_table_alloc. by destruct (heap_alloc (dom h)).
Qed.

Lemma returns_set_page depth base guest phys flags :
  (depth <= 3)%nat ->
  returns (set_page (S := heap_t) 3 S1_MAP_EXTRA_FLAG depth base TABLE_SIZE guest phys flags).
Proof.
  revert base. induction depth as [|depth IH]; intros base Hd; cbn [set_page].
  - returns; [done|by apply returns_slot].
  - rewrite (proj2 (Z.ltb_ge _ _)) by (unfold this_level; lia).
    returns; try (apply returns_slot; lia).
    + apply returns_subtable. lia.
    + apply returns_new_in.
    + apply IH. lia.
Qed.

Lemma returns_entry {A} depth base page chk (f : Z -> M heap_t MmError A) :
  (depth <= 3)%nat -> (forall a, returns (f a)) ->
  returns (entry 3 depth base TABLE_SIZE page 3 chk f).
Proof.
  intros Hd Hf. revert base Hd. induction depth as [|depth IH]; intros base Hd; cbn [entry].
  - returns; first [done|by apply returns_slot].
  - rewrite (proj2 (Z.ltb_ge _ _)) by (unfold this_level; lia).
    returns; try (apply returns_slot; lia).
    + apply returns_subtable. lia.
    + apply IH. lia.
Qed.

(** One page: a round that maps it and one that finds the iterator empty. *)
Lemma set_pages_one base a flags h :
  0 <= a < 2 ^ 63 ->
  set_pages 3 S1_MAP_EXTRA_FLAG 2 base TABLE_SIZE (mkPageIter a a) (mkPageIter a a) flags h
  = set_page (S := heap_t) 3 S1_MAP_EXTRA_FLAG 2 base TABLE_SIZE a a flags h.
Proof.
  intros Ha. unfold set_pages.
  pose proof (returns_set_page 2 base a a flags ltac:(lia) h) as Hr.
  assert (next Config.PAGE_SIZE (mkPageIter a a) = (Some a, mkPageIter (a + 4096) a)) as Hn.
  { unfold next. simpl. rewrite Z.leb_refl. change Config.PAGE_SIZE with 4096.
    by rewrite Word.add_small by (unfold Word.modulus; lia). }
  assert (next Config.PAGE_SIZE (mkPageIter (a + 4096) a) = (None, mkPageIter (a + 4096) a)) as Hn'.
  { unfold next. simpl. by rewrite (proj2 (Z.leb_gt _ _)) by lia. }
  destruct (set_page 3 S1_MAP_EXTRA_FLAG 2 base TABLE_SIZE a a flags h) as [[[]|e| |] h'] eqn:Es;
    try done.
  - apply (loop_or_hang_done _ _ 2 _ h); [unfold SET_PAGES_BOUND; lia|].
    cbn [loopN]. rewrite Hn. mstep. erewrite bind_ok by exact Es. mstep.
    rewrite Hn'. by mstep.
  - apply (loop_or_hang_err _ _ 1 _ h); [unfold SET_PAGES_BOUND; lia|].
    cbn [loopN]. rewrite Hn. mstep. by erewrite bind_err by exact Es.
Qed.

Lemma range_one a :
  0 <= a < 2 ^ 63 -> a mod 4096 = 0 ->
  range_with_size (E := MmError) Config.PAGE_SIZE a Config.PAGE_SIZE = Ok (mkPageIter a a).
Proof.
  intros Ha Hm. unfold range_with_size, including_address.
  change Config.PAGE_SIZE with (2 ^ 12).
  rewrite Word.add_small, Word.sub_small by (unfold Word.modulus; lia).
  rewrite !align_down_pow2 by (unfold Word.in_range, Word.modulus; lia).
  change (2 ^ 12) with 4096. rewrite Hm, Z.sub_0_r.
  replace (a + 4096 - 1 - (a + 4096 - 1) mod 4096) with a by (Z.div_mod_to_equations; lia).
  unfold range. by rewrite Z.leb_refl.
Qed.

(** [map] on a page returns and changes only the RMM's own tables. *)
Lemma pt_map_ok a secure s :
  0 < a < 2 ^ 63 -> a mod 4096 = 0 -> exists h, pt_map a secure s = (Ok tt, set_heap h s).
Proof.
  intros Ha Hm. unfold pt_map, on_heap, mbind, M_bind, set_pages_for_rmi.
  rewrite (proj2 (Z.eqb_neq a 0)) by lia. unfold inner_set_pages.
  rewrite range_one by lia. mstep.
  assert (returns (set_pages (S := heap_t) S1_MAP_TABLE_LEVEL S1_MAP_EXTRA_FLAG S1_DEPTH
    (pt_root s) TABLE_SIZE (mkPageIter a a) (mkPageIter a a) (rmi_page_flags secure))) as Hr.
  { intros h. unfold S1_MAP_TABLE_LEVEL, S1_DEPTH. rewrite set_pages_one by lia.
    apply returns_set_page. lia. }
  destruct (ok_returns (F := MmError) _ (heap s) Hr) as (o & h' & Ho).
  erewrite bind_ok by exact Ho. simpl. eauto.
Qed.

Lemma pt_unmap_ok a s : exists h, pt_unmap a s = (Ok tt, set_heap h s).
Proof.
  unfold pt_unmap, on_heap, mbind, M_bind, unset_pages_for_rmi.
  destruct (Z.eqb_spec a 0) as [->|Hne]; [by exists (heap s)|].
  unfold unset_page, S1_MAP_TABLE_LEVEL, S1_DEPTH.
  set (page := including_address Config.PAGE_SIZE a).
  destruct (s1_slot_ok 2 (pt_root s) page ltac:(lia)) as [sl ->]. mstep.
  destruct (e_is_valid _); [|by eexists].
  unfold mbind, M_bind, catch.
  pose proof (returns_entry 2 (pt_root s) page false
    (fun e => modify (write_word e 0)) ltac:(lia)
    (fun a => returns_modify (write_word a 0)) (heap s)) as Hr.
  match type of Hr with answered (fst ?r) => destruct r as [[x|e| |] h'] end;
    simpl in *; try done; eauto.
Qed.
End stage1_facts.
