(* ===== verification/Guards.v ===== *)
(** * Running a guarded handler

    What [get_granule!] and [get_granule_if!] come to on each branch, and the
    state update a guard leaves behind: none. *)

From S2P Require Import Prelude Bytes Bits Vmsa RmiTypes Granule S2tte Objects Machine.

Section guards.
Context `{Platform}.

Definition lock (idx : Z) (s : rmm) : rmm := set_locked ({[idx]} ∪ locked s) s.
Definition unlock (idx : Z) (s : rmm) : rmm := set_locked (locked s ∖ {[idx]}) s.

Lemma set_locked_id s : set_locked (locked s) s = s.
Proof. by destruct s. Qed.

Lemma set_locked_twice v w s : set_locked v (set_locked w s) = set_locked v s.
Proof. done. Qed.

Lemma lock_difference (l : gset Z) idx : idx ∉ l -> ({[idx]} ∪ l) ∖ {[idx]} = l.
Proof. intros Hn. rewrite difference_union_distr_l_L. set_solver. Qed.

Lemma unlock_lock idx s : idx ∉ locked s -> unlock idx (lock idx s) = s.
Proof.
  intros Hn. unfold unlock, lock. rewrite set_locked_twice. simpl.
  rewrite lock_difference by done. apply set_locked_id.
Qed.

Context {A : Type}.
Implicit Types k : Z -> M rmm Error A.

Lemma with_granule_invalid addr k s :
  validate_addr addr = false -> with_granule addr k s = (Err RmiErrorInput, s).
Proof. intros Hv. unfold with_granule. by rewrite Hv. Qed.

Lemma with_granule_run addr k s :
  let idx := granule_addr_to_index addr in
  validate_addr addr = true -> idx ∉ locked s ->
  with_granule addr k s = (let '(r, s') := k idx (lock idx s) in (r, unlock idx s')).
Proof.
  intros idx Hv Hn. unfold with_granule. rewrite Hv. cbn [negb].
  rewrite (proj2 (Z.leb_gt _ _)) by (by apply index_bounds).
  unfold mbind, M_bind, lock_entry. by rewrite decide_False.
Qed.

(** A lock already held by this CPU is never granted. *)
Lemma with_granule_held addr k s :
  validate_addr addr = true -> granule_addr_to_index addr ∈ locked s ->
  with_granule addr k s = (Hung, s).
Proof.
  intros Hv Hi. unfold with_granule. rewrite Hv. cbn [negb].
  rewrite (proj2 (Z.leb_gt _ _)) by (by apply index_bounds).
  unfold mbind, M_bind, lock_entry. by rewrite decide_True.
Qed.

Lemma with_granule_if_run addr st k s :
  let idx := granule_addr_to_index addr in
  validate_addr addr = true -> idx ∉ locked s -> state (gst s idx) = st ->
  with_granule_if addr st k s = (let '(r, s') := k idx (lock idx s) in (r, unlock idx s')).
Proof.
  intros idx Hv Hn Hs. unfold with_granule_if. rewrite with_granule_run by done.
  fold idx. mstep. unfold lock at 1. simpl. by rewrite Hs, Z.eqb_refl.
Qed.

(** Refused before anything is touched: an address that is not a granule, or
    a granule in another state. *)
Lemma with_granule_if_refused addr st k s :
  let idx := granule_addr_to_index addr in
  idx ∉ locked s -> validate_addr addr = false \/ state (gst s idx) <> st ->
  with_granule_if addr st k s = (Err RmiErrorInput, s).
Proof.
  intros idx Hn Hr. unfold with_granule_if.
  destruct (validate_addr addr) eqn:Hv; [|by apply with_granule_invalid].
  destruct Hr as [|Hs]; [done|]. rewrite with_granule_run by done. fold idx. mstep.
  unfold lock at 1. simpl. rewrite (proj2 (Z.eqb_neq _ _)) by done. simpl.
  f_equal. by apply unlock_lock.
Qed.

(** A guarded success: the state matched and the body ran under the lock. *)
Lemma with_granule_if_ok_inv addr st k s a s' :
  with_granule_if addr st k s = (Ok a, s') ->
  let idx := granule_addr_to_index addr in
  validate_addr addr = true /\ idx ∉ locked s /\ state (gst s idx) = st /\
  exists s1, k idx (lock idx s) = (Ok a, s1) /\ s' = unlock idx s1.
Proof.
  intros Hw idx. destruct (validate_addr addr) eqn:Hv;
    [|unfold with_granule_if in Hw; rewrite with_granule_invalid in Hw by done; done].
  destruct (decide (idx ∈ locked s)) as [Hi|Hi];
    [unfold with_granule_if in Hw; rewrite with_granule_held in Hw by done; done|].
  destruct (decide (state (gst s idx) = st)) as [Hs|Hs].
  - rewrite with_granule_if_run in Hw by done. fold idx in Hw.
    destruct (k idx (lock idx s)) as [r s1] eqn:Ek. simplify_eq.
    split_and!; eauto.
  - rewrite with_granule_if_refused in Hw by eauto. done.
Qed.
End guards.

(** An argument register that is present. *)
Lemma bind_argn `{Platform} {B} arg i v (f : Z -> M rmm Error B) s :
  arg !! i = Some v -> (argn arg i ≫= f) s = f v s.
Proof. intros Hv. unfold argn. by rewrite Hv. Qed.

Section objects.
Context `{Platform} {B : Type}.

Lemma bind_read_rd a (f : Rd.t -> M rmm Error B) s :
  (read_rd a ≫= f) s = f (rd_of (mem s a)) s.
Proof. done. Qed.
Lemma bind_write_rd a r (f : unit -> M rmm Error B) s :
  (write_rd a r ≫= f) s = f tt (write_page a (CRd r) s).
Proof. done. Qed.
Lemma bind_read_rec a (f : Rec.t -> M rmm Error B) s :
  (read_rec a ≫= f) s = f (rec_of (mem s a)) s.
Proof. done. Qed.
Lemma bind_write_rec a r (f : unit -> M rmm Error B) s :
  (write_rec a r ≫= f) s = f tt (write_page a (CRec r) s).
Proof. done. Qed.
End objects.
#[export] Hint Rewrite @bind_read_rd @bind_write_rd @bind_read_rec @bind_write_rec : mstep.

(** The state change [set_granule] makes. *)
Section set_granule.
Context `{Platform}.

Definition with_granule_state (idx st : Z) (s : rmm) : rmm :=
  update_granule idx (fun g => mkGranule st (ref_count g))
    (if set_state_zeroizes (state (gst s idx)) st
     then write_page (index_to_addr idx) zero_page s else s).

Lemma set_granule_run idx st s : set_granule idx st s = (Ok tt, with_granule_state idx st s).
Proof.
  unfold set_granule, with_granule_state, zeroize. mstep.
  by destruct (set_state_zeroizes _ _).
Qed.

Lemma with_granule_state_locked idx st s : locked (with_granule_state idx st s) = locked s.
Proof. unfold with_granule_state. by destruct (set_state_zeroizes _ _). Qed.

Lemma set_locked_granule_state l idx st s :
  set_locked l (with_granule_state idx st s) = with_granule_state idx st (set_locked l s).
Proof. unfold with_granule_state. simpl. by destruct (set_state_zeroizes _ _). Qed.

Lemma set_heap_granule_state h idx st s :
  set_heap h (with_granule_state idx st s) = with_granule_state idx st (set_heap h s).
Proof. unfold with_granule_state. simpl. by destruct (set_state_zeroizes _ _). Qed.

Lemma set_locked_env l w s : set_locked l (set_env w s) = set_env w (set_locked l s).
Proof. done. Qed.

Lemma set_locked_heap l h s : set_locked l (set_heap h s) = set_heap h (set_locked l s).
Proof. done. Qed.

Lemma with_granule_state_gst idx st s i :
  gst (with_granule_state idx st s) i =
  (if decide (i = idx) then mkGranule st (ref_count (gst s idx)) else gst s i).
Proof.
  unfold with_granule_state, update_granule.
  destruct (set_state_zeroizes _ _); simpl;
    (case_decide as E; [subst; by rewrite fn_lookup_insert|by rewrite fn_lookup_insert_ne]).
Qed.

Lemma with_granule_state_mem idx st s a :
  mem (with_granule_state idx st s) a =
  (if decide (a = index_to_addr idx /\ set_state_zeroizes (state (gst s idx)) st = true)
   then zero_page else mem s a).
Proof.
  unfold with_granule_state, update_granule, write_page.
  destruct (set_state_zeroizes _ _) eqn:Ez; simpl.
  - destruct (decide (a = index_to_addr idx)) as [->|Hne].
    + rewrite fn_lookup_insert. by rewrite decide_True.
    + rewrite fn_lookup_insert_ne by done. rewrite decide_False; [done|]. by intros [? _].
  - rewrite decide_False; [done|]. by intros [_ ?].
Qed.
End set_granule.
