(* ===== verification/Delegation.v ===== *)
(** * Delegating and undelegating a granule

    [GRANULE_DELEGATE] and [GRANULE_UNDELEGATE] of rmm/src/rmi/gpt.rs on every
    branch: which granules they accept, what the firmware's answer does, and
    that a granule is wiped whenever it changes hands. *)

From S2P Require Import Prelude Bytes Bits Vmsa RmiTypes Granule S2tte Objects Machine PageTable Stage1 Stage1Facts Guards RmiGranule Sample.

Section delegation.
Context `{Platform}.

(** The registers of a one-argument call. *)
Definition smc_args (cmd addr : Z) : list Z := [cmd; addr; 0; 0; 0; 0; 0; 0].

Lemma smc0_run cmd addr s r w :
  firmware_smc (smc_args cmd addr) (env s) = (r, w) ->
  smc0 cmd [addr] s = (unwrap (r !! 0%nat), set_env w s).
Proof.
  intros Hf. unfold smc0, smc, mbind, M_bind. simpl.
  unfold smc_args in Hf. by rewrite Hf.
Qed.

(** The new state after a granule changed hands. *)
Definition handed_over (idx st : Z) (w : world) (h : heap_t) (s : rmm) : rmm :=
  set_heap h (with_granule_state idx st (set_env w s)).

(** The tail both handlers share: map, change the state, unmap. *)
Lemma hand_over_run addr idx st secure s :
  validate_addr addr = true ->
  exists h, (pt_map addr secure;;
             inspect_err (set_granule idx st) (pt_unmap addr);;
             pt_unmap addr) s = (Ok tt, set_heap h (with_granule_state idx st s)).
Proof.
  intros Hv. pose proof (validate_addr_range _ Hv). apply validate_addr_spec in Hv as [Hm _].
  destruct (pt_map_ok addr secure s) as [h Hh]; [lia|exact Hm|].
  erewrite bind_ok by exact Hh. unfold inspect_err, catch.
  destruct (pt_unmap_ok addr (with_granule_state idx st (set_heap h s))) as [h' Hh'].
  exists h'. erewrite bind_ok by (rewrite set_granule_run; reflexivity).
  rewrite Hh'. by rewrite <- set_heap_granule_state.
Qed.

Lemma unlock_handed_over idx st w h s :
  idx ∉ locked s ->
  unlock idx (set_heap h (with_granule_state idx st (set_env w (lock idx s))))
  = handed_over idx st w h s.
Proof.
  intros Hn. unfold handed_over, unlock.
  rewrite set_locked_heap, set_locked_granule_state, set_locked_env.
  change (locked (set_heap h ?x)) with (locked x). rewrite with_granule_state_locked.
  do 3 f_equal. by apply unlock_lock.
Qed.

Lemma handed_over_wiped addr st w h s :
  let idx := granule_addr_to_index addr in
  validate_addr addr = true -> set_state_zeroizes (state (gst s idx)) st = true ->
  mem (handed_over idx st w h s) addr = zero_page.
Proof.
  intros idx Hv Hz. etransitivity; [apply (with_granule_state_mem idx st (set_env w s))|].
  rewrite decide_True; [done|]. split; [|done]. unfold idx. by rewrite index_to_addr_to_index.
Qed.

(** GRANULE_DELEGATE on every branch. *)
Lemma granule_delegate_cases addr rest s r w :
  let idx := granule_addr_to_index addr in
  idx ∉ locked s ->
  firmware_smc (smc_args MARK_REALM addr) (env s) = (r, w) ->
  (validate_addr addr = false \/ state (gst s idx) <> GranuleState.Undelegated ->
     granule_delegate (addr :: rest) s = (Err RmiErrorInput, s)) /\
  (validate_addr addr = true -> state (gst s idx) = GranuleState.Undelegated ->
     match r !! 0%nat with
     | Some 0 => exists h, granule_delegate (addr :: rest) s
                   = (Ok tt, handed_over idx GranuleState.Delegated w h s) /\
                 mem (handed_over idx GranuleState.Delegated w h s) addr = zero_page
     | Some _ => granule_delegate (addr :: rest) s = (Err RmiErrorInput, set_env w s)
     | None => fst (granule_delegate (addr :: rest) s) = Panicked
     end).
Proof.
  intros idx Hn Hf. unfold granule_delegate. rewrite (bind_argn _ 0 addr) by done.
  split; [intros Hr; by apply with_granule_if_refused|]. intros Hv Hs.
  rewrite with_granule_if_run by done. fold idx.
  assert (firmware_smc (smc_args MARK_REALM addr) (env (lock idx s)) = (r, w)) as Hf' by done.
  pose proof (smc0_run _ _ _ _ _ Hf') as Hsmc.
  destruct (r !! 0%nat) as [c|]; [|by erewrite bind_panic by exact Hsmc].
  erewrite bind_ok by exact Hsmc.
  destruct (Z.eqb_spec c SMC_SUCCESS) as [->|Hc]; cbn [negb].
  - destruct (hand_over_run addr idx GranuleState.Delegated true (set_env w (lock idx s)) Hv)
      as [h Hh]. exists h. rewrite Hh. split; [by rewrite unlock_handed_over|].
    apply handed_over_wiped; [done|]. fold idx. by rewrite Hs.
  - assert (unlock idx (set_env w (lock idx s)) = set_env w s) as Hu.
    { unfold unlock. rewrite set_locked_env. f_equal. by apply unlock_lock. }
    unfold throw. by destruct c; [done|rewrite Hu..].
Qed.

(** C4: GRANULE_DELEGATE refuses, without any effect, an address that is not
    a granule or a granule the host does not own; it reports an error and
    leaves the granule with the host when the firmware refuses; otherwise
    the granule becomes Delegated and its content is wiped, and nothing else
    but the RMM's own mappings changes. *)
Theorem granule_delegate_spec addr rest s r w :
  let idx := granule_addr_to_index addr in
  idx ∉ locked s ->
  firmware_smc (smc_args MARK_REALM addr) (env s) = (r, w) ->
  (validate_addr addr = false \/ state (gst s idx) <> GranuleState.Undelegated ->
     granule_delegate (addr :: rest) s = (Err RmiErrorInput, s)) /\
  (validate_addr addr = true -> state (gst s idx) = GranuleState.Undelegated ->
     match r !! 0%nat with
     | Some 0 => exists h, granule_delegate (addr :: rest) s
                   = (Ok tt, handed_over idx GranuleState.Delegated w h s) /\
                 mem (handed_over idx GranuleState.Delegated w h s) addr = zero_page
     | Some _ => granule_delegate (addr :: rest) s = (Err RmiErrorInput, set_env w s)
     | None => fst (granule_delegate (addr :: rest) s) = Panicked
     end).
Proof. apply granule_delegate_cases. Qed.

(** GRANULE_UNDELEGATE on every branch. *)
Lemma granule_undelegate_cases addr rest s r w :
  let idx := granule_addr_to_index addr in
  idx ∉ locked s ->
  firmware_smc (smc_args MARK_NONSECURE addr) (env s) = (r, w) ->
  (validate_addr addr = false \/ state (gst s idx) <> GranuleState.Delegated ->
     granule_undelegate (addr :: rest) s = (Err RmiErrorInput, s)) /\
  (validate_addr addr = true -> state (gst s idx) = GranuleState.Delegated ->
     match r !! 0%nat with
     | Some 0 => exists h, granule_undelegate (addr :: rest) s
                   = (Ok tt, handed_over idx GranuleState.Undelegated w h s) /\
                 mem (handed_over idx GranuleState.Undelegated w h s) addr = zero_page
     | _ => granule_undelegate (addr :: rest) s = (Panicked, set_env w s)
     end).
Proof.
  intros idx Hn Hf. unfold granule_undelegate. rewrite (bind_argn _ 0 addr) by done.
  split; [intros Hr; by apply with_granule_if_refused|]. intros Hv Hs.
  rewrite with_granule_if_run by done. fold idx.
  assert (firmware_smc (smc_args MARK_NONSECURE addr) (env (lock idx s)) = (r, w)) as Hf' by done.
  pose proof (smc0_run _ _ _ _ _ Hf') as Hsmc.
  assert (unlock idx (set_env w (lock idx s)) = set_env w s) as Hu.
  { unfold unlock. rewrite set_locked_env. f_equal. by apply unlock_lock. }
  destruct (r !! 0%nat) as [c|]; [|by erewrite bind_panic, Hu by exact Hsmc].
  erewrite bind_ok by exact Hsmc.
  destruct (Z.eqb_spec c SMC_SUCCESS) as [->|Hc]; cbn [negb].
  - destruct (hand_over_run addr idx GranuleState.Undelegated false (set_env w (lock idx s)) Hv)
      as [h Hh]. exists h. rewrite Hh. split; [by rewrite unlock_handed_over|].
    apply handed_over_wiped; [done|]. fold idx. by rewrite Hs.
  - unfold panic. by destruct c; [done|rewrite Hu..].
Qed.

(** C3: GRANULE_UNDELEGATE refuses, without any effect, an address that is
    not a granule or a granule that is not Delegated (so one that holds a
    realm's object or data). Otherwise it asks the firmware first: a firmware
    that refuses makes it panic with the granule still Delegated and its
    content as it was; when the firmware agrees the granule ends Undelegated
    with its content wiped, and nothing else but the RMM's own mappings
    changes. *)
Theorem granule_undelegate_spec addr rest s r w :
  let idx := granule_addr_to_index addr in
  idx ∉ locked s ->
  firmware_smc (smc_args MARK_NONSECURE addr) (env s) = (r, w) ->
  (validate_addr addr = false \/ state (gst s idx) <> GranuleState.Delegated ->
     granule_undelegate (addr :: rest) s = (Err RmiErrorInput, s)) /\
  (validate_addr addr = true -> state (gst s idx) = GranuleState.Delegated ->
     match r !! 0%nat with
     | Some 0 => exists h, granule_undelegate (addr :: rest) s
                   = (Ok tt, handed_over idx GranuleState.Undelegated w h s) /\
                 mem (handed_over idx GranuleState.Undelegated w h s) addr = zero_page
     | _ => granule_undelegate (addr :: rest) s = (Panicked, set_env w s)
     end).
Proof. apply granule_undelegate_cases. Qed.
End delegation.

(** ** Witnesses: the first granule of DRAM, delegated and taken back. *)
Definition sample_gpt : list Z * sample_world :=
  sample_firmware (smc_args MARK_REALM 0x80000000) (∅, []).

Lemma granule_delegate_spec_witness :
  exists h, granule_delegate [0x80000000] sample_boot
    = (Ok tt, handed_over 0 GranuleState.Delegated (snd sample_gpt) h sample_boot) /\
    mem (handed_over 0 GranuleState.Delegated (snd sample_gpt) h sample_boot) 0x80000000 = zero_page.
Proof.
  destruct (granule_delegate_spec 0x80000000 [] sample_boot (fst sample_gpt) (snd sample_gpt))
    as [_ Hok]; [set_solver|reflexivity|].
  exact (Hok eq_refl eq_refl).
Defined.

Definition sample_taken : rmm :=
  with_granule_state 0 GranuleState.Delegated (set_env (snd sample_gpt) sample_boot).
Definition sample_gpt' : list Z * sample_world :=
  sample_firmware (smc_args MARK_NONSECURE 0x80000000) (snd sample_gpt).

Lemma granule_undelegate_spec_witness :
  exists h, granule_undelegate [0x80000000] sample_taken
    = (Ok tt, handed_over 0 GranuleState.Undelegated (snd sample_gpt') h sample_taken) /\
    mem (handed_over 0 GranuleState.Undelegated (snd sample_gpt') h sample_taken) 0x80000000
    = zero_page.
Proof.
  destruct (granule_undelegate_spec 0x80000000 [] sample_taken (fst sample_gpt') (snd sample_gpt'))
    as [_ Hok]; [set_solver|reflexivity|].
  exact (Hok eq_refl eq_refl).
Defined.
