(* ===== verification/Stage2Facts.v ===== *)
(** * Reading and writing a realm's tables

    The stage-2 instance of the walk: [ipa_to_pte] and [ipa_to_pte_set] of
    realm/mm/stage2_translation.rs in terms of the path of a pure walk, and the
    memory laws that say what a write to one entry changes. *)

From S2P Require Import Prelude Bytes Bits Vmsa RmiTypes Granule S2tte Objects Machine PageTable Stage2.

(** ** The [Entry] laws *)
#[global] Instance s2_entry_laws : EntryLaws.
Proof.
  split.
  - intros v level Hp. simpl. rewrite (table_entry_address v level Hp). eauto.
  - intros v Hp. simpl in *. unfold entry_points_to_table_or_page in Hp.
    by destruct (entry_is_valid v).
  - intros l tsz page i. simpl. unfold entry_index.
    pose proof (index_field_bound page 47 39). pose proof (index_field_bound page 38 30).
    pose proof (index_field_bound page 29 21). pose proof (index_field_bound page 20 12).
    unfold RawGPA.L0Index, RawGPA.L1Index, RawGPA.L2Index, RawGPA.L3Index, L3_NUM_ENTRIES.
    repeat case_match; intros; simplify_eq; lia.
  - intros depth page Hd. simpl. destruct depth as [|[|[|]]]; [..|lia];
      (eexists; split; [reflexivity|]; apply index_field_bound; lia).
  - intros depth tsz page Hd. simpl. unfold entry_index, this_level.
    destruct depth as [|[|[|[|]]]]; [..|lia]; simpl; try destruct (_ <? _); eauto.
Qed.

(** ** Words of granule memory *)
Section words.
Context `{Platform}.

Lemma read_write_same a v s : read_word a (write_word a v s) = v.
Proof. simpl. rewrite fn_lookup_insert. simpl. by rewrite fn_lookup_insert. Qed.

Lemma read_write_other a b v s :
  0 <= a -> 0 <= b -> a mod 8 = 0 -> b mod 8 = 0 -> a <> b ->
  read_word a (write_word b v s) = read_word a s.
Proof.
  intros Ha Hb Ha8 Hb8 Hne. simpl.
  destruct (decide (page_of a = page_of b)) as [Hp|Hp].
  - rewrite Hp, fn_lookup_insert. simpl. rewrite fn_lookup_insert_ne; [done|].
    intros Hw. apply Hne. unfold page_of, word_of, GRANULE_SIZE in *.
    Z.div_mod_to_equations. lia.
  - by rewrite fn_lookup_insert_ne.
Qed.

Lemma write_word_frame a v s :
  gst (write_word a v s) = gst s /\ locked (write_word a v s) = locked s /\
  rtt_tables (write_word a v s) = rtt_tables s.
Proof. done. Qed.
End words.

(** ** Slots are aligned *)
Lemma slot_aligned depth base tsz page a :
  base mod 8 = 0 -> 0 <= base -> slot depth base tsz page = Ok a -> 0 <= a /\ a mod 8 = 0.
Proof.
  intros Hb Hb0. unfold slot. destruct (e_index _ _ _) as [i| | |] eqn:Ei; try done.
  simpl. destruct (i <? _); intros [= <-]. apply e_index_nonneg in Ei.
  unfold ENTRY_SIZE. split; [lia|]. Z.div_mod_to_equations; lia.
Qed.

Lemma table_addr_aligned e level : 0 <= default 0 (entry_address e level) /\
  default 0 (entry_address e level) mod 8 = 0.
Proof.
  assert (forall x lo, 3 <= lo <= 47 -> 0 <= get_masked x (define_mask 47 lo) /\
            get_masked x (define_mask 47 lo) mod 8 = 0) as Hm.
  { intros x lo Hlo. unfold get_masked. split.
    - apply Z.land_nonneg. right. apply define_mask_range; lia.
    - change 8 with (2 ^ 3). rewrite <- Z.land_ones by lia. rewrite <- Z.land_assoc.
      replace (Z.land (define_mask 47 lo) (Z.ones 3)) with 0; [apply Z.land_0_r|].
      symmetry. apply Z.bits_inj'. intros i Hi.
      rewrite Z.land_spec, define_mask_spec, Z.bits_0 by lia.
      destruct (decide (i < 3)).
      + rewrite (proj2 (Z.leb_gt lo i)) by lia. done.
      + rewrite Z.ones_spec_high by lia. apply andb_false_r. }
  unfold entry_address. repeat case_match; simpl; try (split; [lia|done]); apply Hm; lia.
Qed.

(** Every slot a walk passes is an aligned address. *)
Lemma walk_aligned rd depth base tsz page level pre b l :
  base mod 8 = 0 -> 0 <= base ->
  walk rd depth base tsz page level = Ok (pre, b, l) ->
  forall a, a ∈ pre \/ a = b -> 0 <= a /\ a mod 8 = 0.
Proof.
  revert base tsz pre. induction depth as [|depth IH]; intros base tsz pre Hb Hb0 Hw a Ha.
  - cbn [walk] in Hw. destruct (slot _ _ _ _) as [x| | |] eqn:Hs; simplify_eq/=.
    destruct Ha as [Ha| ->]; [set_solver|]. exact (slot_aligned _ _ _ _ _ Hb Hb0 Hs).
  - apply walk_inv in Hw as (x & Hs & [(-> & -> & -> & _)|(pre' & -> & _ & _ & Hw)]).
    + destruct Ha as [Ha| ->]; [set_solver|]. exact (slot_aligned _ _ _ _ _ Hb Hb0 Hs).
    + destruct (table_addr_aligned (rd x) (this_level (S depth))) as [Ht0 Ht].
      pose proof (IH _ _ _ Ht Ht0 Hw a) as Hrec.
      rewrite elem_of_cons in Ha. destruct Ha as [[-> |Ha]|Ha]; [|by auto..].
      exact (slot_aligned _ _ _ _ _ Hb Hb0 Hs).
Qed.

(** ** The realm's walk *)
Section s2_ops.
Context `{Platform}.

(** A translation [Stage2Translation::new] can build over granules. *)
Definition s2_wf (t : Stage2Translation) : Prop :=
  root_supported (root_level t) (root_pages t) = true /\
  0 <= root_pgtbl t /\ root_pgtbl t mod 8 = 0.

Definition s2_walk (t : Stage2Translation) (s : rmm) (guest level : Z)
    : outcome MmError (list Z * Z * Z) :=
  walk (fun a => read_word a s) (root_depth t) (root_pgtbl t) (root_size t)
    (base_page guest) level.

Lemma root_level_range t : s2_wf t -> 0 <= root_level t <= 2.
Proof.
  intros [Hr _]. unfold root_supported in Hr.
  destruct (Z.eqb_spec (root_level t) 0), (Z.eqb_spec (root_level t) 1),
    (Z.eqb_spec (root_level t) 2); lia || done.
Qed.

Lemma root_depth_spec t :
  s2_wf t -> root_depth t <> O /\ (root_depth t <= 3)%nat /\
             this_level (root_depth t) = root_level t.
Proof.
  intros Hw. apply root_level_range in Hw. unfold root_depth, this_level.
  rewrite Z2Nat.id by lia. lia.
Qed.

(** The memory after an entry was set: the TLB operation is logged and the
    translation marked dirty. *)
Definition invalidated (id : Z) (t : Stage2Translation) (level guest : Z) (i : Tlbi)
    (s : rmm) : rmm :=
  let dirtied s := set_rtt_tables
    (<[id := mkStage2 (root_pgtbl t) (root_level t) (root_pages t) true]> (rtt_tables s)) s in
  match i with
  | NONE => s
  | LEAF vmid => dirtied (set_tlbi_log (tlbi_log s ++ [TlbiLeaf level guest vmid]) s)
  | BREAKDOWN vmid => dirtied (set_tlbi_log (tlbi_log s ++ [TlbiBreakdown level guest vmid]) s)
  end.

Lemma invalidated_mem id t level guest i s : mem (invalidated id t level guest i s) = mem s.
Proof. by destruct i. Qed.

Lemma invalidated_read id t level guest i s a :
  read_word a (invalidated id t level guest i s) = read_word a s.
Proof. by destruct i. Qed.

Section path.
Context (t : Stage2Translation) (s : rmm) (guest level : Z) (pre : list Z) (b l : Z).
Context (Hwf : s2_wf t) (Hl3 : level <= 3).
Context (Hw : s2_walk t s guest level = Ok (pre, b, l)).

Lemma root_entry_walk {A} (f : Z -> M rmm MmError A) :
  root_entry t guest level true f s = (r ← f b; mret (Some r, l)) s.
Proof.
  destruct (root_depth_spec t Hwf) as (Hd & _ & _).
  unfold root_entry. eapply entry_walk; [by left|done|exact Hw].
Qed.

Lemma ipa_to_pte_walk : ipa_to_pte t guest level s = (Ok (Some (read_word b s, l)), s).
Proof. unfold ipa_to_pte, mbind, M_bind, ok. by rewrite root_entry_walk. Qed.

(** A translation succeeds on a valid entry, with the page's address. *)
Lemma ipa_to_pa_walk :
  entry_is_valid (read_word b s) = true ->
  ipa_to_pa t guest level s = (Ok (entry_address (read_word b s) 0), s).
Proof.
  intros Hv. destruct (root_depth_spec t Hwf) as (Hd & _ & _).
  unfold ipa_to_pa, mbind at 1, M_bind at 1, ok, root_entry.
  erewrite entry_walk_valid; [|by left|done|exact Hw|exact Hv]. reflexivity.
Qed.

Lemma ipa_to_pte_set_walk id val i :
  ipa_to_pte_set id t guest level val i s
  = (Ok tt, invalidated id t level guest i (write_word b val s)).
Proof.
  unfold ipa_to_pte_set, mbind at 1, M_bind at 1, ok. rewrite root_entry_walk.
  mstep. change (e_set 0 val) with val. by destruct i.
Qed.

(** Writing the entry a walk ends at does not change the walk, unless it
    is one of the descriptors on the way or sends the walk further down. *)
Lemma walk_after_set v :
  b ∉ pre -> (l < level -> l < 3 -> entry_points_to_table_or_page v = false) ->
  s2_walk t (write_word b v s) guest level = Ok (pre, b, l).
Proof.
  intros Hb Hv. unfold s2_walk. eapply walk_ext; [exact Hw| |].
  - intros a Ha. destruct Hwf as (_ & H0 & H8).
    pose proof (walk_aligned _ _ _ _ _ _ _ _ _ H8 H0 Hw) as Hal.
    destruct (Hal a (or_introl Ha)), (Hal b (or_intror eq_refl)).
    apply read_write_other; [done..|]. intros ->. done.
  - intros H1 H2. rewrite read_write_same. by apply Hv.
Qed.

(** Writing elsewhere changes neither the walk nor what it reads. *)
Lemma walk_frame c v :
  0 <= c -> c mod 8 = 0 -> c ∉ pre -> c <> b ->
  s2_walk t (write_word c v s) guest level = Ok (pre, b, l) /\
  read_word b (write_word c v s) = read_word b s.
Proof.
  intros Hc0 Hc8 Hc Hcb. destruct Hwf as (_ & H0 & H8).
  pose proof (walk_aligned _ _ _ _ _ _ _ _ _ H8 H0 Hw) as Hal.
  assert (read_word b (write_word c v s) = read_word b s) as Hb.
  { destruct (Hal b (or_intror eq_refl)). by apply read_write_other. }
  split; [|done]. unfold s2_walk. eapply walk_ext; [exact Hw| |].
  - intros a Ha. destruct (Hal a (or_introl Ha)).
    apply read_write_other; [done..|]. intros ->. done.
  - rewrite Hb. apply (walk_level _ _ _ _ _ _ _ _ _ Hw).
Qed.
End path.

Lemma s2_walk_invalidated id t' level' guest' i t s guest level :
  s2_walk t (invalidated id t' level' guest' i s) guest level = s2_walk t s guest level.
Proof. by destruct i. Qed.

(** ** The table of a descriptor *)
Lemma get_s2tte_walk rd t s ipa level e pre b l :
  rtt_tables s !! Rd.id rd = Some t -> s2_wf t -> level <= 3 ->
  s2_walk t s ipa level = Ok (pre, b, l) ->
  get_s2tte rd ipa level e s = (Ok (read_word b s, l), s).
Proof.
  intros Ht Hwf Hl Hw. unfold get_s2tte, s2_table. mstep. rewrite Ht. mstep.
  unfold mbind, M_bind. cbn [unwrap lift]. by rewrite (ipa_to_pte_walk _ _ _ _ _ _ _ Hwf Hl Hw).
Qed.

Lemma s2_pte_set_walk rd t s ipa level v i pre b l :
  rtt_tables s !! Rd.id rd = Some t -> s2_wf t -> level <= 3 ->
  s2_walk t s ipa level = Ok (pre, b, l) ->
  s2_pte_set rd ipa level v i s
  = (Ok tt, invalidated (Rd.id rd) t level ipa i (write_word b v s)).
Proof.
  intros Ht Hwf Hl Hw. unfold s2_pte_set, s2_table. mstep. rewrite Ht. mstep.
  unfold mbind, M_bind. cbn [unwrap lift]. by eapply ipa_to_pte_set_walk.
Qed.

(** A level above 3 is refused by the walk. *)
Lemma get_s2tte_high rd t s ipa level e :
  rtt_tables s !! Rd.id rd = Some t -> 3 < level ->
  get_s2tte rd ipa level e s = (Err e, s).
Proof.
  intros Ht Hl. unfold get_s2tte, s2_table. mstep. rewrite Ht.
  unfold mbind, M_bind. cbn [unwrap lift]. unfold ipa_to_pte, mbind, M_bind, ok, root_entry.
  by rewrite entry_high_level.
Qed.
End s2_ops.

(** ** Addresses inside the translation

    The concatenated root tables cover [root_span] bytes; a walk for an address
    below it never leaves its tables. *)
Definition root_span (t : Stage2Translation) : Z :=
  root_pages t * 512 * 2 ^ level_shift (root_level t).

Lemma base_page_down guest :
  0 <= guest < 2 ^ 64 -> base_page guest = guest - guest mod 2 ^ 12.
Proof. intros Hg. apply (align_down_pow2 guest 12); [done|lia]. Qed.

Lemma base_page_field guest hi lo :
  0 <= guest < 2 ^ 64 -> 12 <= lo -> lo <= hi < 64 ->
  get_masked_value (base_page guest) (define_mask hi lo) = guest / 2 ^ lo mod 2 ^ (hi - lo + 1).
Proof.
  intros Hg Hlo Hhi. rewrite get_masked_value_div, base_page_down by lia. f_equal.
  replace lo with (12 + (lo - 12)) by lia. rewrite Z.pow_add_r by lia.
  rewrite <- !Z.div_div by (apply Z.pow_nonzero || apply Z.pow_pos_nonneg; lia). f_equal.
  change (2 ^ 12) with 4096. Z.div_mod_to_equations; lia.
Qed.

Lemma root_slot_ok t guest :
  s2_wf t -> 0 <= guest < 2 ^ 48 -> guest < root_span t ->
  exists a, slot (root_depth t) (root_pgtbl t) (root_size t) (base_page guest) = Ok a.
Proof.
  intros Hwf Hg Hs. destruct (root_depth_spec t Hwf) as (_ & _ & Hlv).
  destruct Hwf as [Hsup _]. unfold slot. rewrite Hlv. unfold root_size, root_span in *.
  unfold root_supported in Hsup. simpl e_index. unfold entry_index. unfold RawGPA.L0Index, RawGPA.L1Index,
    RawGPA.L2Index, L3_NUM_ENTRIES, ENTRY_SIZE. rewrite !base_page_field by lia.
  change Config.PAGE_SIZE with 4096.
  replace (root_pages t * 4096 / 8) with (root_pages t * 512) by (Z.div_mod_to_equations; lia).
  destruct (Z.eqb_spec (root_level t) 0) as [E0|E0].
  - simpl mbind. rewrite (proj2 (Z.ltb_lt _ _)); [eauto|].
    assert (1 <= root_pages t) by (destruct (Z.eqb_spec (root_pages t) 1),
      (Z.eqb_spec (root_pages t) 16); lia || done).
    pose proof (Z.mod_pos_bound (guest / 2 ^ 39) (2 ^ (47 - 39 + 1)) ltac:(lia)). lia.
  - destruct (Z.eqb_spec (root_level t) 1) as [E1|E1].
    + rewrite E1 in Hs. change (2 ^ level_shift 1) with (2 ^ 30) in Hs.
      destruct (Z.ltb_spec 4096 (root_pages t * 4096)); simpl mbind;
        (rewrite (proj2 (Z.ltb_lt _ _)); [eauto|]).
      * change (2 ^ (47 - 39 + 1)) with 512. change (2 ^ (38 - 30 + 1)) with 512.
        Z.div_mod_to_equations; lia.
      * assert (1 <= root_pages t) by lia.
        pose proof (Z.mod_pos_bound (guest / 2 ^ 30) (2 ^ (38 - 30 + 1)) ltac:(lia)). lia.
    + destruct (Z.eqb_spec (root_level t) 2) as [E2|E2]; [|done].
      rewrite E2 in Hs. change (2 ^ level_shift 2) with (2 ^ 21) in Hs.
      destruct (Z.ltb_spec 4096 (root_pages t * 4096)); simpl mbind;
        (rewrite (proj2 (Z.ltb_lt _ _)); [eauto|]).
      * change (2 ^ (38 - 30 + 1)) with 512. change (2 ^ (29 - 21 + 1)) with 512.
        Z.div_mod_to_equations; lia.
      * assert (1 <= root_pages t) by lia.
        pose proof (Z.mod_pos_bound (guest / 2 ^ 21) (2 ^ (29 - 21 + 1)) ltac:(lia)). lia.
Qed.

Lemma s2_walk_total `{Platform} t s guest level :
  s2_wf t -> 0 <= guest < 2 ^ 48 -> guest < root_span t ->
  exists pre b l, s2_walk t s guest level = Ok (pre, b, l).
Proof.
  intros Hwf Hg Hs. unfold s2_walk. apply walk_total.
  - by apply root_depth_spec.
  - by apply root_slot_ok.
Qed.

Lemma s2_walk_level `{Platform} t s guest level pre b l :
  s2_wf t -> s2_walk t s guest level = Ok (pre, b, l) ->
  root_level t <= l <= 3 /\ l <= Z.max level (root_level t).
Proof.
  intros Hwf Hw. destruct (root_depth_spec t Hwf) as (_ & _ & Hlv).
  apply walk_level in Hw. rewrite Hlv in Hw. lia.
Qed.

(** ** The table a walk ends in *)
Section tables.
Context `{Platform}.

Lemma subtable_stop depth base tsz page a (s : rmm) :
  this_level depth < 3 -> slot depth base tsz page = Ok a ->
  e_points_to_table_or_page (read_word a s) = false ->
  subtable 3 depth base tsz page s = (Err MmSubtableError, s).
Proof.
  intros Hl Ha Hp. unfold subtable. rewrite (proj2 (Z.leb_gt _ _)) by done.
  rewrite Ha. mstep. by rewrite Hp.
Qed.

(** [table_entries] stops in the table that holds the walk's last entry. *)
Lemma table_entries_walk depth base tsz page level (s : rmm) pre b l :
  level <= 3 ->
  walk (fun a => read_word a s) depth base tsz page level = Ok (pre, b, l) ->
  exists tb ts, table_entries 3 depth base tsz page level s = (Ok (tb, ts, l), s) /\
    slot (depth - length pre) tb ts page = Ok b /\
    (pre = [] -> tb = base /\ ts = tsz) /\ (pre <> [] -> ts = TABLE_SIZE).
Proof.
  intros Hl3. revert base tsz pre. induction depth as [|depth IH]; intros base tsz pre Hw.
  - cbn [walk] in Hw. destruct (slot _ _ _ _) eqn:Es; simplify_eq/=. by exists base, tsz.
  - apply walk_inv in Hw as (a & Ha & Hw). cbn [table_entries].
    rewrite (proj2 (Z.ltb_ge 3 (this_level _))) by (unfold this_level; lia).
    rewrite (proj2 (Z.ltb_ge 3 level)) by lia.
    destruct Hw as [(-> & -> & -> & Hc)|(pre' & -> & Hl & Hp & Hw)].
    + exists base, tsz. split_and!; [|done..]. destruct (this_level _ <? level) eqn:El; [|done].
      simpl in Hc. unfold mbind, M_bind, ok.
      rewrite (subtable_stop _ _ _ _ a); [done|apply Z.ltb_lt in El; lia|done|done].
    + rewrite (proj2 (Z.ltb_lt _ _)) by done. unfold mbind at 1, M_bind at 1, ok.
      rewrite (subtable_ok _ _ _ _ a) by (done || lia).
      destruct (IH _ _ _ Hw) as (tb & ts & Ht & Hs & He & Hne).
      exists tb, ts. split_and!; [exact Ht|exact Hs|done|].
      intros _. destruct pre'; [by apply He|by apply Hne].
Qed.

Lemma entries_walk t s guest level pre b l :
  s2_wf t -> level <= 3 -> s2_walk t s guest level = Ok (pre, b, l) ->
  exists tb ts, entries t guest level s = (Ok (table_words tb ts s, l), s) /\
    slot (root_depth t - length pre) tb ts (base_page guest) = Ok b /\
    (pre = [] -> tb = root_pgtbl t /\ ts = root_size t) /\ (pre <> [] -> ts = TABLE_SIZE).
Proof.
  intros Hwf Hl Hw. destruct (table_entries_walk _ _ _ _ _ _ _ _ _ Hl Hw)
    as (tb & ts & Ht & Hrest). exists tb, ts. split; [|exact Hrest].
  unfold entries, mbind at 1, M_bind at 1, ok. unfold BASE_MAP_TABLE_LEVEL. by rewrite Ht.
Qed.
End tables.
