(* ===== verification/RttFacts.v ===== *)
(** * What the table operations do

    The operations of realm/mm/rtt.rs on the entry their walk reaches: the
    effect of each on every state of the entry, and what a later read of the
    same or another address sees. *)

From S2P Require Import Prelude Bytes Bits Vmsa RmiTypes Granule S2tte Objects Machine PageTable Stage2 Stage2Facts Measurement Rtt.

(** ** Entries the RMM writes *)
Definition DATA_RAM_FLAGS : Z :=
  Z.lor (bits_in_reg S2TTE.DESC_TYPE desc_type.L3_PAGE)
    (Z.lor (bits_in_reg S2TTE.MEMATTR memattr.NORMAL_FWB)
       (Z.lor (bits_in_reg S2TTE.S2AP permission.RW)
          (Z.lor (bits_in_reg S2TTE.SH shareable.INNER) (bits_in_reg S2TTE.AF 1)))).

Lemma data_s2tte_ram pa ripas unknown :
  (unknown = true -> ripas = invalid_ripas.RAM) ->
  data_s2tte pa ripas unknown = Z.lor pa DATA_RAM_FLAGS.
Proof.
  intros Hu. unfold data_s2tte. destruct unknown; simpl.
  - rewrite Hu by done. simpl. by rewrite <- !Z.lor_assoc.
  - by rewrite <- !Z.lor_assoc.
Qed.

Lemma data_s2tte_unknown pa ripas :
  ripas <> invalid_ripas.RAM ->
  data_s2tte pa ripas true
  = Z.lor pa (Z.lor (bits_in_reg S2TTE.INVALID_HIPAS invalid_hipas.ASSIGNED)
                    (bits_in_reg S2TTE.INVALID_RIPAS ripas)).
Proof.
  intros Hr. unfold data_s2tte. rewrite (proj2 (Z.eqb_neq _ _)) by done. simpl.
  by rewrite <- Z.lor_assoc.
Qed.

(** Fields of the entry of a page: its flags decide everything but the address. *)
Section page_entry.
Context (pa flags : Z) (Hpa : page_addr pa).

Lemma page_entry_field m :
  Z.land S2TTE.ADDR_TBL_OR_PAGE m = 0 ->
  get_masked_value (Z.lor pa flags) m = get_masked_value flags m.
Proof. by apply field_of_entry. Qed.

Lemma page_entry_unassigned : is_unassigned (Z.lor pa flags) = is_unassigned flags.
Proof. unfold is_unassigned. by rewrite !page_entry_field. Qed.
Lemma page_entry_assigned : is_assigned (Z.lor pa flags) = is_assigned flags.
Proof. unfold is_assigned. by rewrite !page_entry_field. Qed.
Lemma page_entry_assigned_ram l : is_assigned_ram (Z.lor pa flags) l = is_assigned_ram flags l.
Proof. unfold is_assigned_ram. by rewrite !page_entry_field. Qed.
Lemma page_entry_unassigned_ns : is_unassigned_ns (Z.lor pa flags) = is_unassigned_ns flags.
Proof. unfold is_unassigned_ns. by rewrite !page_entry_field. Qed.
Lemma page_entry_assigned_ns l : is_assigned_ns (Z.lor pa flags) l = is_assigned_ns flags l.
Proof. unfold is_assigned_ns. by rewrite !page_entry_field. Qed.
Lemma page_entry_table l : is_table (Z.lor pa flags) l = is_table flags l.
Proof. unfold is_table. by rewrite !page_entry_field. Qed.
Lemma page_entry_valid l b : is_valid (Z.lor pa flags) l b = is_valid flags l b.
Proof. unfold is_valid. by rewrite !page_entry_field. Qed.
Lemma page_entry_ripas : get_ripas (Z.lor pa flags) = get_ripas flags.
Proof. unfold get_ripas. by rewrite !page_entry_field. Qed.
Lemma page_entry_addr :
  Z.land flags S2TTE.ADDR_TBL_OR_PAGE = 0 -> addr_as_block (Z.lor pa flags) 3 = Ok pa.
Proof. intros Hf. unfold addr_as_block. simpl. f_equal. by apply addr_of_entry. Qed.
End page_entry.

(** ** Reads *)
Section reads.
Context `{Platform}.

(** A realm with its table, and the path of a walk that ends at [level]
    without passing the entry it ends at. *)
Record reaches (rd : Rd.t) (s : rmm) (t : Stage2Translation) (ipa level : Z)
    (pre : list Z) (b : Z) : Prop := {
  reach_table : rtt_tables s !! Rd.id rd = Some t;
  reach_wf : s2_wf t;
  reach_level : level <= 3;
  reach_walk : s2_walk t s ipa level = Ok (pre, b, level);
  reach_fresh : b ∉ pre
}.

Lemma reaches_get rd s t ipa level pre b e :
  reaches rd s t ipa level pre b ->
  get_s2tte rd ipa level e s = (Ok (read_word b s, level), s).
Proof. intros []. by eapply get_s2tte_walk. Qed.

Lemma reaches_set rd s t ipa level pre b v i :
  reaches rd s t ipa level pre b ->
  s2_pte_set rd ipa level v i s
  = (Ok tt, invalidated (Rd.id rd) t level ipa i (write_word b v s)).
Proof. intros []. by eapply s2_pte_set_walk. Qed.

Definition after_set (rd : Rd.t) (t : Stage2Translation) (ipa level b v : Z) (i : Tlbi)
    (s : rmm) : rmm := invalidated (Rd.id rd) t level ipa i (write_word b v s).

(** The table of the realm after a write, which may have made it dirty. *)
Definition dirtied (i : Tlbi) (t : Stage2Translation) : Stage2Translation :=
  match i with
  | NONE => t
  | _ => mkStage2 (root_pgtbl t) (root_level t) (root_pages t) true
  end.

Lemma dirtied_wf i t : s2_wf t -> s2_wf (dirtied i t).
Proof. by destruct i. Qed.

Lemma dirtied_walk i t s ipa level : s2_walk (dirtied i t) s ipa level = s2_walk t s ipa level.
Proof. by destruct i. Qed.

Lemma after_set_table rd t ipa level b v i s :
  rtt_tables s !! Rd.id rd = Some t ->
  rtt_tables (after_set rd t ipa level b v i s) !! Rd.id rd = Some (dirtied i t).
Proof. intros Ht. destruct i; simpl; [done|by rewrite lookup_insert_eq..]. Qed.

Lemma after_set_read rd t ipa level b v i s :
  read_word b (after_set rd t ipa level b v i s) = v.
Proof. unfold after_set. by rewrite invalidated_read, read_write_same. Qed.

(** The same address reads back what was written. *)
Lemma reaches_after_set rd s t ipa level pre b v i :
  reaches rd s t ipa level pre b ->
  reaches rd (after_set rd t ipa level b v i s) (dirtied i t) ipa level pre b.
Proof.
  intros [Ht Hwf Hl Hw Hf]. split.
  - by apply after_set_table.
  - by apply dirtied_wf.
  - done.
  - rewrite dirtied_walk. unfold after_set. rewrite s2_walk_invalidated.
    eapply walk_after_set; [done|exact Hw|done|]. lia.
  - done.
Qed.

(** Another address whose path does not meet the entry is not affected. *)
Lemma reaches_frame rd s t ipa level pre b v i ipa' level' pre' b' :
  reaches rd s t ipa level pre b -> reaches rd s t ipa' level' pre' b' ->
  b ∉ pre' -> b <> b' ->
  reaches rd (after_set rd t ipa level b v i s) (dirtied i t) ipa' level' pre' b' /\
  read_word b' (after_set rd t ipa level b v i s) = read_word b' s.
Proof.
  intros [Ht Hwf Hl Hw Hf] [_ _ Hl' Hw' Hf'] Hb Hbb.
  destruct Hwf as (Hs & H0 & H8).
  pose proof (walk_aligned _ _ _ _ _ _ _ _ _ H8 H0 Hw b (or_intror eq_refl)) as [Hb0 Hb8].
  destruct (walk_frame t s ipa' level' pre' b' level' (conj Hs (conj H0 H8)) Hw' b v)
    as [Hwalk Hread]; [done..|].
  split.
  - split; [by apply after_set_table|by apply dirtied_wf|done| |done].
    rewrite dirtied_walk. unfold after_set. by rewrite s2_walk_invalidated.
  - unfold after_set. by rewrite invalidated_read.
Qed.
End reads.

(** ** The first live entry

    [skip_non_live_entries] returns the address of the first live entry at or
    after an address, within the table that holds it. *)
Fixpoint non_live_run (es : list Z) : nat :=
  match es with
  | [] => O
  | e :: es' => if is_live e then O else S (non_live_run es')
  end.

Lemma non_live_run_spec es :
  (forall i e, es !! i = Some e -> (i < non_live_run es)%nat -> is_live e = false) /\
  (forall e, es !! non_live_run es = Some e -> is_live e = true) /\
  (non_live_run es <= length es)%nat.
Proof.
  induction es as [|e es (IH1 & IH2 & IH3)]; cbn [non_live_run].
  { split_and!; [done..|simpl; lia]. }
  destruct (is_live e) eqn:Hl.
  - split_and!; [intros i e' _ Hi; inversion Hi|by intros e' [= <-]|simpl; lia].
  - split_and!; [|exact IH2|simpl; lia].
    intros [|i] e' He' Hi; simplify_eq/=; [done|]. eapply IH1; [done|lia].
Qed.

Lemma skip_loop_run ms base addr es :
  0 < ms -> 0 <= addr -> addr + Z.of_nat (length es) * ms < Word.modulus ->
  skip_loop ms base base addr es = addr + Z.of_nat (non_live_run es) * ms.
Proof.
  intros Hms. revert addr. induction es as [|e es IH]; intros addr Ha Hb; simpl; [lia|].
  rewrite Z.ltb_irrefl. simpl in Hb. destruct (is_live e); [lia|].
  rewrite Word.add_small by lia. rewrite IH by lia. lia.
Qed.

Lemma skip_loop_spec ms base bottom i es :
  0 < ms -> 0 <= bottom -> base = bottom + Z.of_nat i * ms -> (i <= length es)%nat ->
  bottom + Z.of_nat (length es) * ms < Word.modulus ->
  skip_loop ms base bottom base es = base + Z.of_nat (non_live_run (drop i es)) * ms.
Proof.
  intros Hms. revert bottom i. induction es as [|e es IH]; intros bottom i Hb Hbase Hi Hm.
  - simpl in *. destruct i; simpl; lia.
  - destruct i as [|i].
    + rewrite drop_0. replace bottom with base by lia.
      apply skip_loop_run; [done|lia|]. replace base with bottom by lia. done.
    + cbn [skip_loop drop]. simpl in Hi, Hm.
      rewrite (proj2 (Z.ltb_lt bottom base)) by nia.
      rewrite Word.add_small by nia. apply IH; lia.
Qed.

Lemma mask_down_pow2 x n :
  Word.in_range x -> 0 <= n < 64 -> mask_down x (2 ^ n) = x - x mod 2 ^ n.
Proof. apply align_down_pow2. Qed.

Section skip.
Context `{Platform}.

Lemma table_words_length tb ts s : length (table_words tb ts s) = Z.to_nat (ts / ENTRY_SIZE).
Proof. unfold table_words. by rewrite length_fmap, length_seq. Qed.

Lemma space_size_below t level :
  s2_wf t -> root_level t < level <= 3 -> space_size t level = Ok (2 ^ level_shift (level - 1)).
Proof.
  intros Hwf Hl. apply root_level_range in Hwf. unfold space_size.
  rewrite (proj2 (Z.eqb_neq level (root_level t))) by lia.
  rewrite (proj2 (Z.eqb_neq level 0)) by lia.
  rewrite mapping_size_pow2 by lia. simpl. f_equal. lia.
Qed.

(** Below the root: the result is the first live entry of the table at or
    after the address, or the end of the table. *)
Lemma skip_below_root rd s t ipa level pre b :
  reaches rd s t ipa level pre b -> root_level t < level ->
  0 <= ipa < 2 ^ 48 -> ipa mod 2 ^ level_shift level = 0 ->
  exists tb, slot (Z.to_nat (3 - level)) tb TABLE_SIZE (base_page ipa) = Ok b /\
  let es := table_words tb TABLE_SIZE s in
  let i := Z.to_nat (ipa / 2 ^ level_shift level mod 512) in
  skip_non_live_entries rd ipa level s
  = (Ok (ipa + Z.of_nat (non_live_run (drop i es)) * 2 ^ level_shift level), s).
Proof.
  intros [Ht Hwf Hl3 Hw Hfr] Hroot Hipa Hal.
  pose proof (root_level_range t Hwf) as Hrl.
  destruct (root_depth_spec t Hwf) as (_ & _ & Hlv).
  destruct (walk_level _ _ _ _ _ _ _ _ _ Hw) as (_ & _ & Hlen & _).
  destruct (entries_walk t s ipa level pre b level Hwf Hl3 Hw) as (tb & ts & He & Hs & _ & Hts).
  assert (pre <> []) as Hpre by (intros ->; simpl in Hlen; lia).
  rewrite (Hts Hpre) in *.
  replace (root_depth t - length pre)%nat with (Z.to_nat (3 - level)) in Hs
    by (unfold this_level in Hlv, Hlen; lia).
  exists tb. split; [exact Hs|]. cbv zeta.
  unfold skip_non_live_entries. rewrite mapping_size_pow2 by lia. mstep.
  assert (0 <= level_shift level <= 39) as Hsh by (unfold level_shift; lia).
  rewrite mask_down_pow2 by (unfold Word.in_range, Word.modulus; lia).
  rewrite Hal, Z.sub_0_r, Z.eqb_refl. cbn [negb].
  unfold level_space_size, s2_table. mstep. rewrite Ht. cbn [unwrap]. mstep.
  rewrite space_size_below by (done || lia). mstep. rewrite Ht. cbn [unwrap]. mstep.
  erewrite bind_ok by exact He. cbv beta iota. unfold mret, M_ret. do 2 f_equal.
  assert (level_shift (level - 1) = level_shift level + 9) as Hp by (unfold level_shift; lia).
  rewrite mask_down_pow2 by (unfold Word.in_range, Word.modulus; lia).
  rewrite Hp, Z.pow_add_r by lia. change (2 ^ 9) with 512.
  assert (0 < 2 ^ level_shift level <= 2 ^ 39) as Hms.
  { split; [apply Z.pow_pos_nonneg; lia|apply Z.pow_le_mono_r; lia]. }
  set (ms := 2 ^ level_shift level) in *.
  pose proof (Z.mod_pos_bound (ipa / ms) 512 ltac:(lia)) as Hi.
  assert (ipa = ms * (ipa / ms)) as Hd by (apply Z.div_exact; lia).
  assert (ipa mod (ms * 512) = ms * ((ipa / ms) mod 512)) as Hmod.
  { rewrite Hd at 1. by rewrite Z.mul_mod_distr_l by lia. }
  assert (0 <= ipa - ipa mod (ms * 512)) by (pose proof (Z.mod_le ipa (ms * 512)); lia).
  apply skip_loop_spec; [lia|done| | |].
  - rewrite Z2Nat.id by lia. lia.
  - rewrite table_words_length. change (Z.to_nat (TABLE_SIZE / ENTRY_SIZE)) with 512%nat. lia.
  - rewrite table_words_length. change (Z.to_nat (TABLE_SIZE / ENTRY_SIZE)) with 512%nat.
    unfold Word.modulus. lia.
Qed.

Lemma entry_index_below level ipa :
  1 <= level <= 3 -> 0 <= ipa < 2 ^ 48 ->
  entry_index level TABLE_SIZE (base_page ipa) = Ok (ipa / 2 ^ level_shift level mod 512).
Proof.
  intros Hl Hi. assert (level = 1 \/ level = 2 \/ level = 3) as Hc by lia.
  destruct Hc as [-> |[-> | ->]]; unfold entry_index; simpl;
    unfold RawGPA.L1Index, RawGPA.L2Index, RawGPA.L3Index; by rewrite base_page_field by lia.
Qed.

Lemma table_words_slot level tb ipa b s :
  1 <= level <= 3 -> 0 <= ipa < 2 ^ 48 ->
  slot (Z.to_nat (3 - level)) tb TABLE_SIZE (base_page ipa) = Ok b ->
  table_words tb TABLE_SIZE s !! Z.to_nat (ipa / 2 ^ level_shift level mod 512)
  = Some (read_word b s).
Proof.
  intros Hl Hi. unfold slot. replace (this_level (Z.to_nat (3 - level))) with level
    by (unfold this_level; lia).
  simpl e_index. rewrite entry_index_below by done. simpl mbind.
  pose proof (Z.mod_pos_bound (ipa / 2 ^ level_shift level) 512 ltac:(lia)) as Hb.
  set (k := ipa / 2 ^ level_shift level mod 512) in *.
  change (TABLE_SIZE / ENTRY_SIZE) with 512. rewrite (proj2 (Z.ltb_lt k 512)) by lia.
  intros [= <-]. unfold table_words. rewrite list_lookup_fmap.
  change (TABLE_SIZE / ENTRY_SIZE) with 512. rewrite lookup_seq_lt by lia. simpl fmap.
  by rewrite Z2Nat.id by lia.
Qed.

(** The slot of an address in its table, and the entries from there on. *)
Lemma slot_below level tb ipa b :
  1 <= level <= 3 -> 0 <= ipa < 2 ^ 48 ->
  slot (Z.to_nat (3 - level)) tb TABLE_SIZE (base_page ipa) = Ok b ->
  b = tb + ENTRY_SIZE * (ipa / 2 ^ level_shift level mod 512).
Proof.
  intros Hl Hi. unfold slot. replace (this_level (Z.to_nat (3 - level))) with level
    by (unfold this_level; lia).
  simpl e_index. rewrite entry_index_below by done. simpl mbind. case_match; [|done].
  by intros [= <-].
Qed.

Lemma table_words_from tb i j s :
  (i + j < 512)%nat ->
  drop i (table_words tb TABLE_SIZE s) !! j
  = Some (read_word (tb + ENTRY_SIZE * (Z.of_nat i + Z.of_nat j)) s).
Proof.
  intros Hj. rewrite lookup_drop. unfold table_words. rewrite list_lookup_fmap.
  change (Z.to_nat (TABLE_SIZE / ENTRY_SIZE)) with 512%nat. rewrite lookup_seq_lt by lia.
  simpl fmap. by rewrite Nat2Z.inj_add.
Qed.

(** [top] is the address of the first live entry of the table at or after
    [ipa], whose entry is at [b], or the end of the table when there is none. *)
Definition next_live (s : rmm) (b ipa level top : Z) : Prop :=
  let ms := 2 ^ level_shift level in
  let i := ipa / ms mod 512 in
  exists k, 0 <= k <= 512 - i /\ top = ipa + k * ms /\
    (forall j, 0 <= j < k -> is_live (read_word (b + ENTRY_SIZE * j) s) = false) /\
    (i + k < 512 -> is_live (read_word (b + ENTRY_SIZE * k) s) = true).

Lemma skip_next_live rd s t ipa level pre b :
  reaches rd s t ipa level pre b -> root_level t < level ->
  0 <= ipa < 2 ^ 48 -> ipa mod 2 ^ level_shift level = 0 ->
  exists top, skip_non_live_entries rd ipa level s = (Ok top, s) /\ next_live s b ipa level top.
Proof.
  intros Hr Hroot Hi Hal. pose proof (root_level_range t (reach_wf _ _ _ _ _ _ _ Hr)).
  pose proof (reach_level _ _ _ _ _ _ _ Hr).
  destruct (skip_below_root rd s t ipa level pre b) as (tb & Hs & Hskip); [done..|].
  cbv zeta in Hskip. eexists. split; [exact Hskip|].
  apply slot_below in Hs as ->; [|lia|done]. unfold next_live. cbv zeta.
  pose proof (Z.mod_pos_bound (ipa / 2 ^ level_shift level) 512 ltac:(lia)) as Hb.
  set (i := ipa / 2 ^ level_shift level mod 512) in *.
  set (es := drop (Z.to_nat i) (table_words tb TABLE_SIZE s)).
  destruct (non_live_run_spec es) as (Hd & Hl & Hn).
  assert (length es = 512 - Z.to_nat i)%nat as Hlen.
  { unfold es. rewrite length_drop, table_words_length.
    by change (Z.to_nat (TABLE_SIZE / ENTRY_SIZE)) with 512%nat. }
  assert (forall j, (Z.to_nat i + j < 512)%nat ->
    es !! j = Some (read_word (tb + ENTRY_SIZE * i + ENTRY_SIZE * Z.of_nat j) s)) as He.
  { intros j Hj. unfold es. rewrite table_words_from by lia. do 2 f_equal. unfold ENTRY_SIZE. lia. }
  exists (Z.of_nat (non_live_run es)). split_and!; [lia|lia|done| |].
  - intros j Hj. apply (Hd (Z.to_nat j)); [|lia]. rewrite He, Z2Nat.id by lia. done.
  - intros Hk. apply Hl. rewrite He by lia. done.
Qed.

Lemma next_live_past s b ipa level top :
  next_live s b ipa level top -> is_live (read_word b s) = false -> 1 <= level <= 3 ->
  ipa + 2 ^ level_shift level <= top.
Proof.
  intros (k & Hk & -> & _ & Hl) Hb Hlv.
  assert (0 < 2 ^ level_shift level) by (apply Z.pow_pos_nonneg; unfold level_shift; lia).
  pose proof (Z.mod_pos_bound (ipa / 2 ^ level_shift level) 512 ltac:(lia)).
  destruct (decide (k = 0)) as [->|]; [|nia].
  rewrite Z.mul_0_r, !Z.add_0_r in Hl. rewrite Hl in Hb by lia. done.
Qed.

(** Any entry: the address returned is not below the one asked for. *)
Lemma skip_returns rd s t ipa level pre b :
  reaches rd s t ipa level pre b -> root_level t < level ->
  0 <= ipa < 2 ^ 48 -> ipa mod 2 ^ level_shift level = 0 ->
  exists top, skip_non_live_entries rd ipa level s = (Ok top, s) /\ ipa <= top.
Proof.
  intros Hr Hroot Hi Hal.
  destruct (skip_below_root rd s t ipa level pre b) as (tb & _ & Hskip); [done..|].
  cbv zeta in Hskip. eexists. split; [exact Hskip|].
  assert (0 <= 2 ^ level_shift level) by (apply Z.pow_nonneg; lia). nia.
Qed.
End skip.
