(* ===== verification/SampleRealm.v ===== *)
(** * A concrete realm

    A realm with VMID 5, a 39-bit address space and a level-1 root table at
    0x80001000. Address 0 has tables down to level 3 (0x80002000, 0x80003000),
    the unprotected address 2^38 one at level 2 (0x80005000). *)

From S2P Require Import Prelude Bytes Bits Vmsa RmiTypes Granule S2tte Objects Machine PageTable Stage2 Stage2Facts Measurement Rtt RttFacts Sample.

Definition sample_s2 : Stage2Translation := mkStage2 0x80001000 1 1 false.
Definition sample_realm : Rd.t :=
  Rd.mk 5 New 0x80001000 1 39 0 1 0 (zero_bytes 64) (replicate 5 Measurement_empty) 0 None
    (SimdConfig.mk false 0 false).

Definition sample_root : Z -> Z := fun i => if i =? 0 then 0x80002003 else if i =? 256 then 0x80005003 else 0.
Definition sample_l2 : Z -> Z := fun i => if i =? 0 then 0x80003003 else 0.

(** The descriptor is at 0x80000000. *)
Definition sample_tables : rmm :=
  set_rtt_tables {[5 := sample_s2]}
    (set_gst (fun i => if i =? 0 then mkGranule GranuleState.RD 0
                       else if i <=? 3 then mkGranule GranuleState.RTT 0
                       else if i =? 4 then mkGranule GranuleState.Delegated 0
                       else if i =? 5 then mkGranule GranuleState.RTT 0
                       else Granule_new)
    (write_page 0x80000000 (CRd sample_realm)
    (write_page 0x80001000 (CTable sample_root)
    (write_page 0x80002000 (CTable sample_l2)
    (write_page 0x80003000 (CTable (fun _ => 0))
    (write_page 0x80005000 (CTable (fun _ => 0)) sample_boot)))))).

Lemma sample_s2_wf : s2_wf sample_s2.
Proof. by repeat split. Qed.

(** Address 0 resolves at level 3, 2^38 at level 2 and the next gigabyte at
    level 1. *)
Lemma sample_reaches_l3 :
  reaches sample_realm sample_tables sample_s2 0 3 [0x80001000; 0x80002000] 0x80003000.
Proof.
  split; [reflexivity|apply sample_s2_wf|lia|vm_compute; reflexivity|].
  rewrite !elem_of_cons, elem_of_nil. lia.
Qed.

Lemma sample_reaches_l2 :
  reaches sample_realm sample_tables sample_s2 (2 ^ 38) 2 [0x80001800] 0x80005000.
Proof.
  split; [reflexivity|apply sample_s2_wf|lia|vm_compute; reflexivity|].
  rewrite !elem_of_cons, elem_of_nil. lia.
Qed.

Lemma sample_reaches_l1 :
  reaches sample_realm sample_tables sample_s2 (2 ^ 38 + 2 ^ 30) 1 [] 0x80001808.
Proof.
  split; [reflexivity|apply sample_s2_wf|lia|vm_compute; reflexivity|].
  apply not_elem_of_nil.
Qed.

(** The descriptor of the level-2 table of 2^38, in the root. *)
Lemma sample_reaches_root :
  reaches sample_realm sample_tables sample_s2 (2 ^ 38) 1 [] 0x80001800.
Proof.
  split; [reflexivity|apply sample_s2_wf|lia|vm_compute; reflexivity|].
  apply not_elem_of_nil.
Qed.

(** The same realm with a full tree of level-3 tables below address 0. *)
Definition sample_full : rmm :=
  write_page 0x80002000 (CTable (fun i => 0x80010003 + 4096 * i)) sample_tables.

Lemma sample_reaches_full :
  reaches sample_realm sample_full sample_s2 0 1 [] 0x80001000.
Proof.
  split; [reflexivity|apply sample_s2_wf|lia|vm_compute; reflexivity|].
  apply not_elem_of_nil.
Qed.
