(* ===== verification/RttTheorems.v ===== *)
(** * Correctness of the table operations

    The contracts of realm/mm/rtt.rs against what the host observes with
    RTT_READ_ENTRY and what the realm's accesses translate to. *)

From S2P Require Import Prelude Bytes Bits Vmsa RmiTypes Granule S2tte Objects Machine PageTable Stage2 Stage2Facts Measurement Rtt RttFacts RmiRtt Guards Sample SampleRealm.

Section rtt_theorems.
Context `{Platform}.

Lemma read_entry_run rd s t ipa level pre b :
  reaches rd s t ipa level pre b ->
  read_entry rd ipa level s
  = (let e := read_word b s in
     let ripas := get_masked_value e S2TTE.INVALID_RIPAS in
     if is_unassigned e then Ok [level; Rmi.RMI_UNASSIGNED; 0; ripas]
     else if is_assigned e then
       r3 ← addr_as_block e level; Ok [level; Rmi.RMI_ASSIGNED; r3; ripas]
     else if is_table e level then
       Ok [level; Rmi.RMI_TABLE; get_masked e S2TTE.ADDR_TBL_OR_PAGE; 0]
     else if is_assigned_ram e level then
       r3 ← addr_as_block e level; Ok [level; Rmi.RMI_ASSIGNED; r3; invalid_ripas.RAM]
     else if is_unassigned_ns e then Ok [level; Rmi.RMI_UNASSIGNED; 0; 0]
     else if is_assigned_ns e level then
       addr_mask ← ok_or (level_mask level) (RmiErrorRtt 0);
       Ok [level; Rmi.RMI_ASSIGNED;
           get_masked e (Z.lor (Z.lor (Z.lor addr_mask S2TTE.MEMATTR) S2TTE.S2AP) S2TTE.SH); 0]
     else Ok [level; 0; 0; 0], s).
Proof.
  intros Hr. unfold read_entry. erewrite bind_ok by (by eapply reaches_get). cbv beta iota zeta.
  repeat case_match; try done; unfold mbind, M_bind, lift; simpl;
    repeat case_match; by simplify_eq/=.
Qed.

(** An entry written through [ipa_to_pte_set] is what a later walk to the
    same address and level reads, and the entries other addresses resolve to
    (through paths that do not pass the written entry) keep their value. *)
Theorem pte_set_get rd s t ipa level pre b v i e :
  reaches rd s t ipa level pre b ->
  let s' := after_set rd t ipa level b v i s in
  s2_pte_set rd ipa level v i s = (Ok tt, s') /\
  get_s2tte rd ipa level e s' = (Ok (v, level), s') /\
  (forall ipa' level' pre' b', reaches rd s t ipa' level' pre' b' ->
     b ∉ pre' -> b <> b' ->
     get_s2tte rd ipa' level' e s' = (Ok (read_word b' s, level'), s')).
Proof.
  intros Hr s'. split_and!.
  - by apply reaches_set with (pre := pre).
  - erewrite reaches_get by (by apply reaches_after_set). unfold s'. by rewrite after_set_read.
  - intros ipa' level' pre' b' Hr' Hb Hbb.
    destruct (reaches_frame _ _ _ _ _ _ _ v i _ _ _ _ Hr Hr' Hb Hbb) as [Hf Hread].
    erewrite reaches_get by exact Hf. unfold s'. by rewrite Hread.
Qed.

Lemma unassigned_not_invalid_ripas e : is_unassigned e = true -> is_invalid_ripas e = false.
Proof.
  unfold is_unassigned, is_invalid_ripas. rewrite !andb_true_iff. intros [[-> _] _]. done.
Qed.

Lemma ripas_range e : 0 <= get_ripas e < 4.
Proof. apply (get_masked_value_range e 6 5). lia. Qed.

(** What [read_entry] reports for the entries [data_create] writes. *)
Lemma read_data_entry rd s t ipa pre b pa ripas unknown :
  reaches rd s t ipa 3 pre b -> page_addr pa -> 0 <= ripas < 4 ->
  read_word b s = data_s2tte pa ripas unknown ->
  read_entry rd ipa 3 s
  = (Ok [3; Rmi.RMI_ASSIGNED; pa; if unknown then ripas else invalid_ripas.RAM], s).
Proof.
  intros Hr Hpa Hrip He. erewrite read_entry_run by exact Hr. cbv zeta. rewrite He.
  destruct (decide (unknown = true /\ ripas <> invalid_ripas.RAM)) as [[-> Hn]|Hn].
  - rewrite data_s2tte_unknown by done.
    rewrite page_entry_unassigned, page_entry_assigned by done.
    rewrite page_entry_field by done.
    assert (ripas = 0 \/ ripas = 2 \/ ripas = 3) as Hc
      by (unfold invalid_ripas.RAM in Hn; lia).
    destruct Hc as [-> |[-> | ->]]; rewrite page_entry_addr by done; reflexivity.
  - rewrite data_s2tte_ram by (intros ->; destruct (decide (ripas = invalid_ripas.RAM)); tauto).
    rewrite page_entry_unassigned, page_entry_assigned, page_entry_assigned_ram by done.
    rewrite page_entry_addr by done. unfold is_table. simpl.
    destruct unknown; [|done].
    destruct (decide (ripas = invalid_ripas.RAM)) as [-> |]; [done|tauto].
Qed.

(** C7: [data_create] maps a page only at an unassigned level-3 entry: with a
    shorter walk or another entry it reports the level and changes nothing;
    on success only that entry changes, and RTT_READ_ENTRY then reports it
    assigned to exactly the target page, with RIPAS RAM (or, for
    DATA_CREATE_UNKNOWN, the RIPAS it had before). *)
Theorem data_create_spec rd s t ipa pa unknown pre b l :
  rtt_tables s !! Rd.id rd = Some t -> s2_wf t ->
  s2_walk t s ipa 3 = Ok (pre, b, l) -> b ∉ pre -> page_addr pa ->
  let e := read_word b s in
  if negb (l =? 3) then data_create rd ipa pa unknown s = (Err (RmiErrorRtt l), s)
  else if negb (is_unassigned e) then data_create rd ipa pa unknown s = (Err (RmiErrorRtt 3), s)
  else
    let s' := after_set rd t ipa 3 b (data_s2tte pa (get_ripas e) unknown) NONE s in
    data_create rd ipa pa unknown s = (Ok tt, s') /\
    read_entry rd ipa 3 s'
    = (Ok [3; Rmi.RMI_ASSIGNED; pa; if unknown then get_ripas e else invalid_ripas.RAM], s').
Proof.
  intros Ht Hwf Hw Hf Hpa e. unfold data_create.
  erewrite bind_ok by (by eapply get_s2tte_walk). cbv beta iota. unfold RTT_PAGE_LEVEL.
  rewrite (Z.eqb_sym 3 l). destruct (Z.eqb_spec l 3) as [-> |Hl]; cbn [negb]; [|done].
  fold e. destruct (is_unassigned e) eqn:Hu; cbn [negb]; [|done].
  rewrite unassigned_not_invalid_ripas by done.
  assert (reaches rd s t ipa 3 pre b) as Hr by done. split.
  - by apply reaches_set with (pre := pre).
  - eapply read_data_entry; [by apply reaches_after_set|done|apply ripas_range|].
    by rewrite after_set_read.
Qed.

(** The entry [data_destroy] leaves behind. *)
Definition destroyed_entry (e : Z) : Z :=
  if is_assigned_ram e 3
  then bits_in_reg S2TTE.INVALID_RIPAS invalid_ripas.DESTROYED
  else get_masked e S2TTE.INVALID_RIPAS.

Lemma destroyed_entry_ripas e :
  get_ripas (destroyed_entry e)
  = (if is_assigned_ram e 3 then invalid_ripas.DESTROYED else get_ripas e).
Proof.
  unfold destroyed_entry. destruct (is_assigned_ram e 3); [done|].
  apply get_masked_value_masked.
Qed.

Lemma destroyed_entry_fields e m :
  Z.land S2TTE.INVALID_RIPAS m = 0 -> get_masked_value (destroyed_entry e) m = 0.
Proof.
  intros Hm. apply get_masked_value_zero. unfold destroyed_entry.
  destruct (is_assigned_ram e 3).
  - rewrite <- bits_in_reg_confined, <- Z.land_assoc, Hm. apply Z.land_0_r.
  - unfold get_masked. rewrite <- Z.land_assoc, Hm. apply Z.land_0_r.
Qed.

Lemma destroyed_entry_unassigned e : is_unassigned (destroyed_entry e) = true.
Proof. unfold is_unassigned. by rewrite !destroyed_entry_fields. Qed.

Lemma unassigned_not_live e : is_unassigned e = true -> is_live e = false.
Proof.
  unfold is_live, is_unassigned, is_assigned_empty, is_assigned_destroyed, is_assigned.
  rewrite !andb_true_iff, !Z.eqb_eq. intros [[-> ->] ->]. done.
Qed.

Lemma valid_assigned_ram e : is_valid e 3 false = is_assigned_ram e 3.
Proof.
  unfold is_valid, is_assigned_ram.
  destruct (get_masked_value e S2TTE.NS =? 0); simpl; [|done].
  by destruct (get_masked_value e S2TTE.DESC_TYPE =? desc_type.L3_PAGE).
Qed.

(** The invalidation that goes with it: only RAM can be in the TLBs. *)
Definition destroyed_tlbi (rd : Rd.t) (e : Z) : Tlbi :=
  if is_assigned_ram e 3 then LEAF (Rd.id rd) else NONE.

Lemma data_destroy_run rd s t ipa pre b f :
  reaches rd s t ipa 3 pre b -> 0 <= ipa < 2 ^ 48 -> ipa mod 2 ^ 12 = 0 ->
  let e := read_word b s in
  is_assigned_ram e 3 || is_assigned e = true ->
  let s' := after_set rd t ipa 3 b (destroyed_entry e) (destroyed_tlbi rd e) s in
  exists top, data_destroy rd ipa f s = (Ok (get_masked e S2TTE.ADDR_TBL_OR_PAGE, top), s') /\
    next_live s' b ipa 3 top.
Proof.
  intros Hr Hi Hal e Ha s'. pose proof (root_level_range t (reach_wf _ _ _ _ _ _ _ Hr)).
  assert (reaches rd s' (dirtied (destroyed_tlbi rd e) t) ipa 3 pre b) as Hr'
    by (by apply reaches_after_set).
  destruct (skip_next_live _ _ _ _ _ _ _ Hr') as (top & Hskip & Htop);
    [unfold dirtied; case_match; simpl; lia|done|done|].
  exists top. split; [|exact Htop].
  unfold data_destroy. erewrite bind_ok by (by eapply reaches_get). cbv beta iota zeta.
  unfold RTT_PAGE_LEVEL. rewrite Z.ltb_irrefl, valid_assigned_ram. fold e. cbn [orb].
  assert (negb (is_assigned_ram e 3) && negb (is_assigned e) = false) as ->
    by (destruct (is_assigned_ram e 3), (is_assigned e); done).
  change (addr_as_block e 3) with (Ok (E := Error) (get_masked e S2TTE.ADDR_TBL_OR_PAGE)).
  mstep. match goal with |- context [match ?p with (_, _) => _ end] =>
    replace p with (destroyed_entry e, destroyed_tlbi rd e)
      by (unfold destroyed_entry, destroyed_tlbi; by destruct (is_assigned_ram e 3)) end.
  erewrite bind_ok by (by eapply reaches_set). by erewrite bind_ok by exact Hskip.
Qed.

(** C8: [data_destroy] on a level-3 entry that maps a page (valid RAM, or
    assigned without being accessible) returns that page's address and the
    address of the next live entry of the table: the entries in between are
    not live and the one at that address is, or it is the end of the table.
    It leaves the entry unassigned: a page that was RAM becomes DESTROYED, so
    the realm cannot silently get a fresh page at that address; otherwise the
    RIPAS is kept. On any other entry it changes nothing and reports level 3
    after telling the host the next live address, in the same sense. *)
Theorem data_destroy_spec rd s t ipa pre b f :
  reaches rd s t ipa 3 pre b -> 0 <= ipa < 2 ^ 48 -> ipa mod 2 ^ 12 = 0 ->
  let e := read_word b s in
  if is_assigned_ram e 3 || is_assigned e then
    exists top, let s' := after_set rd t ipa 3 b (destroyed_entry e) (destroyed_tlbi rd e) s in
      data_destroy rd ipa f s = (Ok (get_masked e S2TTE.ADDR_TBL_OR_PAGE, top), s') /\
      ipa + 4096 <= top /\ next_live s' b ipa 3 top /\
      read_entry rd ipa 3 s'
      = (Ok [3; Rmi.RMI_UNASSIGNED; 0;
             if is_assigned_ram e 3 then invalid_ripas.DESTROYED else get_ripas e], s')
  else exists top, next_live s b ipa 3 top /\
      data_destroy rd ipa f s = (f top;; throw (RmiErrorRtt 3)) s.
Proof.
  intros Hr Hi Hal e. pose proof (root_level_range t (reach_wf _ _ _ _ _ _ _ Hr)).
  destruct (is_assigned_ram e 3 || is_assigned e) eqn:Ha.
  - destruct (data_destroy_run rd s t ipa pre b f Hr Hi Hal Ha) as (top & Hd & Htop).
    fold e in Hd, Htop. exists top. cbv zeta. split_and!; [exact Hd| |exact Htop|].
    + apply (next_live_past _ _ _ _ _ Htop); [|lia]. rewrite after_set_read.
      apply unassigned_not_live, destroyed_entry_unassigned.
    + erewrite read_entry_run by (by apply reaches_after_set). cbv zeta. rewrite after_set_read.
      rewrite destroyed_entry_unassigned. fold (get_ripas (destroyed_entry e)).
      by rewrite destroyed_entry_ripas.
  - unfold data_destroy. erewrite bind_ok by (by eapply reaches_get). cbv beta iota zeta.
    unfold RTT_PAGE_LEVEL. rewrite Z.ltb_irrefl, valid_assigned_ram. fold e. cbn [orb].
    assert (negb (is_assigned_ram e 3) && negb (is_assigned e) = true) as ->
      by (destruct (is_assigned_ram e 3), (is_assigned e); done).
    destruct (skip_next_live rd s t ipa 3 pre b) as (top & Hskip & Htop); [done|lia|done|done|].
    exists top. split; [done|]. by erewrite bind_ok by exact Hskip.
Qed.

(** ** Unprotected mappings *)
Definition host_mask (level : Z) : Z :=
  Z.lor (Z.lor (Z.lor (default 0 (level_mask level)) S2TTE.MEMATTR) S2TTE.S2AP) S2TTE.SH.

Lemma host_ns_confined h level :
  Word.in_range h -> level = 1 \/ level = 2 \/ level = 3 -> is_host_ns_valid h level = true ->
  Z.land h (host_mask level) = h.
Proof.
  intros Hh Hl Hv. apply land_not_confined; [done|].
  assert (is_host_ns_valid h level = true ->
          Z.land h (Word.not (host_mask level)) = 0) as Hm; [|by apply Hm].
  unfold is_host_ns_valid. destruct Hl as [-> |[-> | ->]]; simpl;
    (match goal with |- context [Z.land h (Word.not ?m) =? 0] =>
       destruct (Z.eqb_spec (Z.land h (Word.not m)) 0) as [Hz|]; [|done] end);
    intros _; (etransitivity; [|exact Hz]); do 2 f_equal; vm_compute; done.
Qed.

(** What is read out of the entry [map_unprotected] writes. *)
Lemma unprotected_entry h level (e := Z.lor h (unprotected_attr level)) :
  Word.in_range h -> level = 1 \/ level = 2 \/ level = 3 -> is_host_ns_valid h level = true ->
  get_masked_value e S2TTE.NS = 1 /\
  get_masked_value e S2TTE.DESC_TYPE = (if level =? 3 then 3 else 1) /\
  get_masked e (host_mask level) = h.
Proof.
  intros Hh Hl Hv. pose proof (host_ns_confined h level Hh Hl Hv) as Hc. unfold e.
  assert (Z.land (host_mask level) S2TTE.NS = 0 /\ Z.land (host_mask level) S2TTE.DESC_TYPE = 0 /\
          Z.land (unprotected_attr level) (host_mask level) = 0) as (Hns & Hd & Ha)
    by (destruct Hl as [-> |[-> | ->]]; vm_compute; done).
  rewrite !get_masked_value_lor, get_masked_lor.
  rewrite (get_masked_value_disjoint h _ _ Hc Hns), (get_masked_value_disjoint h _ _ Hc Hd).
  unfold get_masked. rewrite Hc, Ha, Z.lor_0_r.
  destruct Hl as [-> |[-> | ->]]; vm_compute; done.
Qed.

Lemma map_unprotected_run rd s t ipa level h pre b :
  reaches rd s t ipa level pre b ->
  map_unprotected rd ipa level h s =
  (if Rd.addr_in_par rd ipa then (Err RmiErrorInput, s)
   else if negb (is_unassigned (read_word b s)) then (Err (RmiErrorRtt level), s)
   else (Ok tt, after_set rd t ipa level b (Z.lor h (unprotected_attr level))
                  (LEAF (Rd.id rd)) s)).
Proof.
  intros Hr. unfold map_unprotected. destruct (Rd.addr_in_par rd ipa); [done|].
  erewrite bind_ok by (by eapply reaches_get). cbv beta iota.
  rewrite Z.eqb_refl. cbn [negb]. destruct (is_unassigned _); cbn [negb]; [|done].
  by apply reaches_set with (pre := pre).
Qed.

(** RTT_MAP_UNPROTECTED at level 2 or 3 refuses a protected address and an
    entry that is not unassigned, without any effect; otherwise the entry
    becomes a non-secure mapping that RTT_READ_ENTRY reports back as exactly
    the descriptor the host supplied. *)
Theorem map_unprotected_spec rd s t ipa level h pre b :
  reaches rd s t ipa level pre b -> level = 2 \/ level = 3 ->
  Word.in_range h -> is_host_ns_valid h level = true ->
  if Rd.addr_in_par rd ipa then map_unprotected rd ipa level h s = (Err RmiErrorInput, s)
  else if negb (is_unassigned (read_word b s))
  then map_unprotected rd ipa level h s = (Err (RmiErrorRtt level), s)
  else
    let s' := after_set rd t ipa level b (Z.lor h (unprotected_attr level)) (LEAF (Rd.id rd)) s in
    map_unprotected rd ipa level h s = (Ok tt, s') /\
    read_entry rd ipa level s' = (Ok [level; Rmi.RMI_ASSIGNED; h; 0], s').
Proof.
  intros Hr Hl Hh Hv. rewrite (map_unprotected_run _ _ _ _ _ _ _ _ Hr).
  destruct (Rd.addr_in_par rd ipa); [done|]. destruct (is_unassigned _); cbn [negb]; [|done].
  split; [done|]. erewrite read_entry_run by (by apply reaches_after_set).
  cbv zeta. rewrite after_set_read.
  destruct (unprotected_entry h level Hh ltac:(lia) Hv) as (Hns & Hd & Hm).
  unfold is_unassigned, is_assigned, is_table, is_assigned_ram, is_unassigned_ns, is_assigned_ns.
  rewrite Hns, Hd. unfold host_mask in Hm.
  destruct Hl as [-> | ->]; simpl in Hm |- *; by rewrite Hm.
Qed.

(** a level-1 unprotected mapping is accepted (the host's descriptor is
    valid for level 1) but is not recognised afterwards: RTT_READ_ENTRY
    reports the entry as unassigned although it is a live non-secure block,
    and RTT_UNMAP_UNPROTECTED refuses level 1, so the mapping can never be
    removed. *)
Theorem map_unprotected_level1_stuck rd s t ipa h pre b f :
  reaches rd s t ipa 1 pre b -> Word.in_range h -> is_host_ns_valid h 1 = true ->
  Rd.addr_in_par rd ipa = false -> is_unassigned (read_word b s) = true ->
  let s' := after_set rd t ipa 1 b (Z.lor h (unprotected_attr 1)) (LEAF (Rd.id rd)) s in
  map_unprotected rd ipa 1 h s = (Ok tt, s') /\
  is_live (read_word b s') = true /\
  read_entry rd ipa 1 s' = (Ok [1; Rmi.RMI_UNASSIGNED; 0; 0], s') /\
  (forall rd_addr s'', fst (rtt_unmap_unprotected [rd_addr; ipa; 1; f] s'') <> Ok tt).
Proof.
  intros Hr Hh Hv Hp Hu s'.
  destruct (unprotected_entry h 1 Hh ltac:(lia) Hv) as (Hns & Hd & _). split_and!.
  - rewrite (map_unprotected_run _ _ _ _ _ _ _ _ Hr). by rewrite Hp, Hu.
  - unfold s'. rewrite after_set_read. unfold is_live. by rewrite Hd.
  - unfold s'. erewrite read_entry_run by (by apply reaches_after_set). cbv zeta.
    rewrite after_set_read.
    unfold is_unassigned, is_assigned, is_table, is_assigned_ram, is_unassigned_ns, is_assigned_ns.
    by rewrite Hns, Hd.
  - intros rd_addr s'' Hok. unfold rtt_unmap_unprotected in Hok.
    rewrite (bind_argn _ 0 rd_addr) in Hok by done.
    destruct (with_granule_if _ _ _ s'') as [r s3] eqn:Ew. simpl in Hok. subst r.
    apply with_granule_if_ok_inv in Ew as (_ & _ & _ & s1 & Hk & _).
    revert Hk. mstep. rewrite (bind_argn _ 1 ipa) by done.
    by rewrite (bind_argn _ 2 1) by done.
Qed.
End rtt_theorems.

(** ** Witnesses *)
Lemma pte_set_get_witness :
  let s' := after_set sample_realm sample_s2 0 3 0x80003000 0x41 NONE sample_tables in
  get_s2tte sample_realm 0 3 RmiErrorInput s' = (Ok (0x41, 3), s') /\
  get_s2tte sample_realm (2 ^ 38 + 2 ^ 30) 1 RmiErrorInput s'
  = (Ok (read_word 0x80001808 sample_tables, 1), s').
Proof.
  destruct (pte_set_get sample_realm sample_tables sample_s2 0 3 _ _ 0x41 NONE RmiErrorInput
              sample_reaches_l3) as (_ & Hget & Hframe).
  split; [exact Hget|].
  apply (Hframe (2 ^ 38 + 2 ^ 30) 1 [] 0x80001808 sample_reaches_l1); [|done].
  apply not_elem_of_nil.
Defined.

Lemma data_create_spec_witness :
  let s' := after_set sample_realm sample_s2 0 3 0x80003000
              (data_s2tte 0x80004000 invalid_ripas.EMPTY false) NONE sample_tables in
  data_create sample_realm 0 0x80004000 false sample_tables = (Ok tt, s') /\
  read_entry sample_realm 0 3 s' = (Ok [3; Rmi.RMI_ASSIGNED; 0x80004000; invalid_ripas.RAM], s').
Proof.
  exact (data_create_spec sample_realm sample_tables sample_s2 0 0x80004000 false _ _ 3
    (reach_table _ _ _ _ _ _ _ sample_reaches_l3) sample_s2_wf
    (reach_walk _ _ _ _ _ _ _ sample_reaches_l3) (reach_fresh _ _ _ _ _ _ _ sample_reaches_l3)
    (page_addr_intro 0x80004000 ltac:(lia) eq_refl)).
Defined.

Lemma data_destroy_spec_witness :
  let s := after_set sample_realm sample_s2 0 3 0x80003000
             (data_s2tte 0x80004000 invalid_ripas.EMPTY false) NONE sample_tables in
  exists top, let s' := after_set sample_realm sample_s2 0 3 0x80003000
                          (destroyed_entry (read_word 0x80003000 s))
                          (destroyed_tlbi sample_realm (read_word 0x80003000 s)) s in
    data_destroy sample_realm 0 (fun _ => mret tt) s
    = (Ok (get_masked (read_word 0x80003000 s) S2TTE.ADDR_TBL_OR_PAGE, top), s') /\
    0 + 4096 <= top /\ next_live s' 0x80003000 0 3 top /\
    read_entry sample_realm 0 3 s' = (Ok [3; Rmi.RMI_UNASSIGNED; 0; invalid_ripas.DESTROYED], s').
Proof.
  intros s.
  assert (reaches sample_realm s sample_s2 0 3 [0x80001000; 0x80002000] 0x80003000) as Hr
    by (apply (reaches_after_set sample_realm sample_tables sample_s2), sample_reaches_l3).
  pose proof (data_destroy_spec sample_realm s sample_s2 0 _ _ (fun _ => mret tt) Hr
                ltac:(lia) eq_refl) as Hd.
  cbv zeta in Hd.
  assert (is_assigned_ram (read_word 0x80003000 s) 3 = true) as Hram by (vm_compute; reflexivity).
  rewrite Hram in Hd. exact Hd.
Defined.

Lemma map_unprotected_spec_witness :
  let s' := after_set sample_realm sample_s2 (2 ^ 38) 2 0x80005000
              (Z.lor 0x8800003d8 (unprotected_attr 2)) (LEAF 5) sample_tables in
  map_unprotected sample_realm (2 ^ 38) 2 0x8800003d8 sample_tables = (Ok tt, s') /\
  read_entry sample_realm (2 ^ 38) 2 s' = (Ok [2; Rmi.RMI_ASSIGNED; 0x8800003d8; 0], s').
Proof.
  pose proof (map_unprotected_spec sample_realm sample_tables sample_s2 (2 ^ 38) 2 0x8800003d8 _ _
    sample_reaches_l2 (or_introl eq_refl) ltac:(unfold Word.in_range, Word.modulus; lia)
    ltac:(vm_compute; reflexivity)) as Hm.
  assert (Rd.addr_in_par sample_realm (2 ^ 38) = false) as Hp by (vm_compute; reflexivity).
  assert (is_unassigned (read_word 0x80005000 sample_tables) = true) as Hu
    by (vm_compute; reflexivity).
  rewrite Hp, Hu in Hm. exact Hm.
Defined.

Lemma map_unprotected_level1_stuck_witness :
  let s' := after_set sample_realm sample_s2 (2 ^ 38 + 2 ^ 30) 1 0x80001808
              (Z.lor 0x880000000 (unprotected_attr 1)) (LEAF 5) sample_tables in
  map_unprotected sample_realm (2 ^ 38 + 2 ^ 30) 1 0x880000000 sample_tables = (Ok tt, s') /\
  read_entry sample_realm (2 ^ 38 + 2 ^ 30) 1 s' = (Ok [1; Rmi.RMI_UNASSIGNED; 0; 0], s').
Proof.
  destruct (map_unprotected_level1_stuck sample_realm sample_tables sample_s2 (2 ^ 38 + 2 ^ 30) 0x880000000
    _ _ 0 sample_reaches_l1 ltac:(unfold Word.in_range, Word.modulus; lia)
    ltac:(vm_compute; reflexivity) ltac:(vm_compute; reflexivity) ltac:(vm_compute; reflexivity))
    as (Hmap & _ & Hread & _).
  split; [exact Hmap|exact Hread].
Defined.
