(* ===== verification/RttTree.v ===== *)
(** * Growing and shrinking a realm's table tree

    RTT_CREATE replaces an entry by a table whose entries say the same of each
    part of the block, RTT_FOLD replaces a homogeneous table by one entry, and
    RTT_DESTROY removes a table that maps nothing (rmm/src/realm/mm/rtt.rs,
    [create], [fold], [destroy]). *)

From S2P Require Import Prelude Bytes Bits Vmsa RmiTypes Granule S2tte Objects Machine PageTable Stage2 Stage2Facts Measurement Rtt RttFacts RmiRtt Guards Sample SampleRealm.

(** ** Block addresses *)
Lemma block_addr_intro pa lo :
  0 <= lo <= 47 -> 0 <= pa < 2 ^ 48 -> pa mod 2 ^ lo = 0 -> Z.land pa (define_mask 47 lo) = pa.
Proof.
  intros Hlo Hr Hm. apply Z.bits_inj'. intros i Hi. rewrite Z.land_spec, define_mask_spec by lia.
  destruct (decide (i < lo)) as [Hl|Hl].
  - rewrite (proj2 (Z.leb_gt lo i)) by lia. rewrite andb_false_r. symmetry.
    rewrite (Z.div_mod pa (2 ^ lo)) by (apply Z.pow_nonzero; lia). rewrite Hm, Z.add_0_r, Z.mul_comm.
    by apply Z.mul_pow2_bits_low.
  - destruct (decide (i <= 47)).
    + rewrite (proj2 (Z.leb_le lo i)), (proj2 (Z.leb_le i 47)) by lia. apply andb_true_r.
    + symmetry. rewrite (proj2 (Z.leb_gt i 47)), !andb_false_r by lia.
      destruct (decide (pa = 0)) as [-> |]; [apply Z.bits_0|].
      apply Z.bits_above_log2; [lia|]. assert (Z.log2 pa < 48) by (apply Z.log2_lt_pow2; lia). lia.
Qed.

Lemma masked_block e lo :
  0 <= lo <= 47 ->
  0 <= get_masked e (define_mask 47 lo) < 2 ^ 48 /\ get_masked e (define_mask 47 lo) mod 2 ^ lo = 0.
Proof.
  intros Hlo. unfold get_masked.
  assert (Z.land e (define_mask 47 lo) = (e / 2 ^ lo) mod 2 ^ (48 - lo) * 2 ^ lo) as ->.
  { apply Z.bits_inj'. intros i Hi. rewrite Z.land_spec, define_mask_spec by lia.
    rewrite Z.mul_pow2_bits by lia. destruct (decide (i < lo)) as [Hl|Hl].
    { rewrite (proj2 (Z.leb_gt lo i)), (Z.testbit_neg_r _ (i - lo)) by lia. apply andb_false_r. }
    rewrite (proj2 (Z.leb_le lo i)) by lia. destruct (decide (i <= 47)).
    - rewrite Z.mod_pow2_bits_low, Z.div_pow2_bits by lia.
      rewrite (proj2 (Z.leb_le i 47)) by lia. rewrite andb_true_r. f_equal. lia.
    - rewrite Z.mod_pow2_bits_high by lia. rewrite (proj2 (Z.leb_gt i 47)) by lia.
      apply andb_false_r. }
  pose proof (Z.mod_pos_bound (e / 2 ^ lo) (2 ^ (48 - lo)) ltac:(lia)) as Hb.
  assert (2 ^ 48 = 2 ^ (48 - lo) * 2 ^ lo) as Hp by (rewrite <- Z.pow_add_r by lia; f_equal; lia).
  assert (0 < 2 ^ lo) by lia.
  split; [rewrite Hp; nia|]. apply Z.mod_mul. lia.
Qed.

Lemma lor_add a b : Z.land a b = 0 -> Z.lor a b = a + b.
Proof. intros Hd. rewrite <- Z.lxor_lor by done. symmetry. by apply Z.add_nocarry_lxor. Qed.

(** The [k]-th part of the level-[l] block at [pa]. *)
Section parts.
Context (level pa k : Z) (Hl : 1 <= level <= 3) (Hk : 0 <= k < 512).
Context (Hpa : 0 <= pa < 2 ^ 48) (Hal : pa mod 2 ^ level_shift (level - 1) = 0).
Definition part : Z := pa + k * 2 ^ level_shift level.

Lemma part_range :
  0 <= part < 2 ^ 48 /\ part mod 2 ^ level_shift level = 0 /\ Word.wrap part = part.
Proof.
  assert (level_shift (level - 1) = level_shift level + 9) as Hp by (unfold level_shift; lia).
  rewrite Hp, Z.pow_add_r in Hal by (unfold level_shift; lia).
  assert (0 < 2 ^ level_shift level <= 2 ^ 30) as Hms.
  { split; [apply Z.pow_pos_nonneg; unfold level_shift; lia
           |apply Z.pow_le_mono_r; unfold level_shift; lia]. }
  assert (exists q, 2 ^ 48 = 2 ^ level_shift level * 2 ^ 9 * q) as [q Hq].
  { exists (2 ^ (48 - (level_shift level + 9))).
    rewrite <- !Z.pow_add_r by (unfold level_shift; lia). f_equal. unfold level_shift. lia. }
  unfold part. change (2 ^ 9) with 512 in *. set (ms := 2 ^ level_shift level) in *.
  apply Z.div_exact in Hal; [|lia]. set (d := pa / (ms * 512)) in *.
  assert (0 <= pa + k * ms < 2 ^ 48) as Hr.
  { split; [nia|]. rewrite Hq in *. assert (d < q) by nia. nia. }
  split_and!; try lia.
  - rewrite Hal. replace (ms * 512 * d + k * ms) with ((512 * d + k) * ms) by lia.
    apply Z.mod_mul. lia.
  - apply Word.wrap_small. unfold Word.in_range, Word.modulus. lia.
Qed.

Lemma part_page_addr : page_addr part.
Proof.
  destruct part_range as (Hr & Hm & _). apply block_addr_intro; [lia|done|].
  assert (exists q, 2 ^ level_shift level = 2 ^ 12 * q) as [q Hq].
  { exists (2 ^ (level_shift level - 12)).
    rewrite <- Z.pow_add_r by (unfold level_shift; lia). f_equal. lia. }
  rewrite Hq in Hm. apply Z.div_exact in Hm; [|rewrite <- Hq; apply Z.pow_nonzero; unfold level_shift; lia].
  rewrite Hm. rewrite <- Z.mul_assoc, Z.mul_comm. apply Z.mod_mul. lia.
Qed.

Lemma part_block m : level_mask level = Some m -> Z.land part m = part.
Proof.
  intros Hm. destruct part_range as (Hr & Hmod & _).
  assert (m = define_mask 47 (level_shift level)) as ->.
  { unfold level_mask in Hm. assert (level = 1 \/ level = 2 \/ level = 3) as Hc by lia.
    destruct Hc as [-> |[-> | ->]]; by simplify_eq/=. }
  apply block_addr_intro; [unfold level_shift; lia|done..].
Qed.
End parts.

(** ** What the host is told of an entry

    The registers RTT_READ_ENTRY returns, as a function of the entry. *)
Definition entry_report (e level : Z) : outcome Error (list Z) :=
  let ripas := get_masked_value e S2TTE.INVALID_RIPAS in
  if is_unassigned e then Ok [level; Rmi.RMI_UNASSIGNED; 0; ripas]
  else if is_assigned e then
    r3 ← addr_as_block e level; Ok [level; Rmi.RMI_ASSIGNED; r3; ripas]
  else if is_table e level then
    Ok [level; Rmi.RMI_TABLE; get_masked e S2TTE.ADDR_TBL_OR_PAGE; 0]
  else if is_assigned_ram e level then
    r3 ← addr_as_block e level; Ok [level; Rmi.RMI_ASSIGNED; r3; invalid_ripas.RAM]
  else if is_unassigned_ns e then Ok [level; Rmi.RMI_UNASSIGNED; 0; 0]
  else if is_assigned_ns e level then
    addr_mask ← ok_or (level_mask level) (RmiErrorRtt 0);
    Ok [level; Rmi.RMI_ASSIGNED;
        get_masked e (Z.lor (Z.lor (Z.lor addr_mask S2TTE.MEMATTR) S2TTE.S2AP) S2TTE.SH); 0]
  else Ok [level; 0; 0; 0].

(** The report on the [k]-th part of a block, from the report on the block. *)
Definition part_report (k : Z) (r : outcome Error (list Z)) : outcome Error (list Z) :=
  match r with
  | Ok [l; st; d; ripas] =>
      Ok [l + 1; st; if st =? Rmi.RMI_ASSIGNED then d + k * 2 ^ level_shift (l + 1) else d; ripas]
  | r => r
  end.

(** The entries [create] can split: every state a leaf can have at [level],
    except an invalid entry that is assigned with RIPAS RAM. *)
Definition splittable (e level : Z) : bool :=
  is_unassigned e || is_unassigned_ns e || is_assigned_ram e level || is_assigned_ns e level
  || (is_assigned e && negb (get_masked_value e S2TTE.INVALID_RIPAS =? invalid_ripas.RAM)
      && (1 <=? level)).

Lemma addr_as_block_level e level :
  1 <= level <= 3 -> addr_as_block e level = Ok (get_masked e (define_mask 47 (level_shift level))).
Proof.
  intros Hl. assert (level = 1 \/ level = 2 \/ level = 3) as Hc by lia.
  by destruct Hc as [-> |[-> | ->]].
Qed.

(** The entries of a new table, by the state of the block they divide. *)
Section split_words.
Context (e level k : Z) (Hl : 1 <= level <= 3) (Hk : 0 <= k < 512).

Lemma split_unassigned :
  is_unassigned e = true ->
  entry_report (get_masked e INVALID_STATE) level = part_report k (entry_report e (level - 1)).
Proof.
  intros Hu. unfold entry_report at 2. rewrite Hu. unfold part_report. cbn [Z.eqb Rmi.RMI_UNASSIGNED].
  unfold is_unassigned in Hu. rewrite !andb_true_iff, !Z.eqb_eq in Hu. destruct Hu as [[Hd Hh] Hn].
  unfold entry_report, is_unassigned.
  rewrite (get_masked_value_sub e INVALID_STATE S2TTE.INVALID_HIPAS) by done.
  rewrite (get_masked_value_sub e INVALID_STATE S2TTE.INVALID_RIPAS) by done.
  rewrite (get_masked_value_zero _ S2TTE.DESC_TYPE), (get_masked_value_zero _ S2TTE.NS)
    by (unfold get_masked; rewrite <- Z.land_assoc; apply Z.land_0_r).
  rewrite Hh. cbn [Z.eqb andb desc_type.LX_INVALID invalid_hipas.UNASSIGNED].
  do 3 f_equal. lia.
Qed.

Lemma split_unassigned_ns :
  is_unassigned_ns e = true ->
  entry_report (Z.lor (bits_in_reg S2TTE.INVALID_HIPAS invalid_hipas.UNASSIGNED)
                      (bits_in_reg S2TTE.NS 1)) level
  = part_report k (entry_report e (level - 1)).
Proof.
  intros Hu. unfold entry_report at 2. rewrite Hu.
  unfold is_unassigned_ns in Hu. rewrite !andb_true_iff, negb_true_iff, !Z.eqb_eq, Z.eqb_neq in Hu.
  destruct Hu as [[Hd Hh] Hn]. unfold is_unassigned, is_assigned, is_table, is_assigned_ram.
  rewrite Hd, Hh, (proj2 (Z.eqb_neq _ _) Hn). simpl. rewrite ?andb_false_r. simpl.
  assert (level = 1 \/ level = 2 \/ level = 3) as Hc by lia.
  by destruct Hc as [-> |[-> | ->]].
Qed.

Abbreviation pa := (get_masked e (define_mask 47 (level_shift (level - 1)))).
Abbreviation w := (part level pa k).
Context (Hl2 : 2 <= level).

Lemma block_part : page_addr w /\ (forall m, level_mask level = Some m -> Z.land w m = w).
Proof.
  destruct (masked_block e (level_shift (level - 1))) as [Hr Hm]; [unfold level_shift; lia|].
  split; [by apply part_page_addr|intros m; by apply part_block].
Qed.

Lemma part_addr flags :
  Z.land flags S2TTE.ADDR_TBL_OR_PAGE = 0 -> addr_as_block (Z.lor w flags) level = Ok w.
Proof.
  intros Hf. destruct block_part as [_ Hb]. rewrite addr_as_block_level by done. f_equal.
  rewrite get_masked_lor. unfold get_masked. rewrite Hb.
  - assert (Z.land flags (define_mask 47 (level_shift level)) = 0) as ->; [|apply Z.lor_0_r].
    assert (level = 2 \/ level = 3) as [-> | ->] by lia; [|exact Hf].
    rewrite <- (Z.land_0_l (define_mask 47 21)), <- Hf, <- Z.land_assoc. done.
  - assert (level = 2 \/ level = 3) as [-> | ->] by lia; done.
Qed.

Lemma state_flags_disjoint : Z.land (get_masked e INVALID_STATE) S2TTE.ADDR_TBL_OR_PAGE = 0.
Proof. unfold get_masked. rewrite <- Z.land_assoc. apply Z.land_0_r. Qed.

Lemma split_assigned :
  is_assigned e = true ->
  entry_report (Z.lor w (get_masked e INVALID_STATE)) level
  = part_report k (entry_report e (level - 1)).
Proof.
  intros Ha. destruct block_part as [Hp _].
  pose proof Ha as Hf. unfold is_assigned in Hf. rewrite !andb_true_iff, !Z.eqb_eq in Hf.
  destruct Hf as [[Hn Hd] Hh].
  assert (get_masked_value (get_masked e INVALID_STATE) S2TTE.DESC_TYPE = 0 /\
          get_masked_value (get_masked e INVALID_STATE) S2TTE.NS = 0) as [Hd' Hn'].
  { split; apply get_masked_value_zero; unfold get_masked; rewrite <- Z.land_assoc; apply Z.land_0_r. }
  assert (is_unassigned e = false) as Hu by (unfold is_unassigned; by rewrite Hh, andb_false_r).
  unfold entry_report. rewrite Hu, Ha, !addr_as_block_level by lia.
  rewrite page_entry_unassigned, page_entry_assigned, page_entry_field by done.
  rewrite (get_masked_value_sub e INVALID_STATE S2TTE.INVALID_RIPAS) by done.
  unfold is_unassigned, is_assigned.
  rewrite (get_masked_value_sub e INVALID_STATE S2TTE.INVALID_HIPAS) by done.
  rewrite Hd', Hn', Hh. cbn [Z.eqb andb desc_type.LX_INVALID invalid_hipas.UNASSIGNED invalid_hipas.ASSIGNED].
  pose proof (part_addr _ state_flags_disjoint) as Hadr. rewrite addr_as_block_level in Hadr by lia.
  injection Hadr as ->. simpl. unfold part. replace (level - 1 + 1) with level by lia. done.
Qed.

Lemma split_assigned_ram :
  is_assigned_ram e (level - 1) = true ->
  entry_report (Z.lor w (Z.lor (get_masked e INVALID_STATE) (leaf_desc level))) level
  = part_report k (entry_report e (level - 1)).
Proof.
  intros Ha. destruct block_part as [Hp _].
  apply assigned_ram_fields in Ha as Hf. destruct Hf as [Hn [[Hl3 _]|[Hl' Hd]]]; [lia|].
  assert (level = 3) as Hlevel by lia.
  set (flags := Z.lor (get_masked e INVALID_STATE) (leaf_desc level)).
  assert (get_masked_value flags S2TTE.DESC_TYPE = 3 /\ get_masked_value flags S2TTE.NS = 0 /\
          Z.land flags S2TTE.ADDR_TBL_OR_PAGE = 0) as (Hd' & Hn' & Hdis).
  { unfold flags. rewrite !get_masked_value_lor, Hlevel, Z.land_lor_distr_l, state_flags_disjoint.
    rewrite !(get_masked_value_zero (get_masked e INVALID_STATE))
      by (unfold get_masked; rewrite <- Z.land_assoc; apply Z.land_0_r). vm_compute. done. }
  assert (is_unassigned e = false /\ is_assigned e = false /\ is_table e (level - 1) = false)
    as (Hu & Has & Htb).
  { unfold is_unassigned, is_assigned, is_table. rewrite Hd. by rewrite !andb_false_r. }
  unfold entry_report. rewrite Hu, Has, Htb, Ha, !addr_as_block_level by lia.
  rewrite page_entry_unassigned, page_entry_assigned, page_entry_assigned_ram, page_entry_table by done.
  unfold is_unassigned, is_assigned, is_table, is_assigned_ram. rewrite Hd', Hn'.
  pose proof (part_addr _ Hdis) as Hadr. rewrite addr_as_block_level in Hadr by lia.
  injection Hadr as ->. rewrite Hlevel. simpl. unfold part. done.
Qed.

Lemma split_assigned_ns :
  is_assigned_ns e (level - 1) = true ->
  entry_report (Z.lor w (Z.lor (Z.lor (bits_in_reg S2TTE.NS 1)
                   (get_masked e (Z.lor (Z.lor S2TTE.MEMATTR S2TTE.S2AP) S2TTE.SH)))
                   (leaf_desc level))) level
  = part_report k (entry_report e (level - 1)).
Proof.
  intros Ha. destruct block_part as [Hp Hblk]. pose proof Ha as Hf. unfold is_assigned_ns in Hf.
  destruct (Z.eqb_spec (get_masked_value e S2TTE.NS) 0) as [|Hn]; [done|].
  unfold RTT_PAGE_LEVEL, RTT_MIN_BLOCK_LEVEL in Hf.
  rewrite (proj2 (Z.eqb_neq (level - 1) 3)) in Hf by lia.
  destruct (Z.eqb_spec (level - 1) 2) as [Hl'|]; [|done].
  destruct (Z.eqb_spec (get_masked_value e S2TTE.DESC_TYPE) desc_type.L012_BLOCK) as [Hd|]; [|done].
  assert (level = 3) as Hlevel by lia. clear Hf.
  set (attrs := Z.lor (Z.lor S2TTE.MEMATTR S2TTE.S2AP) S2TTE.SH).
  set (flags := Z.lor (Z.lor (bits_in_reg S2TTE.NS 1) (get_masked e attrs)) (leaf_desc level)).
  assert (get_masked_value flags S2TTE.DESC_TYPE = 3 /\ get_masked_value flags S2TTE.NS = 1 /\
          get_masked flags (Z.lor S2TTE.ADDR_BLK_L3 attrs) = get_masked e attrs) as (Hd' & Hn' & Hat).
  { unfold flags. rewrite !get_masked_value_lor, !get_masked_lor, Hlevel.
    rewrite !(get_masked_value_zero (get_masked e attrs))
      by (unfold get_masked; rewrite <- Z.land_assoc; apply Z.land_0_r).
    split_and!; [done..|]. unfold get_masked at 1 3. simpl Z.lor at 1.
    unfold get_masked. rewrite <- Z.land_assoc.
    replace (Z.land attrs (Z.lor S2TTE.ADDR_BLK_L3 attrs)) with attrs by done.
    replace (Z.land (bits_in_reg S2TTE.NS 1) (Z.lor S2TTE.ADDR_BLK_L3 attrs)) with 0 by done.
    replace (Z.land (leaf_desc 3) (Z.lor S2TTE.ADDR_BLK_L3 attrs)) with 0 by done.
    rewrite Z.lor_0_l. apply Z.lor_0_r. }
  assert (is_unassigned e = false /\ is_assigned e = false /\ is_table e (level - 1) = false /\
          is_assigned_ram e (level - 1) = false /\ is_unassigned_ns e = false)
    as (Hu & Has & Htb & Hra & Huns).
  { unfold is_unassigned, is_assigned, is_table, is_assigned_ram, is_unassigned_ns.
    rewrite Hd, (proj2 (Z.eqb_neq _ _) Hn). by rewrite !andb_false_r. }
  unfold entry_report. rewrite Hu, Has, Htb, Hra, Huns, Ha.
  rewrite page_entry_unassigned, page_entry_assigned, page_entry_assigned_ram, page_entry_table,
    page_entry_unassigned_ns, page_entry_assigned_ns by done.
  unfold is_unassigned, is_assigned, is_table, is_assigned_ram, is_unassigned_ns, is_assigned_ns.
  rewrite Hd', Hn'. rewrite Hl', Hlevel in *. cbn -[Z.land Z.lor Z.add Z.mul Z.pow S2TTE.ADDR_BLK_L2 S2TTE.ADDR_BLK_L3].
  do 3 f_equal. f_equal.
  replace (Z.lor (Z.lor (Z.lor S2TTE.ADDR_BLK_L3 S2TTE.MEMATTR) S2TTE.S2AP) S2TTE.SH)
    with (Z.lor S2TTE.ADDR_BLK_L3 attrs) by done.
  replace (Z.lor (Z.lor (Z.lor S2TTE.ADDR_BLK_L2 S2TTE.MEMATTR) S2TTE.S2AP) S2TTE.SH)
    with (Z.lor S2TTE.ADDR_BLK_L2 attrs) by done.
  rewrite get_masked_lor, Hat. unfold get_masked at 1. rewrite Z.land_lor_distr_r, (Hblk _ eq_refl).
  assert (forall x, Z.land x S2TTE.ADDR_TBL_OR_PAGE = x -> Z.land x attrs = 0) as Hdis.
  { intros x Hx. rewrite <- Hx, <- Z.land_assoc. apply Z.land_0_r. }
  rewrite (Hdis _ Hp), Z.lor_0_r.
  assert (forall x, Z.land x attrs = 0 -> Z.land x (get_masked e attrs) = 0) as Hdis'.
  { intros x Hx. unfold get_masked. by rewrite (Z.land_comm e), Z.land_assoc, Hx. }
  rewrite lor_add by (by apply Hdis', Hdis).
  unfold get_masked at 3. rewrite Z.land_lor_distr_r. fold (get_masked e attrs).
  fold (get_masked e S2TTE.ADDR_BLK_L2). rewrite lor_add.
  - unfold part. change (define_mask 47 (level_shift 2)) with S2TTE.ADDR_BLK_L2.
    change (2 + 1) with 3. lia.
  - apply Hdis'. unfold get_masked. rewrite <- Z.land_assoc. apply Z.land_0_r.
Qed.
End split_words.

(** ** RTT_CREATE *)
Section create.
Context `{Platform}.

Lemma create_pgtbl_at_run rtt flags pa ms s :
  rtt <> 0 -> create_pgtbl_at rtt flags pa ms s
  = (Ok tt, write_page rtt (CTable (pgtbl_word flags pa ms)) s).
Proof. intros Hr. unfold create_pgtbl_at. by rewrite (proj2 (Z.eqb_neq _ _)). Qed.

(** The table put below a splittable entry: each of its words says of its
    part what the entry said of the whole block. *)
Lemma create_child_run rd rtt level e s :
  1 <= level <= 3 -> rtt <> 0 -> splittable e (level - 1) = true ->
  exists w i, create_child rd rtt level e (2 ^ level_shift level) s
              = (Ok i, write_page rtt (CTable w) s) /\
    forall k, 0 <= k < 512 -> entry_report (w k) level = part_report k (entry_report e (level - 1)).
Proof.
  intros Hl Hr Hs. unfold create_child. rewrite Word.sub_small by (unfold Word.modulus; lia).
  assert (forall flags k, pgtbl_word flags 0 0 k = flags) as Hw0.
  { intros flags k. unfold pgtbl_word, entry_set. rewrite Z.mul_0_r, Z.add_0_r.
    change (Word.wrap 0) with 0. by rewrite !Z.lor_0_l. }
  destruct (is_unassigned e) eqn:Hu.
  { assert (is_invalid_ripas e = false) as ->.
    { unfold is_unassigned, is_invalid_ripas in *. rewrite !andb_true_iff in Hu.
      destruct Hu as [[-> _] _]. done. }
    eexists _, NONE. split.
    { by erewrite bind_ok by (by apply create_pgtbl_at_run). }
    intros k Hk. rewrite Hw0. by apply split_unassigned. }
  unfold splittable in Hs. rewrite Hu in Hs. cbn [orb] in Hs.
  assert (forall flags k, 1 <= level - 1 -> 0 <= k < 512 ->
    let pa := get_masked e (define_mask 47 (level_shift (level - 1))) in
    pgtbl_word flags pa (2 ^ level_shift level) k = Z.lor (part level pa k) flags) as Hw.
  { intros flags k Hl1 Hk pa. unfold pgtbl_word, entry_set. fold (part level pa k).
    destruct (masked_block e (level_shift (level - 1))) as [Hpr Hpm]; [unfold level_shift; lia|].
    destruct (part_range level pa k) as (_ & _ & ->); [done..|].
    by rewrite Z.lor_assoc, Z.lor_diag. }
  destruct (is_assigned e) eqn:Ha.
  { assert (1 <= level - 1 /\ get_masked_value e S2TTE.INVALID_RIPAS <> invalid_ripas.RAM) as [Hl1 Hrip].
    { unfold is_assigned in Ha. rewrite !andb_true_iff, !Z.eqb_eq in Ha. destruct Ha as [[Hn Hd] Hh].
      unfold is_unassigned_ns, is_assigned_ram, is_assigned_ns in Hs. rewrite Hn, Hd, Hh in Hs.
      simpl in Hs. rewrite !andb_false_r in Hs. simpl in Hs.
      rewrite andb_true_iff, negb_true_iff, Z.eqb_neq, Z.leb_le in Hs. tauto. }
    rewrite (proj2 (Z.eqb_neq _ _) Hrip), addr_as_block_level by lia. mstep.
    eexists _, NONE. split; [by erewrite bind_ok by (by apply create_pgtbl_at_run)|].
    intros k Hk. cbv beta. rewrite Hw by lia. apply split_assigned; lia || done. }
  destruct (is_assigned_ram e (level - 1)) eqn:Hra.
  { apply assigned_ram_fields in Hra as Hf. destruct Hf as [_ Hf].
    rewrite addr_as_block_level by lia. mstep. eexists _, (LEAF (Rd.id rd)).
    split; [by erewrite bind_ok by (by apply create_pgtbl_at_run)|].
    intros k Hk. cbv beta. rewrite Hw by lia. apply split_assigned_ram; lia || done. }
  destruct (is_unassigned_ns e) eqn:Hun.
  { eexists _, NONE. split; [by erewrite bind_ok by (by apply create_pgtbl_at_run)|].
    intros k Hk. cbv beta. rewrite Hw0. by apply split_unassigned_ns. }
  rewrite orb_false_r in Hs. simpl in Hs. rewrite Hs.
  assert (1 <= level - 1) as Hl1.
  { unfold is_assigned_ns in Hs. destruct (_ =? 0); [done|].
    unfold RTT_PAGE_LEVEL, RTT_MIN_BLOCK_LEVEL in Hs.
    destruct (Z.eqb_spec (level - 1) 3), (Z.eqb_spec (level - 1) 2); simpl in Hs; lia || done. }
  rewrite addr_as_block_level by lia. mstep. eexists _, NONE.
  split; [by erewrite bind_ok by (by apply create_pgtbl_at_run)|].
  intros k Hk. cbv beta. rewrite Hw by lia. apply split_assigned_ns; lia || done.
Qed.

(** *** The new table in the walk *)
Lemma read_write_page a c x s :
  page_of a <> x -> read_word a (write_page x c s) = read_word a s.
Proof. intros Hne. simpl. by rewrite fn_lookup_insert_ne. Qed.

Lemma page_addr_range x : page_addr x -> 0 <= x < 2 ^ 48 /\ x mod 4096 = 0.
Proof.
  intros Hx. destruct (masked_block x 12) as [Hr Hm]; [lia|].
  assert (get_masked x (define_mask 47 12) = x) as E by exact Hx. by rewrite E in *.
Qed.

Lemma page_of_slot x k : page_addr x -> 0 <= k < 512 -> page_of (x + 8 * k) = x /\ word_of (x + 8 * k) = k.
Proof.
  intros Hx Hk. apply page_addr_range in Hx as [Hr Hm].
  unfold page_of, word_of, GRANULE_SIZE. Z.div_mod_to_equations; lia.
Qed.

(** Writing a page that holds no entry of a path leaves the path as it is. *)
Lemma reaches_write_page rd s t ipa level pre b x c :
  reaches rd s t ipa level pre b -> (forall a, a ∈ pre \/ a = b -> page_of a <> x) ->
  reaches rd (write_page x c s) t ipa level pre b.
Proof.
  intros [Ht Hwf Hl Hw Hf] Hx. split; [done..| |done].
  unfold s2_walk. eapply walk_ext; [exact Hw| |lia].
  intros a Ha. apply read_write_page. auto.
Qed.

Lemma block_index ipa ipa' l d sz :
  0 <= ipa < 2 ^ 48 -> 0 <= ipa' < 2 ^ 48 -> 0 <= l <= 3 ->
  ipa' / 2 ^ level_shift l = ipa / 2 ^ level_shift l -> this_level d <= l ->
  entry_index (this_level d) sz (base_page ipa') = entry_index (this_level d) sz (base_page ipa).
Proof.
  intros Hi Hi' Hl Hq Hd.
  assert (forall lo, level_shift l <= lo -> ipa' / 2 ^ lo = ipa / 2 ^ lo) as Hdiv.
  { intros lo Hlo. replace lo with (level_shift l + (lo - level_shift l)) by lia.
    rewrite Z.pow_add_r by (unfold level_shift in *; lia).
    rewrite <- !Z.div_div by (apply Z.pow_nonzero || apply Z.pow_pos_nonneg; unfold level_shift in *; lia).
    by rewrite Hq. }
  unfold entry_index, RawGPA.L0Index, RawGPA.L1Index, RawGPA.L2Index, RawGPA.L3Index.
  rewrite !base_page_field by lia. unfold level_shift in Hdiv.
  destruct (Z.eqb_spec (this_level d) 0); [rewrite (Hdiv 39) by lia; done|].
  destruct (Z.eqb_spec (this_level d) 1); [rewrite (Hdiv 39), (Hdiv 30) by lia; done|].
  destruct (Z.eqb_spec (this_level d) 2); [rewrite (Hdiv 30), (Hdiv 21) by lia; done|].
  destruct (Z.eqb_spec (this_level d) 3); [rewrite (Hdiv 12) by lia; done|]. done.
Qed.

(** *** Below a table descriptor

    [b], the entry of [ipa] at [level - 1], is a descriptor of the table
    [rtt], a page that holds no entry of the path: the walk to each part of
    the block ends in [rtt]. *)
Section below.
Context (rd : Rd.t) (s : rmm) (t : Stage2Translation) (ipa level rtt : Z) (pre : list Z) (b : Z).
Context (Hr : reaches rd s t ipa (level - 1) pre b).
Context (Hl : root_level t < level <= 3) (Hipa : 0 <= ipa < 2 ^ 48).
Context (Hal : ipa mod 2 ^ level_shift (level - 1) = 0).
Context (Hpa : page_addr rtt) (Hfresh : forall a, a ∈ pre \/ a = b -> page_of a <> rtt).
Abbreviation ms := (2 ^ level_shift level).

Lemma level_bounds : 1 <= level <= 3.
Proof. pose proof (root_level_range t (reach_wf _ _ _ _ _ _ _ Hr)). lia. Qed.

Lemma child_ipa k : 0 <= k < 512 ->
  0 <= ipa + k * ms < 2 ^ 48 /\
  (ipa + k * ms) / 2 ^ level_shift (level - 1) = ipa / 2 ^ level_shift (level - 1) /\
  (ipa + k * ms) / ms mod 512 = k.
Proof.
  intros Hk. pose proof level_bounds.
  destruct (part_range level ipa k) as (Hrg & _ & _); [done..|]. split; [exact Hrg|].
  assert (level_shift (level - 1) = level_shift level + 9) as Hp by (unfold level_shift; lia).
  rewrite Hp, Z.pow_add_r in * by (unfold level_shift; lia). change (2 ^ 9) with 512 in *.
  assert (0 < ms) by (apply Z.pow_pos_nonneg; unfold level_shift; lia).
  apply Z.div_exact in Hal; [|lia]. set (d := ipa / (ms * 512)) in *. rewrite Hal.
  replace (ms * 512 * d + k * ms) with ((512 * d + k) * ms) by lia. split.
  - rewrite <- Z.div_div by lia. rewrite Z.div_mul by lia.
    replace (512 * d + k) with (k + d * 512) by lia. rewrite Z.div_add by lia.
    rewrite Z.div_small by lia. done.
  - rewrite Z.div_mul by lia. replace (512 * d + k) with (k + d * 512) by lia.
    rewrite Z.mod_add by lia. by apply Z.mod_small.
Qed.

Lemma child_slot k : 0 <= k < 512 ->
  slot (Z.to_nat (3 - level)) rtt TABLE_SIZE (base_page (ipa + k * ms)) = Ok (rtt + 8 * k).
Proof.
  intros Hk. pose proof level_bounds. destruct (child_ipa k Hk) as (Hci & _ & Hidx).
  unfold slot. replace (this_level (Z.to_nat (3 - level))) with level by (unfold this_level; lia).
  simpl e_index. rewrite entry_index_below by lia. rewrite Hidx. simpl mbind.
  change (TABLE_SIZE / ENTRY_SIZE) with 512. by rewrite (proj2 (Z.ltb_lt k 512)) by lia.
Qed.

Lemma reaches_below k :
  entry_points_to_table_or_page (read_word b s) = true ->
  get_masked (read_word b s) S2TTE.ADDR_TBL_OR_PAGE = rtt -> 0 <= k < 512 ->
  reaches rd s t (ipa + k * ms) level (pre ++ [b]) (rtt + 8 * k).
Proof.
  intros Hpt Hadr Hk. pose proof level_bounds. destruct (child_ipa k Hk) as (Hci & Hq & _).
  destruct Hr as [Ht Hwf _ Hw _]. split; [done|done|lia| |].
  - enough (s2_walk t s (ipa + k * ms) (level - 1 + 1) = Ok (pre ++ [b], rtt + 8 * k, level - 1 + 1)) as Hx
      by (by replace (level - 1 + 1) with level in Hx by lia).
    eapply walk_extend; [exact Hw|lia| |done|exact Hpt|].
    + intros d sz Hd. apply block_index with (l := level - 1); lia || done.
    + cbv beta. change (e_address ?x ?l) with (entry_address x l).
      rewrite table_entry_address by exact Hpt. rewrite Hadr. cbn [default].
      replace (2 - (level - 1)) with (3 - level) by lia. by apply child_slot.
  - destruct (page_of_slot rtt k Hpa Hk) as [Hpg _].
    rewrite elem_of_app, elem_of_cons, elem_of_nil. intros [Ha|[Ha|[]]];
      apply (Hfresh (rtt + 8 * k)); auto.
Qed.

(** [entries] of the block is the table's content. *)
Lemma entries_below :
  entry_points_to_table_or_page (read_word b s) = true ->
  get_masked (read_word b s) S2TTE.ADDR_TBL_OR_PAGE = rtt ->
  entries t ipa level s = (Ok (table_words rtt TABLE_SIZE s, level), s).
Proof.
  intros Hpt Hadr. pose proof level_bounds as Hlb.
  pose proof (reaches_below 0 Hpt Hadr ltac:(lia)) as Hrc.
  rewrite Z.mul_0_l, Z.add_0_r in Hrc. destruct Hrc as [_ Hwf _ Hw _].
  destruct (walk_level _ _ _ _ _ _ _ _ _ Hw) as (_ & _ & Hlen & _).
  destruct (root_depth_spec t Hwf) as (_ & _ & Hlv).
  destruct (entries_walk t s ipa level (pre ++ [b]) (rtt + 8 * 0) level Hwf ltac:(lia) Hw)
    as (tb & ts & He & Hs & _ & Hts).
  assert (ts = TABLE_SIZE) as -> by (apply Hts; by destruct pre). rewrite He. do 3 f_equal.
  assert (slot (Z.to_nat (3 - level)) tb TABLE_SIZE (base_page ipa) = Ok (rtt + 8 * 0)) as Hs'.
  { rewrite <- Hs. replace (root_depth t - length (pre ++ [b]))%nat with (Z.to_nat (3 - level)); [done|].
    unfold this_level in Hlv, Hlen. lia. }
  destruct (child_ipa 0 ltac:(lia)) as (_ & _ & Hidx). rewrite Z.mul_0_l, Z.add_0_r in Hidx.
  unfold slot in Hs'. replace (this_level (Z.to_nat (3 - level))) with level in Hs'
    by (unfold this_level; lia).
  simpl e_index in Hs'. rewrite entry_index_below in Hs' by lia. rewrite Hidx in Hs'.
  simpl in Hs'. unfold ENTRY_SIZE in Hs'. injection Hs'. intros. f_equal. lia.
Qed.
End below.

(** After [b] was made a descriptor of a new table. *)
Lemma reaches_child rd s t ipa level rtt pre b w i k :
  reaches rd s t ipa (level - 1) pre b -> root_level t < level <= 3 -> 0 <= ipa < 2 ^ 48 ->
  ipa mod 2 ^ level_shift (level - 1) = 0 -> page_addr rtt ->
  (forall a, a ∈ pre \/ a = b -> page_of a <> rtt) -> 0 <= k < 512 ->
  let s' := after_set rd t ipa (level - 1) b
              (Z.lor rtt (bits_in_reg S2TTE.DESC_TYPE desc_type.L012_TABLE)) i
              (write_page rtt (CTable w) s) in
  reaches rd s' (dirtied i t) (ipa + k * 2 ^ level_shift level) level (pre ++ [b]) (rtt + 8 * k) /\
  read_word (rtt + 8 * k) s' = w k.
Proof.
  intros Hr Hl Hipa Hal Hpa Hfresh Hk s'.
  pose proof (reaches_write_page _ _ _ _ _ _ _ rtt (CTable w) Hr Hfresh) as Hr1.
  destruct (page_of_slot rtt k Hpa Hk) as [Hpg Hwd].
  assert (read_word b s' = Z.lor rtt (bits_in_reg S2TTE.DESC_TYPE desc_type.L012_TABLE)) as Hb
    by apply after_set_read.
  split.
  - eapply reaches_below; [by apply reaches_after_set|by destruct i|done..| | |done].
    + rewrite Hb, points_to_table_desc, field_of_entry by done. done.
    + rewrite Hb. by apply addr_of_entry.
  - unfold s', after_set. rewrite invalidated_read. simpl.
    rewrite Hpg. rewrite fn_lookup_insert_ne by (intros He; by apply (Hfresh b (or_intror eq_refl))).
    rewrite fn_lookup_insert, Hwd. done.
Qed.

Lemma read_entry_report rd s t ipa level pre b :
  reaches rd s t ipa level pre b ->
  read_entry rd ipa level s = (entry_report (read_word b s) level, s).
Proof.
  intros Hr. unfold read_entry, entry_report.
  erewrite bind_ok by (by eapply reaches_get). cbv beta iota zeta.
  repeat case_match; try done; unfold mbind, M_bind, lift; simpl;
    repeat case_match; by simplify_eq/=.
Qed.

Lemma create_child_panics rd rtt level e s :
  1 <= level <= 3 -> splittable e (level - 1) = false ->
  is_table e (level - 1) = false ->
  fst (create_child rd rtt level e (2 ^ level_shift level) s) = Panicked.
Proof.
  intros Hl Hs Ht. unfold create_child. rewrite Word.sub_small by (unfold Word.modulus; lia).
  unfold splittable in Hs. rewrite !orb_false_iff in Hs. destruct Hs as [[[[-> ->] ->] ->] Ha].
  destruct (is_assigned e); [|done].
  destruct (get_masked_value e S2TTE.INVALID_RIPAS =? invalid_ripas.RAM); [done|]. simpl in Ha.
  rewrite Z.leb_gt in Ha. replace (level - 1) with 0 by lia. done.
Qed.

(** C9: RTT_CREATE's table operation, for an entry the walk to [level - 1]
    ends at and a fresh page for the table. An entry that is a table already
    is reported and nothing changes. An entry in any of the leaf states is
    replaced by a table, and each of the 512 parts of the block it described
    is then reported with the same state and RIPAS as the block, at the
    corresponding part of the block's address; addresses whose walk does not
    pass the entry are reported as before. An entry in no leaf state makes
    the RMM panic. *)
Theorem create_spec rd s t ipa level rtt pre b :
  reaches rd s t ipa (level - 1) pre b -> root_level t < level <= 3 ->
  0 <= ipa < 2 ^ 48 -> ipa mod 2 ^ level_shift (level - 1) = 0 ->
  page_addr rtt -> rtt <> 0 -> (forall a, a ∈ pre \/ a = b -> page_of a <> rtt) ->
  let e := read_word b s in
  if is_table e (level - 1) then create rd rtt ipa level s = (Err (RmiErrorRtt (level - 1)), s)
  else if splittable e (level - 1) then exists s',
    create rd rtt ipa level s = (Ok tt, s') /\
    read_entry rd ipa (level - 1) s' = (Ok [level - 1; Rmi.RMI_TABLE; rtt; 0], s') /\
    (forall k, 0 <= k < 512 -> read_entry rd (ipa + k * 2 ^ level_shift level) level s'
       = (part_report k (entry_report e (level - 1)), s')) /\
    (forall ipa' level' pre' b', reaches rd s t ipa' level' pre' b' -> b ∉ pre' -> b <> b' ->
       (forall a, a ∈ pre' \/ a = b' -> page_of a <> rtt) ->
       read_entry rd ipa' level' s' = (entry_report (read_word b' s) level', s'))
  else fst (create rd rtt ipa level s) = Panicked.
Proof.
  intros Hr Hl Hi Hal Hp Hz Hfr e. pose proof (level_bounds _ _ _ _ _ _ _ Hr Hl) as Hlb.
  unfold create. rewrite Word.sub_small by (unfold Word.modulus; lia).
  erewrite bind_ok by (by eapply reaches_get). cbv beta iota zeta. fold e.
  rewrite Z.eqb_refl. cbn [negb orb].
  destruct (is_table e (level - 1)) eqn:Ht; [done|]. rewrite mapping_size_pow2 by lia. mstep.
  destruct (splittable e (level - 1)) eqn:Hs.
  - destruct (create_child_run rd rtt level e s Hlb Hz Hs) as (w & i & Hc & Hw).
    pose proof (reaches_write_page _ _ _ _ _ _ _ rtt (CTable w) Hr Hfr) as Hr1.
    exists (after_set rd t ipa (level - 1) b
              (Z.lor rtt (bits_in_reg S2TTE.DESC_TYPE desc_type.L012_TABLE)) i
              (write_page rtt (CTable w) s)).
    erewrite bind_ok by exact Hc. split_and!.
    + by apply reaches_set with (pre := pre).
    + erewrite read_entry_report by (by apply reaches_after_set). f_equal. rewrite after_set_read.
      unfold entry_report. rewrite page_entry_unassigned, page_entry_assigned, page_entry_table by done.
      unfold is_table. unfold RTT_PAGE_LEVEL. rewrite (proj2 (Z.ltb_lt (level - 1) 3)) by lia.
      rewrite addr_of_entry by done. done.
    + intros k Hk. destruct (reaches_child _ _ _ _ _ _ _ _ w i k Hr Hl Hi Hal Hp Hfr Hk) as [Hrc Hrd].
      erewrite read_entry_report by exact Hrc. by rewrite Hrd, Hw.
    + intros ipa' level' pre' b' Hr' Hb Hbb Hfr'.
      pose proof (reaches_write_page _ _ _ _ _ _ _ rtt (CTable w) Hr' Hfr') as Hr1'.
      destruct (reaches_frame _ _ _ _ _ _ _ (Z.lor rtt (bits_in_reg S2TTE.DESC_TYPE desc_type.L012_TABLE))
        i _ _ _ _ Hr1 Hr1' Hb Hbb) as [Hrf Hrd].
      erewrite read_entry_report by exact Hrf. rewrite Hrd. by rewrite read_write_page by auto.
  - pose proof (create_child_panics rd rtt level e s Hlb Hs Ht) as Hc.
    unfold mbind, M_bind. destruct (create_child _ _ _ _ _ s) as [r s']. simpl in Hc. by subst r.
Qed.

(** A block at level 1 (which RTT_MAP_UNPROTECTED and RTT_FOLD create) is
    in none of the states RTT_CREATE knows: when the host asks for a level-2
    table below it, the RMM panics. *)
Theorem create_level1_block_panics rd s t ipa rtt pre b :
  reaches rd s t ipa 1 pre b ->
  get_masked_value (read_word b s) S2TTE.DESC_TYPE = desc_type.L012_BLOCK ->
  fst (create rd rtt ipa 2 s) = Panicked.
Proof.
  intros Hr Hd. unfold create. change (Word.sub 2 1) with 1.
  erewrite bind_ok by (by eapply reaches_get). cbv beta iota zeta.
  set (e := read_word b s) in *. rewrite Z.eqb_refl. cbn [negb orb].
  unfold is_table. rewrite Hd. cbn [Z.eqb Z.ltb andb desc_type.L012_BLOCK desc_type.L012_TABLE].
  rewrite andb_false_r. rewrite mapping_size_pow2 by lia. mstep.
  unfold create_child. change (Word.sub 2 1) with 1.
  assert (is_unassigned e = false /\ is_assigned e = false /\ is_assigned_ram e 1 = false /\
          is_unassigned_ns e = false /\ is_assigned_ns e 1 = false) as (-> & -> & -> & -> & ->).
  { unfold is_unassigned, is_assigned, is_assigned_ram, is_unassigned_ns, is_assigned_ns. rewrite Hd.
    simpl. rewrite !andb_false_r. by destruct (_ =? 0). }
  done.
Qed.
End create.

(** ** Witnesses *)
Lemma create_spec_witness :
  exists s', create sample_realm 0x80004000 (2 ^ 38) 3 sample_tables = (Ok tt, s') /\
    read_entry sample_realm (2 ^ 38) 2 s' = (Ok [2; Rmi.RMI_TABLE; 0x80004000; 0], s') /\
    read_entry sample_realm (2 ^ 38 + 511 * 2 ^ 12) 3 s' = (Ok [3; Rmi.RMI_UNASSIGNED; 0; 0], s').
Proof.
  pose proof (create_spec sample_realm sample_tables sample_s2 (2 ^ 38) 3 0x80004000
    [0x80001800] 0x80005000 sample_reaches_l2 ltac:(simpl; lia) ltac:(lia) eq_refl
    (page_addr_intro 0x80004000 ltac:(lia) eq_refl) ltac:(lia)) as Hc. cbv zeta in Hc.
  assert (is_table (read_word 0x80005000 sample_tables) (3 - 1) = false) as Ht by (vm_compute; reflexivity).
  assert (splittable (read_word 0x80005000 sample_tables) (3 - 1) = true) as Hs by (vm_compute; reflexivity).
  rewrite Ht, Hs in Hc. destruct Hc as (s' & H1 & H2 & H3 & _).
  { intros a. rewrite elem_of_cons, elem_of_nil. intros [[-> |[]]| ->]; vm_compute; done. }
  exists s'. split; [exact H1|]. split; [exact H2|]. exact (H3 511 ltac:(lia)).
Defined.

Lemma create_level1_block_panics_witness :
  let s := after_set sample_realm sample_s2 (2 ^ 38 + 2 ^ 30) 1 0x80001808 0x80000001 NONE sample_tables in
  fst (create sample_realm 0x80004000 (2 ^ 38 + 2 ^ 30) 2 s) = Panicked.
Proof.
  intros s. apply (create_level1_block_panics sample_realm s sample_s2 (2 ^ 38 + 2 ^ 30) 0x80004000 [] 0x80001808).
  - apply (reaches_after_set sample_realm sample_tables sample_s2), sample_reaches_l1.
  - vm_compute. reflexivity.
Defined.
