(* ===== verification/RttFold.v ===== *)
(** * Folding a table

    When [S2TTE::is_homogeneous] accepts a table whose first entry is a leaf,
    every entry of the table reports the same state, at consecutive addresses,
    and the entry [fold] writes in its place reports that state of the whole
    block: folding loses nothing the host or the realm can observe through
    RTT_READ_ENTRY. A table of tables is accepted too, and is not preserved. *)

From S2P Require Import Prelude Bytes Bits Vmsa RmiTypes Granule S2tte Objects Machine PageTable Stage2 Stage2Facts Measurement Rtt RttFacts RmiRtt Guards Sample SampleRealm RttTree.

(** ** Reports by state *)
Section reports.
Context (e level : Z).

Lemma report_unassigned :
  is_unassigned e = true ->
  entry_report e level = Ok [level; Rmi.RMI_UNASSIGNED; 0; get_masked_value e S2TTE.INVALID_RIPAS].
Proof. intros Hu. unfold entry_report. by rewrite Hu. Qed.

Lemma report_assigned :
  is_assigned e = true ->
  entry_report e level = (a ← addr_as_block e level;
    Ok [level; Rmi.RMI_ASSIGNED; a; get_masked_value e S2TTE.INVALID_RIPAS]).
Proof.
  intros Ha. unfold entry_report. rewrite Ha. pose proof Ha as Hf. unfold is_assigned in Hf.
  rewrite !andb_true_iff, !Z.eqb_eq in Hf. destruct Hf as [[Hn Hd] Hh].
  unfold is_unassigned. by rewrite Hn, Hd, Hh.
Qed.

Lemma report_ram :
  is_assigned_ram e level = true ->
  entry_report e level = (a ← addr_as_block e level;
    Ok [level; Rmi.RMI_ASSIGNED; a; invalid_ripas.RAM]).
Proof.
  intros Ha. unfold entry_report. rewrite Ha. apply assigned_ram_fields in Ha as [Hn Hd].
  unfold is_unassigned, is_assigned, is_table. rewrite Hn.
  by destruct Hd as [[-> ->]|[-> ->]].
Qed.

Lemma report_unassigned_ns :
  is_unassigned_ns e = true -> entry_report e level = Ok [level; Rmi.RMI_UNASSIGNED; 0; 0].
Proof.
  intros Ha. unfold entry_report. rewrite Ha. pose proof Ha as Hf. unfold is_unassigned_ns in Hf.
  rewrite !andb_true_iff, negb_true_iff, !Z.eqb_eq, Z.eqb_neq in Hf. destruct Hf as [[Hd Hh] Hn].
  unfold is_unassigned, is_assigned, is_table, is_assigned_ram.
  rewrite Hd, Hh, (proj2 (Z.eqb_neq _ _) Hn). simpl. by rewrite andb_false_r.
Qed.

Definition host_bits : Z :=
  Z.lor (default 0 (level_mask level)) (Z.lor (Z.lor S2TTE.MEMATTR S2TTE.S2AP) S2TTE.SH).

Lemma assigned_ns_fields :
  is_assigned_ns e level = true ->
  get_masked_value e S2TTE.NS <> 0 /\
  ((level = 3 /\ get_masked_value e S2TTE.DESC_TYPE = desc_type.L3_PAGE) \/
   (level = 2 /\ get_masked_value e S2TTE.DESC_TYPE = desc_type.L012_BLOCK)).
Proof.
  unfold is_assigned_ns. destruct (Z.eqb_spec (get_masked_value e S2TTE.NS) 0); [done|].
  unfold RTT_PAGE_LEVEL, RTT_MIN_BLOCK_LEVEL.
  destruct (Z.eqb_spec level 3), (Z.eqb_spec level 2),
    (Z.eqb_spec (get_masked_value e S2TTE.DESC_TYPE) desc_type.L3_PAGE),
    (Z.eqb_spec (get_masked_value e S2TTE.DESC_TYPE) desc_type.L012_BLOCK);
    simpl; intros; try done; auto.
Qed.

Lemma report_ns :
  is_assigned_ns e level = true ->
  entry_report e level = Ok [level; Rmi.RMI_ASSIGNED; get_masked e host_bits; 0].
Proof.
  intros Ha. unfold entry_report. rewrite Ha. apply assigned_ns_fields in Ha as [Hn Hd].
  unfold is_unassigned, is_assigned, is_table, is_assigned_ram, is_unassigned_ns, host_bits.
  rewrite (proj2 (Z.eqb_neq _ _) Hn).
  destruct Hd as [[-> ->]|[-> ->]]; simpl; by rewrite <- !Z.lor_assoc.
Qed.
End reports.

(** ** The entries of a homogeneous table

    A table's entries are in one of the states the RMM writes, and the address
    of an assigned one is a granule (above the first gigabyte). *)
Definition table_entry (level e : Z) : Prop :=
  existsb id (entry_states e level) = true /\
  (is_assigned e = true -> 2 ^ 30 < get_masked e (define_mask 47 (level_shift level))).

(** A check of all the entries of a table by evaluation. *)
Lemma forallb_Forall {A} (f : A -> bool) (P : A -> Prop) l :
  (forall x, f x = true -> P x) -> forallb f l = true -> Forall P l.
Proof.
  intros Hf Hl. rewrite List.forallb_forall in Hl. apply List.Forall_forall. auto.
Qed.

Definition table_entryb (level e : Z) : bool :=
  existsb id (entry_states e level)
  && (negb (is_assigned e) || (2 ^ 30 <? get_masked e (define_mask 47 (level_shift level)))).

Lemma table_entryb_spec level e : table_entryb level e = true -> table_entry level e.
Proof.
  unfold table_entryb. rewrite andb_true_iff, orb_true_iff, negb_true_iff, Z.ltb_lt.
  intros [Hs Ha]. split; [done|]. intros Hx. rewrite Hx in Ha. by destruct Ha.
Qed.

(** The report on the entry [k] places further in a table. *)
Definition shift_report (k : Z) (r : outcome Error (list Z)) : outcome Error (list Z) :=
  match r with
  | Ok [l; st; d; ripas] =>
      Ok [l; st; if st =? Rmi.RMI_ASSIGNED then d + k * 2 ^ level_shift l else d; ripas]
  | r => r
  end.

Section homogeneous.
Context (level : Z) (Hl : 1 <= level <= 3).
Abbreviation ms := (2 ^ level_shift level).

(** Induction over the comparison of a table's entries. *)
Lemma homog_loop_ind (P : Z -> Prop) (I : Z -> homog -> Prop) (Q : Z -> Z -> Prop) h es n :
  (forall n h e h', I n h -> P e -> homog_step level ms h e = Ok (Some h') ->
     Q (n + 1) e /\ I (n + 1) h') ->
  I n h -> Forall P es -> homog_loop level ms h es = Ok true ->
  forall i e, es !! i = Some e -> Q (n + 1 + Z.of_nat i) e.
Proof.
  intros Hstep. revert h n. induction es as [|e0 es IH]; intros h n HI Hf Hh i e Hi; [done|].
  apply Forall_cons_1 in Hf as [He Hf]. simpl in Hh.
  destruct (homog_step level ms h e0) as [[h'|]| | |] eqn:Es; simplify_eq/=.
  destruct (Hstep n h e0 h' HI He Es) as [HQ HI'].
  destruct i as [|i]; simplify_eq/=; [by rewrite Z.add_0_r|].
  replace (n + 1 + Z.of_nat (S i)) with (n + 1 + 1 + Z.of_nat i) by lia.
  by eapply IH.
Qed.

Lemma ms_bounds : 0 < ms <= 2 ^ 30.
Proof.
  split; [apply Z.pow_pos_nonneg; unfold level_shift; lia
         |apply Z.pow_le_mono_r; unfold level_shift; lia].
Qed.

(** An invalid entry compared with an invalid, unassigned first entry. *)
Lemma homog_step_unassigned h e h' :
  table_entry level e -> homog_step level ms h e = Ok (Some h') ->
  h_desc_type h = desc_type.LX_INVALID -> h_hipas h = invalid_hipas.UNASSIGNED -> h_pa h = 0 ->
  h' = h /\
  ((is_unassigned_ns e = true /\ h_ns h = get_masked_value e S2TTE.NS) \/
   (is_unassigned e = true /\ h_ripas h = get_masked_value e S2TTE.INVALID_RIPAS)).
Proof.
  intros [Hk Hbig] Hs Hd Hh Hpa. unfold homog_step in Hs. rewrite Hd, Hh, Hpa in Hs.
  destruct (Z.eqb_spec desc_type.LX_INVALID (get_masked_value e S2TTE.DESC_TYPE)) as [Hde|];
    cbn [negb] in Hs; [|done].
  assert (is_assigned_ns e level = false /\ is_assigned_ram e level = false /\ is_table e level = false)
    as (Hans & Hram & Htb).
  { unfold is_assigned_ns, is_assigned_ram, is_table. rewrite <- Hde. simpl. rewrite !andb_false_r.
    by destruct (_ =? 0). }
  rewrite Hans, Hram in Hs. cbn [orb] in Hs.
  destruct (is_assigned e) eqn:Ha.
  { exfalso. specialize (Hbig eq_refl). rewrite addr_as_block_level in Hs by done. simpl in Hs.
    pose proof ms_bounds. rewrite Word.add_small in Hs by (unfold Word.modulus; lia).
    by rewrite (proj2 (Z.eqb_neq _ _)) in Hs by lia. }
  unfold entry_states, existsb, id in Hk. rewrite Ha, Hans, Hram, Htb in Hk.
  destruct (is_unassigned_ns e) eqn:Hun.
  - destruct (Z.eqb_spec (h_ns h) (get_masked_value e S2TTE.NS)); cbn [negb] in Hs; [|done].
    destruct (invalid_hipas.UNASSIGNED =? _); cbn [negb] in Hs; simplify_eq. auto.
  - destruct (is_unassigned e) eqn:Hu; [|done].
    destruct (invalid_hipas.UNASSIGNED =? _); cbn [negb] in Hs; [|done].
    destruct (Z.eqb_spec (h_ripas h) (get_masked_value e S2TTE.INVALID_RIPAS));
      cbn [negb] in Hs; [|done].
    simplify_eq. auto.
Qed.

(** An entry compared with an invalid but assigned first entry. *)
Lemma homog_step_assigned h e h' :
  table_entry level e -> homog_step level ms h e = Ok (Some h') ->
  h_desc_type h = desc_type.LX_INVALID -> h_hipas h = invalid_hipas.ASSIGNED -> h_ns h = 0 ->
  is_assigned e = true /\ addr_as_block e level = Ok (Word.add (h_pa h) ms) /\
  h_ripas h = get_masked_value e S2TTE.INVALID_RIPAS /\
  h' = mkHomog (h_hipas h) (h_ripas h) (h_desc_type h) (Word.add (h_pa h) ms) (h_attr h) (h_ns h).
Proof.
  intros [Hk _] Hs Hd Hh Hns. unfold homog_step in Hs. rewrite Hd in Hs at 1.
  destruct (Z.eqb_spec desc_type.LX_INVALID (get_masked_value e S2TTE.DESC_TYPE)) as [Hde|];
    cbn [negb] in Hs; [|done].
  assert (is_assigned_ns e level = false /\ is_assigned_ram e level = false /\ is_table e level = false)
    as (Hans & Hram & Htb).
  { unfold is_assigned_ns, is_assigned_ram, is_table. rewrite <- Hde. simpl. rewrite !andb_false_r.
    by destruct (_ =? 0). }
  rewrite Hans, Hram in Hs. cbn [orb] in Hs. destruct (is_assigned e) eqn:Ha.
  - rewrite addr_as_block_level in Hs |- * by done. simpl mbind in Hs.
    destruct (Z.eqb_spec (Word.add (h_pa h) ms) (get_masked e (define_mask 47 (level_shift level))))
      as [->|]; cbn [negb] in Hs; [|done].
    destruct (Z.eqb_spec (h_ripas h) (get_masked_value e S2TTE.INVALID_RIPAS));
      cbn [negb] in Hs; [|done]. simplify_eq. by rewrite Hd.
  - exfalso. unfold entry_states, existsb, id in Hk. rewrite Ha, Hans, Hram, Htb in Hk.
    destruct (is_unassigned_ns e) eqn:Hun.
    + unfold is_unassigned_ns in Hun. rewrite !andb_true_iff, negb_true_iff, !Z.eqb_eq, Z.eqb_neq in Hun.
      destruct Hun as [_ Hun]. by rewrite Hns, (proj2 (Z.eqb_neq 0 _)) in Hs by congruence.
    + destruct (is_unassigned e) eqn:Hu; [|done]. unfold is_unassigned in Hu.
      rewrite !andb_true_iff, !Z.eqb_eq in Hu. destruct Hu as [[_ Hu] _].
      by rewrite Hh, Hu in Hs.
Qed.

(** An entry compared with a first entry that maps non-secure memory. *)
Lemma homog_step_ns h e h' :
  level = 2 \/ level = 3 -> homog_step level ms h e = Ok (Some h') ->
  get_masked_value (h_attr h) S2TTE.NS <> 0 ->
  (level = 3 -> h_desc_type h = desc_type.L3_PAGE) ->
  (level = 2 -> h_desc_type h = desc_type.L012_BLOCK) ->
  is_assigned_ram e level = false ->
  is_assigned_ns e level = true /\ addr_as_block e level = Ok (Word.add (h_pa h) ms) /\
  h_attr h = Z.land e (Word.not (default 0 (level_mask level))) /\
  h' = mkHomog (h_hipas h) (h_ripas h) (h_desc_type h) (Word.add (h_pa h) ms) (h_attr h) (h_ns h).
Proof.
  intros Hlv Hs Hns H3 H2 Hram. unfold homog_step in Hs.
  destruct (Z.eqb_spec (h_desc_type h) (get_masked_value e S2TTE.DESC_TYPE)) as [Hd|];
    cbn [negb] in Hs; [|done].
  assert (is_assigned_ns e level = true) as Hans.
  { unfold is_assigned_ns, is_assigned_ram in *. rewrite <- Hd in *.
    destruct (get_masked_value e S2TTE.NS =? 0);
      (destruct Hlv as [-> | ->]; [rewrite H2 in * by done|rewrite H3 in * by done]); done. }
  rewrite Hans in Hs. rewrite addr_as_block_level in Hs |- * by done. simpl mbind in Hs.
  destruct (Z.eqb_spec (Word.add (h_pa h) ms) (get_masked e (define_mask 47 (level_shift level))))
    as [->|]; cbn [negb] in Hs; [|done].
  destruct (Z.eqb_spec (h_attr h) (Z.land e (Word.not (default 0 (level_mask level)))));
    cbn [negb] in Hs; [|done]. by simplify_eq.
Qed.
End homogeneous.

Section homogeneous_report.
Context (level : Z) (Hl : 1 <= level <= 3).
Abbreviation ms := (2 ^ level_shift level).
Abbreviation addr e := (get_masked e (define_mask 47 (level_shift level))).

(** The first entry is a leaf. *)
Definition leaf_first (e : Z) : bool :=
  is_unassigned e || is_assigned e || is_assigned_ram e level || is_assigned_ns e level
  || (is_unassigned_ns e && (get_masked_value e S2TTE.INVALID_RIPAS =? 0)).

Lemma addr_bounds e : 0 <= addr e < 2 ^ 48.
Proof. apply masked_block. unfold level_shift. lia. Qed.

Lemma next_addr e n : 0 <= n < 512 -> Word.wrap (addr e + n * ms) = addr e + n * ms.
Proof.
  intros Hn. pose proof (addr_bounds e). pose proof (ms_bounds level Hl).
  apply Word.wrap_small. unfold Word.in_range, Word.modulus. nia.
Qed.

Lemma wrap_next a n : Word.add (Word.wrap (a + n * ms)) ms = Word.wrap (a + (n + 1) * ms).
Proof. unfold Word.add, Word.wrap. rewrite Z.add_mod_idemp_l by done. f_equal. lia. Qed.

Lemma host_bits_split e :
  level = 2 \/ level = 3 ->
  get_masked e (host_bits level)
  = addr e + get_masked (Z.land e (Word.not (default 0 (level_mask level))))
               (Z.lor (Z.lor S2TTE.MEMATTR S2TTE.S2AP) S2TTE.SH).
Proof.
  intros Hlv. unfold host_bits. set (attrs := Z.lor (Z.lor S2TTE.MEMATTR S2TTE.S2AP) S2TTE.SH).
  assert (default 0 (level_mask level) = define_mask 47 (level_shift level) /\
          Z.land (define_mask 47 (level_shift level)) attrs = 0) as [-> Hd]
    by (destruct Hlv as [-> | ->]; done).
  unfold get_masked. rewrite land_not_disjoint by (done || by vm_compute).
  rewrite Z.land_lor_distr_r, lor_add; [done|].
  rewrite (Z.land_comm e attrs), Z.land_assoc, <- (Z.land_assoc e), Hd, Z.land_0_r. done.
Qed.

Lemma homog_first_assigned e h :
  is_assigned_ns e level || is_assigned_ram e level || is_assigned e = true ->
  homog_first level e = Ok (Some h) ->
  (level = 2 \/ level = 3) /\
  Z.land (addr e) (Word.not (default 0 (level_mask (level - 1)))) = 0 /\
  h = mkHomog (get_masked_value e S2TTE.INVALID_HIPAS) (get_masked_value e S2TTE.INVALID_RIPAS)
        (get_masked_value e S2TTE.DESC_TYPE) (addr e)
        (Z.land e (Word.not (default 0 (level_mask level)))) (get_masked_value e S2TTE.NS).
Proof.
  intros Ha. unfold homog_first. rewrite Ha, addr_as_block_level by done. simpl mbind.
  destruct (negb (level =? 2) && negb (level =? 3)) eqn:E23; [done|].
  destruct (Z.eqb_spec (Z.land (addr e) (Word.not (default 0 (level_mask (level - 1))))) 0);
    cbn [negb]; [|done]. intros. simplify_eq. split_and!; [|done..].
  destruct (Z.eqb_spec level 2), (Z.eqb_spec level 3); simpl in E23; auto; done.
Qed.

(** What [homog_loop] says of entry [n], by the state of the first entry. *)
Definition first_homog (e0 n : Z) : homog :=
  mkHomog (get_masked_value e0 S2TTE.INVALID_HIPAS) (get_masked_value e0 S2TTE.INVALID_RIPAS)
    (get_masked_value e0 S2TTE.DESC_TYPE) (Word.wrap (addr e0 + n * ms))
    (Z.land e0 (Word.not (default 0 (level_mask level)))) (get_masked_value e0 S2TTE.NS).

Lemma first_homog_0 e0 : first_homog e0 0
  = mkHomog (get_masked_value e0 S2TTE.INVALID_HIPAS) (get_masked_value e0 S2TTE.INVALID_RIPAS)
      (get_masked_value e0 S2TTE.DESC_TYPE) (addr e0)
      (Z.land e0 (Word.not (default 0 (level_mask level)))) (get_masked_value e0 S2TTE.NS).
Proof. unfold first_homog. by rewrite next_addr, Z.mul_0_l, Z.add_0_r by lia. Qed.

Section rest.
Context (e0 : Z) (es : list Z) (i : nat) (e : Z).
Context (Hf : Forall (table_entry level) es) (Hi : es !! i = Some e) (Hi512 : (i < 511)%nat).
Abbreviation k := (Z.of_nat (S i)).

Lemma rest_assigned :
  is_assigned e0 = true -> homog_loop level ms (first_homog e0 0) es = Ok true ->
  entry_report e level = shift_report k (entry_report e0 level).
Proof.
  intros Has Hh. pose proof Has as Hfl. unfold is_assigned in Hfl.
  rewrite !andb_true_iff, !Z.eqb_eq in Hfl. destruct Hfl as [[Hn Hd] Hhi].
  assert (is_assigned e = true /\ addr_as_block e level = Ok (Word.wrap (addr e0 + k * ms)) /\
    get_masked_value e0 S2TTE.INVALID_RIPAS = get_masked_value e S2TTE.INVALID_RIPAS)
    as (Hae & Hadr & Hrip).
  { replace k with (0 + 1 + Z.of_nat i) by lia.
    eapply (homog_loop_ind level (table_entry level) (fun n h => h = first_homog e0 n)
      (fun n e => is_assigned e = true /\ addr_as_block e level = Ok (Word.wrap (addr e0 + n * ms)) /\
         get_masked_value e0 S2TTE.INVALID_RIPAS = get_masked_value e S2TTE.INVALID_RIPAS));
      [|reflexivity|exact Hf|exact Hh|exact Hi].
    intros n h e' h' -> Hte Hs. apply homog_step_assigned in Hs as (H1 & H2 & H3 & ->); [|done..].
    simpl in *. rewrite wrap_next in *. done. }
  rewrite (report_assigned e level Hae), (report_assigned e0 level Has), Hadr, addr_as_block_level by done.
  simpl. by rewrite next_addr, Hrip by lia.
Qed.

Lemma rest_ns :
  level = 2 \/ level = 3 -> is_assigned_ns e0 level = true ->
  Forall (fun e => is_assigned_ram e level = false) es ->
  homog_loop level ms (first_homog e0 0) es = Ok true ->
  entry_report e level = shift_report k (entry_report e0 level).
Proof.
  intros Hlv Hns Hnr Hh. apply assigned_ns_fields in Hns as Hfl. destruct Hfl as [Hn Hd].
  assert (is_assigned_ns e level = true /\ addr_as_block e level = Ok (Word.wrap (addr e0 + k * ms)) /\
    Z.land e0 (Word.not (default 0 (level_mask level))) = Z.land e (Word.not (default 0 (level_mask level))))
    as (Hae & Hadr & Hat).
  { replace k with (0 + 1 + Z.of_nat i) by lia.
    eapply (homog_loop_ind level (fun e => is_assigned_ram e level = false)
      (fun n h => h = first_homog e0 n)
      (fun n e => is_assigned_ns e level = true /\
         addr_as_block e level = Ok (Word.wrap (addr e0 + n * ms)) /\
         Z.land e0 (Word.not (default 0 (level_mask level)))
         = Z.land e (Word.not (default 0 (level_mask level)))));
      [|reflexivity|exact Hnr|exact Hh|exact Hi].
    intros n h e' h' -> Hr Hs. apply homog_step_ns in Hs as (H1 & H2 & H3 & ->); simpl; try done.
    - simpl in *. by rewrite wrap_next in *.
    - by rewrite attr_keeps_ns.
    - intros ->. destruct Hd as [[_ ?]|[? _]]; [done|lia].
    - intros ->. destruct Hd as [[? _]|[_ ?]]; [lia|done]. }
  rewrite (report_ns e level Hae), (report_ns e0 level Hns), !host_bits_split by done.
  rewrite addr_as_block_level in Hadr by done. injection Hadr as ->. rewrite next_addr by lia.
  rewrite Hat. simpl. do 4 f_equal. lia.
Qed.

Lemma rest_unassigned h :
  is_unassigned e0 = true \/
    (is_unassigned_ns e0 = true /\ get_masked_value e0 S2TTE.INVALID_RIPAS = 0) ->
  homog_first level e0 = Ok (Some h) -> homog_loop level ms h es = Ok true ->
  entry_report e level = shift_report k (entry_report e0 level).
Proof.
  intros Hu Hfst Hh.
  assert (get_masked_value e0 S2TTE.DESC_TYPE = 0 /\ get_masked_value e0 S2TTE.INVALID_HIPAS = 0)
    as [Hd Hhi].
  { unfold is_unassigned, is_unassigned_ns in Hu. rewrite !andb_true_iff, !Z.eqb_eq in Hu. tauto. }
  assert (h = mkHomog 0 (get_masked_value e0 S2TTE.INVALID_RIPAS) 0 0 0 (get_masked_value e0 S2TTE.NS)) as ->.
  { unfold homog_first in Hfst.
    assert (is_assigned_ns e0 level || is_assigned_ram e0 level || is_assigned e0 = false) as Hna.
    { unfold is_assigned_ns, is_assigned_ram, is_assigned. rewrite Hd, Hhi. simpl.
      rewrite !andb_false_r. by destruct (_ =? 0). }
    rewrite Hna, Hd, Hhi in Hfst. by simplify_eq. }
  assert ((is_unassigned_ns e = true /\ get_masked_value e0 S2TTE.NS = get_masked_value e S2TTE.NS) \/
          (is_unassigned e = true /\
           get_masked_value e0 S2TTE.INVALID_RIPAS = get_masked_value e S2TTE.INVALID_RIPAS)) as He.
  { eapply (homog_loop_ind level (table_entry level)
      (fun _ h => h = mkHomog 0 (get_masked_value e0 S2TTE.INVALID_RIPAS) 0 0 0 (get_masked_value e0 S2TTE.NS))
      (fun _ e => (is_unassigned_ns e = true /\ get_masked_value e0 S2TTE.NS = get_masked_value e S2TTE.NS) \/
          (is_unassigned e = true /\
           get_masked_value e0 S2TTE.INVALID_RIPAS = get_masked_value e S2TTE.INVALID_RIPAS)) _ _ 0);
      [|reflexivity|exact Hf|exact Hh|exact Hi].
    intros n h e' h' -> Hte Hs. apply homog_step_unassigned in Hs as [-> Hs]; done. }
  destruct Hu as [Hu|[Hu Hrip]].
  - assert (get_masked_value e0 S2TTE.NS = 0) as Hn0
      by (unfold is_unassigned in Hu; rewrite !andb_true_iff, !Z.eqb_eq in Hu; tauto).
    rewrite (report_unassigned e0 level Hu). destruct He as [[Hun Hn]|[Hue Hr]].
    + unfold is_unassigned_ns in Hun. rewrite <- Hn, Hn0 in Hun. by rewrite andb_false_r in Hun.
    + rewrite (report_unassigned e level Hue). simpl. by rewrite Hr.
  - rewrite (report_unassigned_ns e0 level Hu). destruct He as [[Hun _]|[Hue Hr]].
    + by rewrite (report_unassigned_ns e level Hun).
    + rewrite (report_unassigned e level Hue). simpl. by rewrite <- Hr, Hrip.
Qed.
End rest.

(** Every entry of a homogeneous table reports the first one's state, at the
    address its place in the table gives. *)
Lemma homogeneous_report e0 es :
  is_homogeneous (e0 :: es) level = Ok true -> leaf_first e0 = true ->
  Forall (table_entry level) es ->
  (is_assigned_ns e0 level = true -> Forall (fun e => is_assigned_ram e level = false) es) ->
  (length es < 512)%nat ->
  forall i e, es !! i = Some e ->
  entry_report e level = shift_report (Z.of_nat (S i)) (entry_report e0 level).
Proof.
  intros Hh Hleaf Hf Hns Hlen i e Hi. pose proof Hh as Hh0. unfold is_homogeneous in Hh.
  rewrite mapping_size_pow2 in Hh by lia. simpl in Hh.
  destruct (homog_first level e0) as [[h|]| | |] eqn:Ef; try done.
  assert (i < 511)%nat as Hi5 by (apply lookup_lt_Some in Hi; lia).
  unfold leaf_first in Hleaf. destruct (is_assigned_ram e0 level) eqn:Hram.
  { destruct (homog_first_assigned e0 h) as (Hlv & _ & _); [by rewrite Hram, orb_true_r|done|].
    destruct (homogeneous_ram_contiguous level e0 es (addr e0) Hlv Hh0 Hram
                (addr_as_block_level e0 level Hl) (S i) e Hi) as [Hr Ha].
    rewrite (report_ram e level Hr), (report_ram e0 level Hram), Ha, addr_as_block_level by done.
    simpl. by rewrite next_addr by lia. }
  destruct (is_assigned e0) eqn:Has.
  { destruct (homog_first_assigned e0 h) as (Hlv & _ & ->); [by rewrite Has, orb_true_r|done|].
    rewrite <- first_homog_0 in Hh. by apply (rest_assigned e0 es). }
  destruct (is_assigned_ns e0 level) eqn:Hans.
  { destruct (homog_first_assigned e0 h) as (Hlv & _ & ->); [by rewrite Hans|done|].
    rewrite <- first_homog_0 in Hh. apply (rest_ns e0 es); auto. }
  apply (rest_unassigned e0 es i e Hf Hi h); [|done..].
  destruct (is_unassigned e0); [by left|]. right. simpl in Hleaf.
  by rewrite andb_true_iff, Z.eqb_eq in Hleaf.
Qed.

(** ** The entry put in place of the table *)
Definition foldable (e : Z) (protected : bool) : bool :=
  is_assigned e || ((level =? 3) && (is_assigned_ram e level || is_assigned_ns e level))
  || ((is_unassigned_ns e || (is_unassigned e && negb protected))
      && (get_masked_value e S2TTE.INVALID_RIPAS =? 0))
  || (is_unassigned e && protected).

Lemma fold_masks e a b : Z.lor (get_masked e a) (get_masked e b) = get_masked e (Z.lor a b).
Proof. unfold get_masked. by rewrite Z.land_lor_distr_r. Qed.

Lemma get_masked_value_out e m k : Z.land m k = 0 -> get_masked_value (get_masked e m) k = 0.
Proof.
  intros Hd. apply get_masked_value_zero. unfold get_masked.
  rewrite <- Z.land_assoc, Hd. apply Z.land_0_r.
Qed.

Definition up_report (r : outcome Error (list Z)) : outcome Error (list Z) :=
  match r with Ok [l; st; d; ripas] => Ok [l - 1; st; d; ripas] | r => r end.

Lemma fold_unassigned e protected :
  (is_unassigned e = true /\ (protected = false -> get_masked_value e S2TTE.INVALID_RIPAS = 0)) \/
  is_unassigned_ns e = true ->
  exists p, fold_entry e level protected = Ok p /\
    entry_report p (level - 1) = up_report (entry_report e level).
Proof.
  intros Hu.
  assert (get_masked_value e S2TTE.DESC_TYPE = 0 /\ get_masked_value e S2TTE.INVALID_HIPAS = 0)
    as [Hd Hh].
  { unfold is_unassigned, is_unassigned_ns in Hu. rewrite !andb_true_iff, !Z.eqb_eq in Hu. tauto. }
  unfold fold_entry.
  assert (is_assigned_ram e level || is_assigned_ns e level = false /\ is_assigned e = false) as [-> ->].
  { unfold is_assigned_ns, is_assigned_ram, is_assigned. rewrite Hd, Hh. simpl.
    rewrite !andb_false_r. by destruct (_ =? 0). }
  eexists (get_masked e (if protected then Z.lor S2TTE.NS S2TTE.INVALID_RIPAS else S2TTE.NS)).
  split; [destruct protected; by rewrite ?fold_masks|].
  destruct Hu as [[Hu Hr]|Hu].
  - rewrite (report_unassigned e level Hu). rewrite report_unassigned.
    + simpl. do 5 f_equal. destruct protected; [by apply get_masked_value_sub|].
      rewrite Hr by done. by apply get_masked_value_out.
    + unfold is_unassigned in *. rewrite !andb_true_iff, !Z.eqb_eq in Hu. destruct Hu as [_ Hn].
      destruct protected;
        rewrite (get_masked_value_out e _ S2TTE.DESC_TYPE), (get_masked_value_out e _ S2TTE.INVALID_HIPAS),
          (get_masked_value_sub e _ S2TTE.NS), Hn by done; done.
  - rewrite (report_unassigned_ns e level Hu). rewrite report_unassigned_ns; [done|].
    unfold is_unassigned_ns in *. rewrite !andb_true_iff in Hu. destruct Hu as [_ Hn].
    destruct protected;
      rewrite (get_masked_value_out e _ S2TTE.DESC_TYPE), (get_masked_value_out e _ S2TTE.INVALID_HIPAS),
        (get_masked_value_sub e _ S2TTE.NS), Hn by done; done.
Qed.

(** The folded entry of a table that maps memory: the address of the first
    entry, which is aligned to the parent's block, and flags. *)
Section mapped.
Context (e : Z) (Hlv : level = 2 \/ level = 3).
Context (Hal : Z.land (addr e) (Word.not (default 0 (level_mask (level - 1)))) = 0).

Lemma fold_addr flags :
  Z.land flags S2TTE.ADDR_TBL_OR_PAGE = 0 ->
  page_addr (addr e) /\ addr_as_block (Z.lor (addr e) flags) (level - 1) = Ok (addr e) /\
  get_masked (Z.lor (addr e) flags) (define_mask 47 (level_shift (level - 1))) = addr e.
Proof.
  intros Hf. pose proof (addr_bounds e) as Hb.
  assert (default 0 (level_mask (level - 1)) = define_mask 47 (level_shift (level - 1))) as Hm
    by (destruct Hlv as [-> | ->]; done).
  rewrite Hm in Hal. apply land_not_confined in Hal;
    [|unfold Word.in_range, Word.modulus; lia].
  assert (Z.land flags (define_mask 47 (level_shift (level - 1))) = 0) as Hfm.
  { replace (define_mask 47 (level_shift (level - 1)))
      with (Z.land S2TTE.ADDR_TBL_OR_PAGE (define_mask 47 (level_shift (level - 1))))
      by (destruct Hlv as [-> | ->]; done).
    by rewrite Z.land_assoc, Hf. }
  assert (get_masked (Z.lor (addr e) flags) (define_mask 47 (level_shift (level - 1))) = addr e) as Hg.
  { rewrite get_masked_lor. unfold get_masked at 1 3. by rewrite Hal, Hfm, Z.lor_0_r. }
  split_and!; [|rewrite addr_as_block_level by lia; by rewrite Hg|done].
  unfold page_addr. rewrite <- Hal at 1. rewrite <- Z.land_assoc.
  replace (Z.land (define_mask 47 (level_shift (level - 1))) S2TTE.ADDR_TBL_OR_PAGE)
    with (define_mask 47 (level_shift (level - 1))) by (destruct Hlv as [-> | ->]; done).
  exact Hal.
Qed.

Lemma fold_assigned protected :
  is_assigned e = true ->
  exists p, fold_entry e level protected = Ok p /\
    entry_report p (level - 1) = up_report (entry_report e level).
Proof.
  intros Ha. pose proof Ha as Hfl. unfold is_assigned in Hfl. rewrite !andb_true_iff, !Z.eqb_eq in Hfl.
  destruct Hfl as [[Hn Hd] Hh]. unfold fold_entry.
  assert (is_assigned_ram e level || is_assigned_ns e level = false) as ->.
  { unfold is_assigned_ns, is_assigned_ram. rewrite Hd, Hn. simpl. by rewrite !andb_false_r. }
  rewrite Ha, addr_as_block_level by done. simpl mbind.
  set (m := Z.lor (Z.lor (Z.lor S2TTE.NS (Z.lor S2TTE.S2AP S2TTE.SH)) S2TTE.INVALID_HIPAS) S2TTE.INVALID_RIPAS).
  exists (Z.lor (addr e) (get_masked e m)).
  split; [unfold m; by rewrite <- !fold_masks, <- !Z.lor_assoc|].
  destruct (fold_addr (get_masked e m)) as (Hp & Hab & _);
    [unfold get_masked; rewrite <- Z.land_assoc; apply Z.land_0_r|].
  rewrite (report_assigned e level Ha), report_assigned.
  - rewrite Hab, addr_as_block_level by done. simpl. do 5 f_equal.
    rewrite page_entry_field by done. by rewrite get_masked_value_sub.
  - rewrite page_entry_assigned by done. unfold is_assigned.
    rewrite (get_masked_value_out e m S2TTE.DESC_TYPE), (get_masked_value_sub e m S2TTE.NS),
      (get_masked_value_sub e m S2TTE.INVALID_HIPAS), Hn, Hh by done. done.
Qed.

Lemma fold_mapped protected :
  level = 3 -> is_assigned_ram e level || is_assigned_ns e level = true ->
  exists p, fold_entry e level protected = Ok p /\
    entry_report p (level - 1) = up_report (entry_report e level).
Proof.
  intros H3 Ha. unfold fold_entry. rewrite Ha, addr_as_block_level by done. simpl mbind.
  set (attrs := Z.lor (Z.lor S2TTE.MEMATTR S2TTE.S2AP) S2TTE.SH).
  set (flags := Z.lor (get_masked e (Z.lor S2TTE.NS attrs)) desc_type.L012_BLOCK).
  exists (Z.lor (addr e) flags).
  split; [unfold flags; rewrite <- fold_masks; f_equal; symmetry; apply Z.lor_assoc|].
  assert (get_masked_value flags S2TTE.DESC_TYPE = 1 /\
          get_masked_value flags S2TTE.NS = get_masked_value e S2TTE.NS /\
          Z.land flags S2TTE.ADDR_TBL_OR_PAGE = 0 /\ Z.land flags attrs = Z.land e attrs)
    as (Hd' & Hn' & Hz & Hat).
  { unfold flags. rewrite !get_masked_value_lor, !Z.land_lor_distr_l.
    rewrite get_masked_value_out, get_masked_value_sub by done.
    split_and!; [done|by rewrite Z.lor_0_r| |];
      unfold get_masked; rewrite <- Z.land_assoc.
    - rewrite Z.land_0_r. done.
    - replace (Z.land (Z.lor S2TTE.NS attrs) attrs) with attrs by done.
      replace (Z.land desc_type.L012_BLOCK attrs) with 0 by done. apply Z.lor_0_r. }
  destruct (fold_addr flags Hz) as (Hp & Hab & Hg).
  destruct (is_assigned_ram e level) eqn:Hram.
  - rewrite (report_ram e level Hram), report_ram.
    + by rewrite Hab, addr_as_block_level by done.
    + rewrite page_entry_assigned_ram by done. apply assigned_ram_fields in Hram as [Hn _].
      unfold is_assigned_ram. rewrite Hd', Hn', Hn. by rewrite H3.
  - simpl in Ha. rewrite (report_ns e level Ha), report_ns.
    + simpl. do 4 f_equal.
      assert (forall x l, get_masked x (host_bits l)
              = Z.lor (get_masked x (default 0 (level_mask l))) (get_masked x attrs)) as Hhb
        by (intros; symmetry; apply fold_masks).
      rewrite !Hhb.
      replace (default 0 (level_mask (level - 1))) with (define_mask 47 (level_shift (level - 1)))
        by (rewrite H3; done).
      replace (default 0 (level_mask level)) with (define_mask 47 (level_shift level))
        by (rewrite H3; done).
      rewrite Hg. f_equal. rewrite (get_masked_lor (addr e) flags attrs).
      assert (get_masked (addr e) attrs = 0) as ->.
      { unfold page_addr in Hp. rewrite <- Hp. unfold get_masked at 1. rewrite <- Z.land_assoc.
        apply Z.land_0_r. }
      exact Hat.
    + rewrite page_entry_assigned_ns by done. apply assigned_ns_fields in Ha as [Hn _].
      unfold is_assigned_ns. rewrite Hd', Hn', (proj2 (Z.eqb_neq _ _) Hn). by rewrite H3.
Qed.
End mapped.

Lemma foldable_leaf e protected : foldable e protected = true -> leaf_first e = true.
Proof.
  unfold foldable, leaf_first.
  destruct (is_unassigned e), (is_assigned e), (is_assigned_ram e level), (is_assigned_ns e level);
    simpl; try done. by rewrite andb_false_r, !orb_false_r.
Qed.

Lemma mapped_not_unassigned e :
  is_assigned_ram e level || is_assigned_ns e level = true ->
  is_unassigned e = false /\ is_unassigned_ns e = false.
Proof.
  intros Ha. assert (get_masked_value e S2TTE.DESC_TYPE <> 0) as Hd.
  { rewrite orb_true_iff in Ha. destruct Ha as [Ha|Ha];
      [apply assigned_ram_fields in Ha as [_ Ha]|apply assigned_ns_fields in Ha as [_ Ha]];
      destruct Ha as [[_ ->]|[_ ->]]; done. }
  unfold is_unassigned, is_unassigned_ns, desc_type.LX_INVALID. by rewrite (proj2 (Z.eqb_neq _ _) Hd).
Qed.

(** [fold] writes an entry that reports what the first entry reported, of
    the block one level up. *)
Lemma fold_entry_report e h protected :
  foldable e protected = true -> homog_first level e = Ok (Some h) ->
  exists p, fold_entry e level protected = Ok p /\
    entry_report p (level - 1) = up_report (entry_report e level).
Proof.
  intros Hfo Ef.
  destruct (is_assigned_ns e level || is_assigned_ram e level || is_assigned e) eqn:Ea.
  - destruct (homog_first_assigned e h Ea Ef) as (Hlv & Hzl & _).
    destruct (is_assigned e) eqn:Has; [by apply fold_assigned|].
    rewrite orb_false_r, orb_comm in Ea. apply fold_mapped; [done..| |done].
    destruct (mapped_not_unassigned e Ea) as [Hu1 Hu2].
    unfold foldable in Hfo. rewrite Has, Hu1, Hu2 in Hfo. simpl in Hfo.
    destruct (Z.eqb_spec level 3); done.
  - rewrite !orb_false_iff in Ea. destruct Ea as [[Ea1 Ea2] Ea3].
    apply fold_unassigned. unfold foldable in Hfo. rewrite Ea1, Ea2, Ea3 in Hfo. simpl in Hfo.
    rewrite andb_false_r in Hfo. simpl in Hfo.
    destruct (is_unassigned_ns e); [by right|]. left.
    destruct (is_unassigned e); [|done]. split; [done|]. intros ->. simpl in Hfo.
    by rewrite orb_false_r, Z.eqb_eq in Hfo.
Qed.

Lemma shift_report_0 r : shift_report 0 r = r.
Proof.
  destruct r as [[|l [|st [|d [|rp [|]]]]]| | |]; try done. simpl.
  by destruct (st =? _); rewrite ?Z.add_0_r.
Qed.

Lemma part_up_report k r : part_report k (up_report r) = shift_report k r.
Proof.
  destruct r as [[|l [|st [|d [|rp [|]]]]]| | |]; try done. simpl.
  by replace (l - 1 + 1) with l by lia.
Qed.
End homogeneous_report.

(** [is_homogeneous] answers at every level a table can have. *)
Lemma homogeneous_total level es :
  1 <= level <= 3 -> exists h, is_homogeneous es level = Ok h.
Proof.
  intros Hl. unfold is_homogeneous. rewrite mapping_size_pow2 by lia. simpl.
  destruct es as [|e es]; [by eauto|].
  assert (exists r, homog_first level e = Ok r) as [[h|] ->].
  { unfold homog_first. rewrite addr_as_block_level by done. simpl. repeat case_match; eauto. }
  - simpl. revert h. induction es as [|e1 es IH]; intros h; simpl; [by eauto|].
    assert (exists r, homog_step level (2 ^ level_shift level) h e1 = Ok r) as [[h'|] ->].
    { unfold homog_step. rewrite addr_as_block_level by done. simpl. repeat case_match; eauto. }
    + apply IH.
    + by eauto.
  - by eauto.
Qed.

(** Table descriptors are compared by nothing but their type. *)
Lemma tables_homogeneous es :
  Forall (fun e => is_table e 2 = true) es -> is_homogeneous es 2 = Ok true.
Proof.
  assert (forall e, is_table e 2 = true -> get_masked_value e S2TTE.DESC_TYPE = 3 /\
    is_assigned_ns e 2 = false /\ is_assigned_ram e 2 = false /\ is_assigned e = false /\
    is_unassigned_ns e = false /\ is_unassigned e = false) as Htb.
  { intros e He. unfold is_table in He. simpl in He. rewrite Z.eqb_eq in He.
    unfold is_assigned_ns, is_assigned_ram, is_assigned, is_unassigned_ns, is_unassigned.
    rewrite He. simpl. rewrite !andb_false_r. by destruct (_ =? 0). }
  intros Hf. unfold is_homogeneous. rewrite mapping_size_pow2 by lia. simpl.
  destruct es as [|e0 es]; [done|]. apply Forall_cons_1 in Hf as [He Hf].
  destruct (Htb e0 He) as (Hd & H1 & H2 & H3 & _). unfold homog_first. rewrite H1, H2, H3, Hd. simpl.
  generalize (get_masked_value e0 S2TTE.INVALID_HIPAS), (get_masked_value e0 S2TTE.INVALID_RIPAS),
    (get_masked_value e0 S2TTE.NS). intros hi ri ns. clear Hd H1 H2 H3.
  induction Hf as [|e es Het Hf IH]; [done|]. simpl.
  destruct (Htb e Het) as (Hd & H1 & H2 & H3 & H4 & H5). unfold homog_step. simpl.
  by rewrite Hd, H1, H2, H3, H4, H5.
Qed.

(** ** RTT_FOLD *)
Section fold.
Context `{Platform}.

Lemma reaches_lock rd s t ipa level pre b l :
  reaches rd s t ipa level pre b -> reaches rd (set_locked l s) t ipa level pre b.
Proof. by intros []. Qed.

Lemma reaches_granule_state rd s t ipa level pre b idx st :
  reaches rd s t ipa level pre b -> (forall a, a ∈ pre \/ a = b -> page_of a <> index_to_addr idx) ->
  reaches rd (with_granule_state idx st s) t ipa level pre b /\
  read_word b (with_granule_state idx st s) = read_word b s.
Proof.
  intros Hr Hfr. unfold with_granule_state. destruct (set_state_zeroizes _ _); [|by destruct Hr].
  pose proof (reaches_write_page _ _ _ _ _ _ _ (index_to_addr idx) zero_page Hr Hfr) as Hr'.
  split; [by destruct Hr'|].
  change (read_word b (write_page (index_to_addr idx) zero_page s) = read_word b s).
  apply read_write_page. auto.
Qed.

Lemma table_word s rtt k :
  0 <= k < 512 -> table_words rtt TABLE_SIZE s !! Z.to_nat k = Some (read_word (rtt + 8 * k) s).
Proof.
  intros Hk. unfold table_words. rewrite list_lookup_fmap.
  change (Z.to_nat (TABLE_SIZE / ENTRY_SIZE)) with 512%nat.
  rewrite lookup_seq_lt by lia. simpl fmap. by rewrite Z2Nat.id by lia.
Qed.

(** The state [fold] and [destroy] leave: [p] in place of the table. *)
Definition replaced (rd : Rd.t) (t : Stage2Translation) (ipa level b p : Z) (i : Tlbi) (rtt : Z)
    (s : rmm) : rmm :=
  with_granule_state (granule_addr_to_index rtt) GranuleState.Delegated
    (after_set rd t ipa (level - 1) b p i s).
Definition folded (rd : Rd.t) (t : Stage2Translation) (ipa level b p : Z) (i : Tlbi) (rtt : Z)
    (s : rmm) : rmm :=
  let idx := granule_addr_to_index rtt in
  unlock idx (replaced rd t ipa level b p i rtt (lock idx s)).

Section run.
Context (rd : Rd.t) (s : rmm) (t : Stage2Translation) (ipa level rtt : Z) (pre : list Z) (b : Z).
Context (Hr : reaches rd s t ipa (level - 1) pre b).
Context (Hl : root_level t < level <= 3) (Hipa : 0 <= ipa < 2 ^ 48).
Context (Hal : ipa mod 2 ^ level_shift (level - 1) = 0).
Context (Htbl : is_table (read_word b s) (level - 1) = true).
Context (Hadr : get_masked (read_word b s) S2TTE.ADDR_TBL_OR_PAGE = rtt).
Context (Hfresh : forall a, a ∈ pre \/ a = b -> page_of a <> rtt).
Abbreviation idx := (granule_addr_to_index rtt).
Abbreviation es := (table_words rtt TABLE_SIZE s).
Context (Hv : validate_addr rtt = true) (Hu : idx ∉ locked s).

Lemma table_points : entry_points_to_table_or_page (read_word b s) = true.
Proof. rewrite is_table_points in Htbl. by apply andb_true_iff in Htbl as [_ ?]. Qed.

Lemma rtt_page : page_addr rtt.
Proof. by apply validate_addr_page_addr. Qed.

Lemma first_entry : read_word (rtt + 8 * 0) s = read_word rtt s.
Proof. f_equal. lia. Qed.

Lemma reaches_first : reaches rd s t ipa level (pre ++ [b]) rtt.
Proof.
  pose proof (reaches_below rd s t ipa level rtt pre b Hr Hl Hipa Hal rtt_page Hfresh 0
                table_points Hadr ltac:(lia)) as Hc.
  by rewrite Z.mul_0_l, !Z.add_0_r in Hc.
Qed.

Lemma fold_run h :
  state (gst s idx) = GranuleState.RTT -> is_homogeneous es level = Ok h ->
  fold rd ipa level s =
  (if h then
     match fold_entry (read_word rtt s) level (Rd.addr_in_par rd ipa) with
     | Ok p => (Ok rtt, folded rd t ipa level b p (BREAKDOWN (Rd.id rd)) rtt s)
     | Err e => (Err e, s)
     | Panicked => (Panicked, s)
     | Hung => (Hung, s)
     end
   else (Err (RmiErrorRtt level), s)).
Proof.
  intros Hst Hh. pose proof (level_bounds _ _ _ _ _ _ _ Hr Hl) as Hlb. unfold fold.
  rewrite Word.sub_small by (unfold Word.modulus; lia).
  erewrite bind_ok by (eapply reaches_get; exact reaches_first). cbv beta iota.
  erewrite bind_ok by (eapply reaches_get; exact Hr). cbv beta iota.
  rewrite Z.ltb_irrefl, Htbl. cbn [negb orb]. rewrite Hadr.
  rewrite with_granule_if_run by done. cbv zeta.
  unfold s2_table. mstep. change (rtt_tables (lock _ _)) with (rtt_tables s).
  rewrite (reach_table _ _ _ _ _ _ _ Hr). cbn [unwrap]. mstep.
  pose proof (reaches_lock _ _ _ _ _ _ _ ({[idx]} ∪ locked s) Hr) as Hrl.
  erewrite bind_ok by (eapply (entries_below rd (lock idx s) t ipa level rtt pre b Hrl); try done;
    [apply rtt_page|apply table_points]).
  cbv beta iota. change (table_words rtt TABLE_SIZE (lock idx s)) with es. rewrite Hh. mstep.
  destruct h.
  - destruct (fold_entry _ _ _) as [p|e| |]; mstep;
      [|by rewrite unlock_lock..|unfold mbind, M_bind, lift; by rewrite unlock_lock].
    erewrite bind_ok by (by eapply reaches_set). cbv beta.
    erewrite bind_ok by apply set_granule_run. done.
  - unfold throw. by rewrite unlock_lock.
Qed.

(** The table's granule is wiped and delegated, and the entry in its place is
    [p]. *)
Lemma replaced_reaches p i l (s' := replaced rd t ipa level b p i rtt (set_locked l s)) :
  reaches rd s' (dirtied i t) ipa (level - 1) pre b /\ read_word b s' = p.
Proof.
  pose proof (reaches_lock _ _ _ _ _ _ _ l Hr) as Hrl.
  pose proof (reaches_after_set _ _ _ _ _ _ _ p i Hrl) as Hra.
  assert (index_to_addr idx = rtt) as Hix by (by apply index_to_addr_to_index).
  destruct (reaches_granule_state _ _ _ _ _ _ _ idx GranuleState.Delegated Hra) as [Hrg Hrd];
    [by rewrite Hix|].
  split; [exact Hrg|]. unfold s', replaced. rewrite Hrd. apply after_set_read.
Qed.

Lemma folded_spec p i (s' := folded rd t ipa level b p i rtt s) :
  state (gst s' idx) = GranuleState.Delegated /\ mem s' rtt = zero_page /\ locked s' = locked s /\
  reaches rd s' (dirtied i t) ipa (level - 1) pre b /\ read_word b s' = p.
Proof.
  destruct (replaced_reaches p i ({[idx]} ∪ locked s)) as [Hrg Hrd].
  assert (index_to_addr idx = rtt) as Hix by (by apply index_to_addr_to_index).
  split_and!.
  - unfold s', folded, unlock, replaced. change (gst (set_locked ?l ?x)) with (gst x).
    rewrite with_granule_state_gst. by rewrite decide_True.
  - unfold s', folded, unlock, replaced. change (mem (set_locked ?l ?x)) with (mem x).
    rewrite with_granule_state_mem, decide_True; [done|]. split; [done|].
    unfold set_state_zeroizes. by rewrite orb_true_r.
  - unfold s', folded, unlock, replaced. change (locked (set_locked ?l ?x)) with l.
    rewrite with_granule_state_locked. unfold after_set.
    destruct i; simpl; by apply lock_difference.
  - unfold s', folded, unlock. apply reaches_lock. exact Hrg.
  - unfold s', folded, unlock. change (read_word b (set_locked ?l ?x)) with (read_word b x).
    exact Hrd.
Qed.

(** The folded entry says of each part what its entry said. *)
Lemma folded_report :
  foldable level (read_word rtt s) (Rd.addr_in_par rd ipa) = true ->
  Forall (table_entry level) es ->
  (is_assigned_ns (read_word rtt s) level = true -> Forall (fun e => is_assigned_ram e level = false) es) ->
  is_homogeneous es level = Ok true ->
  exists p, fold_entry (read_word rtt s) level (Rd.addr_in_par rd ipa) = Ok p /\
  forall k, 0 <= k < 512 ->
    part_report k (entry_report p (level - 1)) = entry_report (read_word (rtt + 8 * k) s) level.
Proof.
  intros Hfo Hf Hns Hh. pose proof (level_bounds _ _ _ _ _ _ _ Hr Hl) as Hlb.
  set (e0 := read_word rtt s) in *. set (prot := Rd.addr_in_par rd ipa) in *.
  assert (exists es', es = e0 :: es' /\ length es' = 511%nat) as (es' & Ees & Hlen).
  { pose proof (table_word s rtt 0 ltac:(lia)) as H0. rewrite first_entry in H0.
    pose proof (table_words_length rtt TABLE_SIZE s) as Hlen.
    change (Z.to_nat (TABLE_SIZE / ENTRY_SIZE)) with 512%nat in Hlen.
    destruct es as [|x es']; [done|]. simpl in H0, Hlen. injection H0 as ->. exists es'. split; [done|lia]. }
  pose proof Hh as Hh'. rewrite Ees in Hh'. unfold is_homogeneous in Hh'.
  rewrite mapping_size_pow2 in Hh' by lia. simpl in Hh'.
  destruct (homog_first level e0) as [[h|]| | |] eqn:Ef; try done.
  destruct (fold_entry_report level Hlb e0 h prot Hfo Ef) as (p & Hp & Hrep).
  exists p. split; [exact Hp|]. intros k Hk. rewrite Hrep, part_up_report.
  pose proof (table_word s rtt k Hk) as Hw. destruct (decide (k = 0)) as [-> |Hk0].
  { rewrite first_entry. apply shift_report_0. }
  rewrite Ees in Hh, Hf, Hw, Hns. replace (Z.to_nat k) with (S (Z.to_nat (k - 1))) in Hw by lia.
  simpl in Hw. symmetry. replace k with (Z.of_nat (S (Z.to_nat (k - 1)))) at 2 by lia.
  eapply (homogeneous_report level Hlb e0 es'); [exact Hh|by eapply foldable_leaf| | |lia|exact Hw].
  - by apply Forall_cons_1 in Hf as [_ ?].
  - intros Ha. by apply Hns, Forall_cons_1 in Ha as [_ ?].
Qed.
End run.

(** C10: RTT_FOLD's table operation, for a parent entry that is a descriptor
    of the RTT granule [rtt]. When the entries are not homogeneous it reports
    the level and changes nothing. When they are, and the first is [foldable]
    (assigned; valid, at level 3 only; or unassigned, without a RIPAS where the
    address is unprotected; so not a table and not a block), the table's granule is wiped and returned to the
    Delegated state, the parent becomes a leaf, and what RTT_READ_ENTRY says
    of that leaf implies, for each of the 512 parts, exactly what it said of
    the part before: the state, the RIPAS and the address. *)
Theorem fold_spec rd s t ipa level rtt pre b :
  reaches rd s t ipa (level - 1) pre b -> root_level t < level <= 3 ->
  0 <= ipa < 2 ^ 48 -> ipa mod 2 ^ level_shift (level - 1) = 0 ->
  is_table (read_word b s) (level - 1) = true ->
  get_masked (read_word b s) S2TTE.ADDR_TBL_OR_PAGE = rtt ->
  (forall a, a ∈ pre \/ a = b -> page_of a <> rtt) ->
  validate_addr rtt = true -> granule_addr_to_index rtt ∉ locked s ->
  state (gst s (granule_addr_to_index rtt)) = GranuleState.RTT ->
  let es := table_words rtt TABLE_SIZE s in
  Forall (table_entry level) es ->
  (is_assigned_ns (read_word rtt s) level = true ->
     Forall (fun e => is_assigned_ram e level = false) es) ->
  exists h, is_homogeneous es level = Ok h /\
  if h then
    foldable level (read_word rtt s) (Rd.addr_in_par rd ipa) = true ->
    exists s' r, fold rd ipa level s = (Ok rtt, s') /\
      state (gst s' (granule_addr_to_index rtt)) = GranuleState.Delegated /\
      mem s' rtt = zero_page /\ locked s' = locked s /\
      read_entry rd ipa (level - 1) s' = (r, s') /\
      forall k, 0 <= k < 512 ->
        (part_report k r, s) = read_entry rd (ipa + k * 2 ^ level_shift level) level s
  else fold rd ipa level s = (Err (RmiErrorRtt level), s).
Proof.
  intros Hr Hl Hi Hal Ht Ha Hfr Hv Hu Hst es Hf Hns.
  pose proof (level_bounds _ _ _ _ _ _ _ Hr Hl) as Hlb.
  destruct (homogeneous_total level es Hlb) as [h Hh]. exists h. split; [exact Hh|].
  pose proof (fold_run rd s t ipa level rtt pre b Hr Hl Hi Hal Ht Ha Hfr Hv Hu h Hst Hh) as Hrun.
  destruct h; [|exact Hrun]. intros Hfo.
  destruct (folded_report rd s t ipa level rtt pre b Hr Hl Hfo Hf Hns Hh) as (p & Hp & Hk).
  destruct (folded_spec rd s t ipa level rtt pre b Hr Hfr Hv Hu p (BREAKDOWN (Rd.id rd))) as (H1 & H2 & H3 & H4 & H5).
  rewrite Hp in Hrun. exists (folded rd t ipa level b p (BREAKDOWN (Rd.id rd)) rtt s), (entry_report p (level - 1)).
  split_and!; [exact Hrun|done..| |].
  - erewrite read_entry_report by exact H4. by rewrite H5.
  - intros k Hk5. pose proof (reaches_below rd s t ipa level rtt pre b Hr Hl Hi Hal
      (rtt_page rtt Hv) Hfr k (table_points s level b Ht) Ha Hk5) as Hrc.
    erewrite read_entry_report by exact Hrc. by rewrite Hk.
Qed.

(** RTT_FOLD of a level-2 table all of whose entries are tables succeeds:
    the homogeneity test compares only the descriptor types of table entries.
    The parent becomes an unassigned entry, so every mapping below it is gone
    without DATA_DESTROY or RTT_DESTROY of what it mapped, and protected RAM
    turns into unassigned memory without the RIPAS change the realm would have
    to ask for. *)
Theorem fold_drops_subtables rd s t ipa rtt pre b :
  reaches rd s t ipa 1 pre b -> root_level t < 2 ->
  0 <= ipa < 2 ^ 48 -> ipa mod 2 ^ 30 = 0 -> Rd.addr_in_par rd ipa = true ->
  is_table (read_word b s) 1 = true ->
  get_masked (read_word b s) S2TTE.ADDR_TBL_OR_PAGE = rtt ->
  (forall a, a ∈ pre \/ a = b -> page_of a <> rtt) ->
  validate_addr rtt = true -> granule_addr_to_index rtt ∉ locked s ->
  state (gst s (granule_addr_to_index rtt)) = GranuleState.RTT ->
  Forall (fun e => is_table e 2 = true) (table_words rtt TABLE_SIZE s) ->
  get_masked_value (read_word rtt s) S2TTE.NS = 0 ->
  exists s' ripas, fold rd ipa 2 s = (Ok rtt, s') /\
    read_entry rd ipa 1 s' = (Ok [1; Rmi.RMI_UNASSIGNED; 0; ripas], s').
Proof.
  intros Hr Hl Hi Hal Hpar Ht Ha Hfr Hv Hu Hst Hf Hn.
  pose proof (fold_run rd s t ipa 2 rtt pre b Hr ltac:(lia) Hi Hal Ht Ha Hfr Hv Hu true Hst
                (tables_homogeneous _ Hf)) as Hrun.
  rewrite Hpar in Hrun. set (e0 := read_word rtt s) in *.
  assert (is_table e0 2 = true) as He0.
  { assert (table_words rtt TABLE_SIZE s !! 0%nat = Some (read_word (rtt + 8 * 0) s)) as Hw0
      by (apply (table_word s rtt 0); lia).
    eapply Forall_lookup_1 in Hf; [|exact Hw0].
    by rewrite first_entry in Hf. }
  assert (fold_entry e0 2 true = Ok (get_masked e0 (Z.lor S2TTE.NS S2TTE.INVALID_RIPAS))) as Hp.
  { unfold fold_entry, is_assigned_ram, is_assigned_ns, is_assigned.
    unfold is_table in He0. simpl in He0. rewrite Z.eqb_eq in He0. rewrite He0, Hn. simpl.
    by rewrite fold_masks. }
  rewrite Hp in Hrun.
  destruct (folded_spec rd s t ipa 2 rtt pre b Hr Hfr Hv Hu
    (get_masked e0 (Z.lor S2TTE.NS S2TTE.INVALID_RIPAS)) (BREAKDOWN (Rd.id rd))) as (_ & _ & _ & H4 & H5).
  eexists _, _. split; [exact Hrun|]. erewrite read_entry_report by exact H4. rewrite H5.
  rewrite report_unassigned; [done|]. unfold is_unassigned.
  rewrite (get_masked_value_out e0 _ S2TTE.DESC_TYPE), (get_masked_value_out e0 _ S2TTE.INVALID_HIPAS),
    (get_masked_value_sub e0 _ S2TTE.NS), Hn by done. done.
Qed.

(** folding a table of RAM pages produces a block without the access flag,
    whatever the pages' access flags were: the realm's next access to the
    block faults, although the pages were accessible. *)
Theorem fold_drops_access_flag e protected p :
  is_assigned_ram e 3 = true -> fold_entry e 3 protected = Ok p ->
  is_assigned_ram p 2 = true /\ get_masked_value p S2TTE.AF = 0.
Proof.
  intros Hram. unfold fold_entry. rewrite Hram. cbn [orb].
  rewrite addr_as_block_level by lia. simpl mbind.
  set (pa := get_masked e (define_mask 47 (level_shift 3))).
  intros [= <-]. rewrite fold_masks, <- Z.lor_assoc.
  assert (page_addr pa) as Hpa.
  { unfold page_addr, pa, get_masked. by rewrite <- Z.land_assoc, Z.land_diag. }
  rewrite page_entry_assigned_ram, page_entry_field by done.
  apply assigned_ram_fields in Hram as [Hn _]. unfold is_assigned_ram.
  rewrite !get_masked_value_lor, (get_masked_value_sub e _ S2TTE.NS) by done.
  rewrite (get_masked_value_out e _ S2TTE.DESC_TYPE), (get_masked_value_out e _ S2TTE.AF), Hn by done.
  done.
Qed.
End fold.

(** ** Witnesses: the empty level-2 table of 2^38, and a full tree. *)
Lemma fold_spec_witness :
  exists s' r, fold sample_realm (2 ^ 38) 2 sample_tables = (Ok 0x80005000, s') /\
    mem s' 0x80005000 = zero_page /\
    read_entry sample_realm (2 ^ 38) 1 s' = (r, s') /\
    (part_report 3 r, sample_tables)
    = read_entry sample_realm (2 ^ 38 + 3 * 2 ^ level_shift 2) 2 sample_tables.
Proof.
  destruct (fold_spec sample_realm sample_tables sample_s2 (2 ^ 38) 2 0x80005000 [] 0x80001800
    sample_reaches_root ltac:(simpl; lia) ltac:(lia) eq_refl ltac:(vm_compute; reflexivity)
    ltac:(vm_compute; reflexivity)) as (h & Hh & Hrest).
  - intros a [Ha| ->]; [set_solver|vm_compute; done].
  - vm_compute; reflexivity.
  - set_solver.
  - vm_compute; reflexivity.
  - apply (forallb_Forall (table_entryb 2) _ _ (table_entryb_spec 2)). vm_compute. reflexivity.
  - intros Ha. exfalso. revert Ha. vm_compute. done.
  - assert (is_homogeneous (table_words 0x80005000 TABLE_SIZE sample_tables) 2 = Ok true) as Hh'
      by (vm_compute; reflexivity).
    rewrite Hh' in Hh. injection Hh as <-.
    destruct (Hrest ltac:(vm_compute; reflexivity)) as (s' & r & H1 & _ & H2 & _ & H3 & H4).
    exists s', r. split; [exact H1|]. split; [exact H2|]. split; [exact H3|].
    apply (H4 3). lia.
Defined.

Lemma fold_drops_subtables_witness :
  exists s' ripas, fold sample_realm 0 2 sample_full = (Ok 0x80002000, s') /\
    read_entry sample_realm 0 1 s' = (Ok [1; Rmi.RMI_UNASSIGNED; 0; ripas], s').
Proof.
  apply (fold_drops_subtables sample_realm sample_full sample_s2 0 0x80002000 [] 0x80001000
    sample_reaches_full).
  - simpl; lia.
  - lia.
  - reflexivity.
  - reflexivity.
  - vm_compute; reflexivity.
  - vm_compute; reflexivity.
  - intros a [Ha| ->]; [set_solver|vm_compute; done].
  - vm_compute; reflexivity.
  - set_solver.
  - vm_compute; reflexivity.
  - apply (forallb_Forall (fun e => is_table e 2)); [done|]. vm_compute. reflexivity.
  - vm_compute; reflexivity.
Defined.

Lemma fold_drops_access_flag_witness :
  let e := data_s2tte 0x80004000 invalid_ripas.RAM false in
  exists p, fold_entry e 3 true = Ok p /\ is_assigned_ram p 2 = true /\
    get_masked_value p S2TTE.AF = 0 /\ get_masked_value e S2TTE.AF = 1.
Proof.
  intros e. eexists. split; [reflexivity|].
  destruct (fold_drops_access_flag e true _ ltac:(vm_compute; reflexivity) eq_refl) as [H1 H2].
  split; [exact H1|]. split; [exact H2|]. vm_compute. reflexivity.
Defined.
