(* ===== verification/Ripas.v ===== *)
(** * Changing the RIPAS of a range

    RTT_INIT_RIPAS and RTT_SET_RIPAS (realm/mm/rtt.rs, [init_ripas],
    [set_ripas]): the loops end within the entries of one table, and
    [set_ripas] changes the RIPAS of exactly the range it reports. *)

From S2P Require Import Prelude Bytes Bits Vmsa RmiTypes Granule S2tte Objects Machine PageTable Stage2 Stage2Facts Measurement Rtt RttFacts Sample SampleRealm RttTree RttFold.

(** ** The loops end *)
Lemma slot_halts depth base tsz page : slot depth base tsz page <> Hung.
Proof.
  unfold slot. simpl e_index. unfold entry_index.
  repeat (case_match; simpl; try done).
Qed.
#[export] Hint Resolve slot_halts : islet.

Section halting.
Context `{Platform}.

Lemma subtable_halts depth base tsz page : halts (S := rmm) (subtable 3 depth base tsz page).
Proof. unfold subtable. halts. Qed.
Hint Resolve subtable_halts : islet.

Lemma entry_halts {A} depth base tsz page level chk (f : Z -> M rmm MmError A) :
  (forall a, halts (f a)) -> halts (entry 3 depth base tsz page level chk f).
Proof.
  intros Hf. revert base tsz. induction depth as [|depth IH]; intros base tsz; cbn [entry]; halts.
Qed.

Lemma s2_table_halts rd : halts (s2_table rd).
Proof. unfold s2_table. halts. apply halts_lift. by destruct (_ !! _). Qed.
Hint Resolve s2_table_halts : islet.

Lemma get_s2tte_halts rd ipa level e : halts (get_s2tte rd ipa level e).
Proof.
  unfold get_s2tte, ipa_to_pte, root_entry. halts.
  - apply entry_halts. halts.
  - apply halts_lift. by destruct a0.
Qed.

Lemma s2_pte_set_halts rd ipa level v i : halts (s2_pte_set rd ipa level v i).
Proof.
  unfold s2_pte_set, ipa_to_pte_set, root_entry, tlbi, set_dirty, insert_rtt. halts.
  apply entry_halts. halts.
Qed.
Hint Resolve get_s2tte_halts s2_pte_set_halts : islet.

Lemma hash_fields_halts h out input : hash_fields_into h out input <> Hung.
Proof. unfold hash_fields_into. by repeat case_match. Qed.

Lemma measure_ripas_halts rd base top : measure_ripas_granule rd base top <> Hung.
Proof.
  unfold measure_ripas_granule, hash_context_new, from_hash_algo, extend.
  repeat case_match; simplify_eq/=; try done;
    destruct (Rd.measurements rd !! _) as [m|]; simpl; try done;
    match goal with |- context [hash_fields_into ?h m ?d] =>
      pose proof (hash_fields_halts h m d); by destruct (hash_fields_into h m d) end.
Qed.

Lemma measure_rd_halts a f : (forall rd, f rd <> Hung) -> halts (measure_rd a f).
Proof. intros Hf. unfold measure_rd, read_rd, write_rd. halts. Qed.

Section loops.
Context (rd : Rd.t) (ms top : Z) (Hms : 0 < ms).

(** Each round advances by the mapping size, so [n] entries need [n + 1]
    rounds, the last one finding the end of the table. *)
Lemma init_ripas_loop_halts n a tt addr :
  0 <= addr -> tt < Word.modulus -> (ms | tt) -> (ms | addr) ->
  Z.max 0 (tt - addr) < Z.of_nat n * ms -> halts (init_ripas_loop n rd a ms top tt addr).
Proof.
  revert addr. induction n as [|n IH]; intros addr H0 Ht Hdt Hda Hn.
  { lia. }
  cbn [init_ripas_loop]. destruct (Z.ltb_spec addr tt) as [Hlt|]; cbn [negb]; [|halts].
  assert (addr + ms <= tt) as Hle.
  { destruct Hdt as [x ->], Hda as [y ->]. assert (y < x) by nia. nia. }
  assert (halts (init_ripas_loop n rd a ms top tt (Word.add addr ms))) as Hrec.
  { rewrite Word.add_small by lia. apply IH; [lia|done|done| |lia].
    by apply Z.divide_add_r; [|apply Z.divide_refl]. }
  assert (halts (measure_rd a (fun rd => measure_ripas_granule rd addr (Word.add addr ms))))
    by (apply measure_rd_halts; intros; apply measure_ripas_halts).
  cbv zeta. halts.
Qed.

Lemma set_ripas_loop_halts n ripas flags level tt addr :
  0 <= addr -> tt < Word.modulus -> (ms | tt) -> (ms | addr) ->
  Z.max 0 (tt - addr) < Z.of_nat n * ms -> halts (set_ripas_loop n rd ripas flags level ms tt top addr).
Proof.
  revert addr. induction n as [|n IH]; intros addr H0 Ht Hdt Hda Hn.
  { lia. }
  cbn [set_ripas_loop]. destruct (Z.ltb_spec addr tt) as [Hlt|]; cbn [negb andb]; [|halts].
  assert (addr + ms <= tt) as Hle.
  { destruct Hdt as [x ->], Hda as [y ->]. assert (y < x) by nia. nia. }
  assert (halts (set_ripas_loop n rd ripas flags level ms tt top (Word.add addr ms))) as Hrec.
  { rewrite Word.add_small by lia. apply IH; [lia|done|done| |lia].
    by apply Z.divide_add_r; [|apply Z.divide_refl]. }
  halts. apply halts_lift. unfold addr_as_block. by repeat case_match.
Qed.
End loops.
End halting.

(** The span of a table is a power of two, at most 2^13 entries. *)
Lemma space_size_pow2 t level :
  s2_wf t -> 0 <= level <= 3 ->
  exists k, space_size t level = Ok (2 ^ k) /\ level_shift level <= k <= level_shift level + 13 /\ k < 64.
Proof.
  intros [Hs _] Hl. unfold space_size, root_supported in *.
  assert (level_shift level <= 39) by (unfold level_shift; lia).
  assert (exists c, 0 <= c <= 4 /\
    (if level =? root_level t then root_pages t else 1) = 2 ^ c) as (c & Hc & ->).
  { destruct (level =? root_level t); [|by exists 0].
    repeat case_match; rewrite ?orb_true_iff, ?Z.eqb_eq in Hs; try done;
      destruct_or?; match goal with E : root_pages t = ?n |- _ =>
        rewrite E; exists (Z.log2 n); simpl; lia end. }
  assert (level = 0 \/ level = 1 \/ level = 2 \/ level = 3) as Hlv by lia.
  exists (level_shift level + 9 + c). split; [|lia].
  rewrite !Z.pow_add_r by (unfold level_shift; lia).
  destruct Hlv as [-> |[-> |[-> | ->]]]; simpl; f_equal; lia.
Qed.

Section terminate.
Context `{Platform}.

Lemma entry_reads {A} depth base tsz page level chk (f : Z -> M rmm MmError A) :
  (forall a, preserves eq (f a)) -> preserves eq (entry 3 depth base tsz page level chk f).
Proof.
  intros Hf. revert base tsz. induction depth as [|depth IH]; intros base tsz; cbn [entry].
  - preserve.
  - unfold subtable. preserve.
Qed.

Lemma get_s2tte_reads rd ipa level e s r s' : get_s2tte rd ipa level e s = (r, s') -> s' = s.
Proof.
  intros Hg. enough (preserves eq (get_s2tte rd ipa level e)) as Hp
    by (specialize (Hp s); by rewrite Hg in Hp).
  unfold get_s2tte, s2_table, ipa_to_pte, root_entry. preserve. apply entry_reads. preserve.
Qed.

Lemma mask_down_divides x l :
  0 <= x < Word.modulus -> 0 <= l < 64 -> mask_down x (2 ^ l) = x -> (2 ^ l | x).
Proof.
  intros Hx Hl. rewrite mask_down_pow2 by done. intros Hm.
  apply Z.mod_divide; [apply Z.pow_nonzero|]; lia.
Qed.

(** The end of the table an aligned address is in. *)
Lemma table_top_bounds base l k :
  0 <= base < Word.modulus -> 0 <= l -> l <= k <= l + 13 -> k < 64 -> (2 ^ l | base) ->
  let top := Word.add (mask_down base (2 ^ k)) (2 ^ k) in
  top < Word.modulus /\ (2 ^ l | top) /\ Z.max 0 (top - base) < Z.of_nat RIPAS_FUEL * 2 ^ l.
Proof.
  intros Hb Hl Hk Hk6 Hd top. unfold top.
  rewrite mask_down_pow2 by (unfold Word.in_range; lia).
  set (x := base - base mod 2 ^ k + 2 ^ k).
  assert (0 < 2 ^ l) by (apply Z.pow_pos_nonneg; lia).
  assert (2 ^ k = 2 ^ l * 2 ^ (k - l)) as Ek by (rewrite <- Z.pow_add_r; [f_equal|..]; lia).
  assert (2 ^ (k - l) <= 2 ^ 13) by (apply Z.pow_le_mono_r; lia).
  pose proof (Z.mod_pos_bound base (2 ^ k) ltac:(apply Z.pow_pos_nonneg; lia)) as Hm.
  unfold Word.add, Word.wrap. fold x.
  pose proof (Z.mod_pos_bound x Word.modulus ltac:(done)) as Hx.
  assert (x mod Word.modulus <= x) by (apply Z.mod_le; [lia|done]).
  split_and!; [lia| |change (Z.of_nat RIPAS_FUEL) with 8193; nia].
  assert ((2 ^ l | Word.modulus)) as Hw.
  { exists (2 ^ (64 - l)). unfold Word.modulus. rewrite <- Z.pow_add_r; [f_equal|..]; lia. }
  rewrite Z.mod_eq by done. apply Z.divide_sub_r; [|by apply Z.divide_mul_l].
  unfold x. rewrite Z.mod_eq by (apply Z.pow_nonzero; lia). rewrite Ek.
  exists (2 ^ (k - l) * (base / (2 ^ l * 2 ^ (k - l))) + 2 ^ (k - l)). ring.
Qed.

(** C13: the loops of RTT_INIT_RIPAS and RTT_SET_RIPAS end, whatever the tables
    hold and whatever range the host or the realm asked for: they advance by
    the size of an entry and leave at the end of the table, which has at most
    16 * 512 entries. *)
Theorem ripas_terminates rd s base :
  (forall t, rtt_tables s !! Rd.id rd = Some t -> s2_wf t) -> 0 <= base < Word.modulus ->
  (forall top ripas flags, fst (set_ripas rd base top ripas flags s) <> Hung) /\
  (forall rd_addr top, fst (init_ripas rd rd_addr base top s) <> Hung).
Proof.
  intros Hwf Hb.
  assert (forall e (k : Z -> M rmm Error Z),
    (forall l, 0 <= l <= 3 -> fst (k l s) <> Hung) -> (forall l, ~ 0 <= l <= 3 -> fst (k l s) <> Hung) ->
    fst ((get_s2tte rd base RTT_PAGE_LEVEL e ≫= fun '(_, l) => k l) s) <> Hung) as Hget.
  { intros e k Hk1 Hk2. pose proof (get_s2tte_halts rd base RTT_PAGE_LEVEL e s) as Hh.
    destruct (get_s2tte rd base RTT_PAGE_LEVEL e s) as [r s'] eqn:Hg.
    apply get_s2tte_reads in Hg as Hs. subst s'. unfold mbind, M_bind. rewrite Hg.
    destruct r as [[v l]|e'| |]; simpl in *; try done.
    destruct (decide (0 <= l <= 3)); auto. }
  assert (forall l (k : Z -> M rmm Error Z), 0 <= l <= 3 ->
    (forall n, level_shift l <= n <= level_shift l + 13 -> n < 64 -> halts (k (2 ^ n))) ->
    fst ((level_space_size rd l ≫= k) s) <> Hung) as Hspace.
  { intros l k Hl Hk. unfold level_space_size, s2_table. rewrite bind_assoc. mstep.
    destruct (rtt_tables s !! Rd.id rd) as [t|] eqn:Ht; simpl unwrap; mstep; [|done].
    destruct (space_size_pow2 t l (Hwf t eq_refl) Hl) as (n & Hn & Hr & Hn6). rewrite Hn. mstep.
    by apply Hk. }
  split.
  - intros top ripas flags. unfold set_ripas. apply Hget; intros l Hl; [|by rewrite mapping_size_panic].
    rewrite mapping_size_pow2 by done. mstep. destruct (_ =? base) eqn:Eb; cbn [negb]; [|done].
    case_match; [done|]. apply Z.eqb_eq in Eb. rewrite Eb.
    apply Hspace; [done|]. intros n Hn Hn6. cbv zeta. apply halts_bind; [|halts].
    assert (0 <= level_shift l < 64) by (unfold level_shift; lia).
    apply mask_down_divides in Eb; [|done..].
    destruct (table_top_bounds base (level_shift l) n) as (Ht1 & Ht2 & Ht3); try done; try lia.
    apply set_ripas_loop_halts; try done; [apply Z.pow_pos_nonneg|]; lia.
  - intros a top. unfold init_ripas. apply Hget; intros l Hl; [|by rewrite mapping_size_panic].
    rewrite mapping_size_pow2 by done. mstep. destruct (_ =? base) eqn:Eb; cbn [negb]; [|done].
    case_match; [done|]. apply Z.eqb_eq in Eb. rewrite Eb.
    apply Hspace; [done|]. intros n Hn Hn6. cbv zeta. apply halts_bind; [|halts].
    assert (0 <= level_shift l < 64) by (unfold level_shift; lia).
    apply mask_down_divides in Eb; [|done..].
    destruct (table_top_bounds base (level_shift l) n) as (Ht1 & Ht2 & Ht3); try done; try lia.
    apply init_ripas_loop_halts; try done; [apply Z.pow_pos_nonneg|]; lia.
Qed.
End terminate.

(** ** A table below an entry

    [b], the entry of the block [blk] at [level - 1], is a descriptor of the
    table [rtt], which holds no entry of the path to it. *)
Section in_table.
Context `{Platform}.

Record in_table (rd : Rd.t) (s : rmm) (t : Stage2Translation) (blk level rtt : Z)
    (pre : list Z) (b : Z) : Prop := {
  it_parent : reaches rd s t blk (level - 1) pre b;
  it_level : root_level t < level <= 3;
  it_range : 0 <= blk < 2 ^ 48;
  it_aligned : blk mod 2 ^ level_shift (level - 1) = 0;
  it_page : page_addr rtt;
  it_fresh : forall a, a ∈ pre \/ a = b -> page_of a <> rtt;
  it_points : entry_points_to_table_or_page (read_word b s) = true;
  it_addr : get_masked (read_word b s) S2TTE.ADDR_TBL_OR_PAGE = rtt
}.

Section facts.
Context (rd : Rd.t) (s : rmm) (t : Stage2Translation) (blk level rtt : Z) (pre : list Z) (b : Z).
Context (Hit : in_table rd s t blk level rtt pre b).
Abbreviation ms := (2 ^ level_shift level).

Lemma it_bounds : 1 <= level <= 3.
Proof. destruct Hit. by eapply level_bounds. Qed.

Lemma it_reaches k : 0 <= k < 512 ->
  reaches rd s t (blk + k * ms) level (pre ++ [b]) (rtt + 8 * k).
Proof. destruct Hit. intros Hk. by apply reaches_below. Qed.

(** A walk to the leaf of a part ends in the table unless the entry leads on. *)
Lemma it_get k e : 0 <= k < 512 ->
  let v := read_word (rtt + 8 * k) s in
  if is_table v level then exists v' l, level < l /\
    get_s2tte rd (blk + k * ms) RTT_PAGE_LEVEL e s = (Ok (v', l), s)
  else get_s2tte rd (blk + k * ms) RTT_PAGE_LEVEL e s = (Ok (v, level), s).
Proof.
  intros Hk v. destruct (it_reaches k Hk) as [Ht Hwf Hl Hw _].
  destruct (root_depth_spec t Hwf) as (_ & Hd & _).
  pose proof (walk_deeper _ _ _ _ _ _ _ _ Hd Hw) as Hdeep. cbv beta in Hdeep.
  rewrite is_table_points. unfold RTT_PAGE_LEVEL in *.
  change (e_points_to_table_or_page ?x) with (entry_points_to_table_or_page x) in Hdeep.
  fold v in Hdeep. destruct ((level <? 3) && entry_points_to_table_or_page v).
  - destruct Hdeep as (pre' & b' & l' & Hw' & Hlt). eexists _, l'. split; [exact Hlt|].
    by eapply get_s2tte_walk.
  - by eapply get_s2tte_walk.
Qed.

Lemma it_blk : (ms | blk).
Proof.
  pose proof it_bounds. destruct Hit as [_ _ _ Hal _ _ _ _].
  apply Z.mod_divide in Hal; [|apply Z.pow_nonzero; unfold level_shift; lia].
  eapply Z.divide_trans; [|exact Hal].
  replace (level_shift (level - 1)) with (9 + level_shift level) by (unfold level_shift; lia).
  rewrite Z.pow_add_r by (unfold level_shift; lia). apply Z.divide_factor_r.
Qed.

Lemma it_space : level_space_size rd level s = (Ok (512 * ms), s).
Proof.
  pose proof it_bounds. destruct Hit as [[Ht Hwf _ _ _] Hl _ _ _ _ _ _].
  unfold level_space_size, s2_table. rewrite bind_assoc. mstep. rewrite Ht. simpl unwrap. mstep.
  rewrite space_size_below by done.
  replace (level_shift (level - 1)) with (9 + level_shift level) by (unfold level_shift; lia).
  by rewrite Z.pow_add_r by (unfold level_shift; lia).
Qed.

Lemma it_table_top k : 0 <= k < 512 ->
  Word.add (mask_down (blk + k * ms) (512 * ms)) (512 * ms) = blk + 512 * ms.
Proof.
  intros Hk. pose proof it_bounds as Hb. destruct Hit as [Hp Hl Hr Hal _ _ _ _].
  assert (0 < ms <= 2 ^ 30) by (split; [apply Z.pow_pos_nonneg|apply Z.pow_le_mono_r]; unfold level_shift; lia).
  assert (0 <= k * ms <= 512 * 2 ^ 30 /\ k * ms < 512 * ms) as Hkm by nia.
  assert (512 * ms = 2 ^ level_shift (level - 1)) as E.
  { replace (level_shift (level - 1)) with (9 + level_shift level) by (unfold level_shift; lia).
    by rewrite Z.pow_add_r by (unfold level_shift; lia). }
  assert (Word.in_range (blk + k * ms)) by (unfold Word.in_range, Word.modulus; lia).
  rewrite E, mask_down_pow2, <- E by (done || unfold level_shift; lia).
  rewrite <- E in Hal. apply Z.mod_divide in Hal as [x ->]; [|lia].
  rewrite (Z.add_comm (x * _)), Z.mod_add, Z.mod_small by lia.
  rewrite Word.add_small by (unfold Word.modulus; lia). lia.
Qed.

Lemma it_read_set k j v i : 0 <= k < 512 -> 0 <= j < 512 ->
  read_word (rtt + 8 * j) (after_set rd t (blk + k * ms) level (rtt + 8 * k) v i s)
  = if decide (j = k) then v else read_word (rtt + 8 * j) s.
Proof.
  intros Hk Hj. unfold after_set. rewrite invalidated_read.
  case_decide as E; [subst; apply read_write_same|].
  destruct (page_addr_range rtt (it_page _ _ _ _ _ _ _ _ Hit)) as [Hp0 Hp].
  apply read_write_other; try lia; Z.div_mod_to_equations; lia.
Qed.

(** Writing an entry of the table leaves the table where it is. *)
Lemma it_set k v i : 0 <= k < 512 ->
  in_table rd (after_set rd t (blk + k * ms) level (rtt + 8 * k) v i s) (dirtied i t)
    blk level rtt pre b.
Proof.
  intros Hk. pose proof (it_reaches k Hk) as Hr. destruct Hit as [Hp Hl Hrg Hal Hpg Hf Hpt Hadr].
  destruct (page_of_slot rtt k Hpg Hk) as [Hpk _].
  assert (rtt + 8 * k ∉ pre) as Hn by (intros Hin; by apply (Hf (rtt + 8 * k)); [left|]).
  assert (rtt + 8 * k <> b) as Hnb by (intros Hin; by apply (Hf (rtt + 8 * k)); [right|]).
  destruct (reaches_frame _ _ _ _ _ _ _ v i _ _ _ _ Hr Hp Hn Hnb) as [Hr' Hread].
  split; try done; try (by rewrite Hread). by destruct i.
Qed.
End facts.
End in_table.

(** ** What [set_ripas] makes of an entry *)

(** The entry after a round, or [None] when the loop stops at it. *)
Definition ripas_entry (ripas flags level e : Z) : option Z :=
  if is_table e level then None
  else match set_ripas_action ripas flags level e with
  | RipasWrite new add_pa _ =>
      Some (if add_pa then Z.lor new (get_masked e (define_mask 47 (level_shift level))) else new)
  | RipasSkip => Some e
  | RipasBreak | RipasUnreachable => None
  end.

(** The number of entries from [k] on that the loop changes, at most [n]. *)
Fixpoint ripas_run (ripas flags level : Z) (n : nat) (w : Z -> Z) (k : Z) : nat :=
  match n with
  | O => O
  | S n' =>
      match ripas_entry ripas flags level (w k) with
      | Some _ => S (ripas_run ripas flags level n' w (k + 1))
      | None => O
      end
  end.

Lemma ripas_run_le ripas flags level n w k : (ripas_run ripas flags level n w k <= n)%nat.
Proof. revert k. induction n as [|n IH]; intros k; simpl; [lia|]. case_match; [|lia]. specialize (IH (k + 1)). lia. Qed.

Lemma ripas_run_ext ripas flags level n w w' k :
  (forall j, k <= j < k + Z.of_nat n -> w j = w' j) ->
  ripas_run ripas flags level n w k = ripas_run ripas flags level n w' k.
Proof.
  revert k. induction n as [|n IH]; intros k Hw; cbn [ripas_run]; [done|].
  rewrite <- (Hw k) by lia. case_match; [|done]. f_equal. apply IH. intros j Hj. apply Hw. lia.
Qed.

Lemma ripas_run_some ripas flags level n w k j :
  k <= j < k + Z.of_nat (ripas_run ripas flags level n w k) ->
  exists v, ripas_entry ripas flags level (w j) = Some v.
Proof.
  revert k. induction n as [|n IH]; intros k; cbn [ripas_run]; [lia|].
  destruct (ripas_entry ripas flags level (w k)) as [v|] eqn:Hv; [|lia].
  intros Hj. destruct (decide (j = k)) as [-> |]; [by exists v|]. apply (IH (k + 1)). lia.
Qed.

Section loop.
Context `{Platform}.

(** The loop from entry [k] of a table, with at most [n] entries before the
    end of the range or of the table. *)
Lemma set_ripas_loop_run rd blk level rtt pre b ripas flags m top :
  ripas = invalid_ripas.EMPTY \/ ripas = invalid_ripas.RAM ->
  forall n extra k s t,
  in_table rd s t blk level rtt pre b ->
  0 <= k -> Z.of_nat n = Z.max 0 (Z.min 512 m - k) -> top = blk + m * 2 ^ level_shift level ->
  let ms := 2 ^ level_shift level in
  let w j := read_word (rtt + 8 * j) s in
  let r := ripas_run ripas flags level n w k in
  exists s' t',
    set_ripas_loop (S n + extra) rd ripas flags level ms (blk + 512 * ms) top (blk + k * ms) s
    = (Ok (blk + (k + Z.of_nat r) * ms), s') /\
    in_table rd s' t' blk level rtt pre b /\ (r = O -> s' = s) /\
    forall j, 0 <= j < 512 -> read_word (rtt + 8 * j) s'
      = if decide (k <= j < k + Z.of_nat r)
        then default 0 (ripas_entry ripas flags level (w j)) else w j.
Proof.
  intros Hripas. induction n as [|n IH]; intros extra k s t Hit Hk Hn Htop ms w r.
  - exists s, t. split_and!; [|done..|].
    + cbn [Nat.add set_ripas_loop].
      assert (0 < ms) by (apply Z.pow_pos_nonneg; pose proof (it_bounds _ _ _ _ _ _ _ _ Hit); unfold level_shift; lia).
      replace ((blk + k * ms <? blk + 512 * ms) && (blk + k * ms <? top)) with false.
      * simpl. unfold mret, M_ret. do 2 f_equal. unfold r. simpl. lia.
      * symmetry. rewrite andb_false_iff, !Z.ltb_ge. subst top. fold ms. 
        destruct (decide (512 <= k)); [left|right]; nia.
    + intros j Hj. unfold r. simpl. rewrite decide_False by lia. done.
  - pose proof (it_bounds _ _ _ _ _ _ _ _ Hit) as Hlb.
    assert (0 < ms) as Hms by (apply Z.pow_pos_nonneg; unfold level_shift; lia).
    assert (0 <= k < 512) as Hk5 by lia.
    cbn [Nat.add set_ripas_loop].
    replace ((blk + k * ms <? blk + 512 * ms) && (blk + k * ms <? top)) with true
      by (symmetry; rewrite andb_true_iff, !Z.ltb_lt; subst top; fold ms; nia).
    cbn [negb]. pose proof (it_get _ _ _ _ _ _ _ _ Hit k (RmiErrorRtt level) Hk5) as Hget.
    cbv zeta in Hget. fold ms (w k) in Hget.
    assert (Word.add (blk + k * ms) ms = blk + (k + 1) * ms) as Hadd.
    { pose proof (it_range _ _ _ _ _ _ _ _ Hit).
      assert (ms <= 2 ^ 39) by (apply Z.pow_le_mono_r; unfold level_shift; lia).
      rewrite Word.add_small by (unfold Word.modulus; nia). lia. }
    assert (forall new s1 t1, ripas_entry ripas flags level (w k) = Some new ->
      in_table rd s1 t1 blk level rtt pre b ->
      (forall j, 0 <= j < 512 -> read_word (rtt + 8 * j) s1 = if decide (j = k) then new else w j) ->
      exists s' t',
        set_ripas_loop (S n + extra) rd ripas flags level ms (blk + 512 * ms) top
          (Word.add (blk + k * ms) ms) s1
        = (Ok (blk + (k + Z.of_nat r) * ms), s') /\
        in_table rd s' t' blk level rtt pre b /\ (r = O -> s' = s) /\
        forall j, 0 <= j < 512 -> read_word (rtt + 8 * j) s'
          = if decide (k <= j < k + Z.of_nat r)
            then default 0 (ripas_entry ripas flags level (w j)) else w j) as Hcont.
    { intros new s1 t1 He Hit1 Hread. unfold r. cbn [ripas_run]. rewrite He, Hadd.
      destruct (IH extra (k + 1) s1 t1 Hit1 ltac:(lia) ltac:(lia) Htop) as (s' & t' & Hrun & Hit' & _ & Hrd).
      set (w1 j := read_word (rtt + 8 * j) s1) in *.
      assert (ripas_run ripas flags level n w1 (k + 1) = ripas_run ripas flags level n w (k + 1)) as Hext.
      { apply ripas_run_ext. intros j Hj. unfold w1. rewrite Hread by lia. by rewrite decide_False by lia. }
      rewrite Hext in *. exists s', t'. split_and!; [|done|done|].
      - fold ms in Hrun. rewrite Hrun. do 2 f_equal. lia.
      - intros j Hj. rewrite Hrd by done. unfold w1. rewrite Hread by done.
        destruct (decide (j = k)) as [-> |].
        + rewrite decide_False, decide_True by lia. by rewrite He.
        + repeat case_decide; lia || done. }
    destruct (is_table (w k) level) eqn:Htab.
    { destruct Hget as (v' & l & Hl & Hget). exists s, t. unfold r. cbn [ripas_run].
      unfold ripas_entry. rewrite Htab. split_and!; [|done..|].
      - erewrite bind_ok by exact Hget. cbv beta iota.
        rewrite (proj2 (Z.eqb_neq level l)) by lia. cbn [negb]. unfold mret, M_ret. do 2 f_equal. lia.
      - intros j Hj. by rewrite decide_False by lia. }
    erewrite bind_ok by exact Hget. cbv beta iota. rewrite Z.eqb_refl. cbn [negb].
    rewrite addr_as_block_level by done. mstep. cbv zeta.
    destruct (set_ripas_action ripas flags level (w k)) as [| |new add_pa leaf|] eqn:Ha.
    + exists s, t. unfold r. cbn [ripas_run]. unfold ripas_entry. rewrite Htab, Ha.
      split_and!; [|done..|].
      * unfold mret, M_ret. do 2 f_equal. lia.
      * intros j Hj. by rewrite decide_False by lia.
    + apply (Hcont (w k) s t); [unfold ripas_entry; by rewrite Htab, Ha|done|].
      intros j Hj. by case_decide; subst.
    + erewrite bind_ok by (eapply reaches_set; exact (it_reaches _ _ _ _ _ _ _ _ Hit k Hk5)).
      eapply Hcont; [unfold ripas_entry; by rewrite Htab, Ha|by eapply it_set|].
      intros j Hj. by eapply it_read_set.
    + exfalso. unfold set_ripas_action in Ha. destruct Hripas as [-> | ->]; simpl in Ha;
        repeat case_match; done.
Qed.
End loop.

Lemma unassigned_exclusive e level :
  is_unassigned e = true -> is_assigned e = false /\ is_assigned_ram e level = false.
Proof.
  unfold is_unassigned, is_assigned, is_assigned_ram. rewrite !andb_true_iff, !Z.eqb_eq.
  intros [[-> ->] ->]. cbn. by rewrite !andb_false_r.
Qed.
Lemma assigned_exclusive e level :
  is_assigned e = true -> is_unassigned e = false /\ is_assigned_ram e level = false.
Proof.
  unfold is_unassigned, is_assigned, is_assigned_ram. rewrite !andb_true_iff, !Z.eqb_eq.
  intros [[-> ->] ->]. cbn. by rewrite !andb_false_r.
Qed.
Lemma assigned_ram_exclusive e level :
  is_assigned_ram e level = true -> is_unassigned e = false /\ is_assigned e = false.
Proof.
  intros Ha. destruct (assigned_ram_fields e level Ha) as [Hn Hd].
  unfold is_unassigned, is_assigned. rewrite Hn. by destruct Hd as [[_ ->]|[_ ->]].
Qed.

(** The states a protected address can be in, those [set_ripas] handles: not
    an assigned entry that is to become EMPTY and is EMPTY already, and no
    assigned entry above the levels that have blocks. *)
Definition ripas_leaf (ripas e level : Z) : bool :=
  is_unassigned_empty e || is_unassigned_ram e || is_unassigned_destroyed e
  || ((2 <=? level) && (is_assigned_ram e level || is_assigned_destroyed e
        || (is_assigned_empty e && negb (ripas =? invalid_ripas.EMPTY)))).

Definition with_ripas (ripas : Z) (r : outcome Error (list Z)) : outcome Error (list Z) :=
  match r with Ok [l; st; d; _] => Ok [l; st; d; ripas] | r => r end.

Section reports.
Context (e level : Z) (Hl : 1 <= level <= 3).
Abbreviation pa := (get_masked e (define_mask 47 (level_shift level))).

Lemma block_page_addr : page_addr pa.
Proof.
  destruct (masked_block e (level_shift level)) as [Hr Hm]; [unfold level_shift; lia|].
  apply page_addr_intro; [done|]. unfold GRANULE_SIZE. change 4096 with (2 ^ 12).
  assert (2 ^ level_shift level = 2 ^ (level_shift level - 12) * 2 ^ 12) as E
    by (rewrite <- Z.pow_add_r; [f_equal|..]; unfold level_shift; lia).
  apply Z.mod_divide; [lia|]. apply Z.mod_divide in Hm; [|apply Z.pow_nonzero; unfold level_shift; lia].
  eapply Z.divide_trans; [|exact Hm]. rewrite E. apply Z.divide_factor_r.
Qed.

Lemma block_entry_addr flags :
  Z.land flags S2TTE.ADDR_TBL_OR_PAGE = 0 -> addr_as_block (Z.lor pa flags) level = Ok pa.
Proof.
  intros Hf. rewrite addr_as_block_level by done. f_equal. rewrite get_masked_lor.
  unfold get_masked. rewrite <- Z.land_assoc, Z.land_diag.
  assert (Z.land (define_mask 47 (level_shift level)) S2TTE.ADDR_TBL_OR_PAGE
          = define_mask 47 (level_shift level)) as Hsub.
  { assert (level = 1 \/ level = 2 \/ level = 3) as [-> |[-> | ->]] by lia; done. }
  replace (Z.land flags (define_mask 47 (level_shift level))) with 0; [apply Z.lor_0_r|].
  rewrite <- Hsub, (Z.land_comm _ S2TTE.ADDR_TBL_OR_PAGE), Z.land_assoc, Hf. done.
Qed.

(** An entry made of flags and the block's own address. *)
Lemma block_entry_report flags :
  Z.land flags S2TTE.ADDR_TBL_OR_PAGE = 0 ->
  (is_assigned flags = true ->
   entry_report (Z.lor flags pa) level = Ok [level; Rmi.RMI_ASSIGNED; pa; get_ripas flags]) /\
  (is_assigned_ram flags level = true ->
   entry_report (Z.lor flags pa) level = Ok [level; Rmi.RMI_ASSIGNED; pa; invalid_ripas.RAM]).
Proof.
  intros Hf. pose proof block_page_addr as Hp. rewrite Z.lor_comm.
  split; intros Ha.
  - rewrite report_assigned by (by rewrite page_entry_assigned).
    rewrite block_entry_addr by done. by rewrite page_entry_field.
  - rewrite report_ram by (by rewrite page_entry_assigned_ram).
    by rewrite block_entry_addr by done.
Qed.

(** [set_ripas] changes the RIPAS of an entry and nothing else the host sees. *)
Lemma ripas_entry_report ripas flags v :
  ripas = invalid_ripas.EMPTY \/ ripas = invalid_ripas.RAM ->
  ripas_leaf ripas e level = true -> ripas_entry ripas flags level e = Some v ->
  entry_report v level = with_ripas ripas (entry_report e level).
Proof.
  intros Hripas Hleaf Hv. unfold ripas_entry in Hv. destruct (is_table e level); [done|].
  assert (level = 1 \/ level = 2 \/ level = 3) as Hlv by lia.
  assert (is_unassigned e = true \/ (2 <= level /\ (is_assigned_ram e level = true \/
    is_assigned e = true))) as Hst.
  { unfold ripas_leaf, is_unassigned_empty, is_unassigned_ram, is_unassigned_destroyed,
      is_assigned_destroyed, is_assigned_empty in Hleaf.
    destruct (is_unassigned e); [by left|]. right. simpl in Hleaf.
    rewrite andb_true_iff, Z.leb_le in Hleaf. destruct Hleaf as [? Hleaf]. split; [done|].
    destruct (is_assigned_ram e level); [by left|]. right. by destruct (is_assigned e). }
  unfold set_ripas_action, ripas_leaf, is_unassigned_empty, is_unassigned_ram,
    is_unassigned_destroyed, is_assigned_destroyed, is_assigned_empty in Hv, Hleaf.
  destruct Hst as [Hu|[Hl2 [Ha|Ha]]].
  - destruct (unassigned_exclusive e level Hu) as [Ha Hr].
    rewrite Hu, Ha, Hr in Hv, Hleaf. rewrite (report_unassigned e level Hu). cbn [andb orb] in Hv, Hleaf.
    rewrite andb_false_r, orb_false_r in Hleaf.
    assert (v = bits_in_reg S2TTE.INVALID_RIPAS ripas \/ (v = e /\
      get_masked_value e S2TTE.INVALID_RIPAS = ripas)) as [-> |[-> <-]].
    { rewrite !orb_true_iff, !Z.eqb_eq in Hleaf.
      destruct (Z.eqb_spec (get_masked_value e S2TTE.INVALID_RIPAS) invalid_ripas.EMPTY) as [E|],
        (Z.eqb_spec (get_masked_value e S2TTE.INVALID_RIPAS) invalid_ripas.DESTROYED) as [D|];
        destruct Hripas as [-> | ->]; simpl in Hv; try destruct (negb _); simplify_eq/=; try tauto. }
    + destruct Hripas as [-> | ->], Hlv as [-> |[-> | ->]]; reflexivity.
    + by rewrite (report_unassigned e level Hu).
  - destruct (assigned_ram_exclusive e level Ha) as [Hu Has].
    rewrite Hu, Ha, Has in Hv. rewrite (report_ram e level Ha), addr_as_block_level by done.
    destruct Hripas as [-> | ->]; simpl in Hv; simplify_eq/=.
    + by apply block_entry_report.
    + rewrite (report_ram _ level Ha), addr_as_block_level by done. done.
  - destruct (assigned_exclusive e level Ha) as [Hu Hr].
    rewrite Hu, Ha, Hr in Hv, Hleaf. rewrite (report_assigned e level Ha), addr_as_block_level by done.
    simpl in Hleaf. rewrite andb_true_iff, orb_true_iff, andb_true_iff, negb_true_iff, !Z.eqb_eq in Hleaf.
    destruct Hleaf as [_ Hrip]. destruct Hripas as [-> | ->]; simpl in Hv, Hrip.
    + destruct Hrip as [Hd|[_ ?]]; [|done]. rewrite Hd in Hv. simpl in Hv.
      destruct (negb _); simplify_eq/=. by apply block_entry_report.
    + assert (level = 2 \/ level = 3) as Hl23 by lia.
      destruct Hrip as [Hd|[Hd _]]; rewrite Hd in Hv; simpl in Hv; repeat case_match; simplify_eq/=;
        apply block_entry_report; by destruct Hl23 as [-> | ->].
Qed.
End reports.

(** ** RTT_SET_RIPAS *)
Section set_ripas.
Context `{Platform}.

(** [set_ripas] on the words of the table. *)
Lemma set_ripas_run rd s t blk level rtt pre b k top ripas flags :
  in_table rd s t blk level rtt pre b -> 0 <= k < 512 ->
  is_table (read_word (rtt + 8 * k) s) level = false ->
  ripas = invalid_ripas.EMPTY \/ ripas = invalid_ripas.RAM -> blk <= top < Word.modulus ->
  let ms := 2 ^ level_shift level in
  let w j := read_word (rtt + 8 * j) s in
  let n := Z.to_nat (Z.min 512 ((top - blk) / ms) - k) in
  let r := ripas_run ripas flags level n w k in
  if negb (top mod ms =? 0) || (r =? 0)%nat
  then set_ripas rd (blk + k * ms) top ripas flags s = (Err (RmiErrorRtt level), s)
  else exists s' t',
    set_ripas rd (blk + k * ms) top ripas flags s = (Ok (blk + (k + Z.of_nat r) * ms), s') /\
    in_table rd s' t' blk level rtt pre b /\
    forall j, 0 <= j < 512 -> read_word (rtt + 8 * j) s'
      = if decide (k <= j < k + Z.of_nat r)
        then default 0 (ripas_entry ripas flags level (w j)) else w j.
Proof.
  intros Hit Hk Htab Hripas Htop ms w n r.
  pose proof (it_bounds _ _ _ _ _ _ _ _ Hit) as Hlb.
  assert (0 <= level_shift level < 64) as Hsh by (unfold level_shift; lia).
  assert (0 < ms) as Hms by (apply Z.pow_pos_nonneg; lia).
  destruct (child_ipa _ _ _ _ _ _ _ (it_parent _ _ _ _ _ _ _ _ Hit) (it_level _ _ _ _ _ _ _ _ Hit)
    (it_range _ _ _ _ _ _ _ _ Hit) (it_aligned _ _ _ _ _ _ _ _ Hit) k Hk) as (Hci & _ & _).
  pose proof (it_blk _ _ _ _ _ _ _ _ Hit) as Hblk. pose proof (it_range _ _ _ _ _ _ _ _ Hit). fold ms in Hci, Hblk.
  assert (top mod ms = 0 -> top = blk + (top - blk) / ms * ms) as Hm.
  { intros Hz. apply Z.mod_divide in Hz as [y ->]; [|lia]. destruct Hblk as [x ->].
    rewrite <- Z.mul_sub_distr_r, Z.div_mul by lia. lia. }
  unfold set_ripas. pose proof (it_get _ _ _ _ _ _ _ _ Hit k (RmiErrorRtt RTT_PAGE_LEVEL) Hk) as Hget.
  cbv zeta in Hget. rewrite Htab in Hget. fold ms in Hget. erewrite bind_ok by exact Hget.
  cbv beta iota. rewrite mapping_size_pow2 by lia. mstep. cbv zeta.
  rewrite (mask_down_pow2 top), (mask_down_pow2 (blk + k * ms))
    by (unfold Word.in_range, Word.modulus in *; lia). fold ms.
  replace ((blk + k * ms) mod ms) with 0 by (destruct Hblk as [x ->]; rewrite <- Z.mul_add_distr_r, Z.mod_mul; lia).
  rewrite Z.sub_0_r, Z.eqb_refl. cbn [negb].
  pose proof (Z.mod_pos_bound top ms Hms).
  destruct (Z.eqb_spec (top mod ms) 0) as [Hz|Hz]; cbn [negb orb];
    [|by rewrite (proj2 (Z.eqb_neq _ _)) by lia].
  rewrite Hz, Z.sub_0_r, Z.eqb_refl. cbn [negb]. erewrite bind_ok by (by eapply it_space).
  pose proof (it_table_top _ _ _ _ _ _ _ _ Hit k Hk) as Htt. fold ms in Htt |- *. cbv zeta. rewrite Htt.
  replace RIPAS_FUEL with (S n + (RIPAS_FUEL - S n))%nat by (unfold RIPAS_FUEL; lia).
  destruct (set_ripas_loop_run rd blk level rtt pre b ripas flags ((top - blk) / ms) top Hripas
    n (RIPAS_FUEL - S n) k s t Hit ltac:(lia) ltac:(lia) (Hm Hz)) as (s' & t' & Hrun & Hit' & Hsame & Hread).
  fold ms w r in Hrun, Hread, Hsame. erewrite bind_ok by exact Hrun.
  destruct (Nat.eqb_spec r 0) as [Hr|Hr].
  - rewrite Hr, Hsame by done. by rewrite (proj2 (Z.ltb_ge _ _)) by lia.
  - exists s', t'. by rewrite (proj2 (Z.ltb_lt _ _)) by nia.
Qed.

(** An assigned entry that is EMPTY loses its page when it is to become EMPTY. *)
Lemma assigned_empty_entry e level flags :
  is_assigned_empty e = true ->
  is_table e level = false /\ ripas_entry invalid_ripas.EMPTY flags level e = Some 0.
Proof.
  intros He. unfold is_assigned_empty in He. rewrite andb_true_iff, Z.eqb_eq in He.
  destruct He as [Ha Hr]. destruct (assigned_exclusive e level Ha) as [Hu Hram].
  assert (is_table e level = false) as Htab.
  { unfold is_assigned, is_table in *. rewrite !andb_true_iff, !Z.eqb_eq in Ha.
    destruct Ha as [[_ ->] _]. by rewrite andb_false_r. }
  split; [done|].
  unfold ripas_entry, set_ripas_action, is_unassigned_empty, is_unassigned_destroyed, is_assigned_destroyed.
  by rewrite Htab, Hu, Hram, Ha, Hr.
Qed.

Lemma zero_report level :
  1 <= level <= 3 -> entry_report 0 level = Ok [level; Rmi.RMI_UNASSIGNED; 0; invalid_ripas.EMPTY].
Proof. intros Hl. assert (level = 1 \/ level = 2 \/ level = 3) as [-> |[-> | ->]] by lia; reflexivity. Qed.


(** RTT_SET_RIPAS to EMPTY on an address that is assigned and EMPTY
    already does not leave it alone: the entry becomes unassigned, and the
    DATA granule it was assigned to is in no entry any more. *)
Theorem set_ripas_empty_leaks rd s t blk level rtt pre b k flags :
  in_table rd s t blk level rtt pre b -> 0 <= k < 512 ->
  is_assigned_empty (read_word (rtt + 8 * k) s) = true ->
  let ms := 2 ^ level_shift level in
  let base := blk + k * ms in
  let pa := get_masked (read_word (rtt + 8 * k) s) (define_mask 47 (level_shift level)) in
  read_entry rd base level s = (Ok [level; Rmi.RMI_ASSIGNED; pa; invalid_ripas.EMPTY], s) /\
  exists s', set_ripas rd base (base + ms) invalid_ripas.EMPTY flags s = (Ok (base + ms), s') /\
    read_entry rd base level s' = (Ok [level; Rmi.RMI_UNASSIGNED; 0; invalid_ripas.EMPTY], s').
Proof.
  intros Hit Hk He ms base pa. pose proof (it_bounds _ _ _ _ _ _ _ _ Hit) as Hlb.
  pose proof (it_range _ _ _ _ _ _ _ _ Hit).
  assert (0 < ms <= 2 ^ 30) as Hms by (split; [apply Z.pow_pos_nonneg|apply Z.pow_le_mono_r]; unfold level_shift; lia).
  set (e := read_word (rtt + 8 * k) s) in *.
  destruct (assigned_empty_entry e level flags He) as [Htab Hent].
  unfold is_assigned_empty in He. rewrite andb_true_iff, Z.eqb_eq in He. destruct He as [Ha Hr].
  split.
  { erewrite read_entry_report by (by eapply it_reaches). fold e.
    rewrite (report_assigned e level Ha), addr_as_block_level by done. by rewrite Hr. }
  pose proof (set_ripas_run _ _ _ _ _ _ _ _ k (base + ms) invalid_ripas.EMPTY flags Hit Hk Htab
    (or_introl eq_refl) ltac:(unfold base, Word.modulus; nia)) as Hrun.
  cbv zeta in Hrun. fold ms base in Hrun.
  assert ((base + ms - blk) / ms = k + 1) as Hdiv.
  { unfold base. replace (blk + k * ms + ms - blk) with ((k + 1) * ms) by lia. apply Z.div_mul. lia. }
  rewrite Hdiv in Hrun. replace (Z.to_nat (Z.min 512 (k + 1) - k)) with 1%nat in Hrun by lia.
  cbn [ripas_run] in Hrun. fold e in Hrun. rewrite Hent in Hrun.
  destruct (it_blk _ _ _ _ _ _ _ _ Hit) as [x Hx]. fold ms in Hx.
  replace ((base + ms) mod ms) with 0 in Hrun
    by (unfold base; rewrite Hx; replace (x * ms + k * ms + ms) with ((x + k + 1) * ms) by lia;
        rewrite Z.mod_mul; lia).
  cbn [Z.eqb negb orb Nat.eqb] in Hrun. destruct Hrun as (s' & t' & Hrun & Hit' & Hread). exists s'. split.
  { rewrite Hrun. do 2 f_equal. unfold base. lia. }
  unfold base, ms. erewrite read_entry_report by (by eapply it_reaches). rewrite Hread by done.
  rewrite decide_True by lia. fold e. rewrite Hent. cbn [default]. by rewrite zero_report.
Qed.
End set_ripas.

(** ** Witnesses *)
Lemma ripas_terminates_witness :
  fst (set_ripas sample_realm 0 0x3000 1 0 sample_tables) <> Hung /\
  fst (init_ripas sample_realm 0x80000000 0 0x3000 sample_tables) <> Hung.
Proof.
  destruct (ripas_terminates sample_realm sample_tables 0) as [H1 H2].
  - intros t. change (rtt_tables sample_tables !! Rd.id sample_realm) with (Some sample_s2).
    intros [= <-]. apply sample_s2_wf.
  - done.
  - split; [apply H1|apply H2].
Defined.

Lemma sample_in_l3 :
  in_table sample_realm sample_tables sample_s2 0 3 0x80003000 [0x80001000] 0x80002000.
Proof.
  split.
  - split; [reflexivity|apply sample_s2_wf|lia|vm_compute; reflexivity|].
    rewrite elem_of_cons, elem_of_nil. lia.
  - simpl. lia.
  - lia.
  - reflexivity.
  - apply page_addr_intro; [lia|reflexivity].
  - intros a. rewrite elem_of_cons, elem_of_nil. intros [[-> |[]]| ->]; vm_compute; done.
  - vm_compute. reflexivity.
  - vm_compute. reflexivity.
Qed.


(** The page 0x80006000 mapped at 0x1000 with RIPAS EMPTY. *)
Definition sample_assigned : rmm :=
  after_set sample_realm sample_s2 0x1000 3 0x80003008 0x80006004 NONE sample_tables.

Lemma set_ripas_empty_leaks_witness : exists s',
  set_ripas sample_realm 0x1000 0x2000 invalid_ripas.EMPTY 0 sample_assigned = (Ok 0x2000, s') /\
  read_entry sample_realm 0x1000 3 s' = (Ok [3; Rmi.RMI_UNASSIGNED; 0; invalid_ripas.EMPTY], s').
Proof.
  assert (in_table sample_realm sample_assigned sample_s2 0 3 0x80003000 [0x80001000] 0x80002000) as Hit
    by exact (it_set _ _ _ _ _ _ _ _ sample_in_l3 1 0x80006004 NONE ltac:(lia)).
  destruct (set_ripas_empty_leaks sample_realm sample_assigned sample_s2 0 3 0x80003000 [0x80001000]
    0x80002000 1 0 Hit ltac:(lia) ltac:(vm_compute; reflexivity)) as [_ (s' & H1 & H2)].
  exists s'. split; [exact H1|exact H2].
Defined.
