(* ===== verification/RttDestroy.v ===== *)
(** * Removing tables and unprotected mappings

    RTT_DESTROY and RTT_UNMAP_UNPROTECTED (realm/mm/rtt.rs, [destroy],
    [unmap_unprotected]): what they remove, what they refuse, and what is
    reported afterwards. *)

From S2P Require Import Prelude Bytes Bits Vmsa RmiTypes Granule S2tte Objects Machine PageTable Stage2 Stage2Facts Measurement Rtt RttFacts Guards Sample SampleRealm RttTheorems RttTree RttFold Ripas.

Section skip.
Context `{Platform}.

Lemma root_space t :
  s2_wf t -> exists c, 0 <= c <= 4 /\ root_pages t = 2 ^ c /\
    space_size t (root_level t) = Ok (2 ^ (level_shift (root_level t) + 9 + c)).
Proof.
  intros Hwf. pose proof (root_level_range t Hwf) as Hl. destruct Hwf as [Hs _].
  assert (exists c, 0 <= c <= 4 /\ root_pages t = 2 ^ c) as (c & Hc & Hp).
  { unfold root_supported in Hs.
    repeat case_match; rewrite ?orb_true_iff, ?Z.eqb_eq in Hs; try done;
      destruct_or?; match goal with E : root_pages t = ?n |- _ =>
        rewrite E; exists (Z.log2 n); simpl; lia end. }
  exists c. split_and!; [lia..|done|]. unfold space_size. rewrite Z.eqb_refl, Hp.
  rewrite !Z.pow_add_r by (unfold level_shift; lia).
  assert (root_level t = 0 \/ root_level t = 1 \/ root_level t = 2) as [-> |[-> | ->]] by lia;
    simpl; f_equal; lia.
Qed.

(** From an aligned address the scan ends at or after it, in the root tables
    too. *)
Lemma skip_from rd s t ipa level pre b :
  reaches rd s t ipa level pre b ->
  0 <= ipa < 2 ^ 48 -> ipa mod 2 ^ level_shift level = 0 ->
  exists top, skip_non_live_entries rd ipa level s = (Ok top, s) /\ ipa <= top.
Proof.
  intros Hr Hipa Hal. pose proof Hr as [Ht Hwf Hl3 Hw Hfr].
  pose proof (root_level_range t Hwf) as Hrl.
  destruct (s2_walk_level _ _ _ _ _ _ _ Hwf Hw) as [[Hlo _] _].
  destruct (decide (root_level t < level)) as [Hlt|Hge]; [by eapply skip_returns|].
  assert (level = root_level t) as -> by lia.
  destruct (entries_walk t s ipa _ pre b _ Hwf Hl3 Hw) as (tb & ts & He & _ & Hnil & _).
  destruct (walk_level _ _ _ _ _ _ _ _ _ Hw) as (_ & _ & Hlen & _).
  destruct (root_depth_spec t Hwf) as (_ & _ & Hlv).
  destruct Hnil as [-> ->]; [destruct pre; [done|simpl in Hlen; lia]|].
  destruct (root_space t Hwf) as (c & Hc & Hp & Hsp).
  unfold skip_non_live_entries. rewrite mapping_size_pow2 by lia. mstep.
  set (sh := level_shift (root_level t)) in *.
  assert (0 <= sh <= 39) as Hsh by (unfold sh, level_shift; lia).
  rewrite mask_down_pow2 by (unfold Word.in_range, Word.modulus; lia).
  rewrite Hal, Z.sub_0_r, Z.eqb_refl. cbn [negb].
  unfold level_space_size, s2_table. mstep. rewrite Ht. cbn [unwrap]. mstep.
  rewrite Hsp. mstep. rewrite Ht. cbn [unwrap]. mstep.
  erewrite bind_ok by exact He. cbv beta iota. unfold mret, M_ret.
  rewrite mask_down_pow2 by (unfold Word.in_range, Word.modulus; lia).
  assert (0 < 2 ^ sh <= 2 ^ 39) as Hms by (split; [apply Z.pow_pos_nonneg|apply Z.pow_le_mono_r]; lia).
  assert (0 < 2 ^ (9 + c) <= 2 ^ 13) as Hnc by (split; [apply Z.pow_pos_nonneg|apply Z.pow_le_mono_r]; lia).
  assert (2 ^ (sh + 9 + c) = 2 ^ sh * 2 ^ (9 + c)) as E by (rewrite <- Z.pow_add_r; [f_equal|..]; lia).
  assert (length (table_words (root_pgtbl t) (root_size t) s) = Z.to_nat (2 ^ (9 + c))) as Hn.
  { rewrite table_words_length. unfold root_size, ENTRY_SIZE. change Config.PAGE_SIZE with 4096. rewrite Hp.
    f_equal. rewrite Z.pow_add_r by lia. change (2 ^ 9) with 512.
    replace (2 ^ c * 4096) with (512 * 2 ^ c * 8) by lia. apply Z.div_mul. lia. }
  rewrite E. set (ms := 2 ^ sh) in *. set (m := 2 ^ (9 + c)) in *.
  apply Z.mod_divide in Hal as [q Hq]; [|lia].
  assert (ipa mod (ms * m) = ms * (q mod m)) as Hmod.
  { rewrite Hq, (Z.mul_comm q). by rewrite Z.mul_mod_distr_l by lia. }
  pose proof (Z.mod_pos_bound q m ltac:(lia)) as Hqm. rewrite Hmod.
  pose proof (Z.mod_le ipa (ms * m) ltac:(lia) ltac:(lia)).
  rewrite (skip_loop_spec ms ipa (ipa - ms * (q mod m)) (Z.to_nat (q mod m))).
  - eexists. split; [done|]. nia.
  - lia.
  - lia.
  - rewrite Z2Nat.id by lia. lia.
  - rewrite Hn. lia.
  - rewrite Hn, Z2Nat.id by lia. unfold Word.modulus. nia.
Qed.
End skip.

(** ** RTT_DESTROY *)
Section destroy.
Context `{Platform}.

(** What takes the place of a table that maps nothing. *)
Definition emptied_entry (rd : Rd.t) (ipa : Z) : Z :=
  if Rd.addr_in_par rd ipa then bits_in_reg S2TTE.INVALID_RIPAS invalid_ripas.DESTROYED
  else bits_in_reg S2TTE.NS 1.
Definition emptied_tlbi (rd : Rd.t) (ipa : Z) : Tlbi :=
  if Rd.addr_in_par rd ipa then LEAF (Rd.id rd) else BREAKDOWN (Rd.id rd).

(** The table operation of RTT_DESTROY under the lock of the table's granule. *)
Lemma destroy_run rd s t ipa level rtt pre b f :
  in_table rd s t ipa level rtt pre b -> validate_addr rtt = true ->
  let idx := granule_addr_to_index rtt in
  idx ∉ locked s -> state (gst s idx) = GranuleState.RTT ->
  if existsb is_live (table_words rtt TABLE_SIZE s)
  then destroy rd ipa level f s
       = (let '(r, s') := (f ipa;; throw (RmiErrorRtt level)) (lock idx s) in (r, unlock idx s'))
  else exists top, ipa <= top /\ destroy rd ipa level f s
       = (Ok (rtt, top), folded rd t ipa level b (emptied_entry rd ipa) (emptied_tlbi rd ipa) rtt s).
Proof.
  intros Hit Hv idx Hu Hst. pose proof (it_bounds _ _ _ _ _ _ _ _ Hit) as Hlb.
  destruct Hit as [Hr Hl Hi Hal Hpg Hfr Hpt Hadr].
  assert (is_table (read_word b s) (level - 1) = true) as Htb.
  { rewrite is_table_points, Hpt. unfold RTT_PAGE_LEVEL. rewrite (proj2 (Z.ltb_lt _ _)) by lia. done. }
  assert (destroy rd ipa level f s = (let '(r, s') :=
    (if existsb is_live (table_words rtt TABLE_SIZE s) then f ipa;; throw (RmiErrorRtt level)
     else s2_pte_set rd ipa (level - 1) (emptied_entry rd ipa) (emptied_tlbi rd ipa);;
          set_granule idx GranuleState.Delegated;;
          top_ipa ← skip_non_live_entries rd ipa (level - 1); mret (rtt, top_ipa)) (lock idx s) in
    (r, unlock idx s'))) as Hd.
  { unfold destroy. rewrite Word.sub_small by (unfold Word.modulus; lia).
    erewrite bind_ok by (eapply reaches_get; exact Hr). cbv beta iota.
    rewrite Z.eqb_refl, Htb. cbn [negb orb].
    change (addr_as_block (read_word b s) RTT_PAGE_LEVEL)
      with (Ok (E := Error) (get_masked (read_word b s) S2TTE.ADDR_TBL_OR_PAGE)).
    rewrite Hadr. mstep. rewrite with_granule_if_run by done. cbv zeta. fold idx.
    pose proof (reaches_lock _ _ _ _ _ _ _ ({[idx]} ∪ locked s) Hr) as Hrl.
    assert (ok (F := Error) (is_live_rtt rd ipa level) (lock idx s)
      = (Ok (if existsb is_live (table_words rtt TABLE_SIZE s) then Some true else None), lock idx s)) as Hlive.
    { unfold ok, is_live_rtt, s2_table. mstep. change (rtt_tables (lock _ _)) with (rtt_tables s).
      rewrite (reach_table _ _ _ _ _ _ _ Hr). cbn [unwrap]. mstep.
      erewrite bind_ok by (by eapply (entries_below rd (lock idx s) t ipa level rtt pre b Hrl)).
      cbv beta iota. change (table_words rtt TABLE_SIZE (lock idx s)) with (table_words rtt TABLE_SIZE s).
      by destruct (existsb is_live _). }
    erewrite bind_ok by exact Hlive. destruct (existsb is_live _); [done|]. cbn [default].
    unfold emptied_entry, emptied_tlbi. by destruct (Rd.addr_in_par rd ipa). }
  rewrite Hd. clear Hd. destruct (existsb is_live _); [done|].
  pose proof (reaches_lock _ _ _ _ _ _ _ ({[idx]} ∪ locked s) Hr) as Hrl.
  destruct (replaced_reaches rd s t ipa level rtt pre b Hr Hfr Hv (emptied_entry rd ipa)
    (emptied_tlbi rd ipa) ({[idx]} ∪ locked s)) as [Hrr _].
  destruct (skip_from _ _ _ _ _ _ _ Hrr Hi Hal) as (top & Hskip & Htop).
  exists top. split; [exact Htop|]. erewrite bind_ok by (by eapply reaches_set). cbv beta.
  erewrite bind_ok by apply set_granule_run. cbv beta. erewrite bind_ok by exact Hskip. done.
Qed.

(** C15: RTT_DESTROY's table operation. Where the walk to [level - 1] finds no
    table, and where the table has a live entry (a mapped page or block, or a
    table), nothing changes and the level is reported after the host has been
    told where to go on. Otherwise the table's granule is wiped and returned
    to the Delegated state, all locks are as before, and RTT_READ_ENTRY
    reports the block as unassigned: DESTROYED where it is protected, so the
    realm has to accept the change before it can use the addresses again. *)
Theorem destroy_spec rd s t ipa level pre b f :
  reaches rd s t ipa (level - 1) pre b -> root_level t < level <= 3 ->
  0 <= ipa < 2 ^ 48 -> ipa mod 2 ^ level_shift (level - 1) = 0 ->
  let e := read_word b s in
  let rtt := get_masked e S2TTE.ADDR_TBL_OR_PAGE in
  let idx := granule_addr_to_index rtt in
  (is_table e (level - 1) = true -> (forall a, a ∈ pre \/ a = b -> page_of a <> rtt) /\
     validate_addr rtt = true /\ idx ∉ locked s /\ state (gst s idx) = GranuleState.RTT) ->
  if negb (is_table e (level - 1)) then
    exists top, ipa <= top /\ destroy rd ipa level f s = (f top;; throw (RmiErrorRtt (level - 1))) s
  else if existsb is_live (table_words rtt TABLE_SIZE s) then
    destroy rd ipa level f s
    = (let '(r, s') := (f ipa;; throw (RmiErrorRtt level)) (lock idx s) in (r, unlock idx s'))
  else exists top s', destroy rd ipa level f s = (Ok (rtt, top), s') /\ ipa <= top /\
    state (gst s' idx) = GranuleState.Delegated /\ mem s' rtt = zero_page /\
    locked s' = locked s /\
    read_entry rd ipa (level - 1) s'
    = (Ok [level - 1; Rmi.RMI_UNASSIGNED; 0;
           if Rd.addr_in_par rd ipa then invalid_ripas.DESTROYED else 0], s').
Proof.
  intros Hr Hl Hi Hal e rtt idx Ht. pose proof (level_bounds _ _ _ _ _ _ _ Hr Hl) as Hlb.
  destruct (is_table e (level - 1)) eqn:Htb; cbn [negb].
  - destruct (Ht eq_refl) as (Hfr & Hv & Hu & Hst).
    assert (in_table rd s t ipa level rtt pre b) as Hit.
    { split; try done; [by apply validate_addr_page_addr|].
      rewrite is_table_points in Htb. by apply andb_true_iff in Htb as [_ ?]. }
    pose proof (destroy_run _ _ _ _ _ _ _ _ f Hit Hv Hu Hst) as Hrun.
    destruct (existsb is_live _); [exact Hrun|]. destruct Hrun as (top & Htop & Hrun).
    destruct (folded_spec rd s t ipa level rtt pre b Hr Hfr Hv Hu (emptied_entry rd ipa)
      (emptied_tlbi rd ipa)) as (H1 & H2 & H3 & H4 & H5).
    eexists top, _. split; [exact Hrun|]. split_and!; [done..|].
    erewrite read_entry_report by exact H4. rewrite H5. f_equal. unfold emptied_entry.
    assert (level - 1 = 0 \/ level - 1 = 1 \/ level - 1 = 2) as [-> |[-> | ->]] by lia;
      destruct (Rd.addr_in_par rd ipa); reflexivity.
  - destruct (skip_from _ _ _ _ _ _ _ Hr Hi Hal) as (top & Hskip & Htop).
    exists top. split; [exact Htop|]. unfold destroy. rewrite Word.sub_small by (unfold Word.modulus; lia).
    erewrite bind_ok by (eapply reaches_get; exact Hr). cbv beta iota. fold e.
    rewrite Z.eqb_refl, Htb. cbn [negb orb]. by erewrite bind_ok by exact Hskip.
Qed.
End destroy.

(** ** RTT_UNMAP_UNPROTECTED *)
Section unmap.
Context `{Platform}.

Lemma unmap_unprotected_run rd s t ipa level pre b f :
  reaches rd s t ipa level pre b -> 0 <= ipa < 2 ^ 48 -> ipa mod 2 ^ level_shift level = 0 ->
  if Rd.addr_in_par rd ipa then unmap_unprotected rd ipa level f s = (Err RmiErrorInput, s)
  else exists top, ipa <= top /\
    if negb (is_assigned_ns (read_word b s) level) then
      unmap_unprotected rd ipa level f s = (f top;; throw (RmiErrorRtt level)) s
    else unmap_unprotected rd ipa level f s
         = (Ok top, after_set rd t ipa level b UNASSIGNED_NS (LEAF (Rd.id rd)) s).
Proof.
  intros Hr Hi Hal. unfold unmap_unprotected. destruct (Rd.addr_in_par rd ipa); [done|].
  erewrite bind_ok by (eapply reaches_get; exact Hr). cbv beta iota. rewrite Z.eqb_refl. cbn [negb orb].
  destruct (is_assigned_ns (read_word b s) level); cbn [negb].
  - pose proof (reaches_after_set _ _ _ _ _ _ _ UNASSIGNED_NS (LEAF (Rd.id rd)) Hr) as Hr'.
    destruct (skip_from _ _ _ _ _ _ _ Hr' Hi Hal) as (top & Hskip & Htop).
    exists top. split; [done|]. by erewrite bind_ok by (by eapply reaches_set).
  - destruct (skip_from _ _ _ _ _ _ _ Hr Hi Hal) as (top & Hskip & Htop).
    exists top. split; [done|]. by erewrite bind_ok by exact Hskip.
Qed.

(** RTT_UNMAP_UNPROTECTED refuses a protected address, and an entry that
    maps no unprotected memory after telling the host where to go on, without
    any effect; otherwise the mapping is removed and the entry reported as
    unassigned. RTT_MAP_UNPROTECTED of the same address is refused from then
    on: the unassigned entry that is left has NS set, which [map_unprotected]
    does not accept as unassigned. *)
Theorem unmap_unprotected_spec rd s t ipa level pre b f :
  reaches rd s t ipa level pre b -> 0 <= level ->
  0 <= ipa < 2 ^ 48 -> ipa mod 2 ^ level_shift level = 0 ->
  if Rd.addr_in_par rd ipa then unmap_unprotected rd ipa level f s = (Err RmiErrorInput, s)
  else exists top, ipa <= top /\
    if negb (is_assigned_ns (read_word b s) level) then
      unmap_unprotected rd ipa level f s = (f top;; throw (RmiErrorRtt level)) s
    else exists s', unmap_unprotected rd ipa level f s = (Ok top, s') /\
      read_entry rd ipa level s' = (Ok [level; Rmi.RMI_UNASSIGNED; 0; 0], s') /\
      forall h, map_unprotected rd ipa level h s' = (Err (RmiErrorRtt level), s').
Proof.
  intros Hr Hl Hi Hal. pose proof (unmap_unprotected_run rd s t ipa level pre b f Hr Hi Hal) as Hrun.
  destruct (Rd.addr_in_par rd ipa) eqn:Hp; [done|]. destruct Hrun as (top & Htop & Hrun).
  exists top. split; [done|]. destruct (is_assigned_ns _ _); cbn [negb] in *; [|done].
  pose proof (reaches_after_set _ _ _ _ _ _ _ UNASSIGNED_NS (LEAF (Rd.id rd)) Hr) as Hr'.
  pose proof (reach_level _ _ _ _ _ _ _ Hr). eexists. split_and!; [exact Hrun| |].
  - erewrite read_entry_report by exact Hr'. rewrite after_set_read. f_equal.
    assert (level = 0 \/ level = 1 \/ level = 2 \/ level = 3) as [-> |[-> |[-> | ->]]] by lia; reflexivity.
  - intros h. rewrite (map_unprotected_run _ _ _ _ _ _ _ _ Hr'), Hp, after_set_read. done.
Qed.
End unmap.

(** ** Witnesses *)
Lemma destroy_spec_witness :
  exists top s', destroy sample_realm (2 ^ 38) 2 (fun _ => mret tt) sample_tables
    = (Ok (0x80005000, top), s') /\ mem s' 0x80005000 = zero_page /\
    read_entry sample_realm (2 ^ 38) 1 s' = (Ok [1; Rmi.RMI_UNASSIGNED; 0; 0], s').
Proof.
  pose proof (destroy_spec sample_realm sample_tables sample_s2 (2 ^ 38) 2 [] 0x80001800
    (fun _ => mret tt) sample_reaches_root ltac:(simpl; lia) ltac:(lia) eq_refl) as Hd.
  cbv zeta in Hd.
  assert (read_word 0x80001800 sample_tables = 0x80005003) as Hw by (vm_compute; reflexivity).
  rewrite Hw in Hd. change (is_table 0x80005003 (2 - 1)) with true in Hd.
  change (get_masked 0x80005003 S2TTE.ADDR_TBL_OR_PAGE) with 0x80005000 in Hd.
  assert (existsb is_live (table_words 0x80005000 TABLE_SIZE sample_tables) = false) as Hl
    by (vm_compute; reflexivity).
  rewrite Hl in Hd. destruct Hd as (top & s' & H1 & _ & _ & H2 & _ & H3).
  - intros _. split_and!; [|vm_compute; reflexivity|set_solver|vm_compute; reflexivity].
    intros a [Ha| ->]; [set_solver|vm_compute; done].
  - exists top, s'. split; [exact H1|]. split; [exact H2|]. exact H3.
Defined.

Lemma unmap_unprotected_spec_witness :
  let s := after_set sample_realm sample_s2 (2 ^ 38) 2 0x80005000
             (Z.lor 0x8800003d8 (unprotected_attr 2)) (LEAF 5) sample_tables in
  exists top s', unmap_unprotected sample_realm (2 ^ 38) 2 (fun _ => mret tt) s = (Ok top, s') /\
    map_unprotected sample_realm (2 ^ 38) 2 0x8800003d8 s' = (Err (RmiErrorRtt 2), s').
Proof.
  intros s.
  assert (reaches sample_realm s (dirtied (LEAF 5) sample_s2) (2 ^ 38) 2 [0x80001800] 0x80005000) as Hr
    by (apply (reaches_after_set sample_realm sample_tables sample_s2), sample_reaches_l2).
  pose proof (unmap_unprotected_spec sample_realm s _ (2 ^ 38) 2 _ _ (fun _ => mret tt) Hr
    ltac:(lia) ltac:(lia) eq_refl) as Hu.
  change (Rd.addr_in_par sample_realm (2 ^ 38)) with false in Hu.
  assert (is_assigned_ns (read_word 0x80005000 s) 2 = true) as Hn by (vm_compute; reflexivity).
  cbv iota in Hu. rewrite Hn in Hu. destruct Hu as (top & _ & s' & H1 & _ & H2).
  exists top, s'. split; [exact H1|apply H2].
Defined.
