(* ===== verification/Attestation.v ===== *)
(** * What attestation shows

    The realm initial measurement (rmm/src/measurement/ctx.rs) as a hash chain
    over the operations that build a realm, and the delivery of the token in
    parts (rmm/src/rsi/attestation, [attest_token_continue]). *)

From S2P Require Import Prelude Bytes Bits Vmsa RmiTypes Granule S2tte Objects Machine Measurement Rsi Sample.

(** ** Lists of bytes *)
Lemma le_bytes_inj n v w :
  0 <= v < 256 ^ Z.of_nat n -> 0 <= w < 256 ^ Z.of_nat n -> le_bytes n v = le_bytes n w -> v = w.
Proof.
  intros Hv Hw E. apply (f_equal le_value) in E. rewrite !le_bytes_value in E.
  by rewrite !Z.mod_small in E.
Qed.

Lemma splice_0 new l : splice 0 new l = new ++ drop (length new) l.
Proof. done. Qed.

(** ** The operations that are measured *)
Inductive rim_op : Type :=
| OpData (data : list Z) (ipa flags : Z)
| OpRec (params : RecParams.t)
| OpRipas (base top : Z).

(** The arguments are 64-bit registers. *)
Definition op_wf (o : rim_op) : Prop :=
  match o with
  | OpData _ ipa flags => Word.in_range ipa /\ Word.in_range flags
  | OpRec _ => True
  | OpRipas base top => Word.in_range base /\ Word.in_range top
  end.

(** The same operation as far as it is measured: the content of a page counts
    only where it was asked to be measured. *)
Definition same_op (o o' : rim_op) : Prop :=
  match o, o' with
  | OpData d ipa flags, OpData d' ipa' flags' =>
      ipa = ipa' /\ flags = flags' /\ (flags = RMI_MEASURE_CONTENT -> d = d')
  | OpRec p, OpRec p' => RecParams.hash_input p = RecParams.hash_input p'
  | OpRipas b t, OpRipas b' t' => b = b' /\ t = t'
  | _, _ => False
  end.

Section rim.
Context `{PlatformLaws}.

Definition rim_step (rd : Rd.t) (o : rim_op) : outcome Error Rd.t :=
  match o with
  | OpData d ipa flags => measure_data_granule rd d ipa flags
  | OpRec p => measure_rec_params rd p
  | OpRipas b t => measure_ripas_granule rd b t
  end.

Fixpoint rim_steps (rd : Rd.t) (ops : list rim_op) : outcome Error Rd.t :=
  match ops with
  | [] => Ok rd
  | o :: ops => rd' ← rim_step rd o; rim_steps rd' ops
  end.

(** A measurement that holds the digest of [d]. *)
Definition digested (h : Hasher) (d : list Z) : list Z := splice 0 (factory h d) Measurement_empty.

Definition descriptor (h : Hasher) (rim : list Z) (o : rim_op) : list Z :=
  match o with
  | OpData d ipa flags => data_descriptor rim ipa flags
      (if flags =? RMI_MEASURE_CONTENT then digested h d else Measurement_empty)
  | OpRec p => rec_descriptor rim (digested h (RecParams.hash_input p))
  | OpRipas b t => ripas_descriptor rim b t
  end.

(** One link of the chain. *)
Definition rim_next (h : Hasher) (rim : list Z) (o : rim_op) : list Z :=
  splice 0 (factory h (descriptor h rim o)) rim.

Definition hasher_wf (h : Hasher) : Prop :=
  0 < output_size h <= 64 /\ forall d, Z.of_nat (length (factory h d)) = output_size h.

(** What measuring one operation on top of [rim] gives to the hash function:
    the content of a measured page or the parameters of a REC, then the
    descriptor. *)
Definition op_inputs (h : Hasher) (rim : list Z) (o : rim_op) : list (list Z) :=
  match o with
  | OpData d ipa flags => if flags =? RMI_MEASURE_CONTENT then [d] else []
  | OpRec p => [RecParams.hash_input p]
  | OpRipas b t => []
  end ++ [descriptor h rim o].

Fixpoint steps_inputs (h : Hasher) (rim : list Z) (ops : list rim_op) : list (list Z) :=
  match ops with
  | [] => []
  | o :: ops => op_inputs h rim o ++ steps_inputs h (rim_next h rim o) ops
  end.

(** Everything hashed while a realm is built from the parameters' bytes [p] by
    [ops]. *)
Definition build_inputs (h : Hasher) (p : list Z) (ops : list rim_op) : list (list Z) :=
  p :: steps_inputs h (digested h p) ops.

(** Two different byte strings, one hashed by each of two builds, with the
    same digest. *)
Definition collide (h : Hasher) (xs ys : list (list Z)) : Prop :=
  exists x y, x ∈ xs /\ y ∈ ys /\ x <> y /\ factory h x = factory h y.

Lemma digest_eq h x y xs ys :
  x ∈ xs -> y ∈ ys -> factory h x = factory h y -> x = y \/ collide h xs ys.
Proof. intros Hx Hy E. destruct (decide (x = y)); [by left|]. right. by exists x, y. Qed.

Lemma collide_mono h xs ys xs' ys' :
  xs ⊆ xs' -> ys ⊆ ys' -> collide h xs ys -> collide h xs' ys'.
Proof. intros Hx Hy (x & y & ? & ? & ? & ?). exists x, y. auto. Qed.

Section chain.
Context (h : Hasher) (Hh : hasher_wf h).

Lemma digest_length d d' : length (factory h d) = length (factory h d').
Proof. destruct Hh as [_ Hf]. apply Nat2Z.inj. by rewrite !Hf. Qed.

Lemma digested_length d : length (digested h d) = 64%nat.
Proof. destruct Hh as [Hs Hf]. by apply hash_fields_into_ok; [exact Hf|lia|]. Qed.

Lemma next_length rim o : length rim = 64%nat -> length (rim_next h rim o) = 64%nat.
Proof. destruct Hh as [Hs Hf]. intros Hr. by apply hash_fields_into_ok; [exact Hf|lia|]. Qed.

Lemma splice_digest_inj d d' rim rim' :
  splice 0 (factory h d) rim = splice 0 (factory h d') rim' -> factory h d = factory h d'.
Proof.
  rewrite !splice_0. intros E. apply app_inj_1 in E as [E _]; [done|]. apply digest_length.
Qed.

Lemma digested_inj d d' xs ys :
  d ∈ xs -> d' ∈ ys -> digested h d = digested h d' -> d = d' \/ collide h xs ys.
Proof. intros Hd Hd' E. by eapply digest_eq, splice_digest_inj. Qed.

(** A descriptor determines the measurement it extends and the operation. *)
Lemma descriptor_inj rim rim' o o' :
  length rim = 64%nat -> length rim' = 64%nat -> op_wf o -> op_wf o' ->
  descriptor h rim o = descriptor h rim' o' ->
  (rim = rim' /\ same_op o o') \/ collide h (op_inputs h rim o) (op_inputs h rim' o').
Proof.
  intros Hl Hl' Hw Hw' E. unfold op_inputs.
  assert (forall a b, Word.in_range a -> Word.in_range b -> hash_u64 a = hash_u64 b -> a = b)
    as Hinj by (intros a b Ha Hb; by apply le_bytes_inj).
  destruct o as [d ipa flags|p|b t], o' as [d' ipa' flags'|p'|b' t'];
    try (apply (f_equal head) in E; done); cbn [descriptor op_wf same_op] in *;
    unfold data_descriptor, rec_descriptor, ripas_descriptor in E;
    do 3 (apply app_inj_1 in E as [_ E]; [|done]);
    apply app_inj_1 in E as [-> E]; [|lia|..|lia| |lia].
  - apply app_inj_1 in E as [Ei E]; [|done]. apply app_inj_1 in E as [Ef E]; [|done].
    apply Hinj in Ei as ->; [|tauto..]. apply Hinj in Ef as ->; [|tauto..].
    apply app_inv_tail in E. destruct (Z.eqb_spec flags' RMI_MEASURE_CONTENT); [|by left].
    eapply digested_inj in E as [-> |]; [by left|by right|by left|by left].
  - apply app_inv_tail in E. eapply digested_inj in E as [E|]; [by left|by right|by left|by left].
  - apply app_inj_1 in E as [Eb E]; [|done]. apply app_inv_tail in E.
    apply Hinj in Eb as ->; [|tauto..]. apply Hinj in E as ->; [|tauto..]. by left.
Qed.

Lemma descriptor_length rim o : length rim = 64%nat -> length (descriptor h rim o) = 256%nat.
Proof.
  intros Hr. destruct o; cbn [descriptor]; unfold data_descriptor, rec_descriptor, ripas_descriptor.
  - rewrite !length_app, Hr. case_match; [by rewrite digested_length|done].
  - by rewrite !length_app, Hr, digested_length.
  - by rewrite !length_app, Hr.
Qed.

(** The measurement of a realm built from the parameters' bytes [p] by [ops]. *)
Definition rim_chain (p : list Z) (ops : list rim_op) : list Z :=
  foldl (rim_next h) (digested h p) ops.

Lemma chain_length p ops : length (rim_chain p ops) = 64%nat.
Proof.
  unfold rim_chain. induction ops as [|o ops IH] using rev_ind; [apply digested_length|].
  rewrite foldl_app. simpl. by apply next_length.
Qed.

Lemma steps_inputs_snoc rim ops o :
  steps_inputs h rim (ops ++ [o]) = steps_inputs h rim ops ++ op_inputs h (foldl (rim_next h) rim ops) o.
Proof.
  revert rim. induction ops as [|a ops IH]; intros rim; cbn [steps_inputs foldl app].
  - by rewrite app_nil_r.
  - by rewrite IH, app_assoc.
Qed.

Lemma build_inputs_snoc p ops o :
  build_inputs h p (ops ++ [o]) = build_inputs h p ops ++ op_inputs h (rim_chain p ops) o.
Proof. unfold build_inputs. by rewrite steps_inputs_snoc. Qed.

(** The last digest of a chain: of the parameters, or of a descriptor. *)
Definition last_input (p : list Z) (ops : list rim_op) : list Z :=
  match reverse ops with
  | [] => p
  | o :: rest => descriptor h (rim_chain p (reverse rest)) o
  end.

Lemma last_input_snoc p ops o : last_input p (ops ++ [o]) = descriptor h (rim_chain p ops) o.
Proof. unfold last_input. by rewrite reverse_snoc, reverse_involutive. Qed.

Lemma last_input_hashed p ops : last_input p ops ∈ build_inputs h p ops.
Proof.
  destruct ops as [|o ops _] using rev_ind; [by left|].
  rewrite last_input_snoc, build_inputs_snoc. unfold op_inputs. set_solver.
Qed.

Lemma chain_last p ops : exists z, rim_chain p ops = splice 0 (factory h (last_input p ops)) z.
Proof.
  destruct ops as [|o ops _] using rev_ind; [by eexists|].
  rewrite last_input_snoc. unfold rim_chain. rewrite foldl_app. by eexists.
Qed.

Lemma chain_last_inj p p' ops ops' :
  rim_chain p ops = rim_chain p' ops' ->
  last_input p ops = last_input p' ops' \/ collide h (build_inputs h p ops) (build_inputs h p' ops').
Proof.
  destruct (chain_last p ops) as [z ->], (chain_last p' ops') as [z' ->]. intros E.
  eapply digest_eq; [apply last_input_hashed..|]. by eapply splice_digest_inj.
Qed.

(** Two builds with the same measurement. *)
Lemma chain_inj p p' ops ops' :
  length p <> 256%nat -> length p' <> 256%nat -> Forall op_wf ops -> Forall op_wf ops' ->
  rim_chain p ops = rim_chain p' ops' ->
  (p = p' /\ Forall2 same_op ops ops') \/ collide h (build_inputs h p ops) (build_inputs h p' ops').
Proof.
  intros Hp Hp' Hw. revert ops'. induction ops as [|o ops IH] using rev_ind; intros ops' Hw' E.
  all: apply chain_last_inj in E as [E|]; [|by right]; destruct ops' as [|o' ops' _] using rev_ind;
    rewrite ?last_input_snoc in E.
  - left. by split; [|constructor].
  - exfalso. apply Hp. change p with (last_input p []). rewrite E. apply descriptor_length, chain_length.
  - exfalso. apply Hp'. change p' with (last_input p' []). rewrite <- E.
    apply descriptor_length, chain_length.
  - apply Forall_app in Hw as [Hw Ho]. apply Forall_app in Hw' as [Hw' Ho'].
    rewrite Forall_singleton in Ho, Ho'. rewrite !build_inputs_snoc.
    apply descriptor_inj in E as [[E Hs]|Hc]; try done; try apply chain_length.
    2: right; eapply collide_mono; [| |exact Hc]; set_solver.
    destruct (IH Hw ops' Hw' E) as [[-> Hf]|Hc].
    2: right; eapply collide_mono; [| |exact Hc]; set_solver.
    left. split; [done|]. apply Forall2_app; [done|]. by constructor.
Qed.

(** The extension of the RIM slot by the digest of what [input] makes of it. *)
Lemma extend_rim rd (input : list Z -> list Z) :
  measurements_wf rd ->
  exists rim, Rd.measurements rd !! O = Some rim /\ length rim = 64%nat /\
    extend rd MEASUREMENTS_SLOT_RIM (fun rim => hash_fields_into h rim (input rim))
    = Ok (Rd.with_measurements
            (<[O := splice 0 (factory h (input rim)) rim]> (Rd.measurements rd)) rd) /\
    measurements_wf (Rd.with_measurements
            (<[O := splice 0 (factory h (input rim)) rim]> (Rd.measurements rd)) rd).
Proof.
  intros Hwf. destruct Hh as [Hs Hf].
  destruct (measurements_lookup rd MEASUREMENTS_SLOT_RIM Hwf) as (rim & Hrim & Hlen); [done|].
  assert (forall m, length m = 64%nat ->
    hash_fields_into h m (input m) = Ok (splice 0 (factory h (input m)) m) /\
    length (splice 0 (factory h (input m)) m) = 64%nat) as Hhash
    by (intros m Hm; apply hash_fields_into_ok; [exact Hf|lia|done]).
  destruct (extend_ok rd MEASUREMENTS_SLOT_RIM (fun rim => hash_fields_into h rim (input rim)) Hwf)
    as (m & m' & Hm & Hm' & He & Hwf'); [done| |].
  { intros m Hm. eexists. by apply Hhash. }
  change (Z.to_nat MEASUREMENTS_SLOT_RIM) with O in *. rewrite Hm in Hrim. simplify_eq.
  destruct (Hhash rim Hlen) as [Hr _]. rewrite Hr in Hm'. simplify_eq. by exists rim.
Qed.

(** The measuring operations compute the links of the chain and touch nothing
    else. *)
Lemma rim_step_run rd o :
  measurements_wf rd -> from_hash_algo (Rd.hash_algo rd) = Ok h ->
  exists rim, Rd.measurements rd !! O = Some rim /\
    rim_step rd o
    = Ok (Rd.with_measurements (<[O := rim_next h rim o]> (Rd.measurements rd)) rd) /\
    measurements_wf (Rd.with_measurements (<[O := rim_next h rim o]> (Rd.measurements rd)) rd).
Proof.
  intros Hwf Ha. destruct (extend_rim rd (fun rim => descriptor h rim o) Hwf)
    as (rim & Hrim & _ & He & Hwf').
  exists rim. split; [done|]. split; [|exact Hwf'].
  assert (forall d, hash_fields_into h Measurement_empty d = Ok (digested h d)) as Hd.
  { destruct Hh as [Hs Hf]. intros d. apply hash_fields_into_ok; [exact Hf|lia|done]. }
  unfold rim_next. destruct o; cbn [rim_step descriptor] in *;
    unfold measure_data_granule, measure_rec_params, measure_ripas_granule, hash_context_new;
    rewrite Ha; cbn [map_err mbind outcome_bind].
  - destruct (flags =? RMI_MEASURE_CONTENT); rewrite ?Hd; cbn [map_err mbind outcome_bind];
      by rewrite He.
  - rewrite Hd. cbn [map_err mbind outcome_bind]. by rewrite He.
  - by rewrite He.
Qed.

Lemma rim_steps_run rd ops rim :
  measurements_wf rd -> from_hash_algo (Rd.hash_algo rd) = Ok h ->
  Rd.measurements rd !! O = Some rim ->
  exists r, rim_steps rd ops = Ok r /\ measurements_wf r /\
    Rd.measurements r = <[O := foldl (rim_next h) rim ops]> (Rd.measurements rd).
Proof.
  revert rd rim. induction ops as [|o ops IH]; intros rd rim Hwf Ha Hrim.
  - exists rd. split_and!; [done..|]. by rewrite list_insert_id.
  - destruct (rim_step_run rd o Hwf Ha) as (rim' & Hrim' & Hs & Hwf'). simplify_eq.
    destruct (IH _ (rim_next h rim o) Hwf' Ha) as (r & Hr & Hwfr & Hm).
    { simpl. apply list_lookup_insert_eq. by eapply lookup_lt_Some. }
    exists r. split_and!; [|done|].
    + cbn [rim_steps]. rewrite Hs. exact Hr.
    + rewrite Hm. simpl. by rewrite list_insert_insert_eq.
Qed.
End chain.

(** A realm built by REALM_CREATE with [params] and then [ops]. *)
Definition build (rd : Rd.t) (params : RealmParams.t) (ops : list rim_op) : outcome Error Rd.t :=
  r ← measure_realm_create rd params; rim_steps r ops.

(** What REALM_CREATE starts from. *)
Definition unmeasured (rd : Rd.t) : Prop :=
  measurements_wf rd /\ hash_algo_supported (Rd.hash_algo rd) /\
  Rd.measurements rd !! O = Some Measurement_empty.

Lemma build_run rd params ops :
  unmeasured rd -> exists h r, from_hash_algo (Rd.hash_algo rd) = Ok h /\ hasher_wf h /\
    build rd params ops = Ok r /\
    Rd.measurements r
    = <[O := rim_chain h (RealmParams.hash_input params) ops]> (Rd.measurements rd).
Proof.
  intros (Hwf & Ha & Hz). destruct (from_hash_algo_ok _ Ha) as (h & Hh & Hs).
  assert (hasher_wf h) as Hhwf by done.
  destruct (extend_rim h Hhwf rd (fun _ => RealmParams.hash_input params) Hwf)
    as (rim & Hrim & _ & He & Hwf'). rewrite Hz in Hrim. injection Hrim as <-.
  destruct (rim_steps_run h Hhwf (Rd.with_measurements
      (<[O := digested h (RealmParams.hash_input params)]> (Rd.measurements rd)) rd)
      ops (digested h (RealmParams.hash_input params)) Hwf' Hh)
    as (r & Hr & _ & Hm).
  { simpl. apply list_lookup_insert_eq. by eapply lookup_lt_Some. }
  exists h, r. split_and!; [done..| |].
  - unfold build, measure_realm_create, hash_context_new. rewrite Hh.
    cbn [map_err mbind outcome_bind]. rewrite He. exact Hr.
  - rewrite Hm. simpl. by rewrite list_insert_insert_eq.
Qed.

Lemma params_input_length params :
  Z.of_nat (length (RealmParams.raw params)) = 4096 ->
  length (RealmParams.hash_input params) <> 256%nat.
Proof.
  intros Hl E. apply (f_equal Z.of_nat) in E. change (Z.of_nat 256) with 256 in E.
  assert (Z.of_nat (length (slice 0x440 (0x800 - 0x440) (RealmParams.raw params))) = 960) as Hs.
  { unfold slice. rewrite length_take, length_drop. lia. }
  unfold RealmParams.hash_input in E. rewrite !length_app, !Nat2Z.inj_add in E. lia.
Qed.

(** C16: the realm initial measurement binds how a realm was built. Measuring
    never fails, each build changes only the RIM, and two builds whose RIMs
    agree were made from the same (measured) realm parameters by the same
    sequence of DATA_CREATE, REC_CREATE and INIT_RIPAS operations: the same
    addresses, flags, ranges, REC parameters and, for the pages whose content
    was measured, the same content. Otherwise, among the byte strings the two
    builds hash there are two different ones, one of each build, with the same
    digest. The personalization value, the VMID and the base of the tables are
    not measured. *)
Theorem rim_binding rd rd' params params' ops ops' :
  unmeasured rd -> unmeasured rd' -> Rd.hash_algo rd = Rd.hash_algo rd' ->
  Z.of_nat (length (RealmParams.raw params)) = 4096 ->
  Z.of_nat (length (RealmParams.raw params')) = 4096 ->
  Forall op_wf ops -> Forall op_wf ops' ->
  exists h r r', from_hash_algo (Rd.hash_algo rd) = Ok h /\
    build rd params ops = Ok r /\ build rd' params' ops' = Ok r' /\
    (forall i, (0 < i)%nat -> Rd.measurements r !! i = Rd.measurements rd !! i) /\
    (Rd.measurements r !! O = Rd.measurements r' !! O ->
     (RealmParams.hash_input params = RealmParams.hash_input params' /\ Forall2 same_op ops ops')
     \/ collide h (build_inputs h (RealmParams.hash_input params) ops)
          (build_inputs h (RealmParams.hash_input params') ops')).
Proof.
  intros Hu Hu' Ha Hl Hl' Hw Hw'.
  destruct (build_run rd params ops Hu) as (h & r & Hh & Hhwf & Hr & Hm).
  destruct (build_run rd' params' ops' Hu') as (h' & r' & Hh' & _ & Hr' & Hm').
  rewrite <- Ha, Hh in Hh'. injection Hh' as <-. exists h, r, r'. split_and!; [done..| |].
  - intros i Hi. rewrite Hm. by rewrite list_lookup_insert_ne by lia.
  - destruct Hu as (_ & _ & Hz), Hu' as (_ & _ & Hz').
    rewrite Hm, Hm', !list_lookup_insert_eq by (by eapply lookup_lt_Some). intros [= E].
    eapply chain_inj; [exact Hhwf|by apply params_input_length..|done|done|exact E].
Qed.
End rim.

(** ** The token in parts *)
Section token.
Context `{Platform}.

(** Consecutive RSI_ATTESTATION_TOKEN_CONTINUE calls with buffers of the given
    sizes: the bytes the realm receives. *)
Fixpoint receive (rd : Rd.t) (rec_addr : Z) (sizes : list Z) : M rmm Error (list Z) :=
  match sizes with
  | [] => mret []
  | size :: sizes =>
      '(part, _) ← get_token_part rd rec_addr size;
      rest ← receive rd rec_addr sizes;
      mret (part ++ rest)
  end.

Definition total (sizes : list Z) : Z := foldr Z.add 0 sizes.

(** The token the RMM generates for a REC's challenge. *)
Definition token_of (rd : Rd.t) (rec_addr : Z) (s : rmm) : outcome Error (list Z) :=
  get_token (keys s) (Rec.attest_challenge (rec_of (mem s rec_addr))) (Rd.measurements rd)
    (Rd.rpv rd) (Rd.hash_algo rd).
Definition offset_of (rec_addr : Z) (s : rmm) : Z :=
  Rec.attest_token_offset (rec_of (mem s rec_addr)).

Lemma token_part_ok token offset size :
  Z.of_nat (length token) < Word.modulus -> 0 <= offset <= Z.of_nat (length token) -> 0 <= size ->
  let n := Z.min size (Z.of_nat (length token) - offset) in
  token_part token offset size
  = Ok (slice offset n token, Z.of_nat (length token) - (offset + n), offset + n).
Proof.
  intros Hl Ho Hs n. unfold token_part. rewrite Word.sub_small by lia. fold n.
  rewrite Word.add_small by lia.
  rewrite (proj2 (Z.ltb_ge (offset + n) offset)), (proj2 (Z.ltb_ge (Z.of_nat (length token)) _)) by lia.
  simpl. do 4 f_equal. lia.
Qed.

Lemma get_token_part_run rd rec_addr size token s :
  token_of rd rec_addr s = Ok token -> Z.of_nat (length token) < Word.modulus ->
  0 <= offset_of rec_addr s <= Z.of_nat (length token) -> 0 <= size ->
  let n := Z.min size (Z.of_nat (length token) - offset_of rec_addr s) in
  exists s', get_token_part rd rec_addr size s
    = (Ok (slice (offset_of rec_addr s) n token, Z.of_nat (length token) - (offset_of rec_addr s + n)), s') /\
    token_of rd rec_addr s' = Ok token /\ offset_of rec_addr s' = offset_of rec_addr s + n.
Proof.
  intros Ht Hl Ho Hs n. eexists. split_and!.
  - unfold get_token_part, read_rec, update_rec, write_rec. mstep.
    fold (token_of rd rec_addr s). rewrite Ht. mstep. fold (offset_of rec_addr s).
    rewrite token_part_ok by done. fold n. mstep. unfold read_rec. mstep. reflexivity.
  - unfold token_of in *. simpl. by rewrite fn_lookup_insert.
  - unfold offset_of. simpl. by rewrite fn_lookup_insert.
Qed.

Lemma receive_run rd rec_addr token sizes s :
  token_of rd rec_addr s = Ok token -> Z.of_nat (length token) < Word.modulus ->
  0 <= offset_of rec_addr s <= Z.of_nat (length token) -> Forall (Z.le 0) sizes ->
  exists s', receive rd rec_addr sizes s
    = (Ok (take (Z.to_nat (total sizes)) (drop (Z.to_nat (offset_of rec_addr s)) token)), s') /\
    offset_of rec_addr s' = Z.min (offset_of rec_addr s + total sizes) (Z.of_nat (length token)).
Proof.
  intros Ht Hl Ho Hs. revert s Ht Ho. induction Hs as [|size sizes Hsz Hs IH]; intros s Ht Ho.
  { exists s. simpl. rewrite take_0. split; [done|lia]. }
  destruct (get_token_part_run rd rec_addr size token s Ht Hl Ho Hsz) as (s1 & Hp & Ht1 & Ho1).
  set (n := Z.min size (Z.of_nat (length token) - offset_of rec_addr s)) in *.
  destruct (IH s1 Ht1 ltac:(lia)) as (s' & Hr & Ho'). rewrite Ho1 in Hr, Ho'.
  assert (0 <= total sizes) as Htot
    by (clear -Hs; induction Hs; simpl in *; lia).
  exists s'. cbn [receive total foldr]. fold (total sizes).
  erewrite bind_ok by exact Hp. cbv beta iota. erewrite bind_ok by exact Hr. split; [|lia].
  unfold mret, M_ret. do 2 f_equal. unfold slice.
  destruct (decide (size <= Z.of_nat (length token) - offset_of rec_addr s)).
  - assert (n = size) as -> by lia. rewrite !Z2Nat.inj_add by lia.
    by rewrite <- drop_drop, take_take_drop.
  - assert (n = Z.of_nat (length token) - offset_of rec_addr s) as -> by lia.
    rewrite (drop_ge token (Z.to_nat (_ + _))), take_nil, app_nil_r by lia.
    rewrite !take_ge by (rewrite length_drop; lia). done.
Qed.

(** C17: the realm receives its attestation token: whatever the sizes of the
    buffers it supplies, consecutive parts are consecutive pieces of one
    token, starting at its first byte, without a gap, an overlap or a panic,
    and the whole token once the buffers add up to its length. The token is the
    one [get_token] makes of the realm's challenge and measurements, provided
    it makes one: an attestation key that is not a private key of P-384 and a
    platform token that is too long make it panic. *)
Theorem token_received rd rec_addr s token sizes :
  token_of rd rec_addr s = Ok token -> Z.of_nat (length token) < Word.modulus ->
  offset_of rec_addr s = 0 -> Forall (Z.le 0) sizes ->
  exists s', receive rd rec_addr sizes s = (Ok (take (Z.to_nat (total sizes)) token), s') /\
    offset_of rec_addr s' = Z.min (total sizes) (Z.of_nat (length token)).
Proof.
  intros Ht Hl Ho Hs. destruct (receive_run rd rec_addr token sizes s Ht Hl ltac:(lia) Hs) as (s' & Hr & Ho').
  rewrite Ho in Hr, Ho'. exists s'. split; [exact Hr|]. lia.
Qed.
End token.

(** ** Witnesses *)
Definition sample_params : RealmParams.t := RealmParams.of_bytes (zero_bytes 4096).

Lemma rim_binding_witness :
  exists h r r', from_hash_algo 0 = Ok h /\
    build sample_rd sample_params [OpRipas 0 0x1000] = Ok r /\
    build sample_rd sample_params [OpRipas 0 0x2000; OpData (zero_bytes 4096) 0 1] = Ok r' /\
    (Rd.measurements r !! O = Rd.measurements r' !! O ->
     collide h (build_inputs h (RealmParams.hash_input sample_params) [OpRipas 0 0x1000])
       (build_inputs h (RealmParams.hash_input sample_params)
          [OpRipas 0 0x2000; OpData (zero_bytes 4096) 0 1])).
Proof.
  assert (unmeasured sample_rd) as Hu.
  { split_and!; [split; [done|repeat constructor]|by left|done]. }
  assert (Z.of_nat (length (RealmParams.raw sample_params)) = 4096) as Hl
    by (change (Z.of_nat (length (zero_bytes 4096)) = 4096); rewrite length_zero_bytes; lia).
  destruct (rim_binding sample_rd sample_rd sample_params sample_params [OpRipas 0 0x1000]
    [OpRipas 0 0x2000; OpData (zero_bytes 4096) 0 1] Hu Hu eq_refl Hl Hl)
    as (h & r & r' & Hh & Hr & Hr' & _ & Hc).
  - repeat constructor; unfold Word.in_range, Word.modulus; lia.
  - repeat constructor; unfold Word.in_range, Word.modulus; lia.
  - exists h, r, r'. split; [exact Hh|]. split; [exact Hr|]. split; [exact Hr'|].
    intros E. destruct (Hc E) as [[_ Hf]|]; [|done]. inversion Hf; subst.
    match goal with Hn : Forall2 _ [] _ |- _ => inversion Hn end.
Defined.

(** A REC, and an attestation key the firmware gave. *)
Definition sample_attest : rmm :=
  write_page 0x80000000 (CRec Rec.new)
    (mkRmm (fun _ => Granule_new) (fun _ => zero_page) ∅ ∅ ∅ ∅ 0x10000000 [] []
       (Run.of_bytes (zero_bytes 4096)) [] (mkEl3Keys [] [] [] (replicate 48 7)) (∅, [])).

Lemma token_received_witness :
  exists s', receive sample_rd 0x80000000 [100; 150; 200] sample_attest = (Ok (zero_bytes 300), s') /\
    offset_of 0x80000000 s' = 300.
Proof.
  destruct (token_received sample_rd 0x80000000 sample_attest (zero_bytes 300) [100; 150; 200])
    as (s' & Hr & Ho).
  - vm_compute. reflexivity.
  - vm_compute. reflexivity.
  - vm_compute. reflexivity.
  - repeat constructor; lia.
  - exists s'. split; [exact Hr|exact Ho].
Defined.
