(* ===== verification/Lifecycle.v ===== *)
(** * The life of a realm

    REALM_CREATE, REALM_ACTIVATE and REALM_DESTROY (rmm/src/rmi/realm/mod.rs),
    and what an active realm is protected from: nothing that is measured into
    the RIM can be done to it any more. *)

From S2P Require Import Prelude Bytes Bits Vmsa RmiTypes Granule S2tte Objects Machine PageTable Stage1 Stage1Facts Stage2 Measurement Rtt RmiRealm RmiRtt RmiRec Frame Sample Invariants Guards SampleRealm.

Section sealed.
Context `{Platform}.

(** The granules, their contents, the realms' tables and VMIDs are the same. *)
Definition untouched (s s' : rmm) : Prop :=
  gst s' = gst s /\ mem s' = mem s /\ rtt_tables s' = rtt_tables s /\ vmid_set s' = vmid_set s.

#[global] Instance untouched_preorder : PreOrder untouched.
Proof.
  split; [done|]. intros s1 s2 s3 (A1 & A2 & A3 & A4) (B1 & B2 & B3 & B4). split_and!; congruence.
Qed.

(** [m] is refused in [s]: it does not succeed and leaves all that untouched. *)
Definition refused {A} (m : M rmm Error A) (s : rmm) : Prop :=
  (forall a, fst (m s) <> Ok a) /\ untouched s (snd (m s)).

(** A realm that is no longer New. *)
Definition sealed (rd_addr : Z) (s : rmm) : Prop :=
  validate_addr rd_addr = true /\
  state (gst s (granule_addr_to_index rd_addr)) = GranuleState.RD /\
  Rd.state (rd_of (mem s rd_addr)) <> New.

Lemma sealed_untouched rd_addr s s' : sealed rd_addr s -> untouched s s' -> sealed rd_addr s'.
Proof. intros (Hv & Hg & Hr) (Eg & Em & _). unfold sealed. by rewrite Eg, Em. Qed.

Lemma refused_throw {A} e s : refused (throw (A := A) e) s.
Proof. by split. Qed.

Lemma refused_bind {A B} (m : M rmm Error A) (f : A -> M rmm Error B) s :
  preserves untouched m -> (forall a s', untouched s s' -> refused (f a) s') -> refused (m ≫= f) s.
Proof.
  intros Hm Hf. specialize (Hm s). unfold refused, mbind, M_bind.
  destruct (m s) as [[a|e| |] s'] eqn:E; simpl in *; try done.
  destruct (Hf a s' Hm) as [Hn Hu]. split; [done|]. by transitivity s'.
Qed.

Lemma lock_untouched idx s : untouched s (lock idx s).
Proof. done. Qed.

Lemma with_granule_untouched {A} addr (k : Z -> M rmm Error A) :
  (forall idx, preserves untouched (k idx)) -> preserves untouched (with_granule addr k).
Proof.
  intros Hk s. unfold with_granule. repeat case_match; try done.
  unfold mbind, M_bind, lock_entry, scoped. case_decide; [done|].
  pose proof (Hk (granule_addr_to_index addr) (lock (granule_addr_to_index addr) s)) as Hs.
  unfold lock in Hs. destruct (k _ _) as [r s']. exact Hs.
Qed.

Lemma with_granule_if_untouched {A} addr st (k : Z -> M rmm Error A) :
  (forall idx, preserves untouched (k idx)) -> preserves untouched (with_granule_if addr st k).
Proof. intros Hk. apply with_granule_untouched. intros idx. preserve. Qed.

(** Everything a command does with a sealed realm's descriptor locked. *)
Lemma refused_rd {A} rd_addr (k : Z -> M rmm Error A) s :
  sealed rd_addr s ->
  (forall s', sealed rd_addr s' -> refused (k (granule_addr_to_index rd_addr)) s') ->
  refused (with_granule_if rd_addr GranuleState.RD k) s.
Proof.
  intros Hs Hk. pose proof Hs as (Hv & Hg & _). set (idx := granule_addr_to_index rd_addr) in *.
  destruct (decide (idx ∈ locked s)) as [Hl|Hl].
  { unfold refused, with_granule_if. by rewrite with_granule_held. }
  unfold refused. rewrite with_granule_if_run by done. fold idx.
  destruct (Hk (lock idx s)) as [Hn Hu]; [by eapply sealed_untouched|].
  destruct (k idx (lock idx s)) as [r s']. exact (conj Hn Hu).
Qed.

(** Its descriptor, as the command reads it. *)
Lemma refused_read_rd {A} rd_addr (k : Rd.t -> M rmm Error A) s :
  sealed rd_addr s ->
  (forall rd, Rd.state rd <> New -> refused (k rd) s) ->
  refused (read_rd (content_addr (granule_addr_to_index rd_addr)) ≫= k) s.
Proof.
  intros (Hv & Hg & Hr) Hk. unfold refused, read_rd, content_addr. mstep.
  rewrite index_to_addr_to_index by done. by apply Hk.
Qed.

Lemma at_state_not_new rd : Rd.state rd <> New -> Rd.at_state rd New = false.
Proof. intros Hn. unfold Rd.at_state. by apply bool_decide_eq_false. Qed.

Lemma pt_map_untouched a b : preserves untouched (pt_map a b).
Proof.
  unfold pt_map. preserve. intros s. unfold on_heap. by destruct (set_pages_for_rmi _ _ _ _).
Qed.
Lemma pt_unmap_untouched a : preserves untouched (pt_unmap a).
Proof.
  unfold pt_unmap. preserve. intros s. unfold on_heap. by destruct (unset_pages_for_rmi _ _ _).
Qed.
Lemma argn_untouched arg i : preserves untouched (argn arg i).
Proof. unfold argn. preserve. Qed.
Lemma copy_from_untouched {T} (f : list Z -> T) a : preserves untouched (copy_from f a).
Proof.
  unfold copy_from, check_granule_if. preserve. apply with_granule_if_untouched. preserve.
Qed.
Hint Resolve pt_map_untouched pt_unmap_untouched argn_untouched copy_from_untouched : islet.

Lemma refused_argn {A} arg i a (f : Z -> M rmm Error A) s :
  arg !! i = Some a -> refused (f a) s -> refused (argn arg i ≫= f) s.
Proof. intros Ha Hf. unfold refused. by rewrite (bind_argn _ i a). Qed.

Ltac refuse := repeat first
  [ apply refused_throw
  | eapply refused_argn; [reflexivity|]
  | apply refused_bind; [solve [auto with islet|preserve]|intros ? ? ?] ].

Lemma verify_aux_untouched rec rd params_ptr prev aux :
  preserves untouched (verify_aux rec rd params_ptr prev aux).
Proof.
  revert prev. induction aux as [|a aux IH]; intros prev; cbn [verify_aux]; preserve.
  apply with_granule_if_untouched. preserve.
Qed.

Lemma rec_params_untouched p rec rd params_ptr :
  preserves untouched (rec_params_verify_compliance p rec rd params_ptr).
Proof. unfold rec_params_verify_compliance. preserve. apply verify_aux_untouched. Qed.

Lemma metadata_from_ns_untouched addr : preserves untouched (metadata_from_ns addr).
Proof. apply with_granule_if_untouched. preserve. Qed.
Hint Resolve rec_params_untouched metadata_from_ns_untouched : islet.

(** C18: once a realm is active (or has been switched off), no command that
    contributes to its measurement or to what it starts from succeeds on it:
    DATA_CREATE, RTT_INIT_RIPAS, REC_CREATE, REALM_ACTIVATE and
    REALM_SET_METADATA, with any other arguments, do not succeed and leave
    every granule, every page, every realm's tables and the VMIDs in use as
    they were. The RMM's own mappings may change: a refused REC_CREATE can
    leave the page of its parameters mapped. *)
Theorem active_realm_sealed rd_addr rest s :
  sealed rd_addr s -> (4 <= length rest)%nat ->
  forall handler, handler ∈ [rmi_data_create; rtt_init_ripas; rec_create; realm_activate;
                             realm_set_metadata] ->
  refused (handler (rd_addr :: rest)) s.
Proof.
  intros Hs Hl handler Hh. do 4 (destruct rest as [|? rest]; [simpl in Hl; lia|]).
  rewrite !elem_of_cons, elem_of_nil in Hh. destruct Hh as [-> |[-> |[-> |[-> |[-> |[]]]]]].
  - unfold rmi_data_create. refuse. destruct (_ || _); [apply refused_throw|].
    apply refused_rd; [done|]. intros s1 Hs1. apply refused_read_rd; [done|]. intros rd Hrd.
    rewrite at_state_not_new by done. apply refused_throw.
  - unfold rtt_init_ripas. refuse.
    apply refused_rd; [done|]. intros s1 Hs1. apply refused_read_rd; [done|]. intros rd Hrd. refuse.
    rewrite (bool_decide_eq_false_2 _ Hrd). apply refused_throw.
  - unfold rec_create. refuse. destruct (_ =? _); [apply refused_throw|]. refuse.
    apply refused_rd; [eauto 12 using sealed_untouched|]. intros s1 Hs1.
    apply refused_read_rd; [done|]. intros rd Hrd.
    rewrite at_state_not_new by done. apply refused_throw.
  - unfold realm_activate. refuse. apply refused_rd; [done|]. intros s1 Hs1.
    apply refused_read_rd; [done|]. intros rd Hrd. apply refused_bind.
    { preserve. apply with_granule_if_untouched. preserve. }
    intros _ s2 _. rewrite at_state_not_new by done. apply refused_throw.
  - unfold realm_set_metadata. refuse. apply refused_rd; [eauto 12 using sealed_untouched|].
    intros s1 Hs1. apply refused_read_rd; [done|]. intros rd Hrd.
    rewrite at_state_not_new by done. apply refused_throw.
Qed.
End sealed.

#[export] Hint Resolve pt_map_untouched pt_unmap_untouched argn_untouched copy_from_untouched
  rec_params_untouched metadata_from_ns_untouched : islet.

(** ** REALM_ACTIVATE *)
Section activate.
Context `{Platform}.

(** What the metadata a host registered says of the realm. *)
Definition metadata_agrees (s : rmm) (rd : Rd.t) : bool :=
  match Rd.metadata rd with
  | None => true
  | Some meta =>
      let m := IsletRealmMetadata.of_bytes (bytes_of (mem s meta)) in
      bool_decide (Rd.measurements rd !! O = Some (IsletRealmMetadata.rim m)) &&
      (IsletRealmMetadata.hash_algo m =?
         if Rd.hash_algo rd =? Rmi.HASH_ALGO_SHA256 then METADATA_HASH_SHA_256
         else METADATA_HASH_SHA_512)
  end.

Lemma metadata_checked s rd meta :
  Rd.metadata rd = Some meta -> measurements_wf rd -> hash_algo_supported (Rd.hash_algo rd) ->
  validate_addr meta = true -> granule_addr_to_index meta ∉ locked s ->
  state (gst s (granule_addr_to_index meta)) = GranuleState.Metadata ->
  with_granule_if meta GranuleState.Metadata (fun g_metadata =>
    metadata ← gets (fun s =>
      IsletRealmMetadata.of_bytes (bytes_of (mem s (content_addr g_metadata))));
    rim ← lift (unwrap (Rd.measurements rd !! Z.to_nat MEASUREMENTS_SLOT_RIM));
    if negb (equal_rd_rim metadata rim) then throw (RmiErrorRealm 0)
    else
      same ← lift (equal_rd_hash_algo metadata (Rd.hash_algo rd));
      if negb same then throw (RmiErrorRealm 0) else mret tt) s
  = ((if metadata_agrees s rd then Ok tt else Err (RmiErrorRealm 0)), s).
Proof.
  intros Hm Hwf Ha Hv Hl Hst. rewrite with_granule_if_run by done. cbv zeta.
  destruct (measurements_lookup rd MEASUREMENTS_SLOT_RIM Hwf) as (rim & Hrim & _); [done|].
  mstep. rewrite Hrim. cbn [unwrap]. mstep. unfold content_addr. rewrite index_to_addr_to_index by done.
  change (mem (lock _ s)) with (mem s). unfold metadata_agrees. rewrite Hm.
  change (Z.to_nat MEASUREMENTS_SLOT_RIM) with O in Hrim. rewrite Hrim.
  set (m := IsletRealmMetadata.of_bytes (bytes_of (mem s meta))).
  unfold equal_rd_rim. rewrite (bool_decide_ext (rim = IsletRealmMetadata.rim m)
    (Some rim = Some (IsletRealmMetadata.rim m))) by (split; congruence).
  destruct (bool_decide _); cbn [negb andb]; [|unfold throw; by rewrite unlock_lock].
  assert (equal_rd_hash_algo m (Rd.hash_algo rd) = Ok (IsletRealmMetadata.hash_algo m =?
    if Rd.hash_algo rd =? Rmi.HASH_ALGO_SHA256 then METADATA_HASH_SHA_256 else METADATA_HASH_SHA_512)) as ->.
  { rewrite Z.eqb_sym. unfold equal_rd_hash_algo. by destruct Ha as [-> | ->]. }
  mstep. destruct (IsletRealmMetadata.hash_algo m =? _); cbn [negb];
    unfold throw, mret, M_ret; by rewrite unlock_lock.
Qed.

(** REALM_ACTIVATE on a realm whose descriptor is well formed. *)
Lemma realm_activate_run rd_addr s :
  let idx := granule_addr_to_index rd_addr in
  let rd := rd_of (mem s rd_addr) in
  validate_addr rd_addr = true -> idx ∉ locked s -> state (gst s idx) = GranuleState.RD ->
  measurements_wf rd -> hash_algo_supported (Rd.hash_algo rd) ->
  (forall meta, Rd.metadata rd = Some meta ->
     validate_addr meta = true /\ granule_addr_to_index meta ∉ locked s /\
     state (gst s (granule_addr_to_index meta)) = GranuleState.Metadata) ->
  realm_activate [rd_addr] s
  = (if metadata_agrees s rd && Rd.at_state rd New
     then (Ok tt, write_page rd_addr (CRd (Rd.with_state Active rd)) s)
     else (Err (RmiErrorRealm 0), s)).
Proof.
  intros idx rd Hv Hl Hst Hwf Ha Hmeta. unfold realm_activate.
  rewrite (bind_argn _ 0 rd_addr) by done. rewrite with_granule_if_run by done. fold idx. cbv zeta.
  assert (index_to_addr idx = rd_addr) as Hix by (by apply index_to_addr_to_index).
  unfold read_rd, content_addr. mstep. rewrite !Hix.
  change (rd_of (mem (lock _ s) rd_addr)) with rd.
  assert (forall m : M rmm Error unit, m (lock idx s) =
    ((if metadata_agrees s rd then Ok tt else Err (RmiErrorRealm 0)), lock idx s) ->
    (let '(r, s') := (m ≫= fun _ => if negb (Rd.at_state rd New) then throw (RmiErrorRealm 0)
       else update_rd rd_addr (Rd.with_state Active)) (lock idx s) in (r, unlock idx s'))
    = if metadata_agrees s rd && Rd.at_state rd New
      then (Ok tt, write_page rd_addr (CRd (Rd.with_state Active rd)) s)
      else (Err (RmiErrorRealm 0), s)) as Hrest.
  { intros m Hm. destruct (metadata_agrees s rd); cbn [andb].
    - erewrite bind_ok by exact Hm. destruct (Rd.at_state rd New); cbn [negb].
      + unfold update_rd, read_rd, write_rd. mstep.
        change (rd_of (mem (lock _ s) rd_addr)) with rd. unfold modify. f_equal.
        change (write_page rd_addr (CRd (Rd.with_state Active rd)) (unlock idx (lock idx s))
          = write_page rd_addr (CRd (Rd.with_state Active rd)) s). by rewrite unlock_lock.
      + unfold throw. by rewrite unlock_lock.
    - erewrite bind_err by exact Hm. by rewrite unlock_lock. }
  destruct (Rd.metadata rd) as [meta|] eqn:Hm; apply Hrest.
  - destruct (Hmeta meta eq_refl) as (Hvm & Hlm & Hsm).
    assert (metadata_agrees s rd = metadata_agrees (lock idx s) rd) as -> by done.
    eapply metadata_checked; try done. simpl. rewrite elem_of_union, elem_of_singleton.
    intros [E|]; [|done]. rewrite E, Hst in Hsm. done.
  - unfold metadata_agrees. by rewrite Hm.
Qed.

(** C19: REALM_ACTIVATE on a realm with a well-formed descriptor makes it
    Active, and changes nothing else, if it is New and the metadata registered
    for it (if any) names the realm's measurement and hash algorithm; otherwise,
    so also for a New realm whose metadata disagrees, it reports
    RmiErrorRealm(0) and changes nothing. (The repository's harness of the
    command, model-checking/src/rmi_realm_activate.rs, expects SUCCESS for
    every New realm; the code is what is stated here.) *)
Theorem realm_activate_spec rd_addr s :
  let idx := granule_addr_to_index rd_addr in
  let rd := rd_of (mem s rd_addr) in
  validate_addr rd_addr = true -> idx ∉ locked s -> state (gst s idx) = GranuleState.RD ->
  measurements_wf rd -> hash_algo_supported (Rd.hash_algo rd) ->
  (forall meta, Rd.metadata rd = Some meta ->
     validate_addr meta = true /\ granule_addr_to_index meta ∉ locked s /\
     state (gst s (granule_addr_to_index meta)) = GranuleState.Metadata) ->
  realm_activate [rd_addr] s
  = (if metadata_agrees s rd && Rd.at_state rd New
     then (Ok tt, write_page rd_addr (CRd (Rd.with_state Active rd)) s)
     else (Err (RmiErrorRealm 0), s)).
Proof. apply realm_activate_run. Qed.
End activate.

(** ** REALM_CREATE *)
Section create.
Context `{Platform}.

Lemma copy_from_inv {T} (f : list Z -> T) addr s t s' :
  copy_from f addr s = (Ok (Some t), s') -> t = f (bytes_of (mem s' addr)) /\ untouched s s'.
Proof.
  intros Hc. pose proof (copy_from_untouched f addr s) as Hu. rewrite Hc in Hu. split; [|exact Hu].
  unfold copy_from in Hc. mrun_in Hc. destruct a; [|done]. by unfold gets in Hc; simplify_eq.
Qed.

(** One step of the epilogue: a root table's granule becomes RTT. *)
Lemma make_rtt_inv addr s u s' :
  with_granule_if addr GranuleState.Delegated (fun g => set_granule g GranuleState.RTT) s = (Ok u, s') ->
  let idx := granule_addr_to_index addr in
  idx ∉ locked s /\ locked s' = locked s /\ mem s' = mem s /\ vmid_set s' = vmid_set s /\
  rtt_tables s' = rtt_tables s /\
  gst s' = <[idx := mkGranule GranuleState.RTT (ref_count (gst s idx))]> (gst s).
Proof.
  intros Hw. apply with_granule_if_ok_inv in Hw as (Hv & Hl & Hst & s1 & Hk & ->). cbv zeta.
  set (idx := granule_addr_to_index addr) in *. rewrite set_granule_run in Hk. injection Hk as _ <-.
  unfold with_granule_state. change (gst (lock idx s)) with (gst s). rewrite Hst.
  change (set_state_zeroizes GranuleState.Delegated GranuleState.RTT) with false. cbv iota.
  split_and!; try done. simpl. by apply lock_difference.
Qed.

Lemma epilogue_loop base rd_granule n i s u s' :
  for_range n i (fun i =>
    with_granule_if (Word.add base (i * GRANULE_SIZE)) GranuleState.Delegated
      (fun g => set_granule g GranuleState.RTT)) s = (Ok u, s') ->
  rd_granule ∈ locked s ->
  mem s' = mem s /\ vmid_set s' = vmid_set s /\ rtt_tables s' = rtt_tables s /\
  (forall j, state (gst s j) = GranuleState.RTT -> state (gst s' j) = GranuleState.RTT) /\
  forall k, i <= k < i + Z.of_nat n ->
    let idx := granule_addr_to_index (Word.add base (k * GRANULE_SIZE)) in
    idx <> rd_granule /\ state (gst s' idx) = GranuleState.RTT.
Proof.
  revert i s. induction n as [|n IH]; intros i s Hf Hrd; cbn [for_range] in Hf.
  { injection Hf as _ <-. split_and!; [done..|]. intros k Hk. lia. }
  apply bind_ok_inv in Hf as (v & s1 & Hw & Hf).
  apply make_rtt_inv in Hw as (Hl & Hlk & Hm & Hvm & Ht & Hg). 
  destruct (IH _ _ Hf) as (Hm' & Hvm' & Ht' & Hkeep & Hk); [by rewrite Hlk|].
  assert (forall j, state (gst s j) = GranuleState.RTT -> state (gst s1 j) = GranuleState.RTT) as Hkeep1.
  { intros j Hj. rewrite Hg. destruct (decide (j = granule_addr_to_index (Word.add base (i * GRANULE_SIZE)))) as [-> |].
    - by rewrite fn_lookup_insert.
    - by rewrite fn_lookup_insert_ne. }
  split_and!; [congruence..|auto|]. intros k Hk'. destruct (decide (k = i)) as [-> |]; [|apply Hk; lia].
  split; [by intros <-|]. apply Hkeep. by rewrite Hg, fn_lookup_insert.
Qed.

Lemma check_rtts_untouched base num : preserves untouched (realm_create_check_rtts base num).
Proof.
  unfold realm_create_check_rtts. apply preserves_for_range; [apply _|]. intros i.
  preserve. apply with_granule_if_untouched. preserve.
Qed.

Lemma init_table_inv pages base s u s' :
  init_table pages base s = (Ok u, s') ->
  gst s' = gst s /\ locked s' = locked s /\ vmid_set s' = vmid_set s /\ rtt_tables s' = rtt_tables s.
Proof.
  unfold init_table. destruct (base =? 0); [done|]. generalize (Z.to_nat pages). intros n.
  set (R (s s' : rmm) := gst s' = gst s /\ locked s' = locked s /\ vmid_set s' = vmid_set s /\
    rtt_tables s' = rtt_tables s).
  assert (PreOrder R) as HR.
  { split; [done|]. intros s1 s2 s3 (A1 & A2 & A3 & A4) (B1 & B2 & B3 & B4). split_and!; congruence. }
  intros Hf. assert (preserves R (for_range n 0 (fun i =>
    modify (E := Error) (write_page (base + i * GRANULE_SIZE) (CTable (fun _ => 0)))))) as Hp.
  { apply preserves_for_range; [apply _|]. intros i. by intros x. }
  specialize (Hp s). by rewrite Hf in Hp.
Qed.

(** What a step that reads or changes only the RMM's own tables leaves. *)
Lemma step_kept {A} (m : M rmm Error A) s a s' :
  preserves untouched m -> preserves same_locks m -> m s = (Ok a, s') ->
  untouched s s' /\ locked s' = locked s.
Proof. intros Hu Hl Hm. specialize (Hu s). specialize (Hl s). by rewrite Hm in Hu, Hl. Qed.

Lemma check_rtts_locks base num : preserves same_locks (realm_create_check_rtts base num).
Proof.
  unfold realm_create_check_rtts. apply preserves_for_range; [apply _|]. intros i.
  preserve. apply frame_with_granule_if; [apply _|preserve].
Qed.

Lemma create_realm_inv vmid s u s' :
  create_realm vmid s = (Ok u, s') ->
  vmid ∉ vmid_set s /\ s' = set_vmid_set ({[vmid]} ∪ vmid_set s) s.
Proof. unfold create_realm. mstep. case_decide; [done|]. by intros [= _ <-]. Qed.

Lemma stage2_new_inv base level pages s t s' :
  stage2_new base level pages s = (Ok t, s') ->
  t = mkStage2 base level pages false /\ gst s' = gst s /\ locked s' = locked s /\
  vmid_set s' = vmid_set s /\ rtt_tables s' = rtt_tables s.
Proof.
  unfold stage2_new. destruct (root_supported level pages); [|done]. intros Hn. mrun_in Hn.
  injection Hn as <- <-. by apply init_table_inv in Hm as (? & ? & ? & ?).
Qed.

Lemma update_rd_inv a f s u s' :
  update_rd a f s = (Ok u, s') -> s' = write_page a (CRd (f (rd_of (mem s a)))) s.
Proof. by intros [= _ <-]. Qed.

Lemma measure_rd_inv a f s u s' :
  measure_rd a f s = (Ok u, s') ->
  exists rd, f (rd_of (mem s a)) = Ok rd /\ s' = write_page a (CRd rd) s.
Proof.
  unfold measure_rd, read_rd, write_rd. mstep. intros Hm. mrun_in Hm. injection Hm0 as Hf <-.
  injection Hm as _ <-. by exists a0.
Qed.

Lemma extend_keeps rd i f rd' :
  extend rd i f = Ok rd' -> exists ms, rd' = Rd.with_measurements ms rd.
Proof.
  unfold extend. destruct (Rd.measurements rd !! _) as [m|]; [|done]. simpl.
  destruct (f m) as [m'|e| |]; try done. intros [= <-]. by eexists.
Qed.

Lemma measure_realm_create_keeps rd p rd' :
  measure_realm_create rd p = Ok rd' -> Rd.state rd' = Rd.state rd /\ Rd.id rd' = Rd.id rd.
Proof.
  unfold measure_realm_create. destruct (hash_context_new rd) as [h|e| |]; try done. simpl.
  destruct (extend rd _ _) as [r|e| |] eqn:He; try done. intros [= <-].
  by apply extend_keeps in He as [ms ->].
Qed.

Lemma epilogue_inv idx base num f s s' :
  inspect_err (realm_create_epilogue idx base num) f s = (Ok tt, s') -> idx ∈ locked s ->
  mem s' = mem s /\ vmid_set s' = vmid_set s /\ rtt_tables s' = rtt_tables s /\
  state (gst s' idx) = GranuleState.RD /\
  forall i, 0 <= i < num ->
    state (gst s' (granule_addr_to_index (Word.add base (i * GRANULE_SIZE)))) = GranuleState.RTT.
Proof.
  intros He Hl. assert (realm_create_epilogue idx base num s = (Ok tt, s')) as Hep.
  { unfold inspect_err, catch in He.
    destruct (realm_create_epilogue idx base num s) as [[[]|e| |] x]; try done.
    by apply bind_ok_inv in He as (? & ? & _ & ?). }
  unfold realm_create_epilogue in Hep. apply bind_ok_inv in Hep as ([] & s1 & Hf & Hs).
  apply (epilogue_loop base idx) in Hf as (Hm & Hv & Ht & _ & Hk); [|done].
  rewrite set_granule_run in Hs. injection Hs as <-.
  assert (set_state_zeroizes (state (gst s1 idx)) GranuleState.RD = false) as Hz.
  { unfold set_state_zeroizes, GranuleState.RD, GranuleState.Undelegated, GranuleState.Delegated.
    by rewrite andb_false_r. }
  unfold with_granule_state. rewrite Hz. split_and!; [done..| |].
  - simpl. by rewrite fn_lookup_insert.
  - intros i Hi. destruct (Hk i ltac:(lia)) as [Hne Hst]. simpl. by rewrite fn_lookup_insert_ne.
Qed.

(** C20: a REALM_CREATE that succeeds has built a realm out of delegated
    granules: the parameters are the ones the host's page held and comply,
    the VMID was not in use and now is, the descriptor's granule is RD and
    holds a New realm with that VMID and those root tables, and every root
    table is an RTT granule. *)
Theorem realm_create_post rd params_ptr s s' :
  realm_create [rd; params_ptr] s = (Ok tt, s') ->
  let idx := granule_addr_to_index rd in
  let p := RealmParams.of_bytes (bytes_of (mem s params_ptr)) in
  realm_params_verify_compliance SIMD_CONFIG p rd = Ok tt /\
  state (gst s idx) = GranuleState.Delegated /\ state (gst s' idx) = GranuleState.RD /\
  RealmParams.vmid p ∉ vmid_set s /\ vmid_set s' = {[RealmParams.vmid p]} ∪ vmid_set s /\
  Rd.state (rd_of (mem s' rd)) = New /\ Rd.id (rd_of (mem s' rd)) = RealmParams.vmid p /\
  rtt_tables s' !! RealmParams.vmid p
  = Some (mkStage2 (RealmParams.rtt_base p) (Word.wrap (RealmParams.rtt_level_start p))
            (RealmParams.rtt_num_start p) false) /\
  forall i, 0 <= i < RealmParams.rtt_num_start p ->
    state (gst s' (granule_addr_to_index (Word.add (RealmParams.rtt_base p) (i * GRANULE_SIZE))))
    = GranuleState.RTT.
Proof.
  intros Hc idx p. unfold realm_create in Hc. rewrite (bind_argn _ 0 rd), (bind_argn _ 1 params_ptr) in Hc by done.
  destruct (rd =? params_ptr); [done|].
  apply with_granule_if_ok_inv in Hc as (Hv & Hl & Hst & s1 & Hk & ->). fold idx in Hk, Hst, Hl |- *.
  assert (index_to_addr idx = rd) as Hix by (by apply index_to_addr_to_index).
  mrun_in Hk. unfold content_addr in *. rewrite Hix in *.
  apply (step_kept _ _ _ _ (pt_map_untouched _ _) (frame_pt_map same_locks _ _)) in Hm as [U1 L1].
  apply (step_kept _ _ _ _ (pt_map_untouched _ _) (frame_pt_map same_locks _ _)) in Hm0 as [U2 L2].
  destruct a1 as [q|]; [|done]. injection Hm2 as <- <-.
  pose proof (step_kept _ _ _ _ (copy_from_untouched _ _) (frame_copy_from same_locks _ _) Hm1) as [_ L3].
  apply copy_from_inv in Hm1 as [Hq U3].
  apply (step_kept _ _ _ _ (pt_unmap_untouched _) (frame_pt_unmap same_locks _)) in Hm3 as [U5 L5].
  injection Hm4 as Hver <-.
  apply (step_kept _ _ _ _ (check_rtts_untouched _ _) (check_rtts_locks _ _)) in Hm5 as [U7 L7].
  assert (untouched s s7) as (Eg & Em & Et & Ev).
  { transitivity s0; [exact U1|]. transitivity s2; [done|]. transitivity s3; [done|]. by transitivity s5. }
  assert (q = p) as ->.
  { rewrite Hq. unfold p. do 2 f_equal. destruct U1 as (_ & M1 & _), U2 as (_ & M2 & _), U3 as (_ & M3 & _).
    by rewrite M3, M2, M1. }
  apply create_realm_inv in Hm6 as [Hfree ->].
  apply stage2_new_inv in Hm7 as (-> & G9 & L9 & V9 & T9). injection Hm8 as _ <-.
  apply update_rd_inv in Hm9 as ->. apply update_rd_inv in Hm10 as ->.
  apply measure_rd_inv in Hm11 as (rd' & Hrd' & ->). apply measure_realm_create_keeps in Hrd' as [Hs' Hi'].
  apply epilogue_inv in Hk as (Hmem & Hvm & Htab & Hstate & Hroots);
    [|simpl; rewrite L9; simpl; rewrite L7, L5, L3, L2, L1; simpl; set_solver].
  simpl in Hmem, Hvm, Htab. split_and!.
  - by destruct a4.
  - done.
  - exact Hstate.
  - by rewrite Ev in Hfree.
  - simpl. rewrite Hvm, V9. simpl. by rewrite Ev.
  - simpl. rewrite Hmem, fn_lookup_insert. simpl. rewrite Hs'. simpl. by rewrite !fn_lookup_insert.
  - simpl. rewrite Hmem, fn_lookup_insert. simpl. rewrite Hi'. simpl. by rewrite !fn_lookup_insert.
  - simpl. rewrite Htab. by rewrite lookup_insert_eq.
  - intros i Hi. by apply Hroots.
Qed.
End create.

(** ** Parameters the RMM cannot handle

    A host page of parameters, and the first five granules delegated. *)
Definition params_page (s2sz level rtt_base num : Z) : list Z :=
  splice 0x818 (le_bytes 4 num) (splice 0x810 (le_bytes 8 level)
    (splice 0x808 (le_bytes 8 rtt_base) (splice 0x800 (le_bytes 2 7)
      (splice 0x8 (le_bytes 1 s2sz) (zero_bytes 4096))))).

Definition sample_delegated_granules (params : list Z) : rmm :=
  set_gst (fun i => if i <=? 4 then mkGranule GranuleState.Delegated 0 else Granule_new)
    (write_page 0x80010000 (CData params) sample_boot).

(** REALM_CREATE can deadlock: with two concatenated root tables, the
    second of which is the descriptor's own granule, the parameters comply
    (only the first table is compared with the descriptor), and the RMM spins
    on the lock of the descriptor's granule, which it holds itself. *)
Theorem realm_create_deadlock :
  let s := sample_delegated_granules (params_page 40 1 0x80000000 2) in
  let p := RealmParams.of_bytes (bytes_of (mem s 0x80010000)) in
  realm_params_verify_compliance SIMD_CONFIG p 0x80001000 = Ok tt /\
  fst (realm_create [0x80001000; 0x80010000] s) = Hung.
Proof. split; vm_compute; reflexivity. Qed.

(** REALM_CREATE can panic: parameters that ask for 41 address bits from
    level 1 comply and need four concatenated root tables, a combination that
    [Stage2Translation::new] does not implement. *)
Theorem realm_create_todo :
  let s := sample_delegated_granules (params_page 41 1 0x80001000 4) in
  let p := RealmParams.of_bytes (bytes_of (mem s 0x80010000)) in
  realm_params_verify_compliance SIMD_CONFIG p 0x80000000 = Ok tt /\
  fst (realm_create [0x80000000; 0x80010000] s) = Panicked.
Proof. split; vm_compute; reflexivity. Qed.

Definition sample_created : rmm :=
  snd (realm_create [0x80000000; 0x80010000] (sample_delegated_granules (params_page 39 1 0x80001000 1))).

Example sample_creates :
  fst (realm_create [0x80000000; 0x80010000] (sample_delegated_granules (params_page 39 1 0x80001000 1)))
  = Ok tt.
Proof. vm_compute. reflexivity. Qed.

(** ** REALM_DESTROY and the reference count *)
Lemma iter_inc_count n g :
  0 <= ref_count g < 256 ->
  Nat.iter n inc_count g = mkGranule (state g) ((ref_count g + Z.of_nat n) mod 256).
Proof.
  intros Hg. induction n as [|n IH].
  - simpl. rewrite Z.add_0_r, Z.mod_small by done. by destruct g.
  - rewrite Nat.iter_succ, IH. unfold inc_count. simpl state. simpl ref_count. f_equal.
    rewrite Zplus_mod_idemp_l. f_equal. lia.
Qed.

Lemma realm_destroy_refused `{Platform} rd_addr s :
  let idx := granule_addr_to_index rd_addr in
  validate_addr rd_addr = true -> idx ∉ locked s -> state (gst s idx) = GranuleState.RD ->
  0 < ref_count (gst s idx) -> realm_destroy [rd_addr] s = (Err (RmiErrorRealm 0), s).
Proof.
  intros idx Hv Hl Hs Hc. unfold realm_destroy. rewrite (bind_argn _ 0 rd_addr) by done.
  rewrite with_granule_if_run by done. fold idx. cbv zeta. mstep.
  change (gst (lock idx s)) with (gst s). unfold num_children.
  rewrite (proj2 (Z.ltb_lt _ _)) by done. unfold throw. by rewrite unlock_lock.
Qed.

Lemma counted `{Platform} s n :
  gst s 0 = mkGranule GranuleState.RD 0 ->
  update_granule 0 (Nat.iter n inc_count) s
  = set_gst (<[0 := mkGranule GranuleState.RD (Z.of_nat n mod 256)]> (gst s)) s.
Proof. intros H0. unfold update_granule. by rewrite H0, iter_inc_count. Qed.

(** The count of a realm's RECs is kept in eight bits: after [n] RECs were
    created for it, REALM_DESTROY is refused exactly while [n] is not a
    multiple of 256. With 256 RECs the realm is destroyed under them. *)
Theorem realm_destroy_ref_count (n : nat) :
  let s := update_granule 0 (Nat.iter n inc_count) sample_created in
  fst (realm_destroy [0x80000000] s)
  = if Z.of_nat n mod 256 =? 0 then Ok tt else Err (RmiErrorRealm 0).
Proof.
  cbv zeta. assert (gst sample_created 0 = mkGranule GranuleState.RD 0) as H0 by (vm_compute; reflexivity).
  rewrite (counted _ n H0). pose proof (Z.mod_pos_bound (Z.of_nat n) 256 ltac:(lia)) as Hb.
  generalize dependent (Z.of_nat n mod 256). intros c Hc.
  destruct (Z.eqb_spec c 0) as [-> |Hne]; [vm_compute; reflexivity|].
  assert (locked sample_created = ∅) as Hl by (vm_compute; reflexivity).
  generalize dependent sample_created. intros s _ Hl.
  assert (gst (set_gst (<[0 := mkGranule GranuleState.RD c]> (gst s)) s) 0
          = mkGranule GranuleState.RD c) as Hg by apply fn_lookup_insert.
  rewrite realm_destroy_refused; [done|done|..]; change (granule_addr_to_index 0x80000000) with 0.
  - change (locked (set_gst ?v s)) with (locked s). rewrite Hl. set_solver.
  - by rewrite Hg.
  - rewrite Hg. simpl. lia.
Qed.

(** ** Witnesses *)
Definition sample_active : rmm :=
  write_page 0x80000000 (CRd (Rd.with_state Active sample_realm)) sample_tables.

Lemma active_realm_sealed_witness :
  refused (rmi_data_create [0x80000000; 0x80004000; 0; 0x80010000; 1]) sample_active /\
  refused (rec_create [0x80000000; 0x80004000; 0x80010000; 0; 0]) sample_active.
Proof.
  assert (sealed 0x80000000 sample_active) as Hs by (split_and!; vm_compute; done).
  split.
  - refine (active_realm_sealed 0x80000000 [0x80004000; 0; 0x80010000; 1] sample_active Hs _ _ _);
      [simpl; lia|set_solver].
  - refine (active_realm_sealed 0x80000000 [0x80004000; 0x80010000; 0; 0] sample_active Hs _ _ _);
      [simpl; lia|set_solver].
Defined.

Lemma realm_activate_spec_witness :
  realm_activate [0x80000000] sample_tables
  = (Ok tt, write_page 0x80000000 (CRd (Rd.with_state Active sample_realm)) sample_tables).
Proof.
  refine (realm_activate_spec 0x80000000 sample_tables _ _ _ _ _ _).
  - reflexivity.
  - set_solver.
  - reflexivity.
  - split; [reflexivity|]. repeat constructor.
  - by left.
  - intros meta. change (None = Some meta -> validate_addr meta = true /\
      granule_addr_to_index meta ∉ locked sample_tables /\
      state (gst sample_tables (granule_addr_to_index meta)) = GranuleState.Metadata). done.
Defined.

Lemma realm_create_post_witness :
  let p := RealmParams.of_bytes (params_page 39 1 0x80001000 1) in
  state (gst sample_created 0) = GranuleState.RD /\
  vmid_set sample_created = {[RealmParams.vmid p]} ∪ ∅.
Proof.
  destruct (realm_create_post 0x80000000 0x80010000
    (sample_delegated_granules (params_page 39 1 0x80001000 1)) sample_created)
    as (_ & _ & H1 & _ & H2 & _).
  - rewrite <- sample_creates. unfold sample_created. by destruct (realm_create _ _).
  - split; [exact H1|exact H2].
Defined.
