(* ===== verification/HesBoot.v ===== *)
(** * HES: measured boot

    The hardware enforced security service (hes/) keeps the measurements of the
    platform's firmware in 32 slots and derives keys and tokens from them. This
    file models hes/islet-hes/src/hw and hes/islet-hes/src/measured_boot: the
    data the hardware provides, its conversion into a [Measurement], the slots
    and their manager. The hash functions of the [sha2] crate are operations of
    the class [HesCrypto]. A [String] is its UTF-8 bytes; an [ArrayVec] is a
    list whose capacity is checked where a list of another type is collected
    into it. *)

From stdpp Require Import strings.
From S2P Require Import Prelude Bytes.

(** ** The standard library: UTF-8 and vectors *)

(** [core::str::from_utf8] accepts exactly the well-formed sequences. *)
Definition byte_in (lo hi b : Z) : bool := (lo <=? b) && (b <=? hi).
Definition is_cont : Z -> bool := byte_in 128 191.

Fixpoint is_utf8 (l : list Z) : bool :=
  match l with
  | [] => true
  | a :: l1 =>
      if byte_in 0 127 a then is_utf8 l1 else
      match l1 with
      | [] => false
      | b :: l2 =>
          if byte_in 194 223 a then is_cont b && is_utf8 l2 else
          match l2 with
          | [] => false
          | c :: l3 =>
              if byte_in 224 239 a then
                byte_in (if a =? 224 then 160 else 128) (if a =? 237 then 159 else 191) b
                && is_cont c && is_utf8 l3
              else
              match l3 with
              | [] => false
              | d :: l4 =>
                  byte_in 240 244 a
                  && byte_in (if a =? 240 then 144 else 128) (if a =? 244 then 143 else 191) b
                  && is_cont c && is_cont d && is_utf8 l4
              end
          end
      end
  end.

Definition from_utf8 (l : list Z) : option (list Z) := if is_utf8 l then Some l else None.

(** The bytes of an ASCII literal. *)
Definition bytes_of_string (s : string) : list Z :=
  map (fun a => Z.of_nat (Ascii.nat_of_ascii a)) (String.list_ascii_of_string s).
Definition string_of_bytes (l : list Z) : string :=
  String.string_of_list_ascii (map (fun b => Ascii.ascii_of_nat (Z.to_nat b)) l).

Definition len (l : list Z) : Z := Z.of_nat (length l).

(** [iter.collect::<ArrayVec<[u8; cap]>>()] panics over its capacity. *)
Definition collect {E} (cap : Z) (l : list Z) : outcome E (list Z) :=
  if len l <=? cap then Ok l else Panicked.

(** [dst[a..b].copy_from_slice(src)]: panics on a range that is not one of
    [dst], or of another length than [src]. *)
Definition copy_range {E} (a b : Z) (src dst : list Z) : outcome E (list Z) :=
  if (0 <=? a) && (a <=? b) && (b <=? len dst) && (len src =? b - a)
  then Ok (splice a src dst) else Panicked.

(** [&l[..n]] *)
Definition prefix_of {E} (n : Z) (l : list Z) : outcome E (list Z) :=
  if n <=? len l then Ok (slice 0 n l) else Panicked.

(** ** The cryptographic crates *)
Class HesCrypto := {
  sha256 : list Z -> list Z;
  sha384 : list Z -> list Z;
  sha512 : list Z -> list Z
}.

(** The output sizes of FIPS 180-4. *)
Class HesCryptoLaws `{HesCrypto} : Prop := {
  sha256_len d : len (sha256 d) = 32;
  sha384_len d : len (sha384 d) = 48;
  sha512_len d : len (sha512 d) = 64
}.

(** ** hw/mod.rs *)
Module Hw.
Definition MAX_HW_HASH_VALUE_SIZE : Z := 64.
Definition MAX_HW_SW_TYPE_SIZE : Z := 10.
Definition MAX_HW_SW_VERSION_SIZE : Z := 14.

Record BootMeasurementMetadata : Type := mkBootMeta {
  measurement_type : Z;
  signer_id : list Z;
  sw_type : list Z;
  sw_version : list Z
}.

Record BootMeasurement : Type := mkBoot {
  metadata : BootMeasurementMetadata;
  measurement_value : list Z
}.

(** [trait HWData]: what the hardware answers; [None] is its error. *)
Class HWData := {
  huk : option (list Z);
  guk : option (list Z);
  bl_hash : option (list Z);
  boot_measurements : option (list BootMeasurement);
  implementation_id : option (list Z);
  security_lifecycle : option Z;
  profile_definition : option (option (list Z));
  verification_service_url : option (option (list Z));
  platform_config : option (list Z)
}.

(** The capacities of the types [HWHash], [HWSWType] and [HWSWVersion]. *)
Definition fits (b : BootMeasurement) : bool :=
  (len (signer_id (metadata b)) <=? MAX_HW_HASH_VALUE_SIZE)
  && (len (sw_type (metadata b)) <=? MAX_HW_SW_TYPE_SIZE)
  && (len (sw_version (metadata b)) <=? MAX_HW_SW_VERSION_SIZE)
  && (len (measurement_value b) <=? MAX_HW_HASH_VALUE_SIZE).
End Hw.

(** ** measured_boot/mod.rs and measurement.rs *)
Inductive MeasurementError : Type :=
| MInvalidArgument
| MNotPermitted
| MDoesNotExist
| MBadState
| MInvalidData (msg : string).

Definition MEASUREMENT_VALUE_MIN_SIZE : Z := 32.
Definition MEASUREMENT_VALUE_MAX_SIZE : Z := 64.
Definition SIGNER_ID_MIN_SIZE : Z := MEASUREMENT_VALUE_MIN_SIZE.
Definition SIGNER_ID_MAX_SIZE : Z := MEASUREMENT_VALUE_MAX_SIZE.
Definition VERSION_MAX_SIZE : Z := 14.
Definition SW_TYPE_MAX_SIZE : Z := 20.
Definition MAX_HASH_VALUE_SIZE : Z := 64.

Definition SIGNER_ID_SIZE_ERROR_MSG : string := "SignerIdSize".
Definition SW_VERSION_SIZE_ERROR_MSG : string := "SWVersionSize".
Definition SW_VERSION_VALUE_ERROR_MSG : string := "SWVersionNotUtf8".
Definition SW_TYPE_SIZE_ERROR_MSG : string := "SWTypeSize".
Definition SW_TYPE_VALUE_ERROR_MSG : string := "SWTypeNotUtf8".
Definition MEASUREMENT_VALUE_SIZE_ERROR_MSG : string := "MeasurementValueSize".
Definition MEASUREMENT_TYPE_ERROR_MSG : string := "MeasurementType".

Module MeasurementType.
Inductive t : Set := Sha256 | Sha384 | Sha512.

#[global] Instance eq_dec : EqDecision t.
Proof. solve_decision. Defined.

Definition default : t := Sha256.

Definition try_from (value : Z) : outcome MeasurementError t :=
  if value =? 0 then Ok Sha256 else
  if value =? 1 then Ok Sha384 else
  if value =? 2 then Ok Sha512 else
  Err (MInvalidData MEASUREMENT_TYPE_ERROR_MSG).

Definition hash_len (a : t) : Z :=
  match a with Sha256 => 32 | Sha384 => 48 | Sha512 => 64 end.

(** [impl Into<String> for MeasurementType] (attestation/mod.rs) *)
Definition into_string (a : t) : string :=
  match a with Sha256 => "sha-256" | Sha384 => "sha-384" | Sha512 => "sha-512" end.

Definition digest `{HesCrypto} (a : t) : list Z -> list Z :=
  match a with Sha256 => sha256 | Sha384 => sha384 | Sha512 => sha512 end.
End MeasurementType.

Module MetaData.
Record t : Type := mk {
  signer_id : list Z;
  sw_version : list Z;
  algorithm : MeasurementType.t;
  sw_type : list Z
}.

#[global] Instance eq_dec : EqDecision t.
Proof. solve_decision. Defined.

Definition default : t := mk [] [] MeasurementType.default [].
End MetaData.

Module HMeasurement.
Record t : Type := mk {
  metadata : MetaData.t;
  value : list Z
}.

#[global] Instance eq_dec : EqDecision t.
Proof. solve_decision. Defined.

Definition default : t := mk MetaData.default [].

(** [impl TryFrom<BootMeasurement> for Measurement] *)
Definition try_from (b : Hw.BootMeasurement) : outcome MeasurementError t :=
  let m := Hw.metadata b in
  if (len (Hw.signer_id m) <? SIGNER_ID_MIN_SIZE) || (SIGNER_ID_MAX_SIZE <? len (Hw.signer_id m))
  then Err (MInvalidData SIGNER_ID_SIZE_ERROR_MSG) else
  if VERSION_MAX_SIZE <? len (Hw.sw_version m)
  then Err (MInvalidData SW_VERSION_SIZE_ERROR_MSG) else
  if SW_TYPE_MAX_SIZE <? len (Hw.sw_type m)
  then Err (MInvalidData SW_TYPE_SIZE_ERROR_MSG) else
  if (len (Hw.measurement_value b) <? MEASUREMENT_VALUE_MIN_SIZE)
     || (MEASUREMENT_VALUE_MAX_SIZE <? len (Hw.measurement_value b))
  then Err (MInvalidData MEASUREMENT_VALUE_SIZE_ERROR_MSG) else
  sw_version ← ok_or (from_utf8 (Hw.sw_version m)) (MInvalidData SW_VERSION_VALUE_ERROR_MSG);
  sw_type ← ok_or (from_utf8 (Hw.sw_type m)) (MInvalidData SW_TYPE_VALUE_ERROR_MSG);
  signer_id ← collect SIGNER_ID_MAX_SIZE (Hw.signer_id m);
  algorithm ← MeasurementType.try_from (Hw.measurement_type m);
  mret (mk (MetaData.mk signer_id sw_version algorithm sw_type) (Hw.measurement_value b)).
End HMeasurement.

(** ** manager.rs: a slot *)
Module Slot.
Record t : Type := mk {
  measurement : HMeasurement.t;
  is_locked : bool;
  is_populated : bool
}.

Definition default : t := mk HMeasurement.default false false.

Definition algorithm (s : t) : MeasurementType.t :=
  MetaData.algorithm (HMeasurement.metadata (measurement s)).
Definition value (s : t) : list Z := HMeasurement.value (measurement s).
Definition set_value (v : list Z) (s : t) : t :=
  mk (HMeasurement.mk (HMeasurement.metadata (measurement s)) v) (is_locked s) (is_populated s).

(** Only the type and the version are updated. *)
Definition extend_metadata (metadata : MetaData.t) (s : t) : t :=
  let m := HMeasurement.metadata (measurement s) in
  mk (HMeasurement.mk
        (MetaData.mk (MetaData.signer_id m) (MetaData.sw_version metadata)
                     (MetaData.algorithm m) (MetaData.sw_type metadata))
        (HMeasurement.value (measurement s)))
     (is_locked s) (is_populated s).

Definition set_metadata (metadata : MetaData.t) (s : t) : t :=
  mk (HMeasurement.mk metadata (HMeasurement.value (measurement s))) (is_locked s) (is_populated s).

Definition mark_as_populated (s : t) : t := mk (measurement s) (is_locked s) true.

(** The signer and the algorithm cannot change. *)
Definition is_prohibited (metadata : MetaData.t) (s : t) : bool :=
  let m := HMeasurement.metadata (measurement s) in
  bool_decide (MetaData.signer_id metadata <> MetaData.signer_id m)
  || bool_decide (MetaData.algorithm metadata <> MetaData.algorithm m).

Section ops.
Context `{HesCrypto}.

Definition extend_value (new : list Z) (lock : bool) (s : t) : outcome MeasurementError t :=
  let measurement_value_len := MeasurementType.hash_len (algorithm s) in
  let total_len := measurement_value_len + len new in
  let temp := replicate (Z.to_nat total_len) 0 in
  old ← prefix_of measurement_value_len (value s);
  temp ← copy_range 0 measurement_value_len old temp;
  temp ← copy_range measurement_value_len (len temp) new temp;
  let result := MeasurementType.digest (algorithm s) temp in
  value' ← copy_range 0 (len result) result (value s);
  mret (mk (measurement (set_value value' s)) lock true).

Definition extend (m : HMeasurement.t) (lock : bool) (s : t) : outcome MeasurementError t :=
  extend_value (HMeasurement.value m) lock (extend_metadata (HMeasurement.metadata m) s).

(** [ArrayVec::resize] pads or cuts; the sizes asked for are within its
    capacity. *)
Definition initialize (m : HMeasurement.t) (lock : bool) (s : t) : outcome MeasurementError t :=
  if is_populated s then Panicked else
  let s := set_metadata (HMeasurement.metadata m) s in
  let s := set_value (resize (Z.to_nat (MeasurementType.hash_len (algorithm s))) 0 (value s)) s in
  extend_value (HMeasurement.value m) lock s.
End ops.
End Slot.

(** ** manager.rs: the manager *)
Module Mgr.
Definition NUM_OF_MEASUREMENT_SLOTS : Z := 32.

Record t : Type := mk { measurements : list Slot.t }.

Definition empty : t := mk (replicate (Z.to_nat NUM_OF_MEASUREMENT_SLOTS) Slot.default).

Section ops.
Context `{HesCrypto}.

(** [measurements[index] = f(measurements[index])?] *)
Definition update (index : Z) (f : Slot.t -> outcome MeasurementError Slot.t) (m : t)
  : outcome MeasurementError t :=
  s ← unwrap (measurements m !! Z.to_nat index);
  s' ← f s;
  mret (mk (<[Z.to_nat index := s']> (measurements m))).

(** The [try_for_each] over the boot measurements. *)
Fixpoint init_loop (index : Z) (bs : list Hw.BootMeasurement) (m : t)
  : outcome MeasurementError t :=
  match bs with
  | [] => Ok m
  | b :: bs =>
      measurement ← HMeasurement.try_from b;
      m ← update index (Slot.initialize measurement false) m;
      init_loop (index + 1) bs m
  end.

Definition unwrap_result {E F A} (r : outcome E A) : outcome F A :=
  match r with Ok a => Ok a | Err _ => Panicked | Panicked => Panicked | Hung => Hung end.

Definition init (boot_measurements : list Hw.BootMeasurement) : outcome MeasurementError t :=
  if Z.of_nat (length boot_measurements) <=? NUM_OF_MEASUREMENT_SLOTS
  then unwrap_result (init_loop 0 boot_measurements empty)
  else Panicked.

Definition read_measurement (slot_id : Z) (m : t)
  : outcome MeasurementError (HMeasurement.t * bool) :=
  if NUM_OF_MEASUREMENT_SLOTS <=? slot_id then Err MInvalidArgument else
  slot ← unwrap (measurements m !! Z.to_nat slot_id);
  if negb (Slot.is_populated slot) then Err MDoesNotExist else
  Ok (Slot.measurement slot, Slot.is_locked slot).

Definition extend_slot (measurement : HMeasurement.t) (lock : bool) (slot : Slot.t)
  : outcome MeasurementError Slot.t :=
  if Slot.is_locked slot then Err MBadState else
  if Slot.is_populated slot then
    if Slot.is_prohibited (HMeasurement.metadata measurement) slot then Err MNotPermitted
    else Slot.extend measurement lock slot
  else
    slot ← Slot.initialize measurement lock slot;
    mret (Slot.mark_as_populated slot).

(** Every error is reported before the slot is written. *)
Definition extend_measurement (slot_id : Z) (measurement : HMeasurement.t) (lock : bool)
  : M t MeasurementError unit := fun m =>
  if NUM_OF_MEASUREMENT_SLOTS <=? slot_id then (Err MInvalidArgument, m) else
  match update slot_id (extend_slot measurement lock) m with
  | Ok m' => (Ok tt, m')
  | Err e => (Err e, m)
  | Panicked => (Panicked, m)
  | Hung => (Hung, m)
  end.
End ops.
End Mgr.
