(* ===== verification/HesAttest.v ===== *)
(** * HES: keys, attestation and the service

    hes/key-derivation/src/lib.rs (the counter-mode KDF and the derivation of
    ECC keys), hes/islet-hes/src/utils.rs (the CBOR form of the measurements),
    hes/islet-hes/src/attestation (the attestation manager) and
    hes/islet-hes/src/lib.rs ([IsletHES]). Block ciphers, HKDF, elliptic
    curves, CBOR and COSE are third-party crates: operations of the class
    [HesKeys]. [to_ne_bytes] is little endian on the service's targets. *)

From stdpp Require Import strings.
From S2P Require Import Prelude Bytes Machine HesBoot.

(** ** The cryptographic crates *)

(** A [CoseSign1] built with the algorithm ES384 in its protected header. *)
Record CoseSign1 : Type := mkCoseSign1 {
  cose_payload : list Z;
  cose_signature : list Z
}.

(** [p256::SecretKey] and [p384::SecretKey] are their scalar. *)
Class HesKeys := {
  (** AES-256 on one 16-byte block, by key *)
  aes256_block : list Z -> list Z -> list Z;
  (** HKDF-SHA256 without salt: seed, info and output length *)
  hkdf_sha256 : list Z -> list Z -> Z -> option (list Z);
  (** [SecretKey::from_slice], [to_bytes] and [public_key().to_sec1_bytes()] *)
  p256_from_slice : list Z -> option Z;
  p256_to_bytes : Z -> list Z;
  p256_public : Z -> list Z;
  p384_from_slice : list Z -> option Z;
  p384_to_bytes : Z -> list Z;
  p384_sec1 : Z -> list Z;
  (** [SigningKey::from_bytes] followed by [try_sign] *)
  p384_try_sign : list Z -> list Z -> option (list Z);
  (** [ciborium::ser::into_writer] *)
  into_writer : Value -> option (list Z);
  (** the bytes a COSE_Sign1 signature is computed on, by payload, and
      [to_tagged_vec] *)
  sig_structure : list Z -> list Z;
  to_tagged_vec : CoseSign1 -> option (list Z)
}.

(** ** key-derivation/src/lib.rs *)
Definition U32_SIZE : Z := 4.
Definition U8_SIZE : Z := 1.

Definition be_value (l : list Z) : Z := le_value (rev l).

(** The order of the group and its width (FIPS 186-4). *)
Record Curve : Set := mkCurve { ORDER : Z; WIDTH : Z }.
Definition NistP256 : Curve :=
  mkCurve 0xffffffff00000000ffffffffffffffffbce6faada7179e84f3b9cac2fc632551 256.
Definition NistP384 : Curve :=
  mkCurve 0xffffffffffffffffffffffffffffffffffffffffffffffffc7634d81f4372ddf581a0db248b0a77aecec196accc52973 384.

(** [crypto_bigint]: saturating arithmetic at the curve's width. *)
Definition saturating_sub (x y : Z) : Z := Z.max 0 (x - y).
Definition saturating_add (w x y : Z) : Z := Z.min (2 ^ w - 1) (x + y).

(** The search is given one more round than it can need: see
    [derive_loop_stable] of the facts. *)
Definition DERIVE_FUEL : nat := 2.

Section key_derivation.
Context `{HesCrypto} `{HesKeys} {E : Type}.

Definition generate_seed (context input_key label : list Z) : outcome E (list Z) :=
  let state := replicate (Z.to_nat (len context + len label + U8_SIZE + U32_SIZE * 2)) 0 in
  let block_index := 1 in
  let seed_output_length := 32 in
  state ← copy_range U32_SIZE (U32_SIZE + len label) label state;
  state ← copy_range (U32_SIZE + len label) (U32_SIZE + len label + U8_SIZE) (le_bytes 1 0) state;
  state ← copy_range (U32_SIZE + len label + U8_SIZE)
            (U32_SIZE + len label + U8_SIZE + len context) context state;
  state ← copy_range (U32_SIZE + len label + U8_SIZE + len context) (len state)
            (le_bytes 4 seed_output_length) state;
  state ← copy_range 0 U32_SIZE (le_bytes 4 block_index) state;
  let seed_buffer := sha256 state in
  (* [Aes256::new_from_slice(..).unwrap()] *)
  if negb (len input_key =? 32) then Panicked else
  (* [GenericArray::from_mut_slice] asserts the length of a block *)
  block ← prefix_of 16 seed_buffer;
  seed_buffer ← copy_range 0 16 (aes256_block input_key block) seed_buffer;
  let block := drop 16 seed_buffer in
  if negb (len block =? 16) then Panicked else
  copy_range 16 32 (aes256_block input_key block) seed_buffer.

(** The [loop] of [derive_p256_key] and [derive_p384_key]; [U256::from_be_slice]
    panics on another length than its own. *)
Fixpoint derive_loop (fuel : nat) (c : Curve) (seed info : list Z) : outcome E Z :=
  match fuel with
  | O => Hung
  | S fuel =>
      let n_2 := saturating_sub (ORDER c) 2 in
      let bytes := (WIDTH c + 7) / 8 in
      okm ← unwrap (hkdf_sha256 seed info bytes);
      if negb (len okm * 8 =? WIDTH c) then Panicked else
      let k := be_value okm in
      if k <=? n_2 then Ok k else derive_loop fuel c seed info
  end.

(** [ScalarPrimitive::new(x).unwrap()]: a scalar is less than the order. *)
Definition derive_key (c : Curve) (seed : list Z) (info : option (list Z)) : outcome E Z :=
  k ← derive_loop DERIVE_FUEL c seed (default [] info);
  let private_key_scalar := saturating_add (WIDTH c) k 1 in
  if private_key_scalar <? ORDER c then Ok private_key_scalar else Panicked.

Definition derive_p256_key : list Z -> option (list Z) -> outcome E Z := derive_key NistP256.
Definition derive_p384_key : list Z -> option (list Z) -> outcome E Z := derive_key NistP384.
End key_derivation.

(** ** utils.rs *)
Module TokenTag.
Definition CCA_PLAT_CHALLENGE : Z := 10.
Definition CCA_PLAT_INSTANCE_ID : Z := 256.
Definition CCA_PLAT_PROFILE : Z := 265.
Definition CCA_PLAT_SECURITY_LIFECYCLE : Z := 2395.
Definition CCA_PLAT_IMPLEMENTATION_ID : Z := 2396.
Definition CCA_PLAT_SW_COMPONENTS : Z := 2399.
Definition CCA_PLAT_VERIFICATION_SERVICE : Z := 2400.
Definition CCA_PLAT_CONFIGURATION : Z := 2401.
Definition CCA_PLAT_HASH_ALGO_DESC : Z := 2402.
Definition CCA_SW_COMP_TITLE : Z := 1.
Definition CCA_SW_COMP_MEASUREMENT_VALUE : Z := 2.
Definition CCA_SW_COMP_VERSION : Z := 4.
Definition CCA_SW_COMP_SIGNER_ID : Z := 5.
Definition CCA_SW_COMP_HASH_ALGORITHM : Z := 6.
End TokenTag.

Definition encode_measurement (m : HMeasurement.t) : Value :=
  let md := HMeasurement.metadata m in
  VMap [
    (VInteger TokenTag.CCA_SW_COMP_TITLE, VText (string_of_bytes (MetaData.sw_type md)));
    (VInteger TokenTag.CCA_SW_COMP_HASH_ALGORITHM,
       VText (MeasurementType.into_string (MetaData.algorithm md)));
    (VInteger TokenTag.CCA_SW_COMP_MEASUREMENT_VALUE, VBytes (HMeasurement.value m));
    (VInteger TokenTag.CCA_SW_COMP_VERSION, VText (string_of_bytes (MetaData.sw_version md)));
    (VInteger TokenTag.CCA_SW_COMP_SIGNER_ID, VBytes (MetaData.signer_id md))
  ].

Definition encode_measurements (ms : list HMeasurement.t) : Value :=
  VArray (map encode_measurement ms).

(** ** attestation/mod.rs *)
Inductive ECCFamily : Set := SecpR1.
Inductive KeyBits : Set := Bits256 | Bits384 | Bits521.

Module HashAlgo.
Inductive t : Set := Sha256 | Sha384 | Sha512.
Definition len (a : t) : Z := match a with Sha256 => 32 | Sha384 => 48 | Sha512 => 64 end.
Definition into_string (a : t) : string :=
  match a with Sha256 => "sha-256" | Sha384 => "sha-384" | Sha512 => "sha-512" end.
End HashAlgo.

Inductive AttestationError : Set := AInvalidArgument | AGenericError | ANotSupported.

Record KeyMaterialData : Type := mkKeyMaterial { km_hash : list Z; km_guk : list Z }.

Record HWClaims : Type := mkHWClaims {
  implementation_id : list Z;
  security_lifecycle : Z;
  profile_definition : option (list Z);
  verification_service_url : option (list Z);
  platform_config : list Z
}.

Record DAKInfo : Type := mkDAKInfo {
  hash_algo : HashAlgo.t;
  key_bits : KeyBits;
  dak_key : list Z
}.

Record CPAK : Type := mkCPAK { cpak_key : Z; instance_id : list Z }.

Definition calculate_public_key_hash `{HesCrypto} (sec1_public_key : list Z) (a : HashAlgo.t)
  : list Z :=
  match a with
  | HashAlgo.Sha256 => sha256 sec1_public_key
  | HashAlgo.Sha384 => sha384 sec1_public_key
  | HashAlgo.Sha512 => sha512 sec1_public_key
  end.

Module Attest.
Record t : Type := mk {
  cpak : CPAK;
  derivation_material : KeyMaterialData;
  claims : HWClaims;
  dak : option DAKInfo
}.

Definition CPAK_SEED_LABEL : list Z := bytes_of_string "BL1_CPAK_SEED_DERIVATION".
Definition DAK_SEED_LABEL : list Z := bytes_of_string "BL1_DAK_SEED_DERIVATION".

Definition set_dak (d : option DAKInfo) (a : t) : t :=
  mk (cpak a) (derivation_material a) (claims a) d.

Definition reset (a : t) : t := set_dak None a.

Section ops.
Context `{HesCrypto} `{HesKeys}.

Definition generate_instance_id (key : Z) : outcome AttestationError (list Z) :=
  let hash := calculate_public_key_hash (p384_sec1 key) HashAlgo.Sha256 in
  collect 33 (1 :: hash).

Definition init (key_derivation_material : KeyMaterialData) (claims : HWClaims)
  : outcome AttestationError t :=
  let lcs := 3 in
  let reprovisioning_bits := 0 in
  let context := km_hash key_derivation_material ++ le_bytes 4 lcs
                   ++ le_bytes 4 reprovisioning_bits in
  seed ← generate_seed context (km_guk key_derivation_material) CPAK_SEED_LABEL;
  key ← derive_p384_key seed None;
  instance_id ← generate_instance_id key;
  mret (mk (mkCPAK key instance_id) key_derivation_material claims None).

Definition calculate_cpak_hash (a : t) : list Z :=
  calculate_public_key_hash (p384_sec1 (cpak_key (cpak a))) HashAlgo.Sha256.

Definition calculate_dak_hash (algo : HashAlgo.t) (a : t) : outcome AttestationError (list Z) :=
  dak_info ← unwrap (dak a);
  dak_sec1_bytes ←
    match key_bits dak_info with
    | Bits256 => k ← unwrap (p256_from_slice (dak_key dak_info)); mret (p256_public k)
    | Bits384 => k ← unwrap (p384_from_slice (dak_key dak_info)); mret (p384_sec1 k)
    | Bits521 => Panicked
    end;
  mret (calculate_public_key_hash dak_sec1_bytes algo).

Definition get_delegated_key (ecc_family : ECCFamily) (bits : KeyBits) (algo : HashAlgo.t)
  (measurements : list HMeasurement.t) : M t AttestationError (list Z) :=
  a ← get_state;
  let context := km_hash (derivation_material a)
                   ++ le_bytes 4 (security_lifecycle (claims a)) ++ le_bytes 4 0 in
  seed ← lift (generate_seed context (km_guk (derivation_material a)) DAK_SEED_LABEL);
  salt_bytes ← lift (ok_or (into_writer (encode_measurements measurements)) AGenericError);
  key ← match bits with
        | Bits256 => k ← lift (derive_p256_key seed (Some salt_bytes)); mret (p256_to_bytes k)
        | Bits384 => k ← lift (derive_p384_key seed (Some salt_bytes)); mret (p384_to_bytes k)
        | Bits521 => throw ANotSupported
        end;
  modify (set_dak (Some (mkDAKInfo algo bits key)));;
  mret key.

Definition encode_claims (dak_hash : list Z) (measurements : list HMeasurement.t) (a : t)
  : outcome AttestationError Value :=
  let c := claims a in
  d ← unwrap (dak a);
  mret (VMap (
    [(VInteger TokenTag.CCA_PLAT_CHALLENGE, VBytes dak_hash);
     (VInteger TokenTag.CCA_PLAT_INSTANCE_ID, VBytes (instance_id (cpak a)))]
    ++ match profile_definition c with
       | Some p => [(VInteger TokenTag.CCA_PLAT_PROFILE, VText (string_of_bytes p))]
       | None => []
       end
    ++ [(VInteger TokenTag.CCA_PLAT_SECURITY_LIFECYCLE, VInteger (security_lifecycle c));
        (VInteger TokenTag.CCA_PLAT_IMPLEMENTATION_ID, VBytes (implementation_id c));
        (VInteger TokenTag.CCA_PLAT_SW_COMPONENTS, encode_measurements measurements)]
    ++ match verification_service_url c with
       | Some u => [(VInteger TokenTag.CCA_PLAT_VERIFICATION_SERVICE, VText (string_of_bytes u))]
       | None => []
       end
    ++ [(VInteger TokenTag.CCA_PLAT_CONFIGURATION, VBytes (platform_config c));
        (VInteger TokenTag.CCA_PLAT_HASH_ALGO_DESC,
           VText (HashAlgo.into_string (hash_algo d)))])).

Definition sign (data : list Z) (a : t) : outcome AttestationError (list Z) :=
  ok_or (p384_try_sign (p384_to_bytes (cpak_key (cpak a))) data) AGenericError.

Definition verify_dak_hash (dak_pub_hash : list Z) (a : t) : outcome AttestationError bool :=
  d ← unwrap (dak a);
  calculated_hash ← calculate_dak_hash (hash_algo d) a;
  mret (bool_decide (dak_pub_hash = calculated_hash)).

(** The closure of [create_signature] records a failure and signs with nothing;
    the failure is returned after the token was built. *)
Definition get_platform_token (dak_pub_hash : list Z) (measurements : list HMeasurement.t) (a : t)
  : outcome AttestationError CoseSign1 :=
  if negb (bool_decide (is_Some (dak a))) then Err AInvalidArgument else
  valid ← verify_dak_hash dak_pub_hash a;
  if negb valid then Err AInvalidArgument else
  encoded_claims ← encode_claims dak_pub_hash measurements a;
  token ← unwrap (into_writer encoded_claims);
  sign ← sign (sig_structure token) a;
  mret (mkCoseSign1 token sign).
End ops.
End Attest.

(** ** lib.rs: the service *)
Inductive IsletHESError : Set :=
| GenericError
| InvalidArgument
| NotPermitted
| DoesNotExist
| BadState
| NotSupported.

Definition of_measurement_error (e : MeasurementError) : IsletHESError :=
  match e with
  | MBadState => BadState
  | MDoesNotExist => DoesNotExist
  | MInvalidArgument => InvalidArgument
  | MInvalidData _ => InvalidArgument
  | MNotPermitted => NotPermitted
  end.

Definition of_attestation_error (e : AttestationError) : IsletHESError :=
  match e with
  | AInvalidArgument => InvalidArgument
  | AGenericError => GenericError
  | ANotSupported => NotSupported
  end.

Module HES.
Record t : Type := mk {
  measured_boot_mgr : Mgr.t;
  attestation_mgr : Attest.t;
  lcs : Z;
  huk : list Z
}.

Definition set_mgr (m : Mgr.t) (h : t) : t := mk m (attestation_mgr h) (lcs h) (huk h).
Definition set_attest (a : Attest.t) (h : t) : t := mk (measured_boot_mgr h) a (lcs h) (huk h).

(** A call on a component of the service. *)
Definition on_mgr {A} (m : M Mgr.t MeasurementError A) : M t IsletHESError A := fun h =>
  let '(r, g) := m (measured_boot_mgr h) in (map_err of_measurement_error r, set_mgr g h).
Definition on_attest {A} (m : M Attest.t AttestationError A) : M t IsletHESError A := fun h =>
  let '(r, a) := m (attestation_mgr h) in (map_err of_attestation_error r, set_attest a h).

(** [from_utf8(&p)] on an optional text claim. *)
Definition text_claim (p : option (list Z)) : outcome IsletHESError (option (list Z)) :=
  match p with
  | Some p => s ← ok_or (from_utf8 p) InvalidArgument; mret (Some s)
  | None => mret None
  end.

Section ops.
Context `{HesCrypto} `{HesKeys}.

Definition init (hw : Hw.HWData) : outcome IsletHESError t :=
  bs ← ok_or (@Hw.boot_measurements hw) InvalidArgument;
  mgr ← map_err of_measurement_error (Mgr.init bs);
  profile ← ok_or (@Hw.profile_definition hw) InvalidArgument;
  profile_definition ← text_claim profile;
  url ← ok_or (@Hw.verification_service_url hw) InvalidArgument;
  verification_service_url ← text_claim url;
  security_lifecycle ← ok_or (@Hw.security_lifecycle hw) InvalidArgument;
  hash ← ok_or (@Hw.bl_hash hw) InvalidArgument;
  guk ← ok_or (@Hw.guk hw) InvalidArgument;
  implementation_id ← ok_or (@Hw.implementation_id hw) InvalidArgument;
  platform_config ← ok_or (@Hw.platform_config hw) InvalidArgument;
  attestation_mgr ← map_err of_attestation_error
    (Attest.init (mkKeyMaterial hash guk)
       (mkHWClaims implementation_id security_lifecycle profile_definition
                   verification_service_url platform_config));
  huk ← ok_or (@Hw.huk hw) InvalidArgument;
  mret (mk mgr attestation_mgr security_lifecycle huk).

Definition reset (hw : Hw.HWData) : M t IsletHESError unit :=
  bs ← lift (ok_or (@Hw.boot_measurements hw) InvalidArgument);
  mgr ← lift (map_err of_measurement_error (Mgr.init bs));
  modify (set_mgr mgr);;
  modify (fun h => set_attest (Attest.reset (attestation_mgr h)) h).

Definition read_measurement (slot_id : Z) (h : t) : outcome IsletHESError (HMeasurement.t * bool) :=
  map_err of_measurement_error (Mgr.read_measurement slot_id (measured_boot_mgr h)).

Definition extend_measurement (slot_id : Z) (m : HMeasurement.t) (lock : bool)
  : M t IsletHESError unit :=
  on_mgr (Mgr.extend_measurement slot_id m lock).

(** [for i in 0..NUM_OF_MEASUREMENT_SLOTS], the last [n] of them. *)
Fixpoint fetch_loop (n : nat) (i : Z) (mgr : Mgr.t) : outcome IsletHESError (list HMeasurement.t) :=
  match n with
  | O => Ok []
  | S n =>
      match Mgr.read_measurement i mgr with
      | Ok (measurement, _) => ms ← fetch_loop n (i + 1) mgr; mret (measurement :: ms)
      | Err MDoesNotExist => fetch_loop n (i + 1) mgr
      | Err e => Err (of_measurement_error e)
      | Panicked => Panicked
      | Hung => Hung
      end
  end.

Definition fetch_current_measurements (h : t) : outcome IsletHESError (list HMeasurement.t) :=
  fetch_loop (Z.to_nat Mgr.NUM_OF_MEASUREMENT_SLOTS) 0 (measured_boot_mgr h).

Definition get_delegated_key (ecc_family : ECCFamily) (bits : KeyBits) (algo : HashAlgo.t)
  : M t IsletHESError (list Z) :=
  h ← get_state;
  measurements ← lift (fetch_current_measurements h);
  on_attest (Attest.get_delegated_key ecc_family bits algo measurements).

Definition get_platform_token (dak_pub_hash : list Z) (h : t) : outcome IsletHESError CoseSign1 :=
  measurements ← fetch_current_measurements h;
  map_err of_attestation_error
    (Attest.get_platform_token dak_pub_hash measurements (attestation_mgr h)).

(** What VHUK_A is bound to. *)
Definition authority_info (ms : list HMeasurement.t) : list Z :=
  ms ≫= fun m => MetaData.signer_id (HMeasurement.metadata m)
                 ++ MetaData.sw_type (HMeasurement.metadata m).

Definition get_authority_vhuk (h : t) : outcome IsletHESError (list Z) :=
  measurements ← fetch_current_measurements h;
  let context := authority_info measurements ++ le_bytes 4 (lcs h) in
  generate_seed context (huk h) (bytes_of_string "VHUK_A").

Definition get_measurement_vhuk (h : t) : outcome IsletHESError (list Z) :=
  measurements ← fetch_current_measurements h;
  context ← ok_or (into_writer (encode_measurements measurements)) GenericError;
  generate_seed (context ++ le_bytes 4 (lcs h)) (huk h) (bytes_of_string "VHUK_M").
End ops.
End HES.
