(* ===== verification/HesComms.v ===== *)
(** * HES: the host application

    hes/islet-hes-host-app: the PSA messages the secure world exchanges with the
    service (comms/psa_serde.rs), their conversion into requests and responses
    (comms/mod.rs) and the loop that serves a connection (main.rs).

    [PSARequest::de] looks at its input through a pointer to a structure of 4116
    bytes, whatever the length of the input: what it then reads is the memory
    after the buffer, an operation of the class [HesHost]. A TCP stream is the
    sequence of what its reads deliver. *)

From stdpp Require Import strings.
From S2P Require Import Prelude Bytes Machine HesBoot HesAttest.

(** Memory the service does not control: the bytes that follow a request's
    buffer, up to the end of the mapped pages, and the padding of a structure. *)
Class HesHost := {
  past_end : list Z -> list Z;
  padding : list Z
}.

(** Reading [n] bytes at [off]; outside the mapped memory the process dies. *)
Definition read_mem {E} (off n : Z) (mem : list Z) : outcome E (list Z) :=
  if off + n <=? len mem then Ok (slice off n mem) else Panicked.

(** The two's complement value of a [w]-bit word. *)
Definition signed (w v : Z) : Z := if v <? 2 ^ (w - 1) then v else v - 2 ^ w.

(** ** comms/psa_serde.rs *)
Definition RSS_DELEGATED_SERVICE_HANDLE : Z := 0x40000111.
Definition RSS_VHUK_SERVICE_HANDLE : Z := 0x40000112.
Definition RSS_DELEGATED_ATTEST_GET_DELEGATED_KEY : Z := 1001.
Definition RSS_DELEGATED_ATTEST_GET_PLATFORM_TOKEN : Z := 1002.
Definition RSS_VHUK_GET_KEY : Z := 1006.
Definition RSS_MEASURED_BOOT_SERVICE_HANDLE : Z := 0x40000110.
Definition RSS_MEASURED_BOOT_READ : Z := 1001.
Definition RSS_MEASURED_BOOT_EXTEND : Z := 1002.
Definition PSA_MAX_IOVEC : Z := 4.
Definition PLAT_RSS_COMMS_PAYLOAD_MAX_SIZE : Z := 0x1000.
Definition TYPE_OFFSET : Z := 16.
Definition TYPE_MASK : Z := Z.shiftl 0xFFFF TYPE_OFFSET.
Definition IN_LEN_OFFSET : Z := 8.
Definition IN_LEN_MASK : Z := Z.shiftl 0xFF IN_LEN_OFFSET.
Definition OUT_LEN_OFFSET : Z := 0.
Definition OUT_LEN_MASK : Z := Z.shiftl 0xFF OUT_LEN_OFFSET.
Definition PSA_SUCCESS : Z := 0.

(** Offsets in [serialized_rss_comms_msg_t] and the size of [rss_embed_msg_t],
    both packed. *)
Definition HEADER_SIZE : Z := 4.
Definition EMBED_MSG_SIZE : Z := 4 + 4 + 2 * PSA_MAX_IOVEC + PLAT_RSS_COMMS_PAYLOAD_MAX_SIZE.
Definition HANDLE_AT : Z := HEADER_SIZE.
Definition CTRL_PARAM_AT : Z := HEADER_SIZE + 4.
Definition IO_SIZE_AT : Z := HEADER_SIZE + 8.
Definition TRAILER_AT : Z := IO_SIZE_AT + 2 * PSA_MAX_IOVEC.

Inductive PSAError : Set := WrongDataLength.

Module PSARequest.
Record t : Type := mk {
  protocol_ver : Z;
  seq_num : Z;
  client_id : Z;
  handle : Z;
  psa_type : Z;
  in_vecs : list (list Z);
  out_lens : list Z
}.

(** The loop over [&io_sizes[..num_in_vecs]]. *)
Fixpoint read_in_vecs (mem : list Z) (offset : Z) (lens : list Z) : outcome PSAError (list (list Z)) :=
  match lens with
  | [] => Ok []
  | l :: lens =>
      if PLAT_RSS_COMMS_PAYLOAD_MAX_SIZE <? offset + l then Panicked else
      v ← read_mem (TRAILER_AT + offset) l mem;
      vs ← read_in_vecs mem (offset + l) lens;
      mret (v :: vs)
  end.

Definition u16s (b : list Z) : list Z := [u16_at 0 b; u16_at 2 b; u16_at 4 b; u16_at 6 b].

Definition de `{HesHost} (input : list Z) : outcome PSAError t :=
  if EMBED_MSG_SIZE <? len input then Err WrongDataLength else
  let mem := input ++ past_end input in
  ctrl ← read_mem CTRL_PARAM_AT 4 mem;
  let ctrl_param := le_value ctrl in
  let psa_type := Z.shiftr (Z.land ctrl_param TYPE_MASK) TYPE_OFFSET in
  if 0x7FFF <? psa_type then Panicked else
  let num_in_vecs := Z.shiftr (Z.land ctrl_param IN_LEN_MASK) IN_LEN_OFFSET in
  let num_out_vecs := Z.shiftr (Z.land ctrl_param OUT_LEN_MASK) OUT_LEN_OFFSET in
  io ← read_mem IO_SIZE_AT 8 mem;
  let io_sizes := u16s io in
  if PSA_MAX_IOVEC <? num_in_vecs then Panicked else
  in_vecs ← read_in_vecs mem 0 (take (Z.to_nat num_in_vecs) io_sizes);
  if PSA_MAX_IOVEC <? num_in_vecs + num_out_vecs then Panicked else
  let out_len := take (Z.to_nat num_out_vecs) (drop (Z.to_nat num_in_vecs) io_sizes) in
  header ← read_mem 0 HEADER_SIZE mem;
  handle ← read_mem HANDLE_AT 4 mem;
  mret (mk (u8_at 0 header) (u8_at 1 header) (u16_at 2 header)
           (signed 32 (le_value handle)) psa_type
           (resize (Z.to_nat PSA_MAX_IOVEC) [] in_vecs)
           (resize (Z.to_nat PSA_MAX_IOVEC) 0 out_len)).
End PSARequest.

Module PSAResponse.
Record t : Type := mk {
  protocol_ver : Z;
  seq_num : Z;
  client_id : Z;
  return_val : Z;
  out_vecs : list (list Z)
}.

(** The loop over [out_vecs]: the sizes and the used part of the trailer. *)
Fixpoint pack (offset : Z) (vecs : list (list Z)) : outcome PSAError (list Z * list Z) :=
  match vecs with
  | [] => Ok ([], [])
  | v :: vecs =>
      if len v =? 0 then Ok ([], []) else
      if 0xFFFF <? len v then Panicked else
      let to_offset := offset + len v in
      if PLAT_RSS_COMMS_PAYLOAD_MAX_SIZE <=? to_offset then Err WrongDataLength else
      '(sizes, trailer) ← pack to_offset vecs;
      mret (len v :: sizes, v ++ trailer)
  end.

Definition ser (r : t) : outcome PSAError (list Z) :=
  '(sizes, trailer) ← pack 0 (out_vecs r);
  mret (le_bytes 1 (protocol_ver r) ++ le_bytes 1 (seq_num r) ++ le_bytes 2 (client_id r)
        ++ le_bytes 4 (return_val r)
        ++ (resize (Z.to_nat PSA_MAX_IOVEC) 0 sizes ≫= le_bytes 2) ++ trailer).
End PSAResponse.

(** [measured_boot_extend_iovec_t] (repr(C)): 32 bytes. *)
Module ExtendRequest.
Record t : Type := mk {
  index : Z;
  lock_measurement : Z;
  measurement_algo : Z;
  sw_type : list Z;
  sw_type_size : Z
}.
Definition SIZE : Z := 32.
Definition de (input : list Z) : outcome PSAError t :=
  if negb (len input =? SIZE) then Err WrongDataLength else
  Ok (mk (u8_at 0 input) (u8_at 1 input) (u32_at 4 input)
         (slice 8 SW_TYPE_MAX_SIZE input) (u8_at 28 input)).
End ExtendRequest.

(** [measured_boot_read_iovec_in_t]: 3 bytes. *)
Module ReadRequest.
Record t : Type := mk { index : Z; sw_type_size : Z; version_size : Z }.
Definition SIZE : Z := 3.
Definition de (input : list Z) : outcome PSAError t :=
  if negb (len input =? SIZE) then Err WrongDataLength else
  Ok (mk (u8_at 0 input) (u8_at 1 input) (u8_at 2 input)).
End ReadRequest.

(** [measured_boot_read_iovec_out_t] (repr(C)): 44 bytes, three of padding. *)
Module ReadResponse.
Record t : Type := mk {
  is_locked : Z;
  measurement_algo : Z;
  sw_type : list Z;
  sw_type_len : Z;
  version : list Z;
  version_len : Z
}.
Definition ser `{HesHost} (r : t) : outcome PSAError (list Z) :=
  Ok (le_bytes 1 (is_locked r) ++ padding ++ le_bytes 4 (measurement_algo r)
      ++ sw_type r ++ le_bytes 1 (sw_type_len r)
      ++ version r ++ le_bytes 1 (version_len r)).
End ReadResponse.

(** ** comms/mod.rs *)
Inductive CommsError : Set :=
| BufferTooSmall
| CInvalidArgument
| CGenericError
| ProgrammerError
| PsaSerdeError
| CommunicationError
| ServiceHandleError.

Definition of_psa_error (e : PSAError) : CommsError := PsaSerdeError.

Record MsgMetadata : Type := mkMsgMetadata {
  protocol_ver : Z;
  seq_num : Z;
  client_id : Z;
  response_params : list Z
}.

Inductive VHukId : Set := VHUK_A | VHUK_M.

Inductive Request : Type :=
| RqGetDAK (f : ECCFamily) (b : KeyBits) (a : HashAlgo.t)
| RqGetPlatformToken (dak_pub_hash : list Z)
| RqReadMeasurement (index sw_type_len sw_version_len : Z)
| RqExtendMeasurement (index : Z) (m : HMeasurement.t) (lock : bool)
| RqGetVHuk (id : VHukId).

Inductive Response : Type :=
| RsGetDAK (dak : list Z)
| RsGetPlatformToken (token : list Z)
| RsReadMeasurement (m : HMeasurement.t) (is_locked : bool)
| RsGetVHuk (key : list Z).

(** [in_vecs[i]] *)
Definition in_vec (i : nat) (vecs : list (list Z)) : list Z := nth i vecs [].

(** The request's parameters are ignored: the key is always P-384 with
    SHA-256. *)
Definition convert_attestation_request (request_type : Z) (in_vecs : list (list Z))
  : outcome CommsError Request :=
  if request_type =? RSS_DELEGATED_ATTEST_GET_DELEGATED_KEY then
    if negb (len (in_vec 0 in_vecs) =? 1) || negb (len (in_vec 1 in_vecs) =? 4)
       || negb (len (in_vec 2 in_vecs) =? 4)
    then Err CGenericError
    else Ok (RqGetDAK SecpR1 Bits384 HashAlgo.Sha256)
  else if request_type =? RSS_DELEGATED_ATTEST_GET_PLATFORM_TOKEN then
    let dak_pub_hash_size := len (in_vec 0 in_vecs) in
    if negb (dak_pub_hash_size =? HashAlgo.len HashAlgo.Sha256)
       && negb (dak_pub_hash_size =? HashAlgo.len HashAlgo.Sha384)
       && negb (dak_pub_hash_size =? HashAlgo.len HashAlgo.Sha512)
    then Err CInvalidArgument
    else h ← collect MAX_HASH_VALUE_SIZE (in_vec 0 in_vecs); mret (RqGetPlatformToken h)
  else Err ProgrammerError.

Definition convert_vhuk_request (request_type : Z) (in_vecs : list (list Z))
  : outcome CommsError Request :=
  if request_type =? RSS_VHUK_GET_KEY then
    if negb (len (in_vec 0 in_vecs) =? 1) then Err CGenericError else
    let raw_key_id := le_value (in_vec 0 in_vecs) in
    if raw_key_id =? 1 then Ok (RqGetVHuk VHUK_A) else
    if raw_key_id =? 2 then Ok (RqGetVHuk VHUK_M) else Err CInvalidArgument
  else Err ProgrammerError.

(** The PSA algorithm identifiers. *)
Definition algo_of_psa (a : Z) : option MeasurementType.t :=
  if a =? 0x02000009 then Some MeasurementType.Sha256 else
  if a =? 0x0200000a then Some MeasurementType.Sha384 else
  if a =? 0x0200000b then Some MeasurementType.Sha512 else None.
Definition psa_of_algo (a : MeasurementType.t) : Z :=
  match a with
  | MeasurementType.Sha256 => 0x02000009
  | MeasurementType.Sha384 => 0x0200000a
  | MeasurementType.Sha512 => 0x0200000b
  end.

Definition convert_measured_boot_request (request_type : Z) (in_vecs : list (list Z))
  : outcome CommsError Request :=
  if request_type =? RSS_MEASURED_BOOT_READ then
    read_request ← map_err of_psa_error (ReadRequest.de (in_vec 0 in_vecs));
    let slot_id := ReadRequest.index read_request in
    if Mgr.NUM_OF_MEASUREMENT_SLOTS <=? slot_id then Err CInvalidArgument else
    Ok (RqReadMeasurement slot_id (ReadRequest.sw_type_size read_request)
                          (ReadRequest.version_size read_request))
  else if request_type =? RSS_MEASURED_BOOT_EXTEND then
    extend_request ← map_err of_psa_error (ExtendRequest.de (in_vec 0 in_vecs));
    measurement_type ←
      ok_or (algo_of_psa (ExtendRequest.measurement_algo extend_request)) CInvalidArgument;
    if SW_TYPE_MAX_SIZE <? ExtendRequest.sw_type_size extend_request
    then Err CInvalidArgument else
    sw_type ← unwrap (from_utf8 (slice 0 (ExtendRequest.sw_type_size extend_request)
                                       (ExtendRequest.sw_type extend_request)));
    signer_id ← collect MAX_HASH_VALUE_SIZE (in_vec 1 in_vecs);
    sw_version ← unwrap (from_utf8 (in_vec 2 in_vecs));
    measurement_value ← collect MAX_HASH_VALUE_SIZE (in_vec 3 in_vecs);
    mret (RqExtendMeasurement (ExtendRequest.index extend_request)
            (HMeasurement.mk (MetaData.mk signer_id sw_version measurement_type sw_type)
                             measurement_value)
            (negb (ExtendRequest.lock_measurement extend_request =? 0)))
  else Err ProgrammerError.

(** A TCP stream: what each [read] finds ([RPause] is a pause longer than the
    read timeout), and whether each [write_all] succeeds. *)
Inductive ReadEvent : Type :=
| RChunk (data : list Z)
| RPause
| RFail.

Record Stream : Type := mkStream {
  reads : list ReadEvent;
  write_results : list bool;
  written : list (list Z)
}.

Inductive ReadResult : Type := Count (data : list Z) | WouldBlock | ReadError.

(** [read] into a buffer of [room] bytes; nothing left means closed. *)
Definition sys_read (room : Z) (evs : list ReadEvent) : ReadResult * list ReadEvent :=
  if room =? 0 then (Count [], evs) else
  match evs with
  | [] => (Count [], [])
  | RChunk d :: evs' =>
      if len d <=? room then (Count d, evs')
      else (Count (slice 0 room d), RChunk (drop (Z.to_nat room) d) :: evs')
  | RPause :: evs' => (WouldBlock, evs')
  | RFail :: evs' => (ReadError, evs')
  end.

(** Without a timeout a read waits out every pause. *)
Fixpoint skip_pauses (evs : list ReadEvent) : list ReadEvent :=
  match evs with RPause :: evs' => skip_pauses evs' | _ => evs end.

Definition READ_BUFFER : Z := 0x1000.

Fixpoint read_loop (fuel : nat) (data : list Z) (evs : list ReadEvent)
  : outcome CommsError (list Z) * list ReadEvent :=
  match fuel with
  | O => (Hung, evs)
  | S fuel =>
      match sys_read (READ_BUFFER - len data) evs with
      | (WouldBlock, evs') => (Ok data, evs')
      | (ReadError, evs') => (Err CommunicationError, evs')
      | (Count d, evs') => if 0 <? len d then read_loop fuel (data ++ d) evs' else (Ok data, evs')
      end
  end.

(** [read_stream]; the sockets' timeouts can always be set. Every round but the
    last two consumes an event. *)
Definition read_stream (evs : list ReadEvent)
  : outcome CommsError (option (list Z)) * list ReadEvent :=
  match sys_read READ_BUFFER (skip_pauses evs) with
  | (Count d, evs') =>
      if len d =? 0 then (Ok None, evs') else
      let '(r, evs'') := read_loop (S (S (length evs'))) d evs' in
      (data ← r; mret (Some data), evs'')
  | (_, evs') => (Err CommunicationError, evs')
  end.

Record CommsChannel : Type := mkComms {
  stream : option Stream;
  msg_metadata : option MsgMetadata
}.

Definition set_reads (evs : list ReadEvent) (c : CommsChannel) : CommsChannel :=
  mkComms (s ← stream c; Some (mkStream evs (write_results s) (written s))) (msg_metadata c).
Definition set_msg_metadata (m : option MsgMetadata) (c : CommsChannel) : CommsChannel :=
  mkComms (stream c) m.

Definition convert_request (q : PSARequest.t) : M CommsChannel CommsError Request :=
  modify (set_msg_metadata (Some (mkMsgMetadata (PSARequest.protocol_ver q) (PSARequest.seq_num q)
                                    (PSARequest.client_id q) (PSARequest.out_lens q))));;
  lift (
    let handle := PSARequest.handle q in
    if handle =? RSS_DELEGATED_SERVICE_HANDLE then
      convert_attestation_request (PSARequest.psa_type q) (PSARequest.in_vecs q)
    else if handle =? RSS_MEASURED_BOOT_SERVICE_HANDLE then
      convert_measured_boot_request (PSARequest.psa_type q) (PSARequest.in_vecs q)
    else if handle =? RSS_VHUK_SERVICE_HANDLE then
      convert_vhuk_request (PSARequest.psa_type q) (PSARequest.in_vecs q)
    else Err ServiceHandleError).

Section comms.
Context `{HesHost}.

Definition get_request : M CommsChannel CommsError (option Request) :=
  c ← get_state;
  s ← lift (unwrap (stream c));
  let '(r, evs) := read_stream (reads s) in
  modify (set_reads evs);;
  data ← lift r;
  match data with
  | None => mret None
  | Some data =>
      psa_request ← lift (map_err of_psa_error (PSARequest.de data));
      r ← convert_request psa_request;
      mret (Some r)
  end.

(** [x.as_bytes().try_into::<[u8; n]>().unwrap()] *)
Definition to_array (n : Z) (l : list Z) : outcome CommsError (list Z) :=
  if len l =? n then Ok l else Panicked.

Definition response_param (i : nat) (m : MsgMetadata) : Z := nth i (response_params m) 0.

Definition response_vecs (m : MsgMetadata) (response : option Response)
  : outcome CommsError (list (list Z)) :=
  match response with
  | Some (RsGetDAK dak) =>
      if response_param 0 m <? len dak then Err BufferTooSmall else Ok [dak; []; []; []]
  | Some (RsGetPlatformToken token) =>
      if response_param 0 m <? len token then Err BufferTooSmall else Ok [token; []; []; []]
  | Some (RsReadMeasurement measurement is_locked) =>
      let md := HMeasurement.metadata measurement in
      if (response_param 1 m <? len (MetaData.signer_id md))
         || (response_param 2 m <? len (HMeasurement.value measurement))
      then Err BufferTooSmall else
      sw_type ← to_array SW_TYPE_MAX_SIZE (MetaData.sw_type md);
      version ← to_array VERSION_MAX_SIZE (MetaData.sw_version md);
      read_response ← map_err of_psa_error (ReadResponse.ser
        (ReadResponse.mk (if is_locked then 1 else 0) (psa_of_algo (MetaData.algorithm md))
           sw_type (len (MetaData.sw_type md) mod 256)
           version (len (MetaData.sw_version md) mod 256)));
      Ok [read_response; MetaData.signer_id md; HMeasurement.value measurement; []]
  | Some (RsGetVHuk key) =>
      if response_param 0 m <? len key then Err BufferTooSmall else Ok [key; []; []; []]
  | None => if negb (response_param 0 m =? 0) then Err ProgrammerError else Ok [[]; []; []; []]
  end.

Definition convert_response (return_val : Z) (response : option Response)
  : M CommsChannel CommsError PSAResponse.t :=
  c ← get_state;
  modify (set_msg_metadata None);;
  m ← lift (unwrap (msg_metadata c));
  out_vecs ← lift (if return_val =? 0 then response_vecs m response else Ok [[]; []; []; []]);
  mret (PSAResponse.mk (protocol_ver m) (seq_num m) (client_id m) return_val out_vecs).

(** [write_all] *)
Definition sys_write (data : list Z) : M CommsChannel CommsError unit := fun c =>
  match stream c with
  | None => (Panicked, c)
  | Some s =>
      match write_results s with
      | false :: ws => (Err CommunicationError,
          mkComms (Some (mkStream (reads s) ws (written s))) (msg_metadata c))
      | ws => (Ok tt,
          mkComms (Some (mkStream (reads s) (tail ws) (written s ++ [data]))) (msg_metadata c))
      end
  end.

Definition send_response (ret_val : Z) (response : option Response)
  : M CommsChannel CommsError unit :=
  psa_response ← convert_response ret_val response;
  data ← lift (map_err of_psa_error (PSAResponse.ser psa_response));
  sys_write data.
End comms.

(** ** main.rs *)
Definition islet_hes_error_to_ret_val (e : IsletHESError) : Z :=
  match e with
  | BadState => -137
  | DoesNotExist => -140
  | GenericError => -132
  | InvalidArgument => -135
  | NotPermitted => -133
  | NotSupported => -134
  end.

Definition comms_error_to_ret_val (e : CommsError) : outcome CommsError Z :=
  match e with
  | BufferTooSmall => Ok (-138)
  | CGenericError => Ok (-132)
  | CInvalidArgument => Ok (-135)
  | ProgrammerError => Ok (-129)
  | CommunicationError => Panicked
  | PsaSerdeError => Panicked
  | ServiceHandleError => Panicked
  end.

Record App : Type := mkApp { hes : HES.t; comms : CommsChannel }.

Definition on_hes {A} (m : M HES.t CommsError A) : M App CommsError A := fun s =>
  let '(r, h) := m (hes s) in (r, mkApp h (comms s)).
Definition on_comms {A} (m : M CommsChannel CommsError A) : M App CommsError A := fun s =>
  let '(r, c) := m (comms s) in (r, mkApp (hes s) c).

Section app.
Context `{HesCrypto} `{HesKeys} `{HesHost}.

(** [match m { Ok(a) => .., Err(e) => (islet_hes_error_to_ret_val(e), None) }] *)
Definition replying {A} (m : M HES.t IsletHESError A)
  (f : A -> outcome CommsError (Z * option Response))
  : M HES.t CommsError (Z * option Response) := fun h =>
  match m h with
  | (Ok a, h') => (f a, h')
  | (Err e, h') => (Ok (islet_hes_error_to_ret_val e, None), h')
  | (Panicked, h') => (Panicked, h')
  | (Hung, h') => (Hung, h')
  end.

Definition pure_on {A} (f : HES.t -> outcome IsletHESError A) : M HES.t IsletHESError A :=
  fun h => (f h, h).

Definition serve (request : Request) : M HES.t CommsError (Z * option Response) :=
  match request with
  | RqGetDAK ecc_family key_bits hash_algo =>
      replying (HES.get_delegated_key ecc_family key_bits hash_algo)
        (fun dak => Ok (PSA_SUCCESS, Some (RsGetDAK dak)))
  | RqGetPlatformToken dak_pub_hash =>
      replying (pure_on (HES.get_platform_token dak_pub_hash))
        (fun token => t ← unwrap (to_tagged_vec token);
                      mret (PSA_SUCCESS, Some (RsGetPlatformToken t)))
  | RqExtendMeasurement slot_id measurement lock =>
      replying (HES.extend_measurement slot_id measurement lock)
        (fun _ => Ok (PSA_SUCCESS, None))
  | RqReadMeasurement index sw_type_len version_len =>
      replying (pure_on (HES.read_measurement index))
        (fun '(measurement, is_locked) =>
           if (sw_type_len <? len (MetaData.sw_type (HMeasurement.metadata measurement)))
              || (version_len <? len (MetaData.sw_version (HMeasurement.metadata measurement)))
           then Ok (islet_hes_error_to_ret_val InvalidArgument, None)
           else Ok (PSA_SUCCESS, Some (RsReadMeasurement measurement is_locked)))
  | RqGetVHuk key_id =>
      replying (pure_on (match key_id with
                         | VHUK_A => HES.get_authority_vhuk
                         | VHUK_M => HES.get_measurement_vhuk
                         end))
        (fun key => Ok (PSA_SUCCESS, Some (RsGetVHuk key)))
  end.

(** [comms.send_response(..)] as the loop uses it: [BufferTooSmall] and
    [ProgrammerError] panic too. *)
Definition reply (ret_val : Z) (response : option Response) : M App CommsError (unit + unit) := fun s =>
  match on_comms (send_response ret_val response) s with
  | (Ok _, s') => (Ok (inl tt), s')
  | (Err CommunicationError, s') => (Err CommunicationError, s')
  | (Err _, s') => (Panicked, s')
  | (Panicked, s') => (Panicked, s')
  | (Hung, s') => (Hung, s')
  end.

(** One round of the loop: [inr] returns from the function. *)
Definition process_request : M App CommsError (unit + unit) := fun s =>
  match on_comms get_request s with
  | (Ok None, s') => (Ok (inr tt), s')
  | (Ok (Some request), s') =>
      ('(ret_val, response) ← on_hes (serve request); reply ret_val response) s'
  | (Err CommunicationError, s') => (Err CommunicationError, s')
  | (Err PsaSerdeError, s') => (Panicked, s')
  | (Err ServiceHandleError, s') => (Ok (inl tt), s')
  | (Err ProgrammerError, s') => (Panicked, s')
  | (Err e, s') => (ret_val ← lift (comms_error_to_ret_val e); reply ret_val None) s'
  | (Panicked, s') => (Panicked, s')
  | (Hung, s') => (Hung, s')
  end.

(** Every round but the last takes something from the stream. *)
Definition event_size (e : ReadEvent) : nat :=
  match e with RChunk d => S (length d) | _ => 1%nat end.
Definition stream_size (evs : list ReadEvent) : nat := sum_list_with event_size evs.

Definition process_requests : M App CommsError unit := fun s =>
  let fuel := S (stream_size (match stream (comms s) with Some st => reads st | None => [] end)) in
  match loopN (fun _ => process_request) fuel tt s with
  | (Ok (inr _), s') => (Ok tt, s')
  | (Ok (inl _), s') => (Hung, s')
  | (Err e, s') => (Err e, s')
  | (Panicked, s') => (Panicked, s')
  | (Hung, s') => (Hung, s')
  end.

(** [islet_hes.reset(hw_data.clone()).unwrap()] *)
Definition reset_service (hw : Hw.HWData) : M App CommsError unit := fun s =>
  let '(r, h) := HES.reset hw (hes s) in (Mgr.unwrap_result r, mkApp h (comms s)).

(** The body of [main]'s loop up to the reconnection: [inl] means reconnect,
    [inr] the value [main] returns. *)
Definition serve_connection (hw : Hw.HWData) (is_persistent : bool)
  : M App CommsError (unit + bool) := fun s =>
  let finish (graceful : bool) : M App CommsError (unit + bool) :=
    if is_persistent then reset_service hw;; mret (inl tt) else mret (inr graceful) in
  match process_requests s with
  | (Ok _, s') => finish true s'
  | (Err _, s') => finish false s'
  | (Panicked, s') => (Panicked, s')
  | (Hung, s') => (Hung, s')
  end.
End app.

(** The hardware of the host application ([DummyHW] without key files). *)
Module DummyHW.
Definition bl1 : Hw.BootMeasurement := Hw.mkBoot
  (Hw.mkBootMeta 0
    [0xc6; 0xc3; 0x2a; 0x95; 0x7d; 0xf4; 0xc6; 0x69; 0x8c; 0x55; 0x0b; 0x69;
     0x5d; 0x02; 0x2e; 0xd5; 0x18; 0x0c; 0xae; 0x71; 0xf8; 0xb4; 0x9c; 0xbb;
     0x75; 0xe6; 0x06; 0x1c; 0x2e; 0xf4; 0x97; 0xe1]
    (bytes_of_string "BL1") (bytes_of_string "0.1.0"))
  [0x61; 0x97; 0x3b; 0x4f; 0x62; 0x0c; 0x2a; 0xe6; 0xc7; 0x63; 0x51; 0x18; 0xa0;
   0xb4; 0x37; 0x6d; 0x15; 0x34; 0x4c; 0x1c; 0x53; 0xa2; 0x17; 0x89; 0xb1; 0xaa;
   0x95; 0xd2; 0x0f; 0x3c; 0x45; 0x06].

Definition bl2 : Hw.BootMeasurement := Hw.mkBoot
  (Hw.mkBootMeta 2
    [0xa0; 0x64; 0xb1; 0xad; 0x60; 0xfa; 0x18; 0x33; 0x94; 0xdd; 0xa5; 0x78;
     0x91; 0x35; 0x7f; 0x97; 0x2e; 0x4f; 0xe7; 0x22; 0x78; 0x2a; 0xdf; 0xf1;
     0x85; 0x4c; 0x8b; 0x2a; 0x14; 0x2c; 0x04; 0x10]
    (bytes_of_string "BL2") (bytes_of_string "1.9.0+0"))
  [0x8a; 0x66; 0x01; 0xf6; 0x70; 0x74; 0x8b; 0xe2; 0x33; 0xff; 0x5d; 0x75; 0xd7;
   0xea; 0x89; 0xa8; 0xbb; 0xbb; 0xbb; 0xbb; 0xbb; 0xbb; 0xbb; 0xbb; 0x01; 0x05;
   0x01; 0xEF; 0x68; 0x07; 0x88; 0xCC; 0x83; 0x09; 0x22; 0xCD; 0x09; 0x61; 0xB6;
   0xFF; 0xbb; 0xbb; 0xbb; 0xbb; 0xbb; 0xbb; 0xbb; 0xbb; 0x56; 0x46; 0x58; 0x49;
   0x99; 0x31; 0xcf; 0x59; 0x7d; 0xbc; 0x3a; 0x4e; 0x68; 0x79; 0x8a; 0x1c].

Definition hw : Hw.HWData := {|
  Hw.huk := Some
    [0x00; 0x01; 0x02; 0x03; 0x04; 0x05; 0x06; 0x07; 0x08; 0x09; 0x0a; 0x0b; 0x0c; 0x0d;
     0x0e; 0x0f; 0x00; 0x01; 0x02; 0x03; 0x04; 0x05; 0x06; 0x07; 0x08; 0x09; 0x0a; 0x0b;
     0x0c; 0x0d; 0x0e; 0x0f];
  Hw.guk := Some
    [0x01; 0x23; 0x45; 0x67; 0x89; 0x01; 0x23; 0x45; 0x67; 0x89; 0x01; 0x23; 0x45; 0x67;
     0x89; 0x01; 0x23; 0x45; 0x67; 0x89; 0x01; 0x23; 0x45; 0x67; 0x89; 0x01; 0x23; 0x45;
     0x67; 0x89; 0x01; 0x23];
  Hw.bl_hash := Some
    [0xf1; 0x5f; 0x95; 0x3b; 0xe5; 0x0d; 0xad; 0x92; 0xc3; 0xb2; 0xaa; 0x32; 0x97; 0xe6;
     0xa4; 0xa8; 0xd6; 0x6d; 0x33; 0x63; 0x84; 0x49; 0xec; 0x19; 0x22; 0xb4; 0xa7; 0x92;
     0x4a; 0x7b; 0x30; 0x22];
  Hw.boot_measurements := Some [bl1; bl2];
  Hw.implementation_id := Some
    (replicate 8 0xAA ++ replicate 8 0xBB ++ replicate 8 0xCC ++ replicate 8 0xDD);
  Hw.security_lifecycle := Some 0x3000;
  Hw.profile_definition := Some (Some (bytes_of_string "http://arm.com/CCA-SSD/1.0.0"));
  Hw.verification_service_url := Some (Some (bytes_of_string "http://whatever.com"));
  Hw.platform_config := Some (le_bytes 4 0xDEADBEEF)
|}.
End DummyHW.
