(* ===== verification/HesSample.v ===== *)
(** * A concrete platform for the HES witnesses

    Hash functions, ciphers and curves of the right shapes (their security plays
    no role in a witness), and a host whose memory after a request is known. *)

From stdpp Require Import strings.
From S2P Require Import Prelude Bytes Machine HesBoot HesAttest HesComms.

(** A polynomial digest of [n] bytes. *)
Definition toy_digest (n : nat) (d : list Z) : list Z :=
  le_bytes n (foldl (fun acc b => acc * 263 + b + 1) 7 d).

#[global] Instance toy_crypto : HesCrypto := {|
  sha256 := toy_digest 32;
  sha384 := toy_digest 48;
  sha512 := toy_digest 64
|}.

#[global] Instance toy_crypto_laws : HesCryptoLaws.
Proof. by split; intros d; unfold len; cbn [sha256 sha384 sha512 toy_crypto]; unfold toy_digest;
  rewrite length_le_bytes. Qed.

Definition be_bytes (n : nat) (v : Z) : list Z := rev (le_bytes n v).

Definition toy_from_slice (c : Curve) (l : list Z) : option Z :=
  if (len l * 8 =? WIDTH c) && (0 <? be_value l) && (be_value l <? ORDER c)
  then Some (be_value l) else None.

(** The first byte of a derived key is zero, so it is below the group order. *)
#[global] Instance toy_keys : HesKeys := {|
  aes256_block k b := map (fun x => Z.lxor x 90) b;
  hkdf_sha256 seed info n := Some (take (Z.to_nat n) (0 :: toy_digest (Z.to_nat (n - 1)) (seed ++ info)));
  p256_from_slice := toy_from_slice NistP256;
  p256_to_bytes := be_bytes 32;
  p256_public k := 4 :: be_bytes 64 (k * 3);
  p384_from_slice := toy_from_slice NistP384;
  p384_to_bytes := be_bytes 48;
  p384_sec1 k := 4 :: be_bytes 96 (k * 3);
  p384_try_sign k d := Some (toy_digest 96 (k ++ d));
  into_writer v := match v with VMap l => Some [160; Z.of_nat (length l)]
                              | VArray l => Some [128; Z.of_nat (length l)] | _ => Some [0] end;
  sig_structure p := 132 :: p;
  to_tagged_vec c := Some (cose_payload c ++ cose_signature c)
|}.

(** The memory after a request holds something the client did not send. *)
#[global] Instance toy_host : HesHost := {| past_end _ := replicate 64 0x5e; padding := [0; 0; 0] |}.
