(* ===== verification/HesBootFacts.v ===== *)
(** * HES: the measured-boot slots implement append-only logs

    The manager of hes/islet-hes/src/measured_boot is proved to implement an
    abstract specification: a slot is the log of the extensions it accepted, and
    the measurement it reports is rendered from that log. What a verifier may
    conclude from a measurement follows from the log. *)

From S2P Require Import Prelude Bytes HesBoot HesAttest HesComms HesSample.
From stdpp Require Import list strings.

Open Scope Z_scope.

(** ** Vectors *)
Lemma len_app l k : len (l ++ k) = len l + len k.
Proof. unfold len. rewrite length_app. lia. Qed.
Lemma len_replicate n (b : Z) : len (replicate n b) = Z.of_nat n.
Proof. unfold len. by rewrite length_replicate. Qed.
Lemma len_nonneg l : 0 <= len l.
Proof. unfold len. lia. Qed.
Lemma len_length l k : len l = len k -> length l = length k.
Proof. unfold len. lia. Qed.

Create Rewrite HintDb hes.
#[export] Hint Rewrite len_app len_replicate : hes.

(** Writing [src] over the middle of a vector. *)
Lemma copy_range_app {E} a b pre mid post src :
  len pre = a -> len mid = b - a -> len src = b - a ->
  @copy_range E a b src (pre ++ mid ++ post) = Ok (pre ++ src ++ post).
Proof.
  intros Ha Hm Hs. pose proof (len_nonneg pre). pose proof (len_nonneg mid).
  pose proof (len_nonneg post). unfold copy_range. rewrite !len_app.
  rewrite (proj2 (Z.leb_le 0 a)), (proj2 (Z.leb_le a b)), (proj2 (Z.leb_le b _)),
    (proj2 (Z.eqb_eq (len src) _)) by lia.
  cbn [andb]. unfold splice. assert (Z.to_nat a = length pre) as -> by (unfold len in *; lia).
  rewrite take_app_length. do 2 f_equal.
  assert (length src = length mid) as -> by (unfold len in *; lia).
  by rewrite app_assoc, <- length_app, drop_app_length.
Qed.

Lemma copy_range_front {E} b mid post src :
  len mid = b -> len src = b -> @copy_range E 0 b src (mid ++ post) = Ok (src ++ post).
Proof. intros. apply (copy_range_app 0 b []); [done|lia..]. Qed.

Lemma copy_range_back {E} a b pre mid src :
  len pre = a -> b = len (pre ++ mid) -> len src = len mid ->
  @copy_range E a b src (pre ++ mid) = Ok (pre ++ src).
Proof.
  intros Ha Hb Hs. rewrite len_app in Hb.
  pose proof (@copy_range_app E a b pre mid [] src) as Hc. rewrite !app_nil_r in Hc.
  apply Hc; lia.
Qed.

Lemma copy_range_all {E} b mid src :
  len mid = b -> len src = b -> @copy_range E 0 b src mid = Ok src.
Proof.
  intros. pose proof (@copy_range_front E b mid [] src) as Hc. rewrite !app_nil_r in Hc. auto.
Qed.

Lemma prefix_of_all {E} n l : len l = n -> @prefix_of E n l = Ok l.
Proof.
  intros <-. unfold prefix_of. rewrite Z.leb_refl. unfold slice.
  rewrite drop_0, take_ge; [done|]. unfold len. lia.
Qed.

Lemma prefix_of_app {E} n l k : len l = n -> @prefix_of E n (l ++ k) = Ok l.
Proof.
  intros <-. unfold prefix_of. pose proof (len_nonneg k). rewrite len_app.
  rewrite (proj2 (Z.leb_le _ _)) by lia. unfold slice.
  rewrite drop_0. unfold len. by rewrite Nat2Z.id, take_app_length.
Qed.

Lemma collect_ok {E} cap l : len l <= cap -> @collect E cap l = Ok l.
Proof. intros. unfold collect. by rewrite (proj2 (Z.leb_le _ _)). Qed.

(** ** The specification *)

(** An extension: what was measured, and whether the slot was locked. *)
Record entry : Type := mkEntry { e_measurement : HMeasurement.t; e_lock : bool }.
Definition e_meta (e : entry) : MetaData.t := HMeasurement.metadata (e_measurement e).
Definition e_value (e : entry) : list Z := HMeasurement.value (e_measurement e).

Section spec.
Context `{HesCryptoLaws}.

(** The hash chain over the values, from the all-zero digest. *)
Definition chain_from (a : MeasurementType.t) : list Z -> list (list Z) -> list Z :=
  foldl (fun acc v => MeasurementType.digest a (acc ++ v)).
Definition zero_digest (a : MeasurementType.t) : list Z :=
  replicate (Z.to_nat (MeasurementType.hash_len a)) 0.
Definition chain (a : MeasurementType.t) : list (list Z) -> list Z := chain_from a (zero_digest a).

(** The first extension fixes the signer and the algorithm, the last one the
    version, the type and the lock. *)
Definition render (log : list entry) : Slot.t :=
  match log, last log with
  | first :: _, Some e =>
      Slot.mk (HMeasurement.mk
                 (MetaData.mk (MetaData.signer_id (e_meta first)) (MetaData.sw_version (e_meta e))
                    (MetaData.algorithm (e_meta first)) (MetaData.sw_type (e_meta e)))
                 (chain (MetaData.algorithm (e_meta first)) (map e_value log)))
        (e_lock e) true
  | _, _ => Slot.default
  end.

Definition render_mgr (logs : list (list entry)) : Mgr.t := Mgr.mk (map render logs).

(** Appending to a log that is not locked, by the same signer and with the same
    algorithm. *)
Definition append (e : entry) (log : list entry) : outcome MeasurementError (list entry) :=
  match log, last log with
  | first :: _, Some l =>
      if e_lock l then Err MBadState else
      if bool_decide (MetaData.signer_id (e_meta e) = MetaData.signer_id (e_meta first)
                      /\ MetaData.algorithm (e_meta e) = MetaData.algorithm (e_meta first))
      then Ok (log ++ [e]) else Err MNotPermitted
  | _, _ => Ok [e]
  end.

Definition append_at (slot_id : Z) (e : entry) (logs : list (list entry))
  : outcome MeasurementError unit * list (list entry) :=
  match logs !! Z.to_nat slot_id with
  | None => (Err MInvalidArgument, logs)
  | Some log =>
      match append e log with
      | Ok log' => (Ok tt, <[Z.to_nat slot_id := log']> logs)
      | Err err => (Err err, logs)
      | Panicked => (Panicked, logs)
      | Hung => (Hung, logs)
      end
  end.

Definition report (slot_id : Z) (logs : list (list entry))
  : outcome MeasurementError (HMeasurement.t * bool) :=
  match logs !! Z.to_nat slot_id with
  | None => Err MInvalidArgument
  | Some [] => Err MDoesNotExist
  | Some log => Ok (Slot.measurement (render log), Slot.is_locked (render log))
  end.

Definition slots_wf (logs : list (list entry)) : Prop :=
  Z.of_nat (length logs) = Mgr.NUM_OF_MEASUREMENT_SLOTS.

(** ** The slots implement it *)
Lemma digest_len a d : len (MeasurementType.digest a d) = MeasurementType.hash_len a.
Proof. destruct a; [apply sha256_len|apply sha384_len|apply sha512_len]. Qed.

Lemma hash_len_nonneg a : 0 <= MeasurementType.hash_len a.
Proof. by destruct a. Qed.

Lemma zero_digest_len a : len (zero_digest a) = MeasurementType.hash_len a.
Proof. unfold zero_digest. rewrite len_replicate. by destruct a. Qed.

Lemma chain_from_len a acc vs :
  len acc = MeasurementType.hash_len a -> len (chain_from a acc vs) = MeasurementType.hash_len a.
Proof.
  revert acc. induction vs as [|v vs IH]; intros acc Hl; [done|]. cbn. apply IH, digest_len.
Qed.

Lemma chain_len a vs : len (chain a vs) = MeasurementType.hash_len a.
Proof. apply chain_from_len, zero_digest_len. Qed.

Lemma chain_snoc a vs v : chain a (vs ++ [v]) = MeasurementType.digest a (chain a vs ++ v).
Proof. unfold chain, chain_from. by rewrite foldl_app. Qed.

Lemma extend_value_spec s new lock :
  len (Slot.value s) = MeasurementType.hash_len (Slot.algorithm s) ->
  Slot.extend_value new lock s =
    Ok (Slot.mk (HMeasurement.mk (HMeasurement.metadata (Slot.measurement s))
                   (MeasurementType.digest (Slot.algorithm s) (Slot.value s ++ new))) lock true).
Proof.
  intros Hl. unfold Slot.extend_value. cbv zeta.
  rewrite prefix_of_all by done. cbn [mbind outcome_bind].
  pose proof (hash_len_nonneg (Slot.algorithm s)). pose proof (len_nonneg new).
  rewrite Z2Nat.inj_add, replicate_add by lia.
  rewrite copy_range_front by (rewrite ?len_replicate; lia). cbn [mbind outcome_bind].
  rewrite copy_range_back by (rewrite ?len_replicate; lia). cbn [mbind outcome_bind].
  by rewrite copy_range_all by (rewrite ?digest_len; done).
Qed.

Lemma initialize_spec m lock :
  Slot.initialize m lock Slot.default = Ok (render [mkEntry m lock]).
Proof.
  unfold Slot.initialize. cbn [Slot.is_populated Slot.default Slot.value Slot.measurement
    Slot.set_metadata HMeasurement.value HMeasurement.default].
  rewrite resize_nil, extend_value_spec; [|apply zero_digest_len].
  by destruct m as [[] ?].
Qed.

Lemma map_render_lookup logs i : map render logs !! i = render <$> (logs !! i).
Proof. apply list_lookup_fmap. Qed.

Lemma render_cons first log l :
  last (first :: log) = Some l ->
  render (first :: log) =
    Slot.mk (HMeasurement.mk
               (MetaData.mk (MetaData.signer_id (e_meta first)) (MetaData.sw_version (e_meta l))
                  (MetaData.algorithm (e_meta first)) (MetaData.sw_type (e_meta l)))
               (chain (MetaData.algorithm (e_meta first)) (map e_value (first :: log))))
      (e_lock l) true.
Proof. intros E. unfold render. by rewrite E. Qed.

Lemma render_snoc first log e :
  render (first :: log ++ [e]) =
    Slot.mk (HMeasurement.mk
               (MetaData.mk (MetaData.signer_id (e_meta first)) (MetaData.sw_version (e_meta e))
                  (MetaData.algorithm (e_meta first)) (MetaData.sw_type (e_meta e)))
               (MeasurementType.digest (MetaData.algorithm (e_meta first))
                  (chain (MetaData.algorithm (e_meta first)) (map e_value (first :: log))
                   ++ e_value e)))
      (e_lock e) true.
Proof.
  rewrite (render_cons _ _ e); [|rewrite app_comm_cons; apply last_snoc].
  assert (map e_value (first :: log ++ [e]) = map e_value (first :: log) ++ [e_value e]) as ->.
  { rewrite app_comm_cons. apply map_app. }
  by rewrite chain_snoc.
Qed.

(** The outcome of a slot's operation follows the log's. *)
Lemma extend_slot_refines m lock log :
  Mgr.extend_slot m lock (render log) = log' ← append (mkEntry m lock) log; mret (render log').
Proof.
  destruct log as [|first log]; [unfold Mgr.extend_slot; cbn [render last Slot.is_locked
    Slot.is_populated Slot.default]; by rewrite initialize_spec|].
  destruct (last (first :: log)) as [l|] eqn:El; [|by apply last_None in El].
  rewrite (render_cons _ _ _ El). unfold Mgr.extend_slot, append. rewrite El.
  cbn [Slot.is_locked Slot.is_populated]. destruct (e_lock l); [done|].
  unfold Slot.is_prohibited. cbn [Slot.measurement HMeasurement.metadata MetaData.signer_id
    MetaData.algorithm e_meta e_measurement].
  change (HMeasurement.metadata m) with (e_meta (mkEntry m lock)).
  repeat case_bool_decide; try tauto; cbn [orb mbind outcome_bind].
  unfold Slot.extend. rewrite extend_value_spec; [|apply chain_len].
  cbn [app]. by rewrite render_snoc.
Qed.

Lemma extend_measurement_refines slot_id m lock logs :
  slots_wf logs -> 0 <= slot_id ->
  Mgr.extend_measurement slot_id m lock (render_mgr logs) =
    let '(r, logs') := append_at slot_id (mkEntry m lock) logs in (r, render_mgr logs').
Proof.
  intros Hw Hs. unfold slots_wf, Mgr.extend_measurement, append_at in *.
  destruct (Z.leb_spec Mgr.NUM_OF_MEASUREMENT_SLOTS slot_id).
  { by rewrite lookup_ge_None_2 by lia. }
  destruct (logs !! Z.to_nat slot_id) as [log|] eqn:El;
    [|apply lookup_ge_None_1 in El; lia].
  unfold Mgr.update. cbn [render_mgr Mgr.measurements].
  rewrite map_render_lookup, El. cbn [fmap option_fmap option_map unwrap mbind outcome_bind].
  rewrite extend_slot_refines. destruct (append _ log) as [log'|e| |]; try done.
  cbn [mbind outcome_bind mret outcome_ret]. unfold render_mgr.
  do 2 f_equal. symmetry. apply (list_fmap_insert render).
Qed.

Lemma read_measurement_refines slot_id logs :
  slots_wf logs -> 0 <= slot_id ->
  Mgr.read_measurement slot_id (render_mgr logs) = report slot_id logs.
Proof.
  intros Hw Hs. unfold slots_wf, Mgr.read_measurement, report in *.
  destruct (Z.leb_spec Mgr.NUM_OF_MEASUREMENT_SLOTS slot_id).
  { by rewrite lookup_ge_None_2 by lia. }
  destruct (logs !! Z.to_nat slot_id) as [log|] eqn:El;
    [|apply lookup_ge_None_1 in El; lia].
  cbn [render_mgr Mgr.measurements]. rewrite map_render_lookup, El.
  cbn [fmap option_fmap option_map unwrap mbind outcome_bind].
  destruct log as [|first log]; [done|].
  destruct (last (first :: log)) as [l|] eqn:E; [|by apply last_None in E].
  by rewrite (render_cons _ _ _ E).
Qed.

Lemma append_at_wf slot_id e logs : slots_wf logs -> slots_wf (append_at slot_id e logs).2.
Proof.
  unfold slots_wf, append_at. destruct (logs !! _); [|done]. destruct (append _ _); [|done..].
  cbn [snd]. by rewrite length_insert.
Qed.

(** ** Initialisation *)
Definition conversions (bs : list Hw.BootMeasurement) : option (list HMeasurement.t) :=
  mapM (fun b => match HMeasurement.try_from b with Ok m => Some m | _ => None end) bs.

(** The log of a boot measurement, and the logs after initialisation. *)
Definition boot_logs (ms : list HMeasurement.t) : list (list entry) :=
  resize (Z.to_nat Mgr.NUM_OF_MEASUREMENT_SLOTS) [] (map (fun m => [mkEntry m false]) ms).

Lemma boot_logs_wf ms : slots_wf (boot_logs ms).
Proof. unfold slots_wf, boot_logs. by rewrite length_resize. Qed.

Lemma try_from_halts b : HMeasurement.try_from b <> Panicked /\ HMeasurement.try_from b <> Hung.
Proof.
  unfold HMeasurement.try_from. cbv zeta.
  destruct (Z.ltb_spec (len (Hw.signer_id (Hw.metadata b))) SIGNER_ID_MIN_SIZE); [done|].
  destruct (Z.ltb_spec SIGNER_ID_MAX_SIZE (len (Hw.signer_id (Hw.metadata b)))); [done|].
  cbn [orb]. repeat case_match; try done;
    destruct (from_utf8 (Hw.sw_version _)); try done; cbn [ok_or mbind outcome_bind];
    destruct (from_utf8 (Hw.sw_type _)); try done; cbn [ok_or mbind outcome_bind];
    rewrite collect_ok by done; cbn [mbind outcome_bind];
    unfold MeasurementType.try_from; by repeat case_match.
Qed.

(** The slots before [done_]'s end are filled, the next one is initialised. *)
Lemma init_step done_ n m :
  Mgr.update (Z.of_nat (length done_)) (Slot.initialize m false)
    (render_mgr (done_ ++ replicate (S n) [])) =
  Ok (render_mgr ((done_ ++ [[mkEntry m false]]) ++ replicate n [])).
Proof.
  unfold Mgr.update. cbn [render_mgr Mgr.measurements].
  rewrite map_render_lookup, Nat2Z.id. cbn [replicate].
  rewrite list_lookup_middle by done.
  cbn [fmap option_fmap option_map unwrap mbind outcome_bind render].
  rewrite initialize_spec. cbn [mbind outcome_bind mret outcome_ret]. unfold render_mgr.
  do 2 f_equal. rewrite <- app_assoc, !map_app. cbn [app map].
  by rewrite <- (length_map render done_), insert_app_r_alt, Nat.sub_diag by lia.
Qed.

Lemma init_loop_spec bs done_ n :
  (length bs <= n)%nat ->
  match conversions bs with
  | Some ms =>
      Mgr.init_loop (Z.of_nat (length done_)) bs (render_mgr (done_ ++ replicate n [])) =
        Ok (render_mgr (done_ ++ resize n [] (map (fun m => [mkEntry m false]) ms)))
  | None => exists e,
      Mgr.init_loop (Z.of_nat (length done_)) bs (render_mgr (done_ ++ replicate n [])) = Err e
  end.
Proof.
  revert done_ n. induction bs as [|b bs IH]; intros done_ n Hn.
  { unfold conversions. cbn. by rewrite resize_nil. }
  cbn [length] in Hn. destruct n as [|n]; [lia|]. cbn [Mgr.init_loop].
  unfold conversions. cbn [mapM]. fold (conversions bs).
  pose proof (try_from_halts b) as [Hp Hh].
  destruct (HMeasurement.try_from b) as [m|e| |]; [|by exists e|done|done].
  cbn [mbind outcome_bind option_bind]. rewrite init_step. cbn [mbind outcome_bind].
  specialize (IH (done_ ++ [[mkEntry m false]]) n). rewrite length_app, Nat2Z.inj_add in IH.
  change (Z.of_nat (length [_])) with 1 in IH.
  destruct (conversions bs) as [ms|]; cbn [mbind option_bind mret option_ret]; [|apply IH; lia].
  rewrite IH by lia. by rewrite <- app_assoc.
Qed.

(** Initialisation never reports an error: it succeeds or panics. *)
Lemma init_spec bs :
  Mgr.init bs =
    if Z.of_nat (length bs) <=? Mgr.NUM_OF_MEASUREMENT_SLOTS then
      match conversions bs with Some ms => Ok (render_mgr (boot_logs ms)) | None => Panicked end
    else Panicked.
Proof.
  unfold Mgr.init. destruct (Z.leb_spec (Z.of_nat (length bs)) Mgr.NUM_OF_MEASUREMENT_SLOTS);
    [|done].
  pose proof (init_loop_spec bs [] (Z.to_nat Mgr.NUM_OF_MEASUREMENT_SLOTS) ltac:(lia)) as Hi.
  change (render_mgr ([] ++ replicate (Z.to_nat Mgr.NUM_OF_MEASUREMENT_SLOTS) []))
    with Mgr.empty in Hi. change (Z.of_nat (length [])) with 0 in Hi.
  destruct (conversions bs); [by rewrite Hi|]. destruct Hi as [e Hi]. by rewrite Hi.
Qed.

(** ** Sequences of extensions *)
Record extension : Type := mkExt { x_slot : Z; x_entry : entry }.

(** A caller that extends and ignores errors. *)
Definition run_extensions (xs : list extension) (m : Mgr.t) : Mgr.t :=
  foldl (fun m x => (Mgr.extend_measurement (x_slot x) (e_measurement (x_entry x))
                       (e_lock (x_entry x)) m).2) m xs.
Definition run_appends (xs : list extension) (logs : list (list entry)) : list (list entry) :=
  foldl (fun logs x => (append_at (x_slot x) (x_entry x) logs).2) logs xs.

Lemma run_extensions_refines xs logs :
  slots_wf logs -> Forall (fun x => 0 <= x_slot x) xs ->
  run_extensions xs (render_mgr logs) = render_mgr (run_appends xs logs)
  /\ slots_wf (run_appends xs logs).
Proof.
  intros Hw Hx. revert logs Hw. induction Hx as [|[i [m lock]] xs Hi _ IH]; intros logs Hw; [done|].
  cbn [run_extensions run_appends foldl x_slot x_entry e_measurement e_lock].
  rewrite extend_measurement_refines by done.
  pose proof (append_at_wf i (mkEntry m lock) logs Hw) as Hw'.
  destruct (append_at i (mkEntry m lock) logs) as [r logs']. by apply IH.
Qed.

(** A log only grows, and a locked one not at all. *)
Definition grows (log log' : list entry) : Prop :=
  exists more, log' = log ++ more /\
    (forall l, last log = Some l -> e_lock l = true -> more = []) /\
    (forall first e, head log = Some first -> e ∈ more ->
       MetaData.signer_id (e_meta e) = MetaData.signer_id (e_meta first) /\
       MetaData.algorithm (e_meta e) = MetaData.algorithm (e_meta first)).

Lemma append_grows e log log' : append e log = Ok log' -> grows log log'.
Proof.
  unfold append. destruct log as [|first log]; [intros; simplify_eq; by exists [e]|].
  destruct (last (first :: log)) as [l|] eqn:El; [|by apply last_None in El].
  destruct (e_lock l) eqn:Ek; [done|]. case_bool_decide as Hd; [|done]. intros. simplify_eq.
  exists [e]. split; [done|]. split; [intros; congruence|].
  intros f e' Hf He'. cbn in Hf. simplify_eq. by apply list_elem_of_singleton in He' as ->.
Qed.

Lemma grows_trans log log' log'' : grows log log' -> grows log' log'' -> grows log log''.
Proof.
  intros (more & -> & Hl & Hs) (more' & -> & Hl' & Hs'). exists (more ++ more').
  split; [by rewrite app_assoc|]. split.
  - intros l E Hk. rewrite (Hl l E Hk) in *. rewrite app_nil_r in Hl'. by apply (Hl' l).
  - intros first e Hf [He|He]%elem_of_app; [by apply Hs|].
    apply Hs'; [|done]. by destruct log.
Qed.

Lemma grows_refl log : grows log log.
Proof. exists []. rewrite app_nil_r. split_and!; [done..|]. intros ? ? _ []%elem_of_nil. Qed.

Lemma run_appends_grows xs logs i log log' :
  logs !! i = Some log -> run_appends xs logs !! i = Some log' -> grows log log'.
Proof.
  revert logs log. induction xs as [|[j e] xs IH]; intros logs log Hl Hr.
  { cbn in Hr. simplify_eq. apply grows_refl. }
  cbn [run_appends foldl x_slot x_entry] in Hr. fold (run_appends xs) in Hr.
  unfold append_at in Hr. destruct (logs !! Z.to_nat j) as [lj|] eqn:Ej; [|by eapply IH].
  destruct (append e lj) as [lj'| | |] eqn:Ea; [|by eapply IH..]. cbn [snd] in Hr.
  destruct (decide (Z.to_nat j = i)) as [<-|Hne].
  - rewrite Hl in Ej. simplify_eq. eapply grows_trans; [by eapply append_grows|].
    eapply IH; [|done]. apply list_lookup_insert_eq. by eapply lookup_lt_Some.
  - eapply IH; [|done]. by rewrite list_lookup_insert_ne.
Qed.

(** ** What a value says about the log *)
(** What is hashed on the way to the value of a slot that accepted [vs]. *)
Fixpoint inputs_from (a : MeasurementType.t) (acc : list Z) (vs : list (list Z)) : list (list Z) :=
  match vs with
  | [] => []
  | v :: vs => (acc ++ v) :: inputs_from a (MeasurementType.digest a (acc ++ v)) vs
  end.
Definition chain_inputs (a : MeasurementType.t) : list (list Z) -> list (list Z) :=
  inputs_from a (zero_digest a).

(** Among what two slots hashed: two different strings, one of each, with the
    same digest, or a string whose digest is zero. *)
Definition slots_collide (a : MeasurementType.t) (xs ys : list (list Z)) : Prop :=
  (exists x y, x ∈ xs /\ y ∈ ys /\ x <> y /\ MeasurementType.digest a x = MeasurementType.digest a y)
  \/ exists x, x ∈ xs ++ ys /\ MeasurementType.digest a x = zero_digest a.

Lemma slots_collide_mono a xs ys xs' ys' :
  xs ⊆ xs' -> ys ⊆ ys' -> slots_collide a xs ys -> slots_collide a xs' ys'.
Proof.
  intros Hx Hy [(x & y & ? & ? & ?)|(x & ? & ?)]; [left; exists x, y|right; exists x];
    (split; [set_solver|]); [split; [set_solver|]|]; done.
Qed.

Lemma chain_inputs_snoc a vs v :
  chain_inputs a (vs ++ [v]) = chain_inputs a vs ++ [chain a vs ++ v].
Proof.
  unfold chain_inputs, chain, chain_from. generalize (zero_digest a).
  induction vs as [|w vs IH]; intros acc; [done|]. cbn [app inputs_from foldl]. by rewrite IH.
Qed.

Lemma hash_chain_inj a vs vs' :
  chain a vs = chain a vs' -> vs = vs' \/ slots_collide a (chain_inputs a vs) (chain_inputs a vs').
Proof.
  revert vs'. induction vs as [|v vs IH] using rev_ind; intros vs' E;
    destruct vs' as [|v' vs' _] using rev_ind; [by left|..].
  - right. right. rewrite chain_snoc in E. exists (chain a vs' ++ v').
    rewrite chain_inputs_snoc. split; [set_solver|done].
  - right. right. rewrite chain_snoc in E. exists (chain a vs ++ v).
    rewrite chain_inputs_snoc. split; [set_solver|done].
  - rewrite !chain_snoc in E. rewrite !chain_inputs_snoc.
    destruct (decide (chain a vs ++ v = chain a vs' ++ v')) as [Ea|Hne].
    2: right; left; exists (chain a vs ++ v), (chain a vs' ++ v'); set_solver.
    apply app_inj_1 in Ea as [Ec ->]; [|apply len_length; by rewrite !chain_len].
    apply IH in Ec as [->|Hc]; [by left|right].
    eapply slots_collide_mono; [| |exact Hc]; set_solver.
Qed.

(** A manager that was initialised and then extended. *)
Definition managed (bs : list Hw.BootMeasurement) (xs : list extension) (m : Mgr.t) : Prop :=
  Forall (fun x => 0 <= x_slot x) xs /\
  exists m0, Mgr.init bs = Ok m0 /\ m = run_extensions xs m0.

Definition logs_of (bs : list Hw.BootMeasurement) (xs : list extension) : list (list entry) :=
  run_appends xs (boot_logs (default [] (conversions bs))).

Lemma managed_logs bs xs m : managed bs xs m -> m = render_mgr (logs_of bs xs) /\ slots_wf (logs_of bs xs).
Proof.
  intros [Hx (m0 & Hi & ->)]. rewrite init_spec in Hi. case_match; [|done].
  unfold logs_of. destruct (conversions bs) as [ms|]; [|done]. simplify_eq. cbn [default].
  apply run_extensions_refines; [apply boot_logs_wf|done].
Qed.

Lemma managed_read bs xs m slot_id :
  managed bs xs m -> 0 <= slot_id -> Mgr.read_measurement slot_id m = report slot_id (logs_of bs xs).
Proof. intros [-> Hw]%managed_logs Hs. by apply read_measurement_refines. Qed.

Lemma managed_run bs xs ys m :
  managed bs xs m -> Forall (fun x => 0 <= x_slot x) ys ->
  managed bs (xs ++ ys) (run_extensions ys m).
Proof.
  intros [Hx (m0 & Hi & ->)] Hy. split; [by apply Forall_app|]. exists m0. split; [done|].
  unfold run_extensions. by rewrite foldl_app.
Qed.

Lemma report_ok slot_id logs r :
  report slot_id logs = Ok r ->
  exists first log l, logs !! Z.to_nat slot_id = Some (first :: log)
    /\ last (first :: log) = Some l
    /\ r = (HMeasurement.mk
              (MetaData.mk (MetaData.signer_id (e_meta first)) (MetaData.sw_version (e_meta l))
                 (MetaData.algorithm (e_meta first)) (MetaData.sw_type (e_meta l)))
              (chain (MetaData.algorithm (e_meta first)) (map e_value (first :: log))), e_lock l).
Proof.
  unfold report. destruct (logs !! _) as [[|first log]|] eqn:El; [done| |done]. intros Hr.
  destruct (last (first :: log)) as [l|] eqn:E; [|by apply last_None in E].
  rewrite (render_cons _ _ _ E) in Hr. simplify_eq. by exists first, log, l.
Qed.

(** C23: The measured-boot manager implements append-only logs: after any boot
    measurements that convert and any sequence of extensions, the next extension
    of any slot is accepted or refused, with the same error, as appending to the
    slot's log is, its new state is the rendering of the new log, and a read
    reports the rendering of the slot's log. It never panics. *)
Theorem mgr_refines_logs bs xs m slot_id measurement lock :
  managed bs xs m -> 0 <= slot_id ->
  Mgr.read_measurement slot_id m = report slot_id (logs_of bs xs) /\
  let '(r, logs') := append_at slot_id (mkEntry measurement lock) (logs_of bs xs) in
  Mgr.extend_measurement slot_id measurement lock m = (r, render_mgr logs').
Proof.
  intros [-> Hw]%managed_logs Hs. split; [by apply read_measurement_refines|].
  rewrite extend_measurement_refines by done. by destruct (append_at _ _ _).
Qed.

(** Initialisation from the hardware's boot measurements never returns an
    error, although its type has one: with at most 32 measurements that all
    convert, slot [i] holds the [i]-th one, not locked, and the others are
    empty; with more, or with one that does not convert, the service panics. *)
Theorem mgr_init_spec bs :
  (forall ms, Z.of_nat (length bs) <= Mgr.NUM_OF_MEASUREMENT_SLOTS -> conversions bs = Some ms ->
     exists m, Mgr.init bs = Ok m /\
     forall i, 0 <= i < Mgr.NUM_OF_MEASUREMENT_SLOTS ->
       Mgr.read_measurement i m =
         match ms !! Z.to_nat i with
         | Some b => Ok (HMeasurement.mk (HMeasurement.metadata b)
                           (chain (MetaData.algorithm (HMeasurement.metadata b))
                              [HMeasurement.value b]), false)
         | None => Err MDoesNotExist
         end)
  /\ (conversions bs = None \/ Mgr.NUM_OF_MEASUREMENT_SLOTS < Z.of_nat (length bs) ->
      Mgr.init bs = Panicked).
Proof.
  rewrite init_spec. split.
  - intros ms Hl Hc. rewrite (proj2 (Z.leb_le _ _)), Hc by done. eexists. split; [done|].
    intros i Hi. rewrite read_measurement_refines; [|apply boot_logs_wf|lia].
    unfold report, boot_logs. destruct (ms !! Z.to_nat i) as [b|] eqn:Eb.
    + rewrite lookup_resize by (rewrite ?length_map; apply lookup_lt_Some in Eb; lia).
      rewrite list_lookup_fmap, Eb. cbn. by destruct b as [[] ?].
    + destruct (decide (Z.to_nat i < length ms)%nat) as [Hlt|Hge].
      { apply lookup_lt_is_Some_2 in Hlt as [? Hlt]. congruence. }
      by rewrite lookup_resize_new by (rewrite ?length_map; lia).
  - intros [->|Hgt]; [by case_match|]. by rewrite (proj2 (Z.leb_gt _ _)).
Qed.

(** C24: A measurement, once in a slot, can only be extended: whatever extensions
    follow, the slot keeps its signer and algorithm, its value is the hash chain
    continued from the value it had, and a slot that was locked is reported
    unchanged for ever. *)
Theorem measurement_only_extends bs xs ys m slot_id measurement locked :
  managed bs xs m -> Forall (fun x => 0 <= x_slot x) ys -> 0 <= slot_id ->
  Mgr.read_measurement slot_id m = Ok (measurement, locked) ->
  exists measurement' locked' more,
    Mgr.read_measurement slot_id (run_extensions ys m) = Ok (measurement', locked')
    /\ MetaData.signer_id (HMeasurement.metadata measurement')
         = MetaData.signer_id (HMeasurement.metadata measurement)
    /\ MetaData.algorithm (HMeasurement.metadata measurement')
         = MetaData.algorithm (HMeasurement.metadata measurement)
    /\ HMeasurement.value measurement'
         = chain_from (MetaData.algorithm (HMeasurement.metadata measurement))
             (HMeasurement.value measurement) more
    /\ (locked = true -> measurement' = measurement /\ locked' = true).
Proof.
  intros Hm Hy Hs Hr. pose proof (managed_run _ _ _ _ Hm Hy) as Hm'.
  pose proof (proj2 (managed_logs _ _ _ Hm')) as Hw'.
  rewrite (managed_read _ _ _ _ Hm Hs) in Hr. rewrite (managed_read _ _ _ _ Hm' Hs).
  apply report_ok in Hr as (first & log & l & Hl & El & [= -> ->]).
  destruct (logs_of bs (xs ++ ys) !! Z.to_nat slot_id) as [log'|] eqn:E'.
  2:{ apply lookup_ge_None_1 in E'. apply lookup_lt_Some in Hl.
      unfold slots_wf in Hw'. pose proof (proj2 (managed_logs _ _ _ Hm)) as Hw.
      unfold slots_wf in Hw. lia. }
  assert (grows (first :: log) log') as (more & -> & Hk & _).
  { eapply (run_appends_grows ys (logs_of bs xs)); [done|].
    unfold logs_of, run_appends in *. by rewrite <- foldl_app. }
  destruct (last (first :: log ++ more)) as [l'|] eqn:El'; [|by apply last_None in El'].
  unfold report. rewrite E'. cbn [app]. rewrite (render_cons _ _ _ El').
  eexists _, _, (map e_value more). split_and!; [done..| |].
  - cbn. rewrite map_app. unfold chain, chain_from. cbn. by rewrite foldl_app.
  - intros Hlk. rewrite (Hk l El Hlk), app_nil_r in El' |- *. by simplify_eq.
Qed.

(** C25: A measurement binds its history: two slots, of the same manager or of
    two managers with any boot measurements and extensions, that report the
    same algorithm and the same value accepted the same values in the same
    order; otherwise, among the strings the two slots hashed, there are two
    different ones with the same digest, or one whose digest is zero. *)
Theorem measurement_binding bs xs m i m1 k1 bs' xs' m' i' m2 k2 :
  managed bs xs m -> managed bs' xs' m' -> 0 <= i -> 0 <= i' ->
  Mgr.read_measurement i m = Ok (m1, k1) -> Mgr.read_measurement i' m' = Ok (m2, k2) ->
  MetaData.algorithm (HMeasurement.metadata m1) = MetaData.algorithm (HMeasurement.metadata m2) ->
  HMeasurement.value m1 = HMeasurement.value m2 ->
  exists log log', logs_of bs xs !! Z.to_nat i = Some log /\
    logs_of bs' xs' !! Z.to_nat i' = Some log' /\
    (map e_value log = map e_value log' \/
     let a := MetaData.algorithm (HMeasurement.metadata m1) in
     slots_collide a (chain_inputs a (map e_value log)) (chain_inputs a (map e_value log'))).
Proof.
  intros Hm Hm' Hi Hi' Hr Hr' Ha Hv.
  rewrite (managed_read _ _ _ _ Hm Hi) in Hr. rewrite (managed_read _ _ _ _ Hm' Hi') in Hr'.
  apply report_ok in Hr as (f & log & l & Hl & _ & [= -> ->]).
  apply report_ok in Hr' as (f' & log' & l' & Hl' & _ & [= -> ->]).
  cbn [HMeasurement.metadata HMeasurement.value MetaData.algorithm] in Ha, Hv |- *.
  rewrite <- Ha in Hv. apply hash_chain_inj in Hv. by exists (f :: log), (f' :: log').
Qed.
End spec.

(** ** Witnesses: the host application's boot measurements *)
Definition boot : list Hw.BootMeasurement := [DummyHW.bl1; DummyHW.bl2].

(** An extension of slot 0 by the signer of BL1 that locks it, and one by
    somebody else. *)
Definition lock_bl1 : extension := mkExt 0 (mkEntry
  (HMeasurement.mk (MetaData.mk (Hw.signer_id (Hw.metadata DummyHW.bl1)) [49] MeasurementType.Sha256
     [66]) [1; 2; 3]) true).
Definition other_signer : extension := mkExt 0 (mkEntry
  (HMeasurement.mk (MetaData.mk [7] [49] MeasurementType.Sha256 [66]) [9]) false).

Definition boot_mgr : Mgr.t := render_mgr (boot_logs (default [] (conversions boot))).

Lemma boot_converts : exists ms, conversions boot = Some ms.
Proof. eexists. vm_compute. reflexivity. Qed.

Lemma boot_managed xs :
  Forall (fun x => 0 <= x_slot x) xs -> managed boot xs (run_extensions xs boot_mgr).
Proof.
  intros Hx. split; [done|]. exists boot_mgr. split; [|done].
  rewrite init_spec. unfold boot_mgr. destruct boot_converts as [ms ->]. done.
Qed.

Lemma mgr_refines_logs_witness :
  managed boot [lock_bl1] (run_extensions [lock_bl1] boot_mgr)
  /\ (Mgr.extend_measurement 0 (e_measurement (x_entry other_signer)) false
        (run_extensions [lock_bl1] boot_mgr)).1 = Err MBadState.
Proof.
  assert (managed boot [lock_bl1] (run_extensions [lock_bl1] boot_mgr)) as Hm
    by (apply boot_managed; by repeat constructor).
  split; [done|].
  destruct (mgr_refines_logs boot [lock_bl1] _ 0 (e_measurement (x_entry other_signer)) false Hm)
    as [_ Hx]; [lia|].
  destruct (append_at _ _ _) as [r logs'] eqn:E. rewrite Hx. cbn [fst].
  enough (r = (append_at 0 (mkEntry (e_measurement (x_entry other_signer)) false)
                 (logs_of boot [lock_bl1])).1) as -> by (vm_compute; reflexivity).
  by rewrite E.
Defined.

Lemma mgr_init_spec_witness :
  Z.of_nat (length boot) <= Mgr.NUM_OF_MEASUREMENT_SLOTS
  /\ (exists m, Mgr.init boot = Ok m /\ Mgr.read_measurement 2 m = Err MDoesNotExist)
  /\ Mgr.init [Hw.mkBoot (Hw.metadata DummyHW.bl1) []] = Panicked.
Proof.
  split; [done|]. split.
  - destruct (conversions boot) as [ms|] eqn:E; [|by vm_compute in E].
    destruct (proj1 (mgr_init_spec boot) ms) as (m & Hi & Hr); [done..|].
    exists m. split; [done|]. rewrite Hr by done. vm_compute in E. by simplify_eq.
  - apply mgr_init_spec. left. by vm_compute.
Defined.

Lemma measurement_only_extends_witness :
  exists measurement,
    Mgr.read_measurement 0 (run_extensions [lock_bl1] boot_mgr) = Ok (measurement, true)
    /\ exists more, Mgr.read_measurement 0
         (run_extensions [other_signer] (run_extensions [lock_bl1] boot_mgr)) = Ok (measurement, true)
         /\ HMeasurement.value measurement =
              chain_from MeasurementType.Sha256 (HMeasurement.value measurement) more.
Proof.
  assert (managed boot [lock_bl1] (run_extensions [lock_bl1] boot_mgr)) as Hm
    by (apply boot_managed; by repeat constructor).
  assert (exists measurement, Mgr.read_measurement 0 (run_extensions [lock_bl1] boot_mgr)
            = Ok (measurement, true)
            /\ MetaData.algorithm (HMeasurement.metadata measurement) = MeasurementType.Sha256)
    as (measurement & Hr & Ha).
  { rewrite (managed_read _ _ _ _ Hm) by lia. eexists. split; [reflexivity|]. reflexivity. }
  exists measurement. split; [done|].
  destruct (measurement_only_extends boot [lock_bl1] [other_signer] _ 0 measurement true Hm)
    as (m' & k' & more & Hr' & _ & _ & Hv & Hl); [by repeat constructor|lia|done|].
  destruct (Hl eq_refl) as [-> ->]. exists more. split; [done|]. by rewrite <- Ha.
Defined.

(** Another service, with one boot measurement and a refused extension. *)
Lemma measurement_binding_witness :
  exists m0 m1 k1 log log', Mgr.init [DummyHW.bl1] = Ok m0
    /\ Mgr.read_measurement 0 (run_extensions [lock_bl1] boot_mgr) = Ok (m1, k1)
    /\ Mgr.read_measurement 0 (run_extensions [other_signer; lock_bl1] m0) = Ok (m1, k1)
    /\ logs_of boot [lock_bl1] !! 0%nat = Some log
    /\ logs_of [DummyHW.bl1] [other_signer; lock_bl1] !! 0%nat = Some log'
    /\ (map e_value log = map e_value log' \/
        let a := MetaData.algorithm (HMeasurement.metadata m1) in
        slots_collide a (chain_inputs a (map e_value log)) (chain_inputs a (map e_value log'))).
Proof.
  assert (managed boot [lock_bl1] (run_extensions [lock_bl1] boot_mgr)) as Hm
    by (apply boot_managed; by repeat constructor).
  destruct (Mgr.init [DummyHW.bl1]) as [m0| | |] eqn:Ei; [|by vm_compute in Ei..].
  assert (managed [DummyHW.bl1] [other_signer; lock_bl1] (run_extensions [other_signer; lock_bl1] m0))
    as Hm' by (split; [by repeat constructor|by exists m0]).
  assert (exists m1 k1, Mgr.read_measurement 0 (run_extensions [lock_bl1] boot_mgr) = Ok (m1, k1)
    /\ Mgr.read_measurement 0 (run_extensions [other_signer; lock_bl1] m0) = Ok (m1, k1))
    as (m1 & k1 & Hr & Hr').
  { rewrite (managed_read _ _ _ _ Hm), (managed_read _ _ _ _ Hm') by lia.
    eexists _, _. split; reflexivity. }
  destruct (measurement_binding boot [lock_bl1] _ 0 m1 k1 [DummyHW.bl1] [other_signer; lock_bl1] _ 0
    m1 k1 Hm Hm') as (log & log' & ? & ? & ?); [done..|].
  by exists m0, m1, k1, log, log'.
Defined.
