(* ===== verification/HesAttestFacts.v ===== *)
(** * HES: what keys and tokens are bound to

    The key derivation of hes/key-derivation, the virtual hardware keys and the
    platform token of hes/islet-hes, on top of the logs of the measured-boot
    slots. What the proofs need of the cryptographic crates is the class
    [HesKeysLaws]. *)

From S2P Require Import Prelude Bytes Machine HesBoot HesAttest HesComms HesSample HesBootFacts.
From stdpp Require Import list strings.

Open Scope Z_scope.

(** Documented behaviour: AES is a permutation of 16-byte blocks, HKDF expands
    to any length up to 255 digests, an encoded scalar decodes, and one of P-384 takes 48 bytes. *)
Class HesKeysLaws `{HesKeys} : Prop := {
  aes_len k b : len b = 16 -> len (aes256_block k b) = 16;
  aes_inj k b b' : len b = 16 -> len b' = 16 -> aes256_block k b = aes256_block k b' -> b = b';
  hkdf_expands seed info n : 0 <= n <= 255 * 32 ->
    exists okm, hkdf_sha256 seed info n = Some okm /\ len okm = n /\ Forall is_byte okm;
  p256_decodes k : 0 < k < ORDER NistP256 -> p256_from_slice (p256_to_bytes k) = Some k;
  p384_decodes k : 0 < k < ORDER NistP384 -> p384_from_slice (p384_to_bytes k) = Some k;
  p384_bytes_len k : len (p384_to_bytes k) = 48
}.

Section facts.
Context `{HesCryptoLaws} `{HesKeysLaws}.

(** ** The counter-mode KDF *)

(** NIST SP 800-108, one block: counter, label, separator, context, length. *)
Definition kdf_input (label context : list Z) : list Z :=
  le_bytes 4 1 ++ label ++ [0] ++ context ++ le_bytes 4 32.

Definition kdf (label context key : list Z) : list Z :=
  let h := sha256 (kdf_input label context) in
  aes256_block key (take 16 h) ++ aes256_block key (drop 16 h).

Lemma len_le_bytes n v : len (le_bytes n v) = Z.of_nat n.
Proof. unfold len. by rewrite length_le_bytes. Qed.

Lemma len_take_16 l : len l = 32 -> len (take 16 l) = 16.
Proof. unfold len. rewrite length_take. lia. Qed.
Lemma len_drop_16 l : len l = 32 -> len (drop 16 l) = 16.
Proof. unfold len. rewrite length_drop. lia. Qed.

Lemma seed_state E context label :
  (state ← copy_range U32_SIZE (U32_SIZE + len label) label
             (replicate (Z.to_nat (len context + len label + U8_SIZE + U32_SIZE * 2)) 0);
   state ← copy_range (U32_SIZE + len label) (U32_SIZE + len label + U8_SIZE) (le_bytes 1 0) state;
   state ← copy_range (U32_SIZE + len label + U8_SIZE)
             (U32_SIZE + len label + U8_SIZE + len context) context state;
   state ← copy_range (U32_SIZE + len label + U8_SIZE + len context) (len state)
             (le_bytes 4 32) state;
   copy_range 0 U32_SIZE (le_bytes 4 1) state) = @Ok E _ (kdf_input label context).
Proof.
  pose proof (len_nonneg context). pose proof (len_nonneg label).
  assert (replicate (Z.to_nat (len context + len label + U8_SIZE + U32_SIZE * 2)) 0
          = replicate 4 0 ++ replicate (length label) 0 ++ replicate 1 0
            ++ replicate (length context) 0 ++ replicate 4 0) as ->.
  { rewrite <- !replicate_add. f_equal. unfold len, U8_SIZE, U32_SIZE in *. lia. }
  set (z4 := replicate 4 0). assert (len z4 = 4) by done.
  assert (len (le_bytes 4 1) = 4 /\ len (le_bytes 4 32) = 4 /\ len (le_bytes 1 0) = 1) as (?&?&?) by done.
  unfold U8_SIZE, U32_SIZE.
  rewrite copy_range_app by (rewrite ?len_replicate; unfold len in *; lia).
  cbn [mbind outcome_bind].
  rewrite (app_assoc z4), copy_range_app
    by (rewrite ?len_app, ?len_replicate; unfold len in *; lia). cbn [mbind outcome_bind].
  rewrite (app_assoc (z4 ++ label)), copy_range_app
    by (rewrite ?len_app, ?len_replicate; unfold len in *; lia). cbn [mbind outcome_bind].
  rewrite (app_assoc ((z4 ++ label) ++ _)), copy_range_back
    by (rewrite ?len_app, ?len_replicate; unfold len in *; lia). cbn [mbind outcome_bind].
  rewrite <- !app_assoc. rewrite copy_range_front by (unfold len in *; lia).
  by unfold kdf_input.
Qed.

Lemma generate_seed_spec E context key label :
  @generate_seed _ _ E context key label =
    if len key =? 32 then Ok (kdf label context key) else Panicked.
Proof.
  pose proof (seed_state E context label) as Hs. unfold generate_seed. cbv zeta.
  destruct (copy_range U32_SIZE _ _ _) as [s1| | |]; [|done..]. cbn [mbind outcome_bind] in Hs |- *.
  destruct (copy_range (U32_SIZE + _) _ _ _) as [s2| | |]; [|done..]. cbn [mbind outcome_bind] in Hs |- *.
  destruct (copy_range (_ + U8_SIZE) _ _ _) as [s3| | |]; [|done..]. cbn [mbind outcome_bind] in Hs |- *.
  destruct (copy_range (_ + _) _ _ _) as [s4| | |]; [|done..]. cbn [mbind outcome_bind] in Hs |- *.
  rewrite Hs. cbn [mbind outcome_bind]. destruct (len key =? 32); [|done]. cbn [negb].
  pose proof (sha256_len (kdf_input label context)) as Hh. unfold kdf.
  set (h := sha256 _) in *.
  pose proof (len_take_16 h Hh) as Ht. pose proof (len_drop_16 h Hh) as Hd.
  rewrite <- (take_drop 16 h) at 1. rewrite prefix_of_app by done. cbn [mbind outcome_bind].
  rewrite <- (take_drop 16 h) at 2.
  rewrite copy_range_front by (done || by apply aes_len). cbn [mbind outcome_bind].
  assert (drop 16 (aes256_block key (take 16 h) ++ drop 16 h) = drop 16 h) as ->.
  { apply drop_app_length'. pose proof (aes_len key _ Ht). unfold len in *. lia. }
  rewrite Hd. cbn [Z.eqb Pos.eqb negb].
  apply copy_range_back; [by apply aes_len| |].
  - rewrite len_app, Hd, aes_len by done. done.
  - rewrite Hd. by apply aes_len.
Qed.

(** A label without a zero byte ends at the separator. *)
Lemma kdf_input_inj label label' context context' :
  0 ∉ label -> 0 ∉ label' ->
  kdf_input label context = kdf_input label' context' -> label = label' /\ context = context'.
Proof.
  intros Hl Hl' E. unfold kdf_input in E. apply app_inv_head in E.
  revert label' Hl' E. induction label as [|b label IH]; intros [|b' label'] Hl' E.
  - cbn in E. simplify_eq. split; [done|]. by eapply app_inv_tail.
  - exfalso. cbn in E. simplify_eq. apply Hl'. by left.
  - exfalso. cbn in E. simplify_eq. apply Hl. by left.
  - cbn in E. apply not_elem_of_cons in Hl as [_ Hl]. apply not_elem_of_cons in Hl' as [_ Hl'].
    simplify_eq. by destruct (IH Hl label') as [-> ->].
Qed.

(** Seeds of one key are equal exactly when the hashes of their inputs are. *)
Lemma kdf_sha256 label label' context context' key :
  kdf label context key = kdf label' context' key <->
  sha256 (kdf_input label context) = sha256 (kdf_input label' context').
Proof.
  split; [|intros E; unfold kdf; by rewrite E].
  intros E. unfold kdf in E. cbv zeta in E.
  pose proof (sha256_len (kdf_input label context)) as Hh.
  pose proof (sha256_len (kdf_input label' context')) as Hh'.
  apply app_inj_1 in E as [E1 E2].
  2:{ apply len_length. by rewrite !aes_len by by apply len_take_16. }
  apply aes_inj in E1; [|by apply len_take_16..]. apply aes_inj in E2; [|by apply len_drop_16..].
  rewrite <- (take_drop 16 (sha256 (kdf_input label context))), E1, E2. apply take_drop.
Qed.

(** ** Deriving a key *)
Definition candidate (c : Curve) (seed info : list Z) : Z :=
  be_value (default [] (hkdf_sha256 seed info ((WIDTH c + 7) / 8))).

Definition known_curve (c : Curve) : Prop := c = NistP256 \/ c = NistP384.

Lemma derive_loop_step E fuel c seed info :
  known_curve c ->
  @derive_loop _ E (S fuel) c seed info =
    if candidate c seed info <=? ORDER c - 2 then Ok (candidate c seed info)
    else derive_loop fuel c seed info.
Proof.
  intros Hc. cbn [derive_loop]. unfold candidate.
  assert (0 <= (WIDTH c + 7) / 8 <= 255 * 32 /\ (WIDTH c + 7) / 8 * 8 = WIDTH c
          /\ saturating_sub (ORDER c) 2 = ORDER c - 2) as (Hb & Hw & ->) by by destruct Hc; subst c.
  destruct (hkdf_expands seed info _ Hb) as (okm & -> & Hl & _).
  cbn [unwrap mbind outcome_bind default]. by rewrite Hl, Hw, Z.eqb_refl.
Qed.

(** The candidate is the same in every round. *)
Lemma derive_loop_stable E fuel c seed info :
  known_curve c -> (0 < fuel)%nat ->
  @derive_loop _ E fuel c seed info =
    if candidate c seed info <=? ORDER c - 2 then Ok (candidate c seed info) else Hung.
Proof.
  intros Hc Hf. destruct fuel as [|fuel]; [lia|]. clear Hf.
  induction fuel as [|fuel IH]; rewrite derive_loop_step by done; by case_match.
Qed.

Lemma candidate_nonneg c seed info : known_curve c -> 0 <= candidate c seed info.
Proof.
  intros Hc. unfold candidate.
  assert (0 <= (WIDTH c + 7) / 8 <= 255 * 32) as Hb by by destruct Hc; subst c.
  destruct (hkdf_expands seed info _ Hb) as (okm & -> & _ & Hf). cbn [default]. unfold be_value.
  apply le_value_range. by apply Forall_rev.
Qed.

Lemma derive_key_ok E c seed info :
  known_curve c ->
  @derive_key _ E c seed info =
    if candidate c seed (default [] info) <=? ORDER c - 2
    then Ok (candidate c seed (default [] info) + 1) else Hung.
Proof.
  intros Hc. unfold derive_key. rewrite derive_loop_stable by (done || unfold DERIVE_FUEL; lia).
  destruct (Z.leb_spec (candidate c seed (default [] info)) (ORDER c - 2)) as [Hle|]; [|done].
  cbn [mbind outcome_bind]. unfold saturating_add.
  assert (ORDER c <= 2 ^ WIDTH c - 1) by by destruct Hc; subst c.
  rewrite Z.min_r by lia. by rewrite (proj2 (Z.ltb_lt _ _)) by lia.
Qed.

(** ** The current measurements *)
Definition reported (logs : list (list entry)) : list HMeasurement.t :=
  omap (fun log => match log with
                   | [] => None
                   | _ => Some (Slot.measurement (render log))
                   end) logs.

Lemma fetch_loop_spec n i logs :
  slots_wf logs -> 0 <= i -> Z.of_nat n + i = Mgr.NUM_OF_MEASUREMENT_SLOTS ->
  HES.fetch_loop n i (render_mgr logs) = Ok (reported (drop (Z.to_nat i) logs)).
Proof.
  intros Hw. revert i. induction n as [|n IH]; intros i Hi Hn.
  { rewrite drop_ge; [done|]. unfold slots_wf in Hw. lia. }
  cbn [HES.fetch_loop]. rewrite read_measurement_refines, IH by (done || lia).
  rewrite Z2Nat.inj_add by lia. change (Z.to_nat 1) with 1%nat. rewrite Nat.add_1_r.
  destruct (logs !! Z.to_nat i) as [log|] eqn:El.
  2:{ apply lookup_ge_None_1 in El. unfold slots_wf in Hw. lia. }
  rewrite (drop_S _ _ _ El). unfold report. rewrite El. by destruct log.
Qed.

Lemma fetch_spec h logs :
  slots_wf logs -> HES.measured_boot_mgr h = render_mgr logs ->
  HES.fetch_current_measurements h = Ok (reported logs).
Proof.
  intros Hw Hm. unfold HES.fetch_current_measurements. rewrite Hm. by apply fetch_loop_spec.
Qed.

(** ** VHUK_A *)
Definition VHUK_A_LABEL : list Z := bytes_of_string "VHUK_A".
Definition VHUK_M_LABEL : list Z := bytes_of_string "VHUK_M".

Lemma authority_vhuk_spec h logs :
  slots_wf logs -> HES.measured_boot_mgr h = render_mgr logs -> len (HES.huk h) = 32 ->
  HES.get_authority_vhuk h =
    Ok (kdf VHUK_A_LABEL (HES.authority_info (reported logs) ++ le_bytes 4 (HES.lcs h)) (HES.huk h)).
Proof.
  intros Hw Hm Hk. unfold HES.get_authority_vhuk. rewrite (fetch_spec _ _ Hw Hm).
  cbn [mbind outcome_bind]. by rewrite generate_seed_spec, Hk.
Qed.

(** The authority of a slot: its signer and type. *)
Definition authority (log : list entry) : list Z :=
  match log, last log with
  | first :: _, Some l => MetaData.signer_id (e_meta first) ++ MetaData.sw_type (e_meta l)
  | _, _ => []
  end.

Lemma authority_info_logs logs : HES.authority_info (reported logs) = logs ≫= authority.
Proof.
  induction logs as [|log logs IH]; [done|]. rewrite bind_cons, <- IH.
  unfold reported. cbn [omap list_omap]. destruct log as [|first log]; [done|].
  unfold HES.authority_info at 1. rewrite bind_cons. f_equal.
  destruct (last (first :: log)) as [l|] eqn:El; [|by apply last_None in El].
  unfold authority. by rewrite (render_cons _ _ _ El), El.
Qed.

Lemma bind_insert_same {A} (f : A -> list Z) i x y (l : list A) :
  l !! i = Some x -> f y = f x -> (<[i := y]> l) ≫= f = l ≫= f.
Proof.
  revert i. induction l as [|a l IH]; intros [|i] Hl Hf; [done..| |].
  - cbn in Hl. simplify_eq. cbn. by rewrite Hf.
  - cbn. by rewrite IH.
Qed.

(** ** The delegated key and the platform token *)
Definition curve_of (b : KeyBits) : option Curve :=
  match b with Bits256 => Some NistP256 | Bits384 => Some NistP384 | Bits521 => None end.
Definition secret_bytes (b : KeyBits) (k : Z) : list Z :=
  match b with Bits256 => p256_to_bytes k | _ => p384_to_bytes k end.
Definition public_bytes (b : KeyBits) (k : Z) : list Z :=
  match b with Bits256 => p256_public k | _ => p384_sec1 k end.

(** The seed of the delegated key: the boot loader, the life cycle and the
    group key. *)
Definition dak_seed (a : Attest.t) : list Z :=
  kdf Attest.DAK_SEED_LABEL
    (km_hash (Attest.derivation_material a)
     ++ le_bytes 4 (security_lifecycle (Attest.claims a)) ++ le_bytes 4 0)
    (km_guk (Attest.derivation_material a)).

Lemma attest_delegated_key_spec f bits algo ms salt a :
  len (km_guk (Attest.derivation_material a)) = 32 ->
  into_writer (encode_measurements ms) = Some salt ->
  Attest.get_delegated_key f bits algo ms a =
    match curve_of bits with
    | None => (Err ANotSupported, a)
    | Some c =>
        let k := candidate c (dak_seed a) salt + 1 in
        if candidate c (dak_seed a) salt <=? ORDER c - 2
        then (Ok (secret_bytes bits k),
              Attest.set_dak (Some (mkDAKInfo algo bits (secret_bytes bits k))) a)
        else (Hung, a)
    end.
Proof.
  intros Hg Hs. unfold Attest.get_delegated_key. mstep. rewrite generate_seed_spec, Hg, Hs.
  cbn [Z.eqb Pos.eqb ok_or]. mstep. unfold derive_p256_key, derive_p384_key.
  destruct bits; cbn [curve_of]; [..|done];
    rewrite derive_key_ok by (first [by left | by right]);
    unfold dak_seed; cbn [default id]; by destruct (_ <=? _).
Qed.

Lemma dak_hash_spec a algo bits k c :
  curve_of bits = Some c -> 0 < k < ORDER c ->
  Attest.dak a = Some (mkDAKInfo algo bits (secret_bytes bits k)) ->
  Attest.calculate_dak_hash algo a = Ok (calculate_public_key_hash (public_bytes bits k) algo).
Proof.
  intros Hc Hk Hd. unfold Attest.calculate_dak_hash. rewrite Hd.
  destruct bits; cbn in Hc |- *; simplify_eq; cbn.
  - by rewrite p256_decodes.
  - by rewrite p384_decodes.
Qed.

Lemma attest_token_spec a algo bits k c hash ms :
  curve_of bits = Some c -> 0 < k < ORDER c ->
  Attest.dak a = Some (mkDAKInfo algo bits (secret_bytes bits k)) ->
  Attest.get_platform_token hash ms a =
    if bool_decide (hash = calculate_public_key_hash (public_bytes bits k) algo) then
      claims ← Attest.encode_claims hash ms a;
      token ← unwrap (into_writer claims);
      sig ← Attest.sign (sig_structure token) a;
      mret (mkCoseSign1 token sig)
    else Err AInvalidArgument.
Proof.
  intros Hc Hk Hd. unfold Attest.get_platform_token, Attest.verify_dak_hash.
  rewrite Hd. rewrite bool_decide_true by (by eexists). cbn [negb unwrap mbind outcome_bind hash_algo].
  rewrite (dak_hash_spec a algo bits k c) by done. cbn [mbind outcome_bind mret outcome_ret].
  by case_bool_decide.
Qed.

Lemma attest_no_dak hash ms a :
  Attest.dak a = None -> Attest.get_platform_token hash ms a = Err AInvalidArgument.
Proof.
  intros Hd. unfold Attest.get_platform_token. rewrite Hd.
  by rewrite bool_decide_false by (by intros []).
Qed.

(** C26: [generate_seed], which assembles its input by copies into a zeroed
    buffer, is one block of a counter-mode KDF: it hashes the counter 1, the
    label, a zero byte, the context and the length 32, counter and length as
    32-bit little-endian numbers of bytes, and encrypts the two halves of the
    digest; a key of another size than 32 bytes panics. Seeds of one 32-byte
    key are equal exactly when the two hashed strings have the same digest,
    and, for labels without a zero byte, the strings are different as soon as
    the label or the context is. *)
Theorem generate_seed_is_kdf (context context' label label' key : list Z) :
  @generate_seed _ _ IsletHESError context key label =
    (if len key =? 32 then Ok (kdf label context key) else Panicked)
  /\ (len key = 32 ->
      @generate_seed _ _ IsletHESError context key label
        = @generate_seed _ _ IsletHESError context' key label' <->
      sha256 (kdf_input label context) = sha256 (kdf_input label' context'))
  /\ (0 ∉ label -> 0 ∉ label' -> label <> label' \/ context <> context' ->
      kdf_input label context <> kdf_input label' context').
Proof.
  rewrite !generate_seed_spec. split_and!; [done| |].
  - intros ->. rewrite Z.eqb_refl, <- kdf_sha256. split; [by intros [= E]|by intros ->].
  - intros Hl Hl' Hne E. apply kdf_input_inj in E as [-> ->]; [|done..]. by destruct Hne.
Qed.

(** C27: A derived private key is a valid scalar: if the expanded seed, read as an
    integer, is at most the group order minus two, [derive_p256_key] and
    [derive_p384_key] return it plus one, which is in [1, order - 1], in the
    first round. Otherwise the loop never ends, whatever the number of rounds,
    since every round expands the same seed to the same bytes. *)
Theorem derive_key_total (c : Curve) seed info :
  known_curve c ->
  (candidate c seed (default [] info) <= ORDER c - 2 ->
     exists s, @derive_key _ IsletHESError c seed info = Ok s /\ 1 <= s < ORDER c
       /\ s = candidate c seed (default [] info) + 1)
  /\ (ORDER c - 2 < candidate c seed (default [] info) ->
      forall fuel, @derive_loop _ IsletHESError fuel c seed (default [] info) = Hung).
Proof.
  intros Hc. pose proof (candidate_nonneg c seed (default [] info) Hc).
  rewrite derive_key_ok by done. split.
  - intros Hle. rewrite (proj2 (Z.leb_le _ _)) by done. eexists. split; [done|]. lia.
  - intros Hgt [|fuel]; [done|]. rewrite derive_loop_stable by (done || lia).
    by rewrite (proj2 (Z.leb_gt _ _)).
Qed.

(** VHUK_A survives firmware updates: in a service whose slots came from boot
    measurements and extensions, an accepted extension of a populated slot that
    keeps the software type, whatever its version and value, leaves VHUK_A as it
    was; and VHUK_A always exists. *)
Theorem vhuk_a_survives_updates bs xs h slot_id m lock log l :
  managed bs xs (HES.measured_boot_mgr h) -> len (HES.huk h) = 32 -> 0 <= slot_id ->
  logs_of bs xs !! Z.to_nat slot_id = Some log -> last log = Some l ->
  MetaData.sw_type (HMeasurement.metadata m) = MetaData.sw_type (e_meta l) ->
  forall h', HES.extend_measurement slot_id m lock h = (Ok tt, h') ->
  exists key, HES.get_authority_vhuk h = Ok key /\ HES.get_authority_vhuk h' = Ok key.
Proof.
  intros [Hm Hw]%managed_logs Hk Hs Hl El Ht h'. unfold HES.extend_measurement, HES.on_mgr.
  rewrite Hm, extend_measurement_refines by done. unfold append_at. rewrite Hl.
  destruct (append (mkEntry m lock) log) as [log'| | |] eqn:Ea; [|done..].
  intros [= <-]. eexists. split; [by apply authority_vhuk_spec|].
  rewrite (authority_vhuk_spec _ (<[Z.to_nat slot_id := log']> (logs_of bs xs)));
    [|unfold slots_wf; by rewrite length_insert|done|done].
  rewrite !authority_info_logs, (bind_insert_same _ _ log); [done..|].
  destruct log as [|first log]; [done|]. unfold append in Ea. rewrite El in Ea.
  destruct (e_lock l); [done|]. case_bool_decide; [|done]. simplify_eq.
  cbn [app]. unfold authority. rewrite El, app_comm_cons, last_snoc.
  change (MetaData.sw_type (e_meta (mkEntry m lock)))
    with (MetaData.sw_type (HMeasurement.metadata m)). by rewrite Ht.
Qed.

(** A reset starts again from boot measurements, without a delegated key. *)
Lemma reset_ok hw h h' :
  HES.reset hw h = (Ok tt, h') ->
  exists bs, Mgr.init bs = Ok (HES.measured_boot_mgr h')
             /\ Attest.dak (HES.attestation_mgr h') = None.
Proof.
  unfold HES.reset. destruct (@Hw.boot_measurements hw) as [bs|]; [|done]. cbn [ok_or]. mstep.
  destruct (Mgr.init bs) as [m| | |] eqn:Ei; [|done..]. cbn [map_err]. mstep.
  intros [= <-]. by exists bs.
Qed.

(** C28: The platform token needs the delegated key: after a successful
    [get_delegated_key] the returned bytes decode to a valid scalar, the token is
    issued for exactly the hash of its public key under the algorithm asked for,
    over claims that carry that hash and the current measurements, and any other
    hash is refused with InvalidArgument; without a delegated key, and again
    after a reset, every hash is refused; P-521 is refused and changes nothing. *)
Theorem token_after_dak bs xs h f bits algo salt :
  managed bs xs (HES.measured_boot_mgr h) ->
  len (km_guk (Attest.derivation_material (HES.attestation_mgr h))) = 32 ->
  into_writer (encode_measurements (reported (logs_of bs xs))) = Some salt ->
  (forall key h', HES.get_delegated_key f bits algo h = (Ok key, h') ->
     exists c k, curve_of bits = Some c /\ 0 < k < ORDER c /\ key = secret_bytes bits k
       /\ HES.measured_boot_mgr h' = HES.measured_boot_mgr h
       /\ let expected := calculate_public_key_hash (public_bytes bits k) algo in
          (forall hash, hash <> expected -> HES.get_platform_token hash h' = Err InvalidArgument)
          /\ (forall claims token sig,
                Attest.encode_claims expected (reported (logs_of bs xs)) (HES.attestation_mgr h')
                  = Ok claims -> into_writer claims = Some token ->
                Attest.sign (sig_structure token) (HES.attestation_mgr h') = Ok sig ->
                HES.get_platform_token expected h' = Ok (mkCoseSign1 token sig)))
  /\ (Attest.dak (HES.attestation_mgr h) = None ->
      forall hash, HES.get_platform_token hash h = Err InvalidArgument)
  /\ (bits = Bits521 -> HES.get_delegated_key f bits algo h = (Err NotSupported, h))
  /\ (forall hw h', HES.reset hw h = (Ok tt, h') ->
      forall hash, HES.get_platform_token hash h' = Err InvalidArgument).
Proof.
  intros [Hm Hw]%managed_logs Hg Hs.
  assert (forall h', HES.measured_boot_mgr h' = HES.measured_boot_mgr h ->
            HES.fetch_current_measurements h' = Ok (reported (logs_of bs xs))) as Hf
    by (intros h' E; apply fetch_spec; congruence).
  unfold HES.get_delegated_key. mstep. rewrite (Hf h eq_refl). mstep. unfold HES.on_attest.
  rewrite (attest_delegated_key_spec _ _ _ _ salt) by done. split_and!.
  - intros key h' E. destruct (curve_of bits) as [c|] eqn:Ec; [|done].
    destruct (Z.leb_spec (candidate c (dak_seed (HES.attestation_mgr h)) salt) (ORDER c - 2));
      [|done].
    assert (known_curve c) as Hc by (destruct bits; cbn in Ec; simplify_eq; [by left|by right]).
    pose proof (candidate_nonneg c (dak_seed (HES.attestation_mgr h)) salt Hc).
    injection E as <- <-. eexists c, _. split; [done|]. split; [|split; [done|]; split; [done|]];
      [lia|].
    cbv zeta. split; [intros hash Hne|intros claims token sig Hcl Ht Hsg];
      unfold HES.get_platform_token; rewrite Hf by done; cbn [mbind outcome_bind];
      rewrite (attest_token_spec _ algo bits (candidate c (dak_seed (HES.attestation_mgr h)) salt + 1) c)
        by (done || lia).
    + by rewrite bool_decide_false.
    + rewrite bool_decide_true by done. rewrite Hcl. cbn [mbind outcome_bind].
      rewrite Ht. cbn [unwrap mbind outcome_bind]. by rewrite Hsg.
  - intros Hd hash. unfold HES.get_platform_token. rewrite Hf by done. cbn [mbind outcome_bind].
    by rewrite attest_no_dak.
  - intros ->. cbn. by destruct h.
  - intros hw h' (bs' & Hi & Hd)%reset_ok hash. unfold HES.get_platform_token.
    assert (managed bs' [] (HES.measured_boot_mgr h')) as [Hm' Hw']%managed_logs
      by (split; [done|by eexists]).
    rewrite (fetch_spec _ _ Hw' Hm'). cbn [mbind outcome_bind]. by rewrite attest_no_dak.
Qed.
End facts.

(** ** VHUK_A's context is not separated *)

(** A 32-byte signer whose software type is "A", and the 33-byte signer that
    continues it, without a type. *)
Definition signer32 : list Z := Hw.signer_id (Hw.metadata DummyHW.bl1).
Definition boot_split (signer sw_type : list Z) : list Hw.BootMeasurement :=
  [Hw.mkBoot (Hw.mkBootMeta 0 signer sw_type []) (Hw.measurement_value DummyHW.bl1)].
Definition split1 : list Hw.BootMeasurement := boot_split signer32 [65].
Definition split2 : list Hw.BootMeasurement := boot_split (signer32 ++ [65]) [].

(** The signer and the type of a component are concatenated without their
    lengths into VHUK_A's context: two platforms whose boot measurements have
    different signers and different types, on the same hardware key and life
    cycle, have the same VHUK_A. *)
Theorem vhuk_a_ambiguous `{HesCryptoLaws} `{HesKeysLaws} h1 h2 :
  managed split1 [] (HES.measured_boot_mgr h1) -> managed split2 [] (HES.measured_boot_mgr h2) ->
  HES.huk h1 = HES.huk h2 -> HES.lcs h1 = HES.lcs h2 -> len (HES.huk h1) = 32 ->
  exists m1 m2 key,
    HES.read_measurement 0 h1 = Ok (m1, false) /\ HES.read_measurement 0 h2 = Ok (m2, false)
    /\ MetaData.signer_id (HMeasurement.metadata m1) <> MetaData.signer_id (HMeasurement.metadata m2)
    /\ MetaData.sw_type (HMeasurement.metadata m1) <> MetaData.sw_type (HMeasurement.metadata m2)
    /\ HES.get_authority_vhuk h1 = Ok key /\ HES.get_authority_vhuk h2 = Ok key.
Proof.
  intros [Hm1 Hw1]%managed_logs [Hm2 Hw2]%managed_logs Hk Hl Hlen.
  assert (exists m1, HES.read_measurement 0 h1 = Ok (m1, false)
            /\ MetaData.signer_id (HMeasurement.metadata m1) = signer32
            /\ MetaData.sw_type (HMeasurement.metadata m1) = [65]) as (m1 & Hr1 & Hs1 & Ht1).
  { unfold HES.read_measurement. rewrite Hm1, read_measurement_refines by done. by eexists. }
  assert (exists m2, HES.read_measurement 0 h2 = Ok (m2, false)
            /\ MetaData.signer_id (HMeasurement.metadata m2) = signer32 ++ [65]
            /\ MetaData.sw_type (HMeasurement.metadata m2) = []) as (m2 & Hr2 & Hs2 & Ht2).
  { unfold HES.read_measurement. rewrite Hm2, read_measurement_refines by done. by eexists. }
  exists m1, m2. eexists. rewrite Hs1, Hs2, Ht1, Ht2. split_and!; [done|done|done|done| |].
  - by apply (authority_vhuk_spec _ (logs_of split1 [])).
  - rewrite (authority_vhuk_spec _ (logs_of split2 [])) by congruence.
    by rewrite !authority_info_logs, Hk, Hl.
Qed.

(** ** Witnesses *)
Lemma be_value_bytes n k : 0 <= k < 256 ^ Z.of_nat n -> be_value (be_bytes n k) = k.
Proof.
  intros Hk. unfold be_value, be_bytes. rewrite rev_involutive, le_bytes_value.
  by apply Z.mod_small.
Qed.

Lemma toy_decodes c n k :
  Z.of_nat n * 8 = WIDTH c -> ORDER c <= 256 ^ Z.of_nat n -> 0 < k < ORDER c ->
  toy_from_slice c (be_bytes n k) = Some k.
Proof.
  intros Hn Ho Hk. unfold toy_from_slice. rewrite be_value_bytes by lia.
  unfold be_bytes, len. rewrite length_rev, length_le_bytes, Hn, Z.eqb_refl.
  by rewrite !(proj2 (Z.ltb_lt _ _)) by lia.
Qed.

#[global] Instance toy_keys_laws : HesKeysLaws.
Proof.
  split.
  - intros k b Hb. unfold len in *. cbn. by rewrite length_map.
  - intros k b b' _ _ E. cbn in E. apply (list_fmap_eq_inj (fun x => Z.lxor x 90)) in E; [done|].
    intros x y Exy. apply (f_equal (fun z => Z.lxor z 90)) in Exy.
    by rewrite !Z.lxor_assoc, Z.lxor_nilpotent, !Z.lxor_0_r in Exy.
  - intros seed info n Hn. eexists. split; [done|]. unfold toy_digest. split.
    + unfold len. rewrite length_take. cbn [length]. rewrite length_le_bytes. lia.
    + apply Forall_take. constructor; [done|apply le_bytes_forall].
  - intros k Hk. by apply (toy_decodes NistP256 32).
  - intros k Hk. by apply (toy_decodes NistP384 48).
  - intros k. cbn [p384_to_bytes toy_keys]. unfold be_bytes, len. by rewrite length_rev, length_le_bytes.
Qed.

Definition huk32 : list Z := default [] (@Hw.huk DummyHW.hw).

Definition hes_with (m : Mgr.t) : HES.t :=
  HES.mk m
    (Attest.mk (mkCPAK 5 [1]) (mkKeyMaterial [1; 2] huk32) (mkHWClaims [] 0x3000 None None []) None)
    0x3000 huk32.

Lemma generate_seed_is_kdf_witness :
  @generate_seed _ _ IsletHESError [1] huk32 VHUK_A_LABEL = Ok (kdf VHUK_A_LABEL [1] huk32)
  /\ kdf_input VHUK_A_LABEL [1] <> kdf_input VHUK_M_LABEL [1].
Proof.
  destruct (generate_seed_is_kdf [1] [1] VHUK_A_LABEL VHUK_M_LABEL huk32) as (Hs & _ & Hi).
  split; [exact Hs|].
  apply Hi; [by apply (bool_decide_unpack _); vm_compute..|left; by vm_compute].
Defined.

Lemma derive_key_total_witness :
  exists s, @derive_key _ IsletHESError NistP256 [1; 2; 3] None = Ok s /\ 1 <= s < ORDER NistP256.
Proof.
  destruct (derive_key_total NistP256 [1; 2; 3] None) as [Hok _]; [by left|].
  destruct Hok as (s & Hd & Hs & _); [by vm_compute|]. by exists s.
Defined.

Lemma vhuk_a_survives_updates_witness :
  exists m lock h' key,
    HES.extend_measurement 0 m lock (hes_with boot_mgr) = (Ok tt, h')
    /\ HES.get_authority_vhuk (hes_with boot_mgr) = Ok key /\ HES.get_authority_vhuk h' = Ok key.
Proof.
  set (m := HMeasurement.mk (MetaData.mk (Hw.signer_id (Hw.metadata DummyHW.bl1)) [50]
              MeasurementType.Sha256 (bytes_of_string "BL1")) [4; 5; 6]).
  exists m, true. destruct (HES.extend_measurement 0 m true (hes_with boot_mgr)) as [r h'] eqn:E.
  assert (r = Ok tt) as ->.
  { unfold HES.extend_measurement, HES.on_mgr in E. cbn [HES.measured_boot_mgr hes_with] in E.
    unfold boot_mgr in E. rewrite extend_measurement_refines in E by (apply boot_logs_wf || lia).
    destruct (append_at _ _ _) as [r' l] eqn:Ea. apply (f_equal fst) in E, Ea. cbn [fst] in E, Ea.
    rewrite <- E, <- Ea. by vm_compute. }
  exists h'.
  destruct (logs_of boot [] !! 0%nat) as [log|] eqn:El; [|by vm_compute in El].
  destruct (last log) as [l|] eqn:Ell; [|vm_compute in El; by simplify_eq].
  destruct (vhuk_a_survives_updates boot [] (hes_with boot_mgr) 0 m true log l)
    with (h' := h') as (key & H1 & H2); [|done|done|done|done| |done|by exists key].
  - by apply (boot_managed []).
  - vm_compute in El. simplify_eq. cbn in Ell. by simplify_eq.
Defined.

Lemma token_after_dak_witness :
  exists key h', HES.get_delegated_key SecpR1 Bits384 HashAlgo.Sha256 (hes_with boot_mgr) = (Ok key, h')
    /\ HES.get_platform_token [] h' = Err InvalidArgument
    /\ HES.get_platform_token [] (hes_with boot_mgr) = Err InvalidArgument.
Proof.
  destruct (token_after_dak boot [] (hes_with boot_mgr) SecpR1 Bits384 HashAlgo.Sha256 [128; 2])
    as (Hok & Hno & _ & _); [by apply (boot_managed [])|done|done|].
  destruct (HES.get_delegated_key SecpR1 Bits384 HashAlgo.Sha256 (hes_with boot_mgr)) as [r h'] eqn:E.
  assert (exists key, r = Ok key) as [key ->].
  { apply (f_equal (fun p => is_ok p.1)) in E. cbn [fst] in E.
    destruct r; [by eexists|by vm_compute in E..]. }
  exists key, h'. destruct (Hok key h' eq_refl) as (c & k & _ & _ & _ & _ & Hbad & _).
  split; [done|]. split; [|by apply Hno].
  apply Hbad. intros Hx. apply (f_equal len) in Hx. cbn [calculate_public_key_hash] in Hx.
  by rewrite sha256_len in Hx.
Defined.

Lemma vhuk_a_ambiguous_witness :
  exists m1 m2 key,
    managed split1 [] m1 /\ managed split2 [] m2 /\ m1 <> m2
    /\ HES.get_authority_vhuk (hes_with m1) = Ok key /\ HES.get_authority_vhuk (hes_with m2) = Ok key.
Proof.
  assert (forall bs, is_ok (Mgr.init bs) = true -> exists m, managed bs [] m) as Hm.
  { intros bs Hb. destruct (Mgr.init bs) as [m| | |] eqn:E; [|done..]. exists m. split; [done|].
    by exists m. }
  destruct (Hm split1) as [m1 H1]; [by vm_compute|]. destruct (Hm split2) as [m2 H2]; [by vm_compute|].
  destruct (vhuk_a_ambiguous (hes_with m1) (hes_with m2) H1 H2) as (r1 & r2 & key & Hr1 & Hr2 & Hs & _ & Hk);
    [done..|].
  exists m1, m2, key. split; [done|]. split; [done|]. split; [|done].
  intros ->. rewrite Hr1 in Hr2. by simplify_eq.
Defined.
