(* ===== verification/HesCommsFacts.v ===== *)
(** * HES: the messages and the serving loop

    What a client of hes/islet-hes-host-app can rely on: requests decode to what
    was encoded, a connection is served to its end, and a request for a key gets
    one answer; and what it should not be able to do. *)

From S2P Require Import Prelude Bytes Machine HesBoot HesAttest HesComms HesSample HesBootFacts HesAttestFacts.
From stdpp Require Import list strings.

Open Scope Z_scope.

(** ** Reading a laid out message *)
Lemma read_mem_app {E} off n pre mid post :
  len pre = off -> len mid = n -> @read_mem E off n (pre ++ mid ++ post) = Ok mid.
Proof.
  intros <- <-. unfold read_mem. rewrite !len_app. pose proof (len_nonneg post).
  rewrite (proj2 (Z.leb_le _ _)) by lia. unfold slice, len.
  by rewrite !Nat2Z.id, drop_app_length, take_app_length.
Qed.

(** A bit field read with a shifted mask. *)
Lemma field_read x k w :
  0 <= k -> 0 <= w -> Z.shiftr (Z.land x (Z.shiftl (Z.ones w) k)) k = x / 2 ^ k mod 2 ^ w.
Proof.
  intros Hk Hw. rewrite Z.shiftr_land, Z.shiftr_shiftl_l by lia.
  rewrite Z.sub_diag, Z.shiftl_0_r, Z.land_ones by lia. by rewrite Z.shiftr_div_pow2 by lia.
Qed.

Definition ctrl_param (psa_type num_in num_out : Z) : Z :=
  psa_type * 65536 + num_in * 256 + num_out.

Lemma ctrl_param_fields t i o :
  0 <= t < 65536 -> 0 <= i < 256 -> 0 <= o < 256 ->
  Z.shiftr (Z.land (ctrl_param t i o) TYPE_MASK) TYPE_OFFSET = t
  /\ Z.shiftr (Z.land (ctrl_param t i o) IN_LEN_MASK) IN_LEN_OFFSET = i
  /\ Z.shiftr (Z.land (ctrl_param t i o) OUT_LEN_MASK) OUT_LEN_OFFSET = o.
Proof.
  intros Ht Hi Ho. unfold TYPE_MASK, IN_LEN_MASK, OUT_LEN_MASK, ctrl_param.
  change 0xFFFF with (Z.ones 16). change 0xFF with (Z.ones 8).
  rewrite !field_read by done. unfold TYPE_OFFSET, IN_LEN_OFFSET, OUT_LEN_OFFSET.
  change (2 ^ 16) with 65536. change (2 ^ 8) with 256. change (2 ^ 0) with 1.
  split_and!.
  - replace (t * 65536 + i * 256 + o) with ((i * 256 + o) + t * 65536) by lia.
    rewrite Z.div_add, Z.div_small, Z.mod_small by lia. lia.
  - replace (t * 65536 + i * 256 + o) with (o + (t * 256 + i) * 256) by lia.
    rewrite Z.div_add, Z.div_small by lia. rewrite Z.add_0_l, Z.add_comm.
    by rewrite Z.mod_add, Z.mod_small by lia.
  - rewrite Z.div_1_r. replace (t * 65536 + i * 256 + o) with (o + (t * 256 + i) * 256) by lia.
    by rewrite Z.mod_add, Z.mod_small by lia.
Qed.

(** ** The client's side of a request *)
Record message : Type := mkMessage {
  q_ver : Z; q_seq : Z; q_client : Z; q_handle : Z; q_type : Z;
  q_in : list (list Z);
  q_out : list Z
}.

Definition io_sizes (q : message) : list Z := map len (q_in q) ++ q_out q.
Definition header_bytes (q : message) : list Z :=
  le_bytes 1 (q_ver q) ++ le_bytes 1 (q_seq q) ++ le_bytes 2 (q_client q).

(** [serialized_rss_comms_msg_t] up to its trailer. *)
Definition preamble (q : message) : list Z :=
  header_bytes q ++ le_bytes 4 (q_handle q)
  ++ le_bytes 4 (ctrl_param (q_type q) (Z.of_nat (length (q_in q))) (Z.of_nat (length (q_out q))))
  ++ (resize 4 0 (io_sizes q) ≫= le_bytes 2).

Definition encode (q : message) : list Z := preamble q ++ concat (q_in q).

Definition is_u16 (v : Z) : Prop := 0 <= v < 65536.

Record message_wf (q : message) : Prop := {
  wf_ver : 0 <= q_ver q < 256;
  wf_seq : 0 <= q_seq q < 256;
  wf_client : is_u16 (q_client q);
  wf_handle : 0 <= q_handle q < 2 ^ 32;
  wf_type : 0 <= q_type q <= 0x7FFF;
  wf_vecs : (length (q_in q) + length (q_out q) <= 4)%nat;
  wf_sizes : Forall is_u16 (io_sizes q);
  wf_payload : len (concat (q_in q)) <= PLAT_RSS_COMMS_PAYLOAD_MAX_SIZE - HEADER_SIZE
}.

Definition decoded (q : message) : PSARequest.t :=
  PSARequest.mk (q_ver q) (q_seq q) (q_client q) (signed 32 (q_handle q)) (q_type q)
    (resize 4 [] (q_in q)) (resize 4 0 (q_out q)).

Lemma u16s_bytes l : length l = 4%nat -> Forall is_u16 l -> PSARequest.u16s (l ≫= le_bytes 2) = l.
Proof.
  intros Hl Hf. destruct l as [|a [|b [|c [|d []]]]]; try done.
  rewrite !Forall_cons in Hf. destruct Hf as (Ha & Hb & Hc & Hd & _).
  assert (forall v, is_u16 v -> le_value (le_bytes 2 v) = v) as Hv.
  { intros v Hv. rewrite le_bytes_value. by apply Z.mod_small. }
  transitivity [le_value (le_bytes 2 a); le_value (le_bytes 2 b); le_value (le_bytes 2 c);
                le_value (le_bytes 2 d)]; [done|]. by rewrite !Hv.
Qed.

Lemma resize_pad {A} (x : A) n l : (length l <= n)%nat -> resize n x l = l ++ replicate (n - length l) x.
Proof. intros. by rewrite resize_ge. Qed.

Lemma read_in_vecs_spec pre before ins post :
  len pre = TRAILER_AT ->
  len before + len (concat ins) <= PLAT_RSS_COMMS_PAYLOAD_MAX_SIZE ->
  PSARequest.read_in_vecs (pre ++ before ++ concat ins ++ post) (len before) (map len ins) = Ok ins.
Proof.
  intros Hp. revert before. induction ins as [|v ins IH]; intros before Hl; [done|].
  cbn [map PSARequest.read_in_vecs concat] in *. rewrite len_app in Hl.
  pose proof (len_nonneg (concat ins)).
  rewrite (proj2 (Z.ltb_ge _ _)) by lia.
  assert (pre ++ before ++ (v ++ concat ins) ++ post
          = (pre ++ before) ++ v ++ (concat ins ++ post)) as Em by by rewrite <- !app_assoc.
  rewrite Em at 1. rewrite read_mem_app by (rewrite ?len_app; lia || done).
  cbn [mbind outcome_bind].
  specialize (IH (before ++ v)). rewrite len_app in IH. rewrite <- !app_assoc in IH |- *.
  rewrite IH by lia. done.
Qed.

Lemma len_sizes_bytes l : length l = 4%nat -> len (l ≫= le_bytes 2) = 8.
Proof. by destruct l as [|a [|b [|c [|d []]]]]. Qed.

Lemma preamble_len q : len (preamble q) = TRAILER_AT.
Proof.
  unfold preamble, header_bytes. rewrite !len_app, !len_le_bytes, len_sizes_bytes; [done|].
  apply length_resize.
Qed.

Lemma io_sizes_length q : message_wf q -> (length (io_sizes q) <= 4)%nat.
Proof. intros [? ? ? ? ? Hn _ _]. unfold io_sizes. rewrite length_app, length_map. lia. Qed.

Lemma io_sizes_padded q :
  message_wf q ->
  resize 4 0 (io_sizes q) = map len (q_in q) ++ q_out q ++ replicate (4 - length (io_sizes q)) 0.
Proof.
  intros Hq. rewrite resize_pad by by apply io_sizes_length. unfold io_sizes at 1.
  by rewrite <- app_assoc.
Qed.

(** The four reads of fixed fields. *)
Lemma preamble_reads {E} q rest :
  let mem := preamble q ++ rest in
  @read_mem E 0 HEADER_SIZE mem = Ok (header_bytes q)
  /\ @read_mem E HANDLE_AT 4 mem = Ok (le_bytes 4 (q_handle q))
  /\ @read_mem E CTRL_PARAM_AT 4 mem = Ok (le_bytes 4
       (ctrl_param (q_type q) (Z.of_nat (length (q_in q))) (Z.of_nat (length (q_out q)))))
  /\ @read_mem E IO_SIZE_AT 8 mem = Ok (resize 4 0 (io_sizes q) ≫= le_bytes 2).
Proof.
  cbv zeta. unfold preamble. rewrite <- !app_assoc. split_and!.
  - by apply (read_mem_app _ _ []).
  - by apply read_mem_app.
  - rewrite (app_assoc (header_bytes q)). by apply read_mem_app.
  - rewrite (app_assoc (header_bytes q)), (app_assoc (header_bytes q ++ _)).
    apply read_mem_app; [done|]. apply len_sizes_bytes, length_resize.
Qed.

Lemma le_bytes_id n v : 0 <= v < 256 ^ Z.of_nat n -> le_value (le_bytes n v) = v.
Proof. intros. rewrite le_bytes_value. by apply Z.mod_small. Qed.

Lemma header_fields q :
  message_wf q ->
  u8_at 0 (header_bytes q) = q_ver q /\ u8_at 1 (header_bytes q) = q_seq q
  /\ u16_at 2 (header_bytes q) = q_client q.
Proof.
  intros [Hv Hs Hc _ _ _ _ _].
  split_and!; [by apply (le_bytes_id 1)|by apply (le_bytes_id 1)|by apply (le_bytes_id 2)].
Qed.

(** Any message whose preamble is laid out so, with [rest] after it. *)
Lemma de_preamble `{HesHost} q rest input :
  message_wf q -> input ++ past_end input = preamble q ++ rest -> len input <= EMBED_MSG_SIZE ->
  PSARequest.de input =
    in_vecs ← PSARequest.read_in_vecs (preamble q ++ rest) 0 (map len (q_in q));
    mret (PSARequest.mk (q_ver q) (q_seq q) (q_client q) (signed 32 (q_handle q)) (q_type q)
            (resize 4 [] in_vecs) (resize 4 0 (q_out q))).
Proof.
  intros Hq Hmem Hlen. pose proof Hq as [_ _ _ Hh Ht Hn Hsz _].
  unfold PSARequest.de. rewrite (proj2 (Z.ltb_ge _ _)) by done. cbv zeta. rewrite Hmem.
  destruct (@preamble_reads PSAError q rest) as (-> & -> & -> & ->).
  cbn [mbind outcome_bind]. rewrite le_bytes_id by (unfold ctrl_param; lia).
  destruct (ctrl_param_fields (q_type q) (Z.of_nat (length (q_in q))) (Z.of_nat (length (q_out q))))
    as (-> & -> & ->); [lia..|].
  unfold PSA_MAX_IOVEC. rewrite !(proj2 (Z.ltb_ge _ _)) by lia. cbn [mbind outcome_bind].
  rewrite u16s_bytes.
  2:{ apply length_resize. }
  2:{ rewrite resize_pad by by apply io_sizes_length. apply Forall_app. split; [done|].
      by apply Forall_replicate. }
  rewrite io_sizes_padded by done. rewrite !Nat2Z.id, <- (length_map len (q_in q)).
  rewrite take_app_length, drop_app_length, take_app_length.
  destruct (PSARequest.read_in_vecs _ 0 (map len (q_in q))) as [ins| | |]; try done.
  cbn [mbind outcome_bind]. rewrite le_bytes_id by lia.
  by destruct (header_fields q Hq) as (-> & -> & ->).
Qed.

Lemma de_encode `{HesHost} q : message_wf q -> PSARequest.de (encode q) = Ok (decoded q).
Proof.
  intros Hq. pose proof (wf_payload q Hq) as Hp.
  rewrite (de_preamble q (concat (q_in q) ++ past_end (encode q)));
    [|done|unfold encode at 1; by rewrite <- app_assoc|].
  2:{ unfold encode. rewrite len_app, preamble_len. unfold TRAILER_AT, EMBED_MSG_SIZE, IO_SIZE_AT in *.
      unfold PLAT_RSS_COMMS_PAYLOAD_MAX_SIZE, HEADER_SIZE, PSA_MAX_IOVEC in *. lia. }
  pose proof (read_in_vecs_spec (preamble q) [] (q_in q) (past_end (encode q)) (preamble_len q)) as Hr.
  change (len []) with 0 in Hr. cbn [app] in Hr.
  rewrite Hr by (unfold PLAT_RSS_COMMS_PAYLOAD_MAX_SIZE, HEADER_SIZE in *; lia). done.
Qed.

(** ** Nothing hangs but a key derivation *)
Definition ends {E A} (r : outcome E A) : Prop := r <> Hung.

Lemma ends_bind {E A B} (r : outcome E A) (f : A -> outcome E B) :
  ends r -> (forall a, ends (f a)) -> ends (r ≫= f).
Proof. intros Hr Hf. destruct r; [apply Hf|done|done|by destruct Hr]. Qed.
Lemma ends_map_err {E F A} (f : E -> F) (r : outcome E A) : ends r -> ends (map_err f r).
Proof. by destruct r. Qed.
Lemma ends_unwrap {E A} (o : option A) : ends (@unwrap E A o).
Proof. by destruct o. Qed.
Lemma ends_ok_or {E A} (o : option A) (e : E) : ends (ok_or o e).
Proof. by destruct o. Qed.
Lemma ends_copy_range {E} a b src dst : ends (@copy_range E a b src dst).
Proof. unfold copy_range. by case_match. Qed.
Lemma ends_prefix_of {E} n l : ends (@prefix_of E n l).
Proof. unfold prefix_of. by case_match. Qed.
Lemma ends_collect {E} n l : ends (@collect E n l).
Proof. unfold collect. by case_match. Qed.
Lemma ends_read_mem {E} a b l : ends (@read_mem E a b l).
Proof. unfold read_mem. by case_match. Qed.
Lemma ends_to_array n l : ends (to_array n l).
Proof. unfold to_array. by case_match. Qed.

Create HintDb hes discriminated.
#[export] Hint Resolve ends_unwrap ends_ok_or ends_copy_range ends_prefix_of ends_collect
  ends_read_mem ends_to_array : hes.

Ltac ends_step :=
  match goal with
  | |- ends (_ ≫= _) => apply ends_bind; [|intros ?]
  | |- ends (map_err _ _) => apply ends_map_err
  | |- ends (if ?c then _ else _) => destruct c eqn:?
  | |- ends (match ?x with _ => _ end) => destruct x eqn:?
  end.
Ltac ends := intros; repeat first [solve [auto with hes] | done | ends_step].

Section ending.
Context `{HesCryptoLaws} `{HesKeysLaws} `{HesHost}.

Lemma ends_generate_seed {E} c k l : ends (@generate_seed _ _ E c k l).
Proof. unfold generate_seed. cbv zeta. ends. Qed.
Lemma ends_read_measurement i m : ends (Mgr.read_measurement i m).
Proof. unfold Mgr.read_measurement. ends. Qed.

Lemma ends_fetch h : ends (HES.fetch_current_measurements h).
Proof.
  unfold HES.fetch_current_measurements. generalize (Z.to_nat Mgr.NUM_OF_MEASUREMENT_SLOTS), 0.
  intros n. induction n as [|n IH]; intros i; [done|]. cbn [HES.fetch_loop].
  pose proof (ends_read_measurement i (HES.measured_boot_mgr h)).
  destruct (Mgr.read_measurement i _) as [[m b]|[]| |]; ends.
Qed.

Lemma ends_extend_value v k s : ends (Slot.extend_value v k s).
Proof. unfold Slot.extend_value. cbv zeta. ends. Qed.

Lemma ends_extend_slot m k s : ends (Mgr.extend_slot m k s).
Proof.
  unfold Mgr.extend_slot, Slot.extend, Slot.initialize. cbv zeta.
  pose proof ends_extend_value. ends.
Qed.

Lemma ends_extend_measurement i m k h : ends (HES.extend_measurement i m k h).1.
Proof.
  unfold HES.extend_measurement, HES.on_mgr, Mgr.extend_measurement.
  destruct (Mgr.NUM_OF_MEASUREMENT_SLOTS <=? i); [done|].
  assert (ends (Mgr.update i (Mgr.extend_slot m k) (HES.measured_boot_mgr h))) as Hu.
  { unfold Mgr.update. pose proof ends_extend_slot. ends. }
  destruct (Mgr.update _ _ _); cbn; done.
Qed.

(** Every expanded seed is small enough to be a scalar. *)
Definition seeds_in_range : Prop :=
  forall c seed info, known_curve c -> candidate c seed info <= ORDER c - 2.

Lemma ends_derive_key {E} c seed info : seeds_in_range -> known_curve c -> ends (@derive_key _ E c seed info).
Proof.
  intros Hs Hc. rewrite derive_key_ok by done. by rewrite (proj2 (Z.leb_le _ _)) by by apply Hs.
Qed.

Lemma ends_delegated_key f b a h : seeds_in_range -> ends (HES.get_delegated_key f b a h).1.
Proof.
  intros Hs. unfold HES.get_delegated_key. mstep. pose proof (ends_fetch h).
  destruct (HES.fetch_current_measurements h) as [ms| | |]; mstep; try done.
  unfold HES.on_attest, Attest.get_delegated_key. mstep.
  pose proof (@ends_generate_seed AttestationError
    (km_hash (Attest.derivation_material (HES.attestation_mgr h))
     ++ le_bytes 4 (security_lifecycle (Attest.claims (HES.attestation_mgr h))) ++ le_bytes 4 0)
    (km_guk (Attest.derivation_material (HES.attestation_mgr h))) Attest.DAK_SEED_LABEL).
  destruct (generate_seed _ _ _) as [seed| | |]; mstep; try done.
  destruct (into_writer _) as [salt|]; cbn [ok_or]; mstep; [|done].
  destruct b; mstep; [..|done].
  - pose proof (@ends_derive_key AttestationError NistP256 seed (Some salt) Hs ltac:(by left)).
    unfold derive_p256_key. by destruct (derive_key NistP256 _ _).
  - pose proof (@ends_derive_key AttestationError NistP384 seed (Some salt) Hs ltac:(by right)).
    unfold derive_p384_key. by destruct (derive_key NistP384 _ _).
Qed.

Lemma ends_platform_token d h : ends (HES.get_platform_token d h).
Proof.
  unfold HES.get_platform_token, Attest.get_platform_token, Attest.verify_dak_hash,
    Attest.calculate_dak_hash, Attest.encode_claims, Attest.sign. cbv zeta.
  pose proof ends_fetch. ends.
Qed.

Lemma ends_vhuk id h :
  ends (match id with VHUK_A => HES.get_authority_vhuk | VHUK_M => HES.get_measurement_vhuk end h).
Proof.
  pose proof ends_fetch. pose proof (@ends_generate_seed IsletHESError).
  destruct id; [unfold HES.get_authority_vhuk|unfold HES.get_measurement_vhuk]; cbv zeta; ends.
Qed.

Lemma ends_replying {A} (m : M HES.t IsletHESError A) f h :
  ends (m h).1 -> (forall a, ends (f a)) -> ends (replying m f h).1.
Proof. intros Hm Hf. unfold replying. destruct (m h) as [[a|e| |] h']; [apply Hf|done|done|by destruct Hm]. Qed.

Lemma ends_serve q h : seeds_in_range -> ends (serve q h).1.
Proof.
  intros Hs. destruct q as [f b a|d|i t v|i m k|id]; cbn [serve]; apply ends_replying;
    try (by intros); unfold pure_on; cbn [fst].
  - by apply ends_delegated_key.
  - apply ends_platform_token.
  - ends.
  - apply ends_map_err, ends_read_measurement.
  - intros [m l]. by case_match.
  - apply ends_extend_measurement.
  - apply ends_vhuk.
Qed.
End ending.

(** ** Reading consumes the stream *)
Lemma skip_pauses_size evs : (stream_size (skip_pauses evs) <= stream_size evs)%nat.
Proof.
  induction evs as [|[d| |] evs IH]; cbn [skip_pauses]; try done.
  change (stream_size (RPause :: evs)) with (1 + stream_size evs)%nat. lia.
Qed.

Lemma stream_size_cons e evs : stream_size (e :: evs) = (event_size e + stream_size evs)%nat.
Proof. done. Qed.

Lemma sys_read_size room evs r evs' :
  0 <= room -> sys_read room evs = (r, evs') ->
  (stream_size evs' <= stream_size evs)%nat
  /\ (forall d, r = Count d -> 0 < len d -> (stream_size evs' < stream_size evs)%nat)
  /\ (forall d, r = Count d -> len d <= room /\
        ((length evs' < length evs)%nat \/ len d = 0 \/ (evs' <> [] /\ length evs' = length evs /\ len d = room))).
Proof.
  intros Hr. unfold sys_read. destruct (Z.eqb_spec room 0) as [->|Hne].
  { intros [= <- <-]. split_and!; [lia|by intros d [= <-]|].
    intros d [= <-]. split; [done|]. right. by left. }
  destruct evs as [|[c| |] evs].
  - intros [= <- <-]. split_and!; [lia|by intros d [= <-]|].
    intros d [= <-]. split; [done|]. right. by left.
  - destruct (Z.leb_spec (len c) room) as [Hle|Hgt]; intros [= <- <-]; rewrite ?stream_size_cons;
      cbn [event_size length].
    + split_and!; [lia|intros; lia|]. intros d [= <-]. split; [done|]. left. lia.
    + assert (len (slice 0 room c) = room) as Hs.
      { unfold slice, len in *. rewrite drop_0, length_take. lia. }
      rewrite length_drop. unfold len in Hgt.
      split_and!; [lia|intros; lia|intros d [= <-]]. rewrite Hs. split; [lia|]. right. right. done.
  - intros [= <- <-]. rewrite stream_size_cons. by split_and!; [lia|..].
  - intros [= <- <-]. rewrite stream_size_cons. by split_and!; [lia|..].
Qed.

(** Enough rounds: one per event, one to fill the buffer and one to see the end. *)
Lemma read_loop_ends fuel data evs :
  len data <= READ_BUFFER ->
  (length evs + (if (len data =? READ_BUFFER)%Z then 0 else 1) < fuel)%nat ->
  ends (read_loop fuel data evs).1 /\ (stream_size (read_loop fuel data evs).2 <= stream_size evs)%nat.
Proof.
  revert data evs. induction fuel as [|fuel IH]; intros data evs Hl Hf; [lia|].
  cbn [read_loop]. destruct (sys_read (READ_BUFFER - len data) evs) as [r evs'] eqn:Er.
  apply sys_read_size in Er as (Hsz & _ & Hc); [|lia].
  destruct r as [d| |]; [|done..]. destruct (Z.ltb_spec 0 (len d)) as [Hd|]; [|done].
  destruct (Hc d eq_refl) as [Hr Hev].
  destruct (IH (data ++ d) evs') as [He Hs]; [rewrite len_app; lia| |by split; [|lia]].
  rewrite len_app. revert Hf. destruct Hev as [Hlt|[?|(_ & Hlt & Hfull)]]; [|lia|].
  - destruct (Z.eqb_spec (len data) READ_BUFFER); [lia|]. by destruct (_ =? READ_BUFFER); lia.
  - rewrite Hlt, Hfull. replace (len data + (READ_BUFFER - len data)) with READ_BUFFER by lia.
    rewrite Z.eqb_refl. destruct (Z.eqb_spec (len data) READ_BUFFER); lia.
Qed.

Lemma read_stream_ends evs :
  ends (read_stream evs).1
  /\ (forall d, (read_stream evs).1 = Ok (Some d) ->
        (stream_size (read_stream evs).2 < stream_size evs)%nat).
Proof.
  unfold read_stream. pose proof (skip_pauses_size evs) as Hp.
  destruct (sys_read READ_BUFFER (skip_pauses evs)) as [r evs'] eqn:Er.
  apply sys_read_size in Er as (Hsz & Hlt & Hc); [|done].
  destruct r as [d| |]; [|done..]. destruct (Z.eqb_spec (len d) 0) as [|Hne]; [done|].
  pose proof (len_nonneg d). destruct (Hc d eq_refl) as [Hr _].
  destruct (read_loop_ends (S (S (length evs'))) d evs') as [He Hs];
    [done|destruct (len d =? READ_BUFFER)%Z; lia|].
  specialize (Hlt d eq_refl ltac:(lia)).
  destruct (read_loop _ _ _) as [r evs'']. cbn [fst snd] in *. split; [|intros; lia].
  by destruct r.
Qed.

Lemma read_loop_err n data evs e evs' :
  read_loop n data evs = (Err e, evs') -> e = CommunicationError.
Proof.
  revert data evs. induction n as [|n IH]; intros data evs; [discriminate|].
  cbn [read_loop]. destruct (sys_read _ _) as [[z| |] w]; [|discriminate|congruence].
  destruct (_ <? _); [apply IH|discriminate].
Qed.

Lemma read_stream_err evs e evs' : read_stream evs = (Err e, evs') -> e = CommunicationError.
Proof.
  unfold read_stream. destruct (sys_read _ _) as [[x| |] y]; [|congruence..].
  destruct (_ =? _); [discriminate|]. destruct (read_loop _ _ _) as [r ?] eqn:El.
  destruct r; [discriminate| |discriminate..]. intros [= -> _]. by eapply read_loop_err.
Qed.

Definition reads_of (c : CommsChannel) : list ReadEvent :=
  match stream c with Some s => reads s | None => [] end.

Section serving.
Context `{HesCryptoLaws} `{HesKeysLaws} `{HesHost}.

Lemma convert_request_ends q c : ends (convert_request q c).1 /\ reads_of (convert_request q c).2 = reads_of c.
Proof.
  unfold convert_request. mstep. split; [|done]. cbn [lift fst].
  unfold convert_attestation_request, convert_measured_boot_request, convert_vhuk_request,
    ReadRequest.de, ExtendRequest.de. cbv zeta. ends.
Qed.

Lemma read_in_vecs_ends mem off l : ends (PSARequest.read_in_vecs mem off l).
Proof. revert off. induction l as [|a l IH]; intros off; cbn [PSARequest.read_in_vecs]; ends. Qed.

Lemma de_ends input : ends (PSARequest.de input).
Proof. unfold PSARequest.de. cbv zeta. pose proof read_in_vecs_ends. ends. Qed.

(** A request, or an error of its conversion, was taken from the stream. *)
Lemma get_request_ends c :
  ends (get_request c).1
  /\ (forall r, (get_request c).1 = Ok (Some r) ->
        (stream_size (reads_of (get_request c).2) < stream_size (reads_of c))%nat)
  /\ (forall e, (get_request c).1 = Err e -> e <> CommunicationError ->
        (stream_size (reads_of (get_request c).2) < stream_size (reads_of c))%nat).
Proof.
  unfold get_request. mstep. unfold reads_of at 2 4. destruct (stream c) as [s|] eqn:Es; [|done].
  cbn [unwrap]. mstep. destruct (read_stream_ends (reads s)) as [He Hlt].
  destruct (read_stream (reads s)) as [r evs] eqn:Er. cbn [fst snd] in He, Hlt. mstep.
  destruct r as [[d|]|e| |]; mstep; try done.
  2:{ apply read_stream_err in Er as ->. split_and!; [done..|]. by intros e [= <-]. }
  specialize (Hlt d eq_refl). pose proof (de_ends d) as Hd.
  assert (reads_of (set_reads evs c) = evs) as Hset
    by (unfold reads_of, set_reads; cbn [stream]; by rewrite Es).
  destruct (PSARequest.de d) as [q| | |]; cbn [map_err]; mstep; try done.
  - destruct (convert_request_ends q (set_reads evs c)) as [Hq Hr].
    unfold mbind, M_bind. destruct (convert_request q (set_reads evs c)) as [[x|e| |] c'] eqn:Ec;
      cbn [fst snd mret M_ret] in *; try done; rewrite Hr, Hset; split_and!; done.
  - cbn [fst snd]. rewrite Hset. split_and!; done.
Qed.

Lemma send_response_reads v r c :
  ends (send_response v r c).1 /\ reads_of (send_response v r c).2 = reads_of c.
Proof.
  unfold send_response, convert_response. mstep. destruct (msg_metadata c) as [m|]; [|done].
  cbn [unwrap]. mstep.
  assert (ends (if v =? 0 then response_vecs m r else Ok [[]; []; []; []])) as Hv.
  { unfold response_vecs, ReadResponse.ser. cbv zeta. ends. }
  destruct (if v =? 0 then _ else _) as [vs| | |]; mstep; try done.
  assert (forall off l, ends (PSAResponse.pack off l)) as Hp.
  { intros off l. revert off. induction l as [|a l IH]; intros off; cbn [PSAResponse.pack]; ends. }
  assert (forall p, ends (PSAResponse.ser p)) as Hs by (intros p; unfold PSAResponse.ser; ends).
  specialize (Hs (PSAResponse.mk (protocol_ver m) (seq_num m) (client_id m) v vs)).
  destruct (PSAResponse.ser _) as [data| | |]; cbn [map_err]; mstep; try done.
  unfold sys_write, reads_of. cbn [stream set_msg_metadata].
  destruct (stream c) as [s|] eqn:Es; [|cbn; by rewrite Es].
  by destruct (write_results s) as [|[] ws].
Qed.

(** A round ends, and one that goes on has taken something from the stream. *)
Lemma reply_ends v r s :
  ends (reply v r s).1 /\ reads_of (comms (reply v r s).2) = reads_of (comms s).
Proof.
  unfold reply, on_comms. destruct (send_response_reads v r (comms s)) as [He Hr].
  destruct (send_response v r (comms s)) as [[u|[]| |] c]; cbn in *; by auto.
Qed.

Lemma process_request_ends s :
  seeds_in_range ->
  ends (process_request s).1
  /\ ((process_request s).1 = Ok (inl tt) ->
      (stream_size (reads_of (comms (process_request s).2)) < stream_size (reads_of (comms s)))%nat).
Proof.
  intros Hs. unfold process_request, on_comms.
  destruct (get_request_ends (comms s)) as (He & Hok & Herr).
  destruct (get_request (comms s)) as [[[q|]|e| |] c]; cbn [fst snd] in *; try done.
  - specialize (Hok q eq_refl). unfold mbind, M_bind, on_hes. cbn [hes comms].
    pose proof (ends_serve q (hes s) Hs) as Hsv.
    destruct (serve q (hes s)) as [[[v r]|e| |] h]; cbn [fst snd] in *; try done.
    destruct (reply_ends v r (mkApp h c)) as [Hr Hrd]. rewrite Hrd. by split.
  - pose proof (Herr e eq_refl) as Hlt. clear Herr Hok.
    destruct e; cbn [comms_error_to_ret_val]; mstep; try done;
      try (split; [done|]; intros; by apply Hlt);
      match goal with |- context [reply ?v None ?s0] =>
        destruct (reply_ends v None s0) as [Hr Hrd]; rewrite Hrd; split; [done|]; intros; by apply Hlt
      end.
Qed.

Lemma loop_ends n s :
  seeds_in_range -> (stream_size (reads_of (comms s)) < n)%nat ->
  match loopN (fun _ : unit => process_request) n tt s with
  | (Ok (inl _), _) | (Hung, _) => False
  | _ => True
  end.
Proof.
  intros Hs. revert s. induction n as [|n IH]; intros s Hn; [lia|]. cbn [loopN].
  destruct (process_request_ends s Hs) as [He Hlt]. unfold mbind, M_bind.
  destruct (process_request s) as [[[[]|[]]|e| |] s']; cbn [fst snd] in *; try done.
  apply IH. specialize (Hlt eq_refl). lia.
Qed.

(** Serving a connection ends: on any stream, whatever the requests, the loop
    returns (the peer closed or a transfer failed) or the service panics, as long
    as no expanded seed exceeds the group order. *)
Theorem process_requests_ends s : seeds_in_range -> (process_requests s).1 <> Hung.
Proof.
  intros Hs. pose proof (loop_ends (S (stream_size (reads_of (comms s)))) s Hs ltac:(lia)) as Hl.
  unfold process_requests. unfold reads_of in Hl.
  by destruct (loopN _ _ tt s) as [[[u|u]|e| |] s'].
Qed.

(** ** One request, from its bytes to the reply's *)

(** A message that arrives in one piece, and then nothing for a while. *)
Lemma read_stream_message d evs :
  0 < len d < READ_BUFFER -> read_stream (RChunk d :: RPause :: evs) = (Ok (Some d), evs).
Proof.
  intros Hd. unfold read_stream. cbn [skip_pauses]. unfold sys_read.
  change (READ_BUFFER =? 0) with false. cbv match.
  rewrite (proj2 (Z.leb_le _ _)), (proj2 (Z.eqb_neq _ _)) by lia.
  cbn [length read_loop]. unfold sys_read. by rewrite (proj2 (Z.eqb_neq _ _)) by lia.
Qed.

Lemma get_request_message c st q evs :
  stream c = Some st -> reads st = RChunk (encode q) :: RPause :: evs ->
  message_wf q -> len (encode q) < READ_BUFFER ->
  get_request c = (r ← convert_request (decoded q); mret (Some r)) (set_reads evs c).
Proof.
  intros Hc Hr Hq Hl. unfold get_request. mstep. rewrite Hc. cbn [unwrap]. mstep.
  rewrite Hr, read_stream_message.
  2:{ split; [|done]. unfold encode. rewrite len_app, preamble_len.
      pose proof (len_nonneg (concat (q_in q))). unfold TRAILER_AT, IO_SIZE_AT, HEADER_SIZE, PSA_MAX_IOVEC. lia. }
  mstep. rewrite de_encode by done. cbn [map_err]. by mstep.
Qed.

(** What the service writes back. *)
Definition reply_bytes (ver seq client ret : Z) (vecs : list (list Z)) : list Z :=
  le_bytes 1 ver ++ le_bytes 1 seq ++ le_bytes 2 client ++ le_bytes 4 ret
  ++ (resize 4 0 (map len vecs) ≫= le_bytes 2) ++ concat vecs.

(** The channel once the request of [m] is waiting for its reply. *)
Definition pending (st : Stream) (evs : list ReadEvent) (m : MsgMetadata) : CommsChannel :=
  mkComms (Some (mkStream evs (write_results st) (written st))) (Some m).

Definition replied (st : Stream) (evs : list ReadEvent) (data : list Z) : CommsChannel :=
  mkComms (Some (mkStream evs [] (written st ++ [data]))) None.

Lemma reply_one h st evs m v r key :
  write_results st = [] -> 0 < len key < PLAT_RSS_COMMS_PAYLOAD_MAX_SIZE ->
  (if v =? 0 then response_vecs m r else Ok [[]; []; []; []]) = Ok [key; []; []; []] ->
  reply v r (mkApp h (pending st evs m)) =
    (Ok (inl tt), mkApp h (replied st evs
       (reply_bytes (protocol_ver m) (seq_num m) (client_id m) v [key]))).
Proof.
  intros Hw Hk Hv. unfold reply, on_comms, send_response, convert_response. cbn [comms hes]. mstep.
  cbn [msg_metadata pending unwrap]. mstep. rewrite Hv. mstep.
  unfold PSAResponse.ser. cbn [PSAResponse.out_vecs PSAResponse.pack].
  unfold PLAT_RSS_COMMS_PAYLOAD_MAX_SIZE in *. change (len [] =? 0) with true. cbv match.
  rewrite (proj2 (Z.eqb_neq (len key) 0)), (proj2 (Z.ltb_ge 0xFFFF _)), (proj2 (Z.leb_gt 0x1000 _)) by lia.
  cbn [mbind outcome_bind mret outcome_ret map_err]. mstep.
  unfold sys_write. cbn [stream set_msg_metadata pending write_results]. by rewrite Hw.
Qed.

Lemma reply_none h st evs m v :
  write_results st = [] -> v <> 0 ->
  reply v None (mkApp h (pending st evs m)) =
    (Ok (inl tt), mkApp h (replied st evs
       (reply_bytes (protocol_ver m) (seq_num m) (client_id m) v []))).
Proof.
  intros Hw Hv. unfold reply, on_comms, send_response, convert_response. cbn [comms hes]. mstep.
  cbn [msg_metadata pending unwrap]. mstep. rewrite (proj2 (Z.eqb_neq _ _)) by done. mstep.
  unfold PSAResponse.ser. cbn [PSAResponse.out_vecs PSAResponse.pack].
  change (len [] =? 0) with true. cbn [mbind outcome_bind mret outcome_ret map_err]. mstep.
  unfold sys_write. cbn [stream set_msg_metadata pending write_results]. by rewrite Hw.
Qed.

Lemma reply_panics h st evs m r :
  (exists e, response_vecs m r = Err e /\ e <> CommunicationError) \/ response_vecs m r = Panicked ->
  (reply 0 r (mkApp h (pending st evs m))).1 = Panicked.
Proof.
  intros Hv. unfold reply, on_comms, send_response, convert_response. cbn [comms hes]. mstep.
  cbn [msg_metadata pending unwrap]. mstep. change (0 =? 0) with true. cbv match.
  destruct Hv as [(e & -> & He)| ->]; [|done]. mstep. by destruct e.
Qed.

Lemma process_message s st q evs :
  stream (comms s) = Some st -> reads st = RChunk (encode q) :: RPause :: evs ->
  message_wf q -> len (encode q) < READ_BUFFER ->
  forall r, convert_request (decoded q) (set_reads evs (comms s))
    = (r, pending st evs (mkMsgMetadata (q_ver q) (q_seq q) (q_client q) (resize 4 0 (q_out q)))) ->
  let s' := mkApp (hes s) (pending st evs
              (mkMsgMetadata (q_ver q) (q_seq q) (q_client q) (resize 4 0 (q_out q)))) in
  (forall rq, r = Ok rq ->
     process_request s = ('(ret_val, response) ← on_hes (serve rq); reply ret_val response) s')
  /\ (r = Err CInvalidArgument -> process_request s = reply (-135) None s').
Proof.
  intros Hc Hr Hq Hl r Hcv. cbv zeta. unfold process_request, on_comms.
  rewrite (get_request_message _ _ _ _ Hc Hr Hq Hl).
  split; [intros rq ->; by rewrite (bind_ok _ _ _ _ _ Hcv)|].
  intros ->. by rewrite (bind_err _ _ _ _ _ Hcv).
Qed.

Definition vhuk_message (ver seq client id n : Z) : message :=
  mkMessage ver seq client RSS_VHUK_SERVICE_HANDLE RSS_VHUK_GET_KEY [[id]] [n].

Definition vhuk_metadata (ver seq client n : Z) : MsgMetadata :=
  mkMsgMetadata ver seq client [n; 0; 0; 0].

Lemma vhuk_message_wf ver seq client id n :
  0 <= ver < 256 -> 0 <= seq < 256 -> is_u16 client -> is_u16 n ->
  message_wf (vhuk_message ver seq client id n).
Proof.
  intros. split; [done..|cbn; lia| |done]. unfold io_sizes. cbn. apply Forall_cons. split; [done|]. apply Forall_singleton. done.
Qed.

Lemma convert_vhuk ver seq client id n st evs c :
  stream c = Some st ->
  convert_request (decoded (vhuk_message ver seq client id n)) (set_reads evs c) =
    (if id =? 1 then Ok (RqGetVHuk VHUK_A) else if id =? 2 then Ok (RqGetVHuk VHUK_M)
     else Err CInvalidArgument,
     pending st evs (vhuk_metadata ver seq client n)).
Proof.
  intros Hc. unfold convert_request. mstep. unfold lift, pending, set_msg_metadata, set_reads.
  cbn [stream]. rewrite Hc. cbn [mbind option_bind]. f_equal.
  transitivity (convert_vhuk_request RSS_VHUK_GET_KEY [[id]; []; []; []]); [done|].
  unfold convert_vhuk_request. cbn [in_vec nth]. by assert (le_value [id] = id) as -> by (cbn; lia).
Qed.

Lemma kdf_len label context key : len (kdf label context key) = 32.
Proof.
  unfold kdf. cbv zeta. pose proof (sha256_len (kdf_input label context)) as Hh.
  by rewrite len_app, !aes_len by (by apply len_take_16 || by apply len_drop_16).
Qed.

Lemma vhuk_encode_len ver seq client id n : len (encode (vhuk_message ver seq client id n)) < READ_BUFFER.
Proof. unfold encode. rewrite len_app, preamble_len. done. Qed.

(** A request for VHUK_A is served from its bytes to the bytes of the reply:
    the service answers once, with the version, sequence number and client of
    the request, status 0 and the 32-byte key, and keeps its state. A request
    for an unknown key gets the status of an invalid argument. A client that
    declares an output buffer of less than 32 bytes makes the service panic,
    although an error code for that exists. *)
Theorem vhuk_request_served bs xs s st ver seq client id n evs :
  managed bs xs (HES.measured_boot_mgr (hes s)) -> len (HES.huk (hes s)) = 32 ->
  stream (comms s) = Some st -> write_results st = [] ->
  reads st = RChunk (encode (vhuk_message ver seq client id n)) :: RPause :: evs ->
  0 <= ver < 256 -> 0 <= seq < 256 -> is_u16 client -> is_u16 n ->
  (id = 1 -> 32 <= n ->
     exists key, HES.get_authority_vhuk (hes s) = Ok key /\ len key = 32 /\
     process_request s =
       (Ok (inl tt), mkApp (hes s) (replied st evs (reply_bytes ver seq client 0 [key]))))
  /\ (id = 1 -> n < 32 -> (process_request s).1 = Panicked)
  /\ (id <> 1 -> id <> 2 ->
      process_request s =
        (Ok (inl tt), mkApp (hes s) (replied st evs (reply_bytes ver seq client (-135) [])))).
Proof.
  intros [Hm Hw]%managed_logs Hk Hst Hwr Hr Hv Hs Hc Hn.
  destruct (process_message s st _ evs Hst Hr (vhuk_message_wf _ _ _ _ _ Hv Hs Hc Hn)
    (vhuk_encode_len _ _ _ _ _) _ (convert_vhuk _ _ _ _ _ _ _ _ Hst)) as [Hok Herr].
  pose proof (authority_vhuk_spec (hes s) _ Hw Hm Hk) as Hkey. set (key := kdf _ _ _) in Hkey.
  assert (len key = 32) as Hkl by apply kdf_len.
  assert (serve (RqGetVHuk VHUK_A) (hes s) = (Ok (PSA_SUCCESS, Some (RsGetVHuk key)), hes s)) as Hsv.
  { cbn [serve]. unfold replying, pure_on. by rewrite Hkey. }
  split_and!.
  - intros -> Hle. exists key. split; [done|]. split; [done|]. rewrite (Hok _ eq_refl).
    unfold mbind at 1, M_bind at 1, on_hes. cbn [hes comms]. rewrite Hsv.
    apply reply_one; [done|rewrite Hkl; done|]. cbn. by rewrite Hkl, (proj2 (Z.ltb_ge _ _)).
  - intros -> Hlt. rewrite (Hok _ eq_refl).
    unfold mbind at 1, M_bind at 1, on_hes. cbn [hes comms]. rewrite Hsv.
    apply reply_panics. left. exists BufferTooSmall. split; [|done].
    cbn. by rewrite Hkl, (proj2 (Z.ltb_lt _ _)).
  - intros H1' H2'. rewrite (proj2 (Z.eqb_neq id 1)), (proj2 (Z.eqb_neq id 2)) in Herr by done.
    rewrite (Herr eq_refl). by apply reply_none.
Qed.

(** C29: A well-formed request decodes to exactly what the client encoded: the
    header, the service handle, the type, the input vectors padded to four and
    the sizes of the output buffers padded to four, whatever the memory after the
    buffer holds. *)
Theorem request_roundtrip q : message_wf q -> PSARequest.de (encode q) = Ok (decoded q).
Proof. apply de_encode. Qed.

(** The declared sizes are not compared with what was received: a message of
    the 20-byte preamble alone, which declares an input vector, is accepted, and
    the vector is read from the memory after the receive buffer. *)
Theorem de_overreads q v rest :
  message_wf q -> q_in q = [v] -> past_end (preamble q) = v ++ rest ->
  len (preamble q) = 20 /\ PSARequest.de (preamble q) = Ok (decoded q).
Proof.
  intros Hq Hv Hp. pose proof (preamble_len q) as Hl. split; [done|].
  rewrite (de_preamble q (v ++ rest)); [|done|by rewrite Hp|by rewrite Hl].
  pose proof (wf_payload q Hq) as Hpl. rewrite Hv in Hpl. cbn [concat] in Hpl. rewrite app_nil_r in Hpl.
  pose proof (read_in_vecs_spec (preamble q) [] [v] rest Hl) as Hr.
  cbn [concat app] in Hr. rewrite app_nil_r in Hr. change (len []) with 0 in Hr.
  rewrite Hv, Hr; [|unfold PLAT_RSS_COMMS_PAYLOAD_MAX_SIZE, HEADER_SIZE in *; lia].
  unfold decoded. by rewrite Hv.
Qed.

(** ** Reading a measurement back *)
Definition read_message (ver seq client index tl vl o0 o1 o2 : Z) : message :=
  mkMessage ver seq client RSS_MEASURED_BOOT_SERVICE_HANDLE RSS_MEASURED_BOOT_READ
    [[index; tl; vl]] [o0; o1; o2].

Lemma read_message_wf ver seq client index tl vl o0 o1 o2 :
  0 <= ver < 256 -> 0 <= seq < 256 -> is_u16 client -> is_u16 o0 -> is_u16 o1 -> is_u16 o2 ->
  message_wf (read_message ver seq client index tl vl o0 o1 o2).
Proof.
  intros. split; [done..|cbn; lia| |done]. unfold io_sizes. cbn.
  by repeat first [apply Forall_nil_2 | apply Forall_cons; split; [done|]].
Qed.

Lemma read_encode_len ver seq client index tl vl o0 o1 o2 :
  len (encode (read_message ver seq client index tl vl o0 o1 o2)) < READ_BUFFER.
Proof. unfold encode. rewrite len_app, preamble_len. done. Qed.

Lemma convert_read ver seq client index tl vl o0 o1 o2 st evs c :
  stream c = Some st -> index < Mgr.NUM_OF_MEASUREMENT_SLOTS ->
  convert_request (decoded (read_message ver seq client index tl vl o0 o1 o2)) (set_reads evs c) =
    (Ok (RqReadMeasurement index tl vl),
     pending st evs (mkMsgMetadata ver seq client [o0; o1; o2; 0])).
Proof.
  intros Hc Hi. unfold convert_request. mstep. unfold lift, pending, set_msg_metadata, set_reads.
  cbn [stream]. rewrite Hc. cbn [mbind option_bind]. f_equal.
  transitivity (convert_measured_boot_request RSS_MEASURED_BOOT_READ
                  [[index; tl; vl]; []; []; []]); [done|].
  unfold convert_measured_boot_request. cbn [in_vec nth]. unfold ReadRequest.de.
  change (RSS_MEASURED_BOOT_READ =? RSS_MEASURED_BOOT_READ) with true.
  change (negb (len [index; tl; vl] =? ReadRequest.SIZE)) with false.
  cbv match. cbn [map_err mbind outcome_bind ReadRequest.index ReadRequest.sw_type_size ReadRequest.version_size].
  assert (forall b : Z, le_value [b] = b) as Hb by (intros b; cbn; lia).
  assert (u8_at 0 [index; tl; vl] = index /\ u8_at 1 [index; tl; vl] = tl /\ u8_at 2 [index; tl; vl] = vl)
    as (-> & -> & ->) by (split_and!; apply Hb).
  by rewrite (proj2 (Z.leb_gt _ _)).
Qed.

(** Reading a measurement back works for no ordinary measurement: a valid
    READ request, with buffers that are large enough, for a slot whose software
    type is not exactly 20 bytes long or whose version is not exactly 14 bytes
    long makes the service panic. *)
Theorem read_request_panics s st ver seq client index tl vl o0 o1 o2 evs m locked :
  stream (comms s) = Some st ->
  reads st = RChunk (encode (read_message ver seq client index tl vl o0 o1 o2)) :: RPause :: evs ->
  0 <= ver < 256 -> 0 <= seq < 256 -> is_u16 client -> is_u16 o0 -> is_u16 o1 -> is_u16 o2 ->
  index < Mgr.NUM_OF_MEASUREMENT_SLOTS ->
  HES.read_measurement index (hes s) = Ok (m, locked) ->
  len (MetaData.sw_type (HMeasurement.metadata m)) <= tl ->
  len (MetaData.sw_version (HMeasurement.metadata m)) <= vl ->
  len (MetaData.signer_id (HMeasurement.metadata m)) <= o1 -> len (HMeasurement.value m) <= o2 ->
  len (MetaData.sw_type (HMeasurement.metadata m)) <> SW_TYPE_MAX_SIZE
  \/ len (MetaData.sw_version (HMeasurement.metadata m)) <> VERSION_MAX_SIZE ->
  (process_request s).1 = Panicked.
Proof.
  intros Hst Hr Hv Hs Hc H0' H1' H2' Hi Hm Ht Hvl Ho1 Ho2 Hne.
  destruct (process_message s st _ evs Hst Hr
    (read_message_wf _ _ _ index tl vl _ _ _ Hv Hs Hc H0' H1' H2')
    (read_encode_len _ _ _ _ _ _ _ _ _) _ (convert_read _ _ _ _ _ _ _ _ _ _ _ _ Hst Hi)) as [Hok _].
  rewrite (Hok _ eq_refl). unfold mbind at 1, M_bind at 1, on_hes. cbn [hes comms serve].
  unfold replying at 1, pure_on. rewrite Hm. cbn [fst snd].
  rewrite (proj2 (Z.ltb_ge tl _)), (proj2 (Z.ltb_ge vl _)) by done. cbn [orb].
  apply reply_panics. right. unfold response_vecs.
  change (response_param 1 _) with o1. change (response_param 2 _) with o2.
  rewrite !(proj2 (Z.ltb_ge _ _)) by done. cbn [orb]. unfold to_array.
  destruct (Z.eqb_spec (len (MetaData.sw_type (HMeasurement.metadata m))) SW_TYPE_MAX_SIZE); [|done].
  destruct Hne as [?|Hne]; [done|]. cbn [mbind outcome_bind].
  by rewrite (proj2 (Z.eqb_neq _ _)).
Qed.
End serving.

(** ** Witnesses *)
Lemma le_value_snoc_zero l : le_value (l ++ [0]) = le_value l.
Proof. induction l as [|b l IH]; [done|]. cbn [app le_value]. by rewrite IH. Qed.

Lemma toy_seeds_in_range : seeds_in_range.
Proof.
  assert (forall n v, be_value (0 :: le_bytes n v) < 256 ^ Z.of_nat n) as Hb.
  { intros n v. unfold be_value. cbn [rev]. rewrite le_value_snoc_zero.
    pose proof (le_value_range (rev (le_bytes n v)) (Forall_rev (le_bytes_forall n v))) as Hr.
    rewrite length_rev, length_le_bytes in Hr. lia. }
  assert (forall c seed info n, Z.to_nat ((WIDTH c + 7) / 8) = S n ->
            candidate c seed info < 256 ^ Z.of_nat n) as Hc.
  { intros c seed info n Hn. unfold candidate. cbn [hkdf_sha256 toy_keys default id].
    replace (Z.to_nat ((WIDTH c + 7) / 8 - 1)) with n by lia. rewrite Hn. cbn [take].
    unfold toy_digest. rewrite take_ge by (rewrite length_le_bytes; lia). apply Hb. }
  intros c seed info [->| ->].
  - pose proof (Hc NistP256 seed info 31%nat eq_refl) as Hx.
    assert (256 ^ Z.of_nat 31 <= ORDER NistP256 - 2) by done. lia.
  - pose proof (Hc NistP384 seed info 47%nat eq_refl) as Hx.
    assert (256 ^ Z.of_nat 47 <= ORDER NistP384 - 2) by done. lia.
Qed.

(** The service with the host application's boot measurements and one request
    on its stream. *)
Definition one_request (q : message) : App :=
  mkApp (hes_with boot_mgr)
    (mkComms (Some (mkStream [RChunk (encode q); RPause] [] [])) None).

Lemma process_requests_ends_witness :
  (process_requests (one_request (vhuk_message 0 1 2 1 32))).1 <> Hung.
Proof. apply process_requests_ends, toy_seeds_in_range. Defined.

Lemma vhuk_request_served_witness :
  (exists key, process_request (one_request (vhuk_message 0 1 2 1 32)) =
     (Ok (inl tt), mkApp (hes_with boot_mgr)
        (mkComms (Some (mkStream [] [] [reply_bytes 0 1 2 0 [key]])) None)))
  /\ (process_request (one_request (vhuk_message 0 1 2 1 16))).1 = Panicked.
Proof.
  split.
  - destruct (vhuk_request_served boot [] (one_request (vhuk_message 0 1 2 1 32))
      (mkStream [RChunk (encode (vhuk_message 0 1 2 1 32)); RPause] [] []) 0 1 2 1 32 [])
      as (Hok & _); [by apply (boot_managed [])|done..|].
    destruct Hok as (key & _ & _ & Hp); [done..|]. by exists key.
  - apply (vhuk_request_served boot [] (one_request (vhuk_message 0 1 2 1 16))
      (mkStream [RChunk (encode (vhuk_message 0 1 2 1 16)); RPause] [] []) 0 1 2 1 16 []);
      [by apply (boot_managed [])|done..].
Defined.

Lemma request_roundtrip_witness :
  PSARequest.de (encode (vhuk_message 0 1 2 1 32)) = Ok (decoded (vhuk_message 0 1 2 1 32)).
Proof. apply request_roundtrip. by apply vhuk_message_wf. Defined.

(** A token request that sends no hash: the hash is 32 bytes of the service's
    memory. *)
Lemma de_overreads_witness :
  let q := mkMessage 0 1 2 RSS_DELEGATED_SERVICE_HANDLE RSS_DELEGATED_ATTEST_GET_PLATFORM_TOKEN
             [replicate 32 0x5e] [100] in
  len (preamble q) = 20 /\ PSARequest.de (preamble q) = Ok (decoded q).
Proof.
  cbv zeta. apply (de_overreads _ (replicate 32 0x5e) (replicate 32 0x5e)); [|done..].
  split; [done..|cbn; lia| |done]. apply Forall_cons. split; [done|]. by apply Forall_singleton.
Defined.

(** BL1's type is "BL1": reading slot 0 ends the service. *)
Lemma read_request_panics_witness :
  (process_request (one_request (read_message 0 1 2 0 20 14 44 64 64))).1 = Panicked.
Proof.
  assert (exists m, HES.read_measurement 0 (hes_with boot_mgr) = Ok (m, false)
     /\ len (MetaData.sw_type (HMeasurement.metadata m)) = 3
     /\ len (MetaData.sw_version (HMeasurement.metadata m)) = 5
     /\ len (MetaData.signer_id (HMeasurement.metadata m)) = 32
     /\ len (HMeasurement.value m) = 32) as (m & Hm & Ht & Hv & Hs & Hl).
  { unfold HES.read_measurement. cbn [HES.measured_boot_mgr hes_with]. unfold boot_mgr.
    rewrite read_measurement_refines by (apply boot_logs_wf || lia).
    eexists. split; [by vm_compute|]. by split_and!. }
  apply (read_request_panics (one_request (read_message 0 1 2 0 20 14 44 64 64))
    (mkStream [RChunk (encode (read_message 0 1 2 0 20 14 44 64 64)); RPause] [] [])
    0 1 2 0 20 14 44 64 64 [] m false eq_refl eq_refl);
    try done; try (rewrite ?Ht, ?Hv, ?Hs, ?Hl; done). left. by rewrite Ht.
Defined.
