(* ===== verification/TrapFacts.v ===== *)
(** * What traps give the RMM and the realm

    Properties of the exception handlers of Trap: [REC_ENTER] acts on the trap
    that ended the run of a realm, the identification registers hide what the
    realm must not use, and what an injected exception really does. *)

From S2P Require Import Prelude Bits RmiTypes Objects Machine RmiRec RecEnter Trap Sample.

(** ** Exit words *)
Lemma exit_reason_roundtrip r :
  rec_exit_reason_of (rec_exit_reason_code r) =
    match r with ExitUndefined => ExitUndefined | _ => r end.
Proof. by destruct r as [[]| | | | |]. Qed.

(** The reasons the trap handler can give. *)
Definition trap_reason (r : RecExitReason) : Prop :=
  match r with ExitSync _ | ExitIRQ => True | _ => False end.

(** What a handler leaves alone. *)
Definition same_machine (c c' : Context.t) : Prop :=
  Context.gic_state c' = Context.gic_state c /\ Context.timer c' = Context.timer c
  /\ Context.sys_regs c' = Context.sys_regs c /\ Context.spsr c' = Context.spsr c
  /\ length (Context.gp_regs c') = length (Context.gp_regs c).

Definition exit_ok (s s' : Trap) (ret : Z) : Prop :=
  (ret = RET_TO_REC \/ ret = RET_TO_RMM)
  /\ same_machine (ctx s) (ctx s')
  /\ length (TrapFrame.regs (tf s')) = length (TrapFrame.regs (tf s))
  /\ (ret = RET_TO_RMM -> exists r, trap_reason r
        /\ TrapFrame.regs (tf s') !! 0%nat = Some (rec_exit_reason_code r)
        /\ (r = ExitSync SyncRSI ->
            TrapFrame.regs (tf s') !! 1%nat = Some (nth 0 (Context.gp_regs (ctx s')) 0)
            /\ Context.elr (ctx s') = Word.add (Context.elr (ctx s)) 4)).

Lemma same_machine_refl c : same_machine c c.
Proof. done. Qed.

Lemma same_machine_elr c v : same_machine c (Context.with_elr v c).
Proof. done. Qed.

Lemma sys_reg_handle_ok esr s ret s' :
  sys_reg_handle esr s = (Ok ret, s') ->
  ret = RET_TO_REC /\ same_machine (ctx s) (ctx s') /\ tf s' = tf s.
Proof.
  unfold sys_reg_handle. destruct (check_sysreg_id_access esr); [|intros [= <- <-]; done].
  unfold handle_sysreg_id. cbv zeta. destruct (_ =? 0); [intros [= <- <-]; done|].
  destruct (_ =? 31); [intros [= <- <-]; done|]. mstep. unfold set_gp, on_ctx.
  unfold mbind, M_bind. destruct (_ <? _); [|done]. intros [= <- <-]. cbn. split; [done|].
  split; [|done]. split_and!; try done. cbn. by rewrite length_insert.
Qed.

Lemma inject_undefined_ok esr s :
  exists s', inject_undefined esr s = (Ok RET_TO_REC, s')
    /\ ctx s' = Context.with_elr (Word.add (Context.sys_regs (ctx s) vbar) SPSR_EL2_MODE_EL1H_OFFSET) (ctx s)
    /\ length (TrapFrame.regs (tf s')) = length (TrapFrame.regs (tf s))
    /\ SPSR_EL1 (cpu s') = Context.spsr (ctx s) /\ ELR_EL1 (cpu s') = Context.elr (ctx s)
    /\ ESR_EL1 (cpu s') = ESR_UNKNOWN.
Proof.
  eexists. split; [reflexivity|]. cbn. by rewrite !length_insert.
Qed.

Lemma handle_simd_ok esr y s ret s' :
  handle_simd esr y s = (Ok ret, s') ->
  ret = RET_TO_REC /\ same_machine (ctx s) (ctx s')
  /\ length (TrapFrame.regs (tf s')) = length (TrapFrame.regs (tf s)).
Proof.
  unfold handle_simd. mstep. cbv zeta. destruct (match y with SVE => _ | SME => _ | _ => _ end).
  { intros E. destruct (inject_undefined_ok esr s) as (s1 & E1 & Hc & Hl & _). rewrite E1 in E.
    simplify_eq. by rewrite Hc. }
  unfold on_cpu, on_ctx. mstep. destruct (SimdRegister.is_saved _); [|by intros [= <- <-]].
  destruct y; mstep; unfold mbind, M_bind; try done. by intros [= <- <-].
Qed.

Definition words (w0 w1 w2 w3 : Z) (f : TrapFrame.t) : TrapFrame.t :=
  TrapFrame.set_reg 3 w3 (TrapFrame.set_reg 2 w2 (TrapFrame.set_reg 1 w1 (TrapFrame.set_reg 0 w0 f))).

Lemma words_lookup w0 w1 w2 w3 f :
  (4 <= length (TrapFrame.regs f))%nat ->
  TrapFrame.regs (words w0 w1 w2 w3 f) !! 0%nat = Some w0
  /\ length (TrapFrame.regs (words w0 w1 w2 w3 f)) = length (TrapFrame.regs f).
Proof.
  intros Hl. unfold words, TrapFrame.set_reg. cbn [TrapFrame.regs].
  rewrite !length_insert, !list_lookup_insert_ne by done.
  by rewrite list_lookup_insert_eq by lia.
Qed.

Lemma exit_ok_words r a b d s c :
  (4 <= length (TrapFrame.regs (tf s)))%nat -> trap_reason r -> r <> ExitSync SyncRSI ->
  same_machine (ctx s) c ->
  exit_ok s (mkTrap c (words (rec_exit_reason_code r) a b d (tf s)) (cpu s)) RET_TO_RMM.
Proof.
  intros Hl Hr Hn Hc. destruct (words_lookup (rec_exit_reason_code r) a b d _ Hl) as [H0 H1].
  split; [by right|]. split; [done|]. split; [done|]. intros _. by exists r.
Qed.

Lemma exit_ok_resume s s' :
  same_machine (ctx s) (ctx s') -> length (TrapFrame.regs (tf s')) = length (TrapFrame.regs (tf s)) ->
  exit_ok s s' RET_TO_REC.
Proof. intros. split; [by left|]. by split_and!. Qed.

Lemma set_exit_run r a b d s :
  set_exit r a b d s = (Ok tt, mkTrap (ctx s) (words (rec_exit_reason_code r) a b d (tf s)) (cpu s)).
Proof. reflexivity. Qed.

Ltac exit_case r Hl :=
  erewrite bind_ok by apply set_exit_run; intros [= <- <-];
  apply (exit_ok_words r); [exact Hl|exact I|discriminate|first [apply same_machine_refl|apply same_machine_elr]].

(** A trap from a realm either resumes it or exits with words that say why. *)
Lemma lower_exception_ok info esr s ret s' :
  (4 <= length (TrapFrame.regs (tf s)))%nat ->
  handle_lower_exception info esr s = (Ok ret, s') -> exit_ok s s' ret.
Proof.
  intros Hl. unfold handle_lower_exception. mstep. cbv zeta.
  destruct (kind info); [destruct (syndrome_of esr)|..];
    lazymatch goal with
    | |- (set_exit ?r _ _ _ ≫= _) _ = _ -> _ => exit_case r Hl
    | |- handle_simd _ _ _ = _ -> _ => intros (-> & Hm & Hr)%handle_simd_ok; by apply exit_ok_resume
    | |- mret _ _ = _ -> _ =>
        intros [= <- <-]; apply exit_ok_resume; [apply same_machine_refl|reflexivity]
    | |- _ => idtac
    end.
  - intros E. destruct (inject_undefined_ok esr s) as (s1 & E1 & Hc & Hr & _).
    rewrite E1 in E. simplify_eq. apply exit_ok_resume; [by rewrite Hc|done].
  - intros [= <- <-]. split; [by right|]. split; [done|]. cbn. rewrite !length_insert.
    split; [done|]. intros _. exists (ExitSync SyncRSI). split; [done|].
    split; [|intros _; split; [|done]].
    + rewrite list_lookup_insert_ne by done. apply list_lookup_insert_eq. lia.
    + apply list_lookup_insert_eq. rewrite length_insert. lia.
  - intros (r & s1 & E & E2)%bind_ok_inv. apply sys_reg_handle_ok in E as (-> & Hm & Ht).
    injection E2 as <- <-. apply exit_ok_resume; [done|]. cbn. by rewrite Ht.
Qed.

(** ** The identification registers *)
Definition field_hidden (r : option IdReg) (i : Z) : bool :=
  existsb (fun shift => (shift <=? i) && (i <? shift + 4)) (hidden_fields r).

Lemma hidden_mask_spec r i : 0 <= i < 64 -> Z.testbit (hidden_mask r) i = field_hidden r i.
Proof.
  intros Hi.
  assert (forall n, (n < 64)%nat -> Z.testbit (hidden_mask r) (Z.of_nat n) = field_hidden r (Z.of_nat n)) as Hn.
  { intros n Hn.
    assert (forallb (fun n => Bool.eqb (Z.testbit (hidden_mask r) (Z.of_nat n))
              (field_hidden r (Z.of_nat n))) (seq 0 64) = true) as Hf
      by (by destruct r as [[]|]; vm_compute).
    rewrite forallb_forall in Hf. apply eqb_prop, Hf, in_seq. lia. }
  specialize (Hn (Z.to_nat i)). rewrite Z2Nat.id in Hn by lia. apply Hn. lia.
Qed.

Lemma hidden_testbit x r i :
  0 <= i < 64 -> Z.testbit (Z.land x (Word.not (hidden_mask r))) i = Z.testbit x i && negb (field_hidden r i).
Proof. intros Hi. by rewrite Z.land_spec, Word.not_spec, hidden_mask_spec by lia. Qed.

(** What a realm reads: the hardware's value without the hidden fields. *)
Lemma id_reg_value_spec c r i :
  0 <= i < 64 ->
  Z.testbit (id_reg_value c (Some r)) i = Z.testbit (id_value c r) i && negb (field_hidden (Some r) i).
Proof.
  intros Hi. unfold id_reg_value. destruct r; cbv zeta;
    rewrite ?Z.lor_spec, ?hidden_testbit by done; cbn [default id]; change dfr0_set with 0;
    rewrite ?(Z.bits_0 i), ?orb_false_r; try reflexivity; by destruct (Z.testbit _ i).
Qed.

(** ** The theorems *)

(** The register frame the vectors set up has 31 registers. *)
Definition frame_wf (f : TrapFrame.t) : Prop := (4 <= length (TrapFrame.regs f))%nat.

(** Why a trap ends the run of a realm, [None] for the traps after which the
    realm goes on. *)
Inductive exit_cause : Set := CauseIrq | CauseRsi | CauseDataAbort | CauseInstAbort | CauseOther.
Definition cause_of (st : RealmStep) : option exit_cause :=
  match kind (st_info st) with
  | Irq => Some CauseIrq
  | Synchronous =>
      match syndrome_of (st_esr st) with
      | HVC | SysRegInst | FPU | SVE | SME => None
      | SMC => Some CauseRsi
      | DataAbort _ => Some CauseDataAbort
      | InstructionAbort _ => Some CauseInstAbort
      | _ => Some CauseOther
      end
  | _ => None
  end.

(** The words REC_ENTER finds after the trap [st]; [w2] and [w3] are left over
    from earlier traps. *)
Definition exit_words_of (st : RealmStep) (c : exit_cause) (w2 w3 : Z) : list Z :=
  let fault := [st_esr st; HPFAR_EL2 (st_cpu st); FAR_EL2 (st_cpu st)] in
  match c with
  | CauseIrq => [rec_exit_reason_code ExitIRQ; 0; 0; 0]
  | CauseRsi => [rec_exit_reason_code (ExitSync SyncRSI); nth 0 (st_gp st) 0; w2; w3]
  | CauseDataAbort => rec_exit_reason_code (ExitSync SyncDataAbort) :: fault
  | CauseInstAbort => rec_exit_reason_code (ExitSync SyncInstAbort) :: fault
  | CauseOther => rec_exit_reason_code (ExitSync SyncUndefined) :: fault
  end.

(** Where the realm goes on: after an SMC or a WFI/WFE behind the instruction. *)
Definition resume_elr (st : RealmStep) : Z :=
  match kind (st_info st), syndrome_of (st_esr st) with
  | Synchronous, SMC | Synchronous, WFX => Word.add (st_elr st) 4
  | _, _ => st_elr st
  end.

Lemma take_words w0 w1 w2 w3 f :
  (4 <= length (TrapFrame.regs f))%nat ->
  take 4 (TrapFrame.regs (words w0 w1 w2 w3 f)) = [w0; w1; w2; w3].
Proof.
  intros Hl. destruct f as [e p [|a [|b [|x [|d l]]]]]; cbn in Hl; try lia. done.
Qed.

Lemma trap_exits st c s cause :
  frame_wf (tf s) -> ctx s = save_volatile st c -> cpu s = st_cpu st -> cause_of st = Some cause ->
  exists s' w2 w3, handle_lower_exception (st_info st) (st_esr st) s = (Ok RET_TO_RMM, s')
    /\ take 4 (TrapFrame.regs (tf s')) = exit_words_of st cause w2 w3
    /\ ctx s' = Context.with_elr (resume_elr st) (save_volatile st c).
Proof.
  intros Hf Hc Hp Hk. destruct s as [sc sf sp]. cbn in Hc, Hp, Hf. subst sc sp.
  unfold cause_of in Hk. unfold handle_lower_exception, resume_elr. mstep. cbv zeta. cbn [cpu].
  destruct (kind (st_info st)); [destruct (syndrome_of (st_esr st))|..]; try discriminate Hk;
    injection Hk as <-;
    try (erewrite bind_ok by apply set_exit_run; eexists _, 0, 0; split; [reflexivity|];
         split; [by apply take_words|reflexivity]).
  destruct sf as [e p [|a [|b [|x [|d l]]]]]; unfold frame_wf in Hf; cbn in Hf; try lia.
  eexists _, x, d. split; [reflexivity|]. done.
Qed.

Lemma trap_resumes st s ret s' :
  frame_wf (tf s) -> cause_of st = None ->
  handle_lower_exception (st_info st) (st_esr st) s = (Ok ret, s') ->
  ret = RET_TO_REC /\ frame_wf (tf s').
Proof.
  intros Hf Hk E. pose proof (lower_exception_ok _ _ _ _ _ Hf E) as (_ & _ & Hl & _).
  split; [|unfold frame_wf in *; lia]. revert E. unfold cause_of in Hk.
  unfold handle_lower_exception. mstep. cbv zeta.
  destruct (kind (st_info st)); [destruct (syndrome_of (st_esr st))|..]; try discriminate Hk.
  - intros E. destruct (inject_undefined_ok (st_esr st) s) as (s1 & E1 & _). congruence.
  - intros (r & s1 & E & E2)%bind_ok_inv. apply sys_reg_handle_ok in E as (-> & _).
    by injection E2 as <- _.
  - by intros [? _]%handle_simd_ok.
  - by intros [? _]%handle_simd_ok.
  - by intros [? _]%handle_simd_ok.
  - by intros [= <- _].
  - by intros [= <- _].
Qed.

Lemma run_realm_last steps c f w c' :
  frame_wf f -> run_realm steps c f = Ok (w, c') ->
  exists pre st rest cause w2 w3, steps = pre ++ st :: rest
    /\ Forall (fun st => cause_of st = None) pre /\ cause_of st = Some cause
    /\ w = exit_words_of st cause w2 w3
    /\ Context.gp_regs c' = st_gp st /\ Context.elr c' = resume_elr st
    /\ Context.spsr c' = st_spsr st.
Proof.
  revert c f. induction steps as [|st steps IH]; intros c f Hf; [done|]. cbn [run_realm].
  destruct (cause_of st) as [cause|] eqn:Hk.
  - destruct (trap_exits st c (mkTrap (save_volatile st c) f (st_cpu st)) cause)
      as (s' & w2 & w3 & -> & Hw & Hc); [done..|].
    cbn [Z.eqb RET_TO_REC RET_TO_RMM]. intros [= <- <-].
    exists [], st, steps, cause, w2, w3. unfold save_sys_regs. rewrite Hc. by split_and!.
  - destruct (handle_lower_exception _ _ _) as [[ret| | |] s] eqn:E; try done.
    apply trap_resumes in E as [-> Hf']; [|done..]. cbn [Z.eqb RET_TO_REC]. intros E.
    destruct (IH _ _ Hf' E) as (pre & st' & rest & cause & w2 & w3 & -> & Hp & Hr).
    exists (st :: pre), st', rest, cause, w2, w3. split; [done|]. split; [by constructor|]. exact Hr.
Qed.

(** ** What REC_ENTER makes of it *)
Section reported.
Context `{Platform}.

(** The fields of the run object the host reads after a fault that the RMM
    does not emulate. *)
Definition told (reason esr hpfar : Z) (far : option Z) (s : rmm) : rmm :=
  let r := Run.set_hpfar hpfar (Run.set_esr esr (Run.set_exit_reason reason (Machine.run s))) in
  set_run (match far with Some v => Run.set_far v r | None => r end) s.

(** For each cause: an interrupt returns to the host and tells it nothing else;
    an RSI command is executed, and the realm goes on if its answer says so; a
    data abort is handled with the registers of the trap; any other fault
    returns to the host with the syndrome and the page of the trap. *)
Definition reported (st : RealmStep) (c : exit_cause) (rec_addr : Z) : M rmm Error (bool * Z) :=
  let esr := st_esr st in
  let hpfar := HPFAR_EL2 (st_cpu st) in
  match c with
  | CauseIrq => modify (told Rmi.EXIT_IRQ 0 0 (Some 0));; mret (true, Rmi.SUCCESS)
  | CauseRsi =>
      handled ← handle_rsi (nth 0 (st_gp st) 0) rec_addr;
      if (handled : bool)
      then r ← gets rsi_ret; r0 ← argn r 0; mret (negb (r0 =? Rmi.SUCCESS_REC_ENTER), r0)
      else mret (false, Rmi.SUCCESS)
  | CauseDataAbort =>
      r ← handle_data_abort (exit_words_of st CauseDataAbort 0 0) rec_addr; mret (true, r)
  | CauseInstAbort | CauseOther =>
      modify (told Rmi.EXIT_SYNC esr hpfar None);; mret (true, Rmi.SUCCESS)
  end.

Lemma handle_realm_exit_reports st cause w2 w3 rec_addr s :
  handle_realm_exit (exit_words_of st cause w2 w3) rec_addr s = reported st cause rec_addr s.
Proof. by destruct cause. Qed.

(** C31: Whatever a realm does between its entry and its exit, REC_ENTER acts on
    the trap that ended the run and on no other: the run is a sequence of traps
    after which the realm went on (HVC, system registers, floating point)
    followed by one that ends it, and [handle_realm_exit] does with the words
    left in the frame what that trap asks for. An interrupt exits with no
    syndrome; an RSI command is the one in the realm's x0; a data abort is
    handled with ESR, HPFAR and FAR of the trap; an instruction abort and every
    other exception exit with its ESR and HPFAR. The realm's general registers,
    PC and PSTATE are saved as they were at that trap, the PC moved behind an
    SMC or a WFI/WFE. *)
Theorem realm_exit_reported steps c f w c' :
  frame_wf f -> run_realm steps c f = Ok (w, c') ->
  exists pre st rest cause, steps = pre ++ st :: rest
    /\ Forall (fun st => cause_of st = None) pre /\ cause_of st = Some cause
    /\ (forall rec_addr s, handle_realm_exit w rec_addr s = reported st cause rec_addr s)
    /\ Context.gp_regs c' = st_gp st /\ Context.elr c' = resume_elr st
    /\ Context.spsr c' = st_spsr st.
Proof.
  intros Hf Hr.
  destruct (run_realm_last _ _ _ _ _ Hf Hr)
    as (pre & st & rest & cause & w2 & w3 & -> & Hp & Hk & -> & Hg & He & Hs).
  exists pre, st, rest, cause. split_and!; try done. intros rec_addr s. apply handle_realm_exit_reports.
Qed.
End reported.

(** A realm's read of an identification register is emulated: the trap
    resumes the realm after the instruction, the destination register holds the
    hardware's value with every hidden field (pointer authentication in ISAR1,
    AMU and SVE in PFR0, MTE in PFR1, the debug, trace and performance fields of
    DFR0) read as zero, and no other part of the realm's context changes. *)
Theorem id_register_emulated src esr s r rt :
  syndrome_of esr = SysRegInst -> check_sysreg_id_access esr = true ->
  get_masked_value esr ISS.Direction <> 0 -> get_masked_value esr ISS.Rt = rt -> rt <> 31 ->
  rt < Z.of_nat (length (Context.gp_regs (ctx s))) ->
  id_reg_of (Z.lor (Z.lor (Z.lor (Z.lor (get_masked esr ISS.Op0) (get_masked esr ISS.Op1))
    (get_masked esr ISS.CRn)) (get_masked esr ISS.CRm)) (get_masked esr ISS.Op2)) = Some r ->
  exists v,
    handle_lower_exception (mkInfo src Synchronous) esr s =
      (Ok RET_TO_REC,
       mkTrap (Context.with_elr (Word.add (Context.elr (ctx s)) 4)
                 (Context.with_gp_regs (<[Z.to_nat rt := v]> (Context.gp_regs (ctx s))) (ctx s)))
              (tf s) (cpu s))
    /\ forall i, 0 <= i < 64 ->
         Z.testbit v i = Z.testbit (id_value (cpu s) r) i && negb (field_hidden (Some r) i).
Proof.
  intros Hs Hc Hd Hrt Hne Hlt Hid. exists (id_reg_value (cpu s) (Some r)).
  split; [|intros; by apply id_reg_value_spec].
  unfold handle_lower_exception. mstep. cbn [kind]. rewrite Hs. unfold sys_reg_handle. rewrite Hc.
  unfold handle_sysreg_id. rewrite Hid, Hrt. cbv zeta. rewrite !(proj2 (Z.eqb_neq _ _)) by done.
  mstep. unfold set_gp, on_ctx. unfold mbind, M_bind. by rewrite (proj2 (Z.ltb_lt _ _)).
Qed.

(** An undefined-instruction exception is injected without changing the mode:
    the realm resumes at the vector it had at its last exit to the RMM, whatever
    VBAR_EL1 is now, with the SPSR of the trapped instruction, so an HVC at EL0
    continues in the EL1 vector at EL0. *)
Theorem undefined_injection src esr s :
  syndrome_of esr = HVC ->
  exists s', handle_lower_exception (mkInfo src Synchronous) esr s = (Ok RET_TO_REC, s')
    /\ Context.elr (ctx s') = Word.add (Context.sys_regs (ctx s) vbar) SPSR_EL2_MODE_EL1H_OFFSET
    /\ Context.spsr (ctx s') = Context.spsr (ctx s)
    /\ SPSR_EL1 (cpu s') = Context.spsr (ctx s) /\ ELR_EL1 (cpu s') = Context.elr (ctx s).
Proof.
  intros Hs. unfold handle_lower_exception. mstep. cbn [kind]. rewrite Hs.
  destruct (inject_undefined_ok esr s) as (s' & E & Hc & _ & H1 & H2 & _). exists s'.
  split; [done|]. by rewrite Hc.
Qed.

(** The first floating-point instruction after a saved state restores every
    vector register but the first two. *)
Theorem fpu_restore_loses_q0_q1 src esr s :
  syndrome_of esr = FPU -> SimdRegister.is_saved (Context.simd (ctx s)) = true ->
  exists s', handle_lower_exception (mkInfo src Synchronous) esr s = (Ok RET_TO_REC, s')
    /\ fpu_regs (cpu s') = at_x0 (cpu s) ++ drop 2 (SimdRegister.fpu (Context.simd (ctx s))).
Proof.
  intros Hs Hv. unfold handle_lower_exception. mstep. cbn [kind]. rewrite Hs.
  unfold handle_simd. mstep. cbv zeta. unfold on_cpu, on_ctx. mstep. rewrite Hv. mstep.
  eexists. split; [reflexivity|]. done.
Qed.

(** ** Witnesses *)
Definition cpu0 : Cpu := mkCpu 0 0 (fun _ => Z.ones 64) 0 0 0 0 [] [0; 0].
Definition frame0 : TrapFrame.t := TrapFrame.mk 0 0 (replicate 31 0).

(** An MRS of ID_AA64PFR0_EL1 into x1, then an SMC with the command in x0. *)
Definition mrs_pfr0 : Z :=
  Z.lor (Z.lor (Z.shiftl 24 26) (iss_id ID_AA64PFR0_EL1)) (Z.lor (Z.shiftl 1 5) 1).
Definition smc_esr : Z := Z.shiftl 23 26.
Definition step_of (esr : Z) : RealmStep :=
  mkStep (mkInfo LowerAArch64 Synchronous) esr (0xC4000190 :: replicate 30 0) 0x1000 0 (fun _ => 7) cpu0.

(** The data abort of an unmapped address, after an emulated instruction. *)
Definition abort_esr : Z := Z.lor (Z.shiftl 36 26) 6.

Lemma realm_exit_reported_witness :
  exists w c' pre st rest cause,
    run_realm [step_of mrs_pfr0; step_of abort_esr; step_of smc_esr] Rec.context_new frame0 = Ok (w, c')
    /\ [step_of mrs_pfr0; step_of abort_esr; step_of smc_esr] = pre ++ st :: rest
    /\ cause_of st = Some cause
    /\ forall rec_addr s, handle_realm_exit w rec_addr s = reported st cause rec_addr s.
Proof.
  destruct (run_realm [step_of mrs_pfr0; step_of abort_esr; step_of smc_esr] Rec.context_new frame0)
    as [[w c']| | |] eqn:E; [|by apply (f_equal is_ok) in E; vm_compute in E..].
  assert (frame_wf frame0) as Hf by (unfold frame_wf; cbn; lia).
  destruct (realm_exit_reported _ _ _ _ _ Hf E)
    as (pre & st & rest & cause & Hs & _ & Hc & Hh & _).
  exists w, c', pre, st, rest, cause. split; [done|]. split; [exact Hs|]. by split.
Defined.

Lemma id_register_emulated_witness :
  exists v, handle_lower_exception (mkInfo LowerAArch64 Synchronous) mrs_pfr0
      (mkTrap Rec.context_new frame0 cpu0) =
    (Ok RET_TO_REC,
     mkTrap (Context.with_elr (Word.add (Context.elr Rec.context_new) 4)
               (Context.with_gp_regs (<[1%nat := v]> (Context.gp_regs Rec.context_new)) Rec.context_new))
            frame0 cpu0)
    /\ Z.testbit v 32 = false /\ Z.testbit v 0 = true.
Proof.
  destruct (id_register_emulated LowerAArch64 mrs_pfr0 (mkTrap Rec.context_new frame0 cpu0)
              ID_AA64PFR0_EL1 1) as (v & Hv & Hb); [by vm_compute..|].
  exists v. split; [exact Hv|]. split; rewrite Hb by lia; vm_compute; reflexivity.
Defined.
