(* ===== verification/El3.v ===== *)
(** * The boot-time exchange with EL3 (rmm/src/rmm_el3)

    Before its first command the RMM asks the EL3 firmware for the realm
    attestation key, the platform token and the two virtual hardware keys. The
    first two come through a page of memory shared with the firmware, whose
    content is written by both sides; the others come in registers. The
    firmware (TF-A, a git submodule) is the class [El3Fw]; the crates [p384] and
    [sha2] are those of the HES, [HesKeys] and [HesCrypto]. *)

From S2P Require Import Prelude Bytes RmiTypes Machine HesBoot HesAttest.

(** ** Constants (rmi/mod.rs, config.rs, rmm_el3/mod.rs, iface.rs) *)
Definition RMM_GET_REALM_ATTEST_KEY : Z := 0xC40001B2.
Definition RMM_GET_PLAT_TOKEN : Z := 0xC40001B3.
Definition RMM_ISLET_GET_VHUK : Z := 0xC70001B0.
Definition RMM_SHARED_BUFFER_START : Z := 0xFFBFF000.
Definition RMM_HEAP_SIZE : Z := 16 * 1024 * 1024.
Definition PAGE_SIZE : Z := 4096.
Definition SHA256_DIGEST_SIZE : Z := 32.
Definition ATTEST_KEY_CURVE_ECC_SECP384R1 : Z := 0.
Definition VHUK_LENGTH : Z := 32.
Definition ID_VHUK_A : Z := 1.
Definition ID_VHUK_M : Z := 2.

(** The statics before boot. *)
Definition keys_at_reset : El3Keys :=
  mkEl3Keys (replicate (Z.to_nat VHUK_LENGTH) 0xAA) (replicate (Z.to_nat VHUK_LENGTH) 0x33) [] [].

(** ** iface.rs: error codes *)
Inductive RmmEl3IfcError : Set := Unk | BadAddr | BadPas | NoMem | Inval.

(** [usize as isize] *)
Definition to_isize (x : Z) : Z := if x <? 2 ^ 63 then x else x - 2 ^ 64.

(** [From<isize>]; nothing but the panic can go wrong. *)
Definition el3_error_of {E} (value : Z) : outcome E RmmEl3IfcError :=
  if value =? -1 then Ok Unk else
  if value =? -2 then Ok BadAddr else
  if value =? -3 then Ok BadPas else
  if value =? -4 then Ok NoMem else
  if value =? -5 then Ok Inval else
  Panicked.

(** ** The firmware and the state *)

(** A call sees and changes eight registers, the memory by address and the
    firmware's own state. *)
Class El3Fw := {
  fw : Type;
  fw_smc : list Z -> (Z -> Z) -> fw -> list Z * (Z -> Z) * fw
}.

Record Boot `{El3Fw} : Type := mkBootState {
  memory : Z -> Z;
  el3_keys : El3Keys;
  firmware : fw
}.
Arguments mkBootState {_} memory el3_keys firmware.

Definition set_attest_key (v : list Z) (k : El3Keys) : El3Keys :=
  mkEl3Keys (VHUK_A k) (VHUK_M k) (PLAT_TOKEN k) v.
Definition set_plat_token (v : list Z) (k : El3Keys) : El3Keys :=
  mkEl3Keys (VHUK_A k) (VHUK_M k) v (REALM_ATTEST_KEY k).
Definition set_vhuk_a (v : list Z) (k : El3Keys) : El3Keys :=
  mkEl3Keys v (VHUK_M k) (PLAT_TOKEN k) (REALM_ATTEST_KEY k).
Definition set_vhuk_m (v : list Z) (k : El3Keys) : El3Keys :=
  mkEl3Keys (VHUK_A k) v (PLAT_TOKEN k) (REALM_ATTEST_KEY k).

(** ** utils.rs on memory *)
Definition read_bytes (mem : Z -> Z) (ptr len : Z) : list Z :=
  (fun i => mem (ptr + i)) <$> seqZ 0 len.
Definition write_bytes (ptr : Z) (v : list Z) (mem : Z -> Z) : Z -> Z := fun a =>
  if (ptr <=? a) && (a <? ptr + len v) then nth (Z.to_nat (a - ptr)) v 0 else mem a.

Section el3.
Context `{El3Fw} `{HesCrypto} `{HesKeys}.
#[local] Abbreviation B := (M Boot Empty_set).

(** A copy larger than the heap cannot be allocated. *)
Definition va_to_vec (ptr len : Z) : B (list Z) := fun s =>
  if RMM_HEAP_SIZE <? len then (Panicked, s) else (Ok (read_bytes (memory s) ptr len), s).

Definition vec_to_va (vec : list Z) (ptr len_max : Z) : B unit :=
  if len_max <? len vec then panic
  else modify (fun s => mkBootState (write_bytes ptr vec (memory s)) (el3_keys s) (firmware s)).

(** [set_vector] and [get_spinlock] on the statics. *)
Definition on_keys (f : El3Keys -> El3Keys) : B unit :=
  modify (fun s => mkBootState (memory s) (f (el3_keys s)) (firmware s)).
Definition get_key {A} (f : El3Keys -> A) : B A := gets (fun s => f (el3_keys s)).

(** The loop of [set_array] over the registers from the [i]-th word of [dst]. *)
Fixpoint set_array_loop (i : Z) (regs dst : list Z) : outcome Empty_set (list Z) :=
  match regs with
  | [] => Ok dst
  | reg :: regs =>
      dst ← copy_range (i * 8) (i * 8 + 8) (le_bytes 8 reg) dst;
      set_array_loop (i + 1) regs dst
  end.

(** [&smc_ret[first..last]] *)
Definition set_array (smc_ret : list Z) (first last : nat) (dst : list Z)
  : outcome Empty_set (list Z) :=
  set_array_loop 0 (take (last - first) (drop first smc_ret)) dst.

(** asm.rs, on this state. *)
Definition el3_smc (cmd : Z) (args : list Z) : B (list Z) := fun s =>
  if decide (7 < 1 + length args)%nat then (Ok (replicate 8 0), s)
  else
    let padded := (cmd :: args) ++ replicate (7 - length args) 0 in
    let '(r, mem, w) := fw_smc padded (memory s) (firmware s) in
    (Ok r, mkBootState mem (el3_keys s) w).

(** [ret[i]] *)
Definition reg (i : nat) (ret : list Z) : Z := nth i ret 0.

(** ** digest.rs *)
Definition calculate_hash (data : list Z) (algo : HashAlgo.t) : list Z :=
  match algo with
  | HashAlgo.Sha256 => sha256 data
  | HashAlgo.Sha384 => sha384 data
  | HashAlgo.Sha512 => sha512 data
  end.

Definition get_realm_public_key_hash (key : list Z) : outcome Empty_set (list Z) :=
  priv_dak ← unwrap (p384_from_slice key);
  mret (calculate_hash (p384_sec1 priv_dak) HashAlgo.Sha256).

(** ** iface.rs *)

(** [if ret_code != 0 { let e: RmmEl3IfcError = ret_code.into(); error!(..) }] *)
Definition log_error (ret_code : Z) : B unit :=
  if ret_code =? 0 then mret tt else lift (el3_error_of ret_code);; mret tt.

Definition get_realm_attest_key : B unit :=
  ret ← el3_smc RMM_GET_REALM_ATTEST_KEY
          [RMM_SHARED_BUFFER_START; PAGE_SIZE; ATTEST_KEY_CURVE_ECC_SECP384R1];
  let ret_code := to_isize (reg 0 ret) in
  let buflen := reg 1 ret in
  log_error ret_code;;
  v ← va_to_vec RMM_SHARED_BUFFER_START buflen;
  on_keys (set_attest_key v).

Definition get_plat_token : B unit :=
  dak_priv ← get_key REALM_ATTEST_KEY;
  dak_pub_hash ← lift (get_realm_public_key_hash dak_priv);
  vec_to_va dak_pub_hash RMM_SHARED_BUFFER_START PAGE_SIZE;;
  ret ← el3_smc RMM_GET_PLAT_TOKEN [RMM_SHARED_BUFFER_START; PAGE_SIZE; SHA256_DIGEST_SIZE];
  let ret_code := to_isize (reg 0 ret) in
  let buflen := reg 1 ret in
  log_error ret_code;;
  v ← va_to_vec RMM_SHARED_BUFFER_START buflen;
  on_keys (set_plat_token v).

Definition get_vhuk (id : Z) (get : El3Keys -> list Z) (set : list Z -> El3Keys -> El3Keys) : B Z :=
  ret ← el3_smc RMM_ISLET_GET_VHUK [id];
  let ret_code := to_isize (reg 0 ret) in
  log_error ret_code;;
  old ← get_key get;
  v ← lift (set_array ret 1 5 old);
  on_keys (set v);;
  mret ret_code.

Definition get_vhuks : B unit :=
  ret_code ← get_vhuk ID_VHUK_A VHUK_A set_vhuk_a;
  log_error ret_code;;
  ret_code ← get_vhuk ID_VHUK_M VHUK_M set_vhuk_m;
  log_error ret_code.

(** ** mod.rs *)
Definition setup_el3_ifc : B unit :=
  get_realm_attest_key;;
  get_plat_token;;
  get_vhuks.
End el3.
