(* ===== verification/El3Facts.v ===== *)
(** * From the HES to a realm's attestation token

    What the boot-time exchange of El3 leaves in the RMM when the firmware
    relays it to the HES (class [El3Relays], the documented behaviour of the
    RMM-EL3 interface): the keys of the HES, and a platform token bound to the
    key that signs the realms' tokens. *)

From S2P Require Import HesComms HesSample Sample Prelude Bytes RmiTypes Objects Machine Rsi HesBoot HesAttest HesBootFacts HesAttestFacts El3.
From stdpp Require Import list strings.

Open Scope Z_scope.

(** ** Memory shared with the firmware *)
Lemma length_read_bytes mem ptr n : length (read_bytes mem ptr n) = Z.to_nat n.
Proof. unfold read_bytes. by rewrite length_fmap, length_seqZ. Qed.

Lemma read_write_bytes mem ptr v : read_bytes (write_bytes ptr v mem) ptr (len v) = v.
Proof.
  apply list_eq_same_length with (length v); [done|rewrite length_read_bytes; unfold len; lia|].
  intros i x y Hi Hx Hy. unfold read_bytes in Hx. rewrite list_lookup_fmap in Hx.
  rewrite lookup_seqZ_lt in Hx by (unfold len; lia). cbn in Hx. injection Hx as <-.
  unfold write_bytes.
  rewrite (proj2 (Z.leb_le _ _)), (proj2 (Z.ltb_lt _ _)) by (unfold len; lia). cbn [andb].
  replace (Z.to_nat _) with i by lia. by apply nth_lookup_Some.
Qed.

(** The registers of a virtual hardware key fill its array. *)
Lemma set_array_spec ret dst :
  (5 <= length ret)%nat -> len dst = 32 ->
  set_array ret 1 5 dst = Ok (u64s_bytes (take 4 (drop 1 ret))).
Proof.
  intros Hr Hd. unfold set_array. cbn [Nat.sub].
  destruct ret as [|r0 [|r1 [|r2 [|r3 [|r4 ret]]]]]; cbn in Hr; try lia.
  cbn [drop take set_array_loop].
  rewrite <- (take_drop 8 dst), <- (take_drop 8 (drop 8 dst)), drop_drop,
    <- (take_drop 8 (drop (8 + 8) dst)), drop_drop. cbn [Nat.add].
  unfold len in Hd.
  assert (forall n, len (le_bytes 8 n) = 8) as Hb by (intros; unfold len; by rewrite length_le_bytes).
  rewrite copy_range_front; [|unfold len; rewrite length_take; lia|apply Hb].
  cbn [mbind outcome_bind Z.mul Z.add].
  rewrite copy_range_app;
    [|apply Hb|unfold len; rewrite length_take, length_drop; lia|by rewrite Hb].
  cbn [mbind outcome_bind]. rewrite app_assoc, copy_range_app;
    [|by rewrite len_app, !Hb|unfold len; rewrite length_take, length_drop; lia|by rewrite Hb].
  cbn [mbind outcome_bind]. rewrite !app_assoc, copy_range_back;
    [|by rewrite !len_app, !Hb
     |rewrite !len_app, !Hb; unfold len; rewrite length_drop; lia
     |rewrite Hb; unfold len; rewrite length_drop; lia].
  cbn [mbind outcome_bind]. unfold u64s_bytes. rewrite !bind_cons. change ([] ≫= le_bytes 8) with (@nil Z). by rewrite app_nil_r, <- !app_assoc.
Qed.

(** ** A firmware that relays to the HES *)

Definition padded (cmd : Z) (args : list Z) : list Z := (cmd :: args) ++ replicate (7 - length args) 0.

(** The delegated key asked for is ECC P-384 with SHA-256; on success the result
    is in the buffer and its length in the second register, or, for a virtual
    hardware key, in registers one to four. *)
Class El3Relays `{El3Fw} `{HesCrypto} `{HesKeys} := {
  hes_of : fw -> HES.t;
  relay_attest_key buf size mem w key h :
    HES.get_delegated_key SecpR1 Bits384 HashAlgo.Sha256 (hes_of w) = (Ok key, h) -> len key <= size ->
    exists r w', fw_smc (padded RMM_GET_REALM_ATTEST_KEY [buf; size; 0]) mem w
                   = (r, write_bytes buf key mem, w')
                 /\ reg 0 r = 0 /\ reg 1 r = len key /\ hes_of w' = h;
  relay_plat_token buf size mem w cose token :
    HES.get_platform_token (read_bytes mem buf 32) (hes_of w) = Ok cose ->
    to_tagged_vec cose = Some token -> len token <= size ->
    exists r w', fw_smc (padded RMM_GET_PLAT_TOKEN [buf; size; 32]) mem w
                   = (r, write_bytes buf token mem, w')
                 /\ reg 0 r = 0 /\ reg 1 r = len token /\ hes_of w' = hes_of w;
  relay_vhuk id mem w key :
    match id with
    | 1 => HES.get_authority_vhuk (hes_of w) = Ok key
    | 2 => HES.get_measurement_vhuk (hes_of w) = Ok key
    | _ => False
    end ->
    exists r w', fw_smc (padded RMM_ISLET_GET_VHUK [id]) mem w = (r, mem, w')
                 /\ length r = 8%nat /\ reg 0 r = 0 /\ u64s_bytes (take 4 (drop 1 r)) = key
                 /\ hes_of w' = hes_of w
}.

Section setup.
Context `{El3Relays} `{!HesCryptoLaws} `{!HesKeysLaws}.

Lemma smc_run cmd args s r mem w :
  (length args <= 6)%nat -> fw_smc (padded cmd args) (memory s) (firmware s) = (r, mem, w) ->
  el3_smc cmd args s = (Ok r, mkBootState mem (el3_keys s) w).
Proof. intros Ha E. unfold el3_smc. rewrite decide_False by lia. unfold padded in E. by rewrite E. Qed.

Lemma log_error_ok {A} (f : unit -> M Boot Empty_set A) s : (log_error (to_isize 0) ≫= f) s = f tt s.
Proof. done. Qed.

Lemma va_to_vec_run {A} ptr n (f : list Z -> M Boot Empty_set A) s :
  n <= PAGE_SIZE -> (va_to_vec ptr n ≫= f) s = f (read_bytes (memory s) ptr n) s.
Proof.
  intros Hn. apply bind_ok. unfold va_to_vec.
  by rewrite (proj2 (Z.ltb_ge _ _)) by (unfold PAGE_SIZE, RMM_HEAP_SIZE in *; lia).
Qed.

Lemma get_realm_attest_key_run s key h :
  HES.get_delegated_key SecpR1 Bits384 HashAlgo.Sha256 (hes_of (firmware s)) = (Ok key, h) ->
  len key <= PAGE_SIZE ->
  exists mem w, get_realm_attest_key s
                  = (Ok tt, mkBootState mem (set_attest_key key (el3_keys s)) w) /\ hes_of w = h.
Proof.
  intros Hk Hl. destruct (relay_attest_key RMM_SHARED_BUFFER_START PAGE_SIZE (memory s) _ _ _ Hk Hl)
    as (r & w & E & R0 & R1 & Hw).
  eexists _, w. split; [|done]. unfold get_realm_attest_key.
  erewrite bind_ok by (apply smc_run; [cbn; lia|exact E]). rewrite R0, R1. cbv zeta.
  rewrite log_error_ok, va_to_vec_run by done. cbn [memory]. by rewrite read_write_bytes.
Qed.

Lemma get_plat_token_run s k cose token :
  0 < k < ORDER NistP384 -> REALM_ATTEST_KEY (el3_keys s) = p384_to_bytes k ->
  HES.get_platform_token (sha256 (p384_sec1 k)) (hes_of (firmware s)) = Ok cose ->
  to_tagged_vec cose = Some token -> len token <= PAGE_SIZE ->
  exists mem w, get_plat_token s
                  = (Ok tt, mkBootState mem (set_plat_token token (el3_keys s)) w)
                /\ hes_of w = hes_of (firmware s).
Proof.
  intros Hk Hr Ht Hv Hl. pose proof (sha256_len (p384_sec1 k)) as Hd.
  set (m := write_bytes RMM_SHARED_BUFFER_START (sha256 (p384_sec1 k)) (memory s)).
  rewrite <- (read_write_bytes (memory s) RMM_SHARED_BUFFER_START (sha256 (p384_sec1 k))), Hd in Ht.
  destruct (relay_plat_token RMM_SHARED_BUFFER_START PAGE_SIZE m _ _ _ Ht Hv Hl)
    as (r & w & E & R0 & R1 & Hw).
  eexists _, w. split; [|done]. unfold get_plat_token, get_key. mstep. rewrite Hr.
  unfold get_realm_public_key_hash. rewrite p384_decodes by done.
  cbn [unwrap mbind outcome_bind calculate_hash].
  change (mret ?x) with (@Ok Empty_set (list Z) x). mstep.
  unfold vec_to_va. rewrite Hd, (proj2 (Z.ltb_ge _ _)) by (unfold PAGE_SIZE; lia). mstep.
  erewrite bind_ok by (apply smc_run; [cbn; lia|exact E]). rewrite R0, R1. cbv zeta.
  rewrite log_error_ok, va_to_vec_run by done. cbn [memory]. by rewrite read_write_bytes.
Qed.

Lemma get_vhuk_run s id get set key :
  match id with
  | 1 => HES.get_authority_vhuk (hes_of (firmware s)) = Ok key
  | 2 => HES.get_measurement_vhuk (hes_of (firmware s)) = Ok key
  | _ => False
  end -> len (get (el3_keys s)) = 32 ->
  exists w, get_vhuk id get set s = (Ok 0, mkBootState (memory s) (set key (el3_keys s)) w)
            /\ hes_of w = hes_of (firmware s).
Proof.
  intros Hk Hl. destruct (relay_vhuk id (memory s) _ _ Hk) as (r & w & E & Hr & R0 & R1 & Hw).
  exists w. split; [|done]. unfold get_vhuk, get_key.
  erewrite bind_ok by (apply smc_run; [cbn; lia|exact E]). rewrite R0. cbv zeta.
  rewrite log_error_ok. mstep. cbn [el3_keys].
  rewrite set_array_spec by (done || lia). mstep. by rewrite R1.
Qed.

(** ** The HES's side *)

(** The delegated key of a HES with the encoded measurements [salt], and the HES
    after it was asked for. *)
Definition hes_dak (h : HES.t) (salt : list Z) : Z :=
  candidate NistP384 (dak_seed (HES.attestation_mgr h)) salt + 1.
Definition with_dak (h : HES.t) (k : Z) : HES.t :=
  HES.set_attest (Attest.set_dak (Some (mkDAKInfo HashAlgo.Sha256 Bits384 (p384_to_bytes k)))
                    (HES.attestation_mgr h)) h.

Lemma delegated_key_run h ms salt :
  HES.fetch_current_measurements h = Ok ms ->
  len (km_guk (Attest.derivation_material (HES.attestation_mgr h))) = 32 ->
  into_writer (encode_measurements ms) = Some salt -> hes_dak h salt < ORDER NistP384 ->
  0 < hes_dak h salt
  /\ HES.get_delegated_key SecpR1 Bits384 HashAlgo.Sha256 h
     = (Ok (p384_to_bytes (hes_dak h salt)), with_dak h (hes_dak h salt)).
Proof.
  intros Hf Hg Hs Hk. unfold hes_dak in *.
  pose proof (candidate_nonneg NistP384 (dak_seed (HES.attestation_mgr h)) salt (or_intror eq_refl)).
  split; [lia|]. unfold HES.get_delegated_key. mstep. rewrite Hf. mstep. unfold HES.on_attest.
  rewrite (attest_delegated_key_spec _ _ _ _ salt) by done. cbn [curve_of].
  by rewrite (proj2 (Z.leb_le _ _)) by lia.
Qed.

Lemma fetch_with_dak h k :
  HES.fetch_current_measurements (with_dak h k) = HES.fetch_current_measurements h.
Proof. unfold HES.fetch_current_measurements. f_equal. Qed.

Lemma vhuks_with_dak h k :
  HES.get_authority_vhuk (with_dak h k) = HES.get_authority_vhuk h
  /\ HES.get_measurement_vhuk (with_dak h k) = HES.get_measurement_vhuk h.
Proof.
  unfold HES.get_authority_vhuk, HES.get_measurement_vhuk. rewrite fetch_with_dak.
  split; destruct (HES.fetch_current_measurements h); reflexivity.
Qed.

Lemma platform_token_run h ms k claims token sig :
  HES.fetch_current_measurements h = Ok ms -> 0 < k < ORDER NistP384 ->
  Attest.encode_claims (sha256 (p384_sec1 k)) ms (HES.attestation_mgr (with_dak h k)) = Ok claims ->
  into_writer claims = Some token ->
  Attest.sign (sig_structure token) (HES.attestation_mgr (with_dak h k)) = Ok sig ->
  HES.get_platform_token (sha256 (p384_sec1 k)) (with_dak h k) = Ok (mkCoseSign1 token sig).
Proof.
  intros Hf Hk Hc Ht Hs. unfold HES.get_platform_token.
  rewrite fetch_with_dak, Hf.
  cbn [mbind outcome_bind].
  rewrite (attest_token_spec (HES.attestation_mgr (with_dak h k)) HashAlgo.Sha256 Bits384 k NistP384
             _ ms eq_refl Hk eq_refl). cbn [calculate_public_key_hash public_bytes].
  rewrite bool_decide_true by done. rewrite Hc. cbn [mbind outcome_bind].
  rewrite Ht. cbn [unwrap mbind outcome_bind]. by rewrite Hs.
Qed.

Lemma measurement_vhuk_run h ms salt :
  HES.fetch_current_measurements h = Ok ms -> into_writer (encode_measurements ms) = Some salt ->
  len (HES.huk h) = 32 ->
  HES.get_measurement_vhuk h = Ok (kdf VHUK_M_LABEL (salt ++ le_bytes 4 (HES.lcs h)) (HES.huk h)).
Proof.
  intros Hf Hs Hh. unfold HES.get_measurement_vhuk. rewrite Hf. cbn [mbind outcome_bind].
  rewrite Hs. cbn [ok_or mbind outcome_bind]. by rewrite generate_seed_spec, Hh.
Qed.

Lemma authority_vhuk_kdf h key :
  HES.get_authority_vhuk h = Ok key -> exists l c, key = kdf l c (HES.huk h).
Proof.
  unfold HES.get_authority_vhuk. destruct (HES.fetch_current_measurements h); [|done..].
  cbn [mbind outcome_bind]. rewrite generate_seed_spec. destruct (_ =? _); [|done].
  intros [= <-]. by eexists _, _.
Qed.
Lemma measurement_vhuk_kdf h key :
  HES.get_measurement_vhuk h = Ok key -> exists l c, key = kdf l c (HES.huk h).
Proof.
  unfold HES.get_measurement_vhuk. destruct (HES.fetch_current_measurements h); [|done..].
  cbn [mbind outcome_bind]. destruct (ok_or _ _); [|done..]. cbn [mbind outcome_bind].
  rewrite generate_seed_spec. destruct (_ =? _); [|done]. intros [= <-]. by eexists _, _.
Qed.

(** The whole exchange. *)
Lemma setup_run s ms salt ka km claims token sig tagged :
  let h := hes_of (firmware s) in
  let k := hes_dak h salt in
  HES.fetch_current_measurements h = Ok ms ->
  len (km_guk (Attest.derivation_material (HES.attestation_mgr h))) = 32 ->
  into_writer (encode_measurements ms) = Some salt -> k < ORDER NistP384 ->
  HES.get_authority_vhuk h = Ok ka -> HES.get_measurement_vhuk h = Ok km ->
  Attest.encode_claims (sha256 (p384_sec1 k)) ms (HES.attestation_mgr (with_dak h k)) = Ok claims ->
  into_writer claims = Some token ->
  Attest.sign (sig_structure token) (HES.attestation_mgr (with_dak h k)) = Ok sig ->
  to_tagged_vec (mkCoseSign1 token sig) = Some tagged -> len tagged <= PAGE_SIZE ->
  len (VHUK_A (el3_keys s)) = 32 -> len (VHUK_M (el3_keys s)) = 32 ->
  0 < k /\ exists s', setup_el3_ifc s = (Ok tt, s')
    /\ el3_keys s' = mkEl3Keys ka km tagged (p384_to_bytes k).
Proof.
  intros h k Hf Hg Hsalt Hk Ha Hm Hc Ht Hs Htag Hl Hla Hlm.
  destruct (delegated_key_run h ms salt Hf Hg Hsalt Hk) as [Hpos Hd]. fold k in Hpos, Hd.
  split; [done|].
  destruct (get_realm_attest_key_run s _ _ Hd) as (m1 & w1 & E1 & W1).
  { rewrite p384_bytes_len. unfold PAGE_SIZE. lia. }
  destruct (get_plat_token_run (mkBootState m1 (set_attest_key (p384_to_bytes k) (el3_keys s)) w1)
              k (mkCoseSign1 token sig) tagged) as (m2 & w2 & E2 & W2); [done|done| |done|done|].
  { cbn [firmware]. rewrite W1. by eapply platform_token_run. }
  cbn [firmware el3_keys] in W2, E2.
  destruct (get_vhuk_run (mkBootState m2 (set_plat_token tagged (set_attest_key (p384_to_bytes k)
              (el3_keys s))) w2) ID_VHUK_A VHUK_A set_vhuk_a ka) as (w3 & E3 & W3); [|done|].
  { unfold ID_VHUK_A. cbn [firmware]. rewrite W2, W1. rewrite (proj1 (vhuks_with_dak h k)). exact Ha. }
  cbn [firmware el3_keys memory] in W3, E3.
  destruct (get_vhuk_run (mkBootState m2 (set_vhuk_a ka (set_plat_token tagged
              (set_attest_key (p384_to_bytes k) (el3_keys s)))) w3) ID_VHUK_M VHUK_M set_vhuk_m km)
    as (w4 & E4 & W4); [|done|].
  { unfold ID_VHUK_M. cbn [firmware]. rewrite W3, W2, W1. rewrite (proj2 (vhuks_with_dak h k)). exact Hm. }
  eexists. split.
  { unfold setup_el3_ifc, get_vhuks. erewrite bind_ok by exact E1. erewrite bind_ok by exact E2.
    erewrite bind_ok by exact E3. rewrite log_error_ok.
    erewrite bind_ok by exact E4. reflexivity. }
  reflexivity.
Qed.
End setup.

(** ** Tokens of realms *)
Section chain.
Context `{PL : PlatformLaws} `{El3Relays} `{!HesCryptoLaws} `{!HesKeysLaws}.

(** The claims [realm_claims] builds state the public key. *)
Lemma realm_claims_key challenge rpv ms algo key v :
  realm_claims challenge rpv ms algo key = Ok v ->
  exists l, v = VMap l /\ (VInteger PUBLIC_KEY_LABEL, VBytes key) ∈ l.
Proof.
  unfold realm_claims, array_vec. intros E.
  repeat (lazymatch goal with
          | E : (mbind _ ?m) = Ok _ |- _ => destruct m eqn:?; [|done..]; cbn [mbind outcome_bind] in E
          end).
  injection E as <-. eexists. split; [done|].
  destruct (Z.of_nat (length key) <=? 97); simplify_eq. set_solver.
Qed.

Lemma get_token_parts k challenge ms rpv algo t :
  get_token k challenge ms rpv algo = Ok t ->
  exists claims l pk sig, claims = VMap l
    /\ p384_public (REALM_ATTEST_KEY k) = Some pk /\ (VInteger PUBLIC_KEY_LABEL, VBytes pk) ∈ l
    /\ cose_sign1 (REALM_ATTEST_KEY k) (cbor_encode claims) = Some sig
    /\ t = cbor_encode (VTag CCA_TOKEN_COLLECTION (VMap
          [(VInteger CCA_PLATFORM_TOKEN, VBytes (PLAT_TOKEN k));
           (VInteger CCA_REALM_DELEGATED_TOKEN, VBytes sig)])).
Proof.
  unfold get_token, create_realm_token, array_vec. intros E.
  destruct (_ <=? MAX_PLATFORM_TOKEN_SIZE); [|done]. cbn [mbind outcome_bind] in E.
  destruct (hash_algo_id algo) as [a| | |]; [|done..]. cbn [mbind outcome_bind] in E.
  destruct (_ <=? 48); [|done]. cbn [mbind outcome_bind] in E.
  destruct (p384_public _) as [pk|]; [|done]. cbn [unwrap mbind outcome_bind] in E.
  destruct (realm_claims _ _ _ _ _) as [v| | |] eqn:Ev; [|done..]. cbn [mbind outcome_bind] in E.
  destruct (cose_sign1 _ _) as [sig|] eqn:Es; [|done]. cbn [unwrap mbind outcome_bind] in E.
  injection E as <-. destruct (realm_claims_key _ _ _ _ _ _ Ev) as (l & -> & Hl).
  by exists (VMap l), l, pk, sig.
Qed.

(** What a realm's measurements and the arguments of a token are. *)
Definition measurement_list_wf (ms : list (list Z)) : Prop :=
  Z.of_nat (length ms) = MEASUREMENTS_SLOT_NR /\ Forall (fun m => length m = 64%nat) ms.

Lemma measurement_entry_ok m size :
  length m = 64%nat -> size <= 64 -> exists v, measurement_entry m size = Ok v.
Proof.
  intros Hm Hs. unfold measurement_entry. rewrite (proj2 (Z.leb_le _ _)) by lia. by eexists.
Qed.

Lemma measurement_entries_ok ms size :
  Forall (fun m => length m = 64%nat) ms -> size <= 64 ->
  exists vs, measurement_entries ms size = Ok vs.
Proof.
  intros Hf Hs. induction Hf as [|m ms Hm Hf [vs IH]]; [by eexists|]. cbn [measurement_entries].
  destruct (measurement_entry_ok m size Hm Hs) as [v ->]. cbn [mbind outcome_bind]. rewrite IH. by eexists.
Qed.

Lemma algo_known algo :
  algo = Rmi.HASH_ALGO_SHA256 \/ algo = Rmi.HASH_ALGO_SHA512 ->
  exists a n, hash_algo_id algo = Ok a /\ measurement_size a = Ok n /\ n <= 64.
Proof. intros [-> | ->]; [exists "sha-256"%string, 32 | exists "sha-512"%string, 64]; by split_and!. Qed.

Lemma get_token_total k challenge ms rpv algo :
  (length challenge <= 64)%nat -> (length rpv <= 64)%nat -> measurement_list_wf ms ->
  algo = Rmi.HASH_ALGO_SHA256 \/ algo = Rmi.HASH_ALGO_SHA512 ->
  len (REALM_ATTEST_KEY k) = 48 -> forall pk, p384_public (REALM_ATTEST_KEY k) = Some pk -> len pk = 97 ->
  if len (PLAT_TOKEN k) <=? MAX_PLATFORM_TOKEN_SIZE
  then exists t, get_token k challenge ms rpv algo = Ok t
  else get_token k challenge ms rpv algo = Panicked.
Proof.
  intros Hc Hp [Hn Hf] Ha Hk pk Epk Hpk. unfold get_token, array_vec.
  fold (len (PLAT_TOKEN k)). destruct (_ <=? MAX_PLATFORM_TOKEN_SIZE); [|done].
  cbn [mbind outcome_bind]. unfold create_realm_token, array_vec, realm_claims, array_vec.
  destruct (algo_known algo Ha) as (a & n & -> & En & Hle). cbn [mbind outcome_bind].
  unfold len in Hk, Hpk. rewrite (proj2 (Z.leb_le _ 48)) by lia. cbn [mbind outcome_bind].
  rewrite Epk. cbn [unwrap mbind outcome_bind].
  rewrite !(proj2 (Z.leb_le _ 64)) by lia. cbn [mbind outcome_bind].
  rewrite En. cbn [mbind outcome_bind].
  rewrite (proj2 (Z.leb_gt _ REM_SLOT_NR)) by (rewrite Hn; unfold REM_SLOT_NR; lia).
  destruct ms as [|rim ms]; [done|]. change ((rim :: ms) !! Z.to_nat MEASUREMENTS_SLOT_RIM) with (Some rim).
  change (drop 1 (rim :: ms)) with ms.
  cbn [unwrap mbind outcome_bind]. apply Forall_cons in Hf as [Hr Hf].
  destruct (measurement_entry_ok rim n Hr Hle) as [v ->]. cbn [mbind outcome_bind].
  destruct (measurement_entries_ok (take (Z.to_nat REM_SLOT_NR) ms) n) as [vs ->];
    [by apply Forall_take|done|]. cbn [mbind outcome_bind].
  rewrite (proj2 (Z.leb_le _ _)) by lia. cbn [mbind outcome_bind].
  match goal with |- context [cose_sign1 _ ?d] => destruct (cose_sign1_key _ _ d Epk) as [sig ->] end.
  by eexists.
Qed.

(** C30: The attestation chain, from the measured boot to a realm's token. On a
    platform whose firmware relays the boot-time exchange to the HES, the
    set-up succeeds: the virtual keys are the KDF of the measured software, and
    the realm attestation key is the key the HES delegated. Every attestation
    token the RMM then makes for a realm carries the platform token the HES
    signed, whose challenge is the SHA-256 of the very public key the realm
    token states and is signed with. Such a token is made for every challenge
    and every set of measurements as long as the platform token fits 2048
    bytes; a longer one, which the set-up accepts up to a page, makes every
    request panic. *)
Theorem attestation_chain s bs xs salt claims token sig tagged :
  let h := hes_of (firmware s) in
  let k := hes_dak h salt in
  let info := HES.authority_info (reported (logs_of bs xs)) in
  managed bs xs (HES.measured_boot_mgr h) ->
  len (km_guk (Attest.derivation_material (HES.attestation_mgr h))) = 32 -> len (HES.huk h) = 32 ->
  into_writer (encode_measurements (reported (logs_of bs xs))) = Some salt -> k < ORDER NistP384 ->
  Attest.encode_claims (sha256 (p384_sec1 k)) (reported (logs_of bs xs))
    (HES.attestation_mgr (with_dak h k)) = Ok claims ->
  into_writer claims = Some token ->
  Attest.sign (sig_structure token) (HES.attestation_mgr (with_dak h k)) = Ok sig ->
  to_tagged_vec (mkCoseSign1 token sig) = Some tagged -> len tagged <= PAGE_SIZE ->
  el3_keys s = keys_at_reset ->
  p384_public (p384_to_bytes k) = Some (p384_sec1 k) -> len (p384_sec1 k) = 97 ->
  exists s', setup_el3_ifc s = (Ok tt, s')
    /\ VHUK_A (el3_keys s') = kdf VHUK_A_LABEL (info ++ le_bytes 4 (HES.lcs h)) (HES.huk h)
    /\ VHUK_M (el3_keys s') = kdf VHUK_M_LABEL (salt ++ le_bytes 4 (HES.lcs h)) (HES.huk h)
    /\ (forall challenge ms rpv algo t,
          get_token (el3_keys s') challenge ms rpv algo = Ok t ->
          exists rest realm signed,
            claims = VMap ((VInteger TokenTag.CCA_PLAT_CHALLENGE, VBytes (sha256 (p384_sec1 k))) :: rest)
            /\ (VInteger PUBLIC_KEY_LABEL, VBytes (p384_sec1 k)) ∈ realm
            /\ cose_sign1 (p384_to_bytes k) (cbor_encode (VMap realm)) = Some signed
            /\ t = cbor_encode (VTag CCA_TOKEN_COLLECTION (VMap
                 [(VInteger CCA_PLATFORM_TOKEN, VBytes tagged);
                  (VInteger CCA_REALM_DELEGATED_TOKEN, VBytes signed)])))
    /\ (forall challenge ms rpv algo,
          (length challenge <= 64)%nat -> (length rpv <= 64)%nat -> measurement_list_wf ms ->
          algo = Rmi.HASH_ALGO_SHA256 \/ algo = Rmi.HASH_ALGO_SHA512 ->
          if len tagged <=? MAX_PLATFORM_TOKEN_SIZE
          then exists t, get_token (el3_keys s') challenge ms rpv algo = Ok t
          else get_token (el3_keys s') challenge ms rpv algo = Panicked).
Proof.
  intros h k info [Hm Hw]%managed_logs Hg Hh Hsalt Hk Hc Ht Hs Htag Hl Hr Hpub Hp97.
  pose proof (fetch_spec h _ Hw Hm) as Hf.
  destruct (setup_run s _ salt _ _ claims token sig tagged Hf Hg Hsalt Hk
              (authority_vhuk_spec h _ Hw Hm Hh) (measurement_vhuk_run h _ salt Hf Hsalt Hh)
              Hc Ht Hs Htag Hl) as (Hpos & s' & Es & Ek); [by rewrite Hr..|].
  fold h k in Ek. exists s'. split; [exact Es|]. rewrite Ek. cbn [VHUK_A VHUK_M].
  split; [reflexivity|]. split; [reflexivity|]. split.
  - intros challenge ms rpv algo t (v & l & pk & signed & -> & Hpk & Hin & Hsig & ->)%get_token_parts.
    cbn [REALM_ATTEST_KEY PLAT_TOKEN] in *. rewrite Hpub in Hpk. injection Hpk as <-.
    unfold Attest.encode_claims in Hc. cbn in Hc. injection Hc as <-.
    eexists _, l, signed. split; [reflexivity|]. by split_and!.
  - intros challenge ms rpv algo Hch Hrp Hms Ha.
    apply (get_token_total (mkEl3Keys _ _ tagged (p384_to_bytes k))) with (p384_sec1 k); try done.
    apply p384_bytes_len.
Qed.

(** An error of the firmware is logged and then ignored: whatever the shared
    page holds becomes the attestation key. *)
Theorem el3_error_ignored s r mem w code :
  fw_smc (padded RMM_GET_REALM_ATTEST_KEY [RMM_SHARED_BUFFER_START; PAGE_SIZE; 0])
    (memory s) (firmware s) = (r, mem, w) ->
  to_isize (reg 0 r) = code -> -5 <= code <= -1 -> reg 1 r <= PAGE_SIZE ->
  exists s', get_realm_attest_key s = (Ok tt, s')
    /\ REALM_ATTEST_KEY (el3_keys s') = read_bytes mem RMM_SHARED_BUFFER_START (reg 1 r).
Proof.
  intros E Hcode Hrange Hl. unfold get_realm_attest_key.
  erewrite bind_ok by (apply smc_run; [cbn; lia|exact E]). cbv zeta. rewrite Hcode.
  assert (log_error code (mkBootState mem (el3_keys s) w) = (Ok tt, mkBootState mem (el3_keys s) w)) as El.
  { assert (code = -1 \/ code = -2 \/ code = -3 \/ code = -4 \/ code = -5) as Hx by lia.
    by destruct_or! Hx; subst code; rewrite Hx. }
  erewrite bind_ok by exact El. rewrite va_to_vec_run by done. by eexists.
Qed.
End chain.

(** ** A concrete firmware *)

(** A firmware with the HES behind it. *)
Definition pad8 (l : list Z) : list Z := take 8 (l ++ replicate 8 0).

Definition failed (mem : Z -> Z) (h : HES.t) : list Z * (Z -> Z) * HES.t :=
  (pad8 [2 ^ 64 - 1], mem, h).

Definition relay_key (buf : Z) (mem : Z -> Z) (h : HES.t) : list Z * (Z -> Z) * HES.t :=
  match HES.get_delegated_key SecpR1 Bits384 HashAlgo.Sha256 h with
  | (Ok key, h') => (pad8 [0; len key], write_bytes buf key mem, h')
  | _ => failed mem h
  end.

Definition relay_token (buf n : Z) (mem : Z -> Z) (h : HES.t) : list Z * (Z -> Z) * HES.t :=
  match HES.get_platform_token (read_bytes mem buf n) h with
  | Ok cose => match to_tagged_vec cose with
               | Some t => (pad8 [0; len t], write_bytes buf t mem, h)
               | None => failed mem h
               end
  | _ => failed mem h
  end.

Definition relay_vhuk_smc (id : Z) (mem : Z -> Z) (h : HES.t) : list Z * (Z -> Z) * HES.t :=
  match (if id =? ID_VHUK_A then HES.get_authority_vhuk h else HES.get_measurement_vhuk h) with
  | Ok key => (pad8 (0 :: u64s_at 0 4 key), mem, h)
  | _ => failed mem h
  end.

Definition relay_smc (regs : list Z) (mem : Z -> Z) (h : HES.t) : list Z * (Z -> Z) * HES.t :=
  if reg 0 regs =? RMM_GET_REALM_ATTEST_KEY then relay_key (reg 1 regs) mem h
  else if reg 0 regs =? RMM_GET_PLAT_TOKEN then relay_token (reg 1 regs) (reg 3 regs) mem h
  else relay_vhuk_smc (reg 1 regs) mem h.

#[local] Instance relay_fw : El3Fw := {| fw := HES.t; fw_smc := relay_smc |}.

Lemma toy_kdf_bytes label context key :
  len (kdf label context key) = 32 /\ Forall is_byte (kdf label context key).
Proof.
  unfold kdf. cbn [aes256_block toy_keys]. set (d := sha256 _).
  assert (length d = 32%nat /\ Forall is_byte d) as [Hl Hb].
  { split; [apply length_le_bytes|apply le_bytes_forall]. }
  rewrite <- map_app, take_drop. split; [unfold len; rewrite length_map; lia|].
  apply Forall_fmap. eapply Forall_impl; [exact Hb|]. intros x Hx. cbn. unfold is_byte in *.
  split; [apply Z.lxor_nonneg; lia|].
  destruct (decide (Z.lxor x 90 = 0)) as [->|Hn]; [lia|].
  apply (Z.log2_lt_pow2 _ 8); [pose proof (proj2 (Z.lxor_nonneg x 90)); lia|].
  pose proof (Z.log2_lxor x 90 ltac:(lia) ltac:(lia)) as Hx2.
  assert (Z.log2 x < 8) by (destruct (decide (x = 0)) as [->|]; [done|apply Z.log2_lt_pow2; lia]).
  change (Z.log2 90) with 6 in Hx2. lia.
Qed.

Lemma relay_vhuk_regs key :
  len key = 32 -> Forall is_byte key -> u64s_bytes (take 4 (drop 1 (pad8 (0 :: u64s_at 0 4 key)))) = key.
Proof. intros Hl Hb. apply (u64s_at_bytes 4 0 key); [lia|exact (eq_sym Hl)|done]. Qed.

Lemma relay_dispatch cmd args mem h :
  relay_smc (padded cmd args) mem h =
    if cmd =? RMM_GET_REALM_ATTEST_KEY then relay_key (reg 0 args) mem h
    else if cmd =? RMM_GET_PLAT_TOKEN then relay_token (reg 0 args) (reg 2 args) mem h
    else relay_vhuk_smc (reg 0 args) mem h.
Proof. unfold relay_smc. destruct args as [|? [|? [|? ?]]]; reflexivity. Qed.

Lemma relay_vhuk_ok id mem (w : HES.t) key :
  match id with
  | 1 => HES.get_authority_vhuk w = Ok key
  | 2 => HES.get_measurement_vhuk w = Ok key
  | _ => False
  end ->
  len key = 32 /\ Forall is_byte key
  /\ relay_vhuk_smc id mem w = (pad8 (0 :: u64s_at 0 4 key), mem, w).
Proof.
  intros Hk. assert (id = 1 \/ id = 2) as [-> | ->] by (destruct id as [|[[]|[]|]|]; tauto).
  - unfold relay_vhuk_smc. rewrite (eq_refl : (1 =? ID_VHUK_A) = true), Hk.
    destruct (authority_vhuk_kdf _ _ Hk) as (l & c & ->). destruct (toy_kdf_bytes l c (HES.huk w)).
    split; [assumption|]. split; [assumption|reflexivity].
  - unfold relay_vhuk_smc. rewrite (eq_refl : (2 =? ID_VHUK_A) = false), Hk.
    destruct (measurement_vhuk_kdf _ _ Hk) as (l & c & ->). destruct (toy_kdf_bytes l c (HES.huk w)).
    split; [assumption|]. split; [assumption|reflexivity].
Qed.

#[local] Instance relay_laws : El3Relays.
Proof.
  refine {| hes_of := fun h : @fw relay_fw => h |}; cbn [fw_smc relay_fw]; intros *; rewrite relay_dispatch.
  - intros Hk _. exists (pad8 [0; len key]), h. rewrite Z.eqb_refl. unfold relay_key. rewrite Hk.
    by split_and!.
  - intros Ht Hv _. exists (pad8 [0; len token]), w.
    rewrite (eq_refl : (RMM_GET_PLAT_TOKEN =? RMM_GET_REALM_ATTEST_KEY) = false), Z.eqb_refl.
    change (reg 0 [buf; size; 32]) with buf. change (reg 2 [buf; size; 32]) with 32.
    unfold relay_token. rewrite Ht, Hv. by split_and!.
  - intros (Hl & Hb & E)%(relay_vhuk_ok id mem w key). eexists _, w.
    rewrite (eq_refl : (RMM_ISLET_GET_VHUK =? RMM_GET_REALM_ATTEST_KEY) = false),
      (eq_refl : (RMM_ISLET_GET_VHUK =? RMM_GET_PLAT_TOKEN) = false).
    split; [exact E|]. split_and!; try reflexivity. by apply relay_vhuk_regs.
Defined.

(** ** Witness *)

(** The sample platform with the public keys of the sample curve. *)
#[local] Instance chain_platform : Platform := {|
  world := @world sample_platform;
  firmware_smc := @firmware_smc sample_platform;
  heap_alloc := @heap_alloc sample_platform;
  rd_bytes := @rd_bytes sample_platform;
  rd_of_bytes := @rd_of_bytes sample_platform;
  rec_bytes := @rec_bytes sample_platform;
  rec_of_bytes := @rec_of_bytes sample_platform;
  SIMD_CONFIG := @SIMD_CONFIG sample_platform;
  feat_vmid16 := @feat_vmid16 sample_platform;
  Machine.sha256 := @Machine.sha256 sample_platform;
  Machine.sha512 := @Machine.sha512 sample_platform;
  p384_verify := @p384_verify sample_platform;
  Machine.hkdf_sha256 := @Machine.hkdf_sha256 sample_platform;
  cbor_encode := @cbor_encode sample_platform;
  p384_public b := if sample_key_ok b then Some (p384_sec1 (be_value b)) else None;
  cose_sign1 := @cose_sign1 sample_platform;
  GIC_FEATURES := @GIC_FEATURES sample_platform;
  HPFAR_FIPA := @HPFAR_FIPA sample_platform;
  realm_run := @realm_run sample_platform
|}.

#[local] Instance chain_platform_laws : PlatformLaws chain_platform.
Proof.
  split; try apply sample_platform_laws.
  intros key pk payload. cbn [p384_public chain_platform].
  change (cose_sign1 key payload) with (@cose_sign1 sample_platform key payload).
  cbn [cose_sign1 sample_platform]. destruct (sample_key_ok key); [by eexists|done].
Qed.

Definition boot0 : Boot := mkBootState (fun _ => 0) keys_at_reset (hes_with boot_mgr).
Definition dak0 : Z := hes_dak (hes_with boot_mgr) [128; 2].

Lemma attestation_chain_witness :
  exists s' t, setup_el3_ifc boot0 = (Ok tt, s')
    /\ get_token (el3_keys s') [1; 2; 3] (replicate 5 (replicate 64 0)) [] Rmi.HASH_ALGO_SHA256 = Ok t.
Proof.
  assert (0 <= dak0 < ORDER NistP384) as Hk by (by vm_compute).
  destruct (Attest.encode_claims (sha256 (p384_sec1 dak0)) (reported (logs_of boot []))
              (HES.attestation_mgr (with_dak (hes_with boot_mgr) dak0))) as [claims| | |] eqn:Ec;
    [|discriminate Ec..].
  destruct (into_writer claims) as [token|] eqn:Et; [|by destruct claims].
  destruct (attestation_chain boot0 boot [] [128; 2] claims token
              (toy_digest 96 (p384_to_bytes 5 ++ sig_structure token))
              (token ++ toy_digest 96 (p384_to_bytes 5 ++ sig_structure token)))
    as (s' & Es & _ & _ & _ & Htok).
  - exact (boot_managed [] (Forall_nil_2 _)).
  - reflexivity.
  - reflexivity.
  - by vm_compute.
  - apply Hk.
  - exact Ec.
  - exact Et.
  - reflexivity.
  - reflexivity.
  - assert (len token <= 2) by (destruct claims; injection Et as <-; by vm_compute).
    rewrite len_app. unfold len at 2, toy_digest. rewrite length_le_bytes. unfold PAGE_SIZE. lia.
  - reflexivity.
  - cbn [p384_public chain_platform p384_to_bytes toy_keys]. fold dak0.
    match goal with |- context [sample_key_ok ?b] =>
      rewrite (eq_refl : sample_key_ok b = true) end.
    rewrite be_value_bytes; [reflexivity|]. split; [apply Hk|].
    eapply Z.lt_trans; [apply Hk|by vm_compute].
  - cbn [p384_sec1 toy_keys]. unfold len, be_bytes. cbn [length]. by rewrite length_rev, length_le_bytes.
  - specialize (Htok [1; 2; 3] (replicate 5 (replicate 64 0)) [] Rmi.HASH_ALGO_SHA256).
    destruct (_ <=? _) eqn:El in Htok.
    2:{ exfalso. apply Z.leb_gt in El.
        assert (len token <= 2) by (destruct claims; injection Et as <-; by vm_compute).
        rewrite len_app in El. unfold len at 2, toy_digest in El. rewrite length_le_bytes in El.
        unfold MAX_PLATFORM_TOKEN_SIZE in El. lia. }
    destruct Htok as [t Ht]; [cbn; lia|cbn; lia|split; [done|by repeat constructor]|by left|].
    exists s', t. split; [exact Es|exact Ht].
Defined.
