(* ===== verification/Gst.v ===== *)
(** * The granule status table as a page table (rmm/src/granule/page_table)

    The implementation of the granule status table that the feature
    [gst_page_table] selects in place of the array of Granule: a two-level table
    that grows on demand, whose entries share their granules through [Rc]. It is
    an instance of the generic page table of lib/vmsa with entries that are not
    words, so the two levels of the generic code are written out here.

    An [Rc<Granule>] is created with its entry and stays with it, so it is named
    by the place of the entry, a table and an index; its strong count is kept
    next to it. A guard is the place of the entry it locks. The static
    [GRANULE_STATUS_TABLE] is set at boot, before the first use; [Rc::new] does
    not fail. *)

From S2P Require Import Prelude Vmsa RmiTypes Granule.

(** ** Constants and addresses (mod.rs, translation.rs) *)
Module Gst.
Definition GRANULE_SIZE : Z := 4096.
Definition L0_TABLE_ENTRY_SIZE_RANGE : Z := 1024 * 1024 * 4.
Definition L1_TABLE_ENTRY_SIZE_RANGE : Z := GRANULE_SIZE.
Definition NUM_ENTRIES : Z := L0_TABLE_ENTRY_SIZE_RANGE / L1_TABLE_ENTRY_SIZE_RANGE.
Definition DRAM_SIZE : Z := 0x7C000000 + 0x80000000.

(** The ends are exclusive and one byte short of the array build's. *)
Definition FVP_DRAM0_REGION : Range := mkRange 0x80000000 (0x80000000 + 0x7C000000 - 1).
Definition FVP_DRAM1_REGION : Range := mkRange 0x880000000 (0x880000000 + 0x80000000 - 1).

Definition validate_addr (addr : Z) : bool :=
  if negb (addr mod GRANULE_SIZE =? 0) then false
  else if negb (contains FVP_DRAM0_REGION addr || contains FVP_DRAM1_REGION addr) then false
  else true.

Definition addr_to_idx (phys : Z) : outcome MmError Z :=
  if negb (phys mod GRANULE_SIZE =? 0) then Err MmInvalidAddr
  else if contains FVP_DRAM0_REGION phys then
    Ok ((phys - start FVP_DRAM0_REGION) / GRANULE_SIZE)
  else if contains FVP_DRAM1_REGION phys then
    let num_dram0 := (end_ FVP_DRAM0_REGION - start FVP_DRAM0_REGION + 1) / GRANULE_SIZE in
    Ok ((phys - start FVP_DRAM1_REGION) / GRANULE_SIZE + num_dram0)
  else Err MmInvalidAddr.

(** [Entry::index::<L>] *)
Definition index (level addr : Z) : outcome MmError Z :=
  match addr_to_idx addr with
  | Ok idx =>
      if level =? 0 then Ok (idx * GRANULE_SIZE / L0_TABLE_ENTRY_SIZE_RANGE)
      else if level =? 1 then
        Ok (idx * GRANULE_SIZE mod L0_TABLE_ENTRY_SIZE_RANGE / GRANULE_SIZE)
      else Panicked
  | _ => Panicked
  end.

(** ** The data (entry.rs) *)

(** A table and an index in it. *)
Definition place : Type := Z * Z.

Record Inner : Type := mkInner { rc : place; table : bool; valid : bool }.

(** [struct Granule]; [parent] is a clone of the parent's [Inner]. *)
Record Granule : Type := mkGranule { state : Z; addr : Z; parent : option Inner }.

Definition Granule_new : Granule := mkGranule GranuleState.Undelegated 0 None.
Definition Inner_new (p : place) : Inner := mkInner p false false.

Record t : Type := mk {
  root_pgtbl : Z;
  l1_tables : gmap Z Z;
  (** the tables in the heap, by address *)
  tables : gmap Z (Z -> Inner);
  granules : place -> Granule;
  strong : place -> Z;
  locked : gset place;
  (** the granules [zeroize] wiped, latest first *)
  wiped : list Z
}.

Definition set_l1_tables v s := mk (root_pgtbl s) v (tables s) (granules s) (strong s) (locked s) (wiped s).
Definition set_tables v s := mk (root_pgtbl s) (l1_tables s) v (granules s) (strong s) (locked s) (wiped s).
Definition set_granules v s := mk (root_pgtbl s) (l1_tables s) (tables s) v (strong s) (locked s) (wiped s).
Definition set_strong v s := mk (root_pgtbl s) (l1_tables s) (tables s) (granules s) v (locked s) (wiped s).
Definition set_locked v s := mk (root_pgtbl s) (l1_tables s) (tables s) (granules s) (strong s) v (wiped s).
Definition set_wiped v s := mk (root_pgtbl s) (l1_tables s) (tables s) (granules s) (strong s) (locked s) v.

Definition upd {A} (p : place) (v : A) (f : place -> A) : place -> A :=
  fun q => if decide (q = p) then v else f q.

(** The [Inner] of an entry. *)
Definition inner (p : place) (s : t) : Inner :=
  match tables s !! p.1 with Some e => e p.2 | None => Inner_new p end.
Definition set_inner (p : place) (i : Inner) (s : t) : t :=
  match tables s !! p.1 with
  | Some e => set_tables (<[p.1 := fun j => if decide (j = p.2) then i else e j]> (tables s)) s
  | None => s
  end.

#[local] Abbreviation G := (M t MmError).

(** ** [Rc] *)
Definition rc_clone (p : place) : G unit := modify (fun s => set_strong (upd p (strong s p + 1) (strong s)) s).
Definition rc_drop (p : place) : G unit := modify (fun s => set_strong (upd p (strong s p - 1) (strong s)) s).

(** Dropping an [Option<Inner>]. *)
Definition drop_parent (o : option Inner) : G unit :=
  match o with Some i => rc_drop (rc i) | None => mret tt end.

Definition set_granule_at (p : place) (g : Granule) : G unit :=
  modify (fun s => set_granules (upd p g (granules s)) s).
Definition zeroize (p : place) : G unit :=
  modify (fun s => set_wiped (addr (granules s p) :: wiped s) s).

(** [impl Clone for Inner], of the entry at a place *)
Definition clone (p : place) : G Inner :=
  i ← gets (inner p); rc_clone (rc i);; mret i.

(** ** impl Granule *)
Definition valid_transition (prev state : Z) : bool :=
  if prev =? GranuleState.Undelegated then
    (state =? GranuleState.Delegated) || (state =? GranuleState.Undelegated)
  else if prev =? GranuleState.Delegated then negb (state =? GranuleState.Delegated)
  else state =? GranuleState.Delegated.

(** [refcount] is what the callback of [Inner::set_state] captured. *)
Definition granule_set_state (p : place) (new_addr st refcount : Z) : G unit :=
  prev ← gets (fun s => state (granules s p));
  guard_or (valid_transition prev st) MmStateError;;
  (if st =? GranuleState.Delegated then
     if negb (prev =? GranuleState.RTT) then
       g ← gets (fun s => granules s p);
       set_granule_at p (mkGranule (state g) (addr g) None);;
       drop_parent (parent g);;
       guard_or (negb (1 <? refcount)) MmIsInUse;;
       zeroize p
     else mret tt
   else if st =? GranuleState.Undelegated then
     if prev =? GranuleState.Delegated then zeroize p else mret tt
   else mret tt);;
  g ← gets (fun s => granules s p);
  set_granule_at p (mkGranule st new_addr (parent g)).

Definition granule_set_parent (p : place) (par : Inner) : G unit :=
  g ← gets (fun s => granules s p);
  gp ← gets (fun s => granules s (rc par));
  if negb (state g =? GranuleState.Rec) || negb (state gp =? GranuleState.RD)
  then rc_drop (rc par);; throw MmWrongParentChild
  else
    set_granule_at p (mkGranule (state g) (addr g) (Some par));;
    drop_parent (parent g).

(** ** impl Inner, on the entry at a place *)

(** [Rc::get_mut] *)
Definition get_mut (p : place) : G bool :=
  gets (fun s => strong s (rc (inner p s)) =? 1).

Definition inner_set_state (p : place) (new_addr st : Z) : G unit :=
  i ← gets (inner p);
  refcount ← gets (fun s => strong s (rc i));
  m ← get_mut p;
  guard_or m MmRefcountError;;
  granule_set_state (rc i) new_addr st refcount;;
  modify (set_inner p (mkInner (rc i) false true)).

Definition inner_set_parent (p : place) (par : Inner) : G unit :=
  i ← gets (inner p);
  m ← get_mut p;
  if (m : bool) then granule_set_parent (rc i) par
  else (rc_drop (rc par);; throw MmRefcountError).

(** The place of an [Inner]: in an entry, or in the granule of a child. *)
Inductive inner_ref : Type := InEntry (p : place) | InParent (p : place).
#[global] Instance inner_ref_eq_dec : EqDecision inner_ref.
Proof. solve_decision. Defined.

(** [core::ptr::eq(src_parent, parent)] *)
Definition check_parent (p : place) (par : inner_ref) (s : t) : outcome MmError unit :=
  match parent (granules s (rc (inner p s))) with
  | Some _ => if decide (InParent (rc (inner p s)) = par) then Ok tt else Err MmStateError
  | None => Err MmStateError
  end.

Definition num_children (p : place) (s : t) : Z := strong s (rc (inner p s)) - 1.

(** [btree_slot] is the address of a value in the map, which [add_l1_table]
    returns for the table. *)
Section table.
Context (btree_slot : Z -> Z).

Definition add_l1_table (idx table_addr : Z) : G Z :=
  modify (fun s => set_l1_tables (<[idx := table_addr]> (l1_tables s)) s);;
  mret (btree_slot idx).

Definition get_l1_table_addr (idx : Z) : G Z :=
  m ← gets l1_tables;
  match m !! idx with Some a => mret a | None => throw MmErrorOthers end.

Definition set_state_for_table (p : place) (idx table_addr : Z) : G unit :=
  a ← add_l1_table idx table_addr;
  i ← gets (inner p);
  m ← get_mut p;
  guard_or m MmRefcountError;;
  g ← gets (fun s => granules s (rc i));
  set_granule_at (rc i) (mkGranule (state g) a (parent g));;
  modify (set_inner p (mkInner (rc i) true true)).

(** ** impl page_table::Entry *)

(** [self.0.lock()] for the time of one statement. *)
Definition lock_now (p : place) : G unit := fun s =>
  if decide (p ∈ locked s) then (Hung, s) else (Ok tt, s).

Definition e_is_valid (p : place) : G bool := lock_now p;; gets (fun s => valid (inner p s)).

Definition e_set (p : place) (new_addr flags : Z) : G unit :=
  lock_now p;; inner_set_state p new_addr flags.

Definition e_point_to_subtable (p : place) (idx table_addr : Z) : G unit :=
  lock_now p;;
  v ← gets (fun s => valid (inner p s));
  if negb v then set_state_for_table p idx table_addr else mret tt.

(** The guard is the place, kept locked. *)
Definition e_lock (p : place) : G place :=
  lock_now p;;
  v ← gets (fun s => valid (inner p s));
  guard_or v MmStateError;;
  modify (fun s => set_locked ({[p]} ∪ locked s) s);;
  mret p.

Definition unlock (p : place) : G unit := modify (fun s => set_locked (locked s ∖ {[p]}) s).

(** ** The two levels of lib/vmsa's page table *)
Context (alloc_table : gset Z -> option Z).

(** [&mut self.entries[E::index::<L>(page)]] *)
Definition entry_at (level base page : Z) : G place :=
  i ← lift (index level page);
  if i <? NUM_ENTRIES then mret (base, i) else panic.

(** [PageTable::new_in]: every entry is new, and so is its [Rc]. *)
Definition new_in : G Z :=
  s ← get_state;
  match alloc_table (dom (tables s)) with
  | None => throw MmAllocFail
  | Some a =>
      modify (fun s => set_tables (<[a := fun j => Inner_new (a, j)]> (tables s)) s);;
      modify (fun s => set_granules (fun p => if decide (p.1 = a) then Granule_new else granules s p) s);;
      modify (fun s => set_strong (fun p => if decide (p.1 = a) then 1 else strong s p) s);;
      mret a
  end.

(** [PageTable::subtable]; every entry [points_to_table_or_page]. *)
Definition subtable (base page : Z) : G Z :=
  p ← entry_at 0 base page;
  catch (get_l1_table_addr p.2) (fun _ => throw MmSubtableError).

(** [PageTableMethods::entry] to level 1 with [Entry::lock]. *)
Definition entry_l1 (base page : Z) : G (option place * Z) :=
  p ← entry_at 1 base page;
  v ← e_is_valid p;
  if (v : bool) then g ← e_lock p; mret (Some g, 1) else throw MmNoEntry.

Definition entry_l0 (base page : Z) : G (option place * Z) :=
  p ← entry_at 0 base page;
  v ← e_is_valid p;
  if (v : bool) then
    st ← ok (subtable base page);
    match st with
    | Some a => entry_l1 a page
    | None => mret (None, 0)
    end
  else throw MmNoEntry.

(** [PageTableMethods::set_page] *)
Definition set_page_l1 (base page phys flags : Z) : G unit :=
  p ← entry_at 1 base page;
  e_set p phys (Z.lor flags GranuleState.Undelegated).

Definition set_page_l0 (base page phys flags : Z) : G unit :=
  p ← entry_at 0 base page;
  st ← catch (subtable base page)
         (fun _ => a ← new_in; e_point_to_subtable p p.2 a;; mret a);
  set_page_l1 st page phys flags.

(** ** GranuleStatusTable and the granule transactions (mod.rs) *)

(** [GranuleStatusTable::new] in an empty heap *)
Definition new : outcome MmError t :=
  let '(r, s) := new_in (mk 0 ∅ ∅ (fun _ => Granule_new) (fun _ => 0) ∅ []) in
  match r with
  | Ok a => Ok (mk a ∅ (tables s) (granules s) (strong s) ∅ [])
  | _ => Panicked
  end.

(** [set_granule_raw], which is [GranuleStatusTable::set_granule] *)
Definition set_granule_raw (a st : Z) : G unit :=
  guard_or (validate_addr a) MmInvalidAddr;;
  s ← get_state;
  set_page_l0 (root_pgtbl s) a a st.

(** [get_granule!] *)
Definition get_granule (a : Z) : G place :=
  guard_or (validate_addr a) MmInvalidAddr;;
  s ← get_state;
  r ← entry_l0 (root_pgtbl s) a;
  match r with
  | (Some g, _) => mret g
  | _ => throw MmNoEntry
  end.

Definition guard_state (p : place) (s : t) : Z := state (granules s (rc (inner p s))).
Definition guard_addr (p : place) (s : t) : Z := addr (granules s (rc (inner p s))).

(** [get_granule_if!]: the guard is dropped on the wrong state. *)
Definition get_granule_if (a st : Z) : G place :=
  g ← get_granule a;
  x ← gets (guard_state g);
  if negb (x =? st) then unlock g;; throw MmStateError else mret g.

(** [set_state_and_get_granule!] *)
Definition set_state_and_get_granule (a st : Z) : G place :=
  set_granule_raw a st;; get_granule a.

Definition set_granule (g : place) (st : Z) : M t Error unit :=
  a ← gets (guard_addr g);
  mapm_err error_of_mm (inner_set_state g a st).

(** [parent] was cloned by the caller. *)
Definition set_granule_with_parent (par : Inner) (child : place) (st : Z) : M t Error unit :=
  a ← gets (guard_addr child);
  prev ← gets (guard_state child);
  mapm_err error_of_mm
    (catch (inner_set_state child a st) (fun e => rc_drop (rc par);; throw e);;
     catch (inner_set_parent child par)
       (fun e => inner_set_state child a prev;; throw e)).

Definition check_granule_parent (par : inner_ref) (child : place) (s : t) : outcome Error unit :=
  map_err error_of_mm (check_parent child par s).

(** The guard of the condition is dropped at its end. *)
Definition is_not_in_realm (a : Z) : G bool := fun s =>
  match get_granule_if a GranuleState.Undelegated s with
  | (Ok g, s') => (unlock g;; mret true) s'
  | (Err MmNoEntry, s') => (Ok true, s')
  | (Err _, s') => (Ok false, s')
  | (Panicked, s') => (Panicked, s')
  | (Hung, s') => (Hung, s')
  end.

(** ** What the handlers do with granules in this build

    The granule transactions of GRANULE_DELEGATE, of every state change under a
    guard, of REC_CREATE and of DATA_DESTROY, without the rest of the handler. *)

(** The guard is dropped on every path. *)
Definition with_guard {E A} (g : place) (m : M t E A) : M t E A := fun s =>
  let '(r, s') := m s in (r, set_locked (locked s' ∖ {[g]}) s').

Definition open_undelegated (a : Z) : G place := fun s =>
  match get_granule_if a GranuleState.Undelegated s with
  | (Err MmNoEntry, s') => set_state_and_get_granule a GranuleState.Undelegated s'
  | r => r
  end.

Definition delegate_tx (a : Z) : M t Error unit :=
  g ← mapm_err error_of_mm (open_undelegated a);
  with_guard g (set_granule g GranuleState.Delegated).

Definition transition_tx (a from to : Z) : M t Error unit :=
  g ← mapm_err error_of_mm (get_granule_if a from);
  with_guard g (set_granule g to).

Definition rec_create_tx (rd rec : Z) : M t Error unit :=
  if rec =? rd then throw RmiErrorInput
  else
    rd_granule ← mapm_err error_of_mm (get_granule_if rd GranuleState.RD);
    with_guard rd_granule (
      rec_granule ← mapm_err error_of_mm (get_granule_if rec GranuleState.Delegated);
      with_guard rec_granule (
        par ← mapm_err error_of_mm (clone rd_granule);
        set_granule_with_parent par rec_granule GranuleState.Rec)).

Definition data_destroy_tx (a : Z) : M t Error unit :=
  g ← mapm_err error_of_mm (set_state_and_get_granule a GranuleState.Delegated);
  with_guard g (mret tt).
End table.
End Gst.
