(* ===== verification/GstFacts.v ===== *)
(** * The page-table granule status table refines a flat table

    An abstract granule status table (a state and an optional parent for each
    granule index, plus the list of wiped pages) and the simulation of Gst by
    it: the two-level table with shared granules behaves like one flat array
    whose reference counts are the numbers of children. *)

From S2P Require Import Prelude Vmsa RmiTypes Granule Gst.
From stdpp Require Import list.

Open Scope Z_scope.
Import Gst.

(** ** Addresses and indices *)
Lemma validate_addr_eq a : Gst.validate_addr a = Granule.validate_addr a.
Proof.
  unfold Gst.validate_addr, Granule.validate_addr.
  destruct (Z.eqb_spec (a mod GRANULE_SIZE) 0) as [Hm|Hm];
    [|unfold GRANULE_SIZE, Granule.GRANULE_SIZE in *; by rewrite (proj2 (Z.eqb_neq _ _))].
  unfold GRANULE_SIZE, Granule.GRANULE_SIZE in *. rewrite Hm. cbn [Z.eqb negb].
  assert (contains FVP_DRAM0_REGION a = contains Granule.FVP_DRAM0_REGION a
          /\ contains FVP_DRAM1_REGION a = contains Granule.FVP_DRAM1_REGION a) as [-> ->]; [|done].
  split; apply eq_true_iff_eq; rewrite !contains_spec; cbn; Z.div_mod_to_equations; lia.
Qed.

Lemma addr_to_idx_eq a :
  Granule.validate_addr a = true -> addr_to_idx a = Ok (granule_addr_to_index a).
Proof.
  rewrite validate_addr_spec. intros [Hm Hr]. unfold addr_to_idx, granule_addr_to_index.
  unfold GRANULE_SIZE, Granule.GRANULE_SIZE in *. rewrite Hm. cbn [Z.eqb negb].
  destruct Hr as [Hr|Hr].
  - rewrite !(proj2 (contains_spec _ _)) by (cbn; Z.div_mod_to_equations; lia). done.
  - rewrite !(proj2 (contains_false FVP_DRAM0_REGION _)),
      !(proj2 (contains_false Granule.FVP_DRAM0_REGION _)) by (cbn; lia).
    rewrite !(proj2 (contains_spec _ _)) by (cbn; Z.div_mod_to_equations; lia). done.
Qed.

(** A granule's index, when its address is one of a granule. *)
Definition gidx (a i : Z) : Prop :=
  Granule.validate_addr a = true /\ granule_addr_to_index a = i.

Definition NUM_GRANULES : Z := GRANULE_STATUS_TABLE_SIZE.

Lemma gidx_range a i : gidx a i -> 0 <= i < NUM_GRANULES.
Proof. intros [Hv <-]. by apply index_bounds. Qed.

Lemma gidx_addr a i : gidx a i -> index_to_addr i = a.
Proof. intros [Hv <-]. by apply index_to_addr_to_index. Qed.

Lemma index_l0 a i : gidx a i -> index 0 a = Ok (i / 1024).
Proof.
  intros [Hv <-]. unfold index. rewrite addr_to_idx_eq by done. cbn [Z.eqb].
  unfold GRANULE_SIZE, L0_TABLE_ENTRY_SIZE_RANGE. f_equal.
  change (1024 * 1024 * 4) with (1024 * 4096). apply Z.div_mul_cancel_r; lia.
Qed.

Lemma index_l1 a i : gidx a i -> index 1 a = Ok (i mod 1024).
Proof.
  intros [Hv <-]. unfold index. rewrite addr_to_idx_eq by done. cbn [Z.eqb].
  unfold GRANULE_SIZE, L0_TABLE_ENTRY_SIZE_RANGE. f_equal.
  change (1024 * 1024 * 4) with (1024 * 4096). rewrite Z.mul_mod_distr_r by lia.
  by rewrite Z.div_mul by lia.
Qed.

Lemma entry_at_l0 a i base s : gidx a i -> entry_at 0 base a s = (Ok (base, i / 1024), s).
Proof.
  intros Hg. pose proof (gidx_range _ _ Hg). unfold entry_at. rewrite (index_l0 a i) by done. mstep.
  rewrite (proj2 (Z.ltb_lt _ _)); [done|]. change NUM_ENTRIES with 1024.
  unfold NUM_GRANULES, GRANULE_STATUS_TABLE_SIZE in *. Z.div_mod_to_equations. lia.
Qed.

Lemma entry_at_l1 a i base s : gidx a i -> entry_at 1 base a s = (Ok (base, i mod 1024), s).
Proof.
  intros Hg. unfold entry_at. rewrite (index_l1 a i) by done. mstep.
  rewrite (proj2 (Z.ltb_lt _ _)); [done|]. change NUM_ENTRIES with 1024.
  pose proof (Z.mod_pos_bound i 1024 ltac:(lia)). lia.
Qed.

(** ** The abstract table *)
Record AGranule : Type := mkAG { a_state : Z; a_parent : option Z }.
Record ATable : Type := mkA { tab : Z -> option AGranule; a_wiped : list Z }.

Definition a_new : AGranule := mkAG GranuleState.Undelegated None.
Definition a_get (T : ATable) (i : Z) : AGranule := default a_new (tab T i).

Fixpoint count (f : Z -> bool) (l : list Z) : Z :=
  match l with [] => 0 | i :: l => Z.b2z (f i) + count f l end.

(** The number of granules whose parent is [i]. *)
Definition is_child (tb : Z -> option AGranule) (i j : Z) : bool :=
  bool_decide ((tb j ≫= a_parent) = Some i).
Definition children (T : ATable) (i : Z) : Z := count (is_child (tab T) i) (seqZ 0 NUM_GRANULES).

Definition upd_tab (i : Z) (g : AGranule) (tb : Z -> option AGranule) : Z -> option AGranule :=
  fun j => if decide (j = i) then Some g else tb j.

Definition wipes (prev st : Z) : bool :=
  if st =? GranuleState.Delegated then negb (prev =? GranuleState.RTT)
  else (st =? GranuleState.Undelegated) && (prev =? GranuleState.Delegated).

(** The life of a granule: the host owns it, the RMM owns it, or it has one use;
    between two uses it goes through Delegated. *)
Definition a_legal (prev st : Z) : bool :=
  bool_decide (prev <> GranuleState.Delegated /\ st = GranuleState.Delegated)
  || bool_decide (prev = GranuleState.Delegated /\ st <> GranuleState.Delegated)
  || bool_decide (prev = GranuleState.Undelegated /\ st = GranuleState.Undelegated).

Lemma valid_transition_legal prev st : valid_transition prev st = a_legal prev st.
Proof.
  unfold valid_transition, a_legal, GranuleState.Undelegated, GranuleState.Delegated.
  repeat case_bool_decide; repeat case_match; try done; lia.
Qed.

(** Change the state of a granule. A granule with children is kept. The page
    that is wiped is the granule's own, except that the code wipes the page at
    address 0 for an entry that is opened by the change itself: such an entry has
    no address yet. *)
Definition a_set (i st : Z) (T : ATable) : outcome MmError unit * ATable :=
  let g := a_get T i in
  if 0 <? children T i then (Err MmRefcountError, T)
  else if negb (a_legal (a_state g) st) then (Err MmStateError, T)
  else
    let par := if (st =? GranuleState.Delegated) && negb (a_state g =? GranuleState.RTT)
               then None else a_parent g in
    let at_ := match tab T i with Some _ => index_to_addr i | None => 0 end in
    (Ok tt, mkA (upd_tab i (mkAG st par) (tab T))
                (if wipes (a_state g) st then at_ :: a_wiped T else a_wiped T)).

(** [get_granule_if] *)
Definition a_check (a st : Z) (T : ATable) : outcome MmError Z :=
  if negb (Granule.validate_addr a) then Err MmInvalidAddr
  else match tab T (granule_addr_to_index a) with
       | None => Err MmNoEntry
       | Some g => if a_state g =? st then Ok (granule_addr_to_index a) else Err MmStateError
       end.

(** ** Counting *)
Lemma count_ext f g l : (forall j, j ∈ l -> f j = g j) -> count f l = count g l.
Proof.
  induction l as [|i l IH]; intros Hf; [done|]. cbn [count].
  rewrite Hf, IH by set_solver. done.
Qed.

Lemma count_upd f g l i :
  NoDup l -> i ∈ l -> (forall j, j <> i -> f j = g j) ->
  count g l = count f l - Z.b2z (f i) + Z.b2z (g i).
Proof.
  intros Hnd Hi Hf. induction Hnd as [|j l Hj Hnd IH]; [by apply elem_of_nil in Hi|].
  cbn [count]. apply elem_of_cons in Hi as [->|Hi].
  - rewrite (count_ext g f); [lia|]. intros k Hk. symmetry. apply Hf. by intros ->.
  - rewrite IH by done. rewrite (Hf j) by (by intros ->). lia.
Qed.

Lemma count_nonneg f l : 0 <= count f l.
Proof. induction l as [|i l IH]; cbn [count]; [lia|]. destruct (f i); cbn; lia. Qed.

Lemma count_zero f l j : count f l <= 0 -> j ∈ l -> f j = false.
Proof.
  induction l as [|i l IH]; intros Hc Hj; [by apply elem_of_nil in Hj|]. cbn [count] in Hc.
  pose proof (count_nonneg f l). apply elem_of_cons in Hj as [->|Hj].
  - destruct (f i); [cbn in Hc; lia|done].
  - apply IH; [destruct (f i); cbn in Hc; lia|done].
Qed.

Lemma children_upd T i g j w :
  0 <= i < NUM_GRANULES ->
  children (mkA (upd_tab i g (tab T)) w) j =
    children T j - Z.b2z (is_child (tab T) j i) + Z.b2z (bool_decide (a_parent g = Some j)).
Proof.
  intros Hi. unfold children. cbn [tab]. rewrite (count_upd (is_child (tab T) j) _ _ i).
  - do 2 f_equal. unfold is_child, upd_tab. by rewrite decide_True.
  - apply NoDup_seqZ.
  - apply elem_of_seqZ. lia.
  - intros k Hk. unfold is_child, upd_tab. by rewrite decide_False.
Qed.

(** ** The relation between the tables *)

(** The place of a granule's entry, once its table exists. *)
Definition loc (s : t) (i : Z) : option place :=
  (fun a => (a, i mod 1024)) <$> l1_tables s !! (i / 1024).

Definition parent_rel (s : t) (tb : Z -> option AGranule) (gp : option Inner) (ap : option Z) : Prop :=
  match gp, ap with
  | None, None => True
  | Some par, Some j => 0 <= j < NUM_GRANULES /\ loc s j = Some (rc par) /\ is_Some (tb j)
  | _, _ => False
  end.

Definition granule_rel (s : t) (tb : Z -> option AGranule) (i : Z) (p : place) : Prop :=
  match tb i with
  | None => valid (inner p s) = false /\ granules s p = Granule_new
  | Some g => valid (inner p s) = true /\ exists gp,
      granules s p = mkGranule (a_state g) (index_to_addr i) gp
      /\ parent_rel s tb gp (a_parent g)
  end.

(** [ext] counts the clones held by a handler. *)
Record repr (ext : place -> Z) (s : t) (T : ATable) : Prop := mkRepr {
  r_root : is_Some (tables s !! root_pgtbl s);
  r_rc a e j : tables s !! a = Some e -> rc (e j) = (a, j);
  r_l1 k a : l1_tables s !! k = Some a -> a <> root_pgtbl s /\ is_Some (tables s !! a);
  r_inj k k' a : l1_tables s !! k = Some a -> l1_tables s !! k' = Some a -> k = k';
  r_root_valid k : valid (inner (root_pgtbl s, k) s) = bool_decide (is_Some (l1_tables s !! k));
  r_root_strong k : strong s (root_pgtbl s, k) = 1;
  r_granule i p : 0 <= i < NUM_GRANULES -> loc s i = Some p -> granule_rel s (tab T) i p;
  r_tab i : is_Some (tab T i) -> 0 <= i < NUM_GRANULES /\ is_Some (loc s i);
  r_strong i p : 0 <= i < NUM_GRANULES -> loc s i = Some p ->
    strong s p = 1 + children T i + ext p;
  r_wiped : wiped s = a_wiped T
}.

Lemma loc_inj ext s T i j p :
  repr ext s T -> loc s i = Some p -> loc s j = Some p -> i = j.
Proof.
  unfold loc. intros R Hi Hj.
  destruct (l1_tables s !! (i / 1024)) as [a|] eqn:Ei; [|done].
  destruct (l1_tables s !! (j / 1024)) as [b|] eqn:Ej; [|done]. cbn in *.
  injection Hi as <-. injection Hj as -> Hm. pose proof (r_inj _ _ _ R _ _ _ Ei Ej).
  rewrite (Z.div_mod i 1024), (Z.div_mod j 1024) by lia. congruence.
Qed.

Lemma loc_table ext s T i p :
  repr ext s T -> loc s i = Some p -> p.1 <> root_pgtbl s /\ is_Some (tables s !! p.1).
Proof.
  unfold loc. intros R Hi. destruct (l1_tables s !! (i / 1024)) as [a|] eqn:Ei; [|done].
  cbn in Hi. simplify_eq. by apply (r_l1 _ _ _ R) in Ei.
Qed.

Lemma inner_rc ext s T p : repr ext s T -> is_Some (tables s !! p.1) -> rc (inner p s) = p.
Proof.
  intros R [e He]. unfold inner. rewrite He. rewrite (r_rc _ _ _ R _ _ _ He). by destruct p.
Qed.

Lemma inner_set_inner p q i s :
  is_Some (tables s !! p.1) -> inner q (set_inner p i s) = if decide (q = p) then i else inner q s.
Proof.
  intros [e He]. unfold inner, set_inner. rewrite He. cbn [tables set_tables].
  destruct (decide (q.1 = p.1)) as [E|E].
  - rewrite E, lookup_insert_eq, He. destruct q as [qa qj], p as [pa pj]. cbn in *. subst.
    destruct (decide (qj = pj)) as [->|]; [by rewrite decide_True|]. rewrite decide_False; [done|congruence].
  - rewrite lookup_insert_ne by done. rewrite decide_False; [done|congruence].
Qed.

(** Changing one granule. *)
Lemma repr_update ext ext' s s' T i p g gp w :
  repr ext s T -> 0 <= i < NUM_GRANULES -> loc s i = Some p ->
  root_pgtbl s' = root_pgtbl s -> l1_tables s' = l1_tables s ->
  (forall a, is_Some (tables s !! a) -> is_Some (tables s' !! a)) ->
  (forall a e j, tables s' !! a = Some e -> rc (e j) = (a, j)) ->
  (forall q, valid (inner q s') = if decide (q = p) then true else valid (inner q s)) ->
  (forall q, granules s' q = if decide (q = p) then mkGranule (a_state g) (index_to_addr i) gp
                             else granules s q) ->
  parent_rel s (tab T) gp (a_parent g) ->
  (forall k, strong s' (root_pgtbl s, k) = 1) ->
  (forall j q, 0 <= j < NUM_GRANULES -> loc s j = Some q ->
     strong s' q = 1 + children (mkA (upd_tab i g (tab T)) w) j + ext' q) ->
  wiped s' = w -> repr ext' s' (mkA (upd_tab i g (tab T)) w).
Proof.
  intros R Hi Hp Er El Ht Hrc Hv Hg Hpar Hs1 Hs2 Hw.
  assert (forall j, loc s' j = loc s j) as Hloc by (intros j; unfold loc; by rewrite El).
  assert (forall gp ap, parent_rel s (tab T) gp ap -> parent_rel s' (upd_tab i g (tab T)) gp ap) as Hpr.
  { intros [par|] [j|]; cbn; [|done..]. rewrite Hloc. intros (? & ? & ?). split_and!; try done; try lia.
    unfold upd_tab. by case_decide; [eexists|]. }
  destruct (loc_table ext _ _ _ _ R Hp) as [Hpr1 _].
  split; cbn [tab a_wiped].
  - rewrite Er. apply Ht, R.
  - exact Hrc.
  - intros k a. rewrite El, Er. intros Hk. destruct (r_l1 _ _ _ R _ _ Hk). auto.
  - intros k k' a. rewrite El. apply R.
  - intros k. rewrite Er, El, Hv, decide_False by (intros <-; by apply Hpr1). apply R.
  - intros k. rewrite Er. apply Hs1.
  - intros j q Hj. rewrite Hloc. intros Hq. unfold granule_rel, upd_tab at 1.
    rewrite Hv, Hg. destruct (decide (j = i)) as [->|Hne].
    + assert (q = p) as -> by congruence. rewrite !decide_True by done. split; [done|].
      exists gp. split; [done|]. by apply Hpr.
    + rewrite !(decide_False (P := q = p)) by (intros ->; apply Hne; by eapply loc_inj).
      pose proof (r_granule _ _ _ R j q Hj Hq) as Hr. unfold granule_rel in Hr.
      destruct (tab T j) as [h|]; [|done]. destruct Hr as (? & gp' & ? & ?). split; [done|].
      exists gp'. split; [done|]. by apply Hpr.
  - intros j. unfold upd_tab. rewrite Hloc. case_decide as E.
    + intros _. subst j. split; [done|]. by rewrite Hp.
    + apply R.
  - intros j q Hj. rewrite Hloc. by apply Hs2.
  - done.
Qed.

(** ** Changing the state of a granule *)
Lemma a_get_some T i g : tab T i = Some g -> a_get T i = g.
Proof. unfold a_get. by intros ->. Qed.

Lemma is_child_get T i j : is_child (tab T) j i = bool_decide (a_parent (a_get T i) = Some j).
Proof. unfold is_child, a_get. by destruct (tab T i). Qed.

Lemma set_inner_fields p i s :
  root_pgtbl (set_inner p i s) = root_pgtbl s /\ l1_tables (set_inner p i s) = l1_tables s
  /\ granules (set_inner p i s) = granules s /\ strong (set_inner p i s) = strong s
  /\ locked (set_inner p i s) = locked s /\ wiped (set_inner p i s) = wiped s
  /\ (forall a, is_Some (tables s !! a) -> is_Some (tables (set_inner p i s) !! a)).
Proof.
  unfold set_inner. destruct (tables s !! p.1) as [e|] eqn:E; [|done]. split_and!; try done.
  intros a Ha. cbn [tables set_tables]. destruct (decide (a = p.1)) as [->|];
    [by rewrite lookup_insert_eq|by rewrite lookup_insert_ne].
Qed.

Lemma set_inner_rc ext p s T i' v s0 :
  repr ext s0 T -> tables s = tables s0 -> is_Some (tables s0 !! p.1) ->
  forall a e j, tables (set_inner p (mkInner p i' v) s) !! a = Some e -> rc (e j) = (a, j).
Proof.
  intros R Et [f Hf] a e j. unfold set_inner. rewrite Et, Hf. cbn [tables set_tables].
  destruct (decide (a = p.1)) as [->|Hne].
  - rewrite lookup_insert_eq. intros [= <-]. case_decide as E; [by destruct p; cbn in *; subst|].
    by apply (r_rc _ _ _ R).
  - rewrite lookup_insert_ne by done. apply R.
Qed.

(** The granule at a place, whether it is new or not. *)
Definition at_addr (T : ATable) (i : Z) : Z :=
  match tab T i with Some _ => index_to_addr i | None => 0 end.

Lemma granule_at ext s T i p :
  repr ext s T -> 0 <= i < NUM_GRANULES -> loc s i = Some p ->
  exists gp, granules s p = mkGranule (a_state (a_get T i)) (at_addr T i) gp
             /\ parent_rel s (tab T) gp (a_parent (a_get T i)).
Proof.
  intros R Hi Hp. pose proof (r_granule _ _ _ R i p Hi Hp) as Hr.
  unfold granule_rel, a_get, at_addr in *. destruct (tab T i) as [g|].
  - destruct Hr as (_ & gp & -> & Hpar). by exists gp.
  - destruct Hr as (_ & ->). by exists None.
Qed.

(** The strong counts after the parent of [i] was dropped, or kept. *)
Lemma strong_dropped ext s T i p gp j q st w :
  repr ext s T -> 0 <= i < NUM_GRANULES -> loc s i = Some p ->
  parent_rel s (tab T) gp (a_parent (a_get T i)) ->
  0 <= j < NUM_GRANULES -> loc s j = Some q ->
  match gp with Some par => upd (rc par) (strong s (rc par) - 1) (strong s) | None => strong s end q
  = 1 + children (mkA (upd_tab i (mkAG st None) (tab T)) w) j + ext q.
Proof.
  intros R Hi Hp Hpar Hj Hq. rewrite children_upd, is_child_get by done. cbn [a_parent].
  rewrite (bool_decide_false (None = Some j)) by done. pose proof (r_strong _ _ _ R j q Hj Hq) as Hs.
  destruct gp as [par|]; destruct (a_parent (a_get T i)) as [k|]; cbn in Hpar; try done.
  - destruct Hpar as (Hk & Hlk & _). unfold upd. case_decide as E.
    + subst q. pose proof (loc_inj ext _ _ _ _ _ R Hq Hlk). subst k.
      rewrite bool_decide_true by done. cbn [Z.b2z]. lia.
    + rewrite bool_decide_false by congruence. cbn [Z.b2z]. lia.
  - rewrite bool_decide_false by done. cbn [Z.b2z]. lia.
Qed.

Lemma strong_kept ext s T i p j q st w :
  repr ext s T -> 0 <= i < NUM_GRANULES -> loc s i = Some p -> 0 <= j < NUM_GRANULES -> loc s j = Some q ->
  strong s q = 1 + children (mkA (upd_tab i (mkAG st (a_parent (a_get T i))) (tab T)) w) j + ext q.
Proof.
  intros R Hi Hp Hj Hq. rewrite children_upd, is_child_get by done. cbn [a_parent].
  pose proof (r_strong _ _ _ R j q Hj Hq). lia.
Qed.

Lemma root_strong_dropped ext s T i gp k :
  repr ext s T -> parent_rel s (tab T) gp (a_parent (a_get T i)) ->
  match gp with Some par => upd (rc par) (strong s (rc par) - 1) (strong s) | None => strong s end
    (root_pgtbl s, k) = 1.
Proof.
  intros R Hpar. destruct gp as [par|]; [|apply R].
  destruct (a_parent (a_get T i)) as [j|]; [|done]. destruct Hpar as (Hj & Hl & _).
  destruct (loc_table ext _ _ _ _ R Hl) as [Hr _]. unfold upd. rewrite decide_False; [apply R|].
  intros E. apply Hr. by rewrite <- E.
Qed.

(** The state after a granule and its entry were written. *)
Lemma repr_written ext s s0 T i p g gp :
  repr ext s T -> 0 <= i < NUM_GRANULES -> loc s i = Some p ->
  root_pgtbl s0 = root_pgtbl s -> l1_tables s0 = l1_tables s -> tables s0 = tables s ->
  (forall q, granules s0 q = if decide (q = p) then mkGranule (a_state g) (index_to_addr i) gp
                             else granules s q) ->
  parent_rel s (tab T) gp (a_parent g) ->
  (forall k, strong s0 (root_pgtbl s, k) = 1) ->
  (forall j q, 0 <= j < NUM_GRANULES -> loc s j = Some q ->
     strong s0 q = 1 + children (mkA (upd_tab i g (tab T)) (wiped s0)) j + ext q) ->
  repr ext (set_inner p (mkInner p false true) s0) (mkA (upd_tab i g (tab T)) (wiped s0)).
Proof.
  intros R Hi Hp Er El Et Hg Hpar Hs1 Hs2. destruct (loc_table ext _ _ _ _ R Hp) as [_ Ht].
  destruct (set_inner_fields p (mkInner p false true) s0) as (E1 & E2 & E3 & E4 & _ & E6 & E7).
  apply (repr_update ext ext s _ T i p g gp); try done.
  - by rewrite E1.
  - by rewrite E2.
  - intros a Ha. apply E7. by rewrite Et.
  - by apply (set_inner_rc ext _ _ T _ _ s).
  - intros q. rewrite inner_set_inner by (by rewrite Et). case_decide; [done|].
    unfold inner. by rewrite Et.
  - by rewrite E3.
  - by rewrite E4.
  - by rewrite E4.
Qed.

Lemma upd_eq {A} p (v : A) f : upd p v f p = v.
Proof. unfold upd. by rewrite decide_True. Qed.

Definition same_shape (s s' : t) : Prop :=
  root_pgtbl s' = root_pgtbl s /\ l1_tables s' = l1_tables s /\ locked s' = locked s.

(** [Granule::set_state] of a granule nobody else points to. *)
Lemma granule_set_state_run ext s T i p st :
  repr ext s T -> 0 <= i < NUM_GRANULES -> loc s i = Some p -> children T i = 0 ->
  valid_transition (a_state (a_get T i)) st = true ->
  let g := mkAG st (if (st =? GranuleState.Delegated) && negb (a_state (a_get T i) =? GranuleState.RTT)
                    then None else a_parent (a_get T i)) in
  exists s' gp, granule_set_state p (index_to_addr i) st 1 s = (Ok tt, s')
    /\ same_shape s s' /\ tables s' = tables s
    /\ wiped s' = (if wipes (a_state (a_get T i)) st then at_addr T i :: wiped s else wiped s)
    /\ (forall q, granules s' q = if decide (q = p) then mkGranule st (index_to_addr i) gp
                                  else granules s q)
    /\ parent_rel s (tab T) gp (a_parent g)
    /\ (forall k, strong s' (root_pgtbl s, k) = 1)
    /\ (forall j q w, 0 <= j < NUM_GRANULES -> loc s j = Some q ->
         strong s' q = 1 + children (mkA (upd_tab i g (tab T)) w) j + ext q).
Proof.
  intros R Hi Hp Hc Hv g. destruct (granule_at ext _ _ _ _ R Hi Hp) as (gp & Eg & Hpar).
  unfold granule_set_state. mstep. rewrite Eg. cbn [state addr parent]. rewrite Hv. cbn [Prelude.guard_or]. mstep.
  unfold wipes. destruct (st =? GranuleState.Delegated) eqn:Ed; cbn [andb] in *.
  - destruct (negb (a_state (a_get T i) =? GranuleState.RTT)) eqn:Er.
    + unfold set_granule_at, zeroize. mstep. rewrite Eg. cbn [state addr parent].
      change (negb (1 <? 1)) with true. unfold Prelude.guard_or.
      destruct gp as [par|]; unfold drop_parent, rc_drop; mstep; eexists _, None;
        (split; [reflexivity|]); cbn; rewrite ?upd_eq; cbn [addr parent]; split_and!; try done;
        try (by intros; apply R); try (intros q; unfold upd; by case_decide).
      * intros k. exact (root_strong_dropped ext s T i (Some par) k R Hpar).
      * intros j q w Hj Hq. by apply (strong_dropped ext s T i p (Some par)).
      * intros j q w Hj Hq. by apply (strong_dropped ext s T i p None).
    + mstep. unfold set_granule_at. rewrite Eg. cbn [parent]. eexists _, gp. split; [reflexivity|].
      cbn. split_and!; try done; try (by intros; apply R).
      intros j q w Hj Hq. by apply (strong_kept ext s T i p).
  - destruct (st =? GranuleState.Undelegated) eqn:Eu; cbn [andb].
    + destruct (a_state (a_get T i) =? GranuleState.Delegated) eqn:Ep;
        mstep; unfold set_granule_at, zeroize; mstep; cbn [granules set_wiped]; rewrite Eg; cbn [parent addr];
        eexists _, gp; (split; [reflexivity|]); cbn; split_and!; try done; try (by intros; apply R);
        intros j q w Hj Hq; by apply (strong_kept ext s T i p).
    + mstep. unfold set_granule_at. rewrite Eg. cbn [parent]. eexists _, gp. split; [reflexivity|].
      cbn. split_and!; try done; try (by intros; apply R).
      intros j q w Hj Hq. by apply (strong_kept ext s T i p).
Qed.

Lemma children_nonneg T i : 0 <= children T i.
Proof. apply count_nonneg. Qed.

(** The table after a state change that is made. *)
Definition a_written (i st : Z) (T : ATable) : ATable :=
  let g := a_get T i in
  mkA (upd_tab i (mkAG st (if (st =? GranuleState.Delegated) && negb (a_state g =? GranuleState.RTT)
                           then None else a_parent g)) (tab T))
      (if wipes (a_state g) st then at_addr T i :: a_wiped T else a_wiped T).

Lemma a_set_cases i st T :
  (exists e, a_set i st T = (Err e, T)
             /\ (0 < children T i \/ a_legal (a_state (a_get T i)) st = false))
  \/ (children T i = 0 /\ a_set i st T = (Ok tt, a_written i st T)).
Proof.
  unfold a_set. pose proof (children_nonneg T i). destruct (Z.ltb_spec 0 (children T i)).
  - left. eexists. split; [reflexivity|by left].
  - destruct (a_legal (a_state (a_get T i)) st); cbn [negb].
    + right. split; [lia|reflexivity].
    + left. eexists. split; [reflexivity|by right].
Qed.

Lemma set_inner_shape p i s0 s :
  same_shape s s0 -> same_shape s (set_inner p i s0).
Proof.
  intros (E1 & E2 & E3). destruct (set_inner_fields p i s0) as (F1 & F2 & _ & _ & F5 & _).
  unfold same_shape. by rewrite F1, F2, F5.
Qed.

Lemma inner_set_state_run ext s T i p st :
  repr ext s T -> 0 <= i < NUM_GRANULES -> loc s i = Some p -> ext p = 0 ->
  exists s', inner_set_state p (index_to_addr i) st s = ((a_set i st T).1, s')
             /\ repr ext s' (a_set i st T).2 /\ same_shape s s'.
Proof.
  intros R Hi Hp Hx. destruct (loc_table ext _ _ _ _ R Hp) as [_ Ht].
  unfold inner_set_state, get_mut. mstep. rewrite (inner_rc ext _ _ _ R Ht), (r_strong _ _ _ R i p Hi Hp), Hx, Z.add_0_r.
  unfold a_set. pose proof (children_nonneg T i). destruct (Z.ltb_spec 0 (children T i)).
  { rewrite (proj2 (Z.eqb_neq _ _)) by lia. exists s. by split_and!. }
  assert (children T i = 0) as Hc by lia. rewrite Hc. change (1 + 0 =? 1) with true.
  unfold Prelude.guard_or. mstep. change (1 + 0) with 1.
  rewrite <- valid_transition_legal.
  destruct (valid_transition (a_state (a_get T i)) st) eqn:Hv; cbn [negb].
  - destruct (granule_set_state_run ext s T i p st R Hi Hp Hc Hv)
      as (s0 & gp & E & Hsh & Ht0 & Hw & Hg & Hpar & Hs1 & Hs2).
    erewrite bind_ok by exact E. eexists. split; [reflexivity|].
    split; [|by apply set_inner_shape].
    cbn [snd]. fold (at_addr T i).
    rewrite <- (r_wiped _ _ _ R), <- Hw. destruct Hsh as (E1 & E2 & _).
    eapply repr_written; eauto.
  - unfold granule_set_state. destruct (granule_at ext _ _ _ _ R Hi Hp) as (gp & Eg & _).
    exists s. split; [|done]. apply bind_err. mstep. rewrite Eg. cbn [state]. rewrite Hv. reflexivity.
Qed.

(** ** Opening a granule *)
Lemma repr_locked ext l s T : repr ext s T -> repr ext (set_locked l s) T.
Proof. intros [? ? ? ? ? ? ? ? ? ?]. by split. Qed.

Lemma loc_locked l s i : loc (set_locked l s) i = loc s i.
Proof. done. Qed.

(** Guards are on granules, never on the entries of the root table. *)
Definition locks_ok (s : t) : Prop := forall k, (root_pgtbl s, k) ∉ locked s.

Lemma subtable_run s a i :
  gidx a i ->
  subtable (root_pgtbl s) a s =
    match l1_tables s !! (i / 1024) with Some b => (Ok b, s) | None => (Err MmSubtableError, s) end.
Proof.
  intros Hg. unfold subtable. erewrite bind_ok by by apply entry_at_l0.
  unfold catch, get_l1_table_addr. mstep. cbn [snd]. by destruct (l1_tables s !! _).
Qed.

Lemma get_granule_run ext s T a i :
  repr ext s T -> locks_ok s -> gidx a i ->
  match tab T i with
  | None => loc s i = None \/ (exists p, loc s i = Some p /\ p ∉ locked s) ->
      get_granule a s = (Err MmNoEntry, s)
  | Some _ => exists p, loc s i = Some p
      /\ get_granule a s = if decide (p ∈ locked s) then (Hung, s)
                           else (Ok p, set_locked ({[p]} ∪ locked s) s)
  end.
Proof.
  intros R Hk Hg. pose proof (gidx_range _ _ Hg) as Hi.
  unfold get_granule. rewrite validate_addr_eq. destruct Hg as [Hv Hgi].
  assert (gidx a i) as Hg by done. rewrite Hv. unfold Prelude.guard_or. mstep.
  unfold entry_l0, e_is_valid, lock_now.
  assert (forall (f : option place * Z -> M t MmError place),
    ((p ← entry_at 0 (root_pgtbl s) a;
      v ← ((fun s => if decide (p ∈ locked s) then (Hung, s) else (Ok tt, s));;
           gets (fun s => valid (inner p s)));
      if (v : bool) then
        st ← ok (subtable (root_pgtbl s) a);
        match st with Some b => entry_l1 b a | None => mret (None, 0) end
      else throw MmNoEntry) ≫= f) s =
    match loc s i with
    | Some p => (entry_l1 p.1 a ≫= f) s
    | None => (Err MmNoEntry, s)
    end) as Hroot.
  { intros f. mstep. erewrite bind_ok by by apply entry_at_l0. mstep.
    erewrite bind_ok by (by rewrite decide_False by apply Hk). mstep.
    rewrite (r_root_valid _ _ _ R). unfold loc.
    destruct (l1_tables s !! (i / 1024)) as [b|] eqn:El; cbn [fmap option_fmap option_map].
    - rewrite bool_decide_true by by eexists. mstep.
      erewrite bind_ok by (unfold ok; rewrite (subtable_run s a i), El by done; reflexivity). done.
    - rewrite bool_decide_false by (by intros []). done. }
  rewrite Hroot. clear Hroot. unfold entry_l1, e_is_valid, e_lock, lock_now.
  destruct (loc s i) as [p|] eqn:El.
  2:{ destruct (tab T i) eqn:Et; [|done].
      destruct (r_tab _ _ _ R i) as [_ [? ?]]; [by rewrite Et|congruence]. }
  assert (p = (p.1, i mod 1024)) as Ep.
  { unfold loc in El. destruct (l1_tables s !! _); [|done]. cbn in El. by simplify_eq. }
  pose proof (r_granule _ _ _ R i p Hi El) as Hr. unfold granule_rel in Hr.
  mstep. erewrite bind_ok by by apply entry_at_l1. rewrite <- Ep. mstep. unfold Prelude.guard_or.
  destruct (tab T i) as [g|].
  - destruct Hr as [Hvalid _]. exists p. split; [done|]. case_decide as Hl.
    + unfold mbind, M_bind. by rewrite decide_True.
    + unfold mbind, M_bind, gets, throw, modify. rewrite !decide_False by done. rewrite Hvalid.
      rewrite !decide_False by done. by rewrite Hvalid.
  - destruct Hr as [Hvalid _]. intros [?|(p' & ? & Hl)]; [done|]. simplify_eq.
    unfold mbind, M_bind, gets, throw. rewrite !decide_False by done. by rewrite Hvalid.
Qed.

(** A granule without an entry has no children. *)
Lemma children_none ext s T i : repr ext s T -> tab T i = None -> children T i = 0.
Proof.
  intros R Ht. unfold children. rewrite (count_ext _ (fun _ => false)).
  { induction (seqZ 0 NUM_GRANULES) as [|j l IH]; [done|]. by cbn [count]. }
  intros j _. unfold is_child. apply bool_decide_eq_false. intros Hj.
  destruct (tab T j) as [g|] eqn:Eg; [|done]. cbn in Hj.
  destruct (r_tab _ _ _ R j) as [Hjr [q Hq]]; [by rewrite Eg|].
  pose proof (r_granule _ _ _ R j q Hjr Hq) as Hr. unfold granule_rel in Hr. rewrite Eg in Hr.
  destruct Hr as (_ & [par|] & _ & Hp); rewrite Hj in Hp; cbn in Hp; [|done].
  destruct Hp as (_ & _ & [? ?]). congruence.
Qed.

Lemma guard_cycle (p : place) (L : gset place) : p ∉ L -> ({[p]} ∪ L) ∖ {[p]} = L.
Proof. intros. apply leibniz_equiv. set_solver. Qed.

(** No guard is held on the granule at [a]. *)
Definition free (s : t) (a : Z) : Prop :=
  forall i p, gidx a i -> loc s i = Some p -> p ∉ locked s.

Lemma a_check_total T a st : match a_check a st T with Panicked | Hung => False | _ => True end.
Proof.
  unfold a_check. destruct (Granule.validate_addr a); [|exact I]. cbn [negb].
  destruct (tab T _) as [g|]; [|exact I]. destruct (a_state g =? st); exact I.
Qed.

Lemma a_check_ok T a st i :
  a_check a st T = Ok i -> gidx a i /\ exists g, tab T i = Some g /\ a_state g = st.
Proof.
  unfold a_check. destruct (Granule.validate_addr a) eqn:Hv; [|done]. cbn [negb].
  destruct (tab T _) as [g|] eqn:Eg; [|done]. destruct (Z.eqb_spec (a_state g) st); [|done].
  intros [= <-]. split; [done|]. by exists g.
Qed.

Lemma get_granule_if_run ext s T a st :
  repr ext s T -> locks_ok s -> free s a ->
  match a_check a st T with
  | Ok i => exists p, loc s i = Some p /\ p ∉ locked s
            /\ get_granule_if a st s = (Ok p, set_locked ({[p]} ∪ locked s) s)
  | r => exists s', get_granule_if a st s = (match r with Err e => Err e | _ => Panicked end, s')
           /\ repr ext s' T /\ same_shape s s'
  end.
Proof.
  intros R Hk Hf. unfold a_check, get_granule_if.
  destruct (Granule.validate_addr a) eqn:Hv; cbn [negb].
  2:{ exists s. split; [|by split_and!]. apply bind_err. unfold get_granule.
      rewrite validate_addr_eq, Hv. done. }
  assert (gidx a (granule_addr_to_index a)) as Hg by done. set (i := granule_addr_to_index a) in *.
  pose proof (get_granule_run ext s T a i R Hk Hg) as Hr. pose proof (gidx_range _ _ Hg) as Hi.
  destruct (tab T i) as [g|] eqn:Et.
  - destruct Hr as (p & Hp & E). rewrite decide_False in E by (by eapply Hf).
    pose proof (Hf _ _ Hg Hp) as Hfree. destruct (loc_table ext _ _ _ _ R Hp) as [_ Htb].
    destruct (granule_at ext _ _ _ _ R Hi Hp) as (gp & Eg & _).
    assert (guard_state p (set_locked ({[p]} ∪ locked s) s) = a_state g) as Es.
    { unfold guard_state. change (inner p (set_locked _ s)) with (inner p s).
      change (granules (set_locked _ s)) with (granules s).
      rewrite (inner_rc ext _ _ _ R Htb), Eg. cbn [state]. unfold a_get. by rewrite Et. }
    destruct (Z.eqb_spec (a_state g) st) as [Hs|Hs].
    + exists p. split; [done|]. split; [done|]. erewrite bind_ok by exact E. mstep. rewrite Es.
      by rewrite (proj2 (Z.eqb_eq _ _) Hs).
    + eexists. split; [|split; [by apply repr_locked|]].
      * erewrite bind_ok by exact E. mstep. rewrite Es, (proj2 (Z.eqb_neq _ _) Hs). cbn [negb].
        unfold unlock. mstep. cbn [locked set_locked]. rewrite guard_cycle by done. reflexivity.
      * by split_and!.
  - exists s. split; [|by split_and!]. apply bind_err. apply Hr.
    destruct (loc s i) as [p|] eqn:Hp; [|by left]. right. exists p. split; [done|]. by eapply Hf.
Qed.

(** ** Growing the table *)
Section ops.
Context (btree_slot : Z -> Z) (alloc_table : gset Z -> option Z).
(** The allocator returns memory that is not in use. *)
Context (alloc_fresh : forall u a, alloc_table u = Some a -> a ∉ u).

(** The state after the table at [b] was made for index [k]. *)
Definition grown (b k : Z) (s : t) : t :=
  let s1 := mk (root_pgtbl s) (<[k := b]> (l1_tables s))
               (<[b := fun j => Inner_new (b, j)]> (tables s))
               (fun p => if decide (p.1 = b) then Granule_new else granules s p)
               (fun p => if decide (p.1 = b) then 1 else strong s p) (locked s) (wiped s) in
  let g := granules s (root_pgtbl s, k) in
  set_inner (root_pgtbl s, k) (mkInner (root_pgtbl s, k) true true)
    (set_granules (upd (root_pgtbl s, k) (mkGranule (state g) (btree_slot k) (parent g)) (granules s1)) s1).

Lemma grow_run ext s T k b :
  repr ext s T -> locks_ok s -> l1_tables s !! k = None -> alloc_table (dom (tables s)) = Some b ->
  (a ← new_in alloc_table; e_point_to_subtable btree_slot (root_pgtbl s, k) k a;; mret a) s
  = (Ok b, grown b k s).
Proof.
  intros R Hk Hl Ha. pose proof (alloc_fresh _ _ Ha) as Hb.
  destruct (r_root _ _ _ R) as [e He].
  assert (root_pgtbl s <> b) as Hrb by (intros E; apply Hb, elem_of_dom; rewrite <- E; by eexists).
  unfold new_in. mstep. rewrite Ha. mstep.
  unfold e_point_to_subtable, lock_now. mstep.
  erewrite bind_ok by (by rewrite decide_False by apply Hk). mstep.
  match goal with |- context [inner (root_pgtbl s, k) ?s1] => set (s1' := s1) end.
  assert (inner (root_pgtbl s, k) s1' = inner (root_pgtbl s, k) s) as Ei.
  { unfold inner. subst s1'. cbn. by rewrite lookup_insert_ne by done. }
  rewrite Ei, (r_root_valid _ _ _ R), Hl. rewrite bool_decide_false by (by intros []). cbn [negb].
  unfold set_state_for_table, add_l1_table, get_mut, Prelude.guard_or. mstep.
  match goal with |- context [inner (root_pgtbl s, k) ?s2] =>
    assert (inner (root_pgtbl s, k) s2 = inner (root_pgtbl s, k) s) as Ei2 by exact Ei end.
  rewrite Ei2. rewrite (inner_rc ext s T) by (done || by eexists).
  subst s1'. cbn [strong set_l1_tables set_strong set_granules set_tables].
  cbn [fst]. rewrite decide_False by done. rewrite (r_root_strong _ _ _ R). cbn [Z.eqb Pos.eqb]. mstep.
  unfold set_granule_at. mstep.
  unfold grown. cbn [granules set_l1_tables set_strong set_granules set_tables].
  cbn [fst]. rewrite decide_False by done. reflexivity.
Qed.

Lemma grown_repr ext s T k b :
  repr ext s T -> l1_tables s !! k = None -> b ∉ dom (tables s) -> (forall j, ext (b, j) = 0) ->
  repr ext (grown b k s) T /\ root_pgtbl (grown b k s) = root_pgtbl s /\ locked (grown b k s) = locked s
  /\ (forall j, loc (grown b k s) j = if decide (j / 1024 = k) then Some (b, j mod 1024) else loc s j).
Proof.
  intros R Hl Hb Hext. destruct (r_root _ _ _ R) as [e He].
  assert (root_pgtbl s <> b) as Hrb by (intros E; apply Hb, elem_of_dom; rewrite <- E; by eexists).
  unfold grown. cbv zeta. match goal with |- context [set_inner ?p ?i ?s1] => set (s1' := s1) in * end.
  set (root := (root_pgtbl s, k)) in *.
  assert (is_Some (tables s1' !! root.1)) as Ht1
    by (subst s1'; cbn; rewrite lookup_insert_ne by done; by eexists).
  destruct (set_inner_fields root (mkInner root true true) s1') as (E1 & E2 & E3 & E4 & E5 & E6 & E7).
  set (s' := set_inner root (mkInner root true true) s1') in *.
  assert (forall j, loc s' j = if decide (j / 1024 = k) then Some (b, j mod 1024) else loc s j) as Hloc.
  { intros j. unfold loc. rewrite E2. subst s1'. cbn [l1_tables set_granules].
    case_decide as E; [subst k; by rewrite lookup_insert_eq|by rewrite lookup_insert_ne]. }
  assert (forall q, q <> root -> q.1 <> b -> inner q s' = inner q s) as Hin.
  { intros q Hq Hq1. subst s'. rewrite inner_set_inner by done. rewrite decide_False by done.
    unfold inner. subst s1'. cbn. by rewrite lookup_insert_ne by done. }
  assert (forall j, inner (b, j) s' = Inner_new (b, j)) as Hin'.
  { intros j. subst s'. rewrite inner_set_inner by done. rewrite decide_False by (subst root; congruence).
    unfold inner. subst s1'. cbn. by rewrite lookup_insert_eq. }
  assert (forall i p, loc s i = Some p -> p.1 <> b /\ p <> root /\ loc s' i = Some p) as Hold.
  { intros i p Hp. destruct (loc_table ext _ _ _ _ R Hp) as [Hp1 Hp2]. split; [|split].
    - intros E. apply Hb, elem_of_dom. by rewrite <- E.
    - intros ->. by apply Hp1.
    - rewrite Hloc, decide_False; [done|]. intros E. unfold loc in Hp. by rewrite E, Hl in Hp. }
  assert (forall gp ap, parent_rel s (tab T) gp ap -> parent_rel s' (tab T) gp ap) as Hpr.
  { intros [par|] [j|]; cbn; [|done..]. intros (? & Hj & ?). split; [done|]. split; [|done].
    by apply Hold. }
  split; [|by split_and!]. split.
  - rewrite E1. apply E7. exact Ht1.
  - intros a f j Hf. destruct (decide ((a, j) = root)) as [Er|Er].
    + assert (inner (a, j) s' = mkInner root true true) as Hx
        by (subst s'; rewrite inner_set_inner by done; by rewrite decide_True).
      unfold inner in Hx. cbn [fst snd] in Hx. rewrite Hf in Hx. by rewrite Hx.
    + destruct (decide (a = b)) as [->|Hne].
      * specialize (Hin' j). unfold inner in Hin'. cbn [fst snd] in Hin'. rewrite Hf in Hin'. by rewrite Hin'.
      * pose proof (Hin (a, j) Er Hne) as Hx. unfold inner in Hx. cbn [fst snd] in Hx. rewrite Hf in Hx.
        rewrite Hx. destruct (tables s !! a) as [f0|] eqn:Ef0; [by apply (r_rc _ _ _ R)|done].
  - intros k' a. rewrite E2, E1. subst s1'. cbn [l1_tables set_granules root_pgtbl].
    destruct (decide (k' = k)) as [->|Hne].
    + rewrite lookup_insert_eq. intros [= <-]. split; [done|]. apply E7. cbn. by rewrite lookup_insert_eq.
    + rewrite lookup_insert_ne by done. intros Hk'. destruct (r_l1 _ _ _ R _ _ Hk') as [? [f Hf]].
      split; [done|]. apply E7. cbn. destruct (decide (a = b)) as [->|];
        [by rewrite lookup_insert_eq|rewrite lookup_insert_ne by done; by eexists].
  - intros k1 k2 a. rewrite E2. subst s1'. cbn [l1_tables set_granules].
    destruct (decide (k1 = k)) as [->|H1], (decide (k2 = k)) as [->|H2];
      rewrite ?lookup_insert_eq, ?lookup_insert_ne by done; try done.
    + intros [= <-] Hk2. destruct (r_l1 _ _ _ R _ _ Hk2) as [_ ?]. by apply elem_of_dom in H.
    + intros Hk1 [= <-]. destruct (r_l1 _ _ _ R _ _ Hk1) as [_ ?]. by apply elem_of_dom in H.
    + apply R.
  - intros k'. rewrite E1, E2. subst s1'. cbn [l1_tables set_granules root_pgtbl].
    destruct (decide (k' = k)) as [->|Hne].
    + rewrite lookup_insert_eq, bool_decide_true by by eexists. fold root.
      subst s'. rewrite inner_set_inner by done. by rewrite decide_True.
    + rewrite lookup_insert_ne by done. rewrite Hin; [apply R|subst root; congruence|done].
  - intros k'. rewrite E4, E1. subst s1'. cbn. rewrite decide_False by done. apply R.
  - intros i p Hi Hp. rewrite Hloc in Hp. unfold granule_rel. case_decide as Ek.
    + injection Hp as <-. assert (loc s i = None) as Hno by (unfold loc; by rewrite Ek, Hl).
      destruct (tab T i) as [g|] eqn:Et.
      { destruct (r_tab _ _ _ R i) as [_ [? ?]]; [by rewrite Et|congruence]. }
      rewrite Hin'. split; [done|]. rewrite E3. subst s1'. cbn. unfold upd.
      rewrite decide_False by (subst root; congruence). by rewrite decide_True.
    + destruct (Hold _ _ Hp) as (Hp1 & Hp2 & _). pose proof (r_granule _ _ _ R i p Hi Hp) as Hr.
      unfold granule_rel in Hr. rewrite Hin by done.
      assert (granules s' p = granules s p) as ->.
      { rewrite E3. subst s1'. cbn. unfold upd. by rewrite !decide_False. }
      destruct (tab T i) as [g|]; [|done]. destruct Hr as (? & gp & ? & ?). split; [done|].
      exists gp. split; [done|]. by apply Hpr.
  - intros i Hi. destruct (r_tab _ _ _ R i Hi) as [? [p Hp]]. split; [done|]. exists p. by apply Hold.
  - intros i p Hi Hp. rewrite Hloc in Hp. rewrite E4. subst s1'. cbn [strong set_granules].
    case_decide as Ek.
    + injection Hp as <-. cbn [fst]. rewrite decide_True by done.
      rewrite (children_none ext s T i R), Hext; [done|]. destruct (tab T i) as [g|] eqn:Et; [|done].
      destruct (r_tab _ _ _ R i) as [_ [q Hq]]; [by rewrite Et|]. unfold loc in Hq. by rewrite Ek, Hl in Hq.
    + destruct (Hold _ _ Hp) as (Hp1 & _). rewrite decide_False by done. by apply (r_strong _ _ _ R).
  - rewrite E6. apply R.
Qed.

Definition ext0 : place -> Z := fun _ => 0.

(** ** Setting a state by address *)
Lemma e_set_run s T i p st :
  repr ext0 s T -> 0 <= i < NUM_GRANULES -> loc s i = Some p -> p ∉ locked s ->
  exists s', e_set p (index_to_addr i) (Z.lor st GranuleState.Undelegated) s = ((a_set i st T).1, s')
             /\ repr ext0 s' (a_set i st T).2 /\ same_shape s s'.
Proof.
  intros R Hi Hp Hl. unfold e_set, lock_now. erewrite bind_ok by (by rewrite decide_False).
  unfold GranuleState.Undelegated. rewrite Z.lor_0_r. by apply inner_set_state_run.
Qed.

Lemma loc_shape s i p : loc s i = Some p -> p = (p.1, i mod 1024) /\ l1_tables s !! (i / 1024) = Some p.1.
Proof. unfold loc. destruct (l1_tables s !! _); [|done]. cbn. by intros [= <-]. Qed.

Lemma set_granule_raw_run s T a i st :
  repr ext0 s T -> locked s = ∅ -> gidx a i ->
  (loc s i = None /\ alloc_table (dom (tables s)) = None
   /\ set_granule_raw btree_slot alloc_table a st s = (Err MmAllocFail, s))
  \/ exists s', set_granule_raw btree_slot alloc_table a st s = ((a_set i st T).1, s')
       /\ repr ext0 s' (a_set i st T).2 /\ root_pgtbl s' = root_pgtbl s /\ locked s' = locked s
       /\ (forall j p, loc s j = Some p -> loc s' j = Some p).
Proof.
  intros R Hk0 Hg. pose proof (gidx_range _ _ Hg) as Hi.
  assert (locks_ok s) as Hk by (intros k; rewrite Hk0; set_solver).
  assert (set_granule_raw btree_slot alloc_table a st s
          = set_page_l0 btree_slot alloc_table (root_pgtbl s) a a st s) as ->.
  { unfold set_granule_raw. rewrite validate_addr_eq. by destruct Hg as [-> _]. }
  unfold set_page_l0. erewrite bind_ok by by apply entry_at_l0. unfold catch. cbn [snd].
  assert (forall s1 p, loc s1 i = Some p ->
            set_page_l1 p.1 a a st s1 = e_set p (index_to_addr i) (Z.lor st GranuleState.Undelegated) s1) as Hl1.
  { intros s1 p Hp. unfold set_page_l1. erewrite bind_ok by by apply entry_at_l1.
    rewrite <- (proj1 (loc_shape _ _ _ Hp)). by rewrite (gidx_addr _ _ Hg). }
  destruct (loc s i) as [p|] eqn:El.
  - right. destruct (loc_shape _ _ _ El) as [_ Hl].
    erewrite bind_ok by (rewrite (subtable_run s a i), Hl by done; reflexivity).
    rewrite Hl1 by done.
    destruct (e_set_run s T i p st R Hi El) as (s' & E & R' & Hsh); [rewrite Hk0; set_solver|].
    exists s'. destruct Hsh as (E1 & E2 & E3).
    assert (forall j, loc s' j = loc s j) as Hlj by (intros j; unfold loc; by rewrite E2).
    split_and!; try done. intros j q. by rewrite Hlj.
  - assert (l1_tables s !! (i / 1024) = None) as Hl by (unfold loc in El; by destruct (l1_tables s !! _)).
    destruct (alloc_table (dom (tables s))) as [b|] eqn:Ea.
    + right. pose proof (alloc_fresh _ _ Ea) as Hb.
      erewrite bind_ok.
      2:{ rewrite (subtable_run s a i), Hl by done. by apply (grow_run ext0 s T). }
      destruct (grown_repr ext0 s T (i / 1024) b R Hl Hb) as (R1 & Er & Elk & Hloc); [done|].
      set (s1 := grown b (i / 1024) s) in *.
      assert (loc s1 i = Some (b, i mod 1024)) as Hp by (by rewrite Hloc, decide_True).
      pose proof (Hl1 s1 (b, i mod 1024) Hp) as Hx. cbn [fst] in Hx. rewrite Hx.
      destruct (e_set_run s1 T i (b, i mod 1024) st R1 Hi Hp) as (s' & E & R' & E1 & E2 & E3); [rewrite Elk, Hk0; set_solver|].
      exists s'. assert (forall j, loc s' j = loc s1 j) as Hlj by (intros j; unfold loc; by rewrite E2).
      split_and!; try done; [congruence|congruence|].
      intros j q Hq. rewrite Hlj, Hloc, decide_False; [done|]. intros E'. unfold loc in Hq. by rewrite E', Hl in Hq.
    + left. split; [done|]. split; [done|]. apply bind_err. rewrite (subtable_run s a i), Hl by done.
      unfold new_in. mstep. by rewrite Ea.
Qed.

(** ** Transactions *)
Definition a_rec_of (i j : Z) (r : outcome MmError unit * ATable) : outcome MmError unit * ATable :=
  match r with
  | (Ok _, T1) => (Ok tt, mkA (upd_tab j (mkAG GranuleState.Rec (Some i)) (tab T1)) (a_wiped T1))
  | r => r
  end.
Definition a_rec (i j : Z) (T : ATable) : outcome MmError unit * ATable :=
  a_rec_of i j (a_set j GranuleState.Rec T).

Lemma a_rec_eq i j T : a_rec i j T = a_rec_of i j (a_set j GranuleState.Rec T).
Proof. reflexivity. Qed.

Lemma guard_addr_run ext s T i p g :
  repr ext s T -> 0 <= i < NUM_GRANULES -> loc s i = Some p -> tab T i = Some g ->
  guard_addr p s = index_to_addr i /\ guard_state p s = a_state g.
Proof.
  intros R Hi Hp Ht. destruct (loc_table ext _ _ _ _ R Hp) as [_ Htb].
  destruct (granule_at ext _ _ _ _ R Hi Hp) as (gp & Eg & _).
  unfold guard_addr, guard_state. rewrite (inner_rc ext _ _ _ R Htb), Eg. unfold at_addr, a_get.
  by rewrite Ht.
Qed.

Lemma gst_set_granule_run s T i p g st :
  repr ext0 s T -> 0 <= i < NUM_GRANULES -> loc s i = Some p -> tab T i = Some g ->
  exists s', set_granule p st s = (map_err error_of_mm (a_set i st T).1, s')
             /\ repr ext0 s' (a_set i st T).2 /\ same_shape s s'.
Proof.
  intros R Hi Hp Ht. unfold set_granule. mstep.
  destruct (guard_addr_run ext0 s T i p g R Hi Hp Ht) as [-> _].
  destruct (inner_set_state_run ext0 s T i p st R Hi Hp eq_refl) as (s' & E & R' & Hs).
  exists s'. split; [|done]. unfold mapm_err. by rewrite E.
Qed.

(** A clone of a guard's [Inner]. *)
Definition ext1 (p q : place) : Z := if decide (q = p) then 1 else 0.

Lemma repr_strong ext ext' s T f :
  repr ext s T ->
  (forall k, f (root_pgtbl s, k) = 1) ->
  (forall i p, 0 <= i < NUM_GRANULES -> loc s i = Some p -> f p = 1 + children T i + ext' p) ->
  repr ext' (set_strong f s) T.
Proof. intros [? ? ? ? ? ? ? ? ? ?] Hr Hf. by split. Qed.

Lemma clone_repr s T i p :
  repr ext0 s T -> loc s i = Some p ->
  repr (ext1 p) (set_strong (upd p (strong s p + 1) (strong s)) s) T.
Proof.
  intros R Hp. destruct (loc_table ext0 _ _ _ _ R Hp) as [Hr _].
  apply (repr_strong ext0); [done| |].
  - intros k. unfold upd. rewrite decide_False by (intros <-; by apply Hr). apply R.
  - intros j q Hj Hq. pose proof (r_strong _ _ _ R j q Hj Hq) as Hs. unfold upd, ext1, ext0 in *.
    case_decide; subst; lia.
Qed.

Lemma drop_repr s T i p :
  repr (ext1 p) s T -> loc s i = Some p ->
  repr ext0 (set_strong (upd p (strong s p - 1) (strong s)) s) T.
Proof.
  intros R Hp. destruct (loc_table (ext1 p) _ _ _ _ R Hp) as [Hr _].
  apply (repr_strong (ext1 p)); [done| |].
  - intros k. unfold upd. rewrite decide_False by (intros <-; by apply Hr). apply R.
  - intros j q Hj Hq. pose proof (r_strong _ _ _ R j q Hj Hq) as Hs. unfold upd, ext1, ext0 in *.
    case_decide; subst; lia.
Qed.

(** [Inner::set_parent] of a Rec under an RD, consuming the clone. *)
Lemma set_parent_run s T i j p q gi par0 par :
  repr (ext1 p) s T -> 0 <= i < NUM_GRANULES -> 0 <= j < NUM_GRANULES -> i <> j ->
  loc s i = Some p -> loc s j = Some q -> rc par = p ->
  tab T i = Some gi -> a_state gi = GranuleState.RD ->
  tab T j = Some (mkAG GranuleState.Rec par0) -> children T j = 0 ->
  exists s', inner_set_parent q par s = (Ok tt, s')
    /\ repr ext0 s' (mkA (upd_tab j (mkAG GranuleState.Rec (Some i)) (tab T)) (a_wiped T))
    /\ same_shape s s'.
Proof.
  intros R Hi Hj Hne Hp Hq Hpar Hti Hst Htj Hc.
  assert (q <> p) as Hqp by (intros ->; apply Hne; by eapply (loc_inj (ext1 p))).
  destruct (loc_table (ext1 p) _ _ _ _ R Hq) as [Hqr Hqt]. destruct (loc_table (ext1 p) _ _ _ _ R Hp) as [Hpr _].
  destruct (granule_at (ext1 p) _ _ _ _ R Hj Hq) as (gp & Egq & Hpq).
  destruct (granule_at (ext1 p) _ _ _ _ R Hi Hp) as (gp' & Egp & _).
  assert (granules s p = mkGranule GranuleState.RD (index_to_addr i) gp') as Ep
    by (rewrite Egp; unfold a_get, at_addr; rewrite Hti; cbn; by rewrite Hst).
  assert (granules s q = mkGranule GranuleState.Rec (index_to_addr j) gp) as Eq
    by (rewrite Egq; unfold a_get, at_addr; by rewrite Htj).
  assert (parent_rel s (tab T) gp par0) as Hpq' by (unfold a_get in Hpq; by rewrite Htj in Hpq).
  unfold inner_set_parent, get_mut. mstep. rewrite (inner_rc (ext1 p) _ _ _ R Hqt).
  pose proof (r_strong _ _ _ R j q Hj Hq) as Hsq. unfold ext1 in Hsq. rewrite decide_False in Hsq by done.
  rewrite Hsq, Hc. change (1 + 0 + 0 =? 1) with true. cbv iota. unfold granule_set_parent. mstep.
  rewrite Hpar, Eq, Ep. cbn [state addr parent]. rewrite !Z.eqb_refl. cbn [negb orb]. unfold set_granule_at, drop_parent, rc_drop.
  assert (forall f, (forall k, f (root_pgtbl s, k) = 1) ->
    (forall l r, 0 <= l < NUM_GRANULES -> loc s l = Some r ->
       f r = 1 + children (mkA (upd_tab j (mkAG GranuleState.Rec (Some i)) (tab T)) (a_wiped T)) l) ->
    let s' := mk (root_pgtbl s) (l1_tables s) (tables s)
                (upd q (mkGranule GranuleState.Rec (index_to_addr j) (Some par)) (granules s)) f (locked s) (wiped s) in
    repr ext0 s' (mkA (upd_tab j (mkAG GranuleState.Rec (Some i)) (tab T)) (a_wiped T)) /\ same_shape s s') as Hfin.
  { intros f Hf1 Hf2 s'. split; [|done].
    apply (repr_update (ext1 p) ext0 s s' T j q (mkAG GranuleState.Rec (Some i)) (Some par)); try done.
    - apply R.
    - intros r. change (inner r s') with (inner r s). case_decide as E; [|done]. subst r.
      pose proof (r_granule _ _ _ R j q Hj Hq) as Hr. unfold granule_rel in Hr. rewrite Htj in Hr. apply Hr.
    - cbn. rewrite Hti. split; [lia|]; split; [congruence|by eexists].
    - intros l r Hl Hr. unfold ext0. rewrite Z.add_0_r. by apply Hf2.
    - apply R. }
  assert (forall l r, 0 <= l < NUM_GRANULES -> loc s l = Some r ->
    1 + children (mkA (upd_tab j (mkAG GranuleState.Rec (Some i)) (tab T)) (a_wiped T)) l
    = strong s r - Z.b2z (bool_decide (par0 = Some l))) as Hcount.
  { intros l r Hl Hr. rewrite children_upd by done. cbn [a_parent]. unfold is_child. rewrite Htj. cbn.
    rewrite (r_strong _ _ _ R l r Hl Hr). unfold ext1.
    destruct (decide (l = i)) as [->|Hli].
    - assert (r = p) as -> by congruence. rewrite (bool_decide_true (Some i = Some i)), decide_True by done. cbn [Z.b2z]. lia.
    - rewrite (bool_decide_false (Some i = Some l)) by congruence.
      rewrite decide_False by (intros ->; apply Hli; by eapply (loc_inj (ext1 p))). cbn [Z.b2z]. lia. }
  destruct gp as [par1|]; mstep.
  - destruct par0 as [l0|]; [|done]. destruct Hpq' as (Hl0 & Hlr & _).
    destruct (loc_table (ext1 p) _ _ _ _ R Hlr) as [Hlr1 _].
    destruct (Hfin (upd (rc par1) (strong s (rc par1) - 1) (strong s))) as [Rf Sf].
    + intros k. unfold upd. rewrite decide_False by (intros E; apply Hlr1; by rewrite <- E). apply R.
    + intros l r Hl Hr. rewrite (Hcount l r Hl Hr). unfold upd. case_decide as E.
      * subst r. rewrite bool_decide_true; [done|]. f_equal. by eapply (loc_inj (ext1 p)).
      * rewrite bool_decide_false; [cbn; lia|]. intros [= ->]. congruence.
    + eexists. split; [reflexivity|]. done.
  - destruct par0 as [l0|]; [done|]. destruct (Hfin (strong s)) as [Rf Sf].
    + apply R.
    + intros l r Hl Hr. rewrite (Hcount l r Hl Hr). rewrite bool_decide_false by done. cbn [Z.b2z]. lia.
    + eexists. split; [reflexivity|]. done.
Qed.

Lemma same_shape_loc s s' i : same_shape s s' -> loc s' i = loc s i.
Proof. intros (_ & E & _). unfold loc. by rewrite E. Qed.

Lemma same_shape_trans s1 s2 s3 : same_shape s1 s2 -> same_shape s2 s3 -> same_shape s1 s3.
Proof. unfold same_shape. intros (-> & -> & ->) (-> & -> & ->). done. Qed.

(** REC_CREATE's change of the granules. *)
Lemma with_parent_run s T i j p q gi gj :
  repr ext0 s T -> 0 <= i < NUM_GRANULES -> 0 <= j < NUM_GRANULES -> i <> j ->
  loc s i = Some p -> loc s j = Some q ->
  tab T i = Some gi -> a_state gi = GranuleState.RD ->
  tab T j = Some gj -> a_state gj = GranuleState.Delegated ->
  exists s', (par ← mapm_err error_of_mm (clone p);
              set_granule_with_parent par q GranuleState.Rec) s
             = (map_err error_of_mm (a_rec i j T).1, s')
    /\ repr ext0 s' (a_rec i j T).2 /\ same_shape s s'.
Proof.
  intros R Hi Hj Hne Hp Hq Hti Hsi Htj Hsj.
  assert (q <> p) as Hqp by (intros ->; apply Hne; by eapply (loc_inj ext0)).
  destruct (loc_table ext0 _ _ _ _ R Hp) as [_ Hpt].
  pose proof (inner_rc ext0 _ _ _ R Hpt) as Hrc.
  set (s1 := set_strong (upd p (strong s p + 1) (strong s)) s).
  pose proof (clone_repr s T i p R Hp) as R1. fold s1 in R1.
  assert (mapm_err (F:=Error) error_of_mm (clone p) s = (Ok (inner p s), s1)) as Ec.
  { unfold mapm_err, clone, rc_clone. unfold mbind, M_bind, gets, modify. rewrite Hrc. reflexivity. }
  erewrite bind_ok by exact Ec. unfold set_granule_with_parent. mstep.
  destruct (guard_addr_run (ext1 p) s1 T j q gj R1 Hj Hq Htj) as [Ea Es]. rewrite Ea, Es.
  destruct (inner_set_state_run (ext1 p) s1 T j q GranuleState.Rec R1 Hj Hq) as (s2 & E2 & R2 & Sh2).
  { unfold ext1. by rewrite decide_False. }
  assert (same_shape s s1) as Sh1 by done.
  rewrite a_rec_eq. destruct (a_set j GranuleState.Rec T) as [r T1] eqn:Et. cbn [fst snd] in E2, R2.
  unfold a_rec_of.
  unfold mapm_err, catch. unfold mbind at 1, M_bind at 1. rewrite E2.
  assert (children T j = 0 /\ T1 = mkA (upd_tab j (mkAG GranuleState.Rec (a_parent gj)) (tab T)) (a_wiped T)
          /\ r = Ok tt \/ (exists e, r = Err e)) as [(Hc & HT1 & ->)|[e ->]].
  { destruct (a_set_cases j GranuleState.Rec T) as [(e & Ee & _)|(Hc & Ee)]; rewrite Ee in Et;
      injection Et as <- <-; [right; by eexists|]. left. split; [done|]. split; [|done].
    unfold a_written. by rewrite (a_get_some _ _ _ Htj), Hsj. }
  - destruct (set_parent_run s2 T1 i j p q gi (a_parent gj) (inner p s)) as (s3 & E3 & R3 & Sh3); try done.
    + by rewrite (same_shape_loc _ _ _ Sh2).
    + by rewrite (same_shape_loc _ _ _ Sh2).
    + rewrite HT1. cbn [tab]. unfold upd_tab. by rewrite decide_False.
    + rewrite HT1. cbn [tab]. unfold upd_tab. by rewrite decide_True.
    + rewrite HT1, children_upd, is_child_get, (a_get_some _ _ _ Htj) by done. cbn [a_parent]. lia.
    + rewrite E3. exists s3. split; [done|]. split; [done|].
      eapply same_shape_trans; [exact Sh1|]. exact (same_shape_trans _ _ _ Sh2 Sh3).
  - unfold rc_drop, throw. unfold mbind, M_bind, modify. rewrite Hrc. eexists. split; [reflexivity|].
    split; [|done]. apply (drop_repr s2 _ i); [done|]. by rewrite (same_shape_loc _ _ _ Sh2).
Qed.

(** ** The simulation *)
Inductive op : Type :=
| Delegate (a : Z)
| Transition (a from to : Z)
| RecCreate (rd rec : Z)
| DataDestroy (a : Z).

Definition step (o : op) : M t Error unit :=
  match o with
  | Delegate a => delegate_tx btree_slot alloc_table a
  | Transition a from to => transition_tx a from to
  | RecCreate rd rec => rec_create_tx rd rec
  | DataDestroy a => data_destroy_tx btree_slot alloc_table a
  end.

Definition a_result (r : outcome MmError unit * ATable) : outcome Error unit * ATable :=
  (map_err error_of_mm r.1, r.2).

Definition a_step (o : op) (T : ATable) : outcome Error unit * ATable :=
  match o with
  | Delegate a =>
      match a_check a GranuleState.Undelegated T with
      | Ok i => a_result (a_set i GranuleState.Delegated T)
      | Err MmNoEntry =>
          let i := granule_addr_to_index a in
          a_result (a_set i GranuleState.Delegated (a_set i GranuleState.Undelegated T).2)
      | _ => (Err RmiErrorInput, T)
      end
  | Transition a from to =>
      match a_check a from T with
      | Ok i => a_result (a_set i to T)
      | _ => (Err RmiErrorInput, T)
      end
  | RecCreate rd rec =>
      if rec =? rd then (Err RmiErrorInput, T)
      else match a_check rd GranuleState.RD T, a_check rec GranuleState.Delegated T with
           | Ok i, Ok j => a_result (a_rec i j T)
           | _, _ => (Err RmiErrorInput, T)
           end
  | DataDestroy a =>
      if Granule.validate_addr a
      then a_result (a_set (granule_addr_to_index a) GranuleState.Delegated T)
      else (Err RmiErrorInput, T)
  end.

(** The transaction opens a new entry, for which a table may have to be
    allocated. *)
Definition opens (o : op) (T : ATable) : Prop :=
  match o with
  | Delegate a | DataDestroy a => Granule.validate_addr a = true /\ tab T (granule_addr_to_index a) = None
  | _ => False
  end.

Definition sim (s : t) (T : ATable) : Prop := repr ext0 s T /\ locked s = ∅.

Lemma sim_locks s T : sim s T -> locks_ok s /\ forall a, free s a.
Proof. intros [_ Hl]. split; [intros k|intros a i p _ _]; rewrite Hl; set_solver. Qed.

(** A state change under a guard, the guard dropped. *)
Lemma guarded_set s T i p g st :
  sim s T -> 0 <= i < NUM_GRANULES -> loc s i = Some p -> tab T i = Some g ->
  exists s', with_guard p (set_granule p st) (set_locked ({[p]} ∪ locked s) s)
             = ((a_result (a_set i st T)).1, s') /\ sim s' (a_result (a_set i st T)).2.
Proof.
  intros [R Hl] Hi Hp Ht.
  destruct (gst_set_granule_run (set_locked ({[p]} ∪ locked s) s) T i p g st) as (s' & E & R' & _ & _ & El);
    [by apply repr_locked|done..|].
  unfold with_guard. rewrite E. clear E. revert R'. generalize (a_set i st T) as X. intros [r T1] R'.
  eexists. split; [reflexivity|]. split; [by apply repr_locked|].
  cbn [locked set_locked]. rewrite El. cbn [locked set_locked]. rewrite Hl. apply leibniz_equiv. set_solver.
Qed.

Lemma transition_run s T a from to :
  sim s T -> exists s', transition_tx a from to s = ((a_step (Transition a from to) T).1, s')
                        /\ sim s' (a_step (Transition a from to) T).2.
Proof.
  intros HS. destruct (sim_locks _ _ HS) as [Hk Hf]. destruct HS as [R Hl].
  pose proof (get_granule_if_run ext0 s T a from R Hk (Hf a)) as Hg. unfold transition_tx, a_step.
  destruct (a_check a from T) as [i|e| |] eqn:Ec.
  - destruct Hg as (p & Hp & _ & E). destruct (a_check_ok _ _ _ _ Ec) as (Hgi & g & Ht & _).
    erewrite bind_ok by (unfold mapm_err; rewrite E; reflexivity).
    apply (guarded_set s T i p g); [done|by eapply gidx_range|done|done].
  - destruct Hg as (s' & E & R' & _ & _ & El). exists s'.
    split; [|split; [done|congruence]]. by apply bind_err; unfold mapm_err; rewrite E.
  - pose proof (a_check_total T a from) as Hx. by rewrite Ec in Hx.
  - pose proof (a_check_total T a from) as Hx. by rewrite Ec in Hx.
Qed.

(** What the table becomes when a new entry is opened as Undelegated. *)
Lemma a_set_new s T i :
  repr ext0 s T -> tab T i = None ->
  a_set i GranuleState.Undelegated T
  = (Ok tt, mkA (upd_tab i a_new (tab T)) (a_wiped T)).
Proof.
  intros R Ht. unfold a_set. rewrite (children_none ext0 s T i R Ht). unfold a_get. rewrite Ht. done.
Qed.

Lemma delegate_run s T a :
  sim s T ->
  (exists s', delegate_tx btree_slot alloc_table a s = ((a_step (Delegate a) T).1, s')
              /\ sim s' (a_step (Delegate a) T).2)
  \/ opens (Delegate a) T /\ (exists u, alloc_table u = None)
     /\ (exists s', delegate_tx btree_slot alloc_table a s = (Err RmiErrorInput, s') /\ sim s' T).
Proof.
  intros HS. destruct (sim_locks _ _ HS) as [Hk Hf]. destruct HS as [R Hl].
  pose proof (get_granule_if_run ext0 s T a GranuleState.Undelegated R Hk (Hf a)) as Hg.
  unfold delegate_tx, open_undelegated, a_step.
  destruct (a_check a GranuleState.Undelegated T) as [i|e| |] eqn:Ec.
  - left. destruct Hg as (p & Hp & _ & E). destruct (a_check_ok _ _ _ _ Ec) as (Hgi & g & Ht & _).
    erewrite bind_ok by (unfold mapm_err; rewrite E; reflexivity).
    apply (guarded_set s T i p g); [done|by eapply gidx_range|done|done].
  - destruct Hg as (s' & E & R' & Hr' & Hl1' & Hlk').
    destruct (decide (e = MmNoEntry)) as [->|Hne].
    2:{ left. exists s'. split; [|split; [by destruct e|by destruct e; congruence]].
        destruct e; try done; apply bind_err; unfold mapm_err; by rewrite E. }
    unfold a_check in Ec. destruct (Granule.validate_addr a) eqn:Hv; [|done]. cbn [negb] in Ec.
    set (i := granule_addr_to_index a) in *. assert (gidx a i) as Hgi by done.
    pose proof (gidx_range _ _ Hgi) as Hi. destruct (tab T i) as [g|] eqn:Et; [by destruct (_ =? _)|].
    assert (locked s' = ∅) as Hl' by congruence.
    destruct (set_granule_raw_run s' T a i GranuleState.Undelegated R' Hl' Hgi)
      as [(Hno & Hal & Er)|(s1 & Er & R1 & Hr1 & Hl1 & _)].
    + right. split; [by split|]. split; [by eexists|]. exists s'. split; [|done]. apply bind_err. unfold mapm_err. rewrite E.
      unfold set_state_and_get_granule. unfold mbind, M_bind. by rewrite Er.
    + left. rewrite (a_set_new s T i R Et) in *. cbn [fst snd] in *.
      set (T1 := mkA (upd_tab i a_new (tab T)) (a_wiped T)) in *.
      assert (tab T1 i = Some a_new) as Ht1 by (cbn; unfold upd_tab; by rewrite decide_True).
      assert (sim s1 T1) as HS1 by (split; [done|congruence]).
      destruct (sim_locks _ _ HS1) as [Hk1 _].
      pose proof (get_granule_run ext0 s1 T1 a i R1 Hk1 Hgi) as Hgr. rewrite Ht1 in Hgr.
      destruct Hgr as (p & Hp & Eg). rewrite decide_False in Eg by (rewrite Hl1, Hl'; set_solver).
      erewrite bind_ok.
      2:{ unfold mapm_err. rewrite E. unfold set_state_and_get_granule. erewrite bind_ok by exact Er.
          rewrite Eg. reflexivity. }
      by apply (guarded_set s1 T1 i p a_new).
  - pose proof (a_check_total T a GranuleState.Undelegated) as Hx. by rewrite Ec in Hx.
  - pose proof (a_check_total T a GranuleState.Undelegated) as Hx. by rewrite Ec in Hx.
Qed.

Lemma gidx_inj a b i : gidx a i -> gidx b i -> a = b.
Proof. intros Ha Hb. by rewrite <- (gidx_addr _ _ Ha), <- (gidx_addr _ _ Hb). Qed.

Lemma rec_create_run s T rd rec :
  sim s T -> exists s', rec_create_tx rd rec s = ((a_step (RecCreate rd rec) T).1, s')
                        /\ sim s' (a_step (RecCreate rd rec) T).2.
Proof.
  intros HS. destruct (sim_locks _ _ HS) as [Hk Hf]. destruct HS as [R Hl].
  unfold rec_create_tx, a_step. destruct (Z.eqb_spec rec rd) as [|Hne]; [by exists s|].
  pose proof (get_granule_if_run ext0 s T rd GranuleState.RD R Hk (Hf rd)) as Hg.
  pose proof (a_check_total T rd GranuleState.RD) as Htot.
  destruct (a_check rd GranuleState.RD T) as [i|e| |] eqn:Ec; [| |done|done].
  2:{ destruct Hg as (s' & E & R' & _ & _ & El). exists s'. split; [|split; [done|congruence]].
      apply bind_err. unfold mapm_err. by rewrite E. }
  destruct Hg as (p & Hp & _ & E). destruct (a_check_ok _ _ _ _ Ec) as (Hgi & gi & Hti & Hsi).
  erewrite bind_ok by (unfold mapm_err; rewrite E; reflexivity). clear E.
  set (s1 := set_locked ({[p]} ∪ locked s) s).
  assert (repr ext0 s1 T) as R1 by by apply repr_locked.
  destruct (loc_table ext0 _ _ _ _ R Hp) as [Hpr _].
  assert (locks_ok s1) as Hk1.
  { intros k. cbn [s1 locked set_locked]. rewrite Hl. intros Hin.
    assert ((root_pgtbl s, k) = p) as Ep by (revert Hin; set_solver). apply Hpr. by rewrite <- Ep. }
  assert (free s1 rec) as Hf1.
  { intros j q Hgj Hq. cbn [s1 locked set_locked]. rewrite Hl. intros Hin.
    assert (q = p) as -> by (revert Hin; set_solver).
    pose proof (loc_inj ext0 _ _ _ _ _ R Hp Hq). subst j. apply Hne. by eapply gidx_inj. }
  pose proof (get_granule_if_run ext0 s1 T rec GranuleState.Delegated R1 Hk1 Hf1) as Hg.
  pose proof (a_check_total T rec GranuleState.Delegated) as Htot'. unfold with_guard at 1.
  destruct (a_check rec GranuleState.Delegated T) as [j|e| |] eqn:Ec2; [| |done|done].
  2:{ destruct Hg as (s' & E & R' & _ & _ & El).
      erewrite bind_err by (unfold mapm_err; rewrite E; reflexivity).
      eexists. split; [reflexivity|]. split; [by apply repr_locked|]. cbn [locked set_locked].
      rewrite El. cbn [s1 locked set_locked]. rewrite Hl. apply leibniz_equiv. set_solver. }
  destruct Hg as (q & Hq & _ & E). destruct (a_check_ok _ _ _ _ Ec2) as (Hgj & gj & Htj & Hsj).
  erewrite bind_ok by (unfold mapm_err; rewrite E; reflexivity). clear E. unfold with_guard.
  destruct (with_parent_run (set_locked ({[q]} ∪ locked s1) s1) T i j p q gi gj)
    as (s3 & E3 & R3 & _ & _ & El3); try done.
  { by apply repr_locked. } { by eapply gidx_range. } { by eapply gidx_range. }
  { intros ->. apply Hne. by eapply gidx_inj. }
  rewrite E3. clear E3. revert R3. generalize (a_rec i j T) as X. intros [r T1] R3.
  eexists. split; [reflexivity|]. split; [by do 2 apply repr_locked|]. cbn [locked set_locked]. rewrite El3.
  cbn [s1 locked set_locked]. rewrite Hl. apply leibniz_equiv. set_solver.
Qed.

Lemma gst_data_destroy_run s T a :
  sim s T ->
  (exists s', data_destroy_tx btree_slot alloc_table a s = ((a_step (DataDestroy a) T).1, s')
              /\ sim s' (a_step (DataDestroy a) T).2)
  \/ opens (DataDestroy a) T /\ (exists u, alloc_table u = None)
     /\ (exists s', data_destroy_tx btree_slot alloc_table a s = (Err RmiErrorInput, s') /\ sim s' T).
Proof.
  intros [R Hl]. unfold data_destroy_tx, a_step, set_state_and_get_granule.
  destruct (Granule.validate_addr a) eqn:Hv.
  2:{ left. exists s. split; [|done]. apply bind_err. unfold mapm_err. erewrite bind_err; [reflexivity|].
      unfold set_granule_raw. rewrite validate_addr_eq, Hv. reflexivity. }
  set (i := granule_addr_to_index a). assert (gidx a i) as Hgi by done.
  pose proof (gidx_range _ _ Hgi) as Hi.
  destruct (set_granule_raw_run s T a i GranuleState.Delegated R Hl Hgi)
    as [(Hno & Hal & Er)|(s1 & Er & R1 & Hr1 & Hl1 & _)].
  - right. split.
    { split; [done|]. destruct (tab T i) eqn:Et; [|done].
      destruct (r_tab _ _ _ R i ltac:(by eexists)) as [_ [? ?]]. congruence. }
    split; [by eexists|]. exists s. split; [|done]. apply bind_err. unfold mapm_err.
    erewrite bind_err by exact Er. reflexivity.
  - left. destruct (a_set i GranuleState.Delegated T) as [r T1] eqn:Et. unfold a_result. cbn [fst snd] in *.
    assert (sim s1 T1) as HS1 by (split; [done|congruence]). destruct (sim_locks _ _ HS1) as [Hk1 _].
    assert (r = Ok tt /\ (exists g, tab T1 i = Some g) \/ exists e, r = Err e) as [[-> [g Ht1]]|[e ->]].
    { destruct (a_set_cases i GranuleState.Delegated T) as [(e & Ee & _)|(Hc & Ee)]; rewrite Ee in Et;
        injection Et as <- <-; [right; by eexists|]. left. split; [done|]. eexists.
      unfold a_written, upd_tab. cbn [tab]. by rewrite decide_True. }
    + pose proof (get_granule_run ext0 s1 T1 a i R1 Hk1 Hgi) as Hgr. rewrite Ht1 in Hgr.
      destruct Hgr as (p & Hp & Eg). rewrite decide_False in Eg by (rewrite Hl1, Hl; set_solver).
      erewrite bind_ok.
      2:{ unfold mapm_err. erewrite bind_ok by exact Er. rewrite Eg. reflexivity. }
      eexists. split; [reflexivity|]. split; [by do 2 apply repr_locked|]. cbn. rewrite Hl1, Hl.
      apply leibniz_equiv. set_solver.
    + exists s1. split; [|done]. apply bind_err. unfold mapm_err. erewrite bind_err by exact Er. done.
Qed.

(** One transaction. *)
Lemma step_refines o s T :
  sim s T ->
  (exists s', step o s = ((a_step o T).1, s') /\ sim s' (a_step o T).2)
  \/ opens o T /\ (exists u, alloc_table u = None)
     /\ (exists s', step o s = (Err RmiErrorInput, s') /\ sim s' T).
Proof.
  intros HS. destruct o.
  - by apply delegate_run.
  - left. by apply transition_run.
  - left. by apply rec_create_run.
  - by apply gst_data_destroy_run.
Qed.

(** ** Sequences of transactions *)
Fixpoint run_ops (os : list op) (s : t) : list (outcome Error unit) * t :=
  match os with
  | [] => ([], s)
  | o :: os => let '(r, s) := step o s in let '(rs, s) := run_ops os s in (r :: rs, s)
  end.

Fixpoint a_run (os : list op) (T : ATable) : list (outcome Error unit) * ATable :=
  match os with
  | [] => ([], T)
  | o :: os => let '(r, T) := a_step o T in let '(rs, T) := a_run os T in (r :: rs, T)
  end.

Definition empty_table : ATable := mkA (fun _ => None) [].

Lemma new_sim s0 : Gst.new alloc_table = Ok s0 -> sim s0 empty_table.
Proof.
  unfold Gst.new, new_in. mstep. cbn [tables]. rewrite dom_empty_L.
  destruct (alloc_table ∅) as [a|]; [|done]. mstep. intros [= <-]. split; [|done].
  split; cbn [tables root_pgtbl l1_tables granules strong wiped set_strong set_granules set_tables].
  - by rewrite lookup_insert_eq.
  - intros b e j. rewrite lookup_insert_Some. intros [[<- <-]|[_ ?]]; [done|]. by rewrite lookup_empty in *.
  - intros k b. by rewrite lookup_empty.
  - intros k k' b. by rewrite lookup_empty.
  - intros k. rewrite lookup_empty. unfold inner. cbn. by rewrite lookup_insert_eq.
  - intros k. cbn. by rewrite decide_True.
  - intros i p _. unfold loc. cbn [l1_tables]. rewrite lookup_empty. discriminate.
  - intros i. cbn. by intros [].
  - intros i p _. unfold loc. cbn [l1_tables]. rewrite lookup_empty. discriminate.
  - done.
Qed.

(** The runs of the flat table: each transaction gives its result there, except
    that one that opens a new entry may be refused, without an effect, when the
    allocator has no block left for the entry's table. *)
Inductive flat_run : list op -> ATable -> list (outcome Error unit) -> ATable -> Prop :=
| flat_nil T : flat_run [] T [] T
| flat_step o os T r T1 rs T2 :
    a_step o T = (r, T1) -> flat_run os T1 rs T2 -> flat_run (o :: os) T (r :: rs) T2
| flat_no_memory o os T u rs T2 :
    opens o T -> alloc_table u = None -> flat_run os T rs T2 ->
    flat_run (o :: os) T (Err RmiErrorInput :: rs) T2.

Lemma run_refines os s T :
  sim s T -> exists T', flat_run os T (run_ops os s).1 T' /\ sim (run_ops os s).2 T'.
Proof.
  revert s T. induction os as [|o os IH]; intros s T HS; [by exists T; split; [constructor|]|].
  cbn [run_ops].
  destruct (step_refines o s T HS) as [(s' & E & HS')|(Ho & [u Hu] & s' & E & HS')]; rewrite E;
    destruct (IH s' _ HS') as (T' & F & HS2); destruct (run_ops os s'); cbn [fst snd] in *; exists T'.
  - split; [|done]. eapply flat_step; [apply surjective_pairing|exact F].
  - split; [|done]. by eapply flat_no_memory.
Qed.

(** With memory left for every table the run is the one of [a_run]. *)
Lemma flat_run_exact os T rs T' :
  (forall u, is_Some (alloc_table u)) -> flat_run os T rs T' -> a_run os T = (rs, T').
Proof.
  intros Ha. induction 1 as [|o os T r T1 rs T2 E _ IH|o os T u rs T2 _ Hu]; cbn [a_run].
  - done.
  - by rewrite E, IH.
  - destruct (Ha u) as [? ?]. congruence.
Qed.

(** What a handler reads through a guard. *)
Lemma sim_observe s T a i g :
  sim s T -> gidx a i -> tab T i = Some g ->
  exists p s', get_granule a s = (Ok p, s') /\ guard_state p s' = a_state g /\ guard_addr p s' = a
    /\ num_children p s' = children T i.
Proof.
  intros HS Hg Ht. destruct (sim_locks _ _ HS) as [Hk Hf]. destruct HS as [R Hl].
  pose proof (gidx_range _ _ Hg) as Hi. pose proof (get_granule_run ext0 s T a i R Hk Hg) as Hr.
  rewrite Ht in Hr. destruct Hr as (p & Hp & E). rewrite decide_False in E by (rewrite Hl; set_solver).
  eexists p, _. split; [exact E|].
  assert (repr ext0 (set_locked ({[p]} ∪ locked s) s) T) as R' by by apply repr_locked.
  destruct (guard_addr_run ext0 _ T i p g R' Hi Hp Ht) as [-> ->]. rewrite (gidx_addr _ _ Hg).
  split; [done|]. split; [done|]. unfold num_children. destruct (loc_table ext0 _ _ _ _ R Hp) as [_ Hpt].
  rewrite (inner_rc ext0 _ _ _ R' Hpt), (r_strong _ _ _ R' i p Hi Hp). unfold ext0. lia.
Qed.

(** C34: The two-level granule status table with shared granules behaves like a
    flat table: starting from a new table, any sequence of the granule
    transactions of the handlers (delegation, state changes, REC_CREATE's
    child with its parent, DATA_DESTROY) gives the results of a run of the flat
    table, in which only the legal transitions are made, a granule is wiped on the
    way to Delegated and back to Undelegated, and a granule changes state only
    while it has no children. Two things of the code are in the flat table too: a
    transaction that opens a new entry is refused, without an effect, when the
    allocator has no block for its table (nothing is assumed of the allocator but
    that a block it returns is not in use), and an entry opened directly as
    Delegated wipes the page at address 0 instead of its own. Afterwards every
    granule reads through its guard as the flat table says, its reference count
    being the number of its children, and an address without an entry is reported
    as such. *)
Theorem gst_refines_flat os s0 :
  Gst.new alloc_table = Ok s0 ->
  let s := (run_ops os s0).2 in
  exists T, flat_run os empty_table (run_ops os s0).1 T
    /\ wiped s = a_wiped T
    /\ forall a i, gidx a i ->
       match tab T i with
       | Some g => exists p s', get_granule a s = (Ok p, s') /\ guard_state p s' = a_state g
           /\ guard_addr p s' = a /\ num_children p s' = children T i
       | None => get_granule a s = (Err MmNoEntry, s)
       end.
Proof.
  intros Hn s. destruct (run_refines os s0 empty_table (new_sim _ Hn)) as (T & F & HS).
  fold s in HS. exists T. split; [exact F|]. split; [apply HS|]. intros a i Hg.
  destruct (tab T i) as [g|] eqn:Et; [by apply sim_observe|].
  destruct (sim_locks _ _ HS) as [Hk Hf]. destruct HS as [R Hl].
  pose proof (get_granule_run ext0 s T a i R Hk Hg) as Hr. rewrite Et in Hr. apply Hr.
  destruct (loc s i) as [p|] eqn:Hp; [right; exists p; split; [done|by eapply Hf]|by left].
Qed.
End ops.

(** [check_parent] compares the address of the clone inside the child with the
    address of the entry's [Inner]: no parent that is held by a guard passes. *)
Theorem check_parent_never s p child :
  check_granule_parent (InEntry p) child s = Err RmiErrorInput.
Proof. unfold check_granule_parent, check_parent. by destruct (parent _). Qed.

(** Opening a granule that has no entry as Delegated wipes the page at address
    0: the entry has no address yet. *)
Theorem raw_delegated_wipes_zero btree_slot alloc_table s T a i :
  (forall u b, alloc_table u = Some b -> b ∉ u) -> (forall u, is_Some (alloc_table u)) ->
  sim s T -> gidx a i -> tab T i = None ->
  exists s', set_granule_raw btree_slot alloc_table a GranuleState.Delegated s = (Ok tt, s')
             /\ wiped s' = 0 :: wiped s.
Proof.
  intros Hfr Hal [R Hl] Hg Ht.
  destruct (set_granule_raw_run btree_slot alloc_table Hfr s T a i GranuleState.Delegated R Hl Hg)
    as [(_ & Hno & _)|(s' & E & R' & _)].
  { destruct (Hal (dom (tables s))) as [? ?]. congruence. }
  assert (a_set i GranuleState.Delegated T
          = (Ok tt, mkA (upd_tab i (mkAG GranuleState.Delegated None) (tab T)) (0 :: a_wiped T))) as Es.
  { unfold a_set. rewrite (children_none ext0 s T i R Ht). unfold a_get. by rewrite Ht. }
  rewrite Es in *. exists s'. split; [exact E|]. rewrite (r_wiped _ _ _ R'), (r_wiped _ _ _ R). done.
Qed.

(** ** Witness: a realm with one REC

    The allocator has blocks for the root and one table: a granule of the second
    region, in another table, cannot be delegated. *)
Definition sample_alloc (u : gset Z) : option Z := if decide (size u < 2)%nat then Some (fresh u) else None.

Definition sample_ops : list op :=
  [Delegate 0x80001000; Transition 0x80001000 GranuleState.Delegated GranuleState.RD;
   Delegate 0x80002000; RecCreate 0x80001000 0x80002000; Delegate 0x880002000;
   Transition 0x80001000 GranuleState.RD GranuleState.Delegated;
   Transition 0x80002000 GranuleState.Rec GranuleState.Delegated;
   Transition 0x80001000 GranuleState.RD GranuleState.Delegated].

Lemma gst_refines_flat_witness :
  exists T, flat_run sample_alloc sample_ops empty_table
      [Ok tt; Ok tt; Ok tt; Ok tt; Err RmiErrorInput; Err RmiErrorInput; Ok tt; Ok tt] T
    /\ a_wiped T = [0x80001000; 0x80002000; 0x80002000; 0x80001000].
Proof.
  destruct (Gst.new sample_alloc) as [s0| | |] eqn:En; [|discriminate En..].
  destruct (gst_refines_flat id sample_alloc) with (os := sample_ops) (s0 := s0) as (T & F & W & _).
  - intros u a. unfold sample_alloc. case_decide; [|done]. intros [= <-]. apply is_fresh.
  - done.
  - exists T. rewrite <- W. clear W.
    assert (run_ops id sample_alloc sample_ops s0
      = match Gst.new sample_alloc with Ok s => run_ops id sample_alloc sample_ops s | _ => ([], s0) end) as Er
      by (by rewrite En).
    rewrite Er in *. clear Er En. split; [|by vm_compute].
    assert ((match Gst.new sample_alloc with Ok s => run_ops id sample_alloc sample_ops s | _ => ([], s0) end).1
      = [Ok tt; Ok tt; Ok tt; Ok tt; Err RmiErrorInput; Err RmiErrorInput; Ok tt; Ok tt]) as Ev by (by vm_compute).
    by rewrite Ev in F.
Defined.
