(* ===== verification/Teardown.v ===== *)
(** * Taking a realm down

    REC_DESTROY (rmm/src/rmi/rec/handlers.rs) and REALM_DESTROY
    (rmm/src/rmi/realm/mod.rs) on every branch: which granules they give back, and
    that each of them is wiped and nothing else is touched. *)

From S2P Require Import Prelude Bytes Bits Vmsa RmiTypes Granule S2tte Objects Machine PageTable Stage1 Stage1Facts Stage2 Measurement Rtt RmiRealm RmiRtt RmiRec Frame Sample Invariants Guards SampleRealm Lifecycle.

(** ** Releasing granules *)
Section released.
Context `{Platform}.

(** From [s] to [s'] the granules [I] became Delegated and were wiped; no other
    granule changed, and no other page but those of [P]. *)
Definition released (I P : gset Z) (s s' : rmm) : Prop :=
  exists g m h, s' = set_heap h (set_mem m (set_gst g s)) /\
    (forall i, i ∈ I -> g i = mkGranule GranuleState.Delegated (ref_count (gst s i))) /\
    (forall i, i ∈ I -> index_to_addr i ∉ P -> m (index_to_addr i) = zero_page) /\
    (forall i, i ∉ I -> g i = gst s i) /\
    (forall a, a ∉ P -> (forall i, i ∈ I -> a <> index_to_addr i) -> m a = mem s a).

Lemma released_refl s : released ∅ ∅ s s.
Proof. exists (gst s), (mem s), (heap s). split_and!; try done. by destruct s. Qed.

Lemma released_trans I J P Q s s1 s2 :
  released I P s s1 -> released J Q s1 s2 -> released (I ∪ J) (P ∪ Q) s s2.
Proof.
  intros (g & m & h & -> & G1 & M1 & G1' & M1') (g2 & m2 & h2 & -> & G2 & M2 & G2' & M2').
  simpl in *. exists g2, m2, h2. split_and!; [done|..].
  - intros i Hi. destruct (decide (i ∈ J)) as [HJ|HJ].
    + rewrite G2 by done. f_equal. destruct (decide (i ∈ I)); [by rewrite G1|by rewrite G1'].
    + rewrite G2' by done. apply G1. set_solver.
  - intros i Hi HP. destruct (decide (set_Exists (fun j => index_to_addr i = index_to_addr j) J)) as [He|He].
    + destruct He as (j & Hj & E). rewrite E in *. apply M2; [done|set_solver].
    + rewrite M2'; [|set_solver|].
      * apply M1; [|set_solver]. apply elem_of_union in Hi as [|HJ]; [done|]. destruct He. by exists i.
      * intros j Hj E. apply He. by exists j.
  - intros i Hi. rewrite G2' by set_solver. apply G1'. set_solver.
  - intros a Ha Hne. rewrite M2'; [|set_solver..]. apply M1'; set_solver.
Qed.

Lemma released_one idx s : released {[idx]} ∅ s (with_granule_state idx GranuleState.Delegated s).
Proof.
  exists (gst (with_granule_state idx GranuleState.Delegated s)),
    (mem (with_granule_state idx GranuleState.Delegated s)), (heap s). split_and!.
  - unfold with_granule_state. by destruct (set_state_zeroizes _ _).
  - intros i ->%elem_of_singleton. by rewrite with_granule_state_gst, decide_True.
  - intros i ->%elem_of_singleton _. rewrite with_granule_state_mem, decide_True; [done|].
    split; [done|]. unfold set_state_zeroizes. by rewrite orb_true_r.
  - intros i Hi. rewrite with_granule_state_gst, decide_False; [done|set_solver].
  - intros a _ Ha. rewrite with_granule_state_mem, decide_False; [done|].
    intros [-> _]. exact (Ha idx ltac:(set_solver) eq_refl).
Qed.

Lemma released_heap h s : released ∅ ∅ s (set_heap h s).
Proof. exists (gst s), (mem s), h. split_and!; try done. Qed.

Lemma released_page a c s : released ∅ {[a]} s (write_page a c s).
Proof.
  exists (gst s), (<[a := c]> (mem s)), (heap s). split_and!; try done.
  intros b Hb _. apply fn_lookup_insert_ne. set_solver.
Qed.

Lemma released_weaken I P Q s s' : released I P s s' -> P ⊆ Q -> released I Q s s'.
Proof.
  intros (g & m & h & -> & G1 & M1 & G1' & M1') HP. exists g, m, h. split_and!; try done; eauto.
Qed.

(** The lock of [idx] plays no part. *)
Lemma released_unlock I P idx s s' :
  idx ∉ locked s -> released I P (lock idx s) s' -> released I P s (unlock idx s').
Proof.
  intros Hn (g & m & h & -> & Hr). exists g, m, h. split; [|exact Hr].
  unfold unlock. simpl. unfold set_heap, set_mem, set_gst, set_locked, lock. simpl.
  by rewrite lock_difference.
Qed.

(** A page that was written and then wiped. *)
Lemma released_wiped I P idx s s' :
  released I P s s' -> idx ∈ I -> P ⊆ {[index_to_addr idx]} ->
  mem s' (index_to_addr idx) = zero_page -> released I ∅ s s'.
Proof.
  intros (g & m & h & -> & G1 & M1 & G1' & M1') Hi HP Hz. simpl in Hz. exists g, m, h.
  split_and!; try done.
  - intros i HI _. destruct (decide (index_to_addr i ∈ P)) as [Hp|Hp]; [|by apply M1].
    apply HP, elem_of_singleton in Hp. by rewrite Hp.
  - intros a _ Ha. apply M1'; [|done]. intros Hp. apply HP, elem_of_singleton in Hp.
    by apply (Ha idx).
Qed.

Lemma released_update I P s s' idx f :
  released I P s s' -> idx ∉ I -> released I P (update_granule idx f s) (update_granule idx f s').
Proof.
  intros (g & m & h & -> & G1 & M1 & G1' & M1') Hi.
  exists (<[idx := f (g idx)]> g), m, h. split_and!; try done.
  - intros i HI. unfold update_granule. simpl. rewrite !fn_lookup_insert_ne by set_solver. by apply G1.
  - intros i HI. unfold update_granule. simpl. destruct (decide (i = idx)) as [->|Hne].
    + rewrite !fn_lookup_insert. by rewrite G1'.
    + rewrite !fn_lookup_insert_ne by done. by apply G1'.
Qed.

Lemma released_locked I P s s' : released I P s s' -> locked s' = locked s.
Proof. by intros (g & m & h & -> & _). Qed.
Lemma released_vmids I P s s' : released I P s s' -> vmid_set s' = vmid_set s.
Proof. by intros (g & m & h & -> & _). Qed.
Lemma released_gst I P s s' i : released I P s s' -> i ∉ I -> gst s' i = gst s i.
Proof. intros (g & m & h & -> & _ & _ & Hg & _) Hi. by apply Hg. Qed.
End released.

(** ** Releasing under a guard *)
Section guarded.
Context `{Platform}.

Lemma with_granule_released addr s :
  let idx := granule_addr_to_index addr in
  validate_addr addr = true -> idx ∉ locked s ->
  exists s', with_granule addr (fun g => set_granule g GranuleState.Delegated) s = (Ok tt, s')
             /\ released {[idx]} ∅ s s'.
Proof.
  intros idx Hv Hn. rewrite with_granule_run by done. fold idx. rewrite set_granule_run.
  eexists. split; [reflexivity|]. apply released_unlock; [done|]. apply released_one.
Qed.

(** The root tables of a realm. *)
Definition root_table (rd : Rd.t) (i : Z) : Z := Word.add (Rd.rtt_base rd) (i * GRANULE_SIZE).
Fixpoint roots_from (rd : Rd.t) (n : nat) (i : Z) : gset Z :=
  match n with
  | O => ∅
  | S n => {[granule_addr_to_index (root_table rd i)]} ∪ roots_from rd n (i + 1)
  end.
Definition roots (rd : Rd.t) : gset Z := roots_from rd (Z.to_nat (Rd.rtt_num_start rd)) 0.

Lemma elem_of_roots rd n i x :
  x ∈ roots_from rd n i <->
  exists k, i <= k < i + Z.of_nat n /\ x = granule_addr_to_index (root_table rd k).
Proof.
  revert i. induction n as [|n IH]; intros i; cbn [roots_from].
  - split; [set_solver|]. intros (k & Hk & _). lia.
  - rewrite elem_of_union, elem_of_singleton, IH. split.
    + intros [-> |(k & Hk & ->)]; [exists i|exists k]; (split; [lia|done]).
    + intros (k & Hk & ->). destruct (decide (k = i)) as [-> |]; [by left|right].
      exists k. split; [lia|done].
Qed.

Lemma release_roots rd n i s :
  (forall k, i <= k < i + Z.of_nat n -> validate_addr (root_table rd k) = true) ->
  (forall x, x ∈ roots_from rd n i -> x ∉ locked s) ->
  exists s', for_range n i (fun i => with_granule (root_table rd i)
      (fun g => set_granule g GranuleState.Delegated)) s = (Ok tt, s')
    /\ released (roots_from rd n i) ∅ s s'.
Proof.
  revert i s. induction n as [|n IH]; intros i s Hv Hn; cbn [for_range roots_from].
  { eexists. split; [reflexivity|]. apply released_refl. }
  destruct (with_granule_released (root_table rd i) s) as (s1 & E1 & R1);
    [apply Hv; lia|apply Hn; cbn; set_solver|].
  destruct (IH (i + 1) s1) as (s2 & E2 & R2).
  { intros k Hk. apply Hv. lia. }
  { intros x Hx. rewrite (released_locked _ _ _ _ R1). apply Hn. cbn. set_solver. }
  exists s2. split; [by erewrite bind_ok by exact E1|].
  rewrite <- (union_empty_l_L (∅ : gset Z)). by eapply released_trans.
Qed.

(** The check that no root table has children. *)
Lemma check_roots rd n i s :
  (forall k, i <= k < i + Z.of_nat n -> validate_addr (root_table rd k) = true) ->
  (forall x, x ∈ roots_from rd n i -> x ∉ locked s /\ ref_count (gst s x) = 0) ->
  for_range n i (fun i => with_granule (root_table rd i) (fun g =>
    e ← gets (fun s => gst s g);
    if 0 <? num_children e then throw (RmiErrorRealm 0) else mret tt)) s = (Ok tt, s).
Proof.
  revert i. induction n as [|n IH]; intros i Hv Hn; cbn [for_range]; [done|].
  destruct (Hn (granule_addr_to_index (root_table rd i))) as [Hl Hc]; [cbn; set_solver|].
  erewrite bind_ok; [apply IH; [intros k Hk; apply Hv; lia|intros x Hx; apply Hn; cbn; set_solver]|].
  rewrite with_granule_run by (apply Hv || done; lia). cbv zeta. mstep.
  change (gst (lock _ s)) with (gst s). unfold num_children. rewrite Hc. cbn.
  unfold mret, M_ret. by rewrite unlock_lock.
Qed.

(** The granule that holds a realm's metadata. *)
Definition meta_granules (rd : Rd.t) : gset Z :=
  match Rd.metadata rd with Some meta => {[granule_addr_to_index meta]} | None => ∅ end.

Lemma release_metadata rd rd_addr s :
  (forall meta, Rd.metadata rd = Some meta ->
     validate_addr meta = true /\ granule_addr_to_index meta ∉ locked s /\
     state (gst s (granule_addr_to_index meta)) = GranuleState.Metadata) ->
  exists s', (match Rd.metadata rd with
     | Some meta =>
         with_granule_if meta GranuleState.Metadata (fun meta_granule =>
           set_granule meta_granule GranuleState.Delegated;;
           update_rd rd_addr (Rd.with_metadata None))
     | None => mret tt
     end) s = (Ok tt, s') /\ released (meta_granules rd) {[rd_addr]} s s'.
Proof.
  intros Hm. unfold meta_granules. destruct (Rd.metadata rd) as [meta|].
  - destruct (Hm meta eq_refl) as (Hv & Hn & Hs). rewrite with_granule_if_run by done. cbv zeta.
    erewrite bind_ok by apply set_granule_run. unfold update_rd. mstep. unfold modify, write_rd.
    eexists. split; [reflexivity|]. apply released_unlock; [done|].
    rewrite <- (union_empty_r_L {[granule_addr_to_index meta]}), <- (union_empty_l_L {[rd_addr]}).
    eapply released_trans; [apply released_one|apply released_page].
  - eexists. split; [reflexivity|]. eapply released_weaken; [apply released_refl|set_solver].
Qed.

(** A realm whose root tables and metadata are granules of their own. *)
Record realm_wf (rd_addr : Z) (s : rmm) : Prop := mkRealmWf {
  w_valid : validate_addr rd_addr = true;
  w_state : state (gst s (granule_addr_to_index rd_addr)) = GranuleState.RD;
  w_meta meta : Rd.metadata (rd_of (mem s rd_addr)) = Some meta ->
    validate_addr meta = true /\ state (gst s (granule_addr_to_index meta)) = GranuleState.Metadata;
  w_roots k : 0 <= k < Rd.rtt_num_start (rd_of (mem s rd_addr)) ->
    validate_addr (root_table (rd_of (mem s rd_addr)) k) = true;
  w_root_state x : x ∈ roots (rd_of (mem s rd_addr)) ->
    state (gst s x) = GranuleState.RTT /\ ref_count (gst s x) = 0;
  w_vmid : Rd.id (rd_of (mem s rd_addr)) ∈ vmid_set s
}.

Lemma release_rd rd_addr s :
  exists s', (set_granule (granule_addr_to_index rd_addr) GranuleState.Delegated;;
              pt_unmap rd_addr) s = (Ok tt, s')
    /\ released {[granule_addr_to_index rd_addr]} ∅ s s'
    /\ mem s' (index_to_addr (granule_addr_to_index rd_addr)) = zero_page.
Proof.
  erewrite bind_ok by apply set_granule_run.
  destruct (pt_unmap_ok rd_addr (with_granule_state (granule_addr_to_index rd_addr) GranuleState.Delegated s))
    as [h ->]. eexists. split; [reflexivity|].
  assert (released {[granule_addr_to_index rd_addr]} ∅ s (set_heap h
    (with_granule_state (granule_addr_to_index rd_addr) GranuleState.Delegated s))) as R.
  { rewrite <- (union_empty_r_L {[_]}), <- (union_empty_l_L (∅ : gset Z)).
    eapply released_trans; [apply released_one|apply released_heap]. }
  split; [exact R|]. destruct R as (g & m & h' & -> & _ & Hm & _). simpl. apply Hm; set_solver.
Qed.

Lemma realm_destroy_ok rd_addr s :
  let idx := granule_addr_to_index rd_addr in
  let rd := rd_of (mem s rd_addr) in
  locked s = ∅ -> realm_wf rd_addr s -> ref_count (gst s idx) = 0 ->
  exists s', realm_destroy [rd_addr] s = (Ok tt, set_vmid_set (vmid_set s ∖ {[Rd.id rd]}) s')
    /\ released ({[idx]} ∪ roots rd ∪ meta_granules rd) ∅ s s'.
Proof.
  intros idx rd Hl [Hv Hs Hm Hro Hrs Hvm] Hc. fold rd in Hm, Hro, Hrs, Hvm.
  assert (forall i, i ∉ locked s) as Hn by (rewrite Hl; set_solver).
  assert (forall i, state (gst s i) <> GranuleState.RD -> i ∉ locked (lock idx s)) as Hn'.
  { intros i Hi. simpl. rewrite Hl. intros Hin. apply Hi. assert (i = idx) as -> by set_solver. done. }
  assert (index_to_addr idx = rd_addr) as Hix by by apply index_to_addr_to_index.
  unfold realm_destroy. rewrite (bind_argn _ 0 rd_addr) by done. rewrite with_granule_if_run by done.
  fold idx. cbv zeta. mstep. change (gst (lock idx s)) with (gst s). unfold num_children at 1. rewrite Hc.
  cbn [Z.ltb Z.compare]. unfold content_addr. mstep. rewrite !Hix.
  change (mem (lock idx s)) with (mem s). fold rd.
  destruct (release_metadata rd rd_addr (lock idx s)) as (s1 & E1 & R1).
  { intros meta Hmeta. destruct (Hm meta Hmeta) as [Hmv Hms]. split_and!; [done| |done].
    apply Hn'. by rewrite Hms. }
  erewrite bind_ok by exact E1.
  assert (forall x, x ∈ roots rd -> x ∉ meta_granules rd) as Hdisj.
  { intros x Hx. destruct (Hrs x Hx) as [Hxs _]. unfold meta_granules.
    destruct (Rd.metadata rd) as [meta|] eqn:Em; [|set_solver]. intros ->%elem_of_singleton.
    destruct (Hm meta eq_refl) as [_ Hms]. by rewrite Hms in Hxs. }
  assert (forall k, 0 <= k < 0 + Z.of_nat (Z.to_nat (Rd.rtt_num_start rd)) ->
            validate_addr (root_table rd k) = true) as Hvr by (intros k Hk; apply Hro; lia).
  assert (forall x, x ∈ roots rd -> x ∉ locked s1 /\ ref_count (gst s1 x) = 0) as Hfree.
  { intros x Hx. destruct (Hrs x Hx) as [Hxs Hxc]. rewrite (released_locked _ _ _ _ R1).
    rewrite (released_gst _ _ _ _ x R1) by auto. split; [|done]. apply Hn'. by rewrite Hxs. }
  erewrite bind_ok by (apply (check_roots rd); [exact Hvr|exact Hfree]).
  destruct (release_roots rd _ 0 s1 Hvr) as (s2 & E2 & R2); [intros x Hx; by apply Hfree|].
  erewrite bind_ok by exact E2.
  destruct (release_rd rd_addr s2) as (s3 & E3 & R3 & Hz). fold idx in E3, R3, Hz.
  pose proof (released_trans _ _ _ _ _ _ _ R1 (released_trans _ _ _ _ _ _ _ R2 R3)) as R.
  apply released_wiped with (idx := idx) in R; [|set_solver|rewrite Hix; set_solver|done].
  eexists (unlock idx s3). split.
  - rewrite <- bind_assoc. erewrite bind_ok by exact E3. unfold remove. mstep.
    rewrite (released_vmids _ _ _ _ R). rewrite decide_True by exact Hvm. done.
  - apply released_unlock; [by apply Hn|].
    assert ({[idx]} ∪ roots rd ∪ meta_granules rd = meta_granules rd ∪ (roots rd ∪ {[idx]})) as -> by set_solver.
    exact R.
Qed.

(** C21: REALM_DESTROY refuses, without any effect, an address that is not the
    descriptor of a realm and a realm whose count of RECs is not zero. A realm
    whose count is zero and whose granules are what REALM_CREATE made them (the
    root tables RTT granules without children, the metadata a Metadata granule,
    the VMID registered) is destroyed: its descriptor, its root tables and its metadata granule
    become Delegated and are wiped, its VMID is free again, and nothing else
    but the RMM's own mappings changes. *)
Theorem realm_destroy_spec rd_addr rest s :
  let idx := granule_addr_to_index rd_addr in
  let rd := rd_of (mem s rd_addr) in
  locked s = ∅ ->
  (validate_addr rd_addr = false \/ state (gst s idx) <> GranuleState.RD ->
     realm_destroy (rd_addr :: rest) s = (Err RmiErrorInput, s)) /\
  (validate_addr rd_addr = true -> state (gst s idx) = GranuleState.RD -> 0 < ref_count (gst s idx) ->
     realm_destroy (rd_addr :: rest) s = (Err (RmiErrorRealm 0), s)) /\
  (realm_wf rd_addr s -> ref_count (gst s idx) = 0 ->
     exists s', realm_destroy (rd_addr :: rest) s
                = (Ok tt, set_vmid_set (vmid_set s ∖ {[Rd.id rd]}) s')
       /\ released ({[idx]} ∪ roots rd ∪ meta_granules rd) ∅ s s').
Proof.
  intros idx rd Hl. assert (forall i, i ∉ locked s) as Hn by (rewrite Hl; set_solver).
  change (realm_destroy (rd_addr :: rest) s) with (realm_destroy [rd_addr] s).
  split_and!; [|intros; by apply realm_destroy_refused|by apply realm_destroy_ok].
  intros Hr. unfold realm_destroy. rewrite (bind_argn _ 0 rd_addr) by done.
  by apply with_granule_if_refused.
Qed.
End guarded.

(** ** REC_DESTROY *)
Section rec_destroy.
Context `{Platform}.

Definition aux_granules (aux : list Z) : gset Z := list_to_set (granule_addr_to_index <$> aux).

Lemma release_aux aux s :
  NoDup (granule_addr_to_index <$> aux) ->
  (forall a, a ∈ aux -> validate_addr a = true /\ granule_addr_to_index a ∉ locked s /\
     state (gst s (granule_addr_to_index a)) = GranuleState.RecAux) ->
  exists s', for_each aux (fun rec_aux =>
      with_granule_if rec_aux GranuleState.RecAux (fun rec_aux_granule =>
        set_granule rec_aux_granule GranuleState.Delegated;; pt_unmap rec_aux)) s = (Ok tt, s')
    /\ released (aux_granules aux) ∅ s s'.
Proof.
  revert s. induction aux as [|a aux IH]; intros s Hnd Ha; cbn [for_each].
  { eexists. split; [reflexivity|]. apply released_refl. }
  rewrite fmap_cons in Hnd. inversion_clear Hnd as [|? ? Hna Hnd']. rename Hnd' into Hnd.
  set (idx := granule_addr_to_index a) in *.
  destruct (Ha a) as (Hv & Hn & Hs); [set_solver|].
  destruct (release_rd a (lock idx s)) as (s1 & E1 & R1 & _). fold idx in E1, R1.
  apply released_unlock in R1; [|done].
  destruct (IH (unlock idx s1) Hnd) as (s2 & E2 & R2).
  { intros b Hb. destruct (Ha b) as (Hbv & Hbn & Hbs); [set_solver|].
    rewrite (released_locked _ _ _ _ R1). split_and!; [done..|].
    rewrite (released_gst _ _ _ _ _ R1); [done|]. intros E%elem_of_singleton. apply Hna.
    rewrite <- E. by apply list_elem_of_fmap_2. }
  exists s2. split.
  - erewrite bind_ok; [exact E2|]. rewrite with_granule_if_run by done. fold idx. by rewrite E1.
  - rewrite <- (union_empty_l_L (∅ : gset Z)). by eapply released_trans.
Qed.

(** A REC whose auxiliary granules and owner are what REC_CREATE made them. *)
Record rec_wf (rec_addr rd_addr : Z) (s : rmm) : Prop := mkRecWf {
  v_valid : validate_addr rec_addr = true;
  v_state : state (gst s (granule_addr_to_index rec_addr)) = GranuleState.Rec;
  v_nodup : NoDup (granule_addr_to_index <$> Rec.aux (rec_of (mem s rec_addr)));
  v_aux a : a ∈ Rec.aux (rec_of (mem s rec_addr)) ->
    validate_addr a = true /\ state (gst s (granule_addr_to_index a)) = GranuleState.RecAux;
  v_owner : Rec.owner (rec_of (mem s rec_addr)) = Some rd_addr;
  v_rd : validate_addr rd_addr = true;
  v_rd_state : state (gst s (granule_addr_to_index rd_addr)) = GranuleState.RD
}.

Lemma rec_destroy_ok rec_addr rd_addr s :
  let idx := granule_addr_to_index rec_addr in
  let rd_idx := granule_addr_to_index rd_addr in
  let rec := rec_of (mem s rec_addr) in
  locked s = ∅ -> rec_wf rec_addr rd_addr s -> Rec.state rec <> Running ->
  exists s', rec_destroy [rec_addr] s = (Ok tt, s')
    /\ released ({[idx]} ∪ aux_granules (Rec.aux rec)) ∅ (update_granule rd_idx dec_count s) s'.
Proof.
  intros idx rd_idx rec Hl [Hv Hs Hnd Ha Ho Hvr Hsr] Hrun. fold rec in Hnd, Ha, Ho.
  fold idx in Hs. fold rd_idx in Hsr.
  assert (forall i, i ∉ locked s) as Hn by (rewrite Hl; set_solver).
  assert (forall i, state (gst s i) <> GranuleState.Rec -> i ∉ locked (lock idx s)) as Hn'.
  { intros i Hi. simpl. rewrite Hl. intros Hin. apply Hi. assert (i = idx) as -> by set_solver. done. }
  assert (index_to_addr idx = rec_addr) as Hix by by apply index_to_addr_to_index.
  unfold rec_destroy. rewrite (bind_argn _ 0 rec_addr) by done. rewrite with_granule_if_run by done.
  fold idx. cbv zeta. unfold content_addr. mstep. rewrite !Hix.
  change (rec_of (mem (lock idx s) rec_addr)) with rec. rewrite bool_decide_eq_false_2 by done.
  destruct (release_aux (Rec.aux rec) (lock idx s)) as (s1 & E1 & R1); [done|..].
  { intros a Hin. destruct (Ha a Hin) as [Hav Has]. split_and!; [done| |done]. apply Hn'. by rewrite Has. }
  erewrite bind_ok by exact E1.
  assert (rd_idx ∉ aux_granules (Rec.aux rec)) as Hrd.
  { intros (a & E & Hin)%elem_of_list_to_set%list_elem_of_fmap.
    destruct (Ha a Hin) as [_ Has]. rewrite <- E, Hsr in Has. done. }
  assert (rd_idx ∉ locked s1) as Hnr.
  { rewrite (released_locked _ _ _ _ R1). apply Hn'. by rewrite Hsr. }
  unfold Rec.get_owner. rewrite Ho. cbn [ok_or]. mstep.
  erewrite bind_ok; cycle 1.
  { rewrite with_granule_if_run; [|done..|by rewrite (released_gst _ _ _ _ _ R1)]. reflexivity. }
  change (unlock ?i (update_granule ?j ?f (lock ?i s1))) with (update_granule j f (unlock i (lock i s1))).
  rewrite unlock_lock by done. fold rd_idx.
  destruct (release_rd rec_addr (update_granule rd_idx dec_count s1)) as (s3 & E3 & R3 & _).
  fold idx in E3, R3. exists (unlock idx s3). split.
  - unfold inspect_err, catch. erewrite bind_ok by (rewrite set_granule_run; reflexivity).
    erewrite bind_ok in E3 by apply set_granule_run. by rewrite E3.
  - apply (released_update _ _ _ _ rd_idx dec_count) in R1; [|done].
    pose proof (released_trans _ _ _ _ _ _ _ R1 R3) as R. apply released_unlock; [by apply Hn|].
    rewrite (union_comm_L {[idx]}). rewrite (union_empty_l_L (∅ : gset Z)) in R. exact R.
Qed.

(** C22: REC_DESTROY refuses, without any effect, an address that is not a REC
    and a REC that is running. For a REC that is not running and whose granules
    are what REC_CREATE made them (different auxiliary granules in the state
    RecAux, an owner that is still a realm), the REC and its auxiliary granules
    become Delegated and are wiped, the realm has one REC less, and nothing else
    but the RMM's own mappings changes. *)
Theorem rec_destroy_spec rec_addr rd_addr rest s :
  let idx := granule_addr_to_index rec_addr in
  let rec := rec_of (mem s rec_addr) in
  locked s = ∅ ->
  (validate_addr rec_addr = false \/ state (gst s idx) <> GranuleState.Rec ->
     rec_destroy (rec_addr :: rest) s = (Err RmiErrorInput, s)) /\
  (validate_addr rec_addr = true -> state (gst s idx) = GranuleState.Rec -> Rec.state rec = Running ->
     rec_destroy (rec_addr :: rest) s = (Err RmiErrorRec, s)) /\
  (rec_wf rec_addr rd_addr s -> Rec.state rec <> Running ->
     exists s', rec_destroy (rec_addr :: rest) s = (Ok tt, s')
       /\ released ({[idx]} ∪ aux_granules (Rec.aux rec)) ∅
            (update_granule (granule_addr_to_index rd_addr) dec_count s) s').
Proof.
  intros idx rec Hl. assert (forall i, i ∉ locked s) as Hn by (rewrite Hl; set_solver).
  change (rec_destroy (rec_addr :: rest) s) with (rec_destroy [rec_addr] s).
  split_and!; [| |by apply rec_destroy_ok]; unfold rec_destroy;
    rewrite (bind_argn _ 0 rec_addr) by done.
  - intros Hr. by apply with_granule_if_refused.
  - intros Hv Hs Hrun. rewrite with_granule_if_run by done. cbv zeta. unfold content_addr. mstep.
    rewrite index_to_addr_to_index by done. change (mem (lock _ s)) with (mem s). fold rec.
    rewrite bool_decide_eq_true_2 by done. unfold throw. by rewrite unlock_lock.
Qed.
End rec_destroy.

(** ** Witnesses: the sample realm, without and with a REC *)
Definition sample_registered : rmm := set_vmid_set {[5]} sample_tables.

Lemma realm_destroy_spec_witness :
  exists s', realm_destroy [0x80000000] sample_registered
             = (Ok tt, set_vmid_set (vmid_set sample_registered ∖ {[5]}) s')
    /\ released ({[0]} ∪ roots sample_realm ∪ ∅) ∅ sample_registered s'.
Proof.
  destruct (realm_destroy_spec 0x80000000 [] sample_registered) as (_ & _ & Hd); [reflexivity|].
  refine (Hd _ eq_refl). split; change (rd_of (mem sample_registered 0x80000000)) with sample_realm.
  - reflexivity.
  - reflexivity.
  - intros meta. change (None = Some meta -> validate_addr meta = true /\
      state (gst sample_registered (granule_addr_to_index meta)) = GranuleState.Metadata). done.
  - intros k Hk. change (0 <= k < 1) in Hk. assert (k = 0) as -> by lia. reflexivity.
  - intros x (k & Hk & ->)%elem_of_roots. change (0 <= k < 0 + 1) in Hk. assert (k = 0) as -> by lia. done.
  - change (5 ∈ ({[5]} : gset Z)). set_solver.
Defined.

Definition sample_rec_aux : list Z := (fun i => 0x80007000 + 0x1000 * i) <$> seqZ 0 16.
Definition sample_destroyable_rec : Rec.t :=
  Rec.with_owner (Some 0x80000000) (Rec.with_aux sample_rec_aux Rec.new).
Definition sample_with_rec : rmm :=
  set_gst (fun i => if i =? 0 then mkGranule GranuleState.RD 1
                    else if i =? 6 then mkGranule GranuleState.Rec 0
                    else if 7 <=? i then mkGranule GranuleState.RecAux 0 else gst sample_tables i)
    (write_page 0x80006000 (CRec sample_destroyable_rec) sample_tables).

Lemma rec_destroy_spec_witness :
  exists s', rec_destroy [0x80006000] sample_with_rec = (Ok tt, s')
    /\ released ({[6]} ∪ aux_granules sample_rec_aux) ∅ (update_granule 0 dec_count sample_with_rec) s'.
Proof.
  destruct (rec_destroy_spec 0x80006000 0x80000000 [] sample_with_rec) as (_ & _ & Hd); [reflexivity|].
  change (rec_of (mem sample_with_rec 0x80006000)) with sample_destroyable_rec in Hd.
  refine (Hd _ _); [|done]. split; change (rec_of (mem sample_with_rec 0x80006000)) with sample_destroyable_rec.
  - reflexivity.
  - reflexivity.
  - apply (bool_decide_unpack _). vm_compute. exact I.
  - assert (Forall (fun a => validate_addr a = true /\
      state (gst sample_with_rec (granule_addr_to_index a)) = GranuleState.RecAux)
      (Rec.aux sample_destroyable_rec)) as Hf
      by (apply (bool_decide_unpack _); vm_compute; exact I).
    rewrite Forall_forall in Hf. intros a Ha. by apply Hf, list_elem_of_In.
  - reflexivity.
  - reflexivity.
  - reflexivity.
Defined.
