(* ===== verification/Harness.v ===== *)
(** * The model-checking harnesses (model-checking/src)

    The repository specifies eight of the read-only and state-changing commands by
    bounded model checking: a harness takes the registers of a command, reads
    the failure conditions from the state, runs the monitor once and asserts the
    result and the success conditions. Here a harness is a function over the
    monitor's run: [Ok tt] when every assertion holds, [Panicked] when one
    fails. [kani::any()] is an argument, and [kani::assume] that fails ends the
    run with nothing asserted.

    The ghost field [gpt] of granule/array/entry.rs is the firmware's granule
    protection table, so it is read from the firmware's state. *)

From S2P Require Import Prelude Bytes Bits Vmsa RmiTypes Granule S2tte Objects Machine PageTable Stage1 Stage2 Measurement Rtt RmiGranule RmiRealm RmiRtt RmiRec Rsi RsiPsci RecEnter Event.

Inductive GranuleGpt : Set := GPT_NS | GPT_OTHER | GPT_REALM.
#[global] Instance GranuleGpt_eq_dec : EqDecision GranuleGpt.
Proof. solve_decision. Defined.

(** [Granule::is_valid] *)
Definition is_valid (g : Granule) (gpt : GranuleGpt) : bool :=
  (GranuleState.Undelegated <=? state g) && (state g <=? GranuleState.RTT) &&
  (if negb (state g =? GranuleState.Undelegated) then bool_decide (gpt = GPT_REALM)
   else bool_decide (gpt <> GPT_REALM)).

(** The granule protection table of the firmware, by physical address. *)
Class GptView `{Platform} := gpt : world -> Z -> GranuleGpt.

(** What [smc] of asm.rs does in place of the firmware under model checking, on
    the two calls that change the table: the registers it returns and the new
    entry of the granule. *)
Definition SMC_ERROR : Z := 1.
Definition mark_smc (cmd : Z) (g : GranuleGpt) : Z * GranuleGpt :=
  if cmd =? MARK_REALM then
    if negb (bool_decide (g = GPT_NS)) then (SMC_ERROR, g) else (SMC_SUCCESS, GPT_REALM)
  else if cmd =? MARK_NONSECURE then
    if negb (bool_decide (g = GPT_REALM)) then (SMC_ERROR, g) else (SMC_SUCCESS, GPT_NS)
  else (cmd, g).

(** ** One run of the monitor (monitor.rs, event/mainloop.rs) *)
Section run.
Context `{Platform}.

Definition dispatch_kani (ctx : Event.t) (symbolic : list Z) : M rmm Error Event.t :=
  smc (Event.cmd ctx) (Event.arg ctx);;
  cmd ← lift (unwrap (symbolic !! 0%nat));
  lift (constraint_validate cmd (drop 1 symbolic)).

Definition boot_complete_kani (symbolic : list Z) : M rmm Error Event.t :=
  dispatch_kani (Event.init_arg [Rmi.BOOT_SUCCESS] (Event.new Rmi.BOOT_COMPLETE)) symbolic.

(** [let mut result = [0; 5]; result[..ret_len].copy_from_slice(&ctx.ret[..])] *)
Definition copy_result (ret : list Z) : outcome Error (list Z) :=
  if decide (length ret <= 5)%nat then Ok (ret ++ replicate (5 - length ret) 0) else Panicked.

(** [Monitor::run] under [cfg(kani)] *)
Definition run_kani (symbolic : list Z) : M rmm Error (list Z) :=
  ctx ← boot_complete_kani symbolic;
  ctx ← handle_rmi ctx;
  ctx ← dispatch_kani ctx symbolic;
  lift (copy_result (Event.ret ctx)).

(** One round of [Monitor::run] of the firmware, from the registers of a command
    to the registers of its completion. *)
Definition run_once (regs : list Z) : M rmm Error (list Z) :=
  cmd ← lift (unwrap (regs !! 0%nat));
  ctx ← lift (constraint_validate cmd (drop 1 regs));
  ctx ← handle_rmi ctx;
  lift (copy_result (Event.ret ctx)).
End run.

(** ** common.rs *)
Definition addr_is_granule_aligned (addr : Z) : bool := addr mod GRANULE_SIZE =? 0.

Section common.
Context `{Platform} `{!GptView}.

(** The index of the entry [get_granule!] locks, and drops at once. *)
Definition look_granule (addr : Z) : outcome Error Z :=
  if negb (validate_addr addr) then Err RmiErrorInput
  else
    let idx := granule_addr_to_index addr in
    if GRANULE_STATUS_TABLE_SIZE <=? idx then Err RmiErrorInput else Ok idx.

Definition or_any {A} (r : outcome Error A) (any : A) : A :=
  match r with Ok a => a | _ => any end.
(** [Result::unwrap] *)
Definition unwrap_res {A} (r : outcome Error A) : outcome Error A :=
  match r with Err _ => Panicked | _ => r end.

Definition pre_granule_state (any addr : Z) (s : rmm) : Z :=
  or_any (idx ← look_granule addr; mret (state (gst s idx))) any.
Definition post_granule_state (addr : Z) (s : rmm) : outcome Error Z :=
  unwrap_res (idx ← look_granule addr; mret (state (gst s idx))).
Definition pre_granule_gpt (any : GranuleGpt) (addr : Z) (s : rmm) : GranuleGpt :=
  or_any (idx ← look_granule addr; mret (gpt (env s) (index_to_addr idx))) any.
Definition post_granule_gpt (addr : Z) (s : rmm) : outcome Error GranuleGpt :=
  unwrap_res (idx ← look_granule addr; mret (gpt (env s) (index_to_addr idx))).

(** [any] is assumed to be a granule. *)
Definition pre_valid_addr (any addr : Z) : Z :=
  or_any (idx ← look_granule addr; mret (index_to_addr idx)) any.
Definition pre_rd_state (any addr : Z) (s : rmm) : RealmState :=
  Rd.state (rd_of (mem s (pre_valid_addr any addr))).
Definition post_rd_state (addr : Z) (s : rmm) : outcome Error RealmState :=
  valid_addr ← unwrap_res (idx ← look_granule addr; mret (index_to_addr idx));
  mret (Rd.state (rd_of (mem s valid_addr))).

(** The first root table only *)
Definition post_rtt_state (any addr : Z) (s : rmm) : outcome Error Z :=
  post_granule_state (Rd.rtt_base (rd_of (mem s (pre_valid_addr any addr)))) s.
Definition children (any addr : Z) (s : rmm) : Z :=
  or_any (idx ← look_granule addr; mret (num_children (gst s idx))) any.
Definition pre_realm_is_live (any any_rtt any_addr addr : Z) (s : rmm) : bool :=
  let rd_num_children := children any addr s in
  let rtt_base := Rd.rtt_base (rd_of (mem s (pre_valid_addr any_addr addr))) in
  let rtt_num_children := children any_rtt rtt_base s in
  (0 <? rd_num_children) || (0 <? rtt_num_children).
Definition pre_rec_state (any addr : Z) (s : rmm) : RecState :=
  Rec.state (rec_of (mem s (pre_valid_addr any addr))).
(** The first auxiliary granule only *)
Definition post_rec_aux_state (any addr : Z) (s : rmm) : outcome Error Z :=
  rec_aux ← unwrap (Rec.aux (rec_of (mem s (pre_valid_addr any addr))) !! 0%nat);
  post_granule_state rec_aux s.

(** [if ante { assert!(cons) }] *)
Definition assert_if (ante : bool) (cons : outcome Error bool) : outcome Error unit :=
  if ante then b ← cons; if (b : bool) then Ok tt else Panicked else Ok tt.

(** ** The harnesses *)
Variable run : list Z -> M rmm Error (list Z).

(** [kani::assume(regs[0] == cmd); let out = Monitor::new().run(regs)], then the
    assertions on the output and the state it leaves. *)
Definition assume_run (cmd : Z) (regs : list Z) (s : rmm)
  (asserts : list Z -> rmm -> outcome Error unit) : outcome Error unit :=
  if negb (default 0 (regs !! 0%nat) =? cmd) then Ok tt
  else
    let '(r, s') := run regs s in
    out ← r; asserts out s'.

Definition reg (i : nat) (l : list Z) : Z := default 0 (l !! i).
Definition result_is (out : list Z) (code : Z) : outcome Error bool := mret (reg 0 out =? code).

Definition verify_granule_delegate (any_state : Z) (any_gpt : GranuleGpt) (regs : list Z) (s : rmm)
  : outcome Error unit :=
  let addr := reg 1 regs in
  let failure_gran_align_pre := negb (addr_is_granule_aligned addr) in
  let failure_gran_bound_pre := negb (validate_addr addr) in
  let failure_gran_state_pre := negb (pre_granule_state any_state addr s =? GranuleState.Undelegated) in
  let failure_gran_gpt_pre := negb (bool_decide (pre_granule_gpt any_gpt addr s = GPT_NS)) in
  let no_failures_pre :=
    negb failure_gran_align_pre && negb failure_gran_bound_pre && negb failure_gran_state_pre
    && negb failure_gran_gpt_pre in
  assume_run Rmi.GRANULE_DELEGATE regs s (fun out s' =>
    let error_input := result_is out (error_code RmiErrorInput) in
    let success := reg 0 out =? Rmi.SUCCESS in
    assert_if failure_gran_align_pre error_input;;
    assert_if (negb failure_gran_align_pre && failure_gran_bound_pre) error_input;;
    assert_if (negb failure_gran_align_pre && negb failure_gran_bound_pre && failure_gran_state_pre)
      error_input;;
    assert_if (negb failure_gran_align_pre && negb failure_gran_bound_pre
               && negb failure_gran_state_pre && failure_gran_gpt_pre) error_input;;
    assert_if no_failures_pre (mret success);;
    assert_if no_failures_pre (st ← post_granule_state addr s';
                               mret ((st =? GranuleState.Delegated) && success));;
    assert_if no_failures_pre (g ← post_granule_gpt addr s';
                               mret (bool_decide (g = GPT_REALM) && success))).

Definition verify_granule_undelegate (any_state : Z) (regs : list Z) (s : rmm) : outcome Error unit :=
  let addr := reg 1 regs in
  let failure_gran_align_pre := negb (addr_is_granule_aligned addr) in
  let failure_gran_bound_pre := negb (validate_addr addr) in
  let failure_gran_state_pre := negb (pre_granule_state any_state addr s =? GranuleState.Delegated) in
  let no_failures_pre :=
    negb failure_gran_align_pre && negb failure_gran_bound_pre && negb failure_gran_state_pre in
  assume_run Rmi.GRANULE_UNDELEGATE regs s (fun out s' =>
    let error_input := result_is out (error_code RmiErrorInput) in
    let success := reg 0 out =? Rmi.SUCCESS in
    assert_if failure_gran_align_pre error_input;;
    assert_if (negb failure_gran_align_pre && failure_gran_bound_pre) error_input;;
    assert_if (negb failure_gran_align_pre && negb failure_gran_bound_pre && failure_gran_state_pre)
      error_input;;
    assert_if no_failures_pre (mret success);;
    assert_if no_failures_pre (g ← post_granule_gpt addr s';
                               mret (bool_decide (g = GPT_NS) && success));;
    assert_if no_failures_pre (st ← post_granule_state addr s';
                               mret ((st =? GranuleState.Undelegated) && success));;
    assert_if no_failures_pre
      (content ← unwrap_res (idx ← look_granule addr; mret (index_to_addr idx));
       mret (bool_decide (bytes_of (mem s' content) !! 0%nat = Some 0) && success))).

Definition verify_realm_activate (any_state any_addr : Z) (regs : list Z) (s : rmm)
  : outcome Error unit :=
  let rd := reg 1 regs in
  let failure_rd_align_pre := negb (addr_is_granule_aligned rd) in
  let failure_rd_bound_pre := negb (validate_addr rd) in
  let failure_rd_state_pre := negb (pre_granule_state any_state rd s =? GranuleState.RD) in
  let failure_realm_state_pre := negb (bool_decide (pre_rd_state any_addr rd s = New)) in
  let no_failures_pre :=
    negb failure_rd_align_pre && negb failure_rd_bound_pre && negb failure_rd_state_pre
    && negb failure_realm_state_pre in
  assume_run Rmi.REALM_ACTIVATE regs s (fun out s' =>
    let error_input := result_is out (error_code RmiErrorInput) in
    let success := reg 0 out =? Rmi.SUCCESS in
    assert_if failure_rd_align_pre error_input;;
    assert_if (negb failure_rd_align_pre && failure_rd_bound_pre) error_input;;
    assert_if (negb failure_rd_align_pre && negb failure_rd_bound_pre && failure_rd_state_pre)
      error_input;;
    assert_if (negb failure_rd_align_pre && negb failure_rd_bound_pre && negb failure_rd_state_pre
               && failure_realm_state_pre) (result_is out (error_code (RmiErrorRealm 0)));;
    assert_if no_failures_pre (mret success);;
    assert_if no_failures_pre (st ← post_rd_state rd s';
                               mret (bool_decide (st = Active) && success))).

Definition verify_rec_aux_count (any_state : Z) (regs : list Z) (s : rmm) : outcome Error unit :=
  let rd := reg 1 regs in
  let failure_rd_align_pre := negb (addr_is_granule_aligned rd) in
  let failure_rd_bound_pre := negb (validate_addr rd) in
  let failure_rd_state_pre := negb (pre_granule_state any_state rd s =? GranuleState.RD) in
  let no_failures_pre :=
    negb failure_rd_align_pre && negb failure_rd_bound_pre && negb failure_rd_state_pre in
  assume_run Rmi.REC_AUX_COUNT regs s (fun out s' =>
    let aux_count := reg 1 out in
    let error_input := result_is out (error_code RmiErrorInput) in
    let success := reg 0 out =? Rmi.SUCCESS in
    assert_if failure_rd_align_pre error_input;;
    assert_if (negb failure_rd_align_pre && failure_rd_bound_pre) error_input;;
    assert_if (negb failure_rd_align_pre && negb failure_rd_bound_pre && failure_rd_state_pre)
      error_input;;
    assert_if no_failures_pre (mret success);;
    assert_if no_failures_pre (mret ((aux_count =? Rmi.MAX_REC_AUX_GRANULES) && success))).

Definition verify_rec_destroy (any_state any_addr : Z) (regs : list Z) (s : rmm) : outcome Error unit :=
  let rec := reg 1 regs in
  let failure_rec_align_pre := negb (addr_is_granule_aligned rec) in
  let failure_rec_bound_pre := negb (validate_addr rec) in
  let failure_rec_gran_state_pre := negb (pre_granule_state any_state rec s =? GranuleState.Rec) in
  let failure_rec_state_pre := bool_decide (pre_rec_state any_addr rec s = Running) in
  let no_failures_pre :=
    negb failure_rec_align_pre && negb failure_rec_bound_pre && negb failure_rec_gran_state_pre
    && negb failure_rec_state_pre in
  assume_run Rmi.REC_DESTROY regs s (fun out s' =>
    let error_input := result_is out (error_code RmiErrorInput) in
    let success := reg 0 out =? Rmi.SUCCESS in
    assert_if failure_rec_align_pre error_input;;
    assert_if (negb failure_rec_align_pre && failure_rec_bound_pre) error_input;;
    assert_if (negb failure_rec_align_pre && negb failure_rec_bound_pre && failure_rec_gran_state_pre)
      error_input;;
    assert_if (negb failure_rec_align_pre && negb failure_rec_bound_pre
               && negb failure_rec_gran_state_pre && failure_rec_state_pre)
      (result_is out (error_code RmiErrorRec));;
    assert_if no_failures_pre (mret success);;
    assert_if no_failures_pre (st ← post_granule_state rec s';
                               mret ((st =? GranuleState.Delegated) && success));;
    assert_if no_failures_pre (st ← post_rec_aux_state any_addr rec s';
                               mret ((st =? GranuleState.Delegated) && success))).

Definition verify_realm_destroy (any_state any any_rtt any_addr : Z) (regs : list Z) (s : rmm)
  : outcome Error unit :=
  let rd := reg 1 regs in
  let failure_rd_align_pre := negb (addr_is_granule_aligned rd) in
  let failure_rd_bound_pre := negb (validate_addr rd) in
  let failure_rd_state_pre := negb (pre_granule_state any_state rd s =? GranuleState.RD) in
  let failure_realm_live_pre := pre_realm_is_live any any_rtt any_addr rd s in
  let no_failures_pre :=
    negb failure_rd_align_pre && negb failure_rd_bound_pre && negb failure_rd_state_pre
    && negb failure_realm_live_pre in
  assume_run Rmi.REALM_DESTROY regs s (fun out s' =>
    let error_input := result_is out (error_code RmiErrorInput) in
    let success := reg 0 out =? Rmi.SUCCESS in
    assert_if failure_rd_align_pre error_input;;
    assert_if (negb failure_rd_align_pre && failure_rd_bound_pre) error_input;;
    assert_if (negb failure_rd_align_pre && negb failure_rd_bound_pre && failure_rd_state_pre)
      error_input;;
    assert_if (negb failure_rd_align_pre && negb failure_rd_bound_pre && negb failure_rd_state_pre
               && failure_realm_live_pre) (result_is out (error_code (RmiErrorRealm 0)));;
    assert_if no_failures_pre (mret success);;
    assert_if no_failures_pre (st ← post_rtt_state any_addr rd s';
                               mret ((st =? GranuleState.Delegated) && success));;
    assert_if no_failures_pre (st ← post_granule_state rd s';
                               mret ((st =? GranuleState.Delegated) && success))).

Definition verify_features (regs : list Z) (s : rmm) : outcome Error unit :=
  let index := reg 1 regs in
  let no_failures_pre := true in
  let success_index_pre := negb (index =? 0) in
  assume_run Rmi.FEATURES regs s (fun out s' =>
    let value := reg 1 out in
    let success := reg 0 out =? Rmi.SUCCESS in
    assert_if no_failures_pre (mret success);;
    assert_if (no_failures_pre && success_index_pre) (mret ((value =? 0) && success))).

Definition verify_version (regs : list Z) (s : rmm) : outcome Error unit :=
  let no_failures_pre := true in
  assume_run Rmi.VERSION regs s (fun out s' =>
    let lower := reg 1 out in
    let higher := reg 2 out in
    let version := Z.lor (Z.shiftl Rmi.ABI_MAJOR_VERSION 16) Rmi.ABI_MINOR_VERSION in
    assert_if no_failures_pre (mret ((lower =? version) && (higher =? version)))).
End common.
