(* ===== verification/HarnessFacts.v ===== *)
(** * The harnesses hold of the firmware

    The assertions of model-checking/src, proved of the production handlers for
    every state and every input, and not only for a table of six granules and a
    descriptor with one root table. *)

From S2P Require Import Prelude Bytes Bits Vmsa RmiTypes Granule S2tte Objects Machine PageTable Stage1 Stage2 Measurement Rtt RmiGranule RmiRealm RmiRtt RmiRec Rsi RsiPsci RecEnter Event Frame Sample Invariants Guards Stage1Facts Delegation SampleRealm Lifecycle Harness.

(** The firmware answers the two calls on the granule protection table the way
    [smc] of asm.rs does in its place under model checking. *)
Class GptLaws `{Platform} `{!GptView} : Prop :=
  mark_call cmd addr w :
    cmd = MARK_REALM \/ cmd = MARK_NONSECURE -> validate_addr addr = true ->
    exists rest w',
      firmware_smc (smc_args cmd addr) w = ((mark_smc cmd (gpt w addr)).1 :: rest, w') /\
      forall a, gpt w' a = if decide (a = addr) then (mark_smc cmd (gpt w addr)).2 else gpt w a.

Section run.
Context `{Platform}.

(** The output registers of a command that returned [r] and left [regs]. *)
Definition completed {A} (r : outcome Error A) (s : rmm) : outcome Error (list Z) * rmm :=
  let pad l := l ++ replicate (5 - length l) 0 in
  match r with
  | Ok _ => (Ok (pad (ret s)), s)
  | Err e => let v := <[0%nat := error_code e]> (ret s) in (Ok (pad v), set_ret v s)
  | Panicked => (Panicked, s)
  | Hung => (Hung, s)
  end.

Lemma copy_result_short l : (length l <= 5)%nat -> copy_result l = Ok (l ++ replicate (5 - length l) 0).
Proof. intros Hl. unfold copy_result. by rewrite decide_True. Qed.

Lemma run_once_run cmd rest n m h s :
  pick cmd = Some (n, m) -> rmi_handler cmd = Some h -> length rest = 7%nat -> (n <= 7)%nat ->
  run_once (cmd :: rest) s
  = let '(r, s') := h (take n rest) (set_ret (replicate m 0) s) in completed r s'.
Proof.
  intros Hp Hh Hl Hn. pose proof (pick_ret_num _ _ _ Hp) as Hm. unfold run_once.
  change (lift (unwrap ((cmd :: rest) !! 0%nat))) with (mret (M := M rmm Error) cmd). mstep.
  unfold constraint_validate. rewrite Hp. change (drop 1 (cmd :: rest)) with rest.
  rewrite decide_True by lia.
  rewrite bind_lift_ok. unfold mbind, M_bind.
  rewrite (handle_rmi_run _ h) by (done || (destruct m; [lia|done])).
  cbn [Event.arg Event.ret Event.resize_ret Event.init_arg Event.init_ret].
  pose proof (frame_rmi_handler_all same_ret_length _ _ Hh (take n rest)
                (set_ret (replicate m 0) s)) as Hr.
  destruct (h _ _) as [r s']. unfold same_ret_length in Hr. simpl in Hr. rewrite length_replicate in Hr.
  destruct r; cbn [completed]; try done; unfold lift; cbn [Event.ret];
    rewrite copy_result_short by (rewrite ?length_insert; lia); done.
Qed.
End run.

Lemma look_granule_valid addr :
  validate_addr addr = true -> look_granule addr = Ok (granule_addr_to_index addr).
Proof.
  intros Hv. unfold look_granule. rewrite Hv. cbn [negb].
  by rewrite (proj2 (Z.leb_gt _ _)) by (by apply index_bounds).
Qed.

Lemma validate_addr_aligned addr : validate_addr addr = true -> addr_is_granule_aligned addr = true.
Proof. intros [Hm _]%validate_addr_spec. by apply Z.eqb_eq. Qed.

(** The registers of a command: its number and seven more. *)
Lemma regs_of_command cmd regs :
  length regs = 8%nat -> default 0 (regs !! 0%nat) = cmd ->
  exists addr rest, regs = cmd :: addr :: rest /\ length rest = 6%nat.
Proof.
  intros Hl Hc. destruct regs as [|c [|a rest]]; [done..|]. simpl in *. subst c.
  exists a, rest. split; [done|lia].
Qed.

(** A harness is evaluated on the registers of its own command. *)
Lemma assume_run_result `{Platform} run cmd regs s f v :
  length regs = 8%nat ->
  (forall addr rest, length rest = 6%nat -> regs = cmd :: addr :: rest ->
     (let '(r, s') := run (cmd :: addr :: rest) s in out ← r; f out s') = v) ->
  assume_run run cmd regs s f = if reg 0 regs =? cmd then v else Ok tt.
Proof.
  intros Hl Hf. unfold assume_run, reg.
  destruct (Z.eqb_spec (default 0 (regs !! 0%nat)) cmd) as [Hc|]; cbn [negb]; [|done].
  destruct (regs_of_command _ _ Hl Hc) as (addr & rest & -> & Hr). by apply Hf.
Qed.

Lemma assume_run_holds `{Platform} run cmd regs s f :
  length regs = 8%nat ->
  (forall addr rest, length rest = 6%nat -> regs = cmd :: addr :: rest ->
     (let '(r, s') := run (cmd :: addr :: rest) s in out ← r; f out s') = Ok tt) ->
  assume_run run cmd regs s f = Ok tt.
Proof. intros Hl Hf. rewrite (assume_run_result _ _ _ _ _ _ Hl Hf). by case_match. Qed.

(** Evaluate the assertions once the flags they depend on are known. *)
Ltac flags := repeat match goal with
  | |- context [assert_if ?b _] => match b with context [negb ?c] => destruct c; cbn [negb andb] end
  end; try reflexivity.

Section gpt.
Context `{Platform} `{!GptView} `{!GptLaws}.

Lemma smc_args_env cmd addr s regs : firmware_smc (smc_args cmd addr) (env (set_ret regs s)) =
  firmware_smc (smc_args cmd addr) (env s).
Proof. done. Qed.

Lemma handed_over_state idx st w h s : state (gst (handed_over idx st w h s) idx) = st.
Proof.
  unfold handed_over. change (gst (set_heap h ?x)) with (gst x).
  by rewrite with_granule_state_gst, decide_True.
Qed.

Lemma handed_over_env idx st w h s : env (handed_over idx st w h s) = w.
Proof. unfold handed_over, with_granule_state. simpl. by destruct (set_state_zeroizes _ _). Qed.

Lemma handed_over_ret idx st w h s : ret (handed_over idx st w h s) = ret s.
Proof. unfold handed_over, with_granule_state. simpl. by destruct (set_state_zeroizes _ _). Qed.

(** The answer of the firmware, as the handlers see it. *)
Lemma mark_answer cmd addr s regs :
  cmd = MARK_REALM \/ cmd = MARK_NONSECURE -> validate_addr addr = true ->
  exists rest w, firmware_smc (smc_args cmd addr) (env (set_ret regs s))
      = ((mark_smc cmd (gpt (env s) addr)).1 :: rest, w)
    /\ gpt w addr = (mark_smc cmd (gpt (env s) addr)).2.
Proof.
  intros Hc Hv. destruct (mark_call cmd addr (env s) Hc Hv) as (rest & w & Ef & Hg).
  exists rest, w. split; [exact Ef|]. by rewrite Hg, decide_True.
Qed.

(** GRANULE_DELEGATE *)
Lemma verify_granule_delegate_ok any_state any_gpt regs s :
  length regs = 8%nat -> locked s = ∅ ->
  verify_granule_delegate run_once any_state any_gpt regs s = Ok tt.
Proof.
  intros Hl Hlk. apply assume_run_holds; [done|]. intros addr rest Hr ->.
  rewrite (run_once_run _ _ 2 1 granule_delegate) by (done || simpl; lia). cbn [take].
  change (reg 1 (Rmi.GRANULE_DELEGATE :: addr :: rest)) with addr.
  set (s0 := set_ret _ s). set (idx := granule_addr_to_index addr).
  assert (idx ∉ locked s0) as Hn by (simpl; rewrite Hlk; set_solver).
  destruct (validate_addr addr) eqn:Hv; cbn [negb].
  2:{ destruct (firmware_smc (smc_args MARK_REALM addr) (env s0)) as [r w] eqn:Ef.
      destruct (granule_delegate_cases addr (take 1 rest) s0 r w Hn Ef) as [-> _]; [|by left].
      unfold completed. simpl. flags. }
  destruct (mark_answer MARK_REALM addr s (replicate 1 0)) as (r & w & Ef & Hg); [by left|done|].
  fold s0 in Ef. destruct (granule_delegate_cases addr (take 1 rest) s0 _ w Hn Ef) as [Hbad Hok].
  rewrite (validate_addr_aligned _ Hv). cbn [negb andb].
  unfold pre_granule_state, pre_granule_gpt, post_granule_state, post_granule_gpt.
  rewrite (look_granule_valid _ Hv). cbn [mbind outcome_bind or_any unwrap_res mret outcome_ret].
  fold idx. fold idx in Hbad, Hok. assert (index_to_addr idx = addr) as -> by by apply index_to_addr_to_index.
  destruct (Z.eqb_spec (state (gst s idx)) GranuleState.Undelegated) as [Hs|Hs]; cbn [negb andb].
  2:{ rewrite Hbad by (by right). unfold completed. simpl. flags. }
  specialize (Hok Hv Hs). unfold mark_smc in Hok, Hg. cbn [Z.eqb] in Hok, Hg.
  destruct (bool_decide (gpt (env s) addr = GPT_NS)); cbn in Hok, Hg.
  - destruct Hok as (h & -> & _). unfold completed. rewrite handed_over_ret.
    rewrite handed_over_state, handed_over_env, Hg. done.
  - rewrite Hok. done.
Qed.

(** GRANULE_UNDELEGATE, where the entry agrees with the protection table: the
    command panics otherwise. *)
Lemma verify_granule_undelegate_ok any_state regs s :
  length regs = 8%nat -> locked s = ∅ ->
  is_valid (gst s (granule_addr_to_index (reg 1 regs))) (gpt (env s) (reg 1 regs)) = true ->
  verify_granule_undelegate run_once any_state regs s = Ok tt.
Proof.
  intros Hl Hlk Hiv. apply assume_run_holds; [done|]. intros addr rest Hr ->.
  rewrite (run_once_run _ _ 2 1 granule_undelegate) by (done || simpl; lia). cbn [take].
  change (reg 1 (Rmi.GRANULE_UNDELEGATE :: addr :: rest)) with addr in *.
  set (s0 := set_ret _ s). set (idx := granule_addr_to_index addr) in *.
  assert (idx ∉ locked s0) as Hn by (simpl; rewrite Hlk; set_solver).
  destruct (validate_addr addr) eqn:Hv; cbn [negb].
  2:{ destruct (firmware_smc (smc_args MARK_NONSECURE addr) (env s0)) as [r w] eqn:Ef.
      destruct (granule_undelegate_cases addr (take 1 rest) s0 r w Hn Ef) as [-> _]; [|by left].
      unfold completed. simpl. flags. }
  destruct (mark_answer MARK_NONSECURE addr s (replicate 1 0)) as (r & w & Ef & Hg); [by right|done|].
  fold s0 in Ef. destruct (granule_undelegate_cases addr (take 1 rest) s0 _ w Hn Ef) as [Hbad Hok].
  rewrite (validate_addr_aligned _ Hv). cbn [negb andb].
  unfold pre_granule_state, post_granule_state, post_granule_gpt.
  rewrite (look_granule_valid _ Hv). cbn [mbind outcome_bind or_any unwrap_res mret outcome_ret].
  fold idx. fold idx in Hbad, Hok. assert (index_to_addr idx = addr) as -> by by apply index_to_addr_to_index.
  destruct (Z.eqb_spec (state (gst s idx)) GranuleState.Delegated) as [Hs|Hs]; cbn [negb andb].
  2:{ rewrite Hbad by (by right). unfold completed. simpl. flags. }
  unfold is_valid in Hiv. rewrite Hs in Hiv. cbn in Hiv. apply bool_decide_eq_true in Hiv.
  specialize (Hok Hv Hs). rewrite Hiv in Hok, Hg.
  change (mark_smc MARK_NONSECURE GPT_REALM).2 with GPT_NS in Hg.
  change (((mark_smc MARK_NONSECURE GPT_REALM).1 :: r) !! 0%nat) with (Some 0) in Hok.
  destruct Hok as (h & -> & Hw). unfold completed. rewrite handed_over_ret.
  rewrite handed_over_state, handed_over_env, Hg, Hw. done.
Qed.

(** The state of the table and the granule protection table agree everywhere
    ([GranuleStatusTable::is_valid]). *)
Definition table_valid (s : rmm) : Prop :=
  forall idx, 0 <= idx < GRANULE_STATUS_TABLE_SIZE ->
    is_valid (gst s idx) (gpt (env s) (index_to_addr idx)) = true.

Lemma table_valid_env w s :
  table_valid s -> (forall a, gpt w a = gpt (env s) a) -> table_valid (set_env w s).
Proof. intros Hv Hw idx Hi. simpl. rewrite Hw. by apply Hv. Qed.

Lemma handed_over_valid addr st w h s :
  let idx := granule_addr_to_index addr in
  table_valid s -> validate_addr addr = true ->
  is_valid (mkGranule st 0) (gpt w addr) = true ->
  (forall a, a <> addr -> gpt w a = gpt (env s) a) -> table_valid (handed_over idx st w h s).
Proof.
  intros idx Hv Ha Hi Hw i Hr. rewrite handed_over_env.
  unfold handed_over. change (gst (set_heap h ?x)) with (gst x). rewrite with_granule_state_gst.
  case_decide as E.
  - subst i. unfold idx. by rewrite index_to_addr_to_index.
  - rewrite Hw; [by apply Hv|]. intros Hia. apply E. unfold idx. rewrite <- Hia. symmetry.
    by apply index_to_addr_valid.
Qed.

Lemma handed_over_locked idx st w h s : locked (handed_over idx st w h s) = locked s.
Proof. unfold handed_over, with_granule_state. simpl. by destruct (set_state_zeroizes _ _). Qed.

(** A handler that completes and keeps the agreement. *)
Definition keeps_valid (m : M rmm Error unit) (s : rmm) : Prop :=
  exists r s', m s = (r, s') /\ table_valid s' /\ locked s' = ∅ /\ (r = Ok tt \/ exists e, r = Err e).

Lemma keeps_valid_err (m : M rmm Error unit) s e s' :
  m s = (Err e, s') -> table_valid s' -> locked s' = ∅ -> keeps_valid m s.
Proof. intros E Hv Hl. exists (Err e), s'. split_and!; eauto. Qed.

Lemma keeps_valid_handed_over (m : M rmm Error unit) addr st w h s :
  m s = (Ok tt, handed_over (granule_addr_to_index addr) st w h s) ->
  table_valid s -> locked s = ∅ -> validate_addr addr = true ->
  is_valid (mkGranule st 0) (gpt w addr) = true ->
  (forall a, a <> addr -> gpt w a = gpt (env s) a) -> keeps_valid m s.
Proof.
  intros E Hv Hl Ha Hi Hw. eexists _, _. split; [exact E|]. rewrite handed_over_locked.
  split_and!; [by apply handed_over_valid|done|by left].
Qed.

Lemma delegate_keeps_valid addr rest s :
  table_valid s -> locked s = ∅ -> keeps_valid (granule_delegate (addr :: rest)) s.
Proof.
  intros Hv Hlk. set (idx := granule_addr_to_index addr).
  assert (idx ∉ locked s) as Hn by (rewrite Hlk; set_solver).
  destruct (validate_addr addr) eqn:Ha; cycle 1.
  { eapply keeps_valid_err; [|done..]. unfold granule_delegate. rewrite (bind_argn _ 0 addr) by done.
    apply with_granule_if_refused; eauto. }
  destruct (mark_call MARK_REALM addr (env s)) as (r & w & Ef & Hg); [by left|done|].
  destruct (granule_delegate_cases addr rest s _ w Hn Ef) as [Hbad Hok].
  destruct (decide (state (gst s idx) = GranuleState.Undelegated)) as [Hs|Hs].
  2:{ eapply keeps_valid_err; [apply Hbad; by right|done..]. }
  specialize (Hok Ha Hs). unfold mark_smc in Hok, Hg.
  change (MARK_REALM =? MARK_REALM) with true in Hok, Hg. cbv iota in Hok, Hg.
  destruct (bool_decide (gpt (env s) addr = GPT_NS)); cbn [negb fst snd] in Hok, Hg.
  - change ((SMC_SUCCESS :: r) !! 0%nat) with (Some 0) in Hok. destruct Hok as (h & E & _).
    eapply keeps_valid_handed_over; [exact E|done..| |]; [by rewrite Hg, decide_True|].
    intros a Hne. by rewrite Hg, decide_False.
  - eapply keeps_valid_err; [exact Hok| |done].
    apply table_valid_env; [done|]. intros a. rewrite Hg. by case_decide; subst.
Qed.

Lemma undelegate_keeps_valid addr rest s :
  table_valid s -> locked s = ∅ -> keeps_valid (granule_undelegate (addr :: rest)) s.
Proof.
  intros Hv Hlk. set (idx := granule_addr_to_index addr).
  assert (idx ∉ locked s) as Hn by (rewrite Hlk; set_solver).
  destruct (validate_addr addr) eqn:Ha; cycle 1.
  { eapply keeps_valid_err; [|done..]. unfold granule_undelegate. rewrite (bind_argn _ 0 addr) by done.
    apply with_granule_if_refused; eauto. }
  destruct (mark_call MARK_NONSECURE addr (env s)) as (r & w & Ef & Hg); [by right|done|].
  destruct (granule_undelegate_cases addr rest s _ w Hn Ef) as [Hbad Hok].
  destruct (decide (state (gst s idx) = GranuleState.Delegated)) as [Hs|Hs].
  2:{ eapply keeps_valid_err; [apply Hbad; by right|done..]. }
  pose proof (Hv idx (index_bounds _ Ha)) as Hi. unfold idx in Hi.
  rewrite index_to_addr_to_index in Hi by done. fold idx in Hi.
  specialize (Hok Ha Hs). unfold is_valid in Hi. rewrite Hs in Hi. cbn in Hi.
  apply bool_decide_eq_true in Hi. rewrite Hi in Hok, Hg.
  change (mark_smc MARK_NONSECURE GPT_REALM).2 with GPT_NS in Hg.
  change (((mark_smc MARK_NONSECURE GPT_REALM).1 :: r) !! 0%nat) with (Some 0) in Hok.
  destruct Hok as (h & E & _).
  eapply keeps_valid_handed_over; [exact E|done..| |]; [by rewrite Hg, decide_True|].
  intros a Hne. by rewrite Hg, decide_False.
Qed.

(** One delegation command from a table that agrees. *)
Lemma delegation_step cmd addr rest s :
  cmd = Rmi.GRANULE_DELEGATE \/ cmd = Rmi.GRANULE_UNDELEGATE -> length rest = 6%nat ->
  table_valid s -> locked s = ∅ ->
  exists out s', run_once (cmd :: addr :: rest) s = (Ok out, s') /\ table_valid s' /\ locked s' = ∅.
Proof.
  intros Hc Hl Hv Hlk.
  assert (forall h, pick cmd = Some (2, 1)%nat -> rmi_handler cmd = Some h ->
    keeps_valid (h (addr :: take 1 rest)) (set_ret (replicate 1 0) s) ->
    exists out s', run_once (cmd :: addr :: rest) s = (Ok out, s') /\ table_valid s' /\ locked s' = ∅)
    as Hrun.
  { intros h Hp Hh (r & s' & E & Hv' & Hlk' & Hr).
    rewrite (run_once_run _ _ 2 1 h) by (done || simpl; lia). cbn [take]. rewrite E.
    destruct Hr as [-> |[e ->]]; by eexists _, _. }
  destruct Hc as [-> | ->].
  - apply (Hrun granule_delegate); [done..|]. by apply delegate_keeps_valid.
  - apply (Hrun granule_undelegate); [done..|]. by apply undelegate_keeps_valid.
Qed.

(** The delegation commands of a host, one after the other. *)
Fixpoint run_all (cmds : list (list Z)) : M rmm Error (list (list Z)) :=
  match cmds with
  | [] => mret []
  | regs :: cmds => out ← run_once regs; outs ← run_all cmds; mret (out :: outs)
  end.

Definition delegation_command (regs : list Z) : Prop :=
  length regs = 8%nat /\ (reg 0 regs = Rmi.GRANULE_DELEGATE \/ reg 0 regs = Rmi.GRANULE_UNDELEGATE).

(** C5: whatever granules a host delegates and undelegates, in whatever order,
    every granule the RMM holds is in the realm address space and no other is,
    so the panic of GRANULE_UNDELEGATE is never reached: every command completes
    and leaves no lock held. *)
Theorem delegation_never_panics cmds s :
  Forall delegation_command cmds -> table_valid s -> locked s = ∅ ->
  exists outs s', run_all cmds s = (Ok outs, s') /\ table_valid s' /\ locked s' = ∅
                  /\ length outs = length cmds.
Proof.
  intros Hc. revert s. induction Hc as [|regs cmds [Hl Hr] _ IH]; intros s Hv Hlk; [by eexists _, _|].
  destruct regs as [|c [|a rest]]; [done..|]. simpl in Hl.
  destruct (delegation_step c a rest s) as (out & s1 & E & Hv1 & Hl1); [done|lia|done..|].
  destruct (IH s1 Hv1 Hl1) as (outs & s' & E' & Hv' & Hl' & Hn). eexists _, _. cbn [run_all].
  erewrite bind_ok by exact E. erewrite bind_ok by exact E'. split_and!; [reflexivity|done..|].
  simpl. by rewrite Hn.
Qed.
End gpt.

Section commands.
Context `{Platform}.

(** A New realm whose metadata names another measurement or algorithm. *)
Definition metadata_mismatch (s : rmm) (rd_addr : Z) : bool :=
  let rd := rd_of (mem s rd_addr) in
  validate_addr rd_addr && (state (gst s (granule_addr_to_index rd_addr)) =? GranuleState.RD)
  && Rd.at_state rd New && negb (metadata_agrees s rd).

(** REALM_ACTIVATE *)
Lemma verify_realm_activate_run any_state any_addr regs s :
  let rd_addr := reg 1 regs in
  let rd := rd_of (mem s rd_addr) in
  length regs = 8%nat -> locked s = ∅ ->
  measurements_wf rd -> hash_algo_supported (Rd.hash_algo rd) ->
  (forall meta, Rd.metadata rd = Some meta ->
     validate_addr meta = true /\ state (gst s (granule_addr_to_index meta)) = GranuleState.Metadata) ->
  verify_realm_activate run_once any_state any_addr regs s
  = if reg 0 regs =? Rmi.REALM_ACTIVATE
    then if metadata_mismatch s rd_addr then Panicked else Ok tt else Ok tt.
Proof.
  intros rd_addr rd Hl Hlk Hwf Hha Hm. apply assume_run_result; [done|]. intros addr rest Hr Hregs.
  assert (rd_addr = addr) as Ha by (unfold rd_addr; by rewrite Hregs).
  rewrite (run_once_run _ _ 2 1 realm_activate) by (done || simpl; lia).
  change (reg 1 regs) with rd_addr. unfold rd in *. clear rd. rewrite Ha in *. clear Ha rd_addr.
  set (rd := rd_of (mem s addr)) in *. destruct rest as [|r0 rest]; [done|].
  change (take 2 (addr :: r0 :: rest)) with [addr; r0].
  set (s0 := set_ret _ s). set (idx := granule_addr_to_index addr).
  assert (forall i, i ∉ locked s0) as Hn by (intros i; simpl; rewrite Hlk; set_solver).
  change (realm_activate [addr; r0] s0) with (realm_activate [addr] s0).
  unfold metadata_mismatch. fold rd. fold idx.
  destruct (validate_addr addr) eqn:Hv; cbn [negb].
  2:{ unfold realm_activate. rewrite (bind_argn _ 0 addr) by done.
      rewrite with_granule_if_refused by (done || by left). simpl. flags. }
  rewrite (validate_addr_aligned _ Hv). cbn [negb andb].
  unfold pre_granule_state, pre_rd_state, pre_valid_addr, post_rd_state.
  rewrite (look_granule_valid _ Hv). cbn [mbind outcome_bind or_any unwrap_res mret outcome_ret].
  fold idx. assert (index_to_addr idx = addr) as -> by by apply index_to_addr_to_index. fold rd.
  destruct (Z.eqb_spec (state (gst s idx)) GranuleState.RD) as [Hs|Hs]; cbn [negb andb].
  2:{ unfold realm_activate. rewrite (bind_argn _ 0 addr) by done.
      rewrite with_granule_if_refused by (done || by right). simpl. flags. }
  rewrite realm_activate_run; try done.
  2:{ intros meta Hmeta. destruct (Hm meta Hmeta). done. }
  change (mem s0) with (mem s). fold rd. change (metadata_agrees s0 rd) with (metadata_agrees s rd).
  unfold Rd.at_state. destruct (metadata_agrees s rd), (bool_decide (Rd.state rd = New)); cbn [andb negb];
    [|done..].
  unfold completed. cbn. by rewrite fn_lookup_insert.
Qed.

(** The commands that only read. *)
Lemma verify_queries_ok any_state regs s :
  length regs = 8%nat -> locked s = ∅ ->
  verify_rec_aux_count run_once any_state regs s = Ok tt /\
  verify_features run_once regs s = Ok tt /\
  verify_version run_once regs s = Ok tt.
Proof.
  intros Hl Hlk. split_and!; (apply assume_run_holds; [done|]); intros addr rest Hr ->;
    (destruct rest as [|r0 rest]; [done|]; simpl in Hr).
  - rewrite (run_once_run _ _ 2 2 rec_aux_count) by (done || simpl; lia). cbn [take].
    change (reg 1 (Rmi.REC_AUX_COUNT :: addr :: r0 :: rest)) with addr.
    set (s0 := set_ret _ s). set (idx := granule_addr_to_index addr).
    assert (idx ∉ locked s0) as Hn by (simpl; rewrite Hlk; set_solver).
    unfold rec_aux_count. rewrite (bind_argn _ 0 addr) by done.
    destruct (validate_addr addr) eqn:Hv; cbn [negb].
    2:{ erewrite bind_err by (apply with_granule_if_refused; [done|by left]). simpl. flags. }
    rewrite (validate_addr_aligned _ Hv). cbn [negb andb]. unfold pre_granule_state.
    rewrite (look_granule_valid _ Hv). cbn [mbind outcome_bind or_any mret outcome_ret]. fold idx.
    destruct (Z.eqb_spec (state (gst s idx)) GranuleState.RD) as [Hs|Hs]; cbn [negb andb].
    + erewrite bind_ok by (rewrite with_granule_if_run by done; reflexivity). done.
    + erewrite bind_err by (apply with_granule_if_refused; [done|by right]). done.
  - rewrite (run_once_run _ _ 2 2 rmi_features) by (done || simpl; lia). cbn [take].
    change (reg 1 (Rmi.FEATURES :: addr :: r0 :: rest)) with addr.
    unfold rmi_features. rewrite (bind_argn _ 0 addr) by done. by destruct (addr =? 0).
  - rewrite (run_once_run _ _ 2 3 rmi_version) by (done || simpl; lia). cbn [take].
    unfold rmi_version. rewrite (bind_argn _ 0 addr) by done.
    destruct (rmi_decode_version addr) as [mj mn]. cbn.
    by destruct (negb (mj =? _) || _).
Qed.

(** The registers that [Monitor::run] returns to a harness are those of the
    context [dispatch] has just made, and not those of the command: always zero. *)
Theorem run_kani_lost regs s :
  match fst (run_kani regs s) with Ok out => out = replicate 5 0 | _ => True end.
Proof.
  unfold run_kani, mbind, M_bind. destruct (boot_complete_kani regs s) as [[ctx|e| |] s1]; try done.
  destruct (handle_rmi ctx s1) as [[ctx'|e| |] s2]; try done.
  destruct (dispatch_kani ctx' regs s2) as [[c|e| |] s3] eqn:Ed; try done. simpl.
  enough (exists n, (n <= 5)%nat /\ Event.ret c = replicate n 0) as (n & Hn & ->).
  { rewrite copy_result_short by (by rewrite length_replicate).
    rewrite length_replicate, <- replicate_add. by replace (n + (5 - n))%nat with 5%nat by lia. }
  unfold dispatch_kani in Ed. mrun_in Ed. unfold lift, constraint_validate in Ed.
  destruct (pick _) as [[n m]|] eqn:Hp; [|injection Ed as <- _; exists O; by split; [lia|]].
  case_decide; [|done]. injection Ed as <- _. exists m. split; [|done]. by apply pick_ret_num in Hp as [_ Hp].
Qed.

Lemma dispatch_kani_ok ctx cmd regs c s :
  (length (Event.arg ctx) <= 6)%nat -> constraint_validate (E := Error) cmd regs = Ok c ->
  exists w, dispatch_kani ctx (cmd :: regs) s = (Ok c, set_env w s).
Proof.
  intros Hl Hc. unfold dispatch_kani, smc, mbind, M_bind. rewrite decide_False by lia.
  destruct (firmware_smc _ _) as [r w]. exists w. unfold lift. cbn [unwrap lookup list_lookup].
  change (drop 1 (cmd :: regs)) with regs. by rewrite Hc.
Qed.

(** So the harness of GRANULE_DELEGATE fails as it is run, in every state, on an
    unaligned address, which the command refuses. *)
Theorem kani_delegate_fails `{!GptView} any_state any_gpt s :
  verify_granule_delegate run_kani any_state any_gpt [Rmi.GRANULE_DELEGATE; 1; 0; 0; 0; 0; 0; 0] s
  = Panicked.
Proof.
  unfold verify_granule_delegate, assume_run.
  set (rest := [1; 0; 0; 0; 0; 0; 0]). set (c := Event.mk Rmi.GRANULE_DELEGATE [1; 0] [0]).
  destruct (dispatch_kani_ok (Event.init_arg [Rmi.BOOT_SUCCESS] (Event.new Rmi.BOOT_COMPLETE))
              Rmi.GRANULE_DELEGATE rest c s) as [w E1]; [simpl; lia|done|].
  set (v := [error_code RmiErrorInput]). set (c' := Event.mk Rmi.REQ_COMPLETE v v).
  assert (handle_rmi c (set_env w s) = (Ok c', set_ret v (set_env w s))) as E2.
  { rewrite (handle_rmi_run _ granule_delegate) by done. cbn [Event.arg c].
    unfold granule_delegate. rewrite (bind_argn _ 0 1) by done. unfold with_granule_if.
    by rewrite with_granule_invalid. }
  destruct (dispatch_kani_ok c' Rmi.GRANULE_DELEGATE rest c (set_ret v (set_env w s))) as [w' E3];
    [simpl; lia|done|].
  assert (run_kani (Rmi.GRANULE_DELEGATE :: rest) s
          = (Ok (replicate 5 0), set_env w' (set_ret v (set_env w s)))) as ->.
  { unfold run_kani. erewrite bind_ok by exact E1. erewrite bind_ok by exact E2.
    by erewrite bind_ok by exact E3. }
  done.
Qed.
End commands.

(** What the harnesses leave to invariants of the descriptors: the entry of a
    granule agrees with the protection table, and a descriptor has measurements,
    a hash algorithm the RMM knows and metadata in a metadata granule. *)
Record harness_wf `{Platform} `{!GptView} (addr : Z) (s : rmm) : Prop := mkHarnessWf {
  h_locked : locked s = ∅;
  h_valid : is_valid (gst s (granule_addr_to_index addr)) (gpt (env s) addr) = true;
  h_measurements : measurements_wf (rd_of (mem s addr));
  h_hash : hash_algo_supported (Rd.hash_algo (rd_of (mem s addr)));
  h_meta meta : Rd.metadata (rd_of (mem s addr)) = Some meta ->
    validate_addr meta = true /\ state (gst s (granule_addr_to_index meta)) = GranuleState.Metadata
}.


(** ** Witnesses *)
#[global] Instance sample_gpt_view : GptView := fun w a =>
  if decide (a ∈ fst (w : sample_world)) then GPT_REALM else GPT_NS.

#[global] Instance sample_gpt_laws : GptLaws.
Proof.
  intros cmd addr [g cmds] Hc Hv. destruct Hc as [-> | ->]; unfold gpt, sample_gpt_view;
    cbn [firmware_smc sample_platform sample_firmware smc_args fst];
    change (MARK_REALM =? MARK_REALM) with true; change (MARK_NONSECURE =? MARK_REALM) with false;
    change (MARK_NONSECURE =? MARK_NONSECURE) with true; cbv iota;
    destruct (decide (addr ∈ g)); eexists _, _; (split; [reflexivity|]); intros a; cbn;
    repeat case_decide; subst; done || set_solver.
Qed.

Definition delegate_regs : list Z := [Rmi.GRANULE_DELEGATE; 0x80000000; 0; 0; 0; 0; 0; 0].
Definition undelegate_regs : list Z := [Rmi.GRANULE_UNDELEGATE; 0x80000000; 0; 0; 0; 0; 0; 0].
Definition activate_regs : list Z := [Rmi.REALM_ACTIVATE; 0x80000000; 0; 0; 0; 0; 0; 0].

(** The sample realm, its descriptor in the realm address space. *)
Definition sample_realm_gpt : rmm := set_env ({[0x80000000]}, []) sample_tables.


Lemma delegation_never_panics_witness :
  exists outs s', run_all [delegate_regs; undelegate_regs; delegate_regs] sample_boot = (Ok outs, s')
    /\ table_valid s' /\ locked s' = ∅ /\ length outs = 3%nat.
Proof.
  refine (delegation_never_panics [delegate_regs; undelegate_regs; delegate_regs] sample_boot _ _ _).
  - repeat constructor; first [by left | by right].
  - intros idx Hi. reflexivity.
  - reflexivity.
Defined.
