(* ===== verification/Protection.v ===== *)
(** * The realm address space of the host's commands

    Granules enter and leave the realm physical address space only through the
    two calls of rmm/src/rmi/gpt.rs. For every state the monitor reaches and
    every command, error paths included: which granules the command moves, and
    that no granule of the realm world is counted as the host's. *)

From S2P Require Import Prelude Bytes Bits Vmsa RmiTypes Granule S2tte Objects Machine PageTable Stage1 Stage2 Measurement Rtt RmiGranule RmiRealm RmiRtt RmiRec Rsi RsiPsci RecEnter Event Frame Sample Invariants Guards Stage1Facts Delegation Harness HarnessFacts.

(** The other calls of the firmware (which return to the host) and the run of a
    realm move no granule into or out of the realm address space: the granule
    protection table belongs to EL3, which changes it for the RMM alone. *)
Class GptFrame `{Platform} `{!GptView} : Prop := {
  other_call cmd args w a : cmd <> MARK_REALM -> cmd <> MARK_NONSECURE ->
    gpt (firmware_smc (cmd :: args) w).2 a = GPT_REALM <-> gpt w a = GPT_REALM;
  run_call ctx w a : gpt (realm_run ctx w).2 a = GPT_REALM <-> gpt w a = GPT_REALM
}.

Section protection.
Context `{HP : Platform} `{!GptView} `{!GptLaws} `{!GptFrame}.

Definition in_realm (s : rmm) (a : Z) : Prop := gpt (env s) a = GPT_REALM.
Definition same_pas : relation rmm := fun s s' => forall a, in_realm s' a <-> in_realm s a.

#[global] Instance same_pas_stable : Stable same_pas.
Proof.
  split; try done.
  - split; [done|]. intros s1 s2 s3 E1 E2 a. by rewrite (E2 a), (E1 a).
  - intros s ctx a. apply run_call.
Qed.
#[global] Instance same_pas_status : StableStatus same_pas.
Proof. done. Qed.

(** ** Granules of the realm world are the RMM's *)
Definition status_of (s : rmm) (a : Z) : Z := state (gst s (granule_addr_to_index a)).
Definition accounted (s : rmm) : Prop :=
  forall a, validate_addr a = true -> in_realm s a -> status_of s a <> GranuleState.Undelegated.

Lemma accounted_frame s s' : same_pas s s' -> no_new_undelegated s s' -> accounted s -> accounted s'.
Proof. intros Hp Hn Ha a Hv Hr Hu. apply (Ha a Hv); [by apply Hp|]. by apply Hn. Qed.

(** ** What a command does to one granule *)

(** A granule that changed hands: it was in state [from], is now in state [to],
    and is wiped. *)
Definition changed_hands (s s' : rmm) (a from to : Z) : Prop :=
  status_of s a = from /\ status_of s' a = to /\ mem s' a = zero_page.

(** The address space of every granule before and after a command. *)
Definition moves (c : Event.t) (s s' : rmm) : Prop := forall a,
  (in_realm s a -> ~ in_realm s' a ->
     Event.cmd c = Rmi.GRANULE_UNDELEGATE /\ Event.arg c !! 0%nat = Some a /\
     changed_hands s s' a GranuleState.Delegated GranuleState.Undelegated) /\
  (~ in_realm s a -> in_realm s' a ->
     Event.cmd c = Rmi.GRANULE_DELEGATE /\ Event.arg c !! 0%nat = Some a /\
     changed_hands s s' a GranuleState.Undelegated GranuleState.Delegated).

Lemma same_pas_moves c s s' : same_pas s s' -> moves c s s'.
Proof. intros Hp a. split; intros E1 E2; exfalso; rewrite (Hp a) in E2; tauto. Qed.

(** What a delegation command leaves behind: the tables as they were, or one
    granule handed over. *)
Definition one_move (a from to : Z) (g : GranuleGpt) (s s' : rmm) : Prop :=
  (same_pas s s' /\ no_new_undelegated s s') \/
  (validate_addr a = true /\ status_of s a = from /\
   exists w h, s' = handed_over (granule_addr_to_index a) to w h s /\ mem s' a = zero_page /\
     forall b, gpt w b = if decide (b = a) then g else gpt (env s) b).

Lemma set_env_quiet w s : (forall b, gpt w b = gpt (env s) b) ->
  same_pas s (set_env w s) /\ no_new_undelegated s (set_env w s).
Proof. intros Hw. split; [|by intros i Hi]. intros b. unfold in_realm. simpl. by rewrite Hw. Qed.

Lemma refused_quiet {A} (m : M rmm Error A) e s :
  m s = (Err e, s) -> same_pas s (m s).2 /\ no_new_undelegated s (m s).2.
Proof. intros ->. by split. Qed.

Lemma granule_delegate_move addr rest s :
  locked s = ∅ ->
  one_move addr GranuleState.Undelegated GranuleState.Delegated GPT_REALM s
    (granule_delegate (addr :: rest) s).2.
Proof.
  intros Hlk. assert (granule_addr_to_index addr ∉ locked s) as Hn by (rewrite Hlk; set_solver).
  destruct (validate_addr addr) eqn:Ha; cycle 1.
  { left. destruct (firmware_smc (smc_args MARK_REALM addr) (env s)) as [r w] eqn:Ef.
    eapply refused_quiet, (granule_delegate_cases addr rest s r w Hn Ef). by left. }
  destruct (mark_call MARK_REALM addr (env s)) as (r & w & Ef & Hg); [by left|done|].
  destruct (granule_delegate_cases addr rest s _ w Hn Ef) as [Hbad Hok].
  destruct (decide (status_of s addr = GranuleState.Undelegated)) as [Hs|Hs]; cycle 1.
  { left. eapply refused_quiet, Hbad. by right. }
  specialize (Hok Ha Hs). unfold mark_smc in Hok, Hg.
  change (MARK_REALM =? MARK_REALM) with true in Hok, Hg. cbv iota in Hok, Hg.
  destruct (bool_decide (gpt (env s) addr = GPT_NS)); cbn [negb fst snd] in Hok, Hg.
  - change ((SMC_SUCCESS :: r) !! 0%nat) with (Some 0) in Hok. destruct Hok as (h & -> & Hz).
    right. split_and!; [done..|]. by exists w, h.
  - left. change ((SMC_ERROR :: r) !! 0%nat) with (Some 1) in Hok. rewrite Hok.
    apply set_env_quiet. intros b. rewrite Hg. by case_decide; subst.
Qed.

Lemma granule_undelegate_move addr rest s :
  locked s = ∅ ->
  one_move addr GranuleState.Delegated GranuleState.Undelegated GPT_NS s
    (granule_undelegate (addr :: rest) s).2.
Proof.
  intros Hlk. assert (granule_addr_to_index addr ∉ locked s) as Hn by (rewrite Hlk; set_solver).
  destruct (validate_addr addr) eqn:Ha; cycle 1.
  { left. destruct (firmware_smc (smc_args MARK_NONSECURE addr) (env s)) as [r w] eqn:Ef.
    eapply refused_quiet, (granule_undelegate_cases addr rest s r w Hn Ef). by left. }
  destruct (mark_call MARK_NONSECURE addr (env s)) as (r & w & Ef & Hg); [by right|done|].
  destruct (granule_undelegate_cases addr rest s _ w Hn Ef) as [Hbad Hok].
  destruct (decide (status_of s addr = GranuleState.Delegated)) as [Hs|Hs]; cycle 1.
  { left. eapply refused_quiet, Hbad. by right. }
  specialize (Hok Ha Hs). unfold mark_smc in Hok, Hg.
  change (MARK_NONSECURE =? MARK_REALM) with false in Hok, Hg.
  change (MARK_NONSECURE =? MARK_NONSECURE) with true in Hok, Hg. cbv iota in Hok, Hg.
  destruct (bool_decide (gpt (env s) addr = GPT_REALM)); cbn [negb fst snd] in Hok, Hg.
  - change ((SMC_SUCCESS :: r) !! 0%nat) with (Some 0) in Hok. destruct Hok as (h & -> & Hz).
    right. split_and!; [done..|]. by exists w, h.
  - left. change ((SMC_ERROR :: r) !! 0%nat) with (Some 1) in Hok. rewrite Hok.
    apply set_env_quiet. intros b. rewrite Hg. by case_decide; subst.
Qed.

Lemma handed_over_status idx st w h s i :
  state (gst (handed_over idx st w h s) i) = if decide (i = idx) then st else state (gst s i).
Proof.
  unfold handed_over. change (gst (set_heap h ?x)) with (gst x).
  rewrite with_granule_state_gst. by case_decide.
Qed.

Lemma valid_index_inj a b :
  validate_addr a = true -> validate_addr b = true ->
  granule_addr_to_index a = granule_addr_to_index b -> a = b.
Proof. intros Ha Hb E. rewrite <- (index_to_addr_to_index a), E by done. by apply index_to_addr_to_index. Qed.

(** The granule that is handed over is accounted for when it leaves the realm
    world or when the RMM takes it. *)
Lemma one_move_accounted a from to g s s' :
  to <> GranuleState.Undelegated \/ g <> GPT_REALM ->
  one_move a from to g s s' -> accounted s -> accounted s'.
Proof.
  intros Hto [[Hp Hn]|(Hv & _ & w & h & -> & _ & Hw)] Ha; [by eapply accounted_frame|].
  intros b Hb Hr. unfold status_of. rewrite handed_over_status. unfold in_realm in Hr.
  rewrite handed_over_env, Hw in Hr.
  destruct (decide (granule_addr_to_index b = granule_addr_to_index a)) as [Hi|Hi].
  - apply valid_index_inj in Hi; [|done..]. subst b. rewrite decide_True in Hr by done.
    by destruct Hto.
  - rewrite decide_False in Hr by (by intros ->). by apply Ha.
Qed.

Lemma one_move_changed a from to g s s' b :
  one_move a from to g s s' -> ~ (in_realm s' b <-> in_realm s b) ->
  b = a /\ (in_realm s' b <-> g = GPT_REALM) /\ changed_hands s s' a from to.
Proof.
  intros [[Hp _]|(Hv & Hs & w & h & -> & Hz & Hw)] Hne; [by specialize (Hp b)|].
  unfold in_realm in *. rewrite handed_over_env, Hw in *. case_decide as E; [|tauto]. subst b.
  split_and!; [done|done|]. split_and!; [done| |done].
  unfold status_of. by rewrite handed_over_status, decide_True.
Qed.

Lemma one_move_delegate c a s s' :
  Event.cmd c = Rmi.GRANULE_DELEGATE -> Event.arg c !! 0%nat = Some a ->
  one_move a GranuleState.Undelegated GranuleState.Delegated GPT_REALM s s' -> moves c s s'.
Proof.
  intros Hc Ha Hm b. split; intros E1 E2;
    (destruct (one_move_changed _ _ _ _ _ _ b Hm) as (-> & Hg & Hh); [tauto|]).
  - exfalso. apply E2. by apply Hg.
  - done.
Qed.

Lemma one_move_undelegate c a s s' :
  Event.cmd c = Rmi.GRANULE_UNDELEGATE -> Event.arg c !! 0%nat = Some a ->
  one_move a GranuleState.Delegated GranuleState.Undelegated GPT_NS s s' -> moves c s s'.
Proof.
  intros Hc Ha Hm b. split; intros E1 E2;
    (destruct (one_move_changed _ _ _ _ _ _ b Hm) as (-> & Hg & Hh); [tauto|]).
  - done.
  - exfalso. by apply Hg in E2.
Qed.

Lemma delegated_not_undelegated : GranuleState.Delegated <> GranuleState.Undelegated.
Proof. done. Qed.
Lemma ns_not_realm : GPT_NS <> GPT_REALM.
Proof. done. Qed.

(** ** Every command *)
Definition guarded (c : Event.t) (s s' : rmm) : Prop :=
  moves c s s' /\ (accounted s -> accounted s').

Lemma quiet_guarded c s s' : same_pas s s' -> no_new_undelegated s s' -> guarded c s s'.
Proof. intros Hp Hn. split; [by apply same_pas_moves|by apply accounted_frame]. Qed.

(** The registers of the reply play no part. *)
Lemma guarded_ret c v v' s s' : guarded c (set_ret v s) s' -> guarded c s (set_ret v' s').
Proof. intros Hg. exact Hg. Qed.

Lemma context_first_arg c n m :
  context_wf c -> pick (Event.cmd c) = Some (S n, m) -> exists a rest, Event.arg c = a :: rest.
Proof.
  unfold context_wf. intros Hc E. rewrite E in Hc. destruct Hc as [Hl _].
  destruct (Event.arg c); [done|by eexists _, _].
Qed.

Lemma handler_guarded c h s :
  context_wf c -> locked s = ∅ -> rmi_handler (Event.cmd c) = Some h ->
  guarded c s (h (Event.arg c) s).2.
Proof.
  intros Hc Hl Hh. destruct (decide (Event.cmd c = Rmi.GRANULE_DELEGATE)) as [Ed|Hd].
  { destruct (context_first_arg c 1 1 Hc) as (a & rest & Ea); [by rewrite Ed|].
    rewrite Ed in Hh. injection Hh as <-. rewrite Ea.
    pose proof (granule_delegate_move a rest s Hl) as Hm. split.
    - eapply one_move_delegate; [done|by rewrite Ea|done].
    - by apply (one_move_accounted _ _ _ _ _ _ (or_introl delegated_not_undelegated) Hm). }
  destruct (decide (Event.cmd c = Rmi.GRANULE_UNDELEGATE)) as [Eu|Hu].
  { destruct (context_first_arg c 1 1 Hc) as (a & rest & Ea); [by rewrite Eu|].
    rewrite Eu in Hh. injection Hh as <-. rewrite Ea.
    pose proof (granule_undelegate_move a rest s Hl) as Hm. split.
    - eapply one_move_undelegate; [done|by rewrite Ea|done].
    - by apply (one_move_accounted _ _ _ _ _ _ (or_intror ns_not_realm) Hm). }
  apply quiet_guarded; [|by apply (frame_rmi_handler_status no_new_undelegated (Event.cmd c))].
  destruct (decide (Event.cmd c = Rmi.REC_ENTER)) as [Ee|He].
  - rewrite Ee in Hh. injection Hh as <-. apply (frame_rec_enter same_pas).
  - by apply (frame_rmi_handler_no_smc same_pas (Event.cmd c)).
Qed.

Lemma handle_rmi_guarded c s :
  context_wf c -> locked s = ∅ -> guarded c s (handle_rmi c s).2.
Proof.
  intros Hc Hl. unfold handle_rmi. destruct (rmi_handler (Event.cmd c)) as [h|] eqn:Hh; cycle 1.
  { by apply quiet_guarded. }
  mstep. pose proof (handler_guarded c h (set_ret (Event.ret c) s) Hc Hl Hh) as Hg.
  unfold mbind, M_bind, catch. destruct (h _ _) as [[u|e| |] s']; simpl in *; try exact Hg.
  unfold set_ret_reg. case_decide; exact Hg.
Qed.

(** ** The states the monitor reaches from [s0] *)
Inductive runs (s0 : rmm) : rmm -> Event.t -> Prop :=
| runs_boot c s : boot_complete s0 = (Ok c, s) -> runs s0 s c
| runs_round s c s' c' : runs s0 s c -> monitor_round c s = (Ok c', s') -> runs s0 s' c'.

Lemma runs_reachable s0 s c : boot_state s0 -> runs s0 s c -> reachable s c.
Proof. intros Hb. induction 1; [by eapply reachable_boot|by eapply reachable_round]. Qed.

(** Completing a command returns to the host. *)
Lemma dispatch_quiet ctx s :
  Event.cmd ctx <> MARK_REALM -> Event.cmd ctx <> MARK_NONSECURE ->
  same_pas s (dispatch ctx s).2 /\ gst (dispatch ctx s).2 = gst s.
Proof.
  intros Hr Hn. unfold dispatch, mbind, M_bind, smc. case_decide; simpl; [done|].
  match goal with |- context [firmware_smc ?l _] =>
    assert (same_pas s (set_env (firmware_smc l (env s)).2 s)) as Hp
      by (intros a; by apply other_call); destruct (firmware_smc l (env s)) as [r w] end.
  cbn [snd] in Hp. unfold lift. destruct (unwrap _); [|done..]. done.
Qed.

Lemma handle_rmi_completes c s c' s' : handle_rmi c s = (Ok c', s') -> Event.cmd c' = Rmi.REQ_COMPLETE.
Proof.
  unfold handle_rmi. destruct (rmi_handler _) as [h|]; [|by intros [= <- _]].
  intros Hr. mrun_in Hr. by injection Hr as <- _.
Qed.

Lemma same_gst_quiet s s' : gst s' = gst s -> no_new_undelegated s s'.
Proof. intros E i. by rewrite E. Qed.

Lemma runs_accounted s0 s c :
  boot_state s0 -> (forall a, ~ in_realm s0 a) -> runs s0 s c -> accounted s.
Proof.
  intros Hb Hz Hr. induction Hr as [c s E|s c s' c' Hr IH E].
  - pose proof (dispatch_quiet (Event.init_arg [Rmi.BOOT_SUCCESS] (Event.new Rmi.BOOT_COMPLETE)) s0)
      as [Hp _]; [done..|]. fold boot_complete in Hp. rewrite E in Hp.
    intros a _ Ha. exfalso. by apply (Hz a), Hp.
  - destruct (reachable_invariant s c (runs_reachable _ _ _ Hb Hr)) as (Hl & _ & Hc).
    destruct (handle_rmi_guarded c s Hc Hl) as [_ Ha]. specialize (Ha IH).
    unfold monitor_round in E. apply bind_ok_inv in E as (c1 & s1 & Eh & Ed).
    rewrite Eh in Ha. pose proof (handle_rmi_completes _ _ _ _ Eh) as Ec.
    pose proof (dispatch_quiet c1 s1) as Hq. rewrite Ec, Ed in Hq.
    destruct Hq as [Hp Hg]; [done..|]. eapply accounted_frame; [exact Hp| |exact Ha].
    by apply same_gst_quiet.
Qed.

(** C1: on a platform whose firmware starts with no granule in the realm
    address space, in every state the main loop reaches no granule lock is
    held and every granule of the realm address space is one the RMM holds;
    and the next command, whichever it is and whether it succeeds, fails or
    panics, keeps that and moves granules between the worlds only as follows.
    A granule leaves the realm world only by a GRANULE_UNDELEGATE of its own
    address, from the state Delegated, and is Undelegated and wiped
    afterwards; so no granule that holds a descriptor, a table, a REC or data
    of a realm ever leaves it. A granule enters it only by a GRANULE_DELEGATE
    of its own address, from the state Undelegated, and is Delegated and wiped
    afterwards. *)
Theorem realm_memory_protected s0 s c :
  boot_state s0 -> (forall a, ~ in_realm s0 a) -> runs s0 s c ->
  locked s = ∅ /\ accounted s /\ accounted (handle_rmi c s).2 /\ moves c s (handle_rmi c s).2.
Proof.
  intros Hb Hz Hr. pose proof (runs_accounted _ _ _ Hb Hz Hr) as Ha.
  destruct (reachable_invariant s c (runs_reachable _ _ _ Hb Hr)) as (Hl & _ & Hc).
  destruct (handle_rmi_guarded c s Hc Hl) as [Hm Hk]. split_and!; auto.
Qed.
End protection.

(** ** Witness: the sample firmware; the host delegates a granule. *)
#[global] Instance sample_gpt_frame : GptFrame.
Proof.
  split; [|done]. intros cmd args [g script] a Hr Hn. unfold gpt, sample_gpt_view.
  cbn [firmware_smc sample_platform sample_firmware].
  rewrite (proj2 (Z.eqb_neq _ _) Hr), (proj2 (Z.eqb_neq _ _) Hn).
  by repeat case_match.
Qed.

Lemma realm_memory_protected_witness :
  runs sample_scripted sample_waiting sample_ctx /\
  in_realm (handle_rmi sample_ctx sample_waiting).2 0x80000000 /\
  changed_hands sample_waiting (handle_rmi sample_ctx sample_waiting).2 0x80000000
    GranuleState.Undelegated GranuleState.Delegated.
Proof.
  assert (runs sample_scripted sample_waiting sample_ctx) as Hr by (apply runs_boot; reflexivity).
  destruct (realm_memory_protected sample_scripted sample_waiting sample_ctx) as (_ & _ & _ & Hm);
    [by repeat split|by intros a|exact Hr|].
  assert (in_realm (handle_rmi sample_ctx sample_waiting).2 0x80000000) as Hin by (vm_compute; reflexivity).
  split; [exact Hr|]. split; [exact Hin|].
  apply (proj2 (Hm 0x80000000)); [by vm_compute|exact Hin].
Defined.
