(* ===== verification/HarnessDestroy.v ===== *)
(** * The harnesses of REC_DESTROY and REALM_DESTROY

    Every refusal is as the harnesses assert. On success the command does what
    it should (Teardown), but the last assertions read the auxiliary granule of
    the REC, or the root table of the realm, from the object the command has just
    wiped: of the firmware, which wipes the whole granule, they cannot hold. *)

From S2P Require Import Prelude Bytes Bits Vmsa RmiTypes Granule S2tte Objects Machine PageTable Stage1 Stage2 Measurement Rtt RmiGranule RmiRealm RmiRtt RmiRec Rsi RsiPsci RecEnter Event Frame Sample Invariants Guards Stage1Facts Delegation SampleRealm Lifecycle Teardown Harness HarnessFacts.

Section destroy.
Context `{Platform}.

(** A release makes the granules it names Delegated, and wipes them. *)
Lemma released_state I P s s' i :
  released I P s s' -> i ∈ I -> state (gst s' i) = GranuleState.Delegated.
Proof. intros (g & m & h & -> & Hg & _) Hi. simpl. by rewrite (Hg i Hi). Qed.
Lemma released_zero I s s' i : released I ∅ s s' -> i ∈ I -> mem s' (index_to_addr i) = zero_page.
Proof. intros (g & m & h & -> & _ & Hm & _) Hi. simpl. apply Hm; [done|set_solver]. Qed.

(** A page that was wiped is no REC or RD with granules: their addresses are 0. *)
Class WipedReads : Prop := {
  wiped_aux : Rec.aux (rec_of zero_page) !! 0%nat = Some 0;
  wiped_rtt : Rd.rtt_base (rd_of zero_page) = 0
}.

Lemma look_granule_null : look_granule 0 = Err RmiErrorInput.
Proof. reflexivity. Qed.

(** REC_DESTROY *)
Lemma rec_destroy_refusals any_state any_addr regs s :
  let rec := reg 1 regs in
  length regs = 8%nat -> locked s = ∅ ->
  validate_addr rec = false \/ state (gst s (granule_addr_to_index rec)) <> GranuleState.Rec
    \/ Rec.state (rec_of (mem s rec)) = Running ->
  verify_rec_destroy run_once any_state any_addr regs s = Ok tt.
Proof.
  intros rec Hl Hlk Hf. apply assume_run_holds; [done|]. intros addr rest Hr Hregs.
  assert (rec = addr) as Ha by (unfold rec; by rewrite Hregs). change (reg 1 regs) with rec.
  rewrite (run_once_run _ _ 4 1 rec_destroy) by (done || simpl; lia). rewrite Ha in *. clear Ha rec.
  change (take 4 (addr :: rest)) with (addr :: take 3 rest).
  set (s0 := set_ret _ s). set (idx := granule_addr_to_index addr).
  assert (forall i, i ∉ locked s0) as Hn by (intros i; simpl; rewrite Hlk; set_solver).
  unfold rec_destroy. rewrite (bind_argn _ 0 addr) by done.
  destruct (validate_addr addr) eqn:Hv; cbn [negb].
  2:{ rewrite with_granule_if_refused by (done || by left). simpl. flags. }
  rewrite (validate_addr_aligned _ Hv). cbn [negb andb].
  unfold pre_granule_state, pre_rec_state, pre_valid_addr.
  rewrite (look_granule_valid _ Hv). cbn [mbind outcome_bind or_any mret outcome_ret].
  fold idx. assert (index_to_addr idx = addr) as Hix by by apply index_to_addr_to_index. rewrite Hix.
  destruct (Z.eqb_spec (state (gst s idx)) GranuleState.Rec) as [Hs|Hs]; cbn [negb andb].
  2:{ rewrite with_granule_if_refused by (done || by right). done. }
  destruct Hf as [?|[?|Hrun]]; [done..|]. rewrite bool_decide_eq_true_2 by done. cbn [negb andb].
  rewrite with_granule_if_run by done. cbv zeta. unfold content_addr. mstep. fold idx. rewrite Hix.
  change (mem (lock idx s0)) with (mem s). rewrite bool_decide_eq_true_2 by done. done.
Qed.

Lemma rec_destroy_reads_wiped `{!WipedReads} any_state any_addr rd_addr regs s :
  let rec := reg 1 regs in
  length regs = 8%nat -> default 0 (regs !! 0%nat) = Rmi.REC_DESTROY -> locked s = ∅ ->
  rec_wf rec rd_addr s -> Rec.state (rec_of (mem s rec)) <> Running ->
  verify_rec_destroy run_once any_state any_addr regs s = Panicked.
Proof.
  intros rec Hl Hc Hlk Hwf Hrun. unfold verify_rec_destroy, assume_run. rewrite Hc, Z.eqb_refl. cbn [negb].
  destruct (regs_of_command _ _ Hl Hc) as (addr & rest & Hregs & Hr).
  assert (rec = addr) as Ha by (unfold rec; by rewrite Hregs). change (reg 1 regs) with rec.
  rewrite Hregs, (run_once_run _ _ 4 1 rec_destroy) by (done || simpl; lia). rewrite Ha in *. clear Ha rec.
  change (take 4 (addr :: rest)) with (addr :: take 3 rest).
  change (rec_destroy (addr :: take 3 rest)) with (rec_destroy [addr]).
  set (s0 := set_ret _ s). set (idx := granule_addr_to_index addr).
  pose proof (v_valid _ _ _ Hwf) as Hv. pose proof (v_state _ _ _ Hwf) as Hs. fold idx in Hs.
  assert (index_to_addr idx = addr) as Hix by by apply index_to_addr_to_index.
  destruct (rec_destroy_ok addr rd_addr s0) as (s' & E & R); [exact Hlk|by destruct Hwf|exact Hrun|].
  fold idx in R. rewrite E. clear E.
  pose proof (released_state _ _ _ _ idx R ltac:(set_solver)) as Hst.
  pose proof (released_zero _ _ _ idx R ltac:(set_solver)) as Hz. rewrite Hix in Hz.
  assert (ret s' = [0]) as Hret by (by destruct R as (g & m & h & -> & _)).
  unfold completed. rewrite Hret. cbn [mbind outcome_bind].
  unfold post_rec_aux_state, pre_granule_state, pre_rec_state, pre_valid_addr, post_granule_state.
  rewrite Hv, (validate_addr_aligned _ Hv), (look_granule_valid _ Hv).
  cbn [mbind outcome_bind or_any mret outcome_ret negb andb unwrap_res]. fold idx. rewrite Hix, Hs, Hst, Hz.
  rewrite wiped_aux, bool_decide_eq_false_2 by done. done.
Qed.

(** REALM_DESTROY *)
Lemma realm_destroy_refusals any_state any any_rtt any_addr regs s :
  let rd := reg 1 regs in
  length regs = 8%nat -> locked s = ∅ ->
  validate_addr rd = false \/ state (gst s (granule_addr_to_index rd)) <> GranuleState.RD
    \/ 0 < ref_count (gst s (granule_addr_to_index rd)) ->
  verify_realm_destroy run_once any_state any any_rtt any_addr regs s = Ok tt.
Proof.
  intros rd Hl Hlk Hf. apply assume_run_holds; [done|]. intros addr rest Hr Hregs.
  assert (rd = addr) as Ha by (unfold rd; by rewrite Hregs). change (reg 1 regs) with rd.
  rewrite (run_once_run _ _ 2 1 realm_destroy) by (done || simpl; lia). rewrite Ha in *. clear Ha rd.
  change (take 2 (addr :: rest)) with (addr :: take 1 rest).
  change (realm_destroy (addr :: take 1 rest)) with (realm_destroy [addr]).
  set (s0 := set_ret _ s). set (idx := granule_addr_to_index addr).
  assert (forall i, i ∉ locked s0) as Hn by (intros i; simpl; rewrite Hlk; set_solver).
  destruct (validate_addr addr) eqn:Hv; cbn [negb].
  2:{ unfold realm_destroy. rewrite (bind_argn _ 0 addr) by done.
      rewrite with_granule_if_refused by (done || by left). simpl. flags. }
  rewrite (validate_addr_aligned _ Hv). cbn [negb andb].
  assert (children any addr s = ref_count (gst s idx)) as Hch
    by (unfold children; by rewrite (look_granule_valid _ Hv)).
  unfold pre_granule_state, pre_realm_is_live. rewrite Hch.
  rewrite (look_granule_valid _ Hv). cbn [mbind outcome_bind or_any mret outcome_ret]. fold idx.
  destruct (Z.eqb_spec (state (gst s idx)) GranuleState.RD) as [Hs|Hs]; cbn [negb andb].
  2:{ unfold realm_destroy. rewrite (bind_argn _ 0 addr) by done.
      rewrite with_granule_if_refused by (done || by right). done. }
  destruct Hf as [?|[?|Hc]]; [done..|]. fold idx in Hc.
  rewrite (proj2 (Z.ltb_lt 0 (ref_count (gst s idx)))) by done. cbn [orb negb andb].
  by rewrite (realm_destroy_refused addr s0 Hv (Hn _) Hs Hc).
Qed.

Lemma realm_destroy_reads_wiped `{!WipedReads} any_state any any_rtt any_addr regs s :
  let rd := reg 1 regs in
  length regs = 8%nat -> default 0 (regs !! 0%nat) = Rmi.REALM_DESTROY -> locked s = ∅ ->
  realm_wf rd s -> ref_count (gst s (granule_addr_to_index rd)) = 0 ->
  0 < Rd.rtt_num_start (rd_of (mem s rd)) ->
  0 <= Rd.rtt_base (rd_of (mem s rd)) < Word.modulus ->
  verify_realm_destroy run_once any_state any any_rtt any_addr regs s = Panicked.
Proof.
  intros rd Hl Hc Hlk Hwf Hch Hroot Hb. unfold verify_realm_destroy, assume_run.
  rewrite Hc, Z.eqb_refl. cbn [negb].
  destruct (regs_of_command _ _ Hl Hc) as (addr & rest & Hregs & Hr).
  assert (rd = addr) as Ha by (unfold rd; by rewrite Hregs). change (reg 1 regs) with rd.
  rewrite Hregs, (run_once_run _ _ 2 1 realm_destroy) by (done || simpl; lia). rewrite Ha in *. clear Ha rd.
  change (take 2 (addr :: rest)) with (addr :: take 1 rest).
  change (realm_destroy (addr :: take 1 rest)) with (realm_destroy [addr]).
  set (s0 := set_ret _ s). set (idx := granule_addr_to_index addr) in *.
  pose proof (w_valid _ _ Hwf) as Hv. pose proof (w_state _ _ Hwf) as Hs. fold idx in Hs.
  assert (index_to_addr idx = addr) as Hix by by apply index_to_addr_to_index.
  set (rd := rd_of (mem s addr)) in *.
  assert (root_table rd 0 = Rd.rtt_base rd) as Hr0.
  { unfold root_table. rewrite Z.mul_0_l. unfold Word.add, Word.wrap. rewrite Z.add_0_r. by apply Z.mod_small. }
  pose proof (w_roots _ _ Hwf 0 ltac:(fold rd; lia)) as Hrv. fold rd in Hrv. rewrite Hr0 in Hrv.
  assert (ref_count (gst s (granule_addr_to_index (Rd.rtt_base rd))) = 0) as Hrc.
  { apply (w_root_state _ _ Hwf). fold rd. apply elem_of_roots. exists 0. split; [lia|]. by rewrite Hr0. }
  destruct (realm_destroy_ok addr s0) as (s' & E & R); [exact Hlk|by destruct Hwf|exact Hch|].
  fold idx in R. rewrite E. clear E.
  pose proof (released_zero _ _ _ idx R ltac:(set_solver)) as Hz. rewrite Hix in Hz.
  assert (ret s' = [0]) as Hret by (by destruct R as (g & m & h & -> & _)).
  unfold completed. cbn [ret set_vmid_set]. rewrite Hret. cbn [mbind outcome_bind].
  unfold post_rtt_state, pre_granule_state, pre_realm_is_live, children, pre_valid_addr, post_granule_state.
  rewrite Hv, (validate_addr_aligned _ Hv), (look_granule_valid _ Hv).
  cbn [mbind outcome_bind or_any mret outcome_ret negb andb unwrap_res]. fold idx. rewrite Hix, Hs.
  fold rd. rewrite (look_granule_valid _ Hrv). cbn [mbind outcome_bind or_any mret outcome_ret].
  unfold num_children. rewrite Hch, Hrc. cbn [mem set_vmid_set]. rewrite Hz, wiped_rtt. done.
Qed.
End destroy.

(** So the harnesses of the two commands hold on every refusal, and fail on every
    success. *)
Theorem destroy_harnesses `{Platform} `{!WipedReads} any_state any any_rtt any_addr regs s :
  let a := reg 1 regs in
  let idx := granule_addr_to_index a in
  length regs = 8%nat -> locked s = ∅ ->
  (validate_addr a = false \/ state (gst s idx) <> GranuleState.Rec
     \/ Rec.state (rec_of (mem s a)) = Running ->
   verify_rec_destroy run_once any_state any_addr regs s = Ok tt)
  /\ (validate_addr a = false \/ state (gst s idx) <> GranuleState.RD \/ 0 < ref_count (gst s idx) ->
      verify_realm_destroy run_once any_state any any_rtt any_addr regs s = Ok tt)
  /\ (forall rd_addr, default 0 (regs !! 0%nat) = Rmi.REC_DESTROY -> rec_wf a rd_addr s ->
      Rec.state (rec_of (mem s a)) <> Running ->
      verify_rec_destroy run_once any_state any_addr regs s = Panicked)
  /\ (default 0 (regs !! 0%nat) = Rmi.REALM_DESTROY -> realm_wf a s -> ref_count (gst s idx) = 0 ->
      0 < Rd.rtt_num_start (rd_of (mem s a)) -> 0 <= Rd.rtt_base (rd_of (mem s a)) < Word.modulus ->
      verify_realm_destroy run_once any_state any any_rtt any_addr regs s = Panicked).
Proof.
  intros a idx Hl Hlk. split_and!.
  - by apply rec_destroy_refusals.
  - by apply realm_destroy_refusals.
  - intros rd_addr Hc Hw Hr. by apply rec_destroy_reads_wiped with rd_addr.
  - intros. by apply realm_destroy_reads_wiped.
Qed.

(** ** The sample realm *)
#[global] Instance sample_wiped : WipedReads.
Proof. split; reflexivity. Qed.

Example destroy_sample_rec :
  verify_rec_destroy run_once 0 0 [Rmi.REC_DESTROY; 0x80006000; 0; 0; 0; 0; 0; 0] sample_with_rec = Panicked
  /\ verify_rec_destroy run_once 0 0 [Rmi.REC_DESTROY; 0x80006001; 0; 0; 0; 0; 0; 0] sample_with_rec = Ok tt.
Proof. split; vm_compute; reflexivity. Qed.
Example destroy_sample_realm :
  verify_realm_destroy run_once 0 0 0 0 [Rmi.REALM_DESTROY; 0x80000000; 0; 0; 0; 0; 0; 0] sample_registered
  = Panicked.
Proof. vm_compute. reflexivity. Qed.
