(* ===== verification/HesTools.v ===== *)
(** * HES: the command line tools

    hes/cpak-generator/src/main.rs writes the public part of the key that signs
    the platform's tokens; hes/islet-hes/src/main.rs writes a token and the
    delegated key without the service. Both compute outside the service what the
    service computes; [HesToolsFacts] proves that they agree with it. Files
    are a map from names to contents; what the operating system decides (whether
    a file can be created, how much of a file one [read] returns) and the PEM
    encoding are parameters. *)

From stdpp Require Import strings.
From S2P Require Import Prelude Bytes Machine HesBoot HesAttest HesComms HesSample.
From stdpp Require Import gmap strings.
Open Scope Z_scope.

Inductive IOError : Set := NotFound | CannotCreate.

Class FileSystem := {
  creatable : string -> bool;
  (** the bytes one [File::read] returns of a file of this content *)
  read_count : list Z -> nat;
  (** [PublicKey::to_public_key_pem(LineEnding::LF)], by secret key *)
  public_key_pem : Z -> option (list Z)
}.

(** ** Files, as both tools handle them *)
Section files.
Context `{FileSystem}.
#[local] Abbreviation IO := (M (gmap string (list Z)) IOError).

(** The buffer has the length of the file; one [read] fills its beginning. *)
Definition load_binary_file (filename : string) : IO (list Z) :=
  fs ← get_state;
  f ← lift (ok_or (fs !! filename) NotFound);
  let buffer := replicate (length f) 0 in
  let n := Nat.min (read_count f) (length buffer) in
  mret (take n f ++ drop n buffer).

Definition save_binary_file (filename : string) (data : list Z) : IO unit :=
  if creatable filename then modify (<[filename := data]>) else throw CannotCreate.
End files.

(** ** cpak-generator *)
Module Cpak.
Definition PUBLIC_KEY_BIN : string := "cpak_public.bin".
Definition PUBLIC_KEY_PEM : string := "cpak_public.pem".
Definition CPAK_SEED_LABEL : list Z := bytes_of_string "BL1_CPAK_SEED_DERIVATION".

Record Args : Set := mkArgs { hash_file : string; guk_file : string; output_dir : string }.

Section tool.
Context `{HesCrypto} `{HesKeys} `{FileSystem}.

(** Creating the default output directory is left to the file system. *)
Definition main (args : Args) : M (gmap string (list Z)) IOError unit :=
  bl2_hash ← load_binary_file (hash_file args);
  guk ← load_binary_file (guk_file args);
  let lcs := 3 in
  let reprovisioning_bits := 0 in
  let context := bl2_hash ++ le_bytes 4 lcs ++ le_bytes 4 reprovisioning_bits in
  seed ← lift (generate_seed context guk CPAK_SEED_LABEL);
  key ← lift (derive_p384_key seed None);
  save_binary_file (output_dir args ++ "/" ++ PUBLIC_KEY_BIN) (p384_sec1 key);;
  pem ← lift (unwrap (public_key_pem key));
  save_binary_file (output_dir args ++ "/" ++ PUBLIC_KEY_PEM) pem.
End tool.
End Cpak.

(** ** islet-hes, the token tool *)
Module TokenTool.
(** The tool's hardware has the constants of the host application's. *)
Definition hw : Hw.HWData := DummyHW.hw.

Section tool.
Context `{HesCrypto} `{HesKeys} `{FileSystem}.

(** The loop over the slots skips those that cannot be read. *)
Fixpoint read_loop (n : nat) (i : Z) (mgr : Mgr.t) : outcome IOError (list HMeasurement.t) :=
  match n with
  | O => Ok []
  | S n =>
      match Mgr.read_measurement i mgr with
      | Ok (measurement, _) => ms ← read_loop n (i + 1) mgr; mret (measurement :: ms)
      | Err _ => read_loop n (i + 1) mgr
      | Panicked => Panicked
      | Hung => Hung
      end
  end.

(** [.unwrap()] on a result of the libraries *)
Definition unwrap_ok {F E A} (r : outcome F A) : outcome E A :=
  match r with Ok a => Ok a | Hung => Hung | _ => Panicked end.

(** [String::from_utf8(claim.unwrap().unwrap()..).unwrap()] *)
Definition text (p : option (option (list Z))) : outcome IOError (option (list Z)) :=
  claim ← unwrap p; v ← unwrap claim; s ← unwrap (from_utf8 v); mret (Some s).

(** The token, the delegated key and its public key. *)
Definition compute (hw : Hw.HWData) : outcome IOError (list Z * list Z * list Z) :=
  guk ← unwrap (@Hw.guk hw);
  hash ← unwrap (@Hw.bl_hash hw);
  implementation_id ← unwrap (@Hw.implementation_id hw);
  platform_config ← unwrap (@Hw.platform_config hw);
  profile_definition ← text (@Hw.profile_definition hw);
  security_lifecycle ← unwrap (@Hw.security_lifecycle hw);
  verification_service_url ← text (@Hw.verification_service_url hw);
  bs ← unwrap (@Hw.boot_measurements hw);
  mgr ← unwrap_ok (Mgr.init bs);
  measurements ← read_loop (Z.to_nat Mgr.NUM_OF_MEASUREMENT_SLOTS) 0 mgr;
  attestation_mgr ← unwrap_ok (Attest.init (mkKeyMaterial hash guk)
    (mkHWClaims implementation_id security_lifecycle profile_definition
                verification_service_url platform_config));
  let '(r, attestation_mgr) :=
    Attest.get_delegated_key SecpR1 Bits384 HashAlgo.Sha256 measurements attestation_mgr in
  dak_scalar_bytes ← unwrap_ok r;
  priv_dak ← unwrap (p384_from_slice dak_scalar_bytes);
  let dak_pub_hash := calculate_public_key_hash (p384_sec1 priv_dak) HashAlgo.Sha256 in
  token ← unwrap_ok (Attest.get_platform_token dak_pub_hash measurements attestation_mgr);
  token ← unwrap (to_tagged_vec token);
  Ok (token, dak_scalar_bytes, p384_sec1 priv_dak).

Definition main (out_dir : string) : M (gmap string (list Z)) IOError unit :=
  '(token, dak_priv, dak_pub) ← lift (compute hw);
  catch (save_binary_file (out_dir ++ "/platform_token.bin") token) (fun _ => panic);;
  catch (save_binary_file (out_dir ++ "/dak_priv.bin") dak_priv) (fun _ => panic);;
  catch (save_binary_file (out_dir ++ "/dak_pub.bin") dak_pub) (fun _ => panic).
End tool.
End TokenTool.
