(* ===== verification/HesToolsFacts.v ===== *)
(** * HES: the tools agree with the service

    The CPAK generator publishes the service's key, and the token tool writes
    what the service would answer. *)

From S2P Require Import Prelude Bytes Machine HesBoot HesAttest HesComms HesSample HesBootFacts HesAttestFacts HesTools.
From stdpp Require Import gmap strings.
Open Scope Z_scope.

Section agree.
Context `{HesCryptoLaws} `{HesKeysLaws} `{FileSystem}.

Lemma load_complete filename f fs :
  (length f <= read_count f)%nat -> fs !! filename = Some f ->
  load_binary_file filename fs = (Ok f, fs).
Proof.
  intros Hr Hf. unfold load_binary_file. mstep. rewrite Hf. cbn [ok_or]. mstep.
  rewrite length_replicate, Nat.min_r by done. rewrite drop_ge by (by rewrite length_replicate).
  rewrite app_nil_r, firstn_all. done.
Qed.

(** The service's key, whatever its errors are called. *)
Lemma attest_init_key hash guk claims a :
  Attest.init (mkKeyMaterial hash guk) claims = Ok a ->
  let seed := kdf Attest.CPAK_SEED_LABEL (hash ++ le_bytes 4 3 ++ le_bytes 4 0) guk in
  len guk = 32 /\ (forall E, @derive_p384_key _ E seed None = Ok (cpak_key (Attest.cpak a)))
  /\ instance_id (Attest.cpak a) = 1 :: sha256 (p384_sec1 (cpak_key (Attest.cpak a))).
Proof.
  intros Ei seed. unfold Attest.init in Ei. cbn [km_hash km_guk] in Ei.
  rewrite generate_seed_spec in Ei. destruct (Z.eqb_spec (len guk) 32) as [Hg|]; [|done].
  cbn [mbind outcome_bind] in Ei. fold seed in Ei. unfold derive_p384_key in *.
  assert (known_curve NistP384) as Hc by by right.
  rewrite derive_key_ok in Ei by done.
  destruct (_ <=? _) eqn:El; [|done]. cbn [mbind outcome_bind] in Ei.
  unfold Attest.generate_instance_id, collect, calculate_public_key_hash in Ei.
  set (k := candidate _ _ _ + 1) in *.
  assert (len (1 :: sha256 (p384_sec1 k)) = 33) as Hl.
  { unfold len. cbn [length]. pose proof (sha256_len (p384_sec1 k)). unfold len in *. lia. }
  rewrite Hl in Ei. cbn in Ei. injection Ei as <-. split; [done|]. split; [|done].
  intros E. cbn [Attest.cpak cpak_key]. rewrite derive_key_ok by done. by rewrite El.
Qed.

(** C35: the key the CPAK generator publishes is the key the service signs tokens
    with: run on files with the boot hash and the group key of the device, it
    writes exactly the public key of the service's CPAK, and the instance
    identifier in every token is the hash of the file it wrote. *)
Theorem cpak_tool_agrees args fs hash guk claims a pem :
  (length hash <= read_count hash)%nat -> (length guk <= read_count guk)%nat ->
  fs !! Cpak.hash_file args = Some hash -> fs !! Cpak.guk_file args = Some guk ->
  Attest.init (mkKeyMaterial hash guk) claims = Ok a ->
  public_key_pem (cpak_key (Attest.cpak a)) = Some pem ->
  (forall name, creatable name = true) ->
  let bin := (Cpak.output_dir args ++ "/" ++ Cpak.PUBLIC_KEY_BIN)%string in
  let public := p384_sec1 (cpak_key (Attest.cpak a)) in
  Cpak.main args fs
  = (Ok tt, <[(Cpak.output_dir args ++ "/" ++ Cpak.PUBLIC_KEY_PEM)%string := pem]> (<[bin := public]> fs))
  /\ instance_id (Attest.cpak a) = 1 :: sha256 public.
Proof.
  intros Hh Hg Eh Eg Ei Ep Hc bin public. destruct (attest_init_key _ _ _ _ Ei) as (Hl & Hk & Hi).
  split; [|exact Hi]. unfold Cpak.main.
  erewrite bind_ok by exact (load_complete _ hash _ Hh Eh).
  erewrite bind_ok by exact (load_complete _ guk _ Hg Eg). cbv zeta.
  rewrite generate_seed_spec, Hl. cbn [Z.eqb Pos.eqb]. mstep. rewrite Hk. mstep.
  unfold save_binary_file. rewrite !Hc. mstep. by rewrite Ep.
Qed.

(** The service's answers to the same requests. *)
Definition service_run (h : HES.t) : outcome IOError (list Z * list Z * list Z) :=
  let '(r, h1) := HES.get_delegated_key SecpR1 Bits384 HashAlgo.Sha256 h in
  key ← TokenTool.unwrap_ok r;
  k ← unwrap (p384_from_slice key);
  token ← TokenTool.unwrap_ok
    (HES.get_platform_token (calculate_public_key_hash (p384_sec1 k) HashAlgo.Sha256) h1);
  token ← unwrap (to_tagged_vec token);
  Ok (token, key, p384_sec1 k).

(** The tool's loop and the service's read the same slots. *)
Lemma tool_reads_slots n i mgr :
  Z.of_nat n + i = Mgr.NUM_OF_MEASUREMENT_SLOTS ->
  TokenTool.read_loop n i mgr = TokenTool.unwrap_ok (HES.fetch_loop n i mgr).
Proof.
  revert i. induction n as [|n IH]; intros i Hn; cbn [TokenTool.read_loop HES.fetch_loop]; [done|].
  assert (forall e, Mgr.read_measurement i mgr = Err e -> e = MDoesNotExist) as Hr.
  { intros e. unfold Mgr.read_measurement. rewrite (proj2 (Z.leb_gt _ _)) by lia.
    destruct (_ !! _); [|done]. cbn. destruct (negb _); [|done]. by intros [= <-]. }
  destruct (Mgr.read_measurement i mgr) as [[m b]|e| |]; [..|done|done].
  - rewrite IH by lia. by destruct (HES.fetch_loop n (i + 1) mgr).
  - rewrite (Hr e eq_refl). apply IH. lia.
Qed.

Lemma unwrap_ok_map_err {E F G A} (f : E -> F) (r : outcome E A) :
  TokenTool.unwrap_ok (E := G) (map_err f r) = TokenTool.unwrap_ok r.
Proof. by destruct r. Qed.

Lemma outcome_bind_inv {E A B} (m : outcome E A) (f : A -> outcome E B) b :
  m ≫= f = Ok b -> exists a, m = Ok a /\ f a = Ok b.
Proof. destruct m; [|done..]. intros Hf. by exists a. Qed.

Lemma obind_ok {E A B} (a : A) (f : A -> outcome E B) : Ok a ≫= f = f a.
Proof. done. Qed.

Lemma ok_or_inv {E A} (o : option A) (e : E) a : ok_or o e = Ok a -> o = Some a.
Proof. destruct o; [|done]. by intros [= ->]. Qed.

Lemma map_err_inv {E F A} (f : E -> F) (r : outcome E A) a : map_err f r = Ok a -> r = Ok a.
Proof. destruct r; [|done..]. by intros [= ->]. Qed.

Ltac invert_init H := repeat first
  [ apply outcome_bind_inv in H; let a := fresh "v" in let E := fresh "E" in destruct H as (a & E & H);
    first [apply ok_or_inv in E | apply map_err_inv in E | idtac] ].

Lemma tool_text c v v' :
  c = Some (Some v) -> HES.text_claim (Some v) = Ok v' -> TokenTool.text c = Ok v'.
Proof.
  intros -> Hc. unfold HES.text_claim in Hc. apply outcome_bind_inv in Hc as (u & Hu%ok_or_inv & Hc).
  unfold TokenTool.text. do 2 (cbn [unwrap]; rewrite obind_ok). rewrite Hu. cbn [unwrap]. rewrite obind_ok.
  by injection Hc as <-.
Qed.

(** What the tool does once it has its managers. *)
Definition tool_tail (mgr : Mgr.t) (a : Attest.t) : outcome IOError (list Z * list Z * list Z) :=
  measurements ← TokenTool.read_loop (Z.to_nat Mgr.NUM_OF_MEASUREMENT_SLOTS) 0 mgr;
  let '(r, a) := Attest.get_delegated_key SecpR1 Bits384 HashAlgo.Sha256 measurements a in
  key ← TokenTool.unwrap_ok r;
  k ← unwrap (p384_from_slice key);
  token ← TokenTool.unwrap_ok (Attest.get_platform_token
    (calculate_public_key_hash (p384_sec1 k) HashAlgo.Sha256) measurements a);
  token ← unwrap (to_tagged_vec token);
  Ok (token, key, p384_sec1 k).

Lemma tool_tail_service mgr a lcs huk : tool_tail mgr a = service_run (HES.mk mgr a lcs huk).
Proof.
  unfold tool_tail. rewrite tool_reads_slots by done.
  unfold service_run, HES.get_delegated_key, HES.get_platform_token, HES.fetch_current_measurements. mstep.
  cbn [HES.measured_boot_mgr].
  destruct (HES.fetch_loop _ 0 mgr) as [ms| | |] eqn:Ef; [|reflexivity..].
  rewrite bind_lift_ok. unfold HES.on_attest. cbn [HES.attestation_mgr TokenTool.unwrap_ok].
  rewrite !obind_ok.
  destruct (Attest.get_delegated_key SecpR1 Bits384 HashAlgo.Sha256 ms a) as [r a'].
  rewrite unwrap_ok_map_err. destruct (TokenTool.unwrap_ok r) as [key| | |]; [|reflexivity..].
  rewrite !obind_ok.
  destruct (p384_from_slice key) as [k|]; [|reflexivity]. cbn [unwrap]. rewrite !obind_ok.
  cbn [HES.measured_boot_mgr HES.set_attest HES.attestation_mgr].
  rewrite Ef. rewrite !obind_ok. by rewrite unwrap_ok_map_err.
Qed.

(** C36: the token tool writes what the service would answer: on hardware the
    service starts on, with a profile and a verification service, the tool's
    token, delegated key and public key are those of a service that is asked for
    a P-384 key and then for the token of its hash; the tool fails exactly when
    the service refuses. *)
Theorem token_tool_is_service (hw : Hw.HWData) h profile url :
  @Hw.profile_definition hw = Some (Some profile) ->
  @Hw.verification_service_url hw = Some (Some url) ->
  HES.init hw = Ok h -> TokenTool.compute hw = service_run h.
Proof.
  intros Ep Eu Ei. unfold HES.init in Ei. invert_init Ei. injection Ei as <-.
  rewrite <- tool_tail_service. unfold TokenTool.compute.
  rewrite E7; cbn [unwrap]; rewrite obind_ok. rewrite E6; cbn [unwrap]; rewrite obind_ok.
  rewrite E8; cbn [unwrap]; rewrite obind_ok. rewrite E9; cbn [unwrap]; rewrite obind_ok.
  rewrite Ep in E1. injection E1 as <-. rewrite Eu in E3. injection E3 as <-.
  rewrite (tool_text _ _ _ Ep E2), obind_ok. rewrite E5; cbn [unwrap]; rewrite obind_ok.
  rewrite (tool_text _ _ _ Eu E4), obind_ok. rewrite E; cbn [unwrap]; rewrite obind_ok.
  rewrite E0. cbn [TokenTool.unwrap_ok]. rewrite obind_ok. unfold tool_tail.
  destruct (TokenTool.read_loop _ _ _) as [ms| | |]; [|reflexivity..]. rewrite !obind_ok.
  rewrite E10. cbn [TokenTool.unwrap_ok]. by rewrite obind_ok.
Qed.
End agree.

(** ** Witnesses *)
#[global] Instance toy_files : FileSystem := {|
  creatable _ := true;
  read_count f := length f;
  public_key_pem k := Some [k mod 256]
|}.

Definition sample_args : Cpak.Args := Cpak.mkArgs "hash" "guk" "out".
Definition sample_claims : HWClaims := mkHWClaims [] 0 None None [].
Definition sample_files : gmap string (list Z) :=
  <["hash" := replicate 32 1]> (<["guk" := replicate 32 2]> ∅).

Lemma cpak_tool_agrees_witness :
  exists k fs', Cpak.main sample_args sample_files = (Ok tt, fs')
    /\ fs' !! "out/cpak_public.bin"%string = Some (p384_sec1 k).
Proof.
  destruct (Attest.init (mkKeyMaterial (replicate 32 1) (replicate 32 2)) sample_claims) as [a| | |] eqn:Ea;
    [|by vm_compute in Ea..].
  destruct (cpak_tool_agrees sample_args sample_files (replicate 32 1) (replicate 32 2) sample_claims a
    [cpak_key (Attest.cpak a) mod 256]) as [E _]; [reflexivity..|exact Ea|reflexivity|reflexivity|].
  eexists _, _. split; [exact E|]. rewrite lookup_insert_ne by done. apply lookup_insert_eq.
Defined.

Lemma token_tool_is_service_witness :
  exists h, HES.init DummyHW.hw = Ok h /\ TokenTool.compute DummyHW.hw = service_run h.
Proof.
  destruct (HES.init DummyHW.hw) as [h| | |] eqn:E; [|by vm_compute in E..].
  exists h. split; [done|]. by eapply token_tool_is_service.
Defined.
