(* ===== verification/Sdk.v ===== *)
(** * The SDK of a realm application (sdk/src)

    Attestation and sealing for programs that run inside a realm, with the C
    interface around them. The RSI bindings ([rust_rsi]), AES-GCM, the random
    generator and [bincode] are third-party: operations of the class [SdkCrates].
    The crate is built for a realm (aarch64) or as a simulation (x86_64), where a
    recorded report and a constant key stand in; [Target] says which. *)

From stdpp Require Import strings.
From S2P Require Import Prelude Bytes.

Inductive Target : Set := x86_64 | aarch64.

(** ** report.rs, error.rs *)
Record Report : Type := mkReport { buffer : list Z; user_data : list Z }.

Inductive SdkError (TokenError : Type) : Type :=
| CCAToken (e : TokenError)
| Claims
| Decoding
| InvalidArgument
| NotSupported
| ReportError
| Sealing
| SealingKey
| Serialize.
Arguments CCAToken {_} _.
Arguments Claims {_}.
Arguments Decoding {_}.
Arguments InvalidArgument {_}.
Arguments NotSupported {_}.
Arguments ReportError {_}.
Arguments Sealing {_}.
Arguments SealingKey {_}.
Arguments Serialize {_}.

(** ** sealing.rs: data *)
Record Header : Type := mkHeader { tag : list Z; iv : list Z }.
Record SealedData : Type := mkSealed { header : Header; ciphertext : list Z }.

Definition AES_GCM_256_IV_LEN : Z := 12.
Definition AES_GCM_256_TAG_LEN : Z := 16.
Definition SEALING_KEY_LEN : Z := 32.

Definition SEALING_KEY : list Z :=
  [99; 16; 193; 240; 83; 213; 82; 64; 41; 250; 127; 125; 205; 158; 40; 44;
   74; 147; 157; 85; 185; 137; 21; 68; 69; 163; 134; 30; 31; 161; 226; 206].

(** ** The crates *)
Class SdkCrates := {
  TokenError : Type;
  (** [rust_rsi::AttestationClaims], [RealmClaims] and [PlatClaims] *)
  RawClaims : Type;
  RealmClaims : Type;
  PlatClaims : Type;
  CHALLENGE_LEN : Z;
  RSI_SEALING_KEY_FLAGS_KEY : Z;
  RSI_SEALING_KEY_FLAGS_RIM : Z;
  rsi_attestation_token : list Z -> option (list Z);
  rsi_sealing_key : Z -> Z -> option (list Z);
  verify_token : list Z -> outcome TokenError RawClaims;
  realm_from_raw_claims : RawClaims -> outcome TokenError RealmClaims;
  plat_from_raw_claims : RawClaims -> outcome TokenError PlatClaims;
  challenge : RealmClaims -> list Z;
  with_challenge : list Z -> RealmClaims -> RealmClaims;
  rim : RealmClaims -> list Z;
  profile : PlatClaims -> list Z;
  (** AES-256-GCM without additional data: key, IV and text; ciphertext and tag *)
  encrypt_aead : list Z -> list Z -> list Z -> option (list Z * list Z);
  decrypt_aead : list Z -> list Z -> list Z -> list Z -> option (list Z);
  (** [bincode], on the two types the crate encodes *)
  serialize_sealed : SealedData -> option (list Z);
  deserialize_sealed : list Z -> option SealedData;
  serialize_report : Report -> option (list Z);
  deserialize_report : list Z -> option Report
}.

(** ** mock.rs *)
Definition REPORT_LEN : Z := 1737.
Definition REPORT : list Z :=
  [217; 1; 143; 162; 25; 172; 202; 89; 4; 150; 210; 132; 68; 161; 1; 56; 34; 160;
   89; 4; 41; 169; 10; 88; 32; 7; 165; 158; 169; 162; 36; 159; 104; 10; 27; 232;
   224; 178; 240; 173; 190; 52; 234; 148; 38; 117; 6; 142; 178; 157; 135; 244; 241; 90;
   84; 129; 202; 25; 1; 0; 88; 33; 1; 27; 233; 195; 54; 215; 167; 11; 102; 19;
   130; 147; 74; 38; 1; 146; 53; 26; 198; 29; 36; 226; 13; 136; 47; 73; 74; 190;
   232; 127; 138; 30; 152; 25; 1; 9; 120; 28; 104; 116; 116; 112; 58; 47; 47; 97;
   114; 109; 46; 99; 111; 109; 47; 67; 67; 65; 45; 83; 83; 68; 47; 49; 46; 48;
   46; 48; 25; 9; 91; 25; 48; 0; 25; 9; 92; 88; 32; 170; 170; 170; 170; 170;
   170; 170; 170; 187; 187; 187; 187; 187; 187; 187; 187; 204; 204; 204; 204; 204; 204; 204;
   204; 221; 221; 221; 221; 221; 221; 221; 221; 25; 9; 95; 137; 165; 1; 99; 66; 76;
   49; 6; 103; 115; 104; 97; 45; 50; 53; 54; 2; 88; 32; 105; 125; 228; 64; 125;
   174; 69; 192; 117; 6; 209; 240; 11; 61; 191; 92; 225; 219; 65; 246; 158; 23; 80;
   163; 17; 249; 29; 33; 62; 17; 152; 137; 4; 101; 48; 46; 49; 46; 48; 5; 88;
   32; 198; 195; 42; 149; 125; 244; 198; 105; 140; 85; 11; 105; 93; 2; 46; 213; 24;
   12; 174; 113; 248; 180; 156; 187; 117; 230; 6; 28; 46; 244; 151; 225; 165; 1; 99;
   66; 76; 50; 6; 103; 115; 104; 97; 45; 53; 49; 50; 2; 88; 64; 142; 23; 90;
   29; 205; 121; 184; 181; 28; 233; 226; 89; 194; 86; 131; 5; 183; 63; 95; 38; 245;
   103; 58; 140; 247; 129; 169; 69; 152; 228; 79; 103; 253; 244; 146; 104; 105; 238; 118;
   103; 233; 18; 11; 92; 27; 151; 98; 92; 201; 109; 52; 124; 35; 206; 60; 95; 118;
   59; 241; 217; 181; 71; 129; 246; 4; 103; 49; 46; 57; 46; 48; 43; 48; 5; 88;
   32; 160; 100; 177; 173; 96; 250; 24; 51; 148; 221; 165; 120; 145; 53; 127; 151; 46;
   79; 231; 34; 120; 42; 223; 241; 133; 76; 139; 42; 20; 44; 4; 16; 165; 1; 105;
   70; 87; 95; 67; 79; 78; 70; 73; 71; 6; 103; 115; 104; 97; 45; 50; 53; 54;
   2; 88; 32; 210; 36; 73; 235; 133; 58; 161; 246; 250; 140; 202; 116; 165; 186; 79;
   208; 223; 171; 190; 49; 53; 198; 114; 148; 126; 105; 105; 210; 2; 113; 180; 164; 4;
   96; 5; 88; 32; 0; 0; 0; 0; 0; 0; 0; 0; 0; 0; 0; 0; 0; 0;
   0; 0; 0; 0; 0; 0; 0; 0; 0; 0; 0; 0; 0; 0; 0; 0; 0; 0;
   165; 1; 108; 84; 66; 95; 70; 87; 95; 67; 79; 78; 70; 73; 71; 6; 103; 115;
   104; 97; 45; 50; 53; 54; 2; 88; 32; 199; 249; 158; 69; 187; 118; 243; 63; 250;
   55; 39; 68; 136; 252; 0; 25; 171; 91; 165; 38; 162; 123; 41; 30; 43; 20; 225;
   118; 42; 160; 193; 235; 4; 96; 5; 88; 32; 0; 0; 0; 0; 0; 0; 0; 0;
   0; 0; 0; 0; 0; 0; 0; 0; 0; 0; 0; 0; 0; 0; 0; 0; 0; 0;
   0; 0; 0; 0; 0; 0; 165; 1; 100; 66; 76; 95; 50; 6; 103; 115; 104; 97;
   45; 50; 53; 54; 2; 88; 32; 234; 211; 21; 169; 5; 56; 56; 11; 75; 243; 93;
   101; 238; 13; 95; 151; 133; 26; 189; 85; 29; 149; 131; 226; 137; 202; 7; 98; 18;
   238; 83; 74; 4; 96; 5; 88; 32; 0; 0; 0; 0; 0; 0; 0; 0; 0; 0;
   0; 0; 0; 0; 0; 0; 0; 0; 0; 0; 0; 0; 0; 0; 0; 0; 0; 0;
   0; 0; 0; 0; 165; 1; 109; 83; 69; 67; 85; 82; 69; 95; 82; 84; 95; 69;
   76; 51; 6; 103; 115; 104; 97; 45; 50; 53; 54; 2; 88; 32; 42; 112; 45; 206;
   139; 70; 189; 82; 252; 48; 56; 35; 220; 129; 212; 188; 99; 38; 210; 228; 111; 151;
   244; 42; 76; 42; 133; 123; 134; 153; 126; 239; 4; 96; 5; 88; 32; 0; 0; 0;
   0; 0; 0; 0; 0; 0; 0; 0; 0; 0; 0; 0; 0; 0; 0; 0; 0; 0;
   0; 0; 0; 0; 0; 0; 0; 0; 0; 0; 0; 165; 1; 105; 72; 87; 95; 67;
   79; 78; 70; 73; 71; 6; 103; 115; 104; 97; 45; 50; 53; 54; 2; 88; 32; 175;
   207; 194; 113; 54; 41; 241; 244; 99; 155; 226; 224; 167; 75; 68; 170; 193; 228; 79;
   177; 132; 73; 107; 18; 136; 166; 118; 160; 6; 124; 71; 80; 4; 96; 5; 88; 32;
   0; 0; 0; 0; 0; 0; 0; 0; 0; 0; 0; 0; 0; 0; 0; 0; 0; 0;
   0; 0; 0; 0; 0; 0; 0; 0; 0; 0; 0; 0; 0; 0; 165; 1; 109; 83;
   79; 67; 95; 70; 87; 95; 67; 79; 78; 70; 73; 71; 6; 103; 115; 104; 97; 45;
   50; 53; 54; 2; 88; 32; 181; 150; 128; 237; 194; 33; 1; 104; 99; 0; 217; 196;
   203; 121; 40; 47; 170; 99; 92; 10; 58; 60; 111; 208; 195; 115; 90; 161; 255; 164;
   129; 143; 4; 96; 5; 88; 32; 0; 0; 0; 0; 0; 0; 0; 0; 0; 0; 0;
   0; 0; 0; 0; 0; 0; 0; 0; 0; 0; 0; 0; 0; 0; 0; 0; 0; 0;
   0; 0; 0; 165; 1; 99; 82; 77; 77; 6; 103; 115; 104; 97; 45; 50; 53; 54;
   2; 88; 32; 152; 73; 141; 226; 5; 86; 248; 245; 92; 182; 113; 52; 227; 105; 73;
   102; 100; 215; 2; 243; 233; 47; 52; 243; 127; 110; 184; 178; 198; 42; 41; 175; 4;
   96; 5; 88; 32; 0; 0; 0; 0; 0; 0; 0; 0; 0; 0; 0; 0; 0; 0;
   0; 0; 0; 0; 0; 0; 0; 0; 0; 0; 0; 0; 0; 0; 0; 0; 0; 0;
   25; 9; 96; 115; 104; 116; 116; 112; 58; 47; 47; 119; 104; 97; 116; 101; 118; 101;
   114; 46; 99; 111; 109; 25; 9; 97; 68; 239; 190; 173; 222; 25; 9; 98; 103; 115;
   104; 97; 45; 50; 53; 54; 88; 96; 36; 14; 249; 240; 72; 83; 134; 214; 195; 17;
   151; 165; 249; 14; 223; 90; 174; 219; 40; 181; 107; 91; 177; 48; 209; 86; 137; 12;
   103; 60; 173; 117; 197; 225; 176; 66; 161; 193; 79; 168; 247; 28; 250; 43; 0; 106;
   203; 28; 24; 75; 151; 41; 34; 199; 169; 140; 54; 48; 91; 150; 34; 198; 18; 19;
   233; 220; 84; 57; 58; 168; 50; 94; 149; 81; 147; 166; 59; 232; 71; 6; 51; 140;
   153; 69; 148; 41; 231; 60; 124; 246; 253; 17; 71; 137; 37; 147; 25; 172; 209; 89;
   2; 35; 210; 132; 68; 161; 1; 56; 34; 160; 89; 1; 182; 167; 10; 88; 64; 85;
   115; 101; 114; 32; 100; 97; 116; 97; 0; 0; 0; 0; 0; 0; 0; 0; 0; 0;
   0; 0; 0; 0; 0; 0; 0; 0; 0; 0; 0; 0; 0; 0; 0; 0; 0; 0;
   0; 0; 0; 0; 0; 0; 0; 0; 0; 0; 0; 0; 0; 0; 0; 0; 0; 0;
   0; 0; 0; 0; 0; 0; 0; 0; 0; 25; 172; 203; 88; 64; 0; 0; 0; 0;
   0; 0; 0; 0; 0; 0; 0; 0; 0; 0; 0; 0; 0; 0; 0; 0; 0; 0;
   0; 0; 0; 0; 0; 0; 0; 0; 0; 0; 0; 0; 0; 0; 0; 0; 0; 0;
   0; 0; 0; 0; 0; 0; 0; 0; 0; 0; 0; 0; 0; 0; 0; 0; 0; 0;
   0; 0; 0; 0; 0; 0; 25; 172; 206; 88; 32; 88; 11; 215; 112; 116; 247; 137;
   243; 72; 65; 234; 153; 32; 87; 159; 242; 154; 89; 185; 69; 43; 96; 111; 115; 129;
   17; 50; 179; 28; 104; 157; 169; 25; 172; 207; 132; 88; 32; 0; 0; 0; 0; 0;
   0; 0; 0; 0; 0; 0; 0; 0; 0; 0; 0; 0; 0; 0; 0; 0; 0; 0;
   0; 0; 0; 0; 0; 0; 0; 0; 0; 88; 32; 0; 0; 0; 0; 0; 0; 0;
   0; 0; 0; 0; 0; 0; 0; 0; 0; 0; 0; 0; 0; 0; 0; 0; 0; 0;
   0; 0; 0; 0; 0; 0; 0; 88; 32; 0; 0; 0; 0; 0; 0; 0; 0; 0;
   0; 0; 0; 0; 0; 0; 0; 0; 0; 0; 0; 0; 0; 0; 0; 0; 0; 0;
   0; 0; 0; 0; 0; 88; 32; 0; 0; 0; 0; 0; 0; 0; 0; 0; 0; 0;
   0; 0; 0; 0; 0; 0; 0; 0; 0; 0; 0; 0; 0; 0; 0; 0; 0; 0;
   0; 0; 0; 25; 172; 204; 103; 115; 104; 97; 45; 50; 53; 54; 25; 172; 205; 88;
   97; 4; 70; 216; 23; 114; 198; 239; 33; 84; 21; 240; 112; 133; 234; 77; 135; 246;
   243; 62; 38; 178; 67; 195; 248; 83; 91; 190; 239; 17; 106; 99; 62; 179; 214; 215;
   11; 66; 165; 59; 110; 0; 225; 124; 50; 202; 161; 183; 124; 86; 244; 115; 195; 21;
   198; 116; 121; 167; 231; 181; 179; 96; 149; 31; 230; 164; 61; 141; 102; 125; 4; 123;
   9; 137; 80; 66; 201; 108; 134; 162; 248; 243; 216; 129; 126; 247; 136; 139; 87; 233;
   124; 38; 53; 77; 126; 158; 25; 211; 25; 172; 208; 103; 115; 104; 97; 45; 50; 53;
   54; 88; 96; 240; 27; 232; 87; 52; 177; 85; 93; 56; 23; 221; 91; 128; 143; 250;
   122; 103; 248; 225; 6; 248; 56; 141; 229; 67; 172; 65; 47; 76; 77; 110; 56; 38;
   143; 32; 192; 178; 29; 116; 255; 126; 44; 107; 34; 4; 116; 16; 225; 143; 163; 46;
   91; 68; 216; 245; 38; 145; 228; 25; 254; 129; 127; 36; 239; 74; 73; 178; 206; 253;
   2; 212; 13; 237; 25; 152; 87; 248; 101; 104; 106; 197; 56; 13; 55; 71; 208; 185;
   92; 185; 33; 241; 212; 58; 218; 231; 118].

Section sdk.
Context `{SdkCrates} (target : Target).
#[local] Abbreviation Error := (SdkError TokenError).

(** ** sealing.rs *)
Definition UNIQUE_SEALING_KEY : Z := Z.lor RSI_SEALING_KEY_FLAGS_KEY RSI_SEALING_KEY_FLAGS_RIM.

(** [drawn] is what the random generator returns. *)
Definition Header_new (drawn : option (list Z)) : outcome Error Header :=
  iv ← ok_or drawn Sealing;
  mret (mkHeader (replicate (Z.to_nat AES_GCM_256_TAG_LEN) 0) iv).

Definition sealing_key : outcome Error (list Z) :=
  match target with
  | x86_64 => Ok SEALING_KEY
  | aarch64 => ok_or (rsi_sealing_key UNIQUE_SEALING_KEY 0) SealingKey
  end.

Definition seal (drawn : option (list Z)) (plaintext : list Z) : outcome Error (list Z) :=
  header ← Header_new drawn;
  sealing_key ← map_err (fun _ => SealingKey) sealing_key;
  '(ciphertext, tag) ← ok_or (encrypt_aead sealing_key (iv header) plaintext) Sealing;
  ok_or (serialize_sealed (mkSealed (mkHeader tag (iv header)) ciphertext)) Sealing.

Definition unseal (sealed : list Z) : outcome Error (list Z) :=
  sealed_data ← ok_or (deserialize_sealed sealed) Sealing;
  sealing_key ← map_err (fun _ => SealingKey) sealing_key;
  ok_or (decrypt_aead sealing_key (iv (header sealed_data)) (ciphertext sealed_data)
           (tag (header sealed_data))) Sealing.

(** ** attester.rs *)
Definition attest_x86_64 (data : list Z) : outcome Error Report := Ok (mkReport REPORT data).

Definition attest_aarch64 (data : list Z) : outcome Error Report :=
  if CHALLENGE_LEN <? Z.of_nat (length data) then Err InvalidArgument
  else
    let challenge := data ++ replicate (Z.to_nat (CHALLENGE_LEN - Z.of_nat (length data))) 0 in
    match rsi_attestation_token challenge with
    | Some token => Ok (mkReport token [])
    | None => Err ReportError
    end.

Definition attest (data : list Z) : outcome Error Report :=
  match target with x86_64 => attest_x86_64 data | aarch64 => attest_aarch64 data end.

(** ** verifier.rs, parser.rs: in the simulation the claims carry the user data
    of the report. *)
Record AttestationClaims : Type := mkClaims { origin : RawClaims; claims_user_data : list Z }.

Definition verify (report : Report) : outcome TokenError AttestationClaims :=
  claims ← verify_token (buffer report);
  match target with
  | x86_64 => mret (mkClaims claims (user_data report))
  | aarch64 => mret (mkClaims claims [])
  end.

(** [?] on a [TokenError] *)
Definition lift_token {A} (r : outcome TokenError A) : outcome Error A := map_err CCAToken r.

Definition parse (claims : AttestationClaims) : outcome Error (RealmClaims * PlatClaims) :=
  realm_claims ← lift_token (realm_from_raw_claims (origin claims));
  let realm_claims := match target with
                      | x86_64 => with_challenge (claims_user_data claims) realm_claims
                      | aarch64 => realm_claims
                      end in
  plat_claims ← lift_token (plat_from_raw_claims (origin claims));
  mret (realm_claims, plat_claims).

(** ** c_api.rs

    The memory of the caller: bytes, and the [c_int] cells that hold lengths. *)
Record CMem : Type := mkCMem { cbytes : Z -> Z; cints : Z -> Z }.
#[local] Abbreviation C := (M CMem Error).

Inductive islet_status_t : Set :=
| ISLET_SUCCESS
| ISLET_FAILURE
| ISLET_ERROR_INPUT
| ISLET_ERROR_WRONG_REPORT
| ISLET_ERROR_WRONG_CLAIMS
| ISLET_ERROR_FEATURE_NOT_SUPPORTED.

Definition status_code (s : islet_status_t) : Z :=
  match s with
  | ISLET_SUCCESS => 0
  | ISLET_FAILURE => -1
  | ISLET_ERROR_INPUT => -2
  | ISLET_ERROR_WRONG_REPORT => -3
  | ISLET_ERROR_WRONG_CLAIMS => -4
  | ISLET_ERROR_FEATURE_NOT_SUPPORTED => -5
  end.

(** [len as usize] of a [c_int], and [len as c_int] of a [usize] *)
Definition int_as_usize (n : Z) : Z := Word.wrap n.
Definition usize_as_int (n : Z) : Z :=
  let m := n mod 2 ^ 32 in if m <? 2 ^ 31 then m else m - 2 ^ 32.

(** [from_raw_parts]: a slice over [isize::MAX] bytes is undefined behaviour. *)
Definition from_raw_parts (p : Z) (n : Z) : C (list Z) :=
  if 2 ^ 63 <=? n then panic
  else gets (fun m => (fun i => cbytes m (p + i)) <$> seqZ 0 n).

(** [from_raw_parts_mut(p, data.len()).copy_from_slice(data)]: the length of the
    caller's buffer is not known here. *)
Definition write_bytes (p : Z) (data : list Z) (f : Z -> Z) : Z -> Z := fun a =>
  if (p <=? a) && (a <? p + Z.of_nat (length data)) then default 0 (data !! Z.to_nat (a - p)) else f a.
Definition copy_out (p : Z) (data : list Z) : C unit :=
  modify (fun m => mkCMem (write_bytes p data (cbytes m)) (cints m)).
Definition set_len (p : Z) (n : Z) : C unit :=
  modify (fun m => mkCMem (cbytes m) (<[p := usize_as_int n]> (cints m))).

(** [match do_it() { Ok(()) => .., Err(e) => status(e) }] *)
Definition status_of (m : C unit) (on_err : Error -> islet_status_t) : C islet_status_t := fun s =>
  match m s with
  | (Ok _, s') => (Ok ISLET_SUCCESS, s')
  | (Err e, s') => (Ok (on_err e), s')
  | (Panicked, s') => (Panicked, s')
  | (Hung, s') => (Hung, s')
  end.

Definition failure (e : Error) : islet_status_t := ISLET_FAILURE.

Definition islet_attest (data len out out_len : Z) : C islet_status_t :=
  if 64 <? len then mret ISLET_ERROR_INPUT
  else
    status_of
      (user_data ← from_raw_parts data (int_as_usize len);
       report ← lift (attest user_data);
       encoded ← lift (ok_or (serialize_report report) Serialize);
       set_len out_len (Z.of_nat (length encoded));;
       copy_out out encoded) failure.

Definition islet_verify (report len out out_len : Z) : C islet_status_t :=
  status_of
    (encoded ← from_raw_parts report (int_as_usize len);
     decoded ← lift (ok_or (deserialize_report encoded) ReportError);
     lift (lift_token (verify decoded));;
     copy_out out encoded;;
     set_len out_len (Z.of_nat (length encoded)))
    (fun e => match e with ReportError => ISLET_ERROR_WRONG_REPORT | _ => ISLET_FAILURE end).

Definition STR_REALM_CHALLENGE : string := "Realm challenge".
Definition STR_REALM_INITIAL_MEASUREMENT : string := "Realm initial measurement".
Definition STR_USER_DATA : string := "User data".
Definition STR_PLAT_PROFILE : string := "Profile".

(** [title] is the C string at the pointer, [None] when it is not UTF-8. *)
Definition claim_of_title (title : string) (r : RealmClaims) (p : PlatClaims) : outcome Error (list Z) :=
  if bool_decide (title = STR_USER_DATA) || bool_decide (title = STR_REALM_CHALLENGE)
  then Ok (challenge r)
  else if bool_decide (title = STR_REALM_INITIAL_MEASUREMENT) then Ok (rim r)
  else if bool_decide (title = STR_PLAT_PROFILE) then Ok (profile p)
  else Err NotSupported.

Definition islet_parse (title : option string) (claims len out out_len : Z) : C islet_status_t :=
  status_of
    (encoded ← from_raw_parts claims (int_as_usize len);
     decoded ← lift (ok_or (deserialize_report encoded) ReportError);
     claims ← lift (lift_token (verify decoded));
     title ← lift (ok_or title Decoding);
     '(realm_claims, plat_claims) ← lift (parse claims);
     value ← lift (claim_of_title title realm_claims plat_claims);
     set_len out_len (Z.of_nat (length value));;
     copy_out out value)
    (fun e => match e with Claims => ISLET_ERROR_WRONG_CLAIMS | _ => ISLET_FAILURE end).

(** What is printed is not modelled; [decoded.unwrap()] follows the message. *)
Definition islet_print_claims (claims len : Z) : C unit :=
  encoded ← from_raw_parts claims (int_as_usize len);
  decoded ← lift (unwrap (deserialize_report encoded));
  match verify decoded with
  | Ok _ | Err _ => mret tt
  | Panicked => panic
  | Hung => lift Hung
  end.

Definition islet_seal (drawn : option (list Z)) (plaintext len out out_len : Z) : C islet_status_t :=
  status_of
    (plaintext ← from_raw_parts plaintext (int_as_usize len);
     sealed ← lift (seal drawn plaintext);
     set_len out_len (Z.of_nat (length sealed));;
     copy_out out sealed) failure.

Definition islet_unseal (sealed len out out_len : Z) : C islet_status_t :=
  status_of
    (sealed ← from_raw_parts sealed (int_as_usize len);
     plaintext ← lift (unseal sealed);
     set_len out_len (Z.of_nat (length plaintext));;
     copy_out out plaintext) failure.
End sdk.

(** ** config.rs *)
Module Config.
Definition TOKEN_COUNT : Z := 2.
Definition TOKEN_PLAT : Z := 44234.
Definition TOKEN_REALM : Z := 44241.
Definition CLAIM_COUNT_REALM_TOKEN : Z := 7.
Definition CLAIM_COUNT_PLATFORM_TOKEN : Z := 8.
Definition CLAIM_COUNT_SW_COMPONENT : Z := 4.
Definition TAG_CCA_TOKEN : Z := 399.
Definition TAG_COSE_SIGN1 : Z := 18.
Definition TAG_REALM_CHALLENGE : Z := 10.
Definition TAG_REALM_PERSONALIZATION_VALUE : Z := 44235.
Definition TAG_REALM_HASH_ALGO_ID : Z := 44240.
Definition TAG_REALM_PUB_KEY_HASH_ALGO_ID : Z := 44236.
Definition TAG_REALM_PUB_KEY : Z := 44237.
Definition TAG_REALM_INITIAL_MEASUREMENT : Z := 44238.
Definition TAG_REALM_EXTENTIBLE_MEASUREMENTS : Z := 44239.
Definition TAG_PLAT_CHALLENGE : Z := 10.
Definition TAG_PLAT_VERIFICATION_SERVICE : Z := 2400.
Definition TAG_PLAT_PROFILE : Z := 265.
Definition TAG_PLAT_INSTANCE_ID : Z := 256.
Definition TAG_PLAT_IMPLEMENTATION_ID : Z := 2396.
Definition TAG_PLAT_SECURITY_LIFECYCLE : Z := 2395.
Definition TAG_PLAT_CONFIGURATION : Z := 2401.
Definition TAG_PLAT_HASH_ALGO_ID : Z := 2402.
Definition TAG_PLAT_SW_COMPONENTS : Z := 2399.
Definition TAG_UNASSIGINED : Z := 0.
Definition STR_REALM_SIGNATURE : string := "Realm Signature".
Definition STR_PLAT_SIGNATURE : string := "Platform Signature".
Definition STR_USER_DATA : string := "User data".
Definition STR_REALM_CHALLENGE : string := "Realm challenge".
Definition STR_REALM_PERSONALIZATION_VALUE : string := "Realm personalization value".
Definition STR_REALM_HASH_ALGO_ID : string := "Realm hash algo id".
Definition STR_REALM_PUB_KEY_HASH_ALGO_ID : string := "Realm public key hash algo id".
Definition STR_REALM_PUB_KEY : string := "Realm signing public key".
Definition STR_REALM_INITIAL_MEASUREMENT : string := "Realm initial measurement".
Definition STR_REALM_EXTENTIBLE_MEASUREMENTS : string := "Realm extentible measurements".
Definition STR_PLAT_CHALLENGE : string := "Challenge".
Definition STR_PLAT_VERIFICATION_SERVICE : string := "Verification service".
Definition STR_PLAT_PROFILE : string := "Profile".
Definition STR_PLAT_INSTANCE_ID : string := "Instance ID".
Definition STR_PLAT_IMPLEMENTATION_ID : string := "Implementation ID".
Definition STR_PLAT_SECURITY_LIFECYCLE : string := "Lifecycle".
Definition STR_PLAT_CONFIGURATION : string := "Configuration".
Definition STR_PLAT_HASH_ALGO_ID : string := "Platform hash algo".
Definition STR_PLAT_SW_COMPONENTS : string := "Platform sw components".

Definition to_label (title : string) : Z :=
  if bool_decide (title = STR_USER_DATA) || bool_decide (title = STR_REALM_CHALLENGE)
  then TAG_REALM_CHALLENGE
  else if bool_decide (title = STR_REALM_PERSONALIZATION_VALUE) then TAG_REALM_PERSONALIZATION_VALUE
  else if bool_decide (title = STR_REALM_HASH_ALGO_ID) then TAG_REALM_HASH_ALGO_ID
  else if bool_decide (title = STR_REALM_PUB_KEY_HASH_ALGO_ID) then TAG_REALM_PUB_KEY_HASH_ALGO_ID
  else if bool_decide (title = STR_REALM_PUB_KEY) then TAG_REALM_PUB_KEY
  else if bool_decide (title = STR_REALM_INITIAL_MEASUREMENT) then TAG_REALM_INITIAL_MEASUREMENT
  else if bool_decide (title = STR_REALM_EXTENTIBLE_MEASUREMENTS) then TAG_REALM_EXTENTIBLE_MEASUREMENTS
  else if bool_decide (title = STR_PLAT_CHALLENGE) then TAG_PLAT_CHALLENGE
  else if bool_decide (title = STR_PLAT_VERIFICATION_SERVICE) then TAG_PLAT_VERIFICATION_SERVICE
  else if bool_decide (title = STR_PLAT_PROFILE) then TAG_PLAT_PROFILE
  else if bool_decide (title = STR_PLAT_INSTANCE_ID) then TAG_PLAT_INSTANCE_ID
  else if bool_decide (title = STR_PLAT_IMPLEMENTATION_ID) then TAG_PLAT_IMPLEMENTATION_ID
  else if bool_decide (title = STR_PLAT_SECURITY_LIFECYCLE) then TAG_PLAT_SECURITY_LIFECYCLE
  else if bool_decide (title = STR_PLAT_CONFIGURATION) then TAG_PLAT_CONFIGURATION
  else if bool_decide (title = STR_PLAT_HASH_ALGO_ID) then TAG_PLAT_HASH_ALGO_ID
  else if bool_decide (title = STR_PLAT_SW_COMPONENTS) then TAG_PLAT_SW_COMPONENTS
  else TAG_UNASSIGINED.
End Config.
