(* ===== verification/SdkFacts.v ===== *)
(** * What the SDK promises an application

    Sealing and attestation through the C interface, and the sealing key through
    the RMM's RSI handler: data sealed by a realm is recovered by every later
    launch of the same realm on the same platform. *)

From S2P Require Import Prelude Bytes Bits Vmsa RmiTypes Granule S2tte Objects Machine PageTable Stage1 Stage2 Measurement Rtt RmiRealm Rsi RsiPsci Guards RecEnter Sample Sdk.
From stdpp Require Import list strings.
Open Scope Z_scope.

(** Documented behaviour: decryption inverts encryption under the same key and
    IV, [bincode] decodes what it encoded, and a token carries the challenge it
    was requested with. *)
Class SdkLaws `{SdkCrates} : Prop := {
  decrypt_encrypt key v text ct t :
    encrypt_aead key v text = Some (ct, t) -> decrypt_aead key v ct t = Some text;
  sealed_decodes d b : serialize_sealed d = Some b -> deserialize_sealed b = Some d;
  report_decodes r b : serialize_report r = Some b -> deserialize_report b = Some r;
  token_challenge c token raw r :
    rsi_attestation_token c = Some token -> verify_token token = Ok raw ->
    realm_from_raw_claims raw = Ok r -> challenge r = c;
  challenge_set c r : challenge (with_challenge c r) = c
}.

Section sdk.
Context `{SdkLaws} (target : Target).

Lemma bind_ok_inv_o {E A B} (m : outcome E A) (f : A -> outcome E B) b :
  m ≫= f = Ok b -> exists a, m = Ok a /\ f a = Ok b.
Proof. destruct m; [|done..]. intros Hf. by exists a. Qed.

Lemma ok_or_some {E A} (o : option A) (e : E) a : ok_or o e = Ok a -> o = Some a.
Proof. destruct o; [|done]. by intros [= ->]. Qed.

Lemma seal_inv drawn text sealed :
  Sdk.seal target drawn text = Ok sealed ->
  exists v key ct t, drawn = Some v /\ sealing_key target = Ok key
    /\ encrypt_aead key v text = Some (ct, t)
    /\ serialize_sealed (mkSealed (mkHeader t v) ct) = Some sealed.
Proof.
  unfold Sdk.seal, Header_new. intros Hs.
  apply bind_ok_inv_o in Hs as (h & Hh & Hs). apply bind_ok_inv_o in Hh as (v & Hv%ok_or_some & Hh).
  injection Hh as <-. apply bind_ok_inv_o in Hs as (key & Hk & Hs).
  apply bind_ok_inv_o in Hs as ([ct t] & He%ok_or_some & Hs). apply ok_or_some in Hs.
  exists v, key, ct, t. split_and!; [done| |done|done].
  destruct (sealing_key target); [|done..]. cbn in Hk. by simplify_eq.
Qed.

(** Data that was sealed is recovered wherever the same key is derived. *)
Lemma unseal_seal drawn text sealed :
  Sdk.seal target drawn text = Ok sealed -> Sdk.unseal target sealed = Ok text.
Proof.
  intros (v & key & ct & t & _ & Hk & He & Hs)%seal_inv. unfold Sdk.unseal.
  rewrite (sealed_decodes _ _ Hs), Hk. cbn. by rewrite (decrypt_encrypt _ _ _ _ _ He).
Qed.

(** The bytes of a buffer. *)
Definition read_buffer (m : CMem) (p n : Z) : list Z := (fun i => cbytes m (p + i)) <$> seqZ 0 n.

Lemma from_raw_parts_run p n m :
  0 <= n < 2 ^ 31 -> from_raw_parts p (int_as_usize n) m = (Ok (read_buffer m p n), m).
Proof.
  intros Hn. unfold from_raw_parts, int_as_usize. rewrite Word.wrap_small
    by (unfold Word.in_range, Word.modulus; lia).
  by rewrite (proj2 (Z.leb_gt _ _)) by lia.
Qed.

Lemma cmem_read_write p data f i :
  read_buffer (mkCMem (write_bytes p data f) i) p (Z.of_nat (length data)) = data.
Proof.
  unfold read_buffer. cbn [cbytes]. apply list_eq. intros j. rewrite list_lookup_fmap.
  destruct (decide (j < length data)%nat) as [Hj|Hj].
  - rewrite lookup_seqZ_lt by lia. cbn. unfold write_bytes.
    rewrite (proj2 (Z.leb_le _ _)), (proj2 (Z.ltb_lt _ _)) by lia. cbn.
    replace (Z.to_nat (p + (0 + Z.of_nat j) - p)) with j by lia.
    destruct (data !! j) eqn:E; [done|]. apply lookup_ge_None_1 in E. lia.
  - rewrite lookup_seqZ_ge by lia. symmetry. apply lookup_ge_None_2. lia.
Qed.

Lemma usize_as_int_small n : 0 <= n < 2 ^ 31 -> usize_as_int n = n.
Proof.
  intros Hn. unfold usize_as_int. rewrite Z.mod_small by lia. by rewrite (proj2 (Z.ltb_lt _ _)) by lia.
Qed.

Lemma length_read_buffer m p n : 0 <= n -> Z.of_nat (length (read_buffer m p n)) = n.
Proof. intros Hn. unfold read_buffer. rewrite length_fmap, length_seqZ. lia. Qed.

(** Sealing through the C interface is lossless: whatever memory the caller
    gives, [islet_seal] answers ISLET_SUCCESS exactly when the data is sealed, and
    [islet_unseal] of what it wrote, with the length it wrote, succeeds and gives
    back the plaintext and its length. *)
Theorem c_seal_roundtrip drawn src len sealed sealed_len out out_len m b :
  0 <= len < 2 ^ 31 ->
  Sdk.seal target drawn (read_buffer m src len) = Ok b -> Z.of_nat (length b) < 2 ^ 31 ->
  exists m1 m2,
    islet_seal target drawn src len sealed sealed_len m = (Ok ISLET_SUCCESS, m1)
    /\ islet_unseal target sealed (cints m1 sealed_len) out out_len m1 = (Ok ISLET_SUCCESS, m2)
    /\ cints m2 out_len = len /\ read_buffer m2 out len = read_buffer m src len.
Proof.
  intros Hl Hs Hb. set (text := read_buffer m src len) in *.
  eexists _, _. split.
  { unfold islet_seal, status_of. erewrite bind_ok by by apply from_raw_parts_run.
    fold text. rewrite Hs. mstep. reflexivity. }
  cbn [cints]. rewrite fn_lookup_insert, usize_as_int_small by lia. split.
  { unfold islet_unseal, status_of. erewrite bind_ok by (apply from_raw_parts_run; lia).
    rewrite cmem_read_write, (unseal_seal _ _ _ Hs). mstep. reflexivity. }
  cbn [cints cbytes]. rewrite fn_lookup_insert.
  assert (Z.of_nat (length text) = len) as Ht by (apply length_read_buffer; lia).
  rewrite Ht, usize_as_int_small by lia. split; [done|].
  pose proof (cmem_read_write out text) as Hw. rewrite Ht in Hw. apply Hw.
Qed.

(** An attestation report is bound to the user data: of a report [attest]
    returned, the claims that [verify] and [parse] extract have a challenge that
    starts with exactly the user data, in a realm and in the simulation; in a
    realm, data longer than a challenge is refused. *)
Theorem attest_binds_user_data data :
  (forall report claims r p,
     attest target data = Ok report -> verify target report = Ok claims ->
     parse target claims = Ok (r, p) -> take (length data) (challenge r) = data)
  /\ (target = aarch64 -> CHALLENGE_LEN < Z.of_nat (length data) ->
      attest target data = Err InvalidArgument).
Proof.
  split.
  - intros report claims r p Ha Hv Hp. unfold attest, attest_x86_64, attest_aarch64, verify, parse, lift_token in *.
    apply bind_ok_inv_o in Hv as (raw & Hv & Hc). apply bind_ok_inv_o in Hp as (r0 & Hr & Hp).
    apply bind_ok_inv_o in Hp as (p0 & Hp0 & Hp).
    assert (realm_from_raw_claims (origin claims) = Ok r0) as Hr'.
    { destruct (realm_from_raw_claims (origin claims)); [|done..]. cbn in Hr. by simplify_eq. }
    destruct target; cbn in Ha, Hc, Hp.
    + injection Ha as <-. injection Hc as <-. injection Hp as <- <-. cbn [claims_user_data user_data].
      rewrite challenge_set. apply firstn_all.
    + injection Hc as <-. injection Hp as <- <-. destruct (_ <? _) eqn:El; [done|].
      destruct (rsi_attestation_token _) as [token|] eqn:Et; [|done]. injection Ha as <-.
      rewrite (token_challenge _ _ _ _ Et Hv Hr'). apply take_app_length.
  - intros -> Hl. unfold attest, attest_aarch64. by rewrite (proj2 (Z.ltb_lt _ _)).
Qed.

(** A negative length passes the only check of [islet_attest] and becomes a
    slice of almost the whole address space. *)
Theorem attest_negative_length data len out out_len m :
  - 2 ^ 31 <= len < 0 -> fst (islet_attest target data len out out_len m) = Panicked.
Proof.
  intros Hl. unfold islet_attest. rewrite (proj2 (Z.ltb_ge _ _)) by lia.
  unfold status_of, from_raw_parts, int_as_usize, Word.wrap, Word.modulus.
  assert (2 ^ 63 <= len mod 2 ^ 64) as Hm.
  { rewrite <- (Z_mod_plus_full len 1). rewrite Z.mod_small; lia. }
  by rewrite (proj2 (Z.leb_le _ _)).
Qed.

(** [islet_print_claims] aborts the program on bytes that are not a report: the
    message is followed by an [unwrap]. *)
Theorem print_claims_panics claims len m :
  0 <= len < 2 ^ 31 -> deserialize_report (read_buffer m claims len) = None ->
  fst (islet_print_claims target claims len m) = Panicked.
Proof.
  intros Hl Hd. unfold islet_print_claims. erewrite bind_ok by by apply from_raw_parts_run.
  by rewrite Hd.
Qed.

(** A report with a wrong signature is not a wrong report to the C interface,
    and no error of [islet_parse] has the status of wrong claims. *)
Theorem forged_report_is_failure report len out out_len m r e :
  0 <= len < 2 ^ 31 -> deserialize_report (read_buffer m report len) = Some r ->
  verify_token (buffer r) = Err e ->
  islet_verify target report len out out_len m = (Ok ISLET_FAILURE, m)
  /\ forall title s', islet_parse target title report len out out_len m <> (Ok ISLET_ERROR_WRONG_CLAIMS, s').
Proof.
  intros Hl Hd He. unfold islet_verify, islet_parse, status_of. split; [|intros title s'];
    (erewrite bind_ok by by apply from_raw_parts_run); rewrite Hd; cbn [ok_or]; mstep;
    unfold verify; rewrite He; [done|]. by intros [=].
Qed.
End sdk.

(** ** The sealing key of a realm

    The realm's call ISLET_REALM_SEALING_KEY reaches the handler of rsi/mod.rs,
    which derives the key (rsi/sealing.rs) and returns it in registers. *)
Section binding.
Context `{P : Platform}.

(** What the key is derived from with the flags the SDK passes. *)
Definition meta_public_key (rd : Rd.t) (s : rmm) : list Z :=
  match Rd.metadata rd with
  | Some meta => IsletRealmMetadata.public_key (IsletRealmMetadata.of_bytes (bytes_of (mem s meta)))
  | None => zero_bytes 96
  end.

Definition sealing_info (pk rpv m : list Z) : list Z :=
  KdfInfo.as_u8_slice (KdfInfo.mk pk (zero_bytes 128) rpv 3 m 0 0).

Definition SDK_FLAGS : Z := Z.lor RSI_ISLET_USE_VHUK_M RSI_ISLET_SLK_RIM.

(** The registers of the REC at an address *)
Definition regs_in (s : rmm) (a : Z) : list Z := Context.gp_regs (Rec.context (rec_of (mem s a))).

Lemma reg_set_run a i v s :
  0 <= i <= 30 -> exists r, reg_set a i v s = (Ok tt, write_page a (CRec r) s)
    /\ regs_in (write_page a (CRec r) s) a = <[Z.to_nat i := v]> (regs_in s a)
    /\ Rec.owner r = Rec.owner (rec_of (mem s a)).
Proof.
  intros Hi. unfold reg_set, set_reg. rewrite (proj2 (Z.leb_le 0 i)), (proj2 (Z.leb_le i 30)) by lia.
  eexists. split; [reflexivity|]. split; [|reflexivity]. unfold regs_in, write_page. cbn [mem set_mem].
  by rewrite fn_lookup_insert.
Qed.

Lemma reg_ok_inv a i s v s' :
  0 <= i <= 30 -> reg a i s = (Ok v, s') -> s' = s /\ regs_in s a !! Z.to_nat i = Some v.
Proof.
  intros Hi. unfold reg, get_reg. rewrite (proj2 (Z.leb_le 0 i)), (proj2 (Z.leb_le i 30)) by lia.
  unfold read_rec. mstep. cbn [andb]. fold (regs_in s a). destruct (regs_in s a !! Z.to_nat i); [|done].
  by intros [= -> ->].
Qed.

(** Four words from x1 on *)
Lemma regs_of_bytes_run a key s :
  length key = 32%nat -> length (regs_in s a) = 31%nat ->
  exists s', regs_of_bytes a key s = (Ok tt, s') /\ length (regs_in s' a) = 31%nat
    /\ take 4 (drop 1 (regs_in s' a)) = u64s_at 0 4 key.
Proof.
  intros Hl Hr. unfold regs_of_bytes. rewrite Hl. change (32 / 8)%nat with 4%nat. cbn [seq zip u64s_at for_each].
  edestruct (reg_set_run a (Z.of_nat 1) (u64_at 0 key) s) as (r1 & E1 & R1 & _); [lia|].
  erewrite bind_ok by exact E1. set (s1 := write_page a _ s) in *. clearbody s1.
  edestruct (reg_set_run a (Z.of_nat 2) (u64_at (0 + 8) key) s1) as (r2 & E2 & R2 & _); [lia|].
  erewrite bind_ok by exact E2. set (s2 := write_page a _ s1) in *. clearbody s2.
  edestruct (reg_set_run a (Z.of_nat 3) (u64_at (0 + 8 + 8) key) s2) as (r3 & E3 & R3 & _); [lia|].
  erewrite bind_ok by exact E3. set (s3 := write_page a _ s2) in *. clearbody s3.
  edestruct (reg_set_run a (Z.of_nat 4) (u64_at (0 + 8 + 8 + 8) key) s3) as (r4 & E4 & R4 & _); [lia|].
  erewrite bind_ok by exact E4. eexists. split; [reflexivity|]. rewrite R4, R3, R2, R1, !Nat2Z.id.
  rewrite !length_insert. split; [done|].
  destruct (regs_in s a) as [|x0 [|x1 [|x2 [|x3 [|x4 l]]]]]; try discriminate Hr. reflexivity.
Qed.

Lemma realm_sealing_key_inv rd s key s' :
  realm_sealing_key rd SDK_FLAGS 0 s = (Ok key, s') ->
  mem s' = mem s /\ (forall meta, Rd.metadata rd = Some meta -> state (gst s (granule_addr_to_index meta)) = GranuleState.Metadata
                      /\ validate_addr meta = true)
  /\ exists m, Rd.measurements rd !! 0%nat = Some m
    /\ key = hkdf_sha256 SALT (VHUK_M (keys s)) (sealing_info (meta_public_key rd s) (Rd.rpv rd) m).
Proof.
  unfold realm_sealing_key. intros Hk. rewrite bind_gets in Hk.
  apply bind_ok_inv in Hk as (meta & s1 & Hm & Hk). apply bind_ok_inv in Hk as (info & s2 & Hi & Hk).
  injection Hk as <- <-. unfold lift in Hi. injection Hi as Hi <-.
  assert (mem s1 = mem s
    /\ (forall a, Rd.metadata rd = Some a -> state (gst s (granule_addr_to_index a)) = GranuleState.Metadata /\ validate_addr a = true)
    /\ meta = (fun a => IsletRealmMetadata.of_bytes (bytes_of (mem s a))) <$> Rd.metadata rd) as (H1 & H2 & ->).
  { destruct (Rd.metadata rd) as [a|]; [|by injection Hm as <- <-].
    apply with_granule_if_ok_inv in Hm as (Hv & _ & Hst & s0 & Hg & ->). injection Hg as <- <-.
    split; [done|]. split; [by intros ? [= <-]|]. cbn. unfold content_addr. by rewrite index_to_addr_to_index. }
  split; [done|]. split; [done|].
  unfold kdf_info in Hi. change (has_flag SDK_FLAGS RSI_ISLET_SLK_SVN) with false in Hi.
  change (has_flag SDK_FLAGS RSI_ISLET_SLK_REALM_ID) with false in Hi.
  change (has_flag SDK_FLAGS RSI_ISLET_SLK_RIM) with true in Hi. cbn [orb andb] in Hi.
  unfold measurement_read in Hi. change (Z.to_nat MEASUREMENTS_SLOT_RIM) with 0%nat in Hi.
  unfold meta_public_key. destruct (Rd.metadata rd); cbn in Hi;
    (destruct (Rd.measurements rd !! 0%nat) as [m|]; [|done]); cbn in Hi; injection Hi as <-;
    by exists m.
Qed.

(** The SDK in a realm whose key comes from [ask]. *)
Definition launched (C : SdkCrates) (ask : Z -> Z -> option (list Z)) : SdkCrates := {|
  TokenError := @TokenError C; RawClaims := @RawClaims C; RealmClaims := @RealmClaims C;
  PlatClaims := @PlatClaims C; CHALLENGE_LEN := @CHALLENGE_LEN C;
  RSI_SEALING_KEY_FLAGS_KEY := @RSI_SEALING_KEY_FLAGS_KEY C;
  RSI_SEALING_KEY_FLAGS_RIM := @RSI_SEALING_KEY_FLAGS_RIM C;
  rsi_attestation_token := @rsi_attestation_token C; rsi_sealing_key := ask;
  verify_token := @verify_token C; realm_from_raw_claims := @realm_from_raw_claims C;
  plat_from_raw_claims := @plat_from_raw_claims C; challenge := @challenge C;
  with_challenge := @with_challenge C; rim := @rim C; profile := @profile C;
  encrypt_aead := @encrypt_aead C; decrypt_aead := @decrypt_aead C;
  serialize_sealed := @serialize_sealed C; deserialize_sealed := @deserialize_sealed C;
  serialize_report := @serialize_report C; deserialize_report := @deserialize_report C
|}.

(** The realm's request: the call's function id and its arguments in x0, x1, x2
    of the REC *)
Definition request (rec_addr flags svn : Z) (s : rmm) : rmm :=
  write_page rec_addr (CRec (Rec.on_context (fun c => Context.with_gp_regs
    (<[2%nat := svn]> (<[1%nat := flags]> (<[0%nat := Rsi.ISLET_REALM_SEALING_KEY]> (Context.gp_regs c)))) c)
    (rec_of (mem s rec_addr)))) s.

(** The answer of the RMM: what its handler of the call leaves in the registers of
    the REC, the key in x1 to x4 when x0 says SUCCESS. An error of the handler is
    not an answer (the REC leaves to the host). *)
Definition rmm_answer (rec_addr : Z) (s : rmm) (flags svn : Z) : option (list Z) :=
  match rsi_handler Rsi.ISLET_REALM_SEALING_KEY with
  | Some handler =>
      match handler rec_addr (request rec_addr flags svn s) with
      | (Ok tt, s') =>
          if bool_decide (regs_in s' rec_addr !! 0%nat = Some Rsi.SUCCESS)
          then Some (u64s_bytes (take 4 (drop 1 (regs_in s' rec_addr)))) else None
      | _ => None
      end
  | None => None
  end.

(** The REC that runs: its granule is a REC, and it has 31 registers. *)
Definition rec_runs (rec_addr : Z) (s : rmm) : Prop :=
  state (gst s (granule_addr_to_index rec_addr)) = GranuleState.Rec
  /\ length (regs_in s rec_addr) = 31%nat.

(** What a sealing key of the SDK identifies. *)
Record identity : Type := mkIdentity {
  i_vhuk : list Z;
  i_author : list Z;
  i_rpv : list Z;
  i_rim : option (list Z)
}.
(** The realm of the REC: its descriptor is the REC's owner. *)
Definition realm_of (rec_addr : Z) (s : rmm) : Rd.t :=
  rd_of (mem s (default 0 (Rec.owner (rec_of (mem s rec_addr))))).
Definition identity_of (rec_addr : Z) (s : rmm) : identity :=
  let rd := realm_of rec_addr s in
  mkIdentity (VHUK_M (keys s)) (meta_public_key rd s) (Rd.rpv rd) (Rd.measurements rd !! 0%nat).
(** The two inputs of the key derivation *)
Definition key_input (i : identity) : list Z * list Z :=
  (i_vhuk i, sealing_info (i_author i) (i_rpv i) (default [] (i_rim i))).
(** The sizes of the fields of [KdfInfo]. *)
Definition identity_wf (i : identity) : Prop :=
  length (i_author i) = 96%nat /\ length (i_rpv i) = 64%nat
  /\ forall m, i_rim i = Some m -> length m = 64%nat.

Lemma sealing_info_inj pk rpv m pk' rpv' m' :
  length pk = length pk' -> length rpv = length rpv' -> length m = length m' ->
  sealing_info pk rpv m = sealing_info pk' rpv' m' -> pk = pk' /\ rpv = rpv' /\ m = m'.
Proof.
  intros H1 H2 H3 E. unfold sealing_info, KdfInfo.as_u8_slice in E. cbn [KdfInfo.public_key
    KdfInfo.realm_id KdfInfo.rpv KdfInfo.flags KdfInfo.rim KdfInfo.hash_algo KdfInfo.svn] in E.
  apply app_inj_1 in E as [-> E]; [|done]. apply app_inj_1 in E as [_ E]; [|done].
  apply app_inj_1 in E as [-> E]; [|done]. apply app_inj_1 in E as [_ E]; [|done].
  by apply app_inj_1 in E as [-> _].
Qed.

(** A page whose granule has another state is not the REC's. *)
Lemma not_the_rec rec_addr s a st f :
  state (gst s (granule_addr_to_index rec_addr)) = GranuleState.Rec ->
  state (gst s (granule_addr_to_index a)) = st -> st <> GranuleState.Rec ->
  mem (write_page rec_addr f s) a = mem s a.
Proof. intros Hr Ha Hne. unfold write_page. cbn [mem set_mem]. apply fn_lookup_insert_ne. intros ->. congruence. Qed.

Lemma rmm_answer_spec `{!PlatformLaws P} rec_addr s key :
  rec_runs rec_addr s -> rmm_answer rec_addr s SDK_FLAGS 0 = Some key ->
  is_Some (i_rim (identity_of rec_addr s))
  /\ key = hkdf_sha256 SALT (key_input (identity_of rec_addr s)).1 (key_input (identity_of rec_addr s)).2.
Proof.
  intros [Hst Hlen]. unfold rmm_answer. change (rsi_handler Rsi.ISLET_REALM_SEALING_KEY) with (Some rsi_realm_sealing_key).
  cbv iota. destruct (rsi_realm_sealing_key rec_addr (request rec_addr SDK_FLAGS 0 s)) as [[[]| | |] s'] eqn:E; [|done..].
  case_bool_decide as H0; [|done]. intros [= <-]. unfold rsi_realm_sealing_key in E.
  set (q := request rec_addr SDK_FLAGS 0 s) in *.
  assert (length (regs_in q rec_addr) = 31%nat
          /\ regs_in q rec_addr !! 1%nat = Some SDK_FLAGS /\ regs_in q rec_addr !! 2%nat = Some 0) as (Hq & Hq1 & Hq2).
  { assert (regs_in q rec_addr = <[2%nat := 0]> (<[1%nat := SDK_FLAGS]>
      (<[0%nat := Rsi.ISLET_REALM_SEALING_KEY]> (regs_in s rec_addr)))) as ->.
    { unfold regs_in at 1, q, request, write_page. cbn [mem set_mem]. by rewrite fn_lookup_insert. }
    rewrite !length_insert. split; [done|]. destruct (regs_in s rec_addr) as [|? [|? [|? ?]]]; try discriminate Hlen.
    split; reflexivity. }
  apply bind_ok_inv in E as (fl & s1 & [-> Ef]%reg_ok_inv & E); [|lia].
  apply bind_ok_inv in E as (sv & s1 & [-> Es]%reg_ok_inv & E); [|lia].
  change (Z.to_nat 1) with 1%nat in Ef. change (Z.to_nat 2) with 2%nat in Es.
  rewrite Hq1 in Ef. rewrite Hq2 in Es. injection Ef as <-. injection Es as <-.
  unfold with_owner, owner_of in E. apply bind_ok_inv in E as (o & s1 & Ho & E).
  assert (Rec.owner (rec_of (mem s rec_addr)) = Some o /\ s1 = q) as [Eo ->].
  { unfold read_rec in Ho. revert Ho. mstep. unfold q at 1, request, write_page. cbn [mem set_mem].
    rewrite fn_lookup_insert. unfold Rec.get_owner, lift.
    change (Rec.owner (rec_of (CRec (Rec.on_context ?f ?r)))) with (Rec.owner r).
    destruct (Rec.owner (rec_of (mem s rec_addr))); [|done]. by intros [= -> ->]. }
  apply with_granule_if_ok_inv in E as (Hv & _ & Hrd & s2 & E & ->).
  set (idx := granule_addr_to_index o) in *.
  assert (content_addr idx = o) as Hc by (unfold content_addr, idx; by rewrite index_to_addr_to_index).
  rewrite Hc in E. unfold read_rd in E. rewrite bind_gets in E.
  assert (mem q o = mem s o) as Hmo.
  { apply (not_the_rec _ _ _ GranuleState.RD); [done|exact Hrd|done]. }
  change (mem (lock idx q)) with (mem q) in E. rewrite Hmo in E.
  assert (realm_of rec_addr s = rd_of (mem s o)) as Hrealm by (unfold realm_of; by rewrite Eo).
  set (rd := rd_of (mem s o)) in *.
  apply bind_ok_inv in E as (k & s3 & Ek & E). unfold ok in Ek.
  destruct (realm_sealing_key rd SDK_FLAGS 0 (lock idx q)) as [[k0|e| |] s4] eqn:Er; try discriminate Ek;
    injection Ek as <- <-.
  - apply realm_sealing_key_inv in Er as (Hm4 & Hmeta & m & Hm & ->).
    set (key := hkdf_sha256 _ _ _) in *.
    destruct (regs_of_bytes_run rec_addr key s4) as (s5 & E5 & L5 & T5).
    { apply hkdf_sha256_length. }
    { unfold regs_in. by rewrite Hm4. }
    rewrite (bind_ok _ _ _ _ _ E5) in E. unfold back_to_realm in E.
    destruct (reg_set_run rec_addr 0 Rsi.SUCCESS s5 ltac:(lia)) as (r & E6 & R6 & _).
    rewrite (bind_ok _ _ _ _ _ E6) in E. unfold set_rsi_reg in E. case_decide; [|discriminate E]. injection E as <-.
    change (regs_in (unlock idx (set_rsi_ret ?v ?x)) rec_addr) with (regs_in x rec_addr).
    rewrite R6. change (Z.to_nat 0) with 0%nat.
    assert (take 4 (drop 1 (<[0%nat := Rsi.SUCCESS]> (regs_in s5 rec_addr))) = u64s_at 0 4 key) as ->.
    { rewrite <- T5. by destruct (regs_in s5 rec_addr). }
    rewrite (u64s_at_bytes 4 0 key); [|lia|unfold key; by rewrite hkdf_sha256_length|apply hkdf_sha256_bytes].
    cbn [drop Z.to_nat]. unfold identity_of. rewrite Hrealm. cbn [i_rim key_input i_vhuk i_author i_rpv fst snd].
    rewrite Hm. split; [by eexists|]. cbn [default]. unfold key.
    change (keys (lock idx q)) with (keys s). do 3 f_equal. unfold meta_public_key.
    destruct (Rd.metadata rd) as [a|] eqn:Ea; [|done]. destruct (Hmeta a eq_refl) as [Ha _].
    change (mem (lock idx q)) with (mem q).
    assert (mem q a = mem s a) as -> by (by apply (not_the_rec rec_addr s a GranuleState.Metadata)). done.
  - exfalso. unfold back_to_realm in E.
    destruct (reg_set_run rec_addr 0 Rsi.ERROR_INPUT s4 ltac:(lia)) as (r & E6 & R6 & _).
    rewrite (bind_ok _ _ _ _ _ E6) in E. unfold set_rsi_reg in E. case_decide; [|discriminate E]. injection E as <-.
    change (regs_in (unlock idx (set_rsi_ret ?v ?x)) rec_addr) with (regs_in x rec_addr) in H0.
    rewrite R6 in H0. destruct (regs_in s4 rec_addr); discriminate H0.
Qed.

Lemma key_input_inj i i' :
  identity_wf i -> identity_wf i' -> is_Some (i_rim i) -> is_Some (i_rim i') ->
  key_input i = key_input i' -> i = i'.
Proof.
  destruct i as [v a r m], i' as [v' a' r' m'].
  intros (A1 & A2 & A3) (B1 & B2 & B3) [x Hx] [x' Hx'] E. unfold key_input in E. cbn in *. subst m m'.
  injection E as -> E. apply sealing_info_inj in E as (-> & -> & ->); [done|congruence..|].
  by rewrite (A3 _ eq_refl), (B3 _ eq_refl).
Qed.

(** C37: The SDK's sealing key through the RMM's handler of
    ISLET_REALM_SEALING_KEY: a realm that asks with the SDK's flags and is
    answered SUCCESS finds in x1 to x4 the 32 bytes of HKDF-SHA256 over exactly
    its identity: the virtual hardware key of the platform's firmware as the key
    material, and the author in the realm's metadata, the personalization value
    and the initial measurement of the realm as the information. Data sealed in
    one launch of a realm is therefore recovered in every launch with the same
    identity; and two launches with different identities give HKDF different
    inputs (nothing of the identity is dropped or confused on the way). *)
Theorem sealed_data_follows_realm `{!PlatformLaws P} (C : SdkCrates) {L : @SdkLaws C} a s a' s' key key' :
  @RSI_SEALING_KEY_FLAGS_KEY C = RSI_ISLET_USE_VHUK_M ->
  @RSI_SEALING_KEY_FLAGS_RIM C = RSI_ISLET_SLK_RIM ->
  rec_runs a s -> rec_runs a' s' ->
  rmm_answer a s SDK_FLAGS 0 = Some key -> rmm_answer a' s' SDK_FLAGS 0 = Some key' ->
  let i := identity_of a s in
  let i' := identity_of a' s' in
  key = hkdf_sha256 SALT (key_input i).1 (key_input i).2
  /\ (i = i' -> forall drawn text sealed,
       @Sdk.seal (launched C (rmm_answer a s)) aarch64 drawn text = Ok sealed ->
       @Sdk.unseal (launched C (rmm_answer a' s')) aarch64 sealed = Ok text)
  /\ (identity_wf i -> identity_wf i' -> i <> i' -> key_input i <> key_input i').
Proof.
  intros F1 F2 R R' Hk Hk' i i'. destruct (rmm_answer_spec _ _ _ R Hk) as (Hm & Ek).
  destruct (rmm_answer_spec _ _ _ R' Hk') as (Hm' & Ek'). fold i in Hm, Ek. fold i' in Hm', Ek'.
  split; [done|]. split.
  - intros Hi drawn text sealed Hs. rewrite Hi in Ek. assert (key = key') as Hkk by congruence.
    assert (@SdkLaws (launched C (rmm_answer a' s'))) as L'.
    { destruct L as [L1 L2 L3 L4 L5]. split; [exact L1|exact L2|exact L3|exact L4|exact L5]. }
    apply (@unseal_seal _ L' aarch64 drawn). etransitivity; [|exact Hs]. unfold Sdk.seal, sealing_key, UNIQUE_SEALING_KEY.
    cbn [rsi_sealing_key launched RSI_SEALING_KEY_FLAGS_KEY RSI_SEALING_KEY_FLAGS_RIM].
    rewrite F1, F2. fold SDK_FLAGS. by rewrite Hk, Hk', Hkk.
  - intros W W' Hne E. by apply Hne, key_input_inj.
Qed.
End binding.

(** ** Witnesses *)
Definition toy_seal (d : SealedData) : list Z :=
  Z.of_nat (length (tag (header d))) :: Z.of_nat (length (iv (header d)))
  :: tag (header d) ++ iv (header d) ++ ciphertext d.
Definition toy_unseal (b : list Z) : option SealedData :=
  match b with
  | t :: v :: rest =>
      Some (mkSealed (mkHeader (take (Z.to_nat t) rest) (take (Z.to_nat v) (drop (Z.to_nat t) rest)))
              (drop (Z.to_nat v) (drop (Z.to_nat t) rest)))
  | _ => None
  end.

(** Ciphers and codecs of the right shape: the tag is the key, a token is its
    challenge. *)
Definition toy_crates : SdkCrates := {|
  TokenError := unit; RawClaims := list Z; RealmClaims := list Z; PlatClaims := unit;
  CHALLENGE_LEN := 64; RSI_SEALING_KEY_FLAGS_KEY := 1; RSI_SEALING_KEY_FLAGS_RIM := 2;
  rsi_attestation_token c := Some c; rsi_sealing_key _ _ := Some [7];
  verify_token b := Ok b; realm_from_raw_claims r := Ok r; plat_from_raw_claims _ := Ok tt;
  challenge r := r; with_challenge c _ := c; rim _ := []; profile _ := [];
  encrypt_aead key _ text := Some (text, key);
  decrypt_aead key _ ct t := if bool_decide (t = key) then Some ct else None;
  serialize_sealed d := Some (toy_seal d); deserialize_sealed := toy_unseal;
  serialize_report r := Some (Z.of_nat (length (buffer r)) :: buffer r ++ user_data r);
  deserialize_report b := match b with
                          | n :: rest => Some (mkReport (take (Z.to_nat n) rest) (drop (Z.to_nat n) rest))
                          | [] => None end
|}.

Lemma toy_laws : @SdkLaws toy_crates.
Proof.
  split; cbn.
  - intros key v text ct t [= -> ->]. by rewrite bool_decide_eq_true_2.
  - intros [[t v] c] b [= <-]. cbn. rewrite !Nat2Z.id, !drop_app_length, !take_app_length. done.
  - intros [bf u] b [= <-]. cbn. rewrite !Nat2Z.id, drop_app_length, take_app_length. done.
  - intros c token raw r [= <-] [= <-] [= <-]. done.
  - done.
Qed.

Definition sample_cmem : CMem := mkCMem (fun a => a mod 256) (fun _ => 0).

Lemma c_seal_roundtrip_witness :
  exists m1 m2,
    @islet_seal toy_crates aarch64 (Some [1; 2]) 100 3 200 0 sample_cmem = (Ok ISLET_SUCCESS, m1)
    /\ @islet_unseal toy_crates aarch64 200 (cints m1 0) 300 4 m1 = (Ok ISLET_SUCCESS, m2)
    /\ cints m2 4 = 3 /\ read_buffer m2 300 3 = [100; 101; 102].
Proof.
  exact (@c_seal_roundtrip toy_crates toy_laws aarch64 (Some [1; 2]) 100 3 200 0 300 4 sample_cmem
           [1; 2; 7; 1; 2; 100; 101; 102] ltac:(lia) eq_refl ltac:(simpl; lia)).
Defined.

Lemma attest_binds_user_data_witness :
  take 2 (5 :: 6 :: replicate 62 0) = [5; 6]
  /\ @attest toy_crates aarch64 (replicate 65 1) = Err InvalidArgument.
Proof.
  split.
  - destruct (@attest_binds_user_data toy_crates toy_laws aarch64 [5; 6]) as [Hb _].
    exact (Hb (mkReport (5 :: 6 :: replicate 62 0) []) (@mkClaims toy_crates (5 :: 6 :: replicate 62 0) [])
             (5 :: 6 :: replicate 62 0) tt eq_refl eq_refl eq_refl).
  - destruct (@attest_binds_user_data toy_crates toy_laws aarch64 (replicate 65 1)) as [_ Hl].
    apply Hl; [reflexivity|]. simpl. lia.
Defined.

(** A realm, and a second launch of it at other addresses; a third realm has
    another initial measurement. *)
Definition sealing_rd (b : Z) : Rd.t := Rd.with_measurements (replicate 5 (replicate 64 b)) sample_rd.
Definition launch (rd_addr rec_addr b : Z) : rmm :=
  set_rsi_ret [0]
    (update_granule (granule_addr_to_index rd_addr) (fun g => mkGranule GranuleState.RD 1)
    (update_granule (granule_addr_to_index rec_addr) (fun g => mkGranule GranuleState.Rec 0)
    (write_page rd_addr (CRd (sealing_rd b))
    (write_page rec_addr (CRec (Rec.with_owner (Some rd_addr) Rec.new)) sample_boot)))).

Lemma sealed_data_follows_realm_witness :
  @Sdk.unseal (launched toy_crates (rmm_answer 0x80007000 (launch 0x80004000 0x80007000 9))) aarch64
    (toy_seal (mkSealed (mkHeader (replicate 32 0) [1; 2]) [3; 4])) = Ok [3; 4]
  /\ key_input (identity_of 0x80001000 (launch 0x80000000 0x80001000 9))
     <> key_input (identity_of 0x80001000 (launch 0x80000000 0x80001000 8)).
Proof.
  assert (forall b, rec_runs 0x80001000 (launch 0x80000000 0x80001000 b)) as R by (intros b; by vm_compute).
  assert (rec_runs 0x80007000 (launch 0x80004000 0x80007000 9)) as R' by (by vm_compute).
  split.
  - destruct (sealed_data_follows_realm toy_crates (L := toy_laws) 0x80001000 (launch 0x80000000 0x80001000 9)
      0x80007000 (launch 0x80004000 0x80007000 9) (replicate 32 0) (replicate 32 0)
      eq_refl eq_refl (R 9) R') as (_ & Hs & _); [by vm_compute..|].
    apply (Hs ltac:(by vm_compute) (Some [1; 2])). by vm_compute.
  - destruct (sealed_data_follows_realm toy_crates (L := toy_laws) 0x80001000 (launch 0x80000000 0x80001000 9)
      0x80001000 (launch 0x80000000 0x80001000 8) (replicate 32 0) (replicate 32 0)
      eq_refl eq_refl (R 9) (R 8)) as (_ & _ & Hd); [by vm_compute..|].
    apply Hd; [..|by vm_compute]; (split; [by vm_compute|]; split; [by vm_compute|]; intros m [= <-]; by vm_compute).
Defined.
