(* ===== verification/Switch.v ===== *)
(** * The switch between the host and a realm (rmm/src/rec)

    What [Rec::into_current] and [Rec::from_current] do to the CPU around the run
    of a realm: the virtual interrupt controller (gic.rs), the timers (timer.rs)
    and the floating-point registers (simd.rs), with the features read at boot.
    The floating-point registers are switched lazily: a realm finds them trapped,
    and the handler of the trap ([Trap.handle_simd]) gives it its own. The state
    [W] is the CPU and the contexts of the RECs, by their addresses. *)

From S2P Require Import Prelude Bits RmiTypes Objects Machine RmiRec RecEnter Trap.

(** ** The registers a switch touches *)
Record Hw : Type := mkHw {
  TPIDR_EL2 : Z;
  (** ICH_LR<n>_EL2, ICH_AP0R<n>_EL2, ICH_AP1R<n>_EL2, ICH_VMCR_EL2, ICH_HCR_EL2
      and ICH_MISR_EL2 *)
  ich : GICRegister.t;
  (** CNTVOFF_EL2, CNTV_CVAL_EL0, ... *)
  cnt : TimerRegister.t;
  (** CPTR_EL2 and the floating-point registers, among others *)
  trap_cpu : Cpu;
  ZCR_EL2 : Z;
  ZCR_EL1 : Z;
  (** [NS_SIMD[get_cpu_id()]] *)
  NS_SIMD : SimdRegister.t
}.

Record W : Type := mkW { recs : Z -> Context.t; hw : Hw }.
#[local] Abbreviation Sw := (M W unit).

Definition on_hw (f : Hw -> Hw) : Sw unit := modify (fun w => mkW (recs w) (f (hw w))).
Definition on_ich (f : GICRegister.t -> GICRegister.t) : Sw unit := on_hw (fun h =>
  mkHw (TPIDR_EL2 h) (f (ich h)) (cnt h) (trap_cpu h) (ZCR_EL2 h) (ZCR_EL1 h) (NS_SIMD h)).
Definition set_cnt (t : TimerRegister.t) : Sw unit := on_hw (fun h =>
  mkHw (TPIDR_EL2 h) (ich h) t (trap_cpu h) (ZCR_EL2 h) (ZCR_EL1 h) (NS_SIMD h)).
Definition on_trap_cpu (f : Cpu -> Cpu) : Sw unit := on_hw (fun h =>
  mkHw (TPIDR_EL2 h) (ich h) (cnt h) (f (trap_cpu h)) (ZCR_EL2 h) (ZCR_EL1 h) (NS_SIMD h)).
Definition on_ns_simd (f : SimdRegister.t -> SimdRegister.t) : Sw unit := on_hw (fun h =>
  mkHw (TPIDR_EL2 h) (ich h) (cnt h) (trap_cpu h) (ZCR_EL2 h) (ZCR_EL1 h) (f (NS_SIMD h))).
Definition set_ZCR_EL2 (v : Z) : Sw unit := on_hw (fun h =>
  mkHw (TPIDR_EL2 h) (ich h) (cnt h) (trap_cpu h) v (ZCR_EL1 h) (NS_SIMD h)).
Definition set_TPIDR_EL2 (v : Z) : Sw unit := on_hw (fun h =>
  mkHw v (ich h) (cnt h) (trap_cpu h) (ZCR_EL2 h) (ZCR_EL1 h) (NS_SIMD h)).
Definition on_rec (a : Z) (f : Context.t -> Context.t) : Sw unit :=
  modify (fun w => mkW (<[a := f (recs w a)]> (recs w)) (hw w)).

Definition with_cptr (v : Z) (c : Cpu) : Cpu :=
  mkCpu (FAR_EL2 c) (HPFAR_EL2 c) (id_value c) (SPSR_EL1 c) (ELR_EL1 c) (ESR_EL1 c) v
    (fpu_regs c) (at_x0 c).
Definition with_fpu_regs (v : list Z) (c : Cpu) : Cpu :=
  mkCpu (FAR_EL2 c) (HPFAR_EL2 c) (id_value c) (SPSR_EL1 c) (ELR_EL1 c) (ESR_EL1 c) (cptr c)
    v (at_x0 c).
Definition with_at_x0 (v : list Z) (c : Cpu) : Cpu :=
  mkCpu (FAR_EL2 c) (HPFAR_EL2 c) (id_value c) (SPSR_EL1 c) (ELR_EL1 c) (ESR_EL1 c) (cptr c)
    (fpu_regs c) v.

(** [array[i]] *)
Definition at_index (l : list Z) (i : Z) : Sw Z := lift (unwrap (l !! Z.to_nat i)).

(** ** gic.rs *)
Definition ICH_LR_PRIORITY_WIDTH : Z := 8.
Module ICH_VTR_EL2.
Definition ListRegs : Z := define_mask 4 0.
Definition IDbits : Z := define_mask 25 23.
Definition PREbits : Z := define_mask 28 26.
Definition PRIbits : Z := define_mask 31 29.
End ICH_VTR_EL2.
Definition ICC_CTLR_EL1_ExtRange : Z := define_mask 19 19.

(** [GIC_FEATURES] from ICH_VTR_EL2 and ICC_CTLR_EL1; the amount of a shift is
    taken modulo 64. *)
Definition gic_features (vtr icc_ctlr : Z) : GicFeatures :=
  let nr_lrs := get_masked_value vtr ICH_VTR_EL2.ListRegs in
  let id := get_masked_value vtr ICH_VTR_EL2.IDbits in
  let max_vintid := if id =? 0 then Z.shiftl 1 16 - 1 else Z.shiftl 1 24 - 1 in
  let pre := get_masked_value vtr ICH_VTR_EL2.PREbits + 1 in
  let nr_aprs := Z.shiftl 1 (Word.sub pre 5 mod 64) - 1 in
  let pri := get_masked_value vtr ICH_VTR_EL2.PRIbits + 1 in
  let pri_res0_mask := Z.shiftl 1 (ICH_LR_PRIORITY_WIDTH - pri) - 1 in
  let ext_range := negb (get_masked_value icc_ctlr ICC_CTLR_EL1_ExtRange =? 0) in
  mkGicFeatures nr_lrs nr_aprs pri_res0_mask max_vintid ext_range.

(** A register that does not exist is not written, and not read. *)
Definition set_lr (i val : Z) : Sw unit :=
  on_ich (fun g => GICRegister.with_ich_lr_el2 (<[Z.to_nat i := val]> (GICRegister.ich_lr_el2 g)) g).
Definition set_ap0r (i val : Z) : Sw unit :=
  on_ich (fun g => GICRegister.with_ich_ap0r_el2 (<[Z.to_nat i := val]> (GICRegister.ich_ap0r_el2 g)) g).
Definition set_ap1r (i val : Z) : Sw unit :=
  on_ich (fun g => GICRegister.with_ich_ap1r_el2 (<[Z.to_nat i := val]> (GICRegister.ich_ap1r_el2 g)) g).
Definition get_lr (i : Z) : Sw Z :=
  w ← get_state; at_index (GICRegister.ich_lr_el2 (ich (hw w))) i.
Definition get_ap0r (i : Z) : Sw Z :=
  w ← get_state; at_index (GICRegister.ich_ap0r_el2 (ich (hw w))) i.
Definition get_ap1r (i : Z) : Sw Z :=
  w ← get_state; at_index (GICRegister.ich_ap1r_el2 (ich (hw w))) i.

(** [self.gic_state.array[i] = v] *)
Definition on_gic (a : Z) (f : GICRegister.t -> GICRegister.t) : Sw unit :=
  on_rec a (fun c => Context.with_gic_state (f (Context.gic_state c)) c).
Definition put_index (l : list Z) (i v : Z) : outcome unit (list Z) :=
  if (Z.to_nat i <? length l)%nat then Ok (<[Z.to_nat i := v]> l) else Panicked.
Definition put_lr (a i v : Z) : Sw unit :=
  w ← get_state;
  l ← lift (put_index (GICRegister.ich_lr_el2 (Context.gic_state (recs w a))) i v);
  on_gic a (GICRegister.with_ich_lr_el2 l).
Definition put_ap0r (a i v : Z) : Sw unit :=
  w ← get_state;
  l ← lift (put_index (GICRegister.ich_ap0r_el2 (Context.gic_state (recs w a))) i v);
  on_gic a (GICRegister.with_ich_ap0r_el2 l).
Definition put_ap1r (a i v : Z) : Sw unit :=
  w ← get_state;
  l ← lift (put_index (GICRegister.ich_ap1r_el2 (Context.gic_state (recs w a))) i v);
  on_gic a (GICRegister.with_ich_ap1r_el2 l).

Section gic.
Variable f : GicFeatures.

Definition gic_restore_state (rec : Z) : Sw unit :=
  w ← get_state;
  let gic_state := Context.gic_state (recs w rec) in
  for_range (S (Z.to_nat (nr_lrs f))) 0 (fun i =>
    v ← at_index (GICRegister.ich_lr_el2 gic_state) i; set_lr i v);;
  for_range (S (Z.to_nat (nr_aprs f))) 0 (fun i =>
    v ← at_index (GICRegister.ich_ap0r_el2 gic_state) i; set_ap0r i v;;
    v ← at_index (GICRegister.ich_ap1r_el2 gic_state) i; set_ap1r i v);;
  on_ich (GICRegister.with_ich_vmcr_el2 (GICRegister.ich_vmcr_el2 gic_state));;
  on_ich (GICRegister.with_ich_hcr_el2 (GICRegister.ich_hcr_el2 gic_state)).

Definition gic_save_state (rec : Z) : Sw unit :=
  for_range (S (Z.to_nat (nr_lrs f))) 0 (fun i => v ← get_lr i; put_lr rec i v);;
  for_range (S (Z.to_nat (nr_aprs f))) 0 (fun i =>
    v ← get_ap0r i; put_ap0r rec i v;;
    v ← get_ap1r i; put_ap1r rec i v);;
  w ← get_state;
  let regs := ich (hw w) in
  on_gic rec (GICRegister.with_ich_vmcr_el2 (GICRegister.ich_vmcr_el2 regs));;
  on_gic rec (GICRegister.with_ich_hcr_el2 (GICRegister.ich_hcr_el2 regs));;
  on_gic rec (GICRegister.with_ich_misr_el2 (GICRegister.ich_misr_el2 regs));;
  on_ich (GICRegister.with_ich_hcr_el2
    (Z.land (GICRegister.ich_hcr_el2 regs) (Word.not ICH_HCR_EL2.En))).
End gic.

(** ** timer.rs *)
Definition on_cnt (f : TimerRegister.t -> TimerRegister.t) : Sw unit :=
  w ← get_state; set_cnt (f (cnt (hw w))).
Definition on_timer (rec : Z) (f : TimerRegister.t -> TimerRegister.t) : Sw unit :=
  on_rec rec (fun c => Context.with_timer (f (Context.timer c)) c).

Definition timer_restore_state (rec : Z) : Sw unit :=
  w ← get_state;
  let timer := Context.timer (recs w rec) in
  on_cnt (TimerRegister.with_cntvoff_el2 (TimerRegister.cntvoff_el2 timer));;
  on_cnt (TimerRegister.with_cntpoff_el2 (TimerRegister.cntpoff_el2 timer));;
  on_cnt (TimerRegister.with_cntv_cval_el0 (TimerRegister.cntv_cval_el0 timer));;
  on_cnt (TimerRegister.with_cntv_ctl_el0 (TimerRegister.cntv_ctl_el0 timer));;
  on_cnt (TimerRegister.with_cntp_cval_el0 (TimerRegister.cntp_cval_el0 timer));;
  on_cnt (TimerRegister.with_cntp_ctl_el0 (TimerRegister.cntp_ctl_el0 timer));;
  on_cnt (TimerRegister.with_cnthctl_el2 (TimerRegister.cnthctl_el2 timer)).

Definition timer_save_state (rec : Z) : Sw unit :=
  w ← get_state;
  let regs := cnt (hw w) in
  on_timer rec (TimerRegister.with_cntvoff_el2 (TimerRegister.cntvoff_el2 regs));;
  on_timer rec (TimerRegister.with_cntv_cval_el0 (TimerRegister.cntv_cval_el0 regs));;
  on_timer rec (TimerRegister.with_cntv_ctl_el0 (TimerRegister.cntv_ctl_el0 regs));;
  on_timer rec (TimerRegister.with_cntpoff_el2 (TimerRegister.cntpoff_el2 regs));;
  on_timer rec (TimerRegister.with_cntp_cval_el0 (TimerRegister.cntp_cval_el0 regs));;
  on_timer rec (TimerRegister.with_cntp_ctl_el0 (TimerRegister.cntp_ctl_el0 regs));;
  on_timer rec (TimerRegister.with_cnthctl_el2 (TimerRegister.cnthctl_el2 regs)).

(** ** simd.rs *)
Definition ZCR_EL2_LEN_WIDTH : Z := 4.
Definition SVE_VQ_ARCH_MAX : Z := Z.shiftl 1 ZCR_EL2_LEN_WIDTH - 1.
Definition QUARD_WORD : Z := 128.

(** [SIMD_CONFIG]: [sve] and [sme] are the ID register fields, [vl_b] what RDVL
    gives, [raz] and [len] the fields of SMCR_EL2 after writing ones. *)
Definition simd_config (sve sme : bool) (vl_b raz len : Z) : outcome unit SimdConfig.t :=
  let sve_vq := if sve then Word.sub (Word.shl vl_b 3 / QUARD_WORD) 1 else 0 in
  if sme && (SVE_VQ_ARCH_MAX <? Word.add (Word.shl raz 4) len) then Panicked
  else Ok (SimdConfig.mk sve sve_vq sme).

(** An access while TFP is set is an exception of the RMM, which panics. *)
Definition fpu_trapped (c : Cpu) : bool := negb (Z.land (cptr c) CPTR_EL2.TFP =? 0).
Definition save_fpu : Sw (list Z) :=
  w ← get_state;
  if fpu_trapped (trap_cpu (hw w)) then panic else mret (fpu_regs (trap_cpu (hw w))).
Definition restore_ns_fpu (fpu : list Z) : Sw unit :=
  w ← get_state;
  if fpu_trapped (trap_cpu (hw w)) then panic else on_trap_cpu (restore_fpu fpu).

Definition CPTR_EL2_write (v : Z) : Sw unit := on_trap_cpu (with_cptr v).
(** TAM, TSM, TFP and TZ *)
Definition CPTR_TRAP_ALL : Z := CPTR_EL2.TAM + CPTR_EL2.TSM + CPTR_EL2.TFP + CPTR_EL2.TZ.

Definition simd_restore_state (rec : Z) : Sw unit :=
  w ← get_state;
  let rec_simd := Context.simd (recs w rec) in
  CPTR_EL2_write CPTR_EL2.TAM;;
  (if SimdConfig.sve_en (SimdRegister.cfg rec_simd) then
     on_ns_simd (SimdRegister.with_zcr_el2 (ZCR_EL2 (hw w)));;
     set_ZCR_EL2 (SimdRegister.zcr_el2 rec_simd)
   else
     fpu ← save_fpu;
     on_ns_simd (SimdRegister.with_fpu fpu));;
  w ← get_state;
  on_ns_simd (SimdRegister.with_cptr_el2 (cptr (trap_cpu (hw w))));;
  CPTR_EL2_write (SimdRegister.cptr_el2 rec_simd).

Definition on_simd (a : Z) (f : SimdRegister.t -> SimdRegister.t) : Sw unit :=
  on_rec a (fun c => Context.with_simd (f (Context.simd c)) c).

Definition simd_save_state (rec : Z) : Sw unit :=
  w ← get_state;
  let rec_simd := Context.simd (recs w rec) in
  let ns_simd := NS_SIMD (hw w) in
  CPTR_EL2_write CPTR_EL2.TAM;;
  (if SimdConfig.sve_en (SimdRegister.cfg rec_simd) then
     on_simd rec (SimdRegister.with_zcr_el2 (ZCR_EL2 (hw w)));;
     on_simd rec (SimdRegister.with_zcr_el12 (ZCR_EL1 (hw w)));;
     set_ZCR_EL2 (SimdRegister.zcr_el2 ns_simd);;
     panic
   else
     (if SimdRegister.is_used rec_simd then
        fpu ← save_fpu;
        on_simd rec (SimdRegister.with_fpu fpu);;
        on_simd rec (SimdRegister.with_is_saved true)
      else mret tt);;
     restore_ns_fpu (SimdRegister.fpu ns_simd));;
  on_simd rec (SimdRegister.with_is_used false);;
  on_simd rec (SimdRegister.with_cptr_el2 CPTR_TRAP_ALL);;
  CPTR_EL2_write (SimdRegister.cptr_el2 ns_simd).

(** ** context.rs and mod.rs *)
Section run.
Variable f : GicFeatures.

Definition into_current (rec : Z) : Sw unit :=
  set_TPIDR_EL2 rec;;
  gic_restore_state f rec;;
  timer_restore_state rec;;
  simd_restore_state rec.

Definition from_current (rec : Z) : Sw unit :=
  gic_save_state f rec;;
  timer_save_state rec;;
  simd_save_state rec.

Definition current : Sw (option Z) :=
  w ← get_state;
  mret (if TPIDR_EL2 (hw w) =? 0 then None else Some (TPIDR_EL2 (hw w))).

Definition run_prepare (rec incr_pc : Z) : Sw unit :=
  (if incr_pc =? 1 then on_rec rec (fun c => Context.with_elr (Word.add (Context.elr c) 4) c)
   else mret tt);;
  into_current rec.

(** [rmm_exit]: the realm runs until the handler returns to the RMM. *)
Variable rmm_exit : Sw (list Z).

Definition enter : Sw (list Z) :=
  c ← current;
  match c with Some _ => rmm_exit | None => mret [0; 0; 0; 0] end.
Definition exit : Sw unit :=
  c ← current;
  match c with Some rec => from_current rec | None => mret tt end.
Definition run : Sw (list Z) :=
  ret ← enter;
  exit;;
  mret ret.
End run.

(** The handler of exceptions from a realm, on the context of the current REC
    ([frame] is the trap frame of the vectors). *)
Definition lower_exception (info : Info) (esr : Z) (frame : TrapFrame.t) : Sw Z := fun w =>
  let a := TPIDR_EL2 (hw w) in
  let '(r, s) := handle_lower_exception info esr (mkTrap (recs w a) frame (trap_cpu (hw w))) in
  (r, snd ((on_rec a (fun _ => ctx s);; on_trap_cpu (fun _ => cpu s)) w)).
