(* ===== verification/SwitchFacts.v ===== *)
(** * The switch between the host and a realm: theorems

    The specification: every REC owns its timers, its virtual interrupt
    controller and its floating-point registers, the host owns floating-point
    registers, and a world only ever sees what it owns. [Switch.into_current],
    [Switch.from_current] and the lazy restoration of the trap handler refine it,
    for any sequence of entries, exits, traps and changes of the registers. The
    registers q0 and q1 are left out: [restore_fpu] does not load them from the
    saved state. *)

From S2P Require Import Prelude Bits RmiTypes Objects Machine RmiRec RecEnter Trap TrapFacts Switch.

#[local] Abbreviation Sw := (M W unit).

(** ** The specification *)
Record Owned : Type := mkOwned {
  (** [None] before the first floating-point instruction *)
  o_fpu : option (list Z);
  o_timer : TimerRegister.t;
  o_lrs : list Z;
  o_ap0 : list Z;
  o_ap1 : list Z;
  o_vmcr : Z;
  o_hcr : Z
}.
Record Spec : Type := mkSpec {
  host_fpu : list Z;
  owned : Z -> Owned;
  running : option Z;
  enabled : bool
}.

(** Registers a world has in its hands: floating point, ICH_* and timers. *)
Record Bank : Type := mkBank { b_fpu : list Z; b_ich : GICRegister.t; b_cnt : TimerRegister.t }.

(** [x0] is what x0 points to when [restore_fpu] runs. *)
Inductive action : Type :=
| Host (b : Bank)
| Enter (rec : Z)
| Access (x0 : list Z) (esr : Z) (frame : TrapFrame.t)
| Realm (b : Bank)
| Leave (x0 : list Z).

Definition bank_wf (b : Bank) : Prop :=
  length (b_fpu b) = 34%nat
  /\ length (GICRegister.ich_lr_el2 (b_ich b)) = 16%nat
  /\ length (GICRegister.ich_ap0r_el2 (b_ich b)) = 4%nat
  /\ length (GICRegister.ich_ap1r_el2 (b_ich b)) = 4%nat.

(** q2 .. q31, FPSR and FPCR *)
Definition own_fpu (l : list Z) : list Z := drop 2 l.

Section facts.
Variable f : GicFeatures.
#[local] Abbreviation nl := (S (Z.to_nat (nr_lrs f))).
#[local] Abbreviation na := (S (Z.to_nat (nr_aprs f))).

(** What a REC owns after it had [t] and [g] in the registers. *)
Definition owned_of (fpu : option (list Z)) (t : TimerRegister.t) (g : GICRegister.t) : Owned :=
  mkOwned fpu t (take nl (GICRegister.ich_lr_el2 g)) (take na (GICRegister.ich_ap0r_el2 g))
    (take na (GICRegister.ich_ap1r_el2 g)) (GICRegister.ich_vmcr_el2 g) (GICRegister.ich_hcr_el2 g).

Definition set_owned (a : Z) (o : Owned) (s : Spec) : Spec :=
  mkSpec (host_fpu s) (<[a := o]> (owned s)) (running s) (enabled s).

#[local] Instance bank_wf_dec b : Decision (bank_wf b).
Proof. unfold bank_wf. apply _. Defined.
Definition is_fpu (y : Syndrome) : bool := match y with FPU => true | _ => false end.

Definition spec_step (x : action) (s : Spec) : option Spec :=
  match x, running s with
  | Host b, None =>
      if bool_decide (bank_wf b) then Some (mkSpec (own_fpu (b_fpu b)) (owned s) None (enabled s))
      else None
  | Enter a, None => if a =? 0 then None else Some (mkSpec (host_fpu s) (owned s) (Some a) false)
  | Access x0 esr frame, Some a =>
      if bool_decide (length x0 = 2%nat) && is_fpu (syndrome_of esr) && negb (enabled s)
      then Some (mkSpec (host_fpu s)
               (<[a := let o := owned s a in
                       mkOwned (Some (default (host_fpu s) (o_fpu o))) (o_timer o) (o_lrs o)
                               (o_ap0 o) (o_ap1 o) (o_vmcr o) (o_hcr o)]> (owned s))
               (Some a) true)
      else None
  | Realm b, Some a =>
      if bool_decide (bank_wf b)
      then Some (set_owned a
           (owned_of (if enabled s then Some (own_fpu (b_fpu b)) else o_fpu (owned s a))
                     (b_cnt b) (b_ich b)) s)
      else None
  | Leave x0, Some a =>
      if bool_decide (length x0 = 2%nat) then Some (mkSpec (host_fpu s) (owned s) None false) else None
  | _, _ => None
  end.

(** ** The implementation *)
Definition set_bank (fp : bool) (b : Bank) : Sw unit :=
  (if fp then on_trap_cpu (with_fpu_regs (b_fpu b)) else mret tt);;
  on_ich (fun _ => b_ich b);;
  set_cnt (b_cnt b).

Definition impl_step (x : action) : Sw unit :=
  match x with
  | Host b => set_bank true b
  | Enter a => run_prepare f a 0
  | Access x0 esr frame =>
      on_trap_cpu (with_at_x0 x0);;
      r ← lower_exception (mkInfo LowerAArch64 Synchronous) esr frame;
      if r =? RET_TO_REC then mret tt else throw tt
  | Realm b =>
      w ← get_state;
      set_bank (negb (fpu_trapped (trap_cpu (hw w)))) b
  | Leave x0 => on_trap_cpu (with_at_x0 x0);; exit f
  end.

Fixpoint spec_run (xs : list action) (s : Spec) : option Spec :=
  match xs with
  | [] => Some s
  | x :: xs => s' ← spec_step x s; spec_run xs s'
  end.

(** ** The relation between the two *)
Definition gic_wf (g : GICRegister.t) : Prop :=
  length (GICRegister.ich_lr_el2 g) = 16%nat
  /\ length (GICRegister.ich_ap0r_el2 g) = 4%nat
  /\ length (GICRegister.ich_ap1r_el2 g) = 4%nat.
Definition ctx_wf (c : Context.t) : Prop :=
  gic_wf (Context.gic_state c) /\ SimdConfig.sve_en (SimdRegister.cfg (Context.simd c)) = false.
Definition saved_fpu (c : Context.t) : option (list Z) :=
  if SimdRegister.is_saved (Context.simd c) then Some (own_fpu (SimdRegister.fpu (Context.simd c)))
  else None.
(** A REC that does not run. *)
Definition idle_ok (c : Context.t) (o : Owned) : Prop :=
  ctx_wf c
  /\ SimdRegister.is_used (Context.simd c) = false
  /\ SimdRegister.cptr_el2 (Context.simd c) = CPTR_TRAP_ALL
  /\ o = owned_of (saved_fpu c) (Context.timer c) (Context.gic_state c).
(** The REC that runs: its floating-point registers are in the CPU, or trapped. *)
Definition running_ok (w : W) (s : Spec) (a : Z) : Prop :=
  let c := recs w a in
  let regs := own_fpu (fpu_regs (trap_cpu (hw w))) in
  a <> 0 /\ TPIDR_EL2 (hw w) = a /\ ctx_wf c
  /\ own_fpu (SimdRegister.fpu (NS_SIMD (hw w))) = host_fpu s
  /\ owned s a = owned_of (if enabled s then Some regs else saved_fpu c) (cnt (hw w)) (ich (hw w))
  /\ SimdRegister.is_used (Context.simd c) = enabled s
  /\ (if enabled s then cptr (trap_cpu (hw w)) = CPTR_EL2.TAM
      else cptr (trap_cpu (hw w)) = CPTR_TRAP_ALL /\ regs = host_fpu s).
Definition refines (w : W) (s : Spec) : Prop :=
  gic_wf (ich (hw w))
  /\ (forall b, b <> 0 -> running s <> Some b -> idle_ok (recs w b) (owned s b))
  /\ match running s with
     | None => own_fpu (fpu_regs (trap_cpu (hw w))) = host_fpu s
     | Some a => running_ok w s a
     end.

(** ** Copying the first registers of an array *)
Definition copy (n : nat) (src dst : list Z) : list Z := take n src ++ drop n dst.

Lemma copy_S n v src dst :
  src !! n = Some v -> (n < length dst)%nat -> <[n := v]> (copy n src dst) = copy (S n) src dst.
Proof.
  intros Hv Hd. unfold copy. pose proof (lookup_lt_Some _ _ _ Hv) as Hl.
  rewrite insert_app_r_alt by (rewrite length_take; lia). rewrite length_take_le by lia.
  rewrite Nat.sub_diag. destruct (lookup_lt_is_Some_2 dst n Hd) as [d Ed].
  rewrite (drop_S _ _ _ Ed). cbn [list_insert insert]. rewrite (take_S_r _ _ _ Hv).
  by rewrite <- app_assoc.
Qed.
Lemma copy_0 src dst : copy 0 src dst = dst.
Proof. done. Qed.
Lemma length_copy n src dst : (n <= length src)%nat -> length src = length dst -> length (copy n src dst) = length dst.
Proof. intros H1 H2. unfold copy. rewrite length_app, length_take_le, length_drop by done. lia. Qed.
Lemma take_copy n src dst : (n <= length src)%nat -> take n (copy n src dst) = take n src.
Proof. intros H. unfold copy. apply take_app_length'. by rewrite length_take_le. Qed.

Lemma for_range_steps (I : nat -> W -> Prop) (body : Z -> Sw unit) n k w :
  I k w ->
  (forall i w, (k <= i < k + n)%nat -> I i w -> exists w', body (Z.of_nat i) w = (Ok tt, w') /\ I (S i) w') ->
  exists w', for_range n (Z.of_nat k) body w = (Ok tt, w') /\ I (k + n)%nat w'.
Proof.
  revert k w. induction n as [|n IH]; intros k w H0 Hs; cbn [for_range].
  - exists w. split; [done|]. by rewrite Nat.add_0_r.
  - destruct (Hs k w) as (w1 & E1 & H1); [lia|done|]. rewrite (bind_ok _ _ _ _ _ E1).
    replace (Z.of_nat k + 1)%Z with (Z.of_nat (S k)) by lia.
    destruct (IH (S k) w1 H1) as (w' & E' & H'); [intros i v Hi; apply Hs; lia|].
    exists w'. split; [done|]. by replace (k + S n)%nat with (S k + n)%nat by lia.
Qed.

Lemma at_index_run l i w v : l !! i = Some v -> at_index l (Z.of_nat i) w = (Ok v, w).
Proof. intros H. unfold at_index, lift. by rewrite Nat2Z.id, H. Qed.
Lemma put_index_ok l i v : (i < length l)%nat -> put_index l (Z.of_nat i) v = Ok (<[i := v]> l).
Proof. intros H. unfold put_index. rewrite Nat2Z.id. by rewrite (proj2 (Nat.ltb_lt _ _) H). Qed.

(** ** The interrupt controller *)
Hypothesis Hlrs : 0 <= nr_lrs f <= 15.
Hypothesis Haprs : 0 <= nr_aprs f <= 3.

Definition with_ich (g : GICRegister.t) (w : W) : W :=
  mkW (recs w) (mkHw (TPIDR_EL2 (hw w)) g (cnt (hw w)) (trap_cpu (hw w)) (ZCR_EL2 (hw w))
                     (ZCR_EL1 (hw w)) (NS_SIMD (hw w))).
(** The registers [g] after the first ones were copied from [src]. *)
Definition gic_copy (n m : nat) (src g : GICRegister.t) : GICRegister.t :=
  GICRegister.mk (copy m (GICRegister.ich_ap0r_el2 src) (GICRegister.ich_ap0r_el2 g))
    (copy m (GICRegister.ich_ap1r_el2 src) (GICRegister.ich_ap1r_el2 g))
    (GICRegister.ich_vmcr_el2 g) (GICRegister.ich_hcr_el2 g)
    (copy n (GICRegister.ich_lr_el2 src) (GICRegister.ich_lr_el2 g)) (GICRegister.ich_misr_el2 g).

Lemma gic_copy_0 src g : gic_copy 0 0 src g = g.
Proof. by destruct g. Qed.
Lemma with_ich_same w : with_ich (ich (hw w)) w = w.
Proof. by destruct w as [? []]. Qed.

Lemma gic_restore_run a w :
  gic_wf (Context.gic_state (recs w a)) -> gic_wf (ich (hw w)) ->
  gic_restore_state f a w
  = (Ok tt, with_ich (GICRegister.with_ich_hcr_el2 (GICRegister.ich_hcr_el2 (Context.gic_state (recs w a)))
       (GICRegister.with_ich_vmcr_el2 (GICRegister.ich_vmcr_el2 (Context.gic_state (recs w a)))
          (gic_copy nl na (Context.gic_state (recs w a)) (ich (hw w))))) w).
Proof.
  set (src := Context.gic_state (recs w a)). set (g := ich (hw w)).
  intros (S1 & S2 & S3) (D1 & D2 & D3). unfold gic_restore_state. mstep. fold src.
  destruct (for_range_steps (fun i v => v = with_ich (gic_copy i 0 src g) w)
    (fun i => v ← at_index (GICRegister.ich_lr_el2 src) i; set_lr i v) nl 0 w) as (w1 & E1 & ->).
  { rewrite gic_copy_0. symmetry. apply with_ich_same. }
  { intros i v Hi ->. destruct (lookup_lt_is_Some_2 (GICRegister.ich_lr_el2 src) i) as [x Ex]; [lia|].
    rewrite (bind_ok _ _ _ _ _ (at_index_run _ _ _ _ Ex)). eexists. split; [reflexivity|].
    unfold with_ich, gic_copy, GICRegister.with_ich_lr_el2. cbn.
    rewrite Nat2Z.id, (copy_S _ x) by (done || lia). reflexivity. }
  rewrite (bind_ok _ _ _ _ _ E1).
  destruct (for_range_steps (fun i v => v = with_ich (gic_copy nl i src g) w)
    (fun i => v ← at_index (GICRegister.ich_ap0r_el2 src) i; set_ap0r i v;;
              v ← at_index (GICRegister.ich_ap1r_el2 src) i; set_ap1r i v) na 0
    (with_ich (gic_copy nl 0 src g) w)) as (w2 & E2 & ->).
  { done. }
  { intros i v Hi ->. destruct (lookup_lt_is_Some_2 (GICRegister.ich_ap0r_el2 src) i) as [x Ex]; [lia|].
    destruct (lookup_lt_is_Some_2 (GICRegister.ich_ap1r_el2 src) i) as [y Ey]; [lia|].
    rewrite (bind_ok _ _ _ _ _ (at_index_run _ _ _ _ Ex)). unfold set_ap0r, set_ap1r, on_ich, on_hw. mstep.
    rewrite (bind_ok _ _ _ _ _ (at_index_run _ _ _ _ Ey)). eexists. split; [reflexivity|].
    unfold with_ich, gic_copy, GICRegister.with_ich_ap0r_el2, GICRegister.with_ich_ap1r_el2. cbn.
    rewrite Nat2Z.id, (copy_S _ x), (copy_S _ y) by (done || lia). reflexivity. }
  rewrite (bind_ok _ _ _ _ _ E2). reflexivity.
Qed.

(** [w'] is [w] with the context [c] of the REC [a] and the CPU [h]. *)
Definition became (w : W) (a : Z) (c : Context.t) (h : Hw) (w' : W) : Prop :=
  recs w' a = c /\ hw w' = h /\ forall b, b <> a -> recs w' b = recs w b.

Lemma became_refl w a : became w a (recs w a) (hw w) w.
Proof. done. Qed.
Lemma on_rec_became a g w c h w1 :
  became w a c h w1 -> exists w2, on_rec a g w1 = (Ok tt, w2) /\ became w a (g c) h w2.
Proof.
  intros (Hc & Hh & Ho). eexists. split; [reflexivity|]. split; [|split; [done|]]; cbn [recs].
  - by rewrite fn_lookup_insert, Hc.
  - intros b Hb. rewrite fn_lookup_insert_ne by done. by apply Ho.
Qed.
Lemma on_hw_became a g w c h w1 :
  became w a c h w1 -> exists w2, on_hw g w1 = (Ok tt, w2) /\ became w a c (g h) w2.
Proof. intros (Hc & Hh & Ho). eexists. split; [reflexivity|]. split; [done|]. split; [cbn; by rewrite Hh|done]. Qed.

Lemma on_ich_became a g w c h w1 :
  became w a c h w1 -> exists w2, on_ich g w1 = (Ok tt, w2)
    /\ became w a c (mkHw (TPIDR_EL2 h) (g (ich h)) (cnt h) (trap_cpu h) (ZCR_EL2 h) (ZCR_EL1 h) (NS_SIMD h)) w2.
Proof.
  apply (on_hw_became a (fun h => mkHw (TPIDR_EL2 h) (g (ich h)) (cnt h) (trap_cpu h) (ZCR_EL2 h) (ZCR_EL1 h)
    (NS_SIMD h))).
Qed.
Lemma on_gic_became a g w c h w1 :
  became w a c h w1 -> exists w2, on_gic a g w1 = (Ok tt, w2)
    /\ became w a (Context.with_gic_state (g (Context.gic_state c)) c) h w2.
Proof. apply (on_rec_became a (fun c => Context.with_gic_state (g (Context.gic_state c)) c)). Qed.

(** [self.gic_state.array[i] = v] for each of the arrays. *)
Lemma put_lr_run a i v w c h w1 :
  became w a c h w1 -> (i < length (GICRegister.ich_lr_el2 (Context.gic_state c)))%nat ->
  exists w2, put_lr a (Z.of_nat i) v w1 = (Ok tt, w2)
    /\ became w a (Context.with_gic_state (GICRegister.with_ich_lr_el2
         (<[i := v]> (GICRegister.ich_lr_el2 (Context.gic_state c))) (Context.gic_state c)) c) h w2.
Proof.
  intros Hb Hi. unfold put_lr. mstep. rewrite (proj1 Hb), put_index_ok by done. mstep.
  by apply (on_gic_became a (GICRegister.with_ich_lr_el2 _)).
Qed.
Lemma put_ap0r_run a i v w c h w1 :
  became w a c h w1 -> (i < length (GICRegister.ich_ap0r_el2 (Context.gic_state c)))%nat ->
  exists w2, put_ap0r a (Z.of_nat i) v w1 = (Ok tt, w2)
    /\ became w a (Context.with_gic_state (GICRegister.with_ich_ap0r_el2
         (<[i := v]> (GICRegister.ich_ap0r_el2 (Context.gic_state c))) (Context.gic_state c)) c) h w2.
Proof.
  intros Hb Hi. unfold put_ap0r. mstep. rewrite (proj1 Hb), put_index_ok by done. mstep.
  by apply (on_gic_became a (GICRegister.with_ich_ap0r_el2 _)).
Qed.
Lemma put_ap1r_run a i v w c h w1 :
  became w a c h w1 -> (i < length (GICRegister.ich_ap1r_el2 (Context.gic_state c)))%nat ->
  exists w2, put_ap1r a (Z.of_nat i) v w1 = (Ok tt, w2)
    /\ became w a (Context.with_gic_state (GICRegister.with_ich_ap1r_el2
         (<[i := v]> (GICRegister.ich_ap1r_el2 (Context.gic_state c))) (Context.gic_state c)) c) h w2.
Proof.
  intros Hb Hi. unfold put_ap1r. mstep. rewrite (proj1 Hb), put_index_ok by done. mstep.
  by apply (on_gic_became a (GICRegister.with_ich_ap1r_el2 _)).
Qed.

Lemma gic_save_run a w c h w1 :
  became w a c h w1 -> gic_wf (Context.gic_state c) -> gic_wf (ich h) ->
  let g := ich h in
  exists w2, gic_save_state f a w1 = (Ok tt, w2)
    /\ became w a
         (Context.with_gic_state (GICRegister.with_ich_misr_el2 (GICRegister.ich_misr_el2 g)
           (GICRegister.with_ich_hcr_el2 (GICRegister.ich_hcr_el2 g)
             (GICRegister.with_ich_vmcr_el2 (GICRegister.ich_vmcr_el2 g)
               (gic_copy nl na g (Context.gic_state c))))) c)
         (mkHw (TPIDR_EL2 h)
            (GICRegister.with_ich_hcr_el2 (Z.land (GICRegister.ich_hcr_el2 g) (Word.not ICH_HCR_EL2.En)) g)
            (cnt h) (trap_cpu h) (ZCR_EL2 h) (ZCR_EL1 h) (NS_SIMD h)) w2.
Proof.
  set (src := ich h). set (d := Context.gic_state c).
  intros Hb (S1 & S2 & S3) (D1 & D2 & D3) g. unfold gic_save_state.
  destruct (for_range_steps (fun i v => became w a (Context.with_gic_state (gic_copy i 0 src d) c) h v)
    (fun i => v ← get_lr i; put_lr a i v) nl 0 w1) as (w2 & E1 & H1).
  { rewrite gic_copy_0. by destruct c. }
  { intros i v Hi Hv. destruct (lookup_lt_is_Some_2 (GICRegister.ich_lr_el2 src) i) as [x Ex]; [lia|].
    unfold get_lr. mstep. rewrite (proj1 (proj2 Hv)), (bind_ok _ _ _ _ _ (at_index_run _ _ _ _ Ex)).
    destruct (put_lr_run a i x _ _ _ _ Hv) as (w2 & -> & H2).
    { cbn. rewrite length_copy by lia. lia. }
    exists w2. split; [done|]. cbn in H2. by rewrite (copy_S _ x) in H2 by (done || lia). }
  rewrite (bind_ok _ _ _ _ _ E1). clear E1.
  destruct (for_range_steps (fun i v => became w a (Context.with_gic_state (gic_copy nl i src d) c) h v)
    (fun i => v ← get_ap0r i; put_ap0r a i v;; v ← get_ap1r i; put_ap1r a i v) na 0 w2) as (w3 & E2 & H2).
  { done. }
  { intros i v Hi Hv. destruct (lookup_lt_is_Some_2 (GICRegister.ich_ap0r_el2 src) i) as [x Ex]; [lia|].
    destruct (lookup_lt_is_Some_2 (GICRegister.ich_ap1r_el2 src) i) as [y Ey]; [lia|].
    unfold get_ap0r, get_ap1r. mstep.
    rewrite (proj1 (proj2 Hv)), (bind_ok _ _ _ _ _ (at_index_run _ _ _ _ Ex)).
    destruct (put_ap0r_run a i x _ _ _ _ Hv) as (v1 & E1 & H2).
    { cbn. rewrite length_copy by lia. lia. }
    rewrite (bind_ok _ _ _ _ _ E1). mstep.
    rewrite (proj1 (proj2 H2)), (bind_ok _ _ _ _ _ (at_index_run _ _ _ _ Ey)).
    destruct (put_ap1r_run a i y _ _ _ _ H2) as (v2 & -> & H3).
    { cbn. rewrite length_copy by lia. lia. }
    exists v2. split; [done|]. cbn in H3. by rewrite (copy_S _ x), (copy_S _ y) in H3 by (done || lia). }
  rewrite (bind_ok _ _ _ _ _ E2). mstep. rewrite (proj1 (proj2 H2)). clear E2.
  destruct (on_gic_became a (GICRegister.with_ich_vmcr_el2 (GICRegister.ich_vmcr_el2 src)) _ _ _ _ H2)
    as (w4 & E4 & H4). rewrite (bind_ok _ _ _ _ _ E4).
  destruct (on_gic_became a (GICRegister.with_ich_hcr_el2 (GICRegister.ich_hcr_el2 src)) _ _ _ _ H4)
    as (w5 & E5 & H5). rewrite (bind_ok _ _ _ _ _ E5).
  destruct (on_gic_became a (GICRegister.with_ich_misr_el2 (GICRegister.ich_misr_el2 src)) _ _ _ _ H5)
    as (w6 & E6 & H6). rewrite (bind_ok _ _ _ _ _ E6).
  by apply (on_ich_became a (GICRegister.with_ich_hcr_el2 _) _ _ _ _ H6).
Qed.

(** ** The floating-point registers *)
Definition set_trap_cpu (c : Cpu) (h : Hw) : Hw :=
  mkHw (TPIDR_EL2 h) (ich h) (cnt h) c (ZCR_EL2 h) (ZCR_EL1 h) (NS_SIMD h).
Definition set_simd (s : SimdRegister.t) (c : Context.t) : Context.t := Context.with_simd s c.

Lemma on_trap_cpu_became a g w c h w1 :
  became w a c h w1 -> exists w2, on_trap_cpu g w1 = (Ok tt, w2)
    /\ became w a c (set_trap_cpu (g (trap_cpu h)) h) w2.
Proof. apply (on_hw_became a (fun h => set_trap_cpu (g (trap_cpu h)) h)). Qed.
Lemma on_simd_became a g w c h w1 :
  became w a c h w1 -> exists w2, on_simd a g w1 = (Ok tt, w2)
    /\ became w a (set_simd (g (Context.simd c)) c) h w2.
Proof. apply (on_rec_became a (fun c => set_simd (g (Context.simd c)) c)). Qed.

Lemma tam_not_trapped c : fpu_trapped (with_cptr CPTR_EL2.TAM c) = false.
Proof. reflexivity. Qed.

(** The registers of a REC when it leaves: saved if it used them. *)
Definition left_simd (regs : list Z) (s : SimdRegister.t) : SimdRegister.t :=
  SimdRegister.with_cptr_el2 CPTR_TRAP_ALL (SimdRegister.with_is_used false
    (if SimdRegister.is_used s
     then SimdRegister.with_is_saved true (SimdRegister.with_fpu regs s) else s)).

Lemma simd_save_run a w c h w1 :
  became w a c h w1 -> SimdConfig.sve_en (SimdRegister.cfg (Context.simd c)) = false ->
  exists w2, simd_save_state a w1 = (Ok tt, w2)
    /\ became w a (set_simd (left_simd (fpu_regs (trap_cpu h)) (Context.simd c)) c)
         (set_trap_cpu (with_cptr (SimdRegister.cptr_el2 (NS_SIMD h))
           (restore_fpu (SimdRegister.fpu (NS_SIMD h)) (with_cptr CPTR_EL2.TAM (trap_cpu h)))) h) w2.
Proof.
  intros Hb Hs. unfold simd_save_state. mstep. rewrite (proj1 Hb), (proj1 (proj2 Hb)), Hs.
  destruct (on_trap_cpu_became a (with_cptr CPTR_EL2.TAM) _ _ _ _ Hb) as (w2 & E2 & H2).
  unfold CPTR_EL2_write at 1. rewrite (bind_ok _ _ _ _ _ E2). mstep.
  set (h2 := set_trap_cpu (with_cptr CPTR_EL2.TAM (trap_cpu h)) h) in *.
  assert (exists w3, (if SimdRegister.is_used (Context.simd c) then
      fpu ← save_fpu; on_simd a (SimdRegister.with_fpu fpu);; on_simd a (SimdRegister.with_is_saved true)
      else mret tt) w2 = (Ok tt, w3)
    /\ became w a (set_simd (if SimdRegister.is_used (Context.simd c) then
         SimdRegister.with_is_saved true (SimdRegister.with_fpu (fpu_regs (trap_cpu h)) (Context.simd c))
         else Context.simd c) c) h2 w3) as (w3 & E3 & H3).
  { destruct (SimdRegister.is_used (Context.simd c)); [|exists w2; split; [done|by destruct c]].
    unfold save_fpu. mstep. rewrite (proj1 (proj2 H2)). cbn [trap_cpu set_trap_cpu h2].
    rewrite tam_not_trapped. mstep.
    destruct (on_simd_became a (SimdRegister.with_fpu (fpu_regs (trap_cpu h))) _ _ _ _ H2) as (v & Ev & Hv).
    rewrite (bind_ok _ _ _ _ _ Ev).
    by apply (on_simd_became a (SimdRegister.with_is_saved true) _ _ _ _ Hv). }
  rewrite (bind_ok _ _ _ _ _ E3). mstep. unfold restore_ns_fpu. mstep.
  rewrite (proj1 (proj2 H3)). cbn [trap_cpu set_trap_cpu h2]. rewrite tam_not_trapped.
  destruct (on_trap_cpu_became a (restore_fpu (SimdRegister.fpu (NS_SIMD h))) _ _ _ _ H3) as (w4 & E4 & H4).
  rewrite (bind_ok _ _ _ _ _ E4).
  destruct (on_simd_became a (SimdRegister.with_is_used false) _ _ _ _ H4) as (w5 & E5 & H5).
  rewrite (bind_ok _ _ _ _ _ E5).
  destruct (on_simd_became a (SimdRegister.with_cptr_el2 CPTR_TRAP_ALL) _ _ _ _ H5) as (w6 & E6 & H6).
  rewrite (bind_ok _ _ _ _ _ E6).
  by apply (on_trap_cpu_became a (with_cptr (SimdRegister.cptr_el2 (NS_SIMD h))) _ _ _ _ H6).
Qed.

(** ** The four steps *)
Lemma owned_of_copy fpu t g g' :
  gic_wf g -> gic_wf g' ->
  owned_of fpu t (GICRegister.with_ich_hcr_el2 (GICRegister.ich_hcr_el2 g)
    (GICRegister.with_ich_vmcr_el2 (GICRegister.ich_vmcr_el2 g) (gic_copy nl na g g'))) = owned_of fpu t g.
Proof.
  intros (S1 & S2 & S3) (D1 & D2 & D3). unfold owned_of. cbn. by rewrite !take_copy by lia.
Qed.
Lemma gic_copy_wf g g' : gic_wf g -> gic_wf g' -> gic_wf (gic_copy nl na g g').
Proof.
  intros (S1 & S2 & S3) (D1 & D2 & D3). unfold gic_wf. cbn. by rewrite !length_copy by lia.
Qed.

(** The hardware with the timers [t] *)
Definition set_timers (t : TimerRegister.t) (h : Hw) : Hw :=
  mkHw (TPIDR_EL2 h) (ich h) t (trap_cpu h) (ZCR_EL2 h) (ZCR_EL1 h) (NS_SIMD h).

(** A step on the timers, and what follows *)
Lemma on_cnt_step a g k w c h w1 (Q : W -> Prop) :
  became w a c h w1 ->
  (forall w2, became w a c (set_timers (g (cnt h)) h) w2 -> exists w3, k w2 = (Ok tt, w3) /\ Q w3) ->
  exists w3, (on_cnt g;; k) w1 = (Ok tt, w3) /\ Q w3.
Proof.
  intros (H1 & H2 & H3) Hk.
  destruct (Hk (mkW (recs w1) (set_timers (g (cnt h)) h))) as (w3 & E & Hq); [done|].
  exists w3. split; [|done]. rewrite <- E. rewrite <- H2. reflexivity.
Qed.
Lemma on_timer_step a g k w c h w1 (Q : W -> Prop) :
  became w a c h w1 ->
  (forall w2, became w a (Context.with_timer (g (Context.timer c)) c) h w2 -> exists w3, k w2 = (Ok tt, w3) /\ Q w3) ->
  exists w3, (on_timer a g;; k) w1 = (Ok tt, w3) /\ Q w3.
Proof.
  intros Hb Hk.
  destruct (on_rec_became a (fun c => Context.with_timer (g (Context.timer c)) c) _ _ _ _ Hb) as (w2 & E2 & B2).
  destruct (Hk w2 B2) as (w3 & E3 & Hq). exists w3. split; [|done]. by rewrite (bind_ok _ _ _ _ w2 E2).
Qed.

Lemma bind_mret_r {A} (m : M W unit A) w : (x ← m; mret x) w = m w.
Proof. unfold mbind, M_bind, mret, M_ret. by destruct (m w) as [[]]. Qed.

Lemma timer_restore_run a w c h w1 :
  became w a c h w1 -> exists w2, timer_restore_state a w1 = (Ok tt, w2)
    /\ became w a c (set_timers (Context.timer c) h) w2.
Proof.
  intros Hb. unfold timer_restore_state. rewrite bind_get_state, (proj1 Hb). destruct (Context.timer c) as [t1 t2 t3 t4 t5 t6 t7].
  do 6 (eapply on_cnt_step; [eassumption|clear w1 Hb; intros w1 Hb]).
  rewrite <- bind_mret_r. eapply on_cnt_step; [exact Hb|]. intros w2 B. exists w2. by split.
Qed.

Lemma timer_save_run a w c h w1 :
  became w a c h w1 -> exists w2, timer_save_state a w1 = (Ok tt, w2)
    /\ became w a (Context.with_timer (cnt h) c) h w2.
Proof.
  intros Hb. unfold timer_save_state. rewrite bind_get_state, (proj1 (proj2 Hb)). generalize (cnt h) as t. intros [t1 t2 t3 t4 t5 t6 t7].
  do 6 (eapply on_timer_step; [eassumption|clear w1 Hb; intros w1 Hb]).
  rewrite <- bind_mret_r. eapply on_timer_step; [exact Hb|]. intros w2 B. exists w2. by split.
Qed.
Lemma on_ns_simd_became a g w c h w1 :
  became w a c h w1 -> exists w2, on_ns_simd g w1 = (Ok tt, w2)
    /\ became w a c (mkHw (TPIDR_EL2 h) (ich h) (cnt h) (trap_cpu h) (ZCR_EL2 h) (ZCR_EL1 h)
         (g (NS_SIMD h))) w2.
Proof.
  apply (on_hw_became a (fun h => mkHw (TPIDR_EL2 h) (ich h) (cnt h) (trap_cpu h) (ZCR_EL2 h) (ZCR_EL1 h)
    (g (NS_SIMD h)))).
Qed.

(** The CPU when a REC has been entered: the host's registers are saved. *)
Definition entered_hw (s : SimdRegister.t) (h : Hw) : Hw :=
  mkHw (TPIDR_EL2 h) (ich h) (cnt h)
    (with_cptr (SimdRegister.cptr_el2 s) (with_cptr CPTR_EL2.TAM (trap_cpu h)))
    (ZCR_EL2 h) (ZCR_EL1 h)
    (SimdRegister.with_cptr_el2 CPTR_EL2.TAM
       (SimdRegister.with_fpu (fpu_regs (trap_cpu h)) (NS_SIMD h))).

Lemma simd_restore_run a w c h w1 :
  became w a c h w1 -> SimdConfig.sve_en (SimdRegister.cfg (Context.simd c)) = false ->
  exists w2, simd_restore_state a w1 = (Ok tt, w2)
    /\ became w a c (entered_hw (Context.simd c) h) w2.
Proof.
  intros Hb Hs. unfold simd_restore_state, CPTR_EL2_write. mstep. rewrite (proj1 Hb), Hs.
  destruct (on_trap_cpu_became a (with_cptr CPTR_EL2.TAM) _ _ _ _ Hb) as (w2 & E2 & H2).
  rewrite (bind_ok _ _ _ _ _ E2). mstep. unfold save_fpu. mstep. rewrite (proj1 (proj2 H2)).
  cbn [trap_cpu set_trap_cpu]. rewrite tam_not_trapped. mstep.
  destruct (on_ns_simd_became a (SimdRegister.with_fpu (fpu_regs (trap_cpu h))) _ _ _ _ H2) as (w3 & E3 & H3).
  cbn [fpu_regs with_cptr]. rewrite (bind_ok _ _ _ _ _ E3). mstep. rewrite (proj1 (proj2 H3)).
  cbn [trap_cpu cptr with_cptr set_trap_cpu].
  destruct (on_ns_simd_became a (SimdRegister.with_cptr_el2 CPTR_EL2.TAM) _ _ _ _ H3) as (w4 & E4 & H4).
  rewrite (bind_ok _ _ _ _ _ E4).
  by apply (on_trap_cpu_became a (with_cptr (SimdRegister.cptr_el2 (Context.simd c))) _ _ _ _ H4).
Qed.

(** What the ICH_* registers hold when a REC with [src] has been entered. *)
Definition entered_ich (src g : GICRegister.t) : GICRegister.t :=
  GICRegister.with_ich_hcr_el2 (GICRegister.ich_hcr_el2 src)
    (GICRegister.with_ich_vmcr_el2 (GICRegister.ich_vmcr_el2 src) (gic_copy nl na src g)).

Lemma into_current_run a w :
  ctx_wf (recs w a) -> gic_wf (ich (hw w)) ->
  exists w2, into_current f a w = (Ok tt, w2)
    /\ became w a (recs w a)
         (entered_hw (Context.simd (recs w a))
           (mkHw a (entered_ich (Context.gic_state (recs w a)) (ich (hw w))) (Context.timer (recs w a))
              (trap_cpu (hw w)) (ZCR_EL2 (hw w)) (ZCR_EL1 (hw w)) (NS_SIMD (hw w)))) w2.
Proof.
  intros [Hc Hs] Hg. unfold into_current, set_TPIDR_EL2.
  edestruct (on_hw_became a) as (w1 & E1 & H1); [apply became_refl|].
  rewrite (bind_ok _ _ _ _ _ E1).
  erewrite bind_ok by (apply gic_restore_run; [rewrite (proj1 H1); exact Hc|rewrite (proj1 (proj2 H1)); exact Hg]).
  rewrite (proj1 H1), (proj1 (proj2 H1)).
  set (v := with_ich _ w1).
  assert (became w a (recs w a)
    (mkHw a (entered_ich (Context.gic_state (recs w a)) (ich (hw w))) (cnt (hw w))
       (trap_cpu (hw w)) (ZCR_EL2 (hw w)) (ZCR_EL1 (hw w)) (NS_SIMD (hw w))) v) as Hv.
  { destruct H1 as (K1 & K2 & K3). split; [exact K1|]. split; [|exact K3]. subst v. unfold with_ich.
    cbn [hw]. by rewrite K2. }
  clearbody v. clear w1 E1 H1.
  destruct (timer_restore_run a _ _ _ _ Hv) as (w2 & E2 & H2).
  rewrite (bind_ok _ _ _ _ _ E2). apply (simd_restore_run a _ _ _ _ H2 Hs).
Qed.

Lemma enter_refines a w s :
  refines w s -> running s = None -> a <> 0 ->
  exists w', impl_step (Enter a) w = (Ok tt, w')
    /\ refines w' (mkSpec (host_fpu s) (owned s) (Some a) false).
Proof.
  intros (Hg & Hi & Hm) Hr Ha. rewrite Hr in Hm.
  destruct (Hi a Ha) as (Hw & Hu & Hp & Ho); [by rewrite Hr|].
  cbn [impl_step]. unfold run_prepare. change (0 =? 1) with false. cbv iota. mstep.
  destruct (into_current_run a w Hw Hg) as (w' & -> & (H1 & H2 & H3)).
  exists w'. split; [done|]. destruct Hw as [Hc Hs]. unfold refines, running_ok. cbn [running]. rewrite H1, H2.
  cbn [owned host_fpu enabled TPIDR_EL2 ich cnt trap_cpu NS_SIMD entered_hw].
  split; [apply (gic_copy_wf _ _ Hc Hg)|]. split.
  - intros b Hb Hn. rewrite H3 by congruence. apply Hi; [done|by rewrite Hr].
  - split; [done|]. split; [done|]. split; [done|]. split; [exact Hm|].
    split; [rewrite Ho; symmetry; apply (owned_of_copy _ _ _ _ Hc Hg)|]. split; [exact Hu|].
    split; [exact Hp|exact Hm].
Qed.

Lemma leave_refines x0 a w s :
  refines w s -> running s = Some a -> length x0 = 2%nat ->
  exists w', impl_step (Leave x0) w = (Ok tt, w')
    /\ refines w' (mkSpec (host_fpu s) (owned s) None false).
Proof.
  intros (Hg & Hi & Hm) Hr Hx. rewrite Hr in Hm.
  destruct Hm as (Ha & Ht & (Hc & Hs) & Hh & Ho & Hu & Hp).
  cbn [impl_step].
  destruct (on_trap_cpu_became a (with_at_x0 x0) _ _ _ _ (became_refl w a)) as (w1 & E1 & H1).
  rewrite (bind_ok _ _ _ _ _ E1). unfold exit, current. mstep.
  rewrite (proj1 (proj2 H1)). cbn [TPIDR_EL2 set_trap_cpu]. rewrite Ht, (proj2 (Z.eqb_neq _ _) Ha).
  unfold from_current.
  destruct (gic_save_run a _ _ _ _ H1 Hc Hg) as (w2 & E2 & H2). rewrite (bind_ok _ _ _ _ _ E2).
  destruct (timer_save_run a _ _ _ _ H2) as (w3 & E3 & H3). rewrite (bind_ok _ _ _ _ _ E3).
  destruct (simd_save_run a _ _ _ _ H3 Hs) as (w4 & -> & (H4 & H5 & H6)).
  exists w4. split; [done|]. unfold refines. cbn [running host_fpu owned]. rewrite H5.
  split; [by destruct Hg|split].
  - intros b Hb _. destruct (decide (b = a)) as [->|Hn].
    + rewrite H4. cbn [set_trap_cpu trap_cpu fpu_regs with_at_x0 Context.simd Context.with_timer
        Context.with_gic_state]. split; [split; [apply (gic_copy_wf _ _ Hg Hc)|]|].
      { unfold left_simd. cbn. rewrite Hu. by destruct (enabled s). }
      split; [done|]. split; [done|]. rewrite Ho.
      etransitivity; [|symmetry; apply (owned_of_copy _ _ _ _ Hg Hc)].
      unfold saved_fpu, left_simd. cbn. rewrite Hu. by destruct (enabled s).
    + rewrite H6 by done. apply Hi; [done|]. rewrite Hr. congruence.
  - rewrite <- Hh. unfold own_fpu. cbn. by rewrite <- Hx, drop_app_length.
Qed.

Lemma set_bank_run fp b w :
  set_bank fp b w
  = (Ok tt, mkW (recs w) (mkHw (TPIDR_EL2 (hw w)) (b_ich b) (b_cnt b)
      (if fp then with_fpu_regs (b_fpu b) (trap_cpu (hw w)) else trap_cpu (hw w))
      (ZCR_EL2 (hw w)) (ZCR_EL1 (hw w)) (NS_SIMD (hw w)))).
Proof. by destruct fp. Qed.

Lemma host_refines b w s :
  refines w s -> running s = None -> bank_wf b ->
  exists w', impl_step (Host b) w = (Ok tt, w')
    /\ refines w' (mkSpec (own_fpu (b_fpu b)) (owned s) None (enabled s)).
Proof.
  intros (Hg & Hi & Hm) Hr (_ & Hb). cbn [impl_step]. rewrite set_bank_run. eexists. split; [done|].
  split; [exact Hb|]. split; [|done]. intros c Hc _. apply Hi; [done|]. by rewrite Hr.
Qed.

Lemma realm_refines b a w s :
  refines w s -> running s = Some a -> bank_wf b ->
  exists w', impl_step (Realm b) w = (Ok tt, w')
    /\ refines w' (set_owned a
         (owned_of (if enabled s then Some (own_fpu (b_fpu b)) else o_fpu (owned s a))
                   (b_cnt b) (b_ich b)) s).
Proof.
  intros (Hg & Hi & Hm) Hr (_ & Hb). rewrite Hr in Hm.
  destruct Hm as (Ha & Ht & Hc & Hh & Ho & Hu & Hp).
  cbn [impl_step]. mstep. rewrite set_bank_run. eexists. split; [done|].
  split; [exact Hb|]. split.
  - cbn [running set_owned owned recs]. intros c Hc0 Hn. rewrite Hr in Hn.
    rewrite fn_lookup_insert_ne by congruence. apply Hi; [done|]. by rewrite Hr.
  - cbn [running set_owned]. rewrite Hr. unfold running_ok.
    cbn [recs hw trap_cpu TPIDR_EL2 NS_SIMD host_fpu owned enabled ich cnt set_owned].
    rewrite fn_lookup_insert, Ho. split_and!; try done; destruct (enabled s).
    + unfold fpu_trapped. by rewrite Hp.
    + done.
    + unfold fpu_trapped. by rewrite Hp.
    + unfold fpu_trapped. by rewrite (proj1 Hp).
Qed.

Lemma handle_simd_fpu esr (t : Trap) :
  handle_simd esr FPU t
  = (Ok RET_TO_REC,
     mkTrap (set_simd (SimdRegister.with_is_used true (Context.simd (ctx t))) (ctx t)) (tf t)
       (if SimdRegister.is_saved (Context.simd (ctx t))
        then restore_fpu (SimdRegister.fpu (Context.simd (ctx t))) (with_cptr CPTR_EL2.TAM (cpu t))
        else with_cptr CPTR_EL2.TAM (cpu t))).
Proof. unfold handle_simd, on_cpu, on_ctx. mstep. by destruct (SimdRegister.is_saved _). Qed.

Lemma access_refines x0 esr frame a w s :
  refines w s -> running s = Some a -> length x0 = 2%nat -> syndrome_of esr = FPU -> enabled s = false ->
  exists w', impl_step (Access x0 esr frame) w = (Ok tt, w')
    /\ refines w' (mkSpec (host_fpu s)
         (<[a := let o := owned s a in
                 mkOwned (Some (default (host_fpu s) (o_fpu o))) (o_timer o) (o_lrs o)
                         (o_ap0 o) (o_ap1 o) (o_vmcr o) (o_hcr o)]> (owned s)) (Some a) true).
Proof.
  intros (Hg & Hi & Hm) Hr Hx He Hn. rewrite Hr in Hm.
  destruct Hm as (Ha & Ht & (Hc & Hs) & Hh & Ho & Hu & Hp). rewrite Hn in Ho, Hu, Hp.
  destruct Hp as [Hp Hq]. cbn [impl_step].
  destruct (on_trap_cpu_became a (with_at_x0 x0) _ _ _ _ (became_refl w a)) as (w1 & E1 & H1).
  rewrite (bind_ok _ _ _ _ _ E1). unfold mbind, M_bind, lower_exception.
  rewrite (proj1 (proj2 H1)). cbn [TPIDR_EL2 set_trap_cpu trap_cpu]. rewrite Ht, (proj1 H1).
  unfold handle_lower_exception. mstep. cbn [kind]. rewrite He, handle_simd_fpu. cbn [Z.eqb RET_TO_REC].
  eexists. split; [reflexivity|]. cbn [ctx cpu snd].
  set (c' := set_simd (SimdRegister.with_is_used true (Context.simd (recs w a))) (recs w a)).
  set (k := if SimdRegister.is_saved _ then _ else _).
  destruct (on_rec_became a (fun _ => c') _ _ _ _ H1) as (w2 & E2 & H2).
  destruct (on_trap_cpu_became a (fun _ => k) _ _ _ _ H2) as (w3 & E3 & (H3 & H4 & H5)).
  change (_ w1) with ((on_rec a (fun _ => c');; on_trap_cpu (fun _ => k)) w1).
  rewrite (bind_ok _ _ _ _ _ E2), E3. cbn [snd]. unfold refines, running_ok.
  cbn [running host_fpu owned enabled]. rewrite H3, H4.
  cbn [TPIDR_EL2 ich cnt trap_cpu NS_SIMD set_trap_cpu]. split; [done|split].
  - intros b Hb Hne. rewrite H5 by congruence. rewrite fn_lookup_insert_ne by congruence.
    apply Hi; [done|]. by rewrite Hr.
  - rewrite fn_lookup_insert. split_and!; try done.
    + rewrite Ho. unfold owned_of, saved_fpu. cbn. subst k. unfold own_fpu in *.
      destruct (SimdRegister.is_saved (Context.simd (recs w a))); cbn.
      * by rewrite <- Hx, drop_app_length.
      * by rewrite Hq.
    + subst k. by destruct (SimdRegister.is_saved _).
Qed.

Lemma switch_step_refines x w s s' :
  refines w s -> spec_step x s = Some s' -> exists w', impl_step x w = (Ok tt, w') /\ refines w' s'.
Proof.
  intros Hr Hs. unfold spec_step in Hs. destruct x, (running s) as [a|] eqn:Ea; try done.
  - case_bool_decide; [|done]. injection Hs as <-. by apply host_refines.
  - destruct (Z.eqb_spec rec 0); [done|]. injection Hs as <-. by apply enter_refines.
  - destruct (bool_decide _ && _ && _) eqn:E; [|done]. injection Hs as <-.
    apply andb_prop in E as [[E1 E2]%andb_prop E3]. apply access_refines; [done..| | |].
    + by apply bool_decide_eq_true in E1.
    + by destruct (syndrome_of esr).
    + by apply negb_true_iff.
  - case_bool_decide; [|done]. injection Hs as <-. by apply realm_refines.
  - case_bool_decide; [|done]. injection Hs as <-. by eapply leave_refines.
Qed.

Lemma switch_run_refines xs w s s' :
  refines w s -> spec_run xs s = Some s' ->
  exists w', for_each xs impl_step w = (Ok tt, w') /\ refines w' s'.
Proof.
  revert w s. induction xs as [|x xs IH]; intros w s Hr Hs; cbn [spec_run] in Hs.
  - simplify_eq. by exists w.
  - apply bind_Some in Hs as (s1 & H1 & H2). destruct (switch_step_refines _ _ _ _ Hr H1) as (w1 & E1 & R1).
    destruct (IH _ _ R1 H2) as (w2 & E2 & R2). exists w2. split; [|done].
    cbn [for_each]. by rewrite (bind_ok _ _ _ _ _ E1).
Qed.
End facts.

(** The features of a GIC the architecture allows: at most 16 list registers and
    5 to 7 bits of preemption. *)
Lemma gic_features_bounds vtr icc :
  get_masked_value vtr ICH_VTR_EL2.ListRegs <= 15 ->
  4 <= get_masked_value vtr ICH_VTR_EL2.PREbits <= 6 ->
  0 <= nr_lrs (gic_features vtr icc) <= 15 /\ 0 <= nr_aprs (gic_features vtr icc) <= 3.
Proof.
  intros Hl Hp. cbn [nr_lrs nr_aprs gic_features]. split.
  - pose proof (get_masked_value_range vtr 4 0 ltac:(lia)) as Hr. unfold ICH_VTR_EL2.ListRegs in *. lia.
  - generalize dependent (get_masked_value vtr ICH_VTR_EL2.PREbits). intros p Hp.
    assert (p = 4 \/ p = 5 \/ p = 6) as [-> | [-> | ->]] by lia; by vm_compute.
Qed.

(** C32: every REC of a realm without SVE owns its timers, its virtual interrupt
    controller and its floating-point registers, and the host owns its
    floating-point registers: on a GIC the architecture allows, for every sequence
    of entries, exits, floating-point traps and register changes by either side,
    the switching code returns and each side finds what the specification gives
    it, apart from q0 and q1; a realm's first floating-point instruction finds the
    host's registers. The traps are those with the FPU syndrome, and no REC has
    SVE enabled: with a saved SVE state the code runs into [unimplemented!()]. *)
Theorem switch_refines vtr icc xs w s s' :
  get_masked_value vtr ICH_VTR_EL2.ListRegs <= 15 ->
  4 <= get_masked_value vtr ICH_VTR_EL2.PREbits <= 6 ->
  let f := gic_features vtr icc in
  refines f w s -> spec_run f xs s = Some s' ->
  exists w', for_each xs (impl_step f) w = (Ok tt, w') /\ refines f w' s'.
Proof.
  intros Hl Hp f Hr Hs. destruct (gic_features_bounds vtr icc Hl Hp) as [H1 H2].
  by apply (switch_run_refines f H1 H2 xs w s s').
Qed.

(** ** Boot: RECs that were created and never ran *)
Definition fresh : Context.t :=
  Rec.context (init_simd (SimdConfig.mk false 0 false) (init_gic (init_timer Rec.new))).

Lemma refines_boot f h host :
  gic_wf (ich h) -> own_fpu (fpu_regs (trap_cpu h)) = host ->
  refines f (mkW (fun _ => fresh) h)
    (mkSpec host (fun _ => owned_of f None (Context.timer fresh) (Context.gic_state fresh)) None false).
Proof. intros Hg Hh. split; [done|]. split; [|done]. intros b _ _. by repeat split. Qed.

(** [restore_state] overwrites CPTR_EL2 before it saves it: what is given back to
    the host at the end is the value for the switch itself. *)
Theorem host_cptr_lost a w w' :
  simd_restore_state a w = (Ok tt, w') ->
  SimdRegister.cptr_el2 (NS_SIMD (hw w')) = CPTR_EL2.TAM.
Proof.
  unfold simd_restore_state, CPTR_EL2_write, on_trap_cpu, on_ns_simd, set_ZCR_EL2, on_hw. mstep.
  destruct (SimdConfig.sve_en _); mstep; [by intros [= <-]|].
  unfold save_fpu. mstep. cbn [hw trap_cpu]. rewrite tam_not_trapped. mstep. by intros [= <-].
Qed.

(** The first floating-point instruction of a realm finds the registers as the
    host left them. *)
Theorem first_use_sees_host esr t :
  SimdRegister.is_saved (Context.simd (ctx t)) = false ->
  fpu_regs (cpu (snd (handle_simd esr FPU t))) = fpu_regs (cpu t).
Proof. intros H. rewrite handle_simd_fpu. cbn [snd cpu]. by rewrite H. Qed.

(** 16 list registers, 5 bits of preemption and of priority *)
Definition sample_vtr : Z := 15 + Z.shiftl 4 26 + Z.shiftl 4 29.
Definition zero_gic : GICRegister.t :=
  GICRegister.mk (replicate 4 0) (replicate 4 0) 0 0 (replicate 16 0) 0.
Definition sample_bank (n : Z) : Bank :=
  mkBank (replicate 34 n) (GICRegister.mk (replicate 4 n) (replicate 4 n) n n (replicate 16 n) n)
    (TimerRegister.mk n n n n n n n).
Definition sample_hw : Hw :=
  mkHw 0 zero_gic (TimerRegister.mk 0 0 0 0 0 0 0)
    (mkCpu 0 0 (fun _ => 0) 0 0 0 0 (replicate 34 0) (replicate 2 0)) 0 0
    (Context.simd Rec.context_new).
Definition esr_fpu : Z := Z.shiftl 7 26.
Definition sample_frame : TrapFrame.t := TrapFrame.mk 0 0 (replicate 31 0).
(** Two RECs take turns; the first finds its registers when it returns. *)
Definition sample_actions : list action :=
  [Host (sample_bank 1); Enter 0x1000; Access [8; 9] esr_fpu sample_frame; Realm (sample_bank 5);
   Leave [8; 9]; Host (sample_bank 2); Enter 0x2000; Access [8; 9] esr_fpu sample_frame;
   Realm (sample_bank 6); Leave [8; 9]; Enter 0x1000; Access [8; 9] esr_fpu sample_frame].

Definition sample_spec : Spec :=
  mkSpec (replicate 32 0)
    (fun _ => owned_of (gic_features sample_vtr 0) None (Context.timer fresh) (Context.gic_state fresh)) None false.

Lemma switch_refines_witness :
  exists w' s', for_each sample_actions (impl_step (gic_features sample_vtr 0)) (mkW (fun _ => fresh) sample_hw)
      = (Ok tt, w')
    /\ refines (gic_features sample_vtr 0) w' s' /\ o_fpu (owned s' 0x1000) = Some (replicate 32 5).
Proof.
  destruct (spec_run (gic_features sample_vtr 0) sample_actions sample_spec) as [s'|] eqn:Es.
  - destruct (switch_refines sample_vtr 0 sample_actions (mkW (fun _ => fresh) sample_hw) sample_spec s')
      as (w' & E & R).
    + by vm_compute.
    + split; by vm_compute.
    + by apply refines_boot.
    + exact Es.
    + exists w', s'. split; [exact E|]. split; [exact R|].
      assert (option_map (fun s => o_fpu (owned s 0x1000)) (Some s') = Some (Some (replicate 32 5))) as H
        by (rewrite <- Es; vm_compute; reflexivity).
      by injection H.
  - assert (bool_decide (is_Some (spec_run (gic_features sample_vtr 0) sample_actions sample_spec)) = true) as H
      by (vm_compute; reflexivity).
    by rewrite Es in H.
Defined.
