(* ===== verification/Stat.v ===== *)
(** * Statistics of the commands (rmm/src/stat.rs)

    The build with the feature [stat] counts the calls of every RMI and RSI
    command and the heap memory they use, one [Stat] per kind of command. What is
    printed is a list of lines. [used] is what [allocator::get_used_size] returns;
    [measure] brackets the run of a handler, which changes it. Its two callers,
    [Monitor::handle_rmi] (monitor.rs) and [Context::do_rsi] (event/mod.rs), are
    at the end. *)

From S2P Require Import Prelude RmiTypes Machine RecEnter Event.

Module Stat.
Definition RMI_CMD_MIN : Z := Rmi.VERSION.
Definition RMI_CMD_MAX : Z := Rmi.RTT_SET_RIPAS.
Definition RMI_CMD_CNT : Z := RMI_CMD_MAX - RMI_CMD_MIN + 1.
Definition RSI_CMD_MIN : Z := Rsi.ABI_VERSION.
Definition RSI_CMD_MAX : Z := Rsi.HOST_CALL.
Definition RSI_CMD_CNT : Z := RSI_CMD_MAX - RSI_CMD_MIN + 1.
Definition max (a b : Z) : Z := if b <=? a then a else b.
Definition MAX_CMD_CNT : Z := max RMI_CMD_CNT RSI_CMD_CNT.
Definition RMM_HEAP_SIZE : Z := 16 * 1024 * 1024.

Definition is_rmi_cmd (cmd : Z) : bool := (RMI_CMD_MIN <=? cmd) && (cmd <=? RMI_CMD_MAX).
Definition is_rsi_cmd (cmd : Z) : bool := (RSI_CMD_MIN <=? cmd) && (cmd <=? RSI_CMD_MAX).

Inductive Kind : Set := RMI | RSI | Undefined.
Inductive StatError : Set :=
| IntegerOverflow
| InvalidCommand
| MismatchedCommand
| MismatchedSequence
| Unknown.

(** [kind as usize], [Kind::from] *)
Definition kind_code (k : Kind) : nat := match k with RMI => 0 | RSI => 1 | Undefined => 2 end.
Definition kind_from (num : nat) : Kind := match num with 0 => RMI | 1 => RSI | _ => Undefined end%nat.
Definition MAX_KIND : nat := kind_code Undefined.

Definition get_kind (cmd : Z) : outcome StatError Kind :=
  if is_rmi_cmd cmd then Ok RMI
  else if is_rsi_cmd cmd then Ok RSI
  else Err InvalidCommand.

Record t : Type := mk {
  kind : Kind;
  overflowed : bool;
  cur_cmd : option Z;
  call_cnt : list Z;
  mem_used_before : option Z;
  total_mem_used : list Z
}.
Definition new (k : Kind) : t :=
  mk k false None (replicate (Z.to_nat MAX_CMD_CNT) 0) None (replicate (Z.to_nat MAX_CMD_CNT) 0).

(** [as i64], and the checked operations of [i64], [u64] and [usize] *)
Definition as_i64 (n : Z) : Z := if n <? 2 ^ 63 then n else n - 2 ^ 64.
Definition checked_i64 (n : Z) : option Z := if (- 2 ^ 63 <=? n) && (n <? 2 ^ 63) then Some n else None.
Definition checked_u64 (n : Z) : option Z := if (0 <=? n) && (n <? 2 ^ 64) then Some n else None.
Definition checked_div (a b : Z) : option Z := if b =? 0 then None else checked_i64 (Z.quot a b).

Definition get_idx (s : t) (cmd : Z) : outcome StatError Z :=
  match kind s with
  | RMI => ok_or (checked_u64 (cmd - RMI_CMD_MIN)) IntegerOverflow
  | RSI => ok_or (checked_u64 (cmd - RSI_CMD_MIN)) IntegerOverflow
  | Undefined => Err Unknown
  end.

(** The line [print_mem_stat] prints: command, total, average, calls. *)
Record Line : Set := mkLine { l_cmd : Z; l_total : Z; l_avg : Z; l_calls : Z }.

Definition print (s : t) (cmd : Z) : outcome StatError (option Line) :=
  idx ← get_idx s cmd;
  cnt ← unwrap (call_cnt s !! Z.to_nat idx);
  if cnt =? 0 then Ok None
  else
    total ← unwrap (total_mem_used s !! Z.to_nat idx);
    if total =? 0 then Ok (Some (mkLine cmd total 0 cnt))
    else
      avg_mem_used ← ok_or (checked_div total (as_i64 cnt)) IntegerOverflow;
      Ok (Some (mkLine cmd total avg_mem_used cnt)).

Fixpoint print_from (s : t) (n : nat) (cmd : Z) : outcome StatError (list Line) :=
  match n with
  | O => Ok []
  | S n =>
      line ← print s cmd;
      lines ← print_from s n (cmd + 1);
      Ok (match line with Some l => l :: lines | None => lines end)
  end.
Definition print_all (s : t) : outcome StatError (list Line) :=
  match kind s with
  | RMI => print_from s (Z.to_nat MAX_CMD_CNT) RMI_CMD_MIN
  | RSI => print_from s (Z.to_nat MAX_CMD_CNT) RSI_CMD_MIN
  | Undefined => Ok []
  end.

Definition start (cmd used : Z) : M t StatError unit :=
  s ← get_state;
  if bool_decide (is_Some (mem_used_before s)) || bool_decide (is_Some (cur_cmd s))
  then throw MismatchedSequence
  else modify (fun s => mk (kind s) (overflowed s) (Some cmd) (call_cnt s) (Some (as_i64 used))
                          (total_mem_used s)).

Definition update (cmd used : Z) : M t StatError unit :=
  s ← get_state;
  mem_used_before ← lift (ok_or (mem_used_before s) MismatchedSequence);
  cur ← lift (ok_or (cur_cmd s) MismatchedSequence);
  if negb (cmd =? cur) then throw MismatchedCommand
  else
    idx ← lift (get_idx s cmd);
    let mem_used_after := as_i64 used in
    cur_mem_used ← lift (ok_or (checked_i64 (mem_used_after - mem_used_before)) IntegerOverflow);
    total ← lift (unwrap (total_mem_used s !! Z.to_nat idx));
    total ← lift (ok_or (checked_i64 (total + cur_mem_used)) IntegerOverflow);
    modify (fun s => mk (kind s) (overflowed s) (cur_cmd s) (call_cnt s) (Stat.mem_used_before s)
                       (<[Z.to_nat idx := total]> (total_mem_used s)));;
    cnt ← lift (unwrap (call_cnt s !! Z.to_nat idx));
    cnt ← lift (ok_or (checked_u64 (cnt + 1)) IntegerOverflow);
    modify (fun s => mk (kind s) (overflowed s) (cur_cmd s) (<[Z.to_nat idx := cnt]> (call_cnt s))
                       (Stat.mem_used_before s) (total_mem_used s));;
    s ← get_state;
    match print s cmd with
    | Panicked => panic
    | _ => modify (fun s => mk (kind s) (overflowed s) None (call_cnt s) None (total_mem_used s))
    end.
End Stat.

Module Stats.
Record t : Type := mk { collected_stat_cnt : Z; list : list Stat.t }.

Definition new : t := mk 0 (Stat.new <$> (Stat.kind_from <$> seq 0 Stat.MAX_KIND)).

(** [let stat = self.get_stat(cmd)?], then [m] on it *)
Definition on_stat {A} (cmd : Z) (m : M Stat.t Stat.StatError A) : M t Stat.StatError A :=
  kind ← lift (Stat.get_kind cmd);
  s ← get_state;
  stat ← lift (unwrap (list s !! Stat.kind_code kind));
  let '(r, stat') := m stat in
  modify (fun s => mk (collected_stat_cnt s) (<[Stat.kind_code kind := stat']> (list s)));;
  lift r.

(** [Stats::print]: an error of one kind does not keep the other from printing. *)
Definition print (s : t) : outcome Stat.StatError unit :=
  if existsb (fun st => match Stat.print_all st with Panicked => true | _ => false end)
       (take Stat.MAX_KIND (list s))
  then Panicked else Ok tt.

Definition start (cmd used : Z) : M t Stat.StatError unit := on_stat cmd (Stat.start cmd used).

(** [stat.update(cmd)] inside [end]: an overflow is remembered, the other errors
    are dropped. *)
Definition update_stat (cmd used : Z) : M Stat.t Stat.StatError unit := fun st =>
  match Stat.update cmd used st with
  | (Err Stat.IntegerOverflow, st') =>
      (Err Stat.IntegerOverflow,
       Stat.mk (Stat.kind st') true (Stat.cur_cmd st') (Stat.call_cnt st') (Stat.mem_used_before st')
         (Stat.total_mem_used st'))
  | (Err _, st') => (Ok tt, st')
  | r => r
  end.

Definition end_ (cmd used : Z) : M t Stat.StatError unit :=
  on_stat cmd (st ← get_state;
               if Stat.overflowed st then throw Stat.IntegerOverflow else update_stat cmd used);;
  modify (fun s => mk (Word.add (collected_stat_cnt s) 1) (list s));;
  s ← get_state;
  if collected_stat_cnt s mod 10 =? 0 then lift (print s) else mret tt.

(** [measure]: the handler runs between [start] and [end]; errors are logged. *)
Definition measure (cmd used_before used_after : Z) : M t Stat.StatError unit :=
  catch (start cmd used_before) (fun _ => mret tt);;
  catch (end_ cmd used_after) (fun _ => mret tt).
End Stats.

(** ** The callers of [measure]

    A command with a handler runs under [measure], except REC_ENTER: the realm's
    calls during it are measured on their own. *)
Module StatCalls.
Section calls.
Context `{Platform}.

Definition handle_rmi (cmd used_before used_after : Z) : M Stats.t Stat.StatError unit :=
  match rmi_handler cmd with
  | Some _ => if negb (cmd =? Rmi.REC_ENTER) then Stats.measure cmd used_before used_after else mret tt
  | None => mret tt
  end.

(** [Monitor::handle_rsi] and [Context::do_rsi] *)
Definition do_rsi (cmd used_before used_after : Z) : M Stats.t Stat.StatError unit :=
  match rsi_handler cmd with
  | Some _ => Stats.measure cmd used_before used_after
  | None => mret tt
  end.
End calls.
End StatCalls.
