(* ===== verification/StatFacts.v ===== *)
(** * Statistics of the commands: theorems

    The specification is the log of the measured calls, each with the change of
    the heap's size: the calls of the host and of the realms that have a handler
    and a counter, but for REC_ENTER. The counters of [Stats] are functions of the
    log as long as they cannot overflow, and an overflow stops the statistics of
    its kind. *)

From S2P Require Import Prelude RmiTypes Machine RecEnter Event Sample Stat.

Import Stat.

(** ** The log *)
#[local] Abbreviation log := (list (Z * Z)).
Definition calls (c : Z) (l : log) : Z := Z.of_nat (length (filter (fun e => fst e = c) l)).
Definition memory (c : Z) (l : log) : Z := foldr Z.add 0 (snd <$> filter (fun e => fst e = c) l).
Definition valid (cmd : Z) : bool := is_rmi_cmd cmd || is_rsi_cmd cmd.

(** A call with the heap at [before] and then at [after] *)
#[local] Abbreviation call := (Z * Z * Z)%type.
Definition entry_of (x : call) : log :=
  let '(cmd, before, after) := x in if valid cmd then [(cmd, after - before)] else [].
Definition log_of (xs : list call) : log := xs ≫= entry_of.
Definition in_heap (x : call) : Prop :=
  let '(cmd, before, after) := x in 0 <= before <= RMM_HEAP_SIZE /\ 0 <= after <= RMM_HEAP_SIZE.

(** What happens at the monitor: commands of the host and calls of a realm *)
Inductive event : Type := RmiCall (x : call) | RsiCall (x : call).
Definition call_of (e : event) : call := match e with RmiCall x | RsiCall x => x end.

(** Is the call measured? *)
Definition measured `{Platform} (e : event) : bool :=
  match e with
  | RmiCall (cmd, _, _) => bool_decide (is_Some (rmi_handler cmd)) && negb (cmd =? Rmi.REC_ENTER)
  | RsiCall (cmd, _, _) => bool_decide (is_Some (rsi_handler cmd))
  end.
Definition measured_calls `{Platform} (es : list event) : list call :=
  call_of <$> filter (fun e => Is_true (measured e)) es.

Definition cmd_min (k : Kind) : Z := match k with RMI => RMI_CMD_MIN | _ => RSI_CMD_MIN end.
Definition stat_of (k : Kind) (l : log) : Stat.t :=
  Stat.mk k false None ((fun i => calls (cmd_min k + i) l) <$> seqZ 0 MAX_CMD_CNT) None
    ((fun i => memory (cmd_min k + i) l) <$> seqZ 0 MAX_CMD_CNT).
Definition stats_of (l : log) : Stats.t :=
  Stats.mk (Z.of_nat (length l)) [stat_of RMI l; stat_of RSI l].

Fixpoint measure_all (xs : list call) : M Stats.t StatError unit :=
  match xs with
  | [] => mret tt
  | (cmd, before, after) :: xs => Stats.measure cmd before after;; measure_all xs
  end.

Definition monitored `{Platform} (e : event) : M Stats.t StatError unit :=
  match e with
  | RmiCall (cmd, before, after) => StatCalls.handle_rmi cmd before after
  | RsiCall (cmd, before, after) => StatCalls.do_rsi cmd before after
  end.

(** ** Bounds *)
Definition small (l : log) : Prop :=
  Z.of_nat (length l) < 2 ^ 38 /\ Forall (fun e => - RMM_HEAP_SIZE <= snd e <= RMM_HEAP_SIZE) l.

Lemma calls_le c l : 0 <= calls c l <= Z.of_nat (length l).
Proof. unfold calls. split; [lia|]. apply Nat2Z.inj_le, length_filter. Qed.

Lemma memory_bound c l :
  Forall (fun e => - RMM_HEAP_SIZE <= snd e <= RMM_HEAP_SIZE) l ->
  - (Z.of_nat (length l) * RMM_HEAP_SIZE) <= memory c l <= Z.of_nat (length l) * RMM_HEAP_SIZE.
Proof.
  unfold memory. change RMM_HEAP_SIZE with 16777216. induction 1 as [|e l He Hl IH]; [done|].
  rewrite filter_cons. cbn [length]. destruct (decide (fst e = c)); cbn [fmap list_fmap foldr]; lia.
Qed.

Lemma calls_snoc c l cmd d : calls c (l ++ [(cmd, d)]) = calls c l + (if decide (cmd = c) then 1 else 0).
Proof.
  unfold calls. rewrite list.filter_app, length_app, filter_cons, filter_nil. cbn [fst].
  destruct (decide (cmd = c)); cbn [length]; lia.
Qed.
Lemma memory_snoc c l cmd d : memory c (l ++ [(cmd, d)]) = memory c l + (if decide (cmd = c) then d else 0).
Proof.
  unfold memory. rewrite list.filter_app, fmap_app, foldr_app, filter_cons, filter_nil. cbn [fst].
  assert (forall z ds, foldr Z.add z ds = foldr Z.add 0 ds + z) as Hf.
  { intros z ds. induction ds as [|e ds IH]; cbn [foldr]; lia. }
  rewrite Hf. destruct (decide (cmd = c)); cbn; lia.
Qed.

(** ** One call *)
Lemma get_kind_valid cmd :
  valid cmd = true ->
  exists k, get_kind cmd = Ok k /\ 0 <= cmd - cmd_min k < MAX_CMD_CNT /\ (k = RMI \/ k = RSI).
Proof.
  unfold valid, get_kind, is_rmi_cmd, is_rsi_cmd. intros H.
  destruct ((RMI_CMD_MIN <=? cmd) && (cmd <=? RMI_CMD_MAX)) eqn:E1.
  - exists RMI. apply andb_prop in E1 as [E1 E2]. apply Z.leb_le in E1, E2. split; [done|]. split; [|by left].
    cbn [cmd_min]. unfold RMI_CMD_MIN, Rmi.VERSION in *.
    change MAX_CMD_CNT with 26. unfold RMI_CMD_MAX, Rmi.RTT_SET_RIPAS in *. lia.
  - cbn in H. rewrite H. exists RSI. apply andb_prop in H as [E3 E4]. apply Z.leb_le in E3, E4.
    split; [done|]. split; [|by right]. change MAX_CMD_CNT with 26. cbn [cmd_min].
    unfold RSI_CMD_MIN, RSI_CMD_MAX, Rsi.ABI_VERSION, Rsi.HOST_CALL in *. lia.
Qed.

Lemma get_kind_invalid cmd : valid cmd = false -> get_kind cmd = Err InvalidCommand.
Proof. unfold valid, get_kind. by destruct (is_rmi_cmd cmd), (is_rsi_cmd cmd). Qed.

Lemma lookup_counters (g : Z -> Z) i :
  0 <= i < MAX_CMD_CNT -> (g <$> seqZ 0 MAX_CMD_CNT) !! Z.to_nat i = Some (g i).
Proof.
  intros Hi. rewrite list_lookup_fmap, lookup_seqZ_lt by lia. cbn. do 2 f_equal. lia.
Qed.

(** Adding to one counter *)
Lemma insert_counters (g h : Z -> Z) i v :
  0 <= i < MAX_CMD_CNT -> h i = v -> (forall j, j <> i -> h j = g j) ->
  <[Z.to_nat i := v]> (g <$> seqZ 0 MAX_CMD_CNT) = h <$> seqZ 0 MAX_CMD_CNT.
Proof.
  intros Hi Hv Ho. apply list_eq. intros n. rewrite !list_lookup_fmap.
  destruct (decide (n = Z.to_nat i)) as [->|Hn].
  - rewrite list_lookup_insert_eq by (rewrite length_fmap, length_seqZ; lia).
    rewrite lookup_seqZ_lt by lia. cbn. rewrite <- Hv. do 2 f_equal. lia.
  - rewrite list_lookup_insert_ne by done. rewrite list_lookup_fmap.
    destruct (seqZ 0 MAX_CMD_CNT !! n) as [j|] eqn:E; [|done]. cbn. f_equal. symmetry. apply Ho.
    apply lookup_seqZ in E. lia.
Qed.

Lemma heap_i64 n : 0 <= n <= RMM_HEAP_SIZE -> as_i64 n = n.
Proof. intros H. unfold as_i64. rewrite (proj2 (Z.ltb_lt _ _)); [done|]. unfold RMM_HEAP_SIZE in H. lia. Qed.
Lemma checked_i64_ok n : - 2 ^ 63 <= n < 2 ^ 63 -> checked_i64 n = Some n.
Proof. intros H. unfold checked_i64. rewrite (proj2 (Z.leb_le _ _)), (proj2 (Z.ltb_lt _ _)) by lia. done. Qed.
Lemma checked_u64_ok n : 0 <= n < 2 ^ 64 -> checked_u64 n = Some n.
Proof. intros H. unfold checked_u64. rewrite (proj2 (Z.leb_le _ _)), (proj2 (Z.ltb_lt _ _)) by lia. done. Qed.

Lemma get_idx_ok s cmd :
  kind s = RMI \/ kind s = RSI -> 0 <= cmd - cmd_min (kind s) < MAX_CMD_CNT ->
  get_idx s cmd = Ok (cmd - cmd_min (kind s)).
Proof.
  change MAX_CMD_CNT with 26. unfold get_idx. intros [-> | ->]; cbn [cmd_min]; intros H;
    rewrite checked_u64_ok by lia; done.
Qed.

(** Printing never indexes outside the arrays. *)
Lemma print_ok s cmd :
  kind s = RMI \/ kind s = RSI -> 0 <= cmd - cmd_min (kind s) < MAX_CMD_CNT ->
  length (call_cnt s) = Z.to_nat MAX_CMD_CNT -> length (total_mem_used s) = Z.to_nat MAX_CMD_CNT ->
  print s cmd <> Panicked.
Proof.
  intros Hk Hi Hc Ht. unfold print. rewrite (get_idx_ok _ _ Hk Hi). cbn [mbind outcome_bind].
  destruct (lookup_lt_is_Some_2 (call_cnt s) (Z.to_nat (cmd - cmd_min (kind s)))) as [c ->]; [lia|].
  cbn. destruct (c =? 0); [done|].
  destruct (lookup_lt_is_Some_2 (total_mem_used s) (Z.to_nat (cmd - cmd_min (kind s)))) as [m ->]; [lia|].
  cbn. destruct (m =? 0); [done|]. by destruct (checked_div _ _).
Qed.

Lemma print_from_ok s n cmd :
  kind s = RMI \/ kind s = RSI -> 0 <= cmd - cmd_min (kind s) ->
  cmd - cmd_min (kind s) + Z.of_nat n <= MAX_CMD_CNT ->
  length (call_cnt s) = Z.to_nat MAX_CMD_CNT -> length (total_mem_used s) = Z.to_nat MAX_CMD_CNT ->
  print_from s n cmd <> Panicked.
Proof.
  intros Hk. revert cmd. induction n as [|n IH]; intros cmd Hi Hn Hc Ht; [done|]. cbn [print_from].
  pose proof (print_ok s cmd Hk ltac:(lia) Hc Ht) as Hp.
  destruct (print s cmd); cbn [mbind outcome_bind]; [|done..].
  pose proof (IH (cmd + 1) ltac:(lia) ltac:(lia) Hc Ht) as Hr.
  destruct (print_from s n (cmd + 1)); by cbn.
Qed.

Lemma stat_of_lengths k l :
  length (call_cnt (stat_of k l)) = Z.to_nat MAX_CMD_CNT
  /\ length (total_mem_used (stat_of k l)) = Z.to_nat MAX_CMD_CNT.
Proof. cbn. by rewrite !length_fmap, !length_seqZ. Qed.

Lemma print_all_ok k l : k = RMI \/ k = RSI -> print_all (stat_of k l) <> Panicked.
Proof.
  intros Hk. destruct (stat_of_lengths k l) as [H1 H2]. unfold print_all.
  destruct Hk as [-> | ->]; cbn [kind stat_of]; apply print_from_ok; auto; vm_compute; congruence.
Qed.

Lemma stats_print_ok n l : Stats.print (Stats.mk n [stat_of RMI l; stat_of RSI l]) = Ok tt.
Proof.
  unfold Stats.print. cbn [take MAX_KIND kind_code Stats.list existsb].
  pose proof (print_all_ok RMI l (or_introl eq_refl)). pose proof (print_all_ok RSI l (or_intror eq_refl)).
  destruct (print_all (stat_of RMI l)), (print_all (stat_of RSI l)); done.
Qed.

(** A [Stat] in the middle of a call *)
Definition started (cmd before : Z) (s : Stat.t) : Stat.t :=
  Stat.mk (kind s) (overflowed s) (Some cmd) (call_cnt s) (Some before) (total_mem_used s).

Lemma update_run k l cmd before after :
  k = RMI \/ k = RSI -> 0 <= cmd - cmd_min k < MAX_CMD_CNT -> in_heap (cmd, before, after) ->
  small l ->
  Stat.update cmd after (started cmd before (stat_of k l)) = (Ok tt, stat_of k (l ++ [(cmd, after - before)])).
Proof.
  intros Hk Hi [Hb Ha] [Hl Hf]. unfold update. mstep. cbn [mem_used_before cur_cmd started ok_or]. mstep.
  rewrite Z.eqb_refl. cbn [negb]. set (s0 := started cmd before (stat_of k l)).
  rewrite (get_idx_ok s0 cmd Hk Hi). mstep. cbn [kind s0 started stat_of].
  pose proof (calls_le cmd l) as Hc. pose proof (memory_bound cmd l Hf) as Hm.
  unfold RMM_HEAP_SIZE in *. rewrite heap_i64 by (unfold RMM_HEAP_SIZE; lia).
  rewrite checked_i64_ok by lia. cbn [ok_or]. mstep. cbn [total_mem_used s0 started stat_of].
  rewrite lookup_counters by done. cbn [unwrap]. mstep.
  replace (cmd_min k + (cmd - cmd_min k)) with cmd by lia.
  rewrite checked_i64_ok by lia. cbn [ok_or]. mstep. cbn [call_cnt s0 started stat_of].
  rewrite lookup_counters by done. cbn [unwrap]. mstep.
  replace (cmd_min k + (cmd - cmd_min k)) with cmd by lia.
  rewrite checked_u64_ok by lia. cbn [ok_or]. mstep.
  cbn [kind overflowed cur_cmd call_cnt Stat.mem_used_before total_mem_used s0 started stat_of].
  erewrite (insert_counters (fun i => memory (cmd_min k + i) l)
              (fun i => memory (cmd_min k + i) (l ++ [(cmd, after - before)])));
    [|done|rewrite memory_snoc, decide_True by lia; by replace (cmd_min k + (cmd - cmd_min k)) with cmd by lia
     |intros j Hj; rewrite memory_snoc, decide_False by lia; lia].
  erewrite (insert_counters (fun i => calls (cmd_min k + i) l)
              (fun i => calls (cmd_min k + i) (l ++ [(cmd, after - before)])));
    [|done|rewrite calls_snoc, decide_True by lia; by replace (cmd_min k + (cmd - cmd_min k)) with cmd by lia
     |intros j Hj; rewrite calls_snoc, decide_False by lia; lia].
  set (s1 := Stat.mk _ _ _ _ _ _).
  assert (print s1 cmd <> Panicked) as Hp.
  { apply print_ok; [done|done|cbn; by rewrite length_fmap, length_seqZ..]. }
  destruct (print s1 cmd); [done..| |]; done.
Qed.

Lemma start_run k l cmd before :
  0 <= before <= RMM_HEAP_SIZE ->
  Stat.start cmd before (stat_of k l) = (Ok tt, started cmd before (stat_of k l)).
Proof. intros H. unfold start. mstep. cbn. by rewrite heap_i64. Qed.

Lemma on_stat_run {A} n cmd k (m : M Stat.t StatError A) st ss :
  get_kind cmd = Ok k -> ss !! kind_code k = Some st ->
  Stats.on_stat cmd m (Stats.mk n ss)
  = let '(r, st') := m st in (r, Stats.mk n (<[kind_code k := st']> ss)).
Proof.
  intros Hk Hs. unfold Stats.on_stat. rewrite Hk. mstep. cbn [Stats.list]. rewrite Hs. cbn [unwrap]. mstep.
  destruct (m st) as [[a|e| |] st']; by mstep.
Qed.

Lemma stats_of_kind k l :
  k = RMI \/ k = RSI -> [stat_of RMI l; stat_of RSI l] !! kind_code k = Some (stat_of k l).
Proof. by intros [-> | ->]. Qed.

(** A call of one kind leaves the counters of the other as they are. *)
Lemma stat_of_other cmd d k k' l :
  get_kind cmd = Ok k -> k' <> k -> k' = RMI \/ k' = RSI -> stat_of k' (l ++ [(cmd, d)]) = stat_of k' l.
Proof.
  intros Hg Hn Hk.
  assert (forall i, i ∈ seqZ 0 MAX_CMD_CNT -> cmd <> cmd_min k' + i) as Hc.
  { intros i Hi%elem_of_seqZ E. subst cmd. unfold get_kind, is_rmi_cmd, is_rsi_cmd in Hg.
    change (0 + MAX_CMD_CNT) with 26 in Hi. destruct Hk as [-> | ->]; cbn [cmd_min] in Hg.
    - rewrite (proj2 (Z.leb_le RMI_CMD_MIN _)) in Hg by lia.
      rewrite (proj2 (Z.leb_le _ RMI_CMD_MAX)) in Hg
        by (unfold RMI_CMD_MAX, RMI_CMD_MIN, Rmi.RTT_SET_RIPAS, Rmi.VERSION; lia).
      cbn in Hg. congruence.
    - rewrite (proj2 (Z.leb_gt _ RMI_CMD_MAX)), andb_false_r in Hg
        by (unfold RMI_CMD_MAX, RSI_CMD_MIN, Rmi.RTT_SET_RIPAS, Rsi.ABI_VERSION; lia).
      destruct (_ && _) in Hg; congruence. }
  unfold stat_of. f_equal; apply list_fmap_ext; intros n i Hi%list_elem_of_lookup_2.
  - rewrite calls_snoc, decide_False by by apply Hc. lia.
  - rewrite memory_snoc, decide_False by by apply Hc. lia.
Qed.

Lemma measure_run l x :
  in_heap x -> small l -> Stats.measure x.1.1 x.1.2 x.2 (stats_of l) = (Ok tt, stats_of (l ++ entry_of x)).
Proof.
  destruct x as [[cmd before] after]. intros Hx Hs. cbn [fst snd entry_of].
  unfold Stats.measure, Stats.start, Stats.end_. destruct (valid cmd) eqn:Ev.
  - destruct (get_kind_valid cmd Ev) as (k & Hk & Hi & Hkk).
    set (ss := <[kind_code k := started cmd before (stat_of k l)]> [stat_of RMI l; stat_of RSI l]).
    assert (Stats.on_stat cmd (Stat.start cmd before) (stats_of l)
      = (Ok tt, Stats.mk (Z.of_nat (length l)) ss)) as E1.
    { unfold stats_of. rewrite (on_stat_run _ cmd k _ _ _ Hk (stats_of_kind k l Hkk)).
      by rewrite start_run by apply Hx. }
    rewrite (bind_ok _ _ _ _ (Stats.mk (Z.of_nat (length l)) ss)) by (unfold catch; by rewrite E1).
    set (l' := l ++ [(cmd, after - before)]).
    assert (Stats.on_stat cmd (st ← get_state;
        if overflowed st then throw IntegerOverflow else Stats.update_stat cmd after)
        (Stats.mk (Z.of_nat (length l)) ss)
      = (Ok tt, Stats.mk (Z.of_nat (length l)) [stat_of RMI l'; stat_of RSI l'])) as E2.
    { rewrite (on_stat_run _ cmd k _ (started cmd before (stat_of k l)) _ Hk)
        by by destruct Hkk as [-> | ->].
      mstep. cbn [overflowed started stat_of]. unfold Stats.update_stat.
      fold (stat_of k l). change (Stat.mk _ _ (Some cmd) _ _ _) with (started cmd before (stat_of k l)).
      rewrite (update_run k l cmd before after Hkk Hi Hx Hs). subst ss. fold l'.
      destruct Hkk as [-> | ->]; cbn; subst l'.
      - by rewrite (stat_of_other _ _ RMI RSI l Hk) by auto.
      - by rewrite (stat_of_other _ _ RSI RMI l Hk) by auto. }
    unfold catch. rewrite (bind_ok _ _ _ _ _ E2).
    mstep. cbn [Stats.collected_stat_cnt Stats.list].
    assert (Word.add (Z.of_nat (length l)) 1 = Z.of_nat (length l')) as ->.
    { subst l'. rewrite length_app. cbn [length]. destruct Hs as [Hl _]. unfold Word.add, Word.wrap, Word.modulus.
      rewrite Z.mod_small by lia. lia. }
    rewrite stats_print_ok. by destruct (_ =? 0).
  - rewrite app_nil_r. pose proof (get_kind_invalid cmd Ev) as Hk.
    unfold catch, mbind, M_bind, Stats.on_stat, lift. by rewrite Hk.
Qed.

Lemma measure_all_run xs l :
  Forall in_heap xs -> small l -> Z.of_nat (length l + length xs) < 2 ^ 38 ->
  measure_all xs (stats_of l) = (Ok tt, stats_of (l ++ log_of xs)).
Proof.
  intros Hx. revert l. induction Hx as [|x xs Hx _ IH]; intros l Hs Hl.
  - cbn. by rewrite app_nil_r.
  - destruct x as [[cmd before] after]. cbn [measure_all length] in *.
    pose proof (measure_run l _ Hx Hs) as E. cbn [fst snd] in E. rewrite (bind_ok _ _ _ _ _ E), IH.
    + unfold log_of. cbn [mbind list_bind]. by rewrite app_assoc.
    + destruct Hs as [Hs1 Hs2]. cbn [entry_of]. split.
      * rewrite length_app. destruct (valid cmd); cbn [length]; lia.
      * apply Forall_app. split; [done|]. destruct (valid cmd); [|done]. constructor; [|done].
        cbn [snd]. destruct Hx. lia.
    + rewrite length_app. cbn [entry_of]. destruct (valid cmd); cbn [length]; lia.
Qed.

(** The monitor measures exactly the measured calls. *)
Lemma monitored_measures `{Platform} es s :
  for_each es monitored s = measure_all (measured_calls es) s.
Proof.
  revert s. induction es as [|e es IH]; intros s; [done|]. cbn [for_each]. unfold measured_calls in *.
  rewrite filter_cons. destruct e as [[[cmd before] after]|[[cmd before] after]];
    cbn [monitored measured]; unfold StatCalls.handle_rmi, StatCalls.do_rsi.
  - destruct (rmi_handler cmd).
    + rewrite bool_decide_eq_true_2 by by eexists. destruct (cmd =? Rmi.REC_ENTER); cbn [negb andb].
      * rewrite decide_False by auto. by mstep.
      * rewrite decide_True by done. cbn [fmap list_fmap call_of measure_all].
        unfold mbind, M_bind. by destruct (Stats.measure _ _ _ s) as [[]].
    + rewrite bool_decide_eq_false_2 by by intros []. cbn [andb]. rewrite decide_False by auto. by mstep.
  - destruct (rsi_handler cmd).
    + rewrite bool_decide_eq_true_2 by by eexists. rewrite decide_True by done.
      cbn [fmap list_fmap call_of measure_all].
      unfold mbind, M_bind. by destruct (Stats.measure _ _ _ s) as [[]].
    + rewrite bool_decide_eq_false_2 by by intros []. rewrite decide_False by auto. by mstep.
Qed.


(** An overflow leaves the call open: from then on every call of the kind fails
    to start and to end, and its counters stay. *)
Theorem overflow_stops_stat cmd before after n ss k st :
  get_kind cmd = Ok k -> ss !! kind_code k = Some st ->
  overflowed st = true -> is_Some (cur_cmd st) ->
  Stats.measure cmd before after (Stats.mk n ss) = (Ok tt, Stats.mk n ss).
Proof.
  intros Hk Hs Ho Hc. unfold Stats.measure, Stats.start, Stats.end_.
  assert (<[kind_code k := st]> ss = ss) as Hi by by apply list_insert_id.
  assert (catch (Stats.on_stat cmd (Stat.start cmd before)) (fun _ => mret tt) (Stats.mk n ss)
    = (Ok tt, Stats.mk n ss)) as E.
  { unfold catch. rewrite (on_stat_run _ cmd k _ _ _ Hk Hs). unfold start. mstep.
    rewrite (bool_decide_eq_true_2 (is_Some (cur_cmd st))) by done. rewrite orb_true_r.
    unfold throw. by rewrite Hi. }
  rewrite (bind_ok _ _ _ _ _ E). unfold catch, mbind at 1, M_bind at 1.
  rewrite (on_stat_run _ cmd k _ _ _ Hk Hs). mstep. rewrite Ho. unfold throw. by rewrite Hi.
Qed.

