(* ===== verification/Stage1Map.v ===== *)
(** * The RMM's address space as a map

    What the stage-1 tables in the heap mean: [translate] is the walk of the MMU
    from the root, and [set_page] and [unset_page] (lib/vmsa/src/page_table.rs)
    change it at one page number and nowhere else. A table is labelled with its
    depth and the part of the page number that leads to it; since a label has one
    table, tables are not shared. The lower 39 bits of an address select a page. *)

From S2P Require Import Prelude Bytes Bits Vmsa RmiTypes Granule S2tte Objects Machine PageTable Stage1 Stage1Facts.
From stdpp Require Import gmap.
Open Scope Z_scope.

#[local] Existing Instances s1_entry_ops heap_words heap_table_alloc.

(** ** Descriptors *)
Lemma lor_low t c : 0 <= c < 4096 -> t mod 4096 = 0 -> 0 <= t -> Z.lor t c = t + c.
Proof.
  intros Hc Ht H0. assert (Z.land t c = 0) as Hl.
  { apply Z.bits_inj'. intros i Hi. rewrite Z.land_spec, Z.bits_0.
    destruct (decide (i < 12)).
    - replace t with (t / 4096 * 2 ^ 12) by (Z.div_mod_to_equations; lia).
      by rewrite Z.mul_pow2_bits_low by lia.
    - rewrite <- (Z.mod_small c (2 ^ 12)) by lia. rewrite Z.mod_pow2_bits_high by lia.
      apply andb_false_r. }
  rewrite Z.add_nocarry_lxor by done. by rewrite Z.lxor_lor.
Qed.

(** The entry of a table at [t] *)
Lemma point_to_subtable_value t :
  0 <= t -> t mod 4096 = 0 -> s1_point_to_subtable t = t + 0x703.
Proof.
  intros H0 Ht. unfold s1_point_to_subtable, s1_set. 
  change (set_bits _ _) with 0x703. by apply lor_low.
Qed.

Lemma s1_valid_mod e : s1_is_valid e = negb (e mod 2 =? 0).
Proof.
  unfold s1_is_valid, PTDesc.VALID. rewrite get_masked_value_div by lia.
  change (2 ^ (0 - 0 + 1)) with 2. by rewrite Z.div_1_r.
Qed.
Lemma s1_points_mod e :
  s1_points_to_table_or_page e = negb (e mod 2 =? 0) && ((e / 2) mod 2 =? 1).
Proof.
  unfold s1_points_to_table_or_page. rewrite s1_valid_mod. unfold PTDesc.TYPE, s1attr.TABLE_OR_PAGE.
  rewrite get_masked_value_div by lia. change (2 ^ (1 - 1 + 1)) with 2. change (2 ^ 1) with 2.
  by destruct (negb _).
Qed.

Lemma points_subtable t :
  0 <= t -> t mod 4096 = 0 -> s1_points_to_table_or_page (s1_point_to_subtable t) = true.
Proof.
  intros H0 Ht. rewrite point_to_subtable_value, s1_points_mod by done.
  assert ((t + 1795) mod 2 = 1) as -> by (Z.div_mod_to_equations; lia).
  assert ((t + 1795) / 2 mod 2 = 1) as -> by (Z.div_mod_to_equations; lia). done.
Qed.

(** Where a table entry points *)
Definition target (e : Z) : Z := get_masked e PTDesc.ADDR_TBL_OR_PAGE.
Lemma points_address e l :
  s1_points_to_table_or_page e = true -> s1_address e l = Some (target e).
Proof.
  unfold s1_points_to_table_or_page, s1_address, target. destruct (s1_is_valid e); [|done]. by intros ->.
Qed.
Lemma target_subtable t :
  0 <= t < 2 ^ 48 -> t mod 4096 = 0 -> target (s1_point_to_subtable t) = t.
Proof.
  intros H0 Ht. rewrite point_to_subtable_value by lia. unfold target, get_masked, PTDesc.ADDR_TBL_OR_PAGE.
  rewrite define_mask_shiftl by lia.
  replace (t + 0x703) with (Z.lor 0x703 (Z.shiftl (t / 4096) 12)).
  2: { rewrite Z.lor_comm, Z.shiftl_mul_pow2 by lia. change (2 ^ 12) with 4096.
       rewrite lor_low by (Z.div_mod_to_equations; lia). Z.div_mod_to_equations; lia. }
  rewrite Z.land_lor_distr_l. 
  replace (Z.land 0x703 (Z.shiftl (Z.ones (47 - 12 + 1)) 12)) with 0 by reflexivity.
  rewrite Z.lor_0_l, <- Z.shiftl_land, Z.land_ones by lia.
  rewrite Z.mod_small by (change (2 ^ (47 - 12 + 1)) with (2 ^ 36); Z.div_mod_to_equations; lia).
  rewrite Z.shiftl_mul_pow2 by lia. Z.div_mod_to_equations; lia.
Qed.

(** ** Page numbers and tables *)
Definition pn (va : Z) : Z := (va / 4096) mod 2 ^ 27.
Definition idx (d : nat) (n : Z) : Z := (n / 512 ^ Z.of_nat d) mod 512.

Lemma idx_range d n : 0 <= idx d n < 512.
Proof. apply Z.mod_pos_bound. lia. Qed.

Lemma s1_slot d b va : (d <= 2)%nat -> slot d b TABLE_SIZE va = Ok (b + 8 * idx d (pn va)).
Proof.
  intros Hd. unfold slot. change (TABLE_SIZE / ENTRY_SIZE) with 512.
  assert (e_index (this_level d) TABLE_SIZE va = Ok (idx d (pn va))) as ->.
  { unfold idx, pn. destruct d as [|[|[|]]]; [..|lia].
    - transitivity (Ok (E := MmError) (get_masked_value va RawGPA.L3Index)); [done|]. f_equal.
      unfold RawGPA.L3Index. rewrite get_masked_value_div by lia. cbn. Z.div_mod_to_equations; lia.
    - transitivity (Ok (E := MmError) (get_masked_value va RawGPA.L2Index)); [done|]. f_equal.
      unfold RawGPA.L2Index. rewrite get_masked_value_div by lia. cbn. Z.div_mod_to_equations; lia.
    - transitivity (Ok (E := MmError) (get_masked_value va RawGPA.L1Index)); [done|]. f_equal.
      unfold RawGPA.L1Index. rewrite get_masked_value_div by lia. cbn. Z.div_mod_to_equations; lia. }
  cbn [mbind outcome_bind]. rewrite (proj2 (Z.ltb_lt _ _)) by apply idx_range. done.
Qed.

(** ** The walk of the MMU *)
Definition ent (h : heap_t) (t i : Z) : Z := default (fun _ => 0) (h !! t) i.
Definition put (h : heap_t) (t i v : Z) : heap_t :=
  <[t := <[i := v]> (default (fun _ => 0) (h !! t))]> h.

(** The descriptor of page [n], below a table of depth [d] at [b] *)
Fixpoint translate (h : heap_t) (d : nat) (b n : Z) : option Z :=
  let e := ent h b (idx d n) in
  match d with
  | O => if s1_is_valid e then Some e else None
  | S d' => if s1_points_to_table_or_page e then translate h d' (target e) n else None
  end.

(** The tables down to the last level are there for page [n]. *)
Fixpoint reach (h : heap_t) (d : nat) (b n : Z) : bool :=
  match d with
  | O => true
  | S d' => let e := ent h b (idx d n) in
            s1_points_to_table_or_page e && reach h d' (target e) n
  end.

(** [lab t] is the depth of the table [t] and the page numbers it serves: those
    whose quotient by the number of pages below it is the second component. *)
Record tables_wf (h : heap_t) (root : Z) (lab : Z -> option (nat * Z)) : Prop := {
  wf_root : lab root = Some (2%nat, 0);
  wf_table t d p : lab t = Some (d, p) ->
    t mod 4096 = 0 /\ 0 <= t < 2 ^ 48 /\ is_Some (h !! t) /\ (d <= 2)%nat;
  wf_sub t d p i : lab t = Some (S d, p) -> 0 <= i < 512 ->
    s1_points_to_table_or_page (ent h t i) = true -> lab (target (ent h t i)) = Some (d, p * 512 + i);
  wf_table_entry t d p i : lab t = Some (S d, p) -> 0 <= i < 512 ->
    s1_is_valid (ent h t i) = true -> s1_points_to_table_or_page (ent h t i) = true
}.

Lemma ent_put h t i v t' i' :
  ent (put h t i v) t' i' = if decide (t' = t /\ i' = i) then v else ent h t' i'.
Proof.
  unfold ent, put, heap_t in *. destruct (decide (t' = t)) as [->|Ht].
  - rewrite lookup_insert_eq. cbn. destruct (decide (i' = i)) as [->|Hi].
    + rewrite decide_True by done. apply fn_lookup_insert.
    + rewrite decide_False by naive_solver. by rewrite fn_lookup_insert_ne.
  - rewrite lookup_insert_ne by done. by rewrite decide_False by naive_solver.
Qed.

Lemma read_ent b i h : b mod 4096 = 0 -> 0 <= i < 512 -> read_word (b + 8 * i) h = ent h b i.
Proof.
  intros Hb Hi. cbn. unfold heap_page, heap_word, ent.
  replace ((b + 8 * i) / 4096 * 4096) with b by (Z.div_mod_to_equations; lia).
  replace ((b + 8 * i) mod 4096 / 8) with i by (Z.div_mod_to_equations; lia). done.
Qed.
Lemma write_put b i v h : b mod 4096 = 0 -> 0 <= i < 512 -> write_word (b + 8 * i) v h = put h b i v.
Proof.
  intros Hb Hi. cbn. unfold heap_page, heap_word, put.
  replace ((b + 8 * i) / 4096 * 4096) with b by (Z.div_mod_to_equations; lia).
  replace ((b + 8 * i) mod 4096 / 8) with i by (Z.div_mod_to_equations; lia). done.
Qed.

Lemma idx_split d n :
  0 <= n -> n / 512 ^ Z.of_nat d = n / 512 ^ Z.of_nat (S d) * 512 + idx d n.
Proof.
  intros Hn. unfold idx. rewrite Nat2Z.inj_succ, Z.pow_succ_r, (Z.mul_comm 512) by lia.
  rewrite <- Z.div_div by (try apply Z.pow_nonzero; lia).
  pose proof (Z.div_mod (n / 512 ^ Z.of_nat d) 512). lia.
Qed.

(** ** Changes and what they leave alone *)
Section changes.
Context (h : heap_t) (root : Z) (lab : Z -> option (nat * Z)) (Hwf : tables_wf h root lab).

(** A memory that differs from [h] only at entries off the path of [n], and at
    entries that were no tables and lead nowhere: the walk of [n] stays. *)
Lemma translate_frame h' n D b P :
  0 <= n -> lab b = Some (D, P) -> n / 512 ^ Z.of_nat (S D) = P ->
  (forall t d p, lab t = Some (d, p) -> n / 512 ^ Z.of_nat (S d) = p ->
     ent h' t (idx d n) = ent h t (idx d n)
     \/ (d <> 0%nat /\ s1_points_to_table_or_page (ent h t (idx d n)) = false
         /\ translate h' (pred d) (target (ent h' t (idx d n))) n = None)) ->
  translate h' D b n = translate h D b n.
Proof.
  intros Hn. revert b P. induction D as [|D IH]; intros b P Hb HP Hs.
  - destruct (Hs _ _ _ Hb HP) as [E|[? _]]; [|done]. cbn [translate]. by rewrite E.
  - destruct (Hs _ _ _ Hb HP) as [E|(_ & E1 & E2)]; cbn [translate].
    + rewrite E. destruct (s1_points_to_table_or_page _) eqn:Ep; [|done].
      apply IH with (P * 512 + idx (S D) n); [|by rewrite idx_split, HP by done|exact Hs].
      apply (wf_sub _ _ _ Hwf _ _ _ _ Hb); [apply idx_range|done].
    + rewrite E1. cbn [pred] in E2. rewrite E2. destruct (s1_points_to_table_or_page (ent h' b _)); done.
Qed.

(** One entry is written that is off the path. *)
Lemma translate_put t d p i v n D b P :
  0 <= n -> lab t = Some (d, p) -> lab b = Some (D, P) -> n / 512 ^ Z.of_nat (S D) = P ->
  n / 512 ^ Z.of_nat d <> p * 512 + i ->
  translate (put h t i v) D b n = translate h D b n.
Proof.
  intros Hn Ht Hb HP Hne. apply translate_frame with P; [done..|].
  intros t' d' p' Ht' Hp'. left. rewrite ent_put. apply decide_False. intros [-> <-].
  rewrite Ht in Ht'. injection Ht' as <- <-. apply Hne. by rewrite idx_split, Hp' by done.
Qed.
End changes.

Lemma ent_insert (h : heap_t) t g t' i :
  ent (<[t := g]> h) t' i = if decide (t' = t) then g i else ent h t' i.
Proof.
  unfold ent, heap_t in *. destruct (decide (t' = t)) as [->|Ht].
  - by rewrite lookup_insert_eq.
  - by rewrite lookup_insert_ne.
Qed.
Lemma put_some h t i v t' : is_Some (h !! t') -> is_Some (put h t i v !! t').
Proof.
  unfold put, heap_t in *. destruct (decide (t = t')) as [->|Ht].
  - rewrite lookup_insert_eq. eauto.
  - by rewrite lookup_insert_ne.
Qed.
Lemma dom_put (h : heap_t) t i v : is_Some (h !! t) -> dom (put h t i v) = dom h.
Proof. intros Hs. unfold put, heap_t in *. rewrite dom_insert_L. apply elem_of_dom in Hs. set_solver. Qed.
Lemma zero_no_table : s1_points_to_table_or_page 0 = false.
Proof. reflexivity. Qed.
Lemma zero_invalid : s1_is_valid 0 = false.
Proof. reflexivity. Qed.

(** A new table [t], zeroed, in place of an entry that was no table *)
Definition link (h : heap_t) (t b j : Z) : heap_t :=
  put (<[t := fun _ => 0]> h) b j (s1_point_to_subtable t).

Section link.
Context (h : heap_t) (root : Z) (lab : Z -> option (nat * Z)) (Hwf : tables_wf h root lab).
Context (t b j : Z) (D : nat) (P : Z).
Context (Hb : lab b = Some (S D, P)) (Hj : 0 <= j < 512).
Context (Hold : s1_points_to_table_or_page (ent h b j) = false).
Context (Hfresh : h !! t = None) (Ht : t mod 4096 = 0) (Hr : 0 <= t < 2 ^ 48).

Lemma fresh_unlabelled : lab t = None.
Proof.
  destruct (lab t) as [[d p]|] eqn:E; [|done].
  destruct (wf_table _ _ _ Hwf _ _ _ E) as (_ & _ & [g Hg] & _). congruence.
Qed.
Lemma fresh_not_base : b <> t.
Proof. intros ->. pose proof fresh_unlabelled. congruence. Qed.

Lemma ent_link t' i :
  ent (link h t b j) t' i
  = if decide (t' = b /\ i = j) then s1_point_to_subtable t
    else if decide (t' = t) then 0 else ent h t' i.
Proof. unfold link. by rewrite ent_put, ent_insert. Qed.

Definition link_lab : Z -> option (nat * Z) := <[t := Some (D, P * 512 + j)]> lab.

Lemma link_lab_old t' x : lab t' = Some x -> link_lab t' = Some x.
Proof.
  intros H. unfold link_lab. rewrite fn_lookup_insert_ne; [done|]. intros <-.
  pose proof fresh_unlabelled. congruence.
Qed.

Lemma link_entry_case t' d p i :
  link_lab t' = Some (S d, p) ->
  (t' = b /\ i = j /\ d = D /\ p = P /\ ent (link h t b j) t' i = s1_point_to_subtable t)
  \/ (t' = t /\ ent (link h t b j) t' i = 0)
  \/ (lab t' = Some (S d, p) /\ ent (link h t b j) t' i = ent h t' i).
Proof.
  intros H. rewrite ent_link. destruct (decide (t' = b /\ i = j)) as [[-> ->]|Hn].
  - left. rewrite (link_lab_old _ _ Hb) in H. by injection H as <- <-.
  - right. destruct (decide (t' = t)) as [->|Hne]; [by left|]. right. split; [|done].
    unfold link_lab in H. by rewrite fn_lookup_insert_ne in H by done.
Qed.

Lemma link_wf : tables_wf (link h t b j) root link_lab.
Proof.
  split.
  - apply link_lab_old, (wf_root _ _ _ Hwf).
  - intros t' d p H. unfold link. destruct (decide (t' = t)) as [->|Hne].
    + unfold link_lab in H. rewrite fn_lookup_insert in H. injection H as <- <-. split_and!; try lia.
      * apply put_some. unfold heap_t. rewrite lookup_insert_eq. eauto.
      * destruct (wf_table _ _ _ Hwf _ _ _ Hb) as (_ & _ & _ & ?). lia.
    + unfold link_lab in H. rewrite fn_lookup_insert_ne in H by done.
      destruct (wf_table _ _ _ Hwf _ _ _ H) as (? & ? & ? & ?). split_and!; try lia.
      apply put_some. unfold heap_t. by rewrite lookup_insert_ne by done.
  - intros t' d p i H Hi. destruct (link_entry_case t' d p i H) as [(-> & -> & -> & -> & E)|[[-> E]|[H' E]]];
      rewrite E; intros Hp.
    + rewrite target_subtable by done. unfold link_lab. apply fn_lookup_insert.
    + done.
    + apply link_lab_old. by apply (wf_sub _ _ _ Hwf).
  - intros t' d p i H Hi. destruct (link_entry_case t' d p i H) as [(-> & -> & -> & -> & E)|[[-> E]|[H' E]]];
      rewrite E; intros Hv.
    + apply points_subtable; [lia|done].
    + done.
    + by apply (wf_table_entry _ _ _ Hwf _ _ _ _ H').
Qed.

Lemma translate_empty d n : translate (link h t b j) d t n = None.
Proof.
  destruct d; cbn [translate]; rewrite ent_link, decide_False by (pose proof fresh_not_base; naive_solver);
    by rewrite decide_True.
Qed.

Lemma link_translate n : 0 <= n < 2 ^ 27 -> translate (link h t b j) 2 root n = translate h 2 root n.
Proof.
  intros Hn. apply (translate_frame h root lab Hwf _ _ _ _ 0); [lia|apply (wf_root _ _ _ Hwf)| |].
  { change (512 ^ Z.of_nat 3) with (2 ^ 27). apply Z.div_small. lia. }
  intros t' d p H Hp. rewrite ent_link. destruct (decide (t' = b /\ idx d n = j)) as [[-> Hi]|Hne].
  - right. rewrite Hb in H. injection H as <- <-. rewrite Hi. split; [done|]. split; [done|].
    rewrite target_subtable by done. apply translate_empty.
  - left. rewrite decide_False; [done|]. intros ->. pose proof fresh_unlabelled. congruence.
Qed.
End link.

(** ** [set_page] *)

(** A leaf entry is written: the tables stay what they are. *)
Lemma put_leaf_wf h root lab b P i v :
  tables_wf h root lab -> lab b = Some (0%nat, P) -> tables_wf (put h b i v) root lab.
Proof.
  intros Hwf Hb. assert (forall t d p j, lab t = Some (S d, p) -> ent (put h b i v) t j = ent h t j) as He.
  { intros t d p j Ht. rewrite ent_put, decide_False; [done|]. intros [-> _]. congruence. }
  split.
  - apply (wf_root _ _ _ Hwf).
  - intros t d p Ht. destruct (wf_table _ _ _ Hwf _ _ _ Ht) as (? & ? & ? & ?). split_and!; try lia.
    by apply put_some.
  - intros t d p j Ht Hj. rewrite (He _ _ _ _ Ht). by apply (wf_sub _ _ _ Hwf).
  - intros t d p j Ht Hj. rewrite (He _ _ _ _ Ht). by apply (wf_table_entry _ _ _ Hwf _ _ _ _ Ht).
Qed.

Section set_page.
Context `{Platform} (root : Z).
(** The allocator returns blocks that are not in use, aligned, below 2^48. *)
Hypothesis Halloc : forall used t, heap_alloc used = Some t ->
  t ∉ used /\ t mod 4096 = 0 /\ 0 <= t < 2 ^ 48.

Definition leaf (e : Z) : option Z := if s1_is_valid e then Some e else None.

(** What [set_page] or an error of the allocator leaves *)
Definition mapped (h : heap_t) (lab : Z -> option (nat * Z)) (D : nat) (b n e : Z)
    (r : outcome MmError unit) (h' : heap_t) : Prop :=
  exists lab', tables_wf h' root lab'
  /\ (forall t x, lab t = Some x -> lab' t = Some x)
  /\ (forall t d p i, lab t = Some (d, p) -> (D < d)%nat -> ent h' t i = ent h t i)
  /\ (forall m, 0 <= m < 2 ^ 27 -> m <> n -> translate h' 2 root m = translate h 2 root m)
  /\ (size (dom h') <= size (dom h) + D)%nat
  /\ (reach h D b n = true -> dom h' = dom h)
  /\ ((r = Ok tt /\ translate h' D b n = leaf e /\ reach h' D b n = true)
      \/ (r = Err MmAllocFail /\ reach h D b n = false
          /\ (exists used, heap_alloc used = None /\ (size used < size (dom h) + D)%nat)
          /\ translate h' 2 root n = translate h 2 root n)).

Lemma pn_range va : 0 <= pn va < 2 ^ 27.
Proof. apply Z.mod_pos_bound. lia. Qed.

Lemma set_page_leaf h lab b P va phys flags :
  tables_wf h root lab -> lab b = Some (0%nat, P) -> pn va / 512 ^ Z.of_nat 1 = P ->
  exists r h', set_page 3 S1_MAP_EXTRA_FLAG 0 b TABLE_SIZE va phys flags h = (r, h')
    /\ mapped h lab 0 b (pn va) (s1_set phys (Z.lor flags S1_MAP_EXTRA_FLAG)) r h'.
Proof.
  intros Hwf Hb HP. cbn [set_page]. change (negb (this_level 0 =? 3)) with false. cbv iota.
  rewrite s1_slot by lia. mstep. destruct (wf_table _ _ _ Hwf _ _ _ Hb) as (Ha & _ & Hs & _).
  set (e := s1_set _ _). eexists _, _. split; [reflexivity|].
  rewrite write_put by (done || apply idx_range). exists lab. split; [by eapply put_leaf_wf|].
  pose proof (pn_range va) as Hn. split; [done|]. split.
  { intros t d p i Ht Hd. rewrite ent_put, decide_False; [done|]. intros [-> _]. rewrite Hb in Ht.
    injection Ht. lia. }
  split.
  { intros m Hm Hne. eapply (translate_put h root lab Hwf); [lia|exact Hb|apply (wf_root _ _ _ Hwf)| |].
    - change (512 ^ Z.of_nat 3) with (2 ^ 27). apply Z.div_small. lia.
    - intros E. apply Hne. pose proof (idx_split 0 (pn va) ltac:(lia)) as Hx. rewrite HP in Hx.
      change (512 ^ Z.of_nat 0) with 1 in *. rewrite !Z.div_1_r in *. lia. }
  rewrite dom_put by done. split; [lia|]. split; [done|].
  left. split; [done|]. split; [|done]. cbn [translate]. rewrite ent_put, decide_True by done. done.
Qed.

Lemma subtable_walk d b va (h : heap_t) :
  (S d <= 2)%nat -> b mod 4096 = 0 ->
  subtable 3 (S d) b TABLE_SIZE va h
  = (if s1_points_to_table_or_page (ent h b (idx (S d) (pn va)))
     then Ok (target (ent h b (idx (S d) (pn va)))) else Err MmSubtableError, h).
Proof.
  intros Hd Hb. unfold subtable. rewrite (proj2 (Z.leb_gt _ _)) by (unfold this_level; lia).
  rewrite s1_slot by lia. mstep. rewrite read_ent by (done || apply idx_range).
  cbn [e_points_to_table_or_page e_address s1_entry_ops].
  destruct (s1_points_to_table_or_page _) eqn:Ep; [|done]. cbn [negb]. by rewrite points_address.
Qed.

(** Below a table that is there *)
Lemma mapped_below h lab D b P n e r h' :
  tables_wf h root lab -> lab b = Some (S D, P) ->
  s1_points_to_table_or_page (ent h b (idx (S D) n)) = true ->
  mapped h lab D (target (ent h b (idx (S D) n))) n e r h' -> mapped h lab (S D) b n e r h'.
Proof.
  intros Hwf Hb Hp (lab' & H1 & H2 & H3 & H4 & Hs & Hk & H5). exists lab'.
  split; [done|]. split; [done|]. split; [|split; [done|]; split; [lia|]; split].
  - intros t d p i Ht Hd. apply (H3 t d p i); [done|lia].
  - cbn [reach]. by rewrite Hp.
  - destruct H5 as [(-> & E & Er)|(-> & Er & (u & Hu & Hz) & E)]; [left|right].
    + split; [done|]. cbn [translate reach]. rewrite !(H3 b (S D) P _ Hb) by lia. by rewrite Hp, Er.
    + split; [done|]. cbn [reach]. rewrite Hp, Er. split; [done|]. split; [|done]. exists u. split; [done|lia].
Qed.

(** Below a table that was just linked *)
Lemma mapped_link h lab D b P n e t r h' :
  tables_wf h root lab -> lab b = Some (S D, P) -> 0 <= n < 2 ^ 27 ->
  s1_points_to_table_or_page (ent h b (idx (S D) n)) = false ->
  h !! t = None -> t mod 4096 = 0 -> 0 <= t < 2 ^ 48 ->
  mapped (link h t b (idx (S D) n)) (link_lab lab t (idx (S D) n) D P) D t n e r h' ->
  mapped h lab (S D) b n e r h'.
Proof.
  intros Hwf Hb Hn Hp Hf Ha Hr (lab' & H1 & H2 & H3 & H4 & Hs & Hk & H5).
  pose proof (idx_range (S D) n) as Hj. set (j := idx (S D) n) in *.
  assert (forall t' x, lab t' = Some x -> link_lab lab t j D P t' = Some x) as Hl
    by (intros; by eapply link_lab_old).
  pose proof (fresh_unlabelled h root lab Hwf t Hf) as Hnl.
  assert (size (dom (link h t b j)) = S (size (dom h))) as Hsz.
  { destruct (wf_table _ _ _ Hwf _ _ _ Hb) as (_ & _ & Hsb & _). unfold link.
    rewrite dom_put. 2: { unfold heap_t in *. destruct (decide (t = b)) as [->|]; [rewrite lookup_insert_eq|
      rewrite lookup_insert_ne by done]; eauto. }
    unfold heap_t in *. rewrite dom_insert_L. rewrite size_union; [by rewrite size_singleton|].
    apply not_elem_of_dom in Hf. set_solver. }
  exists lab'. split; [done|]. split; [auto|]. split; [|split; [|split; [lia|split]]].
  - intros t' d p i Ht Hd. rewrite (H3 t' d p i) by (auto || lia). rewrite ent_link.
    rewrite decide_False by (intros [-> _]; rewrite Hb in Ht; injection Ht; lia).
    rewrite decide_False; [done|]. intros ->. congruence.
  - intros m Hm Hne. rewrite H4 by done. by eapply link_translate.
  - cbn [reach]. fold j. by rewrite Hp.
  - destruct H5 as [(-> & E & Er)|(-> & Er & (u & Hu & Hz) & E)].
    + left. split; [done|]. cbn [translate reach]. fold j. rewrite (H3 b (S D) P) by (auto || lia).
      rewrite ent_link, decide_True by done. rewrite points_subtable by (done || lia).
      by rewrite target_subtable, Er.
    + right. split; [done|]. split; [cbn [reach]; fold j; by rewrite Hp|]. split.
      * exists u. split; [done|]. lia.
      * rewrite E. by eapply link_translate.
Qed.

Lemma set_page_run D h lab b P va phys flags :
  tables_wf h root lab -> lab b = Some (D, P) -> pn va / 512 ^ Z.of_nat (S D) = P ->
  exists r h', set_page 3 S1_MAP_EXTRA_FLAG D b TABLE_SIZE va phys flags h = (r, h')
    /\ mapped h lab D b (pn va) (s1_set phys (Z.lor flags S1_MAP_EXTRA_FLAG)) r h'.
Proof.
  revert h lab b P. induction D as [|D IH]; intros h lab b P Hwf Hb HP; [by eapply set_page_leaf|].
  destruct (wf_table _ _ _ Hwf _ _ _ Hb) as (Ha & Hr & Hs & Hd). pose proof (pn_range va) as Hn.
  pose proof (idx_range (S D) (pn va)) as Hj. set (n := pn va) in *.
  assert (n / 512 ^ Z.of_nat (S D) = P * 512 + idx (S D) n) as HP' by (rewrite idx_split, HP by lia; done).
  cbn [set_page]. rewrite (proj2 (Z.ltb_ge _ _)) by (unfold this_level; lia).
  rewrite s1_slot by lia. mstep. rewrite (proj2 (Z.ltb_lt _ _)) by (unfold this_level; lia). fold n.
  destruct (s1_points_to_table_or_page (ent h b (idx (S D) n))) eqn:Ep.
  - erewrite bind_ok by (unfold catch; rewrite subtable_walk by (done || lia); fold n; rewrite Ep; reflexivity).
    destruct (IH h lab (target (ent h b (idx (S D) n))) _ Hwf
      (wf_sub _ _ _ Hwf _ _ _ _ Hb Hj Ep) HP') as (r & h' & E & Hm).
    exists r, h'. split; [done|]. by eapply mapped_below.
  - destruct (heap_alloc (dom h)) as [t|] eqn:Et.
    + destruct (Halloc _ _ Et) as (Hf%not_elem_of_dom & Ht & Htr).
      erewrite bind_ok by (unfold catch; rewrite subtable_walk by (done || lia); fold n; rewrite Ep;
        unfold new_in, heap_table_alloc, mbind, M_bind; rewrite Et; cbn [modify mret M_ret];
        rewrite write_put by done; reflexivity).
      destruct (IH (link h t b (idx (S D) n)) (link_lab lab t (idx (S D) n) D P) t (P * 512 + idx (S D) n))
        as (r & h' & E & Hm).
      * by apply link_wf.
      * unfold link_lab. apply fn_lookup_insert.
      * done.
      * exists r, h'. split; [exact E|]. by eapply mapped_link.
    + eexists _, h. split.
      { erewrite bind_err; [reflexivity|]. unfold catch. rewrite subtable_walk by (done || lia).
        fold n. rewrite Ep. unfold new_in, heap_table_alloc, mbind, M_bind. by rewrite Et. }
      exists lab. split; [done|]. split; [done|]. split; [done|]. split; [done|]. split; [lia|].
      split; [done|]. right. split; [done|]. split; [cbn [reach]; fold n; by rewrite Ep|].
      split; [|done]. exists (dom h). split; [done|lia].
Qed.

(** ** [unset_page] *)
Definition cleared (h : heap_t) (lab : Z -> option (nat * Z)) (D : nat) (b n : Z) (h' : heap_t) : Prop :=
  tables_wf h' root lab
  /\ (forall t d p i, lab t = Some (d, p) -> (D < d)%nat -> ent h' t i = ent h t i)
  /\ (forall m, 0 <= m < 2 ^ 27 -> m <> n -> translate h' 2 root m = translate h 2 root m)
  /\ translate h' D b n = None
  /\ dom h' = dom h.

Lemma cleared_same h lab D b n :
  tables_wf h root lab -> translate h D b n = None -> cleared h lab D b n h.
Proof. intros Hwf Ht. split; [exact Hwf|]. split; [done|]. split; [done|]. by split. Qed.

Lemma entry_clear_run D h lab b P va :
  tables_wf h root lab -> lab b = Some (D, P) -> pn va / 512 ^ Z.of_nat (S D) = P ->
  exists r h', entry 3 D b TABLE_SIZE va 3 false (fun e => modify (write_word e 0)) h = (r, h')
    /\ (exists x, r = Ok x \/ r = Err MmNoEntry) /\ cleared h lab D b (pn va) h'.
Proof.
  revert h lab b P. induction D as [|D IH]; intros h lab b P Hwf Hb HP;
    destruct (wf_table _ _ _ Hwf _ _ _ Hb) as (Ha & Hr & Hs & Hd); pose proof (pn_range va) as Hn;
    set (n := pn va) in *; cbn [entry].
  - change (negb (this_level 0 =? 3)) with false. change (3 <? 3) with false.
    change (negb (3 =? this_level 0)) with false. cbv iota. rewrite s1_slot by lia. mstep. fold n.
    rewrite read_ent by (done || apply idx_range). cbn [e_is_valid s1_entry_ops].
    destruct (s1_is_valid (ent h b (idx 0 n))) eqn:Ev.
    + mstep. rewrite write_put by (done || apply idx_range). eexists _, _. split; [reflexivity|].
      split; [eauto|]. split; [by eapply put_leaf_wf|]. split; [|split; [|split]].
      * intros t d p i Ht Hlt. rewrite ent_put, decide_False; [done|]. intros [-> _]. rewrite Hb in Ht.
        injection Ht. lia.
      * intros m Hm Hne. eapply (translate_put h root lab Hwf); [lia|exact Hb|apply (wf_root _ _ _ Hwf)| |].
        -- change (512 ^ Z.of_nat 3) with (2 ^ 27). apply Z.div_small. lia.
        -- intros E. apply Hne. pose proof (idx_split 0 n ltac:(lia)) as Hx. rewrite HP in Hx.
           change (512 ^ Z.of_nat 0) with 1 in *. rewrite !Z.div_1_r in *. lia.
      * cbn [translate]. by rewrite ent_put, decide_True.
      * by apply dom_put.
    + eexists _, _. split; [reflexivity|]. split; [by exists (None, 0); right|].
      apply cleared_same; [done|]. cbn [translate]. by rewrite Ev.
  - rewrite !(proj2 (Z.ltb_ge _ _)) by (unfold this_level; lia). rewrite s1_slot by lia. mstep. fold n.
    rewrite read_ent by (done || apply idx_range).
    cbn [e_is_valid e_points_to_table_or_page s1_entry_ops negb andb].
    pose proof (idx_range (S D) n) as Hj.
    destruct (s1_is_valid (ent h b (idx (S D) n))) eqn:Ev; cbn [negb].
    + pose proof (wf_table_entry _ _ _ Hwf _ _ _ _ Hb Hj Ev) as Ep. rewrite Ep.
      rewrite (proj2 (Z.ltb_lt _ _)) by (unfold this_level; lia). cbn [andb].
      erewrite bind_ok by (unfold ok; rewrite subtable_walk by (done || lia); fold n; rewrite Ep; reflexivity).
      destruct (IH h lab (target (ent h b (idx (S D) n))) (P * 512 + idx (S D) n) Hwf
        (wf_sub _ _ _ Hwf _ _ _ _ Hb Hj Ep)) as (r & h' & E & Hx & (H1 & H2 & H3 & H4 & H5)).
      { rewrite idx_split, HP by lia. done. }
      exists r, h'. split; [done|]. split; [done|]. split; [done|]. split; [|split; [done|split; [|done]]].
      * intros t d p i Ht Hlt. apply (H2 t d p i); [done|lia].
      * cbn [translate]. rewrite (H2 b (S D) P _ Hb) by lia. by rewrite Ep.
    + eexists _, _. split; [reflexivity|]. split; [by exists (None, 0); right|].
      apply cleared_same; [done|]. cbn [translate].
      unfold s1_points_to_table_or_page. by rewrite Ev.
Qed.

Lemma unset_page_run h lab va :
  tables_wf h root lab ->
  exists h', unset_page 3 2 root TABLE_SIZE va h = (Ok tt, h') /\ cleared h lab 2 root (pn va) h'.
Proof.
  intros Hwf. pose proof (wf_root _ _ _ Hwf) as Hroot.
  destruct (wf_table _ _ _ Hwf _ _ _ Hroot) as (Ha & _). unfold unset_page.
  rewrite s1_slot by lia. mstep. rewrite read_ent by (done || apply idx_range). cbn [e_is_valid s1_entry_ops].
  destruct (s1_is_valid (ent h root (idx 2 (pn va)))) eqn:Ev.
  - destruct (entry_clear_run 2 h lab root 0 va Hwf Hroot) as (r & h' & E & [x Hx] & Hc).
    { change (512 ^ Z.of_nat 3) with (2 ^ 27). apply Z.div_small, pn_range. }
    exists h'. split; [|done]. unfold catch, mbind, M_bind. rewrite E. by destruct Hx as [-> | ->].
  - exists h. split; [done|]. apply cleared_same; [done|]. cbn [translate].
    unfold s1_points_to_table_or_page. by rewrite Ev.
Qed.
End set_page.
