(* ===== verification/Boot.v ===== *)
(** * Boot of a CPU (rmm/src/lib.rs, mm/translation.rs, cpu.rs, plat/fvp)

    The RMM's own address space, filled once from the memory layout of the
    platform ([Inner::fill]), the stacks of the CPUs and the EL2 registers that
    are set before the monitor runs. The tables live in the heap, as in [Stage1];
    [Inner] is the global [RMM_PAGE_TABLE]. *)

From S2P Require Import Prelude Bits Vmsa RmiTypes Granule Objects Machine RmiRec PageTable Stage1.

#[local] Existing Instances s1_entry_ops heap_words heap_table_alloc.

(** ** config.rs *)
Record PlatformMemoryLayout : Set := mkLayout {
  rmm_base : Z;
  rw_start : Z;
  rw_end : Z;
  stack_base : Z;
  uart_phys : Z
}.
Definition NUM_OF_CLUSTER : Z := 2.
Definition NUM_OF_CPU_PER_CLUSTER : Z := Config.NUM_OF_CPU / NUM_OF_CLUSTER.
Definition RMM_STACK_GUARD_SIZE : Z := 4096 * 1.
Definition RMM_STACK_SIZE : Z := 1024 * 1024 - RMM_STACK_GUARD_SIZE.
Definition RMM_SHARED_BUFFER_START : Z := 0xFFBFF000.

(** ** cpu.rs *)
Definition cpu_id_of (mpidr : Z) : Z * Z :=
  (get_masked_value mpidr (define_mask 23 16), get_masked_value mpidr (define_mask 15 8)).
Definition get_cpu_id (mpidr : Z) : Z :=
  let '(cluster, core) := cpu_id_of mpidr in cluster * NUM_OF_CPU_PER_CLUSTER + core.

(** ** plat/fvp/src/entry.rs: [stacks] is the address of [RMM_STACK] *)
Definition current_cpu_stack {E} (stacks mpidr : Z) : outcome E Z :=
  let cpu_id := get_cpu_id mpidr in
  if Config.NUM_OF_CPU <=? cpu_id then Panicked
  else Ok (stacks + cpu_id * (RMM_STACK_SIZE + RMM_STACK_GUARD_SIZE) + RMM_STACK_SIZE).

(** [init_mm]: the assertion on TGran4 and the index into the table *)
Definition pa_bits_table : list Z := [32; 36; 40; 42; 44; 48; 52].
Definition init_mm {E} (mmfr0 : Z) : outcome E Z :=
  if negb (get_masked_value mmfr0 (define_mask 31 28) =? 0) then Panicked
  else unwrap (pa_bits_table !! Z.to_nat (get_masked_value mmfr0 (define_mask 3 0))).

(** plat/fvp/src/main.rs: the symbols of the linker script and the UART *)
Definition fvp_layout (base rw_start rw_end stacks : Z) : PlatformMemoryLayout :=
  mkLayout base rw_start rw_end stacks 0x1c0c0000.

(** ** mm/translation.rs *)
Section translation.
Context `{Platform}.

Record Inner : Type := mkInner { tables : heap_t; root_pgtbl : Z; dirty : bool }.

(** [Inner::new]: the [unwrap] on the root table *)
Definition inner_new : M heap_t MmError Inner :=
  root ← catch new_in (fun _ => panic);
  h ← get_state;
  mret (mkInner h root false).

Definition on_tables {A} (f : Z -> M heap_t MmError A) : M Inner MmError A := fun s =>
  let '(r, h) := f (root_pgtbl s) (tables s) in (r, mkInner h (root_pgtbl s) (dirty s)).

Definition fill (layout : PlatformMemoryLayout) : M Inner MmError unit :=
  s ← get_state;
  if dirty s then mret tt
  else
    let ro_flags := bits_in_reg PTDesc.AP s1attr.RO in
    let rw_flags := bits_in_reg PTDesc.AP s1attr.RW in
    let rmm_flags := bits_in_reg PTDesc.INDX s1attr.RMM_MEM in
    let device_flags := bits_in_reg PTDesc.INDX s1attr.DEVICE_MEM in
    let base_address := rmm_base layout in
    let rw_start := rw_start layout in
    let ro_size := Word.sub rw_start base_address in
    let rw_size := Word.sub (rw_end layout) rw_start in
    let uart_phys := uart_phys layout in
    let shared_start := RMM_SHARED_BUFFER_START in
    on_tables (fun root =>
      inner_set_pages root base_address base_address ro_size (Z.lor ro_flags rmm_flags));;
    on_tables (fun root =>
      inner_set_pages root rw_start rw_start rw_size (Z.lor rw_flags rmm_flags));;
    let per_cpu := RMM_STACK_GUARD_SIZE + RMM_STACK_SIZE in
    for_range (Z.to_nat Config.NUM_OF_CPU) 0 (fun i =>
      let stack_base := Word.add (stack_base layout) (per_cpu * i) in
      on_tables (fun root =>
        inner_set_pages root stack_base stack_base RMM_STACK_SIZE (Z.lor rw_flags rmm_flags)));;
    on_tables (fun root =>
      inner_set_pages root uart_phys uart_phys Config.PAGE_SIZE (Z.lor rw_flags device_flags));;
    on_tables (fun root =>
      inner_set_pages root shared_start shared_start Config.PAGE_SIZE (Z.lor rw_flags rmm_flags));;
    modify (fun s => mkInner (tables s) (root_pgtbl s) true).

(** [drop] of lib/vmsa/src/page_table.rs: the tables below, then the table
    itself. Freeing a block that is not in use is undefined; here it panics. *)
Definition deallocate (t : Z) : M heap_t MmError unit :=
  h ← get_state;
  match h !! t with
  | Some _ => modify (delete t : heap_t -> heap_t)
  | None => panic
  end.
Fixpoint drop (depth : nat) (base : Z) : M heap_t MmError unit :=
  (match depth with
   | O => mret tt
   | S depth' =>
       for_range 512 0 (fun i =>
         h ← get_state;
         let e := read_word (base + ENTRY_SIZE * i) h in
         if e_points_to_table_or_page e then
           subtable_addr ← lift (unwrap (e_address e (this_level depth)));
           drop depth' subtable_addr
         else mret tt)
   end);;
  deallocate base.
Definition drop_page_table : M Inner MmError unit := on_tables (drop S1_DEPTH).
End translation.

(** ** lib.rs: the EL2 registers *)
Record El2Regs : Set := mkEl2Regs {
  HCR_EL2 : Z;
  VBAR_EL2 : Z;
  SCTLR_EL2 : Z;
  CPTR_EL2_value : Z;
  ICC_SRE_EL2 : Z;
  MAIR_EL2 : Z;
  TCR_EL2 : Z;
  TTBR0_EL2 : Z
}.
Definition bit (n : Z) : Z := Z.shiftl 1 n.

(** FWB, TEA, TERR, TLOR, RW, TSW, TACR, TIDCP, TSC, TID3, BSU = inner shareable,
    FB, AMO, IMO, FMO, VM *)
Definition HCR_EL2_BOOT : Z :=
  bit 46 + bit 37 + bit 36 + bit 35 + bit 31 + bit 22 + bit 21 + bit 20 + bit 19 + bit 18 + bit 10
  + bit 9 + bit 5 + bit 4 + bit 3 + bit 0.
(** C, I, M, EOS *)
Definition SCTLR_EL2_BOOT : Z := bit 2 + bit 12 + bit 0 + bit 11.
(** Enable, DIB, DFB, SRE *)
Definition ICC_SRE_EL2_BOOT : Z := bit 3 + bit 2 + bit 1 + bit 0.
(** Normal write-back memory, device nGnRnE and device nGnRE *)
Definition MAIR_EL2_BOOT : Z := 0xff + Z.shiftl 0x00 8 + Z.shiftl 0x04 16.
(** T0SZ, PS = 40 bits, TG0 = 4 KiB, SH0 = inner, ORGN0, IRGN0 = write-back *)
Definition TCR_EL2_BOOT : Z :=
  0x19 + Z.shiftl 2 16 + Z.shiftl 0 14 + Z.shiftl 3 12 + Z.shiftl 1 10 + Z.shiftl 1 8.

(** [vectors] is the address of the exception vectors. *)
Definition setup_el2 (vectors : Z) (r : El2Regs) : El2Regs :=
  mkEl2Regs HCR_EL2_BOOT vectors SCTLR_EL2_BOOT CPTR_EL2.TAM ICC_SRE_EL2_BOOT (MAIR_EL2 r) (TCR_EL2 r)
    (TTBR0_EL2 r).

(** [setup_mmu_cfg]: the table is filled before TTBR0_EL2 points to it. *)
Definition setup_mmu_cfg `{Platform} (layout : PlatformMemoryLayout) (r : El2Regs)
    : M Inner MmError El2Regs :=
  fill layout;;
  s ← get_state;
  mret (mkEl2Regs (HCR_EL2 r) (VBAR_EL2 r) (SCTLR_EL2 r) (CPTR_EL2_value r) (ICC_SRE_EL2 r) MAIR_EL2_BOOT
          TCR_EL2_BOOT (root_pgtbl s)).
