(* ===== verification/BootFacts.v ===== *)
(** * The RMM's address space: theorems

    After boot the RMM's tables map exactly the regions of the memory layout, one
    to one, and the commands that map and unmap granules change one page each.
    The allocator is assumed to return blocks that are not in use, and to have
    enough of them for the tables of the layout. *)

From S2P Require Import Prelude Bytes Bits Vmsa RmiTypes Granule S2tte Objects Machine PageTable Stage1 Stage1Facts Stage1Map Boot Sample.
From stdpp Require Import gmap.
Open Scope Z_scope.

#[local] Existing Instances s1_entry_ops heap_words heap_table_alloc.

(** ** The specification *)
Definition space : Type := Z -> option Z.

(** The descriptor of page [n], mapped one to one *)
Definition descriptor (n flags : Z) : Z := s1_set (4096 * n) (Z.lor flags S1_MAP_EXTRA_FLAG).

(** The address space [f], changed at one page *)
Definition updated (n : Z) (v : option Z) (f : space) : space := fun m => if m =? n then v else f m.

Record Region : Set := mkRegion { r_va : Z; r_size : Z; r_flags : Z }.
Definition first_page (r : Region) : Z := r_va r / 4096.
Definition last_page (r : Region) : Z := (r_va r + r_size r - 1) / 4096.
Definition in_region (r : Region) (n : Z) : bool := (first_page r <=? n) && (n <=? last_page r).

(** A region mapped over what was there *)
Definition overlay (r : Region) (f : space) : space := fun n =>
  if in_region r n then Some (descriptor n (r_flags r)) else f n.

Definition RO_RMM : Z := Z.lor (bits_in_reg PTDesc.AP s1attr.RO) (bits_in_reg PTDesc.INDX s1attr.RMM_MEM).
Definition RW_RMM : Z := Z.lor (bits_in_reg PTDesc.AP s1attr.RW) (bits_in_reg PTDesc.INDX s1attr.RMM_MEM).
Definition RW_DEVICE : Z := Z.lor (bits_in_reg PTDesc.AP s1attr.RW) (bits_in_reg PTDesc.INDX s1attr.DEVICE_MEM).

Definition stack_region (l : PlatformMemoryLayout) (i : Z) : Region :=
  mkRegion (stack_base l + (RMM_STACK_GUARD_SIZE + RMM_STACK_SIZE) * i) RMM_STACK_SIZE RW_RMM.
Definition regions (l : PlatformMemoryLayout) : list Region :=
  [mkRegion (rmm_base l) (rw_start l - rmm_base l) RO_RMM;
   mkRegion (rw_start l) (rw_end l - rw_start l) RW_RMM]
  ++ (stack_region l <$> seqZ 0 Config.NUM_OF_CPU)
  ++ [mkRegion (uart_phys l) Config.PAGE_SIZE RW_DEVICE;
      mkRegion RMM_SHARED_BUFFER_START Config.PAGE_SIZE RW_RMM].

(** The address space of a layout: later regions cover earlier ones. *)
Definition boot_space (l : PlatformMemoryLayout) : space :=
  foldl (fun f r => overlay r f) (fun _ => None) (regions l).

Definition region_ok (r : Region) : Prop :=
  r_va r mod 4096 = 0 /\ 0 <= r_va r /\ 0 < r_size r /\ r_va r + r_size r <= 2 ^ 39.
Definition layout_ok (l : PlatformMemoryLayout) : Prop :=
  rmm_base l mod 4096 = 0 /\ rw_start l mod 4096 = 0 /\ stack_base l mod 4096 = 0
  /\ uart_phys l mod 4096 = 0 /\ 0 <= rmm_base l < rw_start l /\ rw_start l < rw_end l <= 2 ^ 38
  /\ 0 <= stack_base l < 2 ^ 38 /\ 0 <= uart_phys l < 2 ^ 38.

(** Tables a region can need *)
Definition tables_for (r : Region) : Z := 2 * (last_page r / 512 - first_page r / 512 + 1).
Definition tables_needed (l : PlatformMemoryLayout) : Z :=
  1 + foldr (fun r k => tables_for r + k) 0 (regions l).

Lemma layout_regions_ok l : layout_ok l -> Forall region_ok (regions l).
Proof.
  intros (H1 & H2 & H3 & H4 & H5 & H6 & H7 & H8). unfold regions. rewrite !Forall_app. split_and!.
  - rewrite !Forall_cons, Forall_nil. unfold region_ok. cbn [r_va r_size]. split_and!; lia.
  - apply Forall_fmap, Forall_forall. intros i Hi%elem_of_seqZ. cbn. unfold region_ok. cbn.
    change (0 + Config.NUM_OF_CPU) with 8 in Hi.
    unfold RMM_STACK_GUARD_SIZE, RMM_STACK_SIZE. unfold RMM_STACK_GUARD_SIZE.
    split_and!; try lia. rewrite Z.add_mod, H3 by lia.
    replace ((4096 * 1 + (1024 * 1024 - 4096 * 1)) * i) with (256 * i * 4096) by lia.
    by rewrite Z.mod_mul.
  - rewrite !Forall_cons, Forall_nil. unfold region_ok. cbn [r_va r_size].
    change Config.PAGE_SIZE with 4096. unfold RMM_SHARED_BUFFER_START. split_and!; (done || lia).
Qed.

Lemma tables_for_pos r : region_ok r -> 0 <= tables_for r.
Proof.
  intros (? & ? & ? & ?). unfold tables_for.
  assert (first_page r / 512 <= last_page r / 512); [|lia].
  apply Z.div_le_mono; [lia|]. apply Z.div_le_mono; lia.
Qed.

Lemma descriptor_valid n flags : s1_is_valid (descriptor n flags) = true.
Proof.
  unfold s1_is_valid, descriptor, s1_set. rewrite !get_masked_value_lor.
  change (get_masked_value S1_MAP_EXTRA_FLAG PTDesc.VALID) with 1.
  apply negb_true_iff, Z.eqb_neq. intros [_ [_ E]%Z.lor_eq_0_iff]%Z.lor_eq_0_iff. done.
Qed.

Lemma pn_mod n : pn (4096 * n) = n mod 2 ^ 27.
Proof. unfold pn. by rewrite Z.mul_comm, Z.div_mul by lia. Qed.

(** Pages of one table need the same tables. *)
Lemma reach_same_table h root n m : n / 512 = m / 512 -> reach h 2 root n = reach h 2 root m.
Proof.
  intros E. assert (idx 1 n = idx 1 m) as E1.
  { unfold idx. change (512 ^ Z.of_nat 1) with 512. by rewrite E. }
  assert (idx 2 n = idx 2 m) as E2.
  { unfold idx. change (512 ^ Z.of_nat 2) with (512 * 512). by rewrite <- !Z.div_div, E by lia. }
  cbn [reach]. by rewrite E1, E2.
Qed.

(** ** Mapping a region *)
Section boot.
Context `{Platform} (root : Z) (blocks : Z).
Hypothesis Halloc : forall used t, heap_alloc used = Some t ->
  t ∉ used /\ t mod 4096 = 0 /\ 0 <= t < 2 ^ 48.
Hypothesis Hblocks : forall used, Z.of_nat (size used) < blocks -> is_Some (heap_alloc used).

#[local] Abbreviation tables_in_use h := (Z.of_nat (size (@dom heap_t (gset Z) _ h))).

(** The tables are well formed and mean the address space [f]. *)
Definition means (h : heap_t) (f : space) : Prop :=
  (exists lab, tables_wf h root lab) /\ forall n, 0 <= n < 2 ^ 27 -> translate h 2 root n = f n.

Lemma means_ext h f g : means h f -> (forall n, 0 <= n < 2 ^ 27 -> f n = g n) -> means h g.
Proof. intros [Hw Hf] He. split; [done|]. intros n Hn. by rewrite Hf, He. Qed.

(** One page; [tables_in_use] grows only if the tables for it were missing. The
    tables have three levels: they distinguish page numbers modulo 2^27. *)
Lemma any_page_run h f n flags :
  means h f ->
  (reach h 2 root (n mod 2 ^ 27) = true \/ tables_in_use h + 2 <= blocks) ->
  exists h', set_page 3 S1_MAP_EXTRA_FLAG 2 root TABLE_SIZE (4096 * n) (4096 * n) flags h = (Ok tt, h')
    /\ means h' (updated (n mod 2 ^ 27) (Some (descriptor n flags)) f)
    /\ reach h' 2 root (n mod 2 ^ 27) = true
    /\ tables_in_use h' <= tables_in_use h + (if reach h 2 root (n mod 2 ^ 27) then 0 else 2).
Proof.
  intros [[lab Hwf] Hf] Hb. pose proof (pn_range (4096 * n)) as Hn.
  destruct (set_page_run root Halloc 2 h lab root 0 (4096 * n) (4096 * n) flags Hwf (wf_root _ _ _ Hwf))
    as (r & h' & E & (lab' & H1 & _ & _ & H4 & Hs & Hk & H5)).
  { change (512 ^ Z.of_nat 3) with (2 ^ 27). by apply Z.div_small. }
  rewrite pn_mod in H4, Hk, H5, Hn.
  destruct H5 as [(-> & Ht & Hr)|(-> & Hr & (u & Hu & Hz) & _)].
  - exists h'. split; [done|]. split; [|split; [done|]].
    + split; [eauto|]. intros m Hm. unfold updated.
      destruct (Z.eqb_spec m (n mod 2 ^ 27)) as [->|Hne]; [|by rewrite H4, Hf].
      rewrite Ht. unfold leaf. fold (descriptor n flags). by rewrite descriptor_valid.
    + destruct (reach h 2 root (n mod 2 ^ 27)); [rewrite (Hk eq_refl)|]; lia.
  - exfalso. destruct Hb as [Hb|Hb]; [congruence|].
    destruct (Hblocks u) as [x Hx]; [lia|congruence].
Qed.

Lemma page_run h f n flags :
  means h f -> 0 <= n < 2 ^ 27 ->
  (reach h 2 root n = true \/ tables_in_use h + 2 <= blocks) ->
  exists h', set_page 3 S1_MAP_EXTRA_FLAG 2 root TABLE_SIZE (4096 * n) (4096 * n) flags h = (Ok tt, h')
    /\ means h' (updated n (Some (descriptor n flags)) f)
    /\ reach h' 2 root n = true
    /\ tables_in_use h' <= tables_in_use h + (if reach h 2 root n then 0 else 2).
Proof.
  intros Hm Hn. pose proof (any_page_run h f n flags Hm) as Hr. by rewrite (Z.mod_small n) in Hr.
Qed.

(** The pages [n], ..., [n + k], from the iterator *)
Lemma pages_run k h f n flags :
  means h f -> 0 <= n -> n + Z.of_nat k < 2 ^ 27 ->
  tables_in_use h + 2 * ((n + Z.of_nat k) / 512 - n / 512 + (if reach h 2 root n then 0 else 1)) <= blocks ->
  let it := mkPageIter (4096 * n) (4096 * (n + Z.of_nat k)) in
  exists h', loopN (fun '(guest, phys) =>
      match next Config.PAGE_SIZE guest with
      | (None, _) => mret (inr tt)
      | (Some g, guest') =>
          match next Config.PAGE_SIZE phys with
          | (None, _) => panic
          | (Some p, phys') =>
              set_page 3 S1_MAP_EXTRA_FLAG 2 root TABLE_SIZE g p flags;; mret (inl (guest', phys'))
          end
      end) (2 + k) (it, it) h = (Ok (inr tt), h')
    /\ means h' (fun m => if (n <=? m) && (m <=? n + Z.of_nat k) then Some (descriptor m flags) else f m)
    /\ tables_in_use h' <= tables_in_use h
         + 2 * ((n + Z.of_nat k) / 512 - n / 512 + (if reach h 2 root n then 0 else 1)).
Proof.
  revert h f n. induction k as [|k IH]; intros h f n Hm Hn Hk Hb it.
  all: assert (next Config.PAGE_SIZE it = (Some (4096 * n), mkPageIter (4096 * (n + 1)) (Vmsa.last it))) as En
    by (unfold next, it; cbn [current Vmsa.last]; rewrite (proj2 (Z.leb_le _ _)) by lia;
        change Config.PAGE_SIZE with 4096; rewrite Word.add_small by (unfold Word.modulus; lia);
        repeat f_equal; lia).
  all: destruct (page_run h f n flags Hm ltac:(lia)) as (h1 & E1 & M1 & R1 & S1);
    [destruct (reach h 2 root n); [by left|right; Z.div_mod_to_equations; lia]|].
  - exists h1. rewrite Z.add_0_r in *. split; [|split].
    + cbn [Nat.add loopN]. rewrite En. mstep. erewrite bind_ok by exact E1. mstep.
      unfold next. cbn [current Vmsa.last it]. rewrite (proj2 (Z.leb_gt _ _)) by lia. by mstep.
    + eapply means_ext; [exact M1|]. intros m Hm'. unfold updated.
      destruct (Z.eqb_spec m n) as [->|Hne].
      * by rewrite (proj2 (Z.leb_le n n)) by lia.
      * destruct (Z.leb_spec n m), (Z.leb_spec m n); cbn [andb]; done || lia.
    + rewrite Z.sub_diag in *. destruct (reach h 2 root n); lia.
  - assert (n + Z.of_nat (S k) = n + 1 + Z.of_nat k) as Ek by lia. rewrite Ek in *.
    assert (tables_in_use h1 + 2 * ((n + 1 + Z.of_nat k) / 512 - (n + 1) / 512
        + (if reach h1 2 root (n + 1) then 0 else 1))
      <= tables_in_use h + 2 * ((n + 1 + Z.of_nat k) / 512 - n / 512
        + (if reach h 2 root n then 0 else 1))) as Hbud.
    { destruct (decide ((n + 1) / 512 = n / 512)) as [Es|Es].
      - rewrite (reach_same_table h1 root (n + 1) n Es), R1, Es. destruct (reach h 2 root n); lia.
      - assert ((n + 1) / 512 = n / 512 + 1) as -> by (Z.div_mod_to_equations; lia).
        destruct (reach h 2 root n), (reach h1 2 root (n + 1)); lia. }
    destruct (IH h1 _ (n + 1) M1 ltac:(lia) ltac:(lia) ltac:(lia)) as (h2 & E2 & M2 & S2).
    exists h2. split; [|split].
    + change (2 + S k)%nat with (S (2 + k)). cbn [loopN]. rewrite En. mstep.
      erewrite bind_ok by exact E1. mstep. cbn [Vmsa.last it]. rewrite Ek. exact E2.
    + eapply means_ext; [exact M2|]. intros m Hm'. unfold updated.
      destruct (Z.leb_spec (n + 1) m), (Z.leb_spec m (n + 1 + Z.of_nat k)), (Z.leb_spec n m);
        cbn [andb]; try done; try lia;
        destruct (Z.eqb_spec m n) as [->|]; try done; try lia.
    + lia.
Qed.

Lemma range_region r :
  region_ok r ->
  range_with_size (E := MmError) Config.PAGE_SIZE (r_va r) (r_size r)
  = Ok (mkPageIter (4096 * first_page r) (4096 * last_page r)).
Proof.
  intros (Hm & H0 & Hs & He). unfold range_with_size, including_address.
  change Config.PAGE_SIZE with (2 ^ 12).
  rewrite Word.add_small, Word.sub_small by (unfold Word.modulus; lia).
  rewrite !align_down_pow2 by (unfold Word.in_range, Word.modulus; lia).
  change (2 ^ 12) with 4096. unfold first_page, last_page.
  replace (r_va r - r_va r mod 4096) with (4096 * (r_va r / 4096)) by (Z.div_mod_to_equations; lia).
  set (x := r_va r + r_size r - 1).
  replace (x - x mod 4096) with (4096 * (x / 4096)) by (Z.div_mod_to_equations; lia).
  unfold range. rewrite (proj2 (Z.leb_le _ _)); [done|]. unfold x. Z.div_mod_to_equations. lia.
Qed.

Lemma region_run h f r :
  means h f -> region_ok r -> tables_in_use h + tables_for r <= blocks ->
  exists h', inner_set_pages root (r_va r) (r_va r) (r_size r) (r_flags r) h = (Ok tt, h')
    /\ means h' (overlay r f) /\ tables_in_use h' <= tables_in_use h + tables_for r.
Proof.
  intros Hm Hr Hb. pose proof Hr as (Hmod & H0 & Hs & He).
  unfold inner_set_pages. rewrite (range_region r Hr). mstep.
  assert (first_page r <= last_page r < 2 ^ 27) as Hp
    by (unfold first_page, last_page; Z.div_mod_to_equations; lia).
  assert (0 <= first_page r) as Hf by (unfold first_page; Z.div_mod_to_equations; lia).
  set (k := Z.to_nat (last_page r - first_page r)).
  assert (first_page r + Z.of_nat k = last_page r) as Ek by lia.
  destruct (pages_run k h f (first_page r) (r_flags r) Hm Hf) as (h' & E & M & S).
  { lia. }
  { rewrite Ek. unfold tables_for in Hb. destruct (reach _ _ _ _); lia. }
  rewrite Ek in E, M, S. exists h'. split; [|split; [exact M|]].
  - erewrite bind_ok; [reflexivity|]. unfold ok, set_pages, S1_MAP_TABLE_LEVEL, S1_DEPTH.
    erewrite loop_or_hang_done; [reflexivity| |exact E]. unfold SET_PAGES_BOUND. lia.
  - unfold tables_for. destruct (reach _ _ _ _); lia.
Qed.

(** [set_pages] of a region on the global table *)
Definition map_region (r : Region) : M Inner MmError unit :=
  on_tables (fun root => inner_set_pages root (r_va r) (r_va r) (r_size r) (r_flags r)).

Lemma regions_run rs h f d :
  means h f -> Forall region_ok rs ->
  tables_in_use h + foldr (fun r k => tables_for r + k) 0 rs <= blocks ->
  exists h', for_each rs map_region (mkInner h root d) = (Ok tt, mkInner h' root d)
    /\ means h' (foldl (fun f r => overlay r f) f rs)
    /\ tables_in_use h' <= tables_in_use h + foldr (fun r k => tables_for r + k) 0 rs.
Proof.
  intros Hm Hr. revert h f Hm. induction Hr as [|r rs Hr Hrs IH]; intros h f Hm Hb; cbn [foldr] in Hb.
  - exists h. split; [done|]. split; [done|]. cbn [foldr]. lia.
  - assert (0 <= foldr (fun r k => tables_for r + k) 0 rs) as Hpos.
    { clear -Hrs. induction Hrs as [|r rs Hr _ IH]; cbn [foldr]; [lia|].
      pose proof (tables_for_pos r Hr). lia. }
    destruct (region_run h f r Hm Hr ltac:(lia)) as (h1 & E1 & M1 & S1).
    destruct (IH h1 _ M1 ltac:(lia)) as (h2 & E2 & M2 & S2). exists h2.
    split; [|split; [done|cbn [foldr]; lia]]. cbn [for_each]. erewrite bind_ok; [exact E2|]. unfold map_region, on_tables. cbn [root_pgtbl tables].
    by rewrite E1.
Qed.

Lemma for_range_each {S E A} (n : nat) (i0 : Z) (g : Z -> A) (body : Z -> M S E unit)
    (body' : A -> M S E unit) s :
  (forall i s, i0 <= i < i0 + Z.of_nat n -> body i s = body' (g i) s) ->
  for_range n i0 body s = for_each (g <$> seqZ i0 (Z.of_nat n)) body' s.
Proof.
  revert i0 s. induction n as [|n IH]; intros i0 s Hb; [done|].
  rewrite seqZ_cons by lia. cbn [for_range fmap list_fmap for_each]. unfold mbind, M_bind.
  rewrite Hb by lia. destruct (body' (g i0) s) as [[]]; [|done..].
  replace (Z.pred (Z.of_nat (Datatypes.S n))) with (Z.of_nat n) by lia.
  replace (Z.succ i0) with (i0 + 1) by lia. apply IH. intros i s' Hi. apply Hb. lia.
Qed.
Lemma for_each_app {S E A} (xs ys : list A) (body : A -> M S E unit) s :
  for_each (xs ++ ys) body s = (for_each xs body;; for_each ys body) s.
Proof.
  revert s. induction xs as [|x xs IH]; intros s; [done|]. cbn [app for_each].
  rewrite bind_assoc. unfold mbind, M_bind. destruct (body x s) as [[]]; [|done..]. apply IH.
Qed.
Lemma bind_ext {S E A B} (m m' : M S E A) (k k' : A -> M S E B) s :
  (forall s, m s = m' s) -> (forall a s, k a s = k' a s) -> (m ≫= k) s = (m' ≫= k') s.
Proof. intros Hm Hk. unfold mbind, M_bind. rewrite Hm. destruct (m' s) as [[]]; [apply Hk|done..]. Qed.

(** [fill] maps the regions in order. *)
Lemma fill_regions l h :
  layout_ok l ->
  fill l (mkInner h root false)
  = (for_each (regions l) map_region;; modify (fun s => mkInner (tables s) (root_pgtbl s) true))
      (mkInner h root false).
Proof.
  intros (H1 & H2 & H3 & H4 & H5 & H6 & H7 & H8). unfold fill. mstep. cbn [dirty].
  rewrite (Word.sub_small (rw_start l)), (Word.sub_small (rw_end l)) by (unfold Word.modulus; lia).
  unfold regions. cbn [app for_each]. mstep. apply bind_ext; [done|intros [] s].
  mstep. apply bind_ext; [done|intros [] s'].
  etransitivity; [|symmetry; apply bind_ext; [intros; apply for_each_app|done]].
  mstep. apply bind_ext.
  - intros s2. apply for_range_each. intros i s3 Hi. unfold map_region, stack_region.
    cbn [r_va r_size r_flags]. change (0 + Z.of_nat (Z.to_nat Config.NUM_OF_CPU)) with 8 in Hi.
    by rewrite Word.add_small by (unfold Word.modulus, RMM_STACK_SIZE, RMM_STACK_GUARD_SIZE; lia).
  - intros [] s2. cbn [for_each]. mstep. apply bind_ext; [done|intros [] s3].
    mstep. unfold map_region, RW_RMM. cbn [r_va r_size r_flags].
    refine (bind_ext _ _ _ _ _ (fun _ => eq_refl) _). intros [] s4. by mstep.
Qed.

(** ** Boot and the commands *)
Lemma fill_run l h :
  means h (fun _ => None) -> tables_in_use h = 1 -> layout_ok l -> tables_needed l <= blocks ->
  exists h', fill l (mkInner h root false) = (Ok tt, mkInner h' root true) /\ means h' (boot_space l)
    /\ tables_in_use h' <= tables_needed l.
Proof.
  intros Hm H1 Hl Hb. rewrite (fill_regions l h Hl).
  destruct (regions_run (regions l) h _ false Hm (layout_regions_ok l Hl)) as (h' & E & M & S).
  { rewrite H1. exact Hb. }
  exists h'. split; [|split; [exact M|unfold tables_needed; lia]]. by rewrite (bind_ok _ _ _ _ _ E).
Qed.

(** The root table just allocated: nothing is mapped. *)
Lemma empty_means : root mod 4096 = 0 -> 0 <= root < 2 ^ 48 -> means {[root := fun _ => 0]} (fun _ => None).
Proof.
  intros Ha Hr. assert (forall t i, ent {[root := fun _ => 0]} t i = 0) as He.
  { intros t i. unfold ent, heap_t. destruct (decide (t = root)) as [->|Ht].
    - by rewrite lookup_singleton_eq.
    - by rewrite lookup_singleton_ne. }
  split.
  - exists (fun t => if decide (t = root) then Some (2%nat, 0) else None). split.
    + by rewrite decide_True.
    + intros t d p Ht. destruct (decide (t = root)) as [->|]; [|done]. injection Ht as <- <-.
      split_and!; try lia. unfold heap_t. rewrite lookup_singleton_eq. eauto.
    + intros t d p i _ _. by rewrite He.
    + intros t d p i _ _. by rewrite He.
  - intros n _. cbn [translate]. by rewrite He.
Qed.

(** [PageTable::map] of an address: the page that holds it, and the next one when
    it is not the first address of its page. *)
Definition map_address (a flags : Z) (f : space) : space :=
  let n := a / 4096 in
  let f' := updated (n mod 2 ^ 27) (Some (descriptor n flags)) f in
  if a mod 4096 =? 0 then f' else updated ((n + 1) mod 2 ^ 27) (Some (descriptor (n + 1) flags)) f'.

Lemma range_address a :
  0 <= a < 2 ^ 64 - 8192 ->
  range_with_size (E := MmError) Config.PAGE_SIZE a Config.PAGE_SIZE
  = Ok (mkPageIter (4096 * (a / 4096)) (4096 * (a / 4096 + if a mod 4096 =? 0 then 0 else 1))).
Proof.
  intros Ha. unfold range_with_size, including_address. change Config.PAGE_SIZE with (2 ^ 12).
  rewrite Word.add_small, Word.sub_small by (unfold Word.modulus; lia).
  rewrite !align_down_pow2 by (unfold Word.in_range, Word.modulus; lia). change (2 ^ 12) with 4096.
  replace (a - a mod 4096) with (4096 * (a / 4096)) by (Z.div_mod_to_equations; lia).
  set (x := a + 4096 - 1).
  replace (x - x mod 4096) with (4096 * (a / 4096 + if a mod 4096 =? 0 then 0 else 1))
    by (unfold x; destruct (Z.eqb_spec (a mod 4096) 0); Z.div_mod_to_equations; lia).
  unfold range. by rewrite (proj2 (Z.leb_le _ _)) by (destruct (a mod 4096 =? 0); lia).
Qed.

Lemma next_page n m :
  0 <= n <= m -> 4096 * (n + 1) < 2 ^ 64 ->
  next Config.PAGE_SIZE (mkPageIter (4096 * n) (4096 * m)) = (Some (4096 * n), mkPageIter (4096 * (n + 1)) (4096 * m)).
Proof.
  intros Hn Hb. unfold next. cbn [current Vmsa.last]. rewrite (proj2 (Z.leb_le _ _)) by lia.
  change Config.PAGE_SIZE with 4096. rewrite Word.add_small by (unfold Word.modulus; lia).
  repeat f_equal. lia.
Qed.

Lemma next_done n m : m < n -> next Config.PAGE_SIZE (mkPageIter (4096 * n) (4096 * m)) = (None, mkPageIter (4096 * n) (4096 * m)).
Proof. intros Hn. unfold next. cbn [current Vmsa.last]. by rewrite (proj2 (Z.leb_gt _ _)) by lia. Qed.

Lemma map_address_run a flags h f :
  means h f -> 0 <= a < 2 ^ 64 - 8192 -> tables_in_use h + 4 <= blocks ->
  exists h', inner_set_pages root a a Config.PAGE_SIZE flags h = (Ok tt, h')
    /\ means h' (map_address a flags f) /\ tables_in_use h' <= tables_in_use h + 4.
Proof.
  intros Hm Ha Hb. unfold inner_set_pages, map_address. rewrite range_address by done. mstep.
  set (n := a / 4096). assert (0 <= n /\ 4096 * (n + 2) < 2 ^ 64) as [Hn Hn'] by (unfold n; Z.div_mod_to_equations; lia).
  destruct (any_page_run h f n flags Hm ltac:(lia)) as (h1 & E1 & M1 & _ & S1).
  unfold S1_MAP_TABLE_LEVEL, S1_DEPTH, ok, set_pages.
  destruct (Z.eqb_spec (a mod 4096) 0) as [Hal|Hal].
  - exists h1. split; [|split; [exact M1|destruct (reach h 2 root (n mod 2 ^ 27)); lia]]. rewrite Z.add_0_r.
    erewrite bind_ok; [reflexivity|]. erewrite (loop_or_hang_done _ _ 2); [reflexivity|unfold SET_PAGES_BOUND; lia|].
    cbn [loopN]. rewrite next_page by lia. mstep. erewrite bind_ok by exact E1. mstep.
    rewrite next_done by lia. by mstep.
  - destruct (any_page_run h1 _ (n + 1) flags M1 ltac:(destruct (reach h 2 root (n mod 2 ^ 27)); lia))
      as (h2 & E2 & M2 & _ & S2).
    exists h2. split; [|split; [exact M2|]].
    2: { destruct (reach h 2 root (n mod 2 ^ 27)), (reach h1 2 root ((n + 1) mod 2 ^ 27)); lia. }
    erewrite bind_ok; [reflexivity|]. erewrite (loop_or_hang_done _ _ 3); [reflexivity|unfold SET_PAGES_BOUND; lia|].
    cbn [loopN]. rewrite next_page by lia. mstep. erewrite bind_ok by exact E1. mstep.
    rewrite next_page by lia. mstep. erewrite bind_ok by exact E2. mstep.
    rewrite next_done by lia. by mstep.
Qed.

Lemma unmap_address_run a h f :
  means h f -> 0 <= a < 2 ^ 64 ->
  exists h', unset_page 3 2 root TABLE_SIZE (including_address Config.PAGE_SIZE a) h = (Ok tt, h')
    /\ means h' (updated ((a / 4096) mod 2 ^ 27) None f) /\ tables_in_use h' = tables_in_use h.
Proof.
  intros [[lab Hwf] Hf] Ha. unfold including_address. change Config.PAGE_SIZE with (2 ^ 12).
  rewrite align_down_pow2 by (unfold Word.in_range, Word.modulus; lia). change (2 ^ 12) with 4096.
  replace (a - a mod 4096) with (4096 * (a / 4096)) by (Z.div_mod_to_equations; lia).
  destruct (unset_page_run root h lab (4096 * (a / 4096)) Hwf) as (h' & E & (H1 & _ & H3 & H4 & H5)).
  rewrite pn_mod in H3, H4. exists h'. split; [done|]. split; [|do 2 f_equal; exact H5].
  split; [eauto|]. intros m Hm. unfold updated.
  destruct (Z.eqb_spec m ((a / 4096) mod 2 ^ 27)) as [->|Hne]; [exact H4|by rewrite H3, Hf].
Qed.

(** ** Any sequence of the commands' mappings *)
Inductive SpaceOp : Set := MapPage (a : Z) (secure : bool) | UnmapPage (a : Z).

Definition op_addr (o : SpaceOp) : Z := match o with MapPage a _ => a | UnmapPage a => a end.
Definition op_ok (o : SpaceOp) : Prop := 0 <= op_addr o < 2 ^ 64 - 8192.

Definition run_op (o : SpaceOp) : M rmm Error unit :=
  match o with MapPage a secure => pt_map a secure | UnmapPage a => pt_unmap a end.

(** What one operation does to the address space *)
Definition op_space (o : SpaceOp) (f : space) : space :=
  if op_addr o =? 0 then f
  else match o with
       | MapPage a secure => map_address a (rmi_page_flags secure) f
       | UnmapPage a => updated ((a / 4096) mod 2 ^ 27) None f
       end.

Lemma op_run o s f :
  pt_root s = root -> means (heap s) f -> op_ok o -> tables_in_use (heap s) + 4 <= blocks ->
  exists h', run_op o s = (Ok tt, set_heap h' s) /\ means h' (op_space o f)
    /\ tables_in_use h' <= tables_in_use (heap s) + 4.
Proof.
  unfold op_ok, op_space. intros Er Hm Ha Hb. destruct o as [a secure|a]; cbn [run_op op_addr] in *.
  all: unfold pt_map, pt_unmap, on_heap, mbind, M_bind, set_pages_for_rmi, unset_pages_for_rmi.
  all: destruct (a =? 0); [exists (heap s); split; [done|]; split; [done|lia]|].
  - destruct (map_address_run a (rmi_page_flags secure) (heap s) f Hm Ha Hb) as (h' & E & M & S).
    exists h'. rewrite Er, (bind_ok _ _ _ _ _ E). by split_and!.
  - destruct (unmap_address_run a (heap s) f Hm ltac:(lia)) as (h' & E & M & S).
    exists h'. unfold S1_MAP_TABLE_LEVEL, S1_DEPTH. rewrite Er, (bind_ok _ _ _ _ _ E). split_and!; [done..|lia].
Qed.

Lemma ops_run ops s f :
  pt_root s = root -> means (heap s) f -> Forall op_ok ops ->
  tables_in_use (heap s) + 4 * Z.of_nat (length ops) <= blocks ->
  exists h', for_each ops run_op s = (Ok tt, set_heap h' s)
    /\ means h' (foldl (fun f o => op_space o f) f ops).
Proof.
  intros Er Hm Ho. revert s f Er Hm. induction Ho as [|o ops Ho Hos IH]; intros s f Er Hm Hb.
  - exists (heap s). split; [by destruct s|done].
  - cbn [length] in Hb.
    destruct (op_run o s f Er Hm Ho ltac:(lia)) as (h1 & E1 & M1 & S1).
    destruct (IH (set_heap h1 s) _ Er M1 ltac:(cbn [heap set_heap]; lia)) as (h2 & E2 & M2).
    exists h2. split; [|exact M2]. cbn [for_each]. by rewrite (bind_ok _ _ _ _ _ E1).
Qed.
End boot.

(** ** Boot *)
Lemma new_run `{Platform} :
  (forall used t, heap_alloc used = Some t -> t ∉ used /\ t mod 4096 = 0 /\ 0 <= t < 2 ^ 48) ->
  is_Some (heap_alloc ∅) ->
  exists root h, inner_new (∅ : heap_t) = (Ok (mkInner h root false), h)
    /\ means root h (fun _ => None) /\ size (@dom heap_t (gset Z) _ h) = 1%nat.
Proof.
  intros Ha [root Hr]. destruct (Ha _ _ Hr) as (_ & Hm & Hb).
  exists root, ({[root := fun _ => 0]} : heap_t). split; [|split].
  - unfold inner_new, catch, mbind, M_bind, new_in, heap_table_alloc, heap_t in *.
    rewrite dom_empty_L, Hr. reflexivity.
  - by apply empty_means.
  - unfold heap_t in *. rewrite dom_singleton_L. apply size_singleton.
Qed.

(** C33: At boot [Inner::new] and [setup_mmu_cfg] return, TTBR0_EL2 holds the
    address of the root table, and the tables map exactly the pages of the
    layout's regions, one to one and with the flags of their regions: for each
    of the 2^27 page numbers the walk of the MMU finds the descriptor of
    [boot_space], or none. From then on any sequence of [PageTable::map] and
    [unmap] of addresses below 2^64 - 8192, which the commands take from the host
    (REALM_CREATE and REC_CREATE do not validate the parameters' address), returns
    and changes nothing of the RMM's state but the tables; each step changes the
    address space exactly as [op_space] says. Address 0 changes nothing; an
    address that does not start a page maps its page and the next, of which
    [unmap] removes the first; and the page number counts modulo 2^27, so that
    an address of 2^39 and above replaces the mapping of a lower one. The layout
    is page-aligned and below 2^39; the allocator returns aligned blocks that are
    not in use, and has enough of them: two for each 2 MiB a region touches, four
    for each operation, and the root. *)
Theorem address_space_refines `{Platform} (blocks : Z) l (r : El2Regs) ops :
  (forall used t, heap_alloc used = Some t -> t ∉ used /\ t mod 4096 = 0 /\ 0 <= t < 2 ^ 48) ->
  (forall used, Z.of_nat (size used) < blocks -> is_Some (heap_alloc used)) ->
  layout_ok l -> Forall op_ok ops ->
  tables_needed l + 4 * Z.of_nat (length ops) <= blocks ->
  exists i0 h r',
    inner_new ∅ = (Ok i0, tables i0)
    /\ setup_mmu_cfg l r i0 = (Ok r', mkInner h (root_pgtbl i0) true)
    /\ TTBR0_EL2 r' = root_pgtbl i0
    /\ means (root_pgtbl i0) h (boot_space l)
    /\ forall s, pt_root s = root_pgtbl i0 -> heap s = h ->
         exists h', for_each ops run_op s = (Ok tt, set_heap h' s)
           /\ means (root_pgtbl i0) h' (foldl (fun f o => op_space o f) (boot_space l) ops).
Proof.
  intros Ha Hb Hl Ho Hn. assert (1 <= tables_needed l) as H1.
  { unfold tables_needed. pose proof (layout_regions_ok l Hl) as Hr. clear -Hr.
    induction Hr as [|x rs Hx _ IH]; cbn [foldr]; [lia|]. pose proof (tables_for_pos x Hx). lia. }
  destruct (new_run Ha) as (root & h0 & E0 & M0 & S0).
  { apply Hb. rewrite size_empty. lia. }
  destruct (fill_run root blocks Ha Hb l h0 M0 ltac:(lia) Hl ltac:(lia)) as (h & E & M & S).
  exists (mkInner h0 root false), h. eexists. split; [exact E0|]. cbn [root_pgtbl].
  split; [|split; [|split; [exact M|]]].
  - unfold setup_mmu_cfg. by rewrite (bind_ok _ _ _ _ _ E).
  - reflexivity.
  - intros s Hs Hh. subst h. by apply (ops_run root blocks Ha Hb); [|..|lia].
Qed.

(** Above that bound the host stops the RMM: an address within the last page, but
    not its first, makes the assertion of [Page::range] fail. *)
Theorem unvalidated_pointer_panics `{Platform} a secure s :
  2 ^ 64 - 4096 < a < 2 ^ 64 -> pt_map a secure s = (Panicked, s).
Proof.
  intros Ha. unfold pt_map, on_heap, mbind, M_bind, set_pages_for_rmi.
  rewrite (proj2 (Z.eqb_neq a 0)) by lia. unfold inner_set_pages, range_with_size, including_address.
  change Config.PAGE_SIZE with (2 ^ 12).
  assert (Word.sub (Word.add a (2 ^ 12)) 1 = a + 2 ^ 12 - 1 - 2 ^ 64) as ->.
  { unfold Word.sub, Word.add, Word.wrap, Word.modulus. rewrite Zminus_mod_idemp_l.
    symmetry. apply (Z.mod_unique _ _ 1); lia. }
  rewrite !align_down_pow2 by (unfold Word.in_range, Word.modulus; lia).
  unfold range. rewrite (proj2 (Z.leb_gt _ _)) by (change (2 ^ 12) with 4096; Z.div_mod_to_equations; lia).
  mstep. by destruct s.
Qed.

(** ** The stacks *)

(** The regions other than the stacks *)
Definition other_regions (l : PlatformMemoryLayout) : list Region :=
  [mkRegion (rmm_base l) (rw_start l - rmm_base l) RO_RMM;
   mkRegion (rw_start l) (rw_end l - rw_start l) RW_RMM;
   mkRegion (uart_phys l) Config.PAGE_SIZE RW_DEVICE;
   mkRegion RMM_SHARED_BUFFER_START Config.PAGE_SIZE RW_RMM].
Definition stack_page (l : PlatformMemoryLayout) (n : Z) : Prop :=
  stack_base l / 4096 <= n < stack_base l / 4096 + 256 * Config.NUM_OF_CPU.
(** They do not reach into the stacks. *)
Definition stacks_apart (l : PlatformMemoryLayout) : Prop :=
  forall n r, stack_page l n -> r ∈ other_regions l -> in_region r n = false.

Lemma overlay_out r f n : in_region r n = false -> overlay r f n = f n.
Proof. intros E. unfold overlay. by rewrite E. Qed.

(** Regions with the same flags *)
Lemma overlay_same flags rs f n :
  Forall (fun r => r_flags r = flags) rs ->
  foldl (fun f r => overlay r f) f rs n
  = if existsb (fun r => in_region r n) rs then Some (descriptor n flags) else f n.
Proof.
  intros Hr. revert f. induction Hr as [|r rs E _ IH]; intros f; [done|]. cbn [foldl existsb].
  rewrite IH. unfold overlay. rewrite E. by destruct (existsb _ _), (in_region r n).
Qed.

Lemma in_stack l i n :
  stack_base l mod 4096 = 0 ->
  in_region (stack_region l i) n = true <->
  stack_base l / 4096 + 256 * i <= n <= stack_base l / 4096 + 256 * i + 254.
Proof.
  intros Hm. unfold in_region. rewrite andb_true_iff, !Z.leb_le.
  unfold first_page, last_page, stack_region. cbn [r_va r_size].
  unfold RMM_STACK_SIZE, RMM_STACK_GUARD_SIZE. Z.div_mod_to_equations. lia.
Qed.

(** A page of the stacks is mapped unless it is the last of its CPU. *)
Lemma stack_space l n :
  stack_base l mod 4096 = 0 -> stacks_apart l -> stack_page l n ->
  boot_space l n
  = if (n - stack_base l / 4096) mod 256 =? 255 then None else Some (descriptor n RW_RMM).
Proof.
  intros Hm Ha Hn. pose proof (fun r => Ha n r Hn) as Hout. unfold other_regions in Hout.
  unfold boot_space, regions. rewrite !foldl_app. cbn [foldl].
  rewrite !overlay_out by (apply Hout; set_solver).
  rewrite (overlay_same RW_RMM) by (apply Forall_fmap, Forall_true; done).
  rewrite !overlay_out by (apply Hout; set_solver).
  unfold stack_page in Hn. change Config.NUM_OF_CPU with 8 in *.
  destruct (existsb _ _) eqn:E.
  - apply existsb_exists in E as (r & (i & -> & Hi)%list_elem_of_In%list_elem_of_fmap & Hr).
    apply (in_stack l i n Hm) in Hr. rewrite (proj2 (Z.eqb_neq _ _)); [done|]. Z.div_mod_to_equations. lia.
  - destruct (Z.eqb_spec ((n - stack_base l / 4096) mod 256) 255) as [|Hne]; [done|exfalso].
    assert (existsb (fun r => in_region r n) (stack_region l <$> seqZ 0 8) = true) as E'; [|congruence].
    apply existsb_exists. exists (stack_region l ((n - stack_base l / 4096) / 256)). split.
    + apply list_elem_of_In, list_elem_of_fmap. eexists. split; [done|]. apply elem_of_seqZ.
      Z.div_mod_to_equations. lia.
    + apply in_stack; [done|]. Z.div_mod_to_equations. lia.
Qed.

(** The stack of each CPU is mapped read-write up to the stack pointer it starts
    with, the page above is not mapped, and below the stack of every CPU but the
    first is the unmapped page of the CPU before it. *)
Theorem cpu_stack_guarded l mpidr sp :
  layout_ok l -> stacks_apart l -> 0 <= mpidr ->
  current_cpu_stack (E := Error) (stack_base l) mpidr = Ok sp ->
  (forall n, (sp - RMM_STACK_SIZE) / 4096 <= n < sp / 4096 ->
     boot_space l n = Some (descriptor n RW_RMM))
  /\ boot_space l (sp / 4096) = None
  /\ (0 < get_cpu_id mpidr -> boot_space l ((sp - RMM_STACK_SIZE) / 4096 - 1) = None).
Proof.
  intros (_ & _ & Hm & _) Ha H0 E. unfold current_cpu_stack in E.
  destruct (Z.leb_spec Config.NUM_OF_CPU (get_cpu_id mpidr)) as [|Hc]; [done|].
  injection E as <-. assert (0 <= get_cpu_id mpidr) as Hid.
  { unfold get_cpu_id, cpu_id_of. rewrite !get_masked_value_div by lia.
    change NUM_OF_CPU_PER_CLUSTER with 4. Z.div_mod_to_equations. lia. }
  set (i := get_cpu_id mpidr) in *. change Config.NUM_OF_CPU with 8 in Hc.
  unfold RMM_STACK_SIZE, RMM_STACK_GUARD_SIZE in *.
  split; [|split]; [intros n Hn|..|intros Hi]; (rewrite stack_space; [|done|done|]).
  all: unfold stack_page; change Config.NUM_OF_CPU with 8.
  - rewrite (proj2 (Z.eqb_neq _ _)); [done|]. Z.div_mod_to_equations. lia.
  - Z.div_mod_to_equations. lia.
  - rewrite (proj2 (Z.eqb_eq _ _)); [done|]. Z.div_mod_to_equations. lia.
  - Z.div_mod_to_equations. lia.
  - rewrite (proj2 (Z.eqb_eq _ _)); [done|]. Z.div_mod_to_equations. lia.
  - Z.div_mod_to_equations. lia.
Qed.

(** No page the boot maps is execute-never: the data, the stacks, the UART and
    the shared buffer too. *)
Theorem boot_executable l n e :
  0 <= n < 2 ^ 27 -> boot_space l n = Some e -> get_masked_value e PTDesc.UXN = 0.
Proof.
  intros Hn. unfold boot_space.
  assert (Forall (fun r => get_masked_value (Z.lor (r_flags r) S1_MAP_EXTRA_FLAG) PTDesc.UXN = 0) (regions l))
    as Hr.
  { unfold regions. rewrite !Forall_app. split_and!; [repeat constructor| |repeat constructor].
    by apply Forall_fmap, Forall_true. }
  assert (forall f : space, (forall e, f n = Some e -> get_masked_value e PTDesc.UXN = 0) ->
    forall e, foldl (fun f r => overlay r f) f (regions l) n = Some e -> get_masked_value e PTDesc.UXN = 0) as Hx.
  { induction Hr as [|r rs Er _ IH]; intros f Hf; [done|]. cbn [foldl]. apply IH. intros e'.
    unfold overlay. destruct (in_region r n); [|apply Hf]. intros [= <-].
    unfold descriptor, s1_set. rewrite get_masked_value_lor, Er, Z.lor_0_r.
    unfold PTDesc.UXN. rewrite get_masked_value_div by lia. rewrite Z.div_small by lia. done. }
  by apply (Hx (fun _ => None)).
Qed.

(** ** Freeing the tables *)

(** The tables below the table of depth [d] at [b], and itself *)
Fixpoint tables_of (h : heap_t) (d : nat) (b : Z) : list Z :=
  match d with
  | O => [b]
  | S d' =>
      b :: mjoin ((fun i => let e := ent h b i in
                     if s1_points_to_table_or_page e then tables_of h d' (target e) else [])
                  <$> seqZ 0 512)
  end.

Section drop.
Context `{Platform} (h : heap_t) (root : Z) (lab : Z -> option (nat * Z)) (Hwf : tables_wf h root lab).

(** The tables below entry [i] *)
Definition sub (d : nat) (b i : Z) : list Z :=
  if s1_points_to_table_or_page (ent h b i) then tables_of h d (target (ent h b i)) else [].

Lemma tables_of_label D b P t :
  lab b = Some (D, P) -> t ∈ tables_of h D b ->
  exists d p, lab t = Some (d, p) /\ (d <= D)%nat /\ p / 512 ^ Z.of_nat (D - d) = P.
Proof.
  revert b P. induction D as [|D IH]; intros b P Hb; cbn [tables_of].
  - intros ->%list_elem_of_singleton. exists 0%nat, P. split_and!; [done|lia|]. apply Z.div_1_r.
  - intros [->|(x & Hx & (i & -> & Hi%elem_of_seqZ)%list_elem_of_fmap)%list_elem_of_join]%elem_of_cons.
    + exists (S D), P. split_and!; [done|lia|]. rewrite Nat.sub_diag. apply Z.div_1_r.
    + cbn beta zeta in Hx. destruct (s1_points_to_table_or_page _) eqn:Ep; [|by apply not_elem_of_nil in Hx].
      destruct (IH _ _ (wf_sub _ _ _ Hwf b D P i Hb ltac:(lia) Ep) Hx) as (d & p & Ht & Hd & Hp).
      exists d, p. split_and!; [done|lia|]. rewrite Nat.sub_succ_l, Nat2Z.inj_succ, Z.pow_succ_r by lia.
      rewrite Z.mul_comm, <- Z.div_div by (try apply Z.pow_nonzero; lia). rewrite Hp. rewrite Z.div_add_l by lia.
      rewrite Z.div_small by lia. lia.
Qed.

(** What lies below different entries is different, and not the table itself. *)
Lemma sub_label D b P i t :
  lab b = Some (S D, P) -> 0 <= i < 512 -> t ∈ sub D b i ->
  exists d p, lab t = Some (d, p) /\ (d <= D)%nat /\ p / 512 ^ Z.of_nat (D - d) = P * 512 + i.
Proof.
  intros Hb Hi. unfold sub. destruct (s1_points_to_table_or_page _) eqn:Ep; [|by intros ?%not_elem_of_nil].
  apply tables_of_label. by apply (wf_sub _ _ _ Hwf).
Qed.
Lemma sub_disjoint D b P i j t :
  lab b = Some (S D, P) -> 0 <= i < 512 -> 0 <= j < 512 -> t ∈ sub D b i -> t ∈ sub D b j -> i = j.
Proof.
  intros Hb Hi Hj (d & p & E & _ & E1)%(sub_label _ _ _ _ _ Hb Hi)
    (d' & p' & E' & _ & E2)%(sub_label _ _ _ _ _ Hb Hj).
  rewrite E in E'. injection E' as <- <-. lia.
Qed.
Lemma sub_not_base D b P i : lab b = Some (S D, P) -> 0 <= i < 512 -> b ∉ sub D b i.
Proof.
  intros Hb Hi (d & p & E & Hd & _)%(sub_label _ _ _ _ _ Hb Hi). rewrite Hb in E. injection E as <- <-. lia.
Qed.

(** The blocks [ts] are freed. *)
Definition freed (ts : list Z) (g g' : heap_t) : Prop :=
  forall t, g' !! t = if decide (t ∈ ts) then None else g !! t.

Lemma deallocate_run b g : is_Some (g !! b) -> exists g', deallocate b g = (Ok tt, g') /\ freed [b] g g'.
Proof.
  intros [x E]. exists (delete b g). split.
  - unfold deallocate, heap_t in *. mstep. by rewrite E.
  - intros t. unfold heap_t in *. destruct (decide (t ∈ [b])) as [->%list_elem_of_singleton|Ht].
    + apply lookup_delete_eq.
    + apply lookup_delete_ne. intros ->. apply Ht. by left.
Qed.
Lemma freed_app xs ys g g1 g2 : freed xs g g1 -> freed ys g1 g2 -> freed (xs ++ ys) g g2.
Proof.
  intros H1 H2 t. rewrite H2, H1. repeat case_decide; set_solver.
Qed.
Lemma freed_swap b xs g g' : freed (xs ++ [b]) g g' -> freed (b :: xs) g g'.
Proof. intros H1 t. rewrite H1. repeat case_decide; set_solver. Qed.

(** The loop over the entries, from entry [i0] *)
Lemma drop_loop D b P (body : Z -> M heap_t MmError unit) n i0 g :
  lab b = Some (S D, P) -> 0 <= i0 -> i0 + Z.of_nat n <= 512 ->
  (forall i g, 0 <= i < 512 -> g !! b = h !! b -> (forall t, t ∈ sub D b i -> g !! t = h !! t) ->
     exists g', body i g = (Ok tt, g') /\ freed (sub D b i) g g') ->
  g !! b = h !! b ->
  (forall i t, i0 <= i < i0 + Z.of_nat n -> t ∈ sub D b i -> g !! t = h !! t) ->
  exists g', for_range n i0 body g = (Ok tt, g')
    /\ freed (mjoin (sub D b <$> seqZ i0 (Z.of_nat n))) g g'.
Proof.
  intros Hb H0 Hn Hbody. revert i0 g H0 Hn. induction n as [|n IH]; intros i0 g H0 Hn Hgb Hg.
  - exists g. split; [done|]. intros t. by rewrite decide_False by apply not_elem_of_nil.
  - destruct (Hbody i0 g ltac:(lia) Hgb) as (g1 & E1 & F1); [intros t; apply Hg; lia|].
    destruct (IH (i0 + 1) g1) as (g2 & E2 & F2); [lia|lia|..].
    + rewrite F1, decide_False; [done|]. apply (sub_not_base D b P i0 Hb). lia.
    + intros i t Hi Ht. rewrite F1, decide_False; [apply (Hg i); [lia|done]|]. intros Ht'.
      pose proof (sub_disjoint D b P i i0 t Hb ltac:(lia) ltac:(lia) Ht Ht'). lia.
    + exists g2. split; [cbn [for_range]; by rewrite (bind_ok _ _ _ _ _ E1)|].
      rewrite seqZ_cons by lia. cbn [fmap list_fmap mjoin list_join].
      replace (Z.pred (Z.of_nat (S n))) with (Z.of_nat n) by lia.
      replace (Z.succ i0) with (i0 + 1) by lia. by apply freed_app with g1.
Qed.

(** [drop] frees the tables below [b], each once. *)
Lemma drop_run D b P g :
  lab b = Some (D, P) -> (forall t, t ∈ tables_of h D b -> g !! t = h !! t) ->
  exists g', Boot.drop D b g = (Ok tt, g') /\ freed (tables_of h D b) g g'.
Proof.
  revert b P g. induction D as [|D IH]; intros b P g Hb Hg;
    destruct (wf_table _ _ _ Hwf _ _ _ Hb) as (Ha & _ & Hs & _); cbn [Boot.drop tables_of] in *.
  - mstep. apply deallocate_run. rewrite Hg by (by left). done.
  - destruct (drop_loop D b P (fun i => h0 ← get_state; let e := read_word (b + ENTRY_SIZE * i) h0 in
        if e_points_to_table_or_page e then
          subtable_addr ← lift (unwrap (e_address e (this_level (S D)))); Boot.drop D subtable_addr
        else mret tt) 512 0 g Hb) as (g1 & E1 & F1); [lia|lia| |by apply Hg; left| |].
    + intros i g' Hi Hgb Hg'. mstep. unfold ENTRY_SIZE. rewrite read_ent by done.
      assert (ent g' b i = ent h b i) as -> by (unfold ent, heap_t in *; by rewrite Hgb).
      cbn [e_points_to_table_or_page e_address s1_entry_ops]. unfold sub in *.
      destruct (s1_points_to_table_or_page (ent h b i)) eqn:Ep.
      * rewrite (points_address _ _ Ep). mstep. apply IH with (P * 512 + i); [|done].
        by apply (wf_sub _ _ _ Hwf).
      * exists g'. split; [done|]. intros t. by rewrite decide_False by apply not_elem_of_nil.
    + intros i t Hi Ht. apply Hg. right. apply list_elem_of_join. exists (sub D b i). split; [done|].
      apply list_elem_of_fmap. exists i. split; [done|]. apply elem_of_seqZ. lia.
    + change (Z.of_nat 512) with 512 in F1.
      destruct (deallocate_run b g1) as (g2 & E2 & F2).
      { rewrite F1, decide_False; [by rewrite Hg by (by left)|].
        intros (x & Hx & (i & -> & Hi%elem_of_seqZ)%list_elem_of_fmap)%list_elem_of_join.
        by apply (sub_not_base D b P i Hb) in Hx; [|lia]. }
      exists g2. split; [by rewrite (bind_ok _ _ _ _ _ E1)|].
      exact (freed_swap _ _ _ _ (freed_app _ _ _ _ _ F1 F2)).
Qed.
End drop.

(** Dropping the RMM's tables frees every table once, and no other block. *)
Theorem drop_page_table_frees `{Platform} root h d f :
  means root h f ->
  exists h', drop_page_table (mkInner h root d) = (Ok tt, mkInner h' root d)
    /\ forall t, h' !! t = if decide (t ∈ tables_of h 2 root) then None else h !! t.
Proof.
  intros [[lab Hwf] _].
  destruct (drop_run h root lab Hwf 2 root 0 h (wf_root _ _ _ Hwf) (fun _ _ => eq_refl)) as (h' & E & F).
  exists h'. split; [|exact F]. unfold drop_page_table, on_tables, S1_DEPTH. cbn [root_pgtbl tables].
  by rewrite E.
Qed.

(** ** Witness *)

(** A heap of 200 blocks: the first that is not in use *)
Definition arena : list Z := (fun i => 0x10000000 + 4096 * i) <$> seqZ 0 200.
Definition arena_alloc (used : gset Z) : option Z := snd <$> list_find (fun t => t ∉ used) arena.

Lemma arena_fresh used t : arena_alloc used = Some t -> t ∉ used /\ t mod 4096 = 0 /\ 0 <= t < 2 ^ 48.
Proof.
  unfold arena_alloc. intros ([i x] & (Hi & Hu & _)%list_find_Some & ->)%fmap_Some.
  split; [done|]. apply list_elem_of_lookup_2 in Hi. unfold arena in Hi.
  apply list_elem_of_fmap in Hi as (k & -> & Hk%elem_of_seqZ). cbn [snd]. Z.div_mod_to_equations. lia.
Qed.
Lemma arena_enough used : Z.of_nat (size used) < 200 -> is_Some (arena_alloc used).
Proof.
  intros Hs. destruct (arena_alloc used) as [p|] eqn:E; [by eexists|exfalso].
  apply fmap_None, list_find_None in E. assert (list_to_set arena ⊆ used) as Hsub.
  { intros t Ht%elem_of_list_to_set. rewrite Forall_forall in E. specialize (E t Ht).
    by apply dec_stable. }
  apply subseteq_size in Hsub. rewrite size_list_to_set in Hsub.
  - unfold arena in Hsub. rewrite length_fmap, length_seqZ in Hsub. lia.
  - apply NoDup_fmap_2; [|apply NoDup_seqZ]. intros x y Hxy. lia.
Qed.

#[local] Instance arena_platform : Platform := {|
  world := @world sample_platform;
  firmware_smc := @firmware_smc sample_platform;
  heap_alloc := arena_alloc;
  rd_bytes := @rd_bytes sample_platform;
  rd_of_bytes := @rd_of_bytes sample_platform;
  rec_bytes := @rec_bytes sample_platform;
  rec_of_bytes := @rec_of_bytes sample_platform;
  SIMD_CONFIG := @SIMD_CONFIG sample_platform;
  feat_vmid16 := @feat_vmid16 sample_platform;
  Machine.sha256 := @Machine.sha256 sample_platform;
  Machine.sha512 := @Machine.sha512 sample_platform;
  p384_verify := @p384_verify sample_platform;
  Machine.hkdf_sha256 := @Machine.hkdf_sha256 sample_platform;
  cbor_encode := @cbor_encode sample_platform;
  cose_sign1 := @cose_sign1 sample_platform;
  p384_public := @p384_public sample_platform;
  GIC_FEATURES := @GIC_FEATURES sample_platform;
  HPFAR_FIPA := @HPFAR_FIPA sample_platform;
  realm_run := @realm_run sample_platform
|}.

(** An image of two megabytes, and the stacks after it; then the page of a realm
    descriptor is mapped; the first page of the RMM's code, as the address a host
    names for the parameters of REC_CREATE; an address in the middle of a page is
    mapped and unmapped, and one above 2^39, which is the third page of the code
    for the tables. *)
Definition sample_layout : PlatformMemoryLayout :=
  fvp_layout 0xfd000000 0xfd100000 0xfd200000 0xfd200000.
Definition sample_ops : list SpaceOp :=
  [MapPage 0x88000000 true; MapPage 0xfd000000 false; UnmapPage 0xfd001000;
   MapPage 0 false; MapPage 0x88001800 false; UnmapPage 0x88001800; MapPage 0x80fd002000 false].
Definition arena_boot : @rmm arena_platform :=
  @mkRmm arena_platform (fun _ => Granule_new) (fun _ => zero_page) ∅ ∅ ∅ ∅ 0x10000000 [] []
    (Run.of_bytes (zero_bytes 4096)) [] (mkEl3Keys [] [] [] []) (∅, []).
Definition zero_regs : El2Regs := mkEl2Regs 0 0 0 0 0 0 0 0.

Lemma address_space_refines_witness :
  exists h h', means 0x10000000 h (boot_space sample_layout)
    /\ translate h 2 0x10000000 0xfd000 = Some (descriptor 0xfd000 RO_RMM)
    /\ translate h' 2 0x10000000 0xfd000 = Some (descriptor 0xfd000 (rmi_page_flags false))
    /\ translate h' 2 0x10000000 0xfd001 = None
    /\ translate h' 2 0x10000000 0xfd003 = Some (descriptor 0xfd003 RO_RMM)
    /\ translate h' 2 0x10000000 0x88001 = None
    /\ translate h' 2 0x10000000 0x88002 = Some (descriptor 0x88002 (rmi_page_flags false))
    /\ translate h' 2 0x10000000 0xfd002 = Some (descriptor 0x80fd002 (rmi_page_flags false)).
Proof.
  destruct (@address_space_refines arena_platform 200 sample_layout zero_regs sample_ops arena_fresh arena_enough)
    as (i0 & h & r' & E0 & _ & _ & M & Hops).
  - unfold layout_ok. by vm_compute.
  - repeat constructor; unfold op_ok; cbn [op_addr]; lia.
  - by vm_compute.
  - assert (root_pgtbl i0 = 0x10000000) as Hr.
    { assert (fst (inner_new (∅ : heap_t)) = Ok i0) as E by (by rewrite E0).
      vm_compute in E. by injection E as <-. }
    rewrite Hr in *. exists h.
    destruct (Hops (set_heap h arena_boot) eq_refl eq_refl) as (h' & _ & M').
    exists h'. destruct M as [Hw M], M' as [_ M']. split; [by split|].
    rewrite M, !M' by lia. split_and!; by vm_compute.
Defined.
