(* ===== verification/RawPtr.v ===== *)
(** * Raw pointers that are checked first (lib/safe-abstraction)

    The RMM reads and writes objects at physical addresses through
    [assume_safe], which checks the address and asks the type whether it vouches
    for the object. [Machine] accesses memory without these checks; here are the
    checks, the types' answers and the accesses as they are written, for the
    theorem that the checks never fail where the RMM makes them. *)

From S2P Require Import Prelude Bytes Bits Vmsa RmiTypes Granule S2tte Objects Machine.

(** ** lib/safe-abstraction/src/lib.rs *)
Inductive RawPtrError : Set := SafetyCheckFailed | AssuranceCheckFailed.

(** The trait [SafetyAssured] *)
Class SafetyAssured (T : Type) := {
  is_initialized : T -> bool;
  verify_ownership : T -> bool
}.

(** [SafetyChecked]: the alignment of [usize] *)
Definition is_not_null (addr : Z) : bool := negb (addr =? 0).
Definition is_aligned (addr : Z) : bool := addr mod 8 =? 0.

Record SafetyAssumed : Set := mkSafetyAssumed { addr : Z; assume_init : bool }.

(** [obj] is the object at the address. *)
Definition assume_safe {T} `{SafetyAssured T} (obj : T) (addr : Z) : outcome RawPtrError SafetyAssumed :=
  if negb (is_not_null addr) || negb (is_aligned addr) then Err SafetyCheckFailed
  else if negb (is_initialized obj) || negb (verify_ownership obj) then Err AssuranceCheckFailed
  else Ok (mkSafetyAssumed addr false).

(** The object that was there is asked; the value is written over it. *)
Definition new_maybe_uninit_with (addr : Z) : SafetyAssumed := mkSafetyAssumed addr true.
Definition assume_safe_uninit_with {T} `{SafetyAssured T} (obj : T) (addr : Z)
    : outcome RawPtrError SafetyAssumed :=
  if negb (is_not_null addr) || negb (is_aligned addr) then Err SafetyCheckFailed
  else if negb (verify_ownership obj) then Err AssuranceCheckFailed
  else Ok (new_maybe_uninit_with addr).

(** rmi/error.rs *)
Definition error_of_raw_ptr (e : RawPtrError) : Error := RmiErrorInput.

(** ** The types: each vouches for its objects. *)
Record DataPage : Set := mkDataPage { data : list Z }.
Record RealmConfig : Set := mkRealmConfig { ipa_width : Z }.
#[global] Instance DataPage_assured : SafetyAssured DataPage :=
  {| is_initialized _ := true; verify_ownership _ := true |}.
#[global] Instance Rd_assured : SafetyAssured Rd.t :=
  {| is_initialized _ := true; verify_ownership _ := true |}.
#[global] Instance Rec_assured : SafetyAssured Rec.t :=
  {| is_initialized _ := true; verify_ownership _ := true |}.
#[global] Instance RealmParams_assured : SafetyAssured RealmParams.t :=
  {| is_initialized _ := true; verify_ownership _ := true |}.
#[global] Instance RecParams_assured : SafetyAssured RecParams.t :=
  {| is_initialized _ := true; verify_ownership _ := true |}.
#[global] Instance Run_assured : SafetyAssured Run.t :=
  {| is_initialized _ := true; verify_ownership _ := true |}.
#[global] Instance HostCall_assured : SafetyAssured HostCall.t :=
  {| is_initialized _ := true; verify_ownership _ := true |}.
#[global] Instance RealmConfig_assured : SafetyAssured RealmConfig :=
  {| is_initialized _ := true; verify_ownership _ := true |}.
#[global] Instance IsletRealmMetadata_assured : SafetyAssured IsletRealmMetadata.t :=
  {| is_initialized _ := true; verify_ownership _ := true |}.

(** ** The accesses *)
Section accesses.
Context `{Platform}.

(** granule/array/entry.rs: the object in a locked granule. [view] reads a page
    as the type. *)
Definition content {T} `{SafetyAssured T} (view : Machine.content -> T) (idx : Z)
    : M rmm Error SafetyAssumed :=
  s ← get_state;
  let a := index_to_addr idx in
  lift (map_err error_of_raw_ptr (assume_safe (view (mem s a)) a)).
Definition content_mut {T} `{SafetyAssured T} (view : Machine.content -> T) (idx : Z)
    : M rmm Error SafetyAssumed :=
  s ← get_state;
  let a := index_to_addr idx in
  lift (map_err error_of_raw_ptr (assume_safe (view (mem s a)) a)).
Definition new_uninit_with {T} `{SafetyAssured T} (view : Machine.content -> T)
    (value : Machine.content) (idx : Z) : M rmm Error SafetyAssumed :=
  s ← get_state;
  let a := index_to_addr idx in
  p ← lift (map_err error_of_raw_ptr (assume_safe_uninit_with (view (mem s a)) a));
  modify (write_page a value);;
  mret p.

(** host.rs *)
Definition copy_from {T} `{SafetyAssured T} (of_bytes : list Z -> T) (addr : Z)
    : M rmm Error (option T) :=
  b ← check_granule_if addr GranuleState.Undelegated;
  if negb b then mret None
  else
    s ← get_state;
    let obj := of_bytes (bytes_of (mem s addr)) in
    match assume_safe obj addr with
    | Ok _ => mret (Some obj)
    | _ => mret None
    end.
Definition copy_to_obj (src dst : Z) : M rmm Error (option unit) :=
  b ← check_granule_if src GranuleState.Undelegated;
  if negb b then mret None
  else
    s ← get_state;
    match assume_safe (mkDataPage (bytes_of (mem s src))) src with
    | Ok _ => modify (write_page dst (CData (bytes_of (mem s src))));; mret (Some tt)
    | _ => mret None
    end.
Definition copy_to_ptr {T} `{SafetyAssured T} (of_bytes : list Z -> T) (to_bytes : T -> list Z)
    (src : T) (dst : Z) : M rmm Error (option unit) :=
  b ← check_granule_if dst GranuleState.Undelegated;
  if negb b then mret None
  else
    s ← get_state;
    match assume_safe (of_bytes (bytes_of (mem s dst))) dst with
    | Ok _ => modify (write_page dst (CData (to_bytes src)));; mret (Some tt)
    | _ => mret None
    end.
End accesses.
