(* ===== verification/RawPtrFacts.v ===== *)
(** * Checked pointers: theorems

    Where the RMM makes them, the checks of [assume_safe] pass: the address was
    found in the granule status table before, and is the address of a granule. So
    the accesses of [Machine] are those of the sources. *)

From S2P Require Import Prelude Bytes Bits Vmsa RmiTypes Granule S2tte Objects Machine RawPtr.

(** Types that vouch for every object *)
Class Vouches (T : Type) `{SafetyAssured T} : Prop := {
  vouches_initialized x : is_initialized x = true;
  vouches_ownership x : verify_ownership x = true
}.
#[global] Instance DataPage_vouches : Vouches DataPage. Proof. by split. Qed.
#[global] Instance Rd_vouches : Vouches Rd.t. Proof. by split. Qed.
#[global] Instance Rec_vouches : Vouches Rec.t. Proof. by split. Qed.
#[global] Instance RealmParams_vouches : Vouches RealmParams.t. Proof. by split. Qed.
#[global] Instance RecParams_vouches : Vouches RecParams.t. Proof. by split. Qed.
#[global] Instance Run_vouches : Vouches Run.t. Proof. by split. Qed.
#[global] Instance HostCall_vouches : Vouches HostCall.t. Proof. by split. Qed.
#[global] Instance RealmConfig_vouches : Vouches RealmConfig. Proof. by split. Qed.
#[global] Instance IsletRealmMetadata_vouches : Vouches IsletRealmMetadata.t. Proof. by split. Qed.

(** [assume_safe] of such a type is the check of the address. *)
Lemma assume_safe_iff {T} `{Vouches T} (x : T) a p :
  assume_safe x a = Ok p <-> a <> 0 /\ a mod 8 = 0 /\ p = mkSafetyAssumed a false.
Proof.
  unfold assume_safe, is_not_null, is_aligned. rewrite vouches_initialized, vouches_ownership.
  rewrite negb_involutive. destruct (Z.eqb_spec a 0), (Z.eqb_spec (a mod 8) 0); cbn; naive_solver.
Qed.

Lemma granule_ptr a : validate_addr a = true -> is_not_null a = true /\ is_aligned a = true.
Proof.
  intros Hv. pose proof (validate_addr_range a Hv). apply validate_addr_spec in Hv as [Hm _].
  unfold is_not_null, is_aligned. split; [apply negb_true_iff, Z.eqb_neq; lia|].
  apply Z.eqb_eq. unfold GRANULE_SIZE in Hm. Z.div_mod_to_equations. lia.
Qed.
Lemma granule_safe {T} `{Vouches T} (x : T) a :
  validate_addr a = true -> assume_safe x a = Ok (mkSafetyAssumed a false).
Proof.
  intros [Hn Ha]%granule_ptr. unfold assume_safe. by rewrite Hn, Ha, vouches_initialized, vouches_ownership.
Qed.
Lemma granule_safe_uninit {T} `{Vouches T} (x : T) a :
  validate_addr a = true -> assume_safe_uninit_with x a = Ok (mkSafetyAssumed a true).
Proof. intros [Hn Ha]%granule_ptr. unfold assume_safe_uninit_with. by rewrite Hn, Ha, vouches_ownership. Qed.

Section accesses.
Context `{Platform}.

(** What follows the test of a granule may use that the address is valid. *)
Lemma check_then {B} a st (k k' : bool -> M rmm Error B) s :
  (validate_addr a = true -> forall s, k true s = k' true s) -> (forall s, k false s = k' false s) ->
  (check_granule_if a st ≫= k) s = (check_granule_if a st ≫= k') s.
Proof.
  intros Ht Hf. destruct (validate_addr a) eqn:Hv.
  - unfold mbind, M_bind. destruct (check_granule_if a st s) as [[[]| | |] s']; [by apply Ht|apply Hf|done..].
  - unfold check_granule_if, ok, with_granule_if, with_granule, mbind, M_bind. rewrite Hv. apply Hf.
Qed.

(** The copies between host and RMM memory are those of [Machine], and the
    content of a granule is accessed at its address: no check on a pointer makes
    a command fail, whatever the host passes. *)
Theorem pointer_checks_pass {T} `{Vouches T} (of_bytes : list Z -> T) (to_bytes : T -> list Z)
    (view : Machine.content -> T) s :
  (forall a, RawPtr.copy_from of_bytes a s = Machine.copy_from of_bytes a s)
  /\ (forall src dst, RawPtr.copy_to_obj src dst s = Machine.copy_to_obj src dst s)
  /\ (forall v dst, RawPtr.copy_to_ptr of_bytes to_bytes v dst s = Machine.copy_to_ptr to_bytes v dst s)
  /\ (forall idx, 0 <= idx < GRANULE_STATUS_TABLE_SIZE ->
        RawPtr.content view idx s = (Ok (mkSafetyAssumed (index_to_addr idx) false), s)
        /\ content_mut view idx s = (Ok (mkSafetyAssumed (index_to_addr idx) false), s)
        /\ forall v, new_uninit_with view v idx s
             = (Ok (mkSafetyAssumed (index_to_addr idx) true), write_page (index_to_addr idx) v s)).
Proof.
  split_and!.
  - intros a. apply check_then; [intros Hv s'|done]. unfold negb. cbv iota beta. mstep. by rewrite (granule_safe _ _ Hv).
  - intros src dst. apply check_then; [intros Hv s'|done]. unfold negb. cbv iota beta. mstep. by rewrite (granule_safe _ _ Hv).
  - intros v dst. apply check_then; [intros Hv s'|done]. unfold negb. cbv iota beta. mstep. by rewrite (granule_safe _ _ Hv).
  - intros idx Hi. destruct (index_to_addr_valid idx Hi) as [Hv _].
    unfold RawPtr.content, content_mut, new_uninit_with. split_and!; [..|intros v]; mstep.
    + by rewrite (granule_safe _ _ Hv).
    + by rewrite (granule_safe _ _ Hv).
    + by rewrite (granule_safe_uninit _ _ Hv).
Qed.
End accesses.
