(* ===== verification/Console.v ===== *)
(** * The console (lib/io, lib/uart, rmm/src/logger.rs, rmm/src/macro.rs)

    The RMM writes its log through [stdout] to a PL011 UART. The registers of the
    UART are memory-mapped: what reading or writing one does is a parameter.
    Waiting for the UART is a loop that reads a flag; [patience] bounds how often,
    and running out is [Hung]. *)

From S2P Require Import Prelude.

(** ** lib/io *)
Inductive ErrorKind : Set := NotConnected | AlreadyExists | Unsupported | Other.
Definition IoError : Set := ErrorKind.

(** The traits [Device], [Write] and [ConsoleWriter]. A device is a handle; [W] is
    what the handles share. *)
Class ConsoleWriter (D W : Type) := {
  initialized : D -> W -> bool;
  initialize : D -> M W IoError unit;
  dev_write_all : D -> list Z -> M W IoError unit
}.

Record Stdout (D W : Type) : Type := mkStdout { device : option D; shared : W }.
Arguments mkStdout {D W}.
Arguments device {D W}.
Arguments shared {D W}.

Section stdout.
Context {D W : Type} `{ConsoleWriter D W}.

Definition on_device {A} (m : M W IoError A) : M (Stdout D W) IoError A := fun s =>
  let '(r, w) := m (shared s) in (r, mkStdout (device s) w).

Definition attach (dev : D) : M (Stdout D W) IoError unit :=
  s ← get_state;
  (if negb (initialized dev (shared s)) then on_device (initialize dev) else mret tt);;
  modify (fun s => mkStdout (Some dev) (shared s)).

Definition write_all (buf : list Z) : M (Stdout D W) IoError unit :=
  s ← get_state;
  match device s with
  | Some dev => on_device (dev_write_all dev buf)
  | None => throw NotConnected
  end.
End stdout.

(** ** lib/uart/src/pl011.rs *)
Definition CLK_IN_HZ : Z := 24000000.
Definition BAUDRATE : Z := 115200.
Definition REG_LEN : Z := 4.
Definition UARTDR : Z := 0x000 / REG_LEN.
Definition UARTECR : Z := 0x004 / REG_LEN.
Definition UARTFR : Z := 0x018 / REG_LEN.
Definition UARTIBRD : Z := 0x024 / REG_LEN.
Definition UARTFBRD : Z := 0x028 / REG_LEN.
Definition UARTLCR_H : Z := 0x02C / REG_LEN.
Definition UARTCR : Z := 0x030 / REG_LEN.
Definition UARTFR_TXFF_BIT : Z := 5.
Definition UARTCR_RXE : Z := Z.shiftl 1 9.
Definition UARTCR_TXE : Z := Z.shiftl 1 8.
Definition UARTCR_EN : Z := Z.shiftl 1 0.
Definition WLEN_8 : Z := Z.shiftl 3 5.
Definition FEN : Z := Z.shiftl 1 4.
Definition LINE_CONTROL : Z := Z.lor FEN WLEN_8.

(** 32-bit memory-mapped registers *)
Class Mmio := {
  hardware : Type;
  read_volatile : Z -> hardware -> Z * hardware;
  write_volatile : Z -> Z -> hardware -> hardware
}.

Section pl011.
Context `{Mmio} (patience : positive).

Record DeviceInner : Type := mkInner { register : Z; ready : bool; hw : hardware }.
Definition inner_new (h : hardware) : DeviceInner := mkInner 0 false h.
Definition set_base (base : Z) : M DeviceInner IoError unit :=
  modify (fun s => mkInner base (ready s) (hw s)).

(** [self.register.offset(r).read_volatile()] and [write_volatile] *)
Definition reg_read (r : Z) : M DeviceInner IoError Z := fun s =>
  let '(v, h) := read_volatile (register s + REG_LEN * r) (hw s) in
  (Ok v, mkInner (register s) (ready s) h).
Definition reg_write (r v : Z) : M DeviceInner IoError unit :=
  modify (fun s => mkInner (register s) (ready s)
                     (write_volatile (register s + REG_LEN * r) (v mod 2 ^ 32) (hw s))).

(** [while reg(UARTFR) & UARTFR_TXFF_BIT == 0 {}] *)
Definition wait_step (_ : unit) : M DeviceInner IoError (unit + unit) :=
  fr ← reg_read UARTFR;
  mret (if Z.land fr UARTFR_TXFF_BIT =? 0 then inl tt else inr tt).
Definition wait : M DeviceInner IoError unit := loop_or_hang wait_step patience tt.

Definition putc (byte : Z) : M DeviceInner IoError unit :=
  s ← get_state;
  if ready s then wait;; reg_write UARTDR byte
  else throw NotConnected.

Definition inner_initialize : M DeviceInner IoError unit :=
  s ← get_state;
  if negb (ready s) then
    cr ← reg_read UARTCR;
    reg_write UARTCR (Z.land cr (Z.lxor UARTCR_EN (Z.ones 32)));;
    let divisor := Z.shiftl CLK_IN_HZ 2 / BAUDRATE in
    let ibrd := Z.shiftr divisor 6 in
    reg_write UARTIBRD ibrd;;
    let fbrd := Z.land ibrd 0x3f in
    reg_write UARTFBRD fbrd;;
    reg_write UARTLCR_H LINE_CONTROL;;
    reg_write UARTECR 0;;
    reg_write UARTCR (Z.lor (Z.lor UARTCR_RXE UARTCR_TXE) UARTCR_EN);;
    modify (fun s => mkInner (register s) true (hw s))
  else throw AlreadyExists.

Definition inner_write_all (buf : list Z) : M DeviceInner IoError unit :=
  for_each buf (fun byte =>
    (if byte =? 0xa then putc 0xd else mret tt);;
    putc byte).

(** [Device(base)]: every handle works on the one [DEVICE_INNER]. *)
Record Device : Set := mkDevice { base : Z }.
#[global] Instance uart_writer : ConsoleWriter Device DeviceInner := {|
  initialized _ s := ready s;
  initialize d := set_base (base d);; inner_initialize;
  dev_write_all _ buf := inner_write_all buf
|}.

(** ** rmm/src/macro.rs: text is a list of bytes; the result is dropped. *)
Definition ESC_RED : list Z := [27; 91; 48; 59; 51; 49; 109].
Definition ESC_RESET : list Z := [27; 91; 48; 109].
Definition print (text : list Z) : M (Stdout Device DeviceInner) IoError unit :=
  catch (write_all text) (fun _ => mret tt).
Definition println (text : list Z) : M (Stdout Device DeviceInner) IoError unit := print (text ++ [10]).
Definition eprint (text : list Z) : M (Stdout Device DeviceInner) IoError unit :=
  catch (write_all (ESC_RED ++ text ++ ESC_RESET)) (fun _ => mret tt).
Definition eprintln (text : list Z) : M (Stdout Device DeviceInner) IoError unit := eprint (text ++ [10]).

(** ** rmm/src/logger.rs: a record with its text formatted *)
Inductive Level : Set := LError | LWarn | LInfo | LDebug | LTrace.
Definition level_num (l : Level) : Z :=
  match l with LError => 1 | LWarn => 2 | LInfo => 3 | LDebug => 4 | LTrace => 5 end.
Definition level_name (l : Level) : list Z :=
  match l with
  | LError => [69; 82; 82; 79; 82]
  | LWarn => [87; 65; 82; 78]
  | LInfo => [73; 78; 70; 79]
  | LDebug => [68; 69; 66; 85; 71]
  | LTrace => [84; 82; 65; 67; 69]
  end.
Record LogRecord : Set := mkLogRecord { level : Level; target : list Z; args : list Z }.
Definition enabled (r : LogRecord) : bool := level_num (level r) <=? level_num LTrace.
(** "[{}]{} -- {}" *)
Definition log_line (r : LogRecord) : list Z :=
  [91] ++ level_name (level r) ++ [93] ++ target r ++ [32; 45; 45; 32] ++ args r.
Definition log (r : LogRecord) : M (Stdout Device DeviceInner) IoError unit :=
  if enabled r then
    if level_num (level r) <=? level_num LWarn then eprintln (log_line r) else println (log_line r)
  else mret tt.

(** ** plat/fvp/src/entry.rs: [init_console]. It runs once, so the logger can be
    registered, for every level; [module] is the path the message is logged under. *)
Definition UART3_BASE : Z := 0x1c0c0000.
Definition INITIALIZED : list Z :=
  [73; 110; 105; 116; 105; 97; 108; 105; 122; 101; 100; 32; 116; 104; 101; 32; 99; 111; 110; 115; 111;
   108; 101; 33].
Definition init_console (module : list Z) : M (Stdout Device DeviceInner) IoError unit :=
  catch (attach (mkDevice UART3_BASE)) (fun _ => mret tt);;
  log (mkLogRecord LInfo module INITIALIZED).
End pl011.
