(* ===== verification/ConsoleFacts.v ===== *)
(** * The console: theorems

    What is logged reaches the UART, in order and with carriage returns, if the
    flag [wait] looks at is ever set; which flag that is, and how the baud rate is
    set. *)

From S2P Require Import Prelude Console.

(** ** The specification *)

(** A carriage return before each line feed *)
Definition crlf (text : list Z) : list Z := text ≫= fun b => if b =? 0xa then [0xd; b] else [b].

(** What a record becomes *)
Definition rendered (r : LogRecord) : list Z :=
  if level_num (level r) <=? level_num LWarn then ESC_RED ++ (log_line r ++ [10]) ++ ESC_RESET
  else log_line r ++ [10].

Definition is_bytes (l : list Z) : Prop := Forall (fun b => 0 <= b < 256) l.
Definition record_ok (r : LogRecord) : Prop := is_bytes (target r) /\ is_bytes (args r).

Lemma rendered_bytes r : record_ok r -> is_bytes (rendered r).
Proof.
  intros [Ht Ha]. unfold rendered, log_line, is_bytes, ESC_RED, ESC_RESET in *.
  destruct (level r); cbn [level_num]; cbn [Z.leb Z.compare Pos.compare Pos.compare_cont level_name];
    rewrite ?Forall_app; split_and!; try done; repeat constructor; done.
Qed.

Section console.
Context `{Mmio} (patience : positive) (base : Z).

(** The UART at [base]: what it has sent *)
Context (sent : hardware -> list Z).

(** Reading the flags until one of the bits 0 and 2 is set, [n] times at most *)
Fixpoint flag_within (n : nat) (h : hardware) : option hardware :=
  match n with
  | O => None
  | S n =>
      let '(fr, h') := read_volatile (base + REG_LEN * UARTFR) h in
      if Z.land fr 5 =? 0 then flag_within n h' else Some h'
  end.

Lemma wait_step_run s :
  register s = base ->
  wait_step tt s
  = let '(fr, h) := read_volatile (base + REG_LEN * UARTFR) (hw s) in
    (Ok (if Z.land fr 5 =? 0 then inl tt else inr tt), mkInner base (ready s) h).
Proof.
  intros Hb. unfold wait_step, mbind, M_bind, reg_read. rewrite Hb. by destruct (read_volatile _ _).
Qed.
Lemma loop_flag n s h :
  register s = base -> flag_within n (hw s) = Some h ->
  loopN wait_step n tt s = (Ok (inr tt), mkInner base (ready s) h).
Proof.
  revert s. induction n as [|n IH]; intros s Hb; [done|]. cbn [flag_within loopN].
  pose proof (wait_step_run s Hb) as E.
  destruct (read_volatile (base + REG_LEN * UARTFR) (hw s)) as [fr h1].
  rewrite (bind_ok _ _ _ _ _ E). destruct (Z.land fr 5 =? 0); intros Hf.
  - by rewrite IH.
  - by injection Hf as <-.
Qed.
Lemma loop_no_flag n s :
  register s = base -> flag_within n (hw s) = None ->
  exists h, loopN wait_step n tt s = (Ok (inl tt), mkInner base (ready s) h).
Proof.
  revert s. induction n as [|n IH]; intros s Hb; [exists (hw s); destruct s; cbn in Hb; by subst|].
  cbn [flag_within loopN]. pose proof (wait_step_run s Hb) as E.
  destruct (read_volatile (base + REG_LEN * UARTFR) (hw s)) as [fr h1].
  rewrite (bind_ok _ _ _ _ _ E). destruct (Z.land fr 5 =? 0); intros Hf; [|done].
  by apply (IH (mkInner base (ready s) h1)).
Qed.

(** A byte is written once the flag was seen, and never if it is not. *)
Lemma putc_run b s h :
  register s = base -> ready s = true -> flag_within (Pos.to_nat patience) (hw s) = Some h ->
  putc patience b s
  = (Ok tt, mkInner base true (write_volatile (base + REG_LEN * UARTDR) (b mod 2 ^ 32) h)).
Proof.
  intros Hb Hr Hf. unfold putc. mstep. rewrite Hr.
  erewrite bind_ok; [|unfold wait; eapply loop_or_hang_done; [reflexivity|by apply loop_flag]].
  by rewrite Hr.
Qed.
Theorem putc_hangs b s :
  register s = base -> ready s = true -> flag_within (Pos.to_nat patience) (hw s) = None ->
  exists s', putc patience b s = (Hung, s').
Proof.
  intros Hb Hr Hf. destruct (loop_no_flag _ _ Hb Hf) as [h E]. unfold putc. mstep. rewrite Hr.
  unfold wait, loop_or_hang, mbind, M_bind. rewrite loopM_loopN, E. by eexists.
Qed.

(** The UART sends what is written to its data register; the flag is seen. *)
Hypothesis Hdr : forall v h, sent (write_volatile (base + REG_LEN * UARTDR) v h) = sent h ++ [v].
Hypothesis Hctl : forall r v h, r <> UARTDR -> sent (write_volatile (base + REG_LEN * r) v h) = sent h.
Hypothesis Hread : forall r h, sent (read_volatile (base + REG_LEN * r) h).2 = sent h.
Hypothesis Hflag : forall h, is_Some (flag_within (Pos.to_nat patience) h).

Lemma flag_sent n h h' : flag_within n h = Some h' -> sent h' = sent h.
Proof.
  revert h. induction n as [|n IH]; intros h; [done|]. cbn [flag_within].
  pose proof (Hread UARTFR h) as Hr. destruct (read_volatile _ h) as [fr h1]. cbn [snd] in Hr.
  destruct (Z.land fr 5 =? 0); intros Hf; [by rewrite (IH _ Hf)|by injection Hf as <-].
Qed.

(** [s] has been initialized and has sent [out]. *)
Definition has_sent (out : list Z) (s : DeviceInner) : Prop :=
  register s = base /\ ready s = true /\ sent (hw s) = out.

Lemma putc_sent b s out :
  0 <= b < 256 -> has_sent out s -> exists s', putc patience b s = (Ok tt, s') /\ has_sent (out ++ [b]) s'.
Proof.
  intros Hb (Hr & Hd & Ho). destruct (Hflag (hw s)) as [h Hf]. eexists.
  split; [by apply putc_run|]. split_and!; [done|done|]. cbn [hw].
  rewrite Hdr, (flag_sent _ _ _ Hf), Ho. by rewrite Z.mod_small by lia.
Qed.

Lemma inner_write_all_sent text s out :
  is_bytes text -> has_sent out s ->
  exists s', inner_write_all patience text s = (Ok tt, s') /\ has_sent (out ++ crlf text) s'.
Proof.
  unfold inner_write_all. intros Ht. revert s out. induction Ht as [|b text Hb _ IH]; intros s out Hs.
  - exists s. split; [done|]. unfold crlf. cbn. by rewrite app_nil_r.
  - cbn [for_each]. unfold crlf. cbn [mbind list_bind]. fold (crlf text).
    destruct (Z.eqb_spec b 10) as [->|Hne].
    + destruct (putc_sent 13 s out ltac:(lia) Hs) as (s1 & E1 & H1).
      destruct (putc_sent 10 s1 _ ltac:(lia) H1) as (s2 & E2 & H2).
      destruct (IH s2 _ H2) as (s3 & E3 & H3). exists s3.
      mstep. rewrite (bind_ok _ _ _ _ _ E1), (bind_ok _ _ _ _ _ E2). split; [done|].
      by rewrite <- !app_assoc in H3.
    + destruct (putc_sent b s out Hb Hs) as (s1 & E1 & H1).
      destruct (IH s1 _ H1) as (s2 & E2 & H2). exists s2.
      mstep. rewrite (bind_ok _ _ _ _ _ E1). split; [done|]. by rewrite <- !app_assoc in H2.
Qed.

Lemma inner_initialize_sent h :
  exists s', inner_initialize (mkInner base false h) = (Ok tt, s') /\ has_sent (sent h) s'.
Proof.
  unfold inner_initialize. mstep. cbn [ready negb]. pose proof (Hread UARTCR h) as Hr.
  destruct (read_volatile (base + REG_LEN * UARTCR) h) as [cr h1] eqn:E. cbn [snd] in Hr.
  erewrite bind_ok by (unfold reg_read; cbn [register hw]; rewrite E; reflexivity).
  unfold reg_write. mstep. eexists. split; [reflexivity|]. split_and!; [done|done|].
  cbn [hw register]. by rewrite !Hctl by done.
Qed.

(** The console after [attach] *)
Definition console_sent (out : list Z) (s : Stdout Device DeviceInner) : Prop :=
  is_Some (device s) /\ has_sent out (shared s).

Lemma console_write text s out :
  is_bytes text -> console_sent out s ->
  exists s', write_all (H := uart_writer patience) text s = (Ok tt, s')
    /\ console_sent (out ++ crlf text) s'.
Proof.
  intros Ht [[d Hd] Hs]. destruct (inner_write_all_sent text _ out Ht Hs) as (w & E & Hw).
  exists (mkStdout (Some d) w). unfold write_all. mstep. rewrite Hd.
  unfold on_device. cbn [dev_write_all uart_writer]. rewrite E, Hd. split; [done|].
  by split; [eexists|].
Qed.

Lemma log_sent r s out :
  record_ok r -> console_sent out s ->
  exists s', log patience r s = (Ok tt, s') /\ console_sent (out ++ crlf (rendered r)) s'.
Proof.
  intros Hr Hs. destruct (console_write (rendered r) s out (rendered_bytes r Hr) Hs) as (s' & E & Hs').
  exists s'. split; [|exact Hs']. unfold log. assert (enabled r = true) as -> by (unfold enabled; by destruct (level r)).
  unfold rendered in E. destruct (level_num (level r) <=? level_num LWarn).
  - unfold eprintln, eprint, catch. by rewrite E.
  - unfold println, print, catch. by rewrite E.
Qed.
Lemma logs_sent rs s out :
  Forall record_ok rs -> console_sent out s ->
  exists s', for_each rs (log patience) s = (Ok tt, s')
    /\ console_sent (out ++ (rs ≫= fun r => crlf (rendered r))) s'.
Proof.
  intros Hr. revert s out. induction Hr as [|r rs Hr _ IH]; intros s out Hs.
  - exists s. split; [done|]. cbn. by rewrite app_nil_r.
  - destruct (log_sent r s out Hr Hs) as (s1 & E1 & H1). destruct (IH s1 _ H1) as (s2 & E2 & H2).
    exists s2. cbn [for_each]. rewrite (bind_ok _ _ _ _ _ E1). split; [done|].
    cbn [mbind list_bind]. by rewrite <- app_assoc in H2.
Qed.
End console.

(** From the start of the RMM, everything that is logged is sent over the UART,
    in order: the message of [init_console] and the records that follow it,
    warnings and errors in red, with a carriage return before each line feed. The
    UART is assumed to send what is written to its data register, and to show one
    of the flags [wait] looks at within [patience] reads. *)
Theorem log_reaches_uart `{Mmio} patience (sent : hardware -> list Z) module rs h :
  (forall v h, sent (write_volatile (UART3_BASE + REG_LEN * UARTDR) v h) = sent h ++ [v]) ->
  (forall r v h, r <> UARTDR -> sent (write_volatile (UART3_BASE + REG_LEN * r) v h) = sent h) ->
  (forall r h, sent (read_volatile (UART3_BASE + REG_LEN * r) h).2 = sent h) ->
  (forall h, is_Some (flag_within UART3_BASE (Pos.to_nat patience) h)) ->
  is_bytes module -> Forall record_ok rs ->
  exists s', (init_console patience module;; for_each rs (log patience)) (mkStdout None (inner_new h))
      = (Ok tt, s')
    /\ sent (hw (shared s'))
       = sent h ++ ((mkLogRecord LInfo module INITIALIZED :: rs) ≫= fun r => crlf (rendered r)).
Proof.
  intros Hdr Hctl Hread Hflag Hm Hrs.
  destruct (inner_initialize_sent UART3_BASE sent Hctl Hread h) as (w & E & Hw).
  set (s1 := mkStdout (Some (mkDevice UART3_BASE)) w).
  assert (attach (H := uart_writer patience) (mkDevice UART3_BASE) (mkStdout None (inner_new h)) = (Ok tt, s1)) as E1.
  { unfold attach. mstep. cbn [initialized uart_writer shared inner_new ready negb].
    rewrite (bind_ok _ _ _ tt (mkStdout None w)); [reflexivity|]. unfold on_device. cbn [initialize uart_writer shared base].
    unfold set_base. mstep. cbn [ready hw inner_new]. by rewrite E. }
  destruct (logs_sent patience UART3_BASE sent Hdr Hread Hflag (mkLogRecord LInfo module INITIALIZED :: rs) s1
    (sent h)) as (s2 & E2 & _ & _ & _ & Hs).
  - constructor; [|done]. split; [done|]. unfold is_bytes, INITIALIZED. cbn [args].
    repeat constructor; done.
  - by split; [eexists|].
  - exists s2. split; [|exact Hs]. unfold init_console, catch. mstep.
    erewrite bind_ok by (rewrite E1; reflexivity). exact E2.
Qed.

(** ** A concrete UART: the flag register is constant, the registers keep what is
    written, and the data register sends it. *)
Record ToyUart : Type := mkToy { flags : Z; regs : list (Z * Z); line : list Z }.
#[local] Instance toy_uart : Mmio := {|
  hardware := ToyUart;
  read_volatile a h := (if a =? UART3_BASE + REG_LEN * UARTFR then flags h else 0, h);
  write_volatile a v h :=
    if a =? UART3_BASE + REG_LEN * UARTDR then mkToy (flags h) (regs h) (line h ++ [v])
    else mkToy (flags h) ((a, v) :: regs h) (line h)
|}.

(** One read is enough when CTS is shown. *)
Definition toy_run : outcome IoError unit * Stdout Device DeviceInner :=
  (init_console 1 [];; for_each [mkLogRecord LWarn [97] [98]] (log 1))
    (mkStdout None (inner_new (mkToy 0x91 [] []))).
Example log_reaches_toy :
  toy_run.1 = Ok tt
  /\ line (hw (shared toy_run.2))
     = crlf ([91; 73; 78; 70; 79; 93; 32; 45; 45; 32] ++ INITIALIZED ++ [10])
       ++ crlf (ESC_RED ++ [91; 87; 65; 82; 78; 93; 97; 32; 45; 45; 32; 98; 10] ++ ESC_RESET).
Proof. by vm_compute. Qed.

(** The flag that is tested is not TXFF (bit 5) but CTS or DCD (bits 0 and 2):
    with a full FIFO and CTS the byte is written, and an idle UART without CTS and
    DCD keeps the RMM waiting for ever. *)
Example full_fifo_not_waited_for :
  putc 1 65 (mkInner UART3_BASE true (mkToy 0x21 [] [])) = (Ok tt, mkInner UART3_BASE true (mkToy 0x21 [] [65])).
Proof. reflexivity. Qed.

Theorem idle_uart_hangs patience b :
  exists s', putc patience b (mkInner UART3_BASE true (mkToy 0x90 [] [])) = (Hung, s').
Proof.
  apply (putc_hangs patience UART3_BASE); [done|done|]. cbn [hw].
  induction (Pos.to_nat patience) as [|n IH]; [done|exact IH].
Qed.

(** The fractional part of the divisor is the integer part again: 13 where
    833 = 13 * 64 + 1 needs 1. *)
Definition programmed : list (Z * Z) :=
  regs (hw (inner_initialize (mkInner UART3_BASE false (mkToy 0x91 [] []))).2).
Example fraction_is_integer_part :
  programmed !! 3%nat = Some (UART3_BASE + REG_LEN * UARTFBRD, 13)
  /\ programmed !! 4%nat = Some (UART3_BASE + REG_LEN * UARTIBRD, 13)
  /\ Z.shiftl CLK_IN_HZ 2 / BAUDRATE = 13 * 64 + 1.
Proof. split_and!; vm_compute; reflexivity. Qed.
