(* ===== verification/Tlb.v ===== *)
(** * TLB maintenance for realms (realm/mm/stage2_translation.rs)

    [ipa_to_pte_set] records which invalidations it makes ([TlbiOp] of Machine);
    here is what each of them executes: the VMID of VTTBR_EL2 is switched, the
    instructions are issued, and the VMID is switched back. An instruction is
    recorded with the VMID it ran under. *)

From S2P Require Import Prelude Bits Vmsa RmiTypes S2tte Granule Objects Machine.

Module TLBI_OP.
Definition NS : Z := define_mask 63 63.
Definition TTL : Z := define_mask 47 44.
Definition IPA : Z := define_mask 35 0.
End TLBI_OP.
Module TLBI_RANGE_OP.
Definition NS : Z := define_mask 63 63.
Definition TG : Z := define_mask 47 46.
Definition SCALE : Z := define_mask 45 44.
Definition NUM : Z := define_mask 43 39.
Definition TTL : Z := define_mask 38 37.
Definition IPA : Z := define_mask 36 0.
End TLBI_RANGE_OP.
Definition VTTBR_VMID : Z := define_mask 63 48.

Inductive TlbInstr : Set :=
| IPAS2E1IS (xt : Z)
| RIPAS2LE1 (xt : Z)
| VMALLE1IS.

Record TlbHw : Set := mkTlbHw { VTTBR_EL2 : Z; issued : list (Z * TlbInstr) }.
Definition vmid_of (hw : TlbHw) : Z := get_masked_value (VTTBR_EL2 hw) VTTBR_VMID.
(** [VTTBR_EL2.write(VTTBR_EL2::VMID.val(vmid))]: the other fields become zero. *)
Definition write_vmid (vmid : Z) : M TlbHw Error unit :=
  modify (fun hw => mkTlbHw (bits_in_reg VTTBR_VMID vmid) (issued hw)).
Definition issue (i : TlbInstr) : M TlbHw Error unit :=
  modify (fun hw => mkTlbHw (VTTBR_EL2 hw) (issued hw ++ [(vmid_of hw, i)])).

Definition TLBI_BOUND : positive := 2 ^ 53.

Definition iter_step (level size : Z) (it : PageIter) : M TlbHw Error (PageIter + unit) :=
  match next size it with
  | (None, _) => mret (inr tt)
  | (Some guest, it') =>
      let ipa := Z.shiftr guest 12 in
      let ipa := Z.lor (bits_in_reg TLBI_OP.TTL (Z.lor 4 level)) (bits_in_reg TLBI_OP.IPA ipa) in
      issue (IPAS2E1IS ipa);;
      mret (inl it')
  end.
Definition tlbi_iter (level size : Z) (guest_iter : PageIter) (vmid : Z) : M TlbHw Error unit :=
  vmid_saved ← gets vmid_of;
  write_vmid vmid;;
  loop_or_hang (iter_step level size) TLBI_BOUND guest_iter;;
  write_vmid vmid_saved.

Definition tlbi_vmalle1is (vmid : Z) : M TlbHw Error unit :=
  vmid_saved ← gets vmid_of;
  write_vmid vmid;;
  issue VMALLE1IS;;
  write_vmid vmid_saved.

Definition tlbi_by_vmid_ipa (level guest vmid : Z) : M TlbHw Error unit :=
  guest_iter ← lift (range_with_size Config.PAGE_SIZE guest Config.PAGE_SIZE);
  tlbi_iter level Config.PAGE_SIZE guest_iter vmid;;
  tlbi_vmalle1is vmid.

Definition tlbi_by_vmid_ipa_range (level guest vmid : Z) : M TlbHw Error unit :=
  vmid_saved ← gets vmid_of;
  write_vmid vmid;;
  let scale := Word.sub 3 level in
  let num := Word.add 8 (Word.mul 4 scale) in
  let xt := Z.lor (Z.lor (Z.lor (Z.lor (bits_in_reg TLBI_RANGE_OP.TG 1)
                                       (bits_in_reg TLBI_RANGE_OP.SCALE scale))
                                (bits_in_reg TLBI_RANGE_OP.NUM num))
                         (bits_in_reg TLBI_RANGE_OP.TTL (Word.add level 1)))
                  (bits_in_reg TLBI_RANGE_OP.IPA guest) in
  issue (RIPAS2LE1 xt);;
  write_vmid vmid_saved;;
  tlbi_vmalle1is vmid.

Definition tlbi_by_vmid_ipa_range_v2 (level guest vmid : Z) : M TlbHw Error unit :=
  (if level =? 2 then
     len ← lift (mapping_size level);
     guest_iter ← lift (range_with_size Config.PAGE_SIZE guest len);
     tlbi_iter (level + 1) Config.PAGE_SIZE guest_iter vmid
   else if level =? 1 then
     len ← lift (mapping_size level);
     guest_iter ← lift (range_with_size Config.LARGE_PAGE_SIZE guest len);
     tlbi_iter (level + 1) Config.LARGE_PAGE_SIZE guest_iter vmid
   else if level =? 0 then
     len ← lift (mapping_size level);
     guest_iter ← lift (range_with_size Config.HUGE_PAGE_SIZE guest len);
     tlbi_iter (level + 1) Config.HUGE_PAGE_SIZE guest_iter vmid
   else panic);;
  tlbi_vmalle1is vmid.

(** [ipa_to_pte_set]: the operation that is logged *)
Definition invalidate (op : TlbiOp) : M TlbHw Error unit :=
  match op with
  | TlbiLeaf level ipa vmid => tlbi_by_vmid_ipa level ipa vmid
  | TlbiBreakdown level ipa vmid => tlbi_by_vmid_ipa_range level ipa vmid
  end.

(** [clean]: only if the tables were changed since *)
Definition clean (dirty : bool) (vmid : Z) : M TlbHw Error bool :=
  if dirty then tlbi_vmalle1is vmid;; mret false else mret dirty.
