(* ===== verification/TlbFacts.v ===== *)
(** * TLB maintenance for realms: theorems

    What the invalidations remove from the TLBs, by the architecture's rules for
    the instructions. The invalidation of an entry removes it for its VMID and no
    other; the invalidation of a range is made for another range. *)

From S2P Require Import Prelude Bytes Bits Vmsa RmiTypes S2tte Granule Objects Machine PageTable Stage2 Rtt Stage2Facts RttFacts Sample SampleRealm RttTheorems Tlb.

(** ** The architecture: what a TLB may hold, and what an instruction removes *)

(** A stage-2 translation of the block of [level] at [ipa], or one that combines
    both stages *)
Inductive Cached : Set :=
| Stage2Entry (vmid ipa level : Z)
| CombinedEntry (vmid : Z).

Definition covers (ipa level a : Z) : bool := (ipa <=? a) && (a <? ipa + 2 ^ level_shift level).

(** IPAS2E1IS: the entries for the address in the operand; a level in the hint
    restricts them (0 is no hint). RIPAS2LE1: the entries that meet the range of
    (NUM + 1) * 2^(5 * SCALE + 1) pages at the page BaseADDR. VMALLE1IS: what
    involves stage 1. Each for the VMID in VTTBR_EL2. *)
Definition removes (vmid : Z) (i : TlbInstr) (c : Cached) : bool :=
  match i, c with
  | IPAS2E1IS xt, Stage2Entry v ipa level =>
      let hint := get_masked_value xt TLBI_OP.TTL mod 4 in
      (v =? vmid) && covers ipa level (4096 * get_masked_value xt TLBI_OP.IPA)
      && ((hint =? 0) || (hint =? level))
  | RIPAS2LE1 xt, Stage2Entry v ipa level =>
      let start := 4096 * get_masked_value xt TLBI_RANGE_OP.IPA in
      let pages := (get_masked_value xt TLBI_RANGE_OP.NUM + 1)
                   * 2 ^ (5 * get_masked_value xt TLBI_RANGE_OP.SCALE + 1) in
      (v =? vmid) && (ipa <? start + 4096 * pages) && (start <? ipa + 2 ^ level_shift level)
  | VMALLE1IS, CombinedEntry v => v =? vmid
  | _, _ => false
  end.
Definition removed (instrs : list (Z * TlbInstr)) (c : Cached) : bool :=
  existsb (fun '(vmid, i) => removes vmid i c) instrs.

(** ** Registers *)
Lemma field_other m m' v : Z.land m' m = 0 -> get_masked_value (bits_in_reg m' v) m = 0.
Proof. intros Hm. eapply get_masked_value_disjoint; [apply bits_in_reg_confined|done]. Qed.
Lemma vmid_written v instrs : 0 <= v < 2 ^ 16 -> vmid_of (mkTlbHw (bits_in_reg VTTBR_VMID v) instrs) = v.
Proof.
  intros Hv. unfold vmid_of, VTTBR_VMID. cbn [VTTBR_EL2]. rewrite bits_in_reg_get by lia.
  by apply Z.mod_small.
Qed.
Lemma vmid_of_range hw : 0 <= vmid_of hw < 2 ^ 16.
Proof.
  unfold vmid_of, VTTBR_VMID. rewrite get_masked_value_div by lia. by apply Z.mod_pos_bound.
Qed.

(** The state after the instructions [instrs] under [vmid], the VMID restored *)
Definition after (vmid : Z) (instrs : list TlbInstr) (hw : TlbHw) : TlbHw :=
  mkTlbHw (bits_in_reg VTTBR_VMID (vmid_of hw)) (issued hw ++ ((vmid,.) <$> instrs)).

Lemma vmalle1is_run vmid hw :
  0 <= vmid < 2 ^ 16 -> tlbi_vmalle1is vmid hw = (Ok tt, after vmid [VMALLE1IS] hw).
Proof.
  intros Hv. unfold tlbi_vmalle1is, write_vmid, issue. mstep. cbn [issued VTTBR_EL2].
  by rewrite vmid_written.
Qed.

Definition page_operand (level guest : Z) : Z :=
  Z.lor (bits_in_reg TLBI_OP.TTL (Z.lor 4 level)) (bits_in_reg TLBI_OP.IPA (Z.shiftr guest 12)).

Lemma iter_step_page level it hw :
  current it <= Vmsa.last it -> 0 <= current it < 2 ^ 48 ->
  iter_step level Config.PAGE_SIZE it hw
  = (Ok (inl (mkPageIter (current it + 4096) (Vmsa.last it))),
     mkTlbHw (VTTBR_EL2 hw) (issued hw ++ [(vmid_of hw, IPAS2E1IS (page_operand level (current it)))])).
Proof.
  intros Hl Hc. unfold iter_step, next. rewrite (proj2 (Z.leb_le _ _)) by done.
  change Config.PAGE_SIZE with 4096. by rewrite Word.add_small by (unfold Word.modulus; lia).
Qed.
Lemma iter_step_end level it hw :
  Vmsa.last it < current it -> iter_step level Config.PAGE_SIZE it hw = (Ok (inr tt), hw).
Proof. intros Hl. unfold iter_step, next. by rewrite (proj2 (Z.leb_gt _ _)). Qed.

(** The iterator of one page *)
Lemma iter_one level vmid guest hw :
  0 <= guest < 2 ^ 48 -> 0 <= vmid < 2 ^ 16 ->
  tlbi_iter level Config.PAGE_SIZE (mkPageIter guest guest) vmid hw
  = (Ok tt, after vmid [IPAS2E1IS (page_operand level guest)] hw).
Proof.
  intros Hg Hv. unfold tlbi_iter, write_vmid. mstep.
  erewrite bind_ok.
  2: { eapply (loop_or_hang_done _ _ 2); [unfold TLBI_BOUND; lia|]. cbn [loopN].
       rewrite (bind_ok _ _ _ _ _ (iter_step_page level (mkPageIter guest guest) _
         (Z.le_refl _) Hg)). cbv iota beta. cbn [current Vmsa.last].
       rewrite (bind_ok _ _ _ _ _ (iter_step_end level (mkPageIter (guest + 4096) guest) _
         ltac:(cbn; lia))). reflexivity. }
  unfold after, modify. cbn [issued VTTBR_EL2 current]. by rewrite vmid_written.
Qed.

Lemma page_operand_ipa level guest :
  0 <= guest < 2 ^ 48 -> guest mod 4096 = 0 ->
  4096 * get_masked_value (page_operand level guest) TLBI_OP.IPA = guest.
Proof.
  intros Hg Hm. unfold page_operand. rewrite get_masked_value_lor, field_other, Z.lor_0_l by (by vm_compute).
  unfold TLBI_OP.IPA. rewrite bits_in_reg_get by lia. change (2 ^ (35 - 0 + 1)) with (2 ^ 36).
  rewrite Z.shiftr_div_pow2 by lia. change (2 ^ 12) with 4096.
  rewrite Z.mod_small; [Z.div_mod_to_equations; lia|].
  split; [apply Z.div_pos; lia|apply Z.div_lt_upper_bound; lia].
Qed.
Lemma page_operand_hint level guest :
  0 <= level <= 3 -> get_masked_value (page_operand level guest) TLBI_OP.TTL mod 4 = level.
Proof.
  intros Hl. unfold page_operand. rewrite get_masked_value_lor.
  rewrite (field_other TLBI_OP.TTL TLBI_OP.IPA), Z.lor_0_r by (by vm_compute).
  unfold TLBI_OP.TTL. rewrite bits_in_reg_get by lia.
  assert (level = 0 \/ level = 1 \/ level = 2 \/ level = 3) as Hc by lia.
  by destruct Hc as [->|[->|[->| ->]]].
Qed.

(** ** One entry *)
Lemma leaf_run level guest vmid hw :
  0 <= guest < 2 ^ 48 -> guest mod 4096 = 0 -> 0 <= vmid < 2 ^ 16 ->
  tlbi_by_vmid_ipa level guest vmid hw
  = (Ok tt, after vmid [IPAS2E1IS (page_operand level guest); VMALLE1IS] hw).
Proof.
  intros Hg Hm Hv. unfold tlbi_by_vmid_ipa.
  assert (range_with_size (E := Error) Config.PAGE_SIZE guest Config.PAGE_SIZE = Ok (mkPageIter guest guest)) as ->.
  { unfold range_with_size, including_address. change Config.PAGE_SIZE with (2 ^ 12).
    rewrite Word.add_small, Word.sub_small by (unfold Word.modulus; lia).
    rewrite !align_down_pow2 by (unfold Word.in_range, Word.modulus; lia).
    change (2 ^ 12) with 4096. rewrite Hm.
    replace ((guest + 4096 - 1) mod 4096) with 4095 by (Z.div_mod_to_equations; lia).
    unfold range. rewrite (proj2 (Z.leb_le _ _)) by lia. repeat f_equal; lia. }
  mstep. rewrite (bind_ok _ _ _ _ _ (iter_one level vmid guest hw Hg Hv)).
  rewrite vmalle1is_run by done. unfold after. cbn [issued].
  rewrite vmid_written by apply vmid_of_range. by rewrite <- app_assoc.
Qed.

(** The invalidation of an entry removes what the TLBs hold of that address at
    that level for the realm, and what they hold of it combined with stage 1, and
    nothing of another realm; the VMID is switched back. *)
Lemma leaf_invalidates level guest vmid hw :
  0 <= level <= 3 -> 0 <= guest < 2 ^ 48 -> guest mod 4096 = 0 -> 0 <= vmid < 2 ^ 16 ->
  exists hw' new, invalidate (TlbiLeaf level guest vmid) hw = (Ok tt, hw')
    /\ issued hw' = issued hw ++ new
    /\ vmid_of hw' = vmid_of hw
    /\ (forall ipa, covers ipa level guest = true -> removed new (Stage2Entry vmid ipa level) = true)
    /\ removed new (CombinedEntry vmid) = true
    /\ (forall v ipa l, v <> vmid ->
          removed new (Stage2Entry v ipa l) = false /\ removed new (CombinedEntry v) = false).
Proof.
  intros Hl Hg Hm Hv. eexists _, _. split; [by apply leaf_run|].
  split; [reflexivity|]. split; [apply vmid_written, vmid_of_range|]. cbn [fmap list_fmap]. split_and!.
  - intros ipa Hc. cbn [removed existsb removes]. rewrite page_operand_ipa, page_operand_hint by done.
    by rewrite Hc, !Z.eqb_refl, orb_true_r.
  - cbn [removed existsb removes]. by rewrite Z.eqb_refl.
  - intros v ipa l Hne. cbn [removed existsb removes]. by rewrite (proj2 (Z.eqb_neq v vmid)).
Qed.

(** C11: destroying a page of RAM. DATA_DESTROY's table operation on a valid
    level-3 entry asks for one invalidation, of that single entry. Running it
    removes what the TLBs hold of the page as a page of this realm and every
    translation of the realm that combines both stages, removes nothing of
    another realm, and leaves VTTBR_EL2 with the VMID it had. (Changes the code
    makes without an invalidation, and the invalidation of a range when a
    table goes away, are not covered: the latter misses its range.) *)
Theorem destroyed_page_not_cached `{Platform} rd s t ipa pre b f hw :
  reaches rd s t ipa 3 pre b -> 0 <= ipa < 2 ^ 48 -> ipa mod 2 ^ 12 = 0 ->
  0 <= Rd.id rd < 2 ^ 16 -> is_assigned_ram (read_word b s) 3 = true ->
  exists pa top s' op hw' new,
    data_destroy rd ipa f s = (Ok (pa, top), s') /\
    tlbi_log s' = tlbi_log s ++ [op] /\
    invalidate op hw = (Ok tt, hw') /\ issued hw' = issued hw ++ new /\
    vmid_of hw' = vmid_of hw /\
    removed new (Stage2Entry (Rd.id rd) ipa 3) = true /\
    removed new (CombinedEntry (Rd.id rd)) = true /\
    (forall v a l, v <> Rd.id rd ->
       removed new (Stage2Entry v a l) = false /\ removed new (CombinedEntry v) = false).
Proof.
  intros Hr Hi Hal Hv Hram.
  destruct (data_destroy_run rd s t ipa pre b f Hr Hi Hal) as (top & Hd & _); [by rewrite Hram|].
  destruct (leaf_invalidates 3 ipa (Rd.id rd) hw) as (hw' & new & E & Hn & Hk & H1 & H2 & H3);
    [lia|done|done|done|].
  eexists _, top, _, (TlbiLeaf 3 ipa (Rd.id rd)), hw', new. split; [exact Hd|].
  split; [unfold after_set, destroyed_tlbi; by rewrite Hram|].
  split_and!; [done..| |done|done]. apply H1. unfold covers. rewrite Z.leb_refl. apply Z.ltb_lt.
  change (2 ^ level_shift 3) with 4096. lia.
Qed.

(** ** A range *)
Definition range_operand (level guest : Z) : Z :=
  Z.lor (Z.lor (Z.lor (Z.lor (bits_in_reg TLBI_RANGE_OP.TG 1)
                             (bits_in_reg TLBI_RANGE_OP.SCALE (3 - level)))
                      (bits_in_reg TLBI_RANGE_OP.NUM (8 + 4 * (3 - level))))
               (bits_in_reg TLBI_RANGE_OP.TTL (level + 1)))
        (bits_in_reg TLBI_RANGE_OP.IPA guest).

Lemma breakdown_run level guest vmid hw :
  0 <= level <= 3 -> 0 <= vmid < 2 ^ 16 ->
  tlbi_by_vmid_ipa_range level guest vmid hw
  = (Ok tt, after vmid [RIPAS2LE1 (range_operand level guest); VMALLE1IS] hw).
Proof.
  intros Hl Hv. unfold tlbi_by_vmid_ipa_range, write_vmid, issue. mstep.
  rewrite vmalle1is_run by done. unfold after. cbn [issued VTTBR_EL2].
  rewrite (vmid_written vmid), (vmid_written (vmid_of hw)) by (done || apply vmid_of_range).
  rewrite <- app_assoc. cbn [fmap list_fmap app].
  rewrite (Word.sub_small 3), Word.mul_small by (unfold Word.modulus; lia).
  by rewrite !Word.add_small by (unfold Word.modulus; lia).
Qed.

(** The operand has the address and not its page number: the range starts at
    4096 times the address. *)
Lemma range_operand_ipa level guest :
  0 <= guest < 2 ^ 37 -> get_masked_value (range_operand level guest) TLBI_RANGE_OP.IPA = guest.
Proof.
  intros Hg. unfold range_operand. rewrite !get_masked_value_lor.
  rewrite !(field_other TLBI_RANGE_OP.IPA), !Z.lor_0_l by (by vm_compute).
  unfold TLBI_RANGE_OP.IPA. rewrite bits_in_reg_get by lia. by apply Z.mod_small.
Qed.

(** So for a table whose addresses do not start at zero, nothing the TLBs hold of
    them is removed but what is combined with stage 1. *)
Theorem breakdown_misses level guest vmid hw :
  0 <= level <= 2 -> 2 ^ level_shift level <= guest < 2 ^ 37 -> 0 <= vmid < 2 ^ 16 ->
  exists hw' new, invalidate (TlbiBreakdown level guest vmid) hw = (Ok tt, hw')
    /\ issued hw' = issued hw ++ new
    /\ forall ipa l, guest <= ipa -> ipa + 2 ^ level_shift l <= guest + 2 ^ level_shift level ->
         removed new (Stage2Entry vmid ipa l) = false.
Proof.
  intros Hl Hg Hv. eexists _, _. split; [by apply breakdown_run; [lia|]|]. split; [reflexivity|].
  assert (0 < 2 ^ level_shift level) as Hp by (apply Z.pow_pos_nonneg; unfold level_shift; lia).
  intros ipa l H1 H2. cbn [fmap list_fmap removed existsb removes].
  rewrite range_operand_ipa by lia. rewrite (proj2 (Z.ltb_ge (4096 * guest) _)) by lia.
  by rewrite !andb_false_r.
Qed.

(** And at address zero the range of a level-1 entry is too short: of its 262144
    pages, 34816 are invalidated. *)
Theorem breakdown_short vmid hw :
  0 <= vmid < 2 ^ 16 ->
  exists hw' new, invalidate (TlbiBreakdown 1 0 vmid) hw = (Ok tt, hw')
    /\ issued hw' = issued hw ++ new
    /\ forall n, 34816 <= n < 262144 -> removed new (Stage2Entry vmid (4096 * n) 3) = false.
Proof.
  intros Hv. eexists _, _. split; [by apply breakdown_run|]. split; [reflexivity|].
  intros n Hn. cbn [fmap list_fmap removed existsb removes].
  rewrite range_operand_ipa by lia.
  assert (get_masked_value (range_operand 1 0) TLBI_RANGE_OP.NUM = 16) as -> by (by vm_compute).
  assert (get_masked_value (range_operand 1 0) TLBI_RANGE_OP.SCALE = 2) as -> by (by vm_compute).
  change (2 ^ (5 * 2 + 1)) with 2048. rewrite (proj2 (Z.ltb_ge (4096 * n) _)) by lia.
  by rewrite andb_false_r.
Qed.

(** ** Page by page *)
Lemma iter_loop level size k g hw :
  0 < size -> 0 <= g -> g + size * Z.of_nat (S k) < Word.modulus ->
  loopN (iter_step level size) (2 + k) (mkPageIter g (g + size * Z.of_nat k)) hw
  = (Ok (inr tt), mkTlbHw (VTTBR_EL2 hw) (issued hw ++
      ((fun i => (vmid_of hw, IPAS2E1IS (page_operand level (g + size * i)))) <$> seqZ 0 (Z.of_nat (S k))))).
Proof.
  intros Hs. revert g hw. induction k as [|k IH]; intros g hw Hg Hb.
  all: assert (forall l, g <= l -> iter_step level size (mkPageIter g l) hw
    = (Ok (inl (mkPageIter (g + size) l)),
       mkTlbHw (VTTBR_EL2 hw) (issued hw ++ [(vmid_of hw, IPAS2E1IS (page_operand level g))]))) as Hstep
    by (intros l Hl; unfold iter_step, next; cbn [current Vmsa.last];
        rewrite (proj2 (Z.leb_le _ _)) by done; by rewrite Word.add_small by lia).
  - change (2 + 0)%nat with 2%nat. cbn [loopN]. rewrite (bind_ok _ _ _ _ _ (Hstep (g + size * Z.of_nat 0) ltac:(lia))).
    cbv iota beta.
    assert (iter_step level size (mkPageIter (g + size) (g + size * Z.of_nat 0))
      (mkTlbHw (VTTBR_EL2 hw) (issued hw ++ [(vmid_of hw, IPAS2E1IS (page_operand level g))]))
      = (Ok (inr tt), mkTlbHw (VTTBR_EL2 hw) (issued hw ++ [(vmid_of hw, IPAS2E1IS (page_operand level g))]))) as He.
    { unfold iter_step, next. cbn [current Vmsa.last]. by rewrite (proj2 (Z.leb_gt _ _)) by lia. }
    rewrite (bind_ok _ _ _ _ _ He). cbn [Z.of_nat]. change (seqZ 0 (Z.of_nat 1)) with [0].
    cbn [fmap list_fmap]. by rewrite Z.mul_0_r, Z.add_0_r.
  - change (2 + S k)%nat with (S (2 + k)). cbn [loopN].
    rewrite (bind_ok _ _ _ _ _ (Hstep (g + size * Z.of_nat (S k)) ltac:(lia))). cbv iota beta.
    replace (g + size * Z.of_nat (S k)) with (g + size + size * Z.of_nat k) by lia.
    rewrite IH by lia. cbn [VTTBR_EL2 issued]. rewrite <- app_assoc.
    do 3 f_equal. rewrite (seqZ_cons 0 (Z.of_nat (S (S k)))) by lia. cbn [fmap list_fmap app].
    rewrite Z.mul_0_r, Z.add_0_r. f_equal.
    replace (Z.pred (Z.of_nat (S (S k)))) with (Z.of_nat (S k)) by lia.
    change (Z.succ 0) with (0 + 1). rewrite <- (fmap_add_seqZ 1 0), <- list_fmap_compose.
    apply list_fmap_ext. intros i x _. cbn. do 3 f_equal. lia.
Qed.

(** A block of [level] in entries of the next level *)
Lemma iter_block level guest vmid hw :
  0 <= level <= 2 -> 0 <= guest -> guest mod 2 ^ level_shift level = 0 -> guest < 2 ^ 48 ->
  0 <= vmid < 2 ^ 16 ->
  let size := 2 ^ level_shift (level + 1) in
  (guest_iter ← lift (range_with_size size guest (2 ^ level_shift level));
   tlbi_iter (level + 1) size guest_iter vmid) hw
  = (Ok tt, after vmid ((fun i => IPAS2E1IS (page_operand (level + 1) (guest + size * i))) <$> seqZ 0 512) hw).
Proof.
  intros Hl Hg Hm Hb Hv size.
  assert (0 < size) as Hs by (apply Z.pow_pos_nonneg; unfold level_shift; lia).
  assert (size <= 2 ^ 30) as Hs' by (apply Z.pow_le_mono_r; unfold level_shift; lia).
  assert (2 ^ level_shift level = 512 * size) as Hblk.
  { unfold size. change 512 with (2 ^ 9). rewrite <- Z.pow_add_r by (unfold level_shift; lia).
    f_equal. unfold level_shift. lia. }
  assert (guest mod size = 0) as Hms.
  { rewrite Hblk in Hm. apply Z.mod_divide in Hm as [q ->]; [|lia]. apply Z.mod_divide; [lia|].
    exists (q * 512). lia. }
  assert (range_with_size (E := Error) size guest (2 ^ level_shift level)
    = Ok (mkPageIter guest (guest + size * Z.of_nat 511))) as ->.
  { unfold range_with_size, including_address, size. rewrite Hblk. fold size.
    rewrite Word.add_small, Word.sub_small by (unfold Word.modulus; lia). unfold size.
    rewrite !align_down_pow2 by (unfold Word.in_range, Word.modulus, level_shift in *; fold size; lia).
    fold size. rewrite Hms. replace (guest + 512 * size - 1) with (guest + size * 511 + (size - 1)) by lia.
    assert ((guest + size * 511 + (size - 1)) mod size = size - 1) as ->.
    { apply Z.mod_divide in Hms as [q Hq]; [|lia].
      replace (guest + size * 511 + (size - 1)) with (size - 1 + (q + 511) * size) by lia.
      rewrite Z.mod_add by lia. apply Z.mod_small. lia. }
    unfold range. rewrite (proj2 (Z.leb_le _ _)) by lia. repeat f_equal; lia. }
  mstep. unfold tlbi_iter, write_vmid. mstep.
  erewrite bind_ok.
  2: { eapply (loop_or_hang_done _ _ (2 + 511)); [unfold TLBI_BOUND; lia|].
       apply iter_loop; [done|done|unfold Word.modulus; lia]. }
  unfold after, modify. cbn [issued VTTBR_EL2]. rewrite vmid_written by done.
  rewrite <- list_fmap_compose. done.
Qed.

Lemma block_page level guest i :
  0 <= level <= 2 -> 0 <= guest < 2 ^ 48 -> guest mod 2 ^ level_shift level = 0 -> 0 <= i < 512 ->
  0 <= guest + 2 ^ level_shift (level + 1) * i < 2 ^ 48
  /\ (guest + 2 ^ level_shift (level + 1) * i) mod 4096 = 0.
Proof.
  intros Hl Hg Hm Hi. assert (level = 0 \/ level = 1 \/ level = 2) as Hc by lia.
  destruct Hc as [->|[->| ->]].
  - change (2 ^ level_shift 0) with (2 ^ 39) in *. change (2 ^ level_shift (0 + 1)) with (2 ^ 30).
    Z.div_mod_to_equations. lia.
  - change (2 ^ level_shift 1) with (2 ^ 30) in *. change (2 ^ level_shift (1 + 1)) with (2 ^ 21).
    Z.div_mod_to_equations. lia.
  - change (2 ^ level_shift 2) with (2 ^ 21) in *. change (2 ^ level_shift (2 + 1)) with (2 ^ 12).
    Z.div_mod_to_equations. lia.
Qed.

(** The operation the code keeps for hardware without range invalidations removes
    every entry of the next level in the block. *)
Theorem range_v2_invalidates level guest vmid hw :
  0 <= level <= 2 -> 0 <= guest < 2 ^ 48 -> guest mod 2 ^ level_shift level = 0 -> 0 <= vmid < 2 ^ 16 ->
  exists hw' new, tlbi_by_vmid_ipa_range_v2 level guest vmid hw = (Ok tt, hw')
    /\ issued hw' = issued hw ++ new
    /\ forall i, 0 <= i < 512 ->
         removed new (Stage2Entry vmid (guest + 2 ^ level_shift (level + 1) * i) (level + 1)) = true.
Proof.
  intros Hl Hg Hm Hv. pose proof (iter_block level guest vmid hw Hl ltac:(lia) Hm ltac:(lia) Hv) as E.
  cbv zeta in E. set (is1 := (fun i => IPAS2E1IS _) <$> seqZ 0 512) in E.
  exists (after vmid [VMALLE1IS] (after vmid is1 hw)), (((vmid,.) <$> is1) ++ [(vmid, VMALLE1IS)]).
  split; [|split].
  - unfold tlbi_by_vmid_ipa_range_v2.
    assert (level = 0 \/ level = 1 \/ level = 2) as Hc by lia.
    erewrite bind_ok; [by apply vmalle1is_run|]. rewrite (mapping_size_pow2 level) by lia.
    destruct Hc as [->|[->| ->]]; exact E.
  - cbn [after issued]. by rewrite <- app_assoc.
  - intros i Hi. apply existsb_exists.
    exists (vmid, IPAS2E1IS (page_operand (level + 1) (guest + 2 ^ level_shift (level + 1) * i))). split.
    + apply list_elem_of_In, elem_of_app. left. apply list_elem_of_fmap. eexists. split; [reflexivity|].
      apply list_elem_of_fmap. exists i. split; [reflexivity|]. apply elem_of_seqZ. lia.
    + destruct (block_page level guest i Hl Hg Hm Hi) as [H1 H2]. cbn [removes].
      rewrite page_operand_ipa, page_operand_hint by (done || lia). rewrite !Z.eqb_refl, orb_true_r, andb_true_r.
      unfold covers. rewrite Z.leb_refl. apply Z.ltb_lt.
      assert (0 < 2 ^ level_shift (level + 1)) by (apply Z.pow_pos_nonneg; unfold level_shift; lia). lia.
Qed.

(** ** Witness *)
Lemma destroyed_page_not_cached_witness :
  let s := after_set sample_realm sample_s2 0 3 0x80003000
             (data_s2tte 0x80004000 invalid_ripas.EMPTY false) NONE sample_tables in
  exists pa top s' op hw' new,
    data_destroy sample_realm 0 (fun _ => mret tt) s = (Ok (pa, top), s') /\
    tlbi_log s' = tlbi_log s ++ [op] /\
    invalidate op (mkTlbHw 0 []) = (Ok tt, hw') /\ issued hw' = new /\
    removed new (Stage2Entry 5 0 3) = true /\ removed new (Stage2Entry 6 0 3) = false.
Proof.
  intros s.
  assert (reaches sample_realm s sample_s2 0 3 [0x80001000; 0x80002000] 0x80003000) as Hr
    by (apply (reaches_after_set sample_realm sample_tables sample_s2), sample_reaches_l3).
  destruct (destroyed_page_not_cached sample_realm s sample_s2 0 _ _ (fun _ => mret tt) (mkTlbHw 0 []) Hr)
    as (pa & top & s' & op & hw' & new & E & Hop & Ei & Hn & _ & H1 & _ & H2);
    [lia|reflexivity|by vm_compute|vm_compute; reflexivity|].
  exists pa, top, s', op, hw', new. split; [exact E|]. split; [exact Hop|]. split; [exact Ei|].
  split; [exact Hn|]. split; [exact H1|]. by apply H2.
Defined.
